(* ===== verification/_CoqProject ===== *)
-Q . S2P
Prelude.v
PyStr.v
Regex.v
PyVal.v
Frame.v
PyTime.v
Sha256.v
PyJson.v
JsonParse.v
PyUuid.v
PyPath.v
RetryCircuit.v
OracleGate.v
Graph.v
Envelope.v
Execution.v
Journal.v
Sessions.v
Checkpoints.v
Directives.v
Rollbacks.v
Autonomy.v
Chain.v
Canonical.v
ChangeDrift.v
DriftLaws.v
Assumptions.v
AssumptionLaws.v
TaskSpec.v
PredicateLedger.v
EvidenceLaws.v
UpgradeIdentity.v
PhaseAdapters.v
UpgradeEngine.v
EngineLaws.v
EngineResume.v
Validation.v
Lifecycle.v
Commit.v
Transitions.v
SqliteStore.v
SqliteLaws.v
BarrierSession.v
ControlStore.v
ControlLaws.v
ControlHistory.v
ControlRecovery.v
EffectRuns.v
RollbackControl.v
RollbackLaws.v
ControlSamples.v
SessionChain.v
DurableContract.v
Discussions.v
BatchedDiscussion.v
Decisions.v
FastReceipts.v
ReceiptLaws.v
ReceiptWorker.v
ReceiptWorkerLaws.v
