(* ===== verification/Prelude.v ===== *)
(** * Agent Workflow Coordinator: verification library

    The coordinator keeps the work of several agents in one durable task
    ledger.  A task is a metadata dictionary; a transition checks and mutates
    it, and a fenced commit validates the whole task list, increments the
    revision of the task and stores the result, in a Git working tree or in a
    SQLite database.  An upgrade of an installed coordinator runs eight phases
    under a journal, while a control store holds the barrier that keeps writers
    out and records the effects on the ledger's authority.  This library models
    that core of [src/tools/] and proves what makes it correct.

    ** Foundations
    - [Prelude]: exceptions, the result and state monads and their inversion
      lemmas, list lemmas and tactics.  [res] is a Python computation that
      returns or raises; [st S A] one that also mutates an [S], and keeps the
      mutations made before it raises, as Python does.
    - [PyVal], [PyStr], [PyTime], [PyJson], [JsonParse], [Sha256], [Regex],
      [PyUuid], [PyPath]: what the source uses of the language and its standard
      library - values and dictionaries in insertion order, [str], [datetime],
      [json], [hashlib], [re.fullmatch], [uuid] and [posixpath] - each
      executable, with its own laws (the JSON and time round trips, the language
      a pattern accepts, paths in normal form).
    - [Canonical]: canonical JSON in UTF-8 and the digests taken of it; [Chain]:
      histories whose records name the digest of the one before.
    - [Frame]: which fields of the metadata a computation leaves alone.

    ** Components: the ledger
    - [RetryCircuit] ([retry_circuit.py]): failed attempts, the hold at the
      window, recovery, launch slots.
    - [OracleGate] ([oracle_lifecycle.py], [oracle_lifecycle_model.py]): the
      interaction gates; [apply_event] refines the ordering model.
    - [Graph] ([hierarchy.py], the graph checks of [status_renderer.py] and of
      [handoffctl.py]): parents, dependencies and supersession.
    - [Envelope] ([execution_envelope.py]): validation of the execution envelope,
      its binding and replacement, and the admission of a command.
    - [Execution] ([execution_lifecycle.py], [execution_receipt.py],
      [execution_abandonment.py], [legacy_binding_repair.py]): the reservation
      a bound command runs under, from start to result or abandonment.
    - [Journal], and on it [Sessions] ([session_records.py]), [Checkpoints]
      ([checkpoint_records.py]), [Directives] ([directive_records.py]) and
      [Rollbacks] ([rollback_records.py]): bounded JSON-lines journals.
    - [Autonomy] ([autonomy_limits.py]): the budget ledger and its hold.
    - [ChangeDrift] ([change_drift.py]) and [Assumptions]
      ([assumption_revalidation.py]): what changed since the baseline of a task
      and what it relied on, as linked histories in the task; the theorems are
      in [DriftLaws] and [AssumptionLaws].
    - [TaskSpec] ([task_spec.py]) and [PredicateLedger] ([predicate_ledger.py],
      [predicate_ledger_repair.py]): specifications of a task and the ledger of
      the evidence for their predicates; the theorems are in [EvidenceLaws].
    - [Validation], [Lifecycle], [Commit] ([handoffctl.py]): the validation of a
      task, every transition, their dispatcher and the fenced commit
      [_mutate_fenced] ([Lifecycle.mutate]); [Commit] holds its theorems.
      [Transitions] composes them with the drift, assumption and evidence
      transitions, which [Lifecycle] only knows by interface.
    - [SqliteStore] ([sqlite_storage.py]): the tables with their constraints and
      the operations that write them; [SqliteLaws] holds the theorems.
    - [FastReceipts] ([fast_receipts.py]) and [ReceiptWorker]
      ([fast_receipt_worker.py]): the durable queue of intents and publication
      jobs, and the worker that executes, verifies, recovers and publishes them;
      the theorems are in [ReceiptLaws] and [ReceiptWorkerLaws].

    ** Components: the upgrade
    - [UpgradeIdentity] ([upgrade_identity.py], [upgrade_admission.py]): the
      envelope and the barrier session that name one upgrade operation.
    - [PhaseAdapters] ([authority_neutral_backup.py] and its siblings for
      staging, validation, commit and rollback, [authority_mutation.py]): the
      adapters that bind each phase to that identity, and effects used once.
    - [UpgradeEngine] ([upgrade_engine.py]): plan, apply, rollback, inspect and
      load, as a history of journal writes and calls; [EngineLaws] has what all
      histories share, [EngineResume] that an interrupted upgrade goes on.
    - [BarrierSession] and [ControlStore] ([rollback_control_store.py]): barrier
      sessions, their compare-and-swap, authority effects, recovery and
      reconciliation, over connections whose commits may fail, be lost or be
      uncertain; a world keeps every durable state.  [ControlLaws] proves that
      these follow from each other by legal steps, [ControlHistory] and
      [ControlRecovery] what follows from it, [ControlSamples] has concrete histories.
    - [EffectRuns]: the durable effects of [PhaseAdapters] over that store.
    - [RollbackControl] (the first contract of the same source and the adapter
      the engine uses): rollback barriers; the theorems are in [RollbackLaws].

    - [SessionChain] ([durable_session_chain.py]) and [DurableContract]
      ([durable_session_contract.py]): the hash chain of an upgrade session, the
      validators and envelopes of its journal and of recovery, and the store of
      journal records with its safe mode.

    ** Components: discussions
    - [Discussions] ([discussion_session.py], [discussion_session_model.py]) and
      [BatchedDiscussion] ([batched_discussion.py]): sessions and packets whose
      events consume revisions; a session refines the bounded model.
    - [Decisions] ([decision_routing.py], [decision_batch_policy.py]): which
      decisions need the user interface, and the batches they are presented in.

    A definition has the name of the Python function it translates and takes
    the state the function mutates as the state of its monad; the guards come
    in the order of the code, because the first one that fails decides which
    exception is raised.

    ** Interfaces
    What a component asks of another, or of code outside the model, is a type
    class, an argument of its definitions:
    - [Execution.Host]: the clock of a transition, [/proc], the role files;
    - [Validation.Checks]: the checks that look at files, and the histories of
      a task; [Lifecycle.Services]: the session store, the envelope file, and
      the drift, assumption and evidence transitions, with the law
      [Commit.ServicesLaws] that those leave identity and revision alone.
      [Transitions] gives both with the modelled components, over
      [ChangeDrift.Worktrees], [Assumptions.Observations] and
      [TaskSpec.Artifacts] - what Git and the files say - and proves the law;
    - [ReceiptWorker.Core]: Git and the coordinator's commit, as computations on
      a repository of any type;
    - [PhaseAdapters.Artifacts] and [UpgradeEngine.Backend]: the effects of an
      upgrade as computations on a world of any type;
    - [PhaseAdapters.EffectJournal]: the journal of a durable effect, which
      [EffectRuns.store_journal] implements with the control store.
    Each has a concrete instance, at which the witnesses apply the theorems.

    ** Theorems
    - The ledger ([Commit], [SqliteLaws]): a commit implements an atomic update of
      a versioned store, on both backends; a revision is consumed by one writer;
      every stored list is well typed and consistent; the audit trail has one
      event per revision.  These quantify over sequences of transitions in
      which the environment may change between any two.  A transaction of the
      SQLite store is undone when it raises before its commit; the check of the
      sidecars that follows the commit may still raise, with the effects stored.
    - Completion ([Transitions], [EvidenceLaws], [DriftLaws], [AssumptionLaws]):
      a task is done only with its changes explained, its assumptions fresh and
      passing evidence for each predicate; commits keep those histories valid,
      and the digest of the last record pins a history up to a collision.
    - Fences ([Execution], [Envelope], [RetryCircuit], [Autonomy], [SqliteLaws]):
      a launch is reserved once and its reservation ends only with evidence,
      bounds only narrow, budgets and retries are never exceeded.
    - Receipts: an intent moves only forward, is executed at most once under any
      interleaving and interruption, is settled by every run, and a commit is
      accepted only for exactly what it asks; a publication is what was observed
      of the remote reference, under a lease that others respect.
    - Upgrades ([EngineLaws], [EngineResume], [PhaseAdapters]): over operations
      interrupted anywhere a phase executes at most once and in order, a
      completed upgrade has its evidence, and an interrupted one goes on.
    - Control store ([ControlHistory], [ControlRecovery], [EffectRuns],
      [RollbackLaws]): durable states refine the abstract steps of a fenced
      session with two journals, an authority effect runs at most once, an
      interrupted change of a settled store recovers, and a barrier is released
      only after its authority was reread.
    - Discussions and the session contract: accepted events form one session in
      order and are the steps of the model, coupled points wait for their
      coupling, a plan holds each decision where it belongs; a chain is pinned by
      its last digest, envelopes round trip, the journal store only grows and its
      safe mode is final.
    - Gates, graphs, journals: order of the stages as an invariant and a
      refinement, soundness of the graph checks, round trips of the journals.
    - Errors the code makes, stated as the theorems they are: an expired hold
      that can never be disposed of, an envelope replacement that can never be
      committed, a checkpoint that cannot be rolled back, a predicate whose
      dependency can never be accepted, a repair that breaks the other rows of
      its ledger, a rollback whose journal cannot be loaded again, control store
      changes that recovery cannot settle, and a recovery decision that refuses
      to follow the transaction it is made from.

    ** Bounds and fuel
    Integers are unbounded, as in Python, except where SQLite binds them:
    [Sqlite.int64] raises [OverflowError] beyond 64 bits.  The walks of [Graph]
    carry fuel, given from the length of the task list; the theorems show the
    walks return with it.  The JSON parser takes the length of its text.  Every
    other definition is structurally recursive.  Instants are microseconds
    since 0001-01-01 ([PyTime]) or the milliseconds SQLite writes.

    ** Not modelled
    Floating-point numbers and code points above 255: no modelled field holds
    one.  Files, descriptors, locks, subprocesses and sockets: what the code
    learns from them is an input.  Of issue series only the storage is modelled
    ([SqliteStore]), not the manifests and their publication; role registries,
    locks and backups are files and descriptors.  Argument parsing, rendering of Markdown views
    and the release tooling have no state of their own.  Of the upgrade engine,
    the observation of installed capabilities, the authorization seam and the
    descriptor work of a journal write; of the control store, opening and
    retaining the database, its WAL and the observation of backups; the
    production effects and authority adapters behind both: almost every line
    there is operating-system evidence.  *)
From Stdlib Require Export ZArith Lia String Ascii.
From stdpp Require Export base list sets strings pretty relations.
From Stdlib Require Import Sorted.
#[export] Set Default Goal Selector "!".

(** ** Exceptions

    The Python exceptions the modelled code raises or lets escape.  The string
    is the exception's message.  [GateError] and [PolicyError] are the classes
    of the same names; [GateError] derives from [ValueError].
    [ReceiptConflictError] and [SubprocessTimeoutError] derive from
    [RuntimeError]; [IntegrityError] is the
    driver's [sqlite3.IntegrityError].  [ClassError] is an exception of a
    class of the source that nothing else distinguishes, by its name. *)
Inductive exn : Type :=
  | RuntimeError (msg : string)
  | ValueError (msg : string)
  | GateError (msg : string)
  | PolicyError (msg : string)
  | IdempotentMutationError (msg : string)
  | TypeError (msg : string)
  | KeyError (key : string)
  | IndexError (msg : string)
  | AttributeError (name : string)
  | OverflowError (msg : string)
  | ReceiptConflictError (msg : string)
  | SubprocessTimeoutError (msg : string)
  | IntegrityError (msg : string)
  | OSError (msg : string)
  | ClassError (cls msg : string).

#[export] Instance exn_eq_dec : EqDecision exn.
Proof. solve_decision. Defined.

(** The classes of [ClassError] that derive from [ValueError]; the others
    derive from [RuntimeError]. *)
Definition VALUE_ERRORS : list string :=
  ["UpgradeIdentityError"; "AdmissionError"; "SessionChainError"; "DurableSessionContractError"; "SessionError"; "BatchError";
   "DecisionRoutingError"; "DecisionBatchError"; "IssueSeriesValidationError"; "IssueSeriesPlanError";
   "IssueSeriesPublicationError"].
(** [except ValueError]: catches [ValueError] and its subclasses. *)
Definition is_ValueError (e : exn) : bool :=
  match e with
  | ValueError _ | GateError _ => true
  | ClassError cls _ => bool_decide (cls ∈ VALUE_ERRORS)
  | _ => false
  end.

(** [except RuntimeError]: [PolicyError], [IdempotentMutationError],
    [ReceiptConflictError] and [SubprocessTimeoutError] derive from
    [RuntimeError]. *)
Definition is_RuntimeError (e : exn) : bool :=
  match e with
  | RuntimeError _ | PolicyError _ | IdempotentMutationError _ | ReceiptConflictError _
  | SubprocessTimeoutError _ => true
  | ClassError cls _ => bool_decide (cls ∉ VALUE_ERRORS)
  | _ => false
  end.

(** [str(error)]: a [KeyError] prints the repr of its key. *)
Definition exn_msg (e : exn) : string :=
  match e with
  | RuntimeError m | ValueError m | GateError m | PolicyError m
  | IdempotentMutationError m | TypeError m | AttributeError m
  | OverflowError m | IndexError m | ReceiptConflictError m
  | SubprocessTimeoutError m | IntegrityError m | OSError m | ClassError _ m => m
  | KeyError k => "'" +:+ k +:+ "'"
  end.

(** ** Results: a value or a raised exception *)
Inductive res (A : Type) : Type :=
  | Ok (a : A)
  | Raise (e : exn).
Arguments Ok {A} a.
Arguments Raise {A} e.
#[export] Instance res_eq_dec {A} `{!EqDecision A} : EqDecision (res A).
Proof. solve_decision. Defined.

Definition rbind {A B} (m : res A) (f : A -> res B) : res B :=
  match m with Ok a => f a | Raise e => Raise e end.

(** ** Stateful computations

    Python mutates its dictionaries in place and an exception does not undo
    the mutations made before it, so a computation returns the state in both
    cases. *)
Definition st (S A : Type) : Type := S -> S * res A.

Definition sret {S A} (a : A) : st S A := fun s => (s, Ok a).
Definition sraise {S A} (e : exn) : st S A := fun s => (s, Raise e).
Definition sbind {S A B} (m : st S A) (f : A -> st S B) : st S B :=
  fun s => match m s with
           | (s', Ok a) => f a s'
           | (s', Raise e) => (s', Raise e)
           end.
Definition sget {S} : st S S := fun s => (s, Ok s).
Definition sput {S} (s' : S) : st S unit := fun _ => (s', Ok tt).
Definition smodify {S} (f : S -> S) : st S unit := fun s => (f s, Ok tt).
(** A computation that only reads the state. *)
Definition slift {S A} (f : S -> res A) : st S A := fun s => (s, f s).

Declare Scope py_scope.
Delimit Scope py_scope with py.
Notation "'let*' x ':=' c 'in' k" := (rbind c (fun x => k))
  (at level 10, x binder, c at level 100, k at level 200) : py_scope.
Notation "'check' c ';;' k" := (rbind c (fun _ : unit => k))
  (at level 10, c at level 99, k at level 200) : py_scope.
Notation "'do*' x ':=' c 'in' k" := (sbind c (fun x => k))
  (at level 10, x binder, c at level 100, k at level 200) : py_scope.
Notation "'do' c ';;' k" := (sbind c (fun _ => k))
  (at level 10, c at level 99, k at level 200) : py_scope.
#[export] Set Warnings "-notation-overridden".
#[global] Open Scope py_scope.
#[global] Open Scope string_scope.
#[global] Open Scope list_scope.
#[global] Open Scope Z_scope.

(** [if c: raise e] *)
Definition raise_if (c : bool) (e : exn) : res unit := if c then Raise e else Ok tt.
(** The same with a condition whose evaluation may itself raise. *)
Definition raise_when (c : res bool) (e : exn) : res unit :=
  let* b := c in raise_if b e.

(** Conditions are [res bool]: evaluating an operand may raise.  A plain
    boolean is a condition that does not. *)
Definition cond (b : bool) : res bool := Ok b.
Coercion cond : bool >-> res.

(** Elaborate list elements against the expected element type, so that the
    coercion applies inside a list of conditions. *)
#[global] Arguments cons {A}%_type_scope & a l%_list_scope.

(** [c1 or c2 or ...] and [c1 and c2 and ...], left to right with short
    circuit: an operand after the deciding one is not evaluated. *)
Fixpoint py_or (cs : list (res bool)) : res bool :=
  match cs with
  | [] => Ok false
  | c :: cs' => let* b := c in if b then Ok true else py_or cs'
  end.
Fixpoint py_and (cs : list (res bool)) : res bool :=
  match cs with
  | [] => Ok true
  | c :: cs' => let* b := c in if b then py_and cs' else Ok false
  end.
Definition py_not (c : res bool) : res bool := let* b := c in Ok (negb b).

(** [any(f(x) for x in l)] / [all(f(x) for x in l)] *)
Definition py_any {A} (f : A -> res bool) (l : list A) : res bool := py_or (map f l).
Definition py_all {A} (f : A -> res bool) (l : list A) : res bool := py_and (map f l).

(** List traversals whose body may raise: [[f(x) for x in l]],
    [[x for x in l if f(x)]] and a [for] loop with an accumulator. *)
Fixpoint mapr {A B} (f : A -> res B) (l : list A) : res (list B) :=
  match l with
  | [] => Ok []
  | x :: l' => let* y := f x in let* ys := mapr f l' in Ok (y :: ys)
  end.
Fixpoint filterr {A} (f : A -> res bool) (l : list A) : res (list A) :=
  match l with
  | [] => Ok []
  | x :: l' => let* b := f x in let* ys := filterr f l' in
               Ok (if b : bool then x :: ys else ys)
  end.
Fixpoint foldM {A B} (f : B -> A -> res B) (acc : B) (l : list A) : res B :=
  match l with
  | [] => Ok acc
  | x :: l' => let* acc' := f acc x in foldM f acc' l'
  end.

(** [sorted(l, key=...)] and [ORDER BY]: stable *)
Fixpoint insert_by {A} (before : A -> A -> bool) (x : A) (l : list A) : list A :=
  match l with [] => [x] | y :: l' => if before y x then y :: insert_by before x l' else x :: l end.
Definition sort_by {A} (before : A -> A -> bool) (l : list A) : list A := foldr (insert_by before) [] l.
(** [l[-n:]] *)
Definition last_n {A} (n : nat) (l : list A) : list A := drop (length l - n) l.

(** ** Automation *)
Create HintDb coord discriminated.

Lemma rbind_Ok_inv {A B} (m : res A) (f : A -> res B) b :
  rbind m f = Ok b -> exists a, m = Ok a /\ f a = Ok b.
Proof. destruct m; simpl; [eauto | discriminate]. Qed.

Lemma Ok_inj {A} (a b : A) : Ok a = Ok b -> a = b.
Proof. congruence. Qed.

Lemma rbind_Raise_inv {A B} (m : res A) (f : A -> res B) e :
  rbind m f = Raise e -> m = Raise e \/ exists a, m = Ok a /\ f a = Raise e.
Proof. destruct m; simpl; [eauto | intros [= ->]; auto]. Qed.

Lemma sbind_Ok_inv {S A B} (m : st S A) (f : A -> st S B) s s' b :
  sbind m f s = (s', Ok b) ->
  exists a s1, m s = (s1, Ok a) /\ f a s1 = (s', Ok b).
Proof.
  unfold sbind. destruct (m s) as [s1 [a|e]]; [eauto | discriminate].
Qed.

Lemma slift_Ok_inv {S A} (f : S -> res A) s s' a :
  slift f s = (s', Ok a) -> s' = s /\ f s = Ok a.
Proof. unfold slift. intros [=]; auto. Qed.

Lemma smodify_Ok_inv {S} (f : S -> S) s s' u :
  smodify f s = (s', Ok u) -> s' = f s.
Proof. unfold smodify. congruence. Qed.

Lemma sret_Ok_inv {S A} (a b : A) (s s' : S) :
  sret a s = (s', Ok b) -> s' = s /\ b = a.
Proof. unfold sret. intros [=]; auto. Qed.

Lemma raise_if_Ok c e u : raise_if c e = Ok u -> c = false.
Proof. destruct c; [discriminate | done]. Qed.

Lemma raise_when_Ok c e u : raise_when c e = Ok u -> c = Ok false.
Proof.
  unfold raise_when. intros [b [-> H]]%rbind_Ok_inv.
  by apply raise_if_Ok in H as ->.
Qed.

Lemma py_or_false cs : py_or cs = Ok false <-> Forall (fun c => c = Ok false) cs.
Proof.
  induction cs as [|c cs IH]; simpl; [by split|].
  rewrite Forall_cons, <- IH. destruct c as [[]|]; simpl; naive_solver.
Qed.

Lemma py_and_true cs : py_and cs = Ok true <-> Forall (fun c => c = Ok true) cs.
Proof.
  induction cs as [|c cs IH]; simpl; [by split|].
  rewrite Forall_cons, <- IH. destruct c as [[]|]; simpl; naive_solver.
Qed.

Lemma py_any_false {A} (f : A -> res bool) l :
  py_any f l = Ok false <-> Forall (fun x => f x = Ok false) l.
Proof. unfold py_any. by rewrite py_or_false, Forall_map. Qed.

Lemma py_all_true {A} (f : A -> res bool) l :
  py_all f l = Ok true <-> Forall (fun x => f x = Ok true) l.
Proof. unfold py_all. by rewrite py_and_true, Forall_map. Qed.

(** One step of symbolic execution backwards from success. *)
Ltac inv_step :=
  match goal with
  | H : rbind _ _ = Ok _ |- _ =>
      let a := fresh "r" in let E := fresh "E" in
      apply rbind_Ok_inv in H as [a [E H]]
  | H : sbind _ _ _ = (_, Ok _) |- _ =>
      let a := fresh "r" in let s := fresh "s" in let E := fresh "E" in
      apply sbind_Ok_inv in H as [a [s [E H]]]
  | H : slift _ _ = (_, Ok _) |- _ => apply slift_Ok_inv in H as [-> H]
  | H : smodify _ _ = (_, Ok _) |- _ => apply smodify_Ok_inv in H; subst
  | H : sret _ _ = (_, Ok _) |- _ => apply sret_Ok_inv in H as [-> ->]
  | H : raise_if _ _ = Ok _ |- _ => apply raise_if_Ok in H
  | H : raise_when _ _ = Ok _ |- _ => apply raise_when_Ok in H
  | H : py_or _ = Ok false |- _ => apply py_or_false in H
  | H : py_and _ = Ok true |- _ => apply py_and_true in H
  | H : Forall _ (_ :: _) |- _ => apply Forall_cons in H as [? H]
  | H : Forall _ [] |- _ => clear H
  | H : cond _ = Ok _ |- _ => unfold cond in H
  | H : Ok _ = Ok _ |- _ => injection H as H; try subst
  | H : Raise _ = Ok _ |- _ => discriminate H
  | H : Ok _ = Raise _ |- _ => discriminate H
  | H : (_, Raise _) = (_, Ok _) |- _ => discriminate H
  | H : (_, Ok _) = (_, Ok _) |- _ => injection H as H ?; try subst
  | H : negb _ = false |- _ => apply negb_false_iff in H
  | H : negb _ = true |- _ => apply negb_true_iff in H
  | H : (_ || _)%bool = false |- _ => apply orb_false_iff in H as [? ?]
  | H : (_ && _)%bool = true |- _ => apply andb_true_iff in H as [? ?]
  end.
Ltac inv_ok := repeat (inv_step; simpl in *).

(** Generic list facts. *)
Lemma last_n_length {A} n (l : list A) : (length (last_n n l) <= n)%nat.
Proof. unfold last_n. rewrite length_drop. lia. Qed.

Lemma last_n_small {A} n (l : list A) : (length l <= n)%nat -> last_n n l = l.
Proof. intros H. unfold last_n. by replace (length l - n)%nat with 0%nat by lia. Qed.

Lemma last_n_app_last {A} n (l : list A) x :
  (0 < n)%nat -> exists l', last_n n (l ++ [x]) = l' ++ [x].
Proof.
  intros Hn. unfold last_n. rewrite length_app. simpl.
  exists (drop (length l + 1 - n) l). rewrite drop_app_le; [done | lia].
Qed.

Lemma last_n_snoc {A} n (l : list A) x :
  (0 < n)%nat -> exists kept, last_n n (l ++ [x]) = kept ++ [x] /\ kept `suffix_of` l /\ (length kept < n)%nat.
Proof.
  intros Hn. unfold last_n. rewrite length_app. simpl.
  exists (drop (length l + 1 - n) l). rewrite drop_app_le by lia. split_and!; [done| |].
  - exists (take (length l + 1 - n) l). by rewrite take_drop.
  - rewrite length_drop. lia.
Qed.

Lemma mapr_length {A B} (f : A -> res B) l ys :
  mapr f l = Ok ys -> length ys = length l.
Proof. revert ys. induction l; simpl; intros; inv_ok; simpl; auto. Qed.

Lemma NoDup_map_filter {A B} (g : A -> B) (p : A -> bool) l : NoDup (map g l) -> NoDup (map g (List.filter p l)).
Proof.
  induction l as [|x l IH]; cbn; [done|]. intros [Hx Hl]%NoDup_cons. destruct (p x); [|by apply IH]. cbn.
  apply NoDup_cons. split; [|by apply IH]. intros (u & Hu & Hin)%list_elem_of_fmap. apply Hx. rewrite Hu.
  apply list_elem_of_fmap_2. by apply list_elem_of_In, filter_In in Hin as [Hin%list_elem_of_In _].
Qed.
Lemma insert_by_elem {A} (before : A -> A -> bool) x y l : x ∈ insert_by before y l <-> x = y \/ x ∈ l.
Proof.
  induction l as [|z l IH]; cbn; [by rewrite list_elem_of_singleton, elem_of_nil; naive_solver|].
  destruct (before z y); rewrite !elem_of_cons, ?IH; naive_solver.
Qed.
Lemma sort_by_elem {A} (before : A -> A -> bool) x l : x ∈ sort_by before l <-> x ∈ l.
Proof. induction l as [|y l IH]; cbn; [done|]. by rewrite insert_by_elem, IH, elem_of_cons. Qed.
Lemma insert_by_NoDup {A B} (before : A -> A -> bool) (g : A -> B) y l :
  NoDup (map g (y :: l)) -> NoDup (map g (insert_by before y l)).
Proof.
  cbn. induction l as [|z l IH]; cbn; [done|]. intros [Hy [Hz Hl]%NoDup_cons]%NoDup_cons.
  destruct (before z y); cbn.
  - apply NoDup_cons. split.
    + intros (u & Hu & Hin)%list_elem_of_fmap. apply insert_by_elem in Hin as [->|Hin].
      * apply Hy. rewrite Hu. by left.
      * apply Hz. rewrite Hu. by apply list_elem_of_fmap_2.
    + apply IH, NoDup_cons. split; [|done]. intros Hin. apply Hy. by right.
  - apply NoDup_cons. split; [done|]. by apply NoDup_cons.
Qed.
Lemma sort_by_NoDup {A B} (before : A -> A -> bool) (g : A -> B) l : NoDup (map g l) -> NoDup (map g (sort_by before l)).
Proof.
  induction l as [|y l IH]; cbn; [done|]. intros [Hy Hl]%NoDup_cons. apply insert_by_NoDup. cbn.
  apply NoDup_cons. split; [|by apply IH]. intros (u & Hu & Hin)%list_elem_of_fmap. apply Hy. rewrite Hu.
  apply list_elem_of_fmap_2. by apply sort_by_elem in Hin.
Qed.
(** Sorting distinct elements by a strict total order puts them in order. *)
Lemma sort_by_sorted {A} (before : A -> A -> bool) (l : list A) :
  (forall x y z, before x y = true -> before y z = true -> before x z = true) ->
  (forall x y, before x y = false -> x = y \/ before y x = true) ->
  NoDup l -> StronglySorted (fun x y => before x y = true) (sort_by before l).
Proof.
  intros Ht Hx. induction l as [|x l IH]; [constructor|]. intros [Hn Hl]%NoDup_cons. cbn.
  rewrite <- (sort_by_elem before) in Hn. specialize (IH Hl). fold (sort_by before l).
  induction (sort_by before l) as [|y ys IHy]; cbn; [by repeat constructor|].
  apply not_elem_of_cons in Hn as [Hxy Hn]. apply StronglySorted_inv in IH as [Hs Hf].
  destruct (before y x) eqn:E; constructor; auto using StronglySorted; rewrite list.Forall_forall in *.
  - by intros z [->|Hz]%insert_by_elem; auto.
  - destruct (Hx _ _ E) as [->|H]; [done|]. by intros z [->|Hz]%elem_of_cons; eauto.
Qed.
Lemma StronglySorted_map {A B} (R : B -> B -> Prop) (f : A -> B) l :
  StronglySorted (fun x y => R (f x) (f y)) l -> StronglySorted R (map f l).
Proof.
  induction 1 as [|x l _ IH H]; cbn; constructor; [done|]. rewrite list.Forall_forall in H.
  apply list.Forall_forall. intros y (z & -> & Hz)%list_elem_of_fmap. by apply (H z).
Qed.
Lemma filterr_elem {A} (f : A -> res bool) l ys x :
  filterr f l = Ok ys -> x ∈ ys <-> x ∈ l /\ f x = Ok true.
Proof.
  revert ys. induction l as [|y l IH]; simpl; intros ys H.
  { inv_ok. set_solver. }
  apply rbind_Ok_inv in H as [b [Eb H]].
  apply rbind_Ok_inv in H as [zs [Ez H]]. injection H as <-.
  specialize (IH _ Ez). rewrite elem_of_cons.
  destruct b; rewrite ?elem_of_cons, IH; intuition (subst; congruence || auto).
Qed.

(** ** Atomic computations

    A computation is atomic when an exception leaves the state as it was: the
    code checks first and writes once, at the end. *)
Definition atomic {S A} (m : st S A) : Prop := forall s s' e, m s = (s', Raise e) -> s' = s.
Definition never_raises {S A} (m : st S A) : Prop := forall s s' e, m s <> (s', Raise e).

Lemma atomic_slift {S A} (f : S -> res A) : atomic (slift f).
Proof. intros s s' e [= <- _]. done. Qed.
Lemma atomic_raise {S A} e : atomic (@sraise S A e).
Proof. intros s s' e' [= <- _]. done. Qed.
Lemma never_atomic {S A} (m : st S A) : never_raises m -> atomic m.
Proof. intros H s s' e E. by apply H in E. Qed.
Lemma never_sret {S A} (a : A) : never_raises (@sret S A a).
Proof. discriminate. Qed.
Lemma never_smodify {S} (f : S -> S) : never_raises (smodify f).
Proof. discriminate. Qed.
Lemma never_bind {S A B} (m : st S A) (k : A -> st S B) :
  never_raises m -> (forall a, never_raises (k a)) -> never_raises (sbind m k).
Proof.
  intros Hm Hk s s' e. unfold sbind. destruct (m s) as [s1 [a|e']] eqn:E; [apply Hk|].
  intros _. by apply Hm in E.
Qed.
Lemma atomic_bind_lift {S A B} (f : S -> res A) (k : A -> st S B) :
  (forall a, atomic (k a)) -> atomic (sbind (slift f) k).
Proof.
  intros Hk s s' e. unfold sbind, slift. destruct (f s) as [a|e']; [apply Hk|]. by intros [= <- _].
Qed.
Lemma atomic_if {S A} (b : bool) (m m' : st S A) :
  atomic m -> atomic m' -> atomic (if b then m else m').
Proof. by destruct b. Qed.
(** [k] may not raise after [m] has written. *)
Lemma atomic_bind_total {S A B} (m : st S A) (k : A -> st S B) :
  atomic m -> (forall a, never_raises (k a)) -> atomic (sbind m k).
Proof.
  intros Hm Hk s s' e. unfold sbind. destruct (m s) as [s1 [a|e']] eqn:E.
  - intros H. by apply Hk in H.
  - intros [= <- <-]. by apply (Hm s s1 e').
Qed.
#[export] Hint Resolve atomic_slift atomic_raise never_sret never_smodify never_bind : coord.

(** Walks a computation made of reads, checks and one final write. *)
Ltac atomic_step :=
  first [ apply atomic_bind_lift; intros ?
        | apply atomic_if
        | apply atomic_slift
        | apply atomic_raise
        | solve [apply never_atomic; auto 8 with coord]
        | progress (cbv beta zeta) ].
Ltac solve_atomic := repeat atomic_step.

(** Traversals whose body may raise. *)
Lemma foldM_elem {A B} (f : B -> A -> res B) l acc out x :
  foldM f acc l = Ok out -> x ∈ l -> exists acc' out', f acc' x = Ok out'.
Proof.
  revert acc. induction l as [|y l IH]; simpl; intros acc H Hx; [set_solver|].
  inv_step. apply elem_of_cons in Hx as [->|Hx]; eauto.
Qed.

Lemma filterr_total {A} (f : A -> res bool) l :
  (forall x, x ∈ l -> exists b, f x = Ok b) -> exists ys, filterr f l = Ok ys.
Proof.
  induction l as [|x l IH]; simpl; intros H; [eauto|].
  destruct (H x) as [b ->]; [set_solver|]. destruct IH as [ys ->]; [set_solver|]. simpl. eauto.
Qed.

Lemma mapr_total {A B} (f : A -> res B) l :
  (forall x, x ∈ l -> exists y, f x = Ok y) -> exists ys, mapr f l = Ok ys.
Proof.
  induction l as [|x l IH]; simpl; intros H; [eauto|].
  destruct (H x) as [b ->]; [set_solver|]. destruct IH as [ys ->]; [set_solver|]. simpl. eauto.
Qed.

Lemma mapr_elem {A B} (f : A -> res B) l ys x :
  mapr f l = Ok ys -> x ∈ l -> exists y, f x = Ok y /\ y ∈ ys.
Proof.
  revert ys. induction l as [|z l IH]; simpl; intros ys H Hx; [set_solver|].
  repeat inv_step. apply elem_of_cons in Hx as [->|Hx].
  - exists r. split; [done | set_solver].
  - destruct (IH _ E0 Hx) as [y [? ?]]. exists y. split; [done | set_solver].
Qed.

Lemma filterr_app {A} (f : A -> res bool) l l' ys ys' :
  filterr f l = Ok ys -> filterr f l' = Ok ys' -> filterr f (l ++ l') = Ok (ys ++ ys').
Proof.
  revert ys. induction l as [|x l IH]; simpl; intros ys H H'.
  { by injection H as <-. }
  repeat inv_step. rewrite E. simpl. rewrite (IH _ E0 H'). simpl. by destruct r.
Qed.

Lemma filterr_def {A} (f : A -> res bool) l ys x :
  filterr f l = Ok ys -> x ∈ l -> exists b, f x = Ok b.
Proof.
  revert ys. induction l as [|y l IH]; simpl; intros ys H Hx; [set_solver|].
  repeat inv_step. apply elem_of_cons in Hx as [->|Hx]; eauto.
Qed.

