(* ===== verification/PyStr.v ===== *)
(** * Python [str] operations

    A Python [str] over the code points 0..255 is a Rocq [string], one
    [ascii] per code point; on that range the operations below agree with
    CPython 3.12 (white space, case mapping, digits and [repr] included). *)
From S2P Require Import Prelude.

Module PyStr.

Definition ord (c : ascii) : Z := Z.of_N (N_of_ascii c).
Definition chr (z : Z) : ascii := ascii_of_N (Z.to_N z).
(** [len(s)] *)
Definition len (s : string) : Z := Z.of_nat (String.length s).
(** Truth value of a string. *)
Definition truthy (s : string) : bool := negb (String.eqb s "").

Definition in_range (lo hi : Z) (c : ascii) : bool := (lo <=? ord c) && (ord c <=? hi).
Definition is_digit (c : ascii) : bool := in_range 48 57 c.
Definition is_lower (c : ascii) : bool := in_range 97 122 c.
Definition is_upper (c : ascii) : bool := in_range 65 90 c.
(** [str.isspace] on code points 0..255. *)
Definition is_space (c : ascii) : bool :=
  in_range 9 13 c || in_range 28 32 c || (ord c =? 133) || (ord c =? 160).

Fixpoint all_chars (p : ascii -> bool) (s : string) : bool :=
  match s with "" => true | String c s' => p c && all_chars p s' end.
Fixpoint any_char (p : ascii -> bool) (s : string) : bool :=
  match s with "" => false | String c s' => p c || any_char p s' end.
Definition has_char (c : ascii) (s : string) : bool := any_char (Ascii.eqb c) s.

Fixpoint to_list (s : string) : list ascii :=
  match s with "" => [] | String c s' => c :: to_list s' end.
Fixpoint of_list (l : list ascii) : string :=
  match l with [] => "" | c :: l' => String c (of_list l') end.
Definition rev (s : string) : string := of_list (List.rev (to_list s)).

(** [s.strip()] *)
Fixpoint lstrip (s : string) : string :=
  match s with
  | "" => ""
  | String c s' => if is_space c then lstrip s' else s
  end.
Definition strip (s : string) : string := rev (lstrip (rev (lstrip s))).
(** [s.rstrip("/")] *)
Fixpoint lstrip_char (d : ascii) (s : string) : string :=
  match s with
  | "" => ""
  | String c s' => if Ascii.eqb c d then lstrip_char d s' else s
  end.
Definition rstrip_char (d : ascii) (s : string) : string := rev (lstrip_char d (rev s)).

Definition startswith (p s : string) : bool := String.prefix p s.
Definition endswith (p s : string) : bool := String.prefix (rev p) (rev s).

(** [sub in s] *)
Fixpoint contains (sub s : string) : bool :=
  String.prefix sub s || match s with "" => false | String _ s' => contains sub s' end.

(** [s.replace(c, new)] for a one-character [c] *)
Fixpoint replace_char (c : ascii) (new s : string) : string :=
  match s with
  | "" => ""
  | String d s' => (if Ascii.eqb c d then new else String d "") +:+ replace_char c new s'
  end.

(** [s.split(c)] for a one-character separator: never empty. *)
Fixpoint split (c : ascii) (s : string) : list string :=
  match s with
  | "" => [""]
  | String d s' =>
      if Ascii.eqb c d then "" :: split c s'
      else match split c s' with
           | w :: ws => String d w :: ws
           | [] => [String d ""]
           end
  end.

(** [s.split()]: maximal runs of non-space characters. *)
Fixpoint words_go (cur : string) (s : string) : list string :=
  match s with
  | "" => if truthy cur then [rev cur] else []
  | String c s' =>
      if is_space c then (if truthy cur then rev cur :: words_go "" s' else words_go "" s')
      else words_go (String c cur) s'
  end.
Definition words (s : string) : list string := words_go "" s.

(** [before, sep, after = s.partition(c)]; the flag says whether [c] occurs. *)
Fixpoint partition (c : ascii) (s : string) : string * bool * string :=
  match s with
  | "" => ("", false, "")
  | String d s' =>
      if Ascii.eqb c d then ("", true, s')
      else let '(a, b, r) := partition c s' in (String d a, b, r)
  end.

(** [sep.join(l)] *)
Definition join (sep : string) (l : list string) : string := String.concat sep l.

(** [s.lower()] on code points 0..255 *)
Definition lower_char (c : ascii) : ascii :=
  if is_upper c || (in_range 192 222 c && negb (ord c =? 215)) then chr (ord c + 32) else c.
Fixpoint lower (s : string) : string :=
  match s with "" => "" | String c s' => String (lower_char c) (lower s') end.

(** [str(z)] for an integer *)
Definition of_Z (z : Z) : string := pretty z.
(** [f"{z:0wd}"] *)
Fixpoint zeros (n : nat) : string := match n with O => "" | S n' => String "0" (zeros n') end.
Definition pad0 (w : Z) (z : Z) : string :=
  let digits := of_Z (Z.abs z) in
  let sign := if z <? 0 then "-" else "" in
  sign +:+ zeros (Z.to_nat (w - len sign - len digits)) +:+ digits.

(** Value of a string of ASCII digits. *)
Fixpoint digits_go (acc : Z) (s : string) : option Z :=
  match s with
  | "" => Some acc
  | String c s' => if is_digit c then digits_go (acc * 10 + (ord c - 48)) s' else None
  end.
Definition digits (s : string) : option Z :=
  match s with "" => None | _ => digits_go 0 s end.

(** [int(s)]: surrounding white space, an optional sign, digits with single
    underscores between them. *)
Fixpoint drop_underscores (prev_digit : bool) (s : string) : option string :=
  match s with
  | "" => if prev_digit then Some "" else None
  | String c s' =>
      if is_digit c then String c <$> drop_underscores true s'
      else if Ascii.eqb c "_" && prev_digit then drop_underscores false s'
      else None
  end.
Definition to_int (s : string) : option Z :=
  let body t := drop_underscores false t ≫= digits in
  match strip s with
  | String "-" t => Z.opp <$> body t
  | String "+" t => body t
  | t => body t
  end.

(** [sorted(l)] of strings: code-point order. *)
Fixpoint insert (s : string) (l : list string) : list string :=
  match l with
  | [] => [s]
  | t :: l' => if String.leb s t then s :: l else t :: insert s l'
  end.
Fixpoint sort (l : list string) : list string :=
  match l with [] => [] | s :: l' => insert s (sort l') end.
(** [set(l)] / [dict.fromkeys(l)]: the distinct elements, first occurrences. *)
Fixpoint mem (s : string) (l : list string) : bool :=
  match l with [] => false | t :: l' => String.eqb s t || mem s l' end.
Fixpoint dedup_go (seen l : list string) : list string :=
  match l with
  | [] => []
  | s :: l' => if mem s seen then dedup_go seen l' else s :: dedup_go (s :: seen) l'
  end.
Definition dedup (l : list string) : list string := dedup_go [] l.
(** [sorted(set(l))] *)
Definition sorted_set (l : list string) : list string := sort (dedup l).

(** [pathlib.PurePosixPath(s)]: its components without the root, [parts],
    [name] and [is_absolute()].  Empty and [.] components are dropped. *)
Definition components (s : string) : list string :=
  List.filter (fun p => negb (String.eqb p "") && negb (String.eqb p ".")) (split "/" s).
Definition is_absolute (s : string) : bool := startswith "/" s.
Definition parts (s : string) : list string :=
  if is_absolute s
  then (if startswith "//" s && negb (startswith "///" s) then "//" else "/") :: components s
  else components s.
Definition path_name (s : string) : string := match last (components s) with Some p => p | None => "" end.

(** [repr(s)] *)
Definition hex_digit (z : Z) : ascii := chr (if z <? 10 then 48 + z else 87 + z).
Definition printable (c : ascii) : bool :=
  in_range 32 126 c || (in_range 161 255 c && negb (ord c =? 173)).
Definition repr_char (quote c : ascii) : string :=
  if Ascii.eqb c quote || Ascii.eqb c "\" then String "\" (String c "")
  else if ord c =? 10 then "\n"
  else if ord c =? 13 then "\r"
  else if ord c =? 9 then "\t"
  else if printable c then String c ""
  else "\x" +:+ String (hex_digit (ord c / 16)) (String (hex_digit (ord c mod 16)) "").
Fixpoint repr_body (quote : ascii) (s : string) : string :=
  match s with "" => "" | String c s' => repr_char quote c +:+ repr_body quote s' end.
Definition dquote : ascii := chr 34.
Definition repr (s : string) : string :=
  let quote := if has_char "'" s && negb (has_char dquote s) then dquote else "'"%char in
  String quote (repr_body quote s) +:+ String quote "".

(** ** Lemmas *)
Lemma mem_spec s l : mem s l = true <-> s ∈ l.
Proof.
  induction l as [|t l IH]; simpl; [set_solver|].
  rewrite orb_true_iff, IH, String.eqb_eq, elem_of_cons. naive_solver.
Qed.
#[export] Hint Rewrite mem_spec : coord.

Lemma mem_false s l : mem s l = false <-> s ∉ l.
Proof. rewrite <- mem_spec. destruct (mem s l); naive_solver. Qed.

Lemma mem_all l m : forallb (fun s => mem s m) l = true -> forall s, s ∈ l -> s ∈ m.
Proof. rewrite forallb_forall. intros H s Hs. apply mem_spec, H. by apply list_elem_of_In. Qed.

Lemma insert_elem s t l : s ∈ insert t l <-> s = t \/ s ∈ l.
Proof.
  induction l as [|u l IH]; simpl; [set_solver|].
  destruct (String.leb t u); set_solver.
Qed.

Lemma sort_elem s l : s ∈ sort l <-> s ∈ l.
Proof. induction l as [|u l IH]; simpl; [done|]. rewrite insert_elem. set_solver. Qed.

Lemma dedup_go_elem s seen l : s ∈ dedup_go seen l <-> s ∈ l /\ s ∉ seen.
Proof.
  revert seen. induction l as [|t l IH]; intros seen; simpl; [set_solver|].
  destruct (mem t seen) eqn:E; [apply mem_spec in E | apply mem_false in E].
  - rewrite IH. set_solver.
  - rewrite elem_of_cons, IH. set_unfold. destruct (decide (s = t)); naive_solver.
Qed.

Lemma dedup_elem s l : s ∈ dedup l <-> s ∈ l.
Proof. unfold dedup. rewrite dedup_go_elem. set_solver. Qed.

Lemma sorted_set_elem s l : s ∈ sorted_set l <-> s ∈ l.
Proof. unfold sorted_set. by rewrite sort_elem, dedup_elem. Qed.
Lemma sorted_set_nil l : sorted_set l = [] -> l = [].
Proof.
  intros E. destruct l as [|x l]; [done|]. exfalso. apply (not_elem_of_nil x). rewrite <- E.
  apply sorted_set_elem. by left.
Qed.

Lemma dedup_go_length seen l : (length (dedup_go seen l) <= length l)%nat.
Proof.
  revert seen. induction l as [|t l IH]; intros seen; simpl; [done|].
  destruct (mem t seen); [specialize (IH seen) | specialize (IH (t :: seen))]; simpl; lia.
Qed.

Lemma dedup_go_NoDup seen l : NoDup (dedup_go seen l).
Proof.
  revert seen. induction l as [|t l IH]; intros seen; simpl; [constructor|].
  destruct (mem t seen); [done|]. constructor; [|done].
  rewrite dedup_go_elem. set_solver.
Qed.

Lemma insert_perm s l : insert s l ≡ₚ s :: l.
Proof.
  induction l as [|t l IH]; simpl; [done|].
  destruct (String.leb s t); [done|]. rewrite IH. apply Permutation_swap.
Qed.
Lemma sort_perm l : sort l ≡ₚ l.
Proof. induction l as [|s l IH]; simpl; [done|]. by rewrite insert_perm, IH. Qed.
Lemma sorted_set_NoDup l : NoDup (sorted_set l).
Proof. unfold sorted_set. rewrite sort_perm. apply dedup_go_NoDup. Qed.
Lemma sort_nil l : sort l = [] <-> l = [].
Proof.
  split; [|by intros ->]. intros H. apply Permutation_nil_r. by rewrite <- sort_perm, H.
Qed.

(** [len(l) != len(set(l))] detects duplicates. *)
Lemma dedup_length_NoDup l : length (dedup l) = length l -> NoDup l.
Proof.
  unfold dedup. generalize (@nil string). induction l as [|t l IH]; intros seen; simpl.
  { constructor. }
  pose proof (dedup_go_length seen l). pose proof (dedup_go_length (t :: seen) l).
  destruct (mem t seen); simpl; [lia|]. intros [= E]. constructor; [|by eapply IH].
  intros Hin. revert E.
  cut (length (dedup_go (t :: seen) l) < length l)%nat; [lia|].
  clear - Hin. revert seen. induction l as [|u l IH]; intros seen; [set_solver|].
  cbn [dedup_go]. apply elem_of_cons in Hin as [-> | Hin].
  - replace (mem u (u :: seen)) with true; [|symmetry; apply mem_spec; set_solver].
    pose proof (dedup_go_length (u :: seen) l). simpl. lia.
  - destruct (mem u (t :: seen)).
    + specialize (IH Hin seen). simpl. lia.
    + enough (length (dedup_go (u :: t :: seen) l) < length l)%nat by (simpl; lia).
      clear IH. revert seen. 
      cut (forall s', t ∈ s' -> length (dedup_go s' l) < length l)%nat.
      { intros H seen. apply H. set_solver. }
      clear - Hin. induction l as [|v l IH]; [set_solver|]. intros s' Hs.
      cbn [dedup_go]. destruct (mem v s') eqn:E.
      { pose proof (dedup_go_length s' l). simpl. lia. }
      apply elem_of_cons in Hin as [-> | Hin]; [by apply mem_false in E|].
      specialize (IH Hin (v :: s')). simpl. assert (t ∈ v :: s') by set_solver.
      specialize (IH H). lia.
Qed.

Lemma truthy_spec s : truthy s = true <-> s <> "".
Proof. unfold truthy. rewrite negb_true_iff, String.eqb_neq. done. Qed.

(** [s.startswith(p)]: [s] is [p] and a rest. *)
Lemma startswith_spec p s : startswith p s = true <-> exists rest, s = p +:+ rest.
Proof.
  unfold startswith. revert s. induction p as [|c p IH]; intros s; cbn [String.prefix].
  - split; [intros _; by exists s | destruct s; done].
  - destruct s as [|d s]; cbn [String.prefix String.append].
    { split; [discriminate | intros [rest E]; discriminate]. }
    destruct (ascii_dec c d) as [->|Hn].
    + rewrite IH. split; intros [rest E]; exists rest; [by rewrite E | by injection E].
    + split; [discriminate|]. intros [rest E]. injection E as -> _. done.
Qed.
(** [s < t] is a strict total order. *)
Lemma ltb_cons c s d t : String.ltb (String c s) (String d t) = true <->
  (N_of_ascii c < N_of_ascii d)%N \/ c = d /\ String.ltb s t = true.
Proof.
  unfold String.ltb. cbn [String.compare]. unfold Ascii.compare.
  destruct (N.compare_spec (N_of_ascii c) (N_of_ascii d)) as [E|E|E].
  - assert (c = d) as -> by (by rewrite <- (ascii_N_embedding c), E, ascii_N_embedding).
    split; [by right|]. intros [H|[_ H]]; [lia | done].
  - split; [by left | done].
  - split; [done|]. intros [H|[-> _]]; lia.
Qed.
Lemma ltb_trans s t u : String.ltb s t = true -> String.ltb t u = true -> String.ltb s u = true.
Proof.
  revert t u. induction s as [|c s IH]; intros [|d t] [|e u]; try done.
  rewrite !ltb_cons. intros [H1|[-> H1]] [H2|[-> H2]]; [left; lia | by left | by left | right; eauto].
Qed.
Lemma ltb_total s t : String.ltb s t = false -> s = t \/ String.ltb t s = true.
Proof.
  revert t. induction s as [|c s IH]; intros [|d t]; auto; try done. intros H.
  rewrite ltb_cons. destruct (N.lt_trichotomy (N_of_ascii c) (N_of_ascii d)) as [E|[E|E]]; [|
    |by auto].
  - exfalso. assert (String.ltb (String c s) (String d t) = true) as H' by (apply ltb_cons; by left). congruence.
  - assert (c = d) as -> by (by rewrite <- (ascii_N_embedding c), E, ascii_N_embedding).
    destruct (String.ltb s t) eqn:El.
    + assert (String.ltb (String d s) (String d t) = true) as H' by (apply ltb_cons; by right). congruence.
    + destruct (IH t El) as [->|Ht]; auto.
Qed.
Lemma append_assoc a b c : (a +:+ b) +:+ c = a +:+ b +:+ c.
Proof. induction a as [|x a IH]; [done|]. change (String x ((a +:+ b) +:+ c) = String x (a +:+ b +:+ c)). by rewrite IH. Qed.

Lemma truthy_false s : truthy s = false <-> s = "".
Proof. unfold truthy. rewrite negb_false_iff, String.eqb_eq. done. Qed.

End PyStr.
(** Membership in lists that are written out *)
Ltac listed := first [by apply PyStr.mem_spec | by apply PyStr.mem_all | intros; eapply PyStr.mem_all; [|eassumption]; reflexivity].
