(* ===== verification/Regex.v ===== *)
(** * Regular expressions

    The fragment of Python's [re] the modelled patterns use: character
    classes, concatenation, alternation and (counted) repetition.  Every
    pattern is applied with [fullmatch], for which the anchors [^], [$] and
    [\Z] are vacuous, so they are not constructors.  [fullmatch] runs on
    derivatives; [fullmatch_spec] relates it to the language of the
    expression. *)
From S2P Require Import Prelude PyStr.

Module Regex.
Import PyStr.

Inductive re : Type :=
  | REmpty
  | REps
  | RChar (p : ascii -> bool)
  | RCat (r1 r2 : re)
  | RAlt (r1 r2 : re)
  | RStar (r : re).

(** ** Language *)
Inductive matches : re -> string -> Prop :=
  | MEps : matches REps ""
  | MChar p c : p c = true -> matches (RChar p) (String c "")
  | MCat r1 r2 s1 s2 : matches r1 s1 -> matches r2 s2 -> matches (RCat r1 r2) (s1 +:+ s2)
  | MAltL r1 r2 s : matches r1 s -> matches (RAlt r1 r2) s
  | MAltR r1 r2 s : matches r2 s -> matches (RAlt r1 r2) s
  | MStarNil r : matches (RStar r) ""
  | MStarCons r s1 s2 : matches r s1 -> matches (RStar r) s2 -> matches (RStar r) (s1 +:+ s2).

(** ** Matching by derivatives *)
Fixpoint nullable (r : re) : bool :=
  match r with
  | REmpty | RChar _ => false
  | REps | RStar _ => true
  | RCat r1 r2 => nullable r1 && nullable r2
  | RAlt r1 r2 => nullable r1 || nullable r2
  end.

(** Constructors that drop the units, so that derivatives stay small. *)
Definition cat (r1 r2 : re) : re :=
  match r1, r2 with
  | REmpty, _ | _, REmpty => REmpty
  | REps, r => r
  | r, REps => r
  | _, _ => RCat r1 r2
  end.
Definition alt (r1 r2 : re) : re :=
  match r1, r2 with
  | REmpty, r => r
  | r, REmpty => r
  | _, _ => RAlt r1 r2
  end.

Fixpoint deriv (c : ascii) (r : re) : re :=
  match r with
  | REmpty | REps => REmpty
  | RChar p => if p c then REps else REmpty
  | RCat r1 r2 =>
      if nullable r1 then alt (cat (deriv c r1) r2) (deriv c r2) else cat (deriv c r1) r2
  | RAlt r1 r2 => alt (deriv c r1) (deriv c r2)
  | RStar r => cat (deriv c r) (RStar r)
  end.

(** [pattern.fullmatch(s) is not None] *)
Fixpoint fullmatch (r : re) (s : string) : bool :=
  match s with
  | "" => nullable r
  | String c s' => fullmatch (deriv c r) s'
  end.

(** ** Pattern syntax *)
Fixpoint lit (s : string) : re :=
  match s with "" => REps | String c s' => cat (RChar (Ascii.eqb c)) (lit s') end.
(** [r{n}] *)
Fixpoint rep (n : nat) (r : re) : re := match n with O => REps | S n' => cat r (rep n' r) end.
(** [r{0,n}], nested to the right *)
Fixpoint upto (n : nat) (r : re) : re :=
  match n with O => REps | S n' => alt REps (cat r (upto n' r)) end.
(** [r{m,n}] *)
Definition between (m n : nat) (r : re) : re := cat (rep m r) (upto (n - m) r).
(** [r+] *)
Definition plus (r : re) : re := RCat r (RStar r).

(** Character classes. *)
Definition digit : ascii -> bool := is_digit.
Definition hex (c : ascii) : bool := is_digit c || in_range 97 102 c.
Definition alnum (c : ascii) : bool := is_digit c || is_lower c || is_upper c.
Definition one_of (cs : string) (c : ascii) : bool := has_char c cs.
Definition union (p q : ascii -> bool) (c : ascii) : bool := p c || q c.

(** ** Patterns shared by several components *)
(** [AR-[0-9]{4}]; [\d] is [[0-9]] on code points 0..255. *)
Definition TASK : re := cat (lit "AR-") (rep 4 (RChar digit)).
(** [sha256:[0-9a-f]{64}] *)
Definition DIGEST : re := cat (lit "sha256:") (rep 64 (RChar hex)).
(** [[0-9a-f]{n}] *)
Definition HEX (n : nat) : re := rep n (RChar hex).
(** [[A-Za-z0-9][A-Za-z0-9._/-]{2,255}] *)
Definition REF : re :=
  cat (RChar alnum) (between 2 255 (RChar (union alnum (one_of "._/-")))).

(** ** Correctness of the matcher *)
Lemma matches_cat_inv r1 r2 s :
  matches (RCat r1 r2) s -> exists s1 s2, s = s1 +:+ s2 /\ matches r1 s1 /\ matches r2 s2.
Proof. inversion 1; subst; eauto. Qed.

Lemma app_nil_l_str (s : string) : "" +:+ s = s.
Proof. done. Qed.
Lemma app_nil_r_str (s : string) : s +:+ "" = s.
Proof. induction s as [|c s IH]; [done|]. change (String c (s +:+ "") = String c s). by rewrite IH. Qed.

Lemma cat_spec r1 r2 s : matches (cat r1 r2) s <-> matches (RCat r1 r2) s.
Proof.
  assert (He : forall r, matches (RCat REmpty r) s -> False).
  { intros r (?&?&?&H&?)%matches_cat_inv. inversion H. }
  assert (He' : forall r, matches (RCat r REmpty) s -> False).
  { intros r (?&?&?&?&H)%matches_cat_inv. inversion H. }
  assert (Hl : forall r, matches (RCat REps r) s <-> matches r s).
  { intros r. split.
    - intros (?&?&->&H&?)%matches_cat_inv. by inversion H.
    - intros H. apply (MCat REps r "" s); [constructor | done]. }
  assert (Hr : forall r, matches (RCat r REps) s <-> matches r s).
  { intros r. split.
    - intros (?&?&->&?&H)%matches_cat_inv. inversion H. by rewrite app_nil_r_str.
    - intros H. rewrite <- (app_nil_r_str s). apply MCat; [done | constructor]. }
  assert (H0 : matches REmpty s -> False) by (inversion 1).
  destruct r1, r2; simpl; rewrite ?Hl, ?Hr; try reflexivity;
    split; intros Hx; exfalso; eauto.
Qed.

Lemma alt_spec r1 r2 s : matches (alt r1 r2) s <-> matches r1 s \/ matches r2 s.
Proof.
  assert (H0 : matches REmpty s -> False) by (inversion 1).
  assert (Ha : forall a b, matches (RAlt a b) s <-> matches a s \/ matches b s).
  { intros a b. split; [inversion 1; auto|]. intros []; [by apply MAltL | by apply MAltR]. }
  destruct r1, r2; simpl; rewrite ?Ha; tauto.
Qed.

Lemma str_app_nil (s1 s2 : string) : s1 +:+ s2 = "" -> s1 = "" /\ s2 = "".
Proof. destruct s1; [done | discriminate]. Qed.

Lemma nullable_spec r : nullable r = true <-> matches r "".
Proof.
  induction r as [| |p|r1 IH1 r2 IH2|r1 IH1 r2 IH2|r IH]; simpl.
  - split; [done | inversion 1].
  - split; [constructor | done].
  - split; [done | inversion 1].
  - rewrite andb_true_iff, IH1, IH2. split.
    + intros [H1 H2]. by apply (MCat r1 r2 "" "").
    + intros (s1&s2&E&?&?)%matches_cat_inv. by apply eq_sym, str_app_nil in E as [-> ->].
  - rewrite orb_true_iff, IH1, IH2. split.
    + intros []; [by apply MAltL | by apply MAltR].
    + inversion 1; auto.
  - split; [constructor | done].
Qed.

(** A nonempty word of a star starts with a nonempty word of its body. *)
Lemma star_cons_inv r c s :
  matches (RStar r) (String c s) ->
  exists s1 s2, s = s1 +:+ s2 /\ matches r (String c s1) /\ matches (RStar r) s2.
Proof.
  remember (RStar r) as r' eqn:Er. remember (String c s) as w eqn:Ew.
  intros H. revert Er Ew.
  induction H as [| | | | | |r0 s1 s2 H1 _ H2 IH]; intros Er Ew; try discriminate.
  injection Er as ->. destruct s1 as [|d s1]; simpl in *; [auto|].
  injection Ew as -> <-. eauto.
Qed.

Lemma deriv_spec r c s : matches (deriv c r) s <-> matches r (String c s).
Proof.
  revert s. induction r as [| |p|r1 IH1 r2 IH2|r1 IH1 r2 IH2|r IH]; intros s; simpl.
  - split; inversion 1.
  - split; inversion 1.
  - destruct (p c) eqn:E; split; inversion 1; subst; try congruence; by constructor.
  - assert (Hc : matches (cat (deriv c r1) r2) s <->
                 exists s1 s2, s = s1 +:+ s2 /\ matches r1 (String c s1) /\ matches r2 s2).
    { rewrite cat_spec. split.
      - intros (s1&s2&->&?%IH1&?)%matches_cat_inv. eauto.
      - intros (s1&s2&->&?%IH1&?). by constructor. }
    assert (Hm : matches (RCat r1 r2) (String c s) <->
                 matches (cat (deriv c r1) r2) s \/ (matches r1 "" /\ matches r2 (String c s))).
    { rewrite Hc. split.
      - intros (s1&s2&E&?&?)%matches_cat_inv. destruct s1 as [|d s1]; simpl in E.
        + rewrite app_nil_l_str in E. subst. auto.
        + change (String d s1 +:+ s2) with (String d (s1 +:+ s2)) in E.
          injection E as -> ->. left; eauto.
      - intros [(s1&s2&->&?&?)|[??]]; [by apply (MCat r1 r2 (String c s1) s2)|].
        by apply (MCat r1 r2 "" (String c s)). }
    rewrite Hm. destruct (nullable r1) eqn:En.
    + apply nullable_spec in En. rewrite alt_spec, (IH2 s). tauto.
    + split; [by left|]. intros [|[Hn ?]]; [done|].
      apply nullable_spec in Hn. congruence.
  - rewrite alt_spec, IH1, IH2. split.
    + intros []; [by apply MAltL | by apply MAltR].
    + inversion 1; auto.
  - rewrite cat_spec. split.
    + intros (s1&s2&->&?%IH&?)%matches_cat_inv. by apply (MStarCons r (String c s1) s2).
    + intros (s1&s2&->&?%IH&?)%star_cons_inv. by constructor.
Qed.

(** The derivative matcher accepts exactly the words of the expression. *)
Lemma fullmatch_matches r s : fullmatch r s = true <-> matches r s.
Proof.
  revert r. induction s as [|c s IH]; intros r; simpl; [apply nullable_spec|].
  by rewrite IH, deriv_spec.
Qed.

(** Fixed-length patterns determine the length. *)
Lemma rep_length n p s : matches (rep n (RChar p)) s -> String.length s = n /\ all_chars p s = true.
Proof.
  revert s. induction n as [|n IH]; cbn [rep]; intros s H.
  { by inversion H. }
  apply cat_spec, matches_cat_inv in H as (s1&s2&->&H1&[<- H2]%IH).
  inversion H1; subst.
  change (String c "" +:+ s2) with (String c s2). simpl. split; [done|].
  by rewrite H2, andb_true_r.
Qed.

Lemma lit_matches l s : matches (lit l) s -> s = l.
Proof.
  revert s. induction l as [|c l IH]; cbn [lit]; intros s H; [by inversion H|].
  apply cat_spec, matches_cat_inv in H as (s1&s2&->&H1&->%IH).
  inversion H1 as [|p d Hd| | | | |]; subst. apply Ascii.eqb_eq in Hd as ->. done.
Qed.

Lemma HEX_length n s : fullmatch (HEX n) s = true -> String.length s = n.
Proof. intros H%fullmatch_matches. by apply rep_length in H as []. Qed.

Lemma DIGEST_length s : fullmatch DIGEST s = true -> String.length s = 71%nat.
Proof.
  intros H%fullmatch_matches. unfold DIGEST in H.
  apply cat_spec, matches_cat_inv in H as (s1&s2&->&->%lit_matches&[L _]%rep_length).
  change (String.length ("sha256:" +:+ s2)) with (7 + String.length s2)%nat. lia.
Qed.

End Regex.
