(* ===== verification/PyVal.v ===== *)
(** * Python values

    The values of the modelled code are those [json.loads] returns: [None],
    booleans, integers (unbounded), strings, lists and dictionaries with
    string keys.  Floating-point numbers are outside the model.  A dictionary
    is an association list in insertion order, as CPython keeps it; a
    [argparse.Namespace] is the dictionary of its attributes. *)
From S2P Require Import Prelude PyStr.

Inductive value : Type :=
  | VNull
  | VBool (b : bool)
  | VInt (z : Z)
  | VStr (s : string)
  | VList (l : list value)
  | VDict (d : list (string * value)).

Notation dict := (list (string * value)).
Notation Meta := dict (only parsing).
Notation Namespace := dict (only parsing).

(** Induction through the nested lists. *)
Fixpoint value_ind' (P : value -> Prop)
    (Hnull : P VNull) (Hbool : forall b, P (VBool b)) (Hint : forall z, P (VInt z))
    (Hstr : forall s, P (VStr s))
    (Hlist : forall l, Forall P l -> P (VList l))
    (Hdict : forall d, Forall (fun kv => P kv.2) d -> P (VDict d))
    (v : value) {struct v} : P v :=
  let rec := value_ind' P Hnull Hbool Hint Hstr Hlist Hdict in
  match v with
  | VNull => Hnull
  | VBool b => Hbool b
  | VInt z => Hint z
  | VStr s => Hstr s
  | VList l => Hlist l ((fix go l : Forall P l :=
      match l with [] => Forall_nil_2 P | x :: l' => Forall_cons_2 P x l' (rec x) (go l') end) l)
  | VDict d => Hdict d ((fix go d : Forall (fun kv => P kv.2) d :=
      match d with
      | [] => Forall_nil_2 _
      | kv :: d' => Forall_cons_2 _ kv d' (rec kv.2) (go d')
      end) d)
  end.

Module Py.
Import PyStr.

(** ** Types *)
Definition is_null (v : value) : bool := match v with VNull => true | _ => false end.
Definition is_str (v : value) : bool := match v with VStr _ => true | _ => false end.
Definition is_list (v : value) : bool := match v with VList _ => true | _ => false end.
Definition is_dict (v : value) : bool := match v with VDict _ => true | _ => false end.
Definition is_bool (v : value) : bool := match v with VBool _ => true | _ => false end.
(** [isinstance(v, int)]: [bool] is a subclass of [int]. *)
Definition is_int (v : value) : bool := match v with VInt _ | VBool _ => true | _ => false end.
(** [type(v) is int] *)
Definition type_int (v : value) : bool := match v with VInt _ => true | _ => false end.
Definition type_name (v : value) : string :=
  match v with
  | VNull => "NoneType" | VBool _ => "bool" | VInt _ => "int" | VStr _ => "str"
  | VList _ => "list" | VDict _ => "dict"
  end.

(** [bool(v)] *)
Definition truthy (v : value) : bool :=
  match v with
  | VNull => false
  | VBool b => b
  | VInt z => negb (z =? 0)
  | VStr s => PyStr.truthy s
  | VList l => match l with [] => false | _ => true end
  | VDict d => match d with [] => false | _ => true end
  end.

Definition as_Z (v : value) : option Z :=
  match v with VInt z => Some z | VBool b => Some (if b then 1 else 0) | _ => None end.

(** ** Dictionaries *)
Fixpoint dget (d : dict) (k : string) : option value :=
  match d with
  | [] => None
  | (k', v) :: d' => if String.eqb k k' then Some v else dget d' k
  end.
(** [d.get(k, default)] and [d.get(k)] *)
Definition get_or (d : dict) (k : string) (default : value) : value :=
  match dget d k with Some v => v | None => default end.
Definition get (d : dict) (k : string) : value := get_or d k VNull.
(** [d[k]] *)
Definition item (d : dict) (k : string) : res value :=
  match dget d k with Some v => Ok v | None => Raise (KeyError k) end.
(** [k in d] *)
Definition has (d : dict) (k : string) : bool :=
  match dget d k with Some _ => true | None => false end.
(** [d[k] = v]: in place when the key exists, at the end otherwise. *)
Fixpoint dset (d : dict) (k : string) (v : value) : dict :=
  match d with
  | [] => [(k, v)]
  | (k', v') :: d' => if String.eqb k k' then (k, v) :: d' else (k', v') :: dset d' k v
  end.
(** [d.pop(k, None)] without its result *)
Fixpoint dpop (d : dict) (k : string) : dict :=
  match d with
  | [] => []
  | (k', v') :: d' => if String.eqb k k' then dpop d' k else (k', v') :: dpop d' k
  end.
(** [{**d, **e}] / [d.update(e)] *)
Fixpoint update (d e : dict) : dict :=
  match e with [] => d | (k, v) :: e' => update (dset d k v) e' end.
Definition keys (d : dict) : list string := map fst d.
(** [set(d) <= ks], [ks <= set(d)], [set(d) == ks] *)
Definition keys_within (d : dict) (ks : list string) : bool := forallb (fun k => mem k ks) (keys d).
Definition keys_cover (d : dict) (ks : list string) : bool := forallb (has d) ks.
Definition keys_are (d : dict) (ks : list string) : bool := keys_within d ks && keys_cover d ks.

(** ** Equality [v == w] *)
Fixpoint eq (v w : value) {struct v} : bool :=
  match v, w with
  | VNull, VNull => true
  | (VBool _ | VInt _), (VBool _ | VInt _) =>
      match as_Z v, as_Z w with Some x, Some y => x =? y | _, _ => false end
  | VStr s, VStr t => String.eqb s t
  | VList l, VList m =>
      (fix go (l m : list value) : bool :=
         match l, m with
         | [], [] => true
         | x :: l', y :: m' => eq x y && go l' m'
         | _, _ => false
         end) l m
  | VDict d, VDict e =>
      Nat.eqb (length d) (length e) &&
      (fix go (d : dict) : bool :=
         match d with
         | [] => true
         | (k, x) :: d' => match dget e k with Some y => eq x y | None => false end && go d'
         end) d
  | _, _ => false
  end.
(** Structural equality: the same value in the same order of keys *)
Fixpoint same (v w : value) {struct v} : bool :=
  match v, w with
  | VNull, VNull => true
  | VBool b, VBool c => Bool.eqb b c
  | VInt x, VInt y => x =? y
  | VStr s, VStr t => String.eqb s t
  | VList l, VList m => (fix go (l m : list value) : bool :=
      match l, m with [], [] => true | x :: l', y :: m' => same x y && go l' m' | _, _ => false end) l m
  | VDict d, VDict e => (fix go (d e : dict) : bool :=
      match d, e with
      | [], [] => true
      | x :: d', y :: e' => String.eqb x.1 y.1 && same x.2 y.2 && go d' e'
      | _, _ => false
      end) d e
  | _, _ => false
  end.
Lemma same_spec v w : same v w = true <-> v = w.
Proof.
  revert w. induction v as [|b|z|s|l IH|d IH] using value_ind'; intros w; destruct w as [|c|y|t|m|e]; cbn [same]; try done.
  - rewrite Bool.eqb_true_iff. naive_solver.
  - rewrite Z.eqb_eq. naive_solver.
  - rewrite String.eqb_eq. naive_solver.
  - revert m. induction IH as [|x l Hx _ IHl]; intros [|y m]; try done. specialize (IHl m).
    rewrite andb_true_iff, Hx, IHl. naive_solver.
  - revert e. induction IH as [|[k x] d Hx _ IHd]; intros [|[j y] e]; try done. specialize (IHd e). cbn [fst snd] in *.
    rewrite !andb_true_iff, String.eqb_eq, Hx, IHd. naive_solver.
Qed.
#[export] Instance value_eq_dec : EqDecision value.
Proof. refine (fun v w => cast_if (decide (same v w = true))); by rewrite <- same_spec. Defined.

Definition ne (v w : value) : bool := negb (eq v w).
(** [v == "s"] and [v == z] *)
Definition is_s (v : value) (s : string) : bool := eq v (VStr s).
Definition is_z (v : value) (z : Z) : bool := eq v (VInt z).

(** ** Hashing: [v in {...}] raises on an unhashable value *)
Definition hashable (v : value) : bool :=
  match v with VList _ | VDict _ => false | _ => true end.
Definition require_hashable (v : value) : res unit :=
  raise_if (negb (hashable v)) (TypeError ("unhashable type: '" +:+ type_name v +:+ "'")).
(** [v in {s1, ...}] for a set or frozenset, or a dict's keys, of strings *)
Definition in_set (v : value) (ss : list string) : res bool :=
  check require_hashable v ;;
  Ok (match v with VStr s => mem s ss | _ => false end).
(** [v in (s1, ...)] for a tuple of strings: compares, never hashes *)
Definition in_tuple (v : value) (ss : list string) : bool :=
  match v with VStr s => mem s ss | _ => false end.
(** [v in l] for a list *)
Definition in_list (v : value) (l : list value) : bool := existsb (fun x => eq x v) l.

(** Distinct elements of a list of hashable values: [set(l)]. *)
Fixpoint vdedup_go (seen l : list value) : list value :=
  match l with
  | [] => []
  | x :: l' => if in_list x seen then vdedup_go seen l' else x :: vdedup_go (x :: seen) l'
  end.
Definition to_set (l : list value) : res (list value) :=
  let* _ := mapr require_hashable l in Ok (vdedup_go [] l).
(** [len(l) != len(set(l))] *)
Definition has_duplicates (l : list value) : res bool :=
  let* s := to_set l in Ok (negb (Nat.eqb (length s) (length l))).

(** ** Comparison, length, conversion *)
Definition cmp_error {A} (op : string) (v w : value) : res A :=
  Raise (TypeError ("'" +:+ op +:+ "' not supported between instances of '"
                    +:+ type_name v +:+ "' and '" +:+ type_name w +:+ "'")).
Definition cmp (op : string) (f : Z -> Z -> bool) (g : string -> string -> bool)
    (v w : value) : res bool :=
  match as_Z v, as_Z w with
  | Some x, Some y => Ok (f x y)
  | _, _ => match v, w with
            | VStr s, VStr t => Ok (g s t)
            | _, _ => cmp_error op v w
            end
  end.
Definition lt := cmp "<" Z.ltb String.ltb.
Definition le := cmp "<=" Z.leb String.leb.
Definition gt := cmp ">" Z.gtb (fun s t => String.ltb t s).
Definition ge := cmp ">=" Z.geb (fun s t => String.leb t s).
(** Against an integer literal. *)
Definition lt_z v z := lt v (VInt z).
Definition le_z v z := le v (VInt z).
Definition gt_z v z := gt v (VInt z).
Definition ge_z v z := ge v (VInt z).

(** [len(v)] *)
Definition len (v : value) : res Z :=
  match v with
  | VStr s => Ok (PyStr.len s)
  | VList l => Ok (Z.of_nat (length l))
  | VDict d => Ok (Z.of_nat (length d))
  | _ => Raise (TypeError ("object of type '" +:+ type_name v +:+ "' has no len()"))
  end.

(** [repr(v)] and [str(v)] *)
Fixpoint repr (v : value) : string :=
  match v with
  | VNull => "None"
  | VBool b => if b then "True" else "False"
  | VInt z => of_Z z
  | VStr s => PyStr.repr s
  | VList l => "[" +:+ join ", " (map repr l) +:+ "]"
  | VDict d => "{" +:+ join ", " (map (fun kv => PyStr.repr kv.1 +:+ ": " +:+ repr kv.2) d) +:+ "}"
  end.
Definition str (v : value) : string := match v with VStr s => s | _ => repr v end.

(** [int(v)] *)
Definition int (v : value) : res Z :=
  match v with
  | VInt z => Ok z
  | VBool b => Ok (if b then 1 else 0)
  | VStr s => match to_int s with
              | Some z => Ok z
              | None => Raise (ValueError ("invalid literal for int() with base 10: " +:+ PyStr.repr s))
              end
  | _ => Raise (TypeError ("int() argument must be a string, a bytes-like object or a real number, not '"
                           +:+ type_name v +:+ "'"))
  end.

(** [v["k"]], [v.get("k", default)] and iteration on a value of any type *)
Definition vitem (v : value) (k : string) : res value :=
  match v with
  | VDict d => item d k
  | VList _ => Raise (TypeError "list indices must be integers or slices, not str")
  | VStr _ => Raise (TypeError "string indices must be integers, not 'str'")
  | _ => Raise (TypeError ("'" +:+ type_name v +:+ "' object is not subscriptable"))
  end.
Definition no_attr {A} (v : value) (name : string) : res A :=
  Raise (AttributeError ("'" +:+ type_name v +:+ "' object has no attribute '" +:+ name +:+ "'")).
Definition vget_or (v : value) (k : string) (default : value) : res value :=
  match v with VDict d => Ok (get_or d k default) | _ => no_attr v "get" end.
Definition vget (v : value) (k : string) : res value := vget_or v k VNull.
Definition iter (v : value) : res (list value) :=
  match v with
  | VList l => Ok l
  | VDict d => Ok (map VStr (keys d))
  | VStr s => Ok (map (fun c => VStr (String c "")) (to_list s))
  | _ => Raise (TypeError ("'" +:+ type_name v +:+ "' object is not iterable"))
  end.
(** [s.strip()] on a value that should be a string *)
Definition vstrip (v : value) : res string :=
  match v with VStr s => Ok (strip s) | _ => no_attr v "strip" end.

(** [set(v)] on a value of any type, compared with a set of field names *)
Definition set_is (v : value) (ks : list string) : res bool :=
  let* xs := iter v in
  let* s := to_set xs in
  Ok (forallb (fun x => in_tuple x ks) s && forallb (fun k => in_list (VStr k) s) ks).

(** [not d[k]] and [pattern.fullmatch(v)] on a value that should be a string *)
Definition falsy_item (d : dict) (k : string) : res bool :=
  let* v := item d k in Ok (negb (truthy v)).
Definition need_str (v : value) : res string :=
  match v with
  | VStr s => Ok s
  | _ => Raise (TypeError ("expected string or bytes-like object, got '" +:+ type_name v +:+ "'"))
  end.
(** [{**v, ...}] *)
Definition mapping (v : value) : res dict :=
  match v with
  | VDict d => Ok d
  | _ => Raise (TypeError ("'" +:+ type_name v +:+ "' object is not a mapping"))
  end.
(** [len(v) > n] and [int(d[k])] *)
Definition longer (v : value) (n : Z) : res bool := let* l := len v in Ok (n <? l).
Definition int_item (d : dict) (k : string) : res Z := let* v := item d k in int v.
(** [d[k] + 1], the value of [d[k] += 1] *)
Definition add_one_item (d : dict) (k : string) : res Z :=
  let* v := item d k in
  match v, as_Z v with
  | _, Some z => Ok (z + 1)
  | VStr _, _ => Raise (TypeError "can only concatenate str (not 'int') to str")
  | VList _, _ => Raise (TypeError "'int' object is not iterable")
  | _, _ => Raise (TypeError ("unsupported operand type(s) for +=: '" +:+ type_name v +:+ "' and 'int'"))
  end.
(** [v[-1]] of a list *)
Definition last_item (l : list value) : res value :=
  match last l with Some v => Ok v | None => Raise (IndexError "list index out of range") end.

(** ** Namespaces *)
(** [args.name] and [getattr(args, name, default)] *)
Definition attr (a : Namespace) (name : string) : res value :=
  match dget a name with
  | Some v => Ok v
  | None => Raise (AttributeError ("'Namespace' object has no attribute '" +:+ name +:+ "'"))
  end.
Definition getattr (a : Namespace) (name : string) (default : value) : value :=
  get_or a name default.

Definition strs (l : list string) : value := VList (map VStr l).

(** ** Lemmas: dictionaries *)
Lemma dget_dset_eq d k v : dget (dset d k v) k = Some v.
Proof.
  induction d as [|[k' v'] d IH]; cbn -[String.eqb]; [by rewrite String.eqb_refl|].
  destruct (String.eqb k k') eqn:E; cbn -[String.eqb]; rewrite ?String.eqb_refl, ?E; done.
Qed.

Lemma dget_dset_ne d k k' v : k <> k' -> dget (dset d k v) k' = dget d k'.
Proof.
  intros Hne. assert (String.eqb k' k = false) as Hk by (apply String.eqb_neq; congruence).
  induction d as [|[j w] d IH]; cbn -[String.eqb]; [by rewrite Hk|].
  destruct (String.eqb k j) eqn:E; cbn -[String.eqb].
  - apply String.eqb_eq in E as <-. by rewrite Hk.
  - by rewrite IH.
Qed.

Lemma dget_dset d k k' v :
  dget (dset d k v) k' = if String.eqb k k' then Some v else dget d k'.
Proof.
  destruct (String.eqb_spec k k') as [<-|]; [apply dget_dset_eq | by apply dget_dset_ne].
Qed.

Lemma dget_dpop_eq d k : dget (dpop d k) k = None.
Proof.
  induction d as [|[k' v'] d IH]; [done|]. cbn -[String.eqb].
  destruct (String.eqb k k') eqn:E; [done|]. cbn -[String.eqb]. by rewrite E.
Qed.

Lemma dget_dpop_ne d k k' : k <> k' -> dget (dpop d k) k' = dget d k'.
Proof.
  intros Hne. induction d as [|[j w] d IH]; [done|]. cbn -[String.eqb].
  destruct (String.eqb_spec k j) as [<-|].
  - rewrite IH. destruct (String.eqb_spec k' k); congruence.
  - cbn -[String.eqb]. by rewrite IH.
Qed.

Lemma dget_dpop d k k' :
  dget (dpop d k) k' = if String.eqb k k' then None else dget d k'.
Proof.
  destruct (String.eqb_spec k k') as [<-|]; [apply dget_dpop_eq | by apply dget_dpop_ne].
Qed.

Lemma get_dset d k k' v : get (dset d k v) k' = if String.eqb k k' then v else get d k'.
Proof. unfold get, get_or. rewrite dget_dset. by destruct (String.eqb k k'). Qed.
Lemma get_dpop d k k' : get (dpop d k) k' = if String.eqb k k' then VNull else get d k'.
Proof. unfold get, get_or. rewrite dget_dpop. by destruct (String.eqb k k'). Qed.
Lemma item_dset d k k' v : item (dset d k v) k' = if String.eqb k k' then Ok v else item d k'.
Proof. unfold item. rewrite dget_dset. by destruct (String.eqb k k'). Qed.
Lemma item_dpop d k k' : item (dpop d k) k' = if String.eqb k k' then Raise (KeyError k') else item d k'.
Proof. unfold item. rewrite dget_dpop. by destruct (String.eqb k k'). Qed.
Lemma has_dset d k k' v : has (dset d k v) k' = String.eqb k k' || has d k'.
Proof. unfold has. rewrite dget_dset. by destruct (String.eqb k k'). Qed.
Lemma has_dpop d k k' : has (dpop d k) k' = negb (String.eqb k k') && has d k'.
Proof. unfold has. rewrite dget_dpop. by destruct (String.eqb k k'). Qed.

Lemma item_get d k v : item d k = Ok v -> get d k = v.
Proof. unfold item, get, get_or. destruct (dget d k); congruence. Qed.
Lemma item_dget d k v : item d k = Ok v -> dget d k = Some v.
Proof. unfold item. destruct (dget d k); congruence. Qed.
Lemma has_item d k : has d k = true -> item d k = Ok (get d k).
Proof. unfold has, item, get, get_or. by destruct (dget d k). Qed.

Lemma has_elem d k : has d k = true <-> k ∈ keys d.
Proof.
  unfold has. induction d as [|[j w] d IH]; cbn -[String.eqb]; [set_solver|].
  destruct (String.eqb_spec k j); set_solver.
Qed.

Lemma keys_are_spec d ks : keys_are d ks = true <-> forall k, k ∈ keys d <-> k ∈ ks.
Proof.
  unfold keys_are, keys_within, keys_cover. rewrite andb_true_iff, !forallb_forall.
  split.
  - intros [H1 H2] k. split; intros Hk.
    + apply mem_spec, H1. by apply list_elem_of_In.
    + apply has_elem, H2. by apply list_elem_of_In.
  - intros H. split; intros k Hk%list_elem_of_In; [by apply mem_spec, H | by apply has_elem, H].
Qed.

Lemma keys_are_has d ks k : keys_are d ks = true -> k ∈ ks -> has d k = true.
Proof. rewrite keys_are_spec, has_elem. naive_solver. Qed.

Lemma keys_dset d k v : keys (dset d k v) = if has d k then keys d else keys d ++ [k].
Proof.
  unfold has. induction d as [|[j w] d IH]; cbn -[String.eqb]; [done|].
  destruct (String.eqb_spec k j) as [<-|]; cbn; [done|].
  unfold keys in IH. rewrite IH. by destruct (dget d k).
Qed.

Lemma keys_dset_elem d k v x : x ∈ keys (dset d k v) <-> x = k \/ x ∈ keys d.
Proof.
  rewrite <- !has_elem, has_dset, orb_true_iff, String.eqb_eq. naive_solver.
Qed.
Lemma keys_dpop_elem d k x : x ∈ keys (dpop d k) <-> x <> k /\ x ∈ keys d.
Proof.
  rewrite <- !has_elem, has_dpop, andb_true_iff, negb_true_iff, String.eqb_neq. naive_solver.
Qed.

(** Keys stay unique. *)
Lemma NoDup_dset d k v : NoDup (keys d) -> NoDup (keys (dset d k v)).
Proof.
  intros H. rewrite keys_dset. destruct (has d k) eqn:E; [done|].
  apply NoDup_app. split_and!; [done | | by apply NoDup_singleton].
  intros x Hx. rewrite list_elem_of_singleton. intros ->.
  apply has_elem in Hx. congruence.
Qed.
Lemma NoDup_dpop d k : NoDup (keys d) -> NoDup (keys (dpop d k)).
Proof.
  induction d as [|[j w] d IH]; [done|]. cbn -[String.eqb].
  intros [Hj Hd]%NoDup_cons. destruct (String.eqb k j); [by apply IH|].
  cbn. constructor; [|by apply IH]. intros [_ ?]%keys_dpop_elem. done.
Qed.

(** ** Lemmas: equality *)
Lemma eq_str v s : eq v (VStr s) = true <-> v = VStr s.
Proof.
  destruct v; cbn -[String.eqb]; split; try congruence; try discriminate.
  - by intros ->%String.eqb_eq.
  - intros [= ->]. apply String.eqb_refl.
Qed.
Lemma eq_str_l v s : eq (VStr s) v = true <-> v = VStr s.
Proof.
  destruct v; cbn -[String.eqb]; split; try congruence; try discriminate.
  - by intros ->%String.eqb_eq.
  - intros [= ->]. apply String.eqb_refl.
Qed.
Lemma in_list_str s l : in_list (VStr s) l = true <-> VStr s ∈ l.
Proof.
  unfold in_list. rewrite existsb_exists. setoid_rewrite <- list_elem_of_In. split.
  - intros (x & Hx & E). by apply eq_str in E as ->.
  - intros H. exists (VStr s). split; [done|]. by apply eq_str.
Qed.
Lemma eq_str_str s t : eq (VStr s) (VStr t) = String.eqb s t.
Proof. done. Qed.
Lemma eq_int_int x y : eq (VInt x) (VInt y) = (x =? y).
Proof. done. Qed.
Lemma eq_int v z : eq v (VInt z) = true <-> as_Z v = Some z.
Proof.
  destruct v; cbn; split; try discriminate.
  - rewrite Z.eqb_eq. congruence.
  - intros [= ->]. apply Z.eqb_refl.
  - rewrite Z.eqb_eq. congruence.
  - intros [= ->]. apply Z.eqb_refl.
Qed.
Lemma eq_null v : eq v VNull = true <-> v = VNull.
Proof. destruct v; cbn; split; congruence || discriminate. Qed.
Lemma ne_false v w : ne v w = false <-> eq v w = true.
Proof. unfold ne. by rewrite negb_false_iff. Qed.
Lemma type_int_inv v : type_int v = true -> exists z, v = VInt z.
Proof. destruct v; try discriminate. eauto. Qed.
Lemma is_str_inv v : is_str v = true -> exists s, v = VStr s.
Proof. destruct v; try discriminate. eauto. Qed.
Lemma is_list_inv v : is_list v = true -> exists l, v = VList l.
Proof. destruct v; try discriminate. eauto. Qed.
Lemma is_dict_inv v : is_dict v = true -> exists d, v = VDict d.
Proof. destruct v; try discriminate. eauto. Qed.

(** A value all of whose dictionaries have unique keys, as every Python value
    has. *)
Fixpoint wf (v : value) : bool :=
  match v with
  | VList l => forallb wf l
  | VDict d => bool_decide (NoDup (keys d)) && forallb (fun kv => wf kv.2) d
  | _ => true
  end.

Lemma dget_elem d k v : NoDup (keys d) -> (k, v) ∈ d -> dget d k = Some v.
Proof.
  induction d as [|[j w] d IH]; [set_solver|]. cbn -[String.eqb].
  intros [Hj Hd]%NoDup_cons [[= -> ->] | Hin]%elem_of_cons; [by rewrite String.eqb_refl|].
  destruct (String.eqb_spec k j) as [->|]; [|by apply IH].
  exfalso. apply Hj. by apply (list_elem_of_fmap_2 fst) in Hin.
Qed.

Lemma dget_in d k v : dget d k = Some v -> (k, v) ∈ d.
Proof.
  induction d as [|[j w] d IH]; [discriminate|]. cbn -[String.eqb].
  destruct (String.eqb_spec k j) as [->|]; [|intros H; apply elem_of_cons; auto].
  intros [= ->]. apply elem_of_cons. auto.
Qed.

Lemma wf_dget d k v : wf (VDict d) = true -> dget d k = Some v -> wf v = true.
Proof.
  cbn. intros [_ H]%andb_true_iff. induction d as [|[j w] d IH]; [done|].
  cbn -[String.eqb] in *. apply andb_true_iff in H as [H1 H2].
  destruct (String.eqb k j); [congruence | auto].
Qed.

Lemma eq_wf_refl v : wf v = true -> eq v v = true.
Proof.
  induction v as [|b|z|s|l IH|d IH] using value_ind'; intros Hw; cbn -[String.eqb].
  - done.
  - apply Z.eqb_refl.
  - apply Z.eqb_refl.
  - apply String.eqb_refl.
  - induction l as [|x l IHl]; [done|].
    apply Forall_cons in IH as [Hx Hl]. cbn in Hw. apply andb_true_iff in Hw as [W1 W2].
    rewrite Hx by done. by apply IHl.
  - apply andb_true_iff in Hw as [Hn Hw]. apply bool_decide_eq_true in Hn.
    rewrite Nat.eqb_refl. simpl.
    assert (Hg : forall d', d' ⊆ d -> Forall (fun kv => wf kv.2 = true -> eq kv.2 kv.2 = true) d' ->
                 (fix go (d0 : dict) : bool :=
                    match d0 with
                    | [] => true
                    | (k, x) :: d1 => match dget d k with Some y => eq x y | None => false end && go d1
                    end) d' = true).
    { induction d' as [|[k x] d' IHd]; [done|]. intros Hsub [Hx Hd]%Forall_cons.
      rewrite (dget_elem d k x) by (done || set_solver). rewrite forallb_forall in Hw.
      simpl in Hx. rewrite Hx by (apply (Hw (k, x)), list_elem_of_In; set_solver).
      simpl. apply IHd; [set_solver | done]. }
    by apply Hg.
Qed.

(** Equal dictionaries with unique keys have the same keys, with equal values. *)
Definition same_entry (x y : option value) : Prop :=
  match x, y with Some v, Some w => eq v w = true | None, None => True | _, _ => False end.
Lemma dget_None_keys d k : dget d k = None <-> k ∉ keys d.
Proof.
  induction d as [|[j w] d IH]; cbn -[String.eqb]; [by rewrite elem_of_nil; naive_solver|].
  rewrite elem_of_cons. destruct (String.eqb_spec k j) as [->|Hn]; [naive_solver|]. rewrite IH. naive_solver.
Qed.
Lemma eq_dict_inv d e : eq (VDict d) (VDict e) = true ->
  length d = length e /\ forall k x, (k, x) ∈ d -> exists y, dget e k = Some y /\ eq x y = true.
Proof.
  cbn -[String.eqb]. intros [Hl%Nat.eqb_eq H]%andb_true_iff. split; [done|]. clear Hl.
  induction d as [|[j w] d IH]; [by intros k x ?%elem_of_nil|]. apply andb_true_iff in H as [H1 H2].
  intros k x [[= -> ->]|Hin]%elem_of_cons; [|by apply IH]. destruct (dget e j) as [y|]; [by exists y | done].
Qed.
Lemma eq_dict_lookup d e k : NoDup (keys d) -> eq (VDict d) (VDict e) = true -> same_entry (dget d k) (dget e k).
Proof.
  intros Hn [Hl H]%eq_dict_inv. destruct (dget d k) as [x|] eqn:E.
  - destruct (H k x (dget_in _ _ _ E)) as (y & -> & Hy). done.
  - destruct (dget e k) as [y|] eqn:E'; [|done]. apply dget_None_keys in E. apply E.
    assert (incl (keys e) (keys d)) as Hi.
    { apply NoDup_length_incl; [by apply NoDup_ListNoDup | by unfold keys; rewrite !length_map, Hl|].
      intros j (kx & <- & Hin)%in_map_iff. destruct (H kx.1 kx.2) as (y' & Hy & _).
      - apply list_elem_of_In. by destruct kx.
      - apply list_elem_of_In, (list_elem_of_fmap_2 fst _ (kx.1, y')). by apply dget_in. }
    apply list_elem_of_In, Hi, list_elem_of_In. apply (list_elem_of_fmap_2 fst _ (k, y)). by apply dget_in.
Qed.
Lemma eq_dict_intro d e : length d = length e ->
  (forall k x, (k, x) ∈ d -> exists y, dget e k = Some y /\ eq x y = true) -> eq (VDict d) (VDict e) = true.
Proof.
  intros Hl H. cbn -[String.eqb]. rewrite Hl, Nat.eqb_refl. cbn [andb]. clear Hl.
  induction d as [|[j w] d IH]; [done|]. destruct (H j w) as (y & -> & ->); [by left|].
  apply IH. intros k x Hin. apply H. by right.
Qed.
Lemma eq_wf_sym v : forall w, wf v = true -> wf w = true -> eq v w = true -> eq w v = true.
Proof.
  induction v as [|b|z|s|l IH|d IH] using value_ind'; intros w Wv Ww E; destruct w; try done.
  - cbn in *. by rewrite Z.eqb_sym.
  - cbn in *. by rewrite Z.eqb_sym.
  - cbn in *. by rewrite Z.eqb_sym.
  - cbn in *. by rewrite Z.eqb_sym.
  - cbn in *. by rewrite String.eqb_sym.
  - cbn in Wv, Ww. revert l0 Ww E. induction IH as [|x l Hx Hl IHl]; intros [|y m] Ww E; try done.
    cbn in Wv, Ww. apply andb_true_iff in Wv as [? ?]. apply andb_true_iff in Ww as [? ?].
    change (eq x y && eq (VList l) (VList m) = true) in E. apply andb_true_iff in E as [E1 E2].
    change (eq y x && eq (VList m) (VList l) = true). rewrite Hx by done. by apply IHl.
  - pose proof (eq_dict_inv _ _ E) as [Hlen _]. apply eq_dict_intro; [done|]. intros k y Hin.
    assert (NoDup (keys d) /\ NoDup (keys d0)) as [Nv Nw].
    { cbn in Wv, Ww. apply andb_true_iff in Wv as [Nv _]. apply andb_true_iff in Ww as [Nw _].
      by apply bool_decide_eq_true in Nv, Nw. }
    pose proof (eq_dict_lookup d d0 k Nv E) as Hs. rewrite (dget_elem d0 k y Nw Hin) in Hs.
    destruct (dget d k) as [x|] eqn:Ex; [|done]. exists x. split; [done|]. cbn in Hs.
    rewrite list.Forall_forall in IH. apply (IH (k, x)); [by apply dget_in | | | done].
    + by apply (wf_dget d k).
    + by apply (wf_dget d0 k); [|apply dget_elem].
Qed.
Lemma dget_filter_keys (p : string -> bool) d k :
  dget (List.filter (fun kv => p kv.1) d) k = if p k then dget d k else None.
Proof.
  induction d as [|[j w] d IH]; cbn -[String.eqb]; [by destruct (p k)|].
  destruct (p j) eqn:E; cbn -[String.eqb]; rewrite IH; destruct (String.eqb_spec k j) as [->|]; by rewrite ?E.
Qed.
Lemma keys_filter_NoDup (p : string * value -> bool) d : NoDup (keys d) -> NoDup (keys (List.filter p d)).
Proof. apply NoDup_map_filter. Qed.

End Py.

#[export] Hint Rewrite Py.dget_dset Py.dget_dpop Py.get_dset Py.get_dpop Py.item_dset
  Py.item_dpop Py.has_dset Py.has_dpop : dict.

(** Normalises the reads of an updated dictionary with literal keys. *)
Ltac simp_dict :=
  autorewrite with dict; cbn [String.eqb Ascii.eqb Bool.eqb orb andb negb].
Ltac simp_dict_in H :=
  autorewrite with dict in H; cbn [String.eqb Ascii.eqb Bool.eqb orb andb negb] in H.
