(* ===== verification/Frame.v ===== *)
(** * Frames

    Which fields of the metadata a computation can change.  [keeps k m]: the
    computation leaves the field [k] as it was, whether it returns or raises.
    The lemmas compose along the operations of the state monad, so that the
    tactic [frame] derives the frame of a handler from its text. *)
From S2P Require Import Prelude PyStr PyVal.

Module Frame.
Import Py.
Definition keeps {A} (k : string) (m : st Meta A) : Prop := forall s, dget (fst (m s)) k = dget s k.
Definition leaves (k : string) (f : Meta -> Meta) : Prop := forall s, dget (f s) k = dget s k.

Lemma keeps_lift {A} k (f : Meta -> res A) : keeps k (slift f).
Proof. done. Qed.
Lemma keeps_ret {A} k (a : A) : keeps k (sret a).
Proof. done. Qed.
Lemma keeps_raise {A} k e : keeps k (@sraise Meta A e).
Proof. done. Qed.
Lemma keeps_get k : keeps k sget.
Proof. done. Qed.
Lemma keeps_modify k f : leaves k f -> keeps k (smodify f).
Proof. done. Qed.
Lemma keeps_bind {A B} k (m : st Meta A) (c : A -> st Meta B) :
  keeps k m -> (forall a, keeps k (c a)) -> keeps k (sbind m c).
Proof.
  intros Hm Hc s. unfold sbind. specialize (Hm s). destruct (m s) as [s1 [a|e]]; [|done].
  cbn [fst] in Hm. by rewrite (Hc a).
Qed.
Lemma keeps_Ok {A} k (m : st Meta A) s s' r : keeps k m -> m s = (s', r) -> dget s' k = dget s k.
Proof. intros H E. specialize (H s). by rewrite E in H. Qed.

Lemma leaves_id k : leaves k (fun meta => meta).
Proof. done. Qed.
Lemma leaves_dset k j (f : Meta -> Meta) v :
  j <> k -> leaves k f -> leaves k (fun meta => dset (f meta) j (v meta)).
Proof. intros H Hf s. by rewrite dget_dset_ne, Hf. Qed.
Lemma leaves_dpop k j (f : Meta -> Meta) :
  j <> k -> leaves k f -> leaves k (fun meta => dpop (f meta) j).
Proof. intros H Hf s. by rewrite dget_dpop_ne, Hf. Qed.
Lemma leaves_fold {A} k (f : Meta -> A -> Meta) (l : list A) :
  (forall a, a ∈ l -> leaves k (fun meta => f meta a)) -> leaves k (fold_left f l).
Proof.
  induction l as [|a l IH]; intros H s; [done|]. cbn. rewrite IH.
  - by rewrite (H a) by (apply elem_of_cons; by left).
  - intros b Hb. apply H, elem_of_cons. by right.
Qed.
Lemma leaves_update k (f : Meta -> Meta) (kvs : dict) :
  k ∉ keys kvs -> leaves k f -> leaves k (fun meta => update (f meta) kvs).
Proof.
  intros H Hf s. change (dget (update (f s) kvs) k = dget s k). rewrite <- (Hf s).
  generalize (f s). clear s. revert H. induction kvs as [|[j v] kvs IH]; intros H s; [done|].
  cbn [keys map fst] in H. rewrite not_elem_of_cons in H. destruct H as [H1 H2].
  cbn [update]. by rewrite (IH H2), dget_dset_ne by congruence.
Qed.

Lemma not_written k (j : string) (W : list string) : k ∉ W -> j ∈ W -> j <> k.
Proof. by intros H Hj ->. Qed.
Lemma not_written_all k (l W : list string) :
  k ∉ W -> forallb (fun j => PyStr.mem j W) l = true -> k ∉ l.
Proof.
  rewrite forallb_forall. intros H Hl Hk. apply H, PyStr.mem_spec, Hl. by apply list_elem_of_In.
Qed.
End Frame.

(** [j <> k] for a literal field [j] of the write set the hypothesis excludes. *)
Ltac not_written :=
  match goal with
  | H : ?k ∉ ?W |- ?j <> ?k =>
      apply (Frame.not_written k j W H);
      apply PyStr.mem_spec; vm_compute; reflexivity
  | H : ?k ∉ ?W |- ?k ∉ ?l => apply (Frame.not_written_all k l W H); vm_compute; reflexivity
  end.
Ltac frame_step :=
  match goal with
  | |- Frame.keeps _ (sbind _ _) => apply Frame.keeps_bind; [|intros ?]
  | |- Frame.keeps _ (slift _) => apply Frame.keeps_lift
  | |- Frame.keeps _ (sret _) => apply Frame.keeps_ret
  | |- Frame.keeps _ (sraise _) => apply Frame.keeps_raise
  | |- Frame.keeps _ sget => apply Frame.keeps_get
  | |- Frame.keeps _ (smodify _) => apply Frame.keeps_modify
  | |- Frame.keeps _ (if ?b then _ else _) => destruct b
  | |- Frame.keeps _ (match ?x with _ => _ end) => destruct x
  | |- Frame.leaves _ (fun m => Py.dset _ _ _) => apply Frame.leaves_dset; [not_written|]
  | |- Frame.leaves _ (fun m => Py.dpop _ _) => apply Frame.leaves_dpop; [not_written|]
  | |- Frame.leaves _ (fun m => Py.update _ _) => apply Frame.leaves_update; [not_written|]
  | |- Frame.leaves _ (fun m => m) => apply Frame.leaves_id
  end.
Ltac frame := repeat (cbv beta zeta; frame_step).
