(* ===== verification/PyTime.v ===== *)
(** * [datetime]: proleptic Gregorian calendar, [fromisoformat], [isoformat]

    A [datetime] is its wall-clock reading in microseconds since
    0001-01-01T00:00:00 and its UTC offset in microseconds, absent for a
    naive value.  [fromisoformat] accepts the formats of CPython 3.12
    (calendar and week dates, basic and extended times, UTC offsets).  The
    round trip [fromisoformat_isoformat] is what makes the timestamps the
    coordinator writes readable by its own validators. *)
From S2P Require Import Prelude PyStr.

Module PyTime.
Import PyStr.

Record datetime : Type := DT { dt_wall : Z; dt_off : option Z }.

(** ** Calendar (days are ordinals, 0001-01-01 is 1) *)
Definition is_leap (y : Z) : bool :=
  (y mod 4 =? 0) && (negb (y mod 100 =? 0) || (y mod 400 =? 0)).
Definition b2z (b : bool) : Z := if b then 1 else 0.
Definition days_before_year (y : Z) : Z :=
  let p := y - 1 in p * 365 + p / 4 - p / 100 + p / 400.
Definition month_days (m : Z) : Z :=
  nth (Z.to_nat m) [0;31;28;31;30;31;30;31;31;30;31;30;31] 0.
Definition month_before (m : Z) : Z :=
  nth (Z.to_nat m) [0;0;31;59;90;120;151;181;212;243;273;304;334] 0.
Definition days_in_month (y m : Z) : Z :=
  if (m =? 2) && is_leap y then 29 else month_days m.
Definition days_before_month (y m : Z) : Z :=
  month_before m + b2z ((2 <? m) && is_leap y).
Definition ymd2ord (y m d : Z) : Z := days_before_year y + days_before_month y m + d.
(** Month and day of the zero-based day [n] of a year. *)
Definition month_day (leap : bool) (n : Z) : Z * Z :=
  let m := (n + 50) / 32 in
  let preceding := month_before m + b2z ((2 <? m) && leap) in
  if n <? preceding then
    let m' := m - 1 in
    let preceding' := preceding - (month_days m' + b2z ((m' =? 2) && leap)) in
    (m', n - preceding' + 1)
  else (m, n - preceding + 1).
Definition ord2ymd (n0 : Z) : Z * Z * Z :=
  let n := n0 - 1 in
  let n400 := n / 146097 in let n := n mod 146097 in
  let n100 := n / 36524 in let n := n mod 36524 in
  let n4 := n / 1461 in let n := n mod 1461 in
  let n1 := n / 365 in let n := n mod 365 in
  let y := n400 * 400 + 1 + n100 * 100 + n4 * 4 + n1 in
  if (n1 =? 4) || (n100 =? 4) then (y - 1, 12, 31)
  else
    let leap := (n1 =? 3) && (negb (n4 =? 24) || (n100 =? 3)) in
    let '(m, d) := month_day leap n in (y, m, d).
Definition valid_date (y m d : Z) : bool :=
  (1 <=? y) && (y <=? 9999) && (1 <=? m) && (m <=? 12) && (1 <=? d) && (d <=? days_in_month y m).

Definition second : Z := 1000000.
Definition minute : Z := 60 * second.
Definition hour : Z := 60 * minute.
Definition day : Z := 24 * hour.
(** 9999-12-31 is day 3652059. *)
Definition max_wall : Z := 3652059 * day.

(** ** [datetime.fromisoformat] *)
Definition sub (i n : nat) (s : string) : string := String.substring i n s.
Definition at_ (i : nat) (c : ascii) (s : string) : bool :=
  match String.get i s with Some d => Ascii.eqb d c | None => false end.
Definition num (i n : nat) (s : string) : option Z :=
  let t := sub i n s in
  if Nat.eqb (String.length t) n then digits t else None.
Definition guard (b : bool) : option unit := if b then Some tt else None.

Fixpoint digit_run (fuel i : nat) (s : string) : nat :=
  match fuel with
  | O => i
  | S f => match String.get i s with
           | Some c => if is_digit c then digit_run f (S i) s else i
           | None => i
           end
  end.
(** Where the date part ends. *)
Definition separator (s : string) : option nat :=
  let n := String.length s in
  if Nat.eqb n 7 then Some 7%nat
  else if at_ 4 "-" s then
    if at_ 5 "W" s then
      if at_ 8 "-" s then
        if Nat.eqb n 9 then None
        else match String.get 10 s with
             | Some c => if is_digit c then Some 8%nat else Some 10%nat
             | None => Some 10%nat
             end
      else Some 8%nat
    else Some 10%nat
  else if at_ 4 "W" s then
    let i := digit_run n 7 s in
    if Nat.ltb i 9 then Some i
    else if Nat.even i then Some 7%nat else Some 8%nat
  else Some 8%nat.

Definition week1_monday (y : Z) : Z :=
  let first := ymd2ord y 1 1 in
  let wd := (first + 6) mod 7 in
  first - wd + (if 3 <? wd then 7 else 0).
Definition week_date (y w d : Z) : option Z :=
  let first_weekday := ymd2ord y 1 1 mod 7 in
  let long := (first_weekday =? 4) || ((first_weekday =? 3) && is_leap y) in
  _ ← guard ((1 <=? y) && (y <=? 9999));
  _ ← guard ((0 <? w) && ((w <? 53) || ((w =? 53) && long)));
  _ ← guard ((0 <? d) && (d <? 8));
  Some (week1_monday y + (w - 1) * 7 + (d - 1)).

(** The ordinal of the date part. *)
Definition parse_date (s : string) : option Z :=
  let n := String.length s in
  y ← num 0 4 s;
  let sep := at_ 4 "-" s in
  let p := if sep then 5%nat else 4%nat in
  if at_ p "W" s then
    w ← num (p + 1) 2 s;
    if Nat.ltb (p + 3) n then
      _ ← guard (Bool.eqb (at_ (p + 3) "-" s) sep);
      d ← num (if sep then p + 4 else p + 3)%nat 1 s;
      week_date y w d
    else week_date y w 1
  else
    m ← num p 2 s;
    _ ← guard (Bool.eqb (at_ (p + 2) "-" s) sep);
    d ← num (if sep then p + 3 else p + 2)%nat 2 s;
    _ ← guard (valid_date y m d);
    Some (ymd2ord y m d).

(** [HH[:?MM[:?SS[{.,}fff[fff]]]]] as the C implementation scans it: the
    components, the microseconds, and whether something follows.  [more] says
    that the scanned text is itself followed by an offset. *)
Definition scan_fraction (pos : nat) (s : string) (more : bool) : option (Z * bool) :=
  let rest := (String.length s - pos)%nat in
  let k := Nat.min rest 6 in
  f ← num pos k s;
  Some (f * 10 ^ Z.of_nat (6 - k),
        negb (all_chars is_digit (sub (pos + k) rest s)) || more).
Fixpoint scan (left : nat) (sep : option bool) (pos : nat) (s : string) (more : bool)
    : option (list Z * Z * bool) :=
  let n := String.length s in
  v ← num pos 2 s;
  match String.get (pos + 2) s with
  | None => Some ([v], 0, more)
  | Some c =>
      if Nat.leb n (pos + 3) then Some ([v], 0, true)
      else
        let sep := default (Ascii.eqb c ":") sep in
        let fraction q := '(us, tr) ← scan_fraction q s more; Some ([v], us, tr) in
        let next q := match left with
                      | O => None
                      | S left' => '(vs, us, tr) ← scan left' (Some sep) q s more;
                                   Some (v :: vs, us, tr)
                      end in
        if sep && Ascii.eqb c ":" then next (pos + 3)%nat
        else if Ascii.eqb c "." || Ascii.eqb c "," then fraction (pos + 3)%nat
        else if sep then None
        else match left with O => fraction (pos + 2)%nat | S _ => next (pos + 2)%nat end
  end.
Definition parse_hms (s : string) (more : bool) : option (Z * Z * Z * Z * bool) :=
  '(vs, us, tr) ← scan 2 None 0 s more;
  Some (nth 0 vs 0, nth 1 vs 0, nth 2 vs 0, us, tr).

Fixpoint find_tz (i : nat) (s : string) : option nat :=
  match s with
  | "" => None
  | String c s' =>
      if Ascii.eqb c "-" || Ascii.eqb c "+" || Ascii.eqb c "Z" then Some i
      else find_tz (S i) s'
  end.
Definition micros (h m s us : Z) : Z := h * hour + m * minute + s * second + us.
Definition parse_offset (neg : bool) (s : string) : option Z :=
  '(h, m, sc, us, tr) ← parse_hms s false;
  let off := if neg then - micros h m sc us else micros h m sc us in
  _ ← guard (negb tr && (- day <? off) && (off <? day));
  Some off.
(** The clock reading; nothing may follow it unless an offset does. *)
Definition parse_clock (s : string) (more : bool) : option Z :=
  '(h, m, sc, us, tr) ← parse_hms s more;
  _ ← guard ((h <? 24) && (m <? 60) && (sc <? 60) && (more || negb tr));
  Some (micros h m sc us).
Definition parse_time (s : string) : option (Z * option Z) :=
  let n := String.length s in
  match find_tz 0 s with
  | None => t ← parse_clock s false; Some (t, None)
  | Some i =>
      t ← parse_clock (sub 0 i s) true;
      let rest := sub (i + 1) (n - (i + 1)) s in
      if at_ i "Z" s then
        _ ← guard (Nat.eqb (String.length rest) 0); Some (t, Some 0)
      else off ← parse_offset (at_ i "-" s) rest; Some (t, Some off)
  end.

Definition fromisoformat (s : string) : option datetime :=
  let n := String.length s in
  _ ← guard (Nat.leb 7 n);
  i ← separator s;
  o ← parse_date (sub 0 i s);
  _ ← guard ((1 <=? o) && (o <=? 3652059));
  if Nat.leb n i then Some (DT ((o - 1) * day) None)
  else t ← parse_time (sub (i + 1) (n - (i + 1)) s);
       Some (DT ((o - 1) * day + t.1) t.2).

(** The code's idiom [fromisoformat(value.replace("Z", "+00:00"))]. *)
Definition parse_iso (s : string) : option datetime :=
  fromisoformat (replace_char "Z" "+00:00" s).

(** ** [datetime.isoformat] *)
Definition dchr (k : Z) : ascii := chr (48 + k).
Definition d2 (n : Z) (s : string) : string :=
  String (dchr (n / 10 mod 10)) (String (dchr (n mod 10)) s).
Definition d4 (n : Z) (s : string) : string := d2 (n / 100) (d2 (n mod 100) s).
Definition us_suffix (us : Z) (s : string) : string :=
  if us =? 0 then s else String "." (d2 (us / 10000) (d4 (us mod 10000) s)).
Definition off_suffix (off : option Z) : string :=
  match off with
  | None => ""
  | Some o =>
      let a := Z.abs o in
      let sec := a mod minute / second in
      String (if o <? 0 then "-" else "+")
        (d2 (a / hour) (String ":" (d2 (a mod hour / minute)
          (if (sec =? 0) && (a mod second =? 0) then ""
           else String ":" (d2 sec (us_suffix (a mod second) ""))))))
  end.
Definition isoformat (t : datetime) : string :=
  let w := dt_wall t in
  let '(y, m, d) := ord2ymd (w / day + 1) in
  let r := w mod day in
  d4 y (String "-" (d2 m (String "-" (d2 d (String "T"
    (d2 (r / hour) (String ":" (d2 (r mod hour / minute) (String ":"
      (d2 (r mod minute / second) (us_suffix (r mod second) (off_suffix (dt_off t))))))))))))).

(** ** Operations on datetimes *)
(** [datetime.now(UTC)] at instant [now] (microseconds since 0001-01-01 UTC). *)
Definition utc (now : Z) : datetime := DT now (Some 0).
(** [t.replace(microsecond=0)] *)
Definition whole_second (t : datetime) : datetime :=
  DT (dt_wall t - dt_wall t mod second) (dt_off t).
(** [t.tzinfo is None] *)
Definition naive (t : datetime) : bool := match dt_off t with None => true | Some _ => false end.
Definition instant (t : datetime) : Z := dt_wall t - default 0 (dt_off t).
(** [a <= b], [a < b]: naive and aware values do not compare. *)
Definition compare_with (f : Z -> Z -> bool) (a b : datetime) : res bool :=
  match dt_off a, dt_off b with
  | None, None => Ok (f (dt_wall a) (dt_wall b))
  | Some _, Some _ => Ok (f (instant a) (instant b))
  | _, _ => Raise (TypeError "can't compare offset-naive and offset-aware datetimes")
  end.
Definition dt_le := compare_with Z.leb.
Definition dt_lt := compare_with Z.ltb.
Definition date_overflow {A} : res A := Raise (OverflowError "date value out of range").
(** [t.astimezone(UTC)] of an aware value *)
Definition astimezone_utc (t : datetime) : res datetime :=
  let i := instant t in
  if (0 <=? i) && (i <? max_wall) then Ok (utc i) else date_overflow.
(** [t + timedelta(minutes=n)] *)
Definition add_minutes (t : datetime) (n : Z) : res datetime :=
  let delta := n * minute in
  if 999999999 <? Z.abs (delta / day) then
    Raise (OverflowError ("days=" +:+ of_Z (delta / day) +:+ "; must have magnitude <= 999999999"))
  else
    let w := dt_wall t + delta in
    if (0 <=? w) && (w <? max_wall) then Ok (DT w (dt_off t)) else date_overflow.
(** [handoffctl.now()] *)
Definition now_str (now : Z) : string := isoformat (whole_second (utc now)).

(** ** The calendar conversions are inverse *)

(** Every offset of a 2^depth interval, by bisection. *)
Fixpoint all_in (depth : nat) (lo : Z) (p : Z -> bool) : bool :=
  match depth with
  | O => p lo
  | S k => all_in k lo p && all_in k (lo + 2 ^ Z.of_nat k) p
  end.
Lemma all_in_spec depth lo p :
  all_in depth lo p = true -> forall z, lo <= z < lo + 2 ^ Z.of_nat depth -> p z = true.
Proof.
  revert lo. induction depth as [|k IH]; cbn [all_in]; intros lo H z Hz.
  { replace z with lo by lia. done. }
  apply andb_true_iff in H as [H1 H2].
  rewrite Nat2Z.inj_succ, Z.pow_succ_r in Hz by lia.
  destruct (decide (z < lo + 2 ^ Z.of_nat k)); [apply (IH lo H1); lia | apply (IH _ H2); lia].
Qed.

Definition month_day_ok (leap : bool) (n : Z) : bool :=
  let '(m, d) := month_day leap n in
  (month_before m + b2z ((2 <? m) && leap) + d =? n + 1)
  && (1 <=? m) && (m <=? 12) && (1 <=? d)
  && (d <=? (if (m =? 2) && leap then 29 else month_days m)).

Lemma month_day_spec leap n :
  0 <= n < 365 + b2z leap -> month_day_ok leap n = true.
Proof.
  assert (H : forall l, all_in 9 0 (fun n => implb (n <? 365 + b2z l) (month_day_ok l n)) = true)
    by (intros []; vm_compute; done).
  intros Hn. pose proof (all_in_spec _ _ _ (H leap) n) as Hz. cbv beta in Hz.
  replace (n <? 365 + b2z leap) with true in Hz by (symmetry; apply Z.ltb_lt; lia).
  apply Hz. change (2 ^ Z.of_nat 9) with 512. destruct leap; unfold b2z in *; lia.
Qed.

(** The digits of a year in the 400/100/4/1-year cycles. *)
Lemma cycle_digits q a b c :
  0 <= a <= 3 -> 0 <= b <= 24 -> 0 <= c <= 3 ->
  let y := q * 400 + 1 + a * 100 + b * 4 + c in
  days_before_year y = 146097 * q + 36524 * a + 1461 * b + 365 * c
  /\ is_leap y = (c =? 3) && (negb (b =? 24) || (a =? 3)).
Proof.
  intros Ha Hb Hc y. unfold days_before_year, is_leap. cbv zeta.
  replace ((y - 1) / 4) with (100 * q + 25 * a + b) by (apply (Z.div_unique _ _ _ c); lia).
  replace ((y - 1) / 100) with (4 * q + a) by (apply (Z.div_unique _ _ _ (4 * b + c)); lia).
  replace ((y - 1) / 400) with q by (apply (Z.div_unique _ _ _ (100 * a + 4 * b + c)); lia).
  split; [lia|].
  assert (E4 : y mod 4 = if c =? 3 then 0 else c + 1).
  { destruct (Z.eqb_spec c 3).
    - symmetry; apply (Z.mod_unique _ _ (100 * q + 25 * a + b + 1)); lia.
    - symmetry; apply (Z.mod_unique _ _ (100 * q + 25 * a + b)); lia. }
  rewrite E4. destruct (Z.eqb_spec c 3) as [->|]; [|by replace (c + 1 =? 0) with false by lia].
  assert (E100 : y mod 100 = if b =? 24 then 0 else 4 * b + 4).
  { destruct (Z.eqb_spec b 24).
    - symmetry; apply (Z.mod_unique _ _ (4 * q + a + 1)); lia.
    - symmetry; apply (Z.mod_unique _ _ (4 * q + a)); lia. }
  rewrite E100. destruct (Z.eqb_spec b 24) as [->|]; [|by replace (4 * b + 4 =? 0) with false by lia].
  assert (E400 : y mod 400 = if a =? 3 then 0 else 100 * a + 100).
  { destruct (Z.eqb_spec a 3).
    - symmetry; apply (Z.mod_unique _ _ (q + 1)); lia.
    - symmetry; apply (Z.mod_unique _ _ q); lia. }
  rewrite E400. destruct (Z.eqb_spec a 3); [done|].
  by replace (100 * a + 100 =? 0) with false by lia.
Qed.

Lemma ord2ymd_spec n :
  1 <= n <= 3652059 ->
  let '(y, m, d) := ord2ymd n in ymd2ord y m d = n /\ valid_date y m d = true.
Proof.
  intros Hn. unfold ord2ymd. cbv zeta.
  pose proof (Z.div_mod (n - 1) 146097 ltac:(lia)) as D0.
  pose proof (Z.mod_pos_bound (n - 1) 146097 ltac:(lia)) as B0.
  set (q := (n - 1) / 146097) in *. set (r0 := (n - 1) mod 146097) in *. clearbody q r0.
  pose proof (Z.div_mod r0 36524 ltac:(lia)) as D1.
  pose proof (Z.mod_pos_bound r0 36524 ltac:(lia)) as B1.
  set (a := r0 / 36524) in *. set (r1 := r0 mod 36524) in *. clearbody a r1.
  pose proof (Z.div_mod r1 1461 ltac:(lia)) as D2.
  pose proof (Z.mod_pos_bound r1 1461 ltac:(lia)) as B2.
  set (b := r1 / 1461) in *. set (r2 := r1 mod 1461) in *. clearbody b r2.
  pose proof (Z.div_mod r2 365 ltac:(lia)) as D3.
  pose proof (Z.mod_pos_bound r2 365 ltac:(lia)) as B3.
  set (c := r2 / 365) in *. set (r3 := r2 mod 365) in *. clearbody c r3.
  assert (Hr : 0 <= q <= 24 /\ 0 <= a <= 4 /\ 0 <= b <= 24 /\ 0 <= c <= 4) by lia.
  destruct (Z.eqb_spec c 4) as [->|Hc]; [|destruct (Z.eqb_spec a 4) as [->|Ha]]; cbn [orb].
  - (* the last day of a leap year *)
    assert (a <= 3 /\ r3 = 0) as [? ->] by lia.
    destruct (cycle_digits q a b 3) as [Eb El]; [lia..|].
    replace (q * 400 + 1 + a * 100 + b * 4 + 4 - 1) with (q * 400 + 1 + a * 100 + b * 4 + 3) by lia.
    assert (Hl : negb (b =? 24) || (a =? 3) = true) by lia.
    rewrite Hl in El. unfold ymd2ord, days_before_month, valid_date, days_in_month.
    rewrite Eb, El. change (month_before 12) with 334. change (month_days 12) with 31.
    cbn [Z.ltb Z.eqb Z.compare Pos.compare Pos.compare_cont andb b2z Pos.eqb].
    split; [lia|]. repeat (apply andb_true_iff; split); lia.
  - assert (b = 0 /\ c = 0 /\ r3 = 0) as (-> & -> & ->) by lia.
    destruct (cycle_digits q 3 24 3) as [Eb El]; [lia..|].
    replace (q * 400 + 1 + 4 * 100 + 0 * 4 + 0 - 1) with (q * 400 + 1 + 3 * 100 + 24 * 4 + 3) by lia.
    unfold ymd2ord, days_before_month, valid_date, days_in_month.
    rewrite Eb, El. change (month_before 12) with 334. change (month_days 12) with 31.
    cbn [Z.ltb Z.eqb Z.compare Pos.compare Pos.compare_cont andb orb negb b2z Pos.eqb].
    split; [lia|]. repeat (apply andb_true_iff; split); lia.
  - destruct (cycle_digits q a b c) as [Eb El]; [lia..|].
    set (y := q * 400 + 1 + a * 100 + b * 4 + c) in *.
    assert (Hy : 1 <= y <= 9999) by lia. clearbody y.
    set (leap := (c =? 3) && (negb (b =? 24) || (a =? 3))) in *.
    pose proof (month_day_spec leap r3) as Hm. unfold month_day_ok in Hm.
    destruct (month_day leap r3) as [m d].
    assert (Hm' := Hm ltac:(destruct leap; unfold b2z; lia)). clear Hm.
    repeat (apply andb_true_iff in Hm' as [Hm' ?]). apply Z.eqb_eq in Hm'.
    unfold ymd2ord, days_before_month, valid_date, days_in_month. rewrite Eb, El.
    split; [lia|]. repeat (apply andb_true_iff; split); done || lia.
Qed.

(** ** Reading back what [isoformat] writes *)
Lemma dchr_facts k :
  0 <= k < 10 ->
  is_digit (dchr k) = true /\ ord (dchr k) - 48 = k /\ Ascii.eqb (dchr k) "-" = false
  /\ Ascii.eqb (dchr k) "+" = false /\ Ascii.eqb (dchr k) "Z" = false
  /\ Ascii.eqb (dchr k) "W" = false /\ Ascii.eqb "Z" (dchr k) = false.
Proof.
  intros H. assert (k = 0 \/ k = 1 \/ k = 2 \/ k = 3 \/ k = 4 \/ k = 5 \/ k = 6 \/ k = 7 \/ k = 8 \/ k = 9)
    as Hk by lia.
  repeat destruct Hk as [-> | Hk]; subst; vm_compute; done.
Qed.

Lemma d2_num n s : 0 <= n < 100 -> num 0 2 (d2 n s) = Some n.
Proof.
  intros Hn. unfold num, d2, sub. change (String.substring 0 2
    (String (dchr (n / 10 mod 10)) (String (dchr (n mod 10)) s)))
    with (String (dchr (n / 10 mod 10)) (String (dchr (n mod 10)) (String.substring 0 0 s))).
  replace (String.substring 0 0 s) with "" by (by destruct s).
  pose proof (Z.mod_pos_bound (n / 10) 10 ltac:(lia)). pose proof (Z.mod_pos_bound n 10 ltac:(lia)).
  destruct (dchr_facts (n / 10 mod 10)) as (D1&O1&_); [lia|].
  destruct (dchr_facts (n mod 10)) as (D2&O2&_); [lia|].
  cbn [String.length Nat.eqb digits digits_go]. rewrite D1, D2, O1, O2. f_equal.
  rewrite (Z.mod_small (n / 10)).
  - pose proof (Z.div_mod n 10). lia.
  - split; [apply Z.div_pos; lia | apply Z.div_lt_upper_bound; lia].
Qed.

(** [num] reads a window of the text. *)
Lemma num_skip i n c s : num (S i) n (String c s) = num i n s.
Proof. done. Qed.
Lemma num_skip_d2 i n k s : num (S (S i)) n (d2 k s) = num i n s.
Proof. done. Qed.
Lemma num_skip_d4 i n k s : num (S (S (S (S i)))) n (d4 k s) = num i n s.
Proof. done. Qed.
Lemma substring_full s : String.substring 0 (String.length s) s = s.
Proof. induction s as [|c s IH]; [done|]. cbn. by rewrite IH. Qed.

Section roundtrip.
  Context (y m d h mi sc : Z).
  Context (Hy : 0 <= y < 10000) (Hm : 0 <= m < 100) (Hd : 0 <= d < 100)
          (Hh : 0 <= h < 24) (Hmi : 0 <= mi < 60) (Hsc : 0 <= sc < 60).

Definition date_text : string := d4 y (String "-" (d2 m (String "-" (d2 d "")))).
Definition clock_text : string := d2 h (String ":" (d2 mi (String ":" (d2 sc "")))).

Lemma d4_num s : num 0 4 (d4 y s) = Some y.
  Proof using Hy.
    assert (H1 : 0 <= y / 100 < 100)
      by (split; [apply Z.div_pos; lia | apply Z.div_lt_upper_bound; lia]).
    pose proof (Z.mod_pos_bound y 100 ltac:(lia)) as H2.
    unfold d4. set (a := y / 100) in *. set (b := y mod 100) in *.
    assert (E : y = 100 * a + b) by (apply Z.div_mod; lia). clearbody a b.
    unfold num, d2, sub. cbn [String.substring].
    replace (String.substring 0 0 s) with "" by (by destruct s).
    pose proof (Z.mod_pos_bound (a / 10) 10 ltac:(lia)). pose proof (Z.mod_pos_bound a 10 ltac:(lia)).
    pose proof (Z.mod_pos_bound (b / 10) 10 ltac:(lia)). pose proof (Z.mod_pos_bound b 10 ltac:(lia)).
    destruct (dchr_facts (a / 10 mod 10)) as (D1&O1&_); [lia|].
    destruct (dchr_facts (a mod 10)) as (D2&O2&_); [lia|].
    destruct (dchr_facts (b / 10 mod 10)) as (D3&O3&_); [lia|].
    destruct (dchr_facts (b mod 10)) as (D4&O4&_); [lia|].
    cbn [String.length Nat.eqb digits digits_go]. rewrite D1, D2, D3, D4, O1, O2, O3, O4. f_equal.
    assert (a / 10 < 10) by (apply Z.div_lt_upper_bound; lia).
    assert (b / 10 < 10) by (apply Z.div_lt_upper_bound; lia).
    rewrite !(Z.mod_small (_ / 10)) by (split; [apply Z.div_pos; lia | done]).
    pose proof (Z.div_mod a 10). pose proof (Z.div_mod b 10). lia.
  Qed.

Lemma parse_date_text :
    valid_date y m d = true -> parse_date date_text = Some (ymd2ord y m d).
  Proof using Hy Hm Hd.
    intros Hv. unfold parse_date, date_text. rewrite d4_num. cbn [mbind option_bind].
    pose proof (Z.mod_pos_bound (m / 10) 10 ltac:(lia)) as Hk.
    destruct (dchr_facts (m / 10 mod 10)) as (_&_&_&_&_&HW&_); [done|].
    unfold at_. cbn [d4 d2 String.get]. change (Ascii.eqb "-" "-") with true. cbn iota.
    cbn [Nat.add String.get]. rewrite HW. rewrite !num_skip_d4, !num_skip, d2_num by done. cbn [mbind option_bind].
    change (Ascii.eqb "-" "-") with true. cbn [Bool.eqb guard mbind option_bind].
    rewrite num_skip_d2, num_skip, d2_num by done. cbn [mbind option_bind].
    by rewrite Hv.
  Qed.

Lemma parse_clock_text : parse_clock clock_text true = Some (micros h mi sc 0).
  Proof using Hh Hmi Hsc.
    unfold parse_clock, parse_hms, clock_text. cbn [scan Nat.add].
    repeat rewrite ?num_skip_d2, ?num_skip. rewrite !d2_num by lia.
    cbn [mbind option_bind id].
    cbn [d2 String.get String.length Nat.leb]. change (Ascii.eqb ":" ":") with true.
    cbn [default id andb mbind option_bind nth orb negb].
    replace (h <? 24) with true by lia. replace (mi <? 60) with true by lia.
    by replace (sc <? 60) with true by lia.
  Qed.

Lemma find_tz_text s :
    find_tz 0 (d2 h (String ":" (d2 mi (String ":" (d2 sc (String "+" s)))))) = Some 8%nat.
  Proof using Hh Hmi Hsc.
    assert (F : forall k, 0 <= k < 10 -> forall i s, find_tz i (String (dchr k) s) = find_tz (S i) s).
    { intros k Hk i s'. cbn [find_tz]. destruct (dchr_facts k Hk) as (_&_&E1&E2&E3&_).
      by rewrite E1, E2, E3. }
    assert (C : forall i s, find_tz i (String ":" s) = find_tz (S i) s) by done.
    unfold d2. repeat first [rewrite F by (apply Z.mod_pos_bound; lia) | rewrite C]. done.
  Qed.
End roundtrip.

Lemma sub_app s t : sub 0 (String.length s) (s +:+ t) = s.
Proof.
  unfold sub. induction s as [|c s IH]; [by destruct t|].
  change (String c s +:+ t) with (String c (s +:+ t)). cbn. by rewrite IH.
Qed.

(** A whole-second UTC instant in range is read back exactly. *)
Lemma fromisoformat_isoformat w :
  0 <= w < max_wall -> w mod second = 0 ->
  fromisoformat (isoformat (utc w)) = Some (utc w).
Proof.
  intros Hw Hs.
  pose proof (ord2ymd_spec (w / day + 1)) as Ho.
  assert (Hday : 0 < day) by done. assert (Hhour : 0 < hour) by done.
  assert (Hminute : 0 < minute) by done. assert (Hsecond : 0 < second) by done.
  pose proof (Z.div_mod w day ltac:(lia)) as Dw.
  pose proof (Z.mod_pos_bound w day Hday) as Bw.
  assert (Hq : 0 <= w / day < 3652059).
  { unfold max_wall in Hw. split; [apply Z.div_pos; lia | apply Z.div_lt_upper_bound; lia]. }
  specialize (Ho ltac:(lia)). unfold isoformat. cbn [utc dt_wall dt_off].
  destruct (ord2ymd (w / day + 1)) as [[y m] d]. destruct Ho as [Eo Hv].
  set (q := w / day) in *. set (r := w mod day) in *. clearbody q r.
  assert (Hr : r mod second = 0).
  { rewrite Dw in Hs. unfold day, hour, minute in *.
    replace (24 * (60 * (60 * second)) * q + r) with (r + 86400 * q * second) in Hs by ring.
    by rewrite Z.mod_add in Hs by done. }
  assert (Er : r = r / hour * hour + r mod hour / minute * minute + r mod minute / second * second).
  { pose proof (Z.div_mod r hour ltac:(done)). pose proof (Z.div_mod (r mod hour) minute ltac:(done)).
    assert (E1 : r mod hour mod minute = r mod minute)
      by (symmetry; apply Znumtheory.Zmod_div_mod; [done..|by exists 60]).
    pose proof (Z.div_mod (r mod minute) second ltac:(done)).
    assert (E2 : r mod minute mod second = r mod second)
      by (symmetry; apply Znumtheory.Zmod_div_mod; [done..|by exists 60]).
    lia. }
  assert (Bh : 0 <= r / hour < 24)
    by (split; [apply Z.div_pos; lia | apply Z.div_lt_upper_bound; unfold day in Bw; lia]).
  assert (Bm : 0 <= r mod hour / minute < 60).
  { pose proof (Z.mod_pos_bound r hour ltac:(done)).
    split; [apply Z.div_pos; lia | apply Z.div_lt_upper_bound; unfold hour in *; lia]. }
  assert (Bs : 0 <= r mod minute / second < 60).
  { pose proof (Z.mod_pos_bound r minute ltac:(done)).
    split; [apply Z.div_pos; lia | apply Z.div_lt_upper_bound; unfold minute in *; lia]. }
  rewrite Hr. set (h := r / hour) in *. set (mi := r mod hour / minute) in *.
  set (sc := r mod minute / second) in *. clearbody h mi sc.
  assert (Hy : 0 <= y < 10000 /\ 0 <= m < 100 /\ 0 <= d < 100).
  { unfold valid_date in Hv. repeat (apply andb_true_iff in Hv as [Hv ?]).
    assert (days_in_month y m <= 31); [|lia].
    unfold days_in_month. destruct (_ && _); [lia|].
    assert (m = 1 \/ m = 2 \/ m = 3 \/ m = 4 \/ m = 5 \/ m = 6 \/ m = 7 \/ m = 8 \/ m = 9
            \/ m = 10 \/ m = 11 \/ m = 12) as Hm by lia.
    repeat destruct Hm as [-> | Hm]; subst; vm_compute; done. }
  destruct Hy as (Hy & Hm & Hd).
  change (us_suffix 0 (off_suffix (Some 0))) with ("+00:00").
  unfold fromisoformat.
  change (String.length _) with 25%nat. cbn [Nat.leb guard mbind option_bind].
  replace (separator _) with (Some 10%nat); cycle 1.
  { unfold separator, at_. cbn [String.length Nat.eqb d4 d2 String.get].
    change (Ascii.eqb "-" "-") with true. cbn iota.
    destruct (dchr_facts (m / 10 mod 10)) as (_&_&_&_&_&HW&_); [apply Z.mod_pos_bound; lia|].
    by rewrite HW. }
  cbn [mbind option_bind].
  replace (parse_date _) with (Some (ymd2ord y m d)); cycle 1.
  { symmetry. by apply (parse_date_text y m d). }
  cbn [mbind option_bind]. rewrite Eo.
  replace (1 <=? q + 1) with true by lia. replace (q + 1 <=? 3652059) with true by lia.
  cbn [andb guard mbind option_bind Nat.leb].
  set (t := d2 h (String ":" (d2 mi (String ":" (d2 sc "+00:00"))))).
  change (sub (10 + 1) (25 - (10 + 1)) _) with (sub 0 14 t).
  replace (sub 0 14 t) with t by (symmetry; exact (substring_full t)).
  unfold parse_time. unfold t at 1. rewrite (find_tz_text h mi sc) by lia.
  change (sub 0 8 t) with (clock_text h mi sc).
  rewrite parse_clock_text by lia. cbn [mbind option_bind].
  change (at_ 8 "Z" t) with false. cbn iota.
  change (at_ 8 "-" t) with false. change (String.length t) with 14%nat.
  change (sub (8 + 1) (14 - (8 + 1)) t) with "00:00".
  change (parse_offset false "00:00") with (Some 0).
  cbn [mbind option_bind fst snd]. unfold utc, micros. do 2 f_equal. lia.
Qed.

Lemma replace_char_absent c new s : has_char c s = false -> replace_char c new s = s.
Proof.
  unfold has_char. induction s as [|d s IH]; [done|].
  cbn [any_char replace_char]. intros [E H]%orb_false_iff. rewrite E, IH by done. done.
Qed.

Lemma isoformat_no_Z w : has_char "Z" (isoformat (utc w)) = false.
Proof.
  assert (D : forall n s, has_char "Z" (d2 n s) = has_char "Z" s).
  { intros n s. unfold has_char, d2. cbn [any_char].
    destruct (dchr_facts (n / 10 mod 10)) as (_&_&_&_&_&_&->); [apply Z.mod_pos_bound; lia|].
    by destruct (dchr_facts (n mod 10)) as (_&_&_&_&_&_&->); [apply Z.mod_pos_bound; lia|]. }
  assert (C : forall c s, Ascii.eqb "Z" c = false -> has_char "Z" (String c s) = has_char "Z" s).
  { intros c s E. unfold has_char. cbn [any_char]. by rewrite E. }
  unfold isoformat. destruct (ord2ymd _) as [[y m] d]. unfold d4, us_suffix.
  change (off_suffix (dt_off (utc w))) with "+00:00".
  destruct (_ =? 0); unfold d4; repeat (rewrite D || rewrite C by done); done.
Qed.

Lemma parse_iso_isoformat w :
  0 <= w < max_wall -> w mod second = 0 -> parse_iso (isoformat (utc w)) = Some (utc w).
Proof.
  intros Hw Hs. unfold parse_iso.
  rewrite replace_char_absent by apply isoformat_no_Z. by apply fromisoformat_isoformat.
Qed.

Lemma floor_second now :
  0 <= now < max_wall ->
  let w := now - now mod second in 0 <= w < max_wall /\ w mod second = 0 /\ now - second < w <= now.
Proof.
  intros H w. pose proof (Z.mod_pos_bound now second ltac:(done)).
  pose proof (Z.div_mod now second ltac:(done)).
  assert (0 <= now / second) by (apply Z.div_pos; [lia | done]).
  assert (E : w = now / second * second) by lia.
  split_and!; [unfold second in *; lia | unfold second in *; lia | | lia | lia].
  rewrite E. by apply Z.mod_mul.
Qed.

(** [handoffctl.now()] is read back as the current second. *)
Lemma now_str_parse now :
  0 <= now < max_wall -> parse_iso (now_str now) = Some (whole_second (utc now)).
Proof.
  intros (H1 & H2 & _)%floor_second. unfold now_str, whole_second. cbn [utc dt_wall dt_off].
  by apply parse_iso_isoformat.
Qed.

End PyTime.
