(* ===== verification/Sha256.v ===== *)
(** * [hashlib.sha256]

    SHA-256 (FIPS 180-4) on a byte sequence, 32-bit words as [N] with the
    wrap-around of the additions written out.  [hexdigest] is the lower-case
    hexadecimal digest. *)
From S2P Require Import Prelude PyStr Regex.
From Stdlib Require Import NArith.

Module Sha256.
#[local] Open Scope N_scope.

Definition w32 (x : N) : N := N.land x 4294967295.
Definition add32 (x y : N) : N := w32 (x + y).
Definition rotr (n x : N) : N := N.lor (N.shiftr x n) (w32 (N.shiftl x (32 - n))).
Definition not32 (x : N) : N := N.lxor x 4294967295.

(** The constants are the first 32 bits of the fractional parts of the cube
    roots ([K]) and square roots ([H0]) of the first primes. *)
Fixpoint root_bits (k : N) (n : N) (bits : nat) (r : N) : N :=
  match bits with
  | O => r
  | S b => let r' := r + 2 ^ N.of_nat b in root_bits k n b (if r' ^ k <=? n then r' else r)
  end.
Definition frac_root (k p : N) : N := w32 (root_bits k (p * 2 ^ (32 * k)) 40 0).
Definition is_prime (n : N) : bool :=
  forallb (fun d => negb (n mod N.of_nat d =? 0)) (seq 2 (Nat.sub (N.to_nat n) 2)).
Definition primes : list N :=
  Eval vm_compute in List.filter is_prime (map N.of_nat (seq 2 310)).
Definition K : list N := Eval vm_compute in map (frac_root 3) primes.
Definition H0 : list N := Eval vm_compute in map (frac_root 2) (take 8 primes).

(** Message schedule: the last sixteen words, newest first. *)
Definition schedule_next (w : list N) : N :=
  let at_ i := nth i w 0 in
  let s0 := N.lxor (N.lxor (rotr 7 (at_ 14%nat)) (rotr 18 (at_ 14%nat))) (N.shiftr (at_ 14%nat) 3) in
  let s1 := N.lxor (N.lxor (rotr 17 (at_ 1%nat)) (rotr 19 (at_ 1%nat))) (N.shiftr (at_ 1%nat) 10) in
  add32 (add32 (at_ 15%nat) s0) (add32 (at_ 6%nat) s1).
Fixpoint extend (n : nat) (w : list N) : list N :=
  match n with O => [] | S n' => let x := schedule_next w in x :: extend n' (x :: take 15 w) end.
Definition schedule (block : list N) : list N := block ++ extend 48 (List.rev block).

Definition round (st : list N) (kw : N) : list N :=
  match st with
  | [a; b; c; d; e; f; g; h] =>
      let S1 := N.lxor (N.lxor (rotr 6 e) (rotr 11 e)) (rotr 25 e) in
      let ch := N.lxor (N.land e f) (N.land (not32 e) g) in
      let t1 := add32 (add32 h S1) (add32 ch kw) in
      let S0 := N.lxor (N.lxor (rotr 2 a) (rotr 13 a)) (rotr 22 a) in
      let maj := N.lxor (N.lxor (N.land a b) (N.land a c)) (N.land b c) in
      [add32 t1 (add32 S0 maj); a; b; c; add32 d t1; e; f; g]
  | _ => st
  end.
Definition compress (st block : list N) : list N :=
  let kws := zip_with add32 K (schedule block) in
  zip_with add32 st (fold_left round kws st).

(** Padding: a one bit, zeros, the bit length on eight bytes. *)
Fixpoint be_bytes (n : nat) (x : N) : list N :=
  match n with
  | O => []
  | S n' => N.shiftr x (8 * N.of_nat n') :: be_bytes n' (x mod 2 ^ (8 * N.of_nat n'))
  end.
Definition pad (msg : list N) : list N :=
  let len := length msg in
  let z := ((119 - len mod 64) mod 64)%nat in
  msg ++ [128] ++ replicate z 0 ++ be_bytes 8 (8 * N.of_nat len).
Fixpoint words (bytes : list N) : list N :=
  match bytes with
  | a :: b :: c :: d :: rest => (((a * 256 + b) * 256 + c) * 256 + d) :: words rest
  | _ => []
  end.
Fixpoint blocks (fuel : nat) (st ws : list N) : list N :=
  match fuel with
  | O => st
  | S f => match ws with [] => st | _ => blocks f (compress st (take 16 ws)) (drop 16 ws) end
  end.
Definition sha256_words (msg : list N) : list N :=
  let ws := words (pad msg) in blocks (length ws) H0 ws.

Definition hex_char (n : N) : ascii := ascii_of_N (if n <? 10 then 48 + n else 87 + n).
Definition hex32 (x : N) : list ascii :=
  map (fun i => hex_char (N.shiftr x (4 * i) mod 16)) [7; 6; 5; 4; 3; 2; 1; 0].
Definition bytes_of (s : string) : list N := map N_of_ascii (PyStr.to_list s).
Definition hexdigest (s : string) : string :=
  PyStr.of_list (concat (map hex32 (sha256_words (bytes_of s)))).

Example sha256_abc :
  hexdigest "abc" = "ba7816bf8f01cfea414140de5dae2223b00361a396177a9cb410ff61f20015ad".
Proof. vm_compute. reflexivity. Qed.
Example sha256_two_blocks :
  hexdigest "abcdbcdecdefdefgefghfghighijhijkijkljklmklmnlmnomnopnopq"
  = "248d6a61d20638b8e5c026930c3e6039a33ce45964ff2167f6ecedd419db06c1".
Proof. vm_compute. reflexivity. Qed.

(** ** The digest is 64 hexadecimal characters *)
Lemma compress_length st block :
  length st = 8%nat -> length (compress st block) = 8%nat.
Proof.
  intros H. unfold compress. rewrite length_zip_with.
  assert (R : forall kws s, length s = 8%nat -> length (fold_left round kws s) = 8%nat).
  { induction kws as [|k kws IH]; intros s Hs; [done|]. simpl. apply IH.
    do 9 (destruct s as [|? s]; [done|]). done. }
  rewrite R by done. lia.
Qed.
Lemma blocks_length fuel st ws : length st = 8%nat -> length (blocks fuel st ws) = 8%nat.
Proof.
  revert st ws. induction fuel as [|f IH]; intros st ws H; [done|].
  simpl. destruct ws; [done|]. by apply IH, compress_length.
Qed.

Lemma hex_char_hex n : n < 16 -> Regex.hex (hex_char n) = true.
Proof.
  intros H. rewrite <- (N2Nat.id n). assert (N.to_nat n < 16)%nat as Hn by lia.
  revert Hn. generalize (N.to_nat n). intros k Hk. do 16 (destruct k as [|k]; [done|]). lia.
Qed.

Lemma rep_complete p l :
  forallb p l = true ->
  Regex.matches (Regex.rep (length l) (Regex.RChar p)) (PyStr.of_list l).
Proof.
  induction l as [|c l IH]; cbn -[Regex.cat]; [constructor|].
  intros [Hc Hl]%andb_true_iff. apply Regex.cat_spec.
  apply (Regex.MCat _ _ (String c "")); [by constructor | by apply IH].
Qed.

Lemma hexdigest_HEX s : Regex.fullmatch (Regex.HEX 64) (hexdigest s) = true.
Proof.
  apply Regex.fullmatch_matches. unfold hexdigest, Regex.HEX.
  assert (L : length (sha256_words (bytes_of s)) = 8%nat) by (by apply blocks_length).
  set (ws := sha256_words _) in *. clearbody ws.
  set (l := concat (map hex32 ws)).
  assert (Hl : length l = 64%nat).
  { do 9 (destruct ws as [|? ws]; [done|]). done. }
  rewrite <- Hl. apply rep_complete, forallb_forall. unfold l. intros c Hc.
  apply in_concat in Hc as (h & Hh & Hc). apply in_map_iff in Hh as (w & <- & _).
  unfold hex32 in Hc. apply in_map_iff in Hc as (i & <- & _).
  apply hex_char_hex. by apply N.mod_lt.
Qed.

End Sha256.
