(* ===== verification/PyJson.v ===== *)
(** * Canonical JSON and its digest

    [json.dumps(value, sort_keys=True, separators=(",", ":"))] with the
    default [ensure_ascii], and the [sha256:] digest of its bytes that every
    coordinator record uses. *)
From S2P Require Import Prelude PyStr Regex PyVal Sha256.

Module PyJson.
Import PyStr.

Definition u_escape (c : ascii) : string :=
  "\u00" +:+ String (hex_digit (ord c / 16)) (String (hex_digit (ord c mod 16)) "").
Definition escape_char (c : ascii) : string :=
  let o := ord c in
  if o =? 34 then String "\" (String dquote "")
  else if o =? 92 then "\\"
  else if o =? 10 then "\n"
  else if o =? 13 then "\r"
  else if o =? 9 then "\t"
  else if o =? 12 then "\f"
  else if o =? 8 then "\b"
  else if in_range 32 126 c then String c ""
  else u_escape c.
Fixpoint escape (s : string) : string :=
  match s with "" => "" | String c s' => escape_char c +:+ escape s' end.
Definition quoted (s : string) : string := String dquote (escape s) +:+ String dquote "".

(** [sort_keys=True], at every level. *)
Fixpoint insert_item (kv : string * value) (d : dict) : dict :=
  match d with
  | [] => [kv]
  | kv' :: d' => if String.leb kv.1 kv'.1 then kv :: d else kv' :: insert_item kv d'
  end.
Definition sort_items (d : dict) : dict := foldr insert_item [] d.
Fixpoint canon (v : value) : value :=
  match v with
  | VList l => VList (map canon l)
  | VDict d => VDict (sort_items (map (fun kv => (kv.1, canon kv.2)) d))
  | _ => v
  end.

Fixpoint print (v : value) : string :=
  match v with
  | VNull => "null"
  | VBool b => if b then "true" else "false"
  | VInt z => of_Z z
  | VStr s => quoted s
  | VList l => "[" +:+ join "," (map print l) +:+ "]"
  | VDict d => "{" +:+ join "," (map (fun kv => quoted kv.1 +:+ ":" +:+ print kv.2) d) +:+ "}"
  end.
Definition dumps (v : value) : string := print (canon v).

(** ["sha256:" + hashlib.sha256(payload).hexdigest()] *)
Definition sha256 (payload : string) : string := "sha256:" +:+ Sha256.hexdigest payload.
Definition digest (v : value) : string := sha256 (dumps v).

Lemma lit_complete s : Regex.matches (Regex.lit s) s.
Proof.
  induction s as [|c s IH]; cbn -[Regex.cat]; [constructor|].
  apply Regex.cat_spec. apply (Regex.MCat _ _ (String c "") s); [|done].
  constructor. apply Ascii.eqb_refl.
Qed.

Lemma sha256_DIGEST s : Regex.fullmatch Regex.DIGEST (sha256 s) = true.
Proof.
  apply Regex.fullmatch_matches. unfold Regex.DIGEST, sha256. apply Regex.cat_spec.
  constructor; [apply lit_complete|].
  apply Regex.fullmatch_matches, Sha256.hexdigest_HEX.
Qed.
Lemma digest_DIGEST v : Regex.fullmatch Regex.DIGEST (digest v) = true.
Proof. apply sha256_DIGEST. Qed.

Example dumps_sorted :
  dumps (VDict [("b", VList [VInt 1; VNull]); ("a", VStr "x/y")])
  = PyStr.replace_char "'" (String dquote "") "{'a':'x/y','b':[1,null]}".
Proof. vm_compute. reflexivity. Qed.

End PyJson.
#[export] Hint Resolve PyJson.digest_DIGEST PyJson.sha256_DIGEST : coord.
