(* ===== verification/JsonParse.v ===== *)
(** * [json.loads]

    The grammar CPython's decoder accepts, on the values of the model: a number
    with a fraction or an exponent, and an escape above code point 255, are
    outside it ([None]), like a malformed text ([JSONDecodeError]).  The nesting
    of the texts stays below the interpreter's recursion limit.
    [loads_dumps] is the round trip with [json.dumps]. *)
From S2P Require Import Prelude PyStr Regex PyVal PyJson.

Module JsonParse.
Import PyStr.

Definition is_ws (c : ascii) : bool :=
  let n := ord c in (n =? 32) || (n =? 9) || (n =? 10) || (n =? 13).
Fixpoint skip_ws (s : string) : string :=
  match s with
  | String c s' => if is_ws c then skip_ws s' else s
  | "" => ""
  end.
Definition hex_val (c : ascii) : option Z :=
  if is_digit c then Some (ord c - 48)
  else if in_range 97 102 c then Some (ord c - 87)
  else if in_range 65 70 c then Some (ord c - 55)
  else None.
Definition code_point (a b c d : ascii) : option ascii :=
  a ← hex_val a; b ← hex_val b; c ← hex_val c; d ← hex_val d;
  let n := ((a * 16 + b) * 16 + c) * 16 + d in
  if n <=? 255 then Some (chr n) else None.
Definition simple_escape (c : ascii) : option ascii :=
  if Ascii.eqb c dquote then Some c
  else if Ascii.eqb c "\" then Some c
  else if Ascii.eqb c "/" then Some c
  else if Ascii.eqb c "b" then Some (chr 8)
  else if Ascii.eqb c "f" then Some (chr 12)
  else if Ascii.eqb c "n" then Some (chr 10)
  else if Ascii.eqb c "r" then Some (chr 13)
  else if Ascii.eqb c "t" then Some (chr 9)
  else None.
Definition push (c : option ascii) (r : option (string * string)) : option (string * string) :=
  c ← c; '(t, rest) ← r; Some (String c t, rest).
(** The body of a string literal, after its opening quote. *)
Fixpoint parse_string (s : string) : option (string * string) :=
  match s with
  | "" => None
  | String c s' =>
      if Ascii.eqb c dquote then Some ("", s')
      else if Ascii.eqb c "\" then
        match s' with
        | "" => None
        | String e s2 =>
            if Ascii.eqb e "u" then
              match s2 with
              | String a (String b (String c (String d s3))) => push (code_point a b c d) (parse_string s3)
              | _ => None
              end
            else push (simple_escape e) (parse_string s2)
        end
      else if ord c <? 32 then None
      else push (Some c) (parse_string s')
  end.

Fixpoint span_digits (s : string) : string * string :=
  match s with
  | String c s' => if is_digit c then let '(d, r) := span_digits s' in (String c d, r) else ("", s)
  | "" => ("", "")
  end.
(** [-?(0|[1-9]\d{0,})] *)
Definition parse_natural (s : string) : option (Z * string) :=
  match s with
  | String "0" r => Some (0, r)
  | _ => let '(d, r) := span_digits s in z ← digits d; Some (z, r)
  end.
Definition parse_number (s : string) : option (Z * string) :=
  match s with
  | String "-" r => '(z, r) ← parse_natural r; Some (- z, r)
  | _ => parse_natural s
  end.
(** [Some rest] when the text starts with [word]. *)
Fixpoint strip_word (word s : string) : option string :=
  match word, s with
  | "", _ => Some s
  | String c w, String d s' => if Ascii.eqb c d then strip_word w s' else None
  | _, "" => None
  end.

(** A key, a colon and the value that [parse] reads. *)
Definition parse_member (parse : string -> option (value * string)) (s : string)
    : option (string * value * string) :=
  r ← strip_word (String dquote "") s;
  '(k, r) ← parse_string r;
  r ← strip_word ":" (skip_ws r);
  '(v, r) ← parse (skip_ws r);
  Some (k, v, r).

(** One value, the elements of a list after its first bracket or comma, the
    members of an object after its first brace or comma. *)
Fixpoint parse_value (n : nat) (s : string) : option (value * string) :=
  match n, s with
  | S n, String c r =>
      if Ascii.eqb c dquote then '(t, r) ← parse_string r; Some (VStr t, r)
      else if Ascii.eqb c "[" then
        match strip_word "]" (skip_ws r) with
        | Some r => Some (VList [], r)
        | None => '(l, r) ← parse_items n (skip_ws r); Some (VList l, r)
        end
      else if Ascii.eqb c "{" then
        match strip_word "}" (skip_ws r) with
        | Some r => Some (VDict [], r)
        | None => '(d, r) ← parse_members n (skip_ws r); Some (VDict (Py.update [] d), r)
        end
      else if Ascii.eqb c "n" then r ← strip_word "null" s; Some (VNull, r)
      else if Ascii.eqb c "t" then r ← strip_word "true" s; Some (VBool true, r)
      else if Ascii.eqb c "f" then r ← strip_word "false" s; Some (VBool false, r)
      else '(z, r) ← parse_number s; Some (VInt z, r)
  | _, _ => None
  end
with parse_items (n : nat) (s : string) : option (list value * string) :=
  match n with
  | O => None
  | S n =>
      '(v, r) ← parse_value n s;
      match strip_word "," (skip_ws r) with
      | Some r => '(l, r) ← parse_items n (skip_ws r); Some (v :: l, r)
      | None => r ← strip_word "]" (skip_ws r); Some ([v], r)
      end
  end
with parse_members (n : nat) (s : string) : option (dict * string) :=
  match n with
  | O => None
  | S n =>
      '(k, v, r) ← parse_member (parse_value n) s;
      match strip_word "," (skip_ws r) with
      | Some r => '(d, r) ← parse_members n (skip_ws r); Some ((k, v) :: d, r)
      | None => r ← strip_word "}" (skip_ws r); Some ([(k, v)], r)
      end
  end.
(** The fuel is the length of the text: every call consumes a character. *)
Definition loads (s : string) : option value :=
  '(v, r) ← parse_value (S (String.length s)) (skip_ws s);
  if String.eqb (skip_ws r) "" then Some v else None.

(** ** Round trip *)
Lemma app_cons c (s t : string) : String c s +:+ t = String c (s +:+ t).
Proof. done. Qed.
Lemma length_app_str (s t : string) : String.length (s +:+ t) = (String.length s + String.length t)%nat.
Proof. induction s as [|c s IH]; [done|]. rewrite app_cons. cbn. by rewrite IH. Qed.

Lemma parse_escape_char c t :
  parse_string (PyJson.escape_char c +:+ t) = push (Some c) (parse_string t).
Proof. destruct c as [[] [] [] [] [] [] [] []]; reflexivity. Qed.

Lemma parse_string_escape s rest :
  parse_string (PyJson.escape s +:+ String dquote "" +:+ rest) = Some (s, rest).
Proof.
  induction s as [|c s IH]; [reflexivity|]. cbn [PyJson.escape].
  by rewrite PyStr.append_assoc, parse_escape_char, IH.
Qed.
Lemma quoted_app s rest :
  PyJson.quoted s +:+ rest = String dquote (PyJson.escape s +:+ String dquote "" +:+ rest).
Proof. unfold PyJson.quoted. by rewrite !app_cons, PyStr.append_assoc. Qed.

(** Decimal numerals. *)
Definition starts_digit (s : string) : bool := match s with String c _ => is_digit c | "" => false end.
Lemma span_digits_app d rest :
  all_chars is_digit d = true -> starts_digit rest = false -> span_digits (d +:+ rest) = (d, rest).
Proof.
  intros Hd Hr. induction d as [|c d IH].
  - destruct rest as [|c r]; [done|]. cbn [starts_digit] in Hr. change ("" +:+ String c r) with (String c r).
    cbn [span_digits]. by rewrite Hr.
  - cbn [all_chars] in Hd. apply andb_true_iff in Hd as [Hc Hd]. rewrite app_cons. cbn [span_digits].
    by rewrite Hc, IH.
Qed.
Lemma digits_go_app d acc rest :
  all_chars is_digit d = true ->
  digits_go acc (d +:+ rest)
  = match digits_go acc d with Some n => digits_go n rest | None => None end.
Proof.
  revert acc. induction d as [|c d IH]; intros acc Hd; [done|]. cbn [all_chars] in Hd.
  apply andb_true_iff in Hd as [Hc Hd]. rewrite app_cons. cbn [digits_go]. rewrite Hc. by apply IH.
Qed.

Lemma all_chars_app p (s t : string) :
  all_chars p s = true -> all_chars p t = true -> all_chars p (s +:+ t) = true.
Proof.
  intros Hs Ht. induction s as [|c s IH]; [done|]. rewrite app_cons. cbn [all_chars] in *.
  apply andb_true_iff in Hs as [-> Hs]. by apply IH.
Qed.
Definition digit_ok (k : N) : Prop :=
  is_digit (pretty_N_char k) = true /\ (ord (pretty_N_char k) - 48 = Z.of_N k)
  /\ (k <> 0%N -> Ascii.eqb (pretty_N_char k) "0" = false).
Lemma digit_char_ok k : (k < 10)%N -> digit_ok k.
Proof.
  intros Hk. assert (k ∈ [0;1;2;3;4;5;6;7;8;9]%N) as Hin.
  { rewrite !elem_of_cons. lia. }
  unfold digit_ok. repeat (apply elem_of_cons in Hin as [->|Hin]; [split_and!; by intros|]).
  by apply not_elem_of_nil in Hin.
Qed.

(** A positive numeral: digits, none of them a leading zero, of its value. *)
Lemma pretty_go_spec x s : (0 < x)%N ->
  exists c d, pretty_N_go x s = String c d +:+ s /\ all_chars is_digit (String c d) = true /\
    Ascii.eqb c "0" = false /\ digits_go 0 (String c d) = Some (Z.of_N x).
Proof.
  revert s. induction (N.lt_wf_0 x) as [x _ IH]. intros s Hx. rewrite pretty_N_go_step by done.
  pose proof (N.mod_upper_bound x 10 ltac:(lia)) as Hm. pose proof (N.div_mod x 10 ltac:(lia)) as Hdm.
  destruct (digit_char_ok _ Hm) as (Hc1 & Hc2 & Hc3).
  destruct (decide (x / 10 = 0)%N) as [E|E].
  - rewrite E. rewrite pretty_N_go_0. exists (pretty_N_char (x mod 10)), "". split_and!; [done | | |].
    + cbn [all_chars]. by rewrite Hc1.
    + apply Hc3. lia.
    + cbn [digits_go]. rewrite Hc1, Hc2. f_equal. lia.
  - destruct (IH (x / 10)%N) with (s := String (pretty_N_char (x mod 10)) s)
      as (c & d & -> & Hd1 & Hd2 & Hd3); [apply N.div_lt; lia | lia|].
    exists c, (d +:+ String (pretty_N_char (x mod 10)) ""). rewrite <- app_cons.
    split_and!; [by rewrite PyStr.append_assoc | | done |].
    + apply all_chars_app; [done|]. cbn [all_chars]. by rewrite Hc1.
    + rewrite digits_go_app, Hd3 by done. cbn [digits_go]. rewrite Hc1, Hc2. f_equal. lia.
Qed.

(** A numeral of [k] digits is below [10 ^ k]. *)
Lemma digits_go_bound d acc n :
  digits_go acc d = Some n -> 0 <= acc -> n < (acc + 1) * 10 ^ Z.of_nat (String.length d).
Proof.
  revert acc. induction d as [|c d IH]; intros acc H Ha; cbn [digits_go String.length] in *.
  - injection H as <-. lia.
  - destruct (is_digit c) eqn:Ec; [|discriminate]. unfold is_digit, in_range in Ec.
    apply andb_true_iff in Ec as [E1%Z.leb_le E2%Z.leb_le].
    specialize (IH _ H ltac:(lia)). rewrite Nat2Z.inj_succ, Z.pow_succ_r by lia.
    assert (0 < 10 ^ Z.of_nat (String.length d)) by (apply Z.pow_pos_nonneg; lia). nia.
Qed.
Lemma of_Z_width z : 0 < z -> z < 10 ^ Z.of_nat (String.length (of_Z z)).
Proof.
  destruct z as [|p|p]; try lia. intros _. unfold of_Z. change (pretty (Z.pos p)) with (pretty_N_go (N.pos p) "").
  destruct (pretty_go_spec (N.pos p) "") as (c & d & -> & _ & _ & H); [done|].
  pose proof (digits_go_bound _ _ _ H ltac:(lia)) as Hb. rewrite length_app_str.
  replace (String.length "") with 0%nat by done. rewrite Nat.add_0_r. lia.
Qed.

Lemma parse_natural_pretty p rest : starts_digit rest = false ->
  parse_natural (pretty (N.pos p) +:+ rest) = Some (Z.pos p, rest).
Proof.
  intros Hr. change (pretty (N.pos p)) with (pretty_N_go (N.pos p) "").
  destruct (pretty_go_spec (N.pos p) "") as (c & d & -> & H1 & H2 & H3); [done|].
  rewrite PyStr.append_assoc. change ("" +:+ rest) with rest. unfold parse_natural.
  rewrite app_cons at 1. pose proof (span_digits_app (String c d) rest H1 Hr) as Hs.
  rewrite app_cons in *. rewrite Hs. unfold digits. rewrite H3. cbn.
  destruct c as [[] [] [] [] [] [] [] []]; try discriminate H2; done.
Qed.

Lemma parse_number_of_Z z rest : starts_digit rest = false ->
  parse_number (of_Z z +:+ rest) = Some (z, rest).
Proof.
  intros Hr. unfold of_Z. destruct z as [|p|p].
  - reflexivity.
  - change (pretty (Z.pos p)) with (pretty (N.pos p)). unfold parse_number.
    pose proof (parse_natural_pretty p rest Hr) as H.
    change (pretty (N.pos p)) with (pretty_N_go (N.pos p) "") in *.
    destruct (pretty_go_spec (N.pos p) "") as (c & d & E & H1 & _); [done|]. rewrite E in *.
    cbn [all_chars] in H1. apply andb_true_iff in H1 as [H1 _].
    destruct c as [[] [] [] [] [] [] [] []]; try discriminate H1; exact H.
  - change (pretty (Z.neg p)) with ("-" +:+ pretty (N.pos p)). rewrite PyStr.append_assoc.
    change ("-" +:+ ?t) with (String "-" t). cbn [parse_number]. by rewrite parse_natural_pretty.
Qed.

(** A numeral starts with a digit or a minus sign. *)
Definition number_char (c : ascii) : bool := is_digit c || Ascii.eqb c "-".
Lemma of_Z_head z : exists c t, of_Z z = String c t /\ number_char c = true.
Proof.
  unfold of_Z. destruct z as [|p|p]; [by exists "0"%char, "" | | by exists "-"%char, (pretty (N.pos p))].
  change (pretty (Z.pos p)) with (pretty_N_go (N.pos p) "").
  destruct (pretty_go_spec (N.pos p) "") as (c & d & E & H1 & _); [done|].
  exists c, (d +:+ ""). split; [exact E|]. cbn [all_chars] in H1. unfold number_char.
  by apply andb_true_iff in H1 as [-> _].
Qed.
(** A text that begins like no number, constant, list or object is that of a
    string. *)
Definition plain_head (c : ascii) : bool :=
  negb (number_char c || existsb (Ascii.eqb c) ["N"; "T"; "F"; "["; "{"]%char).
Lemma str_plain v c t : Py.str v = String c t -> plain_head c = true -> v = VStr (String c t).
Proof.
  destruct v as [|b|z|s|l|d]; cbn [Py.str Py.repr]; intros E Hc; [| | |by subst s| |];
    try (injection E as <- _; discriminate).
  - destruct b; injection E as <- _; discriminate.
  - destruct (of_Z_head z) as (c' & t' & E' & Hn). rewrite E' in E. injection E as <- _.
    unfold plain_head in Hc. by rewrite Hn in Hc.
Qed.
Lemma parse_value_number n c t : number_char c = true ->
  parse_value (S n) (String c t) = ('(z, r) ← parse_number (String c t); Some (VInt z, r)).
Proof. destruct c as [[] [] [] [] [] [] [] []]; intros H; try discriminate H; reflexivity. Qed.

(** A printed value starts with a character that opens it. *)
Lemma print_head v : exists c t, PyJson.print v = String c t /\
  is_ws c = false /\ Ascii.eqb "]" c = false /\ Ascii.eqb "}" c = false.
Proof.
  destruct v as [|[]|z|s|l|d]; try (eexists _, _; split; [reflexivity | by split_and!]).
  destruct (of_Z_head z) as (c & t & E & Hc). exists c, t. split; [exact E|].
  destruct c as [[] [] [] [] [] [] [] []]; try discriminate Hc; by split_and!.
Qed.

Fixpoint size (v : value) : nat :=
  match v with
  | VList l => S (list_sum (map (fun x => S (size x)) l))
  | VDict d => S (list_sum (map (fun kv => S (size kv.2)) d))
  | _ => 1
  end.

Definition parses (v : value) : Prop := forall n rest, (size v <= n)%nat -> starts_digit rest = false ->
  parse_value n (PyJson.print v +:+ rest) = Some (v, rest).

Lemma skip_ws_print v t : skip_ws (PyJson.print v +:+ t) = PyJson.print v +:+ t.
Proof. destruct (print_head v) as (c & u & -> & Hc & _). rewrite app_cons. cbn [skip_ws]. by rewrite Hc. Qed.

Lemma strip_comma t : strip_word "," (skip_ws (String "," t)) = Some t.
Proof. done. Qed.

Lemma parse_items_print l : Forall parses l -> forall n rest, l <> [] ->
  (list_sum (map (fun x => S (size x)) l) <= n)%nat ->
  parse_items n (join "," (map PyJson.print l) +:+ String "]" rest) = Some (l, rest).
Proof.
  induction 1 as [|x l Hx Hl IH]; intros n rest Hne Hn; [done|]. cbn in Hn.
  destruct n as [|n]; [lia|]. cbn [parse_items map]. destruct l as [|y l].
  - cbn [join String.concat map]. rewrite Hx by (lia || done). reflexivity.
  - change (join "," (PyJson.print x :: map PyJson.print (y :: l)))
      with (PyJson.print x +:+ String "," (join "," (map PyJson.print (y :: l)))).
    rewrite PyStr.append_assoc, app_cons, Hx by (lia || done). cbn [mbind option_bind]. rewrite strip_comma.
    assert (skip_ws (join "," (map PyJson.print (y :: l)) +:+ String "]" rest)
            = join "," (map PyJson.print (y :: l)) +:+ String "]" rest) as ->.
    { cbn [map]. destruct l; [apply skip_ws_print|].
      change (join "," (PyJson.print y :: ?m)) with (PyJson.print y +:+ String "," (join "," m)).
      rewrite PyStr.append_assoc. apply skip_ws_print. }
    rewrite IH; [done | done | cbn in *; lia].
Qed.

(** One printed member, before what follows it. *)
Definition member (kv : string * value) : string := PyJson.quoted kv.1 +:+ ":" +:+ PyJson.print kv.2.
Lemma member_app kv t : member kv +:+ t
  = String dquote (PyJson.escape kv.1 +:+ String dquote "" +:+ String ":" (PyJson.print kv.2 +:+ t)).
Proof. unfold member. by rewrite PyStr.append_assoc, quoted_app, PyStr.append_assoc. Qed.

Lemma parse_member_print n k x t : parses x -> (size x <= n)%nat -> starts_digit t = false ->
  parse_member (parse_value n) (member (k, x) +:+ t) = Some (k, x, t).
Proof.
  intros Hx Hn Ht. rewrite member_app. unfold parse_member.
  assert (forall t, strip_word (String dquote "") (String dquote t) = Some t) as -> by done.
  cbn [mbind option_bind fst snd]. rewrite parse_string_escape. cbn [mbind option_bind].
  assert (forall t, strip_word ":" (skip_ws (String ":" t)) = Some t) as -> by done.
  cbn [mbind option_bind]. rewrite skip_ws_print, Hx by done. done.
Qed.
Lemma skip_ws_members kv d t :
  skip_ws (join "," (map member (kv :: d)) +:+ t) = join "," (map member (kv :: d)) +:+ t.
Proof.
  cbn [map]. destruct d; [by cbn [join String.concat map]; rewrite member_app|].
  change (join "," (member kv :: ?m)) with (member kv +:+ String "," (join "," m)).
  by rewrite PyStr.append_assoc, member_app.
Qed.

Lemma parse_members_print d : Forall (fun kv => parses kv.2) d -> forall n rest, d <> [] ->
  (list_sum (map (fun kv => S (size kv.2)) d) <= n)%nat ->
  parse_members n (join "," (map member d) +:+ String "}" rest) = Some (d, rest).
Proof.
  induction 1 as [|[k x] d Hx Hd IH]; intros n rest Hne Hn; [done|]. cbn in Hn, Hx.
  destruct n as [|n]; [lia|]. cbn [parse_members]. destruct d as [|kv d].
  - cbn [map join String.concat]. rewrite parse_member_print by (lia || done). reflexivity.
  - change (join "," (map member ((k, x) :: kv :: d)))
      with (member (k, x) +:+ String "," (join "," (map member (kv :: d)))).
    rewrite PyStr.append_assoc, app_cons, parse_member_print by (lia || done).
    cbn [mbind option_bind]. rewrite strip_comma, skip_ws_members.
    rewrite IH; [done | done | cbn in *; lia].
Qed.

(** Unique keys: [dict(pairs)] keeps the pairs as they are. *)
Lemma update_app d e : NoDup (Py.keys (d ++ e)) -> Py.update d e = d ++ e.
Proof.
  revert d. induction e as [|[k v] e IH]; intros d Hn; [by rewrite app_nil_r|]. cbn [Py.update].
  assert (Py.dset d k v = d ++ [(k, v)]) as ->.
  { unfold Py.keys in Hn. rewrite map_app in Hn. apply NoDup_app in Hn as (_ & Hn & _).
    clear IH. induction d as [|[j w] d IHd]; [done|]. cbn -[String.eqb].
    destruct (String.eqb_spec k j) as [->|Hkj].
    - exfalso. apply (Hn j); cbn; set_solver.
    - f_equal. apply IHd. intros i Hi. apply Hn. cbn. set_solver. }
  rewrite IH; rewrite <- app_assoc; done.
Qed.

Theorem parse_print v : Py.wf v = true -> parses v.
Proof.
  induction v as [|b|z|s|l IH|d IH] using value_ind'; intros Hw [|n] rest Hn Hr; cbn [size] in Hn; try lia.
  - done.
  - by destruct b.
  - cbn [PyJson.print]. destruct (of_Z_head z) as (c & t & E & Hc).
    pose proof (parse_number_of_Z z rest Hr) as Hp. rewrite E in *. rewrite app_cons in *.
    by rewrite parse_value_number, Hp.
  - cbn [PyJson.print]. rewrite quoted_app. cbn [parse_value].
    rewrite Ascii.eqb_refl, parse_string_escape. done.
  - cbn [PyJson.print]. rewrite PyStr.append_assoc, PyStr.append_assoc.
    change ("[" +:+ ?t) with (String "[" t). change ("]" +:+ rest) with (String "]" rest).
    destruct l as [|x l]; [done|].
    assert (Forall parses (x :: l)) as Hall.
    { cbn [Py.wf] in Hw. rewrite forallb_forall in Hw. rewrite list.Forall_forall in *. intros y Hy.
      apply IH; [done|]. apply Hw. by apply list_elem_of_In. }
    pose proof (parse_items_print (x :: l) Hall n rest ltac:(done) ltac:(lia)) as Hp.
    cbn [parse_value Ascii.eqb Bool.eqb dquote].
    assert (exists c t, join "," (map PyJson.print (x :: l)) +:+ String "]" rest = String c t /\
              is_ws c = false /\ Ascii.eqb "]" c = false) as (c & t & E & Hc1 & Hc2).
    { destruct (print_head x) as (c & t & E & H1 & H2 & _). cbn [map]. destruct l as [|y l].
      - cbn [map join String.concat]. rewrite E. eauto.
      - change (join "," (PyJson.print x :: ?m)) with (PyJson.print x +:+ String "," (join "," m)).
        rewrite E, PyStr.append_assoc. cbn. eauto. }
    rewrite E in *. cbn [skip_ws]. rewrite Hc1. cbn [strip_word]. rewrite Hc2. by rewrite Hp.
  - cbn [PyJson.print]. rewrite PyStr.append_assoc, PyStr.append_assoc.
    change ("{" +:+ ?t) with (String "{" t). change ("}" +:+ rest) with (String "}" rest).
    change (map (fun kv => PyJson.quoted kv.1 +:+ ":" +:+ PyJson.print kv.2) d) with (map member d).
    destruct d as [|kv d]; [done|]. cbn [Py.wf] in Hw. apply andb_true_iff in Hw as [Hk Hw].
    assert (Forall (fun kv => parses kv.2) (kv :: d)) as Hall.
    { rewrite forallb_forall in Hw. rewrite list.Forall_forall in *. intros y Hy.
      apply IH; [done|]. apply Hw. by apply list_elem_of_In. }
    pose proof (parse_members_print (kv :: d) Hall n rest ltac:(done) ltac:(lia)) as Hp.
    cbn [parse_value Ascii.eqb Bool.eqb dquote].
    assert (exists t, join "," (map member (kv :: d)) +:+ String "}" rest = String dquote t) as (t & E).
    { cbn [map]. destruct d as [|y d].
      - cbn [map join String.concat]. rewrite member_app. eauto.
      - change (join "," (member kv :: ?m)) with (member kv +:+ String "," (join "," m)).
        rewrite PyStr.append_assoc, member_app. eauto. }
    rewrite E in *. assert (skip_ws (String dquote t) = String dquote t) as -> by done.
    assert (strip_word "}" (String dquote t) = None) as -> by done. rewrite Hp. cbn [mbind option_bind].
    apply bool_decide_eq_true in Hk. by rewrite update_app.
Qed.

Lemma of_Z_length z : (1 <= String.length (of_Z z))%nat.
Proof. destruct (of_Z_head z) as (c & t & -> & _). cbn. lia. Qed.
Lemma join_length {A} (f : A -> string) (g : A -> nat) l :
  Forall (fun x => (g x <= String.length (f x))%nat) l -> l <> [] ->
  (list_sum (map (fun x => S (g x)) l) <= S (String.length (join "," (map f l))))%nat.
Proof.
  induction 1 as [|x l Hx Hl IH]; [done|]. intros _. destruct l as [|y l]; [cbn in *; lia|].
  change (join "," (map f (x :: y :: l))) with (f x +:+ String "," (join "," (map f (y :: l)))).
  rewrite length_app_str. specialize (IH ltac:(done)). cbn [map list_sum foldr String.length] in *. lia.
Qed.
(** The fuel [loads] uses is enough. *)
Lemma size_print v : (size v <= String.length (PyJson.print v))%nat.
Proof.
  induction v as [|b|z|s|l IH|d IH] using value_ind'; cbn [PyJson.print size].
  - cbn. lia.
  - destruct b; cbn; lia.
  - apply of_Z_length.
  - rewrite <- (Regex.app_nil_r_str (PyJson.quoted s)), quoted_app. cbn [String.length]. lia.
  - destruct l as [|x l]; [by apply Nat.leb_le|]. pose proof (join_length PyJson.print size _ IH ltac:(done)) as H.
    rewrite !length_app_str. cbn [String.length]. lia.
  - destruct d as [|x d]; [by apply Nat.leb_le|].
    assert (Forall (fun kv => size kv.2 <= String.length (member kv))%nat (x :: d)) as Hm.
    { eapply list.Forall_impl; [exact IH|]. intros kv Hkv. cbv beta in *. unfold member. rewrite !length_app_str. lia. }
    pose proof (join_length member (fun kv => size kv.2) (x :: d) Hm ltac:(done)) as H.
    change (map (fun kv => PyJson.quoted kv.1 +:+ ":" +:+ PyJson.print kv.2) (x :: d))
      with (map member (x :: d)).
    rewrite !length_app_str. cbn [String.length]. lia.
Qed.

Theorem loads_print v : Py.wf v = true -> loads (PyJson.print v) = Some v.
Proof.
  intros Hw. unfold loads. rewrite <- (Regex.app_nil_r_str (PyJson.print v)) at 2.
  rewrite skip_ws_print, (parse_print v Hw); [done | | done].
  pose proof (size_print v). lia.
Qed.

(** *** Canonical order *)
Lemma insert_item_keys kv d k : k ∈ Py.keys (PyJson.insert_item kv d) <-> k = kv.1 \/ k ∈ Py.keys d.
Proof.
  induction d as [|x d IH]; cbn; [set_solver|]. destruct (String.leb kv.1 x.1); cbn; [set_solver|].
  rewrite !elem_of_cons, IH. set_solver.
Qed.
Lemma insert_item_perm kv d : PyJson.insert_item kv d ≡ₚ kv :: d.
Proof.
  induction d as [|x d IH]; cbn; [done|]. destruct (String.leb kv.1 x.1); [done|].
  rewrite IH. apply Permutation_swap.
Qed.
Lemma sort_items_perm d : PyJson.sort_items d ≡ₚ d.
Proof.
  unfold PyJson.sort_items. induction d as [|x d IH]; [done|]. cbn [foldr]. by rewrite insert_item_perm, IH.
Qed.
Lemma wf_canon v : Py.wf v = true -> Py.wf (PyJson.canon v) = true.
Proof.
  induction v as [|b|z|s|l IH|d IH] using value_ind'; intros Hw; [done..| |].
  - cbn in *. rewrite forallb_forall in *. intros y Hy. apply in_map_iff in Hy as (x & <- & Hx).
    rewrite list.Forall_forall in IH. apply IH; [by apply list_elem_of_In | by apply Hw].
  - cbn [PyJson.canon Py.wf] in *. apply andb_true_iff in Hw as [Hk Hw]. apply andb_true_iff.
    apply bool_decide_eq_true in Hk. split.
    + apply bool_decide_eq_true. unfold Py.keys. rewrite sort_items_perm, map_map. exact Hk.
    + rewrite forallb_forall in *. intros kv Hkv. apply list_elem_of_In in Hkv.
      rewrite sort_items_perm in Hkv. apply list_elem_of_In, in_map_iff in Hkv as (x & <- & Hx).
      rewrite list.Forall_forall in IH. cbn. apply IH; [by apply list_elem_of_In | by apply Hw].
Qed.

(** [json.loads(json.dumps(v, sort_keys=True))] is [v] with its keys sorted. *)
Theorem loads_dumps v : Py.wf v = true -> loads (PyJson.dumps v) = Some (PyJson.canon v).
Proof. intros Hw. apply loads_print. by apply wf_canon. Qed.

(** *** Parsed values *)
Definition wf_pairs (d : dict) : Prop := NoDup (Py.keys d) /\ Forall (fun kv => Py.wf kv.2 = true) d.

(** Parsed values have unique keys. *)
Lemma update_wf d e : wf_pairs d -> Forall (fun kv => Py.wf kv.2 = true) e -> wf_pairs (Py.update d e).
Proof.
  intros Hd He. revert d Hd. induction He as [|[k v] e Hv He IH]; intros d [H1 H2]; [done|]. cbn [Py.update].
  apply IH. split; [by apply Py.NoDup_dset|]. apply list.Forall_forall. intros [k' v'] Hin.
  apply Py.dget_elem in Hin; [|by apply Py.NoDup_dset]. rewrite Py.dget_dset in Hin. cbn.
  destruct (String.eqb k k'); [by injection Hin as <-|]. apply Py.dget_in in Hin.
  rewrite list.Forall_forall in H2. by apply (H2 (k', v')).
Qed.
Lemma wf_pairs_dict d : wf_pairs d -> Py.wf (VDict d) = true.
Proof.
  intros [H1 H2]. cbn [Py.wf]. apply andb_true_iff. split; [by apply bool_decide_eq_true|].
  apply forallb_forall. intros kv Hkv. rewrite list.Forall_forall in H2. by apply H2, list_elem_of_In.
Qed.

Lemma parse_wf n :
  (forall s v r, parse_value n s = Some (v, r) -> Py.wf v = true) /\
  (forall s l r, parse_items n s = Some (l, r) -> forallb Py.wf l = true) /\
  (forall s d r, parse_members n s = Some (d, r) -> Forall (fun kv => Py.wf kv.2 = true) d).
Proof.
  induction n as [|n (IHv & IHi & IHm)]; [by split_and!|]. split_and!.
  - intros [|c s] v r H; [discriminate|]. cbn [parse_value] in H.
    repeat match type of H with
           | (if ?b then _ else _) = _ => destruct b
           | context [match strip_word ?w ?t with _ => _ end] => destruct (strip_word w t)
           end;
      try (apply bind_Some in H as ([x r'] & E & H)); try (apply bind_Some in H as (r' & E & H));
      injection H as <- <-; try done; cbn; eauto using wf_pairs_dict.
    apply wf_pairs_dict, update_wf; [by split; constructor | eauto].
  - intros s l r H. cbn [parse_items] in H. apply bind_Some in H as ([v r'] & E & H).
    destruct (strip_word _ _) as [r2|].
    + apply bind_Some in H as ([l' r3] & E' & H). injection H as <- <-. cbn.
      by rewrite (IHv _ _ _ E), (IHi _ _ _ E').
    + apply bind_Some in H as (r3 & _ & H). injection H as <- <-. cbn. by rewrite (IHv _ _ _ E).
  - intros s d r H. cbn [parse_members] in H. apply bind_Some in H as ([[k v] r'] & E & H).
    assert (Py.wf v = true) as Hv.
    { unfold parse_member in E. apply bind_Some in E as (r1 & _ & E). apply bind_Some in E as ([] & _ & E).
      apply bind_Some in E as (r2 & _ & E). apply bind_Some in E as ([w r3] & E' & E).
      injection E as -> -> ->. eauto. }
    destruct (strip_word _ _) as [r2|].
    + apply bind_Some in H as ([l' r3] & E' & H). injection H as <- <-. constructor; eauto.
    + apply bind_Some in H as (r3 & _ & H). injection H as <- <-. by repeat constructor.
Qed.
Theorem loads_wf s v : loads s = Some v -> Py.wf v = true.
Proof.
  unfold loads. intros H. apply bind_Some in H as ([w r] & E & H).
  destruct (String.eqb _ _); [|discriminate]. injection H as ->. by eapply (proj1 (parse_wf _)).
Qed.
End JsonParse.
