(* ===== verification/PyUuid.v ===== *)
(** * Identifiers: [uuid.UUID] *)
From S2P Require Import Prelude PyStr PyVal JsonParse.

Module PyUuid.
(** [s.replace("urn:", "").replace("uuid:", "")] *)
Fixpoint drop_urn (s : string) : string :=
  match s with
  | String a ((String b (String c (String d t))) as r) =>
      if String.eqb (String a (String b (String c (String d "")))) "urn:" then drop_urn t
      else String a (drop_urn r)
  | String a r => String a (drop_urn r)
  | "" => ""
  end.
Fixpoint drop_uuid (s : string) : string :=
  match s with
  | String a ((String b (String c (String d (String e t)))) as r) =>
      if String.eqb (String a (String b (String c (String d (String e ""))))) "uuid:" then drop_uuid t
      else String a (drop_uuid r)
  | String a r => String a (drop_uuid r)
  | "" => ""
  end.
Fixpoint lstrip_braces (s : string) : string :=
  match s with
  | String c r => if Ascii.eqb c "{" || Ascii.eqb c "}" then lstrip_braces r else s
  | "" => ""
  end.
Definition strip_braces (s : string) : string :=
  PyStr.rev (lstrip_braces (PyStr.rev (lstrip_braces s))).
(** [int(s, 16)]: digits with single underscores between them, after an
    optional sign and an optional [0x]. *)
Fixpoint hex_digits (acc : Z) (after_digit : bool) (s : string) : option Z :=
  match s with
  | "" => if after_digit then Some acc else None
  | String c r =>
      match JsonParse.hex_val c with
      | Some d => hex_digits (acc * 16 + d) true r
      | None => if Ascii.eqb c "_" && after_digit then
                  match r with "" => None | _ => hex_digits acc false r end
                else None
      end
  end.
Definition unsigned_hex (s : string) : option Z :=
  match s with
  | String "0" (String x r) =>
      if Ascii.eqb x "x" || Ascii.eqb x "X" then
        match r with String "_" r' => hex_digits 0 false r' | _ => hex_digits 0 false r end
      else hex_digits 0 false s
  | _ => hex_digits 0 false s
  end.
Definition int16 (s : string) : option Z :=
  match PyStr.strip s with
  | String "-" t => Z.opp <$> unsigned_hex t
  | String "+" t => unsigned_hex t
  | t => unsigned_hex t
  end.
(** ["%032x"], in groups of 8, 4, 4, 4 and 12 *)
Fixpoint hex_text (n : nat) (z : Z) (s : string) : string :=
  match n with
  | O => s
  | S n => hex_text n (z / 16) (String (PyStr.hex_digit (z mod 16)) s)
  end.
Definition uuid_text (z : Z) : string :=
  let h := hex_text 32 z "" in
  String.substring 0 8 h +:+ "-" +:+ String.substring 8 4 h +:+ "-" +:+ String.substring 12 4 h
  +:+ "-" +:+ String.substring 16 4 h +:+ "-" +:+ String.substring 20 12 h.
(** [uuid.UUID(s).int], or [None] for its [ValueError]. *)
Definition uuid_int (s : string) : option Z :=
  let hex := PyStr.replace_char "-" "" (strip_braces (drop_uuid (drop_urn s))) in
  if PyStr.len hex =? 32 then
    z ← int16 hex;
    if (0 <=? z) && (z <? 2 ^ 128) then Some z else None
  else None.
(** [str(uuid.UUID(s))] *)
Definition UUID (s : string) : option string := uuid_text <$> uuid_int s.
(** [uuid.UUID(s).version]: of an identifier of the RFC 4122 variant only *)
Definition version (z : Z) : option Z :=
  if Z.testbit z 63 && negb (Z.testbit z 62) then Some (Z.land (Z.shiftr z 76) 15) else None.

Example UUID_urn : UUID "urn:uuid:{0123abcd-0000-1111-2222-0123456789AB}"
  = Some "0123abcd-0000-1111-2222-0123456789ab".
Proof. vm_compute. reflexivity. Qed.
Example version_4 : uuid_int "12345678-1234-4abc-8def-0123456789ab" ≫= version = Some 4.
Proof. reflexivity. Qed.
Example version_nil : uuid_int "00000000-0000-0000-0000-000000000000" ≫= version = None.
Proof. reflexivity. Qed.
End PyUuid.
