(* ===== verification/PyPath.v ===== *)
(** * Paths: [posixpath.normpath] and containment of [PurePosixPath]s

    A path in normal form is its own [normpath].  Such a path that is absolute
    names its components without [.] and [..], and it contains another when its
    components are the first ones of the other. *)
From S2P Require Import Prelude PyStr.

Module PyPath.
Import PyStr.

(** [posixpath.normpath] *)
Definition step (rooted : bool) (acc : list string) (c : string) : list string :=
  if String.eqb c "" || String.eqb c "." then acc
  else if negb (String.eqb c "..") || match acc with [] => negb rooted | p :: _ => String.eqb p ".." end then c :: acc
  else match acc with [] => [] | _ :: acc' => acc' end.
Definition slashes (s : string) : string :=
  if startswith "/" s then (if startswith "//" s && negb (startswith "///" s) then "//" else "/") else "".
Definition normpath (s : string) : string :=
  let root := slashes s in
  let r := root +:+ join "/" (List.rev (fold_left (step (startswith "/" s)) (split "/" s) [])) in
  if String.eqb r "" then "." else r.

(** [child.relative_to(parent)] returns: the parts of the parent begin those of
    the child. *)
Fixpoint begins (l m : list string) : bool :=
  match l, m with
  | [], _ => true
  | x :: l, y :: m => String.eqb x y && begins l m
  | _, _ => false
  end.
Definition within (parent child : string) : bool := begins (parts parent) (parts child).

(** [s.rsplit(c, 1)[0]]: without the part from the last [c] on *)
Fixpoint before_last (c : ascii) (s : string) : option string :=
  match s with
  | "" => None
  | String x r => match before_last c r with
                  | Some p => Some (String x p)
                  | None => if Ascii.eqb x c then Some "" else None
                  end
  end.
Definition rsplit0 (c : ascii) (s : string) : string := default s (before_last c s).

Lemma begins_spec l m : begins l m = true <-> exists k, m = l ++ k.
Proof.
  revert m. induction l as [|x l IH]; intros m; cbn; [naive_solver|]. destruct m as [|y m].
  - split; [done | by intros [k [=]]].
  - rewrite andb_true_iff, String.eqb_eq, IH. naive_solver.
Qed.
(** Containment is a partial order of the parts. *)
Lemma within_refl p : within p p = true.
Proof. apply begins_spec. exists []. by rewrite app_nil_r. Qed.
Lemma within_trans p q r : within p q = true -> within q r = true -> within p r = true.
Proof. unfold within. rewrite !begins_spec. intros [k E] [k' E']. rewrite E', E. exists (k ++ k'). by rewrite <- app_assoc. Qed.
(** Two paths with a common path below them contain one another. *)
Lemma within_comparable p q r : within p r = true -> within q r = true -> within p q = true \/ within q p = true.
Proof.
  unfold within. rewrite !begins_spec. intros [k Ek] [k' Ek']. rewrite Ek in Ek'.
  apply app_eq_app in Ek' as [l [[-> _] | [-> _]]]; [right | left]; by eexists.
Qed.

Example normpath_dots : normpath "/a/./b//../c/" = "/a/c". Proof. reflexivity. Qed.
Example normpath_up : normpath "../a/../.." = "../..". Proof. reflexivity. Qed.
Example normpath_root : normpath "/.." = "/". Proof. reflexivity. Qed.
Example normpath_empty : normpath "" = ".". Proof. reflexivity. Qed.
Example rsplit_last : rsplit0 ":" "a:b:c" = "a:b" /\ rsplit0 ":" "abc" = "abc". Proof. by split. Qed.
End PyPath.
