(* ===== verification/RetryCircuit.v ===== *)
(** * Retry circuit ([src/tools/retry_circuit.py])

    Bounded, revision-fenced records of failed commands: a command identity
    that fails [window] times without durable progress is held until an
    explicit recovery.  The state lives in [meta["retry_circuit"]]. *)
From S2P Require Import Prelude PyStr Regex PyVal PyTime PyJson.

Module RetryCircuit.
Import Py PyTime.

Definition fm := Regex.fullmatch.
Definition DIGEST := Regex.DIGEST.
Definition COMMAND_DIGEST := Regex.HEX 64.
Definition COMMIT := Regex.HEX 40.
Definition RESERVATION := Regex.HEX 32.
Definition SCHEMA_VERSION : Z := 1.
Definition DEFAULT_WINDOW : Z := 3.
Definition MAX_WINDOW : Z := 16.
Definition MAX_ATTEMPTS : nat := 64.
Definition MAX_RECOVERIES : nat := 32.
Definition MAX_ABANDONED : nat := 64.
Definition FAILURES : list string := ["EXIT"; "SUBPROCESS_TIMEOUT"; "RETRYABLE"].
Definition RECOVERIES : list string := ["checkpoint"; "changed-approach"; "retry-exception"].
Definition COMMAND_CLASSES : list string := ["read"; "test"; "source-write"; "git-publication"].
Definition STATE_FIELDS : list string :=
  ["schema_version"; "attempts"; "recoveries"; "hold"; "reservations"; "abandoned"].

(** [pattern.fullmatch(str(d.get(k, "")))] *)
Definition fm_str (p : Regex.re) (d : dict) (k : string) : bool :=
  fm p (str (get_or d k (VStr ""))).
(** [pattern.fullmatch(v)] *)
Definition fm_v (p : Regex.re) (v : value) : res bool := let* s := need_str v in Ok (fm p s).

Definition bad_scope_path (path : value) : res bool :=
  match path with
  | VStr p =>
      Ok (negb (PyStr.truthy p) || (1024 <? PyStr.len p) || PyStr.has_char (ascii_of_N 0) p
          || PyStr.startswith "/" p
          || existsb (fun part => PyStr.mem part [""; "."; ".."]) (PyStr.split "/" p))
  | _ => Ok true
  end.
Definition normalized_identity (command_digest : string) (command_class : value)
    (scope_paths : list value) : res string :=
  check raise_if (negb (fm COMMAND_DIGEST command_digest))
          (ValueError "retry circuit command digest is invalid") ;;
  check raise_when (py_and [negb (is_null command_class); py_not (in_set command_class COMMAND_CLASSES)])
          (ValueError "retry circuit command class is invalid") ;;
  check raise_when (py_or [64 <? Z.of_nat (length scope_paths); py_any bad_scope_path scope_paths])
          (ValueError "retry circuit scope is invalid") ;;
  Ok (PyJson.digest (VDict [
        ("command_digest", VStr command_digest);
        ("command_class", if truthy command_class then command_class else VStr "unbound");
        ("scope", strs (PyStr.sorted_set (map str scope_paths)))])).

Definition progress_digest (meta : Meta) : string :=
  let latest_drift :=
    match get meta "change_drift" with
    | VList l => match last l with
                 | Some (VDict d) => str (get_or d "digest" (VStr ""))
                 | _ => ""
                 end
    | _ => ""
    end in
  let acceptance :=
    match get meta "spec_acceptance" with
    | VDict d => str (get_or d "evidence_digest" (VStr ""))
    | _ => ""
    end in
  PyJson.digest (VDict [
    ("checkpoint_commit", VStr (str (get_or meta "checkpoint_commit" (VStr ""))));
    ("change_drift_digest", VStr latest_drift);
    ("spec_acceptance", VStr acceptance)]).

Definition empty : dict := [
  ("schema_version", VInt SCHEMA_VERSION); ("attempts", VList []); ("recoveries", VList []);
  ("hold", VNull); ("reservations", VList []); ("abandoned", VList [])].

Definition _reason (v : value) : res string :=
  match v with
  | VStr s =>
      if negb (PyStr.truthy (PyStr.strip s)) || (500 <? PyStr.len s) || PyStr.has_char "010" s
      then Raise (ValueError "retry circuit recovery reason is invalid")
      else Ok (PyStr.strip s)
  | _ => Raise (ValueError "retry circuit recovery reason is invalid")
  end.

Definition _window (v : value) : res Z :=
  match v with
  | VInt z => if (DEFAULT_WINDOW <=? z) && (z <=? MAX_WINDOW) then Ok z
              else Raise (ValueError "retry circuit window must be 3..16")
  | _ => Raise (ValueError "retry circuit window must be 3..16")
  end.

(** One canonical UTC timestamp. *)
Definition _timestamp (v : value) (field : string) : res datetime :=
  let invalid := Raise (ValueError ("retry circuit " +:+ field +:+ " is invalid")) in
  match v with
  | VStr s =>
      if PyStr.truthy s then
        match parse_iso s with
        | Some t => if naive t then invalid else astimezone_utc t
        | None => invalid
        end
      else invalid
  | _ => invalid
  end.

Definition _validate_attempt (attempt : value) (previous_revision : Z) : res Z :=
  match attempt with
  | VDict d =>
      if keys_are d ["identity"; "failure"; "progress_digest"; "task_revision"; "recorded_at"; "window"]
      then
        check raise_when (py_or [
            negb (fm_str DIGEST d "identity");
            py_not (in_set (get d "failure") FAILURES);
            negb (fm_str DIGEST d "progress_digest");
            negb (type_int (get d "task_revision"));
            (let* r := int_item d "task_revision" in Ok (r <=? previous_revision));
            negb (is_str (get d "recorded_at"));
            falsy_item d "recorded_at"])
          (ValueError "retry circuit attempt is invalid") ;;
        let* _ := _window (get d "window") in
        int_item d "task_revision"
      else Raise (ValueError "retry circuit attempt fields are invalid")
  | _ => Raise (ValueError "retry circuit attempt fields are invalid")
  end.

Definition _validate_recovery (recovery : value) (previous_revision : Z) : res Z :=
  match recovery with
  | VDict d =>
      if keys_are d ["identity"; "progress_digest"; "kind"; "reason"; "task_revision"; "recorded_at";
                     "checkpoint_commit"]
      then
        check raise_when (py_or [
            negb (fm_str DIGEST d "identity");
            negb (fm_str DIGEST d "progress_digest");
            py_not (in_set (get d "kind") RECOVERIES);
            negb (type_int (get d "task_revision"));
            (let* r := int_item d "task_revision" in Ok (r <=? previous_revision));
            negb (is_str (get d "recorded_at"));
            falsy_item d "recorded_at";
            negb (is_str (get d "checkpoint_commit"));
            (let* c := item d "checkpoint_commit" in
             py_and [truthy c; py_not (fm_v COMMIT c)])])
          (ValueError "retry circuit recovery is invalid") ;;
        let* _ := _reason (get d "reason") in
        int_item d "task_revision"
      else Raise (ValueError "retry circuit recovery fields are invalid")
  | _ => Raise (ValueError "retry circuit recovery fields are invalid")
  end.

Definition _hold_fields (hold : value) : res dict :=
  match hold with
  | VDict d =>
      if keys_are d ["identity"; "attempts"; "progress_digest"; "held_at"; "window"] then Ok d
      else Raise (ValueError "retry circuit hold fields are invalid")
  | _ => Raise (ValueError "retry circuit hold fields are invalid")
  end.

Definition _hold_values (hold : dict) : res unit :=
  check raise_when (py_or [
      negb (fm_str DIGEST hold "identity");
      negb (type_int (get hold "attempts"));
      (let* a := int_item hold "attempts" in Ok (a <? DEFAULT_WINDOW));
      negb (fm_str DIGEST hold "progress_digest");
      negb (is_str (get hold "held_at"));
      falsy_item hold "held_at"])
    (ValueError "retry circuit hold is invalid") ;;
  let* w := _window (get hold "window") in
  let* a := item hold "attempts" in
  raise_if (ne (VInt w) a) (ValueError "retry circuit hold threshold is invalid").

(** [item["identity"] == identity and item["progress_digest"] == progress] *)
Definition same_series (identity progress : value) (item : value) : res bool :=
  py_and [(let* i := vitem item "identity" in Ok (eq i identity));
          (let* p := vitem item "progress_digest" in Ok (eq p progress))].
Definition int_vitem (v : value) (k : string) : res Z := let* x := vitem v k in int x.

(** The current series after its latest explicit recovery boundary. *)
Definition _active_attempts (state : dict) (identity progress : value) : res (list value) :=
  let* recoveries := (let* v := item state "recoveries" in iter v) in
  let* mine := filterr (same_series identity progress) recoveries in
  let* revisions := mapr (fun i => int_vitem i "task_revision") mine in
  let recovered_revision := match revisions with [] => 0 | r :: rs => fold_left Z.max rs r end in
  let* attempts := (let* v := item state "attempts" in iter v) in
  filterr (fun i => py_and [is_dict i; same_series identity progress i;
                            (let* r := int_vitem i "task_revision" in
                             Ok (recovered_revision <? r))]) attempts.

Definition _matching_hold_attempts (hold state : dict) : res Z :=
  let* i := item hold "identity" in
  let* p := item hold "progress_digest" in
  let* l := _active_attempts state (VStr (str i)) (VStr (str p)) in
  Ok (Z.of_nat (length l)).

Definition _validate_hold (hold : value) (state : dict) : res unit :=
  if is_null hold then Ok tt
  else
    let* checked := _hold_fields hold in
    check _hold_values checked ;;
    let* n := _matching_hold_attempts checked state in
    let* a := int_item checked "attempts" in
    raise_if (n <? a) (ValueError "retry circuit hold has insufficient attempts").

Definition RESERVATION_FIELDS : list string :=
  ["id"; "identity"; "progress_digest"; "window"; "task_revision"; "reserved_at"; "expires_at"].
Definition _validate_reservation (reservation : value) : res unit :=
  match reservation with
  | VDict d =>
      check raise_when (py_or [
          negb (keys_are d RESERVATION_FIELDS);
          negb (fm_str RESERVATION d "id");
          negb (fm_str DIGEST d "identity");
          negb (fm_str DIGEST d "progress_digest");
          negb (type_int (get d "task_revision"));
          negb (is_str (get d "reserved_at"));
          falsy_item d "reserved_at"])
        (ValueError "retry circuit reservation is invalid") ;;
      let* _ := _window (get d "window") in
      let* e := (let* v := item d "expires_at" in _timestamp v "reservation expiry") in
      let* r := (let* v := item d "reserved_at" in _timestamp v "reservation timestamp") in
      raise_when (dt_le e r) (ValueError "retry circuit reservation expiry is invalid")
  | _ => Raise (ValueError "retry circuit reservation is invalid")
  end.

Definition _validate_abandoned (v : value) : res unit :=
  match v with
  | VDict d =>
      if keys_are d (RESERVATION_FIELDS ++ ["cleaned_at"; "cause"]) then
        check _validate_reservation (VDict (dpop (dpop d "cleaned_at") "cause")) ;;
        raise_when (py_or [
            (let* c := item d "cause" in Ok (negb (is_s c "expired")));
            (let* c := (let* v := item d "cleaned_at" in _timestamp v "cleanup timestamp") in
             let* e := (let* v := item d "expires_at" in _timestamp v "reservation expiry") in
             dt_lt c e)])
          (ValueError "retry circuit abandoned slot is invalid")
      else Raise (ValueError "retry circuit abandoned slot fields are invalid")
  | _ => Raise (ValueError "retry circuit abandoned slot fields are invalid")
  end.

Definition _collections (v : value) : res dict :=
  match v with
  | VDict d =>
      if keys_are d STATE_FIELDS then
        if is_z (get d "schema_version") SCHEMA_VERSION then Ok d
        else Raise (ValueError "retry circuit schema is unsupported")
      else Raise (ValueError "retry circuit fields are not exact")
  | _ => Raise (ValueError "retry circuit fields are not exact")
  end.

Definition _bounded_list (v : value) (limit : nat) (error : string) : res (list value) :=
  match v with
  | VList l => if Nat.ltb limit (length l) then Raise (ValueError error) else Ok l
  | _ => Raise (ValueError error)
  end.

Record collections : Type := Collections {
  c_value : dict; c_attempts : list value; c_recoveries : list value; c_hold : value;
  c_reservations : list value; c_abandoned : list value }.
Definition is_nil {A} (l : list A) : bool := match l with [] => true | _ => false end.

Definition _validated_collections (v : value) : res collections :=
  let* d := _collections v in
  let* attempts := _bounded_list (get d "attempts") MAX_ATTEMPTS "retry circuit attempts are invalid" in
  let* recoveries :=
    _bounded_list (get d "recoveries") MAX_RECOVERIES "retry circuit recoveries are invalid" in
  let* reservations :=
    _bounded_list (get d "reservations") (Z.to_nat MAX_WINDOW) "retry circuit reservations are invalid" in
  let* abandoned :=
    _bounded_list (get d "abandoned") MAX_ABANDONED "retry circuit abandoned slots are invalid" in
  check raise_if (is_nil attempts && is_nil reservations && is_nil abandoned)
          (ValueError "retry circuit attempts are invalid") ;;
  Ok (Collections d attempts recoveries (get d "hold") reservations abandoned).

Definition validate (v : value) : res dict :=
  let* c := _validated_collections v in
  let* _ := foldM (fun last a => _validate_attempt a last) 0 (c_attempts c) in
  let* _ := foldM (fun last r => _validate_recovery r last) 0 (c_recoveries c) in
  check _validate_hold (c_hold c) (c_value c) ;;
  let* _ := mapr _validate_reservation (c_reservations c) in
  let* identifiers := mapr (fun i => vitem i "id") (c_reservations c) in
  check raise_when (has_duplicates identifiers)
          (ValueError "retry circuit reservations are duplicated") ;;
  let* _ := mapr _validate_abandoned (c_abandoned c) in
  Ok (c_value c).

(** [None] when the recorded state is absent or valid. *)
Definition metadata_error (meta : Meta) : res (option string) :=
  let v := get meta "retry_circuit" in
  if is_null v then Ok None
  else match validate v with
       | Ok _ => Ok None
       | Raise e => if is_ValueError e then Ok (Some (exn_msg e)) else Raise e
       end.

Definition is_empty_list (v : value) : bool := eq v (VList []).
Definition _state (meta : Meta) : res dict :=
  let v := get meta "retry_circuit" in
  if is_null v then Ok empty
  else match v with
       | VDict d =>
           if is_z (get d "schema_version") SCHEMA_VERSION && is_empty_list (get d "attempts")
              && is_empty_list (get d "recoveries") && is_null (get d "hold")
              && is_empty_list (get d "reservations") && is_empty_list (get d "abandoned")
           then Ok d else validate v
       | _ => validate v
       end.

(** [admit] of the source: rejects an exact held attempt before launch. *)
Definition admit_ (meta : Meta) (identity : value) : res unit :=
  let* state := _state meta in
  let* hold := item state "hold" in
  if is_null hold then Ok tt
  else
    raise_when (py_and [
        (let* i := vitem hold "identity" in Ok (eq i identity));
        (let* p := vitem hold "progress_digest" in Ok (is_s p (progress_digest meta)))])
      (RuntimeError "RETRY_CIRCUIT_OPEN: repeated no-progress attempts require retry-circuit recovery").

Definition _expired (reservation : value) (recorded_at : value) : res bool :=
  let* e := (let* v := vitem reservation "expires_at" in _timestamp v "reservation expiry") in
  let* r := _timestamp recorded_at "cleanup timestamp" in
  dt_le e r.

(** [[*state[k], x]] with [state[k]] a list *)
Definition items_of (state : dict) (k : string) : res (list value) :=
  let* v := item state k in iter v.

(** Retires only elapsed, unresolved slots; returns their number. *)
Definition cleanup_expired (recorded_at : value) : st Meta Z :=
  do* state := slift _state in
  do* reservations := slift (fun _ => items_of state "reservations") in
  do* expired := slift (fun _ => filterr (fun i => _expired i recorded_at) reservations) in
  if is_nil expired then sret 0
  else
    let kept := filter (fun i => negb (in_list i expired)) reservations in
    do* abandoned := slift (fun _ => items_of state "abandoned") in
    do* retired := slift (fun _ => mapr (fun i => let* d := mapping i in
        Ok (VDict (update d [("cleaned_at", recorded_at); ("cause", VStr "expired")]))) expired) in
    let state' := dset (dset state "reservations" (VList kept))
                       "abandoned" (VList (last_n MAX_ABANDONED (abandoned ++ retired))) in
    do slift (fun _ => validate (VDict state')) ;;
    do smodify (fun meta => dset meta "retry_circuit" (VDict state')) ;;
    sret (Z.of_nat (length expired)).

Definition require_no_live_reservation (recorded_at : value) : st Meta unit :=
  do cleanup_expired recorded_at ;;
  slift (fun meta =>
    match get meta "retry_circuit" with
    | VDict state =>
        raise_when (let* v := item state "reservations" in Ok (truthy v))
          (RuntimeError "RETRY_CIRCUIT_IN_PROGRESS: task has a live unbound retry reservation")
    | _ => Ok tt
    end).

Definition int_revision (meta : Meta) : res value :=
  let* r := int_item meta "task_revision" in Ok (VInt r).

(** Appends a failure and opens the circuit exactly at the bounded threshold. *)
Definition record_failure (identity failure window recorded_at : value) : st Meta string :=
  do slift (fun _ => raise_when (py_or [py_not (in_set failure FAILURES);
                                        py_not (fm_v DIGEST identity);
                                        negb (truthy recorded_at)])
                       (ValueError "retry circuit failure input is invalid")) ;;
  do* threshold := slift (fun _ => _window window) in
  do* state := slift _state in
  do* progress := slift (fun meta => Ok (VStr (progress_digest meta))) in
  do* previous := slift (fun _ => _active_attempts state identity progress) in
  do slift (fun _ =>
       if is_nil previous then Ok tt
       else raise_when (let* p := last_item previous in
                        let* w := int_vitem p "window" in Ok (negb (w =? threshold)))
              (RuntimeError "retry circuit window changed within an active attempt series")) ;;
  do* attempts := slift (fun _ => items_of state "attempts") in
  do* revision := slift int_revision in
  let attempt := VDict [("identity", identity); ("failure", failure); ("progress_digest", progress);
                        ("task_revision", revision); ("recorded_at", recorded_at);
                        ("window", VInt threshold)] in
  let state := dset state "attempts" (VList (last_n MAX_ATTEMPTS (attempts ++ [attempt]))) in
  let count := Z.of_nat (length previous) + 1 in
  let '(state, result) :=
    if threshold <=? count then
      (dset state "hold" (VDict [("identity", identity); ("attempts", VInt threshold);
                                 ("progress_digest", progress); ("held_at", recorded_at);
                                 ("window", VInt threshold)]),
       "Retry circuit opened after bounded unchanged failures.")
    else (state, "Recorded retryable failure " +:+ PyStr.of_Z count +:+ "/" +:+ PyStr.of_Z threshold
                 +:+ ".") in
  do slift (fun _ => validate (VDict state)) ;;
  do smodify (fun meta => dset meta "retry_circuit" (VDict state)) ;;
  sret result.

Definition count_if (f : value -> res bool) (l : list value) : res Z :=
  let* m := filterr f l in Ok (Z.of_nat (length m)).

(** Atomically consumes one scoped launch slot before a command starts. *)
Definition reserve (identity window reservation_id recorded_at expires_at : value) : st Meta string :=
  do* threshold := slift (fun _ => _window window) in
  do slift (fun _ => raise_when (py_or [py_not (fm_v DIGEST identity);
                                        py_not (fm_v RESERVATION reservation_id);
                                        negb (truthy recorded_at)])
                       (ValueError "retry circuit reservation input is invalid")) ;;
  do slift (fun _ =>
       let* e := _timestamp expires_at "reservation expiry" in
       let* r := _timestamp recorded_at "reservation timestamp" in
       raise_when (dt_le e r) (ValueError "retry circuit reservation expiry is invalid")) ;;
  do* cleaned := cleanup_expired recorded_at in
  do* state := slift _state in
  do* progress := slift (fun meta => Ok (VStr (progress_digest meta))) in
  do slift (fun meta => admit_ meta identity) ;;
  do* active := slift (fun _ => _active_attempts state identity progress) in
  do* reservations := slift (fun _ => items_of state "reservations") in
  do* reserved := slift (fun _ => count_if (same_series identity progress) reservations) in
  do slift (fun _ => raise_if (threshold <=? Z.of_nat (length active) + reserved)
                       (RuntimeError "RETRY_CIRCUIT_OPEN: retry window is fully reserved")) ;;
  do* revision := slift int_revision in
  let slot := VDict [("id", reservation_id); ("identity", identity); ("progress_digest", progress);
                     ("window", VInt threshold); ("task_revision", revision);
                     ("reserved_at", recorded_at); ("expires_at", expires_at)] in
  let state := dset state "reservations" (VList (reservations ++ [slot])) in
  do slift (fun _ => validate (VDict state)) ;;
  do smodify (fun meta => dset meta "retry_circuit" (VDict state)) ;;
  sret ("Reserved retry circuit launch slot; expired_slots_cleaned=" +:+ PyStr.of_Z cleaned +:+ ".").

Definition has_id (reservation_id item : value) : res bool :=
  let* i := vitem item "id" in Ok (eq i reservation_id).
(** [next((item for item in reservations if item["id"] == reservation_id), None)] *)
Fixpoint find_slot (reservation_id : value) (l : list value) : res (option value) :=
  match l with
  | [] => Ok None
  | i :: l' => let* b := has_id reservation_id i in
               if b then Ok (Some i) else find_slot reservation_id l'
  end.
Definition current_slot (state : dict) (identity reservation_id : value) : res value :=
  let stale := RuntimeError "retry circuit reservation is not current" in
  let* l := items_of state "reservations" in
  let* found := find_slot reservation_id l in
  match found with
  | None => Raise stale
  | Some slot => let* i := vitem slot "identity" in
                 check raise_if (ne i identity) stale ;; Ok slot
  end.

(** Removes one exact launch slot and turns a failed launch into one attempt. *)
Definition resolve (identity reservation_id failure recorded_at : value) : st Meta string :=
  do* state := slift _state in
  do* selected := slift (fun _ => current_slot state identity reservation_id) in
  do* reservations := slift (fun _ => items_of state "reservations") in
  do* kept := slift (fun _ => filterr (fun i => py_not (has_id reservation_id i)) reservations) in
  let state := dset state "reservations" (VList kept) in
  do smodify (fun meta => dset meta "retry_circuit" (VDict state)) ;;
  if is_null failure then
    do* none := slift (fun _ => falsy_item state "attempts") in
    do (if none : bool then smodify (fun meta => dpop meta "retry_circuit")
        else slift (fun _ => let* _ := validate (VDict state) in Ok tt)) ;;
    sret "Released retry circuit launch slot."
  else
    do* window := slift (fun _ => int_vitem selected "window") in
    record_failure identity failure (VInt window) recorded_at.

(** The sole revision that can resolve this launch slot. *)
Definition resolution_revision (meta : Meta) (identity reservation_id : value) : res Z :=
  let* state := _state meta in
  let* slot := current_slot state identity reservation_id in
  let* r := int_vitem slot "task_revision" in
  Ok (r + 1).

(** Records a deliberate recovery and reopens only the held identity. *)
Definition recover (identity kind reason recorded_at : value) : st Meta string :=
  do slift (fun _ => raise_when (py_or [py_not (in_set kind RECOVERIES);
                                        py_not (fm_v DIGEST identity);
                                        negb (truthy recorded_at)])
                       (ValueError "retry circuit recovery input is invalid")) ;;
  do* state := slift _state in
  do* hold := slift (fun _ => item state "hold") in
  do slift (fun _ => raise_when (py_or [is_null hold;
                                        (let* i := vitem hold "identity" in Ok (ne i identity))])
       (RuntimeError "retry circuit recovery requires the exact held attempt identity")) ;;
  do* checkpoint := slift (fun meta => Ok (str (get_or meta "checkpoint_commit" (VStr "")))) in
  do slift (fun _ => raise_if (is_s kind "checkpoint" && negb (fm COMMIT checkpoint))
       (RuntimeError "retry circuit checkpoint recovery requires a recorded checkpoint")) ;;
  do* recoveries := slift (fun _ => items_of state "recoveries") in
  do* progress := slift (fun meta => Ok (VStr (progress_digest meta))) in
  do* text := slift (fun _ => _reason reason) in
  do* revision := slift int_revision in
  let entry := VDict [("identity", identity); ("progress_digest", progress); ("kind", kind);
                      ("reason", VStr text); ("task_revision", revision);
                      ("recorded_at", recorded_at); ("checkpoint_commit", VStr checkpoint)] in
  let state := dset (dset state "recoveries" (VList (last_n MAX_RECOVERIES (recoveries ++ [entry]))))
                    "hold" VNull in
  do slift (fun _ => validate (VDict state)) ;;
  do smodify (fun meta => dset meta "retry_circuit" (VDict state)) ;;
  sret ("Retry circuit recovered by " +:+ str kind +:+ ".").

(** [meta.get("owner") != args.owner or meta.get("status") != "in_progress"] *)
Definition not_active_owner (args : Namespace) (meta : Meta) : res bool :=
  py_or [(let* o := attr args "owner" in Ok (ne (get meta "owner") o));
         negb (is_s (get meta "status") "in_progress")].
Definition require_current (args : Namespace) (what : string) (meta : Meta) : res unit :=
  check raise_when (not_active_owner args meta)
          (RuntimeError ("retry circuit " +:+ what +:+ " requires the active task owner")) ;;
  raise_when (let* e := attr args "expected_revision" in Ok (ne e (get meta "task_revision")))
    (RuntimeError ("retry circuit " +:+ what +:+ " requires the current task revision")).

Definition apply (args : Namespace) (recorded_at : value) : st Meta string :=
  do slift (require_current args "recovery") ;;
  do require_no_live_reservation recorded_at ;;
  do* attempt := slift (fun _ => attr args "attempt") in
  do* action := slift (fun _ => attr args "retry_circuit_action") in
  do* reason := slift (fun _ => attr args "reason") in
  recover (VStr (str attempt)) (VStr (str action)) (VStr (str reason)) recorded_at.

Definition apply_reserve (args : Namespace) (recorded_at : value) : st Meta string :=
  do slift (require_current args "reservation") ;;
  do* identity := slift (fun _ => attr args "retry_circuit_identity") in
  do* window := slift (fun _ => attr args "retry_window") in
  do* reservation_id := slift (fun _ => attr args "retry_circuit_reservation") in
  do* expires_at := slift (fun _ => attr args "retry_circuit_expires_at") in
  reserve identity window reservation_id recorded_at expires_at.

Definition apply_resolve (args : Namespace) (recorded_at : value) : st Meta string :=
  do slift (fun meta => raise_when (not_active_owner args meta)
       (RuntimeError "retry circuit resolution requires the active task owner")) ;;
  do* identity := slift (fun _ => attr args "retry_circuit_identity") in
  do* reservation_id := slift (fun _ => attr args "retry_circuit_reservation") in
  do* required := slift (fun meta => resolution_revision meta identity reservation_id) in
  do slift (fun meta => raise_when
       (py_or [(let* e := attr args "expected_revision" in Ok (ne e (VInt required)));
               negb (is_z (get meta "task_revision") required)])
       (RuntimeError "retry circuit resolution requires the revision immediately after its reservation")) ;;
  do* failure := slift (fun _ => attr args "retry_circuit_failure") in
  resolve identity reservation_id failure recorded_at.

(** ** Lemmas *)

(** Ignores every field but the three the durable progress is read from. *)
Lemma progress_digest_dset (meta : Meta) k v :
  k <> "checkpoint_commit" -> k <> "change_drift" -> k <> "spec_acceptance" ->
  progress_digest (dset meta k v) = progress_digest meta.
Proof.
  intros H1 H2 H3. unfold progress_digest, get, get_or.
  by rewrite !dget_dset_ne by done.
Qed.

Lemma collections_value (v : value) c :
  _validated_collections v = Ok c -> v = VDict (c_value c).
Proof.
  unfold _validated_collections. intros H. repeat inv_step. simpl.
  unfold _collections in E. destruct v as [| | | | |d]; try discriminate.
  destruct (keys_are d STATE_FIELDS); [|discriminate].
  destruct (is_z _ _); [|discriminate]. by inv_ok.
Qed.

Lemma validate_value (v : value) d : validate v = Ok d -> v = VDict d.
Proof.
  unfold validate. intros H. repeat inv_step. by apply collections_value.
Qed.

Lemma state_written (meta : Meta) d :
  validate (VDict d) = Ok d -> _state (dset meta "retry_circuit" (VDict d)) = Ok d.
Proof.
  intros H. unfold _state. rewrite get_dset. cbn -[is_z validate].
  by destruct (_ && _).
Qed.

Lemma metadata_error_written (meta : Meta) d :
  validate (VDict d) = Ok d -> metadata_error (dset meta "retry_circuit" (VDict d)) = Ok None.
Proof. intros H. unfold metadata_error. rewrite get_dset. cbn -[validate]. by rewrite H. Qed.

(** Every write of the three recording operations stores a validated state. *)
Definition written (meta meta' : Meta) (d : dict) : Prop :=
  validate (VDict d) = Ok d /\ meta' = dset meta "retry_circuit" (VDict d).
Arguments written meta meta' d : simpl never.

Lemma record_failure_inv identity failure window now (meta meta' : Meta) msg :
  record_failure identity failure window now meta = (meta', Ok msg) ->
  exists th state previous attempts revision d,
    _window window = Ok th /\ _state meta = Ok state /\
    _active_attempts state identity (VStr (progress_digest meta)) = Ok previous /\
    items_of state "attempts" = Ok attempts /\ int_revision meta = Ok revision /\
    written meta meta' d /\
    item d "attempts" = Ok (VList (last_n MAX_ATTEMPTS (attempts ++
      [VDict [("identity", identity); ("failure", failure);
              ("progress_digest", VStr (progress_digest meta)); ("task_revision", revision);
              ("recorded_at", now); ("window", VInt th)]]))) /\
    item d "recoveries" = item state "recoveries" /\
    item d "reservations" = item state "reservations" /\
    item d "hold" =
      if th <=? Z.of_nat (length previous) + 1 then
        Ok (VDict [("identity", identity); ("attempts", VInt th);
                   ("progress_digest", VStr (progress_digest meta)); ("held_at", now);
                   ("window", VInt th)])
      else item state "hold".
Proof.
  unfold record_failure. intros H. repeat (inv_step; cbv beta in *).
  match goal with H : (if ?b then _ else _) = _ |- _ => idtac end || idtac.
  destruct (r0 <=? Z.of_nat (length r3) + 1) eqn:Eth; repeat inv_step; subst;
    (match goal with H : validate (VDict ?d) = Ok ?x |- _ =>
       pose proof (validate_value _ _ H) as Hv; injection Hv as <-;
       exists r0, r1, r3, r5, r6, d end);
    rewrite ?Eth; unfold written; repeat split; try assumption; simp_dict; done.
Qed.

Lemma fm_v_inv p v b : fm_v p v = Ok b -> exists s, v = VStr s /\ fm p s = b.
Proof. destruct v; try discriminate. intros [= <-]. eauto. Qed.

Lemma record_failure_identity identity failure window now (meta meta' : Meta) msg :
  record_failure identity failure window now meta = (meta', Ok msg) ->
  exists s, identity = VStr s /\ fm DIGEST s = true.
Proof.
  unfold record_failure. intros H. inv_step. clear H. repeat inv_step.
  unfold py_not in *. repeat inv_step. subst. by apply fm_v_inv.
Qed.

Definition open_error : exn :=
  RuntimeError "RETRY_CIRCUIT_OPEN: repeated no-progress attempts require retry-circuit recovery".

Lemma state_stored (meta : Meta) d :
  validate (VDict d) = Ok d -> get meta "retry_circuit" = VDict d -> _state meta = Ok d.
Proof.
  intros H E. unfold _state. rewrite E. cbn -[is_z validate]. by destruct (_ && _).
Qed.

(** [admit_] (the code's [admit]) under a hold for the string identity [s] at progress [p]. *)
Lemma admit_held (meta : Meta) d s p hold other :
  validate (VDict d) = Ok d -> get meta "retry_circuit" = VDict d ->
  item d "hold" = Ok (VDict hold) ->
  item hold "identity" = Ok (VStr s) -> item hold "progress_digest" = Ok (VStr p) ->
  admit_ meta (VStr other) =
    if String.eqb s other && String.eqb p (progress_digest meta) then Raise open_error else Ok tt.
Proof.
  intros Hv Hg Hh Hi Hp. unfold admit_. rewrite (state_stored _ _ Hv Hg). cbn [rbind].
  rewrite Hh. cbn -[item progress_digest String.eqb]. rewrite Hi. cbn -[item progress_digest String.eqb].
  destruct (String.eqb s other); cbn -[item progress_digest String.eqb]; [|done].
  rewrite Hp. cbn -[progress_digest String.eqb].
  by destruct (String.eqb p (progress_digest meta)).
Qed.

Lemma admit_free (meta : Meta) d other :
  validate (VDict d) = Ok d -> get meta "retry_circuit" = VDict d ->
  item d "hold" = Ok VNull -> admit_ meta other = Ok tt.
Proof. intros Hv Hg Hh. unfold admit_. rewrite (state_stored _ _ Hv Hg). cbn. by rewrite Hh. Qed.

(** A recorded failure opens the circuit exactly at the window: with fewer
    than [window] unchanged failures of the identity the hold is left as it
    was; at the window, that identity (and no other) is refused on every later
    metadata that keeps the circuit, as long as the durable progress
    (checkpoint commit, last drift digest, accepted evidence) is the same. *)
Theorem record_failure_opens identity failure window now (meta meta' : Meta) msg th state previous :
  record_failure (VStr identity) failure window now meta = (meta', Ok msg) ->
  _window window = Ok th -> _state meta = Ok state ->
  _active_attempts state (VStr identity) (VStr (progress_digest meta)) = Ok previous ->
  (Z.of_nat (length previous) + 1 < th ->
     exists state', _state meta' = Ok state' /\ item state' "hold" = item state "hold") /\
  (th <= Z.of_nat (length previous) + 1 ->
     forall (later : Meta) other, get later "retry_circuit" = get meta' "retry_circuit" ->
       admit_ later (VStr other) =
         if String.eqb identity other && String.eqb (progress_digest meta) (progress_digest later)
         then Raise open_error else Ok tt).
Proof.
  intros H Hw Hs Ha.
  apply record_failure_inv in H as
    (th' & st' & prev' & atts & rev & d & Hw' & Hs' & Ha' & _ & _ & [Hv ->] & _ & _ & _ & Hh).
  rewrite Hw in Hw'. injection Hw' as <-. rewrite Hs in Hs'. injection Hs' as <-.
  rewrite Ha in Ha'. injection Ha' as <-. split; intros Hn.
  - exists d. rewrite state_written by done. split; [done|].
    rewrite Hh. destruct (Z.leb_spec th (Z.of_nat (length previous) + 1)); [lia | done].
  - intros later other Hl. rewrite get_dset in Hl. cbn in Hl.
    rewrite (proj2 (Z.leb_le th _) Hn) in Hh.
    by eapply admit_held; [exact Hv | exact Hl | exact Hh | |].
Qed.

(** What validation gives of an attempt or a recovery: a dictionary naming its
    series and an integer revision. *)
Definition series_record (v : value) : Prop :=
  exists d i p r, v = VDict d /\ item d "identity" = Ok i /\ item d "progress_digest" = Ok p /\
    item d "task_revision" = Ok (VInt r).

Lemma keys_are_item d ks k : keys_are d ks = true -> PyStr.mem k ks = true -> item d k = Ok (get d k).
Proof. intros H Hk. apply has_item. eapply keys_are_has; [done | by apply PyStr.mem_spec]. Qed.

Lemma attempt_record a last out : _validate_attempt a last = Ok out -> series_record a.
Proof.
  unfold _validate_attempt. destruct a as [| | | | |d]; try discriminate.
  destruct (keys_are d _) eqn:K; [|discriminate]. intros H. repeat inv_step.
  match goal with H : type_int _ = true |- _ => apply type_int_inv in H as [z Hz] end.
  exists d, (get d "identity"), (get d "progress_digest"), z. rewrite <- Hz.
  split_and!; [done | | |]; (eapply keys_are_item; [exact K | done]).
Qed.

Lemma recovery_record a last out : _validate_recovery a last = Ok out -> series_record a.
Proof.
  unfold _validate_recovery. destruct a as [| | | | |d]; try discriminate.
  destruct (keys_are d _) eqn:K; [|discriminate]. intros H. repeat inv_step.
  match goal with H : type_int _ = true |- _ => apply type_int_inv in H as [z Hz] end.
  exists d, (get d "identity"), (get d "progress_digest"), z. rewrite <- Hz.
  split_and!; [done | | |]; (eapply keys_are_item; [exact K | done]).
Qed.

Lemma validate_lists d d' : validate (VDict d) = Ok d' ->
  exists attempts recoveries reservations abandoned,
    item d "attempts" = Ok (VList attempts) /\ item d "recoveries" = Ok (VList recoveries) /\
    item d "reservations" = Ok (VList reservations) /\ item d "abandoned" = Ok (VList abandoned) /\
    item d "hold" = Ok (get d "hold") /\
    (length attempts <= MAX_ATTEMPTS)%nat /\ (length recoveries <= MAX_RECOVERIES)%nat /\
    (length reservations <= Z.to_nat MAX_WINDOW)%nat /\ (length abandoned <= MAX_ABANDONED)%nat /\
    Forall series_record attempts /\ Forall series_record recoveries.
Proof.
  unfold validate, _validated_collections, _collections.
  destruct (keys_are d STATE_FIELDS) eqn:K; [|discriminate].
  destruct (is_z _ _); [|discriminate]. cbn [rbind]. intros H. repeat inv_step. simpl in *. subst.
  assert (Hi : forall k, PyStr.mem k STATE_FIELDS = true -> item d k = Ok (get d k))
    by (intros k Hk; by eapply keys_are_item).
  assert (Hl : forall k n e l, _bounded_list (get d k) n e = Ok l ->
                 get d k = VList l /\ (length l <= n)%nat).
  { intros k n e l. unfold _bounded_list. destruct (get d k); try discriminate.
    destruct (Nat.ltb_spec n (length l0)); [discriminate|]. intros [= <-]. done. }
  repeat match goal with E : _bounded_list _ _ _ = Ok _ |- _ => apply Hl in E as [? ?] end.
  do 4 eexists. rewrite !Hi by done.
  repeat match goal with E : get d _ = VList _ |- _ => rewrite E; clear E end.
  split_and!; try reflexivity; try eassumption.
  - apply Forall_forall. intros x Hx.
    match goal with E : foldM (fun last a => _validate_attempt a last) _ _ = Ok _ |- _ =>
      destruct (foldM_elem _ _ _ _ _ E Hx) as (? & ? & Hax) end. by eapply attempt_record.
  - apply Forall_forall. intros x Hx.
    match goal with E : foldM (fun last a => _validate_recovery a last) _ _ = Ok _ |- _ =>
      destruct (foldM_elem _ _ _ _ _ E Hx) as (? & ? & Hax) end. by eapply recovery_record.
Qed.

Lemma same_series_record i p v : series_record v -> exists b, same_series i p v = Ok b.
Proof.
  intros (d & i' & p' & r & -> & Hi & Hp & _). unfold same_series, vitem. rewrite Hi, Hp.
  cbn -[eq]. destruct (eq i' i); cbn -[eq]; [|eauto]. destruct (eq p' p); simpl; eauto.
Qed.

Lemma revision_record v : series_record v -> exists r, int_vitem v "task_revision" = Ok r.
Proof.
  intros (d & i' & p' & r & -> & _ & _ & Hr). unfold int_vitem, vitem. rewrite Hr. simpl. eauto.
Qed.

Lemma fold_max_ge rs a : a <= fold_left Z.max rs a.
Proof.
  revert a. induction rs as [|r rs IH]; simpl; intros a; [lia|].
  specialize (IH (Z.max a r)). lia.
Qed.
Lemma fold_max_elem rs a x : x ∈ rs -> x <= fold_left Z.max rs a.
Proof.
  revert a. induction rs as [|r rs IH]; simpl; intros a Hx; [set_solver|].
  apply elem_of_cons in Hx as [->|Hx]; [|auto]. pose proof (fold_max_ge rs (Z.max a r)). lia.
Qed.

(** The active series of a validated state: defined, and holding the attempts
    of the series later than each of its recoveries. *)
Lemma active_attempts_spec d i p :
  validate (VDict d) = Ok d ->
  exists l, _active_attempts d i p = Ok l /\
    (forall attempts a, items_of d "attempts" = Ok attempts -> a ∈ l -> a ∈ attempts) /\
    forall recoveries x a r ra,
      items_of d "recoveries" = Ok recoveries ->
      x ∈ recoveries -> same_series i p x = Ok true -> int_vitem x "task_revision" = Ok r ->
      a ∈ l -> int_vitem a "task_revision" = Ok ra -> r < ra.
Proof.
  intros Hv. destruct (validate_lists _ _ Hv) as
    (atts & recs & _ & _ & Ha & Hr & _ & _ & _ & _ & _ & _ & _ & Fa & Fr).
  rewrite Forall_forall in Fa, Fr. unfold items_of. rewrite Ha, Hr. simpl.
  destruct (filterr_total (same_series i p) recs) as [mine Em].
  { intros x Hx. apply same_series_record; auto. }
  destruct (mapr_total (fun i => int_vitem i "task_revision") mine) as [revs Er].
  { intros x Hx. apply revision_record, Fr. by apply (filterr_elem _ _ _ _ Em) in Hx as [? _]. }
  set (top := match revs with [] => 0 | r :: rs => fold_left Z.max rs r end).
  destruct (filterr_total (fun x => py_and [is_dict x; same_series i p x;
      (let* r := int_vitem x "task_revision" in Ok (top <? r))]) atts) as [l El].
  { intros x Hx. specialize (Fa x Hx). destruct (same_series_record i p x Fa) as [b Hb].
    destruct (revision_record x Fa) as [r Hx']. destruct Fa as (dx & _ & _ & _ & -> & _).
    cbn [py_and cond rbind]. rewrite Hb, Hx'. destruct b; cbn; [|eauto].
    destruct (top <? r); eauto. }
  exists l. split.
  { unfold _active_attempts. rewrite Hr. cbn [rbind iter]. rewrite Em. cbn [rbind]. rewrite Er.
    cbn [rbind]. rewrite Ha. exact El. }
  split.
  { intros ? a [= <-] Hal. by apply (filterr_elem _ _ _ _ El) in Hal as [Hin _]. }
  intros ? x a r ra [= <-] Hx Hs Hxr Hal Hra.
  apply (filterr_elem _ _ _ _ El) in Hal as [Hin Hc].
  rewrite Hra in Hc. repeat inv_step.
  match goal with H : (_ <? _) = true |- _ => apply Z.ltb_lt in H as Hlt end.
  assert (x ∈ mine) as Hm by (by apply (filterr_elem _ _ _ _ Em)).
  destruct (mapr_elem _ _ _ _ Er Hm) as (r' & Hr' & Hrr). rewrite Hxr in Hr'. injection Hr' as <-.
  unfold top in Hlt. destruct revs as [|rv revs]; [set_solver|].
  apply elem_of_cons in Hrr as [->|Hrr].
  - pose proof (fold_max_ge revs rv). lia.
  - pose proof (fold_max_elem revs rv r Hrr). lia.
Qed.

Lemma recover_inv identity kind reason now (meta meta' : Meta) msg :
  recover identity kind reason now meta = (meta', Ok msg) ->
  exists state hold recoveries text revision d,
    _state meta = Ok state /\ item state "hold" = Ok hold /\ is_null hold = false /\
    (exists i, vitem hold "identity" = Ok i /\ eq i identity = true) /\
    (is_s kind "checkpoint" = true ->
       fm COMMIT (str (get_or meta "checkpoint_commit" (VStr ""))) = true) /\
    items_of state "recoveries" = Ok recoveries /\ _reason reason = Ok text /\
    int_revision meta = Ok revision /\ written meta meta' d /\
    item d "hold" = Ok VNull /\ item d "attempts" = item state "attempts" /\
    item d "recoveries" = Ok (VList (last_n MAX_RECOVERIES (recoveries ++
      [VDict [("identity", identity); ("progress_digest", VStr (progress_digest meta));
              ("kind", kind); ("reason", VStr text); ("task_revision", revision);
              ("recorded_at", now);
              ("checkpoint_commit", VStr (str (get_or meta "checkpoint_commit" (VStr ""))))]]))).
Proof.
  unfold recover. intros H. repeat (inv_step; cbv beta zeta in * ).
  match goal with H : validate (VDict ?d) = Ok ?x |- _ =>
    pose proof (validate_value _ _ H) as Hv; injection Hv as <- end.
  match goal with H : ne _ _ = false |- _ => apply ne_false in H end.
  match goal with
  | Es : _state meta = Ok ?s, Eh : item ?s "hold" = Ok ?h, Er : items_of ?s _ = Ok ?l,
    Et : _reason _ = Ok ?t, Ev : int_revision _ = Ok ?v, Ed : validate (VDict ?d) = _ |- _ =>
      exists s, h, l, t, v, d end.
  unfold written. split_and!; try reflexivity; try eassumption; try (simp_dict; done).
  - eexists. split; eassumption.
  - intros Hk. match goal with H : (_ && _)%bool = false |- _ => rewrite Hk in H; simpl in H end.
    by apply negb_false_iff.
Qed.

(** An accepted recovery names the held identity, reopens the circuit for
    every identity and resets the held series: when no recorded attempt is
    newer than the current revision, the next window of failures counts from
    zero. *)
Theorem recover_reopens identity kind reason now (meta meta' : Meta) msg state attempts rev :
  recover (VStr identity) kind reason now meta = (meta', Ok msg) ->
  _state meta = Ok state -> items_of state "attempts" = Ok attempts ->
  int_revision meta = Ok (VInt rev) ->
  (forall a ra, a ∈ attempts -> int_vitem a "task_revision" = Ok ra -> ra <= rev) ->
  (exists hold, item state "hold" = Ok hold /\ vitem hold "identity" = Ok (VStr identity)) /\
  (forall (later : Meta) other, get later "retry_circuit" = get meta' "retry_circuit" ->
     admit_ later other = Ok tt) /\
  exists state', _state meta' = Ok state' /\
    _active_attempts state' (VStr identity) (VStr (progress_digest meta')) = Ok [].
Proof.
  intros H Hs Ha Hr Hold.
  apply recover_inv in H as (st' & hold & recs & text & revv & d & Hs' & Hh & _ & (i & Hi & Hie)
    & _ & _ & _ & Hr' & [Hv ->] & Hdh & Hda & Hdr).
  rewrite Hs in Hs'. injection Hs' as <-. rewrite Hr in Hr'. injection Hr' as <-.
  apply eq_str in Hie as ->. split; [eauto|]. split.
  { intros later other Hl. rewrite get_dset in Hl. cbn in Hl. by eapply admit_free. }
  exists d. rewrite state_written by done. split; [done|].
  rewrite progress_digest_dset by done.
  destruct (active_attempts_spec d (VStr identity) (VStr (progress_digest meta)) Hv)
    as (l & -> & Hin & Hl).
  destruct l as [|a l]; [done|]. exfalso. specialize (Hin attempts a).
  assert (a ∈ attempts) as Hat.
  { apply Hin; [|set_solver]. unfold items_of. by rewrite Hda. }
  destruct (validate_lists _ _ Hv) as
    (atts & _ & _ & _ & Ea & _ & _ & _ & _ & _ & _ & _ & _ & Fa & _).
  assert (atts = attempts) as ->.
  { unfold items_of in Ha. rewrite <- Hda, Ea in Ha. by injection Ha. }
  rewrite Forall_forall in Fa. destruct (revision_record a (Fa a Hat)) as [ra Hra].
  specialize (Hold a ra Hat Hra).
  match type of Hdr with context [recs ++ [?e]] =>
    destruct (last_n_app_last MAX_RECOVERIES recs e) as [recs' Hlast]; [unfold MAX_RECOVERIES; lia|];
    rewrite Hlast in Hdr; assert (rev < ra); [eapply (Hl (recs' ++ [e]) e a) | lia]
  end; [|set_solver | | done | set_solver | done].
  - unfold items_of. by rewrite Hdr.
  - cbn -[progress_digest]. by rewrite !String.eqb_refl.
Qed.

(** *** Reservations *)

Lemma active_attempts_ext d d' i p :
  item d "attempts" = item d' "attempts" -> item d "recoveries" = item d' "recoveries" ->
  _active_attempts d i p = _active_attempts d' i p.
Proof. intros H1 H2. unfold _active_attempts. by rewrite H1, H2. Qed.

Lemma reserve_inv identity window rid now exp (meta meta' : Meta) msg :
  reserve identity window rid now exp meta = (meta', Ok msg) ->
  exists th cleaned meta1 state active reservations reserved revision d,
    _window window = Ok th /\ cleanup_expired now meta = (meta1, Ok cleaned) /\
    _state meta1 = Ok state /\ admit_ meta1 identity = Ok tt /\
    (exists i r, identity = VStr i /\ fm DIGEST i = true /\ rid = VStr r /\ fm RESERVATION r = true) /\
    _active_attempts state identity (VStr (progress_digest meta1)) = Ok active /\
    items_of state "reservations" = Ok reservations /\
    count_if (same_series identity (VStr (progress_digest meta1))) reservations = Ok reserved /\
    Z.of_nat (length active) + reserved < th /\
    int_revision meta1 = Ok revision /\ written meta1 meta' d /\
    item d "attempts" = item state "attempts" /\ item d "recoveries" = item state "recoveries" /\
    item d "hold" = item state "hold" /\
    item d "reservations" = Ok (VList (reservations ++
      [VDict [("id", rid); ("identity", identity);
              ("progress_digest", VStr (progress_digest meta1)); ("window", VInt th);
              ("task_revision", revision); ("reserved_at", now); ("expires_at", exp)]])).
Proof.
  unfold reserve. intros H.
  repeat (inv_step; cbv beta zeta in * ).
  match goal with H : validate (VDict ?d) = Ok ?x |- _ =>
    pose proof (validate_value _ _ H) as Hv; injection Hv as <- end.
  unfold py_not in *. repeat inv_step. subst.
  repeat match goal with H : fm_v _ _ = Ok true |- _ => apply fm_v_inv in H as (? & -> & ?) end.
  match goal with u : unit, E : admit_ ?m _ = Ok ?v |- _ => destruct v end.
  do 9 eexists. unfold written.
  split_and!; try eassumption; try reflexivity; try (simp_dict; done).
  - do 2 eexists. split_and!; try reflexivity; eassumption.
  - match goal with H : (_ <=? _) = false |- _ => by apply Z.leb_gt in H end.
Qed.

Lemma count_if_app f l l' n n' :
  count_if f l = Ok n -> count_if f l' = Ok n' -> count_if f (l ++ l') = Ok (n + n').
Proof.
  unfold count_if. intros H H'. repeat inv_step. rewrite (filterr_app f l l' r0 r) by done.
  cbn. rewrite length_app. f_equal. lia.
Qed.

(** C38: A reservation is granted only while the attempts recorded in the
    current series and the slots already reserved for it are fewer than the
    window: afterwards the series' attempts plus its reserved slots are still
    at most the window, and the new slot is bound to the exact identity, id
    and task revision.  Stated for the reserve operation alone. *)
Theorem reserve_bounded identity window rid now exp (meta meta' : Meta) msg th :
  reserve identity window rid now exp meta = (meta', Ok msg) -> _window window = Ok th ->
  exists state' active reservations n slot,
    _state meta' = Ok state' /\
    _active_attempts state' identity (VStr (progress_digest meta')) = Ok active /\
    items_of state' "reservations" = Ok (reservations ++ [VDict slot]) /\
    count_if (same_series identity (VStr (progress_digest meta'))) (reservations ++ [VDict slot])
      = Ok n /\
    1 <= n /\ Z.of_nat (length active) + n <= th <= MAX_WINDOW /\
    item slot "id" = Ok rid /\ item slot "identity" = Ok identity /\
    int_revision meta' = item slot "task_revision" /\
    metadata_error meta' = Ok None.
Proof.
  intros H Hw. apply reserve_inv in H as (th' & cl & m1 & st & act & res & n & rev & d & Hw' & _ &
    Hs & _ & (i & r & -> & _ & -> & _) & Ha & Hr & Hn & Hlt & Hrev & [Hv ->] & Da & Dr & _ & Dres).
  rewrite Hw in Hw'. injection Hw' as <-.
  rewrite state_written, metadata_error_written by done. rewrite progress_digest_dset by done.
  match type of Dres with _ = Ok (VList (_ ++ [VDict ?s])) => exists d, act, res, (n + 1), s end.
  split_and!; try done.
  - by rewrite (active_attempts_ext d st).
  - unfold items_of. by rewrite Dres.
  - apply count_if_app; [done|]. unfold count_if, same_series. cbn -[progress_digest].
    by rewrite !String.eqb_refl.
  - unfold count_if in Hn. repeat inv_step. lia.
  - lia.
  - unfold _window in Hw. destruct window; try discriminate.
    destruct (_ && _) eqn:E; [|discriminate]. repeat inv_step.
    match goal with H : (_ <=? MAX_WINDOW) = true |- _ => by apply Z.leb_le in H end.
  - unfold int_revision, int_item in *. by rewrite item_dset.
Qed.

(** *** Cleanup *)

Lemma eq_dict_dget d e k x :
  eq (VDict d) (VDict e) = true -> dget d k = Some x ->
  exists y, dget e k = Some y /\ eq x y = true.
Proof.
  cbn. intros [_ H]%andb_true_iff. revert H.
  induction d as [|[j w] d IH]; [done|]. cbn -[String.eqb].
  intros [H1 H2]%andb_true_iff. destruct (String.eqb_spec k j) as [<-|].
  - intros [= <-]. destruct (dget e k) as [y|]; [eauto | discriminate].
  - auto.
Qed.

(** Expiry depends on the slot only up to [==]. *)
Lemma expired_eq x y now b : _expired x now = Ok b -> eq x y = true -> _expired y now = Ok b.
Proof.
  unfold _expired, vitem. destruct x as [| | | | |dx]; try discriminate. intros H He.
  destruct y as [| | | | |dy]; try discriminate.
  unfold item in *. destruct (dget dx "expires_at") as [v|] eqn:Ev; [|discriminate].
  destruct (eq_dict_dget _ _ _ _ He Ev) as (w & -> & Hw).
  cbn [rbind] in *. destruct v as [| | |s| |]; try discriminate.
  by apply eq_str_l in Hw as ->.
Qed.

Lemma retired_spec now l ys :
  mapr (fun i => let* d := mapping i in
        Ok (VDict (update d [("cleaned_at", now); ("cause", VStr "expired")]))) l = Ok ys ->
  Forall2 (fun e r => exists d, e = VDict d /\
    r = VDict (dset (dset d "cleaned_at" now) "cause" (VStr "expired"))) l ys.
Proof.
  revert ys. induction l as [|x l IH]; intros ys H; simpl in H; repeat inv_step; [constructor|].
  constructor; [|by apply IH]. unfold mapping in *.
  destruct x as [| | | | |d]; try discriminate. repeat inv_step. eexists. by split.
Qed.

(** Cleanup retires exactly the elapsed launch slots: a slot survives iff
    it is not elapsed at the given instant, every retired one is recorded as
    an abandoned slot (of which the latest 64 are kept), the attempts, the
    recoveries and the hold are untouched, and without an elapsed slot nothing
    is written.  ([wf]: keys are unique, as in every Python dictionary.) *)
Theorem cleanup_expired_exact now (meta meta' : Meta) n state reservations :
  cleanup_expired now meta = (meta', Ok n) -> _state meta = Ok state ->
  items_of state "reservations" = Ok reservations -> wf (VDict state) = true ->
  (n = 0 -> meta' = meta) /\
  exists state' reservations', _state meta' = Ok state' /\
    items_of state' "reservations" = Ok reservations' /\
    (forall i, i ∈ reservations' <-> i ∈ reservations /\ _expired i now = Ok false) /\
    (forall i, i ∈ reservations -> _expired i now = Ok false \/ _expired i now = Ok true) /\
    (n <> 0 -> exists abandoned expired retired,
       items_of state "abandoned" = Ok abandoned /\
       item state' "abandoned" = Ok (VList (last_n MAX_ABANDONED (abandoned ++ retired))) /\
       filterr (fun i => _expired i now) reservations = Ok expired /\
       Z.of_nat (length expired) = n /\
       Forall2 (fun e r => exists d, e = VDict d /\
         r = VDict (dset (dset d "cleaned_at" now) "cause" (VStr "expired"))) expired retired) /\
    Forall (fun k => item state' k = item state k) ["attempts"; "recoveries"; "hold"].
Proof.
  intros H Hs Hr Hwf. unfold cleanup_expired in H.
  repeat inv_step. rewrite Hs in E. injection E as <-. rewrite Hr in E0. injection E0 as <-.
  rename r1 into expired, E1 into Ex.
  assert (Hdec : forall i, i ∈ reservations -> _expired i now = Ok false \/ _expired i now = Ok true).
  { intros i Hi. destruct (filterr_def _ _ _ _ Ex Hi) as [[] ?]; auto. }
  destruct expired as [|e0 expired]; cbn [is_nil] in H.
  { inv_step. split; [done|]. exists state, reservations. split_and!; try done.
    - intros i. split; [|tauto]. intros Hi. split; [done|].
      destruct (Hdec i Hi) as [?|Ht]; [done|]. exfalso.
      assert (i ∈ []) by (by apply (filterr_elem _ _ _ _ Ex)). set_solver.
    - repeat constructor. }
  cbv beta zeta in H. repeat (inv_step; cbv beta zeta in * ).
  match goal with H : validate (VDict ?d) = Ok ?x |- _ =>
    pose proof (validate_value _ _ H) as Hv; injection Hv as <- end.
  match goal with Ha : items_of state "abandoned" = Ok ?a |- _ => rename a into abandoned end.
  match goal with Ha : mapr _ _ = Ok ?a |- _ => rename a into retired, Ha into Hret end.
  split; [simpl; lia|].
  eexists _, _. split_and!; [by apply state_written | unfold items_of; simp_dict; reflexivity | | done | | ].
  - intros i. rewrite list_elem_of_filter. split.
    + intros [Hk Hi]. split; [done|]. destruct (Hdec i Hi) as [|Ht]; [done|]. exfalso.
      rewrite negb_True in Hk. apply Hk. apply Is_true_true, existsb_exists.
      exists i. rewrite <- list_elem_of_In. split; [by apply (filterr_elem _ _ _ _ Ex)|].
      apply eq_wf_refl. unfold items_of, item in Hr.
      destruct (dget state "reservations") as [v|] eqn:Ev; [|discriminate]. cbn in Hr.
      apply (wf_dget _ _ _ Hwf) in Ev. destruct v as [| | |t|l|d]; try discriminate.
      * cbn in Hr. injection Hr as <-. apply list_elem_of_fmap in Hi as (? & -> & _). done.
      * cbn in Hr, Ev. injection Hr as ->. rewrite forallb_forall in Ev.
        by apply Ev, list_elem_of_In.
      * cbn in Hr. injection Hr as <-. apply list_elem_of_fmap in Hi as (? & -> & _). done.
    + intros [Hi Hl]. split; [|done]. rewrite negb_True, Is_true_true.
      unfold in_list. rewrite existsb_exists. intros (x & Hx%list_elem_of_In & He).
      apply (filterr_elem _ _ _ _ Ex) in Hx as [_ Hx].
      by rewrite (expired_eq x i now true Hx He) in Hl.
  - intros _. exists abandoned, (e0 :: expired), retired. split_and!; try done.
    + simp_dict. done.
    + by eapply retired_spec.
  - repeat constructor; by simp_dict.
Qed.

(** *** Writes *)

Lemma record_failure_atomic identity failure window now :
  atomic (record_failure identity failure window now).
Proof. unfold record_failure. solve_atomic. destruct (_ <=? _); solve_atomic. Qed.
Lemma recover_atomic identity kind reason now : atomic (recover identity kind reason now).
Proof. unfold recover. solve_atomic. Qed.
Lemma cleanup_atomic now : atomic (cleanup_expired now).
Proof. unfold cleanup_expired. solve_atomic. Qed.

(** The operations that write [meta["retry_circuit"]]. *)
Inductive operation : Type :=
  | Record_failure (identity failure window now : value)
  | Reserve (identity window rid now exp : value)
  | Resolve (identity rid failure now : value)
  | Recover (identity kind reason now : value)
  | Cleanup (now : value).
Definition run (o : operation) : st Meta unit :=
  match o with
  | Record_failure i f w now => do record_failure i f w now ;; sret tt
  | Reserve i w rid now exp => do reserve i w rid now exp ;; sret tt
  | Resolve i rid f now => do resolve i rid f now ;; sret tt
  | Recover i k r now => do recover i k r now ;; sret tt
  | Cleanup now => do cleanup_expired now ;; sret tt
  end.
(** An operation that raises is abandoned with its task copy. *)
Definition commit (meta : Meta) (o : operation) : Meta :=
  match run o meta with (meta', Ok _) => meta' | (_, Raise _) => meta end.

(** Valid before and after, and nothing but the circuit is written. *)
Definition framed (meta meta' : Meta) : Prop :=
  forall k, k <> "retry_circuit" -> get meta' k = get meta k.
Lemma framed_written (meta meta' : Meta) d : written meta meta' d -> framed meta meta'.
Proof. intros [_ ->] k Hk. rewrite get_dset. by destruct (String.eqb_spec "retry_circuit" k). Qed.
Lemma framed_trans m1 m2 m3 : framed m1 m2 -> framed m2 m3 -> framed m1 m3.
Proof. intros H1 H2 k Hk. by rewrite H2, H1. Qed.

Lemma cleanup_valid now (meta meta' : Meta) n :
  cleanup_expired now meta = (meta', Ok n) ->
  meta' = meta \/ exists d, written meta meta' d.
Proof.
  unfold cleanup_expired. intros H. repeat inv_step. destruct (is_nil r1); [inv_step; auto|].
  cbv beta zeta in H. repeat (inv_step; cbv beta zeta in * ). right.
  match goal with H : validate (VDict ?d) = Ok ?x |- _ =>
    pose proof (validate_value _ _ H) as Hv; injection Hv as <-; by exists d end.
Qed.

Lemma resolve_valid identity rid failure now (meta meta' : Meta) msg :
  resolve identity rid failure now meta = (meta', Ok msg) ->
  metadata_error meta' = Ok None /\ framed meta meta'.
Proof.
  unfold resolve. intros H. repeat (inv_step; cbv beta zeta in * ).
  set (d := dset r "reservations" (VList r2)) in *.
  assert (Hf : framed meta (dset meta "retry_circuit" (VDict d))).
  { intros k Hk. rewrite get_dset. by destruct (String.eqb_spec "retry_circuit" k). }
  destruct (is_null failure).
  - repeat (inv_step; cbv beta zeta in * ). destruct r4; repeat (inv_step; cbv beta zeta in * ).
    + split.
      * unfold metadata_error. by rewrite get_dpop.
      * eapply framed_trans; [exact Hf|]. intros k Hk. rewrite get_dpop.
        by destruct (String.eqb_spec "retry_circuit" k).
    + match goal with H : validate (VDict ?d) = Ok ?x |- _ =>
        pose proof (validate_value _ _ H) as Hv; injection Hv as <- end.
      split; [by apply metadata_error_written | done].
  - repeat (inv_step; cbv beta zeta in * ).
    apply record_failure_inv in H as (? & ? & ? & ? & ? & d' & _ & _ & _ & _ & _ & Hw & _).
    split; [|by eapply framed_trans; [|eapply framed_written]].
    destruct Hw as [Hv ->]. by apply metadata_error_written.
Qed.

Lemma run_valid o (meta meta' : Meta) u :
  run o meta = (meta', Ok u) -> metadata_error meta = Ok None ->
  metadata_error meta' = Ok None /\ framed meta meta'.
Proof.
  assert (Hwr : forall m m' d, written m m' d -> metadata_error m' = Ok None /\ framed m m').
  { intros m m' d Hw. split; [|by eapply framed_written]. destruct Hw as [? ->].
    by apply metadata_error_written. }
  assert (Hcl : forall now m m' n, cleanup_expired now m = (m', Ok n) ->
            metadata_error m = Ok None -> metadata_error m' = Ok None /\ framed m m').
  { intros now m m' n [->|[d Hw]]%cleanup_valid Hm; [by split | by eapply Hwr]. }
  destruct o; simpl; intros H Hm; do 2 inv_step.
  - apply record_failure_inv in E as (? & ? & ? & ? & ? & ? & _ & _ & _ & _ & _ & Hw & _). eauto.
  - apply reserve_inv in E as (? & ? & m1 & ? & ? & ? & ? & ? & ? & _ & Hc & _ & _ & _ & _ & _ & _ & _
      & _ & Hw & _).
    destruct (Hcl _ _ _ _ Hc Hm) as [_ Hf]. destruct (Hwr _ _ _ Hw) as [? Hf'].
    split; [done | by eapply framed_trans].
  - by eapply resolve_valid.
  - apply recover_inv in E as (? & ? & ? & ? & ? & ? & _ & _ & _ & _ & _ & _ & _ & _ & Hw & _). eauto.
  - eauto.
Qed.

(** C26: Whatever sequence of failures, reservations, resolutions, recoveries
    and cleanups is applied to a task whose recorded circuit is valid, the
    recorded circuit stays valid, its attempt, recovery, reservation and
    abandoned lists stay within 64, 32, 16 and 64 entries, and no other field
    of the task changes. *)
Theorem operations_preserve_valid (ops : list operation) (meta : Meta) :
  metadata_error meta = Ok None ->
  let meta' := fold_left commit ops meta in
  metadata_error meta' = Ok None /\ framed meta meta' /\
  (get meta' "retry_circuit" = VNull \/
   exists d attempts recoveries reservations abandoned,
     get meta' "retry_circuit" = VDict d /\
     item d "attempts" = Ok (VList attempts) /\ (length attempts <= 64)%nat /\
     item d "recoveries" = Ok (VList recoveries) /\ (length recoveries <= 32)%nat /\
     item d "reservations" = Ok (VList reservations) /\ (length reservations <= 16)%nat /\
     item d "abandoned" = Ok (VList abandoned) /\ (length abandoned <= 64)%nat).
Proof.
  intros Hm. cbv zeta.
  assert (Hinv : metadata_error (fold_left commit ops meta) = Ok None /\
                 framed meta (fold_left commit ops meta)).
  { revert meta Hm. induction ops as [|o ops IH]; intros meta Hm; simpl; [by split|].
    unfold commit at 2 4. destruct (run o meta) as [meta1 [u|e]] eqn:E; [|auto].
    destruct (run_valid _ _ _ _ E Hm) as [H1 Hf]. destruct (IH _ H1) as [? Hf'].
    split; [done | by eapply framed_trans]. }
  destruct Hinv as [Hv Hf]. split_and!; [done.. |].
  unfold metadata_error in Hv. destruct (is_null _) eqn:En.
  { left. by destruct (get _ _). }
  right. destruct (validate _) as [d|e] eqn:Ed; [|by destruct (is_ValueError e)].
  pose proof (validate_value _ _ Ed) as Eg. rewrite Eg in Ed.
  destruct (validate_lists _ _ Ed) as (a & r & s & b & Ha & Hr & Hs & Hb & _ & La & Lr & Ls & Lb & _).
  exists d, a, r, s, b. by split_and!.
Qed.

(** Resolving a launch slot without a failure while the task has no
    recorded attempt deletes the whole circuit record: every other live
    reservation and every abandoned slot is lost with it. *)
Theorem resolve_release_drops_circuit identity rid now (meta meta' : Meta) msg state :
  resolve identity rid VNull now meta = (meta', Ok msg) -> _state meta = Ok state ->
  items_of state "attempts" = Ok [] ->
  get meta' "retry_circuit" = VNull.
Proof.
  unfold resolve, falsy_item. intros H Hs Ha. repeat (inv_step; cbv beta zeta in * ).
  rewrite Hs in E. injection E as <-. cbn [is_null] in H. repeat (inv_step; cbv beta zeta in * ).
  rewrite item_dset in *. cbn [String.eqb Ascii.eqb Bool.eqb] in *.
  unfold items_of in Ha. inv_step.
  match goal with E1 : item state "attempts" = Ok ?x, E2 : item state "attempts" = Ok ?y |- _ =>
    rewrite E1 in E2; injection E2 as <-; assert (truthy x = false) as Ht end.
  { match type of Ha with iter ?x = _ => destruct x as [| | |t|l|d] end; try discriminate.
    - by destruct t.
    - by destruct l.
    - by destruct d. }
  rewrite Ht in E3. cbn [negb] in E3. inv_step. by rewrite get_dpop.
Qed.

(** ** Witnesses *)

Definition sample_identity : string :=
  "sha256:00000000000000000000000000000000000000000000000000000000000000aa".
Definition sample_slot : string := "000000000000000000000000000000aa".
Definition sample_other_slot : string := "000000000000000000000000000000bb".
(** [k] failures of the sample command at revisions 1..k. *)
Fixpoint failures (k : nat) : Meta :=
  match k with
  | O => [("task_revision", VInt 1)]
  | S k' =>
      let meta := fst (record_failure (VStr sample_identity) (VStr "EXIT") (VInt 3)
                         (VStr "2026-01-01T00:00:00Z") (failures k')) in
      dset meta "task_revision" (VInt (Z.of_nat k + 1))
  end.
Definition reserved (k : nat) : Meta :=
  fst (reserve (VStr sample_identity) (VInt 3) (VStr sample_slot) (VStr "2026-01-01T00:00:00Z")
         (VStr "2026-01-01T01:00:00Z") (failures k)).

Lemma record_failure_opens_witness :
  exists meta' msg, record_failure (VStr sample_identity) (VStr "EXIT") (VInt 3) (VStr "t")
                      (failures 2) = (meta', Ok msg) /\
    admit_ meta' (VStr sample_identity) = Raise open_error.
Proof.
  eexists _, _. split; [vm_compute; reflexivity|].
  edestruct (record_failure_opens sample_identity (VStr "EXIT") (VInt 3) (VStr "t") (failures 2))
    as [_ H]; [vm_compute; reflexivity | reflexivity | vm_compute; reflexivity
              | vm_compute; reflexivity |].
  rewrite H; [vm_compute; reflexivity | vm_compute; discriminate | reflexivity].
Defined.

Lemma recover_reopens_witness :
  exists meta' msg, recover (VStr sample_identity) (VStr "changed-approach") (VStr "new plan")
                      (VStr "t") (failures 3) = (meta', Ok msg) /\
    forall other, admit_ meta' other = Ok tt.
Proof.
  eexists _, _. split; [vm_compute; reflexivity|]. intros other.
  edestruct (recover_reopens sample_identity (VStr "changed-approach") (VStr "new plan") (VStr "t")
               (failures 3)) as (_ & H & _);
    [vm_compute; reflexivity | vm_compute; reflexivity | vm_compute; reflexivity
    | vm_compute; reflexivity | | by apply H].
  intros a ra Ha. repeat (apply elem_of_cons in Ha as [->|Ha]; [vm_compute; intros [= <-]; discriminate|]).
  set_solver.
Defined.

Lemma reserve_bounded_witness :
  exists meta' msg, reserve (VStr sample_identity) (VInt 3) (VStr sample_slot)
      (VStr "2026-01-01T00:00:00Z") (VStr "2026-01-01T01:00:00Z") (failures 2) = (meta', Ok msg) /\
    metadata_error meta' = Ok None.
Proof.
  eexists _, _. split; [vm_compute; reflexivity|].
  edestruct (reserve_bounded (VStr sample_identity) (VInt 3) (VStr sample_slot)
      (VStr "2026-01-01T00:00:00Z") (VStr "2026-01-01T01:00:00Z") (failures 2))
    as (? & ? & ? & ? & ? & _ & _ & _ & _ & _ & _ & _ & _ & _ & H);
    [vm_compute; reflexivity | reflexivity | exact H].
Defined.

Lemma cleanup_expired_exact_witness :
  exists meta', cleanup_expired (VStr "2026-01-01T02:00:00Z") (reserved 0) = (meta', Ok 1) /\
    exists state' l, _state meta' = Ok state' /\ items_of state' "reservations" = Ok l /\
      forall i, i ∈ l -> _expired i (VStr "2026-01-01T02:00:00Z") = Ok false.
Proof.
  eexists. split; [vm_compute; reflexivity|].
  edestruct (cleanup_expired_exact (VStr "2026-01-01T02:00:00Z") (reserved 0))
    as (_ & state' & l & Hs & Hl & Hi & _);
    [vm_compute; reflexivity | vm_compute; reflexivity | vm_compute; reflexivity
    | vm_compute; reflexivity |].
  exists state', l. split; [exact Hs|]. split; [exact Hl|]. intros i H. apply (Hi i), H.
Defined.

Lemma operations_preserve_valid_witness :
  metadata_error (fold_left commit
    [Record_failure (VStr sample_identity) (VStr "EXIT") (VInt 3) (VStr "2026-01-01T00:00:00Z")]
    [("task_revision", VInt 1)]) = Ok None.
Proof. apply operations_preserve_valid. reflexivity. Defined.

Definition two_reserved : Meta :=
  fst (reserve (VStr sample_identity) (VInt 3) (VStr sample_other_slot)
         (VStr "2026-01-01T00:00:00Z") (VStr "2026-01-01T01:00:00Z") (reserved 0)).
Lemma resolve_release_drops_circuit_witness :
  resolution_revision two_reserved (VStr sample_identity) (VStr sample_other_slot) = Ok 2 /\
  exists meta', resolve (VStr sample_identity) (VStr sample_slot) VNull (VStr "t") two_reserved
      = (meta', Ok "Released retry circuit launch slot.") /\
    get meta' "retry_circuit" = VNull.
Proof.
  split; [vm_compute; reflexivity|]. eexists. split; [vm_compute; reflexivity|].
  eapply (resolve_release_drops_circuit (VStr sample_identity) (VStr sample_slot) (VStr "t")
    two_reserved); [vm_compute; reflexivity.. ].
Defined.

End RetryCircuit.
