(* ===== verification/OracleGate.v ===== *)
(** * Interaction gates ([src/tools/oracle_lifecycle.py])

    Typed interaction events and the gate record [meta["oracle_gate"]] they
    advance; the ordering model of [src/tools/oracle_lifecycle_model.py] is the
    abstract specification, and [apply_event] refines it. *)
From S2P Require Import Prelude PyStr Regex PyVal PyTime PyJson.

Module OracleGate.
Import Py.

Definition GATE_SEQUENCE : list string :=
  ["intake"; "discussion"; "formal_spec_review"; "reconciliation"].
Definition STAGE_GATE_SEQUENCE : list string := ["role"; "spec"; "decision"].
Definition SHA256 := Regex.DIGEST.
Definition PUBLIC_REF : Regex.re :=
  Regex.cat (Regex.RChar Regex.alnum)
    (Regex.between 0 127 (Regex.RChar (Regex.union Regex.alnum (Regex.one_of "._/-")))).
Definition DISPOSITIONS : list string :=
  ["accepted"; "rejected"; "clarify"; "user-added-option"; "contradiction"; "unresolved"].
Definition ACTIONS : list string := ["open"; "resolve"; "reopen"].
Definition MAX_DISCUSSION_ROUNDS : Z := 16.
Definition upper_digit_dash : ascii -> bool :=
  Regex.union PyStr.is_upper (Regex.union PyStr.is_digit (Regex.one_of "-")).
Definition SESSION_ID : Regex.re :=
  Regex.cat (Regex.lit "AWTUI-") (Regex.between 1 127 (Regex.RChar upper_digit_dash)).
Definition REQUEST_REF : Regex.re :=
  Regex.cat (Regex.lit "AWG-") (Regex.between 1 127 (Regex.RChar upper_digit_dash)).
Definition SESSION_ACTIVATIONS : list string :=
  ["user-decision"; "user-detail-request"; "user-proposal-review"; "agent-uncertainty";
   "policy-required-approval"].
Definition SESSION_STATUSES : list string := ["presenting"; "clarification_requested"; "resolved"].
Definition SESSION_VERSION : string := "1.0".

Inductive GateStage : Type := INTAKE | DISCUSSION | FORMAL_SPEC_REVIEW | RECONCILIATION.
Inductive StageGate : Type := ROLE | SPEC | DECISION.
Inductive stage : Type := Interaction (g : GateStage) | Task (g : StageGate).
(** [stage.value] *)
Definition stage_value (s : stage) : string :=
  match s with
  | Interaction INTAKE => "intake"
  | Interaction DISCUSSION => "discussion"
  | Interaction FORMAL_SPEC_REVIEW => "formal_spec_review"
  | Interaction RECONCILIATION => "reconciliation"
  | Task ROLE => "role"
  | Task SPEC => "spec"
  | Task DECISION => "decision"
  end.
(** [GateStage(s)], else [StageGate(s)] *)
Definition stage_of (s : string) : option stage :=
  List.find (fun g => String.eqb (stage_value g) s)
    [Interaction INTAKE; Interaction DISCUSSION; Interaction FORMAL_SPEC_REVIEW;
     Interaction RECONCILIATION; Task ROLE; Task SPEC; Task DECISION].

Definition _public_ref (v label : string) : res string :=
  let bad := GateError (label +:+ " must be a public-safe reference") in
  check raise_if (negb (Regex.fullmatch PUBLIC_REF v)) bad ;;
  check raise_if (PyStr.startswith "/" v || PyStr.contains ".." v || PyStr.contains "//" v) bad ;;
  Ok v.
Definition _digest (v label : string) : res string :=
  check raise_if (negb (Regex.fullmatch SHA256 v)) (GateError (label +:+ " must be a sha256 digest")) ;;
  Ok v.
Definition _timestamp (v : value) (label : string) : res string :=
  match v with
  | VStr s =>
      match PyTime.parse_iso s with
      | None => Raise (GateError (label +:+ " is invalid"))
      | Some t => if PyTime.naive t then Raise (GateError (label +:+ " requires a timezone")) else Ok s
      end
  | _ => Raise (GateError (label +:+ " is invalid"))
  end.

Definition SESSION_REQUIRED : list string :=
  ["schema_version"; "session_id"; "request_ref"; "activation"; "status"; "task_revision";
   "tui_contract_version"; "opened_at"].
(** [isinstance(v, str) and pattern.fullmatch(v)], [isinstance(v, str) and v in ss] *)
Definition str_matches (p : Regex.re) (v : value) : bool :=
  match v with VStr s => Regex.fullmatch p s | _ => false end.
Definition str_in (ss : list string) (v : value) : bool :=
  match v with VStr s => PyStr.mem s ss | _ => false end.

Definition human_session_errors (v : value) : list string :=
  match v with
  | VNull => []
  | VDict d =>
      if negb (keys_cover d SESSION_REQUIRED && keys_within d (SESSION_REQUIRED ++ ["closed_at"])) then
        ["oracle_gate.human_session fields are incomplete or unknown"]
      else if ne (get d "schema_version") (VStr SESSION_VERSION)
              || ne (get d "tui_contract_version") (VStr SESSION_VERSION) then
        ["oracle_gate.human_session contract version is unsupported"]
      else if negb (str_matches SESSION_ID (get d "session_id")) then
        ["oracle_gate.human_session.session_id is invalid"]
      else if negb (str_matches REQUEST_REF (get d "request_ref")) then
        ["oracle_gate.human_session.request_ref is invalid"]
      else if negb (str_in SESSION_ACTIVATIONS (get d "activation"))
              || negb (str_in SESSION_STATUSES (get d "status")) then
        ["oracle_gate.human_session activation or status is invalid"]
      else if match get d "task_revision" with VInt r => r <? 1 | _ => true end then
        ["oracle_gate.human_session.task_revision is invalid"]
      else
        match (let* _ := _timestamp (get d "opened_at") "oracle_gate.human_session.opened_at" in
               if has d "closed_at"
               then _timestamp (get d "closed_at") "oracle_gate.human_session.closed_at"
               else Ok "") with
        | Raise e => [exn_msg e]
        | Ok _ =>
            if is_s (get d "status") "presenting" && has d "closed_at" then
              ["oracle_gate.human_session.presenting session cannot be closed"]
            else if negb (is_s (get d "status") "presenting") && negb (has d "closed_at") then
              ["oracle_gate.human_session closed session lacks closed_at"]
            else []
        end
  | _ => ["oracle_gate.human_session must be an object"]
  end.

(** ** Events *)
Record ArtifactRef : Type := Artifact { ref : string; digest : string }.
(** [ArtifactRef.__post_init__] *)
Definition make_artifact (r d : string) : res ArtifactRef :=
  let* _ := _public_ref r "artifact ref" in
  let* _ := _digest d "artifact digest" in
  Ok (Artifact r d).
Definition artifact_record (a : ArtifactRef) : value :=
  VDict [("ref", VStr (ref a)); ("digest", VStr (digest a))].

Record InteractionEvent : Type := Event {
  task_id : string; task_revision : Z; event_stage : stage; action : string; disposition : string;
  before : list ArtifactRef; after : list ArtifactRef; public_ref : string; recorded_at : string }.

(** [InteractionEvent.__post_init__] *)
Definition event_check (e : InteractionEvent) : res unit :=
  check raise_if (negb (Regex.fullmatch Regex.TASK (task_id e))) (GateError "event task_id is invalid") ;;
  check raise_if (task_revision e <? 1) (GateError "event task_revision must be positive") ;;
  check raise_if (negb (PyStr.mem (action e) ACTIONS)) (GateError "unknown interaction event action") ;;
  check raise_if (negb (PyStr.mem (disposition e) DISPOSITIONS))
          (GateError "unknown interaction disposition") ;;
  check raise_if (match before e, after e with [], _ | _, [] => true | _, _ => false end)
          (GateError "interaction event requires before and after artifacts") ;;
  let* _ := _public_ref (public_ref e) "event public_ref" in
  match PyTime.parse_iso (recorded_at e) with
  | None => Raise (GateError "event recorded_at is invalid")
  | Some t => raise_if (PyTime.naive t) (GateError "event recorded_at requires a timezone")
  end.

Definition EVENT_FIELDS : list string :=
  ["task_id"; "task_revision"; "stage"; "action"; "disposition"; "before"; "after"; "public_ref";
   "recorded_at"].
(** The local function [refs] of [from_record]. *)
Definition event_refs (v : value) (name : string) : res (list ArtifactRef) :=
  let* raw := vitem v name in
  match raw with
  | VList l =>
      match mapr (fun i => let* r := vitem i "ref" in let* d := vitem i "digest" in
                           make_artifact (str r) (str d)) l with
      | Raise (KeyError _ | TypeError _) =>
          Raise (GateError ("event " +:+ name +:+ " contains an invalid artifact"))
      | r => r
      end
  | _ => Raise (GateError ("event " +:+ name +:+ " must be a list"))
  end.
Definition from_record (v : value) : res InteractionEvent :=
  check raise_when (py_not (set_is v EVENT_FIELDS))
          (GateError "interaction event fields are incomplete or unknown") ;;
  let* revision := vitem v "task_revision" in
  match revision with
  | VInt rev =>
      let* s := vitem v "stage" in
      match stage_of (str s) with
      | None => Raise (GateError "unknown interaction gate stage")
      | Some stg =>
          let* t := vitem v "task_id" in
          let* a := vitem v "action" in
          let* d := vitem v "disposition" in
          let* b := event_refs v "before" in
          let* f := event_refs v "after" in
          let* p := vitem v "public_ref" in
          let* r := vitem v "recorded_at" in
          let e := Event (str t) rev stg (str a) (str d) b f (str p) (str r) in
          check event_check e ;; Ok e
      end
  | _ => Raise (GateError "interaction event task_revision is invalid")
  end.

Definition as_record (e : InteractionEvent) : value := VDict [
  ("task_id", VStr (task_id e)); ("task_revision", VInt (task_revision e));
  ("stage", VStr (stage_value (event_stage e))); ("action", VStr (action e));
  ("disposition", VStr (disposition e));
  ("before", VList (map artifact_record (before e)));
  ("after", VList (map artifact_record (after e)));
  ("public_ref", VStr (public_ref e)); ("recorded_at", VStr (recorded_at e))].

(** ** The gate record *)
Definition GATE_REQUIRED : list string := ["required"; "open_stage"; "completed"; "events"].
Definition GATE_OPTIONAL : list string :=
  ["stage_sequence"; "human_session"; "authorized"; "discussion_rounds"; "reconciliation_required"].

(** [gate.get("stage_sequence", GATE_SEQUENCE)] as a tuple *)
Definition gate_sequence (d : dict) : res (list value) :=
  match dget d "stage_sequence" with
  | None => Ok (map VStr GATE_SEQUENCE)
  | Some v => iter v
  end.

(** The condition that makes a present [stage_sequence] invalid. *)
Definition bad_sequence (v : value) : res bool :=
  match v with
  | VList l => py_or [match l with [] => true | _ => false end;
                      has_duplicates l;
                      py_any (fun i => py_not (in_set i (GATE_SEQUENCE ++ STAGE_GATE_SEQUENCE))) l]
  | _ => Ok true
  end.

(** The exceptions a malformed event record is reported for. *)
Definition event_error (v : value) : res (option string) :=
  match from_record v with
  | Ok _ => Ok None
  | Raise e =>
      match e with
      | GateError _ | KeyError _ | TypeError _ | ValueError _ => Ok (Some (exn_msg e))
      | _ => Raise e
      end
  end.
Fixpoint first_event_error (l : list value) : res (option string) :=
  match l with
  | [] => Ok None
  | v :: l' => let* r := event_error v in
               match r with Some m => Ok (Some m) | None => first_event_error l' end
  end.
(** [item["action"] == "open" and item["task_revision"] == session["task_revision"]] *)
Definition opens_session (session item : value) : res bool :=
  py_and [(let* a := vitem item "action" in Ok (is_s a "open"));
          (let* r := vitem item "task_revision" in
           let* s := vitem session "task_revision" in Ok (eq r s))].
Definition int_between (lo hi : Z) (v : value) : bool :=
  match as_Z v with Some z => (lo <=? z) && (z <=? hi) | None => false end.

Definition gate_errors (v : value) : res (list string) :=
  match v with
  | VNull => Ok []
  | VDict d =>
      if negb (keys_cover d GATE_REQUIRED && keys_within d (GATE_REQUIRED ++ GATE_OPTIONAL)) then
        Ok ["oracle_gate fields are incomplete or unknown"]
      else if negb match get d "required" with VBool true => true | _ => false end then
        Ok ["oracle_gate.required must be true"]
      else
        let* bad := (if is_null (get d "stage_sequence") then Ok false
                     else bad_sequence (get d "stage_sequence")) in
        if bad : bool then Ok ["oracle_gate.stage_sequence is invalid"]
        else
          let sequence := match get d "stage_sequence" with
                          | VList l => l
                          | _ => map VStr GATE_SEQUENCE
                          end in
          let open_stage := get d "open_stage" in
          if negb (is_null open_stage) && negb (in_list open_stage sequence) then
            Ok ["oracle_gate.open_stage is invalid"]
          else if match get d "completed" with
                  | VList l => existsb (fun i => negb (in_list i sequence)) l
                  | _ => true
                  end then Ok ["oracle_gate.completed is invalid"]
          else if negb (int_between 0 MAX_DISCUSSION_ROUNDS (get_or d "discussion_rounds" (VInt 0))) then
            Ok ["oracle_gate.discussion_rounds is invalid"]
          else if has d "authorized" && negb (is_bool (get d "authorized")) then
            Ok ["oracle_gate.authorized is invalid"]
          else if negb (is_bool (get_or d "reconciliation_required" (VBool false))) then
            Ok ["oracle_gate.reconciliation_required is invalid"]
          else
            let session := get d "human_session" in
            match human_session_errors session with
            | m :: ms => Ok (m :: ms)
            | [] =>
                match get d "events" with
                | VList l =>
                    if Nat.ltb 32 (length l) then Ok ["oracle_gate.events is invalid or unbounded"]
                    else
                      let* bad := first_event_error l in
                      match bad with
                      | Some m => Ok ["oracle_gate event invalid: " +:+ m]
                      | None =>
                          if is_null session then Ok []
                          else
                            let* opened := py_any (opens_session session) l in
                            Ok (if opened : bool then []
                                else ["oracle_gate.human_session lacks its opening event"])
                      end
                | _ => Ok ["oracle_gate.events is invalid or unbounded"]
                end
            end
  | _ => Ok ["oracle_gate must be an object"]
  end.

(** Rejects autonomous lifecycle operations while a required gate is open. *)
Definition transition_allowed (meta : Meta) (operation : string) : res unit :=
  match get meta "oracle_gate" with
  | VDict gate =>
      let* sequence := gate_sequence gate in
      let incomplete := has gate "completed" && ne (get gate "completed") (VList sequence) in
      let presenting := match get gate "human_session" with
                        | VDict s => is_s (get s "status") "presenting"
                        | _ => false
                        end in
      let open_stage := get gate "open_stage" in
      if (match get gate "required" with VBool true => true | _ => false end)
         && (truthy open_stage || truthy (get_or gate "reconciliation_required" (VBool false))
             || incomplete || presenting)
         && PyStr.mem operation ["promote"; "claim"; "run"; "release"] then
        Raise (GateError ("interaction gate unresolved: " +:+
          (if truthy open_stage then str open_stage
           else if presenting then "presenting" else "reconciliation")))
      else Ok tt
  | _ => Ok tt
  end.

(** ** Applying an event *)
Definition default_gate : dict := [
  ("required", VBool true); ("open_stage", VNull); ("completed", VList []); ("events", VList []);
  ("discussion_rounds", VInt 0); ("reconciliation_required", VBool false)].
(** ["k" not in v] and [v["k"] = x] for a value of any type *)
Definition vlacks (v : value) (k : string) : res bool :=
  match v with
  | VDict d => Ok (negb (has d k))
  | VList l => Ok (negb (in_list (VStr k) l))
  | VStr s => Ok (negb (PyStr.contains k s))
  | _ => Raise (TypeError ("argument of type '" +:+ type_name v +:+ "' is not iterable"))
  end.
Definition vset (v : value) (k : string) (x : value) : res value :=
  match v with
  | VDict d => Ok (VDict (dset d k x))
  | VList _ => Raise (TypeError "list indices must be integers or slices, not str")
  | _ => Raise (TypeError ("'" +:+ type_name v +:+ "' object does not support item assignment"))
  end.
Definition setdefault (d : dict) (k : string) (x : value) : dict := if has d k then d else dset d k x.
(** [sequence.index(s)] *)
Fixpoint index_of (s : string) (l : list value) : option nat :=
  match l with
  | [] => None
  | v :: l' => if is_s v s then Some O else option_map S (index_of s l')
  end.

(** [meta.get("oracle_gate") or {...}], with the stage sequence of a stage gate. *)
Definition current_gate (meta : Meta) (e : InteractionEvent) : res value :=
  let v := get meta "oracle_gate" in
  let current := if truthy v then v else VDict default_gate in
  let* fresh := py_and [vlacks current "stage_sequence";
                        PyStr.mem (stage_value (event_stage e)) STAGE_GATE_SEQUENCE] in
  if fresh then vset current "stage_sequence" (strs STAGE_GATE_SEQUENCE) else Ok current.
Definition first_error (errors : list string) : res unit :=
  match errors with [] => Ok tt | m :: _ => Raise (GateError m) end.
(** The checks of a human session presented with the event. *)
Definition session_check (current : dict) (e : InteractionEvent) (human_session : value) : res unit :=
  if is_null human_session then Ok tt
  else
    check raise_if (negb (String.eqb (action e) "open"))
            (GateError "human session metadata is valid only when opening a gate") ;;
    check first_error (human_session_errors human_session) ;;
    check raise_when (let* r := vitem human_session "task_revision" in
                      Ok (ne r (VInt (task_revision e))))
            (GateError "human session task_revision does not match gate event") ;;
    raise_when (let* s := vget (get_or current "human_session" (VDict [])) "status" in
                Ok (is_s s "presenting"))
      (GateError "a human session is already presenting").

(** [current["discussion_rounds"] += 1] within the bound *)
Definition next_round (current : dict) : res dict :=
  let* v := item current "discussion_rounds" in
  match as_Z v with
  | Some n =>
      check raise_if (MAX_DISCUSSION_ROUNDS <=? n) (GateError "repeated discussion limit exceeded") ;;
      Ok (dset current "discussion_rounds" (VInt (n + 1)))
  | None => Raise (TypeError "'>=' not supported")
  end.
(** The three actions: the gate and its completed stages. *)
Definition advance (current : dict) (e : InteractionEvent) (open_stage : value)
    (completed : list value) (index : nat) : res (dict * list value) :=
  let name := VStr (stage_value (event_stage e)) in
  if String.eqb (action e) "open" then
    check raise_if (negb (is_null open_stage)) (GateError "interaction gate already open") ;;
    check raise_if (in_list name completed || negb (Nat.eqb index (length completed)))
            (GateError "interaction gate skipped or already completed") ;;
    Ok (dset current "open_stage" name, completed)
  else if String.eqb (action e) "resolve" then
    check raise_if (ne open_stage name) (GateError "interaction event does not match open gate") ;;
    if String.eqb (disposition e) "accepted" then
      Ok (dset current "open_stage" VNull, completed ++ [name])
    else
      let* current := next_round (dset current "open_stage" name) in
      Ok (dset current "reconciliation_required" (VBool true), completed)
  else
    check raise_if (negb (in_list name completed) || negb (is_null open_stage))
            (GateError "only a completed gate can be reopened") ;;
    let* current := next_round (dset current "open_stage" name) in
    Ok (dset current "reconciliation_required" (VBool true), take index completed).
(** The presented session, or the open one closed by a resolution. *)
Definition update_session (current : dict) (e : InteractionEvent) (human_session : value) : dict :=
  if negb (is_null human_session) then dset current "human_session" human_session
  else
    match get current "human_session" with
    | VDict session =>
        if String.eqb (action e) "resolve"
           && in_tuple (get session "status") ["presenting"; "clarification_requested"] then
          let status := if String.eqb (disposition e) "accepted" then "resolved"
                        else "clarification_requested" in
          dset current "human_session"
            (VDict (dset (dset session "status" (VStr status)) "closed_at" (VStr (recorded_at e))))
        else current
    | _ => current
    end.

Definition settles_reconciliation (e : InteractionEvent) : bool :=
  String.eqb (action e) "resolve" && String.eqb (disposition e) "accepted"
  && PyStr.mem (stage_value (event_stage e)) ["reconciliation"; "decision"].

(** The gate record after the event. *)
Definition next_gate (meta : Meta) (e : InteractionEvent) (human_session : value) : res dict :=
  check raise_if (ne (VStr (task_id e)) (get meta "id"))
          (GateError "event task_id does not match task") ;;
  check raise_if (ne (VInt (task_revision e)) (get meta "task_revision"))
          (GateError "stale interaction event revision") ;;
  let* v := current_gate meta e in
  let* errors := gate_errors v in
  check first_error errors ;;
  let* current := mapping v in
  check session_check current e human_session ;;
  let* open_stage := item current "open_stage" in
  let* completed := (let* c := item current "completed" in iter c) in
  let current := setdefault (setdefault (dpop current "authorized") "discussion_rounds" (VInt 0))
                   "reconciliation_required" (VBool false) in
  let* sequence := gate_sequence current in
  match index_of (stage_value (event_stage e)) sequence with
  | None => Raise (GateError "unknown interaction gate stage")
  | Some index =>
      let* '(current, completed) := advance current e open_stage completed index in
      let current := if settles_reconciliation e
                     then dset current "reconciliation_required" (VBool false) else current in
      let current := update_session (dset current "completed" (VList completed)) e human_session in
      let* events := (let* l := item current "events" in iter l) in
      check raise_if (Nat.ltb 32 (length events + 1))
              (GateError "interaction event history is bounded at 32 events") ;;
      Ok (dset current "events" (VList (events ++ [as_record e])))
  end.

(** Applies one event to the task metadata. *)
Definition apply_event (e : InteractionEvent) (human_session : value) : st Meta string :=
  do* gate := slift (fun meta => next_gate meta e human_session) in
  do smodify (fun meta => dset meta "oracle_gate" (VDict gate)) ;;
  sret ("Recorded " +:+ action e +:+ " interaction gate " +:+ stage_value (event_stage e)
        +:+ "; event=" +:+ PyJson.digest (as_record e) +:+ ".").

(** ** The bounded ordering model ([oracle_lifecycle_model.step]) *)
Record State : Type := MkState { revision : Z; completed : list string; open_stage : option string }.
Definition step (s : State) (operation stg : string) (expected_revision : Z) (disp : string)
    : res State :=
  check raise_if (negb (expected_revision =? revision s)) (ValueError "stale event") ;;
  check raise_if (PyStr.mem operation ["claim"; "run"; "release"]
                  && match open_stage s with None => false | Some _ => true end)
          (ValueError "interaction gate unresolved") ;;
  if String.eqb operation "open" then
    check raise_when (py_or [match open_stage s with None => false | Some _ => true end;
                             match nth_error GATE_SEQUENCE (length (completed s)) with
                             | Some next => Ok (negb (String.eqb stg next))
                             | None => Raise (IndexError "tuple index out of range")
                             end])
            (ValueError "skipped gate") ;;
    Ok (MkState (revision s + 1) (completed s) (Some stg))
  else if String.eqb operation "resolve" then
    check raise_if (negb (bool_decide (open_stage s = Some stg)))
            (ValueError "resolve does not match gate") ;;
    if String.eqb disp "unresolved" then Ok (MkState (revision s + 1) (completed s) (Some stg))
    else Ok (MkState (revision s + 1) (completed s ++ [stg]) None)
  else if PyStr.mem operation ["claim"; "run"; "release"] then
    Ok (MkState (revision s + 1) (completed s) (open_stage s))
  else Raise (ValueError "unknown operation").

(** ** Order of the gates *)

Lemma gate_sequence_ext d d' :
  dget d' "stage_sequence" = dget d "stage_sequence" -> gate_sequence d' = gate_sequence d.
Proof. intros H. unfold gate_sequence. by rewrite H. Qed.

Lemma index_of_spec s l n :
  index_of s l = Some n -> l !! n = Some (VStr s) /\ forall v, v ∈ take n l -> is_s v s = false.
Proof.
  revert n. induction l as [|v l IH]; intros n; [discriminate|]. cbn -[is_s].
  destruct (is_s v s) eqn:E.
  - intros [= <-]. apply eq_str in E as ->. split; [done|]. set_solver.
  - destruct (index_of s l) as [m|]; [|discriminate]. intros [= <-].
    destruct (IH m) as [H1 H2]; [done|]. split; [done|]. intros w. cbn.
    intros [->|Hw]%elem_of_cons; auto.
Qed.

(** A gate whose completed stages are a prefix of its stage sequence and whose
    open stage, if any, is the next one. *)
Definition string_list (l : list value) : Prop := Forall (fun v => is_str v = true) l.
Definition ordered (d : dict) : Prop := exists seq done,
  gate_sequence d = Ok seq /\ string_list seq /\ get d "required" = VBool true /\
  get d "completed" = VList done /\ done = take (length done) seq /\
  (get d "open_stage" = VNull \/
   exists s, get d "open_stage" = VStr s /\ seq !! length done = Some (VStr s)).

(** What [gate_errors] guarantees of a gate it accepts. *)
Lemma gate_errors_ok v d : gate_errors v = Ok [] -> v = VDict d ->
  get d "required" = VBool true /\
  (is_null (get d "stage_sequence") = false ->
     exists l, get d "stage_sequence" = VList l /\ string_list l) /\
  (exists l, get d "completed" = VList l /\
     (is_null (get d "stage_sequence") = false ->
        forall i s, i ∈ l -> get d "stage_sequence" = VList s -> in_list i s = true)) /\
  (forall s, get d "stage_sequence" = VList s ->
     get d "open_stage" = VNull \/ in_list (get d "open_stage") s = true).
Proof.
  intros H ->. unfold gate_errors in H.
  destruct (negb (_ && _)); [discriminate|].
  destruct (get d "required") as [|[]| | | |] eqn:Er; try discriminate. cbn [negb] in H.
  split; [done|].
  destruct (is_null (get d "stage_sequence")) eqn:En.
  { destruct (get d "stage_sequence"); try discriminate. cbn [rbind] in H.
    destruct (_ && _); [discriminate|]. split_and!; try discriminate.
    destruct (get d "completed") as [| | | |l|]; try discriminate. exists l. by split. }
  apply rbind_Ok_inv in H as [bad [Eb H]]. destruct bad; [discriminate|].
  unfold bad_sequence in Eb. destruct (get d "stage_sequence") as [| | | |sq|] eqn:Es; try discriminate.
  destruct (negb (is_null (get d "open_stage")) && _) eqn:Eo; [discriminate|].
  destruct (match get d "completed" with VList l => _ | _ => true end) eqn:Ec; [discriminate|].
  split_and!.
  - intros _. exists sq. split; [done|]. repeat inv_step. rewrite <- Es in *.
    match goal with H : py_any _ _ = Ok false |- _ =>
      apply py_any_false in H; eapply Forall_impl; [exact H|] end.
    intros x Hx. unfold py_not in Hx. repeat inv_step. subst. unfold in_set in *.
    by destruct x; repeat inv_step.
  - destruct (get d "completed") as [| | | |l|]; try discriminate. exists l. split; [done|].
    intros _ i s Hi [= <-]. rewrite <- not_true_iff_false, existsb_exists in Ec.
    destruct (in_list i sq) eqn:Ei; [done|]. exfalso. apply Ec. exists i.
    rewrite <- list_elem_of_In, Ei. done.
  - intros s [= <-]. destruct (is_null (get d "open_stage")) eqn:E.
    + left. by destruct (get d "open_stage").
    + right. cbn [negb andb] in Eo. by apply negb_false_iff in Eo.
Qed.

Lemma take_prefix {A} (l : list A) n : take (length (take n l)) l = take n l.
Proof. rewrite length_take. destruct (Nat.le_ge_cases n (length l)).
  - by rewrite Nat.min_l.
  - rewrite Nat.min_r, !take_ge by lia. done. Qed.

(** The fields the ordering reads. *)
Definition same_fields (d d' : dict) : Prop :=
  dget d' "stage_sequence" = dget d "stage_sequence" /\ dget d' "required" = dget d "required".

Lemma next_round_fields d d' : next_round d = Ok d' ->
  same_fields d d' /\ get d' "open_stage" = get d "open_stage" /\
  get d' "human_session" = get d "human_session" /\ item d' "events" = item d "events".
Proof.
  unfold next_round. intros H. inv_step. destruct (as_Z r) as [n|]; [|discriminate].
  repeat inv_step. unfold same_fields. by simp_dict.
Qed.

Lemma advance_ordered d e open done index seq d' done' :
  index_of (stage_value (event_stage e)) seq = Some index ->
  done = take (length done) seq ->
  (open = VNull \/ exists s, open = VStr s /\ seq !! length done = Some (VStr s)) ->
  advance d e open done index = Ok (d', done') ->
  same_fields d d' /\ done' = take (length done') seq /\
  (get d' "open_stage" = VNull \/
   exists s, get d' "open_stage" = VStr s /\ seq !! length done' = Some (VStr s)).
Proof.
  intros Hi Hd Ho H. apply index_of_spec in Hi as [Hi Hfirst]. unfold advance in H.
  destruct (String.eqb (action e) "open").
  { repeat inv_step. match goal with H : (_ =? _)%nat = true |- _ => apply Nat.eqb_eq in H as -> end.
    split_and!; [by unfold same_fields; simp_dict | done|].
    right. simp_dict. eauto. }
  destruct (String.eqb (action e) "resolve").
  { inv_step. inv_step. apply ne_false, eq_str in E as ->.
    destruct Ho as [?|(s & Hs & Hn)]; [discriminate|]. injection Hs as <-.
    destruct (String.eqb (disposition e) "accepted").
    - repeat inv_step. split_and!; [by unfold same_fields; simp_dict | | left; by simp_dict].
      rewrite length_app. cbn [length]. rewrite Nat.add_1_r. rewrite (take_S_r _ _ _ Hn). by rewrite <- Hd.
    - repeat inv_step. apply next_round_fields in E as ([H1 H2] & H3 & _).
      split_and!; [|done|].
      + unfold same_fields. simp_dict. rewrite H1, H2. by simp_dict.
      + right. simp_dict. rewrite H3. simp_dict. eauto. }
  repeat inv_step. apply next_round_fields in E0 as ([H1 H2] & H3 & _).
  apply in_list_str in H.
  assert (Hlt : (index < length done)%nat).
  { destruct (Nat.lt_ge_cases index (length done)) as [|Hge]; [done|]. exfalso.
    rewrite Hd in H.
    assert (Hin : VStr (stage_value (event_stage e)) ∈ take index seq).
    { rewrite <- (take_drop (length done) seq), take_app_ge by (rewrite length_take; lia).
      set_solver. }
    apply Hfirst in Hin. unfold is_s in Hin. by rewrite eq_str_str, String.eqb_refl in Hin. }
  assert (Hlen : length (take index done) = index) by (rewrite length_take; lia).
  split_and!.
  - unfold same_fields. simp_dict. rewrite H1, H2. by simp_dict.
  - rewrite Hlen. rewrite Hd, take_take. by rewrite Nat.min_l by lia.
  - right. simp_dict. rewrite H3. simp_dict. rewrite Hlen. eauto.
Qed.

Lemma gate_strings : string_list (map VStr GATE_SEQUENCE).
Proof. repeat constructor. Qed.

Lemma ordered_default d :
  dget d "stage_sequence" = None -> get d "required" = VBool true ->
  get d "completed" = VList [] -> get d "open_stage" = VNull -> ordered d.
Proof.
  intros Hs Hr Hc Ho. exists (map VStr GATE_SEQUENCE), [].
  split_and!; try done; [by unfold gate_sequence; rewrite Hs | apply gate_strings | by left].
Qed.

(** Switching a gate without stages behind it to the stage gates. *)
Lemma ordered_switch d l :
  ordered d -> dget d "stage_sequence" = None -> l = map VStr STAGE_GATE_SEQUENCE ->
  gate_errors (VDict (dset d "stage_sequence" (VList l))) = Ok [] ->
  ordered (dset d "stage_sequence" (VList l)).
Proof.
  intros (seq & done & Hs & _ & Hr & Hc & Hd & Ho) Hn -> He.
  destruct (gate_errors_ok _ _ He eq_refl) as (_ & _ & (l & Hl & Hin) & Hopen).
  unfold gate_sequence in Hs. rewrite Hn in Hs. injection Hs as <-.
  rewrite get_dset in Hl. cbn [String.eqb Ascii.eqb Bool.eqb] in Hl.
  assert (Hg : get (dset d "stage_sequence" (VList (map VStr STAGE_GATE_SEQUENCE))) "stage_sequence"
               = VList (map VStr STAGE_GATE_SEQUENCE)) by (by simp_dict).
  rewrite Hg in Hin. rewrite Hc in Hl. injection Hl as <-.
  assert (done = []) as ->.
  { destruct done as [|v done]; [done|]. exfalso. cbn in Hd. injection Hd as -> _.
    specialize (Hin eq_refl (VStr "intake") (map VStr STAGE_GATE_SEQUENCE)).
    discriminate Hin; [set_solver | done]. }
  exists (map VStr STAGE_GATE_SEQUENCE), []. simp_dict.
  split_and!; try done; [by unfold gate_sequence; simp_dict | repeat constructor |].
  left. destruct Ho as [?|(s & Hos & Hsn)]; [done|]. exfalso. cbn in Hsn. injection Hsn as <-.
  destruct (Hopen (map VStr STAGE_GATE_SEQUENCE)) as [H|H]; [by simp_dict | |].
  - rewrite get_dset in H. cbn [String.eqb Ascii.eqb Bool.eqb] in H. congruence.
  - rewrite get_dset in H. cbn [String.eqb Ascii.eqb Bool.eqb] in H. by rewrite Hos in H.
Qed.

(** The task's gate record, when it has one, is ordered. *)
Definition gate_ordered (meta : Meta) : Prop :=
  get meta "oracle_gate" = VNull \/ exists d, get meta "oracle_gate" = VDict d /\ ordered d.

Lemma current_gate_ordered (meta : Meta) e v :
  gate_ordered meta -> current_gate meta e = Ok v -> gate_errors v = Ok [] ->
  exists d, v = VDict d /\ ordered d.
Proof.
  intros Hm H He. unfold current_gate in H.
  assert (exists d, (if truthy (get meta "oracle_gate") then get meta "oracle_gate"
                     else VDict default_gate) = VDict d /\ ordered d) as (d & Hd & Hod).
  { destruct Hm as [->|(d & -> & Hd)]; cbn.
    - exists default_gate. split; [done|]. by apply ordered_default.
    - destruct d as [|p d]; [|eauto]. exists default_gate. split; [done|]. by apply ordered_default. }
  rewrite Hd in H. inv_step. destruct r; [|inv_step; eauto].
  cbn [vset] in H. injection H as <-. eexists. split; [done|].
  repeat inv_step. unfold vlacks in *. repeat inv_step.
  match goal with H : has d _ = false |- _ => unfold has in H;
    destruct (dget d "stage_sequence") eqn:En; [discriminate|] end. 
  apply ordered_switch; try done. 
Qed.

Lemma update_session_fields d e hs :
  dget (update_session d e hs) "stage_sequence" = dget d "stage_sequence" /\
  dget (update_session d e hs) "required" = dget d "required" /\
  get (update_session d e hs) "completed" = get d "completed" /\
  get (update_session d e hs) "open_stage" = get d "open_stage".
Proof.
  unfold update_session. destruct (negb _); [by simp_dict|].
  destruct (get d "human_session"); try done. destruct (_ && _); [by simp_dict | done].
Qed.

Lemma setdefault_get d k x k' : k <> k' -> dget (setdefault d k x) k' = dget d k'.
Proof. intros H. unfold setdefault. destruct (has d k); [done | by apply dget_dset_ne]. Qed.

Lemma get_dget d d' k : dget d k = dget d' k -> get d k = get d' k.
Proof. intros H. unfold get, get_or. by rewrite H. Qed.

(** The gate before an event, as [next_gate] normalises it. *)
Definition normalised (d : dict) : dict :=
  setdefault (setdefault (dpop d "authorized") "discussion_rounds" (VInt 0))
    "reconciliation_required" (VBool false).
Lemma normalised_dget d k :
  k <> "authorized" -> k <> "discussion_rounds" -> k <> "reconciliation_required" ->
  dget (normalised d) k = dget d k.
Proof. intros H1 H2 H3. unfold normalised. by rewrite !setdefault_get, dget_dpop_ne by congruence. Qed.

Lemma next_gate_inv (meta : Meta) e hs d' :
  next_gate meta e hs = Ok d' ->
  eq (VStr (task_id e)) (get meta "id") = true /\
  eq (VInt (task_revision e)) (get meta "task_revision") = true /\
  exists v current open done seq index d1 done1 events,
    current_gate meta e = Ok v /\ gate_errors v = Ok [] /\ mapping v = Ok current /\
    session_check current e hs = Ok tt /\
    item current "open_stage" = Ok open /\ (let* c := item current "completed" in iter c) = Ok done /\
    gate_sequence (normalised current) = Ok seq /\
    index_of (stage_value (event_stage e)) seq = Some index /\
    advance (normalised current) e open done index = Ok (d1, done1) /\
    let d2 := update_session (dset (if settles_reconciliation e
                then dset d1 "reconciliation_required" (VBool false) else d1)
                "completed" (VList done1)) e hs in
    (let* l := item d2 "events" in iter l) = Ok events /\ (length events < 32)%nat /\
    d' = dset d2 "events" (VList (events ++ [as_record e])).
Proof.
  unfold next_gate. fold normalised. intros H.
  apply rbind_Ok_inv in H as [[] [E1 H]]. apply rbind_Ok_inv in H as [[] [E2 H]].
  apply raise_if_Ok, ne_false in E1. apply raise_if_Ok, ne_false in E2. split_and!; [done..|].
  apply rbind_Ok_inv in H as (v & Ev & H). apply rbind_Ok_inv in H as (errs & Ee & H).
  apply rbind_Ok_inv in H as ([] & Ef & H). destruct errs as [|m errs]; [|discriminate].
  apply rbind_Ok_inv in H as (cur & Ec & H). apply rbind_Ok_inv in H as ([] & Es & H).
  apply rbind_Ok_inv in H as (open & Eo & H). apply rbind_Ok_inv in H as (done & Ed & H).
  cbv zeta in H. change (setdefault _ _ _) with (normalised cur) in H.
  apply rbind_Ok_inv in H as (seq & Eq & H).
  destruct (index_of _ seq) as [index|] eqn:Ei; [|discriminate].
  apply rbind_Ok_inv in H as ([d1 done1] & Ea & H). cbv beta iota in H.
  apply rbind_Ok_inv in H as (events & Een & H). apply rbind_Ok_inv in H as ([] & El & H).
  apply raise_if_Ok, Nat.ltb_ge in El. injection H as <-.
  exists v, cur, open, done, seq, index, d1, done1, events. split_and!; try done. lia.
Qed.

Lemma next_gate_ordered (meta : Meta) e hs d :
  gate_ordered meta -> next_gate meta e hs = Ok d -> ordered d.
Proof.
  intros Hm (_ & _ & v & cur & open & done & sq & index & d1 & done1 & events & Ev & Ee & Ec & _ & Eo &
    Ed & Eq & Ei & Ea & _ & _ & ->)%next_gate_inv.
  destruct (current_gate_ordered _ _ _ Hm Ev Ee) as (cur' & -> & Hcur).
  injection Ec as <-. destruct Hcur as (seq' & done' & Hs & Hst & Hr & Hc & Hd & Ho).
  apply item_get in Eo as <-.
  apply rbind_Ok_inv in Ed as (c & Hc' & Ed). apply item_get in Hc'. rewrite Hc in Hc'.
  subst c. injection Ed as <-.
  rewrite (gate_sequence_ext cur' (normalised cur')) in Eq by (by rewrite normalised_dget).
  rewrite Hs in Eq. injection Eq as <-.
  destruct (advance_ordered _ _ _ _ _ _ _ _ Ei Hd Ho Ea) as ([F1 F2] & Hd1 & Ho1).
  rewrite normalised_dget in F1, F2 by done.
  destruct (update_session_fields (dset (if settles_reconciliation e
                then dset d1 "reconciliation_required" (VBool false) else d1)
                "completed" (VList done1)) e hs) as (U1 & U2 & U3 & U4).
  exists seq', done1. rewrite !get_dset. cbn [String.eqb Ascii.eqb Bool.eqb].
  rewrite U3, U4. split_and!; try done.
  - rewrite (gate_sequence_ext cur'); [done|]. simp_dict. rewrite U1.
    destruct (settles_reconciliation e); by simp_dict.
  - rewrite <- Hr. apply get_dget. rewrite U2. destruct (settles_reconciliation e); by simp_dict.
  - by simp_dict.
  - destruct (settles_reconciliation e); by simp_dict.
Qed.

(** One step of a task as the gates see it: an applied event, or any change
    that leaves the gate record alone. *)
Definition gate_step (meta meta' : Meta) : Prop :=
  (exists e hs msg, apply_event e hs meta = (meta', Ok msg)) \/
  get meta' "oracle_gate" = get meta "oracle_gate".

Lemma apply_event_inv e hs (meta meta' : Meta) msg :
  apply_event e hs meta = (meta', Ok msg) ->
  exists d, next_gate meta e hs = Ok d /\ meta' = dset meta "oracle_gate" (VDict d).
Proof. unfold apply_event. intros H. repeat (inv_step; cbv beta zeta in * ). eauto. Qed.

Lemma reachable_ordered (meta meta' : Meta) :
  rtc gate_step meta meta' -> gate_ordered meta -> gate_ordered meta'.
Proof.
  induction 1 as [|m1 m2 m3 [(e & hs & msg & H)|H] _ IH]; [done| |]; intros Hm; apply IH.
  - apply apply_event_inv in H as (d & Hd & ->). right. exists d.
    rewrite get_dset. split; [done|]. by eapply next_gate_ordered.
  - unfold gate_ordered in *. by rewrite H.
Qed.

(** C15: Stages cannot be skipped or completed out of order: whatever events
    are applied to a task that starts without a gate (or with an ordered one),
    with any other changes between them, its completed stages are a prefix of
    the stage sequence and the open stage, if any, is the next one. *)
Theorem gate_order_invariant (meta meta' : Meta) :
  rtc gate_step meta meta' -> gate_ordered meta ->
  get meta' "oracle_gate" = VNull \/
  exists d seq done, get meta' "oracle_gate" = VDict d /\ gate_sequence d = Ok seq /\
    get d "completed" = VList done /\ done = take (length done) seq /\
    (get d "open_stage" = VNull \/ seq !! length done = Some (get d "open_stage")).
Proof.
  intros H Hm. destruct (reachable_ordered _ _ H Hm)
    as [?|(d & Hd & seq & done & Hs & _ & _ & Hc & Hp & Ho)]; [by left|].
  right. exists d, seq, done. split_and!; try done.
  destruct Ho as [?|(s & Hos & Hn)]; [by left | right; by rewrite Hos].
Qed.

Lemma eq_string_list l : string_list l -> forall m, eq (VList m) (VList l) = true <-> m = l.
Proof.
  induction 1 as [|v l Hv _ IH]; intros [|w m]; try (split; [discriminate | congruence]).
  - done.
  - specialize (IH m). cbn in IH |- *. rewrite andb_true_iff, IH.
    apply is_str_inv in Hv as [s ->]. rewrite eq_str. naive_solver.
Qed.

Definition gated_operations : list string := ["promote"; "claim"; "run"; "release"].

(** On a task with an ordered gate, an autonomous operation (promote,
    claim, run, release) is allowed exactly when every stage of the sequence
    is completed, no reconciliation is pending and no human session is being
    presented; any other operation is never blocked by the gate. *)
Theorem transition_allowed_iff (meta : Meta) d operation seq :
  get meta "oracle_gate" = VDict d -> ordered d -> gate_sequence d = Ok seq ->
  transition_allowed meta operation = Ok tt <->
  PyStr.mem operation gated_operations = false \/
  (get d "completed" = VList seq /\ get d "open_stage" = VNull /\
   truthy (get_or d "reconciliation_required" (VBool false)) = false /\
   forall s, get d "human_session" = VDict s -> get s "status" <> VStr "presenting").
Proof.
  intros Hg (seq' & done & Hs & Hst & Hr & Hc & Hd & Ho) Hsq.
  rewrite Hs in Hsq. injection Hsq as ->.
  unfold transition_allowed. rewrite Hg, Hs, Hr. cbn [rbind andb].
  destruct (PyStr.mem operation gated_operations) eqn:Em;
    [|unfold gated_operations in Em; rewrite Em, andb_false_r; split; auto].
  unfold gated_operations in Em. rewrite Em, andb_true_r.
  assert (Hcomp : has d "completed" = true).
  { unfold has, get, get_or in *. by destruct (dget d "completed"). }
  rewrite Hcomp, Hc. cbn [andb].
  set (pres := match get d "human_session" with VDict s => is_s (get s "status") "presenting"
               | _ => false end).
  assert (Hpres : pres = false <-> forall s, get d "human_session" = VDict s ->
                                   get s "status" <> VStr "presenting").
  { unfold pres. destruct (get d "human_session") as [| | | | |s]; try (split; [discriminate | done] || done).
    rewrite <- not_true_iff_false. unfold is_s. rewrite eq_str. naive_solver. }
  assert (Hne : ne (VList done) (VList seq) = false <-> done = seq).
  { by rewrite ne_false, eq_string_list. }
  assert (Hopen : done = seq -> get d "open_stage" = VNull).
  { intros ->. destruct Ho as [?|(s & _ & Hn)]; [done|]. by rewrite lookup_ge_None_2 in Hn. }
  rewrite <- Hpres. split.
  - intros H. right. destruct (_ || _ || _ || _) eqn:E; [discriminate|].
    repeat inv_step. apply Hne in H2 as ->. split_and!; auto.
  - intros [?|(Hd' & -> & -> & ->)]; [done|]. injection Hd' as Hd'. rewrite (proj2 Hne Hd'). done.
Qed.

(** ** Refinement of the ordering model *)

(** The abstraction of a task on the default sequence. *)
Definition abstracts (meta : Meta) (s : State) : Prop :=
  get meta "task_revision" = VInt (revision s) /\
  ((get meta "oracle_gate" = VNull /\ completed s = [] /\ open_stage s = None) \/
   exists d, get meta "oracle_gate" = VDict d /\ dget d "stage_sequence" = None /\ ordered d /\
     get d "completed" = VList (map VStr (completed s)) /\
     get d "open_stage" = match open_stage s with Some g => VStr g | None => VNull end).
(** A transition that commits bumps the task revision. *)
Definition bump (meta : Meta) (s : State) : Meta :=
  dset meta "task_revision" (VInt (revision s + 1)).
Definition model_disposition (e : InteractionEvent) : string :=
  if String.eqb (disposition e) "accepted" then "accepted" else "unresolved".

Lemma abstracts_current (meta : Meta) s e v :
  abstracts meta s -> PyStr.mem (stage_value (event_stage e)) STAGE_GATE_SEQUENCE = false ->
  current_gate meta e = Ok v ->
  exists d, v = VDict d /\ dget d "stage_sequence" = None /\
    get d "completed" = VList (map VStr (completed s)) /\
    get d "open_stage" = match open_stage s with Some g => VStr g | None => VNull end.
Proof.
  intros [_ Ha] Hst H. unfold current_gate in H. rewrite Hst in H.
  destruct Ha as [(Hg & -> & ->)|(d & Hg & Hn & Hod & Hc & Ho)]; rewrite Hg in H.
  - cbn in H. injection H as <-. eexists. by split_and!.
  - assert (truthy (VDict d) = true) as Ht.
    { destruct Hod as (? & ? & _ & _ & Hr & _). by destruct d. }
    rewrite Ht in H. unfold vlacks, has in H. rewrite Hn in H. cbn in H. injection H as <-.
    exists d. by split_and!.
Qed.

Lemma nth_error_sequence n s :
  map VStr GATE_SEQUENCE !! n = Some (VStr s) -> nth_error GATE_SEQUENCE n = Some s.
Proof. do 4 (destruct n as [|n]; [intros [= <-]; done|]). discriminate. Qed.

(** C27: [apply_event] refines the bounded model: opening or resolving an
    interaction stage (every disposition but "accepted" being the model's
    "unresolved") on a task abstracted by [s] is a step of the model, and the
    model's next state abstracts the task after the revision bump. *)
Theorem apply_event_refines e hs (meta meta' : Meta) msg s g :
  abstracts meta s -> event_stage e = Interaction g -> action e <> "reopen" ->
  PyStr.mem (action e) ACTIONS = true ->
  apply_event e hs meta = (meta', Ok msg) ->
  exists s', step s (action e) (stage_value (event_stage e)) (task_revision e) (model_disposition e)
             = Ok s' /\ abstracts (bump meta' s) s'.
Proof.
  intros Hab Hg Hact Hmem H. apply apply_event_inv in H as (d' & Hn & ->).
  assert (Hgo : gate_ordered meta).
  { destruct Hab as [_ [(? & _)|(d & ? & _ & ? & _)]]; [by left | right; eauto]. }
  pose proof (next_gate_ordered _ _ _ _ Hgo Hn) as Hod'.
  apply next_gate_inv in Hn as (_ & Hrev & v & cur & open & done & sq & index & d1 & done1 & events &
    Ev & _ & Ec & _ & Eo & Ed & Eq & Ei & Ea & _ & _ & ->).
  assert (Hnost : PyStr.mem (stage_value (event_stage e)) STAGE_GATE_SEQUENCE = false)
    by (rewrite Hg; by destruct g).
  destruct (abstracts_current _ _ _ _ Hab Hnost Ev) as (cur' & -> & Hno & Hcomp & Hopen).
  injection Ec as <-. apply item_get in Eo as <-. rewrite Hopen in Ea.
  apply rbind_Ok_inv in Ed as (c & Hc & Ed). apply item_get in Hc. rewrite Hcomp in Hc. subst c.
  injection Ed as <-.
  unfold gate_sequence in Eq. rewrite normalised_dget, Hno in Eq by done. injection Eq as <-.
  apply index_of_spec in Ei as [Ei _]. apply nth_error_sequence in Ei.
  destruct Hab as [Hr _]. rewrite Hr in Hrev. cbn in Hrev. apply Z.eqb_eq in Hrev.
  unfold step. rewrite Hrev, Z.eqb_refl. cbn [negb raise_if rbind].
  assert (Hcase : action e = "open" \/ action e = "resolve").
  { apply PyStr.mem_spec in Hmem. unfold ACTIONS in Hmem. rewrite !elem_of_cons in Hmem.
    destruct Hmem as [?|[?|[?|Hf]]]; [auto | auto | done | by apply not_elem_of_nil in Hf]. }
  assert (Hcl : PyStr.mem (action e) ["claim"; "run"; "release"] = false).
  { by destruct Hcase as [-> | ->]. }
  rewrite Hcl. cbn [andb raise_if rbind].
  set (d2 := update_session _ _ _) in *.
  assert (Hfin : forall s', revision s' = revision s + 1 ->
            VList done1 = VList (map VStr (completed s')) ->
            get d1 "open_stage" = match open_stage s' with Some g => VStr g | None => VNull end ->
            dget d1 "stage_sequence" = None ->
            abstracts (bump (dset meta "oracle_gate" (VDict (dset d2 "events"
              (VList (events ++ [as_record e]))))) s) s').
  { intros s' Hr' Hc' Ho' Hs'. split; [unfold bump; simp_dict; by rewrite Hr'|]. right.
    eexists. unfold bump. simp_dict. split; [done|].
    destruct (update_session_fields (dset (if settles_reconciliation e
                then dset d1 "reconciliation_required" (VBool false) else d1)
                "completed" (VList done1)) e hs) as (U1 & U2 & U3 & U4). fold d2 in U1, U2, U3, U4.
    split_and!; [| exact Hod' | |].
    - simp_dict. rewrite U1. destruct (settles_reconciliation e); by simp_dict.
    - simp_dict. rewrite U3. by simp_dict.
    - simp_dict. rewrite U4. destruct (settles_reconciliation e); by simp_dict. }
  unfold advance in Ea. destruct (String.eqb_spec (action e) "open") as [Ha|Ha].
  - destruct (open_stage s) eqn:Eos; [discriminate|]. repeat inv_step.
    match goal with H : (_ =? _)%nat = true |- _ => apply Nat.eqb_eq in H as -> end.
    rewrite length_map in Ei. rewrite Ei, String.eqb_refl. cbn.
    eexists. split; [done|]. apply Hfin; simpl; simp_dict; try done. by rewrite normalised_dget.
  - destruct (String.eqb_spec (action e) "resolve") as [Hb|Hb].
    + apply rbind_Ok_inv in Ea as ([] & E1 & Ea). apply raise_if_Ok, ne_false, eq_str in E1.
      destruct (open_stage s) as [o|] eqn:Eos; [|discriminate]. injection E1 as ->.
      rewrite bool_decide_true by done. cbn [negb raise_if rbind]. unfold model_disposition.
      destruct (String.eqb_spec (disposition e) "accepted") as [Hd|Hd].
      * injection Ea as <- <-. cbn -[stage_value]. eexists. split; [done|].
        apply Hfin; simpl; simp_dict; try done; [by rewrite map_app | by rewrite normalised_dget].
      * apply rbind_Ok_inv in Ea as (d0 & Er & Ea). injection Ea as <- <-.
        apply next_round_fields in Er as ([F1 F2] & F3 & _).
        cbn -[stage_value]. eexists. split; [done|].
        apply Hfin; simpl; simp_dict; try done.
        -- rewrite F3. by simp_dict.
        -- rewrite F1. simp_dict. by rewrite normalised_dget.
    + by destruct Hcase.
Qed.

(** ** Records *)

Lemma stage_of_value st : stage_of (stage_value st) = Some st.
Proof. by destruct st as [[]|[]]. Qed.

Definition artifact_ok (a : ArtifactRef) : Prop := make_artifact (ref a) (digest a) = Ok a.

Lemma event_refs_record v k l :
  vitem v k = Ok (VList (map artifact_record l)) -> Forall artifact_ok l ->
  event_refs v k = Ok l.
Proof.
  intros Hv Hl. unfold event_refs. rewrite Hv. cbn [rbind].
  assert (mapr (fun i => let* r := vitem i "ref" in let* d := vitem i "digest" in
                         make_artifact (str r) (str d)) (map artifact_record l) = Ok l) as ->; [|done].
  clear Hv. induction Hl as [|a l Ha _ IH]; [done|]. cbn -[make_artifact].
  rewrite Ha. cbn [rbind]. by rewrite IH.
Qed.

(** The written record of a valid event reads back as the same event, and
    only valid events are read: a record is accepted only if it is an object
    with exactly the nine fields and the event it denotes passes every check
    of the constructor. *)
Theorem event_record_roundtrip (e : InteractionEvent) :
  event_check e = Ok tt -> Forall artifact_ok (before e) -> Forall artifact_ok (after e) ->
  from_record (as_record e) = Ok e /\
  forall v e', from_record v = Ok e' -> set_is v EVENT_FIELDS = Ok true /\ event_check e' = Ok tt.
Proof.
  intros He Hb Ha. split.
  - unfold from_record. set (v := as_record e).
    assert (set_is v EVENT_FIELDS = Ok true) as -> by reflexivity. cbn [py_not rbind raise_when negb raise_if].
    change (vitem v "task_revision") with (Ok (VInt (task_revision e))). cbn [rbind].
    change (vitem v "stage") with (Ok (VStr (stage_value (event_stage e)))). cbn [rbind str].
    rewrite stage_of_value.
    change (vitem v "task_id") with (Ok (VStr (task_id e))).
    change (vitem v "action") with (Ok (VStr (action e))).
    change (vitem v "disposition") with (Ok (VStr (disposition e))).
    change (vitem v "public_ref") with (Ok (VStr (public_ref e))).
    change (vitem v "recorded_at") with (Ok (VStr (recorded_at e))). cbn [rbind str].
    rewrite (event_refs_record v "before" (before e)), (event_refs_record v "after" (after e)) by done.
    cbn [rbind]. destruct e; cbn in *. by rewrite He.
  - clear. intros v e. unfold from_record. intros H. inv_step. inv_step. unfold py_not in *.
    destruct (set_is v EVENT_FIELDS) as [[]|] eqn:Es; try discriminate. split; [done|].
    inv_step. destruct r0; try discriminate. inv_step. destruct (stage_of _); [|discriminate].
    repeat (inv_step; cbv beta zeta in * ). by destruct (event_check _) as [[]|].
Qed.

(** ** Witnesses *)
Definition sample_artifact : ArtifactRef :=
  Artifact "trace/a" "sha256:00000000000000000000000000000000000000000000000000000000000000aa".
Definition sample_event (rev : Z) (act disp : string) (g : GateStage) : InteractionEvent :=
  Event "AR-0001" rev (Interaction g) act disp [sample_artifact] [sample_artifact] "trace/x"
    "2026-01-01T00:00:00+00:00".
Definition sample_task : Meta := [("id", VStr "AR-0001"); ("task_revision", VInt 1)].
Definition opened_task : Meta := fst (apply_event (sample_event 1 "open" "unresolved" INTAKE) VNull sample_task).

Lemma gate_order_invariant_witness :
  exists d seq done, get opened_task "oracle_gate" = VDict d /\ gate_sequence d = Ok seq /\
    get d "completed" = VList done /\ done = take (length done) seq /\
    (get d "open_stage" = VNull \/ seq !! length done = Some (get d "open_stage")).
Proof.
  destruct (gate_order_invariant sample_task opened_task) as [H|H].
  - eapply rtc_l; [|apply rtc_refl]. left. exists (sample_event 1 "open" "unresolved" INTAKE), VNull.
    eexists. vm_compute. reflexivity.
  - left. reflexivity.
  - exfalso. vm_compute in H. discriminate H.
  - exact H.
Defined.

Lemma transition_allowed_iff_witness :
  exists d, get opened_task "oracle_gate" = VDict d /\ transition_allowed opened_task "claim" <> Ok tt.
Proof.
  eexists. split; [vm_compute; reflexivity|]. intros H.
  eapply (transition_allowed_iff opened_task) in H;
    [| vm_compute; reflexivity | | vm_compute; reflexivity].
  - destruct H as [H|(H & _)]; vm_compute in H; discriminate H.
  - exists (map VStr GATE_SEQUENCE), []. split; [vm_compute; reflexivity|].
    split; [repeat constructor|]. split; [vm_compute; reflexivity|]. split; [vm_compute; reflexivity|].
    split; [reflexivity|]. right. exists "intake". split; vm_compute; reflexivity.
Defined.

Lemma apply_event_refines_witness :
  exists s', step (MkState 1 [] None) "open" "intake" 1 "unresolved" = Ok s' /\
    abstracts (bump opened_task (MkState 1 [] None)) s'.
Proof.
  apply (apply_event_refines (sample_event 1 "open" "unresolved" INTAKE) VNull sample_task opened_task
    (snd (match apply_event (sample_event 1 "open" "unresolved" INTAKE) VNull sample_task with
          | (m, Ok s) => (m, s) | (m, Raise _) => (m, "") end)) (MkState 1 [] None) INTAKE).
  - split; [reflexivity|]. left. split_and!; reflexivity.
  - reflexivity.
  - discriminate.
  - reflexivity.
  - vm_compute. reflexivity.
Defined.

Lemma event_record_roundtrip_witness :
  from_record (as_record (sample_event 1 "open" "unresolved" INTAKE))
    = Ok (sample_event 1 "open" "unresolved" INTAKE).
Proof.
  apply event_record_roundtrip; [vm_compute; reflexivity | |];
    (repeat constructor; vm_compute; reflexivity).
Defined.

End OracleGate.
