(* ===== verification/Graph.v ===== *)
(** * Task graphs ([hierarchy.py], [status_renderer.graph_errors],
    [handoffctl.dependency_satisfied], [handoffctl.supersession_errors])

    The three relations between tasks: parent and children, dependencies, and
    supersession.  A task file is represented by its metadata; the walks of the
    code's [while] loops and recursive calls carry fuel, and the theorems show
    the fuel given by the entry points is always enough. *)
From stdpp Require Import gmap.
From S2P Require Import Prelude PyStr Regex PyVal.

Module Graph.
Import Py.

Definition TASK_RE := Regex.TASK.
(** [str(meta.get("id", ""))] *)
Definition id_of (meta : Meta) : string := str (get_or meta "id" (VStr "")).
Definition _task_id (v : value) : bool :=
  match v with VStr s => Regex.fullmatch TASK_RE s | _ => false end.
Definition count (s : string) (l : list string) : nat := length (List.filter (String.eqb s) l).
(** [sorted({item for item in l if l.count(item) > 1})] *)
Definition repeated (l : list string) : list string :=
  PyStr.sorted_set (List.filter (fun s => Nat.ltb 1 (count s l)) l).

(** ** Dependencies ([status_renderer.py]) *)
Definition all_strings (l : list value) : bool := forallb is_str l.
Definition _task_dependencies (meta : Meta) (known : list string) : list string * list string :=
  let task_id := id_of meta in
  match get_or meta "depends_on" (VList []) with
  | VList l =>
      if all_strings l then
        let dependencies := map str l in
        (map (fun i => task_id +:+ ": duplicate dependency " +:+ i) (repeated dependencies)
         ++ map (fun _ => task_id +:+ ": self dependency")
              (List.filter (String.eqb task_id) dependencies)
         ++ map (fun i => task_id +:+ ": missing dependency " +:+ i)
              (List.filter (fun i => negb (PyStr.mem i known)) dependencies),
         dependencies)
      else ([task_id +:+ ": dependencies must be a list of AR identifiers"], [])
  | _ => ([task_id +:+ ": dependencies must be a list of AR identifiers"], [])
  end.

Notation graph := (gmap string (list string)).
Definition shape_step (ids : list string) (acc : list string * graph) (meta : Meta)
    : list string * graph :=
  let '(task_errors, dependencies) := _task_dependencies meta ids in
  (acc.1 ++ task_errors, <[id_of meta := dependencies]> acc.2).
Definition _dependency_shape (tasks : list Meta) : list string * graph :=
  let ids := map id_of tasks in
  fold_left (shape_step ids) tasks (map (fun i => "duplicate graph node " +:+ i) (repeated ids), ∅).

(** The state of the depth-first walk of [_cycle_errors]: a node is absent
    (unvisited), 1 (on the stack) or 2 (finished). *)
Record walk : Type := Walk { state : gmap string Z; stack : list string; errors : list string }.
Fixpoint index_of (s : string) (l : list string) : nat :=
  match l with [] => O | x :: l' => if String.eqb x s then O else S (index_of s l') end.
Definition cycle_text (w : walk) (t : string) : string :=
  "dependency cycle: " +:+ PyStr.join " -> " (drop (index_of t (stack w)) (stack w) ++ [t]).
(** [sorted(set(graph.get(task_id, [])))] that are nodes of the graph *)
Definition successors (g : graph) (t : string) : list string :=
  List.filter (fun d => bool_decide (is_Some (g !! d))) (PyStr.sorted_set (default [] (g !! t))).
Definition obind {A B} (m : option A) (f : A -> option B) : option B :=
  match m with Some a => f a | None => None end.
(** [for x in l: ...] over a walk that may run out of fuel *)
Section ofold.
  Context {A S : Type} (f : A -> S -> option S).
Fixpoint ofold (l : list A) (s : S) : option S :=
  match l with [] => Some s | x :: l' => obind (f x s) (ofold l') end.
End ofold.
Fixpoint visit (fuel : nat) (g : graph) (t : string) (w : walk) : option walk :=
  match fuel with
  | O => None
  | S f =>
      match state w !! t with
      | Some 2 => Some w
      | Some 1 => Some (Walk (state w) (stack w) (errors w ++ [cycle_text w t]))
      | _ =>
          let w := Walk (<[t := 1]> (state w)) (stack w ++ [t]) (errors w) in
          obind (ofold (visit f g) (successors g t) w) (fun w =>
          Some (Walk (<[t := 2]> (state w)) (removelast (stack w)) (errors w)))
      end
  end.
Definition nodes (g : graph) : list string := PyStr.sort (map fst (map_to_list g)).
Definition _cycle_errors (g : graph) : option (list string) :=
  option_map errors (ofold (visit (S (length (nodes g))) g) (nodes g) (Walk ∅ [] [])).
Definition graph_errors (tasks : list Meta) : option (list string) :=
  let '(errors, g) := _dependency_shape tasks in
  option_map (fun cycles => errors ++ cycles) (_cycle_errors g).

(** ** Supersession ([handoffctl.py]) *)
(** [by_id.get(current)] of [{meta.get("id"): meta}]: the last task wins. *)
Definition by_value_id (tasks : list Meta) (current : string) : option Meta :=
  List.find (fun m => is_s (get m "id") current) (List.rev tasks).
Definition valid_reference (v : value) : option string :=
  match v with VStr s => if Regex.fullmatch Regex.TASK s then Some s else None | _ => None end.
Fixpoint follow (fuel : nat) (tasks : list Meta) (seen : list string) (current : string) : option bool :=
  match fuel with
  | O => None
  | S f =>
      if PyStr.mem current seen then Some false
      else
        match by_value_id tasks current with
        | None => Some false
        | Some dependency =>
            let status := get dependency "status" in
            if is_s status "done" then Some true
            else if negb (is_s status "superseded") then Some false
            else match valid_reference (get dependency "superseded_by") with
                 | None => Some false
                 | Some successor => follow f tasks (current :: seen) successor
                 end
        end
  end.
Definition dependency_satisfied (dependency_id : string) (tasks : list Meta) : bool :=
  default false (follow (S (S (length tasks))) tasks [] dependency_id).

Definition supersession_error (tasks : list Meta) (meta : Meta) : list string :=
  let successor := get meta "superseded_by" in
  let task_id := id_of meta in
  if is_null successor then []
  else if negb (is_s (get meta "status") "superseded") then
    [task_id +:+ ": superseded_by requires superseded status"]
  else
    match valid_reference successor with
    | None => [task_id +:+ ": invalid superseded_by"]
    | Some s =>
        if String.eqb s task_id then [task_id +:+ ": superseded_by self reference"]
        else if match by_value_id tasks s with None => true | Some _ => false end then
          [task_id +:+ ": missing superseded_by task " +:+ s]
        else if negb (dependency_satisfied s tasks) then
          [task_id +:+ ": superseded_by chain does not end in done task"]
        else []
    end.
Definition supersession_errors (tasks : list Meta) : list string :=
  concat (map (supersession_error tasks) tasks).

(** ** Hierarchy ([hierarchy.py]) *)
Definition TERMINAL_CHILD_STATUSES : list string := ["done"; "cancelled"; "superseded"].
Definition _children (meta : Meta) : list string * list string :=
  match get_or meta "children" (VList []) with
  | VList l =>
      if existsb (fun i => negb (_task_id i)) l then
        ([], ["children must be a list of AR identifiers"])
      else
        let children := map str l in
        match repeated children with
        | _ :: _ as duplicates => (children, map (fun i => "duplicate child " +:+ i) duplicates)
        | [] => if PyStr.mem (id_of meta) children
                then (children, ["task cannot be its own child"]) else (children, [])
        end
  | _ => ([], ["children must be a list of AR identifiers"])
  end.
Definition by_id (tasks : list Meta) : gmap string Meta :=
  fold_left (fun m meta => <[id_of meta := meta]> m) tasks ∅.
Definition parent_ref (meta : Meta) : value := get_or meta "parent_task_ref" (VStr "").
Record edges : Type := Edges {
  edge_errors : list string; parents : gmap string string; children_by_parent : graph }.
(** The errors of one task's own fields and edges, first loop of [hierarchy_errors]. *)
Definition parent_errors (ids : gmap string Meta) (task_id : string) (parent : value) : list string :=
  if truthy parent && negb (_task_id parent) then [task_id +:+ ": invalid parent_task_ref"]
  else if truthy parent then
    if String.eqb (str parent) task_id then [task_id +:+ ": parent_task_ref self reference"]
    else if bool_decide (ids !! str parent = None)
    then [task_id +:+ ": missing parent task " +:+ str parent] else []
  else [].
Definition child_errors (ids : gmap string Meta) (task_id child : string) : list string :=
  match ids !! child with
  | None => [task_id +:+ ": missing child task " +:+ child]
  | Some meta =>
      if String.eqb (str (parent_ref meta)) task_id then []
      else [task_id +:+ ": child " +:+ child +:+ " does not point back to parent"]
  end.
Definition add_task (ids : gmap string Meta) (e : edges) (meta : Meta) : edges :=
  let task_id := id_of meta in
  let parent := parent_ref meta in
  let '(children, errs) := _children meta in
  Edges
    (edge_errors e ++ parent_errors ids task_id parent
     ++ map (fun m => task_id +:+ ": " +:+ m) errs
     ++ concat (map (child_errors ids task_id) children))
    (if truthy parent && _task_id parent then <[task_id := str parent]> (parents e) else parents e)
    (<[task_id := children]> (children_by_parent e)).
Definition collect (tasks : list Meta) : edges :=
  fold_left (add_task (by_id tasks)) tasks (Edges [] ∅ ∅).
(** The [while current in parents] walk: whether it meets a node twice. *)
Fixpoint climbs (fuel : nat) (ps : gmap string string) (seen : list string) (current : string)
    : option bool :=
  match fuel with
  | O => None
  | S f =>
      match ps !! current with
      | None => Some false
      | Some parent => if PyStr.mem current seen then Some true else climbs f ps (current :: seen) parent
      end
  end.
Definition cycle_errors (ps : gmap string string) (task_id : string) : list string :=
  match climbs (S (S (size ps))) ps [] task_id with
  | Some true => ["hierarchy cycle involving " +:+ task_id]
  | _ => []
  end.
Definition hierarchy_errors (tasks : list Meta) : list string :=
  let ids := by_id tasks in
  let e := collect tasks in
  let listed := map (fun '(child, parent) =>
      if PyStr.mem child (default [] (children_by_parent e !! parent)) then []
      else [child +:+ ": parent " +:+ parent +:+ " does not list child"])
    (map_to_list (parents e)) in
  PyStr.sorted_set (edge_errors e ++ concat listed
    ++ concat (map (cycle_errors (parents e)) (PyStr.sort (map fst (map_to_list ids))))).

(** The rollup admission error of a parent becoming done. *)
Definition open_children (meta : Meta) (tasks : list Meta) : res (list Meta) :=
  filterr (fun candidate =>
      py_and [String.eqb (str (parent_ref candidate)) (id_of meta);
              py_not (in_set (get candidate "status") TERMINAL_CHILD_STATUSES)]) tasks.
Definition open_child_error (meta : Meta) (tasks : list Meta) : res (option string) :=
  if ne (get meta "status") (VStr "in_progress") then Ok None
  else
    let* open := open_children meta tasks in
    match open with
    | [] => Ok None
    | _ => let* i := item meta "id" in
           Ok (Some (str i +:+ ": cannot complete with open children: "
                     +:+ PyStr.join ", " (PyStr.sort (map id_of open))))
    end.

(** ** Supersession chains *)

(** The dependency is terminal: done, or superseded by a task that is; the
    index is the number of supersessions followed. *)
Inductive settles (tasks : list Meta) : nat -> string -> Prop :=
  | settles_done i meta :
      by_value_id tasks i = Some meta -> get meta "status" = VStr "done" -> settles tasks 0 i
  | settles_superseded n i meta s :
      by_value_id tasks i = Some meta -> get meta "status" = VStr "superseded" ->
      valid_reference (get meta "superseded_by") = Some s -> settles tasks n s ->
      settles tasks (S n) i.

Lemma settles_unique tasks n m i : settles tasks n i -> settles tasks m i -> n = m.
Proof.
  intros H. revert m. induction H as [i meta H1 H2|n i meta s H1 H2 H3 H4 IH]; intros m H.
  - inversion H; subst; [done|]. congruence.
  - inversion H as [? ? E1 E2|? ? ? ? E1 E2 E3 E4]; subst; [congruence|].
    rewrite H1 in E1. injection E1 as <-. rewrite H3 in E3. injection E3 as <-. f_equal. auto.
Qed.

Lemma by_value_id_elem tasks i meta :
  by_value_id tasks i = Some meta -> VStr i ∈ map (fun m => get m "id") tasks.
Proof.
  unfold by_value_id. intros [Hin Hi]%find_some. apply eq_str in Hi.
  apply list_elem_of_fmap. exists meta. split; [done|]. apply list_elem_of_In.
  by apply in_rev.
Qed.

Lemma follow_total fuel tasks seen i :
  NoDup seen -> (forall x, x ∈ seen -> VStr x ∈ map (fun m => get m "id") tasks) ->
  (length tasks + 2 <= fuel + length seen)%nat ->
  exists b, follow fuel tasks seen i = Some b.
Proof.
  revert seen i. induction fuel as [|f IH]; intros seen i Hn Hs Hf.
  - exfalso. assert (length (map VStr seen) <= length (map (fun m => get m "id") tasks))%nat.
    { apply submseteq_length, NoDup_submseteq.
      - apply (NoDup_fmap_2_strong VStr); [by intros ? ? _ _ [= ->] | done].
      - intros v Hv. apply list_elem_of_fmap in Hv as (x & -> & Hx). by apply Hs. }
    rewrite !length_map in H. cbn in Hf. lia.
  - cbn -[is_s]. destruct (PyStr.mem i seen) eqn:Em; [eauto|].
    destruct (by_value_id tasks i) as [meta|] eqn:Ei; [|eauto].
    destruct (is_s _ "done"); [eauto|]. destruct (negb _); [eauto|].
    destruct (valid_reference _) as [s|]; [|eauto].
    apply IH.
    + constructor; [|done]. by apply PyStr.mem_false.
    + intros x [->|Hx]%elem_of_cons; [by eapply by_value_id_elem | auto].
    + cbn. lia.
Qed.

Lemma follow_sound fuel tasks seen i :
  follow fuel tasks seen i = Some true -> exists n, settles tasks n i.
Proof.
  revert seen i. induction fuel as [|f IH]; intros seen i; [discriminate|]. cbn -[is_s].
  destruct (PyStr.mem i seen); [discriminate|].
  destruct (by_value_id tasks i) as [meta|] eqn:Ei; [|discriminate].
  destruct (is_s _ "done") eqn:Ed.
  { intros _. exists 0%nat. apply eq_str in Ed. by econstructor. }
  destruct (is_s _ "superseded") eqn:Es; [|discriminate]. cbn [negb].
  destruct (valid_reference _) as [s|] eqn:Er; [|discriminate].
  intros [n Hn]%IH. exists (S n). apply eq_str in Es. by econstructor.
Qed.

Lemma follow_complete fuel tasks seen i n b :
  settles tasks n i -> (forall x m, x ∈ seen -> settles tasks m x -> (n < m)%nat) ->
  follow fuel tasks seen i = Some b -> b = true.
Proof.
  revert seen i n. induction fuel as [|f IH]; intros seen i n Hi Hseen; [discriminate|]. cbn -[is_s].
  destruct (PyStr.mem i seen) eqn:Em.
  { apply PyStr.mem_spec in Em. specialize (Hseen i n Em Hi). lia. }
  inversion Hi as [? meta E1 E2|k ? meta s E1 E2 E3 E4]; subst; rewrite E1, E2; cbn.
  - congruence.
  - rewrite E3. apply (IH _ _ k); [done|]. intros x m [->|Hx]%elem_of_cons Hm.
    + rewrite (settles_unique _ _ _ _ Hm Hi). lia.
    + specialize (Hseen x m Hx Hm). lia.
Qed.

(** C39: A dependency counts as satisfied exactly when its supersession chain
    ends in a done task; the walk terminates on every task list, chains that
    loop or leave the list included. *)
Theorem dependency_satisfied_iff dependency_id tasks :
  (exists b, follow (S (S (length tasks))) tasks [] dependency_id = Some b) /\
  (dependency_satisfied dependency_id tasks = true <-> exists n, settles tasks n dependency_id).
Proof.
  destruct (follow_total (S (S (length tasks))) tasks [] dependency_id) as [b Hb];
    [constructor | by intros x Hx%not_elem_of_nil | cbn; lia |].
  split; [eauto|]. unfold dependency_satisfied. rewrite Hb. simpl. split.
  - intros ->. by eapply follow_sound.
  - intros [n Hn]. eapply follow_complete; [done | by intros x m Hx%not_elem_of_nil | done].
Qed.

(** ** Dependency cycles *)

Definition edge (g : graph) (x y : string) : Prop := y ∈ successors g x.

(** Finished nodes, latest first: the successors of each one finished before it. *)
Inductive topological (g : graph) : list string -> Prop :=
  | topological_nil : topological g []
  | topological_cons x l :
      topological g l -> x ∉ l -> (forall y, edge g x y -> y ∈ l) -> topological g (x :: l).

Lemma topological_path g l x y :
  topological g l -> tc (edge g) x y -> x ∈ l -> exists l1 l2, l = l1 ++ l2 /\ y ∈ l2 /\ x ∉ l2.
Proof.
  intros Hl Hxy. revert x Hxy.
  induction Hl as [|z l Hl IH Hz Hs]; intros x Hxy Hx; [set_solver|].
  apply elem_of_cons in Hx as [->|Hx].
  - exists [z], l. split_and!; [done | | done]. inversion Hxy as [? ? He|? w ? He Hw]; subst; [by apply Hs|].
    destruct (IH w Hw (Hs w He)) as (l1 & l2 & -> & Hy & _). set_solver.
  - destruct (IH x Hxy Hx) as (l1 & l2 & -> & Hy & Hn). by exists (z :: l1), l2.
Qed.

Lemma topological_acyclic g l x : topological g l -> x ∈ l -> ~ tc (edge g) x x.
Proof.
  intros Hl Hx Ht. destruct (topological_path _ _ _ _ Hl Ht Hx) as (? & ? & _ & ? & ?). done.
Qed.

(** The nodes on the stack are the grey ones. *)
Definition grey (w : walk) : Prop :=
  NoDup (stack w) /\ forall x, state w !! x = Some 1 <-> x ∈ stack w.

Lemma visit_white f g t w w' :
  visit (S f) g t w = Some w' -> state w !! t <> Some 1 -> state w !! t <> Some 2 ->
  exists w2, ofold (visit f g) (successors g t) (Walk (<[t := 1]> (state w)) (stack w ++ [t]) (errors w))
             = Some w2 /\
    w' = Walk (<[t := 2]> (state w2)) (removelast (stack w2)) (errors w2).
Proof.
  cbn -[successors]. intros H H1 H2.
  assert (obind (ofold (visit f g) (successors g t)
            (Walk (<[t := 1]> (state w)) (stack w ++ [t]) (errors w))) (fun w =>
          Some (Walk (<[t := 2]> (state w)) (removelast (stack w)) (errors w))) = Some w') as H'.
  { destruct (state w !! t) as [[|[p|[p|p|]|]|]|]; congruence. }
  unfold obind in H'. destruct (ofold _ _ _) as [w2|]; [|discriminate]. injection H' as <-. eauto.
Qed.

Lemma grey_push w t : grey w -> state w !! t <> Some 1 ->
  grey (Walk (<[t := 1]> (state w)) (stack w ++ [t]) (errors w)).
Proof.
  intros [Hn Hg] H1. assert (t ∉ stack w) as Ht by (by rewrite <- Hg). split; cbn.
  - apply NoDup_app. split_and!; [done | | apply NoDup_singleton].
    intros x Hx Hx'. apply list_elem_of_singleton in Hx' as ->. done.
  - intros x. rewrite elem_of_app, list_elem_of_singleton, <- Hg.
    destruct (decide (t = x)) as [<-|Hne].
    + rewrite lookup_insert_eq. naive_solver.
    + rewrite lookup_insert_ne by done. naive_solver.
Qed.

Lemma grey_pop w t s : stack w = s ++ [t] -> grey w ->
  grey (Walk (<[t := 2]> (state w)) (removelast (stack w)) (errors w)) /\
  removelast (stack w) = s.
Proof.
  intros Hs [Hn Hg]. rewrite Hs in *. rewrite removelast_last. split; [|done].
  apply NoDup_app in Hn as (Hn & Hd & _). split; cbn; [done|].
  intros x. destruct (decide (t = x)) as [<-|Hne].
  - rewrite lookup_insert_eq. split; [discriminate|]. intros Hx. exfalso.
    apply (Hd t Hx). set_solver.
  - rewrite lookup_insert_ne by done. rewrite Hg, elem_of_app, list_elem_of_singleton. naive_solver.
Qed.

(** A property of single visits extends to a loop of visits. *)
Lemma ofold_ind {A S} (f : A -> S -> option S) (R : S -> S -> Prop) l s s' :
  (forall s, R s s) -> (forall s1 s2 s3, R s1 s2 -> R s2 s3 -> R s1 s3) ->
  (forall x s s', x ∈ l -> f x s = Some s' -> R s s') ->
  ofold f l s = Some s' -> R s s'.
Proof.
  intros Hr Ht. revert s. induction l as [|x l IH]; intros s Hf; cbn; [by intros [= <-]|].
  unfold obind. destruct (f x s) as [s1|] eqn:E; [|discriminate]. intros H.
  eapply Ht; [apply (Hf x); [apply elem_of_cons; auto | done]|]. apply IH; [|done].
  intros y s2 s3 Hy. apply Hf. apply elem_of_cons; auto.
Qed.

Lemma visit_grey fuel g t w w' :
  visit fuel g t w = Some w' -> grey w ->
  grey w' /\ stack w' = stack w /\ exists es, errors w' = errors w ++ es.
Proof.
  revert t w w'. induction fuel as [|f IH]; [discriminate|]. intros t w w' H Hg.
  destruct (decide (state w !! t = Some 1)) as [E1|E1].
  { cbn in H. rewrite E1 in H. injection H as <-. split_and!; [done..|]. eauto. }
  destruct (decide (state w !! t = Some 2)) as [E2|E2].
  { cbn in H. rewrite E2 in H. injection H as <-. split_and!; [done..|]. exists []. by rewrite app_nil_r. }
  apply visit_white in H as (w2 & H & ->); [|done..].
  apply (ofold_ind _ (fun w w' => grey w -> grey w' /\ stack w' = stack w /\
    exists es, errors w' = errors w ++ es)) in H as (Hg2 & Hs2 & es & He2).
  - cbn in Hs2. destruct (grey_pop _ _ _ Hs2 Hg2) as [Hg3 Hs3]. split_and!; [done | done |].
    exists es. by cbn in *.
  - intros. split_and!; [done..|]. exists []. by rewrite app_nil_r.
  - intros w1 w3 w4 R1 R2 G1. destruct (R1 G1) as (G3 & S3 & es & E3).
    destruct (R2 G3) as (G4 & S4 & es' & E4). split_and!; [done | congruence |].
    exists (es ++ es'). by rewrite E4, E3, app_assoc.
  - intros x w1 w3 _ Hx G1. by eapply IH.
  - by apply grey_push.
Qed.

Lemma visits_grey fuel g l w w' :
  ofold (visit fuel g) l w = Some w' -> grey w ->
  grey w' /\ stack w' = stack w /\ exists es, errors w' = errors w ++ es.
Proof.
  revert w. induction l as [|t l IH]; intros w; cbn.
  - intros [= <-] Hg. split_and!; [done..|]. exists []. by rewrite app_nil_r.
  - unfold obind. destruct (visit fuel g t w) as [w1|] eqn:E; [|discriminate]. intros H Hg.
    destruct (visit_grey _ _ _ _ _ E Hg) as (Hg1 & Hs1 & es & He1).
    destruct (IH _ H Hg1) as (Hg2 & Hs2 & es' & He2). split_and!; [done | congruence |].
    exists (es ++ es'). by rewrite He2, He1, app_assoc.
Qed.

(** *** No error: the finished nodes are topologically ordered *)
Definition ordered_by (g : graph) (w : walk) (fin : list string) : Prop :=
  topological g fin /\ forall x, state w !! x = Some 2 <-> x ∈ fin.
Definition visit_orders (fuel : nat) (g : graph) : Prop := forall t w w' fin,
  visit fuel g t w = Some w' -> errors w' = [] -> grey w -> ordered_by g w fin ->
  exists fin', ordered_by g w' fin' /\ t ∈ fin' /\ fin ⊆ fin'.

Lemma visits_ordered fuel g l w w' fin :
  visit_orders fuel g ->
  ofold (visit fuel g) l w = Some w' -> errors w' = [] -> grey w -> ordered_by g w fin ->
  exists fin', ordered_by g w' fin' /\ (forall t, t ∈ l -> t ∈ fin') /\ fin ⊆ fin'.
Proof.
  intros Hv. revert w fin. induction l as [|t l IH]; intros w fin H He Hg Ho.
  - injection H as ->. exists fin. split_and!; [done | by intros ? ?%not_elem_of_nil | done].
  - cbn [ofold] in H. unfold obind in H. destruct (visit fuel g t w) as [w1|] eqn:E; [|discriminate].
    destruct (visit_grey _ _ _ _ _ E Hg) as (Hg1 & _ & _).
    assert (errors w1 = []) as He1.
    { destruct (visits_grey _ _ _ _ _ H Hg1) as (_ & _ & es & Hes). rewrite He in Hes.
      by destruct (errors w1). }
    destruct (Hv _ _ _ _ E He1 Hg Ho) as (fin1 & Ho1 & Ht1 & Hsub1).
    destruct (IH _ _ H He Hg1 Ho1) as (fin' & Ho' & Hl' & Hsub').
    exists fin'. split_and!; [done | | by etrans].
    intros y [->|Hy]%elem_of_cons; [by apply Hsub' | auto].
Qed.

Lemma visit_ordered fuel g : visit_orders fuel g.
Proof.
  induction fuel as [|f IH]; [discriminate|]. intros t w w' fin H He Hg Ho.
  destruct (decide (state w !! t = Some 1)) as [E1|E1].
  { cbn in H. rewrite E1 in H. injection H as <-. cbn in He. by destruct (errors w). }
  destruct (decide (state w !! t = Some 2)) as [E2|E2].
  { cbn in H. rewrite E2 in H. injection H as <-. exists fin. split_and!; [done | by apply Ho | done]. }
  apply visit_white in H as (w2 & H & ->); [|done..]. cbn in He.
  pose proof (grey_push w t Hg E1) as Hg1.
  assert (Ho1 : ordered_by g (Walk (<[t := 1]> (state w)) (stack w ++ [t]) (errors w)) fin).
  { split; [apply Ho|]. intros x. cbn. destruct (decide (t = x)) as [<-|Hne].
    - rewrite lookup_insert_eq. destruct Ho as [_ Ho]. rewrite <- Ho. naive_solver.
    - rewrite lookup_insert_ne by done. apply Ho. }
  destruct (visits_ordered _ _ _ _ _ _ IH H He Hg1 Ho1) as (fin' & [Ht2 Hb2] & Hsucc & Hsub).
  destruct (visits_grey _ _ _ _ _ H Hg1) as ([_ Hg2] & Hs2 & _).
  exists (t :: fin').
  assert (t ∉ fin') as Hnew.
  { rewrite <- Hb2. rewrite (proj2 (Hg2 t)); [congruence|]. rewrite Hs2. cbn. set_solver. }
  split_and!; [|set_solver|set_solver]. split; [by constructor|].
  intros x. cbn. rewrite elem_of_cons. destruct (decide (t = x)) as [<-|Hne].
  - rewrite lookup_insert_eq. naive_solver.
  - rewrite lookup_insert_ne by done. rewrite Hb2. naive_solver.
Qed.

(** *** The fuel is enough *)
Lemma nodes_elem g x : x ∈ nodes g <-> is_Some (g !! x).
Proof.
  unfold nodes. rewrite PyStr.sort_elem, list_elem_of_fmap. split.
  - intros ([k v] & -> & H). apply elem_of_map_to_list in H. cbn. eauto.
  - intros [v H]. exists (x, v). split; [done|]. by apply elem_of_map_to_list.
Qed.

Lemma successors_nodes g t x : x ∈ successors g t -> x ∈ nodes g.
Proof.
  unfold successors. rewrite list_elem_of_In, filter_In. intros [_ H].
  apply nodes_elem. by apply bool_decide_eq_true in H.
Qed.

Definition visit_defined (fuel : nat) (g : graph) : Prop := forall t w,
  grey w -> (forall x, x ∈ stack w -> x ∈ nodes g) -> t ∈ nodes g ->
  (length (nodes g) < fuel + length (stack w))%nat -> exists w', visit fuel g t w = Some w'.

Lemma visits_total fuel g l w :
  visit_defined fuel g -> (forall x, x ∈ l -> x ∈ nodes g) ->
  grey w -> (forall x, x ∈ stack w -> x ∈ nodes g) ->
  (length (nodes g) < fuel + length (stack w))%nat -> exists w', ofold (visit fuel g) l w = Some w'.
Proof.
  intros Hv. revert w. induction l as [|t l IH]; intros w Hl Hg Hs Hf; [cbn; eauto|].
  cbn [ofold]. destruct (Hv t w) as [w1 E1]; [done | done | | done |].
  { apply Hl, elem_of_cons; auto. }
  rewrite E1. cbn [obind]. destruct (visit_grey _ _ _ _ _ E1 Hg) as (Hg1 & Hs1 & _).
  apply IH; [|done|by rewrite Hs1..]. intros x Hx. apply Hl, elem_of_cons; auto.
Qed.

Lemma visit_total fuel g : visit_defined fuel g.
Proof.
  induction fuel as [|f IH]; intros t w Hg Hs Ht Hf.
  { exfalso. assert (length (stack w) <= length (nodes g))%nat; [|cbn in Hf; lia].
    apply submseteq_length, NoDup_submseteq; [apply Hg | done]. }
  cbn -[successors].
  assert (state w !! t <> Some 1 -> exists w', obind (ofold (visit f g) (successors g t)
      (Walk (<[t := 1]> (state w)) (stack w ++ [t]) (errors w)))
      (fun w => Some (Walk (<[t := 2]> (state w)) (removelast (stack w)) (errors w))) = Some w') as Hwhite.
  { intros H1. destruct (visits_total f g (successors g t)
      (Walk (<[t := 1]> (state w)) (stack w ++ [t]) (errors w))) as [w2 E2];
      [done | apply successors_nodes | by apply grey_push | | | rewrite E2; cbn; eauto].
    - intros x. cbn. rewrite elem_of_app, list_elem_of_singleton. intros [?| ->]; auto.
    - cbn. rewrite length_app. cbn. lia. }
  destruct (state w !! t) as [[|[p|[p|p|]|]|]|] eqn:E; try (apply Hwhite; discriminate); eauto.
Qed.

Lemma grey_start : grey (Walk ∅ [] []).
Proof.
  split; [constructor|]. intros x. cbn. rewrite lookup_empty. split; [discriminate|].
  by intros ?%not_elem_of_nil.
Qed.

Lemma cycle_errors_walk g : exists w,
  ofold (visit (S (length (nodes g))) g) (nodes g) (Walk ∅ [] []) = Some w /\
  _cycle_errors g = Some (errors w).
Proof.
  unfold _cycle_errors.
  destruct (visits_total (S (length (nodes g))) g (nodes g) (Walk ∅ [] [])) as [w ->];
    [apply visit_total | done | apply grey_start | by intros x ?%not_elem_of_nil | cbn; lia |].
  exists w. by split.
Qed.

(** *** Every reported cycle is one *)

(** Consecutive nodes of the stack are edges, the last one leading to [t]. *)
Fixpoint path_to (g : graph) (l : list string) (t : string) : Prop :=
  match l with
  | [] => True
  | x :: l' => match l' with [] => edge g x t | y :: _ => edge g x y /\ path_to g l' t end
  end.
Lemma path_to_snoc g l x t : path_to g l x -> edge g x t -> path_to g (l ++ [x]) t.
Proof.
  induction l as [|y l IH]; [done|]. destruct l as [|z l]; cbn; [done|].
  intros [H1 H2] He. split; [done|]. by apply IH.
Qed.
Lemma path_to_tc g l t x : path_to g l t -> x ∈ l -> tc (edge g) x t.
Proof.
  induction l as [|y l IH]; [by intros _ ?%not_elem_of_nil|]. intros H [->|Hx]%elem_of_cons.
  - clear IH. revert y H. induction l as [|z l IH]; intros y H; [by apply tc_once|].
    cbn in H. destruct H as [H1 H2]. eapply tc_l; [done|]. by apply IH.
  - apply IH; [|done]. destruct l; [by apply not_elem_of_nil in Hx|]. by destruct H.
Qed.

Definition visit_sound (fuel : nat) (g : graph) : Prop := forall t w w',
  visit fuel g t w = Some w' -> grey w -> path_to g (stack w) t ->
  errors w' = errors w \/ exists x, tc (edge g) x x.

Lemma visits_sound fuel g l w w' :
  visit_sound fuel g -> ofold (visit fuel g) l w = Some w' -> grey w ->
  (forall t, t ∈ l -> path_to g (stack w) t) ->
  errors w' = errors w \/ exists x, tc (edge g) x x.
Proof.
  intros Hv. revert w. induction l as [|t l IH]; intros w H Hg Hp; [injection H as ->; by left|].
  cbn [ofold] in H. unfold obind in H. destruct (visit fuel g t w) as [w1|] eqn:E; [|discriminate].
  destruct (visit_grey _ _ _ _ _ E Hg) as (Hg1 & Hs1 & _).
  destruct (Hv _ _ _ E Hg) as [<-|?]; [|apply IH; [done..|]|by right].
  - apply Hp, elem_of_cons; auto.
  - intros y Hy. rewrite Hs1. apply Hp, elem_of_cons; auto.
Qed.

Lemma visit_cycle fuel g : visit_sound fuel g.
Proof.
  induction fuel as [|f IH]; [discriminate|]. intros t w w' H Hg Hp.
  destruct (decide (state w !! t = Some 1)) as [E1|E1].
  { right. exists t. apply (path_to_tc g (stack w)); [done|]. by apply Hg. }
  destruct (decide (state w !! t = Some 2)) as [E2|E2].
  { cbn in H. rewrite E2 in H. injection H as <-. by left. }
  apply visit_white in H as (w2 & H & ->); [|done..].
  apply (visits_sound f g (successors g t)) in H; [done | done | by apply grey_push |].
  intros d Hd. by apply path_to_snoc.
Qed.

Lemma edge_node g x y : edge g x y -> x ∈ nodes g.
Proof.
  unfold edge, successors. rewrite list_elem_of_In, filter_In, <- list_elem_of_In, PyStr.sorted_set_elem.
  intros [H _]. apply nodes_elem. destruct (g !! x); [eauto|]. by apply not_elem_of_nil in H.
Qed.
Lemma cycle_node g x : tc (edge g) x x -> x ∈ nodes g.
Proof. intros H. inversion H; subst; by eapply edge_node. Qed.

(** Cycle detection on the dependency graph always terminates and is
    exact: it reports nothing if and only if no task depends, directly or
    through other tasks, on itself. *)
Theorem cycle_errors_exact g :
  exists es, _cycle_errors g = Some es /\ (es = [] <-> forall x, ~ tc (edge g) x x).
Proof.
  destruct (cycle_errors_walk g) as (w & E & ->). exists (errors w). split; [done|]. split.
  - intros He x Hx.
    destruct (visits_ordered _ _ _ _ _ [] (visit_ordered _ _) E He grey_start) as (fin & [Ht _] & Hf & _).
    { split; [constructor|]. intros y. cbn. rewrite lookup_empty. split; [discriminate|].
      by intros ?%not_elem_of_nil. }
    eapply topological_acyclic; [exact Ht | apply Hf; by apply cycle_node | exact Hx].
  - intros Hac. destruct (visits_sound _ _ _ _ _ (visit_cycle _ _) E grey_start) as [->|[x Hx]]; [done..|].
    by apply Hac in Hx.
Qed.

(** *** The complete dependency graph *)

Lemma repeated_nil l : repeated l = [] -> NoDup l.
Proof.
  unfold repeated. intros H.
  assert (Hc : forall s, s ∈ l -> (count s l <= 1)%nat).
  { intros s Hs. destruct (Nat.ltb_spec 1 (count s l)) as [Hlt|]; [|done]. exfalso.
    assert (s ∈ PyStr.sorted_set (List.filter (fun s => Nat.ltb 1 (count s l)) l)) as Hin.
    { apply PyStr.sorted_set_elem. rewrite list_elem_of_In, filter_In, <- list_elem_of_In.
      split; [done|]. by apply Nat.ltb_lt. }
    rewrite H in Hin. by apply not_elem_of_nil in Hin. }
  clear H. induction l as [|x l IH]; [constructor|]. constructor.
  - intros Hx. specialize (Hc x). unfold count in Hc. cbn in Hc. rewrite String.eqb_refl in Hc. cbn in Hc.
    assert (x ∈ List.filter (String.eqb x) l) as Hf.
    { rewrite list_elem_of_In, filter_In, <- list_elem_of_In. split; [done | apply String.eqb_refl]. }
    destruct (List.filter (String.eqb x) l); [by apply not_elem_of_nil in Hf|].
    cbn in Hc. specialize (Hc ltac:(apply elem_of_cons; auto)). lia.
  - apply IH. intros s Hs. specialize (Hc s ltac:(apply elem_of_cons; auto)).
    unfold count in *. cbn in Hc. destruct (String.eqb s x); cbn in Hc; lia.
Qed.

Lemma map_nil {A B} (f : A -> B) l : map f l = [] -> l = [].
Proof. by destruct l. Qed.
Lemma filter_nil {A} (f : A -> bool) l x : List.filter f l = [] -> x ∈ l -> f x = false.
Proof.
  intros H Hx. destruct (f x) eqn:E; [|done].
  assert (x ∈ List.filter f l) as Hf by (rewrite list_elem_of_In, filter_In, <- list_elem_of_In; done).
  rewrite H in Hf. by apply not_elem_of_nil in Hf.
Qed.

Definition insert_node (f : Meta -> list string) (g : graph) (m : Meta) : graph :=
  <[id_of m := f m]> g.
Lemma shape_fold ids tasks es0 g0 es g :
  fold_left (shape_step ids) tasks (es0, g0) = (es, g) ->
  es = es0 ++ concat (map (fun m => (_task_dependencies m ids).1) tasks) /\
  g = fold_left (insert_node (fun m => (_task_dependencies m ids).2)) tasks g0.
Proof.
  revert es0 g0. induction tasks as [|m tasks IH]; intros es0 g0; cbn [fold_left].
  - intros [= <- <-]. cbn. by rewrite app_nil_r.
  - unfold shape_step at 2. destruct (_task_dependencies m ids) as [te deps] eqn:E. cbn [fst snd].
    intros [-> ->]%IH. split; [cbn; by rewrite E, <- app_assoc|].
    unfold insert_node at 3. by rewrite E.
Qed.

Lemma insert_fold_lookup (f : Meta -> list string) tasks g0 m :
  NoDup (map id_of tasks) -> m ∈ tasks ->
  fold_left (insert_node f) tasks g0 !! id_of m = Some (f m).
Proof.
  revert g0. induction tasks as [|t tasks IH]; intros g0; [by intros _ ?%not_elem_of_nil|].
  cbn. intros [Ht Hn]%NoDup_cons [->|Hm]%elem_of_cons; [|by apply IH].
  clear IH. assert (forall g : graph, g !! id_of t = Some (f t) ->
    fold_left (insert_node f) tasks g !! id_of t = Some (f t)) as H.
  { induction tasks as [|u tasks IH]; [done|]. intros g Hg. cbn.
    apply NoDup_cons in Hn as [_ Hn]. rewrite map_cons, not_elem_of_cons in Ht. apply IH; [tauto | done |].
    unfold insert_node. rewrite lookup_insert_ne; [done|]. intros E. by destruct Ht as [[] _]. }
  apply H. apply lookup_insert_eq.
Qed.

(** A task's declared dependencies. *)
Definition depends (tasks : list Meta) (x y : string) : Prop :=
  exists m l, m ∈ tasks /\ id_of m = x /\ get_or m "depends_on" (VList []) = VList l /\ VStr y ∈ l.

(** The structural check of the dependency graph returns a result on
    every task list, and a task list it accepts has unique identifiers, every
    dependency list holds distinct identifiers of other tasks of the list, and
    no chain of dependencies leads back to its start. *)
Theorem graph_errors_sound tasks :
  exists es, graph_errors tasks = Some es /\
  (es = [] ->
   NoDup (map id_of tasks) /\
   Forall (fun m => exists l, get_or m "depends_on" (VList []) = VList (map VStr l) /\ NoDup l /\
             forall d, d ∈ l -> d <> id_of m /\ d ∈ map id_of tasks) tasks /\
   forall x, ~ tc (depends tasks) x x).
Proof.
  unfold graph_errors, _dependency_shape. destruct (fold_left _ tasks _) as [es g] eqn:E.
  apply shape_fold in E as [-> Hg].
  destruct (cycle_errors_exact g) as (cs & -> & Hc). cbn [option_map]. eexists. split; [done|].
  intros H. apply app_eq_nil in H as [H ->]. apply app_eq_nil in H as [H1 H2].
  apply map_nil, repeated_nil in H1.
  assert (Hdeps : forall m, m ∈ tasks -> exists l,
    get_or m "depends_on" (VList []) = VList (map VStr l) /\ (_task_dependencies m (map id_of tasks)).2 = l /\
    NoDup l /\ forall d, d ∈ l -> d <> id_of m /\ d ∈ map id_of tasks).
  { intros m Hm. assert (He : (_task_dependencies m (map id_of tasks)).1 = []).
    { assert (Hall : Forall (fun e => e = []) (map (fun m => (_task_dependencies m (map id_of tasks)).1) tasks)).
      { revert H2. generalize (map (fun m => (_task_dependencies m (map id_of tasks)).1) tasks).
        induction l as [|e l IH]; [constructor|]. cbn. intros [? ?]%app_eq_nil. constructor; auto. }
      rewrite Forall_map, Forall_forall in Hall. by apply Hall. }
    unfold _task_dependencies in *. destruct (get_or m "depends_on" (VList [])) as [| | | |l|]; try discriminate.
    destruct (all_strings l) eqn:Es; [|discriminate]. cbn [fst snd] in *.
      apply app_eq_nil in He as [He1 He]. apply app_eq_nil in He as [He2 He3].
    exists (map str l). split_and!.
    - f_equal. clear -Es. induction l as [|v l IH]; [done|]. cbn in *. apply andb_true_iff in Es as [Hv Hl].
      apply is_str_inv in Hv as [s ->]. cbn. f_equal. by apply IH.
    - done.
    - by apply map_nil, repeated_nil in He1.
    - intros d Hd. apply map_nil in He2, He3. split.
      + intros ->. eapply filter_nil in He2; [|exact Hd]. by rewrite String.eqb_refl in He2.
      + eapply filter_nil in He3; [|exact Hd]. by apply negb_false_iff, PyStr.mem_spec in He3. }
  split_and!; [done | |].
  { apply Forall_forall. intros m Hm. destruct (Hdeps m Hm) as (l & ? & _ & ? & ?). eauto. }
  intros x Hx. apply (proj1 Hc eq_refl x). revert Hx. apply tc_congruence with (f := fun s : string => s).
  intros a b (m & l & Hm & <- & Hl & Hb). destruct (Hdeps m Hm) as (l' & Hl' & Hd & _ & Hin).
  rewrite Hl in Hl'. injection Hl' as ->. apply list_elem_of_fmap in Hb as (b' & [= <-] & Hb).
  unfold edge, successors. rewrite list_elem_of_In, filter_In, <- list_elem_of_In, PyStr.sorted_set_elem.
  assert (Hlook : g !! id_of m = Some l').
  { rewrite Hg, <- Hd. by apply (insert_fold_lookup (fun m => (_task_dependencies m (map id_of tasks)).2)). }
  rewrite Hlook. split; [done|]. apply bool_decide_eq_true.
  destruct (Hin b Hb) as [_ Hbt]. apply list_elem_of_fmap in Hbt as (mb & -> & Hmb).
  rewrite Hg. rewrite (insert_fold_lookup (fun m => (_task_dependencies m (map id_of tasks)).2)) by done. eauto.
Qed.

(** ** Hierarchy *)

Inductive ends (ps : gmap string string) : string -> Prop :=
  | ends_root x : ps !! x = None -> ends ps x
  | ends_step x y : ps !! x = Some y -> ends ps y -> ends ps x.

Lemma ends_acyclic ps x : ends ps x -> ~ tc (fun a b => ps !! a = Some b) x x.
Proof.
  induction 1 as [x Hx|x y Hx _ IH]; intros Ht.
  - inversion Ht; congruence.
  - apply IH. inversion Ht as [? ? E|? z ? E Hz]; subst; rewrite Hx in E; injection E as ->.
    + by apply tc_once.
    + eapply tc_rtc_r; [exact Hz|]. by apply rtc_once.
Qed.

Lemma climbs_ends fuel ps seen x : climbs fuel ps seen x = Some false -> ends ps x.
Proof.
  revert seen x. induction fuel as [|f IH]; intros seen x; [discriminate|]. cbn.
  destruct (ps !! x) as [y|] eqn:E; [|by constructor].
  destruct (PyStr.mem x seen); [discriminate|]. intros H%IH. by econstructor.
Qed.

Lemma climbs_total fuel ps seen x :
  NoDup seen -> (forall y, y ∈ seen -> is_Some (ps !! y)) ->
  (size ps + 2 <= fuel + length seen)%nat -> exists b, climbs fuel ps seen x = Some b.
Proof.
  revert seen x. induction fuel as [|f IH]; intros seen x Hn Hs Hf.
  - exfalso. assert (length seen <= size ps)%nat; [|cbn in Hf; lia].
    rewrite <- length_map_to_list, <- (length_map fst).
    apply submseteq_length, NoDup_submseteq; [done|]. intros y [p Hy]%Hs.
    apply list_elem_of_fmap. exists (y, p). split; [done|]. by apply elem_of_map_to_list.
  - cbn. destruct (ps !! x) as [y|] eqn:E; [|eauto]. destruct (PyStr.mem x seen) eqn:Em; [eauto|].
    apply IH; [|intros z [->|Hz]%elem_of_cons; eauto|cbn; lia].
    constructor; [by apply PyStr.mem_false | done].
Qed.

Lemma cycle_errors_ends ps x : cycle_errors ps x = [] -> ends ps x.
Proof.
  unfold cycle_errors. destruct (climbs_total (S (S (size ps))) ps [] x) as [b Hb];
    [constructor | by intros y ?%not_elem_of_nil | cbn; lia |].
  rewrite Hb. destruct b; [discriminate|]. intros _. by eapply climbs_ends.
Qed.

(** What the first loop records of each task. *)
Definition valid_parent (m : Meta) : bool := truthy (parent_ref m) && _task_id (parent_ref m).
Lemma add_task_edges ids e m :
  children_by_parent (add_task ids e m) = <[id_of m := (_children m).1]> (children_by_parent e) /\
  parents (add_task ids e m) =
    (if valid_parent m then <[id_of m := str (parent_ref m)]> (parents e) else parents e) /\
  edge_errors (add_task ids e m) = edge_errors e ++ parent_errors ids (id_of m) (parent_ref m)
     ++ map (fun x => id_of m +:+ ": " +:+ x) (_children m).2
     ++ concat (map (child_errors ids (id_of m)) (_children m).1).
Proof. unfold add_task. by destruct (_children m). Qed.

Lemma collect_other ids tasks e x :
  x ∉ map id_of tasks ->
  parents (fold_left (add_task ids) tasks e) !! x = parents e !! x /\
  children_by_parent (fold_left (add_task ids) tasks e) !! x = children_by_parent e !! x.
Proof.
  revert e. induction tasks as [|m tasks IH]; intros e Hx; [done|]. cbn [fold_left map] in *.
  apply not_elem_of_cons in Hx as [Hm Hx]. destruct (IH (add_task ids e m) Hx) as [-> ->].
  destruct (add_task_edges ids e m) as (-> & -> & _).
  rewrite lookup_insert_ne by done. split; [|done].
  destruct (valid_parent m); [by rewrite lookup_insert_ne | done].
Qed.

Lemma collect_lookup ids tasks e m :
  NoDup (map id_of tasks) -> m ∈ tasks -> (forall x, x ∈ map id_of tasks -> parents e !! x = None) ->
  parents (fold_left (add_task ids) tasks e) !! id_of m =
    (if valid_parent m then Some (str (parent_ref m)) else None) /\
  children_by_parent (fold_left (add_task ids) tasks e) !! id_of m = Some (_children m).1.
Proof.
  revert e. induction tasks as [|t tasks IH]; intros e; [by intros _ ?%not_elem_of_nil|].
  cbn [fold_left map]. intros [Ht Hn]%NoDup_cons Hm He.
  destruct (add_task_edges ids e t) as (E1 & E2 & _).
  apply elem_of_cons in Hm as [->|Hm].
  - destruct (collect_other ids tasks (add_task ids e t) (id_of t) Ht) as [-> ->].
    rewrite E1, E2, lookup_insert_eq. split; [|done].
    destruct (valid_parent t); [by rewrite lookup_insert_eq | apply He, elem_of_cons; auto].
  - apply IH; [done..|]. intros x Hx. rewrite E2.
    assert (parents e !! x = None) as Hx' by (apply He, elem_of_cons; auto).
    destruct (valid_parent t); [|done]. rewrite lookup_insert_ne; [done|]. by intros <-.
Qed.

Lemma collect_errors ids tasks e :
  edge_errors (fold_left (add_task ids) tasks e) = [] ->
  edge_errors e = [] /\ Forall (fun m => parent_errors ids (id_of m) (parent_ref m) = [] /\
    (_children m).2 = [] /\ concat (map (child_errors ids (id_of m)) (_children m).1) = []) tasks.
Proof.
  revert e. induction tasks as [|m tasks IH]; intros e; [by split|]. cbn [fold_left].
  intros [H F]%IH. destruct (add_task_edges ids e m) as (_ & _ & E). rewrite E in H.
  apply app_eq_nil in H as [He H]. apply app_eq_nil in H as [Hp H]. apply app_eq_nil in H as [Hc H].
  split; [done|]. constructor; [|done]. split_and!; [done | by apply map_nil in Hc | done].
Qed.

Lemma by_id_fold tasks (ids : gmap string Meta) x m :
  fold_left (fun ids meta => <[id_of meta := meta]> ids) tasks ids !! x = Some m ->
  (m ∈ tasks /\ id_of m = x) \/ ids !! x = Some m.
Proof.
  revert ids. induction tasks as [|t tasks IH]; intros ids; cbn; [auto|].
  intros [[? ?]|H]%IH; [left; split; [apply elem_of_cons; auto | done]|].
  destruct (decide (id_of t = x)) as [<-|Hne].
  - rewrite lookup_insert_eq in H. injection H as <-. left. split; [apply elem_of_cons; auto | done].
  - rewrite lookup_insert_ne in H by done. auto.
Qed.
Lemma by_id_elem tasks x m : by_id tasks !! x = Some m -> m ∈ tasks /\ id_of m = x.
Proof. intros [H|H]%by_id_fold; [done|]. by rewrite lookup_empty in H. Qed.
Lemma by_id_has tasks m : m ∈ tasks -> is_Some (by_id tasks !! id_of m).
Proof.
  unfold by_id. generalize (∅ : gmap string Meta).
  induction tasks as [|t tasks IH]; intros ids; [by intros ?%not_elem_of_nil|].
  intros [->|H]%elem_of_cons; cbn; [|by apply IH].
  assert (forall ids : gmap string Meta, is_Some (ids !! id_of t) ->
    is_Some (fold_left (fun ids meta => <[id_of meta := meta]> ids) tasks ids !! id_of t)) as Hk.
  { clear. induction tasks as [|u tasks IH]; [done|]. intros ids H. cbn. apply IH.
    destruct (decide (id_of u = id_of t)) as [->|]; [by rewrite lookup_insert_eq | by rewrite lookup_insert_ne]. }
  apply Hk. by rewrite lookup_insert_eq.
Qed.

Lemma concat_nil {A B} (f : A -> list B) l x : concat (map f l) = [] -> x ∈ l -> f x = [].
Proof.
  induction l as [|y l IH]; [by intros _ ?%not_elem_of_nil|]. cbn. intros [? ?]%app_eq_nil.
  intros [->|?]%elem_of_cons; auto.
Qed.

(** [x]'s task names [y] as its parent. *)
Definition child_of (tasks : list Meta) (x y : string) : Prop :=
  exists m, m ∈ tasks /\ id_of m = x /\ truthy (parent_ref m) = true /\ str (parent_ref m) = y.

(** A task list with unique identifiers and no hierarchy error is a forest
    recorded consistently on both sides: every parent reference is to another
    task of the list that lists the child, every listed child is a task of the
    list pointing back, and no task is its own ancestor. *)
Theorem hierarchy_errors_sound tasks :
  hierarchy_errors tasks = [] -> NoDup (map id_of tasks) ->
  (forall x y, child_of tasks x y ->
     x <> y /\ exists p, p ∈ tasks /\ id_of p = y /\ x ∈ (_children p).1) /\
  (forall p c, p ∈ tasks -> c ∈ (_children p).1 ->
     exists m, m ∈ tasks /\ id_of m = c /\ str (parent_ref m) = id_of p) /\
  forall x, ~ tc (child_of tasks) x x.
Proof.
  unfold hierarchy_errors. intros H Hn. apply PyStr.sorted_set_nil in H.
  apply app_eq_nil in H as [He H]. apply app_eq_nil in H as [Hl Hc].
  apply collect_errors in He as [_ He]. rewrite Forall_forall in He.
  assert (Hlook : forall m, m ∈ tasks ->
    parents (collect tasks) !! id_of m = (if valid_parent m then Some (str (parent_ref m)) else None) /\
    children_by_parent (collect tasks) !! id_of m = Some (_children m).1).
  { intros m Hm. by apply collect_lookup. }
  assert (Hvalid : forall m, m ∈ tasks -> truthy (parent_ref m) = true ->
    valid_parent m = true /\ str (parent_ref m) <> id_of m /\
    exists p, p ∈ tasks /\ id_of p = str (parent_ref m)).
  { intros m Hm Ht. destruct (He m Hm) as (Hp & _). unfold parent_errors, valid_parent in *.
    rewrite Ht in *. cbn [andb] in *. destruct (_task_id (parent_ref m)); [|discriminate].
    cbn [negb andb] in Hp. destruct (String.eqb_spec (str (parent_ref m)) (id_of m)); [discriminate|].
    destruct (bool_decide _) eqn:Eb; [discriminate|]. apply bool_decide_eq_false in Eb.
    split_and!; [done..|]. destruct (by_id tasks !! str (parent_ref m)) as [p|] eqn:Ep; [|done].
    exists p. by apply by_id_elem. }
  assert (Hedge : forall x y, child_of tasks x y -> parents (collect tasks) !! x = Some y).
  { intros x y (m & Hm & <- & Ht & <-). destruct (Hvalid m Hm Ht) as (Hv & _).
    destruct (Hlook m Hm) as [-> _]. by rewrite Hv. }
  split_and!.
  - intros x y Hxy. pose proof (Hedge x y Hxy) as Hpar. destruct Hxy as (m & Hm & <- & Ht & <-).
    destruct (Hvalid m Hm Ht) as (_ & Hne & p & Hp & Hpid). split; [done|].
    exists p. split_and!; [done..|].
    eapply (concat_nil _ _ (id_of m, str (parent_ref m))) in Hl; [|by apply elem_of_map_to_list].
    cbn in Hl. rewrite <- Hpid in Hl. destruct (Hlook p Hp) as [_ Hch]. rewrite Hch in Hl. cbn in Hl.
    destruct (PyStr.mem (id_of m) (_children p).1) eqn:Em; [|discriminate]. by apply PyStr.mem_spec.
  - intros p c Hp Hcp. destruct (He p Hp) as (_ & _ & Hce). eapply concat_nil in Hce; [|exact Hcp].
    unfold child_errors in Hce. destruct (by_id tasks !! c) as [m|] eqn:Em; [|discriminate].
    destruct (String.eqb_spec (str (parent_ref m)) (id_of p)) as [E|]; [|discriminate].
    exists m. apply by_id_elem in Em as [? ?]. by split_and!.
  - intros x Hx. assert (Hx' : tc (fun a b => parents (collect tasks) !! a = Some b) x x).
    { revert Hx. by apply tc_congruence with (f := fun s : string => s). }
    revert Hx'. apply ends_acyclic, cycle_errors_ends.
    eapply concat_nil in Hc; [exact Hc|]. apply PyStr.sort_elem, list_elem_of_fmap.
    assert (exists m, m ∈ tasks /\ id_of m = x) as (m & Hm & <-).
    { inversion Hx as [? ? (m & ? & ? & _)|? ? ? (m & ? & ? & _)]; subst; eauto. }
    destruct (by_id_has tasks m Hm) as [m' Hm']. exists (id_of m, m'). split; [done|].
    by apply elem_of_map_to_list.
Qed.

(** A parent in progress may become done only when every task naming it
    as parent is done, cancelled or superseded. *)
Theorem open_child_error_sound meta tasks :
  open_child_error meta tasks = Ok None -> get meta "status" = VStr "in_progress" ->
  forall child, child ∈ tasks -> str (parent_ref child) = id_of meta ->
    exists s, get child "status" = VStr s /\ s ∈ TERMINAL_CHILD_STATUSES.
Proof.
  unfold open_child_error. intros H Hst child Hc Hp. rewrite Hst in H.
  change (ne (VStr "in_progress") (VStr "in_progress")) with false in H. cbv iota in H.
  apply rbind_Ok_inv in H as (r & E & H).
  destruct r as [|m l]; [|destruct (item meta "id"); discriminate].
  unfold open_children in E.
  assert (Hno : child ∉ (@nil Meta)) by apply not_elem_of_nil.
  pose proof (filterr_elem _ _ _ child E) as Hf. cbv beta in Hf. rewrite Hp, String.eqb_refl in Hf.
  cbn [py_and cond rbind] in Hf.
  assert (exists b, in_set (get child "status") TERMINAL_CHILD_STATUSES = Ok b) as [b Hb].
  { destruct (in_set (get child "status") TERMINAL_CHILD_STATUSES) as [b|e] eqn:Es; [eauto|]. exfalso.
    clear Hf. revert E Hc. generalize (@nil Meta). induction tasks as [|t tasks IH]; intros l E Hc.
    - by apply not_elem_of_nil in Hc.
    - cbn [filterr] in E. apply rbind_Ok_inv in E as (b & Eb & E). apply rbind_Ok_inv in E as (ys & Ey & E).
      apply elem_of_cons in Hc as [->|Hc]; [|by eapply IH].
      cbv beta in Eb. rewrite Hp, String.eqb_refl in Eb. cbn [py_and cond rbind] in Eb. rewrite Es in Eb. discriminate. }
  rewrite Hb in Hf. destruct b.
  - unfold in_set in Hb. inv_step. injection Hb as Hb. destruct (get child "status"); try discriminate.
    exists s. split; [done|]. by apply PyStr.mem_spec.
  - exfalso. apply Hno, Hf. by split.
Qed.

(** ** Witnesses *)
Definition node (id : string) (deps : list string) (status parent : string) (children : list string) : Meta :=
  [("id", VStr id); ("depends_on", strs deps); ("status", VStr status);
   ("parent_task_ref", VStr parent); ("children", strs children)].
Definition sample_tasks : list Meta :=
  [node "AR-0001" [] "in_progress" "" ["AR-0002"]; node "AR-0002" [] "done" "AR-0001" []].

Lemma graph_errors_sound_witness :
  graph_errors sample_tasks = Some [] /\ NoDup (map id_of sample_tasks).
Proof.
  split; [vm_compute; reflexivity|].
  destruct (graph_errors_sound sample_tasks) as (es & He & H). apply H.
  assert (graph_errors sample_tasks = Some []) as E by (vm_compute; reflexivity).
  rewrite E in He. by injection He.
Defined.
Lemma hierarchy_errors_sound_witness :
  exists m, m ∈ sample_tasks /\ id_of m = "AR-0002" /\ str (parent_ref m) = "AR-0001".
Proof.
  apply (hierarchy_errors_sound sample_tasks) with (p := node "AR-0001" [] "in_progress" "" ["AR-0002"]);
    [vm_compute; reflexivity | by apply (bool_decide_unpack _) | by apply elem_of_cons; left |].
  by apply elem_of_cons; left.
Defined.
Lemma open_child_error_sound_witness :
  exists s, get (node "AR-0002" [] "done" "AR-0001" []) "status" = VStr s /\ s ∈ TERMINAL_CHILD_STATUSES.
Proof.
  apply (open_child_error_sound (node "AR-0001" [] "in_progress" "" ["AR-0002"]) sample_tasks);
    [reflexivity | reflexivity | | reflexivity].
  apply elem_of_cons. right. apply elem_of_cons. by left.
Defined.

End Graph.
