(* ===== verification/Envelope.v ===== *)
(** * Execution envelopes ([src/tools/execution_envelope.py])

    Validation of the envelope document, the binding in the task metadata, its
    replacement by a narrower successor, and command admission (preflight).
    Reading the envelope file ([load]) and the file-system scope checks
    ([_scope_error], [validate_external_root]) are parameters. *)
From S2P Require Import Prelude PyStr Regex PyVal PyTime PyJson.

Module Envelope.
Import Py.

Definition TASK := Regex.TASK.
Definition REF := Regex.REF.
Definition DIGEST := Regex.DIGEST.
Definition positive_number : Regex.re :=
  Regex.cat (Regex.RChar (PyStr.in_range 49 57)) (Regex.RStar (Regex.RChar PyStr.is_digit)).
Definition ENVELOPE_ID : Regex.re :=
  Regex.cat Regex.TASK (Regex.cat (Regex.lit "-e") positive_number).
Definition ITEM_ID : Regex.re :=
  Regex.cat (Regex.RChar Regex.alnum)
    (Regex.between 2 63 (Regex.RChar (Regex.union Regex.alnum (Regex.one_of "._-")))).
Definition EVIDENCE_CLASS : Regex.re :=
  let word := Regex.plus (Regex.RChar PyStr.is_lower) in
  Regex.cat word (Regex.RStar (Regex.cat (Regex.lit "-") word)).
Definition COMMAND_CLASSES : list string := ["read"; "test"; "source-write"; "git-publication"].
Definition CAPABILITY_KEYS : list string := ["git_metadata"; "network"].
Definition ROOT_NAMES : list string := ["product"; "state"; "source"].
Definition ROOT_SELECTORS : list string := ["product-root"; "state-root"; "source-root"].
Definition fm := Regex.fullmatch.
(** [isinstance(v, str) and pattern.fullmatch(v)] *)
Definition str_matches (p : Regex.re) (v : value) : bool := match v with VStr s => fm p s | _ => false end.
(** [type(v) is int and v >= 1] *)
Definition positive (v : value) : bool := match v with VInt z => 1 <=? z | _ => false end.

Record Preflight : Type := Admission {
  allowed : bool; code : string; detail : string; envelope_id : string; envelope_digest : string }.
Definition denied (c d : string) : Preflight := Admission false c d "" "".

Definition canonical_digest (v : dict) : string := PyJson.digest (VDict v).

(** ** Validation *)
(** The first unsafe item of a path list, as its error. *)
Fixpoint path_item_errors (field : string) (l : list value) : list string :=
  match l with
  | [] => []
  | VStr path :: l' =>
      if PyStr.has_char ":" path then
        let '(root, _, relative) := PyStr.partition ":" path in
        if negb (PyStr.mem root ROOT_NAMES) || negb (PyStr.truthy relative)
           || PyStr.startswith "/" relative || negb (fm REF relative)
        then [field +:+ " contains an invalid root-qualified path"]
        else path_item_errors field l'
      else if PyStr.mem path ROOT_SELECTORS then path_item_errors field l'
      else if negb (fm REF path) || PyStr.startswith "." path
      then [field +:+ " contains an unsafe path"]
      else path_item_errors field l'
  | _ :: _ => [field +:+ " contains an unsafe path"]
  end.
Definition _paths (v : value) (field : string) : res (list string) :=
  match v with
  | VList l =>
      if match l with [] => true | _ => false end || Nat.ltb 64 (length l)
      then Ok [field +:+ " must be a bounded nonempty list"]
      else let* dup := has_duplicates l in
           Ok ((if dup : bool then [field +:+ " contains duplicates"] else []) ++ path_item_errors field l)
  | _ => Ok [field +:+ " must be a bounded nonempty list"]
  end.

Definition err_if (c : bool) (m : string) : list string := if c then [m] else [].
Definition _identity_errors (d : dict) : list string :=
  let eid := get d "envelope_id" in
  let task := get d "task" in
  err_if (negb (type_int (get d "schema_version")
                && (is_z (get d "schema_version") 1 || is_z (get d "schema_version") 2)))
    "envelope schema_version must be 1 or 2"
  ++ err_if (negb (str_matches ENVELOPE_ID eid)) "envelope_id is invalid"
  ++ err_if (negb (str_matches TASK task)) "task is invalid"
  ++ err_if (match eid, task with
             | VStr e, VStr t => negb (PyStr.startswith (t +:+ "-") e)
             | _, _ => false
             end) "envelope_id does not match task"
  ++ concat (map (fun name => err_if (negb (positive (get d name))) (name +:+ " is invalid"))
       ["envelope_revision"; "task_revision"; "spec_revision"])
  ++ err_if (negb (str_matches REF (get d "spec_ref"))) "spec_ref is invalid".

(** [items] is a list of objects with distinct well-formed identifiers. *)
Definition collection_error (d : dict) (name : string) : list string :=
  match get d name with
  | VList items =>
      if match items with [] => true | _ => false end || Nat.ltb 32 (length items)
      then [name +:+ " must be a bounded nonempty list"]
      else
        let ids := omap (fun i => match i with VDict x => Some (get x "id") | _ => None end) items in
        err_if (negb (Nat.eqb (length ids) (length items))
                || negb (forallb (str_matches ITEM_ID) ids)
                || negb (Nat.eqb (length (PyStr.dedup (map str ids))) (length ids)))
          (name +:+ " identifiers are invalid")
  | _ => [name +:+ " must be a bounded nonempty list"]
  end.
Definition bad_output (v : value) : bool :=
  match v with
  | VDict x => negb (keys_are x ["id"; "description"]
                 && match get x "description" with
                    | VStr s => PyStr.truthy (PyStr.strip s) && (PyStr.len s <=? 1000)
                    | _ => false
                    end)
  | _ => true
  end.
Definition bad_evidence (v : value) : bool :=
  match v with
  | VDict x => negb (keys_are x ["id"; "class"; "required"]
                 && str_matches EVIDENCE_CLASS (get x "class") && is_bool (get x "required"))
  | _ => true
  end.
Definition _item_shape_errors (d : dict) : res (list string) :=
  let* outputs := iter (get_or d "outputs" (VList [])) in
  let* evidence := iter (get_or d "evidence" (VList [])) in
  Ok (err_if (existsb bad_output outputs) "outputs contain an invalid item"
      ++ err_if (existsb bad_evidence evidence) "evidence contain an invalid item").
Definition valid_non_goals (v : value) : bool :=
  match v with
  | VList l => match l with [] => false | _ => true end && Nat.leb (length l) 32
      && forallb (fun i => match i with
                           | VStr s => PyStr.truthy (PyStr.strip s) && (PyStr.len s <=? 240)
                           | _ => false
                           end) l
  | _ => false
  end.
Definition _collection_errors (d : dict) : res (list string) :=
  let* shapes := _item_shape_errors d in
  Ok (concat (map (collection_error d) ["outputs"; "evidence"; "stop_conditions"]) ++ shapes
      ++ err_if (negb (valid_non_goals (get d "non_goals")))
           "non_goals must be a bounded nonempty string list").

Definition _valid_command_rule (v : value) : bool :=
  match v with
  | VDict r => keys_within r ["allowed"; "timeout_seconds"] && is_bool (get r "allowed")
      && (negb (has r "timeout_seconds")
          || match get r "timeout_seconds" with VInt z => (1 <=? z) && (z <=? 3600) | _ => false end)
  | _ => false
  end.
Definition _valid_stop_condition (v : value) : res bool :=
  match v with
  | VDict x => py_and [keys_are x ["id"; "kind"]; str_matches ITEM_ID (get x "id");
                       in_set (get x "kind") ["deny"; "pause"]]
  | _ => Ok false
  end.
Definition _rule_errors (d : dict) : res (list string) :=
  let* scope :=
    match get d "path_scope" with
    | VDict s =>
        if keys_are s ["read"; "write"] then
          let* r := _paths (get s "read") "path_scope.read" in
          let* w := _paths (get s "write") "path_scope.write" in
          Ok (r ++ w)
        else Ok ["path_scope must contain exactly read and write"]
    | _ => Ok ["path_scope must contain exactly read and write"]
    end in
  let classes :=
    match get d "command_classes" with
    | VDict c =>
        if match c with [] => true | _ => false end || negb (keys_within c COMMAND_CLASSES)
        then ["command_classes are invalid"]
        else err_if (existsb (fun kv => negb (_valid_command_rule kv.2)) c)
               "command_classes contain an invalid rule"
    | _ => ["command_classes are invalid"]
    end in
  let* stops :=
    match get d "stop_conditions" with
    | VList l =>
        if match l with [] => true | _ => false end || Nat.ltb 32 (length l)
        then Ok ["stop_conditions must be a bounded nonempty list"]
        else let* bad := py_any (fun i => py_not (_valid_stop_condition i)) l in
             Ok (err_if bad "stop_conditions contain an invalid rule")
    | _ => Ok ["stop_conditions must be a bounded nonempty list"]
    end in
  Ok (scope ++ classes ++ stops).

Definition valid_capability (v : value) : bool :=
  match v with VDict i => keys_are i ["allowed"] && is_bool (get i "allowed") | _ => false end.
(** A frozenset is walked in an order of its own; the first invalid name of
    [CAPABILITY_KEYS] is reported. *)
Definition _capability_errors (d : dict) : list string :=
  let capabilities := get d "capabilities" in
  if is_null capabilities then []
  else if negb (is_z (get d "schema_version") 2) then ["capabilities require envelope schema_version 2"]
  else match capabilities with
       | VDict c =>
           if keys_are c CAPABILITY_KEYS then
             match List.find (fun name => negb (valid_capability (get c name))) CAPABILITY_KEYS with
             | Some name => ["capability " +:+ name +:+ " is invalid"]
             | None => []
             end
           else ["capabilities must contain exactly git_metadata and network"]
       | _ => ["capabilities must contain exactly git_metadata and network"]
       end.

Definition REQUIRED : list string :=
  ["schema_version"; "envelope_id"; "envelope_revision"; "task"; "task_revision"; "spec_ref";
   "spec_revision"; "outputs"; "non_goals"; "path_scope"; "command_classes"; "evidence";
   "stop_conditions"].
Definition required_fields (d : dict) : list string :=
  if is_int (get d "schema_version") && is_z (get d "schema_version") 2
  then REQUIRED ++ ["capabilities"] else REQUIRED.
Definition field_errors (d : dict) : list string :=
  let required := required_fields d in
  map (fun n => "envelope missing field: " +:+ n)
    (PyStr.sorted_set (List.filter (fun n => negb (has d n)) required))
  ++ map (fun n => "envelope unknown field: " +:+ n)
    (PyStr.sorted_set (List.filter (fun n => negb (PyStr.mem n required)) (keys d))).
Definition errors (v : value) : res (list string) :=
  match v with
  | VDict d =>
      let* collections := _collection_errors d in
      let* rules := _rule_errors d in
      Ok (field_errors d ++ _identity_errors d ++ _capability_errors d ++ collections ++ rules)
  | _ => Ok ["envelope must be an object"]
  end.

(** ** The binding in the task metadata *)
Definition BINDING_FIELDS : list string :=
  ["execution_envelope_ref"; "execution_envelope_revision"; "execution_envelope_task_revision";
   "execution_envelope_digest"; "execution_envelope"].
Definition valid_binding (meta : Meta) : bool :=
  forallb (fun k => is_null (get meta k)) BINDING_FIELDS
  || (str_matches REF (get meta "execution_envelope_ref")
      && positive (get meta "execution_envelope_revision")
      && positive (get meta "execution_envelope_task_revision")
      && str_matches DIGEST (get meta "execution_envelope_digest")
      && is_dict (get meta "execution_envelope")).

Definition REPLACEMENT_FIELDS : list string :=
  ["old_ref"; "old_revision"; "old_task_revision"; "old_digest"; "new_ref"; "new_revision";
   "new_digest"; "replaced_at"].
Definition valid_replacement (v : value) : bool :=
  match v with
  | VDict i =>
      keys_are i REPLACEMENT_FIELDS && is_str (get i "old_ref") && is_str (get i "new_ref")
      && positive (get i "old_revision") && positive (get i "old_task_revision")
      && fm DIGEST (str (get i "old_digest")) && positive (get i "new_revision")
      && fm DIGEST (str (get i "new_digest")) && is_str (get i "replaced_at")
  | _ => false
  end.
Definition valid_replacements (v : value) : bool :=
  match v with
  | VNull => true
  | VList l => Nat.leb (length l) 16 && forallb valid_replacement l
  | _ => false
  end.

(** [v.items()] *)
Definition items (v : value) : res dict :=
  match v with VDict d => Ok d | _ => no_attr v "items" end.
(** [set(v["path_scope"][access])] *)
Definition scope_set (v : dict) (access : string) : res (list value) :=
  let* s := item v "path_scope" in
  let* l := vitem s access in
  let* xs := iter l in to_set xs.
Definition value_set (v : value) : res (list value) := let* xs := iter v in to_set xs.
Definition subset (l m : list value) : bool := forallb (fun x => in_list x m) l.
Definition truthy_get (v : value) (k : string) (default : value) : res bool :=
  let* x := vget_or v k default in Ok (truthy x).

(** No path, command class, timeout, capability or non-goal is widened. *)
Definition narrower_scope (envelope old : dict) : res unit :=
  foldM (fun _ access =>
      let* new := scope_set envelope access in
      let* prior := scope_set old access in
      raise_if (negb (subset new prior)) (RuntimeError "replace-envelope cannot widen path scope"))
    tt ["read"; "write"].
Definition narrower_rule (old : dict) (name : string) (rule : value) : res unit :=
  let* classes := item old "command_classes" in
  let* prior := vget_or classes name (VDict [("allowed", VBool false)]) in
  check raise_when (py_and [truthy_get rule "allowed" VNull;
                            py_not (truthy_get prior "allowed" (VBool false))])
          (RuntimeError "replace-envelope cannot widen command classes") ;;
  let* t := vget_or rule "timeout_seconds" (VInt 0) in
  let* p := vget_or prior "timeout_seconds" t in
  raise_when (gt t p) (RuntimeError "replace-envelope cannot widen command timeout").
Definition narrower_capability (old : dict) (name : string) (rule : value) : res unit :=
  raise_when (py_and [truthy_get rule "allowed" VNull;
                      py_not (let* c := vget_or (get_or old "capabilities" (VDict [])) name (VDict []) in
                              truthy_get c "allowed" (VBool false))])
    (RuntimeError "replace-envelope cannot widen capabilities").
Definition narrower (envelope old : dict) : res unit :=
  check narrower_scope envelope old ;;
  let* classes := (let* c := item envelope "command_classes" in items c) in
  check foldM (fun _ kv => narrower_rule old kv.1 kv.2) tt classes ;;
  let* capabilities := items (get_or envelope "capabilities" (VDict [])) in
  check foldM (fun _ kv => narrower_capability old kv.1 kv.2) tt capabilities ;;
  let* goals := value_set (get_or old "non_goals" (VList [])) in
  let* kept := value_set (get_or envelope "non_goals" (VList [])) in
  raise_if (negb (subset goals kept)) (RuntimeError "replace-envelope cannot remove non-goals").

Section replace.
  (** [load(root, reference)]: the envelope document, if readable, and the
      errors found. *)
  Context (load : value -> res (option dict * list string)).

Definition loaded (reference : value) : res dict :=
  let* '(envelope, found) := load reference in
  match envelope with
  | Some e =>
      check raise_when (py_or [match found with [] => false | _ => true end;
                               (let* es := errors (VDict e) in
                                Ok match es with [] => false | _ => true end)])
              (RuntimeError ("replace-envelope envelope is invalid: " +:+ PyStr.join "; " found)) ;;
      Ok e
  | None => Raise (RuntimeError ("replace-envelope envelope is invalid: " +:+ PyStr.join "; " found))
  end.

(** Every check of [replace_bound], up to the first write: the old reference,
    revision, task revision and digest, and the admitted successor. *)
Definition admitted_successor (args : Namespace) (meta : Meta)
    : res (string * Z * Z * string * dict * string) :=
  match get meta "execution_envelope" with
  | VDict old =>
      match get meta "execution_envelope_ref", get meta "execution_envelope_revision",
            get meta "execution_envelope_task_revision", get meta "execution_envelope_digest" with
      | VStr old_ref, VInt old_rev, VInt old_task_rev, VStr old_digest =>
          let* reference := attr args "envelope_ref" in
          let* envelope := loaded reference in
          let* task := attr args "task" in
          check raise_if (ne (get envelope "task") task
                          || ne (get envelope "spec_ref") (get meta "spec_ref"))
                  (RuntimeError "replace-envelope envelope task or spec does not match") ;;
          check raise_if (ne (get envelope "task_revision") (get meta "task_revision")
                          || ne (get envelope "spec_revision") (get meta "spec_revision"))
                  (RuntimeError "replace-envelope envelope revision does not match task specification") ;;
          let* revision := attr args "envelope_revision" in
          check raise_if (ne revision (get envelope "envelope_revision"))
                  (RuntimeError "replace-envelope envelope revision does not match") ;;
          let actual := canonical_digest envelope in
          check raise_when (py_or [eq reference (VStr old_ref);
                                   (let* n := item envelope "envelope_id" in
                                    let* o := item old "envelope_id" in Ok (eq n o))])
                  (RuntimeError "replace-envelope requires a distinct successor envelope") ;;
          check raise_if (negb (is_z revision (old_rev + 1)) || String.eqb actual old_digest)
                  (RuntimeError "replace-envelope successor revision or bytes are invalid") ;;
          check narrower envelope old ;;
          Ok (old_ref, old_rev, old_task_rev, old_digest, envelope, actual)
      | _, _, _, _ => Raise (RuntimeError "replace-envelope requires a coherent existing binding")
      end
  | _ => Raise (RuntimeError "replace-envelope requires an existing bound execution envelope")
  end.
Definition replace_bound (args : Namespace) (replaced_at : value) : st Meta string :=
  do* s := slift (admitted_successor args) in
  let '(old_ref, old_rev, old_task_rev, old_digest, envelope, actual) := s in
  do* history := slift (fun meta =>
    match get_or meta "execution_envelope_replacements" (VList []) with
    | VList l => Ok l
    | _ => Raise (RuntimeError "replace-envelope replacement evidence is invalid")
    end) in
  do* reference := slift (fun _ => attr args "envelope_ref") in
  do* revision := slift (fun _ => attr args "envelope_revision") in
  do smodify (fun meta => dset meta "execution_envelope_replacements" (VList (history ++ [VDict [
       ("old_ref", VStr old_ref); ("old_revision", VInt old_rev);
       ("old_task_revision", VInt old_task_rev); ("old_digest", VStr old_digest);
       ("new_ref", reference); ("new_revision", revision); ("new_digest", VStr actual);
       ("replaced_at", replaced_at)]]))) ;;
  do* task_revision := slift (fun meta => item meta "task_revision") in
  do smodify (fun meta => update meta [
       ("execution_envelope_ref", reference); ("execution_envelope_revision", revision);
       ("execution_envelope_task_revision", task_revision);
       ("execution_envelope_digest", VStr actual); ("execution_envelope", VDict envelope)]) ;;
  sret ("Replaced execution envelope " +:+ old_ref +:+ " with " +:+ str reference +:+ " revision "
        +:+ str revision +:+ ".").
End replace.

(** ** Command admission *)
Definition _bound_envelope (meta : Meta) : res (dict + Preflight) :=
  match get meta "execution_envelope_ref", get meta "execution_envelope" with
  | VStr _, VDict embedded =>
      let* found := errors (VDict embedded) in
      match found with
      | _ :: _ => Ok (inr (denied "ENVELOPE_INVALID" (PyStr.join "; " found)))
      | [] =>
          if ne (get meta "execution_envelope_digest") (VStr (canonical_digest embedded)) then
            Ok (inr (denied "ENVELOPE_DIGEST_MISMATCH" "bound envelope data changed"))
          else if ne (get embedded "task") (get meta "id")
                  || ne (get embedded "envelope_revision") (get meta "execution_envelope_revision")
                  || ne (get embedded "task_revision") (get meta "execution_envelope_task_revision")
                  || ne (get embedded "spec_ref") (get meta "spec_ref")
                  || ne (get embedded "spec_revision") (get meta "spec_revision") then
            Ok (inr (denied "ENVELOPE_REVISION_MISMATCH"
                       "envelope does not match durable task specification"))
          else Ok (inl embedded)
      end
  | _, _ => Ok (inr (denied "ENVELOPE_MISSING" "task has no bound execution envelope"))
  end.

(** [isinstance(c, dict) and isinstance(c.get(name), dict) and c[name].get("allowed") is True] *)
Definition capability_allowed (envelope : dict) (name : string) : bool :=
  match get_or envelope "capabilities" (VDict []) with
  | VDict c => match get c name with
               | VDict r => match get r "allowed" with VBool true => true | _ => false end
               | _ => false
               end
  | _ => false
  end.
Definition publication_metadata_allowed (envelope : dict) : bool :=
  capability_allowed envelope "git_metadata".
Definition _capability_denial (envelope : dict) (command_class : string)
    (authorize_external_side_effects : bool) : option Preflight :=
  let metadata_allowed := capability_allowed envelope "git_metadata" in
  let network_allowed := capability_allowed envelope "network" in
  let publication := String.eqb command_class "git-publication" in
  if publication && negb metadata_allowed then
    Some (denied "GIT_METADATA_CAPABILITY_DENIED" "git metadata capability is required")
  else if authorize_external_side_effects && negb publication then
    Some (denied "EXTERNAL_SIDE_EFFECTS_DENIED" "external side effects require git-publication")
  else if authorize_external_side_effects && negb network_allowed then
    Some (denied "NETWORK_CAPABILITY_DENIED" "network capability is not authorized")
  else if publication && network_allowed && negb authorize_external_side_effects then
    Some (denied "EXTERNAL_SIDE_EFFECT_AUTHORIZATION_REQUIRED"
            "network publication requires explicit authorization")
  else None.

(** The lease check: [None] when the claim is live at [now]. *)
Definition lease_denial (now : Z) (meta : Meta) : res (option Preflight) :=
  match get meta "claim_expires" with
  | VStr s =>
      if PyStr.truthy s then
        match PyTime.parse_iso s with
        | None => Ok (Some (denied "OWNER_CLAIM_REQUIRED" "active durable owner lease is invalid"))
        | Some t =>
            let* expired := PyTime.dt_le t (PyTime.utc now) in
            Ok (if expired : bool
                then Some (denied "OWNER_CLAIM_REQUIRED" "active durable owner lease is expired")
                else None)
        end
      else Ok (Some (denied "OWNER_CLAIM_REQUIRED" "active durable owner lease is required"))
  | _ => Ok (Some (denied "OWNER_CLAIM_REQUIRED" "active durable owner lease is required"))
  end.
(** [command_class in classes and classes[command_class]["allowed"]] *)
Definition class_allowed (envelope : dict) (command_class : string) : res bool :=
  py_and [PyStr.mem command_class COMMAND_CLASSES;
          (let* c := item envelope "command_classes" in
           let* d := items c in Ok (has d command_class));
          (let* c := item envelope "command_classes" in
           let* r := vitem c command_class in
           let* a := vitem r "allowed" in Ok (truthy a))].

Definition mutating (command_class : string) : bool :=
  PyStr.mem command_class ["source-write"; "git-publication"].
(** [ROOT_SELECTORS.get(s)] *)
Definition selector_root (s : string) : option string :=
  if String.eqb s "product-root" then Some "product"
  else if String.eqb s "state-root" then Some "state"
  else if String.eqb s "source-root" then Some "source" else None.
(** [Path(relative).parts] of a relative path *)
Definition path_parts (relative : string) : list string :=
  List.filter (fun p => negb (PyStr.mem p [""; "."])) (PyStr.split "/" relative).
(** A declared path, as [scope_name], is under the granted scope. *)
Definition covers (root_name scope_name scope : string) : bool :=
  let bare := PyStr.rstrip_char "/" scope in
  match selector_root scope with Some r => String.eqb r root_name | None => false end
  || String.eqb scope_name bare || PyStr.startswith (bare +:+ "/") scope_name.
(** The root, the path relative to it and whether the root was written out. *)
Definition declared_path (declared : string) : string * string * bool :=
  let selected := selector_root declared in
  let '(prefix, separator, rest) := PyStr.partition ":" declared in
  let root_name := match selected with Some r => r
                   | None => if separator : bool then prefix else "product" end in
  let relative := match selected with Some _ => "" | None => if separator : bool then rest else declared end in
  (root_name, relative, separator).

Section preflight.
  (** The current instant; the unsafe-root message of [validate_external_root],
      if any; the available roots (the product worktree always, state and
      source when given); and the file-system check [envelope_scope_path] of a
      relative path under a root, as the message of the error it raises. *)
  Context (now : Z) (source_root_error : option string) (roots : list string)
          (envelope_scope_path : string -> string -> option string).

Definition outside (d : string) : option Preflight := Some (denied "PATH_OUTSIDE_SCOPE" d).
(** The file-system part: every component, or the parent of a new leaf. *)
Definition component_error (command_class root_name relative : string) : option Preflight :=
  let parts := path_parts relative in
  let leaf := negb (mutating command_class) || Nat.ltb (length parts) 2 in
  if String.eqb relative "." then None
  else match envelope_scope_path root_name relative with
       | None => None
       | Some msg =>
           if leaf then
             if PyStr.contains "unavailable" msg
             then Some (denied "PATH_SCOPE_UNAVAILABLE" "declared path is unavailable")
             else outside "declared path is unavailable or unsafe"
           else match envelope_scope_path root_name (PyStr.join "/" (removelast parts)) with
                | Some _ => outside "declared path is unavailable or unsafe"
                | None => None
                end
       end.
Definition path_error (granted : list string) (command_class declared : string) : option Preflight :=
  let '(root_name, relative, separator) := declared_path declared in
  let selected := match selector_root declared with Some _ => true | None => false end in
  if negb (PyStr.mem root_name roots) then
    if String.eqb root_name "source" && (selected || separator)
    then Some (denied "PATH_SCOPE_UNAVAILABLE" "declared root is unavailable")
    else outside "declared path has an unavailable or invalid root"
  else if (negb (PyStr.truthy relative) || PyStr.startswith "/" relative) && negb selected then
    outside "declared path has an unavailable or invalid root"
  else
    let relative := if negb (PyStr.truthy relative) || PyStr.startswith "/" relative then "." else relative in
    let scope_name := if separator : bool then root_name +:+ ":" +:+ relative else declared in
    if negb (existsb (covers root_name scope_name) granted) then
      outside "declared path is outside the command-class scope"
    else component_error command_class root_name relative.
Fixpoint first_path_error (granted : list string) (command_class : string) (paths : list string)
    : option Preflight :=
  match paths with
  | [] => None
  | p :: ps => match path_error granted command_class p with
               | Some d => Some d
               | None => first_path_error granted command_class ps
               end
  end.
Definition access_of (command_class : string) : string :=
  if mutating command_class then "write" else "read".
Definition _scope_error (envelope : dict) (command_class : string) (paths : list string)
    : res (option Preflight) :=
  if mutating command_class && match paths with [] => true | _ => false end then
    Ok (Some (denied "SCOPE_DECLARATION_REQUIRED" "mutating command classes require --scope-path"))
  else
    let* scope := item envelope "path_scope" in
    let* granted := vitem scope (access_of command_class) in
    let* l := iter granted in
    Ok (first_path_error (map str l) command_class paths).

Definition preflight (meta : Meta) (owner : value) (command_class : string) (paths : list string)
    (authorize_external_side_effects : bool) : res Preflight :=
  match source_root_error with
  | Some e => Ok (denied "PATH_SCOPE_UNAVAILABLE" e)
  | None =>
      let* bound := _bound_envelope meta in
      match bound with
      | inr denial => Ok denial
      | inl envelope =>
          if ne (get meta "owner") owner || ne (get meta "status") (VStr "in_progress") then
            Ok (denied "OWNER_CLAIM_REQUIRED" "active durable owner claim is required")
          else
            let* lease := lease_denial now meta in
            match lease with
            | Some d => Ok d
            | None =>
                let* ok := class_allowed envelope command_class in
                if negb ok then
                  Ok (denied "COMMAND_CLASS_DENIED" "command class is not allowed by the envelope")
                else
                  match _capability_denial envelope command_class authorize_external_side_effects with
                  | Some d => Ok d
                  | None =>
                      let* scope := _scope_error envelope command_class paths in
                      match scope with
                      | Some d => Ok d
                      | None =>
                          let* i := item envelope "envelope_id" in
                          let* g := item meta "execution_envelope_digest" in
                          Ok (Admission true "ALLOWED" "durable envelope admission passed" (str i) (str g))
                      end
                  end
            end
      end
  end.
End preflight.

(** ** Reservations *)
Definition RESERVATION_FIELDS : list string :=
  ["execution_id"; "owner"; "task_revision"; "envelope_digest"; "command_class"; "scope_digest";
   "argv_digest"; "expires_at"].
(** [dt.datetime.fromisoformat(str(v).replace("Z", "+00:00"))] has a zone. *)
Definition zoned_timestamp (v : value) : bool :=
  match PyTime.parse_iso (str v) with Some t => negb (PyTime.naive t) | None => false end.
Definition valid_owner (v : value) : bool :=
  match v with VStr s => PyStr.truthy s && (PyStr.len s <=? 128) | _ => false end.
Definition valid_reservation (v : value) : res bool :=
  match v with
  | VDict d =>
      py_and [keys_are d RESERVATION_FIELDS;
              fm (Regex.HEX 32) (str (get d "execution_id"));
              valid_owner (get d "owner");
              positive (get d "task_revision");
              fm DIGEST (str (get d "envelope_digest"));
              in_set (get d "command_class") COMMAND_CLASSES;
              fm DIGEST (str (get d "scope_digest"));
              fm (Regex.HEX 64) (str (get d "argv_digest"));
              zoned_timestamp (get d "expires_at")]
  | _ => Ok false
  end.

(** The private Bubblewrap root. *)
Definition sandbox_base_command (network : bool) : list string :=
  ["bwrap"; "--die-with-parent"; "--unshare-user"]
  ++ (if network then [] else ["--unshare-net"])
  ++ ["--uid"; "0"; "--gid"; "0"; "--tmpfs"; "/"; "--clearenv";
      "--setenv"; "PATH"; "/usr/local/sbin:/usr/local/bin:/usr/sbin:/usr/bin:/sbin:/bin";
      "--setenv"; "HOME"; "/tmp"; "--setenv"; "TMPDIR"; "/tmp"; "--setenv"; "LANG"; "C.UTF-8";
      "--proc"; "/proc"; "--dev"; "/dev"; "--tmpfs"; "/tmp"].

(** ** Lemmas *)

Lemma vdedup_str s l seen :
  VStr s ∈ vdedup_go seen l <-> VStr s ∈ l /\ in_list (VStr s) seen = false.
Proof.
  revert seen. induction l as [|x l IH]; intros seen; cbn [vdedup_go].
  { split; [by intros ?%not_elem_of_nil | by intros [?%not_elem_of_nil _]]. }
  destruct (in_list x seen) eqn:Ex.
  - rewrite IH, elem_of_cons. split; [tauto|]. intros [[<-|?] Hs]; [congruence | done].
  - rewrite !elem_of_cons, IH. cbn [in_list existsb]. rewrite orb_false_iff. split.
    + intros [<-|(? & ? & ?)]; auto.
    + intros [[?|?] Hs]; [auto|]. destruct (eq x (VStr s)) eqn:E; [|auto].
      left. by apply eq_str in E.
Qed.

Lemma to_set_str s l l' : to_set l = Ok l' -> VStr s ∈ l' <-> VStr s ∈ l.
Proof.
  unfold to_set. intros H. repeat inv_step. rewrite vdedup_str. cbn. tauto.
Qed.

Lemma subset_str l m s : subset l m = true -> VStr s ∈ l -> VStr s ∈ m.
Proof.
  unfold subset. rewrite forallb_forall. intros H Hs. apply in_list_str, H. by apply list_elem_of_In.
Qed.

(** What an envelope grants. *)
Definition grants (e : dict) (access path : string) : Prop :=
  exists l, scope_set e access = Ok l /\ VStr path ∈ l.
Definition may_run (e : dict) (command_class : string) : Prop :=
  exists classes rule, get e "command_classes" = VDict classes /\
    dget classes command_class = Some rule /\ truthy_get rule "allowed" VNull = Ok true.
Definition capable (e : dict) (name : string) : Prop := capability_allowed e name = true.
Definition forbids (e : dict) (goal : string) : Prop :=
  exists l, value_set (get_or e "non_goals" (VList [])) = Ok l /\ VStr goal ∈ l.
(** [e'] grants nothing [e] does not. *)
Record no_wider (e e' : dict) : Prop := NoWider {
  nw_scope : forall access path, access ∈ ["read"; "write"] -> grants e' access path -> grants e access path;
  nw_class : forall c, may_run e' c -> may_run e c;
  nw_capability : forall name, capable e' name -> exists c r, get_or e "capabilities" (VDict []) = VDict c /\
                    dget c name = Some r /\ truthy_get r "allowed" (VBool false) = Ok true;
  nw_goal : forall goal, forbids e goal -> forbids e' goal }.

Lemma truthy_get_default v k d : truthy d = false -> truthy_get v k d = truthy_get v k VNull.
Proof.
  intros H. unfold truthy_get, vget_or, get_or. destruct v as [| | | | |x]; try done. cbn.
  by destruct (dget x k); cbn; rewrite ?H.
Qed.

Lemma foldM_unit {A} (f : A -> res unit) l out x :
  foldM (fun _ a => f a) tt l = Ok out -> x ∈ l -> f x = Ok tt.
Proof.
  intros H Hx. destruct (foldM_elem _ _ _ _ _ H Hx) as (? & [] & ?). done.
Qed.

Lemma narrower_rule_sound old name rule :
  narrower_rule old name rule = Ok tt -> truthy_get rule "allowed" VNull = Ok true ->
  may_run old name.
Proof.
  unfold narrower_rule. intros H Hr.
  apply rbind_Ok_inv in H as (classes & Ec & H). apply rbind_Ok_inv in H as (prior & Ep & H).
  apply rbind_Ok_inv in H as ([] & Ew & _). apply raise_when_Ok in Ew.
  cbn [py_and] in Ew. rewrite Hr in Ew. cbn [rbind] in Ew. unfold py_not in Ew.
  destruct (truthy_get prior "allowed" (VBool false)) as [[]|] eqn:Et; try discriminate.
  rewrite truthy_get_default in Et by done.
  destruct classes as [| | | | |cs]; try discriminate. cbn in Ep. injection Ep as <-.
  unfold get_or in Et. destruct (dget cs name) as [p|] eqn:Ed; [|discriminate].
  exists cs, p. split_and!; [by apply item_get | done | done].
Qed.

Lemma narrower_capability_sound old name rule :
  narrower_capability old name rule = Ok tt -> truthy_get rule "allowed" VNull = Ok true ->
  exists c r, get_or old "capabilities" (VDict []) = VDict c /\ dget c name = Some r /\
    truthy_get r "allowed" (VBool false) = Ok true.
Proof.
  unfold narrower_capability. intros H Hr. apply raise_when_Ok in H.
  cbn [py_and] in H. rewrite Hr in H. cbn [rbind] in H. unfold py_not in H.
  destruct (get_or old "capabilities" (VDict [])) as [| | | | |c]; try discriminate.
  cbn [vget_or rbind] in H.
  destruct (truthy_get (get_or c name (VDict [])) "allowed" (VBool false)) as [[]|] eqn:Et; try discriminate.
  unfold get_or in Et. destruct (dget c name) as [r|] eqn:Ed; [|discriminate]. exists c, r. by split_and!.
Qed.

Lemma narrower_no_wider envelope old :
  narrower envelope old = Ok tt -> no_wider old envelope.
Proof.
  unfold narrower. intros H.
  apply rbind_Ok_inv in H as ([] & Hs & H). apply rbind_Ok_inv in H as (classes & Hc & H).
  apply rbind_Ok_inv in H as ([] & Hr & H). apply rbind_Ok_inv in H as (caps & Hcap & H).
  apply rbind_Ok_inv in H as ([] & Hcr & H). apply rbind_Ok_inv in H as (goals & Hg & H).
  apply rbind_Ok_inv in H as (kept & Hk & H). apply raise_if_Ok, negb_false_iff in H.
  split.
  - intros access path Ha (l & Hl & Hp). unfold narrower_scope in Hs.
    eapply foldM_unit in Hs; [|exact Ha]. cbv beta in Hs. rewrite Hl in Hs. cbn [rbind] in Hs.
    apply rbind_Ok_inv in Hs as (prior & Hprior & Hs). apply raise_if_Ok, negb_false_iff in Hs.
    exists prior. split; [done|]. by eapply subset_str.
  - intros c (cs & rule & Hcs & Hrule & Hallow). apply rbind_Ok_inv in Hc as (v & Hv & Hc).
    apply item_get in Hv. rewrite Hcs in Hv. subst v. injection Hc as <-.
    apply (foldM_unit (fun kv => narrower_rule old kv.1 kv.2) _ _ (c, rule)) in Hr;
      [|by apply dget_in]. by eapply narrower_rule_sound.
  - intros name Hname. unfold capable, capability_allowed in Hname.
    destruct (get_or envelope "capabilities" (VDict [])) as [| | | | |cd] eqn:Ecap; try discriminate.
    injection Hcap as <-. destruct (get cd name) as [| | | | |r] eqn:Er; try discriminate.
    destruct (get r "allowed") as [|[]| | | |] eqn:Ea; try discriminate.
    apply (foldM_unit (fun kv => narrower_capability old kv.1 kv.2) _ _ (name, VDict r)) in Hcr.
    + eapply narrower_capability_sound; [exact Hcr|]. unfold truthy_get. cbn [vget_or snd].
      unfold get in Ea. by rewrite Ea.
    + apply dget_in. unfold get, get_or in Er. destruct (dget cd name); congruence.
  - intros goal (l & Hl & Hgoal). rewrite Hg in Hl. injection Hl as <-.
    exists kept. split; [done|]. by eapply subset_str.
Qed.

Lemma replace_bound_inv load args at_ (meta meta' : Meta) msg :
  replace_bound load args at_ meta = (meta', Ok msg) ->
  exists old envelope old_ref old_rev old_task_rev old_digest reference history,
    get meta "execution_envelope" = VDict old /\
    get meta "execution_envelope_ref" = VStr old_ref /\
    get meta "execution_envelope_revision" = VInt old_rev /\
    get meta "execution_envelope_digest" = VStr old_digest /\
    errors (VDict envelope) = Ok [] /\ no_wider old envelope /\
    ne (get envelope "task_revision") (get meta "task_revision") = false /\
    canonical_digest envelope <> old_digest /\
    get_or meta "execution_envelope_replacements" (VList []) = VList history /\
    attr args "envelope_ref" = Ok reference /\ eq reference (VStr old_ref) = false /\
    exists revision task_revision, is_z revision (old_rev + 1) = true /\
    item meta "task_revision" = Ok task_revision /\
    meta' = update (dset meta "execution_envelope_replacements" (VList (history ++ [VDict [
       ("old_ref", VStr old_ref); ("old_revision", VInt old_rev);
       ("old_task_revision", VInt old_task_rev); ("old_digest", VStr old_digest);
       ("new_ref", reference); ("new_revision", revision);
       ("new_digest", VStr (canonical_digest envelope)); ("replaced_at", at_)]]))) [
       ("execution_envelope_ref", reference); ("execution_envelope_revision", revision);
       ("execution_envelope_task_revision", task_revision);
       ("execution_envelope_digest", VStr (canonical_digest envelope));
       ("execution_envelope", VDict envelope)].
Proof.
  unfold replace_bound. intros H. apply sbind_Ok_inv in H as (s & m1 & Hs & H).
  apply slift_Ok_inv in Hs as [-> Hs]. unfold admitted_successor in Hs.
  destruct (get meta "execution_envelope") as [| | | | |old] eqn:E1; try discriminate.
  destruct (get meta "execution_envelope_ref") as [| | |old_ref| |] eqn:E2; try discriminate.
  destruct (get meta "execution_envelope_revision") as [| |old_rev| | |] eqn:E3; try discriminate.
  destruct (get meta "execution_envelope_task_revision") as [| |otr| | |] eqn:E4; try discriminate.
  destruct (get meta "execution_envelope_digest") as [| | |od| |] eqn:E5; try discriminate.
  apply rbind_Ok_inv in Hs as (reference & Eref & Hs). apply rbind_Ok_inv in Hs as (envelope & El & Hs).
  apply rbind_Ok_inv in Hs as (task & _ & Hs). apply rbind_Ok_inv in Hs as ([] & _ & Hs).
  apply rbind_Ok_inv in Hs as ([] & Etr & Hs). apply raise_if_Ok, orb_false_iff in Etr as [Etr _].
  apply rbind_Ok_inv in Hs as (revision & Erev & Hs). apply rbind_Ok_inv in Hs as ([] & _ & Hs).
  cbv zeta in Hs. apply rbind_Ok_inv in Hs as ([] & Edist & Hs). apply rbind_Ok_inv in Hs as ([] & Enext & Hs).
  apply rbind_Ok_inv in Hs as ([] & En & Hs). injection Hs as <-.
  apply narrower_no_wider in En. apply raise_if_Ok, orb_false_iff in Enext as [Enext Edig].
  apply negb_false_iff in Enext. apply String.eqb_neq in Edig.
  apply raise_when_Ok, py_or_false, Forall_cons in Edist as [Edist _]. injection Edist as Edist.
  assert (Evalid : errors (VDict envelope) = Ok []).
  { unfold loaded in El. apply rbind_Ok_inv in El as ([e found] & _ & El). destruct e as [e|]; [|discriminate].
    apply rbind_Ok_inv in El as ([] & Eo & El). injection El as <-.
    apply raise_when_Ok, py_or_false in Eo. apply Forall_cons in Eo as [_ Eo].
    apply Forall_cons in Eo as [Eo _]. destruct (errors (VDict e)) as [[|]|]; try discriminate. done. }
  repeat (inv_step; cbv beta zeta in * ).
  destruct (get_or meta "execution_envelope_replacements" (VList [])) as [| | | |history|] eqn:Eh; try discriminate.
  injection E as <-. rewrite Eref in E0. injection E0 as <-. rewrite Erev in E6. injection E6 as <-.
  rewrite item_dset in E8. cbn [String.eqb Ascii.eqb Bool.eqb] in E8.
  exists old, envelope, old_ref, old_rev, otr, od, reference, history. split_and!; try done.
  exists revision, r3. by split_and!.
Qed.

Lemma keys_are_elem d ks k : keys_are d ks = true -> has d k = true -> k ∈ ks.
Proof. rewrite keys_are_spec, has_elem. intros H. apply H. Qed.

(** A capability of a valid envelope is a boolean. *)
Lemma valid_capable e name c r :
  errors (VDict e) = Ok [] -> get_or e "capabilities" (VDict []) = VDict c -> dget c name = Some r ->
  truthy_get r "allowed" (VBool false) = Ok true -> capable e name.
Proof.
  intros He Hc Hr Ht. unfold capable, capability_allowed. rewrite Hc.
  unfold errors in He. repeat inv_step. apply app_eq_nil in He as [_ He].
  apply app_eq_nil in He as [_ He]. apply app_eq_nil in He as [He _]. unfold _capability_errors in He.
  assert (get e "capabilities" = VDict c) as Hg.
  { unfold get, get_or in *. destruct (dget e "capabilities"); [done|]. by injection Hc as <-. }
  rewrite Hg in He. cbn [is_null] in He. destruct (negb _); [discriminate|].
  destruct (keys_are c CAPABILITY_KEYS) eqn:Ek; [|discriminate].
  destruct (List.find _ _) as [n|] eqn:Ef; [discriminate|].
  assert (name ∈ CAPABILITY_KEYS) as Hn.
  { eapply keys_are_elem; [exact Ek|]. unfold has. by rewrite Hr. }
  apply list_elem_of_In in Hn. eapply find_none in Ef; [|exact Hn]. cbv beta in Ef.
  apply negb_false_iff in Ef. unfold get, get_or in *. rewrite Hr in *.
  destruct r as [| | | | |d]; try discriminate. cbn in Ef, Ht. unfold truthy_get, get_or in *.
  apply andb_true_iff in Ef as [_ Ef]. unfold get, get_or in *. destruct (dget d "allowed") as [[]|]; try discriminate.
  injection Ht as Ht. cbn in Ht. by rewrite Ht.
Qed.

(** The grants of [e'] are among those of [e], and it keeps its non-goals. *)
Definition within (e e' : dict) : Prop :=
  (forall access path, access ∈ ["read"; "write"] -> grants e' access path -> grants e access path) /\
  (forall c, may_run e' c -> may_run e c) /\
  (forall name, capable e' name -> capable e name) /\
  (forall goal, forbids e goal -> forbids e' goal).
(** A change of the task: a replacement, or one that keeps the bound envelope. *)
Definition envelope_step (meta meta' : Meta) : Prop :=
  (exists load args at_ msg, replace_bound load args at_ meta = (meta', Ok msg)) \/
  get meta' "execution_envelope" = get meta "execution_envelope".

(** No chain of envelope replacements, with any other changes between
    them, widens what the first bound envelope granted: readable and writable
    paths, runnable command classes and capabilities can only shrink, no
    non-goal is dropped, and every successor is a valid envelope. *)
Theorem replacements_never_widen (meta meta' : Meta) e :
  rtc envelope_step meta meta' -> get meta "execution_envelope" = VDict e -> errors (VDict e) = Ok [] ->
  exists e', get meta' "execution_envelope" = VDict e' /\ errors (VDict e') = Ok [] /\ within e e'.
Proof.
  intros H. revert e.
  induction H as [meta|meta m1 meta' [(load & args & at_ & msg & Hr)|Hk] _ IH]; intros e He Hv.
  - exists e. split_and!; [done..|]. by split_and!.
  - apply replace_bound_inv in Hr as (old & env & ? & ? & ? & ? & ? & ? & Ho & _ & _ & _ & Hval & Hn & _ & _ &
      _ & _ & _ & ? & ? & _ & _ & ->).
    rewrite He in Ho. injection Ho as <-.
    destruct (IH env) as (e' & He' & Hv' & W1 & W2 & W3 & W4); [cbn [update]; by simp_dict | done |].
    destruct Hn as [N1 N2 N3 N4]. exists e'. split_and!; [done | done |]. split_and!.
    + intros access path Ha Hg. apply N1; auto.
    + auto.
    + intros name Hname. destruct (N3 name (W3 name Hname)) as (c & r & Hc & Hd & Ht).
      by eapply valid_capable.
    + auto.
  - apply IH; [by rewrite Hk | done].
Qed.

Lemma capability_denial_none e c auth :
  _capability_denial e c auth = None ->
  (c = "git-publication" -> capable e "git_metadata" /\ (capable e "network" -> auth = true)) /\
  (auth = true -> c = "git-publication" /\ capable e "network").
Proof.
  unfold _capability_denial, capable.
  destruct (String.eqb_spec c "git-publication") as [Hc|Hc], auth,
    (capability_allowed e "git_metadata"), (capability_allowed e "network"); cbn;
    intros H; try discriminate; split; intros; try done; by split.
Qed.

Lemma lease_denial_spec now (meta : Meta) l :
  lease_denial now meta = Ok l ->
  match l with
  | Some d => allowed d = false
  | None => exists s t, get meta "claim_expires" = VStr s /\ PyTime.parse_iso s = Some t /\
              PyTime.naive t = false /\ now < PyTime.instant t
  end.
Proof.
  unfold lease_denial. destruct (get meta "claim_expires") as [| | |s| |]; try (by intros [= <-]).
  destruct (PyStr.truthy s); [|by intros [= <-]].
  destruct (PyTime.parse_iso s) as [t|] eqn:Et; [|by intros [= <-]].
  intros H. apply rbind_Ok_inv in H as (b & Hb & H). injection H as <-. destruct b; [done|].
  exists s, t. split_and!; [done..| |]; unfold PyTime.dt_le, PyTime.compare_with, PyTime.naive in *;
    destruct (PyTime.dt_off t) eqn:Eo; try discriminate; [done|].
  cbn in Hb. injection Hb as Hb%Z.leb_gt. unfold PyTime.instant in *. cbn in *. lia.
Qed.

Lemma path_error_denied roots fs granted c p d :
  path_error roots fs granted c p = Some d -> allowed d = false.
Proof.
  unfold path_error, component_error, outside. destruct (declared_path p) as [[r rel] sep].
  intros H. repeat (first [case_match | discriminate H | injection H as <-; done]).
Qed.
Lemma first_path_error_spec roots fs granted c ps :
  match first_path_error roots fs granted c ps with
  | Some d => allowed d = false
  | None => forall p, p ∈ ps -> path_error roots fs granted c p = None
  end.
Proof.
  induction ps as [|p ps IH]; cbn; [by intros ? ?%not_elem_of_nil|].
  destruct (path_error roots fs granted c p) eqn:E; [by eapply path_error_denied|].
  destruct (first_path_error roots fs granted c ps); [done|].
  intros q [->|Hq]%elem_of_cons; auto.
Qed.

(** What a declared path names: a whole root by its selector, a path of a root
    by the name of the root and a colon, or a path of the product worktree. *)
Inductive names_path : string -> string -> string -> Prop :=
| names_root p root : (p, root) ∈ [("product-root", "product"); ("state-root", "state"); ("source-root", "source")] ->
    names_path p root "."
| names_qualified root relative : PyStr.has_char ":" root = false -> relative <> "" -> PyStr.startswith "/" relative = false ->
    names_path (root +:+ ":" +:+ relative) root relative
| names_product relative : PyStr.has_char ":" relative = false -> relative <> "" -> PyStr.startswith "/" relative = false ->
    relative ∉ ROOT_SELECTORS -> names_path relative "product" relative.
(** A grant reaches a declared path: it selects the whole root of the path, or
    it is, up to slashes at its end, the path as declared or a directory of it.
    A grant that names a root reaches only paths that name that root. *)
Definition reaches (scope root p : string) : Prop :=
  (scope, root) ∈ [("product-root", "product"); ("state-root", "state"); ("source-root", "source")] \/
  p = PyStr.rstrip_char "/" scope \/ exists rest, p = PyStr.rstrip_char "/" scope +:+ "/" +:+ rest.
(** The components of the path, or for a command that mutates those of its
    parent, are safe. *)
Definition safe_components (envelope_scope_path : string -> string -> option string) (c root relative : string) : Prop :=
  relative = "." \/ envelope_scope_path root relative = None \/
  (mutating c = true /\ (2 <= length (path_parts relative))%nat /\
   envelope_scope_path root (PyStr.join "/" (removelast (path_parts relative))) = None).
(** A declared path names a path of an available root that some grant reaches. *)
Definition in_scope (roots granted : list string) envelope_scope_path (c p : string) : Prop :=
  exists root relative scope, names_path p root relative /\ root ∈ roots /\ scope ∈ granted /\
    reaches scope root p /\ safe_components envelope_scope_path c root relative.

Lemma selector_root_elem p r : selector_root p = Some r ->
  (p, r) ∈ [("product-root", "product"); ("state-root", "state"); ("source-root", "source")].
Proof. unfold selector_root. intros H. repeat case_match; simplify_eq; rewrite ?String.eqb_eq in *; subst; set_solver. Qed.
Lemma selector_root_none p : selector_root p = None -> p ∉ ROOT_SELECTORS.
Proof.
  unfold selector_root, ROOT_SELECTORS. intros H. repeat case_match; simplify_eq.
  intros Hp. repeat (apply elem_of_cons in Hp as [->|Hp]; [discriminate|]). by apply elem_of_nil in Hp.
Qed.
Lemma partition_spec c s : let '(a, found, b) := PyStr.partition c s in
  PyStr.has_char c a = false /\ if found then s = a +:+ String c b else a = s.
Proof.
  induction s as [|d s IH]; cbn; [done|]. destruct (Ascii.eqb_spec c d) as [->|Hn]; [done|].
  destruct (PyStr.partition c s) as [[a [|]] b]; destruct IH as [H1 ->]; unfold PyStr.has_char in *; cbn;
    rewrite (proj2 (Ascii.eqb_neq c d) Hn); by rewrite ?H1.
Qed.
Lemma has_char_after c a b : PyStr.has_char c (a +:+ String c b) = true.
Proof.
  unfold PyStr.has_char. induction a as [|x a IH].
  { change (Ascii.eqb c c || PyStr.any_char (Ascii.eqb c) b = true). by rewrite Ascii.eqb_refl. }
  change (Ascii.eqb c x || PyStr.any_char (Ascii.eqb c) (a +:+ String c b) = true). by rewrite IH, orb_true_r.
Qed.
Lemma declared_path_names p root relative separator :
  declared_path p = (root, relative, separator) ->
  if selector_root p is Some _ then names_path p root "." /\ relative = "" /\ separator = false
  else (relative <> "" -> PyStr.startswith "/" relative = false -> names_path p root relative) /\
       (separator = true -> p = root +:+ ":" +:+ relative).
Proof.
  unfold declared_path. pose proof (partition_spec ":" p) as Hp.
  destruct (PyStr.partition ":" p) as [[a found] b]. destruct Hp as [Ha Hf]. destruct (selector_root p) as [r|] eqn:Es.
  - intros [= <- <- <-]. pose proof (selector_root_elem _ _ Es) as Hr. split; [by constructor|]. split; [done|].
    destruct found; [|done]. subst p. repeat (apply elem_of_cons in Hr as [[= Hr _]|Hr]);
      [..|by apply elem_of_nil in Hr].
    all: pose proof (has_char_after ":" a b) as Hc; rewrite Hr in Hc; discriminate Hc.
  - destruct found; intros [= <- <- <-]; subst.
    + split; [|done]. intros H1 H2. by apply names_qualified.
    + split; [|done]. intros H1 H2. apply names_product; try done. by apply selector_root_none.
Qed.
Lemma covers_reaches root p scope : covers root p scope = true -> reaches scope root p.
Proof.
  unfold covers, reaches. rewrite !orb_true_iff, String.eqb_eq. intros [[H|H]|H]; [left | by auto | right; right].
  - destruct (selector_root scope) as [r|] eqn:Es; [|done]. apply String.eqb_eq in H as ->. by apply selector_root_elem.
  - apply PyStr.startswith_spec in H as [rest ->]. exists rest. by rewrite PyStr.append_assoc.
Qed.
Lemma component_error_none fs c root relative : component_error fs c root relative = None -> safe_components fs c root relative.
Proof.
  unfold component_error, safe_components. destruct (String.eqb_spec relative "."); [by left|].
  destruct (fs root relative); [|by auto]. destruct (negb (mutating c) || _) eqn:Eb; [by case_match|].
  apply orb_false_iff in Eb as [Em%negb_false_iff El%Nat.ltb_ge]. case_match; [done|]. auto.
Qed.
Lemma path_error_none roots fs granted c p :
  path_error roots fs granted c p = None -> in_scope roots granted fs c p.
Proof.
  unfold path_error. destruct (declared_path p) as [[r rel] sep] eqn:Ed. intros H. apply declared_path_names in Ed.
  destruct (PyStr.mem r roots) eqn:Em; [apply PyStr.mem_spec in Em|cbn in H; by case_match]. cbn [negb] in H.
  assert (exists relative, names_path p r relative /\
    (if existsb (covers r p) granted then component_error fs c r relative else Some (denied "" "")) = None)
    as (relative & Hn & H').
  { destruct (selector_root p) as [r'|].
    - destruct Ed as (Hn & -> & ->). exists ".". split; [done|]. cbn [PyStr.truthy String.eqb negb orb andb] in H.
      by destruct (existsb (covers r p) granted).
    - rewrite andb_true_r in H. destruct (negb (PyStr.truthy rel) || _) eqn:Er; [discriminate|].
      apply orb_false_iff in Er as [Er%negb_false_iff Ea]. destruct Ed as [Hn Hs]. exists rel.
      split; [apply Hn; [|done]; intros ->; discriminate|].
      assert ((if sep then r +:+ ":" +:+ rel else p) = p) as Hp by (destruct sep; [by rewrite <-Hs | done]).
      rewrite Hp in H. by destruct (existsb (covers r p) granted). }
  destruct (existsb (covers r p) granted) eqn:Ec; [|discriminate].
  apply existsb_exists in Ec as (scope & Hin & Hc). exists r, relative, scope. split_and!; [done | done | | |].
  - by apply list_elem_of_In.
  - by apply covers_reaches.
  - by apply component_error_none.
Qed.

(** C25: A command is admitted only for the owner of the task in progress under
    a lease that is still in the future, with a bound envelope that is valid,
    unchanged since it was bound and matches the task and its specification,
    for a class the envelope allows and declared paths (at least one, if the
    class mutates) that each name a path of an available root, with safe
    components, reached by a grant of that class: by one that selects the root,
    or by one that is a prefix of the path as it is declared, the name of its
    root included; publishing needs the
    git-metadata capability, and external side effects need publication, the
    network capability and explicit authorization. *)
Theorem preflight_allowed now root_error roots fs (meta : Meta) owner c paths auth p :
  preflight now root_error roots fs meta owner c paths auth = Ok p -> allowed p = true ->
  root_error = None /\
  exists e granted, get meta "execution_envelope" = VDict e /\ errors (VDict e) = Ok [] /\
    get meta "execution_envelope_digest" = VStr (canonical_digest e) /\
    (forall k k', (k, k') ∈ [("task", "id"); ("envelope_revision", "execution_envelope_revision");
        ("task_revision", "execution_envelope_task_revision");
        ("spec_ref", "spec_ref"); ("spec_revision", "spec_revision")] ->
        eq (get e k) (get meta k') = true) /\
    eq (get meta "owner") owner = true /\ get meta "status" = VStr "in_progress" /\
    (exists s t, get meta "claim_expires" = VStr s /\ PyTime.parse_iso s = Some t /\
       PyTime.naive t = false /\ now < PyTime.instant t) /\
    class_allowed e c = Ok true /\
    (c = "git-publication" -> capable e "git_metadata" /\ (capable e "network" -> auth = true)) /\
    (auth = true -> c = "git-publication" /\ capable e "network") /\
    (let* s := item e "path_scope" in let* g := vitem s (access_of c) in iter g) = Ok granted /\
    (mutating c = true -> paths <> []) /\
    (forall q, q ∈ paths -> in_scope roots (map str granted) fs c q).
Proof.
  unfold preflight. destruct root_error as [m|]; [intros [= <-]; discriminate|]. intros H Hp. split; [done|].
  apply rbind_Ok_inv in H as (b & Hb & H). unfold _bound_envelope in Hb.
  destruct (get meta "execution_envelope_ref") as [| | |s| |]; try (injection Hb as <-; injection H as <-; discriminate).
  destruct (get meta "execution_envelope") as [| | | | |e]; try (injection Hb as <-; injection H as <-; discriminate).
  apply rbind_Ok_inv in Hb as (found & Hf & Hb). destruct found; [|injection Hb as <-; injection H as <-; discriminate].
  destruct (ne _ _) eqn:Ed in Hb; [injection Hb as <-; injection H as <-; discriminate|].
  destruct (_ || _ || _ || _ || _) eqn:Em in Hb; [injection Hb as <-; injection H as <-; discriminate|].
  injection Hb as <-. apply ne_false, eq_str in Ed.
  repeat match goal with H : (_ || _)%bool = false |- _ => apply orb_false_iff in H as [? ?] end.
  repeat match goal with H : ne _ _ = false |- _ => apply ne_false in H end.
  destruct (_ || _) eqn:Eo in H; [injection H as <-; discriminate|].
  apply orb_false_iff in Eo as [Eo Est]. apply ne_false in Eo. apply ne_false, eq_str in Est.
  apply rbind_Ok_inv in H as (l & Hl & H). apply lease_denial_spec in Hl.
  destruct l as [d|]; [injection H as <-; congruence|].
  apply rbind_Ok_inv in H as (ok & Hok & H). destruct ok; [|injection H as <-; discriminate]. cbn [negb] in H.
  destruct (_capability_denial e c auth) as [d|] eqn:Ec.
  { exfalso. injection H as <-. unfold _capability_denial in Ec.
    repeat match type of Ec with (if ?b then _ else _) = _ => destruct b end; try discriminate;
      injection Ec as <-; discriminate. }
  apply capability_denial_none in Ec as [Ec1 Ec2].
  apply rbind_Ok_inv in H as (sc & Hsc & H). unfold _scope_error in Hsc.
  destruct (mutating c && _) eqn:Emut; [injection Hsc as <-; injection H as <-; discriminate|].
  apply rbind_Ok_inv in Hsc as (scope & Hs1 & Hsc). apply rbind_Ok_inv in Hsc as (gr & Hs2 & Hsc).
  apply rbind_Ok_inv in Hsc as (granted & Hs3 & Hsc). injection Hsc as <-.
  pose proof (first_path_error_spec roots fs (map str granted) c paths) as Hfirst.
  destruct (first_path_error roots fs (map str granted) c paths); [injection H as <-; congruence|].
  exists e, granted. split_and!; try done.
  - intros k k'. rewrite !elem_of_cons. intros [[= -> ->]|[[= -> ->]|[[= -> ->]|[[= -> ->]|[[= -> ->]|Hn]]]]];
      [done..|]. by apply not_elem_of_nil in Hn.
  - rewrite Hs1. cbn [rbind]. by rewrite Hs2.
  - intros Hm ->. by rewrite Hm in Emut.
  - intros q Hq. eapply path_error_none. by apply Hfirst.
Qed.

(** A successor may drop a command's time limit: the widening check reads a
    missing [timeout_seconds] as 0, so a rule without one is accepted whatever
    limit the bound envelope sets for an allowed class, although the limit is
    then no longer applied. *)
Theorem narrower_rule_drops_timeout old classes prior name timeout :
  item old "command_classes" = Ok (VDict classes) -> dget classes name = Some (VDict prior) ->
  get prior "allowed" = VBool true -> dget prior "timeout_seconds" = Some (VInt timeout) -> 0 < timeout ->
  narrower_rule old name (VDict [("allowed", VBool true)]) = Ok tt.
Proof.
  intros Ho Hp Ha Ht Hpos. unfold narrower_rule. rewrite Ho. cbn [rbind vget_or].
  assert (get_or classes name (VDict [("allowed", VBool false)]) = VDict prior) as ->
    by (unfold get_or; by rewrite Hp).
  unfold truthy_get. cbn [vget_or rbind py_and py_not raise_when].
  assert (get_or prior "allowed" (VBool false) = VBool true) as ->.
  { unfold get, get_or in *. destruct (dget prior "allowed"); congruence. }
  assert (forall d, get_or prior "timeout_seconds" d = VInt timeout) as Hd
    by (intros d; unfold get_or; by rewrite Ht).
  rewrite Hd. cbn. rewrite Z.gtb_ltb. by destruct (Z.ltb_spec timeout 0); [lia|].
Qed.

(** ** Witnesses *)
Definition sample_envelope (rev : Z) (writes : list string) : dict := [
  ("schema_version", VInt 1); ("envelope_id", VStr ("AR-0001-e" +:+ PyStr.of_Z rev));
  ("envelope_revision", VInt rev); ("task", VStr "AR-0001"); ("task_revision", VInt 1);
  ("spec_ref", VStr "specs/one"); ("spec_revision", VInt 1);
  ("outputs", VList [VDict [("id", VStr "out"); ("description", VStr "d")]]);
  ("non_goals", strs ["none"]);
  ("path_scope", VDict [("read", strs ["src"]); ("write", strs writes)]);
  ("command_classes", VDict [("test", VDict [("allowed", VBool true)])]);
  ("evidence", VList [VDict [("id", VStr "evi"); ("class", VStr "test"); ("required", VBool true)]]);
  ("stop_conditions", VList [VDict [("id", VStr "stop"); ("kind", VStr "deny")]])].
Definition sample_bound : Meta := [
  ("id", VStr "AR-0001"); ("owner", VStr "ann"); ("status", VStr "in_progress");
  ("claim_expires", VStr "2026-01-01T00:00:00+00:00"); ("task_revision", VInt 1);
  ("spec_ref", VStr "specs/one"); ("spec_revision", VInt 1);
  ("execution_envelope_ref", VStr "env/one"); ("execution_envelope_revision", VInt 1);
  ("execution_envelope_task_revision", VInt 1);
  ("execution_envelope_digest", VStr (canonical_digest (sample_envelope 1 ["src"; "tests"])));
  ("execution_envelope", VDict (sample_envelope 1 ["src"; "tests"]))].
Definition sample_load (reference : value) : res (option dict * list string) :=
  Ok (if is_s reference "env/two" then (Some (sample_envelope 2 ["src"]), []) else (None, ["unsafe"])).
Definition sample_args : Namespace :=
  [("envelope_ref", VStr "env/two"); ("envelope_revision", VInt 2); ("task", VStr "AR-0001")].
Definition sample_replaced : Meta :=
  fst (replace_bound sample_load sample_args (VStr "2026-01-01T00:00:00+00:00") sample_bound).

Lemma replacements_never_widen_witness :
  exists e', get sample_replaced "execution_envelope" = VDict e' /\ errors (VDict e') = Ok [] /\
    within (sample_envelope 1 ["src"; "tests"]) e'.
Proof.
  apply (replacements_never_widen sample_bound sample_replaced).
  - eapply rtc_l; [|apply rtc_refl]. left.
    exists sample_load, sample_args, (VStr "2026-01-01T00:00:00+00:00").
    eexists. vm_compute. reflexivity.
  - reflexivity.
  - vm_compute. reflexivity.
Defined.

Lemma preflight_allowed_witness :
  exists p, preflight 0 None ["product"] (fun _ _ => None) sample_bound (VStr "ann") "test" ["src/a"] false
    = Ok p /\ allowed p = true /\ get sample_bound "status" = VStr "in_progress".
Proof.
  eexists. split; [vm_compute; reflexivity|]. split; [reflexivity|].
  edestruct (preflight_allowed 0 None ["product"] (fun _ _ => None) sample_bound (VStr "ann") "test"
    ["src/a"] false) as (_ & e & granted & _ & _ & _ & _ & _ & H & _);
    [vm_compute; reflexivity | reflexivity | exact H].
Defined.

Lemma narrower_rule_drops_timeout_witness :
  narrower_rule [("command_classes", VDict [("test",
      VDict [("allowed", VBool true); ("timeout_seconds", VInt 60)])])]
    "test" (VDict [("allowed", VBool true)]) = Ok tt.
Proof. eapply narrower_rule_drops_timeout; reflexivity. Defined.

End Envelope.
