(* ===== verification/Execution.v ===== *)
(** * Execution fences ([execution_lifecycle.py], [execution_receipt.py],
    [execution_abandonment.py], [legacy_binding_repair.py] and the claim
    identity functions of [handoffctl.py])

    A bound command runs under a reservation recorded in the task
    ([execution_reservation]); it is cleared only by an exact durable result or,
    once expired, by an audited abandonment.  What the code asks the operating
    system and the role files is the interface [Host]. *)
From S2P Require Import Prelude PyStr Regex PyVal PyTime PyJson Envelope.

(** One transition reads the clock at one instant, in microseconds since
    0001-01-01 UTC. *)
Class Host := {
  now : Z;
  (** [process_start_time(pid)]: [/proc/<pid>/stat] *)
  process_start_time : Z -> res (option Z);
  (** [worker_execution_scope()]: boot digest and pid namespace *)
  worker_execution_scope : res (string * string);
  (** [require_role_admission(owner)]: the role assignment files *)
  require_role_admission : string -> res unit;
}.

Module Execution.
Import Py PyTime.
Definition fm := Regex.fullmatch.
Definition positive := Envelope.positive.

(** ** Receipts ([execution_receipt.py]) *)
Definition RECEIPT_FIELDS : list string :=
  ["execution_id"; "owner"; "envelope_digest"; "argv_digest"; "classification"; "returncode"; "recorded_at"].
Definition nonempty_str (v : value) : bool := match v with VStr s => PyStr.truthy s | _ => false end.
Definition valid_receipt (v : value) : res bool :=
  match v with
  | VDict d =>
      py_and [keys_are d RECEIPT_FIELDS;
              fm (Regex.HEX 32) (str (get d "execution_id"));
              nonempty_str (get d "owner");
              fm Regex.DIGEST (str (get d "envelope_digest"));
              fm (Regex.HEX 64) (str (get d "argv_digest"));
              in_set (get d "classification") ["EXIT"; "SUBPROCESS_TIMEOUT"];
              type_int (get d "returncode");
              Envelope.zoned_timestamp (get d "recorded_at")]
  | _ => Ok false
  end.
Definition MATCHED_FIELDS : list string := ["execution_id"; "owner"; "envelope_digest"; "argv_digest"].
Definition matches (reservation : dict) (result : value) : res bool :=
  let* ok := valid_receipt result in
  match result with
  | VDict r =>
      if ok then py_all (fun k => let* x := item r k in let* y := item reservation k in Ok (eq x y))
                   MATCHED_FIELDS
      else Ok false
  | _ => Ok false
  end.
Definition build_receipt (reservation : dict) (args : Namespace) : res dict :=
  let* execution_id := attr args "execution_id" in
  check raise_if (ne (get reservation "execution_id") execution_id)
          (ValueError "execution reservation no longer matches this command") ;;
  let* owner := attr args "owner" in
  check raise_if (ne (get reservation "owner") owner)
          (ValueError "execution reservation owner does not match") ;;
  let* envelope := item reservation "envelope_digest" in
  let* argv := item reservation "argv_digest" in
  let* classification := attr args "classification" in
  let* returncode := attr args "returncode" in
  let* recorded_at := attr args "recorded_at" in
  let result := [("execution_id", execution_id); ("owner", owner); ("envelope_digest", envelope);
                 ("argv_digest", argv); ("classification", classification);
                 ("returncode", returncode); ("recorded_at", recorded_at)] in
  check raise_when (py_not (valid_receipt (VDict result))) (ValueError "invalid execution result") ;;
  Ok result.

(** ** Abandonments ([execution_abandonment.py]) *)
Definition MAX_RECORDS : nat := 32.
Definition ABANDON_FIELDS : list string :=
  ["schema_version"; "execution_id"; "owner"; "reservation_digest"; "evidence_ref"; "evidence_digest";
   "recorded_at"].
Definition reservation_digest (reservation : dict) : string := PyJson.digest (VDict reservation).
Definition _public_evidence_ref (s : string) : bool :=
  fm Regex.REF s
  && forallb (fun c => negb (PyStr.mem c ["."; ".."; "private"])) (PyStr.split "/" s).
Definition valid_abandonment (v : value) : bool :=
  match v with
  | VDict d =>
      keys_are d ABANDON_FIELDS && is_z (get d "schema_version") 1
      && fm (Regex.HEX 32) (str (get d "execution_id")) && nonempty_str (get d "owner")
      && fm Regex.DIGEST (str (get d "reservation_digest"))
      && match get d "evidence_ref" with VStr s => _public_evidence_ref s | _ => false end
      && fm Regex.DIGEST (str (get d "evidence_digest"))
      && Envelope.zoned_timestamp (get d "recorded_at")
  | _ => false
  end.
(** [str(record["execution_id"])] of a record *)
Definition execution_id_text (v : value) : string :=
  match v with VDict d => str (get d "execution_id") | _ => "" end.
Definition valid_records (v : value) : bool :=
  match v with
  | VNull => true
  | VList l => Nat.leb (length l) MAX_RECORDS && forallb valid_abandonment l
      && Nat.eqb (length (PyStr.dedup (map execution_id_text l))) (length l)
  | _ => false
  end.
Definition build_abandonment (reservation : dict) (args : Namespace) (recorded_at : string) : res dict :=
  let* execution_id := attr args "execution_id" in
  let* owner := item reservation "owner" in
  let* evidence_ref := attr args "evidence_ref" in
  let* evidence_digest := attr args "evidence_digest" in
  let record := [("schema_version", VInt 1); ("execution_id", execution_id); ("owner", owner);
                 ("reservation_digest", VStr (reservation_digest reservation));
                 ("evidence_ref", evidence_ref); ("evidence_digest", evidence_digest);
                 ("recorded_at", VStr recorded_at)] in
  check raise_if (negb (valid_abandonment (VDict record)))
          (ValueError "invalid execution abandonment evidence") ;;
  Ok record.

(** ** Claims and worker identities ([handoffctl.py]) *)
Definition PID_NAMESPACE : Regex.re :=
  let digits := Regex.plus (Regex.RChar PyStr.is_digit) in
  Regex.cat digits (Regex.cat (Regex.lit ":") digits).
Definition SCOPED_FIELDS : list string := ["pid"; "start_time"; "boot_digest"; "pid_namespace"].
Definition valid_claim_process (v : value) : bool :=
  match v with
  | VDict d =>
      (keys_are d ["pid"; "start_time"] || keys_are d SCOPED_FIELDS)
      && positive (get d "pid")
      && match get d "start_time" with VInt z => 0 <=? z | _ => false end
      && (keys_are d ["pid"; "start_time"]
          || (match get d "boot_digest" with VStr s => fm Regex.DIGEST s | _ => false end
              && match get d "pid_namespace" with VStr s => fm PID_NAMESPACE s | _ => false end))
  | _ => false
  end.
Definition scoped_claim_process (v : value) : bool :=
  match v with VDict d => keys_are d SCOPED_FIELDS && valid_claim_process v | _ => false end.

Definition parse_claim_expiry (expiry : value) : res datetime :=
  match expiry with
  | VStr s =>
      if PyStr.truthy s then
        match parse_iso s with
        | None => Raise (ValueError "Invalid isoformat string")
        | Some t => if naive t then Raise (ValueError "claim expiry lacks timezone") else astimezone_utc t
        end
      else Raise (ValueError "missing or non-string claim expiry")
  | _ => Raise (ValueError "missing or non-string claim expiry")
  end.
(** [except (TypeError, ValueError)] around a computation *)
Definition catch_value {A} (m : res A) (e : exn) : res A :=
  match m with
  | Raise e' => if is_ValueError e' then Raise e else Raise e'
  | Ok a => Ok a
  end.
Definition catch_type_value {A} (m : res A) (e : exn) : res A :=
  match m with
  | Raise (TypeError _) => Raise e
  | Raise e' => if is_ValueError e' then Raise e else Raise e'
  | Ok a => Ok a
  end.

Definition require_optional_revision (args : Namespace) (meta : Meta) : res unit :=
  let requested := getattr args "expected_revision" VNull in
  if is_null requested then Ok tt
  else
    let* current := item meta "task_revision" in
    raise_if (ne requested current)
      (RuntimeError ("stale revision: expected " +:+ str requested +:+ ", current " +:+ str current)).
(** [if args.expected_revision != meta["task_revision"]: raise ...] *)
Definition require_revision (args : Namespace) (meta : Meta) : res unit :=
  let* expected := attr args "expected_revision" in
  let* current := item meta "task_revision" in
  raise_if (ne expected current)
    (RuntimeError ("stale revision: expected " +:+ str expected +:+ ", current " +:+ str current)).
(** [f"{args.task} is owned by {meta.get('owner') or 'nobody'}"] *)
Definition require_owner (args : Namespace) (meta : Meta) : res unit :=
  let* owner := attr args "owner" in
  let* task := attr args "task" in
  raise_if (ne (get meta "owner") owner)
    (RuntimeError (str task +:+ " is owned by "
      +:+ (if truthy (get meta "owner") then str (get meta "owner") else "nobody"))).
Definition require_no_execution_reservation (meta : Meta) : res unit :=
  raise_if (negb (is_null (get meta "execution_reservation")))
    (RuntimeError "EXECUTION_RECOVERY_REQUIRED: task has a bound execution reservation").

Section host.
  Context `{H : Host}.

Definition dt_now : datetime := utc now.
(** The reservation when it is valid and not yet expired. *)
Definition live_execution_reservation (meta : Meta) : res (option dict) :=
  let reservation := get meta "execution_reservation" in
  let* ok := Envelope.valid_reservation reservation in
  match reservation with
  | VDict d =>
      if ok then
        match parse_iso (str (get d "expires_at")) with
        | Some t => let* live := dt_lt dt_now t in Ok (if live : bool then Some d else None)
        | None => Raise (ValueError "Invalid isoformat string")
        end
      else Ok None
  | _ => Ok None
  end.

Definition claimed_process_identity (args : Namespace) : res value :=
  let pid := getattr args "worker_pid" VNull in
  let start_time := getattr args "worker_start_time" VNull in
  if is_null pid && is_null start_time then Ok VNull
  else
    match pid, start_time with
    | VInt p, VInt t =>
        check raise_if ((p <=? 0) || (t <? 0))
                (RuntimeError "claim worker identity requires positive --worker-pid and --worker-start-time") ;;
        let* started := process_start_time p in
        check raise_if (negb (bool_decide (started = Some t)))
                (RuntimeError "claim worker identity is not a live matching process") ;;
        let* '(boot_digest, pid_namespace) := worker_execution_scope in
        Ok (VDict [("pid", pid); ("start_time", start_time); ("boot_digest", VStr boot_digest);
                   ("pid_namespace", VStr pid_namespace)])
    | _, _ => Raise (RuntimeError
        "claim worker identity requires positive --worker-pid and --worker-start-time")
    end.
Definition require_claimed_worker_absent (meta : Meta) : res unit :=
  let identity := get meta "claim_process" in
  match identity with
  | VDict d =>
      check raise_if (negb (scoped_claim_process identity))
              (RuntimeError "snapshot-less recovery requires a scope-bound claim-time worker identity") ;;
      let* '(boot_digest, pid_namespace) := worker_execution_scope in
      check raise_if (ne (get d "boot_digest") (VStr boot_digest) || ne (get d "pid_namespace") (VStr pid_namespace))
              (RuntimeError "snapshot-less recovery cannot verify the claim execution scope") ;;
      match get d "pid", get d "start_time" with
      | VInt pid, VInt start_time =>
          let* started := process_start_time pid in
          raise_if (bool_decide (started = Some start_time))
            (RuntimeError "former worker process is still alive")
      | _, _ => Raise (RuntimeError
          "snapshot-less recovery requires a scope-bound claim-time worker identity")
      end
  | _ => Raise (RuntimeError "snapshot-less recovery requires a scope-bound claim-time worker identity")
  end.
Definition legacy_recovery_admitted (args : Namespace) (meta : Meta) : res bool :=
  if negb (truthy (getattr args "allow_legacy_without_identity" (VBool false))) then Ok false
  else if has meta "claim_process" then Ok false
  else let* expiry := parse_claim_expiry (get meta "claim_expires") in
       let* live := dt_lt dt_now expiry in Ok (negb live).
Definition attach_claim_process (args : Namespace) : st Meta unit :=
  do smodify (fun meta => dpop meta "claim_process") ;;
  do* identity := slift (fun _ => claimed_process_identity args) in
  if is_null identity then sret tt else smodify (fun meta => dset meta "claim_process" identity).
Definition active_expiry_errors (task_id : string) (expiry : value) : res (list string) :=
  if negb (truthy expiry) then Ok [task_id +:+ ": active without claim"]
  else
    match parse_claim_expiry expiry with
    | Ok t => let* expired := dt_le t dt_now in
              Ok (if expired : bool then [task_id +:+ ": expired claim"] else [])
    | Raise (TypeError _) => Ok [task_id +:+ ": invalid claim expiry"]
    | Raise e => if is_ValueError e then Ok [task_id +:+ ": invalid claim expiry"] else Raise e
    end.

Definition require_active_binding_owner (args : Namespace) (meta : Meta) : res unit :=
  check require_owner args meta ;;
  let* owner := attr args "owner" in
  check require_role_admission (str owner) ;;
  check raise_if (ne (get meta "status") (VStr "in_progress"))
          (RuntimeError "bind-worktree requires an active task") ;;
  let* expiry := catch_value (parse_claim_expiry (get meta "claim_expires"))
                   (RuntimeError "bind-worktree requires an unexpired owner lease") in
  check raise_when (dt_le expiry dt_now) (RuntimeError "bind-worktree requires an unexpired owner lease") ;;
  require_revision args meta.

(** ** Lifecycle of a reservation ([execution_lifecycle.py]) *)

(** [runtime.now()]: the current time in whole seconds *)
Definition now_text : string := now_str now.

(** The checks of [start]: the identifier and the parsed expiry. *)
Definition start_admission (args : Namespace) (meta : Meta) : res (value * datetime) :=
  check require_active_binding_owner args meta ;;
  check raise_if (negb (is_dict (get meta "execution_envelope")))
          (RuntimeError "execution reservation requires a bound execution envelope") ;;
  let* live := live_execution_reservation meta in
  check raise_if (match live with Some _ => true | None => false end)
          (RuntimeError "EXECUTION_IN_PROGRESS: bound task already has a live execution") ;;
  check raise_if (negb (is_null (get meta "execution_reservation")))
          (RuntimeError "EXECUTION_RECOVERY_REQUIRED: expired execution reservation remains") ;;
  let execution_id := getattr args "execution_id" (VStr "") in
  check raise_if (negb (fm (Regex.HEX 32) (str execution_id)))
          (RuntimeError "invalid execution reservation identifier") ;;
  match parse_iso (str (getattr args "execution_expires_at" (VStr ""))) with
  | None => Raise (RuntimeError "invalid execution reservation expiry")
  | Some expires =>
      check raise_when (dt_le expires dt_now)
              (RuntimeError "execution reservation expiry must be in the future") ;;
      Ok (execution_id, expires)
  end.
Definition new_reservation (args : Namespace) (execution_id : value) (expires : datetime) (meta : Meta)
    : res value :=
  let* owner := attr args "owner" in
  let* revision := item meta "task_revision" in
  let* digest := item meta "execution_envelope_digest" in
  let* command_class := attr args "command_class" in
  let* scope := attr args "scope_digest" in
  let* argv := attr args "argv_digest" in
  Ok (VDict [("execution_id", execution_id); ("owner", owner); ("task_revision", revision);
             ("envelope_digest", digest); ("command_class", command_class); ("scope_digest", scope);
             ("argv_digest", argv); ("expires_at", VStr (isoformat (whole_second expires)))]).
Definition start (args : Namespace) : st Meta string :=
  do* a := slift (start_admission args) in
  let '(execution_id, expires) := a in
  do* reservation := slift (new_reservation args execution_id expires) in
  do smodify (fun meta => dset meta "execution_reservation" reservation) ;;
  do* claim_expiry := slift (fun meta => parse_claim_expiry (get meta "claim_expires")) in
  do* earlier := slift (fun _ => dt_lt claim_expiry expires) in
  do (if earlier : bool
      then smodify (fun meta => dset meta "claim_expires" (VStr (isoformat (whole_second expires))))
      else sret tt) ;;
  sret ("Reserved bound execution " +:+ str execution_id +:+ ".").

(** [isinstance(reservation, dict) and reservation.get("execution_id") == args.execution_id] *)
Definition own_reservation (args : Namespace) (meta : Meta) : res dict :=
  match get meta "execution_reservation" with
  | VDict d =>
      let* i := attr args "execution_id" in
      check raise_if (ne (get d "execution_id") i)
              (RuntimeError "execution reservation no longer matches this command") ;;
      Ok d
  | _ => Raise (RuntimeError "execution reservation no longer matches this command")
  end.
Definition finish (args : Namespace) : st Meta string :=
  do* reservation := slift (own_reservation args) in
  do* owner := slift (fun _ => attr args "owner") in
  do slift (fun _ => raise_if (ne (get reservation "owner") owner)
                       (RuntimeError "execution reservation owner does not match")) ;;
  do slift (require_optional_revision args) ;;
  do slift (fun meta => raise_when (py_not (matches reservation (get meta "execution_result")))
                          (RuntimeError "execution finish requires an exact durable result")) ;;
  do smodify (fun meta => dpop meta "execution_reservation") ;;
  do* note := slift (fun _ => attr args "note") in
  sret (str note).
Definition result (args : Namespace) : st Meta string :=
  do* reservation := slift (own_reservation args) in
  do slift (require_optional_revision args) ;;
  do* recorded := slift (fun _ =>
    match build_receipt reservation args with
    | Raise e => if is_ValueError e then Raise (RuntimeError (exn_msg e)) else Raise e
    | Ok r => Ok r
    end) in
  do* i := slift (fun _ => attr args "execution_id") in
  do slift (fun meta => raise_if (eq (get meta "execution_result") (VDict recorded))
      (IdempotentMutationError ("Execution result " +:+ str i +:+ " is already recorded."))) ;;
  do smodify (fun meta => dset meta "execution_result" (VDict recorded)) ;;
  sret ("Recorded execution result " +:+ str i +:+ ".").
(** A valid reservation that has expired. *)
Definition valid_reservation_of (what : string) (meta : Meta) : res dict :=
  let* ok := Envelope.valid_reservation (get meta "execution_reservation") in
  match get meta "execution_reservation" with
  | VDict d => if ok then Ok d else Raise (RuntimeError (what +:+ " requires a valid reservation"))
  | _ => Raise (RuntimeError (what +:+ " requires a valid reservation"))
  end.
Definition require_expired_reservation (meta : Meta) : res unit :=
  let* live := live_execution_reservation meta in
  raise_if (match live with Some _ => true | None => false end)
    (RuntimeError "EXECUTION_IN_PROGRESS: execution reservation has not expired").
Definition recover (args : Namespace) : st Meta string :=
  do slift (require_optional_revision args) ;;
  do* reservation := slift (valid_reservation_of "execution recovery") in
  do slift require_expired_reservation ;;
  do slift require_claimed_worker_absent ;;
  do slift (fun meta => raise_when (py_not (matches reservation (get meta "execution_result")))
     (RuntimeError "EXECUTION_RESULT_UNKNOWN: reservation-specific completion evidence is unavailable")) ;;
  do smodify (fun meta => dpop meta "execution_reservation") ;;
  sret ("Recovered completed execution " +:+ str (get reservation "execution_id") +:+ ".").

Definition _expired_claim (meta : Meta) : res bool :=
  match get meta "claim_expires" with
  | VStr s =>
      if PyStr.truthy s then
        match parse_iso s with
        | None => Ok false
        | Some t => if naive t then Ok false else dt_le t dt_now
        end
      else Ok false
  | _ => Ok false
  end.
(** The checks of [abandon]: the new record and the history it joins. *)
Definition abandon_admission (args : Namespace) (meta : Meta) : res (list value) :=
  check require_optional_revision args meta ;;
  let* reservation := valid_reservation_of "execution abandonment" meta in
  let* i := attr args "execution_id" in
  check raise_if (ne (get reservation "execution_id") i)
          (RuntimeError "execution abandonment reservation identity does not match") ;;
  check require_expired_reservation meta ;;
  let* legacy := py_and [truthy (getattr args "allow_legacy_without_identity" (VBool false));
                         negb (has meta "claim_process"); _expired_claim meta] in
  check (if legacy : bool then Ok tt else require_claimed_worker_absent meta) ;;
  check raise_when (matches reservation (get meta "execution_result"))
          (RuntimeError "execution abandonment rejects a reservation with a durable result") ;;
  let* record := (match build_abandonment reservation args now_text with
                  | Raise e => if is_ValueError e then Raise (RuntimeError (exn_msg e)) else Raise e
                  | Ok r => Ok r
                  end) in
  let* records := iter (get_or meta "execution_abandonments" (VList [])) in
  check raise_when (py_any (fun r => let* x := vitem r "execution_id" in
                                     Ok (eq x (get record "execution_id"))) records)
          (IdempotentMutationError ("Execution " +:+ str i +:+ " is already abandoned.")) ;;
  let records := records ++ [VDict record] in
  check raise_if (negb (valid_records (VList records)))
          (RuntimeError "execution abandonment history is invalid or full") ;;
  Ok records.
(** [status], [owner], [claim_expires] and [claim_process] of an unclaimed task *)
Definition release_claim (status : value) (meta : Meta) : Meta :=
  dpop (dset (dset (dset meta "status" status) "owner" (VStr "")) "claim_expires" (VStr "")) "claim_process".
Definition abandon (args : Namespace) : st Meta string :=
  do* records := slift (abandon_admission args) in
  do* i := slift (fun _ => attr args "execution_id") in
  do smodify (fun meta => dpop (dset meta "execution_abandonments" (VList records)) "execution_reservation") ;;
  do* previous_owner := slift (fun meta => item meta "owner") in
  do smodify (release_claim (VStr "open")) ;;
  sret ("Abandoned expired execution " +:+ str i +:+ " and recovered claim formerly owned by "
        +:+ str previous_owner +:+ " after local evidence verification.").
End host.

(** ** [legacy_binding_repair.repair] *)
Definition repair (args : Namespace) : st Meta string :=
  do slift (require_revision args) ;;
  do slift (fun meta => raise_when (py_or [py_not (in_set (get meta "status") ["open"; "done"]);
                                           truthy (get meta "owner"); truthy (get meta "claim_expires")])
       (RuntimeError "repair-legacy-binding requires an inactive, unowned task")) ;;
  do slift (fun meta => raise_if (is_s (get meta "status") "open" && truthy (get meta "branch"))
       (RuntimeError "repair-legacy-binding requires an empty legacy branch")) ;;
  do* key := slift (fun _ => attr args "worktree_key") in
  do slift (fun meta => raise_if (ne (get meta "worktree_key") key)
       (RuntimeError "repair-legacy-binding worktree key does not match retained metadata")) ;;
  do* note := slift (fun _ => attr args "note") in
  do slift (fun _ => let* t := vstrip note in
                     raise_if (negb (PyStr.truthy t))
                       (RuntimeError "repair-legacy-binding note must not be empty")) ;;
  do smodify (fun meta => dset meta "worktree_key" (VStr "")) ;;
  sret (str note).

(** ** Lemmas *)
Section proofs.
  Context `{H : Host}.

Lemma catch_value_Ok {A} (m : res A) e a : catch_value m e = Ok a -> m = Ok a.
Proof. unfold catch_value. destruct m as [x|e']; [done|]. by destruct (is_ValueError e'). Qed.

Lemma start_admission_inv args (meta : Meta) i t :
  start_admission args meta = Ok (i, t) ->
  require_active_binding_owner args meta = Ok tt /\ is_dict (get meta "execution_envelope") = true /\
  get meta "execution_reservation" = VNull /\ fm (Regex.HEX 32) (str i) = true /\
  dt_le t dt_now = Ok false.
Proof.
  unfold start_admission. intros Hs. repeat (inv_step; cbv beta zeta in * ).
  destruct (parse_iso _) as [x|] eqn:Ex; [|discriminate]. repeat inv_step. subst.
  split_and!; try done; [by destruct r | by destruct (get meta "execution_reservation")].
Qed.

Lemma start_inv args (meta meta' : Meta) msg :
  start args meta = (meta', Ok msg) ->
  exists i t reservation claim earlier, start_admission args meta = Ok (i, t) /\
    new_reservation args i t meta = Ok reservation /\
    parse_claim_expiry (get meta "claim_expires") = Ok claim /\ dt_lt claim t = Ok earlier /\
    let m1 := dset meta "execution_reservation" reservation in
    meta' = if earlier : bool
            then dset m1 "claim_expires" (VStr (isoformat (whole_second t))) else m1.
Proof.
  unfold start. intros Hs. apply sbind_Ok_inv in Hs as ([i t] & m1 & E & Hs).
  apply slift_Ok_inv in E as [-> E]. apply sbind_Ok_inv in Hs as (res & m1 & E1 & Hs).
  apply slift_Ok_inv in E1 as [-> E1]. repeat (inv_step; cbv beta zeta in * ).
  match goal with
  | Hc : parse_claim_expiry _ = Ok ?c, Hl : dt_lt ?c t = Ok ?l |- _ =>
      rewrite get_dset in Hc; cbn [String.eqb Ascii.eqb Bool.eqb] in Hc; exists i, t, res, c, l;
      split_and!; try done; destruct l; by repeat inv_step
  end.
Qed.

Lemma dpop_get (meta : Meta) k k' : k <> k' -> get (dpop meta k) k' = get meta k'.
Proof. intros Hk. rewrite get_dpop. by destruct (String.eqb_spec k k'). Qed.
Lemma dset_get (meta : Meta) k k' v : k <> k' -> get (dset meta k v) k' = get meta k'.
Proof. intros Hk. rewrite get_dset. by destruct (String.eqb_spec k k'). Qed.

Lemma py_not_false c : py_not c = Ok false -> c = Ok true.
Proof. unfold py_not. destruct c as [[]|]; by intros. Qed.

Lemma finish_inv args (meta meta' : Meta) msg :
  finish args meta = (meta', Ok msg) ->
  exists d, get meta "execution_reservation" = VDict d /\
    matches d (get meta "execution_result") = Ok true /\ meta' = dpop meta "execution_reservation".
Proof.
  unfold finish. intros Hs. repeat (inv_step; cbv beta zeta in * ).
  unfold own_reservation in *. destruct (get meta "execution_reservation") as [| | | | |d] eqn:Er; try discriminate.
  repeat inv_step. subst.
  match goal with Hm : py_not (matches ?x _) = Ok false |- _ =>
    exists x; split_and!; try done; by apply py_not_false end.
Qed.

Lemma valid_reservation_of_inv what (meta : Meta) d :
  valid_reservation_of what meta = Ok d -> get meta "execution_reservation" = VDict d.
Proof.
  unfold valid_reservation_of. intros Hv. apply rbind_Ok_inv in Hv as (ok & _ & Hv).
  destruct (get meta "execution_reservation"); try discriminate. destruct ok; congruence.
Qed.
Lemma require_expired_inv (meta : Meta) u :
  require_expired_reservation meta = Ok u -> live_execution_reservation meta = Ok None.
Proof.
  unfold require_expired_reservation. intros Hv. apply rbind_Ok_inv in Hv as (l & Hl & Hv).
  destruct l; [discriminate | done].
Qed.

Lemma execution_recover_inv args (meta meta' : Meta) msg :
  recover args meta = (meta', Ok msg) ->
  exists d, get meta "execution_reservation" = VDict d /\ live_execution_reservation meta = Ok None /\
    matches d (get meta "execution_result") = Ok true /\ require_claimed_worker_absent meta = Ok tt /\
    meta' = dpop meta "execution_reservation".
Proof.
  unfold recover. intros Hs. repeat (inv_step; cbv beta zeta in * ).
  repeat match goal with u : unit |- _ => destruct u end.
  match goal with Hv : valid_reservation_of _ _ = Ok ?x, Hx : require_expired_reservation _ = _ |- _ =>
    apply valid_reservation_of_inv in Hv; apply require_expired_inv in Hx; exists x end.
  split_and!; try done. by apply py_not_false.
Qed.

Lemma abandon_inv args (meta meta' : Meta) msg :
  abandon args meta = (meta', Ok msg) ->
  exists d record records, get meta "execution_reservation" = VDict d /\
    live_execution_reservation meta = Ok None /\
    matches d (get meta "execution_result") = Ok false /\
    build_abandonment d args now_text = Ok record /\
    valid_records (VList (records ++ [VDict record])) = true /\
    iter (get_or meta "execution_abandonments" (VList [])) = Ok records /\
    meta' = release_claim (VStr "open")
      (dpop (dset meta "execution_abandonments" (VList (records ++ [VDict record]))) "execution_reservation").
Proof.
  unfold abandon. intros Hs. apply sbind_Ok_inv in Hs as (all & m1 & Ha & Hs).
  apply slift_Ok_inv in Ha as [-> Ha]. repeat (inv_step; cbv beta zeta in * ). clear E E1.
  unfold abandon_admission in Ha. apply rbind_Ok_inv in Ha as ([] & _ & Ha).
  apply rbind_Ok_inv in Ha as (d & Hd & Ha). apply rbind_Ok_inv in Ha as (i & _ & Ha).
  apply rbind_Ok_inv in Ha as ([] & _ & Ha). apply rbind_Ok_inv in Ha as ([] & Hx & Ha).
  apply rbind_Ok_inv in Ha as (legacy & _ & Ha). apply rbind_Ok_inv in Ha as ([] & _ & Ha).
  apply rbind_Ok_inv in Ha as ([] & Hm & Ha). apply rbind_Ok_inv in Ha as (record & Hb & Ha).
  apply rbind_Ok_inv in Ha as (records & Hr & Ha). apply rbind_Ok_inv in Ha as ([] & _ & Ha).
  apply rbind_Ok_inv in Ha as ([] & Hv & Ha). injection Ha as <-.
  apply valid_reservation_of_inv in Hd. apply require_expired_inv in Hx.
  apply raise_when_Ok in Hm. apply raise_if_Ok, negb_false_iff in Hv.
  destruct (build_abandonment d args now_text) as [r'|e] eqn:Eb; [|by destruct (is_ValueError e)].
  injection Hb as ->. exists d, record, records. by split_and!.
Qed.

Lemma result_inv args (meta meta' : Meta) msg :
  result args meta = (meta', Ok msg) ->
  exists d recorded, get meta "execution_reservation" = VDict d /\ build_receipt d args = Ok recorded /\
    meta' = dset meta "execution_result" (VDict recorded).
Proof.
  unfold result. intros Hs. repeat (inv_step; cbv beta zeta in * ).
  unfold own_reservation in *. destruct (get meta "execution_reservation") as [| | | | |d] eqn:Er; try discriminate.
  repeat inv_step. subst.
  match goal with Hb : match build_receipt ?x args with _ => _ end = Ok ?y |- _ =>
    destruct (build_receipt x args) as [b|e] eqn:Eb; [|by destruct (is_ValueError e)];
    injection Hb as ->; exists x, y; by split_and! end.
Qed.

(** The five operations on a task's reservation. *)
Inductive operation : Type := Start | Finish | Result | Recover | Abandon.
Definition run (o : operation) (args : Namespace) : st Meta string :=
  match o with
  | Start => start args | Finish => finish args | Result => result args
  | Recover => recover args | Abandon => abandon args
  end.
Definition reservation_of (meta : Meta) : value := get meta "execution_reservation".
Definition abandonments (meta : Meta) : res (list value) :=
  iter (get_or meta "execution_abandonments" (VList [])).

(** C11: A task has at most one reservation, and it ends only with evidence: a
    second start is refused while one is recorded, live or expired; every
    other operation either leaves the reservation untouched or removes it, and
    it removes it only when the recorded result matches its execution, owner,
    envelope and arguments, or - once it has expired, without such a result -
    by appending a valid abandonment record with its digest. *)
Theorem reservation_ends_with_evidence o args (meta meta' : Meta) msg d :
  run o args meta = (meta', Ok msg) -> reservation_of meta = VDict d ->
  o <> Start /\
  (reservation_of meta' = VDict d \/
   (reservation_of meta' = VNull /\
    (matches d (get meta "execution_result") = Ok true \/
     (live_execution_reservation meta = Ok None /\ matches d (get meta "execution_result") = Ok false /\
      exists record records, abandonments meta = Ok records /\
        abandonments meta' = Ok (records ++ [VDict record]) /\ valid_abandonment (VDict record) = true /\
        get record "reservation_digest" = VStr (reservation_digest d))))).
Proof.
  unfold reservation_of. intros Hr Hd. destruct o; cbn [run] in Hr; split; try done.
  - exfalso. apply start_inv in Hr as (i & t & r & c & l & Ha & _).
    apply start_admission_inv in Ha as (_ & _ & Hn & _). congruence.
  - exfalso. apply start_inv in Hr as (i & t & r & c & l & Ha & _).
    apply start_admission_inv in Ha as (_ & _ & Hn & _). congruence.
  - right. apply finish_inv in Hr as (d' & Hd' & Hm & ->). rewrite Hd in Hd'. injection Hd' as <-.
    rewrite get_dpop. split; [done | by left].
  - left. apply result_inv in Hr as (d' & r & _ & _ & ->). by rewrite dset_get.
  - right. apply execution_recover_inv in Hr as (d' & Hd' & _ & Hm & _ & ->). rewrite Hd in Hd'. injection Hd' as <-.
    rewrite get_dpop. split; [done | by left].
  - right. apply abandon_inv in Hr as (d' & record & records & Hd' & Hl & Hm & Hb & Hv & Hrec & ->).
    rewrite Hd in Hd'. injection Hd' as <-.
    split; [unfold release_claim; by rewrite dpop_get, !dset_get, get_dpop by done|]. right.
    split_and!; [done..|]. exists record, records. split_and!; [done | | |].
    + unfold abandonments, release_claim, get_or.
      by rewrite dget_dpop_ne, !dget_dset_ne, dget_dpop_ne, dget_dset_eq by done.
    + cbn in Hv. apply andb_true_iff in Hv as [Hv _]. apply andb_true_iff in Hv as [_ Hv].
      rewrite forallb_app in Hv. apply andb_true_iff in Hv as [_ Hv]. cbn [forallb] in Hv.
      by apply andb_true_iff in Hv as [Hv _].
    + unfold build_abandonment in Hb. repeat inv_step. done.
Qed.

Lemma py_all_matched (d r : dict) :
  (forall k, k ∈ MATCHED_FIELDS -> exists x y, item r k = Ok x /\ item d k = Ok y /\ eq x y = true) ->
  py_all (fun k => let* x := item r k in let* y := item d k in Ok (eq x y)) MATCHED_FIELDS = Ok true.
Proof.
  intros Hk. apply py_all_true, list.Forall_forall. intros k Hin.
  destruct (Hk k Hin) as (x & y & -> & -> & He). cbn. by rewrite He.
Qed.

(** The receipt [build_receipt] returns is the one [matches] asks for. *)
Lemma build_receipt_matches d args recorded i o :
  build_receipt d args = Ok recorded -> wf (VDict d) = true ->
  attr args "execution_id" = Ok (VStr i) -> attr args "owner" = Ok (VStr o) ->
  matches d (VDict recorded) = Ok true /\ get d "owner" = VStr o /\ get d "execution_id" = VStr i.
Proof.
  unfold build_receipt. intros Hb Hwf Hi Ho. rewrite Hi, Ho in Hb. cbn [rbind] in Hb.
  apply rbind_Ok_inv in Hb as ([] & H1%raise_if_Ok & Hb).
  apply rbind_Ok_inv in Hb as ([] & H2%raise_if_Ok & Hb).
  apply rbind_Ok_inv in Hb as (env & Henv & Hb). apply rbind_Ok_inv in Hb as (argv & Hargv & Hb).
  apply rbind_Ok_inv in Hb as (c & _ & Hb). apply rbind_Ok_inv in Hb as (rc & _ & Hb).
  apply rbind_Ok_inv in Hb as (at_ & _ & Hb). cbv zeta in Hb.
  apply rbind_Ok_inv in Hb as ([] & Hv%raise_when_Ok & Hb). injection Hb as <-.
  apply ne_false, eq_str in H1. apply ne_false, eq_str in H2. split; [|done].
  unfold matches. rewrite (py_not_false _ Hv). cbn [rbind]. apply py_all_matched.
  assert (forall k v, get d k = VStr v -> item d k = Ok (VStr v)) as Hitem.
  { intros k v. unfold get, get_or, item. destruct (dget d k); congruence. }
  intros k. unfold MATCHED_FIELDS. rewrite !elem_of_cons.
  intros [->|[->|[->|[->|Hn]]]]; [..|by apply not_elem_of_nil in Hn].
  - exists (VStr i), (VStr i). split_and!; [done | by apply Hitem | apply String.eqb_refl].
  - exists (VStr o), (VStr o). split_and!; [done | by apply Hitem | apply String.eqb_refl].
  - exists env, env. split_and!; [done | done | apply eq_wf_refl, (wf_dget d "envelope_digest"); [done|]].
    by apply item_dget.
  - exists argv, argv. split_and!; [done | done | apply eq_wf_refl, (wf_dget d "argv_digest"); [done|]].
    by apply item_dget.
Qed.

(** A recorded result closes the loop: after [result] succeeds for an
    execution, [finish] by the same owner for the same execution succeeds
    (with no stale expected revision), and removes the reservation and nothing
    else. *)
Theorem result_enables_finish args fin (meta meta' : Meta) msg d i o note :
  result args meta = (meta', Ok msg) -> reservation_of meta = VDict d -> wf (VDict d) = true ->
  attr args "execution_id" = Ok (VStr i) -> attr args "owner" = Ok (VStr o) ->
  attr fin "execution_id" = Ok (VStr i) -> attr fin "owner" = Ok (VStr o) ->
  attr fin "note" = Ok note -> require_optional_revision fin meta' = Ok tt ->
  finish fin meta' = (dpop meta' "execution_reservation", Ok (str note)).
Proof.
  unfold reservation_of. intros Hr Hd Hwf Hi Ho Hi' Ho' Hn Hrev.
  apply result_inv in Hr as (d' & recorded & Hd' & Hb & ->). rewrite Hd in Hd'. injection Hd' as <-.
  edestruct (build_receipt_matches d args recorded) as (Hm & Hown & Hid); [done..|].
  unfold finish, sbind, slift, own_reservation, smodify, sret.
  rewrite dset_get, Hd, Hi' by done. cbn [rbind]. rewrite Hid. unfold ne at 1.
  rewrite eq_wf_refl by done. cbn [negb raise_if rbind]. rewrite Ho', Hown. unfold ne.
  rewrite eq_wf_refl by done. cbn [negb raise_if rbind]. rewrite Hrev.
  rewrite get_dset. cbn [String.eqb Ascii.eqb Bool.eqb]. rewrite Hm. cbn. by rewrite Hn.
Qed.
End proofs.

(** ** Witnesses *)
Module Sample.
(** 2026-01-02T00:00:00Z; the former worker is gone from the recorded scope. *)
#[export] Instance host : Host := {|
  now := 63902908800000000;
  process_start_time _ := Ok None;
  worker_execution_scope := Ok (PyJson.sha256 "boot", "4:4026531836");
  require_role_admission _ := Ok tt |}.
Definition reservation : dict := [
  ("execution_id", VStr "0123456789abcdef0123456789abcdef"); ("owner", VStr "ann");
  ("task_revision", VInt 3); ("envelope_digest", VStr (PyJson.sha256 "envelope"));
  ("command_class", VStr "test"); ("scope_digest", VStr (PyJson.sha256 "scope"));
  ("argv_digest", VStr (Sha256.Sha256.hexdigest "argv"));
  ("expires_at", VStr "2026-01-01T00:00:00+00:00")].
Definition task : Meta := [
  ("id", VStr "AR-0001"); ("status", VStr "in_progress"); ("owner", VStr "ann");
  ("task_revision", VInt 3); ("claim_expires", VStr "2026-01-01T00:00:00+00:00");
  ("claim_process", VDict [("pid", VInt 7); ("start_time", VInt 11);
     ("boot_digest", VStr (PyJson.sha256 "boot")); ("pid_namespace", VStr "4:4026531836")]);
  ("execution_reservation", VDict reservation)].
Definition abandon_args : Namespace := [
  ("execution_id", VStr "0123456789abcdef0123456789abcdef"); ("evidence_ref", VStr "evidence/log");
  ("evidence_digest", VStr (PyJson.sha256 "log"))].
Definition abandoned : Meta := fst (run Abandon abandon_args task).
End Sample.
#[local] Existing Instance Sample.host.

Lemma reservation_ends_with_evidence_witness :
  exists d, reservation_of Sample.task = VDict d /\ reservation_of Sample.abandoned = VNull /\
    exists record records, abandonments Sample.task = Ok records /\
      abandonments Sample.abandoned = Ok (records ++ [VDict record]) /\
      get record "reservation_digest" = VStr (reservation_digest d).
Proof.
  exists Sample.reservation. split; [reflexivity|].
  edestruct (reservation_ends_with_evidence Abandon Sample.abandon_args Sample.task Sample.abandoned)
    as [_ [Hn|[Hn [Hm|(_ & _ & record & records & H1 & H2 & _ & H3)]]]];
    [vm_compute; reflexivity | reflexivity | vm_compute in Hn; discriminate Hn | vm_compute in Hm; discriminate Hm |].
  split; [exact Hn|]. exists record, records. split; [exact H1|]. split; [exact H2 | exact H3].
Defined.

Definition sample_result_args : Namespace := [
  ("execution_id", VStr "0123456789abcdef0123456789abcdef"); ("owner", VStr "ann");
  ("classification", VStr "EXIT"); ("returncode", VInt 0);
  ("recorded_at", VStr "2026-01-01T00:00:00+00:00"); ("note", VStr "done")].
Definition sample_recorded : Meta := fst (result sample_result_args Sample.task).

Lemma result_enables_finish_witness :
  finish sample_result_args sample_recorded = (dpop sample_recorded "execution_reservation", Ok "done").
Proof.
  apply (result_enables_finish sample_result_args sample_result_args Sample.task sample_recorded
    "Recorded execution result 0123456789abcdef0123456789abcdef." Sample.reservation
    "0123456789abcdef0123456789abcdef" "ann" (VStr "done")); vm_compute; reflexivity.
Defined.

End Execution.
