(* ===== verification/Journal.v ===== *)
(** * Bounded JSON-lines journals

    What the session, checkpoint, directive and rollback journals share: a
    journal is the list of its lines, each the canonical JSON of one exact-shape
    record; appending validates the record and the lines, and keeps the newest
    ones.  The atomic replacement of the file is one new list. *)
From Stdlib Require Import Sorted.
From S2P Require Import Prelude PyStr Regex PyVal PyJson JsonParse.

Module Journal.
Import Py.

(** A record as it reads back: its keys sorted, at every level. *)
Definition canon_items (d : dict) : dict :=
  PyJson.sort_items (map (fun kv => (kv.1, PyJson.canon kv.2)) d).
Definition encode (r : dict) : string := PyJson.dumps (VDict r).

(** [[validate(json.loads(line)) for line in lines]]; [what] names the record
    in the error. *)
Fixpoint decode_lines (what : string) (validate : dict -> res unit) (number : Z) (lines : list string)
    : res (list dict) :=
  match lines with
  | [] => Ok []
  | line :: rest =>
      match JsonParse.loads line with
      | Some (VDict d) =>
          check validate d ;;
          let* ds := decode_lines what validate (number + 1) rest in
          Ok (d :: ds)
      | _ => Raise (ValueError ("invalid " +:+ what +:+ " line " +:+ PyStr.of_Z number))
      end
  end.

(** ** Canonical records *)
Lemma canon_dict d : PyJson.canon (VDict d) = VDict (canon_items d).
Proof. done. Qed.

Lemma canon_items_perm d : canon_items d ≡ₚ map (fun kv => (kv.1, PyJson.canon kv.2)) d.
Proof. apply JsonParse.sort_items_perm. Qed.
Lemma canon_items_keys d : keys (canon_items d) ≡ₚ keys d.
Proof. unfold keys. by rewrite canon_items_perm, map_map. Qed.
Lemma wf_NoDup d : wf (VDict d) = true -> NoDup (keys d).
Proof. cbn. intros [H _]%andb_true_iff. by apply bool_decide_eq_true in H. Qed.

Lemma dget_canon d k : NoDup (keys d) -> dget (canon_items d) k = PyJson.canon <$> dget d k.
Proof.
  intros Hn. assert (NoDup (keys (canon_items d))) as Hn' by (by rewrite canon_items_keys).
  destruct (dget d k) as [v|] eqn:E; cbn.
  - apply dget_elem; [done|]. rewrite canon_items_perm. apply dget_in in E.
    apply list_elem_of_In, in_map_iff. exists (k, v). split; [done | by apply list_elem_of_In].
  - destruct (dget (canon_items d) k) as [w|] eqn:E'; [|done]. exfalso.
    assert (k ∈ keys (canon_items d)) as Hk by (apply has_elem; unfold has; by rewrite E').
    rewrite canon_items_keys in Hk. apply has_elem in Hk. unfold has in Hk. by rewrite E in Hk.
Qed.
Lemma get_canon d k : NoDup (keys d) -> get (canon_items d) k = PyJson.canon (get d k).
Proof. intros Hn. unfold get, get_or. rewrite dget_canon by done. by destruct (dget d k). Qed.
Lemma item_canon d k v : NoDup (keys d) -> item d k = Ok v -> item (canon_items d) k = Ok (PyJson.canon v).
Proof. intros Hn H%item_dget. unfold item. by rewrite dget_canon, H. Qed.
Lemma keys_are_canon d ks : keys_are (canon_items d) ks = keys_are d ks.
Proof. apply Bool.eq_iff_eq_true. rewrite !keys_are_spec. setoid_rewrite canon_items_keys. done. Qed.
Lemma int_item_canon d k z : NoDup (keys d) -> int_item d k = Ok z -> int_item (canon_items d) k = Ok z.
Proof.
  unfold int_item. intros Hn H. apply rbind_Ok_inv in H as (v & E & H).
  rewrite (item_canon _ _ _ Hn E). cbn. by destruct v.
Qed.

Lemma is_str_canon v : is_str (PyJson.canon v) = is_str v.
Proof. by destruct v. Qed.
Lemma truthy_canon v : truthy (PyJson.canon v) = truthy v.
Proof.
  destruct v as [| | | |[]|d]; try done. rewrite canon_dict. cbn [truthy].
  destruct d as [|kv d]; [done|]. pose proof (Permutation_length (canon_items_perm (kv :: d))) as H.
  by destruct (canon_items (kv :: d)).
Qed.
Lemma is_s_canon v s : is_s (PyJson.canon v) s = is_s v s.
Proof. by destruct v. Qed.
Lemma is_z_canon v z : is_z (PyJson.canon v) z = is_z v z.
Proof. by destruct v. Qed.
Lemma map_canon_strs l : forallb is_str l = true -> map PyJson.canon l = l.
Proof.
  induction l as [|v l IH]; [done|]. cbn. intros [Hv Hl]%andb_true_iff. rewrite IH by done.
  by destruct v.
Qed.
Lemma in_set_canon v ss : in_set (PyJson.canon v) ss = in_set v ss.
Proof. by destruct v. Qed.
Lemma type_int_canon v : type_int (PyJson.canon v) = type_int v.
Proof. by destruct v. Qed.
Lemma strs_canon l :
  forallb (fun v => is_str v && truthy v) (map PyJson.canon l) = forallb (fun v => is_str v && truthy v) l.
Proof. induction l as [|v l IH]; [done|]. cbn. by rewrite is_str_canon, truthy_canon, IH. Qed.
(** Field tests that only look at a string or an integer. *)
Lemma str_field_canon (f : string -> bool) v :
  match PyJson.canon v with VStr s => f s | _ => false end = match v with VStr s => f s | _ => false end.
Proof. by destruct v. Qed.
Lemma int_field_canon (f : Z -> bool) v :
  match PyJson.canon v with VInt z => f z | _ => false end = match v with VInt z => f z | _ => false end.
Proof. by destruct v. Qed.

Lemma str_eq_canon v w s : w = VStr s -> ne (PyJson.canon v) (PyJson.canon w) = ne v w.
Proof. intros ->. by destruct v. Qed.
Lemma int_eq_canon v w z : w = VInt z -> ne (PyJson.canon v) (PyJson.canon w) = ne v w.
Proof. intros ->. by destruct v. Qed.

(** Printing a canonical record prints the record. *)
Definition item_le (x y : string * value) : Prop := String.leb x.1 y.1 = true.
Lemma insert_item_sorted kv d : Sorted item_le d -> Sorted item_le (PyJson.insert_item kv d).
Proof.
  induction 1 as [|x d Hd IH Hx]; cbn; [by repeat constructor|].
  destruct (String.leb kv.1 x.1) eqn:E; [by repeat constructor|].
  constructor; [done|]. destruct (String.leb_total x.1 kv.1) as [Ht|Ht]; [|congruence].
  destruct d as [|y d]; cbn; [by constructor|]. destruct (String.leb kv.1 y.1); [by constructor|].
  by inversion Hx; constructor.
Qed.
Lemma sort_items_sorted d : Sorted item_le (PyJson.sort_items d).
Proof. induction d as [|x d IH]; [constructor|]. by apply insert_item_sorted. Qed.
Lemma sort_items_id d : Sorted item_le d -> PyJson.sort_items d = d.
Proof.
  unfold PyJson.sort_items. induction 1 as [|x d Hd IH Hx]; [done|]. cbn [foldr]. rewrite IH.
  destruct Hx as [|y d Hy]; [done|]. cbn. by rewrite Hy.
Qed.
Lemma map_snd_sort (f : value -> value) d :
  map (fun kv => (kv.1, f kv.2)) (PyJson.sort_items d)
  = PyJson.sort_items (map (fun kv => (kv.1, f kv.2)) d).
Proof.
  unfold PyJson.sort_items. induction d as [|x d IH]; [done|]. cbn [foldr map]. rewrite <- IH.
  generalize (foldr PyJson.insert_item [] d) as e. induction e as [|y e IHe]; [done|].
  cbn. destruct (String.leb x.1 y.1); [done|]. cbn. by rewrite IHe.
Qed.
Lemma canon_idem v : PyJson.canon (PyJson.canon v) = PyJson.canon v.
Proof.
  induction v as [|b|z|s|l IH|d IH] using value_ind'; try done; cbn.
  - f_equal. rewrite map_map. apply map_ext_in. intros x Hx. rewrite list.Forall_forall in IH.
    apply IH. by apply list_elem_of_In.
  - f_equal. rewrite map_snd_sort, map_map. cbn.
    rewrite (sort_items_id (PyJson.sort_items _)) by apply sort_items_sorted.
    f_equal. apply map_ext_in. intros x Hx. rewrite list.Forall_forall in IH.
    f_equal. apply IH. by apply list_elem_of_In.
Qed.
Lemma encode_canon d : encode (canon_items d) = encode d.
Proof. unfold encode, PyJson.dumps. by rewrite <- canon_dict, canon_idem. Qed.

(** ** Decoding what was encoded *)
Definition sound (validate : dict -> res unit) (d : dict) : Prop :=
  wf (VDict d) = true /\ validate d = Ok tt.

Lemma loads_encode d : wf (VDict d) = true -> JsonParse.loads (encode d) = Some (VDict (canon_items d)).
Proof. intros H. unfold encode. by rewrite JsonParse.loads_dumps. Qed.

Lemma decode_encoded what validate n rs :
  (forall d, sound validate d -> validate (canon_items d) = Ok tt) -> Forall (sound validate) rs ->
  decode_lines what validate n (map encode rs) = Ok (map canon_items rs).
Proof.
  intros Hc Hrs. revert n. induction Hrs as [|d rs Hd Hrs IH]; intros n; [done|].
  cbn [map decode_lines]. rewrite loads_encode by apply Hd. rewrite Hc by done. cbn. by rewrite IH.
Qed.
Lemma decode_sound what validate n lines ds :
  decode_lines what validate n lines = Ok ds -> Forall (sound validate) ds.
Proof.
  revert n ds. induction lines as [|line lines IH]; intros n ds H; cbn [decode_lines] in H.
  { injection H as <-. constructor. }
  destruct (JsonParse.loads line) as [[| | | | |d]|] eqn:E; try discriminate.
  apply rbind_Ok_inv in H as ([] & Hv & H). apply rbind_Ok_inv in H as (ds' & Hd & H).
  injection H as <-. constructor; [|by eapply IH]. split; [|done].
  by eapply JsonParse.loads_wf.
Qed.


(** Keeping the newest records of a valid journal. *)
Lemma decode_kept what validate number n old record :
  (forall d, sound validate d -> validate (canon_items d) = Ok tt) ->
  Forall (sound validate) old -> sound validate record ->
  decode_lines what validate number (map encode (last_n n (old ++ [record])))
  = Ok (map canon_items (last_n n (old ++ [record]))).
Proof.
  intros Hc Ho Hr. apply decode_encoded; [done|]. unfold last_n. apply Forall_drop, Forall_app.
  split; [done | by apply Forall_singleton].
Qed.
Lemma kept_bound n old record (canon : dict -> dict) :
  Nat.ltb n (length (map canon (last_n n (old ++ [record])))) = false.
Proof. apply Nat.ltb_ge. rewrite length_map. apply last_n_length. Qed.
End Journal.
