(* ===== verification/Sessions.v ===== *)
(** * Session journal ([session_records.py])

    What a task was doing when it was last updated, run or paused. *)
From S2P Require Import Prelude PyStr Regex PyVal Sha256 PyJson JsonParse Journal.

Module Sessions.
Import Py.
Definition fm := Regex.fullmatch.
Definition SESSION_SCHEMA_VERSION : Z := 1.
Definition MAX_SESSION_RECORDS : nat := 32.
Definition MAX_SESSION_BYTES : Z := 4096.
Definition SESSION_FIELDS : list string :=
  ["schema_version"; "task"; "task_revision"; "recorded_at"; "trigger"; "status"; "context_digest";
   "step_state"; "artifact_refs"; "next_action"].
Definition TRIGGERS : list string := ["update"; "run"; "pause"].
Definition TASK_ID := Regex.TASK.
Definition DIGEST := Regex.DIGEST.

Definition nonempty (v : value) : option string :=
  match v with VStr s => if PyStr.truthy s then Some s else None | _ => None end.
Definition ref_of (prefix : string) (v : value) : list string :=
  match nonempty v with Some s => [prefix +:+ s] | None => [] end.
Definition _ledger_artifact_refs (ledger : value) : res (list string) :=
  match ledger with
  | VDict d =>
      let* steps := iter (get_or d "steps" (VList [])) in
      Ok (ref_of "candidate:" (get d "candidate_ref")
          ++ omap (fun s => match s with
                            | VDict x => match get x "evidence_ref" with
                                         | VStr e => Some ("evidence:" +:+ e) | _ => None end
                            | _ => None
                            end) steps)
  | _ => Ok []
  end.
Definition evidence_ref (v : value) : list string :=
  match v with VDict a => ref_of "evidence:" (get a "evidence_ref") | _ => [] end.
Definition git_ref (v : value) : list string :=
  match v with VStr s => if fm (Regex.HEX 40) s then ["git:" +:+ s] else [] | _ => [] end.
Definition _artifact_refs (meta : Meta) : res (list string) :=
  let* ledger := _ledger_artifact_refs (get meta "evidence_ledger") in
  Ok (take 8 (PyStr.dedup
    (ref_of "spec:" (get meta "spec_ref") ++ ref_of "envelope:" (get meta "execution_envelope_ref")
     ++ evidence_ref (get meta "spec_acceptance") ++ ledger ++ git_ref (get meta "checkpoint_commit")))).

Definition _validate_header (d : dict) : res unit :=
  check raise_if (negb (keys_are d SESSION_FIELDS)) (ValueError "session record fields are not exact") ;;
  check raise_if (negb (type_int (get d "schema_version") && is_z (get d "schema_version") SESSION_SCHEMA_VERSION))
          (ValueError "unsupported session record schema") ;;
  check raise_if (negb match get d "task" with VStr s => fm TASK_ID s | _ => false end)
          (ValueError "invalid session record task") ;;
  check raise_if (negb match get d "task_revision" with VInt r => 1 <=? r | _ => false end)
          (ValueError "invalid session record revision") ;;
  check raise_if (negb (is_str (get d "recorded_at") && truthy (get d "recorded_at")))
          (ValueError "invalid session record timestamp") ;;
  check raise_when (py_not (in_set (get d "trigger") TRIGGERS)) (ValueError "invalid session record trigger") ;;
  check raise_if (negb (is_str (get d "status") && truthy (get d "status")))
          (ValueError "invalid session record status") ;;
  raise_if (negb match get d "context_digest" with VStr s => fm DIGEST s | _ => false end)
    (ValueError "invalid session context digest").
Definition _validate_state (d : dict) : res unit :=
  match get d "step_state" with
  | VDict s =>
      check raise_if (negb (keys_are s ["status"; "task_revision"]))
              (ValueError "invalid session step state") ;;
      check raise_if (negb match get s "task_revision" with VInt r => 1 <=? r | _ => false end)
              (ValueError "invalid session step revision") ;;
      check raise_if (ne (get s "status") (get d "status"))
              (ValueError "session step status differs from record status") ;;
      raise_if (ne (get s "task_revision") (get d "task_revision"))
        (ValueError "session step revision differs from record revision")
  | _ => Raise (ValueError "invalid session step state")
  end.
Definition _validate_payload (d : dict) : res unit :=
  check raise_if (negb match get d "artifact_refs" with
                       | VList l => Nat.leb (length l) 8
                           && forallb (fun v => is_str v && truthy v) l
                       | _ => false
                       end) (ValueError "invalid session artifact refs") ;;
  check raise_if (negb match get d "next_action" with
                       | VStr s => negb (PyStr.has_char "010" s) && (PyStr.len s <=? 1024)
                       | _ => false
                       end) (ValueError "invalid session next action") ;;
  raise_if (MAX_SESSION_BYTES <? PyStr.len (PyJson.dumps (VDict d)))
    (ValueError "session record exceeds bounded size").
Definition validate_session_record (d : dict) : res unit :=
  check _validate_header d ;;
  check _validate_state d ;;
  _validate_payload d.

Definition session_context (meta : Meta) : value := VDict [
  ("task", get meta "id"); ("branch", get_or meta "branch" (VStr ""));
  ("worktree_key", get_or meta "worktree_key" (VStr "")); ("spec_ref", get_or meta "spec_ref" (VStr ""));
  ("spec_revision", get_or meta "spec_revision" (VInt 0));
  ("execution_envelope_ref", get_or meta "execution_envelope_ref" (VStr ""));
  ("execution_envelope_revision", get_or meta "execution_envelope_revision" (VInt 0));
  ("execution_envelope_digest", get_or meta "execution_envelope_digest" (VStr ""))].
Definition build_session_record (meta : Meta) (trigger : string) (recorded_at : string) : res dict :=
  check raise_if (negb (PyStr.mem trigger TRIGGERS)) (ValueError "unknown session trigger") ;;
  let* id := item meta "id" in
  let* revision := int_item meta "task_revision" in
  let* status := item meta "status" in
  let* refs := _artifact_refs meta in
  let record := [
    ("schema_version", VInt SESSION_SCHEMA_VERSION); ("task", VStr (str id));
    ("task_revision", VInt revision); ("recorded_at", VStr recorded_at); ("trigger", VStr trigger);
    ("status", VStr (str status)); ("context_digest", VStr (PyJson.digest (session_context meta)));
    ("step_state", VDict [("status", VStr (str status)); ("task_revision", VInt revision)]);
    ("artifact_refs", strs refs); ("next_action", VStr (str (get_or meta "next_action" (VStr ""))))] in
  check validate_session_record record ;;
  Ok record.


(** One line of a history bound to [task]; [seen] are the revisions before it. *)
Definition decode_session_line (task : option string) (number : Z) (seen : list Z) (line : string)
    : res (dict * Z) :=
  let bad := ValueError ("invalid session record line " +:+ PyStr.of_Z number) in
  match JsonParse.loads line with
  | Some (VDict d) =>
      check validate_session_record d ;;
      check raise_if (match task with Some t => ne (get d "task") (VStr t) | None => false end)
              (ValueError ("session record task differs from history at line " +:+ PyStr.of_Z number)) ;;
      let* revision := int_item d "task_revision" in
      check raise_if (existsb (Z.eqb revision) seen)
              (ValueError ("duplicate session revision at line " +:+ PyStr.of_Z number)) ;;
      Ok (d, revision)
  | _ => Raise bad
  end.
Fixpoint decode_session_from (task : option string) (number : Z) (seen : list Z) (lines : list string)
    : res (list dict) :=
  match lines with
  | [] => Ok []
  | line :: rest =>
      let* '(d, revision) := decode_session_line task number seen line in
      let* ds := decode_session_from task (number + 1) (revision :: seen) rest in
      Ok (d :: ds)
  end.
(** The file's lines, and the task its history is bound to. *)
Definition decode_session_lines (lines : list string) (task : option string) : res (list dict) :=
  check raise_if (Nat.ltb MAX_SESSION_RECORDS (length lines))
          (ValueError "session history exceeds bounded retention") ;;
  check raise_if (match task with Some t => negb (fm TASK_ID t) | None => false end)
          (ValueError "invalid expected session task") ;;
  decode_session_from task 1 [] lines.
(** The lines written: the newest records, each canonically printed. *)
Definition append_session_record (lines : list string) (record : dict) : res (list string) :=
  check validate_session_record record ;;
  let* task := item record "task" in
  let* records := decode_session_lines lines (Some (str task)) in
  check raise_if (existsb (fun r => eq (get r "task_revision") (get record "task_revision")) records)
          (ValueError "duplicate session revision") ;;
  Ok (map Journal.encode (last_n MAX_SESSION_RECORDS (records ++ [record]))).
Definition latest_session (lines : list string) (task_id : string) : res (option dict) :=
  let* records := decode_session_lines lines (Some task_id) in Ok (last records).

(** ** Reading back what was written *)
Import Journal.
Lemma header_canon d : NoDup (keys d) -> _validate_header (canon_items d) = _validate_header d.
Proof.
  intros Hn. unfold _validate_header. rewrite keys_are_canon, !get_canon by done.
  by rewrite type_int_canon, is_z_canon, (str_field_canon (fm TASK_ID)), (int_field_canon (Z.leb 1)),
    !is_str_canon, !truthy_canon, in_set_canon, (str_field_canon (fm DIGEST)).
Qed.
Lemma header_fields d : _validate_header d = Ok tt ->
  exists task revision status, get d "task" = VStr task /\ fm TASK_ID task = true /\
    get d "task_revision" = VInt revision /\ 1 <= revision /\ get d "status" = VStr status.
Proof.
  unfold _validate_header. intros H. repeat (apply rbind_Ok_inv in H as ([] & ?E%raise_if_Ok & H)
    || apply rbind_Ok_inv in H as ([] & _ & H)).
  repeat match goal with E : negb _ = false |- _ => apply negb_false_iff in E end.
  destruct (get d "task") as [| | |t| |] eqn:E7; try discriminate.
  destruct (get d "task_revision") as [| |r| | |] eqn:E8; try discriminate.
  destruct (get d "status") as [| | |s| |] eqn:E9; try (rewrite andb_false_l in *; discriminate).
  exists t, r, s. by split_and!; [..|apply Z.leb_le|].
Qed.
Lemma state_canon d status revision : wf (VDict d) = true ->
  get d "status" = VStr status -> get d "task_revision" = VInt revision ->
  _validate_state (canon_items d) = _validate_state d.
Proof.
  intros Hw Hs Hr. pose proof (wf_NoDup _ Hw) as Hn. unfold _validate_state. rewrite !get_canon by done.
  destruct (get d "step_state") as [| | | | |s] eqn:E; try done. rewrite canon_dict.
  assert (NoDup (keys s)) as Hns.
  { apply wf_NoDup. eapply (wf_dget d "step_state"); [done|]. unfold get, get_or in E.
    destruct (dget d "step_state"); congruence. }
  rewrite keys_are_canon, !get_canon by done.
  by rewrite (int_field_canon (Z.leb 1)), (str_eq_canon _ _ status), (int_eq_canon _ _ revision).
Qed.
Lemma payload_canon d : NoDup (keys d) -> _validate_payload (canon_items d) = _validate_payload d.
Proof.
  intros Hn. unfold _validate_payload. rewrite !get_canon by done.
  change (PyJson.dumps (VDict (canon_items d))) with (encode (canon_items d)). rewrite encode_canon.
  rewrite (str_field_canon (fun s => negb (PyStr.has_char "010" s) && (PyStr.len s <=? 1024))).
  destruct (get d "artifact_refs") as [| | | |l|]; try done. cbn [PyJson.canon].
  by rewrite length_map, strs_canon.
Qed.
Lemma session_canon d : sound validate_session_record d -> validate_session_record (canon_items d) = Ok tt.
Proof.
  intros [Hw Hv]. pose proof (wf_NoDup _ Hw) as Hn. unfold validate_session_record in *.
  apply rbind_Ok_inv in Hv as ([] & Hh & Hv). pose proof (header_fields _ Hh) as (t & r & s & _ & _ & Hr & _ & Hs).
  by rewrite header_canon, (state_canon d s r), payload_canon, Hh.
Qed.

Definition revision_of (d : dict) : value := get d "task_revision".
(** A history of one task: valid records of distinct revisions. *)
Definition history (task : string) (rs : list dict) : Prop :=
  Forall (sound validate_session_record) rs /\ Forall (fun d => get d "task" = VStr task) rs /\
  NoDup (map revision_of rs).

Lemma sound_revision d : sound validate_session_record d ->
  exists r, revision_of d = VInt r /\ int_item d "task_revision" = Ok r.
Proof.
  intros [_ H]. unfold validate_session_record in H. apply rbind_Ok_inv in H as ([] & H & _).
  apply header_fields in H as (_ & r & _ & _ & _ & E & _). exists r. split; [done|].
  unfold int_item, item. unfold get, get_or in E. destruct (dget d "task_revision"); [|discriminate].
  by rewrite E.
Qed.

Lemma decode_history task number seen rs :
  Forall (sound validate_session_record) rs -> Forall (fun d => get d "task" = VStr task) rs ->
  NoDup (map revision_of rs) -> (forall r, r ∈ seen -> VInt r ∉ map revision_of rs) ->
  decode_session_from (Some task) number seen (map encode rs) = Ok (map canon_items rs).
Proof.
  intros Hs. revert number seen. induction Hs as [|d rs Hd Hs IH]; intros number seen Ht Hn Hseen; [done|].
  apply Forall_cons in Ht as [Ht Hts]. cbn [map] in Hn. apply NoDup_cons in Hn as [Hd' Hn].
  destruct (sound_revision d Hd) as (r & Hr & Hi). pose proof (wf_NoDup _ (proj1 Hd)) as Hk.
  cbn [map decode_session_from]. unfold decode_session_line.
  rewrite loads_encode, session_canon, get_canon, Ht by (done || apply Hd). cbn [rbind PyJson.canon].
  unfold ne. rewrite eq_str_str, String.eqb_refl. cbn [negb raise_if rbind].
  rewrite (int_item_canon d _ r) by done. cbn [rbind].
  replace (existsb (Z.eqb r) seen) with false.
  - cbn [raise_if rbind]. rewrite IH; [done..|]. intros r' Hr'. apply elem_of_cons in Hr' as [->|Hr'].
    + by rewrite <- Hr.
    + intros Hin. apply (Hseen r' Hr'). cbn. apply elem_of_cons. by right.
  - symmetry. apply not_true_iff_false. intros (r' & Hin & ->%Z.eqb_eq)%existsb_exists.
    apply (Hseen r'); [by apply list_elem_of_In|]. cbn. rewrite Hr. apply elem_of_cons. by left.
Qed.

Lemma decode_from_sound task number seen lines rs :
  decode_session_from (Some task) number seen lines = Ok rs ->
  Forall (sound validate_session_record) rs /\ Forall (fun d => get d "task" = VStr task) rs /\
  NoDup (map revision_of rs) /\ (forall r, r ∈ seen -> VInt r ∉ map revision_of rs).
Proof.
  revert number seen rs. induction lines as [|line lines IH]; intros number seen rs H; cbn [decode_session_from] in H.
  { injection H as <-. split_and!; constructor || (intros r _; by apply not_elem_of_nil). }
  apply rbind_Ok_inv in H as ([d r] & Hl & H). apply rbind_Ok_inv in H as (ds & Hd & H). injection H as <-.
  unfold decode_session_line in Hl. destruct (JsonParse.loads line) as [[| | | | |x]|] eqn:E; try discriminate.
  apply rbind_Ok_inv in Hl as ([] & Hv & Hl). apply rbind_Ok_inv in Hl as ([] & Ht%raise_if_Ok & Hl).
  apply rbind_Ok_inv in Hl as (r' & Hr & Hl). apply rbind_Ok_inv in Hl as ([] & Hx%raise_if_Ok & Hl).
  injection Hl as -> ->. apply IH in Hd as (H1 & H2 & H3 & H4).
  assert (sound validate_session_record d) as Hs by (split; [by eapply JsonParse.loads_wf | done]).
  destruct (sound_revision d Hs) as (r'' & Hrev & Hi). rewrite Hr in Hi. injection Hi as <-.
  cbn [map]. rewrite Hrev. split_and!.
  - by constructor.
  - constructor; [by apply eq_str, ne_false | done].
  - constructor; [|done]. apply H4, elem_of_cons. by left.
  - intros q Hq Hin. apply elem_of_cons in Hin as [[= ->]|Hin].
    + apply not_true_iff_false in Hx. apply Hx, existsb_exists. exists r.
      split; [by apply list_elem_of_In | apply Z.eqb_refl].
    + apply (H4 q); [apply elem_of_cons; by right | done].
Qed.

Lemma history_last_n n task rs : history task rs -> history task (last_n n rs).
Proof.
  intros (H1 & H2 & H3). unfold last_n. split_and!; [by apply Forall_drop..|].
  rewrite <- skipn_map. by eapply sublist_NoDup, sublist_drop.
Qed.

Lemma append_inv lines record lines' :
  append_session_record lines record = Ok lines' -> wf (VDict record) = true ->
  exists task old, get record "task" = VStr task /\ fm TASK_ID task = true /\
    decode_session_lines lines (Some task) = Ok old /\ history task (old ++ [record]) /\
    lines' = map encode (last_n MAX_SESSION_RECORDS (old ++ [record])).
Proof.
  unfold append_session_record. intros H Hw. apply rbind_Ok_inv in H as ([] & Hv & H).
  assert (sound validate_session_record record) as Hs by done.
  unfold validate_session_record in Hv. apply rbind_Ok_inv in Hv as ([] & Hh & _).
  apply header_fields in Hh as (task & r & s & Ht & Htask & Hr & _ & _).
  apply rbind_Ok_inv in H as (v & Hi & H). apply item_get in Hi. rewrite Ht in Hi. subst v.
  apply rbind_Ok_inv in H as (old & Hold & H). apply rbind_Ok_inv in H as ([] & Hdup%raise_if_Ok & H).
  injection H as <-. cbn [str] in Hold. exists task, old. split_and!; [done..| |done].
  unfold decode_session_lines in Hold. apply rbind_Ok_inv in Hold as ([] & _ & Ho).
  apply rbind_Ok_inv in Ho as ([] & _ & Ho). apply decode_from_sound in Ho as (H1 & H2 & H3 & _).
  split_and!; [by apply Forall_app; split; [|by apply Forall_singleton]..|].
  rewrite map_app. apply NoDup_app. split_and!; [done | | by apply NoDup_singleton].
  intros x Hx ->%list_elem_of_singleton. apply not_true_iff_false in Hdup. apply Hdup, existsb_exists.
  apply list_elem_of_In, in_map_iff in Hx as (y & Hy & Hin). exists y. split; [done|].
  unfold revision_of in Hy. rewrite Hy, Hr. apply Z.eqb_refl.
Qed.
Lemma decode_encoded_history task rs : fm TASK_ID task = true -> history task rs ->
  (length rs <= MAX_SESSION_RECORDS)%nat ->
  decode_session_lines (map encode rs) (Some task) = Ok (map canon_items rs).
Proof.
  intros Ht (H1 & H2 & H3) Hl. unfold decode_session_lines. rewrite length_map.
  replace (Nat.ltb _ _) with false by (symmetry; by apply Nat.ltb_ge). rewrite Ht.
  cbn [negb raise_if rbind]. apply decode_history; [done..|]. by intros ? ?%not_elem_of_nil.
Qed.

(** C37: A session record that is appended can be read back: the journal then
    holds the (canonical) newest records of the old history and the new one
    last, at most [MAX_SESSION_RECORDS] of them, all of the record's task and
    with distinct revisions, and [latest_session] returns the new record. *)
Theorem append_session_roundtrip lines record lines' :
  append_session_record lines record = Ok lines' -> wf (VDict record) = true ->
  exists task old, get record "task" = VStr task /\ decode_session_lines lines (Some task) = Ok old /\
    history task (old ++ [record]) /\
    decode_session_lines lines' (Some task)
      = Ok (map canon_items (last_n MAX_SESSION_RECORDS (old ++ [record]))) /\
    latest_session lines' task = Ok (Some (canon_items record)).
Proof.
  intros H Hw. apply append_inv in H as (task & old & Ht & Htask & Hold & Hist & ->); [|done].
  assert (decode_session_lines (map encode (last_n MAX_SESSION_RECORDS (old ++ [record]))) (Some task)
          = Ok (map canon_items (last_n MAX_SESSION_RECORDS (old ++ [record])))) as Hd
    by (apply decode_encoded_history; [done | by apply history_last_n | apply last_n_length]).
  exists task, old. split_and!; [done..|]. unfold latest_session. rewrite Hd. cbn [rbind].
  destruct (last_n_app_last MAX_SESSION_RECORDS old record) as (l & ->); [vm_compute; lia|].
  rewrite map_app. cbn [map]. by rewrite last_snoc.
Qed.

(** ** Witness *)
Definition sample_task : Meta := [
  ("id", VStr "AR-0001"); ("status", VStr "in_progress"); ("task_revision", VInt 3);
  ("spec_ref", VStr "specs/one"); ("next_action", VStr "write the parser")].
Definition sample_record : dict :=
  match build_session_record sample_task "pause" "2026-01-01T00:00:00+00:00" with
  | Ok d => d | Raise _ => [] end.
Definition sample_lines : list string :=
  match append_session_record [] sample_record with Ok l => l | Raise _ => [] end.

Lemma append_session_roundtrip_witness :
  exists task old, get sample_record "task" = VStr task /\
    decode_session_lines [] (Some task) = Ok old /\
    latest_session sample_lines task = Ok (Some (canon_items sample_record)).
Proof.
  destruct (append_session_roundtrip [] sample_record sample_lines) as (task & old & H1 & H2 & _ & _ & H3);
    [vm_compute; reflexivity | vm_compute; reflexivity |].
  exists task, old. split; [exact H1|]. split; [exact H2 | exact H3].
Defined.
End Sessions.
