(* ===== verification/Checkpoints.v ===== *)
(** * Checkpoint journal ([checkpoint_records.py]) *)
From S2P Require Import Prelude PyStr Regex PyVal Sha256 PyJson JsonParse Journal Sessions.

Module Checkpoints.
Import Py.
Definition fm := Regex.fullmatch.
Definition CHECKPOINT_SCHEMA_VERSION : Z := 1.
Definition MAX_CHECKPOINTS : nat := 16.
Definition TASK_RE := Regex.TASK.
Definition COMMIT_RE := Regex.HEX 40.
Definition REQUIRED : list string :=
  ["schema_version"; "name"; "task"; "task_revision"; "recorded_at"; "source_commit"; "state";
   "body_digest"; "artifact_refs"].
Definition _artifact_refs (meta : Meta) : list string :=
  take 8 (Sessions.ref_of "spec:" (get meta "spec_ref")
          ++ Sessions.ref_of "envelope:" (get meta "execution_envelope_ref")
          ++ Sessions.evidence_ref (get meta "spec_acceptance")).
(** [f"{task}-r{revision:04d}"] of an integer revision *)
Definition checkpoint_name (task : string) (revision : Z) : string :=
  task +:+ "-r" +:+ PyStr.pad0 4 revision.
Definition build_checkpoint (meta : Meta) (body source_commit recorded_at : string) : res dict :=
  check raise_if (negb (fm COMMIT_RE source_commit))
          (ValueError "checkpoint source commit must be a 40-character hexadecimal commit") ;;
  let task_id := str (get_or meta "id" (VStr "")) in
  check raise_if (negb (fm TASK_RE task_id)) (ValueError "invalid checkpoint task") ;;
  let* revision := int_item meta "task_revision" in
  Ok [("schema_version", VInt CHECKPOINT_SCHEMA_VERSION);
      ("name", VStr (checkpoint_name task_id revision)); ("task", VStr task_id);
      ("task_revision", VInt revision); ("recorded_at", VStr recorded_at);
      ("source_commit", VStr source_commit); ("state", VDict meta);
      ("body_digest", VStr (Sha256.Sha256.hexdigest body)); ("artifact_refs", strs (_artifact_refs meta))].

(** [f"{v:04d}"]: an integer (or boolean) only. *)
Definition format_04d (v : value) : res string :=
  match v with
  | VInt z => Ok (PyStr.pad0 4 z)
  | VBool b => Ok (PyStr.pad0 4 (if b then 1 else 0))
  | VStr _ => Raise (ValueError "Unknown format code 'd' for object of type 'str'")
  | _ => Raise (TypeError ("unsupported format string passed to " +:+ type_name v +:+ ".__format__"))
  end.
Definition _validate_checkpoint_identity (d : dict) : res unit :=
  check raise_if (negb (keys_are d REQUIRED)) (ValueError "invalid checkpoint fields") ;;
  check raise_if (negb (is_z (get d "schema_version") CHECKPOINT_SCHEMA_VERSION))
          (ValueError "unsupported checkpoint schema") ;;
  match get d "task" with
  | VStr task =>
      check raise_if (negb (fm TASK_RE task)) (ValueError "invalid checkpoint task") ;;
      check raise_when (py_or [negb (is_str (get d "name"));
                               (let* r := format_04d (get d "task_revision") in
                                Ok (negb (is_s (get d "name") (task +:+ "-r" +:+ r))))])
              (ValueError "invalid checkpoint name") ;;
      check raise_if (negb match get d "task_revision" with VInt r => 1 <=? r | _ => false end)
              (ValueError "invalid checkpoint revision") ;;
      check raise_if (negb match get d "source_commit" with VStr s => fm COMMIT_RE s | _ => false end)
              (ValueError "invalid checkpoint source commit") ;;
      raise_if (negb match get d "state" with VDict s => is_s (get s "id") task | _ => false end)
        (ValueError "invalid checkpoint state")
  | _ => Raise (ValueError "invalid checkpoint task")
  end.
Definition _validate_checkpoint_content (d : dict) : res unit :=
  check raise_if (negb (is_str (get d "recorded_at") && truthy (get d "recorded_at")))
          (ValueError "invalid checkpoint timestamp") ;;
  check raise_if (negb match get d "body_digest" with VStr s => fm (Regex.HEX 64) s | _ => false end)
          (ValueError "invalid checkpoint body digest") ;;
  raise_if (negb match get d "artifact_refs" with
                 | VList l => Nat.leb (length l) 8 && forallb (fun v => is_str v && truthy v) l
                 | _ => false
                 end) (ValueError "invalid checkpoint artifact refs").
Definition validate_checkpoint (d : dict) : res unit :=
  check _validate_checkpoint_identity d ;;
  _validate_checkpoint_content d.

Definition decode_checkpoints (lines : list string) : res (list dict) :=
  let* records := Journal.decode_lines "checkpoint" validate_checkpoint 1 lines in
  check raise_if (Nat.ltb MAX_CHECKPOINTS (length records))
          (ValueError "checkpoint history exceeds bound") ;;
  Ok records.
Definition append_checkpoint (lines : list string) (record : dict) : res (list string) :=
  check validate_checkpoint record ;;
  let* existing := decode_checkpoints lines in
  Ok (map Journal.encode (last_n MAX_CHECKPOINTS (existing ++ [record]))).

(** ** Reading back what was written *)
Import Journal.
Lemma format_canon v : format_04d (PyJson.canon v) = format_04d v.
Proof. by destruct v. Qed.
Lemma identity_canon d : wf (VDict d) = true ->
  _validate_checkpoint_identity (canon_items d) = _validate_checkpoint_identity d.
Proof.
  intros Hw. pose proof (wf_NoDup _ Hw) as Hn. unfold _validate_checkpoint_identity.
  rewrite keys_are_canon, !get_canon, is_z_canon by done.
  destruct (get d "task") as [| | |task| |]; try done. cbn [PyJson.canon].
  rewrite is_str_canon, format_canon, (int_field_canon (Z.leb 1)), (str_field_canon (fm COMMIT_RE)).
  assert (forall s, is_s (PyJson.canon (get d "name")) s = is_s (get d "name") s) as Hs
    by (intros s; apply is_s_canon).
  destruct (format_04d (get d "task_revision")); cbn [rbind]; rewrite ?Hs;
    (destruct (get d "state") as [| | | | |s] eqn:E; try done; rewrite canon_dict;
     rewrite (get_canon s), is_s_canon; [done|]; apply wf_NoDup, (wf_dget d "state"); [done|];
     unfold get, get_or in E; destruct (dget d "state"); congruence).
Qed.
Lemma content_canon d : NoDup (keys d) ->
  _validate_checkpoint_content (canon_items d) = _validate_checkpoint_content d.
Proof.
  intros Hn. unfold _validate_checkpoint_content. rewrite !get_canon by done.
  rewrite is_str_canon, truthy_canon, (str_field_canon (fm (Regex.HEX 64))).
  destruct (get d "artifact_refs") as [| | | |l|]; try done. cbn [PyJson.canon].
  by rewrite length_map, strs_canon.
Qed.
Lemma checkpoint_canon d : sound validate_checkpoint d -> validate_checkpoint (canon_items d) = Ok tt.
Proof.
  intros [Hw Hv]. unfold validate_checkpoint in *.
  by rewrite identity_canon, content_canon by (done || by apply wf_NoDup).
Qed.

(** A checkpoint that is appended can be read back, last, after the newest
    of the old checkpoints, at most [MAX_CHECKPOINTS] in all. *)
Theorem append_checkpoint_roundtrip lines record lines' :
  append_checkpoint lines record = Ok lines' -> wf (VDict record) = true ->
  exists old kept, decode_checkpoints lines = Ok old /\
    decode_checkpoints lines' = Ok (map canon_items kept ++ [canon_items record]) /\
    kept `suffix_of` old /\ (length kept < MAX_CHECKPOINTS)%nat.
Proof.
  unfold append_checkpoint. intros H Hw. apply rbind_Ok_inv in H as ([] & Hv & H).
  apply rbind_Ok_inv in H as (old & Hold & H). injection H as <-.
  pose proof Hold as Hs. unfold decode_checkpoints in Hs. apply rbind_Ok_inv in Hs as (rs & Hs & Hr).
  apply rbind_Ok_inv in Hr as ([] & _ & Hr). injection Hr as ->. apply decode_sound in Hs.
  assert (decode_checkpoints (map encode (last_n MAX_CHECKPOINTS (old ++ [record])))
          = Ok (map canon_items (last_n MAX_CHECKPOINTS (old ++ [record])))) as Hd.
  { unfold decode_checkpoints. rewrite decode_kept by (done || apply checkpoint_canon). cbn [rbind].
    by rewrite kept_bound. }
  destruct (last_n_snoc MAX_CHECKPOINTS old record) as (kept & E & Hk & Hl); [vm_compute; lia|].
  rewrite E, (map_app canon_items) in Hd. rewrite E. exists old, kept. by split_and!.
Qed.

(** ** Witness *)
Definition sample_meta : Meta := [
  ("id", VStr "AR-0001"); ("task_revision", VInt 3); ("spec_ref", VStr "specs/one")].
Definition sample_commit : string := "0123456789abcdef0123456789abcdef01234567".
Definition sample_checkpoint : dict :=
  match build_checkpoint sample_meta "body" sample_commit "2026-01-01T00:00:00+00:00" with
  | Ok d => d | Raise _ => [] end.
Definition sample_lines : list string :=
  match append_checkpoint [] sample_checkpoint with Ok l => l | Raise _ => [] end.

Lemma append_checkpoint_roundtrip_witness :
  exists old kept, decode_checkpoints [] = Ok old /\
    decode_checkpoints sample_lines = Ok (map canon_items kept ++ [canon_items sample_checkpoint]).
Proof.
  destruct (append_checkpoint_roundtrip [] sample_checkpoint sample_lines) as (old & kept & H1 & H2 & _);
    [vm_compute; reflexivity | vm_compute; reflexivity |].
  exists old, kept. split; [exact H1 | exact H2].
Defined.
End Checkpoints.
