(* ===== verification/Directives.v ===== *)
(** * Directive journal ([directive_records.py])

    User directives with their scope, precedence and revisions. *)
From Stdlib Require Import Sorted.
From stdpp Require Import gmap.
From S2P Require Import Prelude PyStr Regex PyVal PyJson JsonParse Journal.

Module Directives.
Import Py.
Definition fm := Regex.fullmatch.
Definition SCHEMA_VERSION : Z := 1.
Definition MAX_DIRECTIVES : nat := 64.
Definition DIRECTIVE_RE : Regex.re := Regex.cat (Regex.lit "UD-") (Regex.rep 4 (Regex.RChar Regex.digit)).
Definition TASK_RE := Regex.TASK.
Definition REF_RE : Regex.re :=
  Regex.cat (Regex.RChar Regex.alnum)
    (Regex.between 2 127 (Regex.RChar (Regex.union Regex.alnum (Regex.one_of "._/-")))).
Definition GUIDANCE_RE : Regex.re := Regex.lit "AR-0053".
Definition LIFECYCLES : list string := ["proposed"; "active"; "superseded"; "revoked"; "escalated"].
Definition REQUIRED : list string :=
  ["schema_version"; "directive_id"; "authority"; "precedence"; "scope"; "statement"; "lifecycle";
   "revision"; "owner"; "claim_expires"; "guidance_ref"; "created_at"; "updated_at"].

Definition _scope_list (l : list value) (pattern : Regex.re) (label : string) : res (list string) :=
  check raise_if (negb (forallb is_str l)) (ValueError ("invalid directive " +:+ label +:+ " scope")) ;;
  let strings := map str l in
  check raise_if (negb (Nat.eqb (length (PyStr.dedup strings)) (length strings)))
          (ValueError "directive scope contains duplicates") ;;
  check raise_if (negb (forallb (fm pattern) strings))
          (ValueError ("invalid directive " +:+ label +:+ " scope")) ;;
  Ok strings.
(** The normalised scope: its sorted roles and tasks. *)
Record Scope : Type := MkScope { roles : list string; tasks : list string }.
Definition _scope (v : value) : res Scope :=
  match v with
  | VDict d =>
      check raise_if (negb (keys_are d ["roles"; "tasks"]))
              (ValueError "directive scope must contain roles and tasks") ;;
      match get d "roles", get d "tasks" with
      | VList rs, VList ts =>
          check raise_if (match rs, ts with [], [] => true | _, _ => false end)
                  (ValueError "directive scope must target a role or task") ;;
          let* rs := _scope_list rs REF_RE "role" in
          let* ts := _scope_list ts TASK_RE "task" in
          Ok (MkScope (PyStr.sort rs) (PyStr.sort ts))
      | _, _ => Raise (ValueError "directive scope values must be lists")
      end
  | _ => Raise (ValueError "directive scope must contain roles and tasks")
  end.
Definition scope_value (s : Scope) : value :=
  VDict [("roles", strs (roles s)); ("tasks", strs (tasks s))].

Definition _validate_identity (d : dict) : res unit :=
  check raise_if (negb (keys_are d REQUIRED) || negb (is_z (get d "schema_version") SCHEMA_VERSION))
          (ValueError "invalid directive fields") ;;
  check raise_if (negb match get d "directive_id" with VStr s => fm DIRECTIVE_RE s | _ => false end)
          (ValueError "invalid directive id") ;;
  check raise_if (negb match get d "authority" with VStr s => fm REF_RE s | _ => false end)
          (ValueError "invalid directive authority") ;;
  check raise_if (negb match get d "precedence" with VInt p => 1 <=? p | _ => false end)
          (ValueError "invalid directive precedence") ;;
  let* _ := _scope (get d "scope") in Ok tt.
Definition _validate_statement (v : value) : res unit :=
  raise_if (negb match v with
                 | VStr s => PyStr.truthy (PyStr.strip s) && negb (PyStr.has_char "010" s)
                             && (PyStr.len s <=? 4096)
                 | _ => false
                 end) (ValueError "invalid directive statement").
Definition _validate_owner (v : value) : res unit :=
  raise_if (negb match v with VStr s => negb (PyStr.truthy s) || fm REF_RE s | _ => false end)
    (ValueError "invalid directive owner").
Definition _validate_lease (v : value) : res unit :=
  raise_if (negb (is_str v)) (ValueError "invalid directive lease").
Definition _validate_guidance (v : value) : res unit :=
  raise_if (negb match v with VStr s => negb (PyStr.truthy s) || fm GUIDANCE_RE s | _ => false end)
    (ValueError "invalid directive guidance reference").
Definition _validate_timestamps (d : dict) : res unit :=
  foldM (fun _ field => raise_if (negb (is_str (get d field) && truthy (get d field)))
                          (ValueError ("invalid directive " +:+ field)))
    tt ["created_at"; "updated_at"].
Definition _validate_content (d : dict) : res unit :=
  check _validate_statement (get d "statement") ;;
  check raise_when (py_not (in_set (get d "lifecycle") LIFECYCLES)) (ValueError "invalid directive lifecycle") ;;
  check raise_if (negb match get d "revision" with VInt r => 1 <=? r | _ => false end)
          (ValueError "invalid directive revision") ;;
  check _validate_owner (get d "owner") ;;
  check _validate_lease (get d "claim_expires") ;;
  check _validate_guidance (get d "guidance_ref") ;;
  _validate_timestamps d.
Definition validate_directive (d : dict) : res unit :=
  check _validate_identity d ;;
  _validate_content d.
Definition build_directive (directive_id : string) (authority precedence scope statement : value)
    (recorded_at : value) (owner claim_expires lifecycle revision guidance_ref : value) : res dict :=
  check raise_if (negb (fm DIRECTIVE_RE directive_id)) (ValueError "invalid directive id") ;;
  let* s := _scope scope in
  let record := [
    ("schema_version", VInt SCHEMA_VERSION); ("directive_id", VStr directive_id);
    ("authority", authority); ("precedence", precedence); ("scope", scope_value s);
    ("statement", match statement with VStr t => VStr (PyStr.strip t) | v => v end);
    ("lifecycle", lifecycle); ("revision", revision); ("owner", owner);
    ("claim_expires", claim_expires); ("guidance_ref", guidance_ref);
    ("created_at", recorded_at); ("updated_at", recorded_at)] in
  check validate_directive record ;;
  Ok record.

Definition decode_directives (lines : list string) : res (list dict) :=
  let* records := Journal.decode_lines "directive" validate_directive 1 lines in
  check raise_if (Nat.ltb MAX_DIRECTIVES (length records)) (ValueError "directive journal exceeds bound") ;;
  Ok records.
(** The latest record per identifier; revisions must increase. *)
Definition latest_step (latest : gmap string dict) (d : dict) : res (gmap string dict) :=
  let id := str (get d "directive_id") in
  let* revision := int_item d "revision" in
  check (match latest !! id with
         | Some current => let* r := int_item current "revision" in
             raise_if (revision <=? r) (ValueError "directive revisions are not strictly increasing")
         | None => Ok tt
         end) ;;
  Ok (<[id := d]> latest).
Definition latest_of (records : list dict) : res (gmap string dict) := foldM latest_step ∅ records.
Definition latest_directives (lines : list string) : res (list dict) :=
  let* records := decode_directives lines in
  let* latest := latest_of records in
  Ok (omap (fun id => latest !! id) (PyStr.sort (map fst (map_to_list latest)))).
Definition append_directive (lines : list string) (record : dict) : res (list string) :=
  check validate_directive record ;;
  let* existing := decode_directives lines in
  let same := List.filter (fun r => eq (get r "directive_id") (get record "directive_id")) existing in
  check (match last same with
         | Some previous =>
             let* r := int_item record "revision" in
             let* p := int_item previous "revision" in
             raise_if (negb (r =? p + 1)) (ValueError "directive revision is not the next CAS revision")
         | None => Ok tt
         end) ;;
  Ok (map Journal.encode (last_n MAX_DIRECTIVES (existing ++ [record]))).

Definition overlap (l m : list string) : bool := existsb (fun x => PyStr.mem x m) l.
Definition scopes_overlap (left right : dict) : res bool :=
  let* first := _scope (get left "scope") in
  let* second := _scope (get right "scope") in
  Ok (overlap (roles first) (roles second) || overlap (tasks first) (tasks second)).
Definition conflicting_directives (records : list dict) (candidate : dict) : res (list dict) :=
  filterr (fun record => py_and [
      is_s (get record "lifecycle") "active";
      (let* p := int_item record "precedence" in
       let* q := int_item candidate "precedence" in Ok (p =? q));
      ne (get record "directive_id") (get candidate "directive_id");
      scopes_overlap record candidate;
      ne (get record "statement") (get candidate "statement")]) records.
(** Insertion by [(-precedence, directive_id)], the earlier record first on ties. *)
Definition before (x y : Z * string * dict) : bool :=
  let '(p, i, _) := x in let '(q, j, _) := y in (q <? p) || ((p =? q) && String.leb i j).
Fixpoint insert_by (x : Z * string * dict) (l : list (Z * string * dict)) : list (Z * string * dict) :=
  match l with
  | [] => [x]
  | y :: l' => if before x y then x :: l else y :: insert_by x l'
  end.
Definition keyed (d : dict) : res (Z * string * dict) :=
  let* p := int_item d "precedence" in Ok (p, str (get d "directive_id"), d).
Definition applies (role task : string) (d : dict) : res bool :=
  if is_s (get d "lifecycle") "active" then
    let* s := _scope (get d "scope") in
    Ok ((PyStr.truthy role && PyStr.mem role (roles s)) || (PyStr.truthy task && PyStr.mem task (tasks s)))
  else Ok false.
Definition applicable_directives (records : list dict) (role task : string) : res (list dict) :=
  check raise_if (negb (PyStr.truthy role) && negb (PyStr.truthy task))
          (ValueError "directive applicability requires a role or task") ;;
  check raise_if (PyStr.truthy role && negb (fm REF_RE role)) (ValueError "invalid directive role") ;;
  check raise_if (PyStr.truthy task && negb (fm TASK_RE task)) (ValueError "invalid directive task") ;;
  let* selected := filterr (applies role task) records in
  let* ks := mapr keyed selected in
  Ok (map snd (foldr insert_by [] ks)).

(** ** Applicability *)
(** [d] comes before [e]: higher precedence, or the same and a smaller id. *)
Definition ranked (d e : dict) : Prop := exists p q,
  int_item d "precedence" = Ok p /\ int_item e "precedence" = Ok q /\
  (q < p \/ (p = q /\ String.leb (str (get d "directive_id")) (str (get e "directive_id")) = true)).
(** An active directive that names the role or the task. *)
Definition targets (role task : string) (d : dict) : Prop :=
  get d "lifecycle" = VStr "active" /\ exists s, _scope (get d "scope") = Ok s /\
  ((role <> "" /\ role ∈ roles s) \/ (task <> "" /\ task ∈ tasks s)).

Lemma applies_targets role task d : applies role task d = Ok true <-> targets role task d.
Proof.
  unfold applies, targets, is_s. destruct (eq _ _) eqn:E; [apply eq_str in E|].
  - rewrite E. destruct (_scope (get d "scope")) as [s|e]; cbn [rbind].
    + split.
      * intros [= H%orb_true_iff]. split; [done|]. exists s. split; [done|]. rewrite !andb_true_iff in H.
        by rewrite !PyStr.truthy_spec, !PyStr.mem_spec in H.
      * intros (_ & s' & [= <-] & H). f_equal. apply orb_true_iff. rewrite !andb_true_iff.
        by rewrite !PyStr.truthy_spec, !PyStr.mem_spec.
    + split; [discriminate|]. by intros (_ & ? & ? & _).
  - split; [discriminate|]. intros (H & _). apply eq_str in H. congruence.
Qed.

Definition key_le (x y : Z * string * dict) : Prop := before x y = true.
Lemma before_total x y : before x y = false -> before y x = true.
Proof.
  destruct x as [[p i] d], y as [[q j] e]. cbn. rewrite orb_false_iff, andb_false_iff, orb_true_iff, andb_true_iff.
  rewrite !Z.ltb_ge, !Z.ltb_lt, !Z.eqb_eq, Z.eqb_neq. intros [H1 [H2|H2]]; [left; lia|].
  destruct (Z.eq_dec p q) as [->|]; [right | left; lia]. split; [done|].
  destruct (String.leb_total j i); congruence.
Qed.
Lemma insert_by_sorted x l : Sorted key_le l -> Sorted key_le (insert_by x l).
Proof.
  induction 1 as [|y l Hl IH Hy]; cbn; [by repeat constructor|].
  destruct (before x y) eqn:E; [by repeat constructor|]. apply before_total in E.
  constructor; [done|]. destruct l as [|z l]; cbn; [by constructor|]. destruct (before x z); [by constructor|].
  by inversion Hy; constructor.
Qed.
Lemma insert_by_perm x l : insert_by x l ≡ₚ x :: l.
Proof.
  induction l as [|y l IH]; cbn; [done|]. destruct (before x y); [done|]. rewrite IH. apply Permutation_swap.
Qed.
Lemma sort_by_spec l : Sorted key_le (foldr insert_by [] l) /\ foldr insert_by [] l ≡ₚ l.
Proof.
  induction l as [|x l [H1 H2]]; cbn [foldr]; [done|]. split; [by apply insert_by_sorted|].
  by rewrite insert_by_perm, H2.
Qed.
(** A keyed record carries its own precedence and identifier. *)
Definition keyed_as (x : Z * string * dict) : Prop :=
  int_item x.2 "precedence" = Ok x.1.1 /\ str (get x.2 "directive_id") = x.1.2.
Lemma mapr_keyed l ks : mapr keyed l = Ok ks -> Forall keyed_as ks /\ map snd ks = l.
Proof.
  revert ks. induction l as [|d l IH]; intros ks H; cbn [mapr] in H; [by injection H as <-|].
  apply rbind_Ok_inv in H as (x & Hx & H). apply rbind_Ok_inv in H as (ys & Hy & H). injection H as <-.
  apply IH in Hy as [H1 H2]. unfold keyed in Hx. apply rbind_Ok_inv in Hx as (p & Hp & Hx). injection Hx as <-.
  split; [by constructor|]. cbn. by rewrite H2.
Qed.
Lemma sorted_ranked ks : Forall keyed_as ks -> Sorted key_le ks -> Sorted ranked (map snd ks).
Proof.
  intros Hk. induction 1 as [|x ks Hs IH Hx]; [constructor|]. apply Forall_cons in Hk as [K1 K2].
  cbn [map]. constructor; [by apply IH|]. destruct Hx as [|y l Hxy]; constructor.
  apply Forall_cons in K2 as [[P1 P2] _]. destruct K1 as [Q1 Q2]. exists x.1.1, y.1.1.
  split_and!; [done..|]. rewrite P2, Q2. destruct x as [[p i] d], y as [[q j] e]. cbn in *.
  unfold key_le, before in Hxy. rewrite orb_true_iff, andb_true_iff, Z.ltb_lt, Z.eqb_eq in Hxy. done.
Qed.

(** The directives that apply to a role or task are exactly the active ones
    whose scope names it, each as often as the journal has it, ordered by
    precedence (highest first) and then by identifier. *)
Theorem applicable_directives_exact records role task out :
  applicable_directives records role task = Ok out ->
  (role <> "" \/ task <> "") /\ Sorted ranked out /\
  (forall d, d ∈ out <-> d ∈ records /\ targets role task d) /\
  exists selected, filterr (applies role task) records = Ok selected /\ out ≡ₚ selected.
Proof.
  unfold applicable_directives. intros H. apply rbind_Ok_inv in H as ([] & Ha%raise_if_Ok & H).
  apply rbind_Ok_inv in H as ([] & _ & H). apply rbind_Ok_inv in H as ([] & _ & H).
  apply rbind_Ok_inv in H as (selected & Hs & H). apply rbind_Ok_inv in H as (ks & Hk & H). injection H as <-.
  destruct (mapr_keyed _ _ Hk) as [K1 K2]. destruct (sort_by_spec ks) as [S1 S2].
  assert (map snd (foldr insert_by [] ks) ≡ₚ selected) as Hp by (rewrite S2, K2; done).
  split_and!.
  - rewrite <- !PyStr.truthy_spec. destruct (PyStr.truthy role); [by left|].
    destruct (PyStr.truthy task); [by right | discriminate].
  - apply sorted_ranked; [by rewrite S2 | done].
  - intros d. rewrite Hp, (filterr_elem _ _ _ _ Hs), applies_targets. done.
  - eauto.
Qed.

(** ** Witness *)
Definition sample_directive (id : string) (precedence : Z) (lifecycle : string) : dict :=
  match build_directive id (VStr "owner") (VInt precedence)
          (VDict [("roles", VList []); ("tasks", strs ["AR-0001"])]) (VStr "Prefer small steps.")
          (VStr "2026-01-01T00:00:00+00:00") (VStr "") (VStr "") (VStr lifecycle) (VInt 1) (VStr "") with
  | Ok d => d | Raise _ => []
  end.
Definition sample_journal : list dict :=
  [sample_directive "UD-0001" 1 "active"; sample_directive "UD-0002" 5 "active";
   sample_directive "UD-0003" 9 "revoked"].

Lemma applicable_directives_exact_witness :
  exists out, applicable_directives sample_journal "" "AR-0001" = Ok out /\
    map (fun d => get d "directive_id") out = [VStr "UD-0002"; VStr "UD-0001"] /\ Sorted ranked out.
Proof.
  eexists. split; [vm_compute; reflexivity|]. split; [vm_compute; reflexivity|].
  edestruct (applicable_directives_exact sample_journal "" "AR-0001") as (_ & H & _);
    [vm_compute; reflexivity | exact H].
Defined.
End Directives.
