(* ===== verification/Rollbacks.v ===== *)
(** * Rollback journal ([rollback_records.py]) *)
From S2P Require Import Prelude PyStr Regex PyVal PyJson JsonParse PyUuid Journal Checkpoints.

Module Rollbacks.
Import Py.
Definition fm := Regex.fullmatch.
Definition SCHEMA_VERSION : Z := 1.
Definition MAX_ROLLBACK_RECORDS : nat := 64.
Definition COMMIT_RE := Regex.HEX 40.
Definition CHECKPOINT_RE : Regex.re :=
  Regex.cat Regex.TASK (Regex.cat (Regex.lit "-r") (Regex.rep 4 (Regex.RChar Regex.digit))).
Definition STATUS : list string := ["planned"; "restore_started"; "rollback_completed"; "ambiguous"].
Definition REQUIRED : list string :=
  ["schema_version"; "operation_id"; "checkpoint"; "task"; "source_commit"; "current_commit";
   "rollback_commit"; "recorded_at"; "status"; "revision"].

(** [new_id] is [str(uuid.uuid4())], used without an [operation_id]. *)
Definition build_record (checkpoint : dict) (current_commit recorded_at status : string)
    (operation_id : option string) (new_id rollback_commit : string) (revision : value) : res dict :=
  let checkpoint_name := str (get_or checkpoint "name" (VStr "")) in
  let source_commit := str (get_or checkpoint "source_commit" (VStr "")) in
  let task := str (get_or checkpoint "task" (VStr "")) in
  check raise_if (negb (fm CHECKPOINT_RE checkpoint_name)) (ValueError "invalid rollback checkpoint") ;;
  check raise_if (negb (fm Regex.TASK task)) (ValueError "invalid rollback task") ;;
  check raise_if (negb (fm COMMIT_RE source_commit) || negb (fm COMMIT_RE current_commit))
          (ValueError "invalid rollback commit") ;;
  check raise_if (PyStr.truthy rollback_commit && negb (fm COMMIT_RE rollback_commit))
          (ValueError "invalid rollback result commit") ;;
  check raise_if (negb (PyStr.mem status STATUS)) (ValueError "invalid rollback status") ;;
  check raise_if (negb match revision with VInt r => 1 <=? r | _ => false end)
          (ValueError "invalid rollback revision") ;;
  let* operation := (match operation_id with
                     | Some s => if PyStr.truthy s then
                                   match PyUuid.UUID s with
                                   | Some u => Ok u
                                   | None => Raise (ValueError "invalid rollback operation")
                                   end
                                 else Ok new_id
                     | None => Ok new_id
                     end) in
  Ok [("schema_version", VInt SCHEMA_VERSION); ("operation_id", VStr operation);
      ("checkpoint", VStr checkpoint_name); ("task", VStr task); ("source_commit", VStr source_commit);
      ("current_commit", VStr current_commit); ("rollback_commit", VStr rollback_commit);
      ("recorded_at", VStr recorded_at); ("status", VStr status); ("revision", revision)].
Definition _validate_identity (d : dict) : res unit :=
  check raise_if (negb (keys_are d REQUIRED) || negb (is_z (get d "schema_version") SCHEMA_VERSION))
          (ValueError "invalid rollback fields") ;;
  check raise_if (match PyUuid.UUID (str (get d "operation_id")) with Some _ => false | None => true end)
          (ValueError "invalid rollback operation") ;;
  check raise_if (negb (fm CHECKPOINT_RE (str (get d "checkpoint"))))
          (ValueError "invalid rollback checkpoint") ;;
  check raise_if (negb (fm Regex.TASK (str (get d "task")))) (ValueError "invalid rollback task") ;;
  raise_if (negb (forallb (fun f => match get d f with VStr s => fm COMMIT_RE s | _ => false end)
                    ["source_commit"; "current_commit"])) (ValueError "invalid rollback commit").
Definition _validate_content (d : dict) : res unit :=
  check raise_if (negb match get d "rollback_commit" with
                       | VStr s => negb (PyStr.truthy s) || fm COMMIT_RE s
                       | _ => false
                       end) (ValueError "invalid rollback result commit") ;;
  check raise_if (negb (is_str (get d "recorded_at") && truthy (get d "recorded_at")))
          (ValueError "invalid rollback timestamp") ;;
  check raise_when (py_not (in_set (get d "status") STATUS)) (ValueError "invalid rollback status") ;;
  raise_if (negb match get d "revision" with VInt r => 1 <=? r | _ => false end)
    (ValueError "invalid rollback revision").
Definition validate_record (d : dict) : res unit :=
  check _validate_identity d ;;
  _validate_content d.

Definition decode_records (lines : list string) : res (list dict) :=
  let* records := Journal.decode_lines "rollback" validate_record 1 lines in
  check raise_if (Nat.ltb MAX_ROLLBACK_RECORDS (length records))
          (ValueError "rollback journal exceeds bound") ;;
  Ok records.
Definition append_record (lines : list string) (record : dict) : res (list string) :=
  check validate_record record ;;
  let* existing := decode_records lines in
  Ok (map Journal.encode (last_n MAX_ROLLBACK_RECORDS (existing ++ [record]))).
Definition latest_for_checkpoint (lines : list string) (checkpoint : string) : res (option dict) :=
  let* records := decode_records lines in
  Ok (last (List.filter (fun r => is_s (get r "checkpoint") checkpoint) records)).


(** ** Checkpoints beyond revision 9999 *)
Lemma fm_cat r1 r2 s : fm (Regex.cat r1 r2) s = true ->
  exists s1 s2, s = s1 +:+ s2 /\ Regex.matches r1 s1 /\ Regex.matches r2 s2.
Proof. intros H%Regex.fullmatch_matches%Regex.cat_spec%Regex.matches_cat_inv. exact H. Qed.
Lemma TASK_length s : fm Regex.TASK s = true -> String.length s = 7%nat.
Proof.
  intros (s1 & s2 & -> & H1%Regex.lit_matches & H2)%fm_cat. apply Regex.rep_length in H2 as [H2 _].
  subst. by rewrite JsonParse.length_app_str, H2.
Qed.
Lemma CHECKPOINT_RE_length s : fm CHECKPOINT_RE s = true -> String.length s = 13%nat.
Proof.
  intros (s1 & s2 & -> & H1%Regex.fullmatch_matches%TASK_length & H2)%fm_cat.
  apply Regex.cat_spec, Regex.matches_cat_inv in H2 as (s3 & s4 & -> & H3%Regex.lit_matches & H4).
  apply Regex.rep_length in H4 as [H4 _]. subst. by rewrite !JsonParse.length_app_str, H1, H4.
Qed.
Lemma checkpoint_name_length task r : 10000 <= r ->
  (String.length task + 7 <= String.length (Checkpoints.checkpoint_name task r))%nat.
Proof.
  intros Hr. unfold Checkpoints.checkpoint_name, PyStr.pad0. rewrite !JsonParse.length_app_str.
  pose proof (JsonParse.of_Z_width (Z.abs r) ltac:(lia)) as Hw.
  change (String.length "-r") with 2%nat.
  destruct (Nat.le_gt_cases 5 (String.length (PyStr.of_Z (Z.abs r)))); [lia|]. exfalso.
  assert (10 ^ Z.of_nat (String.length (PyStr.of_Z (Z.abs r))) <= 10 ^ 4) by (apply Z.pow_le_mono_r; lia).
  lia.
Qed.

(** From task revision 10000 on, no rollback of a checkpoint can be recorded:
    the checkpoint's name then has five revision digits, and every rollback
    record of it is refused as having an invalid checkpoint. *)
Theorem wide_revision_not_rolled_back (meta : Meta) body commit at_ checkpoint revision
    current recorded status operation new_id rollback number :
  Checkpoints.build_checkpoint meta body commit at_ = Ok checkpoint ->
  int_item meta "task_revision" = Ok revision -> 10000 <= revision ->
  build_record checkpoint current recorded status operation new_id rollback number
  = Raise (ValueError "invalid rollback checkpoint").
Proof.
  unfold Checkpoints.build_checkpoint. intros H Hr Hge.
  apply rbind_Ok_inv in H as ([] & _ & H). apply rbind_Ok_inv in H as ([] & Ht%raise_if_Ok & H).
  apply negb_false_iff, TASK_length in Ht. rewrite Hr in H. cbn [rbind] in H. injection H as <-.
  unfold build_record.
  assert (forall task rest, str (get_or (("schema_version", VInt Checkpoints.CHECKPOINT_SCHEMA_VERSION)
            :: ("name", VStr (Checkpoints.checkpoint_name task revision)) :: rest) "name" (VStr ""))
          = Checkpoints.checkpoint_name task revision) as -> by done.
  destruct (fm CHECKPOINT_RE _) eqn:E; [|done]. exfalso. apply CHECKPOINT_RE_length in E.
  pose proof (checkpoint_name_length (str (get_or meta "id" (VStr ""))) revision Hge). unfold fm in *. lia.
Qed.

(** ** Witness *)
Definition wide_meta : Meta := [
  ("id", VStr "AR-0001"); ("task_revision", VInt 10000); ("spec_ref", VStr "specs/one")].
Definition wide_checkpoint : dict :=
  match Checkpoints.build_checkpoint wide_meta "body" Checkpoints.sample_commit "2026-01-01T00:00:00+00:00" with
  | Ok d => d | Raise _ => [] end.

Lemma wide_revision_not_rolled_back_witness :
  Checkpoints.validate_checkpoint wide_checkpoint = Ok tt /\
  build_record wide_checkpoint Checkpoints.sample_commit "2026-01-01T00:00:00+00:00" "planned" None
    "00000000-0000-4000-8000-000000000000" "" (VInt 1) = Raise (ValueError "invalid rollback checkpoint").
Proof.
  split; [vm_compute; reflexivity|].
  apply (wide_revision_not_rolled_back wide_meta "body" Checkpoints.sample_commit "2026-01-01T00:00:00+00:00"
           wide_checkpoint 10000); vm_compute; congruence.
Defined.
End Rollbacks.
