(* ===== verification/Autonomy.v ===== *)
(** * Autonomy limits ([autonomy_limits.py])

    The budget ledger of a task ([meta["autonomy_limits"]]), the hold a reached
    budget records, and its disposition.  Loading the tracked policy file
    ([policy], [_tracked]) and measuring the diff ([diff_bytes]) are outside the
    model: a transition gets the selected policy and the measured size. *)
From S2P Require Import Prelude PyStr Regex PyVal PyTime PyJson.

Module Autonomy.
Import Py PyTime.
Definition fm := Regex.fullmatch.
Definition TRIGGERS : list string :=
  ["elapsed-time"; "retry"; "command"; "diff-size"; "cost"; "external-side-effect"].

Definition _timestamp (v : value) : res datetime :=
  match v with
  | VStr s =>
      match parse_iso s with
      | Some t => if naive t then Raise (ValueError "autonomy limit timestamp is invalid")
                  else astimezone_utc t
      | None => Raise (ValueError "autonomy limit timestamp is invalid")
      end
  | _ => Raise (ValueError "autonomy limit timestamp is invalid")
  end.

(** ** Validation of the ledger *)
Definition STATE_FIELDS : list string :=
  ["schema_version"; "policy_digest"; "started_at"; "commands"; "retries"; "cost_units";
   "external_side_effects"; "hold"; "dispositions"].
Definition COUNTERS : list string := ["commands"; "retries"; "cost_units"; "external_side_effects"].
Definition HOLD_FIELDS : list string := ["trigger"; "observed"; "limit"; "held_at"; "task_revision"].
Definition DISPOSITION_FIELDS : list string := ["held_revision"; "task_revision"; "reason"; "recorded_at"].
Definition natural (v : value) : bool := match v with VInt z => 0 <=? z | _ => false end.
Definition valid_counters (d : dict) : bool :=
  forallb (fun k => natural (get d k)) COUNTERS
  && match get d "dispositions" with VList l => Nat.leb (length l) 32 | _ => false end.
Definition valid_hold (hold : value) (revision : value) : res bool :=
  match hold with
  | VNull => Ok true
  | VDict h =>
      py_and [keys_are h HOLD_FIELDS; in_set (get h "trigger") TRIGGERS; type_int (get h "observed");
              type_int (get h "limit"); type_int (get h "task_revision");
              eq (get h "task_revision") revision]
  | _ => Ok false
  end.
Definition valid_reason (s : string) : bool :=
  PyStr.truthy (PyStr.strip s) && (PyStr.len s <=? 500) && negb (PyStr.has_char "010" s).
Definition valid_disposition (v : value) : bool :=
  match v with
  | VDict i => keys_are i DISPOSITION_FIELDS && type_int (get i "held_revision")
      && type_int (get i "task_revision")
      && match get i "reason" with VStr s => valid_reason s | _ => false end
  | _ => false
  end.
Definition valid_dispositions (v : value) : bool :=
  match v with VList l => forallb valid_disposition l | _ => false end.
Definition metadata_error (meta : Meta) : res (option string) :=
  match get meta "autonomy_limits" with
  | VNull => Ok None
  | VDict d =>
      if negb (keys_are d STATE_FIELDS) then Ok (Some "autonomy limits fields are invalid")
      else if negb (is_z (get d "schema_version") 1) || negb (fm Regex.DIGEST (str (get d "policy_digest")))
      then Ok (Some "autonomy limits identity is invalid")
      else match _timestamp (get d "started_at") with
           | Raise e => if is_ValueError e then Ok (Some "autonomy limits start is invalid") else Raise e
           | Ok _ =>
               if negb (valid_counters d) then Ok (Some "autonomy limits counters are invalid")
               else let* hold := valid_hold (get d "hold") (get meta "task_revision") in
                    if negb hold then Ok (Some "autonomy limits hold is invalid")
                    else if negb (valid_dispositions (get d "dispositions"))
                    then Ok (Some "autonomy limits disposition is invalid")
                    else Ok None
           end
  | _ => Ok (Some "autonomy limits fields are invalid")
  end.

(** ** The ledger of a task *)
Definition new_state (selected : dict) (at_ : string) : res dict :=
  let* digest := item selected "digest" in
  Ok [("schema_version", VInt 1); ("policy_digest", digest); ("started_at", VStr at_);
      ("commands", VInt 0); ("retries", VInt 0); ("cost_units", VInt 0);
      ("external_side_effects", VInt 0); ("hold", VNull); ("dispositions", VList [])].
(** Stores a fresh ledger when there is none; a ledger that is no valid one of
    the selected policy is refused.  The dictionary returned is the one stored. *)
Definition _state (selected : dict) (at_ : string) : st Meta dict :=
  do* stored := slift (fun meta => Ok (get meta "autonomy_limits")) in
  do (if is_null stored
      then do* fresh := slift (fun _ => new_state selected at_) in
           smodify (fun meta => dset meta "autonomy_limits" (VDict fresh))
      else sret tt) ;;
  slift (fun meta =>
    let* error := metadata_error meta in
    let mismatch := RuntimeError "AUTONOMY_LIMIT_POLICY_MISMATCH: durable policy identity is invalid" in
    match error, get meta "autonomy_limits" with
    | None, VDict d =>
        let* p := item d "policy_digest" in
        let* q := item selected "digest" in
        check raise_if (ne p q) mismatch ;;
        Ok d
    | _, _ => Raise mismatch
    end).

(** [int(td.total_seconds())]: whole seconds, towards zero *)
Definition elapsed_seconds (later earlier : datetime) : Z :=
  Z.quot (instant later - instant earlier) second.
Record Breach : Type := MkBreach { trigger : string; observed : Z; limit : Z }.
(** Trigger, budget name and observed value, in the order they are tested. *)
Definition budgets (state : dict) (elapsed diff_bytes : Z) : list (string * string * value) :=
  [("elapsed-time", "max_elapsed_seconds", VInt elapsed); ("retry", "max_retries", get state "retries");
   ("command", "max_commands", get state "commands"); ("diff-size", "max_diff_bytes", VInt diff_bytes);
   ("cost", "max_cost_units", get state "cost_units");
   ("external-side-effect", "max_external_side_effects", get state "external_side_effects")].
(** The policy's budgets are integers ([policy] checks them). *)
Fixpoint first_breach (selected : dict) (bs : list (string * string * value)) : option Breach :=
  match bs with
  | [] => None
  | (t, name, seen) :: bs' =>
      match dget selected name, seen with
      | Some (VInt l), VInt o => if l <=? o then Some (MkBreach t o l) else first_breach selected bs'
      | _, _ => first_breach selected bs'
      end
  end.
Definition _breach (state selected : dict) (at_ : string) (diff_bytes : Z) : res (option Breach) :=
  let* a := _timestamp (VStr at_) in
  let* started := item state "started_at" in
  let* s := _timestamp started in
  Ok (first_breach selected (budgets state (elapsed_seconds a s) diff_bytes)).
Definition hold_of (b : Breach) (at_ : string) (revision : Z) : value :=
  VDict [("trigger", VStr (trigger b)); ("observed", VInt (observed b)); ("limit", VInt (limit b));
         ("held_at", VStr at_); ("task_revision", VInt (revision + 1))].
Definition breach_note (b : Breach) : string :=
  "Autonomy limit hold recorded: " +:+ trigger b +:+ " observed=" +:+ PyStr.of_Z (observed b)
  +:+ " limit=" +:+ PyStr.of_Z (limit b) +:+ ".".
Definition write (state : dict) : st Meta unit :=
  smodify (fun meta => dset meta "autonomy_limits" (VDict state)).

(** ** Transitions.  The boolean result of [apply_preflight] is the
    [args.autonomy_limit_held] it sets. *)
Definition apply_preflight (args : Namespace) (selected : option dict) (at_ : string)
    : st Meta (string * bool) :=
  match selected with
  | None => sret ("", false)
  | Some selected =>
      do* state := _state selected at_ in
      do slift (fun _ => let* h := item state "hold" in
           raise_if (negb (is_null h))
             (RuntimeError "AUTONOMY_LIMIT_HOLD: explicit autonomy-limits dispose is required")) ;;
      do* diff := slift (fun _ => int (getattr args "autonomy_diff_bytes" (VInt 0))) in
      do* breach := slift (fun _ => _breach state selected at_ diff) in
      match breach with
      | None => sret ("Autonomy limits admitted.", false)
      | Some b =>
          do* revision := slift (fun meta => int_item meta "task_revision") in
          do write (dset state "hold" (hold_of b at_ revision)) ;;
          sret (breach_note b, true)
      end
  end.

Definition add_to (state : dict) (k : string) (n : Z) : res dict :=
  let* v := item state k in
  match as_Z v with
  | Some z => Ok (dset state k (VInt (z + n)))
  | None => Raise (TypeError ("unsupported operand type(s) for +=: '" +:+ type_name v +:+ "' and 'int'"))
  end.
Definition flag (b : bool) : Z := if b then 1 else 0.
(** One [state[k] += n]: the stored dictionary is updated in place. *)
Definition bump (state : dict) (k : string) (n : Z) : st Meta dict :=
  do* state := slift (fun _ => add_to state k n) in
  do write state ;;
  sret state.
Definition apply_record (args : Namespace) (selected : option dict) (at_ : string) : st Meta string :=
  match selected with
  | None => sret ""
  | Some selected =>
      do* state := _state selected at_ in
      let cost := getattr args "cost_units" (VInt 0) in
      do slift (fun _ => raise_if (negb (natural cost)) (RuntimeError "autonomy limits cost units are invalid")) ;;
      do* state := bump state "commands" 1 in
      do* state := bump state "retries" (flag (ne (getattr args "autonomy_returncode" (VInt 0)) (VInt 0))) in
      do* units := slift (fun _ => int cost) in
      do* state := bump state "cost_units" units in
      do* state := bump state "external_side_effects"
        (flag (truthy (getattr args "external_side_effect" (VBool false))
               || is_s (getattr args "command_class" VNull) "git-publication")) in
      do* diff := slift (fun _ => int (getattr args "autonomy_diff_bytes" (VInt 0))) in
      do* breach := slift (fun _ => _breach state selected at_ diff) in
      do* hold := slift (fun _ => item state "hold") in
      match breach, hold with
      | Some b, VNull =>
          do* revision := slift (fun meta => int_item meta "task_revision") in
          do write (dset state "hold" (hold_of b at_ revision)) ;;
          sret (breach_note b)
      | _, _ => sret "Autonomy limits recorded."
      end
  end.

(** The checks of [apply_dispose]: the ledger, the held revision, the reason. *)
Definition dispose_admission (args : Namespace) (meta : Meta) : res (dict * value * string) :=
  let* owner := attr args "owner" in
  check raise_if (ne (get meta "owner") owner || ne (get meta "status") (VStr "in_progress"))
          (RuntimeError "autonomy limits disposition requires the active task owner") ;;
  let* expected := attr args "expected_revision" in
  check raise_if (ne expected (get meta "task_revision"))
          (RuntimeError ("stale revision: expected " +:+ str expected +:+ ", current "
                         +:+ str (get meta "task_revision"))) ;;
  let* error := metadata_error meta in
  match error, get meta "autonomy_limits" with
  | None, VDict state =>
      match get state "hold" with
      | VDict hold =>
          let* held := item hold "task_revision" in
          let* current := item meta "task_revision" in
          check raise_if (ne held current)
                  (RuntimeError "autonomy limits hold is not fenced to the current revision") ;;
          let* reason := attr args "reason" in
          let reason := PyStr.strip (str reason) in
          check raise_if (negb (PyStr.truthy reason) || (500 <? PyStr.len reason) || PyStr.has_char "010" reason)
                  (RuntimeError "autonomy limits disposition reason is invalid") ;;
          Ok (state, held, reason)
      | _ => Raise (RuntimeError "autonomy limits disposition requires a current diagnostic hold")
      end
  | _, _ => Raise (RuntimeError "autonomy limits disposition requires a current diagnostic hold")
  end.
Definition apply_dispose (args : Namespace) (at_ : string) : st Meta string :=
  do* a := slift (dispose_admission args) in
  let '(state, held, reason) := a in
  do* old := slift (fun _ => let* v := item state "dispositions" in iter v) in
  do* revision := slift (fun meta => int_item meta "task_revision") in
  let entry := VDict [("held_revision", held); ("task_revision", VInt (revision + 1));
                      ("reason", VStr reason); ("recorded_at", VStr at_)] in
  do write (dset (dset state "dispositions" (VList (last_n 32 (old ++ [entry])))) "hold" VNull) ;;
  sret "Recorded local autonomy-limit disposition.".

(** The metadata SQLite validates: a copy at the next revision. *)
Definition next_revision_projection (meta : Meta) : res Meta :=
  let* revision := int_item meta "task_revision" in
  Ok (dset meta "task_revision" (VInt (revision + 1))).
Definition carry_run_hold (args : Namespace) (kind : string) : st Meta unit :=
  do* meta := sget in
  match get meta "autonomy_limits" with
  | VDict state =>
      match get state "hold" with
      | VDict hold =>
          if String.eqb kind "update" && is_s (getattr args "_session_trigger" VNull) "run" then
            do* revision := slift (fun meta => int_item meta "task_revision") in
            write (dset state "hold" (VDict (dset hold "task_revision" (VInt (revision + 1)))))
          else sret tt
      | _ => sret tt
      end
  | _ => sret tt
  end.

Section transition.
  (** [runtime.require_active_binding_owner] *)
  Context (admission : Namespace -> Meta -> res unit).
Definition transition (args : Namespace) (selected : option dict) (at_ : string) : st Meta (string * bool) :=
  do* cmd := slift (fun _ => attr args "cmd") in
  if is_s cmd "autonomy-limits" then
    do* note := apply_dispose args at_ in sret (note, false)
  else
    do* phase := slift (fun _ => attr args "_autonomy_limits_phase") in
    do slift (admission args) ;;
    if is_s phase "preflight" then apply_preflight args selected at_
    else do* note := apply_record args selected at_ in sret (note, false).
End transition.


(** ** Valid ledgers *)
Record valid_ledger (d : dict) (revision : value) : Prop := ValidLedger {
  v_fields : keys_are d STATE_FIELDS = true;
  v_version : is_z (get d "schema_version") 1 = true;
  v_digest : fm Regex.DIGEST (str (get d "policy_digest")) = true;
  v_started : exists t, _timestamp (get d "started_at") = Ok t;
  v_counters : valid_counters d = true;
  v_hold : valid_hold (get d "hold") revision = Ok true;
  v_dispositions : valid_dispositions (get d "dispositions") = true;
}.
Lemma metadata_error_none (meta : Meta) d : get meta "autonomy_limits" = VDict d ->
  metadata_error meta = Ok None <-> valid_ledger d (get meta "task_revision").
Proof.
  intros Hd. unfold metadata_error. rewrite Hd. split.
  - intros H. destruct (keys_are d STATE_FIELDS) eqn:E1; [|discriminate]. cbn [negb] in H.
    destruct (_ || _) eqn:E2; [discriminate|]. apply orb_false_iff in E2 as [E2 E3].
    destruct (_timestamp _) as [t|e] eqn:E4; [|by destruct (is_ValueError e)].
    destruct (valid_counters d) eqn:E5; [|discriminate]. cbn [negb] in H.
    apply rbind_Ok_inv in H as (h & E6 & H). destruct h; [|discriminate]. cbn [negb] in H.
    destruct (valid_dispositions _) eqn:E7; [|discriminate].
    split; try done; [by apply negb_false_iff in E2 | by apply negb_false_iff in E3 | by exists t].
  - intros [H1 H2 H3 [t H4] H5 H6 H7]. by rewrite H1, H2, H3, H4, H5, H6, H7.
Qed.
Lemma keys_are_dset d ks k v : k ∈ ks -> keys_are d ks = true -> keys_are (dset d k v) ks = true.
Proof.
  rewrite !keys_are_spec. intros Hk H j. rewrite keys_dset_elem, H. split; [|by right].
  by intros [->|].
Qed.
Lemma counter_nat d k : valid_counters d = true -> k ∈ COUNTERS -> exists z, get d k = VInt z /\ 0 <= z.
Proof.
  unfold valid_counters. intros [H _]%andb_true_iff Hk. rewrite forallb_forall in H.
  specialize (H k ltac:(by apply list_elem_of_In)). destruct (get d k); try discriminate.
  eexists; split; [done | by apply Z.leb_le].
Qed.
Lemma valid_dset_hold d r r' v : valid_ledger d r -> valid_hold v r' = Ok true ->
  valid_ledger (dset d "hold" v) r'.
Proof.
  intros [H1 H2 H3 H4 H5 H6 H7] Hv. split.
  - apply keys_are_dset; [|done]. unfold STATE_FIELDS. rewrite !elem_of_cons. auto 10.
  - by rewrite get_dset.
  - by rewrite get_dset.
  - rewrite get_dset. exact H4.
  - unfold valid_counters, COUNTERS in *. cbn [forallb] in *. by rewrite !get_dset.
  - rewrite get_dset. cbn. exact Hv.
  - by rewrite get_dset.
Qed.
Lemma dset_counter d k z : k ∈ COUNTERS -> valid_counters d = true -> 0 <= z ->
  valid_counters (dset d k (VInt z)) = true.
Proof.
  unfold valid_counters, COUNTERS. intros Hk [H Hd]%andb_true_iff Hz. apply andb_true_iff. split.
  - rewrite forallb_forall in *. intros j Hj. rewrite get_dset. destruct (String.eqb k j); [by apply Z.leb_le|].
    by apply H.
  - rewrite get_dset. rewrite !elem_of_cons in Hk.
    destruct Hk as [->|[->|[->|[->|Hk]]]]; try done. by apply not_elem_of_nil in Hk.
Qed.
Lemma valid_dset_counter d r k z : k ∈ COUNTERS -> 0 <= z -> valid_ledger d r ->
  valid_ledger (dset d k (VInt z)) r.
Proof.
  intros Hk Hz [H1 H2 H3 H4 H5 H6 H7]. pose proof (dset_counter d k z Hk H5 Hz) as H5'.
  assert (forall j, j ∉ COUNTERS -> get (dset d k (VInt z)) j = get d j) as Hj.
  { intros j Hj. rewrite get_dset. destruct (String.eqb_spec k j) as [->|]; [done|done]. }
  split; try done; rewrite ?Hj; try done;
    try (unfold COUNTERS; rewrite !elem_of_cons; intros [|[|[|[|Hn]]]]; try discriminate; by apply not_elem_of_nil in Hn).
  apply keys_are_dset; [|done]. revert Hk. unfold COUNTERS, STATE_FIELDS. rewrite !elem_of_cons.
  intros [->|[->|[->|[->|Hn]]]]; auto 12.
Qed.

(** ** The stored ledger *)
Definition ledger (meta : Meta) : value := get meta "autonomy_limits".
Lemma state_inv selected at_ (meta meta' : Meta) d :
  _state selected at_ meta = (meta', Ok d) ->
  ledger meta' = VDict d /\ valid_ledger d (get meta "task_revision") /\
  (forall k, k <> "autonomy_limits" -> dget meta' k = dget meta k) /\
  (ledger meta = VDict d \/ (ledger meta = VNull /\ new_state selected at_ = Ok d)).
Proof.
  unfold _state. intros H. apply sbind_Ok_inv in H as (stored & m1 & E & H).
  apply slift_Ok_inv in E as [-> E]. injection E as <-.
  apply sbind_Ok_inv in H as ([] & m2 & E & H). apply slift_Ok_inv in H as [-> H].
  apply rbind_Ok_inv in H as (err & He & H). cbv zeta in H.
  destruct err; [discriminate|]. destruct (get m2 "autonomy_limits") as [| | | | |x] eqn:Ex; try discriminate.
  apply rbind_Ok_inv in H as (p & _ & H). apply rbind_Ok_inv in H as (q & _ & H).
  apply rbind_Ok_inv in H as ([] & _ & H). injection H as ->.
  apply (metadata_error_none _ _ Ex) in He. unfold ledger.
  destruct (is_null (get meta "autonomy_limits")) eqn:En.
  - apply sbind_Ok_inv in E as (fresh & m3 & E1 & E). apply slift_Ok_inv in E1 as [-> E1].
    apply smodify_Ok_inv in E. subst m2. rewrite get_dset in Ex, He. cbn in Ex, He. injection Ex as ->.
    split_and!; [by rewrite get_dset | done | |].
    + intros k Hk. by rewrite dget_dset_ne.
    + right. split; [by destruct (get meta "autonomy_limits") | done].
  - apply sret_Ok_inv in E as [-> _]. split_and!; try done. by left.
Qed.

(** ** Budgets *)
(** Every budget of the policy is above what was observed. *)
Definition within_budgets (selected : dict) (bs : list (string * string * value)) : Prop :=
  forall t name o l, (t, name, VInt o) ∈ bs -> dget selected name = Some (VInt l) -> o < l.
Lemma first_breach_none selected bs : first_breach selected bs = None -> within_budgets selected bs.
Proof.
  unfold within_budgets. induction bs as [|[[t name] v] bs IH]; cbn -[Z.leb]; intros H t' n' o' l' Hin Hl.
  { by apply not_elem_of_nil in Hin. }
  apply elem_of_cons in Hin as [[= <- <- <-]|Hin].
  - rewrite Hl in H. destruct (Z.leb_spec l' o'); [discriminate | done].
  - eapply IH; [|done..]. destruct (dget selected name) as [[]|]; try done. destruct v; try done.
    by destruct (z <=? z0).
Qed.
Lemma first_breach_some selected bs b : first_breach selected bs = Some b ->
  limit b <= observed b /\ exists name,
    (trigger b, name, VInt (observed b)) ∈ bs /\ dget selected name = Some (VInt (limit b)).
Proof.
  induction bs as [|[[t name] v] bs IH]; [discriminate|]. cbn -[Z.leb]. intros H.
  assert (first_breach selected bs = Some b ->
    limit b <= observed b /\ exists n, (trigger b, n, VInt (observed b)) ∈ (t, name, v) :: bs /\
      dget selected n = Some (VInt (limit b))) as Hrec.
  { intros Hb. destruct (IH Hb) as (H1 & n & H2 & H3). split; [done|]. exists n.
    split; [apply elem_of_cons; by right | done]. }
  destruct (dget selected name) as [[| |l| | |]|] eqn:El; try by apply Hrec.
  destruct v as [| |o| | |]; try by apply Hrec.
  destruct (Z.leb_spec l o); [|by apply Hrec]. injection H as <-. cbn. split; [done|].
  exists name. split; [apply elem_of_cons; by left | done].
Qed.
Lemma breach_trigger selected state elapsed diff b :
  first_breach selected (budgets state elapsed diff) = Some b -> PyStr.mem (trigger b) TRIGGERS = true.
Proof.
  intros (_ & n & H & _)%first_breach_some. unfold budgets in H. rewrite !elem_of_cons in H.
  destruct H as [[= -> _ _]|[[= -> _ _]|[[= -> _ _]|[[= -> _ _]|[[= -> _ _]|[[= -> _ _]|H]]]]]]; try done.
  by apply not_elem_of_nil in H.
Qed.
Lemma hold_of_valid b at_ r : PyStr.mem (trigger b) TRIGGERS = true ->
  valid_hold (hold_of b at_ r) (VInt (r + 1)) = Ok true.
Proof.
  intros Hm. cbn [valid_hold hold_of py_and rbind]. unfold in_set, get, get_or.
  cbn [dget String.eqb Ascii.eqb Bool.eqb require_hashable hashable negb raise_if rbind]. rewrite Hm.
  cbn. by rewrite Z.eqb_refl.
Qed.

Lemma budgets_dset_hold d v elapsed diff : budgets (dset d "hold" v) elapsed diff = budgets d elapsed diff.
Proof.
  assert (forall k, String.eqb "hold" k = false -> get (dset d "hold" v) k = get d k) as Hg.
  { intros k Hk. by rewrite get_dset, Hk. }
  unfold budgets. by rewrite !Hg.
Qed.
Lemma int_item_VInt d k r : get d k = VInt r -> int_item d k = Ok r.
Proof. unfold get, get_or, int_item, item. by destruct (dget d k) as [v|]; [intros -> | discriminate]. Qed.
Lemma hold_null d h : item d "hold" = Ok h -> is_null h = true -> get d "hold" = VNull.
Proof. intros ->%item_get. by destruct h. Qed.

(** What a successful preflight did: nothing but create or complete the ledger. *)
Lemma preflight_inv args selected at_ (meta meta' : Meta) note held r :
  apply_preflight args (Some selected) at_ meta = (meta', Ok (note, held)) ->
  get meta "task_revision" = VInt r ->
  exists d diff breach, valid_ledger d (VInt r) /\ get d "hold" = VNull /\
    int (getattr args "autonomy_diff_bytes" (VInt 0)) = Ok diff /\
    _breach d selected at_ diff = Ok breach /\
    (forall k, k <> "autonomy_limits" -> dget meta' k = dget meta k) /\
    (ledger meta = VDict d \/ ledger meta = VNull) /\
    match breach with
    | None => held = false /\ ledger meta' = VDict d
    | Some b => held = true /\ ledger meta' = VDict (dset d "hold" (hold_of b at_ r))
    end.
Proof.
  unfold apply_preflight. intros H Hr. apply sbind_Ok_inv in H as (d & m1 & Hs & H).
  apply state_inv in Hs as (H1 & H2 & H3 & H4). rewrite Hr in H2.
  apply sbind_Ok_inv in H as ([] & m2 & E & H). apply slift_Ok_inv in E as [-> E].
  apply rbind_Ok_inv in E as (h & Eh & E%raise_if_Ok). apply negb_false_iff in E.
  apply sbind_Ok_inv in H as (diff & m2 & Ed & H). apply slift_Ok_inv in Ed as [-> Ed].
  apply sbind_Ok_inv in H as (breach & m2 & Eb & H). apply slift_Ok_inv in Eb as [-> Eb].
  exists d, diff, breach. split_and!; try done; [by eapply hold_null | | by destruct H4 as [|[? _]]; [left|right] |].
  - intros k Hk. rewrite <- (H3 k Hk). destruct breach as [b|].
    + apply sbind_Ok_inv in H as (r' & m2 & Er & H). apply slift_Ok_inv in Er as [-> Er].
      apply sbind_Ok_inv in H as ([] & m2 & Ew & H). apply smodify_Ok_inv in Ew. subst m2.
      apply sret_Ok_inv in H as [-> _]. by rewrite dget_dset_ne.
    + by apply sret_Ok_inv in H as [-> _].
  - destruct breach as [b|].
    + apply sbind_Ok_inv in H as (r' & m2 & Er & H). apply slift_Ok_inv in Er as [-> Er].
      apply sbind_Ok_inv in H as ([] & m2 & Ew & H). apply smodify_Ok_inv in Ew. subst m2.
      apply sret_Ok_inv in H as [-> [= _ ->]]. split; [done|]. unfold ledger. rewrite get_dset. cbn.
      assert (get m1 "task_revision" = VInt r) as Hr1 by (unfold get, get_or; rewrite H3 by done; exact Hr).
      rewrite (int_item_VInt _ _ _ Hr1) in Er. by injection Er as <-.
    + by apply sret_Ok_inv in H as [-> [= _ ->]].
Qed.

(** A command is admitted only below every budget of the policy: when the
    preflight does not hold the task, each budgeted quantity - elapsed seconds,
    retries, commands, diff bytes, cost, external effects - is strictly below
    its limit and no hold is recorded; otherwise it records a hold that names a
    reached budget.  Either way the ledger is valid at the revision the
    transition commits (the next one, when it held), and nothing else changes. *)
Theorem preflight_enforces_budgets args selected at_ (meta meta' : Meta) note held r :
  apply_preflight args (Some selected) at_ meta = (meta', Ok (note, held)) ->
  get meta "task_revision" = VInt r ->
  (forall k, k <> "autonomy_limits" -> dget meta' k = dget meta k) /\
  exists d diff started now, ledger meta' = VDict d /\
    int (getattr args "autonomy_diff_bytes" (VInt 0)) = Ok diff /\
    _timestamp (get d "started_at") = Ok started /\ _timestamp (VStr at_) = Ok now /\
    if held : bool then
      exists b, get d "hold" = hold_of b at_ r /\ limit b <= observed b /\
        (exists name, (trigger b, name, VInt (observed b)) ∈ budgets d (elapsed_seconds now started) diff /\
           dget selected name = Some (VInt (limit b))) /\
        valid_ledger d (VInt (r + 1))
    else get d "hold" = VNull /\ valid_ledger d (VInt r) /\
      within_budgets selected (budgets d (elapsed_seconds now started) diff).
Proof.
  intros H Hr. apply preflight_inv with (r := r) in H as (d & diff & breach & Hv & Hh & Hd & Hb & Hf & _ & H); [|done].
  split; [done|]. unfold _breach in Hb. apply rbind_Ok_inv in Hb as (now & Hnow & Hb).
  apply rbind_Ok_inv in Hb as (v & Hs & Hb). apply item_get in Hs. subst v.
  apply rbind_Ok_inv in Hb as (started & Hst & Hb). apply Ok_inj in Hb. destruct breach as [b|].
  - destruct H as [-> Hl]. exists (dset d "hold" (hold_of b at_ r)), diff, started, now.
    split_and!; [done | done | by rewrite get_dset | done |].
    pose proof (breach_trigger _ _ _ _ _ Hb) as Ht. apply first_breach_some in Hb as (H1 & n & H2 & H3).
    exists b. rewrite get_dset. split_and!; [done | done | |].
    + exists n. by rewrite budgets_dset_hold.
    + eapply valid_dset_hold; [done|]. by apply hold_of_valid.
  - destruct H as [-> Hl]. exists d, diff, started, now. split_and!; try done. by apply first_breach_none.
Qed.

(** A hold freezes its task: once a hold is recorded, the same ledger is
    valid at one revision only, so every transition that commits another
    revision without rewriting the ledger is refused by validation. *)
Lemma hold_freezes_task (meta meta' : Meta) d h r' :
  metadata_error meta = Ok None -> ledger meta = VDict d -> get d "hold" = VDict h ->
  ledger meta' = VDict d -> get meta' "task_revision" = VInt r' ->
  eq (get meta "task_revision") (VInt r') = false ->
  metadata_error meta' = Ok (Some "autonomy limits hold is invalid").
Proof.
  intros Hm Hd Hh Hd' Hr' Hne. apply (metadata_error_none _ _ Hd) in Hm as [H1 H2 H3 [t H4] H5 H6 H7].
  unfold metadata_error, ledger in *. rewrite Hd', H1, H2, H3, H4, H5. cbn [negb orb].
  rewrite Hh, Hr' in *. unfold valid_hold in *.
  assert (exists z, get h "task_revision" = VInt z /\ eq (VInt z) (get meta "task_revision") = true) as (z & Ez & Hz).
  { apply py_and_true in H6. repeat (apply Forall_cons in H6 as [? H6]). unfold cond in *.
    destruct (get h "task_revision"); try discriminate. eexists. split; [done|]. congruence. }
  apply py_and_true in H6. apply Forall_cons in H6 as [E1 H6]. apply Forall_cons in H6 as [E2 H6].
  apply Forall_cons in H6 as [E3 H6]. apply Forall_cons in H6 as [E4 H6]. apply Forall_cons in H6 as [E5 _].
  cbn [py_and]. rewrite E1, E2, E3, E4, E5. cbn [rbind cond]. rewrite Ez.
  assert ((z =? r') = false) as Hzr.
  { apply Z.eqb_neq. intros ->. destruct (get meta "task_revision") as [|b|y| | |]; try discriminate.
    - cbn in Hz, Hne. rewrite Z.eqb_sym in Hz. congruence.
    - cbn in Hz, Hne. rewrite Z.eqb_sym in Hz. congruence. }
  unfold cond. cbn. by rewrite Hzr.
Qed.

Lemma bump_inv state k n (meta meta' : Meta) d : bump state k n meta = (meta', Ok d) ->
  exists z, as_Z (get state k) = Some z /\ d = dset state k (VInt (z + n)) /\
    meta' = dset meta "autonomy_limits" (VDict d).
Proof.
  unfold bump, write. intros H. apply sbind_Ok_inv in H as (x & m1 & E & H). apply slift_Ok_inv in E as [-> E].
  apply sbind_Ok_inv in H as ([] & m2 & Ew & H). apply smodify_Ok_inv in Ew. apply sret_Ok_inv in H as [-> ->].
  unfold add_to in E. apply rbind_Ok_inv in E as (v & Ev & E). apply item_get in Ev. rewrite Ev.
  destruct (as_Z v) as [z|]; [|discriminate]. injection E as <-. by exists z.
Qed.
Lemma same_fields_write (meta : Meta) d k : k <> "autonomy_limits" ->
  get (dset meta "autonomy_limits" (VDict d)) k = get meta k.
Proof. intros Hk. rewrite get_dset. by destruct (String.eqb_spec "autonomy_limits" k). Qed.

(** The four counters after one recorded command. *)
Definition counted (d d' : dict) (args : Namespace) (units : Z) : Prop :=
  forall c r u e, get d "commands" = VInt c -> get d "retries" = VInt r -> get d "cost_units" = VInt u ->
    get d "external_side_effects" = VInt e ->
  get d' "commands" = VInt (c + 1) /\
  get d' "retries" = VInt (r + flag (ne (getattr args "autonomy_returncode" (VInt 0)) (VInt 0))) /\
  get d' "cost_units" = VInt (u + units) /\
  get d' "external_side_effects" = VInt (e +
    flag (truthy (getattr args "external_side_effect" (VBool false))
          || is_s (getattr args "command_class" VNull) "git-publication")).

Lemma flag_nonneg b : 0 <= flag b. Proof. by destruct b. Qed.

(** A recorded command is counted exactly - one command, one retry if it
    failed, its cost, one external effect if it had one - and a budget it
    reaches is held at once: without an earlier hold the ledger then holds the
    first reached budget, or every budget is still above what was observed.
    The ledger is valid at the revision the record commits. *)
Theorem record_counts_and_holds args selected at_ (meta meta' : Meta) note d r :
  apply_record args (Some selected) at_ meta = (meta', Ok note) -> ledger meta = VDict d ->
  get d "hold" = VNull -> get meta "task_revision" = VInt r ->
  exists d' units diff elapsed, ledger meta' = VDict d' /\
    int (getattr args "cost_units" (VInt 0)) = Ok units /\
    int (getattr args "autonomy_diff_bytes" (VInt 0)) = Ok diff /\ counted d d' args units /\
    ((get d' "hold" = VNull /\ valid_ledger d' (VInt r) /\
      within_budgets selected (budgets d' elapsed diff)) \/
     exists b, get d' "hold" = hold_of b at_ r /\ valid_ledger d' (VInt (r + 1)) /\
       first_breach selected (budgets d' elapsed diff) = Some b).
Proof.
  unfold apply_record. intros H Hd Hh Hr. apply sbind_Ok_inv in H as (d0 & m0 & Hs & H).
  apply state_inv in Hs as (_ & Hv & Hf & [E|[E _]]); rewrite Hd in E; [|discriminate]. injection E as <-.
  rewrite Hr in Hv. assert (get m0 "task_revision" = VInt r) as Hr0 by (unfold get, get_or; by rewrite Hf).
  apply sbind_Ok_inv in H as ([] & m1 & E & H). apply slift_Ok_inv in E as [-> Hc%raise_if_Ok].
  apply negb_false_iff in Hc.
  apply sbind_Ok_inv in H as (d1 & m1 & (c & Ec & E1 & ->)%bump_inv & H).
  apply sbind_Ok_inv in H as (d2 & m2 & (re & Er & E2 & ->)%bump_inv & H).
  apply sbind_Ok_inv in H as (units & m3 & Eu & H). apply slift_Ok_inv in Eu as [-> Eu].
  apply sbind_Ok_inv in H as (d3 & m3 & (u & Eu' & E3 & ->)%bump_inv & H).
  apply sbind_Ok_inv in H as (d4 & m4 & (e & Ee & E4 & ->)%bump_inv & H).
  apply sbind_Ok_inv in H as (diff & m5 & Ed & H). apply slift_Ok_inv in Ed as [-> Ed].
  apply sbind_Ok_inv in H as (breach & m5 & Eb & H). apply slift_Ok_inv in Eb as [-> Eb].
  apply sbind_Ok_inv in H as (hold & m5 & Eh & H). apply slift_Ok_inv in Eh as [-> Eh].
  assert (0 <= units) as Hu.
  { destruct (getattr args "cost_units" (VInt 0)); try discriminate. injection Eu as <-. by apply Z.leb_le. }
  assert (forall k, k ∈ COUNTERS -> exists z, get d k = VInt z /\ 0 <= z) as Hn
    by (intros k; apply counter_nat, Hv).
  destruct (Hn "commands") as (c' & Gc & Pc); [unfold COUNTERS; set_solver|].
  destruct (Hn "retries") as (r' & Gr & Pr); [unfold COUNTERS; set_solver|].
  destruct (Hn "cost_units") as (u' & Gu & Pu); [unfold COUNTERS; set_solver|].
  destruct (Hn "external_side_effects") as (e' & Ge & Pe); [unfold COUNTERS; set_solver|].
  rewrite Gc in Ec. injection Ec as <-.
  assert (get d1 "retries" = VInt r') as G1 by (subst d1; by rewrite get_dset).
  rewrite G1 in Er. injection Er as <-.
  assert (get d2 "cost_units" = VInt u') as G2 by (subst d2 d1; by rewrite !get_dset).
  rewrite G2 in Eu'. injection Eu' as <-.
  assert (get d3 "external_side_effects" = VInt e') as G3 by (subst d3 d2 d1; by rewrite !get_dset).
  rewrite G3 in Ee. injection Ee as <-.
  assert (valid_ledger d4 (VInt r)) as Hv4.
  { subst d4 d3 d2 d1. repeat apply valid_dset_counter; try done;
      try (unfold COUNTERS; set_solver); try apply Z.add_nonneg_nonneg; try done; apply flag_nonneg. }
  assert (counted d d4 args units) as Hcount.
  { intros ????. rewrite Gc, Gr, Gu, Ge. intros [= <-] [= <-] [= <-] [= <-]. subst d4 d3 d2 d1.
    by rewrite !get_dset. }
  assert (get d4 "hold" = VNull) as Hh4 by (subst d4 d3 d2 d1; by rewrite !get_dset).
  apply item_get in Eh. rewrite Hh4 in Eh. subst hold.
  unfold _breach in Eb. apply rbind_Ok_inv in Eb as (now & _ & Eb). apply rbind_Ok_inv in Eb as (v & _ & Eb).
  apply rbind_Ok_inv in Eb as (started & _ & Eb). apply Ok_inj in Eb.
  set (elapsed := elapsed_seconds now started) in *. destruct breach as [b|].
  - apply sbind_Ok_inv in H as (r'' & m5 & Er & H). apply slift_Ok_inv in Er as [-> Er].
    rewrite (int_item_VInt _ _ r) in Er by (by rewrite !same_fields_write). injection Er as <-.
    apply sbind_Ok_inv in H as ([] & m6 & Ew & H). apply smodify_Ok_inv in Ew. apply sret_Ok_inv in H as [-> _].
    exists (dset d4 "hold" (hold_of b at_ r)), units, diff, elapsed. subst m6. unfold ledger. rewrite get_dset.
    split_and!; [done..| |].
    + intros ???? H1 H2 H3 H4. destruct (Hcount _ _ _ _ H1 H2 H3 H4) as (K1 & K2 & K3 & K4).
      by rewrite !get_dset.
    + right. exists b. rewrite get_dset, budgets_dset_hold. split_and!; [done | | done].
      eapply valid_dset_hold; [done|]. by eapply hold_of_valid, breach_trigger.
  - apply sret_Ok_inv in H as [-> _]. exists d4, units, diff, elapsed. unfold ledger. rewrite get_dset.
    split_and!; try done. left. split_and!; [done..|]. by apply first_breach_none.
Qed.

(** ** Witnesses *)
Definition sample_policy : dict :=
  [("schema_version", VInt 1); ("max_commands", VInt 1); ("max_retries", VInt 3);
   ("digest", VStr (PyJson.sha256 "policy"))].
Definition sample_task : Meta := [("id", VStr "AR-0001"); ("status", VStr "in_progress");
  ("owner", VStr "ann"); ("task_revision", VInt 4)].
Definition sample_time : string := "2026-01-01T00:00:00+00:00".
Definition sample_admitted : Meta := fst (apply_preflight [] (Some sample_policy) sample_time sample_task).
Definition sample_ledger (meta : Meta) : dict := match ledger meta with VDict d => d | _ => [] end.
Definition sample_recorded : Meta := fst (apply_record [] (Some sample_policy) sample_time sample_admitted).

Lemma preflight_enforces_budgets_witness :
  exists d started now, ledger sample_admitted = VDict d /\ get d "hold" = VNull /\
    within_budgets sample_policy (budgets d (elapsed_seconds now started) 0).
Proof.
  edestruct (preflight_enforces_budgets [] sample_policy sample_time sample_task sample_admitted
                "Autonomy limits admitted." false 4)
    as (_ & d & diff & started & now & H1 & H2 & _ & _ & H3 & _ & H4);
    [vm_compute; reflexivity | reflexivity |].
  exists d, started, now. injection H2 as <-. split; [exact H1|]. split; [exact H3 | exact H4].
Defined.

Lemma record_counts_and_holds_witness :
  exists d b, ledger sample_recorded = VDict d /\ get d "commands" = VInt 1 /\
    get d "hold" = hold_of b sample_time 4.
Proof.
  destruct (record_counts_and_holds [] sample_policy sample_time sample_admitted sample_recorded
                "Autonomy limit hold recorded: command observed=1 limit=1." (sample_ledger sample_admitted) 4)
    as (d & units & diff & elapsed & H1 & _ & _ & H2 & H3); [vm_compute; reflexivity..|].
  destruct (H2 0 0 0 0) as (Hc & _); [vm_compute; reflexivity..|].
  destruct H3 as [(Hn & _)|(b & Hb & _)]; [|exists d, b; split; [exact H1 | split; [exact Hc | exact Hb]]].
  exfalso. vm_compute in H1. injection H1 as <-. vm_compute in Hn. discriminate Hn.
Defined.

End Autonomy.
