(* ===== verification/Chain.v ===== *)
(** * Digest-linked histories

    A history is linked when every record names the digest of the one before it
    and carries the digest of its own content.  Such a history is pinned by its
    last digest: another linked history that ends in the same digest has the
    same contents, record by record, or the two exhibit texts with the same
    SHA-256 digest.  Change drift and assumptions keep such histories. *)
From stdpp Require Import sorting.
From S2P Require Import Prelude PyStr PyVal PyJson JsonParse Journal.

Module Chain.
Import Py.

(** Every element is in a relation with the list before it. *)
Definition each {A} (P : list A -> A -> Prop) (l : list A) : Prop :=
  forall pre x post, l = pre ++ x :: post -> P pre x.
Lemma each_nil {A} (P : list A -> A -> Prop) : each P [].
Proof. intros pre x post E. by destruct pre. Qed.
Lemma each_snoc {A} (P : list A -> A -> Prop) l r : each P (l ++ [r]) <-> each P l /\ P l r.
Proof.
  split.
  - intros H. split; [|by apply (H l r [])]. intros pre x post ->. apply (H pre x (post ++ [r])). by rewrite <- app_assoc.
  - intros [Hl Hr] pre x post E. destruct post as [|y post _] using rev_ind.
    + apply app_inj_tail in E as [<- <-]. done.
    + apply (Hl pre x post). rewrite app_comm_cons, app_assoc in E. by apply app_inj_tail in E as [-> _].
Qed.

(** A measure that strictly increases along a list and stays below a bound. *)
Record rising {A} (f : A -> Z) (l : list A) (bound : Z) : Prop := Rising {
  increasing : StronglySorted (fun x y => f x < f y) l;
  below : Forall (fun x => f x <= bound) l;
}.
Lemma rising_nil {A} (f : A -> Z) b : rising f [] b.
Proof. split; constructor. Qed.
Lemma rising_snoc {A} (f : A -> Z) l b x : rising f l b -> b < f x -> rising f (l ++ [x]) (f x).
Proof.
  intros [Hi Hb] Hx. rewrite list.Forall_forall in Hb. split.
  - apply StronglySorted_app. split_and!; [|done|by repeat constructor].
    intros y z Hy ->%list_elem_of_singleton. specialize (Hb y Hy). lia.
  - apply Forall_app. split; [|by apply Forall_singleton]. apply list.Forall_forall. intros y Hy. specialize (Hb y Hy). lia.
Qed.

(** The text a digest is taken of determines the content. *)
Lemma dumps_inj v w : wf v = true -> wf w = true -> PyJson.dumps v = PyJson.dumps w -> PyJson.canon v = PyJson.canon w.
Proof. intros Hv Hw E. pose proof (JsonParse.loads_dumps v Hv) as Ev. rewrite E, JsonParse.loads_dumps in Ev; congruence. Qed.

Section linked.
  (** What a record's digest covers. *)
  Context (identity : dict -> dict).
Definition content (r : dict) : value := PyJson.canon (VDict (identity r)).
Definition covered (r : dict) : string := PyJson.dumps (VDict (identity r)).
Definition digest_of (r : dict) : string := PyJson.digest (VDict (identity r)).
(** A record sealed by its digest, after the record with the digest [previous]. *)
Record sealed (previous : string) (r : dict) : Prop := Sealed {
  s_wf : wf (VDict (identity r)) = true;
  s_previous : get (identity r) "previous_digest" = VStr previous;
  s_digest : get r "digest" = VStr (digest_of r);
}.
Fixpoint linked (previous : string) (l : list dict) : Prop :=
  match l with [] => True | r :: l' => sealed previous r /\ linked (digest_of r) l' end.
(** The digest a history ends in. *)
Definition tip (previous : string) (l : list dict) : string := foldl (fun _ r => digest_of r) previous l.
(** Two texts covered by digests of the histories that collide. *)
Definition colliding (l m : list dict) : Prop :=
  exists r s, r ∈ l /\ s ∈ m /\ covered r <> covered s /\ PyJson.sha256 (covered r) = PyJson.sha256 (covered s).

Lemma tip_snoc p l r : tip p (l ++ [r]) = digest_of r.
Proof. unfold tip. by rewrite foldl_app. Qed.
Lemma linked_snoc p l r : linked p (l ++ [r]) <-> linked p l /\ sealed (tip p l) r.
Proof.
  revert p. induction l as [|x l IH]; intros p; [cbn; naive_solver|]. cbn [linked app]. rewrite IH.
  unfold tip. cbn [foldl]. naive_solver.
Qed.
Lemma digest_nonempty r : digest_of r <> "".
Proof. unfold digest_of, PyJson.digest, PyJson.sha256. discriminate. Qed.

(** Records with the same digest have the same content, and the same
    predecessor, or collide. *)
Lemma sealed_inj p q r s : sealed p r -> sealed q s -> digest_of r = digest_of s ->
  (content r = content s /\ p = q) \/
  (covered r <> covered s /\ PyJson.sha256 (covered r) = PyJson.sha256 (covered s)).
Proof.
  intros [Wr Pr _] [Ws Ps _] E. destruct (decide (covered r = covered s)) as [Ec|Hc]; [left | by right].
  assert (content r = content s) as Hc by (by apply dumps_inj). split; [done|].
  unfold content in Hc. rewrite !Journal.canon_dict in Hc. injection Hc as Hc.
  pose proof (Journal.get_canon (identity r) "previous_digest" (Journal.wf_NoDup _ Wr)) as Er.
  pose proof (Journal.get_canon (identity s) "previous_digest" (Journal.wf_NoDup _ Ws)) as Es.
  rewrite Pr in Er. rewrite Ps in Es. rewrite Hc, Es in Er. cbn in Er. congruence.
Qed.
Lemma colliding_mono l m r s : colliding l m -> colliding (l ++ [r]) (m ++ [s]).
Proof. intros (x & y & Hx & Hy & H). exists x, y. split_and!; try set_solver; apply H. Qed.
Lemma linked_inj l m : linked "" l -> linked "" m -> tip "" l = tip "" m ->
  map content l = map content m \/ colliding l m.
Proof.
  revert m. induction l as [|r l IH] using rev_ind; intros m Hl Hm E; destruct m as [|s m _] using rev_ind.
  - by left.
  - rewrite tip_snoc in E. by destruct (digest_nonempty s).
  - rewrite tip_snoc in E. by destruct (digest_nonempty r).
  - rewrite !tip_snoc in E. apply linked_snoc in Hl as [Hl Hr]. apply linked_snoc in Hm as [Hm Hs].
    destruct (sealed_inj _ _ _ _ Hr Hs E) as [[Ec Ep]|Hc].
    + destruct (IH m Hl Hm Ep) as [Hmap|Hc]; [left | right; by apply colliding_mono].
      rewrite !map_app, Hmap. cbn [map]. by rewrite Ec.
    + right. exists r, s. split_and!; [by apply elem_of_app; right; left..| |]; apply Hc.
Qed.

(** Sealed one by one. *)
Lemma linked_each l : Forall (fun r => wf (VDict (identity r)) = true) l -> Forall (fun r => get r "digest" = VStr (digest_of r)) l ->
  each (fun pre r => get (identity r) "previous_digest" = VStr (tip "" pre)) l -> linked "" l.
Proof.
  intros Hw Hd Hp. induction l as [|r l IH] using rev_ind; [done|].
  apply Forall_app in Hw as [Hw Wr], Hd as [Hd Dr]. apply each_snoc in Hp as [Hp Pr].
  rewrite Forall_singleton in Wr, Dr. apply linked_snoc. split; [by apply IH | done].
Qed.
Lemma last_digest_tip l : Forall (fun r => get r "digest" = VStr (digest_of r)) l ->
  match last l with Some r => str (get r "digest") | None => "" end = tip "" l.
Proof.
  intros Hd. destruct l as [|r l _] using rev_ind; [done|]. rewrite last_snoc, tip_snoc.
  apply Forall_app in Hd as [_ Hr]. rewrite Forall_singleton in Hr. by rewrite Hr.
Qed.
End linked.

(** ** Stored histories *)
(** A reader that extends an invariant record by record. *)
Lemma foldM_history {S} (f : S -> value -> res S) (g : value -> dict) (I : list dict -> S -> Prop) :
  (forall l s v s', I l s -> f s v = Ok s' -> v = VDict (g v) /\ I (l ++ [g v]) s') ->
  forall vs acc s s', I acc s -> foldM f s vs = Ok s' -> vs = map VDict (map g vs) /\ I (acc ++ map g vs) s'.
Proof.
  intros Hf. induction vs as [|v vs IH]; intros acc s s' Hi E; cbn [foldM map] in *.
  - injection E as <-. by rewrite app_nil_r.
  - apply rbind_Ok_inv in E as (s1 & E1 & E). destruct (Hf _ _ _ _ Hi E1) as [Ev H1].
    destruct (IH _ _ _ H1 E) as [El H2]. rewrite <- app_assoc in H2. split; [congruence | done].
Qed.
Lemma foldM_snoc {A B} (f : B -> A -> res B) acc l x :
  foldM f acc (l ++ [x]) = rbind (foldM f acc l) (fun b => f b x).
Proof.
  revert acc. induction l as [|y l IH]; intros acc; cbn [foldM app rbind]; [by destruct (f acc x)|].
  destruct (f acc y); [apply IH | done].
Qed.
Lemma stored_wf (meta : Meta) k l : wf (VDict meta) = true -> get_or meta k (VList []) = VList (map VDict l) ->
  Forall (fun r => wf (VDict r) = true) l.
Proof.
  intros Hw E. unfold get_or in E.
  assert (wf (VList (map VDict l)) = true) as Hl.
  { destruct (dget meta k) as [v|] eqn:Ev; [rewrite <- E; by eapply wf_dget | by destruct l]. }
  cbn in Hl. rewrite forallb_forall in Hl. apply list.Forall_forall. intros r Hr. apply Hl, in_map.
  by apply list_elem_of_In.
Qed.
End Chain.
