(* ===== verification/Canonical.v ===== *)
(** * JSON in UTF-8, and the digests of identities

    [json.dumps(value, ensure_ascii=False, sort_keys=True,
    separators=(",", ":")).encode("utf-8")]: characters outside ASCII are
    written as they are and then encoded.  The bytes determine the value up to
    the order of keys, so a digest of them pins it up to a collision. *)
From S2P Require Import Prelude PyStr PyVal PyJson Sha256 JsonParse Chain.

Module Canonical.
Import PyStr Py.

(** [ensure_ascii=False]: only quotes, backslashes and control characters are
    escaped. *)
Definition raw_char (c : ascii) : string := if 127 <=? ord c then String c "" else PyJson.escape_char c.
Fixpoint raw (s : string) : string :=
  match s with "" => "" | String c s' => raw_char c +:+ raw s' end.
Definition quoted (s : string) : string := String dquote (raw s) +:+ String dquote "".
Fixpoint print (v : value) : string :=
  match v with
  | VNull => "null"
  | VBool b => if b then "true" else "false"
  | VInt z => of_Z z
  | VStr s => quoted s
  | VList l => "[" +:+ join "," (map print l) +:+ "]"
  | VDict d => "{" +:+ join "," (map (fun kv => quoted kv.1 +:+ ":" +:+ print kv.2) d) +:+ "}"
  end.
(** [.encode("utf-8")] of code points below 256 *)
Fixpoint utf8 (s : string) : string :=
  match s with
  | "" => ""
  | String c s' =>
      if ord c <? 128 then String c (utf8 s')
      else String (chr (192 + ord c / 64)) (String (chr (128 + ord c mod 64)) (utf8 s'))
  end.
Definition bytes (v : value) : string := utf8 (print (PyJson.canon v)).
(** [hashlib.sha256(...).hexdigest()] *)
Definition digest (v : value) : string := Sha256.hexdigest (bytes v).

(** ** The bytes determine the value *)
Lemma ord_range c : 0 <= ord c < 256.
Proof. unfold ord. pose proof (N_ascii_bounded c). lia. Qed.
Lemma ord_inj c d : ord c = ord d -> c = d.
Proof.
  unfold ord. intros E%N2Z.inj. rewrite <- (ascii_N_embedding c), <- (ascii_N_embedding d). congruence.
Qed.
Lemma ord_chr z : 0 <= z < 256 -> ord (chr z) = z.
Proof. intros Hz. unfold ord, chr. rewrite N_ascii_embedding; lia. Qed.
Lemma utf8_inj s t : utf8 s = utf8 t -> s = t.
Proof.
  revert t. induction s as [|c s IH]; intros t E; destruct t as [|d t]; cbn [utf8] in E; [done| | |].
  1,2: by repeat (case_match; try done).
  pose proof (ord_range c). pose proof (ord_range d).
  assert (forall x, 128 <= x < 256 -> 2 <= x / 64 < 4 /\ 0 <= x mod 64 < 64) as Hb.
  { intros x Hx. split; [split; [by apply Z.div_le_lower_bound; lia | by apply Z.div_lt_upper_bound; lia] | by apply Z.mod_pos_bound]. }
  destruct (Z.ltb_spec (ord c) 128), (Z.ltb_spec (ord d) 128).
  - injection E as -> E. by rewrite (IH _ E).
  - destruct (Hb (ord d)); [lia|]. injection E as E _. apply (f_equal ord) in E. rewrite ord_chr in E; lia.
  - destruct (Hb (ord c)); [lia|]. injection E as E _. apply (f_equal ord) in E. rewrite ord_chr in E; lia.
  - destruct (Hb (ord c)), (Hb (ord d)); [lia..|]. injection E as E1 E2 E. apply (f_equal ord) in E1, E2.
    rewrite !ord_chr in E1, E2 by lia. rewrite (IH _ E). f_equal. apply ord_inj.
    rewrite (Z.div_mod (ord c) 64), (Z.div_mod (ord d) 64) by lia. lia.
Qed.

(** What [ensure_ascii] escapes besides *)
Definition asciified (c : ascii) : string := if 127 <=? ord c then PyJson.u_escape c else String c "".
Fixpoint ascii_text (s : string) : string :=
  match s with "" => "" | String c s' => asciified c +:+ ascii_text s' end.
Lemma ascii_text_app s t : ascii_text (s +:+ t) = ascii_text s +:+ ascii_text t.
Proof.
  induction s as [|c s IH]; [done|]. change (asciified c +:+ ascii_text (s +:+ t) = (asciified c +:+ ascii_text s) +:+ ascii_text t).
  by rewrite IH, PyStr.append_assoc.
Qed.
Lemma ascii_text_join l : ascii_text (join "," l) = join "," (map ascii_text l).
Proof.
  unfold join. induction l as [|x l IH]; [done|]. destruct l as [|y l]; [done|].
  change (ascii_text (x +:+ "," +:+ String.concat "," (y :: l)) = ascii_text x +:+ "," +:+ String.concat "," (map ascii_text (y :: l))).
  by rewrite !ascii_text_app, IH.
Qed.
(** A text of ASCII characters *)
Lemma ascii_text_id s : all_chars (fun c => ord c <? 127) s = true -> ascii_text s = s.
Proof.
  induction s as [|c s IH]; [done|]. cbn [all_chars ascii_text]. intros [Hc Hs]%andb_true_iff. rewrite (IH Hs).
  unfold asciified. apply Z.ltb_lt in Hc. by replace (127 <=? ord c) with false by (symmetry; apply Z.leb_gt; lia).
Qed.
Lemma raw_char_ascii c : ascii_text (raw_char c) = PyJson.escape_char c.
Proof. by destruct c as [[] [] [] [] [] [] [] []]. Qed.
Lemma raw_ascii s : ascii_text (raw s) = PyJson.escape s.
Proof. induction s as [|c s IH]; [done|]. cbn [raw PyJson.escape]. by rewrite ascii_text_app, raw_char_ascii, IH. Qed.
Lemma quoted_ascii s : ascii_text (quoted s) = PyJson.quoted s.
Proof. unfold quoted, PyJson.quoted. by rewrite ascii_text_app, <- raw_ascii. Qed.
Lemma all_chars_impl (p q : ascii -> bool) s : (forall c, p c = true -> q c = true) -> all_chars p s = true -> all_chars q s = true.
Proof. intros H. induction s as [|c s IH]; [done|]. cbn [all_chars]. intros [Hc Hs]%andb_true_iff. by rewrite (H _ Hc), IH. Qed.
Lemma of_Z_ascii z : ascii_text (of_Z z) = of_Z z.
Proof.
  assert (forall c, is_digit c = true -> ord c <? 127 = true) as Hd.
  { intros c [_ H%Z.leb_le]%andb_true_iff. apply Z.ltb_lt. lia. }
  apply ascii_text_id. unfold of_Z. destruct z as [|p|p]; [done| |].
  - change (pretty (Z.pos p)) with (pretty_N_go (N.pos p) "").
    destruct (JsonParse.pretty_go_spec (N.pos p) "") as (c & d & -> & Hc & _); [done|].
    apply JsonParse.all_chars_app; [|done]. by eapply all_chars_impl.
  - change (pretty (Z.neg p)) with (String "-" (pretty_N_go (N.pos p) "")).
    destruct (JsonParse.pretty_go_spec (N.pos p) "") as (c & d & -> & Hc & _); [done|].
    cbn [all_chars]. apply andb_true_iff. split; [done|]. apply (JsonParse.all_chars_app _ (String c d) ""); [|done]. by eapply all_chars_impl.
Qed.
Lemma print_ascii v : ascii_text (print v) = PyJson.print v.
Proof.
  induction v as [|b|z|s|l IH|d IH] using value_ind'; cbn [print PyJson.print].
  - done.
  - by destruct b.
  - apply of_Z_ascii.
  - apply quoted_ascii.
  - rewrite !ascii_text_app, ascii_text_join, map_map. do 3 f_equal. apply map_ext_Forall. exact IH.
  - rewrite !ascii_text_app, ascii_text_join, map_map. do 3 f_equal. apply map_ext_Forall.
    eapply Forall_impl; [exact IH|]. intros kv E. by rewrite !ascii_text_app, quoted_ascii, E.
Qed.
Lemma bytes_inj v w : wf v = true -> wf w = true -> bytes v = bytes w -> PyJson.canon v = PyJson.canon w.
Proof.
  intros Hv Hw E%utf8_inj. apply Chain.dumps_inj; [done..|]. unfold PyJson.dumps. by rewrite <- !print_ascii, E.
Qed.

(** Two values whose bytes have the same digest without being the same *)
Definition colliding (v w : value) : Prop := bytes v <> bytes w /\ digest v = digest w.
Lemma digest_pins v w : wf v = true -> wf w = true -> digest v = digest w ->
  PyJson.canon v = PyJson.canon w \/ colliding v w.
Proof.
  intros Hv Hw E. destruct (decide (bytes v = bytes w)) as [Eb|Hb]; [left | by right]. by apply bytes_inj.
Qed.

Example bytes_raw : bytes (VDict [("b", VStr (String (chr 233) "/")); ("a", VInt 1)])
  = "{" +:+ String dquote "a" +:+ String dquote ":1," +:+ String dquote "b" +:+ String dquote ":" +:+ String dquote
      (String (chr 195) (String (chr 169) "/")) +:+ String dquote "}".
Proof. reflexivity. Qed.
End Canonical.
