(* ===== verification/ChangeDrift.v ===== *)
(** * Change drift ([change_drift.py])

    The linked history of what a task changed in its Git worktree: a baseline,
    the delta found later, the explanations of its paths and the widening of its
    scope.  Git and the directory of the worktree are the interface [Worktrees]:
    what the commands print, decoded.  The command line is not modelled. *)
From S2P Require Import Prelude PyStr Regex PyVal PyJson.

(** A bound worktree and what Git says about it: return code and output. *)
Class Worktrees : Type := {
  worktree : Type;
  (** the directory of a key below the projects root, without following links *)
  open_worktree : string -> res worktree;
  product_worktree : string;
  rev_parse : worktree -> Z * string;
  status_porcelain : worktree -> Z * string;
  diff_name_status : worktree -> string -> string -> Z * string;
  (** the path exists or is a symbolic link *)
  present : worktree -> string -> bool;
  hash_object : worktree -> string -> Z * string;
}.

Module ChangeDrift.
Import Py.
Definition fm := Regex.fullmatch.
Definition SCHEMA_VERSION : Z := 2.
Definition MAX_RECORDS : nat := 32.
Definition TASK := Regex.TASK.
Definition DIGEST := Regex.DIGEST.
Definition KINDS : list string := ["baseline"; "delta"; "explain"; "rescope"].
Definition CLASSIFICATIONS : list string := ["in_scope"; "out_of_scope"].
Definition WORKTREE_KEY : Regex.re :=
  Regex.cat (Regex.RChar Regex.alnum)
    (Regex.between 0 127 (Regex.RChar (Regex.union Regex.alnum (Regex.one_of "._-")))).
Definition OBJECT : Regex.re := Regex.alt (Regex.HEX 40) (Regex.HEX 64).
Definition digest (v : dict) : string := PyJson.digest (VDict v).

(** ** Paths *)
Definition safe_path (v : value) : bool :=
  match v with
  | VStr s => PyStr.truthy s && (PyStr.len s <=? 1024) && negb (PyStr.has_char "000" s)
              && negb (PyStr.is_absolute s)
              && forallb (fun part => negb (PyStr.mem part [""; "."; ".."])) (PyStr.parts s)
  | _ => false
  end.
Definition valid_worktree_key (v : value) : bool := match v with VStr s => fm WORKTREE_KEY s | _ => false end.
Definition text (v : value) : string := match v with VStr s => s | _ => "" end.
Definition unsafe_list (v : value) : res bool :=
  py_or [cond (negb (truthy v)); longer v 64; let* l := iter v in Ok (negb (forallb safe_path l))].
Definition normalize_scope (values : value) : res (list string) :=
  check raise_when (unsafe_list values) (ValueError "change-drift scope must be a bounded list of safe paths") ;;
  let* l := iter values in
  let normalized := PyStr.sorted_set (map text l) in
  check raise_if (negb (Nat.eqb (length normalized) (length l))) (ValueError "change-drift scope contains duplicates") ;;
  Ok normalized.
Definition _inside (path : string) (scope : list string) : bool :=
  existsb (fun item => String.eqb path item || PyStr.startswith (item +:+ "/") path) scope.
Definition _generated (path : string) : bool :=
  existsb (fun part => PyStr.mem (PyStr.lower part) ["build"; "dist"; "generated"; "__generated__"]) (PyStr.parts path)
  || existsb (fun suffix => PyStr.endswith suffix (PyStr.lower (PyStr.path_name path)))
       [".generated"; ".gen.py"; ".pb.go"; ".min.js"].

(** ** Observation *)
(** [str(entry[k])] of an entry that has the field *)
Definition field (e : dict) (k : string) : string := str (get e k).
Definition dict_of (v : value) : dict := match v with VDict d => d | _ => [] end.
Definition list_of (v : value) : list value := match v with VList l => l | _ => [] end.
(** The order of tuples of strings. *)
Fixpoint tuple_lt (a b : list string) : bool :=
  match a, b with
  | x :: a', y :: b' => String.ltb x y || String.eqb x y && tuple_lt a' b'
  | _, _ => false
  end.
Definition _entry_key (e : dict) : string * string := (field e "path", field e "previous_path").
Definition sort_key (e : dict) : list string := [field e "path"; field e "previous_path"; field e "status"].
Definition sort_entries (l : list dict) : list dict := sort_by (fun x y => tuple_lt (sort_key x) (sort_key y)) l.
Definition same_key (e e' : dict) : bool :=
  String.eqb (field e "path") (field e' "path") && String.eqb (field e "previous_path") (field e' "previous_path").
Definition entry (path previous status : string) (content : string) : dict :=
  [("path", VStr path); ("previous_path", VStr previous); ("status", VStr status);
   ("generated", VBool (_generated path)); ("content_digest", VStr content)].
Definition renamed (status : string) : bool :=
  PyStr.mem (String.substring 0 1 status) ["R"; "C"].
Definition unsafe_pair (path previous : string) : bool :=
  negb (safe_path (VStr path)) || PyStr.truthy previous && negb (safe_path (VStr previous)).
(** The fields of an output separated by NUL, without the one after the last. *)
Definition fields_of (raw : string) : list string := removelast (PyStr.split "000" raw).
Definition from (i : nat) (s : string) : string := String.substring i (String.length s - i) s.

Section drift.
  Context `{W : Worktrees}.
Definition _content_digest (w : worktree) (path : string) : res string :=
  if negb (present w path) then Ok ""
  else
    let '(code, out) := hash_object w path in
    let value := PyStr.strip out in
    check raise_if (negb (code =? 0) || negb (fm OBJECT value))
            (RuntimeError "change-drift could not fingerprint a changed path") ;;
    Ok value.
Definition content_of (w : option worktree) (path : string) : res string :=
  match w with Some w => _content_digest w path | None => Ok "" end.
Fixpoint status_loop (w : option worktree) (fields : list string) : res (list dict) :=
  match fields with
  | [] => Ok []
  | f :: rest =>
      check raise_if ((PyStr.len f <? 4) || negb (String.eqb (String.substring 2 1 f) " "))
              (ValueError "Git returned malformed porcelain status") ;;
      let status := String.substring 0 2 f in
      let path := from 3 f in
      let next previous rest :=
        check raise_if (unsafe_pair path previous) (ValueError "Git returned an unsafe changed path") ;;
        let* content := content_of w path in
        let* entries := rest in
        Ok (entry path previous status content :: entries) in
      if renamed status || renamed (from 1 status) then
        match rest with
        | [] => Raise (ValueError "Git returned truncated rename status")
        | previous :: rest' => next previous (status_loop w rest')
        end
      else next "" (status_loop w rest)
  end.
Definition _status_entries (raw : string) (w : option worktree) : res (list dict) :=
  let* entries := status_loop w (fields_of raw) in Ok (sort_entries entries).
Definition observe (w : worktree) : res dict :=
  let '(head_code, head) := rev_parse w in
  let '(code, status) := status_porcelain w in
  check raise_if (negb (code =? 0)) (RuntimeError "change-drift observation requires a Git worktree") ;;
  let* entries := _status_entries status (Some w) in
  Ok [("head", VStr (if head_code =? 0 then PyStr.strip head else "")); ("entries", VList (map VDict entries))].

(** ** Records *)
Definition _record (kind task : string) (revision : Z) (recorded_at : string) (payload : dict)
    (previous_digest : string) : res dict :=
  check raise_if (negb (PyStr.mem kind KINDS) || negb (fm TASK task) || (revision <? 1)
                  || negb (PyStr.truthy recorded_at)) (ValueError "invalid change-drift record identity") ;;
  check raise_if (PyStr.truthy previous_digest && negb (fm DIGEST previous_digest))
          (ValueError "invalid change-drift predecessor") ;;
  let identity := [("schema_version", VInt SCHEMA_VERSION); ("kind", VStr kind); ("task", VStr task);
                   ("task_revision", VInt revision); ("payload", VDict payload);
                   ("previous_digest", VStr previous_digest)] in
  Ok (identity ++ [("recorded_at", VStr recorded_at); ("digest", VStr (digest identity))]).
Definition baseline (task : string) (revision : Z) (recorded_at : string) (w : worktree) (scope : value)
    : res dict :=
  let* seen := observe w in
  let* scope := normalize_scope scope in
  _record "baseline" task revision recorded_at (seen ++ [("scope", strs scope)]) "".
Definition payload (r : dict) : dict := dict_of (get r "payload").
Definition entries_of (r : dict) : list dict := map dict_of (list_of (get (payload r) "entries")).
(** [{_entry_key(entry): entry}] and [{entry["path"]: entry[k]}]: the last one wins. *)
Definition entry_at (e : dict) (l : list dict) : option dict := List.find (same_key e) (List.rev l).
Definition at_path (path : string) (l : list dict) : option dict :=
  List.find (fun e => String.eqb (field e "path") path) (List.rev l).
Definition classified (scope : list string) (e : dict) : dict :=
  let paths := field e "path" :: (if truthy (get e "previous_path") then [field e "previous_path"] else []) in
  update e [("classification", VStr (if forallb (fun p => _inside p scope) paths then "in_scope" else "out_of_scope"));
            ("material", VBool true)].
(** [tail]: the field after the last NUL, which only a truncated rename reaches *)
Fixpoint head_loop (w : worktree) (tail : string) (fields : list string) : res (list dict) :=
  match fields with
  | [] => Ok []
  | status :: rest =>
      if String.eqb status "" then Ok []
      else
        let next previous path rest :=
          check raise_if (unsafe_pair path previous) (ValueError "Git returned an unsafe committed changed path") ;;
          let* content := _content_digest w path in
          let* entries := rest in
          Ok (entry path previous (String.substring 0 1 status +:+ " ") content :: entries) in
        match rest with
        | [] => Raise (ValueError "Git returned malformed committed change status")
        | x :: rest' =>
            if renamed status then
              match rest' with
              | [] => next x tail (Ok [])
              | path :: rest'' => next x path (head_loop w tail rest'')
              end
            else next "" x (head_loop w tail rest')
        end
  end.
Definition last_field (raw : string) : string := default "" (last (PyStr.split "000" raw)).
Definition _head_entries (w : worktree) (before after : string) : res (list dict) :=
  if String.eqb before after then Ok []
  else
    let '(code, out) := diff_name_status w before after in
    check raise_if (negb (code =? 0)) (RuntimeError "change-drift could not compare committed work") ;;
    let* entries := head_loop w (last_field out) (fields_of out) in
    Ok (sort_entries entries).
(** The entries of the worktree that differ from the baseline, classified. *)
Definition changed_entries (base current : list dict) (scope : list string) : list dict :=
  map (classified scope)
    (List.filter (fun e => match entry_at e base with
                           | Some e' => ne (VDict e') (VDict e)
                           | None => true
                           end) current).
(** Committed changes are added unless the baseline had that content already. *)
Fixpoint add_committed (base : list dict) (scope : list string) (committed changed : list dict) : list dict :=
  match committed with
  | [] => changed
  | e :: committed' =>
      let known := match at_path (field e "path") base with
                   | Some e' => eq (VStr (field e' "content_digest")) (get e "content_digest")
                   | None => false
                   end in
      add_committed base scope committed'
        (if known || existsb (same_key e) changed then changed else changed ++ [classified scope e])
  end.
Definition delta (task : string) (revision : Z) (recorded_at : string) (w : worktree) (baseline_record : dict)
    (scope : list string) (previous_digest : string) : res dict :=
  let* current := observe w in
  let base := entries_of baseline_record in
  let changed := changed_entries base (map dict_of (list_of (get current "entries"))) scope in
  let* committed := _head_entries w (str (get (payload baseline_record) "head")) (str (get current "head")) in
  let changed := sort_entries (add_committed base scope committed changed) in
  _record "delta" task revision recorded_at
    (update ([("baseline_digest", get baseline_record "digest")]) (update current [("entries", VList (map VDict changed))]))
    previous_digest.
Definition explain (task : string) (revision : Z) (recorded_at delta_digest : string) (paths : value) (reason : string)
    (generated : value) (previous_digest : string) : res dict :=
  check raise_when (py_or [cond (negb (fm DIGEST delta_digest)); unsafe_list paths])
          (ValueError "invalid change-drift explanation paths") ;;
  check raise_if (negb (PyStr.truthy (PyStr.strip reason)) || (1000 <? PyStr.len reason) || PyStr.has_char "010" reason)
          (ValueError "change-drift explanation reason is invalid") ;;
  let* l := iter paths in
  _record "explain" task revision recorded_at
    [("delta_digest", VStr delta_digest); ("paths", strs (PyStr.sorted_set (map text l))); ("reason", VStr reason);
     ("generated", generated)] previous_digest.
Definition rescope (task : string) (revision : Z) (recorded_at baseline_digest : string) (scope : value)
    (previous_digest : string) : res dict :=
  check raise_if (negb (fm DIGEST baseline_digest)) (ValueError "invalid change-drift baseline digest") ;;
  let* scope := normalize_scope scope in
  _record "rescope" task revision recorded_at
    [("baseline_digest", VStr baseline_digest); ("scope", strs scope)] previous_digest.
End drift.

(** ** Validation *)
Definition type_bool (v : value) : bool := match v with VBool _ => true | _ => false end.
Definition caught (e : exn) : bool :=
  is_ValueError e || match e with KeyError _ | TypeError _ => true | _ => false end.
(** [payload["scope"] == normalize_scope(payload["scope"])] *)
Definition check_scope (p : dict) (message : string) : res unit :=
  match (let* s := item p "scope" in
         let* n := normalize_scope s in
         raise_if (ne s (strs n)) (ValueError "scope is not canonical")) with
  | Ok _ => Ok tt
  | Raise e => if caught e then Raise (ValueError message) else Raise e
  end.
Definition ENTRY : list string := ["path"; "previous_path"; "status"; "generated"; "content_digest"].
Definition entry_invalid (with_class : bool) (v : value) : res bool :=
  match v with
  | VDict e =>
      py_or [
        cond (negb (keys_are e (ENTRY ++ if with_class then ["classification"; "material"] else [])));
        cond (negb (safe_path (get e "path")));
        cond (truthy (get e "previous_path") && negb (safe_path (get e "previous_path")));
        cond (negb (is_str (get e "previous_path")));
        cond (negb (is_str (get e "status")));
        cond (negb (PyStr.len (field e "status") =? 2));
        cond (negb (type_bool (get e "generated")));
        cond (negb (is_str (get e "content_digest")));
        cond (truthy (get e "content_digest") && negb (fm OBJECT (text (get e "content_digest"))));
        (if with_class then py_not (in_set (get e "classification") CLASSIFICATIONS) else Ok false);
        cond (with_class && negb (type_bool (get e "material")))]
  | _ => Ok true
  end.
Fixpoint check_entries (with_class : bool) (l : list value) : res unit :=
  match l with
  | [] => Ok tt
  | v :: l' =>
      check raise_when (entry_invalid with_class v) (ValueError "invalid change-drift observation entry") ;;
      check_entries with_class l'
  end.
Definition _validate_observation (p : dict) (with_scope with_class : bool) : res unit :=
  check raise_if (negb (keys_are p (["head"; "entries"] ++ if with_scope then ["scope"] else ["baseline_digest"]))
                  || negb (is_str (get p "head"))) (ValueError "invalid change-drift observation payload") ;;
  match get p "entries" with
  | VList entries =>
      check raise_if (Nat.ltb 4096 (length entries)) (ValueError "invalid change-drift observation entries") ;;
      check check_entries with_class entries ;;
      check raise_if (ne (VList entries) (VList (map VDict (sort_entries (map dict_of entries)))))
              (ValueError "change-drift observation entries are not canonical") ;;
      if with_scope then check_scope p "invalid change-drift baseline payload" else Ok tt
  | _ => Raise (ValueError "invalid change-drift observation entries")
  end.
Definition RECORD : list string :=
  ["schema_version"; "kind"; "task"; "task_revision"; "recorded_at"; "payload"; "previous_digest"; "digest"].
Definition IDENTITY : list string :=
  ["schema_version"; "kind"; "task"; "task_revision"; "payload"; "previous_digest"].
Definition identity (r : dict) : dict := map (fun k => (k, get r k)) IDENTITY.
Definition identity_invalid (r : dict) : res bool :=
  py_or [
    cond (ne (get r "schema_version") (VInt SCHEMA_VERSION));
    py_not (in_set (get r "kind") KINDS);
    cond (negb (fm TASK (str (get r "task"))));
    cond (negb (type_int (get r "task_revision")));
    (let* z := int_item r "task_revision" in Ok (z <? 1));
    cond (negb (is_str (get r "recorded_at")));
    cond (negb (truthy (get r "recorded_at")));
    cond (negb (is_str (get r "previous_digest")));
    cond (truthy (get r "previous_digest") && negb (fm DIGEST (text (get r "previous_digest"))));
    cond (ne (get r "digest") (VStr (digest (identity r))))].
Definition explanation_invalid (p : dict) : res bool :=
  py_or [
    cond (negb (keys_are p ["delta_digest"; "paths"; "reason"; "generated"]));
    cond (negb (fm DIGEST (str (get p "delta_digest"))));
    cond (negb (is_list (get p "paths")));
    unsafe_list (get p "paths");
    has_duplicates (list_of (get p "paths"));
    cond (negb (is_str (get p "reason")));
    cond (negb (PyStr.truthy (PyStr.strip (str (get p "reason")))));
    cond (1000 <? PyStr.len (str (get p "reason")));
    cond (PyStr.has_char "010" (str (get p "reason")));
    cond (negb (type_bool (get p "generated")))].
Definition has_baseline (p : dict) (fields : list string) : bool :=
  keys_are p fields && fm DIGEST (str (get p "baseline_digest")).
Definition validate (v : value) : res unit :=
  match v with
  | VDict r =>
      check raise_if (negb (keys_are r RECORD)) (ValueError "change-drift record fields are not exact") ;;
      check raise_when (identity_invalid r) (ValueError "invalid change-drift record identity") ;;
      match get r "payload" with
      | VDict p =>
          let kind := str (get r "kind") in
          if String.eqb kind "baseline" then _validate_observation p true false
          else if String.eqb kind "delta" then
            check raise_if (negb (has_baseline p ["baseline_digest"; "head"; "entries"]))
                    (ValueError "invalid change-drift delta payload") ;;
            _validate_observation p false true
          else if String.eqb kind "explain" then
            raise_when (explanation_invalid p) (ValueError "invalid change-drift explanation payload")
          else
            check raise_if (negb (has_baseline p ["baseline_digest"; "scope"]))
                    (ValueError "invalid change-drift re-scope payload") ;;
            check_scope p "invalid change-drift re-scope payload"
      | _ => Raise (ValueError "invalid change-drift record payload")
      end
  | _ => Raise (ValueError "change-drift record fields are not exact")
  end.

(** ** History *)
Definition is_kind (kind : string) (r : dict) : bool := is_s (get r "kind") kind.
Definition latest (l : list dict) (kind : string) : option dict := List.find (is_kind kind) (List.rev l).
Definition active_scope (l : list dict) (base : dict) : list string :=
  let scope_of r := map text (list_of (get (payload r) "scope")) in
  foldl (fun scope r => if is_kind "rescope" r && eq (get (payload r) "baseline_digest") (get base "digest")
                        then scope_of r else scope) (scope_of base) l.
Definition explained (l : list dict) (current : dict) : list value :=
  flat_map (fun r => if is_kind "explain" r && eq (get (payload r) "delta_digest") (get current "digest")
                     then list_of (get (payload r) "paths") else []) l.
Definition unresolved (l : list dict) : list dict :=
  match latest l "delta" with
  | None => []
  | Some current =>
      List.filter (fun e => truthy (get e "material") && negb (in_list (get e "path") (explained l current)))
        (entries_of current)
  end.
(** What [records] has read: the last digest and revision, the active baseline
    and the active delta. *)
Record Reading : Type := MkReading {
  previous_digest : string; previous_revision : Z; active_baseline : option dict; active_delta : option dict }.
Definition linked_to (base : option dict) (key : string) (r : dict) : bool :=
  match base with Some b => eq (get (payload r) key) (get b "digest") | None => false end.
(** [value[: value.index(record)]] *)
Fixpoint before_record (r : dict) (l : list dict) : list dict :=
  match l with
  | [] => []
  | x :: l' => if eq (VDict x) (VDict r) then [] else x :: before_record r l'
  end.
Definition read_record (meta : Meta) (all : list dict) (s : Reading) (v : value) : res Reading :=
  check validate v ;;
  let r := dict_of v in
  check raise_if (ne (get r "task") (get meta "id")) (ValueError "change-drift record task differs from task") ;;
  check raise_if (ne (get r "previous_digest") (VStr (previous_digest s)))
          (ValueError "change-drift history is not linked") ;;
  let* revision := int_item r "task_revision" in
  check raise_if (revision <=? previous_revision s) (ValueError "change-drift history revisions are not increasing") ;;
  let next base delta := Ok (MkReading (str (get r "digest")) revision base delta) in
  let busy := match active_delta s with Some _ => true | None => false end in
  if is_kind "baseline" r then
    check raise_if (busy && match unresolved (before_record r all) with [] => false | _ => true end)
            (ValueError "change-drift baseline bypasses unresolved work") ;;
    next (Some r) None
  else if is_kind "rescope" r then
    check raise_if (negb (linked_to (active_baseline s) "baseline_digest" r) || busy)
            (ValueError "change-drift re-scope is not linked to the active baseline") ;;
    next (active_baseline s) (active_delta s)
  else if is_kind "delta" r then
    check raise_if (negb (linked_to (active_baseline s) "baseline_digest" r) || busy)
            (ValueError "change-drift delta is not linked to the active baseline") ;;
    next (active_baseline s) (Some r)
  else
    check raise_if (negb (linked_to (active_delta s) "delta_digest" r))
            (ValueError "change-drift explanation is not linked to the active delta") ;;
    check raise_if match active_delta s with
                   | Some d => negb (forallb (fun p => existsb (fun e => eq (get e "path") p) (entries_of d))
                                       (list_of (get (payload r) "paths")))
                   | None => false
                   end (ValueError "change-drift explanation names unrelated paths") ;;
    next (active_baseline s) (active_delta s).
Definition unread : Reading := MkReading "" 0 None None.
Definition records (meta : Meta) : res (list dict) :=
  match get_or meta "change_drift" (VList []) with
  | VList l =>
      check raise_if (Nat.ltb MAX_RECORDS (length l)) (ValueError "invalid change-drift history") ;;
      let all := map dict_of l in
      let* _ := foldM (read_record meta all) unread l in
      Ok all
  | _ => Raise (ValueError "invalid change-drift history")
  end.
Definition completion_error (l : list dict) : res (option string) :=
  match l, last l with
  | r :: _, Some current =>
      let* _ := records [("id", get r "task"); ("change_drift", VList (map VDict l))] in
      Ok (if negb (is_kind "delta" current) && negb (is_kind "explain" current)
          then Some "CHANGE_DRIFT_DELTA_REQUIRED: active baseline requires a post-work delta"
          else match unresolved l with [] => None | _ => Some "CHANGE_DRIFT_UNEXPLAINED" end)
  | _, _ => Ok None
  end.
Definition metadata_error (meta : Meta) : res (option string) :=
  match records meta with
  | Ok _ => Ok None
  | Raise e => if is_ValueError e then Ok (Some (exn_msg e)) else Raise e
  end.
Definition unexplained : string := "CHANGE_DRIFT_UNEXPLAINED".
Definition done_admission_error (meta : Meta) : res (option string) :=
  match (let* history := records meta in
         let* error := completion_error history in
         Ok (history, error)) with
  | Raise e => if is_ValueError e then Ok (Some ("change-drift record is invalid: " +:+ exn_msg e)) else Raise e
  | Ok (history, error) =>
      if match error with Some e => negb (String.eqb e unexplained) | None => false end then Ok error
      else match unresolved history with
           | [] => Ok None
           | l => Ok (Some (unexplained +:+ ": material changed paths require explanation: "
                            +:+ PyStr.join ", " (map (fun e => field e "path") l)))
           end
  end.

(** ** The transition *)
Section apply.
  Context `{W : Worktrees}.
(** [v or []] *)
Definition or_list (v : value) : value := if truthy v then v else VList [].
Definition in_cycle (history : list dict) : bool :=
  match last history with Some r => is_kind "baseline" r || is_kind "rescope" r | None => false end.
Definition last_digest (history : list dict) : string :=
  match last history with Some r => str (get r "digest") | None => "" end.
Definition next_record (task : string) (revision : Z) (timestamp : string) (w : worktree) (history : list dict)
    (action : string) (scope_paths paths reason generated : value) : res (dict * list dict) :=
  if String.eqb action "baseline" then
    let* error := match history with [] => Ok None | _ => completion_error history end in
    check raise_if (match error with Some _ => true | None => false end)
            (RuntimeError "change-drift baseline requires completion of the active cycle") ;;
    let* r := baseline task revision timestamp w (or_list scope_paths) in
    Ok (r, [])
  else if String.eqb action "delta" then
    match latest history "baseline" with
    | Some base =>
        check raise_if (negb (in_cycle history)) (RuntimeError "change-drift delta requires a baseline") ;;
        let* r := delta task revision timestamp w base (active_scope history base) (last_digest history) in
        Ok (r, history)
    | None => Raise (RuntimeError "change-drift delta requires a baseline")
    end
  else if String.eqb action "explain" then
    match latest history "delta" with
    | Some current =>
        let* r := explain task revision timestamp (str (get current "digest")) (or_list paths)
                    (if truthy reason then str reason else "") generated (last_digest history) in
        Ok (r, history)
    | None => Raise (RuntimeError "change-drift explanation requires a delta")
    end
  else if String.eqb action "rescope" then
    match latest history "baseline" with
    | Some base =>
        check raise_if (negb (in_cycle history)) (RuntimeError "change-drift re-scope requires a baseline") ;;
        let* r := rescope task revision timestamp (str (get base "digest")) (or_list scope_paths) (last_digest history) in
        Ok (r, history)
    | None => Raise (RuntimeError "change-drift re-scope requires a baseline")
    end
  else Raise (ValueError "unknown change-drift action").
Definition bound_worktree (meta : Meta) : res worktree :=
  let key := get meta "worktree_key" in
  check raise_if (negb (valid_worktree_key key) || eq key (VStr product_worktree))
          (RuntimeError "change-drift requires a bound worktree") ;;
  open_worktree (text key).
Definition stale (args : Namespace) (meta : Meta) : res unit :=
  let* expected := attr args "expected_revision" in
  let* current := item meta "task_revision" in
  raise_if (ne expected current)
    (RuntimeError ("stale revision: expected " +:+ str expected +:+ ", current " +:+ str current)).
Definition apply (args : Namespace) (timestamp : string) : st Meta string := fun meta =>
  let outcome :=
    let* owner := attr args "owner" in
    check raise_if (ne (get meta "owner") owner || negb (is_s (get meta "status") "in_progress"))
            (RuntimeError "change-drift requires the active task owner") ;;
    check stale args meta ;;
    let* history := records meta in
    let* revision := int_item meta "task_revision" in
    let* w := bound_worktree meta in
    let* task := attr args "task" in
    let* action := attr args "change_drift_action" in
    let* next := next_record (str task) (revision + 1) timestamp w history (str action)
                   (getattr args "scope_path" VNull) (getattr args "path" VNull) (getattr args "reason" VNull)
                   (getattr args "generated" (VBool false)) in
    check raise_if (Nat.leb MAX_RECORDS (length next.2))
            (RuntimeError "change-drift active cycle reached its bounded record limit") ;;
    Ok (next, str action) in
  match outcome with
  | Raise e => (meta, Raise e)
  | Ok (r, history, action) =>
      (dset meta "change_drift" (VList (map VDict (history ++ [r]))),
       Ok ("Recorded change-drift " +:+ action +:+ " " +:+ str (get r "digest") +:+ "."))
  end.
End apply.
End ChangeDrift.
