(* ===== verification/DriftLaws.v ===== *)
(** * Change drift: theorems

    A valid history of change drift is linked by digests; the delta it records
    names every change Git shows against the baseline, classified against the
    active scope; a task is admitted to done exactly when its last cycle ends in
    a delta whose material paths are all explained, and a new cycle begins only
    after that. *)
From stdpp Require Import sorting.
From S2P Require Import Prelude PyStr Regex PyVal PyJson JsonParse Journal Chain ChangeDrift.

Module DriftLaws.
Import Py ChangeDrift.

(** ** Validated records *)
Record valid (r : dict) : Prop := Valid {
  v_kind : exists k, get r "kind" = VStr k /\ k ∈ KINDS;
  v_task : exists t, get r "task" = VStr t;
  v_revision : exists z, get r "task_revision" = VInt z /\ 1 <= z;
  v_previous : exists p, get r "previous_digest" = VStr p;
  v_digest : get r "digest" = VStr (digest (identity r));
  v_payload : exists p, get r "payload" = VDict p;
}.
Lemma TASK_str v : fm TASK (str v) = true -> exists t, v = VStr t.
Proof.
  unfold fm, TASK, Regex.TASK. intros E%Regex.fullmatch_matches%Regex.cat_spec%Regex.matches_cat_inv.
  destruct E as (s1 & s2 & E & ->%Regex.lit_matches & _). apply JsonParse.str_plain in E; [|done]. by eexists.
Qed.
Lemma py_not_in_set v ss : py_not (in_set v ss) = Ok false -> exists s, v = VStr s /\ s ∈ ss.
Proof.
  unfold py_not, in_set. intros (b & (u & _ & E)%rbind_Ok_inv & E')%rbind_Ok_inv. apply Ok_inj in E, E'. subst b.
  apply negb_false_iff in E'. destruct v; try done. apply PyStr.mem_spec in E'. by exists s.
Qed.
Lemma validate_inv v u : validate v = Ok u -> exists r, v = VDict r /\ valid r.
Proof.
  unfold validate. destruct v as [| | | | |r]; try done.
  intros (u0 & _ & (u1 & Hi%raise_when_Ok & E)%rbind_Ok_inv)%rbind_Ok_inv. exists r. split; [done|].
  unfold identity_invalid in Hi. apply py_or_false in Hi. repeat (apply Forall_cons in Hi as [? Hi]). unfold cond in *.
  repeat match goal with H : Ok _ = Ok false |- _ => apply Ok_inj in H end.
  repeat match goal with H : negb _ = false |- _ => apply negb_false_iff in H end.
  split.
  - by apply py_not_in_set.
  - by apply TASK_str.
  - destruct (get r "task_revision") as [| |z| | |] eqn:Ez; try done. exists z. split; [done|].
    match goal with H : rbind _ _ = Ok false |- _ => apply rbind_Ok_inv in H as (z' & Hz' & H); apply Ok_inj, Z.ltb_ge in H end.
    unfold int_item in Hz'. apply rbind_Ok_inv in Hz' as (w & Hw%item_get & Hz'). rewrite Ez in Hw. subst w. by injection Hz' as <-.
  - by apply is_str_inv.
  - match goal with H : ne (get r "digest") _ = false |- _ => by apply ne_false, eq_str in H end.
  - destruct (get r "payload"); try done. eauto.
Qed.

(** ** Histories *)
Definition revision (r : dict) : Z := match get r "task_revision" with VInt z => z | _ => 0 end.
Record history (task : value) (l : list dict) (s : Reading) : Prop := History {
  h_valid : Forall valid l;
  h_task : Forall (fun r => get r "task" = task) l;
  h_tip : previous_digest s = Chain.tip identity "" l;
  h_links : Chain.each (fun pre r => get r "previous_digest" = VStr (Chain.tip identity "" pre)) l;
  h_rising : Chain.rising revision l (previous_revision s);
}.
Lemma drift_read_record_inv (meta : Meta) all s v s' : read_record meta all s v = Ok s' ->
  exists r z, v = VDict r /\ valid r /\ get r "task" = get meta "id" /\ get r "task_revision" = VInt z /\
    get r "previous_digest" = VStr (previous_digest s) /\ previous_revision s < z /\
    previous_digest s' = str (get r "digest") /\ previous_revision s' = z.
Proof.
  unfold read_record. intros (u & (r & -> & Hr)%validate_inv & E)%rbind_Ok_inv. cbv zeta in E.
  change (dict_of (VDict r)) with r in E.
  apply rbind_Ok_inv in E as (u1 & Ht%raise_if_Ok%ne_false & (u2 & Hp%raise_if_Ok%ne_false%eq_str & (z & Ez & E)%rbind_Ok_inv)%rbind_Ok_inv).
  apply rbind_Ok_inv in E as (u3 & Hz%raise_if_Ok%Z.leb_gt & E).
  destruct (v_task _ Hr) as (t & Et). rewrite Et in Ht. apply eq_str_l in Ht.
  destruct (v_revision _ Hr) as (z' & Ez' & _). unfold int_item in Ez. apply rbind_Ok_inv in Ez as (w & Hw%item_get & Ez).
  rewrite Ez' in Hw. subst w. apply Ok_inj in Ez. subst z'. exists r, z. rewrite Et, Ht.
  assert (exists base delta, s' = MkReading (str (get r "digest")) z base delta) as (base & delta & ->); [|done].
  destruct (is_kind "baseline" r); [|destruct (is_kind "rescope" r); [|destruct (is_kind "delta" r)]];
    apply rbind_Ok_inv in E as (u4 & _ & E).
  4: apply rbind_Ok_inv in E as (u5 & _ & E).
  all: apply Ok_inj in E; subst s'; eauto.
Qed.
Lemma history_step (meta : Meta) all l s v s' : history (get meta "id") l s -> read_record meta all s v = Ok s' ->
  v = VDict (dict_of v) /\ history (get meta "id") (l ++ [dict_of v]) s'.
Proof.
  intros [Hv Ht Htip Hl Hr] (r & z & -> & Hvr & Et & Ez & Hp & Hz & E1 & E2)%drift_read_record_inv. split; [done|].
  change (dict_of (VDict r)) with r. assert (revision r = z) as Hz' by (by unfold revision; rewrite Ez). split.
  - by apply Forall_app, conj, Forall_singleton.
  - by apply Forall_app, conj, Forall_singleton.
  - by rewrite E1, Chain.tip_snoc, (v_digest _ Hvr).
  - apply Chain.each_snoc. by rewrite <- Htip.
  - rewrite E2, <- Hz'. apply (Chain.rising_snoc _ _ _ _ Hr). by rewrite Hz'.
Qed.
Lemma drift_history_nil task : history task [] unread.
Proof. split; [constructor.. | done | apply Chain.each_nil | apply Chain.rising_nil]. Qed.
Lemma drift_records_inv (meta : Meta) l : records meta = Ok l ->
  get_or meta "change_drift" (VList []) = VList (map VDict l) /\ (length l <= MAX_RECORDS)%nat /\
  exists s, foldM (read_record meta l) unread (map VDict l) = Ok s /\ history (get meta "id") l s.
Proof.
  unfold records. destruct (get_or _ _ _) as [| | | |h|]; try done.
  intros (? & E1%raise_if_Ok & E)%rbind_Ok_inv. cbv zeta in E. apply rbind_Ok_inv in E as (s & Es & E). apply Ok_inj in E. subst l.
  destruct (Chain.foldM_history _ _ _ (history_step meta (map dict_of h)) _ [] _ _ (drift_history_nil _) Es) as [Eh Hh].
  rewrite <- Eh, length_map. split_and!; [done | by apply Nat.ltb_ge in E1 | by exists s].
Qed.
Lemma drift_wf_identity r : wf (VDict r) = true -> wf (VDict (identity r)) = true.
Proof.
  intros Hw. cbn [wf]. apply andb_true_iff. split; [by vm_compute|]. unfold identity. rewrite forallb_forall.
  intros kv (k & <- & _)%in_map_iff. cbn [snd]. unfold get, get_or. destruct (dget r k) eqn:E; [by eapply wf_dget | done].
Qed.
Lemma drift_history_digests task l s : history task l s -> Forall (fun r => get r "digest" = VStr (Chain.digest_of identity r)) l.
Proof. intros Hh. eapply Forall_impl; [apply (h_valid _ _ _ Hh) | apply v_digest]. Qed.
Lemma drift_records_linked (meta : Meta) l : records meta = Ok l -> wf (VDict meta) = true ->
  Chain.linked identity "" l /\ last_digest l = Chain.tip identity "" l /\
  StronglySorted (fun x y => revision x < revision y) l.
Proof.
  intros (E & _ & s & _ & Hh)%drift_records_inv W. pose proof (drift_history_digests _ _ _ Hh) as Hd. split_and!.
  - apply Chain.linked_each; [|done | apply (h_links _ _ _ Hh)].
    eapply Forall_impl; [by eapply Chain.stored_wf | apply drift_wf_identity].
  - by apply Chain.last_digest_tip.
  - apply (h_rising _ _ _ Hh).
Qed.

(** The history of change drift is pinned by its last digest: two tasks whose
    valid histories end in the same digest have the same records - kind, task,
    revision, payload and order - or exhibit two texts with the same SHA-256
    digest; and every history has strictly increasing revisions. *)
Theorem drift_history_pinned (meta meta' : Meta) l l' :
  records meta = Ok l -> records meta' = Ok l' -> wf (VDict meta) = true -> wf (VDict meta') = true ->
  StronglySorted (fun x y => revision x < revision y) l /\
  (last_digest l = last_digest l' ->
   map (Chain.content identity) l = map (Chain.content identity) l' \/ Chain.colliding identity l l').
Proof.
  intros E E' W W'. destruct (drift_records_linked _ _ E W) as (Hl & Ht & Hi), (drift_records_linked _ _ E' W') as (Hl' & Ht' & _).
  split; [done|]. rewrite Ht, Ht'. by apply Chain.linked_inj.
Qed.

(** ** Admission *)
(** A path of a delta is explained by a record about that delta. *)
Definition explained_by (l : list dict) (d e : dict) : Prop :=
  exists r p, r ∈ l /\ is_kind "explain" r = true /\ eq (get (payload r) "delta_digest") (get d "digest") = true /\
    p ∈ list_of (get (payload r) "paths") /\ eq p (get e "path") = true.
Lemma explained_spec l d e : in_list (get e "path") (explained l d) = true <-> explained_by l d e.
Proof.
  unfold in_list, explained, explained_by. rewrite existsb_exists. split.
  - intros (p & (r & Hr & Hp)%in_flat_map & E). apply list_elem_of_In in Hr.
    destruct (is_kind "explain" r && _) eqn:Ek; [|done]. apply andb_true_iff in Ek as [Ek1 Ek2].
    exists r, p. split_and!; try done. by apply list_elem_of_In.
  - intros (r & p & Hr & Hk & Hd & Hp & E). exists p. split; [|done]. apply in_flat_map. exists r.
    split; [by apply list_elem_of_In|]. rewrite Hk, Hd. by apply list_elem_of_In.
Qed.
(** Every material path of the last delta is explained. *)
Definition all_explained (l : list dict) : Prop :=
  forall d e, latest l "delta" = Some d -> e ∈ entries_of d -> truthy (get e "material") = true -> explained_by l d e.
Lemma unresolved_nil l : unresolved l = [] <-> all_explained l.
Proof.
  unfold unresolved, all_explained. destruct (latest l "delta") as [d|]; [|by split]. split.
  - intros E d' e [= <-] He Hm. apply explained_spec. destruct (in_list (get e "path") (explained l d)) eqn:Ei; [done|].
    assert (e ∈ List.filter (fun e => truthy (get e "material") && negb (in_list (get e "path") (explained l d))) (entries_of d)) as Hin.
    { apply list_elem_of_In, filter_In. split; [by apply list_elem_of_In|]. by rewrite Hm, Ei. }
    rewrite E in Hin. by apply elem_of_nil in Hin.
  - intros H. destruct (List.filter _ _) as [|e f] eqn:E; [done|]. exfalso.
    assert (In e (e :: f)) as Hin by (by left). rewrite <- E in Hin. apply filter_In in Hin as [Hin [Hm Hn]%andb_true_iff].
    apply list_elem_of_In in Hin. apply negb_true_iff in Hn. by rewrite (proj2 (explained_spec l d e) (H d e eq_refl Hin Hm)) in Hn.
Qed.
(** The cycle of a history has its delta. *)
Definition ended (l : list dict) : Prop := exists r, last l = Some r /\ is_kind "delta" r || is_kind "explain" r = true.
Definition complete (l : list dict) : Prop := l = [] \/ (ended l /\ all_explained l).

Lemma read_record_same_id (m m' : Meta) all s v : get m "id" = get m' "id" -> read_record m all s v = read_record m' all s v.
Proof. intros E. unfold read_record. by rewrite E. Qed.
Lemma records_again (meta : Meta) r l : records meta = Ok (r :: l) ->
  records [("id", get r "task"); ("change_drift", VList (map VDict (r :: l)))] = Ok (r :: l).
Proof.
  intros (_ & Hl & s & Es & Hh)%drift_records_inv. pose proof (h_task _ _ _ Hh) as Ht. apply Forall_cons in Ht as [Ht _].
  unfold records. change (get_or _ "change_drift" _) with (VList (map VDict (r :: l))).
  cbv iota. rewrite length_map. replace (Nat.ltb MAX_RECORDS (length (r :: l))) with false by (symmetry; by apply Nat.ltb_ge).
  cbn [raise_if rbind]. replace (map dict_of (map VDict (r :: l))) with (r :: l) by (by rewrite map_map, map_id).
  assert (forall vs s, foldM (read_record [("id", get r "task"); ("change_drift", VList (map VDict (r :: l)))] (r :: l)) s vs
          = foldM (read_record meta (r :: l)) s vs) as ->; [|by rewrite Es].
  induction vs as [|v vs IH]; intros s0; [done|]. cbn [foldM].
  rewrite (read_record_same_id _ meta) by (by rewrite <- Ht). by destruct (read_record meta (r :: l) s0 v); cbn [rbind].
Qed.
Lemma completion_spec (meta : Meta) l : records meta = Ok l ->
  exists e, completion_error l = Ok e /\ (e = None <-> complete l) /\ (e = Some unexplained -> unresolved l <> []) /\
    (ended l -> e <> None -> e = Some unexplained).
Proof.
  intros E. destruct l as [|r l]; [exists None; split_and!; try done; split; [by left | done]|].
  unfold completion_error. destruct (last (r :: l)) as [c|] eqn:Ec; [|by apply last_None in Ec].
  rewrite (records_again _ _ _ E). cbn [rbind]. eexists. split; [done|].
  destruct (is_kind "delta" c) eqn:Ed, (is_kind "explain" c) eqn:Ex; cbn [negb andb].
  4: { split_and!; try done; [split; [done|]; intros [?|[(c' & Ec' & Hk) _]]; [done|]; rewrite Ec in Ec'; injection Ec' as <-; by rewrite Ed, Ex in Hk|].
       intros (c' & Ec' & Hk). rewrite Ec in Ec'. injection Ec' as <-. by rewrite Ed, Ex in Hk. }
  all: assert (ended (r :: l)) as He by (exists c; by rewrite Ed, Ex).
  all: destruct (unresolved (r :: l)) eqn:Eu; split_and!; try done.
  all: try (split; [intros _; right; split; [done | by apply unresolved_nil] | done]).
  all: split; [done|]; intros [?|[_ Ha]]; [done|]; apply unresolved_nil in Ha; congruence.
Qed.

(** C32: The changes of a task admit it to done exactly when their history is
    valid and complete: there is none, or the last cycle ends in a delta or an
    explanation and every material path of the last delta is named by an
    explanation of that delta. *)
Theorem completion_requires_explanations (meta : Meta) :
  done_admission_error meta = Ok None <-> exists l, records meta = Ok l /\ complete l.
Proof.
  unfold done_admission_error. destruct (records meta) as [l|e] eqn:E; cbn [rbind].
  - destruct (completion_spec _ _ E) as (err & -> & Hn & Hu & He). cbn [rbind]. split.
    + intros H. exists l. split; [done|]. destruct err as [m|]; [|by apply Hn].
      destruct (String.eqb m unexplained) eqn:Em; [|done]. apply String.eqb_eq in Em. subst m. cbn [negb] in H.
      specialize (Hu eq_refl). by destruct (unresolved l).
    + intros (l' & [= <-] & Hc). assert (err = None) as -> by (by apply Hn).
      destruct Hc as [->|[_ Ha]]; [done|]. apply unresolved_nil in Ha. by rewrite Ha.
  - split; [by destruct (is_ValueError e) | by intros (? & ? & _)].
Qed.

(** ** The transition *)
Section transition.
  Context `{W : Worktrees}.
(** The record an action writes, and what is left of the history before it. *)
Lemma record_inv kind task z at_ p previous r : _record kind task z at_ p previous = Ok r ->
  get r "kind" = VStr kind /\ get r "task" = VStr task /\ revision r = z /\ get r "payload" = VDict p /\
  get r "previous_digest" = VStr previous /\ get r "digest" = VStr (digest (identity r)).
Proof.
  unfold _record. intros (u & _ & (u1 & _ & E)%rbind_Ok_inv)%rbind_Ok_inv. cbv zeta in E. apply Ok_inj in E. subst r.
  split_and!; try done.
Qed.
(** *** The delta *)
(** An entry that the baseline does not have as it is now. *)
Definition unlike (base : list dict) (e : dict) : bool :=
  match entry_at e base with Some e' => ne (VDict e') (VDict e) | None => true end.
(** A committed entry whose content the baseline did not have at that path. *)
Definition known_content (base : list dict) (e : dict) : bool :=
  match at_path (field e "path") base with
  | Some e' => eq (VStr (field e' "content_digest")) (get e "content_digest")
  | None => false
  end.
(** The paths of an entry. *)
Definition paths_of (e : dict) : list string :=
  field e "path" :: if truthy (get e "previous_path") then [field e "previous_path"] else [].
Lemma classified_get scope e k : k <> "classification" -> k <> "material" -> get (classified scope e) k = get e k.
Proof.
  intros H1 H2. unfold classified. cbn [update]. rewrite !get_dset.
  destruct (String.eqb_spec "material" k); [congruence|]. by destruct (String.eqb_spec "classification" k).
Qed.
Lemma classified_spec scope e :
  get (classified scope e) "material" = VBool true /\
  (get (classified scope e) "classification" = VStr "in_scope" <-> Forall (fun p => _inside p scope = true) (paths_of e)).
Proof.
  unfold classified. cbn [update]. rewrite !get_dset. cbn [String.eqb Ascii.eqb Bool.eqb]. split; [done|].
  change (field e "path" :: _) with (paths_of e). rewrite list.Forall_forall. setoid_rewrite list_elem_of_In.
  rewrite <- forallb_forall. by destruct (forallb _ (paths_of e)).
Qed.
Lemma same_key_classified scope e e' : same_key e (classified scope e') = same_key e e'.
Proof. unfold same_key, field. by rewrite !classified_get. Qed.
Lemma same_key_refl e : same_key e e = true.
Proof. unfold same_key. by rewrite !String.eqb_refl. Qed.
Lemma changed_entries_elem base current scope e' :
  e' ∈ changed_entries base current scope <-> exists e, e ∈ current /\ unlike base e = true /\ e' = classified scope e.
Proof.
  unfold changed_entries. rewrite list_elem_of_fmap. setoid_rewrite list_elem_of_In. setoid_rewrite filter_In. unfold unlike. naive_solver.
Qed.
Lemma add_committed_spec base scope committed : forall changed,
  (forall e, e ∈ changed -> e ∈ add_committed base scope committed changed) /\
  (forall e, e ∈ committed -> known_content base e = false ->
     exists e', e' ∈ add_committed base scope committed changed /\ same_key e e' = true) /\
  (forall e', e' ∈ add_committed base scope committed changed -> e' ∈ changed \/ exists e, e ∈ committed /\ e' = classified scope e).
Proof.
  induction committed as [|c committed IH]; intros changed; cbn [add_committed].
  { split_and!; [done | by intros e ?%elem_of_nil | by left]. }
  set (next := if _ || _ then changed else changed ++ [classified scope c]). destruct (IH next) as (H1 & H2 & H3).
  assert (forall e, e ∈ changed -> e ∈ next) as Hn.
  { intros e He. unfold next. destruct (_ || _); [done|]. apply elem_of_app. by left. }
  split_and!.
  - intros e He. by apply H1, Hn.
  - intros e [->|He]%elem_of_cons Hk; [|by apply H2].
    assert (next = if known_content base c || existsb (same_key c) changed then changed else changed ++ [classified scope c]) as Hnext by done.
    rewrite Hk in Hnext. cbn [orb] in Hnext.
    destruct (existsb (same_key c) changed) eqn:Es.
    + apply existsb_exists in Es as (x & Hx & Hs). apply list_elem_of_In in Hx. exists x. split; [by apply H1, Hn | done].
    + exists (classified scope c). split; [|by rewrite same_key_classified, same_key_refl].
      apply H1. rewrite Hnext. apply elem_of_app. right. by left.
  - intros e' [He|(e & He & ->)]%H3; [|right; exists e; by split; [right|]].
    unfold next in He. destruct (_ || _); [by left|]. apply elem_of_app in He as [He|He%list_elem_of_singleton]; [by left|].
    right. exists c. by split; [left|].
Qed.
Lemma observe_inv w current : observe w = Ok current ->
  exists h es, current = [("head", VStr h); ("entries", VList (map VDict es))].
Proof.
  unfold observe. destruct (rev_parse w) as [hc h], (status_porcelain w) as [c s].
  intros (u & _ & (es & _ & E)%rbind_Ok_inv)%rbind_Ok_inv. apply Ok_inj in E. subst current. eauto.
Qed.
Lemma entries_of_observed h es : map dict_of (list_of (get [("head", VStr h); ("entries", VList (map VDict es))] "entries")) = es.
Proof. cbn -[map]. by rewrite map_map, map_id. Qed.

(** A delta reports every change: each entry that Git shows now and that the
    baseline does not have as it is, and each committed change whose content
    the baseline did not have at that path, is in it; it holds nothing that
    neither shows; and an entry is in scope exactly when all its paths are
    inside the scope. *)
Theorem delta_reports_every_change task z at_ w base scope previous r :
  delta task z at_ w base scope previous = Ok r ->
  exists h seen committed, observe w = Ok [("head", VStr h); ("entries", VList (map VDict seen))] /\
    _head_entries w (str (get (payload base) "head")) h = Ok committed /\
    (forall e, e ∈ seen -> unlike (entries_of base) e = true -> classified scope e ∈ entries_of r) /\
    (forall e, e ∈ committed -> known_content (entries_of base) e = false -> exists e', e' ∈ entries_of r /\ same_key e e' = true) /\
    (forall e', e' ∈ entries_of r ->
       (exists e, e' = classified scope e /\ (e ∈ seen \/ e ∈ committed)) /\ get e' "material" = VBool true /\
       (get e' "classification" = VStr "in_scope" <-> Forall (fun p => _inside p scope = true) (paths_of e'))).
Proof.
  unfold delta. intros (current & Eo & E)%rbind_Ok_inv. destruct (observe_inv _ _ Eo) as (h & seen & ->). cbv zeta in E.
  apply rbind_Ok_inv in E as (committed & Ec & E). rewrite entries_of_observed in E.
  exists h, seen, committed. split; [done|]. split; [exact Ec|].
  set (all := sort_entries _) in E. apply record_inv in E as (_ & _ & _ & Ep & _).
  assert (entries_of r = all) as ->.
  { unfold entries_of, payload. rewrite Ep. cbn -[map]. by rewrite map_map, map_id. }
  clear Ep. destruct (add_committed_spec (entries_of base) scope committed (changed_entries (entries_of base) seen scope)) as (H1 & H2 & H3).
  assert (forall e, e ∈ all <-> e ∈ add_committed (entries_of base) scope committed (changed_entries (entries_of base) seen scope)) as Ha.
  { intros e. apply sort_by_elem. }
  split_and!.
  - intros e He Hu. apply Ha, H1, changed_entries_elem. by exists e.
  - intros e He Hk. destruct (H2 e He Hk) as (e' & He' & Hs). exists e'. split; [by apply Ha | done].
  - intros e' He'%Ha%H3. assert (exists e, e' = classified scope e /\ (e ∈ seen \/ e ∈ committed)) as (e & -> & He).
    { destruct He' as [(e & He & _ & ->)%changed_entries_elem|(e & He & ->)]; exists e; auto. }
    split; [by exists e|]. replace (paths_of (classified scope e)) with (paths_of e); [apply classified_spec|].
    unfold paths_of, field. by rewrite !classified_get.
Qed.

(** *** The history an action leaves *)
Lemma drift_next_record_inv task z at_ w l action scope paths reason generated r kept :
  next_record task z at_ w l action scope paths reason generated = Ok (r, kept) ->
  get r "kind" = VStr action /\ revision r = z /\ kept = (if String.eqb action "baseline" then [] else l) /\
  get r "previous_digest" = VStr (last_digest kept) /\
  (action = "baseline" -> l <> [] -> completion_error l = Ok None) /\
  (action = "delta" \/ action = "rescope" -> in_cycle l = true) /\
  (action = "explain" -> exists d, latest l "delta" = Some d /\ get (payload r) "delta_digest" = VStr (str (get d "digest"))).
Proof.
  unfold next_record. destruct (String.eqb_spec action "baseline") as [->|_].
  { intros (e & Ee & (u & He%raise_if_Ok & (r' & Er & E)%rbind_Ok_inv)%rbind_Ok_inv)%rbind_Ok_inv. injection E as -> <-.
    unfold baseline in Er. apply rbind_Ok_inv in Er as (seen & _ & (sc & _ & (Ek & _ & Ez & _ & Ep & _)%record_inv)%rbind_Ok_inv).
    split_and!; try done; [|by intros [?|?]]. intros _ Hn. destruct l; [done|]. by destruct e. }
  destruct (String.eqb_spec action "delta") as [->|_].
  { destruct (latest l "baseline") as [base|]; [|done].
    intros (u & Hc%raise_if_Ok%negb_false_iff & (r' & Er & E)%rbind_Ok_inv)%rbind_Ok_inv. injection E as -> <-.
    unfold delta in Er. apply rbind_Ok_inv in Er as (cur & _ & Er). cbv zeta in Er.
    apply rbind_Ok_inv in Er as (com & _ & (Ek & _ & Ez & _ & Ep & _)%record_inv). by split_and!. }
  destruct (String.eqb_spec action "explain") as [->|_].
  { destruct (latest l "delta") as [d|]; [|done]. intros (r' & Er & E)%rbind_Ok_inv. injection E as -> <-.
    unfold explain in Er. apply rbind_Ok_inv in Er as (u & _ & (u1 & _ & (ps & _ & (Ek & _ & Ez & Epl & Ep & _)%record_inv)%rbind_Ok_inv)%rbind_Ok_inv).
    split_and!; try done; [by intros [?|?]|]. intros _. exists d. unfold payload. by rewrite Epl. }
  destruct (String.eqb_spec action "rescope") as [->|_]; [|done].
  destruct (latest l "baseline") as [base|]; [|done].
  intros (u & Hc%raise_if_Ok%negb_false_iff & (r' & Er & E)%rbind_Ok_inv)%rbind_Ok_inv. injection E as -> <-.
  unfold rescope in Er. apply rbind_Ok_inv in Er as (u1 & _ & (sc & _ & (Ek & _ & Ez & _ & Ep & _)%record_inv)%rbind_Ok_inv). by split_and!.
Qed.

(** An action on the changes of a task appends one record, of its kind and the
    next revision, linked to the valid history it found, and touches no other
    field.  Only a baseline starts afresh: it drops the history, which it may
    only when that history is complete, so an explained delta is never skipped;
    a delta or a new scope comes only before the cycle has its delta, and an
    explanation names the last delta. *)
Theorem drift_cycle_order args at_ (meta meta' : Meta) msg :
  apply args at_ meta = (meta', Ok msg) ->
  exists l r action z, records meta = Ok l /\ int_item meta "task_revision" = Ok z /\
    get r "kind" = VStr action /\ revision r = z + 1 /\
    let kept := if String.eqb action "baseline" then [] else l in
    meta' = dset meta "change_drift" (VList (map VDict (kept ++ [r]))) /\ (length kept < MAX_RECORDS)%nat /\
    get r "previous_digest" = VStr (last_digest kept) /\
    (action = "baseline" -> complete l) /\ (action = "delta" \/ action = "rescope" -> in_cycle l = true) /\
    (action = "explain" -> exists d, latest l "delta" = Some d /\ get (payload r) "delta_digest" = VStr (str (get d "digest"))).
Proof.
  unfold apply. cbv zeta. destruct (rbind _ _) as [[[r kept] action]|e] eqn:E; [|done]. intros [= <- _].
  apply rbind_Ok_inv in E as (owner & _ & (u & _ & (u1 & _ & (l & El & (z & Ez & E)%rbind_Ok_inv)%rbind_Ok_inv)%rbind_Ok_inv)%rbind_Ok_inv).
  apply rbind_Ok_inv in E as (w & _ & (task & _ & (av & _ & (next & En & (u2 & Hl%raise_if_Ok & E)%rbind_Ok_inv)%rbind_Ok_inv)%rbind_Ok_inv)%rbind_Ok_inv).
  injection E as -> <-. cbn [snd] in Hl. apply drift_next_record_inv in En as (Ek & Er & -> & Ep & Hb & Hd & Hx).
  exists l, r, (str av), z. split_and!; try done; [by apply Nat.leb_gt|]. intros Ha.
  destruct (decide (l = [])) as [->|Hn]; [by left|]. specialize (Hb Ha Hn).
  destruct (completion_spec _ _ El) as (err & Ee & Hc & _). rewrite Hb in Ee. injection Ee as <-. by apply Hc.
Qed.
End transition.

(** ** Witnesses *)
Module Sample.
Definition hash : string := "0123456789012345678901234567890123456789".
Definition nul : string := String "000" "".
(** A worktree, and the porcelain status Git prints of it. *)
Definition worktrees (status : string) : Worktrees := {|
  worktree := unit;
  open_worktree key := if String.eqb key "tree" then Ok tt else Raise (RuntimeError "change-drift worktree is unavailable");
  product_worktree := "product";
  rev_parse _ := (0, hash);
  status_porcelain _ := (0, status);
  diff_name_status _ _ _ := (0, "");
  present _ _ := true;
  hash_object _ _ := (0, hash);
|}.
Definition before : Worktrees := worktrees "".
Definition after : Worktrees := worktrees (" M src/a.py" +:+ nul +:+ "?? notes.txt" +:+ nul).
Definition task : Meta := [
  ("id", VStr "AR-0001"); ("status", VStr "in_progress"); ("owner", VStr "ann"); ("task_revision", VInt 3);
  ("worktree_key", VStr "tree")].
Definition args (action : string) (revision : Z) : Namespace := [
  ("task", VStr "AR-0001"); ("owner", VStr "ann"); ("expected_revision", VInt revision);
  ("change_drift_action", VStr action); ("scope_path", strs ["src"]); ("path", strs ["notes.txt"; "src/a.py"]);
  ("reason", VStr "needed by the test")].
Definition stamp : string := "2026-01-02T00:00:00+00:00".
Definition started : Meta := Eval vm_compute in fst (@apply before (args "baseline" 3) stamp task).
Definition found : Meta := Eval vm_compute in
  fst (@apply after (args "delta" 4) stamp (dset started "task_revision" (VInt 4))).
Definition told : Meta := Eval vm_compute in
  fst (@apply after (args "explain" 5) stamp (dset found "task_revision" (VInt 5))).
Definition next : Meta := Eval vm_compute in dset told "task_revision" (VInt 6).
Definition restarted : Meta := Eval vm_compute in fst (@apply after (args "baseline" 6) stamp next).
Definition reread : Meta := Eval vm_compute in Journal.canon_items told.
Definition history_of (meta : Meta) : list dict := match records meta with Ok l => l | Raise _ => [] end.
Definition base : dict := Eval vm_compute in default [] (head (history_of started)).
Definition found_delta : res dict := Eval vm_compute in @delta after "AR-0001" 5 stamp tt base ["src"] (last_digest [base]).
Definition delta_record : dict := Eval vm_compute in match found_delta with Ok r => r | Raise _ => [] end.
Definition changed : dict := [("path", VStr "notes.txt"); ("previous_path", VStr ""); ("status", VStr "??");
  ("generated", VBool false); ("content_digest", VStr hash)].
End Sample.
Example sample_admitted : done_admission_error Sample.told = Ok None /\ done_admission_error Sample.found <> Ok None.
Proof. split; vm_compute; [reflexivity | discriminate]. Qed.
Lemma drift_history_pinned_witness :
  length (Sample.history_of Sample.told) = 3%nat /\
  (map (Chain.content identity) (Sample.history_of Sample.told) = map (Chain.content identity) (Sample.history_of Sample.reread) \/
   Chain.colliding identity (Sample.history_of Sample.told) (Sample.history_of Sample.reread)).
Proof.
  split; [vm_compute; reflexivity|].
  apply (drift_history_pinned Sample.told Sample.reread); vm_compute; reflexivity.
Defined.
Lemma delta_reports_every_change_witness : classified ["src"] Sample.changed ∈ entries_of Sample.delta_record.
Proof.
  destruct (@delta_reports_every_change Sample.after "AR-0001" 5 Sample.stamp tt Sample.base ["src"]
              (last_digest [Sample.base]) Sample.delta_record) as (h & seen & committed & Eo & _ & H & _); [vm_compute; reflexivity|].
  vm_compute in Eo. injection Eo as <- Es. apply (H Sample.changed); [|vm_compute; reflexivity].
  destruct seen as [|e seen]; [discriminate|]. injection Es as <- _. left.
Defined.
Lemma drift_cycle_order_witness :
  length (Sample.history_of Sample.restarted) = 1%nat /\ complete (Sample.history_of Sample.next).
Proof.
  split; [vm_compute; reflexivity|].
  destruct (@drift_cycle_order Sample.after (Sample.args "baseline" 6) Sample.stamp Sample.next Sample.restarted
              (match snd (@apply Sample.after (Sample.args "baseline" 6) Sample.stamp Sample.next) with Ok m => m | _ => "" end))
    as (l & r & action & z & El & _ & Ek & _ & Em & _ & _ & Hb & _).
  - vm_compute. reflexivity.
  - unfold Sample.history_of. rewrite El. apply Hb. destruct (String.eqb_spec action "baseline") as [|Hn]; [done|]. exfalso.
    vm_compute in El. injection El as <-. cbn [app] in Em. vm_compute in Em. discriminate Em.
Defined.
End DriftLaws.
