(* ===== verification/Assumptions.v ===== *)
(** * Assumption revalidation ([assumption_revalidation.py])

    The linked history of the assumptions a task declared - a base commit, the
    revision of a dependency, the content of a file - and their freshness,
    which is always a new observation.  Git and the files are the interface
    [Observations]; the command line is not modelled. *)
From S2P Require Import Prelude PyStr Regex PyVal PyJson ChangeDrift.

(** What stands behind a reference to a file below the state root. *)
Inductive file_state : Type :=
  | Escapes | Unavailable | Irregular | Regular (content : string).
Class Observations : Type := {
  (** a directory of that key inside the projects root *)
  base_available : string -> bool;
  (** [git rev-parse --verify HEAD^{commit}] there: return code and output *)
  base_head : string -> Z * string;
  state_file : string -> file_state;
}.

Module Assumptions.
Import Py.
Definition fm := Regex.fullmatch.
Definition safe_path := ChangeDrift.safe_path.
Definition text := ChangeDrift.text.
Definition dict_of := ChangeDrift.dict_of.
Definition type_bool := ChangeDrift.type_bool.
Definition OBJECT := ChangeDrift.OBJECT.
Definition SCHEMA_VERSION : Z := 1.
Definition MAX_RECORDS : nat := 64.
Definition TASK := Regex.TASK.
Definition ASSUMPTION_ID : Regex.re :=
  Regex.cat (Regex.RChar PyStr.is_lower)
    (Regex.between 0 63 (Regex.RChar (Regex.union (fun c => PyStr.is_lower c || PyStr.is_digit c) (Regex.one_of "-")))).
Definition KINDS : list string := ["base"; "dependency"; "observation"].
Definition ACTIONS : list string := ["declare"; "revalidate"; "dispose"].
Definition DIGEST := Regex.DIGEST.
Definition RECORD_FIELDS : list string :=
  ["schema_version"; "action"; "id"; "kind"; "material"; "binding"; "task_revision"; "previous_digest"; "reason"; "digest"].
Definition _digest (d : dict) : string := PyJson.digest (VDict d).

(** ** Observation *)
Section observation.
  Context `{O : Observations}.
Definition _git_head (key : string) : res string :=
  let '(code, out) := base_head key in
  let head := PyStr.strip out in
  check raise_if (negb (code =? 0) || negb (fm OBJECT head))
          (RuntimeError "assumption base observation requires a Git HEAD") ;;
  Ok head.
Definition _worktree (meta : Meta) : res string :=
  let key := get meta "worktree_key" in
  check raise_if (negb (safe_path key)) (RuntimeError "assumption base requires a safely bound worktree") ;;
  check raise_if (negb (base_available (text key))) (RuntimeError "assumption base worktree is unavailable") ;;
  Ok (text key).
Definition _file_digest (ref : string) : res string :=
  check raise_if (negb (safe_path (VStr ref))) (RuntimeError "assumption observation ref is unsafe") ;;
  match state_file ref with
  | Escapes => Raise (RuntimeError "assumption observation ref escapes the state root")
  | Unavailable => Raise (RuntimeError "assumption observation is unavailable")
  | Irregular => Raise (RuntimeError "assumption observation must be a bounded regular file")
  | Regular content => Ok (PyJson.sha256 content)
  end.
Definition _dependency (tasks : list Meta) (dependency_id : string) : res dict :=
  check raise_if (negb (fm TASK dependency_id)) (RuntimeError "assumption dependency is invalid") ;;
  match List.find (fun t => is_s (get t "id") dependency_id) tasks with
  | Some d => match get d "task_revision" with
              | VInt z => Ok [("task", VStr dependency_id); ("task_revision", VInt z)]
              | _ => Raise (RuntimeError "assumption dependency is unavailable")
              end
  | None => Raise (RuntimeError "assumption dependency is unavailable")
  end.
Definition _binding (meta : Meta) (tasks : list Meta) (kind reference : string) : res dict :=
  if String.eqb kind "base" then
    check raise_if (negb (String.eqb reference "")) (RuntimeError "assumption base does not accept a reference") ;;
    let* key := _worktree meta in
    let* head := _git_head key in
    Ok [("head", VStr head)]
  else if String.eqb kind "dependency" then _dependency tasks reference
  else if String.eqb kind "observation" then
    let* digest := _file_digest reference in
    Ok [("ref", VStr reference); ("digest", VStr digest)]
  else Raise (RuntimeError "assumption kind is invalid").

(** ** Records *)
Definition _record (action assumption_id kind : string) (material : bool) (binding : dict) (revision : Z)
    (previous_digest reason : string) : res dict :=
  check raise_if (negb (PyStr.mem action ACTIONS) || negb (fm ASSUMPTION_ID assumption_id) || negb (PyStr.mem kind KINDS)
                  || (revision <? 1) || PyStr.truthy previous_digest && negb (fm DIGEST previous_digest))
          (ValueError "invalid assumption record identity") ;;
  let identity := [("schema_version", VInt SCHEMA_VERSION); ("action", VStr action); ("id", VStr assumption_id);
                   ("kind", VStr kind); ("material", VBool material); ("binding", VDict binding);
                   ("task_revision", VInt revision); ("previous_digest", VStr previous_digest); ("reason", VStr reason)] in
  Ok (identity ++ [("digest", VStr (_digest identity))]).
Definition _validate_binding (kind : string) (binding : value) : res unit :=
  match binding with
  | VDict b =>
      if String.eqb kind "base" then
        raise_if (negb (keys_are b ["head"]) || negb (fm OBJECT (str (get b "head"))))
          (ValueError "assumption base binding is invalid")
      else if String.eqb kind "dependency" then
        raise_if (negb (keys_are b ["task"; "task_revision"]) || negb (fm TASK (str (get b "task")))
                  || match get b "task_revision" with VInt z => z <? 1 | _ => true end)
          (ValueError "assumption dependency binding is invalid")
      else if String.eqb kind "observation" then
        raise_if (negb (keys_are b ["ref"; "digest"]) || negb (safe_path (get b "ref"))
                  || negb (fm DIGEST (str (get b "digest"))))
          (ValueError "assumption observation binding is invalid")
      else Raise (ValueError "assumption kind is invalid")
  | _ => Raise (ValueError "assumption binding is invalid")
  end.
Definition _record_fields (v : value) : res dict :=
  match v with
  | VDict r => check raise_if (negb (keys_are r RECORD_FIELDS)) (ValueError "assumption record fields are not exact") ;; Ok r
  | _ => Raise (ValueError "assumption record fields are not exact")
  end.
Definition identity (r : dict) : dict := List.filter (fun kv => negb (String.eqb kv.1 "digest")) r.
(** [all((...))]: every part is evaluated *)
Definition _validate_identity (r : dict) : res unit :=
  let* action := in_set (get r "action") ACTIONS in
  let* kind := in_set (get r "kind") KINDS in
  let predecessor := get r "previous_digest" in
  let reason := get r "reason" in
  let valid :=
    eq (get r "schema_version") (VInt SCHEMA_VERSION) && action && fm ASSUMPTION_ID (str (get r "id")) && kind
    && type_bool (get r "material") && match get r "task_revision" with VInt z => 1 <=? z | _ => false end
    && is_str predecessor && is_str reason && (PyStr.len (str reason) <=? 512)
    && negb (PyStr.has_char "010" (str reason)) && eq (get r "digest") (VStr (_digest (identity r))) in
  raise_if (negb valid || truthy predecessor && negb (fm DIGEST (str predecessor)))
    (ValueError "assumption record identity is invalid").
Definition _validate_disposition (r : dict) : res unit :=
  if is_s (get r "action") "dispose" then
    let* reason := vstrip (get r "reason") in
    raise_if (negb (PyStr.truthy reason)) (ValueError "assumption disposition reason is invalid")
  else raise_if (truthy (get r "reason")) (ValueError "assumption non-disposition reason is invalid").
Definition _validate (v : value) : res dict :=
  let* r := _record_fields v in
  check _validate_identity r ;;
  check _validate_disposition r ;;
  check _validate_binding (str (get r "kind")) (get r "binding") ;;
  Ok r.

(** ** History *)
(** A Python dictionary of records by their identifier. *)
Definition table : Type := list (string * dict).
Fixpoint lookup (id : string) (t : table) : option dict :=
  match t with [] => None | (k, r) :: t' => if String.eqb id k then Some r else lookup id t' end.
Fixpoint assign (id : string) (r : dict) (t : table) : table :=
  match t with
  | [] => [(id, r)]
  | (k, x) :: t' => if String.eqb id k then (k, r) :: t' else (k, x) :: assign id r t'
  end.
Definition id_of (r : dict) : string := str (get r "id").
Record Reading : Type := MkReading { previous_digest : string; previous_revision : Z; known : table }.
Definition unread : Reading := MkReading "" 0 [].
Definition read_record (s : Reading) (v : value) : res Reading :=
  let* r := _validate v in
  let* revision := int_item r "task_revision" in
  check raise_if (ne (get r "previous_digest") (VStr (previous_digest s)) || (revision <=? previous_revision s))
          (ValueError "assumption history is not linked") ;;
  check match lookup (id_of r) (known s) with
        | old =>
            if is_s (get r "action") "declare" then
              raise_if match old with Some _ => true | None => false end
                (ValueError "assumption is declared more than once")
            else
              match old with
              | None => Raise (ValueError "assumption follow-up is not linked to declaration")
              | Some old =>
                  check raise_if (ne (get old "kind") (get r "kind") || ne (get old "material") (get r "material"))
                          (ValueError "assumption follow-up is not linked to declaration") ;;
                  check raise_if (is_s (get old "action") "dispose")
                          (ValueError "disposed assumption cannot be changed") ;;
                  raise_if (is_s (get r "action") "revalidate" && eq (get old "binding") (get r "binding"))
                    (ValueError "assumption revalidation requires a changed binding")
              end
        end ;;
  Ok (MkReading (str (get r "digest")) revision (assign (id_of r) r (known s))).
Definition records (meta : Meta) : res (list dict) :=
  match get_or meta "assumption_revalidation" (VList []) with
  | VList l =>
      check raise_if (Nat.ltb MAX_RECORDS (length l)) (ValueError "assumption history is invalid") ;;
      let* _ := foldM read_record unread l in
      Ok (map dict_of l)
  | _ => Raise (ValueError "assumption history is invalid")
  end.
Definition active (l : list dict) : table := foldl (fun t r => assign (id_of r) r t) [] l.
Definition metadata_error (meta : Meta) : res (option string) :=
  match records meta with
  | Ok _ => Ok None
  | Raise e => if is_ValueError e then Ok (Some (exn_msg e)) else Raise e
  end.
(** An active material record, which must be fresh. *)
Definition pending (r : dict) : bool := truthy (get r "material") && negb (is_s (get r "action") "dispose").
Definition needs_admission (meta : Meta) : res bool :=
  let* l := records meta in Ok (existsb (fun kr => pending kr.2) (active l)).
Definition binding_of (r : dict) : dict := dict_of (get r "binding").
Definition current_binding (meta : Meta) (tasks : list Meta) (r : dict) : res dict :=
  check (let* _ := _validate (VDict r) in Ok tt) ;;
  let reference := if is_s (get r "kind") "dependency" then str (get (binding_of r) "task")
                   else if is_s (get r "kind") "observation" then str (get (binding_of r) "ref") else "" in
  _binding meta tasks (str (get r "kind")) reference.
Definition required : string := "ASSUMPTION_REVALIDATION_REQUIRED: ".
Fixpoint first_stale (meta : Meta) (tasks : list Meta) (t : table) : res (option string) :=
  match t with
  | [] => Ok None
  | (id, r) :: t' =>
      if negb (pending r) then first_stale meta tasks t'
      else
        let* current := current_binding meta tasks r in
        if ne (VDict current) (get r "binding")
        then Ok (Some (required +:+ id +:+ " (" +:+ str (get r "kind") +:+ ")"))
        else first_stale meta tasks t'
  end.
Definition admission_error (meta : Meta) (tasks : list Meta) : res (option string) :=
  match (let* l := records meta in first_stale meta tasks (active l)) with
  | Ok e => Ok e
  | Raise e => if is_RuntimeError e || is_ValueError e then Ok (Some (required +:+ exn_msg e)) else Raise e
  end.

(** ** The transition *)
Definition _require_fenced_owner (args : Namespace) (meta : Meta) : res unit :=
  let* task := attr args "task" in
  check raise_if (ne task (get meta "id")) (RuntimeError "assumption task does not match selected task") ;;
  let* owner := attr args "owner" in
  check raise_if (ne (get meta "owner") owner)
          (RuntimeError (str task +:+ " is owned by "
                         +:+ if truthy (get meta "owner") then str (get meta "owner") else "nobody")) ;;
  check raise_if (negb (is_s (get meta "status") "in_progress"))
          (RuntimeError "assumption changes require an active task") ;;
  let* expected := attr args "expected_revision" in
  raise_if (ne expected (get meta "task_revision"))
    (RuntimeError ("stale revision: expected " +:+ str expected +:+ ", current " +:+ str (get meta "task_revision"))).
(** The materiality, the kind and the reference an action is about. *)
Definition request : Type := bool * string * string.
Definition _followup_identity (args : Namespace) (existing : option dict) : res request :=
  match existing with
  | None => Raise (RuntimeError "assumption must be declared before follow-up")
  | Some old =>
      let material := truthy (get old "material") in
      let kind := str (get old "kind") in
      check raise_if (is_s (get old "action") "dispose") (RuntimeError "disposed assumption cannot be changed") ;;
      let* requested := attr args "kind" in
      check raise_if (negb (is_null requested) && ne requested (VStr kind))
              (RuntimeError "assumption kind cannot change") ;;
      if String.eqb kind "dependency" then Ok (material, kind, str (get (binding_of old) "task"))
      else if String.eqb kind "observation" then Ok (material, kind, str (get (binding_of old) "ref"))
      else
        let* reference := attr args "reference" in
        check raise_if (truthy reference) (RuntimeError "assumption base does not accept a reference") ;;
        Ok (material, kind, "")
  end.
Definition _request_identity (args : Namespace) (existing : option dict) : res request :=
  let* action := attr args "assumption_action" in
  if is_s action "declare" then
    check raise_if match existing with Some _ => true | None => false end
            (RuntimeError "assumption is already declared") ;;
    let* kind := attr args "kind" in
    let* material := attr args "material" in
    check raise_if (is_null kind || is_null material)
            (RuntimeError "assumption declaration requires kind and material policy") ;;
    let* reference := attr args "reference" in
    Ok (truthy material, str kind, if truthy reference then str reference else "")
  else _followup_identity args existing.
Definition last_digest (history : list dict) : string :=
  match last history with Some r => str (get r "digest") | None => "" end.
(** The record an action appends to the history; what argparse parses as text
    is text. *)
Definition next_record (args : Namespace) (meta : Meta) (tasks : list Meta) (history : list dict) : res dict :=
  let* id := attr args "assumption_id" in
  let existing := lookup (str id) (active history) in
  let* request := _request_identity args existing in
  let '(material, kind, reference) := request in
  let* action := attr args "assumption_action" in
  let* binding := _binding meta tasks kind reference in
  check raise_if (is_s action "revalidate"
                  && match existing with None => true | Some old => eq (VDict binding) (get old "binding") end)
          (RuntimeError "assumption revalidation requires a changed binding") ;;
  let* reason := attr args "reason" in
  check raise_when (py_and [cond (is_s action "dispose"); let* r := vstrip reason in Ok (negb (PyStr.truthy r))])
          (RuntimeError "assumption disposition requires a reason") ;;
  let* revision := int_item meta "task_revision" in
  _record (str action) (str id) kind material binding (revision + 1) (last_digest history)
    (if is_s action "dispose" then str reason else "").
Definition apply (args : Namespace) (tasks : list Meta) : st Meta string := fun meta =>
  let outcome :=
    check _require_fenced_owner args meta ;;
    let* history := records meta in
    check raise_if (Nat.leb MAX_RECORDS (length history))
            (RuntimeError "assumption history reached its bounded record limit") ;;
    let* r := next_record args meta tasks history in
    Ok (history, r) in
  match outcome with
  | Raise e => (meta, Raise e)
  | Ok (history, r) =>
      (dset meta "assumption_revalidation" (VList (map VDict (history ++ [r]))),
       Ok ("Recorded assumption " +:+ str (getattr args "assumption_action" VNull) +:+ " for "
           +:+ str (getattr args "assumption_id" VNull) +:+ "."))
  end.
End observation.
End Assumptions.
