(* ===== verification/AssumptionLaws.v ===== *)
(** * Assumption revalidation: theorems

    A history that validates is linked by digests, with increasing revisions,
    and never changes the kind or the materiality of an assumption; a task is
    admitted exactly when every active material assumption is observed as it was
    recorded; a transition appends one record, which is fresh. *)
From stdpp Require Import sorting.
From S2P Require Import Prelude PyStr Regex PyVal PyJson JsonParse Journal Chain ChangeDrift Assumptions.

Module AssumptionLaws.
Import Py Assumptions.

(** ** Validated records *)
Record valid (r : dict) : Prop := Valid {
  v_action : exists a, get r "action" = VStr a /\ a ∈ ACTIONS;
  v_kind : exists k, get r "kind" = VStr k /\ k ∈ KINDS;
  v_material : exists b, get r "material" = VBool b;
  v_revision : exists z, get r "task_revision" = VInt z /\ 1 <= z;
  v_previous : exists p, get r "previous_digest" = VStr p;
  v_digest : get r "digest" = VStr (_digest (identity r));
  v_binding : exists b, get r "binding" = VDict b;
}.
Lemma in_set_true v ss : in_set v ss = Ok true -> exists s, v = VStr s /\ s ∈ ss.
Proof.
  unfold in_set. intros (? & _ & E)%rbind_Ok_inv. apply Ok_inj in E. destruct v; try done.
  apply PyStr.mem_spec in E. by exists s.
Qed.
Lemma _validate_identity_inv r u : _validate_identity r = Ok u ->
  (exists a, get r "action" = VStr a /\ a ∈ ACTIONS) /\ (exists k, get r "kind" = VStr k /\ k ∈ KINDS) /\
  (exists b, get r "material" = VBool b) /\ (exists z, get r "task_revision" = VInt z /\ 1 <= z) /\
  (exists p, get r "previous_digest" = VStr p) /\ get r "digest" = VStr (_digest (identity r)).
Proof.
  unfold _validate_identity. intros (a & Ea & (k & Ek & E)%rbind_Ok_inv)%rbind_Ok_inv.
  cbv zeta in E. apply raise_if_Ok, orb_false_iff in E as [E%negb_false_iff _].
  repeat (apply andb_true_iff in E as [E ?]). subst a k.
  split_and!; [by apply in_set_true | by apply in_set_true | | | by apply is_str_inv | by apply eq_str].
  - destruct (get r "material"); try done. eauto.
  - destruct (get r "task_revision"); try done. eexists. split; [done|]. by apply Z.leb_le.
Qed.
Lemma _validate_inv v r : _validate v = Ok r -> v = VDict r /\ valid r.
Proof.
  unfold _validate. intros (r' & Er & (u & Ei & (u' & _ & (u'' & Eb & E)%rbind_Ok_inv)%rbind_Ok_inv)%rbind_Ok_inv)%rbind_Ok_inv.
  injection E as ->. unfold _record_fields in Er. destruct v as [| | | | |d]; try done.
  apply rbind_Ok_inv in Er as (? & _ & E). injection E as ->. split; [done|].
  apply _validate_identity_inv in Ei as (? & ? & ? & ? & ? & ?). split; try done.
  unfold _validate_binding in Eb. destruct (get r "binding"); try done. eauto.
Qed.
Lemma valid_revision r z : valid r -> int_item r "task_revision" = Ok z -> get r "task_revision" = VInt z /\ 1 <= z.
Proof.
  intros [_ _ _ (z' & Ez & Hz) _ _ _] E. unfold int_item in E. apply rbind_Ok_inv in E as (v & Ev & E).
  apply item_get in Ev. rewrite Ez in Ev. subst v. injection E as <-. done.
Qed.

(** ** Tables *)
Lemma lookup_assign id r t j : lookup j (assign id r t) = if String.eqb j id then Some r else lookup j t.
Proof.
  induction t as [|[k x] t IH]; cbn -[String.eqb]; [done|]. destruct (String.eqb_spec id k) as [->|Hn]; cbn -[String.eqb].
  - by destruct (String.eqb j k).
  - rewrite IH. destruct (String.eqb_spec j k) as [->|]; [|done]. by destruct (String.eqb_spec k id); [congruence|].
Qed.
Lemma assign_elem id r t j x : (j, x) ∈ assign id r t -> (j, x) ∈ t \/ (j = id /\ x = r).
Proof.
  induction t as [|[k y] t IH]; cbn -[String.eqb].
  - intros [= -> ->]%list_elem_of_singleton. by right.
  - destruct (String.eqb_spec id k) as [->|]; rewrite !elem_of_cons.
    + intros [[= -> ->]|?]; naive_solver.
    + intros [?|?%IH]; naive_solver.
Qed.
Lemma active_snoc l r : active (l ++ [r]) = assign (id_of r) r (active l).
Proof. unfold active. by rewrite foldl_app. Qed.
Lemma active_elem l j x : (j, x) ∈ active l -> x ∈ l /\ j = id_of x.
Proof.
  induction l as [|r l IH] using rev_ind; [by intros ?%elem_of_nil|]. rewrite active_snoc, elem_of_app.
  intros [[? ->]%IH|[-> ->]]%assign_elem; [naive_solver|]. split; [|done]. right. by left.
Qed.
Lemma lookup_elem t j x : lookup j t = Some x -> (j, x) ∈ t.
Proof.
  induction t as [|[k y] t IH]; cbn -[String.eqb]; [done|]. destruct (String.eqb_spec j k) as [->|].
  - intros [= ->]. by left.
  - intros H. right. by apply IH.
Qed.

(** ** Histories *)
(** A record that may follow a history, by what it does. *)
Definition follows (l : list dict) (r : dict) : Prop :=
  match lookup (id_of r) (active l) with
  | None => get r "action" = VStr "declare"
  | Some old =>
      get r "action" <> VStr "declare" /\ get old "action" <> VStr "dispose" /\
      get old "kind" = get r "kind" /\ get old "material" = get r "material" /\
      (get r "action" = VStr "revalidate" -> eq (get old "binding") (get r "binding") = false)
  end.
Definition revision (r : dict) : Z := match get r "task_revision" with VInt z => z | _ => 0 end.
Record history (l : list dict) (s : Reading) : Prop := History {
  h_valid : Forall valid l;
  h_known : known s = active l;
  h_tip : previous_digest s = Chain.tip identity "" l;
  h_links : Chain.each (fun pre r => get r "previous_digest" = VStr (Chain.tip identity "" pre)) l;
  h_rising : Chain.rising revision l (previous_revision s);
  h_last : previous_revision s = match last l with Some r => revision r | None => 0 end;
  h_follows : Chain.each follows l;
}.
Lemma assumption_wf_identity r : wf (VDict r) = true -> wf (VDict (identity r)) = true.
Proof.
  cbn. intros [Hn Hw]%andb_true_iff. apply bool_decide_eq_true in Hn. apply andb_true_iff. split.
  - apply bool_decide_eq_true. by apply keys_filter_NoDup.
  - unfold identity. rewrite forallb_forall in *. intros kv [Hin _]%filter_In. by apply Hw.
Qed.
Lemma get_identity r k : k <> "digest" -> get (identity r) k = get r k.
Proof.
  intros Hk. unfold get, get_or, identity. rewrite (dget_filter_keys (fun j => negb (String.eqb j "digest"))).
  by destruct (String.eqb_spec k "digest").
Qed.
Lemma eq_bool_str_kind old r : valid old -> valid r ->
  ne (get old "kind") (get r "kind") || ne (get old "material") (get r "material") = false ->
  get old "kind" = get r "kind" /\ get old "material" = get r "material".
Proof.
  intros [_ (k & -> & _) (b & ->) _ _ _ _] [_ (k' & -> & _) (b' & ->) _ _ _ _] [E1 E2]%orb_false_iff.
  apply ne_false in E1, E2. apply eq_str in E1. rewrite E1. split; [done|]. destruct b, b'; try done; vm_compute in E2; discriminate.
Qed.
Lemma assumption_read_record_inv s v s' l : history l s -> read_record s v = Ok s' ->
  v = VDict (dict_of v) /\ history (l ++ [dict_of v]) s'.
Proof.
  intros Hh E. unfold read_record in E. apply rbind_Ok_inv in E as (r & Er & (z & Ez & (u & E1%raise_if_Ok & (u' & Ef & E)%rbind_Ok_inv)%rbind_Ok_inv)%rbind_Ok_inv).
  apply Ok_inj in E. subst s'. apply _validate_inv in Er as [-> Hr]. split; [done|]. change (dict_of (VDict r)) with r.
  destruct (valid_revision _ _ Hr Ez) as [Er Hz]. apply orb_false_iff in E1 as [Ep%ne_false%eq_str Hlt%Z.leb_gt].
  assert (revision r = z) as Hz' by (by unfold revision; rewrite Er).
  destruct Hh as [Hv Hk Ht Hl Hrise _ Hf]. split; cbn [known previous_digest previous_revision].
  - by apply Forall_app, conj, Forall_singleton.
  - by rewrite active_snoc, Hk.
  - by rewrite Chain.tip_snoc, (v_digest _ Hr).
  - apply Chain.each_snoc. by rewrite <- Ht.
  - rewrite <- Hz'. apply (Chain.rising_snoc _ _ _ _ Hrise). by rewrite Hz'.
  - by rewrite last_snoc.
  - apply Chain.each_snoc. split; [done|]. unfold follows. rewrite <- Hk.
    destruct (lookup (id_of r) (known s)) as [old|] eqn:Eo; cbv zeta in Ef.
    + assert (valid old) as Ho. { rewrite Hk in Eo. apply lookup_elem, active_elem in Eo as [Eo _]. rewrite list.Forall_forall in Hv. by apply Hv. }
      destruct (is_s (get r "action") "declare") eqn:Ed; [done|].
      apply rbind_Ok_inv in Ef as (? & E1%raise_if_Ok & (? & E2%raise_if_Ok & E3%raise_if_Ok)%rbind_Ok_inv).
      destruct (eq_bool_str_kind _ _ Ho Hr E1) as [??]. split_and!; try done.
      * intros Ha. unfold is_s in Ed. by rewrite Ha in Ed.
      * intros Ha. unfold is_s in E2. by rewrite Ha in E2.
      * intros Ha. unfold is_s in E3. rewrite Ha in E3. by destruct (eq (get old "binding") (get r "binding")).
    + destruct (is_s (get r "action") "declare") eqn:Ed; [by apply eq_str in Ed | done].
Qed.
Lemma assumption_history_nil : history [] unread.
Proof. split; [constructor | done.. | apply Chain.each_nil | apply Chain.rising_nil | done | apply Chain.each_nil]. Qed.
Lemma assumption_records_inv (meta : Meta) l : records meta = Ok l ->
  get_or meta "assumption_revalidation" (VList []) = VList (map VDict l) /\ (length l <= MAX_RECORDS)%nat /\
  exists s, foldM read_record unread (map VDict l) = Ok s /\ history l s.
Proof.
  unfold records. destruct (get_or _ _ _) as [| | | |h|]; try done.
  intros (? & E1%raise_if_Ok & (s & Es & E)%rbind_Ok_inv)%rbind_Ok_inv. apply Ok_inj in E. subst l.
  destruct (Chain.foldM_history _ _ _ (fun l s v s' => assumption_read_record_inv s v s' l) _ [] _ _ assumption_history_nil Es) as [Eh Hh].
  rewrite <- Eh, length_map. split_and!; [done | by apply Nat.ltb_ge in E1 | by exists s].
Qed.
Lemma assumption_history_digests l s : history l s -> Forall (fun r => get r "digest" = VStr (Chain.digest_of identity r)) l.
Proof. intros Hh. eapply Forall_impl; [apply (h_valid _ _ Hh) | apply v_digest]. Qed.
Lemma assumption_last_tip l s : history l s -> last_digest l = Chain.tip identity "" l.
Proof. intros Hh. by eapply Chain.last_digest_tip, assumption_history_digests. Qed.
Lemma records_wf (meta : Meta) l : wf (VDict meta) = true -> records meta = Ok l -> Forall (fun r => wf (VDict r) = true) l.
Proof. intros Hw (E & _)%assumption_records_inv. by eapply Chain.stored_wf. Qed.
Lemma assumption_records_linked (meta : Meta) l : records meta = Ok l -> wf (VDict meta) = true ->
  Chain.linked identity "" l /\ last_digest l = Chain.tip identity "" l.
Proof.
  intros E W. pose proof (records_wf _ _ W E) as Hw. apply assumption_records_inv in E as (_ & _ & s & _ & Hh).
  split; [|by eapply assumption_last_tip]. apply Chain.linked_each; [| by eapply assumption_history_digests |].
  - eapply Forall_impl; [exact Hw | apply assumption_wf_identity].
  - intros pre r post E. rewrite get_identity by done. by apply (h_links _ _ Hh pre r post).
Qed.

(** The history of assumptions is pinned by its last digest: two tasks whose
    valid histories end in the same digest have the same records, content by
    content, or exhibit two texts with the same SHA-256 digest. *)
Theorem assumption_history_pinned (meta meta' : Meta) l l' :
  records meta = Ok l -> records meta' = Ok l' -> wf (VDict meta) = true -> wf (VDict meta') = true ->
  last_digest l = last_digest l' ->
  map (Chain.content identity) l = map (Chain.content identity) l' \/ Chain.colliding identity l l'.
Proof.
  intros E E' W W' Hd. destruct (assumption_records_linked _ _ E W) as [Hl Ht], (assumption_records_linked _ _ E' W') as [Hl' Ht'].
  apply Chain.linked_inj; congruence.
Qed.

(** ** What stays of an assumption *)
(** An earlier record of the same assumption. *)
Definition same_assumption (pre : list dict) (r : dict) : Prop :=
  forall x, x ∈ pre -> id_of x = id_of r ->
    get x "kind" = get r "kind" /\ get x "material" = get r "material" /\
    get x "action" <> VStr "dispose" /\ get r "action" <> VStr "declare".
Definition represented (l : list dict) : Prop :=
  forall x, x ∈ l -> exists y, lookup (id_of x) (active l) = Some y /\
    get x "kind" = get y "kind" /\ get x "material" = get y "material" /\
    (get x "action" = VStr "dispose" -> y = x).
Lemma follows_each l : Chain.each follows l -> represented l /\ Chain.each same_assumption l.
Proof.
  induction l as [|r l IH] using rev_ind.
  { intros _. split; [by intros x ?%elem_of_nil | apply Chain.each_nil]. }
  intros [Hl Hf]%Chain.each_snoc. destruct (IH Hl) as [Hr Hs]. unfold follows in Hf. split.
  - intros x Hx. apply elem_of_app in Hx as [Hx|Hx]; [|apply list_elem_of_singleton in Hx; subst x];
      rewrite active_snoc, lookup_assign.
    + destruct (Hr x Hx) as (y & Ey & Hk & Hm & Hd). destruct (String.eqb_spec (id_of x) (id_of r)) as [E|]; [|by exists y].
      rewrite E in Ey. rewrite Ey in Hf. destruct Hf as (_ & Hnd & Hk' & Hm' & _). exists r.
      split_and!; [done | congruence | congruence|]. intros Ha. rewrite (Hd Ha) in Hnd. done.
    + rewrite String.eqb_refl. by exists r.
  - apply Chain.each_snoc. split; [done|]. intros x Hx E. destruct (Hr x Hx) as (y & Ey & Hk & Hm & Hd).
    rewrite E in Ey. rewrite Ey in Hf. destruct Hf as (Ha & Hnd & Hk' & Hm' & _).
    split_and!; [congruence | congruence | | done]. intros Hx'. rewrite (Hd Hx') in Hnd. done.
Qed.

(** In a valid history the records of one assumption agree: a later record
    has the kind and the materiality of every earlier one, is not a second
    declaration, and follows no disposal; the revisions strictly increase and
    the history is bounded. *)
Theorem assumption_is_pinned (meta : Meta) l :
  records meta = Ok l ->
  Chain.each same_assumption l /\ StronglySorted (fun x y => revision x < revision y) l /\
  (length l <= MAX_RECORDS)%nat.
Proof.
  intros (_ & Hl & s & _ & [Hv _ _ _ [Hi _] _ Hf])%assumption_records_inv. split_and!; [by apply follows_each | done..].
Qed.

(** ** The record a transition appends *)
Section record.
Context (action id kind : string) (material : bool) (binding : dict) (z : Z) (previous reason : string).
Definition fields : dict :=
  [("schema_version", VInt SCHEMA_VERSION); ("action", VStr action); ("id", VStr id);
   ("kind", VStr kind); ("material", VBool material); ("binding", VDict binding);
   ("task_revision", VInt z); ("previous_digest", VStr previous); ("reason", VStr reason)].
Definition sealed_record : dict := fields ++ [("digest", VStr (_digest fields))].
(** What a disposal's reason, and no other's, must be. *)
Definition reason_ok : Prop :=
  if String.eqb action "dispose"
  then PyStr.truthy (PyStr.strip reason) = true /\ PyStr.len reason <= 512 /\ PyStr.has_char "010" reason = false
  else reason = "".
Record recordable : Prop := Recordable {
  rc_action : action ∈ ACTIONS;
  rc_id : fm ASSUMPTION_ID id = true;
  rc_kind : kind ∈ KINDS;
  rc_revision : 1 <= z;
  rc_previous : PyStr.truthy previous && negb (fm DIGEST previous) = false;
}.
Lemma _record_inv r : _record action id kind material binding z previous reason = Ok r -> recordable /\ r = sealed_record.
Proof.
  unfold _record. intros (u & E%raise_if_Ok & Er)%rbind_Ok_inv. apply Ok_inj in Er. subst r. split; [|done].
  repeat (apply orb_false_iff in E as [E ?]). apply negb_false_iff, PyStr.mem_spec in E.
  split; [done | by apply negb_false_iff | by apply PyStr.mem_spec, negb_false_iff | by apply Z.ltb_ge | done].
Qed.
(** The record, whatever its digest. *)
Context (d : string).
Definition with_digest : dict := fields ++ [("digest", VStr d)].
Lemma validate_identity_ok : recordable -> reason_ok -> d = _digest fields -> _validate_identity with_digest = Ok tt.
Proof.
  intros [Ha Hi Hk Hz Hp] Hr Hd. unfold _validate_identity.
  change (get with_digest "action") with (VStr action). change (get with_digest "kind") with (VStr kind).
  cbn [in_set require_hashable hashable negb raise_if rbind].
  rewrite (proj2 (PyStr.mem_spec action ACTIONS) Ha), (proj2 (PyStr.mem_spec kind KINDS) Hk).
  change (str (get with_digest "id")) with id. rewrite Hi. change (identity with_digest) with fields. rewrite <- Hd.
  change (get with_digest "digest") with (VStr d). rewrite eq_str_str, String.eqb_refl.
  change (get with_digest "reason") with (VStr reason). change (get with_digest "previous_digest") with (VStr previous).
  change (get with_digest "task_revision") with (VInt z).
  cbn [str is_str truthy]. rewrite Hp, (proj2 (Z.leb_le 1 z) Hz). cbv zeta.
  assert (PyStr.len reason <=? 512 = true /\ PyStr.has_char "010" reason = false) as [-> ->]; [|done].
  unfold reason_ok in Hr. destruct (String.eqb action "dispose"); [|by rewrite Hr].
  destruct Hr as (_ & Hl & Hc). split; [by apply Z.leb_le | done].
Qed.
Lemma validate_disposition_ok : reason_ok -> _validate_disposition with_digest = Ok tt.
Proof.
  unfold _validate_disposition, reason_ok. change (is_s (get with_digest "action") "dispose") with (String.eqb action "dispose").
  change (get with_digest "reason") with (VStr reason). destruct (String.eqb action "dispose"); [|by intros ->].
  intros (Ht & _). cbn [vstrip rbind]. by rewrite Ht.
Qed.
Lemma validate_ok : recordable -> reason_ok -> d = _digest fields -> _validate_binding kind (VDict binding) = Ok tt ->
  _validate (VDict with_digest) = Ok with_digest.
Proof.
  intros Hc Hr Hd Hb. unfold _validate. change (_record_fields (VDict with_digest)) with (Ok with_digest). cbn [rbind].
  rewrite (validate_identity_ok Hc Hr Hd), (validate_disposition_ok Hr).
  change (get with_digest "binding") with (VDict binding). change (str (get with_digest "kind")) with kind.
  by rewrite Hb.
Qed.
End record.

(** A record validates when it follows the history it is appended to. *)
Lemma read_record_ok s r : _validate (VDict r) = Ok r -> int_item r "task_revision" = Ok (revision r) ->
  forall l, history l s -> get r "previous_digest" = VStr (last_digest l) -> previous_revision s < revision r -> follows l r ->
  exists s', read_record s (VDict r) = Ok s'.
Proof.
  intros Hv Hi l Hh Hp Hr Hf. unfold read_record. rewrite Hv. cbn [rbind]. rewrite Hi. cbn [rbind].
  rewrite (assumption_last_tip _ _ Hh), <- (h_tip _ _ Hh) in Hp. rewrite Hp. unfold ne at 1.
  rewrite eq_str_str, String.eqb_refl. replace (revision r <=? previous_revision s) with false by (symmetry; apply Z.leb_gt; lia).
  cbn [negb orb raise_if rbind]. cbv zeta. rewrite (h_known _ _ Hh). unfold follows in Hf.
  destruct (lookup (id_of r) (active l)) as [old|]; [|rewrite Hf; cbn; eauto].
  destruct Hf as (Ha & Hd & Hk & Hm & Hb).
  assert (is_s (get r "action") "declare" = false) as ->.
  { destruct (is_s (get r "action") "declare") eqn:E; [|done]. by apply eq_str in E. }
  assert (is_s (get old "action") "dispose" = false) as ->.
  { destruct (is_s (get old "action") "dispose") eqn:E; [|done]. by apply eq_str in E. }
  apply _validate_inv in Hv as [_ Hv]. destruct (v_kind _ Hv) as (k & Ek & _), (v_material _ Hv) as (b & Eb).
  rewrite Hk, Hm, Ek, Eb. unfold ne. rewrite eq_str_str, String.eqb_refl. cbn [negb orb raise_if rbind].
  replace (eq (VBool b) (VBool b)) with true by (by destruct b). cbn [negb raise_if rbind].
  destruct (is_s (get r "action") "revalidate") eqn:E; cbn [andb raise_if rbind]; [|eauto].
  apply eq_str in E. rewrite (Hb E). cbn. eauto.
Qed.

(** ** The transition *)
Lemma str_action v : str v ∈ ACTIONS -> v = VStr (str v).
Proof.
  unfold ACTIONS. intros Hv. repeat apply elem_of_cons in Hv as [Hv|Hv]; [..|by apply not_elem_of_nil in Hv];
    rewrite Hv; by apply JsonParse.str_plain in Hv.
Qed.

Section transition.
  Context `{O : Observations}.
(** The tasks a dependency is observed in have positive revisions. *)
Definition positive_revisions (tasks : list Meta) : Prop :=
  Forall (fun t => forall z, get t "task_revision" = VInt z -> 1 <= z) tasks.
Definition reference_of (kind : string) (b : dict) : string :=
  if String.eqb kind "dependency" then str (get b "task")
  else if String.eqb kind "observation" then str (get b "ref") else "".
Lemma binding_ok (meta : Meta) tasks kind reference b : positive_revisions tasks ->
  _binding meta tasks kind reference = Ok b ->
  _validate_binding kind (VDict b) = Ok tt /\ wf (VDict b) = true /\ reference_of kind b = reference.
Proof.
  intros Hp. unfold _binding, reference_of. destruct (String.eqb_spec kind "base") as [->|_]; [|destruct (String.eqb_spec kind "dependency") as [->|_];
    [|destruct (String.eqb_spec kind "observation") as [->|_]; [|done]]].
  - intros (u & E1%raise_if_Ok & (key & _ & (head & Eh & E)%rbind_Ok_inv)%rbind_Ok_inv)%rbind_Ok_inv.
    apply Ok_inj in E. subst b. unfold _git_head in Eh. destruct (base_head key) as [code out].
    apply rbind_Ok_inv in Eh as (u' & [_ Hf%negb_false_iff]%raise_if_Ok%orb_false_iff & E). apply Ok_inj in E. subst head.
    split_and!; [|done|by apply negb_false_iff, String.eqb_eq in E1].
    unfold _validate_binding. cbn [get get_or dget str String.eqb Ascii.eqb Bool.eqb]. by rewrite Hf.
  - unfold _dependency. intros (u & Ht%raise_if_Ok%negb_false_iff & E)%rbind_Ok_inv.
    destruct (List.find _ _) as [t|] eqn:Ef; [|done]. apply find_some in Ef as [Hin _].
    destruct (get t "task_revision") as [| |z| | |] eqn:Ez; try done. apply Ok_inj in E. subst b.
    apply list_elem_of_In in Hin. unfold positive_revisions in Hp. rewrite list.Forall_forall in Hp. specialize (Hp t Hin z Ez).
    split_and!; [|done..]. unfold _validate_binding. cbn [get get_or dget str String.eqb Ascii.eqb Bool.eqb].
    rewrite Ht. replace (z <? 1) with false by (symmetry; apply Z.ltb_ge; lia). done.
  - intros (digest & Ed & E)%rbind_Ok_inv. apply Ok_inj in E. subst b. unfold _file_digest in Ed.
    apply rbind_Ok_inv in Ed as (u & Hs%raise_if_Ok%negb_false_iff & Ed). destruct (state_file reference); try done.
    apply Ok_inj in Ed. subst digest. split_and!; [|done..]. unfold _validate_binding.
    change (get [("ref", VStr reference); ("digest", VStr (PyJson.sha256 content))] "ref") with (VStr reference).
    change (str (get [("ref", VStr reference); ("digest", VStr (PyJson.sha256 content))] "digest")) with (PyJson.sha256 content).
    rewrite Hs. unfold fm, DIGEST. by rewrite PyJson.sha256_DIGEST.
Qed.
Lemma binding_frame (meta : Meta) tasks kind reference v :
  _binding (dset meta "assumption_revalidation" v) tasks kind reference = _binding meta tasks kind reference.
Proof. unfold _binding, _worktree. by rewrite get_dset. Qed.

(** What a transition asks of the record it follows. *)
Lemma request_inv args existing a material kind reference :
  _request_identity args existing = Ok (material, kind, reference) -> attr args "assumption_action" = Ok a ->
  match existing with
  | None => is_s a "declare" = true
  | Some old => is_s a "declare" = false /\ is_s (get old "action") "dispose" = false /\
                material = truthy (get old "material") /\ kind = str (get old "kind")
  end.
Proof.
  unfold _request_identity. intros E Ea. rewrite Ea in E. cbn [rbind] in E.
  destruct (is_s a "declare") eqn:Ed.
  - apply rbind_Ok_inv in E as (u & E%raise_if_Ok & _). by destruct existing.
  - unfold _followup_identity in E. destruct existing as [old|]; [|done]. cbv zeta in E.
    apply rbind_Ok_inv in E as (u & Hd%raise_if_Ok & (k & _ & (u' & _ & E)%rbind_Ok_inv)%rbind_Ok_inv).
    destruct (String.eqb (str (get old "kind")) "dependency"); [by injection E as <- <- _|].
    destruct (String.eqb (str (get old "kind")) "observation"); [by injection E as <- <- _|].
    apply rbind_Ok_inv in E as (r & _ & (u'' & _ & E)%rbind_Ok_inv). by injection E as <- <- _.
Qed.
Record appended (args : Namespace) (meta : Meta) (tasks : list Meta) (l : list dict) (r : dict) : Prop := Appended {
  ap_record : exists action id kind material b z reference reason,
    attr args "assumption_action" = Ok (VStr action) /\ r = sealed_record action id kind material b (z + 1) (last_digest l) reason /\
    recordable action id kind (z + 1) (last_digest l) /\ int_item meta "task_revision" = Ok z /\
    _request_identity args (lookup id (active l)) = Ok (material, kind, reference) /\
    _binding meta tasks kind reference = Ok b /\
    (action = "revalidate" -> forall old, lookup id (active l) = Some old -> eq (VDict b) (get old "binding") = false) /\
    (if String.eqb action "dispose"
     then attr args "reason" = Ok (VStr reason) /\ PyStr.truthy (PyStr.strip reason) = true else reason = "");
}.
Lemma assumption_next_record_inv args (meta : Meta) tasks l r : next_record args meta tasks l = Ok r -> appended args meta tasks l r.
Proof.
  unfold next_record. intros (id & _ & ([[material kind] reference] & Er & (a & Ea & (b & Eb & E)%rbind_Ok_inv)%rbind_Ok_inv)%rbind_Ok_inv)%rbind_Ok_inv.
  apply rbind_Ok_inv in E as (u & Hv%raise_if_Ok & (reason & Es & (u' & Hr%raise_when_Ok & (z & Ez & E)%rbind_Ok_inv)%rbind_Ok_inv)%rbind_Ok_inv).
  apply _record_inv in E as [Hc ->]. pose proof (str_action _ (rc_action _ _ _ _ _ Hc)) as Ha.
  assert (forall x, is_s a x = String.eqb (str a) x) as Es' by (intros x; by rewrite Ha).
  rewrite Es' in Hv, Hr |- *. rewrite Ha in Ea. clear Ha Es'.
  revert Ea Hv Hr Hc. generalize (str a) as action. intros action Ea Hv Hr Hc.
  constructor. exists action, (str id), kind, material, b, z, reference, (if String.eqb action "dispose" then str reason else "").
  split_and!; try done.
  - intros Hra old Eo. rewrite Eo, Hra in Hv. exact Hv.
  - destruct (String.eqb action "dispose"); [|done]. unfold cond in Hr. cbn [py_and rbind] in Hr.
    destruct reason as [| | |s| |]; try done. cbn [vstrip rbind] in Hr. split; [exact Es|].
    cbn [str]. by destruct (PyStr.truthy (PyStr.strip s)).
Qed.
(** The record a transition appends follows the history. *)
Lemma appended_follows l s action id kind material b z reason reference args :
  history l s -> Forall (fun r => wf (VDict r) = true) l -> wf (VDict b) = true ->
  attr args "assumption_action" = Ok (VStr action) ->
  _request_identity args (lookup id (active l)) = Ok (material, kind, reference) ->
  (action = "revalidate" -> forall old, lookup id (active l) = Some old -> eq (VDict b) (get old "binding") = false) ->
  forall previous d, follows l (with_digest action id kind material b (z + 1) previous reason d).
Proof.
  intros Hh Hw Hb Ea Er Hv previous d. unfold follows.
  change (id_of (with_digest action id kind material b (z + 1) previous reason d)) with id.
  pose proof (request_inv _ _ _ _ _ _ Er Ea) as Hr.
  change (get (with_digest action id kind material b (z + 1) previous reason d) "action") with (VStr action).
  change (get (with_digest action id kind material b (z + 1) previous reason d) "kind") with (VStr kind).
  change (get (with_digest action id kind material b (z + 1) previous reason d) "material") with (VBool material).
  change (get (with_digest action id kind material b (z + 1) previous reason d) "binding") with (VDict b).
  destruct (lookup id (active l)) as [old|] eqn:Eo; [|by apply eq_str in Hr].
  apply lookup_elem, active_elem in Eo as [Ho _]. destruct Hh as [Hval _ _ _ _ _ _].
  rewrite list.Forall_forall in Hval, Hw. specialize (Hval _ Ho). specialize (Hw _ Ho).
  destruct Hr as (Hd & Hp & -> & ->). destruct (v_kind _ Hval) as (k & -> & _), (v_material _ Hval) as (m & ->).
  split_and!; try done.
  - intros [= ->]. done.
  - intros E. by rewrite E in Hp.
  - intros [= ->]. specialize (Hv eq_refl old eq_refl). destruct (eq (get old "binding") (VDict b)) eqn:E; [|done].
    apply eq_wf_sym in E; [congruence | | done]. destruct (v_binding _ Hval) as (ob & Eb). unfold get, get_or in *.
    destruct (dget old "binding") as [x|] eqn:Ex; [by apply (wf_dget old "binding") | done].
Qed.
(** The reason argparse passes is a bounded line. *)
Definition bounded_reason (args : Namespace) : Prop :=
  forall s, attr args "reason" = Ok (VStr s) -> PyStr.len s <= 512 /\ PyStr.has_char "010" s = false.
Lemma appended_valid args (meta : Meta) tasks l s r :
  history l s -> Forall (fun r => wf (VDict r) = true) l -> appended args meta tasks l r ->
  positive_revisions tasks -> bounded_reason args ->
  (forall z, int_item meta "task_revision" = Ok z -> previous_revision s <= z) ->
  exists s', read_record s (VDict r) = Ok s'.
Proof.
  intros Hh Hw [(action & id & kind & material & b & z & reference & reason & Ea & -> & Hc & Ez & Er & Eb & Hv & Hs)] Hp Hb Hz.
  apply (binding_ok _ _ _ _ _ Hp) in Eb as (Hbind & Hwb & _).
  assert (reason_ok action reason) as Hr.
  { unfold reason_ok. destruct (String.eqb action "dispose"); [|done]. destruct Hs as [Es Ht].
    destruct (Hb _ Es). done. }
  change (sealed_record action id kind material b (z + 1) (last_digest l) reason) with
    (with_digest action id kind material b (z + 1) (last_digest l) reason
       (_digest (fields action id kind material b (z + 1) (last_digest l) reason))).
  assert (exists d, d = _digest (fields action id kind material b (z + 1) (last_digest l) reason)) as (d & Ed) by eauto.
  rewrite <- Ed. apply (read_record_ok s _ (validate_ok _ _ _ _ _ _ _ _ d Hc Hr Ed Hbind) eq_refl l Hh eq_refl).
  - change (previous_revision s < z + 1). specialize (Hz z Ez). lia.
  - eapply appended_follows; eauto.
Qed.
Lemma apply_inv args tasks (meta meta' : Meta) msg : apply args tasks meta = (meta', Ok msg) ->
  exists l r, records meta = Ok l /\ (length l < MAX_RECORDS)%nat /\ appended args meta tasks l r /\
    meta' = dset meta "assumption_revalidation" (VList (map VDict (l ++ [r]))).
Proof.
  unfold apply. cbv zeta. destruct (rbind _ _) as [[l r]|e] eqn:E; [|done]. intros [= <- _].
  apply rbind_Ok_inv in E as (u & _ & (l' & El & (u' & Hl%raise_if_Ok & (r' & Er & E)%rbind_Ok_inv)%rbind_Ok_inv)%rbind_Ok_inv).
  injection E as -> ->. exists l, r. split_and!; [done | by apply Nat.leb_gt | by apply assumption_next_record_inv | done].
Qed.
End transition.

(** ** Admission *)
Section admission.
  Context `{O : Observations}.
Lemma first_stale_None (meta : Meta) tasks t :
  first_stale meta tasks t = Ok None <->
  forall id r, (id, r) ∈ t -> pending r = true ->
    exists b, current_binding meta tasks r = Ok b /\ eq (VDict b) (get r "binding") = true.
Proof.
  induction t as [|[id r] t IH]; cbn [first_stale]; [by split; [intros _ ? ? ?%elem_of_nil|]|].
  destruct (pending r) eqn:Hp; cbn [negb].
  - destruct (current_binding meta tasks r) as [b|e] eqn:Eb; cbn [rbind].
    + destruct (ne (VDict b) (get r "binding")) eqn:En.
      * split; [done|]. intros Hc. destruct (Hc id r) as (b' & Eb' & He); [by left | done|].
        rewrite Eb in Eb'. injection Eb' as <-. apply ne_false in He. congruence.
      * apply ne_false in En. rewrite IH. split.
        -- intros Hc i x Hin Hx. apply elem_of_cons in Hin as [[= -> ->]|Hin]; [by exists b | by apply (Hc i)].
        -- intros Hc i x Hin. apply (Hc i). by right.
    + split; [done|]. intros Hc. destruct (Hc id r) as (b' & Eb' & _); [by left | done | congruence].
  - rewrite IH. split.
    + intros Hc i x Hin Hx. apply elem_of_cons in Hin as [[= -> ->]|Hin]; [congruence | by apply (Hc i)].
    + intros Hc i x Hin. apply (Hc i). by right.
Qed.
(** An assumption is fresh when what is observed now is what was recorded. *)
Definition fresh (meta : Meta) (tasks : list Meta) (r : dict) : Prop :=
  exists b, current_binding meta tasks r = Ok b /\ eq (VDict b) (get r "binding") = true.

(** C30: A task is admitted exactly when its history of assumptions is valid and
    every assumption that is material and not disposed of is observed now as it
    was last recorded; whatever else - a stale binding, an observation that
    fails, an invalid history - is an error that asks for revalidation. *)
Theorem admission_is_freshness (meta : Meta) tasks :
  admission_error meta tasks = Ok None <->
  exists l, records meta = Ok l /\
    forall id r, (id, r) ∈ active l -> pending r = true -> fresh meta tasks r.
Proof.
  unfold admission_error. destruct (records meta) as [l|e]; cbn [rbind].
  - split.
    + intros E. exists l. split; [done|]. apply first_stale_None.
      destruct (first_stale meta tasks (active l)) as [x|e]; [done|]. by destruct (is_RuntimeError e || is_ValueError e).
    + intros (l' & E & Hf). injection E as <-. by apply first_stale_None in Hf as ->.
  - split; [|by intros (? & ? & _)]. by destruct (is_RuntimeError e || is_ValueError e).
Qed.
Lemma record_is_fresh (meta : Meta) tasks v action id kind material b z previous reason reference :
  positive_revisions tasks -> _binding meta tasks kind reference = Ok b -> wf (VDict b) = true ->
  reference_of kind b = reference -> kind ∈ KINDS ->
  let r := sealed_record action id kind material b z previous reason in
  _validate (VDict r) = Ok r -> fresh (dset meta "assumption_revalidation" v) tasks r.
Proof.
  intros Hp Eb Hw Hr Hk r Hval. exists b. split; [|by apply eq_wf_refl].
  unfold current_binding. rewrite Hval. cbn [rbind]. rewrite binding_frame.
  change (str (get r "kind")) with kind. change (binding_of r) with b. rewrite <- Eb. f_equal. rewrite <- Hr.
  unfold reference_of. by change (is_s (get r "kind")) with (String.eqb kind).
Qed.
Lemma read_validates s (r : dict) s' : read_record s (VDict r) = Ok s' -> _validate (VDict r) = Ok r.
Proof. unfold read_record. intros (x & E & _)%rbind_Ok_inv. by destruct (_validate_inv _ _ E) as [[= <-] _]. Qed.

(** An action on the assumptions of a task appends exactly one record to the
    valid history, with the next revision, and leaves the rest of the task
    alone; the history stays valid, and the assumption recorded is fresh: what
    is observed of the task after the action is what the record binds. *)
Theorem assumption_recorded_fresh args tasks (meta meta' : Meta) msg :
  apply args tasks meta = (meta', Ok msg) -> wf (VDict meta) = true -> positive_revisions tasks -> bounded_reason args ->
  (forall l z, records meta = Ok l -> int_item meta "task_revision" = Ok z -> Forall (fun r => revision r <= z) l) ->
  exists l r z, records meta = Ok l /\ records meta' = Ok (l ++ [r]) /\ int_item meta "task_revision" = Ok z /\
    revision r = z + 1 /\ attr args "assumption_action" = Ok (get r "action") /\ fresh meta' tasks r /\
    forall k, k <> "assumption_revalidation" -> get meta' k = get meta k.
Proof.
  intros (l & r & El & Hlen & Hap & ->)%apply_inv Hw Hp Hb Hz. pose proof (records_wf _ _ Hw El) as Hwl.
  destruct (assumption_records_inv _ _ El) as (_ & _ & s & Es & Hh). pose proof Hap as Hap'.
  destruct Hap' as [(action & id & kind & material & b & z & reference & reason & Ea & Er & Hc & Ez & _ & Eb & _)].
  destruct (appended_valid _ _ _ _ _ _ Hh Hwl Hap Hp Hb) as (s' & Es').
  { intros z' Ez'. rewrite Ez in Ez'. injection Ez' as <-. rewrite (h_last _ _ Hh). specialize (Hz l z El Ez).
    destruct l as [|x l0 _] using rev_ind; [pose proof (rc_revision _ _ _ _ _ Hc); cbn; lia|].
    rewrite last_snoc. apply Forall_app in Hz as [_ Hx]. by rewrite Forall_singleton in Hx. }
  exists l, r, z. split_and!; [done | | done | by subst r | by rewrite Er | | ].
  - unfold records, get_or. rewrite dget_dset_eq, length_map, length_app. cbn [length].
    replace (Nat.ltb MAX_RECORDS (length l + 1)) with false by (symmetry; apply Nat.ltb_ge; lia). cbn [raise_if rbind].
    rewrite map_app. cbn [map]. rewrite Chain.foldM_snoc, Es. cbn [rbind]. rewrite Es'. cbn [rbind].
    by rewrite map_app, map_map, map_id.
  - apply read_validates in Es'. subst r. destruct (binding_ok _ _ _ _ _ Hp Eb) as (_ & Hwb & Href).
    eapply record_is_fresh; eauto. apply (rc_kind _ _ _ _ _ Hc).
  - intros k Hk. rewrite get_dset. by destruct (String.eqb_spec "assumption_revalidation" k).
Qed.
End admission.

(** ** Witnesses *)
Module Sample.
Definition head : string := "0123456789012345678901234567890123456789".
#[export] Instance observations : Observations := {|
  base_available key := String.eqb key "tree";
  base_head _ := (0, head +:+ String "010" "");
  state_file ref := if String.eqb ref "notes.txt" then Regular "notes" else Unavailable;
|}.
Definition task : Meta := [
  ("id", VStr "AR-0001"); ("status", VStr "in_progress"); ("owner", VStr "ann"); ("task_revision", VInt 3);
  ("worktree_key", VStr "tree")].
Definition args (action id kind reference : string) (revision : Z) : Namespace := [
  ("task", VStr "AR-0001"); ("owner", VStr "ann"); ("expected_revision", VInt revision);
  ("assumption_action", VStr action); ("assumption_id", VStr id); ("kind", VStr kind); ("material", VBool true);
  ("reference", VStr reference); ("reason", VStr "")].
Definition tasks : list Meta := [task; [("id", VStr "AR-0002"); ("task_revision", VInt 7)]].
Definition declared : Meta := Eval vm_compute in fst (apply (args "declare" "base" "base" "" 3) tasks task).
Definition later : Meta := dset declared "task_revision" (VInt 4).
Definition twice : Meta :=
  Eval vm_compute in fst (apply (args "declare" "peer" "dependency" "AR-0002" 4) tasks later).
(** The same task as it reads back from its file. *)
Definition reread : Meta := Eval vm_compute in Journal.canon_items twice.
Definition history_of (meta : Meta) : list dict := match records meta with Ok l => l | Raise _ => [] end.
End Sample.
#[local] Existing Instance Sample.observations.
Lemma assumption_history_pinned_witness :
  length (Sample.history_of Sample.twice) = 2%nat /\
  (map (Chain.content identity) (Sample.history_of Sample.twice) = map (Chain.content identity) (Sample.history_of Sample.reread) \/
   Chain.colliding identity (Sample.history_of Sample.twice) (Sample.history_of Sample.reread)).
Proof.
  split; [vm_compute; reflexivity|].
  apply (assumption_history_pinned Sample.twice Sample.reread); vm_compute; reflexivity.
Defined.
Lemma assumption_is_pinned_witness : Chain.each same_assumption (Sample.history_of Sample.twice).
Proof. apply (assumption_is_pinned Sample.twice). vm_compute. reflexivity. Defined.
Lemma assumption_recorded_fresh_witness :
  exists r, records Sample.twice = Ok (Sample.history_of Sample.later ++ [r]) /\ fresh Sample.twice Sample.tasks r.
Proof.
  destruct (assumption_recorded_fresh (Sample.args "declare" "peer" "dependency" "AR-0002" 4) Sample.tasks Sample.later
              Sample.twice "Recorded assumption declare for peer.") as (l & r & z & El & Er & _ & _ & _ & Hf & _).
  - vm_compute. reflexivity.
  - vm_compute. reflexivity.
  - repeat constructor; cbn; intros z [= <-]; done.
  - intros s E. injection E as <-. vm_compute. done.
  - intros l z El Ez. vm_compute in El, Ez. injection El as <-. injection Ez as <-. repeat constructor; vm_compute; discriminate.
  - exists r. split; [|exact Hf]. rewrite Er. unfold Sample.history_of. by rewrite El.
Defined.
End AssumptionLaws.
