(* ===== verification/TaskSpec.v ===== *)
(** * Task specifications and predicate evidence ([task_spec.py])

    The evidence policy of a repository, the validation of a specification and
    of the ledger of evidence for its predicates, and the proof a task needs to
    become done.  The files are the interface [Artifacts]; how Git proves that
    the policy file is tracked and unchanged is not modelled. *)
From S2P Require Import Prelude PyStr Regex PyVal PyJson JsonParse.

(** What reading the policy file gives: its digest, its device and inode, and
    its text where it is UTF-8. *)
Inductive policy_file : Type :=
  | NoPolicy
  | PolicyProblem (error : string)
  | PolicyText (digest : string) (identity : Z * Z) (text : option string).
(** A text file below the state root. *)
Inductive text_file : Type :=
  | Text (content : string)
  | Unreadable (error : string)
  | Undecodable (error : string).
Class Artifacts : Type := {
  policy_source : policy_file;
  spec_text : string -> text_file;
  (** the message of [json.JSONDecodeError] *)
  json_error : string -> string;
  (** the content of a regular file of at most 4 MiB *)
  artifact : string -> option string;
}.

Module TaskSpec.
Import Py.
Definition fm := Regex.fullmatch.
Definition EVIDENCE_CLASSES : list string :=
  ["mechanical"; "contract-test"; "property-or-fuzz"; "bounded-model"; "environmental"].
Definition POLICY_MAX_CLASSES : nat := 32.
Definition lowers : Regex.re := Regex.plus (Regex.RChar PyStr.is_lower).
Definition POLICY_CLASS : Regex.re := Regex.cat lowers (Regex.RStar (Regex.cat (Regex.lit "-") lowers)).
Definition reference (extra : string) (lo hi : nat) : Regex.re :=
  Regex.cat (Regex.RChar Regex.alnum)
    (Regex.between lo hi (Regex.RChar (Regex.union Regex.alnum (Regex.one_of extra)))).
Definition SPEC_REF : Regex.re := reference "._/-" 2 255.
Definition TOOL_REF : Regex.re := reference "._:/-" 0 127.
Definition ID_REF : Regex.re := reference "._-" 2 63.
Definition EVIDENCE_REF : Regex.re := reference "._:/-" 2 255.
Definition CLASS_REF : Regex.re :=
  Regex.cat (Regex.RChar PyStr.is_lower)
    (Regex.plus (Regex.RChar (Regex.union PyStr.is_lower (Regex.one_of "-")))).
Definition DIGEST := Regex.DIGEST.
(** [^.{1,1000}$] *)
Definition one_line (s : string) : bool := (1 <=? PyStr.len s) && (PyStr.len s <=? 1000) && negb (PyStr.has_char "010" s).
Definition LEDGER_FIELDS : list string := ["candidate_ref"; "candidate_digest"; "steps"].
Definition LEDGER_STEP_FIELDS : list string :=
  ["predicate_id"; "status"; "candidate_ref"; "candidate_digest"; "evidence_class"; "evidence_ref"; "evidence_digest";
   "recorded_task_revision"].
Definition SPEC_FIELDS : list string :=
  ["schema_version"; "spec_ref"; "spec_revision"; "acceptance_predicates"; "definition_of_done"; "inputs"; "outputs";
   "allowed_tools"; "forbidden_tools"; "required_evidence_classes"; "gates"].

(** ** The evidence policy *)
Record EvidencePolicy : Type := MkPolicy {
  classes : list string; policy_digest : string; policy_identity : option (Z * Z); policy_present : bool }.
#[export] Instance EvidencePolicy_eq_dec : EqDecision EvidencePolicy.
Proof. solve_decision. Defined.
Definition DEFAULT_EVIDENCE_POLICY : EvidencePolicy := MkPolicy EVIDENCE_CLASSES "absent" None false.
Definition policy_class (v : value) : bool :=
  match v with VStr s => (PyStr.len s <=? 32) && fm POLICY_CLASS s | _ => false end.
Definition text (v : value) : string := match v with VStr s => s | _ => "" end.
Definition policy_of (digest : string) (file : Z * Z) (v : value) : res EvidencePolicy :=
  match v with
  | VDict d =>
      check raise_if (negb (keys_are d ["schema_version"; "additional_evidence_classes"])
                      || ne (get d "schema_version") (VInt 1))
              (PolicyError "task-spec policy shape or version is invalid") ;;
      match get d "additional_evidence_classes" with
      | VList additions =>
          check raise_if (Nat.eqb (length additions) 0 || Nat.ltb POLICY_MAX_CLASSES (length additions)
                          || negb (forallb policy_class additions))
                  (PolicyError "task-spec policy evidence classes are invalid") ;;
          let names := map text additions in
          check raise_if (negb (Nat.eqb (length (PyStr.dedup names)) (length names)))
                  (PolicyError "task-spec policy evidence classes contain duplicates") ;;
          check raise_if (existsb (fun n => PyStr.mem n EVIDENCE_CLASSES) names)
                  (PolicyError "task-spec policy evidence classes collide with built-ins") ;;
          Ok (MkPolicy (EVIDENCE_CLASSES ++ names) digest (Some file) true)
      | _ => Raise (PolicyError "task-spec policy evidence classes are invalid")
      end
  | _ => Raise (PolicyError "task-spec policy shape or version is invalid")
  end.
(** [TaskSpecPolicyError] *)
Definition is_PolicyError (e : exn) : bool := match e with PolicyError _ => true | _ => false end.

Section files.
  Context `{A : Artifacts}.
Definition evidence_policy : res EvidencePolicy :=
  match policy_source with
  | NoPolicy => Ok DEFAULT_EVIDENCE_POLICY
  | PolicyProblem error => Raise (PolicyError error)
  | PolicyText digest file payload =>
      match option_bind _ _ JsonParse.loads payload with
      | Some v => policy_of digest file v
      | None => Raise (PolicyError "task-spec policy is not valid UTF-8 JSON")
      end
  end.
Definition task_spec_policy_errors : res (list string) :=
  match evidence_policy with
  | Ok _ => Ok []
  | Raise e => if is_PolicyError e then Ok [exn_msg e] else Raise e
  end.
Definition require_policy_unchanged (expected : EvidencePolicy) : res unit :=
  match evidence_policy with
  | Ok current => raise_if (negb (bool_decide (current = expected))) (PolicyError "task-spec policy changed during operation")
  | Raise e => if is_PolicyError e then Raise (PolicyError "task-spec policy changed during operation") else Raise e
  end.
(** [policy or evidence_policy(root)] *)
Definition selected (policy : option EvidencePolicy) : res EvidencePolicy :=
  match policy with Some p => Ok p | None => evidence_policy end.

(** ** Specifications *)
Definition _strings (v : value) (field : string) (pattern : string -> bool) (allow_empty : bool) : res (list string) :=
  match v with
  | VList l =>
      if Nat.eqb (length l) 0 && negb allow_empty then Ok [field +:+ " must be a non-empty array"]
      else
        let errors := flat_map (fun item => match item with
                                            | VStr s => if pattern s then [] else [field +:+ " contains an invalid value"]
                                            | _ => [field +:+ " contains an invalid value"]
                                            end) l in
        let* duplicates := has_duplicates l in
        Ok (errors ++ if duplicates : bool then [field +:+ " must not contain duplicates"] else [])
  | _ => Ok [field +:+ " must be a non-empty array"]
  end.
Definition named (v : value) : bool := match v with VDict d => keys_are d ["id"; "description"] | _ => false end.
Definition dict_of (v : value) : dict := match v with VDict d => d | _ => [] end.
Definition good_id (v : value) : bool := match v with VStr s => fm ID_REF s | _ => false end.
Definition good_description (v : value) : bool := match v with VStr s => PyStr.truthy (PyStr.strip s) | _ => false end.
Definition item_errors (field : string) (v : value) : list string :=
  if named v then
    (if good_id (get (dict_of v) "id") then [] else [field +:+ " has an invalid id"])
    ++ (if good_description (get (dict_of v) "description") then [] else [field +:+ " has an invalid description"])
  else [field +:+ " items must contain only id and description"].
Definition identifiers (l : list value) : list string :=
  flat_map (fun v => if named v && good_id (get (dict_of v) "id") then [text (get (dict_of v) "id")] else []) l.
Definition _named_items (v : value) (field : string) : list string :=
  match v with
  | VList ((_ :: _) as l) =>
      flat_map (item_errors field) l
      ++ if Nat.eqb (length (PyStr.dedup (identifiers l))) (length (identifiers l)) then []
         else [field +:+ " ids must be unique"]
  | _ => [field +:+ " must be a non-empty array"]
  end.
Definition positive (v : value) : bool := match v with VInt z => 1 <=? z | _ => false end.
Definition _identity_errors (d : dict) : list string :=
  map (fun f => "spec contains unknown field: " +:+ f) (List.filter (fun k => negb (PyStr.mem k SPEC_FIELDS)) (keys d))
  ++ map (fun f => "spec missing field: " +:+ f) (PyStr.sort (List.filter (fun k => negb (has d k)) SPEC_FIELDS))
  ++ (if ne (get d "schema_version") (VInt 1) then ["spec schema_version must be 1"] else [])
  ++ (if negb (is_str (get d "spec_ref")) || negb (fm SPEC_REF (str (get d "spec_ref"))) then ["spec_ref is invalid"] else [])
  ++ (if positive (get d "spec_revision") then [] else ["spec_revision must be a positive integer"]).
Definition _collection_errors (d : dict) : res (list string) :=
  let predicates := _named_items (get d "acceptance_predicates") "acceptance_predicates" in
  let* done := _strings (get d "definition_of_done") "definition_of_done" one_line false in
  Ok (predicates ++ done ++ _named_items (get d "inputs") "inputs" ++ _named_items (get d "outputs") "outputs"
      ++ _named_items (get d "gates") "gates").
(** [[item for item in value.get(k, []) if isinstance(item, str)]] *)
Definition names_of (d : dict) (k : string) : res (list string) :=
  let* l := iter (get_or d k (VList [])) in Ok (map text (List.filter is_str l)).
(** [sorted(set(evidence) - classes)] joined: names only *)
Definition unknown_classes (l : list value) (evidence_classes : list string) : res (list string) :=
  let unknown := List.filter (fun v => negb (in_tuple v evidence_classes)) l in
  check raise_if (negb (forallb is_str unknown)) (TypeError "sequence item: expected str instance") ;;
  Ok (PyStr.sorted_set (map text unknown)).
Definition _tool_errors (d : dict) (evidence_classes : list string) : res (list string) :=
  let* allowed_errors := _strings (get d "allowed_tools") "allowed_tools" (fm TOOL_REF) false in
  let* forbidden_errors := _strings (get d "forbidden_tools") "forbidden_tools" (fm TOOL_REF) true in
  let* allowed := names_of d "allowed_tools" in
  let* forbidden := names_of d "forbidden_tools" in
  let overlap := PyStr.sorted_set (List.filter (fun n => PyStr.mem n forbidden) allowed) in
  let* evidence_errors :=
    _strings (get d "required_evidence_classes") "required_evidence_classes" (fm CLASS_REF) false in
  let* unknown := match get d "required_evidence_classes" with
                  | VList l => unknown_classes l evidence_classes
                  | _ => Ok []
                  end in
  Ok (allowed_errors ++ forbidden_errors
      ++ (match overlap with [] => [] | _ => ["allowed_tools and forbidden_tools overlap: " +:+ PyStr.join ", " overlap] end)
      ++ evidence_errors
      ++ match unknown with [] => [] | _ => ["unknown evidence class: " +:+ PyStr.join ", " unknown] end).
Definition spec_errors (v : value) (evidence_classes : list string) : res (list string) :=
  match v with
  | VDict d =>
      let* collections := _collection_errors d in
      let* tools := _tool_errors d evidence_classes in
      Ok (PyStr.sorted_set (_identity_errors d ++ collections ++ tools))
  | _ => Ok ["spec must be an object"]
  end.
Definition _metadata_errors (task_id : string) (meta : Meta) : list string :=
  if negb (is_str (get meta "spec_ref")) then [task_id +:+ ": spec_ref is required"]
  else if negb (positive (get meta "spec_revision")) then [task_id +:+ ": spec_revision must be a positive integer"]
  else [].
(** The value a specification file holds, or the errors. *)
Definition _load_spec (task_id spec_ref : string) : res (value + list string) :=
  if negb (fm SPEC_REF spec_ref) || PyStr.startswith "." spec_ref || PyStr.mem ".." (PyStr.parts spec_ref)
  then Ok (inr [task_id +:+ ": spec_ref is unsafe"])
  else
    match spec_text spec_ref with
    | Text content =>
        match JsonParse.loads content with
        | Some v => Ok (inl v)
        | None => Ok (inr [task_id +:+ ": cannot read spec_ref: " +:+ json_error content])
        end
    | Unreadable error => Ok (inr [task_id +:+ ": cannot read spec_ref: " +:+ error])
    | Undecodable error => Raise (ValueError error)
    end.
Definition task_name (meta : Meta) : string := str (get_or meta "id" (VStr "task")).

(** ** The ledger *)
Definition _artifact_digest (v : value) : option string :=
  match v with
  | VStr s =>
      if fm EVIDENCE_REF s && negb (PyStr.is_absolute s) && negb (PyStr.mem ".." (PyStr.parts s))
      then PyJson.sha256 <$> artifact s else None
  | _ => None
  end.
Definition or_none (s : option string) : value := match s with Some s => VStr s | None => VNull end.
(** [_artifact_digest(root, reference) == digest] *)
Definition fresh (ref digest : value) : bool := eq (or_none (_artifact_digest ref)) digest.
Definition matching (r : Regex.re) (v : value) : bool := match v with VStr s => fm r s | _ => false end.
(** The identifiers [{item["id"] for item in ... if isinstance(item, dict)}]. *)
Definition predicate_ids (spec : dict) : res (list value) :=
  let* l := iter (get_or spec "acceptance_predicates" (VList [])) in
  mapr (fun v => let* i := item (dict_of v) "id" in check require_hashable i ;; Ok i) (List.filter is_dict l).
(** [v + 1] *)
Definition plus_one (v : value) : res Z :=
  match as_Z v with
  | Some z => Ok (z + 1)
  | None => Raise (TypeError ("unsupported operand type(s) for +: '" +:+ type_name v +:+ "' and 'int'"))
  end.
Definition is_pass (step : dict) : bool := is_s (get step "status") "pass".
Definition same_candidate (step ledger : dict) : bool :=
  eq (get step "candidate_ref") (get ledger "candidate_ref")
  && eq (get step "candidate_digest") (get ledger "candidate_digest").
Definition if_error (c : bool) (message : string) : list string := if c then ["evidence ledger " +:+ message] else [].
(** One step, with the predicates already passed. *)
Definition step_errors (meta : Meta) (policy : EvidencePolicy) (ledger : dict) (predicates : list value)
    (seen : list string) (step : dict) : res (list string) :=
  let predicate := get step "predicate_id" in
  let current := is_pass step in
  check require_hashable predicate ;;
  let* known_status := in_set (get step "status") ["pass"; "stale"] in
  let* known_class := in_set (get step "evidence_class") (classes policy) in
  let* late := match get step "recorded_task_revision" with
               | VInt z => if z <? 1 then Ok true
                           else let* limit := plus_one (get_or meta "task_revision" (VInt 0)) in Ok (limit <? z)
               | _ => Ok true
               end in
  Ok (if_error (negb (in_list predicate predicates) || in_tuple predicate seen && current)
        "predicate is invalid or duplicated"
      ++ if_error (negb known_status) "step status is invalid"
      ++ if_error (negb (matching EVIDENCE_REF (get step "candidate_ref"))) "step candidate ref is invalid"
      ++ if_error (negb (matching DIGEST (get step "candidate_digest"))) "step candidate digest is invalid"
      ++ if_error (current && negb (same_candidate step ledger)) "passing step candidate does not match ledger"
      ++ if_error (current && negb (fresh (get step "candidate_ref") (get step "candidate_digest")))
           "step candidate artifact digest is invalid"
      ++ if_error (negb current && same_candidate step ledger) "stale step candidate matches ledger"
      ++ if_error (negb known_class) "evidence class is unknown"
      ++ if_error (negb (matching EVIDENCE_REF (get step "evidence_ref"))) "evidence ref is invalid"
      ++ if_error (negb (matching DIGEST (get step "evidence_digest"))) "evidence digest is invalid"
      ++ if_error (current && negb (fresh (get step "evidence_ref") (get step "evidence_digest")))
           "evidence artifact digest is invalid"
      ++ if_error late "step revision is invalid").
Fixpoint steps_errors (meta : Meta) (policy : EvidencePolicy) (ledger : dict) (predicates : list value)
    (seen : list string) (steps : list value) : res (list string) :=
  match steps with
  | [] => Ok []
  | VDict step :: steps' =>
      if keys_are step LEDGER_STEP_FIELDS then
        let* errors := step_errors meta policy ledger predicates seen step in
        let seen' := if is_str (get step "predicate_id") && is_pass step then text (get step "predicate_id") :: seen
                     else seen in
        let* rest := steps_errors meta policy ledger predicates seen' steps' in
        Ok (errors ++ rest)
      else
        let* rest := steps_errors meta policy ledger predicates seen steps' in
        Ok (if_error true "step is incomplete or unknown" ++ rest)
  | _ :: steps' =>
      let* rest := steps_errors meta policy ledger predicates seen steps' in
      Ok (if_error true "step is incomplete or unknown" ++ rest)
  end.
Definition evidence_ledger_errors (meta : Meta) (policy : option EvidencePolicy) : res (list string) :=
  match get meta "evidence_ledger" with
  | VNull => Ok []
  | VDict ledger =>
      if negb (keys_are ledger LEDGER_FIELDS) then Ok ["evidence ledger is incomplete or unknown"]
      else
        let* policy := selected policy in
        if negb (fresh (get ledger "candidate_ref") (get ledger "candidate_digest"))
        then Ok ["evidence ledger candidate artifact digest is invalid"]
        else
          match get ledger "steps" with
          | VList steps =>
              let* loaded := _load_spec (task_name meta) (str (get meta "spec_ref")) in
              match loaded with
              | inl (VDict spec) =>
                  let* predicates := predicate_ids spec in
                  let* errors := steps_errors meta policy ledger predicates [] steps in
                  Ok (PyStr.sorted_set errors)
              | _ => Ok ["evidence ledger task spec is unavailable"]
              end
          | _ => Ok ["evidence ledger steps are invalid"]
          end
  | _ => Ok ["evidence ledger is incomplete or unknown"]
  end.
Definition spec_field_errors (task_id spec_ref : string) (meta : Meta) (v : value) : list string :=
  match v with
  | VDict d =>
      (if ne (get d "spec_revision") (get meta "spec_revision")
       then [task_id +:+ ": spec_revision does not match referenced spec"] else [])
      ++ (if ne (get d "spec_ref") (VStr spec_ref) then [task_id +:+ ": spec_ref does not match referenced spec"] else [])
  | _ => []
  end.
Definition task_spec_errors (meta : Meta) (policy : option EvidencePolicy) (include_ledger : bool) : res (list string) :=
  if negb (has meta "spec_ref") && negb (has meta "spec_revision") then Ok []
  else
    let task_id := task_name meta in
    match selected policy with
    | Raise e => if is_PolicyError e then Ok [task_id +:+ ": " +:+ exn_msg e] else Raise e
    | Ok policy =>
        match _metadata_errors task_id meta with
        | [] =>
            let spec_ref := str (get meta "spec_ref") in
            let* loaded := _load_spec task_id spec_ref in
            match loaded with
            | inr errors => Ok errors
            | inl v =>
                let* errors := spec_errors v (classes policy) in
                let* ledger := if include_ledger then evidence_ledger_errors meta (Some policy) else Ok [] in
                Ok (PyStr.sorted_set (map (fun e => task_id +:+ ": " +:+ e) errors
                                      ++ spec_field_errors task_id spec_ref meta v ++ ledger))
            end
        | errors => Ok errors
        end
    end.

(** ** Admission *)
(** The identifiers of the steps that passed. *)
Definition passing (meta : Meta) : res (list value) :=
  let* steps := match get meta "evidence_ledger" with
                | VDict ledger => iter (get_or ledger "steps" (VList []))
                | _ => Ok []
                end in
  mapr (fun v => let i := get (dict_of v) "predicate_id" in check require_hashable i ;; Ok i)
    (List.filter (fun v => is_dict v && is_pass (dict_of v)) steps).
Fixpoint first_unmet (passed : list value) (items : list value) : res (option value) :=
  match items with
  | [] => Ok None
  | v :: items' =>
      let* i := vget v "id" in
      check require_hashable i ;;
      if in_list i passed then first_unmet passed items' else let* i := vitem v "id" in Ok (Some i)
  end.
Definition next_unmet_predicate (meta : Meta) : res (option value) :=
  if negb (has meta "spec_ref") then Ok None
  else
    let* loaded := _load_spec (task_name meta) (str (get meta "spec_ref")) in
    match loaded with
    | inl (VDict spec) =>
        let* passed := passing meta in
        let* items := iter (get_or spec "acceptance_predicates" (VList [])) in
        first_unmet passed items
    | _ => Ok None
    end.
Definition denied (message : string) : option string := Some ("done admission denied: " +:+ message).
Definition has_spec (meta : Meta) : bool := has meta "spec_ref" || has meta "spec_revision".
Definition acceptance_error (meta : Meta) (policy : EvidencePolicy) : res (option string) :=
  let spec := has_spec meta in
  let required := ["status"; "evidence_class"; "evidence_ref"; "evidence_digest"]
                  ++ if spec then ["spec_ref"; "spec_revision"] else ["match"] in
  match get meta "spec_acceptance" with
  | VDict acceptance =>
      if negb (keys_are acceptance required) then Ok (denied "spec_acceptance is incomplete or unknown")
      else if negb spec && ne (get acceptance "match") (VStr "best_effort")
      then Ok (denied "acceptance match is not best_effort")
      else if spec && ne (get acceptance "spec_ref") (get meta "spec_ref")
      then Ok (denied "acceptance spec_ref does not match task spec")
      else if spec && ne (get acceptance "spec_revision") (get meta "spec_revision")
      then Ok (denied "acceptance spec_revision does not match task spec")
      else if ne (get acceptance "status") (VStr "pass") then Ok (denied "acceptance status is not pass")
      else
        let* known := in_set (get acceptance "evidence_class") (classes policy) in
        Ok (if negb known then denied "acceptance evidence class is unknown"
            else if negb (matching EVIDENCE_REF (get acceptance "evidence_ref"))
            then denied "acceptance evidence ref is invalid"
            else if negb (matching DIGEST (get acceptance "evidence_digest"))
            then denied "acceptance evidence digest is invalid" else None)
  | _ => Ok (denied "spec_acceptance is incomplete or unknown")
  end.
Definition done_admission_error (meta : Meta) (policy : option EvidencePolicy) : res (option string) :=
  match selected policy with
  | Raise e => if is_PolicyError e then Ok (denied (exn_msg e)) else Raise e
  | Ok policy =>
      let* errors := task_spec_errors meta (Some policy) true in
      match errors with
      | _ :: _ => Ok (denied (PyStr.join "; " errors))
      | [] =>
          if is_null (get meta "evidence_ledger") then acceptance_error meta policy
          else
            let* ledger_errors := evidence_ledger_errors meta (Some policy) in
            match ledger_errors with
            | _ :: _ => Ok (denied (PyStr.join "; " ledger_errors))
            | [] =>
                let* unmet := next_unmet_predicate meta in
                Ok match unmet with
                   | Some v => if is_null v then None else denied "predicate evidence steps remain unmet"
                   | None => None
                   end
            end
      end
  end.
End files.
End TaskSpec.
