(* ===== verification/PredicateLedger.v ===== *)
(** * Predicate evidence ([predicate_ledger.py], [predicate_ledger_repair.py])

    The acceptance of a task: one plain record, or a ledger with a passing row
    for each predicate of the specification, bound to one candidate; and the
    repair of a ledger after the task is done. *)
From S2P Require Import Prelude PyStr Regex PyVal PyJson JsonParse TaskSpec.

Module PredicateLedger.
Import Py TaskSpec.
Definition inputs : Type := string * string * string * bool.
Definition predicate_acceptance_inputs (args : Namespace) : res (option inputs) :=
  let predicate := getattr args "predicate" VNull in
  let candidate_ref := getattr args "candidate_ref" VNull in
  let candidate_digest := getattr args "candidate_digest" VNull in
  let reopen := truthy (getattr args "reopen" (VBool false)) in
  if is_null predicate && is_null candidate_ref && is_null candidate_digest && negb reopen then Ok None
  else
    check raise_if (negb (forallb (fun v => is_str v && truthy v) [predicate; candidate_ref; candidate_digest]))
            (RuntimeError "predicate acceptance requires predicate, candidate ref, and candidate digest") ;;
    Ok (Some (text predicate, text candidate_ref, text candidate_digest, reopen)).

Section files.
  Context `{A : Artifacts}.
(** [json.loads((root / spec_ref).read_text(...))] *)
Definition read_spec (spec_ref : string) : res value :=
  match spec_text spec_ref with
  | Text content =>
      match JsonParse.loads content with Some v => Ok v | None => Raise (ValueError (json_error content)) end
  | Unreadable error => Raise (OSError error)
  | Undecodable error => Raise (ValueError error)
  end.
Definition spec_predicates (only_dicts : bool) (spec : value) : res (list value) :=
  let* v := vitem spec "acceptance_predicates" in
  let* l := iter v in
  mapr (fun v => let* i := vitem v "id" in check require_hashable i ;; Ok i)
    (if only_dicts then List.filter is_dict l else l).
Definition _validate_spec (meta : Meta) (policy : option EvidencePolicy) (predicate : string) : res unit :=
  check raise_if (negb (has meta "spec_ref") || negb (has meta "spec_revision"))
          (RuntimeError "predicate acceptance requires a bound task spec") ;;
  let* errors := task_spec_errors (dpop meta "evidence_ledger") policy true in
  check raise_if (negb (Nat.eqb (length errors) 0)) (RuntimeError "predicate acceptance task spec is unavailable") ;;
  let* spec := read_spec (str (get meta "spec_ref")) in
  let* predicates := spec_predicates false spec in
  raise_if (negb (in_list (VStr predicate) predicates)) (RuntimeError "predicate acceptance names an unknown predicate").
Definition _ledger (meta : Meta) (candidate_ref candidate_digest : string) : res dict :=
  match get meta "evidence_ledger" with
  | VNull => Ok [("candidate_ref", VStr candidate_ref); ("candidate_digest", VStr candidate_digest); ("steps", VList [])]
  | VDict ledger => Ok ledger
  | _ => Raise (RuntimeError "predicate evidence ledger is malformed")
  end.
Definition _candidate_changed (ledger : dict) (candidate_ref candidate_digest : string) : bool :=
  ne (get ledger "candidate_ref") (VStr candidate_ref) || ne (get ledger "candidate_digest") (VStr candidate_digest).
Definition retire (row : dict) : dict := if is_pass row then dset row "status" (VStr "stale") else row.
Definition retire_value (v : value) : value := match v with VDict row => VDict (retire row) | _ => v end.
Definition _historical_steps (steps : value) : value :=
  match steps with VList l => VList (map retire_value l) | _ => steps end.
Definition rebind (ledger : dict) (candidate_ref candidate_digest : string) : dict :=
  dset (dset ledger "candidate_ref" (VStr candidate_ref)) "candidate_digest" (VStr candidate_digest).
Definition require_no_errors (errors : list string) : res unit :=
  raise_if (negb (Nat.eqb (length errors) 0)) (RuntimeError ("predicate evidence is invalid: " +:+ PyStr.join "; " errors)).
Definition _validate_ledger (meta : Meta) (ledger : dict) (policy : option EvidencePolicy)
    (candidate_ref candidate_digest : string) (changed : bool) : res unit :=
  let* errors :=
    if changed then
      let prospective := dset (rebind ledger candidate_ref candidate_digest) "steps" (_historical_steps (get ledger "steps")) in
      evidence_ledger_errors (dset meta "evidence_ledger" (VDict prospective)) policy
    else evidence_ledger_errors meta policy in
  require_no_errors errors.
(** The rows kept: those of an earlier candidate, and of the predicate, are stale. *)
Definition retained (changed : bool) (predicate : string) (row : dict) : dict :=
  let row := if changed then retire row else row in
  if is_s (get row "predicate_id") predicate then retire row else row.
Definition new_step (predicate candidate_ref candidate_digest : string) (cls ref digest : value) (revision : Z) : dict :=
  [("predicate_id", VStr predicate); ("status", VStr "pass"); ("candidate_ref", VStr candidate_ref);
   ("candidate_digest", VStr candidate_digest); ("evidence_class", cls); ("evidence_ref", ref);
   ("evidence_digest", digest); ("recorded_task_revision", VInt revision)].
(** The ledger is the object in the metadata when there is one: rebinding it
    shows there at once. *)
Definition _record_step (args : Namespace) (ledger : dict) (predicate candidate_ref candidate_digest : string)
    (changed : bool) : st Meta unit :=
  do* steps := slift (fun _ => match get ledger "steps" with VList l => mapr mapping l | _ => Ok [] end) in
  let ledger := if changed then rebind ledger candidate_ref candidate_digest else ledger in
  do smodify (fun m => if changed then dset m "evidence_ledger" (VDict ledger) else m) ;;
  do* step := slift (fun m =>
    let* cls := attr args "evidence_class" in
    let* ref := attr args "evidence_ref" in
    let* digest := attr args "evidence_digest" in
    let* revision := int_item m "task_revision" in
    Ok (new_step predicate candidate_ref candidate_digest cls ref digest (revision + 1))) in
  smodify (fun m => dset m "evidence_ledger"
    (VDict (dset ledger "steps" (VList (map VDict (map (retained changed predicate) steps ++ [step])))))).
Definition apply_predicate_acceptance (args : Namespace) (policy : option EvidencePolicy) (request : inputs)
    : st Meta string :=
  let '(predicate, candidate_ref, candidate_digest, reopen) := request in
  do slift (fun m => _validate_spec m policy predicate) ;;
  do* ledger := slift (fun m => _ledger m candidate_ref candidate_digest) in
  let changed := _candidate_changed ledger candidate_ref candidate_digest in
  do slift (fun _ => raise_if (changed && negb reopen)
       (RuntimeError "candidate changed; reopen predicate evidence before recording")) ;;
  do slift (fun _ => raise_if (reopen && negb changed) (RuntimeError "reopen requires a different candidate")) ;;
  do slift (fun m => _validate_ledger m ledger policy candidate_ref candidate_digest changed) ;;
  do _record_step args ledger predicate candidate_ref candidate_digest changed ;;
  do slift (fun m => let* errors := evidence_ledger_errors m policy in require_no_errors errors) ;;
  slift (fun _ => let* note := attr args "note" in Ok (str note)).
Definition acceptance_record (args : Namespace) (meta : Meta) : res dict :=
  let* cls := attr args "evidence_class" in
  let* ref := attr args "evidence_ref" in
  let* digest := attr args "evidence_digest" in
  Ok ([("status", VStr "pass"); ("evidence_class", cls); ("evidence_ref", ref); ("evidence_digest", digest)]
      ++ if has meta "spec_ref" && has meta "spec_revision"
         then [("spec_ref", get meta "spec_ref"); ("spec_revision", get meta "spec_revision")]
         else [("match", VStr "best_effort")]).
Definition require_active (args : Namespace) (meta : Meta) : res unit :=
  let* owner := attr args "owner" in
  check (if ne (get meta "owner") owner
         then let* task := attr args "task" in
              Raise (RuntimeError (str task +:+ " is owned by "
                                   +:+ if truthy (get meta "owner") then str (get meta "owner") else "nobody"))
         else Ok tt) ;;
  check raise_if (negb (is_s (get meta "status") "in_progress")) (RuntimeError "accept requires an active task") ;;
  let* expected := attr args "expected_revision" in
  let* current := item meta "task_revision" in
  raise_if (ne expected current)
    (RuntimeError ("stale revision: expected " +:+ str expected +:+ ", current " +:+ str current)).
Definition raise_text (error : option string) : res unit :=
  match error with Some e => raise_if (PyStr.truthy e) (RuntimeError e) | None => Ok tt end.
(** [freshness_error]: the admission of the assumptions, asked only here *)
Definition apply_acceptance (args : Namespace) (policy : option EvidencePolicy)
    (freshness_error : Meta -> res (option string)) : st Meta string :=
  do slift (require_active args) ;;
  do slift (fun m => let* error := freshness_error m in raise_text error) ;;
  do* request := slift (fun _ => predicate_acceptance_inputs args) in
  match request with
  | Some request => apply_predicate_acceptance args policy request
  | None =>
      do* acceptance := slift (acceptance_record args) in
      do smodify (fun m => dset m "spec_acceptance" (VDict acceptance)) ;;
      do slift (fun m => let* error := done_admission_error m policy in raise_text error) ;;
      slift (fun _ => let* note := attr args "note" in Ok (str note))
  end.

(** ** Repair *)
Definition _MAX_REASON : Z := 512.
Definition _digest (reference : string) : option string :=
  if PyStr.is_absolute reference || PyStr.mem ".." (PyStr.parts reference) then None
  else PyJson.sha256 <$> artifact reference.
Definition digest_is (reference digest : string) : bool :=
  match _digest reference with Some d => String.eqb d digest | None => false end.
Definition require_inactive (args : Namespace) (meta : Meta) : res unit :=
  let* expected := attr args "expected_revision" in
  check raise_if (ne expected (get meta "task_revision"))
          (RuntimeError ("stale revision: expected " +:+ str expected +:+ ", current " +:+ str (get meta "task_revision"))) ;;
  raise_if (negb (is_s (get meta "status") "done") || truthy (get meta "owner") || truthy (get meta "claim_expires"))
    (RuntimeError "predicate-ledger repair requires a done, inactive, unowned task").
Definition repair_evidence (args : Namespace) : res (string * string * string * string) :=
  let* reason := attr args "reason" in
  let reason := str reason in
  check raise_if (negb (PyStr.truthy (PyStr.strip reason)) || (_MAX_REASON <? PyStr.len reason)
                  || PyStr.any_char (fun c => PyStr.ord c <? 32) reason)
          (RuntimeError "predicate-ledger repair reason is empty or unbounded") ;;
  let* predicate := attr args "predicate" in
  let* ref := attr args "evidence_ref" in
  let* digest := attr args "evidence_digest" in
  check raise_if (negb (fm EVIDENCE_REF (str ref)) || PyStr.startswith "/" (str ref) || PyStr.mem ".." (PyStr.parts (str ref)))
          (RuntimeError "predicate-ledger repair evidence ref is unsafe") ;;
  check raise_if (negb (fm DIGEST (str digest)) || negb (digest_is (str ref) (str digest)))
          (RuntimeError "predicate-ledger repair evidence digest is not fresh") ;;
  Ok (reason, str predicate, str ref, str digest).
Definition repair_ledger (meta : Meta) : res (dict * list value) :=
  match get meta "evidence_ledger" with
  | VDict ledger =>
      check raise_if (negb (keys_are ledger LEDGER_FIELDS))
              (RuntimeError "predicate-ledger repair requires a canonical evidence ledger") ;;
      match get ledger "steps" with
      | VList steps => Ok (ledger, steps)
      | _ => Raise (RuntimeError "predicate-ledger repair requires a canonical evidence ledger")
      end
  | _ => Raise (RuntimeError "predicate-ledger repair requires a canonical evidence ledger")
  end.
Definition repair_candidate (args : Namespace) (ledger : dict) : res (string * string) :=
  let* ref := attr args "candidate_ref" in
  let* digest := attr args "candidate_digest" in
  check raise_when (py_or [
            cond (negb (is_str ref));
            (let* d := need_str digest in Ok (negb (fm DIGEST d)));
            cond (negb (digest_is (str ref) (str digest)))])
          (RuntimeError "predicate-ledger repair candidate is stale") ;;
  check raise_if (eq ref (get ledger "candidate_ref") && eq digest (get ledger "candidate_digest"))
          (RuntimeError "predicate-ledger repair candidate is not new") ;;
  Ok (str ref, str digest).
(** Only the rows of the repaired predicate become stale. *)
Definition repaired_row (predicate : string) (v : value) : res dict :=
  match v with
  | VDict row => Ok (if is_s (get row "predicate_id") predicate then retire row else row)
  | _ => Raise (RuntimeError "predicate-ledger repair found a malformed historical row")
  end.
Definition repair_of (args : Namespace) (policy : option EvidencePolicy) (meta : Meta) : res (dict * string) :=
  check require_inactive args meta ;;
  let* evidence := repair_evidence args in
  let '(reason, predicate, ref, digest) := evidence in
  let* current := repair_ledger meta in
  let '(ledger, steps) := current in
  let selected_policy := default DEFAULT_EVIDENCE_POLICY policy in
  let* errors := task_spec_errors (dpop meta "evidence_ledger") (Some selected_policy) true in
  check raise_if (negb (Nat.eqb (length errors) 0)) (RuntimeError "predicate-ledger repair task spec is unavailable") ;;
  let* spec_ref := item meta "spec_ref" in
  let* spec := read_spec (str spec_ref) in
  let* predicates := spec_predicates true spec in
  check raise_if (negb (in_list (VStr predicate) predicates))
          (RuntimeError "predicate-ledger repair names an unknown predicate") ;;
  let* candidate := repair_candidate args ledger in
  let* cls := attr args "evidence_class" in
  let* known := in_set cls (classes selected_policy) in
  check raise_if (negb known) (RuntimeError "predicate-ledger repair evidence class is unknown") ;;
  let* revision := int_item meta "task_revision" in
  let* history := mapr (repaired_row predicate) steps in
  let step := new_step predicate candidate.1 candidate.2 cls (VStr ref) (VStr digest) (revision + 1) in
  Ok (dset (rebind ledger candidate.1 candidate.2) "steps" (VList (map VDict (history ++ [step]))), reason).
Definition repair (args : Namespace) (policy : option EvidencePolicy) : st Meta string := fun meta =>
  match repair_of args policy meta with
  | Raise e => (meta, Raise e)
  | Ok (ledger, reason) => (dset meta "evidence_ledger" (VDict ledger), Ok reason)
  end.
End files.
End PredicateLedger.
