(* ===== verification/EvidenceLaws.v ===== *)
(** * Predicate evidence: theorems

    What a valid ledger of evidence says, that a task with a ledger becomes done
    only when every predicate of its specification has fresh evidence for the
    current candidate, what acceptance and repair do to the rows, and where the
    two leave a ledger that can no longer be completed. *)
From S2P Require Import Prelude PyStr Regex PyVal PyJson JsonParse Frame TaskSpec PredicateLedger.

Module EvidenceLaws.
Import Py TaskSpec PredicateLedger.

Lemma if_error_nil c m : if_error c m = [] -> c = false.
Proof. by destruct c. Qed.

Lemma rows_inj (l m : list dict) : map VDict l = map VDict m -> l = m.
Proof. revert m. induction l as [|x l IH]; intros [|y m] E; try done. injection E as -> E. by rewrite (IH _ E). Qed.

Section laws.
  Context `{A : Artifacts}.

(** ** Valid ledgers *)
(** A row of a valid ledger. *)
Record row_ok (policy : EvidencePolicy) (ledger : dict) (predicates : list value) (step : dict) : Prop := RowOk {
  ro_fields : keys_are step LEDGER_STEP_FIELDS = true;
  ro_predicate : in_list (get step "predicate_id") predicates = true;
  ro_status : get step "status" = VStr "pass" \/ get step "status" = VStr "stale";
  ro_class : in_tuple (get step "evidence_class") (classes policy) = true;
  ro_candidate : matching EVIDENCE_REF (get step "candidate_ref") = true /\ matching DIGEST (get step "candidate_digest") = true;
  ro_evidence : matching EVIDENCE_REF (get step "evidence_ref") = true /\ matching DIGEST (get step "evidence_digest") = true;
  ro_pass : is_pass step = true ->
    same_candidate step ledger = true /\ fresh (get step "candidate_ref") (get step "candidate_digest") = true /\
    fresh (get step "evidence_ref") (get step "evidence_digest") = true;
  ro_stale : is_pass step = false -> same_candidate step ledger = false;
}.
Lemma in_set_inv v ss b : in_set v ss = Ok b -> b = in_tuple v ss /\ hashable v = true.
Proof.
  unfold in_set, require_hashable. destruct (hashable v); [|done]. cbn [negb raise_if rbind]. intros E. by apply Ok_inj in E as <-.
Qed.
Lemma step_errors_nil (meta : Meta) policy ledger predicates seen step :
  keys_are step LEDGER_STEP_FIELDS = true ->
  step_errors meta policy ledger predicates seen step = Ok [] ->
  row_ok policy ledger predicates step /\ (is_pass step = true -> in_tuple (get step "predicate_id") seen = false).
Proof.
  intros Hk E. unfold step_errors in E. cbv zeta in E.
  apply rbind_Ok_inv in E as (u & _ & (ks & [-> _]%in_set_inv & (kc & [-> _]%in_set_inv & (late & _ & E)%rbind_Ok_inv)%rbind_Ok_inv)%rbind_Ok_inv).
  apply Ok_inj in E. repeat (apply app_nil in E as [?%if_error_nil E]).
  repeat match goal with H : negb _ = false |- _ => apply negb_false_iff in H end.
  apply orb_false_iff in H as [Hp Hs]. apply negb_false_iff in Hp. split.
  - split; try done.
    + unfold in_tuple in H0. destruct (get step "status") as [| | |s| |]; try done. apply PyStr.mem_spec in H0.
      rewrite elem_of_cons, list_elem_of_singleton in H0. destruct H0 as [-> | ->]; auto.
    + intros Hpass. rewrite Hpass in *. cbn [andb] in *. by repeat match goal with H : negb _ = false |- _ => apply negb_false_iff in H end.
    + intros Hstale. rewrite Hstale in *. done.
  - intros Hpass. rewrite Hpass in Hs. by rewrite andb_true_r in Hs.
Qed.
Definition rows (l : list value) : list dict := map dict_of l.
(** The predicates that passed. *)
Definition passed_of (step : dict) : list string :=
  if is_pass step && is_str (get step "predicate_id") then [text (get step "predicate_id")] else [].
Definition passed (steps : list dict) : list string := flat_map passed_of steps.
Lemma steps_errors_nil (meta : Meta) policy ledger predicates l : forall seen,
  steps_errors meta policy ledger predicates seen l = Ok [] ->
  l = map VDict (rows l) /\ Forall (row_ok policy ledger predicates) (rows l) /\
  NoDup (passed (rows l)) /\ forall p, p ∈ passed (rows l) -> p ∉ seen.
Proof.
  induction l as [|v l IH]; intros seen; cbn [steps_errors rows map].
  { intros _. split_and!; [done | done | by constructor | by intros ? ?%elem_of_nil]. }
  destruct v as [| | | | |step]; try by intros (? & _ & E)%rbind_Ok_inv.
  destruct (keys_are step LEDGER_STEP_FIELDS) eqn:Ek; [|by intros (? & _ & E)%rbind_Ok_inv].
  intros (errors & E1 & (rest & E2 & E)%rbind_Ok_inv)%rbind_Ok_inv. apply Ok_inj, app_nil in E as [-> ->].
  destruct (step_errors_nil _ _ _ _ _ _ Ek E1) as [Hr Hseen]. destruct (IH _ E2) as (El & Hl & Hn & Hs).
  split_and!; [f_equal; exact El | by constructor | |]; change (dict_of (VDict step)) with step; fold (rows l);
    cbn [passed flat_map]; fold (passed (rows l)); unfold passed_of.
  - destruct (is_pass step && is_str (get step "predicate_id")) eqn:Ep; [|done].
    rewrite andb_comm in Ep. rewrite Ep in Hs. constructor; [|done]. intros Hin. apply (Hs _ Hin). by left.
  - intros p Hp Hin. apply elem_of_app in Hp as [Hp|Hp].
    + destruct (is_pass step) eqn:Eq; [|by apply elem_of_nil in Hp]. specialize (Hseen eq_refl).
      destruct (get step "predicate_id"); try by apply elem_of_nil in Hp. apply list_elem_of_singleton in Hp. subst p.
      cbn [in_tuple text] in *. apply PyStr.mem_false in Hseen. done.
    + apply (Hs _ Hp). destruct (is_str _ && is_pass step); [by right | done].
Qed.

(** What the ledger of a task without errors is. *)
Record ledger_ok (policy : EvidencePolicy) (meta : Meta) (ledger : dict) : Prop := LedgerOk {
  lo_ledger : get meta "evidence_ledger" = VDict ledger;
  lo_fields : keys_are ledger LEDGER_FIELDS = true;
  lo_candidate : fresh (get ledger "candidate_ref") (get ledger "candidate_digest") = true;
  lo_steps : exists l, get ledger "steps" = VList (map VDict l) /\ NoDup (passed l) /\
    exists spec predicates, _load_spec (task_name meta) (str (get meta "spec_ref")) = Ok (inl (VDict spec)) /\
      predicate_ids spec = Ok predicates /\ Forall (row_ok policy ledger predicates) l;
}.
Lemma ledger_errors_nil (meta : Meta) policy : evidence_ledger_errors meta (Some policy) = Ok [] ->
  get meta "evidence_ledger" = VNull \/ exists ledger, ledger_ok policy meta ledger.
Proof.
  unfold evidence_ledger_errors. destruct (get meta "evidence_ledger") as [| | | | |ledger] eqn:El; try done; [by left|].
  destruct (keys_are ledger LEDGER_FIELDS) eqn:Ek; [|done]. cbn [negb selected rbind].
  destruct (fresh _ _) eqn:Ef; [|done]. cbn [negb]. destruct (get ledger "steps") as [| | | |l|] eqn:Es; try done.
  intros ([[| | | | |spec]|] & Eload & E)%rbind_Ok_inv; try done.
  apply rbind_Ok_inv in E as (predicates & Ep & (errors & Ee & E)%rbind_Ok_inv). apply Ok_inj, PyStr.sorted_set_nil in E. subst errors.
  apply steps_errors_nil in Ee as (Hl & Hr & Hn & _). right. exists ledger. split; try done.
  exists (rows l). rewrite <- Hl. split_and!; [done..|]. by exists spec, predicates.
Qed.

(** ** Valid specifications *)
(** The items of a specification: objects with an identifier. *)
Definition identified (i : string) (v : value) : Prop := exists d, v = VDict d /\ dget d "id" = Some (VStr i).
Lemma item_errors_nil field v : item_errors field v = [] -> exists i, identified i v.
Proof.
  unfold item_errors. destruct (named v) eqn:En; [|done]. intros [E _]%app_nil.
  destruct v as [| | | | |d]; try done. cbn [dict_of named] in *. unfold get, get_or in E.
  destruct (dget d "id") as [x|] eqn:Ei; [|done]. destruct x as [| | |i| |]; try done. by exists i, d.
Qed.
Lemma named_items_nil v field : _named_items v field = [] ->
  exists l, v = VList l /\ Forall (fun x => exists i, identified i x) l.
Proof.
  intros E. destruct v as [| | | |[|x l]|]; try done. unfold _named_items in E. apply app_nil in E as [E _].
  exists (x :: l). split; [done|]. apply list.Forall_forall. intros y Hy. apply (item_errors_nil field).
  revert E. generalize dependent (x :: l). intros m Hy E. induction m as [|z m IH]; [by apply elem_of_nil in Hy|].
  cbn [flat_map] in E. apply app_nil in E as [E1 E2]. apply elem_of_cons in Hy as [->|Hy]; [done | by apply IH].
Qed.
Lemma spec_errors_nil v cls : spec_errors v cls = Ok [] ->
  exists d l, v = VDict d /\ dget d "acceptance_predicates" = Some (VList l) /\
    Forall (fun x => exists i, identified i x) l.
Proof.
  unfold spec_errors. destruct v as [| | | | |d]; try done.
  intros (c & Ec & (t & _ & E)%rbind_Ok_inv)%rbind_Ok_inv. apply Ok_inj, PyStr.sorted_set_nil in E.
  apply app_nil in E as [_ [-> _]%app_nil]. unfold _collection_errors in Ec.
  apply rbind_Ok_inv in Ec as (done & _ & E). apply Ok_inj, app_nil in E as [E _].
  apply named_items_nil in E as (l & El & Hl). exists d, l. split_and!; try done.
  unfold get, get_or in El. destruct (dget d "acceptance_predicates"); congruence.
Qed.
Lemma task_spec_errors_nil (meta : Meta) policy b : task_spec_errors meta (Some policy) b = Ok [] ->
  has meta "spec_ref" = true ->
  exists d l, _load_spec (task_name meta) (str (get meta "spec_ref")) = Ok (inl (VDict d)) /\
    dget d "acceptance_predicates" = Some (VList l) /\ Forall (fun x => exists i, identified i x) l.
Proof.
  unfold task_spec_errors. intros E Hs. rewrite Hs in E. cbn [negb andb selected] in E. cbv zeta in E.
  destruct (_metadata_errors _ _); [|done].
  apply rbind_Ok_inv in E as ([v|errors] & El & E).
  - apply rbind_Ok_inv in E as (errors & Es & (ledger & _ & E)%rbind_Ok_inv). apply Ok_inj, PyStr.sorted_set_nil in E.
    apply app_nil in E as [E _]. destruct errors; [|done]. apply spec_errors_nil in Es as (d & l & -> & ? & ?). by exists d, l.
  - apply Ok_inj in E. subst errors. exfalso. unfold _load_spec in El. destruct (_ || _); [done|].
    destruct (spec_text _); try done. by destruct (JsonParse.loads content).
Qed.

(** ** Admission *)
Lemma first_unmet_none passed items : Forall (fun x => exists i, identified i x) items ->
  forall r, first_unmet passed items = Ok r -> (r = None \/ r = Some VNull) ->
  forall i x, x ∈ items -> identified i x -> VStr i ∈ passed.
Proof.
  induction 1 as [|y items (j & d & -> & Ed) Hi IH]; intros r E Hr i x Hx (d' & -> & Ed'); [by apply elem_of_nil in Hx|].
  cbn [first_unmet vget vget_or] in E. unfold get_or in E. cbn [rbind] in E. rewrite Ed in E.
  cbn [require_hashable hashable negb raise_if rbind] in E.
  destruct (in_list (VStr j) passed) eqn:Ep.
  - apply elem_of_cons in Hx as [[= ->]|Hx]; [|by apply (IH r E Hr i (VDict d')); [|exists d']].
    rewrite Ed in Ed'. injection Ed' as ->. by apply in_list_str.
  - cbn [vitem] in E. unfold item in E. rewrite Ed in E. cbn [rbind] in E. apply Ok_inj in E. subst r. destruct Hr; done.
Qed.
Lemma passing_rows (meta : Meta) ledger l ids : get meta "evidence_ledger" = VDict ledger ->
  get ledger "steps" = VList (map VDict l) -> passing meta = Ok ids ->
  forall v, v ∈ ids -> exists step, step ∈ l /\ is_pass step = true /\ get step "predicate_id" = v.
Proof.
  unfold passing. intros -> Es E v Hv. apply rbind_Ok_inv in E as (steps & Ei & E).
  assert (steps = map VDict l) as ->.
  { unfold get, get_or in *. destruct (dget ledger "steps"); [|done]. subst v0. cbn in Ei. congruence. }
  clear Es Ei. revert ids E Hv. induction l as [|step l IH]; intros ids E Hv; cbn in E.
  { injection E as <-. by apply elem_of_nil in Hv. }
  destruct (is_pass step) eqn:Ep.
  - apply rbind_Ok_inv in E as (i & Ei & (ys & Ey & E)%rbind_Ok_inv). apply Ok_inj in E. subst ids.
    apply rbind_Ok_inv in Ei as (u & _ & E). apply Ok_inj in E. subst i.
    apply elem_of_cons in Hv as [->|Hv]; [exists step; split_and!; [by left | done..]|].
    destruct (IH _ Ey Hv) as (s & ? & ?). exists s. split; [by right | done].
  - destruct (IH _ E Hv) as (s & ? & ?). exists s. split; [by right | done].
Qed.
(** The file of that name is there, and the digest is that of its content. *)
Definition file_digest (ref digest : value) : Prop :=
  exists name content, ref = VStr name /\ artifact name = Some content /\ digest = VStr (PyJson.sha256 content).
Lemma fresh_file ref digest : fresh ref digest = true -> matching DIGEST digest = true -> file_digest ref digest.
Proof.
  unfold fresh. destruct digest as [| | |d| |]; try done. intros H _. destruct ref as [| | |name| |]; try done.
  cbn [_artifact_digest] in H. destruct (_ && _ && _); [|done]. destruct (artifact name) as [content|] eqn:Ea; [|done].
  exists name, content. split_and!; [done..|]. symmetry. by apply eq_str.
Qed.
(** A passing row whose evidence is fresh, for the candidate of the ledger. *)
Definition proved (policy : EvidencePolicy) (ledger : dict) (l : list dict) (i : string) : Prop :=
  exists step, step ∈ l /\ get step "predicate_id" = VStr i /\ is_pass step = true /\
    same_candidate step ledger = true /\ fresh (get step "candidate_ref") (get step "candidate_digest") = true /\
    fresh (get step "evidence_ref") (get step "evidence_digest") = true /\
    file_digest (get step "candidate_ref") (get step "candidate_digest") /\
    file_digest (get step "evidence_ref") (get step "evidence_digest") /\
    in_tuple (get step "evidence_class") (classes policy) = true.

(** C29: A task with a ledger of evidence becomes done only when every predicate
    its specification lists has a passing row: for the candidate the ledger is
    bound to, whose file is there with that digest now, with evidence whose file
    is there with its digest now and a class the policy knows. *)
Theorem done_needs_fresh_evidence (meta : Meta) policy :
  done_admission_error meta (Some policy) = Ok None -> get meta "evidence_ledger" <> VNull -> has meta "spec_ref" = true ->
  exists ledger l spec items, get meta "evidence_ledger" = VDict ledger /\ get ledger "steps" = VList (map VDict l) /\
    fresh (get ledger "candidate_ref") (get ledger "candidate_digest") = true /\
    _load_spec (task_name meta) (str (get meta "spec_ref")) = Ok (inl (VDict spec)) /\
    dget spec "acceptance_predicates" = Some (VList items) /\
    forall i x, x ∈ items -> identified i x -> proved policy ledger l i.
Proof.
  unfold done_admission_error. cbn [selected]. intros E Hn Hs. apply rbind_Ok_inv in E as (errors & Et & E).
  destruct errors; [|done]. destruct (is_null (get meta "evidence_ledger")) eqn:En; [by destruct (get meta "evidence_ledger")|].
  apply rbind_Ok_inv in E as (errors & El & E). destruct errors; [|done].
  apply rbind_Ok_inv in E as (unmet & Eu & E). apply ledger_errors_nil in El as [?|(ledger & Hl)]; [done|].
  destruct Hl as [El Hk Hc (l & Es & _ & _ & predicates & _ & _ & Hr)].
  apply task_spec_errors_nil in Et as (spec & items & Eload & Ei & Hi); [|done].
  exists ledger, l, spec, items. split_and!; try done. intros i x Hx Hid.
  unfold next_unmet_predicate in Eu. rewrite Hs in Eu. cbn [negb] in Eu. rewrite Eload in Eu. cbn [rbind] in Eu.
  apply rbind_Ok_inv in Eu as (ids & Ep & (its & Eit & Eu)%rbind_Ok_inv). unfold get_or in Eit. rewrite Ei in Eit.
  apply Ok_inj in Eit. subst its.
  assert (unmet = None \/ unmet = Some VNull) as Hun.
  { destruct unmet as [v|]; [|by left]. destruct v; try done. by right. }
  pose proof (first_unmet_none ids items Hi unmet Eu Hun i x Hx Hid) as Hin.
  destruct (passing_rows _ _ _ _ El Es Ep _ Hin) as (step & Hst & Hp & Hpid). exists step.
  rewrite list.Forall_forall in Hr. specialize (Hr _ Hst). destruct (ro_pass _ _ _ _ Hr Hp) as (? & ? & ?).
  split_and!; try done; [| | apply (ro_class _ _ _ _ Hr)].
  - apply fresh_file; [done | apply (ro_candidate _ _ _ _ Hr)].
  - apply fresh_file; [done | apply (ro_evidence _ _ _ _ Hr)].
Qed.

(** ** Acceptance *)
Lemma require_no_errors_Ok errors u : require_no_errors errors = Ok u -> errors = [].
Proof. unfold require_no_errors. intros E%raise_if_Ok%negb_false_iff%Nat.eqb_eq. by destruct errors. Qed.
Lemma mapping_rows l : mapr mapping (map VDict l) = Ok l.
Proof. induction l as [|x l IH]; [done|]. cbn [map mapr mapping rbind]. by rewrite IH. Qed.
Lemma historical_rows v l : _historical_steps v = VList (map VDict l) ->
  exists l0, v = VList (map VDict l0) /\ l = map retire l0.
Proof.
  destruct v as [| | | |l0|]; try done. cbn [_historical_steps]. intros E. injection E as E. revert l E.
  induction l0 as [|x l0 IH]; intros [|r l] E; try done; [by exists []|]. injection E as E1 E2.
  destruct (IH _ E2) as (m & Em & ->). destruct x as [| | | | |row]; try done. injection E1 as <-.
  injection Em as ->. by exists (row :: m).
Qed.
Lemma rebind_get ledger r d k : get (rebind ledger r d) k =
  if String.eqb "candidate_digest" k then VStr d else if String.eqb "candidate_ref" k then VStr r else get ledger k.
Proof. unfold rebind. by rewrite !get_dset. Qed.
(** The rows a ledger has when its validation lets an acceptance through. *)
Lemma validated_rows (meta : Meta) policy r d ledger changed : _ledger meta r d = Ok ledger ->
  _candidate_changed ledger r d = changed -> _validate_ledger meta ledger (Some policy) r d changed = Ok tt ->
  exists l, get ledger "steps" = VList (map VDict l) /\
    (get meta "evidence_ledger" = VNull /\ l = [] \/ get meta "evidence_ledger" = VDict ledger).
Proof.
  unfold _ledger, _validate_ledger. intros El Ec E. apply rbind_Ok_inv in E as (errors & E & ->%require_no_errors_Ok).
  destruct (get meta "evidence_ledger") as [| | | | |led] eqn:Em; try done.
  - apply Ok_inj in El. subst ledger. exists []. split; [done | by left].
  - apply Ok_inj in El. subst led. destruct changed.
    + apply ledger_errors_nil in E as [E|(p & [Ep _ _ (l & Es & _)])]; [by rewrite get_dset in E|].
      rewrite get_dset in Ep. cbn [String.eqb Ascii.eqb Bool.eqb] in Ep. injection Ep as <-. rewrite get_dset in Es.
      cbn [String.eqb Ascii.eqb Bool.eqb] in Es. apply historical_rows in Es as (l0 & Es & _). exists l0. split; [done | by right].
    + apply ledger_errors_nil in E as [E|(p & [Ep _ _ (l & Es & _)])]; [congruence|].
      rewrite Em in Ep. injection Ep as <-. exists l. split; [done | by right].
Qed.
Lemma record_step_inv args ledger p r d changed l (meta meta' : Meta) u : get ledger "steps" = VList (map VDict l) ->
  _record_step args ledger p r d changed meta = (meta', Ok u) ->
  exists cls ref digest z, attr args "evidence_class" = Ok cls /\ attr args "evidence_ref" = Ok ref /\
    attr args "evidence_digest" = Ok digest /\ int_item meta "task_revision" = Ok z /\
    get meta' "evidence_ledger" = VDict (dset (if changed then rebind ledger r d else ledger) "steps"
      (VList (map VDict (map (retained changed p) l ++ [new_step p r d cls ref digest (z + 1)])))).
Proof.
  intros Es. unfold _record_step. rewrite Es. intros (steps & m1 & [-> E1]%slift_Ok_inv & E)%sbind_Ok_inv.
  rewrite mapping_rows in E1. apply Ok_inj in E1. subst steps.
  apply sbind_Ok_inv in E as (u1 & m2 & E2%smodify_Ok_inv & E).
  apply sbind_Ok_inv in E as (step & m3 & [-> E3]%slift_Ok_inv & E%smodify_Ok_inv). subst m2 meta'.
  apply rbind_Ok_inv in E3 as (cls & Ec & (ref & Er & (digest & Ed & (z & Ez & E)%rbind_Ok_inv)%rbind_Ok_inv)%rbind_Ok_inv).
  apply Ok_inj in E. subst step. exists cls, ref, digest, z. split_and!; try done.
  - unfold int_item in *. destruct changed; [|done]. by rewrite item_dset in Ez.
  - by rewrite get_dset.
Qed.
(** What an acceptance leaves: the rows of the ledger before, each as it was or
    with its pass turned stale, and one new passing row. *)
Record accepted (policy : EvidencePolicy) (meta meta' : Meta) (p r d : string) (reopen : bool) : Prop := Accepted {
  ac_rows : exists ledger ledger' l step,
    _ledger meta r d = Ok ledger /\ get ledger "steps" = VList (map VDict l) /\ _candidate_changed ledger r d = reopen /\
    ledger_ok policy meta' ledger' /\ get ledger' "candidate_ref" = VStr r /\ get ledger' "candidate_digest" = VStr d /\
    get ledger' "steps" = VList (map VDict (map (retained reopen p) l ++ [step])) /\
    get step "predicate_id" = VStr p /\ is_pass step = true /\
    exists z, int_item meta "task_revision" = Ok z /\ get step "recorded_task_revision" = VInt (z + 1);
}.
Lemma unchanged_candidate ledger r d : _candidate_changed ledger r d = false ->
  get ledger "candidate_ref" = VStr r /\ get ledger "candidate_digest" = VStr d.
Proof. unfold _candidate_changed. by intros [?%ne_false%eq_str ?%ne_false%eq_str]%orb_false_iff. Qed.
Lemma acceptance_inv args policy p r d reopen (meta meta' : Meta) msg :
  apply_predicate_acceptance args (Some policy) (p, r, d, reopen) meta = (meta', Ok msg) ->
  accepted policy meta meta' p r d reopen.
Proof.
  unfold apply_predicate_acceptance. intros ([] & m1 & [-> _]%slift_Ok_inv & E)%sbind_Ok_inv.
  apply sbind_Ok_inv in E as (ledger & m1 & [-> El]%slift_Ok_inv & E). cbv zeta in E.
  apply sbind_Ok_inv in E as (u & m1 & [-> E1%raise_if_Ok]%slift_Ok_inv & E).
  apply sbind_Ok_inv in E as (u1 & m1 & [-> E2%raise_if_Ok]%slift_Ok_inv & E).
  assert (_candidate_changed ledger r d = reopen) as Hc by (by destruct (_candidate_changed ledger r d), reopen).
  apply sbind_Ok_inv in E as ([] & m1 & [-> Ev]%slift_Ok_inv & E). rewrite Hc in Ev, E.
  destruct (validated_rows _ _ _ _ _ _ El Hc Ev) as (l & Es & _).
  apply sbind_Ok_inv in E as (u3 & m1 & Er & E).
  destruct (record_step_inv _ _ _ _ _ _ _ _ _ _ Es Er) as (cls & ref & digest & z & _ & _ & _ & Ez & Em).
  apply sbind_Ok_inv in E as (u4 & m2 & [-> Ef]%slift_Ok_inv & [-> _]%slift_Ok_inv).
  apply rbind_Ok_inv in Ef as (errors & Ef & ->%require_no_errors_Ok).
  apply ledger_errors_nil in Ef as [Ef|(ledger' & Hl)]; [congruence|].
  pose proof (lo_ledger _ _ _ Hl) as El'. rewrite Em in El'. injection El' as El'.
  constructor. exists ledger, ledger', l, (new_step p r d cls ref digest (z + 1)). split_and!; try done; try by subst ledger'; rewrite get_dset.
  - subst ledger'. rewrite get_dset. cbn [String.eqb Ascii.eqb Bool.eqb]. destruct reopen; [by rewrite rebind_get|].
    by apply unchanged_candidate in Hc as [? _].
  - subst ledger'. rewrite get_dset. cbn [String.eqb Ascii.eqb Bool.eqb]. destruct reopen; [by rewrite rebind_get|].
    by apply unchanged_candidate in Hc as [_ ?].
  - by exists z.
Qed.

(** A row after a transition: as it was, or its pass turned stale. *)
Definition kept_or_stale (old new : dict) : Prop :=
  new = old \/ (is_pass old = true /\ new = dset old "status" (VStr "stale")).
Lemma retire_kept row : kept_or_stale row (retire row).
Proof. unfold kept_or_stale, retire. destruct (is_pass row); auto. Qed.
Lemma retire_not_pass row : is_pass (retire row) = false.
Proof. unfold retire. destruct (is_pass row) eqn:E; [unfold is_pass; by rewrite get_dset | done]. Qed.
Lemma retire_get row k : k <> "status" -> get (retire row) k = get row k.
Proof. intros Hk. unfold retire. destruct (is_pass row); [|done]. rewrite get_dset. by destruct (String.eqb_spec "status" k). Qed.
Lemma retained_cases changed p row :
  retained changed p row = retire row \/ (retained changed p row = row /\ changed = false /\ is_s (get row "predicate_id") p = false).
Proof.
  unfold retained. destruct changed.
  - left. destruct (is_s _ _); [|done]. unfold retire at 1. by rewrite retire_not_pass.
  - destruct (is_s (get row "predicate_id") p); auto.
Qed.
Lemma retained_get changed p row k : k <> "status" -> get (retained changed p row) k = get row k.
Proof. intros Hk. destruct (retained_cases changed p row) as [->|[-> _]]; [by apply retire_get | done]. Qed.

(** Accepting evidence for a predicate appends one passing row for the
    candidate, with the next revision; every earlier row stays in its place, as
    it was or with its pass turned stale.  The ledger that results is valid, the
    new row is the only pass of its predicate, and when the candidate changed
    no earlier row passes. *)
Theorem acceptance_appends_one_pass args policy p r d reopen (meta meta' : Meta) msg :
  apply_predicate_acceptance args (Some policy) (p, r, d, reopen) meta = (meta', Ok msg) ->
  exists ledger ledger' old new step, _ledger meta r d = Ok ledger /\ get ledger "steps" = VList (map VDict old) /\
    get meta' "evidence_ledger" = VDict ledger' /\ get ledger' "steps" = VList (map VDict (new ++ [step])) /\
    Forall2 kept_or_stale old new /\ ledger_ok policy meta' ledger' /\
    get step "predicate_id" = VStr p /\ is_pass step = true /\
    get step "candidate_ref" = VStr r /\ get step "candidate_digest" = VStr d /\
    (exists z, int_item meta "task_revision" = Ok z /\ get step "recorded_task_revision" = VInt (z + 1)) /\
    Forall (fun row => is_pass row = true -> reopen = false /\ get row "predicate_id" <> VStr p) new.
Proof.
  intros [(ledger & ledger' & l & step & El & Es & Hc & Hok & Er & Ed & Es' & Ep & Hp & Hz)]%acceptance_inv.
  exists ledger, ledger', l, (map (retained reopen p) l), step.
  assert (get step "candidate_ref" = VStr r /\ get step "candidate_digest" = VStr d) as [Er' Ed'].
  { destruct (lo_steps _ _ _ Hok) as (l' & El' & _ & spec & predicates & _ & _ & Hr). rewrite Es' in El'.
    injection El' as El'. apply rows_inj in El'. subst l'. apply Forall_app in Hr as [_ Hr].
    rewrite Forall_singleton in Hr. destruct (ro_pass _ _ _ _ Hr Hp) as ([E1 E2]%andb_true_iff & _).
    rewrite Er in E1. rewrite Ed in E2. by apply eq_str in E1, E2. }
  split_and!; try done; [apply (lo_ledger _ _ _ Hok) | |].
  - apply Forall2_fmap_r, Forall_Forall2_diag, Forall_true. intros row.
    change (kept_or_stale row (retained reopen p row)).
    destruct (retained_cases reopen p row) as [E|[E _]]; rewrite E; [apply retire_kept | by left].
  - apply Forall_map, Forall_true. intros row. destruct (retained_cases reopen p row) as [->|(-> & -> & Hn)].
    + by rewrite retire_not_pass.
    + intros _. split; [done|]. intros E. unfold is_s in Hn. by rewrite E, eq_str_str, String.eqb_refl in Hn.
Qed.

(** Evidence can be recorded for a predicate and a candidate only once: when
    a row of the ledger names the candidate and is the predicate's, or is
    stale, or belongs to a ledger that was reopened for another candidate since,
    the acceptance is always refused - the row it would leave stale, or that is
    stale already, may not name the candidate of the ledger. *)
Theorem evidence_recorded_once args policy p r d reopen (meta : Meta) ledger l row :
  get meta "evidence_ledger" = VDict ledger -> get ledger "steps" = VList (map VDict l) -> row ∈ l ->
  get row "candidate_ref" = VStr r -> get row "candidate_digest" = VStr d ->
  get row "predicate_id" = VStr p \/ is_pass row = false \/ _candidate_changed ledger r d = true ->
  exists e, snd (apply_predicate_acceptance args (Some policy) (p, r, d, reopen) meta) = Raise e.
Proof.
  intros El Es Hrow Hr Hd Hcase. destruct (apply_predicate_acceptance _ _ _ _) as [meta' [msg|e]] eqn:E; [|by exists e].
  exfalso. apply acceptance_inv in E as [(led & ledger' & l' & step & Eled & Es' & Hc & Hok & Er & Ed & Es'' & _)].
  unfold _ledger in Eled. rewrite El in Eled. apply Ok_inj in Eled. subst led. rewrite Es in Es'. injection Es' as Es'.
  apply rows_inj in Es'. subst l'. destruct (lo_steps _ _ _ Hok) as (l' & El' & _ & spec & predicates & _ & _ & Hrows).
  rewrite Es'' in El'. injection El' as El'. apply rows_inj in El'. subst l'. apply Forall_app in Hrows as [Hrows _].
  rewrite list.Forall_forall in Hrows. specialize (Hrows _ (list_elem_of_fmap_2 (retained reopen p) _ _ Hrow)).
  assert (same_candidate (retained reopen p row) ledger' = true) as Hsame.
  { unfold same_candidate. rewrite !retained_get, Hr, Hd, Er, Ed by done. by rewrite !eq_str_str, !String.eqb_refl. }
  assert (is_pass (retained reopen p row) = false) as Hstale; [|by rewrite (ro_stale _ _ _ _ Hrows Hstale) in Hsame].
  destruct (retained_cases reopen p row) as [->|(-> & Hch & Hn)]; [apply retire_not_pass|].
  destruct Hcase as [Hp|[Hp|Hp]]; [|done|congruence]. unfold is_s in Hn. by rewrite Hp, eq_str_str, String.eqb_refl in Hn.
Qed.

(** ** Repair *)
Lemma repaired_rows p l ys : mapr (repaired_row p) (map VDict l) = Ok ys ->
  ys = map (fun row => if is_s (get row "predicate_id") p then retire row else row) l.
Proof.
  revert ys. induction l as [|x l IH]; intros ys E; [by injection E as <-|]. cbn [map mapr repaired_row rbind] in E.
  apply rbind_Ok_inv in E as (ys' & E' & E). apply Ok_inj in E. subst ys. by rewrite (IH _ E').
Qed.
Lemma repair_inv args policy (meta meta' : Meta) msg : repair args policy meta = (meta', Ok msg) ->
  exists predicate ledger steps r d cls ref digest z history,
    attr args "predicate" = Ok predicate /\ repair_ledger meta = Ok (ledger, steps) /\
    repair_candidate args ledger = Ok (r, d) /\ mapr (repaired_row (str predicate)) steps = Ok history /\
    meta' = dset meta "evidence_ledger" (VDict (dset (rebind ledger r d) "steps"
      (VList (map VDict (history ++ [new_step (str predicate) r d cls (VStr ref) (VStr digest) (z + 1)]))))).
Proof.
  unfold repair. destruct (repair_of _ _ _) as [[led reason]|e] eqn:E; [|done]. intros [= <- _]. unfold repair_of in E.
  apply rbind_Ok_inv in E as (u & _ & ([[[reason' p] ref] digest] & Ee & ([ledger steps] & El & E)%rbind_Ok_inv)%rbind_Ok_inv).
  cbv zeta in E. apply rbind_Ok_inv in E as (errors & _ & (u1 & _ & (sr & _ & (spec & _ & (preds & _ & E)%rbind_Ok_inv)%rbind_Ok_inv)%rbind_Ok_inv)%rbind_Ok_inv).
  apply rbind_Ok_inv in E as (u2 & _ & ([r d] & Ec & (cls & _ & (known & _ & E)%rbind_Ok_inv)%rbind_Ok_inv)%rbind_Ok_inv).
  apply rbind_Ok_inv in E as (u3 & _ & (z & _ & (history & Eh & E)%rbind_Ok_inv)%rbind_Ok_inv). injection E as <- <-.
  unfold repair_evidence in Ee. apply rbind_Ok_inv in Ee as (rv & _ & (u4 & _ & (pv & Ep & (refv & _ & (dv & _ & E)%rbind_Ok_inv)%rbind_Ok_inv)%rbind_Ok_inv)%rbind_Ok_inv).
  apply rbind_Ok_inv in E as (u5 & _ & (u6 & _ & E)%rbind_Ok_inv). injection E as _ <- <- <-.
  by exists pv, ledger, steps, r, d, cls, (str refv), (str dv), z, history.
Qed.
Lemma repair_candidate_new args ledger r d : repair_candidate args ledger = Ok (r, d) ->
  get ledger "candidate_ref" = VStr r -> get ledger "candidate_digest" = VStr d -> False.
Proof.
  unfold repair_candidate. intros (ref & _ & (digest & _ & (u & Hc%raise_when_Ok & (u1 & Hn%raise_if_Ok & E)%rbind_Ok_inv)%rbind_Ok_inv)%rbind_Ok_inv)%rbind_Ok_inv Hr Hd.
  injection E as <- <-. apply py_or_false in Hc. apply Forall_cons in Hc as [H1 Hc]. apply Forall_cons in Hc as [H2 _].
  unfold cond in H1. destruct ref as [| | |ref| |]; try done. destruct digest as [| | |digest| |]; try done.
  cbn [str] in Hr, Hd. by rewrite Hr, Hd, !eq_str_str, !String.eqb_refl in Hn.
Qed.

(** Repairing one predicate of a valid ledger in which another predicate
    passes leaves a ledger that is not valid: the repair binds the ledger to a
    new candidate and turns only its own predicate's pass stale, so the other
    pass names a candidate that the ledger no longer has. *)
Theorem repair_breaks_other_predicates args policy (meta meta' : Meta) msg p ledger l row :
  repair args (Some policy) meta = (meta', Ok msg) -> attr args "predicate" = Ok (VStr p) ->
  ledger_ok policy meta ledger -> get ledger "steps" = VList (map VDict l) ->
  row ∈ l -> is_pass row = true -> get row "predicate_id" <> VStr p ->
  evidence_ledger_errors meta' (Some policy) <> Ok [].
Proof.
  intros Hrep Hp Hok Es Hrow Hpass Hne E. destruct (lo_steps _ _ _ Hok) as (l' & El' & _ & spec & predicates & _ & _ & Hrows).
  rewrite Es in El'. injection El' as El'. apply rows_inj in El'. subst l'.
  rewrite list.Forall_forall in Hrows. specialize (Hrows _ Hrow). destruct (ro_pass _ _ _ _ Hrows Hpass) as (Hsame & _).
  apply repair_inv in Hrep as (pv & led & steps & r & d & cls & ref & digest & z & history & Ep & El & Hc & Eh & ->).
  rewrite Hp in Ep. injection Ep as <-. unfold repair_ledger in El. rewrite (lo_ledger _ _ _ Hok), (lo_fields _ _ _ Hok), Es in El.
  cbn [negb raise_if rbind] in El. injection El as <- <-. cbn [str] in *. apply repaired_rows in Eh.
  apply ledger_errors_nil in E as [E|(ledger' & Hok')]; [by rewrite get_dset in E|].
  pose proof (lo_ledger _ _ _ Hok') as El. rewrite get_dset in El. cbn [String.eqb Ascii.eqb Bool.eqb] in El. injection El as El.
  destruct (lo_steps _ _ _ Hok') as (l' & El' & _ & spec' & predicates' & _ & _ & Hrows').
  rewrite <- El, get_dset in El'. cbn [String.eqb Ascii.eqb Bool.eqb] in El'. injection El' as El'. apply rows_inj in El'. subst l'.
  apply Forall_app in Hrows' as [Hrows' _]. rewrite list.Forall_forall in Hrows'.
  assert (is_s (get row "predicate_id") p = false) as Hn by (destruct (is_s (get row "predicate_id") p) eqn:Eq; [by apply eq_str in Eq | done]).
  assert (row ∈ history) as Hin.
  { rewrite Eh. apply list_elem_of_fmap. exists row. by rewrite Hn. }
  destruct (ro_pass _ _ _ _ (Hrows' _ Hin) Hpass) as (Hsame' & _). unfold same_candidate in Hsame, Hsame'.
  apply andb_true_iff in Hsame as [E1 E2], Hsame' as [E1' E2'].
  rewrite <- El, get_dset, rebind_get in E1', E2'. cbn [String.eqb Ascii.eqb Bool.eqb] in E1', E2'. apply eq_str in E1', E2'.
  rewrite E1' in E1. rewrite E2' in E2. apply eq_str_l in E1, E2. by apply (repair_candidate_new args ledger r d).
Qed.
End laws.

(** ** Witnesses *)
Module Sample.
Definition json (s : string) : string := PyStr.replace_char "'" (String PyStr.dquote "") s.
Definition spec : string := Eval vm_compute in json (PyStr.join "" [
  "{'schema_version':1,'spec_ref':'spec.json','spec_revision':1,";
  "'acceptance_predicates':[{'id':'alpha','description':'first'},{'id':'beta','description':'second'}],";
  "'definition_of_done':['both pass'],'inputs':[{'id':'input','description':'input'}],";
  "'outputs':[{'id':'output','description':'output'}],'allowed_tools':['source.read'],'forbidden_tools':[],";
  "'required_evidence_classes':['mechanical'],'gates':[{'id':'gate','description':'pass'}]}"]).
#[export] Instance artifacts : Artifacts := {|
  policy_source := NoPolicy;
  spec_text ref := if String.eqb ref "spec.json" then Text spec else Unreadable "missing";
  json_error _ := "invalid";
  artifact ref := if String.eqb ref "one.txt" then Some "one" else if String.eqb ref "two.txt" then Some "two"
                  else if String.eqb ref "proof.txt" then Some "proof" else None;
|}.
Definition one : string := Eval vm_compute in PyJson.sha256 "one".
Definition two : string := Eval vm_compute in PyJson.sha256 "two".
Definition proof : string := Eval vm_compute in PyJson.sha256 "proof".
Definition args (predicate : string) : Namespace := [
  ("task", VStr "AR-0001"); ("owner", VStr "ann"); ("expected_revision", VInt 4); ("predicate", VStr predicate);
  ("candidate_ref", VStr "two.txt"); ("candidate_digest", VStr two); ("evidence_class", VStr "mechanical");
  ("evidence_ref", VStr "proof.txt"); ("evidence_digest", VStr proof); ("note", VStr "shown"); ("reason", VStr "refreshed")].
Definition policy : EvidencePolicy := DEFAULT_EVIDENCE_POLICY.
Definition task : Meta := [
  ("id", VStr "AR-0001"); ("status", VStr "in_progress"); ("owner", VStr "ann"); ("task_revision", VInt 4);
  ("spec_ref", VStr "spec.json"); ("spec_revision", VInt 1)].
Definition accept (predicate : string) (meta : Meta) : Meta * res string :=
  apply_predicate_acceptance (args predicate) (Some policy) (predicate, "one.txt", one, false) meta.
Definition first : Meta := Eval vm_compute in fst (accept "alpha" task).
Definition both : Meta := Eval vm_compute in fst (accept "beta" first).
Definition finished : Meta := Eval vm_compute in dset (dset both "status" (VStr "done")) "owner" (VStr "").
Definition repaired : Meta := Eval vm_compute in fst (repair (args "alpha") (Some policy) finished).
Definition ledger_of (meta : Meta) : dict := dict_of (get meta "evidence_ledger").
Definition rows_of (meta : Meta) : list dict :=
  match get (ledger_of meta) "steps" with VList l => rows l | _ => [] end.
Definition row : dict := Eval vm_compute in default [] (last (rows_of both)).
End Sample.
#[local] Existing Instance Sample.artifacts.
Lemma done_needs_fresh_evidence_witness :
  proved Sample.policy (Sample.ledger_of Sample.both) (Sample.rows_of Sample.both) "beta".
Proof.
  destruct (done_needs_fresh_evidence Sample.both Sample.policy) as (ledger & l & spec & items & El & Es & _ & Eload & Ei & Hp);
    [vm_compute; reflexivity | vm_compute; discriminate | vm_compute; reflexivity |].
  vm_compute in El. injection El as <-. vm_compute in Es. injection Es as Es.
  apply (rows_inj (Sample.rows_of Sample.both) l) in Es. subst l.
  vm_compute in Eload. injection Eload as <-. vm_compute in Ei. injection Ei as <-.
  apply (Hp "beta" (VDict [("id", VStr "beta"); ("description", VStr "second")])).
  - right. left.
  - eexists. split; reflexivity.
Defined.
Lemma acceptance_appends_one_pass_witness : ledger_ok Sample.policy Sample.both (Sample.ledger_of Sample.both).
Proof.
  destruct (acceptance_appends_one_pass (Sample.args "beta") Sample.policy "beta" "one.txt" Sample.one false Sample.first Sample.both
              "shown") as (ledger & ledger' & old & new & step & _ & _ & El & _ & _ & Hok & _).
  { vm_compute. reflexivity. }
  vm_compute in El. injection El as <-. exact Hok.
Defined.
Lemma evidence_recorded_once_witness : exists e, snd (Sample.accept "beta" Sample.both) = Raise e.
Proof.
  apply (evidence_recorded_once (Sample.args "beta") Sample.policy "beta" "one.txt" Sample.one false Sample.both
           (Sample.ledger_of Sample.both) (Sample.rows_of Sample.both) Sample.row); try (vm_compute; reflexivity).
  - right. left.
  - left. vm_compute. reflexivity.
Defined.
Lemma repair_breaks_other_predicates_witness :
  length (Sample.rows_of Sample.repaired) = 3%nat /\ evidence_ledger_errors Sample.repaired (Some Sample.policy) <> Ok [].
Proof.
  split; [vm_compute; reflexivity|].
  assert (exists ledger, ledger_ok Sample.policy Sample.finished ledger) as (ledger & Hok).
  { destruct (ledger_errors_nil Sample.finished Sample.policy) as [E|?]; [vm_compute; reflexivity | vm_compute in E; discriminate | done]. }
  pose proof (lo_ledger _ _ _ Hok) as El. vm_compute in El. injection El as <-.
  apply (repair_breaks_other_predicates (Sample.args "alpha") Sample.policy Sample.finished Sample.repaired "refreshed" "alpha"
           (Sample.ledger_of Sample.finished)
           (Sample.rows_of Sample.finished) Sample.row); try exact Hok; try (vm_compute; reflexivity).
  - right. left.
  - vm_compute. discriminate.
Defined.
End EvidenceLaws.
