(* ===== verification/UpgradeIdentity.v ===== *)
(** * Identity of an upgrade and its admission ([upgrade_identity.py],
    [upgrade_admission.py])

    An upgrade operation is named by an envelope of seventeen fields that
    carries its own digest, and by a barrier whose digest it also carries; a
    session of the barrier has an identity without a target.  Records are
    dictionaries, as the code receives them. *)
From S2P Require Import Prelude PyStr Regex PyVal PyJson Sha256 PyUuid PyPath Canonical Chain Journal TaskSpec.

Module UpgradeIdentity.
Import Py.
Definition fm := Regex.fullmatch.
Definition ENVELOPE_SCHEMA_VERSION : Z := 2.
Definition BARRIER_SESSION_SCHEMA_VERSION : Z := 1.
Definition BARRIER_SESSION_IDENTITY_FIELDS : list string :=
  ["schema_version"; "project_id"; "attempt_id"; "state_revision"; "authority_revision_at_acquire";
   "durable_barrier_id"; "fencing_token"; "fencing_owner"].
Definition BARRIER_IDENTITY_FIELDS : list string :=
  ["schema_version"; "project_id"; "operation_id"; "state_revision"; "authority_revision"; "durable_barrier_id";
   "fencing_token"; "fencing_owner"; "target"].
Definition ENVELOPE_FIELDS : list string :=
  ["schema_version"; "backend"; "project_id"; "operation_id"; "state_revision"; "authority_revision";
   "fencing_token"; "fencing_owner"; "durable_barrier_id"; "artifact_root"; "source"; "destination"; "manifest";
   "selector_ref"; "barrier_identity_digest"; "target"; "envelope_digest"].
Definition _TOKEN : Regex.re := TaskSpec.reference "._-" 0 127.
Definition _CHILD_TOKEN : Regex.re := TaskSpec.reference "._:-" 0 127.
Definition SELECTOR_CHARS : Regex.re :=
  Regex.between 1 255 (Regex.RChar (Regex.union Regex.alnum (Regex.one_of "._/-"))).
(** The pattern looks ahead for a leading slash and for a component [..]. *)
Definition selector_matches (s : string) : bool :=
  negb (PyStr.startswith "/" s) && negb (PyStr.mem ".." (PyStr.split "/" s)) && fm SELECTOR_CHARS s.
Definition _DIGEST : Regex.re := Regex.HEX 64.
Definition invalid {A} (msg : string) : res A := Raise (ClassError "UpgradeIdentityError" msg).
Definition reject_if (c : bool) (msg : string) : res unit := raise_if c (ClassError "UpgradeIdentityError" msg).

(** ** Digests *)
Definition _canonical_bytes (d : dict) : string := Canonical.bytes (VDict d).
Definition _select (record : dict) (fields : list string) : res dict :=
  mapr (fun f => match dget record f with
                 | Some v => Ok (f, v)
                 | None => invalid ("upgrade identity field is missing: " +:+ f)
                 end) fields.
Definition hexdigest (d : dict) : string := Sha256.hexdigest (_canonical_bytes d).
Definition canonical_barrier_session_digest (record : dict) : res string :=
  let* d := _select record BARRIER_SESSION_IDENTITY_FIELDS in Ok (hexdigest d).
Definition canonical_barrier_digest (record : dict) : res string :=
  let* d := _select record BARRIER_IDENTITY_FIELDS in Ok (hexdigest d).
Definition canonical_envelope_digest (record : dict) : res string :=
  let* d := _select record (List.filter (fun f => negb (String.eqb f "envelope_digest")) ENVELOPE_FIELDS) in
  Ok (hexdigest d).

(** ** Fields *)
Definition matching (p : string -> bool) (v : value) : bool := match v with VStr s => p s | _ => false end.
Definition positive (v : value) : bool := match v with VInt z => 1 <=? z | _ => false end.
(** [uuid.UUID(project_id)] and its version *)
Definition validate_project (subject : string) (v : value) : res unit :=
  match v with
  | VStr s =>
      match PyUuid.uuid_int s with
      | None => invalid (subject +:+ " project identity is invalid")
      | Some z => reject_if (negb (bool_decide (PyUuid.version z = Some 4)))
                    (subject +:+ " project identity must be UUIDv4")
      end
  | _ => invalid (subject +:+ " project identity is invalid")
  end.
(** The first field of the list whose value is not of the form *)
Definition require_fields (ok : value -> bool) (subject : string) (fields : list string) (record : dict) : res unit :=
  match List.find (fun f => negb (ok (get record f))) fields with
  | Some f => invalid (subject +:+ " " +:+ f +:+ " is invalid")
  | None => Ok tt
  end.

(** ** The identity of a barrier session *)
Definition SESSION_TOKENS : list string :=
  ["attempt_id"; "authority_revision_at_acquire"; "durable_barrier_id"; "fencing_token"; "fencing_owner"].
Definition validate_barrier_session_identity (record : dict) : res dict :=
  check reject_if (negb (keys_are record (BARRIER_SESSION_IDENTITY_FIELDS ++ ["identity_digest"])))
          "barrier session identity fields are invalid" ;;
  check reject_if (ne (get record "schema_version") (VInt BARRIER_SESSION_SCHEMA_VERSION))
          "barrier session schema version is invalid" ;;
  check validate_project "barrier session" (get record "project_id") ;;
  check require_fields (matching (fm _TOKEN)) "barrier session" SESSION_TOKENS record ;;
  check require_fields positive "barrier session" ["state_revision"] record ;;
  check reject_if (negb (matching (fm _DIGEST) (get record "identity_digest")))
          "barrier session identity digest is invalid" ;;
  let* digest := canonical_barrier_session_digest record in
  check reject_if (ne (get record "identity_digest") (VStr digest))
          "barrier session identity digest does not match" ;;
  Ok record.
Record BarrierSessionIdentity : Type := MkIdentity {
  schema_version : value; project_id : string; attempt_id : string; state_revision : Z;
  authority_revision_at_acquire : string; durable_barrier_id : string; fencing_token : string;
  fencing_owner : string; identity_digest : string }.
#[export] Instance BarrierSessionIdentity_eq : EqDecision BarrierSessionIdentity.
Proof. solve_decision. Defined.
Definition from_record (record : dict) : res BarrierSessionIdentity :=
  let* v := validate_barrier_session_identity record in
  let text f := str (get v f) in
  Ok (MkIdentity (get v "schema_version") (text "project_id") (text "attempt_id")
        (match get v "state_revision" with VInt z => z | _ => 0 end) (text "authority_revision_at_acquire")
        (text "durable_barrier_id") (text "fencing_token") (text "fencing_owner") (text "identity_digest")).
Definition as_record (i : BarrierSessionIdentity) : dict :=
  [("schema_version", schema_version i); ("project_id", VStr (project_id i)); ("attempt_id", VStr (attempt_id i));
   ("state_revision", VInt (state_revision i));
   ("authority_revision_at_acquire", VStr (authority_revision_at_acquire i));
   ("durable_barrier_id", VStr (durable_barrier_id i)); ("fencing_token", VStr (fencing_token i));
   ("fencing_owner", VStr (fencing_owner i)); ("identity_digest", VStr (identity_digest i))].

(** A child of the session: an operation, its target and the session's digest *)
Record BarrierChildIdentity : Type := MkChild { operation_id : string; target : string; barrier_identity_digest : string }.
#[export] Instance BarrierChildIdentity_eq : EqDecision BarrierChildIdentity.
Proof. solve_decision. Defined.
Definition TARGETS : list string := ["new"; "rollback"].
Definition bind (session : BarrierSessionIdentity) (operation_id target : string) : res BarrierChildIdentity :=
  check reject_if (negb (fm _CHILD_TOKEN operation_id)) "barrier child operation identity is invalid" ;;
  check reject_if (negb (PyStr.mem target TARGETS)) "barrier child target is invalid" ;;
  Ok (MkChild operation_id target (identity_digest session)).
Definition validate_for (child : BarrierChildIdentity) (session : BarrierSessionIdentity) : res unit :=
  check reject_if (negb (String.eqb (barrier_identity_digest child) (identity_digest session)))
          "barrier child session identity does not match" ;;
  check reject_if (negb (fm _CHILD_TOKEN (operation_id child))) "barrier child operation identity is invalid" ;;
  reject_if (negb (PyStr.mem (target child) TARGETS)) "barrier child target is invalid".

(** ** The envelope *)
Definition _canonical_path (field : string) (v : value) : res string :=
  match v with
  | VStr s =>
      check reject_if (negb (PyStr.startswith "/" s) || PyStr.startswith "//" s || PyStr.has_char "000" s)
              ("upgrade " +:+ field +:+ " path is invalid") ;;
      check reject_if (negb (String.eqb (PyPath.normpath s) s) || String.eqb s "/")
              ("upgrade " +:+ field +:+ " path is not canonical") ;;
      Ok s
  | _ => invalid ("upgrade " +:+ field +:+ " path is invalid")
  end.
Definition _contains (parent child : string) : bool := PyPath.within parent child.
Definition overlap (p q : string) : bool := _contains p q || _contains q p.
(** [PurePosixPath(p) == PurePosixPath(q)] *)
Definition same_path (p q : string) : bool := bool_decide (PyStr.parts p = PyStr.parts q).
Definition validate_paths (record : dict) : res unit :=
  let* root := _canonical_path "artifact_root" (get record "artifact_root") in
  let* source := _canonical_path "source" (get record "source") in
  let* destination := _canonical_path "destination" (get record "destination") in
  let* manifest := _canonical_path "manifest" (get record "manifest") in
  check reject_if (negb (matching (fun s => selector_matches s && String.eqb (PyPath.normpath s) s)
                           (get record "selector_ref")))
          "upgrade selector reference is invalid" ;;
  check reject_if (negb (_contains root destination) || negb (_contains root manifest))
          "upgrade outputs escape artifact root" ;;
  check reject_if (same_path destination root || same_path manifest root) "upgrade output aliases artifact root" ;;
  check reject_if (same_path source destination || same_path source manifest || same_path destination manifest)
          "upgrade path roles alias" ;;
  reject_if (overlap source destination || overlap source manifest || overlap destination manifest)
    "upgrade path roles overlap".
Definition ENVELOPE_TOKENS : list string :=
  ["operation_id"; "authority_revision"; "durable_barrier_id"; "fencing_token"; "fencing_owner"].
Definition ENVELOPE_DIGESTS : list string := ["barrier_identity_digest"; "envelope_digest"].
Definition validate_envelope (record : dict) : res dict :=
  check reject_if (negb (keys_are record ENVELOPE_FIELDS)) "upgrade envelope fields are invalid" ;;
  check reject_if (negb match get record "schema_version" with VInt z => z =? ENVELOPE_SCHEMA_VERSION | _ => false end)
          "upgrade envelope schema version is invalid" ;;
  check reject_if (negb (positive (get record "state_revision"))) "upgrade state revision is invalid" ;;
  check validate_project "upgrade" (get record "project_id") ;;
  check raise_when (py_or [py_not (in_set (get record "backend") ["git"; "sqlite"]);
                           py_not (in_set (get record "target") TARGETS)])
          (ClassError "UpgradeIdentityError" "upgrade backend or target is invalid") ;;
  check require_fields (matching (fm _TOKEN)) "upgrade" ENVELOPE_TOKENS record ;;
  check require_fields (matching (fm _DIGEST)) "upgrade" ENVELOPE_DIGESTS record ;;
  check validate_paths record ;;
  let* barrier := canonical_barrier_digest record in
  check reject_if (ne (get record "barrier_identity_digest") (VStr barrier))
          "upgrade barrier identity digest is invalid" ;;
  let* envelope := canonical_envelope_digest record in
  check reject_if (ne (get record "envelope_digest") (VStr envelope)) "upgrade envelope digest is invalid" ;;
  Ok record.

(** ** Admission ([upgrade_admission.py]) *)
Definition PREFLIGHT_PREDICATES : list string :=
  ["release_authentic"; "runtime_supported"; "state_clean"; "state_synchronized"; "no_divergence"; "no_active_leases";
   "no_wrapped_commands"; "no_reconciliation"; "no_publication"; "binding_valid"; "backend_valid"; "vendor_valid";
   "disk_capacity_ok"; "scratch_capacity_ok"; "backup_destination_restorable"].
Definition QUIESCENCE_PREDICATES : list string :=
  ["maintenance_barrier"; "barrier_acquired_before_quiescence"; "workers_drained"; "leases_fenced";
   "wrapped_commands_drained"; "reconciliation_stopped"; "publication_stopped"].
Definition REOPEN_PREDICATES : list string :=
  ["maintenance_barrier"; "barrier_reopen_verified"; "functional_available"; "runtime_validated";
   "backend_roundtrip_valid"; "projections_valid"; "binding_valid"; "lease_fence_valid"].
Definition IDENTITY_FIELDS : list string := ENVELOPE_FIELDS.
Definition QUIESCENCE_IDENTITY : string := "durable_barrier_id".
Definition KNOWN_FIELDS : list string :=
  PREFLIGHT_PREDICATES ++ QUIESCENCE_PREDICATES ++ REOPEN_PREDICATES ++ IDENTITY_FIELDS ++
  [QUIESCENCE_IDENTITY; "barrier_status"; "reopen_barrier_status"; "validation_failed"; "safe_mode_ready"].
Definition deny_if (c : bool) (msg : string) : res unit := raise_if c (ClassError "AdmissionError" msg).
Definition is_IdentityError (e : exn) : bool :=
  match e with ClassError cls _ => String.eqb cls "UpgradeIdentityError" | _ => false end.
(** [{field: snapshot.get(field) for field in IDENTITY_FIELDS}] *)
Definition identity_of (snapshot : dict) : dict := map (fun f => (f, get snapshot f)) IDENTITY_FIELDS.
(** [value is True] *)
Definition is_True (v : value) : bool := match v with VBool b => b | _ => false end.
Definition _require (snapshot : dict) (predicates : list string) (phase : string) : res unit :=
  let unknown := PyStr.sort (List.filter (fun k => negb (PyStr.mem k KNOWN_FIELDS)) (keys snapshot)) in
  check deny_if match unknown with [] => false | _ => true end
          (phase +:+ " denied; unknown fields: " +:+ PyStr.join ", " unknown) ;;
  check match validate_envelope (identity_of snapshot) with
        | Raise e => if is_IdentityError e
                     then Raise (ClassError "AdmissionError" (phase +:+ " denied; invalid identity envelope"))
                     else Raise e
        | Ok _ => Ok tt
        end ;;
  let missing := List.filter (fun p => negb (is_True (get snapshot p))) predicates in
  deny_if match missing with [] => false | _ => true end
    (phase +:+ " denied; unmet predicates: " +:+ PyStr.join ", " missing).
Definition barrier_proof (snapshot : dict) (phase : string) : res unit :=
  deny_if (negb (matching PyStr.truthy (get snapshot QUIESCENCE_IDENTITY)))
    (phase +:+ " denied; durable barrier proof is absent").
Definition admit_preflight (snapshot : dict) : res unit := _require snapshot PREFLIGHT_PREDICATES "preflight".
Definition admit_quiesced (snapshot : dict) : res unit :=
  check _require snapshot QUIESCENCE_PREDICATES "quiescence" ;;
  check barrier_proof snapshot "quiescence" ;;
  deny_if (ne (get snapshot "barrier_status") (VStr "held")) "quiescence denied; durable barrier is not held".
Definition recheck_before_replacement (admitted current : dict) : res unit :=
  check admit_quiesced admitted ;;
  check admit_quiesced current ;;
  match List.find (fun f => ne (get admitted f) (get current f)) IDENTITY_FIELDS with
  | Some f => Raise (ClassError "AdmissionError" ("replacement denied; stale " +:+ f))
  | None => Ok tt
  end.
Definition admit_reopen (snapshot : dict) : res unit :=
  check _require snapshot REOPEN_PREDICATES "reopen" ;;
  let* known := in_set (get snapshot "target") TARGETS in
  check deny_if (negb known) "reopen denied; target must be new or rollback" ;;
  check barrier_proof snapshot "reopen" ;;
  check deny_if (ne (get snapshot "reopen_barrier_status") (VStr "released"))
          "reopen denied; durable barrier is not released" ;;
  match get_or snapshot "validation_failed" (VBool false) with
  | VBool failed => deny_if failed "reopen denied; failed validation requires safe mode"
  | _ => deny_if true "reopen denied; validation_failed must be boolean"
  end.
Definition admit_safe_mode (snapshot : dict) : res unit :=
  check _require snapshot [] "safe mode" ;;
  check barrier_proof snapshot "safe mode" ;;
  match get snapshot "safe_mode_ready" with
  | VBool ready => deny_if (negb ready) "safe mode denied; durable safe-mode record is absent"
  | _ => deny_if true "safe mode denied; safe_mode_ready must be boolean"
  end.

(** ** What a digest pins *)
(** Texts and numbers, the values of an identity *)
Definition scalar (v : value) : bool := match v with VStr _ | VInt _ => true | _ => false end.
Definition chosen (fields : list string) (record : dict) : dict := map (fun f => (f, get record f)) fields.
Lemma chosen_keys fields record : keys (chosen fields record) = fields.
Proof. unfold chosen, keys. rewrite map_map. apply map_id. Qed.
Lemma chosen_get fields record f : f ∈ fields -> get (chosen fields record) f = get record f.
Proof.
  unfold get at 1, get_or, chosen. intros Hf. induction fields as [|g fields IH]; [by apply elem_of_nil in Hf|]. cbn [map dget].
  destruct (String.eqb_spec g f) as [->|Hn]; [by rewrite String.eqb_refl|].
  apply elem_of_cons in Hf as [->|Hf]; [done|]. rewrite (proj2 (String.eqb_neq f g)) by congruence. by apply IH.
Qed.
Lemma select_Ok record fields : Forall (fun f => has record f = true) fields -> _select record fields = Ok (chosen fields record).
Proof.
  unfold _select, chosen. induction 1 as [|f fields Hf _ IH]; [done|]. cbn [mapr map]. rewrite IH.
  pose proof (has_item record f Hf) as E. unfold item in E. destruct (dget record f); [|done]. by injection E as <-.
Qed.
Lemma chosen_wf fields record : NoDup fields -> Forall (fun f => scalar (get record f) = true) fields -> wf (VDict (chosen fields record)) = true.
Proof.
  intros Hn Hs. cbn [wf]. rewrite chosen_keys. apply andb_true_iff. split; [by apply bool_decide_eq_true|].
  unfold chosen. induction Hs as [|f fields Hf _ IH]; [done|]. apply NoDup_cons in Hn as [_ Hn]. cbn. rewrite (IH Hn).
  by destruct (get record f).
Qed.
(** Two records agree on the fields of a digest, or their texts collide. *)
Definition agree (fields : list string) (a b : dict) : Prop := forall f, f ∈ fields -> get a f = get b f.
Definition colliding (fields : list string) (a b : dict) : Prop :=
  Canonical.colliding (VDict (chosen fields a)) (VDict (chosen fields b)).
Lemma canon_scalar v : scalar v = true -> PyJson.canon v = v.
Proof. by destruct v. Qed.
Lemma chosen_pins fields a b : NoDup fields ->
  Forall (fun f => scalar (get a f) = true) fields -> Forall (fun f => scalar (get b f) = true) fields ->
  hexdigest (chosen fields a) = hexdigest (chosen fields b) -> agree fields a b \/ colliding fields a b.
Proof.
  intros Hn Ha Hb E. destruct (Canonical.digest_pins (VDict (chosen fields a)) (VDict (chosen fields b))) as [Ec|Hc];
    [by apply chosen_wf | by apply chosen_wf | exact E | left | by right].
  intros f Hf. rewrite list.Forall_forall in Ha, Hb. rewrite !Journal.canon_dict in Ec. injection Ec as Ec.
  assert (forall r, NoDup (keys (chosen fields r))) as Hk by (intros r; by rewrite chosen_keys).
  pose proof (Journal.get_canon _ f (Hk a)) as Ea. rewrite Ec, (Journal.get_canon _ f (Hk b)), !chosen_get in Ea by done.
  by rewrite !canon_scalar in Ea by auto.
Qed.

(** ** Valid envelopes *)
Record valid (r : dict) : Prop := Valid {
  v_fields : keys_are r ENVELOPE_FIELDS = true;
  v_scalars : Forall (fun f => scalar (get r f) = true) ENVELOPE_FIELDS;
  v_version : get r "schema_version" = VInt ENVELOPE_SCHEMA_VERSION;
  v_tokens : Forall (fun f => matching (fm _TOKEN) (get r f) = true) ENVELOPE_TOKENS;
  v_target : exists t, get r "target" = VStr t /\ t ∈ TARGETS;
  v_paths : validate_paths r = Ok tt;
  v_barrier : get r "barrier_identity_digest" = VStr (hexdigest (chosen BARRIER_IDENTITY_FIELDS r));
  v_envelope : get r "envelope_digest" =
    VStr (hexdigest (chosen (List.filter (fun f => negb (String.eqb f "envelope_digest")) ENVELOPE_FIELDS) r));
}.
Lemma require_fields_Ok ok subject fields record u :
  require_fields ok subject fields record = Ok u -> Forall (fun f => ok (get record f) = true) fields.
Proof.
  unfold require_fields. destruct (List.find _ fields) as [f|] eqn:E; [done|]. intros _. apply list.Forall_forall.
  intros f Hf. apply list_elem_of_In in Hf. by apply negb_false_iff, (List.find_none _ _ E).
Qed.
Lemma matching_scalar p v : matching p v = true -> scalar v = true.
Proof. by destruct v. Qed.
Lemma canonical_path_scalar f v s : _canonical_path f v = Ok s -> v = VStr s.
Proof. destruct v as [| | |t| |]; try done. cbn. intros (u & _ & (u' & _ & E)%rbind_Ok_inv)%rbind_Ok_inv. by injection E as ->. Qed.
Lemma in_set_mem v ss : in_set v ss = Ok true -> exists s, v = VStr s /\ s ∈ ss.
Proof.
  unfold in_set. intros (u & _ & E)%rbind_Ok_inv. injection E as E. destruct v as [| | |s| |]; try done.
  exists s. split; [done|]. by apply PyStr.mem_spec.
Qed.
Lemma validate_envelope_inv record r : validate_envelope record = Ok r -> r = record /\ valid record.
Proof.
  unfold validate_envelope. intros (u1 & Hk%raise_if_Ok%negb_false_iff & E)%rbind_Ok_inv.
  apply rbind_Ok_inv in E as (u2 & Hv%raise_if_Ok%negb_false_iff & (u3 & Hr%raise_if_Ok%negb_false_iff & (u4 & Hp & E)%rbind_Ok_inv)%rbind_Ok_inv).
  apply rbind_Ok_inv in E as (u5 & Hb%raise_when_Ok & (u6 & Ht%require_fields_Ok & (u7 & Hd%require_fields_Ok & E)%rbind_Ok_inv)%rbind_Ok_inv).
  apply rbind_Ok_inv in E as ([] & Hpaths & (barrier & Eb & (u8 & Hb'%raise_if_Ok%ne_false%eq_str & E)%rbind_Ok_inv)%rbind_Ok_inv).
  apply rbind_Ok_inv in E as (envelope & Ee & (u9 & He%raise_if_Ok%ne_false%eq_str & E)%rbind_Ok_inv). injection E as ->.
  assert (forall fields, (forall f, f ∈ fields -> f ∈ ENVELOPE_FIELDS) -> _select r fields = Ok (chosen fields r)) as Hsel.
  { intros fields Hf. apply select_Ok, list.Forall_forall. intros f Hin. eapply keys_are_has; [exact Hk | by apply Hf]. }
  unfold canonical_barrier_digest in Eb. rewrite Hsel in Eb by listed. injection Eb as <-.
  unfold canonical_envelope_digest in Ee. rewrite Hsel in Ee.
  2: { intros f [Hf _]%list_elem_of_In%filter_In. by apply list_elem_of_In. }
  injection Ee as <-. apply py_or_false in Hb. apply Forall_cons in Hb as [Hb Ht']. apply Forall_cons in Ht' as [Ht' _].
  unfold py_not in Hb, Ht'. apply rbind_Ok_inv in Hb as ([] & Hb & ?), Ht' as ([] & Ht' & ?); try done.
  apply in_set_mem in Hb as (b & Eb & _). apply in_set_mem in Ht' as (t & Et & Htt). split; [done|].
  pose proof Hpaths as Hs. unfold validate_paths in Hs.
  apply rbind_Ok_inv in Hs as (root & H1%canonical_path_scalar & (source & H2%canonical_path_scalar & Hs)%rbind_Ok_inv).
  apply rbind_Ok_inv in Hs as (dest & H3%canonical_path_scalar & (man & H4%canonical_path_scalar & (u10 & H5%raise_if_Ok%negb_false_iff & _)%rbind_Ok_inv)%rbind_Ok_inv).
  split; try done; [ | by destruct (get r "schema_version") as [| |z| | |]; try done; apply Z.eqb_eq in Hv as -> | by exists t].
  apply Forall_cons in Ht as [T1 Ht], Hd as [D1 Hd]. apply Forall_cons in Ht as [T2 Ht], Hd as [D2 _].
  apply Forall_cons in Ht as [T3 Ht]. apply Forall_cons in Ht as [T4 Ht]. apply Forall_cons in Ht as [T5 _].
  apply matching_scalar in T1, T2, T3, T4, T5, D1, D2, H5.
  repeat (apply Forall_cons; split); try done; rewrite ?Eb, ?Et, ?H1, ?H2, ?H3, ?H4; try done.
  - by destruct (get r "schema_version").
  - by destruct (get r "project_id").
  - by destruct (get r "state_revision").
Qed.
Lemma fields_NoDup : NoDup ENVELOPE_FIELDS.
Proof. by apply (bool_decide_unpack _). Qed.
Lemma scalars_of r fields : valid r -> (forall f, f ∈ fields -> f ∈ ENVELOPE_FIELDS) ->
  Forall (fun f => scalar (get r f) = true) fields.
Proof.
  intros Hv Hf. pose proof (v_scalars _ Hv) as Hs. rewrite list.Forall_forall in Hs. apply list.Forall_forall.
  intros f Hin. by apply Hs, Hf.
Qed.

(** The fields the digest of an envelope covers *)
Definition SEALED_FIELDS : list string := List.filter (fun f => negb (String.eqb f "envelope_digest")) ENVELOPE_FIELDS.

(** The digests of an upgrade name one operation: two valid envelopes with the
    same digest agree on every field, and two with the same barrier digest agree
    on the identity of the barrier, its fence, owner and target, or they exhibit
    two texts with the same SHA-256 digest. *)
Theorem digests_name_operation a b a' b' :
  validate_envelope a = Ok a' -> validate_envelope b = Ok b' ->
  (get a "envelope_digest" = get b "envelope_digest" -> agree ENVELOPE_FIELDS a b \/ colliding SEALED_FIELDS a b) /\
  (get a "barrier_identity_digest" = get b "barrier_identity_digest" ->
     agree BARRIER_IDENTITY_FIELDS a b \/ colliding BARRIER_IDENTITY_FIELDS a b).
Proof.
  intros [_ Va]%validate_envelope_inv [_ Vb]%validate_envelope_inv. split; intros E.
  - pose proof E as E'. rewrite (v_envelope _ Va), (v_envelope _ Vb) in E'. injection E' as E'.
    destruct (chosen_pins SEALED_FIELDS a b) as [Ha|Hc]; [| | | exact E' | left | by right].
    + apply NoDup_ListNoDup, List.NoDup_filter, NoDup_ListNoDup, fields_NoDup.
    + apply scalars_of; [done|]. intros f [Hf _]%list_elem_of_In%filter_In. by apply list_elem_of_In.
    + apply scalars_of; [done|]. intros f [Hf _]%list_elem_of_In%filter_In. by apply list_elem_of_In.
    + intros f Hf. destruct (decide (f = "envelope_digest")) as [->|Hn]; [done|]. apply Ha.
      apply list_elem_of_In, filter_In. split; [by apply list_elem_of_In|]. by apply negb_true_iff, String.eqb_neq.
  - rewrite (v_barrier _ Va), (v_barrier _ Vb) in E. injection E as E. apply chosen_pins; [| | |done].
    + by apply (bool_decide_unpack _).
    + apply scalars_of; [done | listed].
    + apply scalars_of; [done | listed].
Qed.

(** No path is in two of the three. *)
Definition apart (p q : string) : Prop := forall s, ~ (_contains p s = true /\ _contains q s = true).
Lemma overlap_apart p q : overlap p q = false -> apart p q.
Proof.
  intros [H1 H2]%orb_false_iff s [Hp Hq]. unfold _contains in *.
  destruct (PyPath.within_comparable _ _ _ Hp Hq); congruence.
Qed.

(** The paths of a valid envelope keep apart: the backup destination and its
    manifest lie strictly inside the artifact root, and no path is at once in
    two of source, destination and manifest. *)
Theorem envelope_paths_apart record r :
  validate_envelope record = Ok r ->
  exists root source destination manifest,
    get record "artifact_root" = VStr root /\ get record "source" = VStr source /\
    get record "destination" = VStr destination /\ get record "manifest" = VStr manifest /\
    Forall (fun p => _contains root p = true /\ _contains p root = false) [destination; manifest] /\
    apart source destination /\ apart source manifest /\ apart destination manifest.
Proof.
  intros [-> V]%validate_envelope_inv. pose proof (v_paths _ V) as E. unfold validate_paths in E.
  apply rbind_Ok_inv in E as (root & H1%canonical_path_scalar & (source & H2%canonical_path_scalar & E)%rbind_Ok_inv).
  apply rbind_Ok_inv in E as (dest & H3%canonical_path_scalar & (man & H4%canonical_path_scalar & (u1 & _ & E)%rbind_Ok_inv)%rbind_Ok_inv).
  apply rbind_Ok_inv in E as (u2 & [Hd%negb_false_iff Hm%negb_false_iff]%raise_if_Ok%orb_false_iff & E).
  apply rbind_Ok_inv in E as (u3 & [Nd Nm]%raise_if_Ok%orb_false_iff & (u4 & _ & E)%rbind_Ok_inv).
  apply raise_if_Ok, orb_false_iff in E as [[?%overlap_apart ?%overlap_apart]%orb_false_iff ?%overlap_apart].
  exists root, source, dest, man. split_and!; try done.
  assert (forall p, same_path p root = false -> _contains root p = true -> _contains p root = false) as Hin.
  { intros p Hn [k Hk]%PyPath.begins_spec. apply not_true_iff_false. intros [k' Hk']%PyPath.begins_spec.
    unfold same_path in Hn. apply bool_decide_eq_false in Hn. apply Hn. rewrite Hk in Hk'.
    rewrite <- app_assoc in Hk'. rewrite Hk. destruct k; [by rewrite app_nil_r|].
    apply (f_equal length) in Hk'. rewrite !length_app in Hk'. cbn in Hk'. lia. }
  rewrite !Forall_cons, Forall_nil. auto.
Qed.

(** ** Sessions *)
Lemma session_identity_inv record v :
  validate_barrier_session_identity record = Ok v -> v = record /\
  Forall (fun f => is_str (get record f) = true) ("project_id" :: "identity_digest" :: SESSION_TOKENS) /\
  (exists z, get record "state_revision" = VInt z /\ 1 <= z) /\ as_Z (get record "schema_version") = Some 1 /\
  keys_are record (BARRIER_SESSION_IDENTITY_FIELDS ++ ["identity_digest"]) = true /\
  get record "identity_digest" = VStr (hexdigest (chosen BARRIER_SESSION_IDENTITY_FIELDS record)).
Proof.
  unfold validate_barrier_session_identity. intros (u1 & Hk%raise_if_Ok%negb_false_iff & E)%rbind_Ok_inv.
  apply rbind_Ok_inv in E as (u2 & Hv%raise_if_Ok%ne_false%eq_int & (u3 & Hp & (u4 & Ht%require_fields_Ok & E)%rbind_Ok_inv)%rbind_Ok_inv).
  apply rbind_Ok_inv in E as (u5 & Hr%require_fields_Ok & (u6 & Hd%raise_if_Ok%negb_false_iff & (d & Ed & E)%rbind_Ok_inv)%rbind_Ok_inv).
  apply rbind_Ok_inv in E as (u7 & He%raise_if_Ok%ne_false%eq_str & E). injection E as ->.
  apply Forall_cons in Hr as [Hr _]. unfold canonical_barrier_session_digest in Ed. rewrite select_Ok in Ed.
  2: { apply list.Forall_forall. intros f Hf. eapply keys_are_has; [exact Hk | listed]. }
  injection Ed as <-. split_and!; try done.
  - apply Forall_cons. split; [by destruct (get v "project_id")|]. apply Forall_cons. split; [by rewrite He|].
    eapply Forall_impl; [exact Ht|]. cbn. intros f Hf. by destruct (get v f).
  - destruct (get v "state_revision") as [| |z| | |]; try done. exists z. split; [done|]. by apply Z.leb_le.
Qed.
Lemma as_record_get record i : from_record record = Ok i ->
  agree (BARRIER_SESSION_IDENTITY_FIELDS ++ ["identity_digest"]) (as_record i) record.
Proof.
  unfold from_record. intros (v & Ev & E)%rbind_Ok_inv. injection E as <-.
  apply session_identity_inv in Ev as (-> & Hs & (z & Ez & _) & _). unfold SESSION_TOKENS in Hs.
  apply Forall_cons in Hs as [S1 Hs]. apply Forall_cons in Hs as [S2 Hs]. apply Forall_cons in Hs as [S3 Hs].
  apply Forall_cons in Hs as [S4 Hs]. apply Forall_cons in Hs as [S5 Hs]. apply Forall_cons in Hs as [S6 Hs].
  apply Forall_cons in Hs as [S7 _]. apply is_str_inv in S1 as [? S1], S2 as [? S2], S3 as [? S3], S4 as [? S4], S5 as [? S5], S6 as [? S6], S7 as [? S7].
  intros f Hf. cbn [app BARRIER_SESSION_IDENTITY_FIELDS] in Hf. rewrite Ez, S1, S2, S3, S4, S5, S6, S7.
  repeat (apply elem_of_cons in Hf as [->|Hf]; [by rewrite ?Ez, ?S1, ?S2, ?S3, ?S4, ?S5, ?S6, ?S7|]).
  by apply elem_of_nil in Hf.
Qed.
Lemma validate_session_agree a b v : agree (BARRIER_SESSION_IDENTITY_FIELDS ++ ["identity_digest"]) a b ->
  keys_are a (BARRIER_SESSION_IDENTITY_FIELDS ++ ["identity_digest"]) = true ->
  validate_barrier_session_identity b = Ok v -> validate_barrier_session_identity a = Ok a.
Proof.
  intros Ha Hk E. destruct (session_identity_inv _ _ E) as (-> & _ & _ & _ & Hkb & _).
  assert (forall fields, (forall f, f ∈ fields -> f ∈ BARRIER_SESSION_IDENTITY_FIELDS ++ ["identity_digest"]) ->
    chosen fields a = chosen fields b) as Hc.
  { intros fields Hf. unfold chosen. apply map_ext_in. intros f Hin%list_elem_of_In. by rewrite Ha by auto. }
  assert (forall ok subject fields, (forall f, f ∈ fields -> f ∈ BARRIER_SESSION_IDENTITY_FIELDS ++ ["identity_digest"]) ->
    require_fields ok subject fields a = require_fields ok subject fields b) as Hf.
  { intros ok subject fields Hin. unfold require_fields.
    replace (List.find (fun f => negb (ok (get a f))) fields) with (List.find (fun f => negb (ok (get b f))) fields); [done|].
    induction fields as [|f fields IH]; [done|]. cbn [List.find]. rewrite Ha by (apply Hin; by left).
    by rewrite IH by (intros g Hg; apply Hin; by right). }
  unfold validate_barrier_session_identity in *. rewrite Hk, !Hf by listed. rewrite Hkb in E. rewrite !Ha by listed.
  unfold canonical_barrier_session_digest in *. rewrite select_Ok in *.
  2,3: apply list.Forall_forall; intros f Hin; eapply keys_are_has; [eassumption | listed].
  rewrite Hc by listed. cbn [rbind] in *.
  repeat match goal with H : rbind ?m _ = Ok _ |- rbind ?m _ = Ok _ => destruct m; [cbn [rbind] in * | done] end. done.
Qed.

(** A barrier session's identity survives its record: the record of an
    identity read from a valid record is valid again and reads as the same
    identity. *)
Theorem session_identity_roundtrip record i :
  from_record record = Ok i -> from_record (as_record i) = Ok i.
Proof.
  intros E. pose proof (as_record_get _ _ E) as Ha. unfold from_record in E. apply rbind_Ok_inv in E as (v & Ev & E).
  unfold from_record. rewrite (validate_session_agree _ _ _ Ha eq_refl Ev). cbn [rbind].
  apply session_identity_inv in Ev as (-> & _). injection E as E. rewrite <- E at 10. by rewrite !Ha by listed.
Qed.
(** A child bound to a session is a child of it, and of no other session. *)
Lemma bound_child session operation t child :
  bind session operation t = Ok child -> validate_for child session = Ok tt.
Proof.
  unfold bind, validate_for. intros (u & H1 & (u' & H2 & E)%rbind_Ok_inv)%rbind_Ok_inv. injection E as <-.
  cbn [barrier_identity_digest operation_id target]. rewrite String.eqb_refl, H1. destruct u'. exact H2.
Qed.

(** ** A sample operation *)
Definition seal (r : dict) : dict :=
  let r := dset r "barrier_identity_digest" (VStr (hexdigest (chosen BARRIER_IDENTITY_FIELDS r))) in
  dset r "envelope_digest" (VStr (hexdigest (chosen SEALED_FIELDS r))).
Definition sample_fields : dict :=
  [("schema_version", VInt 2); ("backend", VStr "git"); ("project_id", VStr "12345678-1234-4abc-8def-0123456789ab");
   ("operation_id", VStr "op-1"); ("state_revision", VInt 7); ("authority_revision", VStr "rev-7");
   ("fencing_token", VStr "fence-1"); ("fencing_owner", VStr "owner-1"); ("durable_barrier_id", VStr "barrier-1");
   ("artifact_root", VStr "/srv/up"); ("source", VStr "/srv/state"); ("destination", VStr "/srv/up/backup");
   ("manifest", VStr "/srv/up/manifest.json"); ("selector_ref", VStr "runtime/current");
   ("barrier_identity_digest", VStr ""); ("target", VStr "new"); ("envelope_digest", VStr "")].
Definition sample : dict := Eval vm_compute in seal sample_fields.
Lemma sample_valid : validate_envelope sample = Ok sample.
Proof. vm_compute. reflexivity. Qed.
Definition session_fields : dict :=
  [("schema_version", VInt 1); ("project_id", VStr "12345678-1234-4abc-8def-0123456789ab"); ("attempt_id", VStr "attempt-1");
   ("state_revision", VInt 7); ("authority_revision_at_acquire", VStr "rev-7"); ("durable_barrier_id", VStr "barrier-1");
   ("fencing_token", VStr "fence-1"); ("fencing_owner", VStr "owner-1")].
Definition sample_session_record : dict :=
  Eval vm_compute in dset session_fields "identity_digest" (VStr (hexdigest session_fields)).
Definition sample_session : BarrierSessionIdentity :=
  Eval vm_compute in match from_record sample_session_record with
                     | Ok i => i | Raise _ => MkIdentity VNull "" "" 0 "" "" "" "" "" end.
Lemma sample_session_valid : from_record sample_session_record = Ok sample_session.
Proof. vm_compute. reflexivity. Qed.

Lemma digests_name_operation_witness :
  agree ENVELOPE_FIELDS sample sample \/ colliding SEALED_FIELDS sample sample.
Proof. destruct (digests_name_operation sample sample sample sample sample_valid sample_valid) as [H _]. by apply H. Defined.
Lemma envelope_paths_apart_witness :
  exists root source destination manifest,
    get sample "artifact_root" = VStr root /\ get sample "source" = VStr source /\
    get sample "destination" = VStr destination /\ get sample "manifest" = VStr manifest /\
    Forall (fun p => _contains root p = true /\ _contains p root = false) [destination; manifest] /\
    apart source destination /\ apart source manifest /\ apart destination manifest.
Proof. apply (envelope_paths_apart sample sample sample_valid). Defined.
Lemma session_identity_roundtrip_witness : from_record (as_record sample_session) = Ok sample_session.
Proof. apply (session_identity_roundtrip sample_session_record sample_session sample_session_valid). Defined.
End UpgradeIdentity.
