(* ===== verification/PhaseAdapters.v ===== *)
(** * Bound phase adapters and single-use effects ([authority_neutral_backup.py],
    [authority_neutral_stage.py], [authority_neutral_validation.py],
    [authority_neutral_commit.py], [authority_neutral_commit_dispatch.py],
    [authority_neutral_rollback_dispatch.py], [authority_mutation.py])

    An adapter binds one generated operation to one identity of the engine and
    checks what the backend answers.  The backend is a record of computations on
    a world of any type; objects that are consumed once carry a flag. *)
From S2P Require Import Prelude PyStr PyVal PyPath UpgradeIdentity.

Module PhaseAdapters.
Import Py.

(** [isinstance(value, Mapping)] *)
Definition is_True := UpgradeIdentity.is_True.
Definition error_if (cls : string) (c : bool) (msg : string) : res unit := raise_if c (ClassError cls msg).
Definition non_empty (v : value) : bool := UpgradeIdentity.matching PyStr.truthy v.
Definition one_of (l : list string) (v : value) : bool := UpgradeIdentity.matching (fun s => PyStr.mem s l) v.
Definition positive := UpgradeIdentity.positive.
Definition opcode_is (operation : dict) (l : list string) : bool := one_of l (get operation "opcode").
(** [set(d) < fields] *)
Definition proper_subset (d : dict) (fields : list string) : bool := keys_within d fields && negb (keys_cover d fields).

(** What the adapters ask of a backend and of the file system *)
Record Backend (W : Type) : Type := MkBackend {
  snapshot : string -> dict -> st W value;
  execute : string -> dict -> st W value;
  generated_backup : dict -> dict -> st W value;
  generated_operation : dict -> string -> dict -> st W value;
  verify_rollback_context : option (dict -> st W value);
  begin_release_rollback_context : option (dict -> st W value);
  complete_release_rollback_context : option (dict -> st W value);
  revalidate_rollback : option (dict -> dict -> st W value);
  refresh_after_commit : option (st W unit);
  requires_bound_rollback : bool;
}.
Arguments MkBackend {W}. Arguments snapshot {W}. Arguments execute {W}. Arguments generated_backup {W}.
Arguments generated_operation {W}. Arguments verify_rollback_context {W}. Arguments requires_bound_rollback {W}.
Arguments begin_release_rollback_context {W}. Arguments complete_release_rollback_context {W}.
Arguments revalidate_rollback {W}. Arguments refresh_after_commit {W}.
Class Artifacts (W : Type) : Type := {
  (** [str(Path(s).resolve())] *)
  resolve : string -> string;
  verify_runtime_manifest : string -> string -> st W value;
}.

(** [except E as error: raise T(msg) from error] around a computation *)
Definition rethrow {W A} (m : st W A) (f : exn -> exn) : st W A := fun w =>
  match m w with (w', Raise e) => (w', Raise (f e)) | r => r end.
(** A field of the context that is not the one bound *)
Definition drifted (identity context : dict) : bool :=
  existsb (fun kv => ne (get context kv.1) kv.2) identity.
Definition bound_fields (fields : list string) (context : dict) : dict := map (fun f => (f, get context f)) fields.
(** [context.get(field) != expected or type(...) is not type(expected)] *)
Definition differs (expected actual : value) : bool :=
  ne actual expected || negb (String.eqb (type_name actual) (type_name expected)).
Definition first_differing (fields : list string) (bound context : dict) : option string :=
  List.find (fun f => differs (get bound f) (get context f)) fields.

Section adapters.
  Context {W : Type} `{F : Artifacts W}.

(** ** Backup *)
Definition backup_fails {A} (msg : string) : res A := Raise (ClassError "BackupExecutionError" msg).
Definition BACKUP_REQUIRED_CONTEXT : list string := ["backend"; "target"; "destination"; "artifact_root"; "binding"].
Definition BACKUP_REQUIRED_RESULT : list string :=
  ["outcome"; "backup_verified"; "restore_roundtrip_verified"; "backend_identity_verified"].
Definition _ENGINE_IDENTITY_FIELDS : list string := UpgradeIdentity.ENVELOPE_FIELDS.
Definition _validated_artifacts (context : dict) : res (string * string * dict) :=
  check error_if "BackupExecutionError" (proper_subset context BACKUP_REQUIRED_CONTEXT)
          "backup execution context is incomplete" ;;
  check error_if "BackupExecutionError"
          (negb (one_of ["git"; "sqlite"] (get context "backend")) || ne (get context "target") (VStr "new"))
          "backup execution identity is invalid" ;;
  match get context "destination", get context "artifact_root" with
  | VStr destination, VStr artifact_root =>
      match get context "binding" with
      | VDict binding =>
          let path := resolve destination in
          check error_if "BackupExecutionError" (negb (PyPath.within (resolve artifact_root) path))
                  "backup destination escapes artifact root" ;;
          Ok (str (get context "backend"), path, binding)
      | _ => backup_fails "backup authority binding is invalid"
      end
  | _, _ => backup_fails "backup artifact binding is invalid"
  end.
Definition _dispatch_backup (B : Backend W) (backend : string) (operation context : dict) (destination : string)
    (binding : dict) : st W value :=
  if String.eqb backend "git" then generated_backup B operation context
  else generated_operation B operation destination binding.
Definition _validated_result (result : dict) : res dict :=
  check error_if "BackupExecutionError" (proper_subset result BACKUP_REQUIRED_RESULT)
          "generated backup result is incomplete" ;;
  check error_if "BackupExecutionError"
          (ne (get result "outcome") (VStr "completed") || negb (is_True (get result "backup_verified"))
           || negb (is_True (get result "restore_roundtrip_verified"))
           || negb (is_True (get result "backend_identity_verified")) || is_True (get result "mutates_authority"))
          "generated backup postconditions are not proven" ;;
  Ok result.
Definition is_class (cls : string) (e : exn) : bool := match e with ClassError c _ => String.eqb c cls | _ => false end.
Definition execute_verified_backup (B : Backend W) (operation context : dict) : st W dict :=
  do slift (fun _ => error_if "BackupExecutionError" (negb (opcode_is operation ["backend.backup"]))
                       "backup operation is unsupported") ;;
  do* artifacts := slift (fun _ => _validated_artifacts context) in
  let '(backend, destination, binding) := artifacts in
  do* result := rethrow (_dispatch_backup B backend operation context destination binding)
                  (fun e => if is_class "BackupExecutionError" e then e
                            else ClassError "BackupExecutionError" "generated backup execution failed") in
  slift (fun _ => match result with
                  | VDict d => _validated_result d
                  | _ => backup_fails "generated backup result is invalid"
                  end).
(** [BoundBackupPhaseAdapter] *)
Record BoundPhase : Type := MkBound { operation : dict; context : dict; identity : dict }.
Definition bind_backup (operation backup_context : dict) : res BoundPhase :=
  check error_if "BackupExecutionError" (negb (opcode_is operation ["backend.backup"])) "backup operation is unsupported" ;;
  check error_if "BackupExecutionError" (negb (keys_cover backup_context _ENGINE_IDENTITY_FIELDS))
          "backup execution context omits engine identity" ;;
  let* _ := _validated_artifacts backup_context in
  Ok (MkBound operation backup_context (bound_fields _ENGINE_IDENTITY_FIELDS backup_context)).
(** Another phase goes to the backend. *)
Definition delegate (B : Backend W) (cls phase : string) (ctx : dict) : st W dict :=
  do* result := execute B phase ctx in
  slift (fun _ => match result with
                  | VDict d => Ok d
                  | _ => Raise (ClassError cls "backend execution result must be an object")
                  end).
Definition execute_backup (B : Backend W) (a : BoundPhase) (phase : string) (ctx : dict) : st W dict :=
  if String.eqb phase "backup" then
    do slift (fun _ => error_if "BackupExecutionError" (drifted (identity a) ctx) "backup engine context identity mismatch") ;;
    execute_verified_backup B (operation a) (context a)
  else delegate B "BackupExecutionError" phase ctx.

(** ** Stage *)
Definition STAGE_REQUIRED_CONTEXT : list string :=
  ["backend"; "target"; "artifact_root"; "runtime_root"; "manifest_digest"; "binding"].
Definition STAGE_OPCODES : list string := ["backend.stage"; "runtime.stage"].
Definition stage_context (context : dict) : res (string * string) :=
  check error_if "StageExecutionError" (negb (keys_cover context STAGE_REQUIRED_CONTEXT))
          "stage execution context is incomplete" ;;
  let* known := in_set (get context "backend") ["git"; "sqlite"] in
  check error_if "StageExecutionError" (negb known || ne (get context "target") (VStr "new"))
          "stage execution identity is invalid" ;;
  check error_if "StageExecutionError" (negb (is_dict (get context "binding"))) "stage authority binding is invalid" ;;
  match get context "artifact_root", get context "runtime_root", get context "manifest_digest" with
  | VStr root, VStr runtime, VStr digest =>
      let path := resolve runtime in
      check error_if "StageExecutionError" (negb (PyPath.within (resolve root) path))
              "stage runtime escapes artifact root" ;;
      Ok (path, digest)
  | _, _, _ => Raise (ClassError "StageExecutionError" "stage artifact binding is invalid")
  end.
(** [except (AuthorityError, OSError, RuntimeError)]; [AuthorityError] derives
    from [RuntimeError]. *)
Definition stage_failure (e : exn) : exn :=
  if is_RuntimeError e || match e with OSError _ => true | _ => false end
  then ClassError "StageExecutionError" "staged runtime verification failed" else e.
Definition execute_verified_stage (operation context : dict) : st W dict :=
  do slift (fun _ => let* known := in_set (get operation "opcode") STAGE_OPCODES in
                     error_if "StageExecutionError" (negb known) "stage operation is unsupported") ;;
  do* paths := slift (fun _ => stage_context context) in
  do* verified := rethrow (verify_runtime_manifest (fst paths) (snd paths)) stage_failure in
  do slift (fun _ => error_if "StageExecutionError" (negb (is_True verified)) "staged runtime verification is incomplete") ;;
  slift (fun _ =>
    let* fence := item context "fencing_token" in
    Ok [("operation_id", get operation "operation_id"); ("opcode", get operation "opcode"); ("outcome", VStr "completed");
        ("backend", get context "backend"); ("staged_verified", VBool true); ("manifest_verified", VBool true);
        ("backend_identity_verified", VBool true); ("mutates_authority", VBool false); ("fencing_token", fence)]).
Definition bind_stage (operation context : dict) : res BoundPhase :=
  let* known := in_set (get operation "opcode") STAGE_OPCODES in
  check error_if "StageExecutionError" (negb known) "stage operation is unsupported" ;;
  check error_if "StageExecutionError" (negb (keys_cover context _ENGINE_IDENTITY_FIELDS))
          "stage execution context omits engine identity" ;;
  let* _ := stage_context context in
  Ok (MkBound operation context (bound_fields _ENGINE_IDENTITY_FIELDS context)).
Definition execute_stage (B : Backend W) (a : BoundPhase) (phase : string) (ctx : dict) : st W dict :=
  if String.eqb phase "stage" then
    do slift (fun _ => error_if "StageExecutionError" (drifted (identity a) ctx) "stage engine context identity mismatch") ;;
    execute_verified_stage (operation a) (context a)
  else delegate B "StageExecutionError" phase ctx.

(** ** Validation *)
Definition VALIDATION_REQUIRED_CONTEXT : list string := ["backend"; "target"; "operation_id"; "fencing_token"; "binding"].
Definition VALIDATION_IDENTITY_FIELDS : list string := ["backend"; "target"; "operation_id"; "fencing_token"].
(** The retained admission: [Some] of its [revalidate], [None] for an object of
    another class. *)
Definition Admission : Type := option (st W unit).
Definition require_admission (a : Admission) : res (st W unit) :=
  match a with
  | Some m => Ok m
  | None => Raise (ClassError "ValidationExecutionError" "runtime admission is not retained")
  end.
Definition require_validate (operation : dict) : res unit :=
  error_if "ValidationExecutionError" (negb (opcode_is operation ["runtime.validate"])) "validate operation is unsupported".
Definition require_validation_context (context : dict) : res unit :=
  error_if "ValidationExecutionError" (negb (keys_cover context VALIDATION_REQUIRED_CONTEXT))
    "validate execution context is incomplete".
Definition execute_verified_validation (admission : Admission) (operation context : dict) : st W dict :=
  do* revalidate := slift (fun _ => require_admission admission) in
  do slift (fun _ => require_validate operation) ;;
  do slift (fun _ => require_validation_context context) ;;
  do slift (fun _ =>
       let* known := in_set (get context "backend") ["git"; "sqlite"] in
       check error_if "ValidationExecutionError" (negb known || ne (get context "target") (VStr "new"))
               "validate execution identity is invalid" ;;
       error_if "ValidationExecutionError" (negb (is_dict (get context "binding"))) "validate authority binding is invalid") ;;
  do rethrow revalidate (fun _ => ClassError "ValidationExecutionError" "runtime readiness revalidation failed") ;;
  sret [("operation_id", get operation "operation_id"); ("opcode", VStr "runtime.validate"); ("outcome", VStr "completed");
        ("backend", get context "backend"); ("runtime_validated", VBool true); ("backend_roundtrip_valid", VBool true);
        ("projections_valid", VBool true); ("binding_valid", VBool true); ("backend_identity_verified", VBool true);
        ("mutates_authority", VBool false); ("fencing_token", get context "fencing_token")].
Definition bind_validation (admission : Admission) (operation context : dict) : res BoundPhase :=
  let* _ := require_admission admission in
  check require_validate operation ;;
  check require_validation_context context ;;
  Ok (MkBound operation context (bound_fields VALIDATION_IDENTITY_FIELDS context)).
Definition execute_validation (B : Backend W) (admission : Admission) (a : BoundPhase) (phase : string) (ctx : dict) : st W dict :=
  if String.eqb phase "validate" then
    do slift (fun _ => error_if "ValidationExecutionError" (drifted (identity a) ctx)
                         "validate engine context identity mismatch") ;;
    execute_verified_validation admission (operation a) (context a)
  else delegate B "ValidationExecutionError" phase ctx.

(** ** Receipts of effects *)
Record MutationReceipt : Type := MkReceipt {
  r_backend : string; r_target : string; r_operation_id : string; r_state_revision : Z; r_barrier_id : string;
  r_artifact_identity : string; r_manifest_identity : string; r_selector_identity : string;
  r_runtime_identity : string; r_fencing_token : string; r_mutates_authority : bool }.
(** [getattr(receipt, field, None)] of the fields an adapter compares *)
Definition receipt_fields (r : MutationReceipt) : dict :=
  [("backend", VStr (r_backend r)); ("target", VStr (r_target r)); ("operation_id", VStr (r_operation_id r));
   ("state_revision", VInt (r_state_revision r)); ("barrier_id", VStr (r_barrier_id r));
   ("fencing_token", VStr (r_fencing_token r))].
(** What an executor answers: a receipt, or another object *)
Definition Answer : Type := option MutationReceipt.
(** A generated operation: its fields and those of its inputs *)
Definition OPERATION_FIELDS : list string :=
  ["operation_id"; "opcode"; "inputs"; "timeout_seconds"; "resources"; "preconditions"; "postconditions"; "evidence";
   "durable_record"].
(** [f"{operation_id.rsplit(':', 1)[0]}:backup"] *)
Definition backup_operation (operation_id : string) : string := PyPath.rsplit0 ":" operation_id +:+ ":backup".
Definition positive_revision (inputs : dict) : bool := positive (get inputs "expected_state_revision").
Definition inputs_of (operation : dict) : dict := match get operation "inputs" with VDict d => d | _ => [] end.
Definition require_texts (cls subject : string) (fields : list string) (inputs : dict) : res unit :=
  match List.find (fun f => negb (non_empty (get inputs f))) fields with
  | Some f => Raise (ClassError cls (subject +:+ " " +:+ f +:+ " is invalid"))
  | None => Ok tt
  end.
(** The identity a context and a receipt must have, from the operation *)
Definition expected_context (target : string) (selector : bool) (operation : dict) : dict :=
  let inputs := inputs_of operation in
  [("backend", get inputs "backend"); ("target", VStr target)]
  ++ (if selector then [("selector_ref", get inputs "selector_ref")] else [])
  ++ [("operation_id", get operation "operation_id"); ("state_revision", get inputs "expected_state_revision");
      ("durable_barrier_id", get inputs "barrier_id"); ("fencing_token", get inputs "fencing_token")].
Definition expected_receipt (target : string) (operation : dict) : dict :=
  let inputs := inputs_of operation in
  [("backend", get inputs "backend"); ("target", VStr target); ("operation_id", get operation "operation_id");
   ("state_revision", get inputs "expected_state_revision"); ("barrier_id", get inputs "barrier_id");
   ("fencing_token", get inputs "fencing_token")].
Definition receipt_matches (expected : dict) (r : MutationReceipt) : bool :=
  forallb (fun kv => eq (get (receipt_fields r) kv.1) kv.2) expected && r_mutates_authority r.
Definition mismatch (expected context : dict) : option string :=
  fst <$> List.find (fun kv => ne (get context kv.1) kv.2) expected.
Definition bind_context (cls subject : string) (expected context : dict) : res unit :=
  match mismatch expected context with
  | Some f => Raise (ClassError cls (subject +:+ " context identity mismatch: " +:+ f))
  | None => Ok tt
  end.

(** ** Commit *)
Definition COMMIT_INPUT_FIELDS : list string :=
  ["backend"; "selector_ref"; "expected_state_revision"; "barrier_id"; "fencing_token"; "backup_operation_id"].
Definition _validate_inputs (operation_id : string) (inputs : value) : res unit :=
  match inputs with
  | VDict d =>
      check error_if "CommitDispatchError" (negb (keys_are d COMMIT_INPUT_FIELDS))
              "commit operation inputs are incomplete or unknown" ;;
      let* known := in_set (get d "backend") ["git"; "sqlite"] in
      check error_if "CommitDispatchError" (negb known) "commit operation backend is invalid" ;;
      check error_if "CommitDispatchError" (ne (get d "backup_operation_id") (VStr (backup_operation operation_id)))
              "commit operation backup identity is invalid" ;;
      check error_if "CommitDispatchError" (negb (positive_revision d)) "commit operation state revision is invalid" ;;
      require_texts "CommitDispatchError" "commit operation" ["selector_ref"; "barrier_id"; "fencing_token"] d
  | _ => Raise (ClassError "CommitDispatchError" "commit operation inputs are incomplete or unknown")
  end.
Definition validate_commit (operation : dict) : res dict :=
  check error_if "CommitDispatchError" (negb (keys_are operation OPERATION_FIELDS))
          "commit operation fields are incomplete or unknown" ;;
  check error_if "CommitDispatchError" (negb (opcode_is operation ["authority.atomic_replace"]))
          "commit operation opcode is unsupported" ;;
  check error_if "CommitDispatchError" (negb (non_empty (get operation "operation_id")))
          "commit operation identity is invalid" ;;
  check _validate_inputs (str (get operation "operation_id")) (get operation "inputs") ;;
  Ok operation.
Definition _receipt_result (operation : dict) (answer : Answer) : res dict :=
  match answer with
  | None => Raise (ClassError "CommitDispatchError" "commit effect receipt is invalid")
  | Some r =>
      check error_if "CommitDispatchError" (negb (receipt_matches (expected_receipt "new" operation) r))
              "commit effect receipt identity is invalid" ;;
      Ok [("operation_id", get operation "operation_id"); ("opcode", get operation "opcode"); ("outcome", VStr "completed");
          ("backend", VStr (r_backend r)); ("authority_effect_verified", VBool true);
          ("backend_identity_verified", VBool true); ("mutates_authority", VBool true);
          ("fencing_token", VStr (r_fencing_token r))]
  end.
(** A capability: its operation, its context and its executor, [None] for an
    object that is no durable capability *)
Record Capability : Type := MkCapability { c_operation : dict; c_context : dict; c_executor : st W Answer }.
Definition require_executor (cls subject : string) (executor : option (st W Answer)) : res (st W Answer) :=
  match executor with
  | Some m => Ok m
  | None => Raise (ClassError cls (subject +:+ " executor is not a durable capability"))
  end.
Definition bind_commit (operation context : dict) (executor : option (st W Answer)) : res Capability :=
  let* validated := validate_commit operation in
  check bind_context "CommitDispatchError" "commit" (expected_context "new" false validated) context ;;
  let* m := require_executor "CommitDispatchError" "commit" executor in
  Ok (MkCapability validated context m).
Definition COMMIT_IDENTITY_FIELDS : list string :=
  ["backend"; "target"; "operation_id"; "state_revision"; "durable_barrier_id"; "fencing_token"].
(** The flag [_consumed] is part of the state. *)
Definition lift_world {A} (m : st W A) : st (bool * W) A := fun '(c, w) => let '(w', r) := m w in ((c, w'), r).
Definition consume {A} (cls msg : string) (ready : res unit) (effect : st W A) : st (bool * W) A := fun '(consumed, w) =>
  if consumed then ((consumed, w), Raise (ClassError cls msg))
  else match ready with
       | Raise e => ((consumed, w), Raise e)
       | Ok _ => lift_world effect (true, w)
       end.
Definition execute_commit (a : Capability) (phase : string) (ctx : dict) : st (bool * W) dict :=
  do* answer := consume "CommitDispatchError" "commit adapter capability already consumed"
    (check error_if "CommitDispatchError" (negb (String.eqb phase "commit")) "commit adapter phase is unsupported" ;;
     match first_differing COMMIT_IDENTITY_FIELDS (c_context a) ctx with
     | Some f => Raise (ClassError "CommitDispatchError" ("commit context identity drifted: " +:+ f))
     | None => Ok tt
     end) (c_executor a) in
  slift (fun _ => _receipt_result (c_operation a) answer).

(** ** Rollback *)
Definition ROLLBACK_INPUT_FIELDS : list string :=
  ["backend"; "target"; "selector_ref"; "expected_state_revision"; "barrier_id"; "fencing_token"; "backup_operation_id"].
Definition valid_selector (v : value) : bool :=
  UpgradeIdentity.matching (fun s => UpgradeIdentity.selector_matches s && String.eqb (PyPath.normpath s) s) v.
Definition validate_rollback (operation : dict) : res dict :=
  check error_if "RollbackDispatchError" (negb (keys_are operation OPERATION_FIELDS))
          "rollback operation fields are incomplete or unknown" ;;
  check error_if "RollbackDispatchError" (negb (opcode_is operation ["backend.restore"]))
          "rollback operation opcode is unsupported" ;;
  check error_if "RollbackDispatchError" (negb (non_empty (get operation "operation_id")))
          "rollback operation identity is invalid" ;;
  match get operation "inputs" with
  | VDict d =>
      check error_if "RollbackDispatchError" (negb (keys_are d ROLLBACK_INPUT_FIELDS))
              "rollback operation inputs are incomplete or unknown" ;;
      let* known := in_set (get d "backend") ["git"; "sqlite"] in
      check error_if "RollbackDispatchError" (negb known || ne (get d "target") (VStr "rollback"))
              "rollback operation target or backend is invalid" ;;
      check error_if "RollbackDispatchError" (negb (valid_selector (get d "selector_ref")))
              "rollback operation selector reference is invalid" ;;
      check error_if "RollbackDispatchError"
              (ne (get d "backup_operation_id") (VStr (backup_operation (str (get operation "operation_id")))))
              "rollback operation backup identity is invalid" ;;
      check error_if "RollbackDispatchError" (negb (positive_revision d)) "rollback operation state revision is invalid" ;;
      check require_texts "RollbackDispatchError" "rollback operation" ["barrier_id"; "fencing_token"] d ;;
      Ok operation
  | _ => Raise (ClassError "RollbackDispatchError" "rollback operation inputs are incomplete or unknown")
  end.
Definition bind_rollback (operation context : dict) (executor : option (st W Answer)) : res Capability :=
  let* validated := validate_rollback operation in
  check bind_context "RollbackDispatchError" "rollback" (expected_context "rollback" true validated) context ;;
  let* m := require_executor "RollbackDispatchError" "rollback" executor in
  Ok (MkCapability validated context m).
Definition ROLLBACK_IDENTITY_FIELDS : list string :=
  ["backend"; "target"; "selector_ref"; "operation_id"; "state_revision"; "durable_barrier_id"; "fencing_token"].
Definition rollback_result (operation ctx : dict) (answer : Answer) : res dict :=
  match answer with
  | None => Raise (ClassError "RollbackDispatchError" "rollback effect receipt is invalid")
  | Some r =>
      check error_if "RollbackDispatchError" (negb (receipt_matches (expected_receipt "rollback" operation) r))
              "rollback effect receipt identity is invalid" ;;
      Ok (update ctx
            [("operation_id", get operation "operation_id"); ("phase", VStr "rollback");
             ("opcode", get operation "opcode"); ("outcome", VStr "completed");
             ("authority_effect_verified", VBool true); ("backend_identity_verified", VBool true);
             ("mutates_authority", VBool true); ("restored_verified", VBool true); ("runtime_validated", VBool true);
             ("backend_roundtrip_valid", VBool true); ("fencing_token", VStr (r_fencing_token r))])
  end.
Definition execute_rollback (a : Capability) (ctx : dict) : st (bool * W) dict :=
  do* answer := consume "RollbackDispatchError" "rollback adapter capability already consumed"
    match first_differing ROLLBACK_IDENTITY_FIELDS (c_context a) ctx with
    | Some f => Raise (ClassError "RollbackDispatchError" ("rollback context identity drifted: " +:+ f))
    | None => Ok tt
    end (c_executor a) in
  slift (fun _ => rollback_result (c_operation a) ctx answer).

(** ** Admission of a commit *)
Definition REQUIRED_EVIDENCE_FIELDS : list string :=
  ["backend"; "target"; "operation_id"; "fencing_token"; "state_revision"; "barrier_id"; "backup_verified";
   "restore_roundtrip_verified"; "staged_verified"; "manifest_verified"; "selector_admission_verified";
   "runtime_replacement_admission_verified"; "backend_identity_verified"; "mutates_authority"].
Definition REQUIRED_TRUE : list string :=
  ["backup_verified"; "restore_roundtrip_verified"; "staged_verified"; "manifest_verified";
   "selector_admission_verified"; "runtime_replacement_admission_verified"; "backend_identity_verified"].
Definition IDENTITY_TEXTS : list string :=
  ["artifact_identity"; "manifest_identity"; "selector_identity"; "runtime_identity"].
Definition refuse (c : bool) (msg : string) : res unit := error_if "CommitAuthorizationExecutionError" c msg.
Definition _validate_evidence (evidence : dict) : res unit :=
  check refuse (negb (keys_cover evidence REQUIRED_EVIDENCE_FIELDS)) "commit authorization evidence is incomplete" ;;
  check refuse (negb (one_of ["git"; "sqlite"] (get evidence "backend"))) "commit authorization identity is invalid" ;;
  check refuse (negb (one_of ["new"] (get evidence "target"))) "commit authorization identity is invalid" ;;
  check require_texts "CommitAuthorizationExecutionError" "commit authorization"
          ["operation_id"; "fencing_token"; "barrier_id"] evidence ;;
  check refuse (negb (positive (get evidence "state_revision"))) "commit authorization revision is invalid" ;;
  check refuse (existsb (fun f => negb (is_True (get evidence f))) REQUIRED_TRUE)
          "commit authorization prerequisite is unverified" ;;
  refuse (negb (bool_decide (get evidence "mutates_authority" = VBool false))) "commit authorization evidence is mutating".
Record CommitAdmissionBundle : Type := MkBundle {
  a_backend : string; a_target : string; a_operation_id : string; a_fencing_token : string; a_state_revision : Z;
  a_barrier_id : string; a_artifact_identity : string; a_manifest_identity : string; a_selector_identity : string;
  a_runtime_identity : string }.
Definition bundle_fields (b : CommitAdmissionBundle) : dict :=
  [("backend", VStr (a_backend b)); ("target", VStr (a_target b)); ("operation_id", VStr (a_operation_id b));
   ("fencing_token", VStr (a_fencing_token b)); ("state_revision", VInt (a_state_revision b));
   ("barrier_id", VStr (a_barrier_id b)); ("artifact_identity", VStr (a_artifact_identity b));
   ("manifest_identity", VStr (a_manifest_identity b)); ("selector_identity", VStr (a_selector_identity b));
   ("runtime_identity", VStr (a_runtime_identity b))].
(** [__post_init__] *)
Definition check_bundle (b : CommitAdmissionBundle) : res CommitAdmissionBundle :=
  check refuse (negb (PyStr.mem (a_backend b) ["git"; "sqlite"])) "commit authorization identity is invalid" ;;
  check refuse (negb (PyStr.mem (a_target b) UpgradeIdentity.TARGETS)) "commit authorization identity is invalid" ;;
  check require_texts "CommitAuthorizationExecutionError" "commit authorization"
          ["operation_id"; "fencing_token"; "barrier_id"] (bundle_fields b) ;;
  check refuse (a_state_revision b <? 1) "commit authorization revision is invalid" ;;
  check require_texts "CommitAuthorizationExecutionError" "commit authorization" IDENTITY_TEXTS (bundle_fields b) ;;
  Ok b.
Definition from_evidence (evidence : dict) : res CommitAdmissionBundle :=
  check _validate_evidence evidence ;;
  check require_texts "CommitAuthorizationExecutionError" "commit authorization" IDENTITY_TEXTS evidence ;;
  let text f := str (get evidence f) in
  check_bundle (MkBundle (text "backend") (text "target") (text "operation_id") (text "fencing_token")
    (match get evidence "state_revision" with VInt z => z | _ => 0 end) (text "barrier_id") (text "artifact_identity")
    (text "manifest_identity") (text "selector_identity") (text "runtime_identity")).
Definition matches (b : CommitAdmissionBundle) (evidence : dict) : bool :=
  forallb (fun kv => eq (get evidence kv.1) kv.2) (bundle_fields b).
Definition execute_verified_commit_authorization (operation evidence : dict) : res dict :=
  check refuse (negb (opcode_is operation ["authority.commit.admit"])) "commit authorization operation is unsupported" ;;
  check _validate_evidence evidence ;;
  Ok [("outcome", VStr "completed"); ("commit_prerequisites_verified", VBool true); ("commit_authorized", VBool false);
      ("mutates_authority", VBool false); ("backend_identity_verified", VBool true);
      ("fencing_token", get evidence "fencing_token")].
Definition bind_authorization (operation evidence : dict) : res (CommitAdmissionBundle * dict * dict) :=
  check refuse (negb (opcode_is operation ["authority.commit.admit"])) "commit authorization operation is unsupported" ;;
  check _validate_evidence evidence ;;
  let* bundle := from_evidence evidence in
  Ok (bundle, operation, evidence).
Definition execute_authorization (a : CommitAdmissionBundle * dict * dict) (phase : string) (evidence : dict) : res dict :=
  let '(bundle, operation, bound) := a in
  check refuse (negb (String.eqb phase "commit_admission")) "commit authorization phase is unsupported" ;;
  check refuse (negb (matches bundle evidence)) "commit authorization identity mismatch" ;;
  execute_verified_commit_authorization operation bound.

(** ** Single-use effects *)
Definition receipt_of (b : CommitAdmissionBundle) : MutationReceipt :=
  MkReceipt (a_backend b) (a_target b) (a_operation_id b) (a_state_revision b) (a_barrier_id b) (a_artifact_identity b)
    (a_manifest_identity b) (a_selector_identity b) (a_runtime_identity b) (a_fencing_token b) true.
Definition ambiguous (msg : string) : exn := ClassError "AuthorityMutationAmbiguousError" msg.
(** [_result_identity_matches]; the result is given by its fields. *)
Definition result_matches (b : CommitAdmissionBundle) (result : dict) : bool :=
  matches b result && is_True (get result "mutates_authority").
(** [BoundAuthorityMutation.execute] *)
Definition REJECTED : list string :=
  ["AuthorityMutationRejectedError"; "GitMutationRejectedError"; "SQLiteMutationRejectedError"].
Definition is_rejection (e : exn) : bool := match e with ClassError c _ => PyStr.mem c REJECTED | _ => false end.
Definition execute_bound (b : CommitAdmissionBundle) (backend : string) (effect : st W dict) : st (bool * W) MutationReceipt :=
  do* result := consume "AuthorityMutationError" "authority mutation capability already consumed"
    (error_if "AuthorityMutationError" (negb (String.eqb backend (a_backend b)))
       "authority mutation backend identity mismatch")
    (rethrow effect (fun e => if is_rejection e then e
                              else ambiguous "authority mutation outcome is ambiguous; recovery is required")) in
  if result_matches b result then sret (receipt_of b)
  else sraise (ambiguous "authority mutation result identity mismatch; recovery is required").

(** The durable journal of an effect: an intent is prepared before it and
    finished after it. *)
Class EffectJournal (W I : Type) : Type := {
  prepare_authority_effect : Z -> CommitAdmissionBundle -> st W (option I);
  finish_authority_effect : I -> string -> option MutationReceipt -> st W unit;
}.
Context {I : Type} `{J : EffectJournal W I}.
Definition CONTROL_ERRORS : list string := ["ControlStoreError"; "RecoveryRejectedError"].
Definition preparation_failure (e : exn) : exn :=
  match e with
  | ClassError c _ => if PyStr.mem c CONTROL_ERRORS then e
                      else ambiguous "authority mutation journal preparation is ambiguous"
  | _ => ambiguous "authority mutation journal preparation is ambiguous"
  end.
(** [DurableBoundAuthorityMutation] *)
Definition bind_durable (b : CommitAdmissionBundle) (session_revision : Z) : res unit :=
  check error_if "AuthorityMutationError" (session_revision <? 1) "authority mutation session revision is invalid" ;;
  error_if "AuthorityMutationError" (negb (a_state_revision b =? session_revision))
    "authority mutation admission/session revision mismatch".
Definition _prepare (b : CommitAdmissionBundle) (session_revision : Z) : st W I :=
  do* intent := rethrow (prepare_authority_effect session_revision b) preparation_failure in
  match intent with
  | Some i => sret i
  | None => sraise (ambiguous "authority mutation journal preparation returned no intent")
  end.
(** [except ...: finish; raise] *)
Definition publish_failure (intent : I) (e : exn) : st W MutationReceipt :=
  let '(outcome, msg) :=
    if is_rejection e then ("rejected", "authority mutation rejection publication is ambiguous")
    else ("ambiguous", "authority mutation recovery journal is ambiguous") in
  do rethrow (finish_authority_effect intent outcome None) (fun _ => ambiguous msg) ;;
  sraise e.
Definition execute_durable (b : CommitAdmissionBundle) (session_revision : Z) (effect : st W dict) :
    st (bool * W) MutationReceipt := fun '(consumed, w) =>
  match _prepare b session_revision w with
  | (w1, Raise e) => ((consumed, w1), Raise e)
  | (w1, Ok intent) =>
      match execute_bound b (a_backend b) effect (consumed, w1) with
      | (s, Raise e) => lift_world (publish_failure intent e) s
      | (s, Ok receipt) =>
          lift_world (do rethrow (finish_authority_effect intent "committed" (Some receipt))
                           (fun _ => ambiguous "authority mutation outcome publication is ambiguous") ;;
                      sret receipt) s
      end
  end.
(** [DurableBoundBackendMutation] *)
Definition bind_backend (b : CommitAdmissionBundle) (session_revision : Z) : res unit := bind_durable b session_revision.
Definition execute_backend {A} (b : CommitAdmissionBundle) (session_revision : Z) (backend_effect : A -> st W dict)
    (argument : A) : st (bool * W) MutationReceipt :=
  execute_durable b session_revision (backend_effect argument).

(** ** What an effect's answer means *)
Lemma rethrow_Ok {A} (m : st W A) f w w' a : rethrow m f w = (w', Ok a) -> m w = (w', Ok a).
Proof. unfold rethrow. by destruct (m w) as [w1 [x|e]]. Qed.
Lemma rethrow_Raise {A} (m : st W A) f w w' e : rethrow m f w = (w', Raise e) -> exists e', m w = (w', Raise e') /\ e = f e'.
Proof. unfold rethrow. destruct (m w) as [w1 [x|e']]; [done|]. intros [= <- <-]. by exists e'. Qed.
Lemma ambiguous_no_rejection m : is_rejection (ambiguous m) = false.
Proof. done. Qed.
Lemma preparation_no_rejection e : is_rejection (preparation_failure e) = false.
Proof.
  unfold preparation_failure. destruct e; try done. destruct (PyStr.mem cls CONTROL_ERRORS) eqn:E; [|done].
  apply PyStr.mem_spec in E. unfold CONTROL_ERRORS in E. by repeat (apply elem_of_cons in E as [->|E]; [done|]); apply elem_of_nil in E.
Qed.
(** What the journal learns of an effect *)
Definition outcome_of (b : CommitAdmissionBundle) (r : res dict) : string * option MutationReceipt :=
  match r with
  | Ok d => if result_matches b d then ("committed", Some (receipt_of b)) else ("ambiguous", None)
  | Raise e => if is_rejection e then ("rejected", None) else ("ambiguous", None)
  end.
Record ran (b : CommitAdmissionBundle) (z : Z) (effect : st W dict) (w w2 : W) (intent : I) (answer : res dict) : Prop := Ran {
  ran_before : W;
  ran_prepared : prepare_authority_effect z b w = (ran_before, Ok (Some intent));
  ran_effect : effect ran_before = (w2, answer);
}.
Lemma execute_durable_inv b z effect w s r :
  execute_durable b z effect (false, w) = (s, r) ->
  (exists e, r = Raise e /\ is_rejection e = false /\ s.1 = false /\ forall intent w2 answer, ~ ran b z effect w w2 intent answer) \/
  exists intent w2 answer, ran b z effect w w2 intent answer /\ s.1 = true /\
    match finish_authority_effect intent (outcome_of b answer).1 (outcome_of b answer).2 w2 with
    | (w', Ok _) => s.2 = w' /\
        match answer with
        | Ok d => if result_matches b d then r = Ok (receipt_of b) else exists m, r = Raise (ambiguous m)
        | Raise e => if is_rejection e then r = Raise e else exists m, r = Raise (ambiguous m)
        end
    | (w', Raise _) => s.2 = w' /\ exists m, r = Raise (ambiguous m)
    end.
Proof.
  unfold execute_durable, _prepare, sbind. destruct (rethrow _ preparation_failure w) as [w1 [[intent|]|e]] eqn:Ep.
  2: { intros [= <- <-]. left. eexists. split_and!; [done..|]. apply rethrow_Ok in Ep. intros intent w2 answer [w0 H _]. congruence. }
  2: { intros [= <- <-]. left. exists e. apply rethrow_Raise in Ep as (e' & Ep & ->). split_and!; try done;
         [apply preparation_no_rejection|]. intros intent w2 answer [w0 H _]. congruence. }
  apply rethrow_Ok in Ep. cbn -[rethrow publish_failure execute_bound]. unfold execute_bound, consume, sbind.
  unfold error_if. rewrite String.eqb_refl. cbn [negb raise_if lift_world]. unfold rethrow at 1.
  destruct (effect w1) as [w2 answer] eqn:Ee. intros E. right. exists intent, w2, answer. split; [by esplit|].
  unfold outcome_of. destruct answer as [d|e].
  - destruct (result_matches b d); cbn [sret sraise fst snd] in *; unfold publish_failure, rethrow, sbind, lift_world in E;
      rewrite ?ambiguous_no_rejection in E; cbn in E;
      destruct (finish_authority_effect intent _ _ w2) as [w3 [[]|x]]; injection E as <- <-; cbn; eauto.
  - destruct (is_rejection e) eqn:Er; unfold publish_failure, rethrow, sbind, lift_world in E;
      rewrite ?ambiguous_no_rejection, ?Er in E; cbn in E;
      destruct (finish_authority_effect intent _ _ w2) as [w3 [[]|x]]; injection E as <- <-; cbn; eauto.
Qed.

(** What a refused execution leaves: an intent it prepared is finished as
    ambiguous, and nothing else is done. *)
Definition journal_only (b : CommitAdmissionBundle) (z : Z) (w : W) : W :=
  match prepare_authority_effect z b w with
  | (w1, Ok (Some intent)) => fst (finish_authority_effect intent "ambiguous" None w1)
  | (w1, _) => w1
  end.
Lemma execute_consumed b z effect w : exists e, execute_durable b z effect (true, w) = ((true, journal_only b z w), Raise e).
Proof.
  unfold execute_durable, _prepare, journal_only, sbind, rethrow.
  destruct (prepare_authority_effect z b w) as [w1 [[intent|]|e]]; cbn -[finish_authority_effect]; [|eauto..].
  unfold sbind, rethrow. destruct (finish_authority_effect intent "ambiguous" None w1) as [w2 [[]|x]]; eauto.
Qed.

(** C23: A durable single-use effect answers only what it knows: it succeeds only
    when the effect ran after its intent was prepared, its result carries the
    whole identity of the admission and the journal recorded the commit; it is
    rejected only when the effect itself rejected and the journal recorded that;
    otherwise, once the effect has run, its outcome is ambiguous.  And it runs at
    most once: the capability is consumed exactly when the effect ran, and every
    later execution of a consumed capability, of whatever effect, raises with
    nothing done but the journal's record of an ambiguous attempt, and leaves the
    capability consumed. *)
Theorem effect_answers_what_it_knows b z effect w c w' r :
  execute_durable b z effect (false, w) = ((c, w'), r) ->
  (forall receipt, r = Ok receipt -> receipt = receipt_of b /\ exists intent w2 result,
     ran b z effect w w2 intent (Ok result) /\ result_matches b result = true /\
     finish_authority_effect intent "committed" (Some receipt) w2 = (w', Ok tt)) /\
  (forall e, r = Raise e -> is_rejection e = true -> exists intent w2,
     ran b z effect w w2 intent (Raise e) /\ finish_authority_effect intent "rejected" None w2 = (w', Ok tt)) /\
  (forall e, r = Raise e -> is_rejection e = false -> (exists m, e = ambiguous m) \/ c = false) /\
  (c = true <-> exists intent w2 answer, ran b z effect w w2 intent answer) /\
  (c = true -> forall z' other w1, exists e,
     execute_durable b z' other (c, w1) = ((true, journal_only b z' w1), Raise e)).
Proof.
  intros E. split_and!.
  5: { intros ->. intros. apply execute_consumed. }
  all: apply execute_durable_inv in E as [(e & -> & He & Hc & Hno) | (intent & w2 & answer & Hran & Hc & E)].
  all: cbn [fst] in Hc; subst c.
  all: try solve [intros ? [=] | intros ? [= <-]; congruence || auto].
  all: try solve [split; [by intros [=] | intros (? & ? & ? & H); by apply Hno in H] | split; eauto].
  all: destruct (finish_authority_effect _ _ _ w2) as [w3 [[]|x]] eqn:Ef; destruct E as [Ew E]; cbn in Ew; subst w3.
  all: unfold outcome_of in Ef; destruct answer as [d|e0].
  all: try destruct (result_matches b d) eqn:Em; try destruct (is_rejection e0) eqn:Er; cbn in Ef.
  all: try match type of E with exists _, _ => destruct E as [m E] end; rewrite E; clear E.
  all: intros ? [=]; subst; try done; eauto.
  split; [done|]. by exists intent, w2, d.
Qed.
End adapters.

Module Sample.
(** A journal that logs its entries, and an effect that answers for its bundle *)
#[local] Instance journal : EffectJournal (list string) unit := {|
  prepare_authority_effect z b := fun w => (w ++ ["prepared"], Ok (Some tt));
  finish_authority_effect _ outcome _ := fun w => (w ++ [outcome], Ok tt) |}.
Definition bundle : CommitAdmissionBundle :=
  MkBundle "git" "new" "op-1:commit" "fence-1" 7 "barrier-1" "artifact" "manifest" "selector" "runtime".
Definition effect : st (list string) dict := fun w =>
  (w ++ ["effect"], Ok (bundle_fields bundle ++ [("mutates_authority", VBool true)])).
Lemma runs : execute_durable bundle 7 effect (false, []) =
  ((true, ["prepared"; "effect"; "committed"]), Ok (receipt_of bundle)).
Proof. reflexivity. Qed.
Lemma accepted : check_bundle bundle = Ok bundle.
Proof. reflexivity. Qed.
End Sample.

Lemma effect_answers_what_it_knows_witness :
  receipt_of Sample.bundle = receipt_of Sample.bundle /\ exists intent w2 result,
    ran (J := Sample.journal) Sample.bundle 7 Sample.effect [] w2 intent (Ok result) /\
    result_matches Sample.bundle result = true /\
    @finish_authority_effect _ _ Sample.journal intent "committed" (Some (receipt_of Sample.bundle)) w2
      = (["prepared"; "effect"; "committed"], Ok tt).
Proof.
  destruct (effect_answers_what_it_knows (J := Sample.journal) Sample.bundle 7 Sample.effect [] true
    ["prepared"; "effect"; "committed"] (Ok (receipt_of Sample.bundle)) Sample.runs) as [H _].
  by apply H.
Defined.
End PhaseAdapters.
