(* ===== verification/UpgradeEngine.v ===== *)
(** * The upgrade engine ([upgrade_engine.py])

    An upgrade runs eight phases in order and writes its journal before and
    after each of them.  The state of the model is the history of events - what
    was written to the journal file and what was called - and a world of any
    type, which the backend, the phase adapters and the handlers change.  The
    journal file holds what was written last; its text is the JSON of that
    value, so only the order of keys is lost, which nothing reads.  An
    interruption at any point leaves a prefix of the history. *)
From S2P Require Import Prelude PyStr PyVal UpgradeIdentity PhaseAdapters.

Module UpgradeEngine.
Import Py.
Export PhaseAdapters(Backend).
Definition PHASES : list string :=
  ["discover"; "preflight"; "quiesce"; "backup"; "stage"; "commit"; "validate"; "reopen"].
Definition JOURNAL_SCHEMA_VERSION : Z := 3.
(** 128 less the longest suffix [.phase] *)
Definition MAX_OPERATION_ID_LENGTH : Z := 118.
Definition REQUIRED_EVIDENCE (phase : string) : list string :=
  match phase with
  | "discover" => ["release_authentic"; "runtime_supported"; "backend_identity_verified"]
  | "preflight" => ["preflight_admitted"; "capacity_verified"; "backend_identity_verified"]
  | "quiesce" => ["barrier_acquired"; "workers_drained"; "leases_fenced"; "fencing_verified"]
  | "backup" => ["backup_verified"; "restore_roundtrip_verified"; "backend_identity_verified"]
  | "stage" => ["staged_verified"; "manifest_verified"; "backend_identity_verified"]
  | "commit" => ["quiesced"; "backup_verified"; "selector_verified"; "selector_commit_atomic"; "fencing_verified";
                 "selector_before_verified"; "selector_after_verified"]
  | "validate" => ["runtime_validated"; "backend_roundtrip_valid"; "projections_valid"; "binding_valid"]
  | "reopen" => ["validated"; "barrier_held"]
  | _ => []
  end.
Definition ROLLBACK_RESULT_FIELDS : list string :=
  ["restored_verified"; "runtime_validated"; "backend_roundtrip_valid"; "backend"; "fencing_token"].
Definition ROLLBACK_EVIDENCE : list string := ["restored_verified"; "runtime_validated"; "backend_roundtrip_valid"].
Definition PHASE_MUTATION (phase : string) : bool := String.eqb phase "commit".
Definition STATUSES : list string := ["planned"; "running"; "failed"; "completed"; "rolled-back"; "safe-mode"].
Definition TOP_LEVEL_FIELDS : list string := ["schema_version"; "operation_id"; "status"; "phase"; "context"; "records"].
Definition RECORD_FIELDS : list string := ["operation_id"; "step_id"; "phase"; "outcome"; "result"; "error"; "context"].
Definition CONTEXT_FIELDS : list string := UpgradeIdentity.ENVELOPE_FIELDS.
Definition _COMMIT_PHASE_EVIDENCE_FIELDS : list string :=
  REQUIRED_EVIDENCE "commit" ++ ["admitted_snapshot"; "current_snapshot"].
Definition is_True := UpgradeIdentity.is_True.
Definition upgrade_error {A} (msg : string) : res A := Raise (ClassError "UpgradeError" msg).
Definition stop_if (c : bool) (msg : string) : res unit := raise_if c (ClassError "UpgradeError" msg).
(** [type(error).__name__] *)
Definition exn_name (e : exn) : string :=
  match e with
  | RuntimeError _ => "RuntimeError" | ValueError _ => "ValueError" | GateError _ => "GateError"
  | PolicyError _ => "PolicyError" | IdempotentMutationError _ => "IdempotentMutationError" | TypeError _ => "TypeError"
  | KeyError _ => "KeyError" | IndexError _ => "IndexError" | AttributeError _ => "AttributeError"
  | OverflowError _ => "OverflowError" | ReceiptConflictError _ => "ReceiptConflictError"
  | SubprocessTimeoutError _ => "SubprocessTimeoutError" | IntegrityError _ => "IntegrityError" | OSError _ => "OSError"
  | ClassError cls _ => cls
  end.
(** [except (AuthorityMutationAmbiguousError, CommitDispatchError)] *)
Definition AMBIGUOUS : list string :=
  ["AuthorityMutationAmbiguousError"; "GitMutationAmbiguousError"; "SQLiteMutationAmbiguousError"; "CommitDispatchError"].
Definition is_ambiguity (e : exn) : bool := match e with ClassError c _ => PyStr.mem c AMBIGUOUS | _ => false end.
(** [except (AuthorityMutationRejectedError, ControlStoreError,
    RollbackDispatchError)]: [ControlStoreAmbiguousError] derives from
    [ControlStoreError]. *)
Definition ROLLBACK_REJECTIONS : list string :=
  PhaseAdapters.REJECTED ++ ["ControlStoreError"; "ControlStoreAmbiguousError"; "RecoveryRejectedError"; "RollbackDispatchError"].
Definition is_rollback_rejection (e : exn) : bool :=
  match e with ClassError c _ => PyStr.mem c ROLLBACK_REJECTIONS | _ => false end.

(** ** Context *)
Definition _validate_context_identities (supplied : dict) : res unit :=
  check match UpgradeIdentity.validate_envelope supplied with
        | Raise e => if UpgradeIdentity.is_IdentityError e then upgrade_error "invalid phase context identity envelope"
                     else Raise e
        | Ok _ => Ok tt
        end ;;
  stop_if (MAX_OPERATION_ID_LENGTH <? PyStr.len (str (get supplied "operation_id"))) "invalid operation_id".
Definition _validate_context (supplied : dict) (operation_id : string) : res unit :=
  check stop_if (negb (keys_are supplied CONTEXT_FIELDS) || ne (get supplied "operation_id") (VStr operation_id))
          "complete bound phase context is required" ;;
  _validate_context_identities supplied.
(** The fields a rollback context shares with its engine's *)
Definition SHARED_FIELDS : list string :=
  List.filter (fun f => negb (PyStr.mem f ["target"; "barrier_identity_digest"; "envelope_digest"])) CONTEXT_FIELDS.
Definition rollback_mismatch (context rollback : dict) : res unit :=
  match List.find (fun f => ne (get rollback f) (get context f)) SHARED_FIELDS with
  | Some f => upgrade_error ("rollback context mismatch: " +:+ f)
  | None => Ok tt
  end.
(** [not isinstance(durable, Mapping) or any(durable.get(f) != context[f] ...)] *)
Definition not_durable (durable : value) (context : dict) : bool :=
  match durable with
  | VDict d => existsb (fun f => ne (get d f) (get context f)) CONTEXT_FIELDS
  | _ => true
  end.
(** [{key: value for key in fields if fields hold True}] *)
Definition all_true (d : dict) (fields : list string) : bool := forallb (fun f => is_True (get d f)) fields.
Definition verified_evidence (v : value) : bool := match v with VDict d => all_true d ROLLBACK_EVIDENCE | _ => false end.

(** ** Admission of a phase *)
(** [result.get(key, result)] *)
Definition nested (result : dict) (key msg : string) : res dict :=
  match dget result key with
  | None => Ok result
  | Some (VDict d) => Ok d
  | Some _ => upgrade_error msg
  end.
Definition _admit (phase : string) (result : dict) : res unit :=
  if String.eqb phase "preflight" then
    let* s := nested result "preflight_snapshot" "preflight admission snapshot is absent" in
    UpgradeIdentity.admit_preflight s
  else if String.eqb phase "quiesce" then
    let* s := nested result "quiescence_snapshot" "quiescence admission snapshot is absent" in
    UpgradeIdentity.admit_quiesced s
  else if String.eqb phase "commit" then
    let* admitted := nested result "admitted_snapshot" "replacement admission snapshots are absent" in
    let* current := nested result "current_snapshot" "replacement admission snapshots are absent" in
    UpgradeIdentity.recheck_before_replacement admitted current
  else if String.eqb phase "reopen" then
    let* s := nested result "reopen_snapshot" "reopen admission snapshot is absent" in
    UpgradeIdentity.admit_reopen s
  else Ok tt.
Definition _bind_snapshot (context : dict) (snapshot : value) : res unit :=
  foldM (fun _ f => let* v := vget snapshot f in
                    stop_if (ne v (get context f)) ("admission snapshot identity mismatch: " +:+ f)) tt CONTEXT_FIELDS.
(** The rollback child of the engine's context *)
Definition _rollback_context (context : dict) : res dict :=
  let c := dset context "target" (VStr "rollback") in
  let* barrier := UpgradeIdentity.canonical_barrier_digest c in
  let c := dset c "barrier_identity_digest" (VStr barrier) in
  let* envelope := UpgradeIdentity.canonical_envelope_digest c in
  Ok (dset c "envelope_digest" (VStr envelope)).

(** ** History *)
Inductive event : Type :=
  | Found (v : value)                       (** the file as it was found *)
  | Wrote (v : dict)                        (** the file replaced *)
  | Called (method phase : string).
Fixpoint journal_of (t : list event) : option value :=
  match t with
  | [] => None
  | e :: t' => match journal_of t' with
               | Some v => Some v
               | None => match e with Found v => Some v | Wrote d => Some (VDict d) | Called _ _ => None end
               end
  end.
Record State (W : Type) : Type := MkState { events : list event; world : W }.
Arguments MkState {W}. Arguments events {W}. Arguments world {W}.
(** What becomes of a write: replaced and synced, not replaced (and the
    temporary file removed or not), or replaced but the directory not synced *)
Inductive written : Type := Written | NotReplaced (cleaned : bool) | NotSynced.

(** A bound capability that verifies a rollback context *)
Record RollbackCapability (W : Type) : Type := MkCapability {
  bound_identity : dict; backend_kind : option string; expected_branch : option string; expected_head : option string;
  verify_bound : dict -> st W value;
  (** [preflight_git] of the backend, when it is the verifier: head and branch *)
  preflight_git : option (dict -> st W (string * string));
}.
Arguments MkCapability {W}. Arguments bound_identity {W}. Arguments backend_kind {W}. Arguments expected_branch {W}.
Arguments expected_head {W}. Arguments verify_bound {W}. Arguments preflight_git {W}.
Definition _BOUND_CAPABILITY_IDENTITY_FIELDS : list string := SHARED_FIELDS.

(** One engine object with its surroundings *)
Record Engine (W : Type) : Type := MkEngine {
  backend_adapter : option (Backend W);
  (** the adapters bound to backup, stage, commit and validate *)
  phase_adapter : string -> option (string -> dict -> st W dict);
  (** the operation and the evidence a bound commit was given *)
  commit_bound : option (string * dict);
  rollback_bound_verifier : option (RollbackCapability W);
  rollback_phase_adapter : bool;
  exclusive : res unit;                     (** acquiring the locks *)
  disk : list event -> written;
}.
Arguments MkEngine {W}. Arguments backend_adapter {W}. Arguments phase_adapter {W}. Arguments commit_bound {W}.
Arguments rollback_bound_verifier {W}. Arguments rollback_phase_adapter {W}. Arguments exclusive {W}. Arguments disk {W}.
Definition Handler (W : Type) : Type := string -> dict -> st W value.

Section engine.
  Context {W : Type} (operation_id : string) (context : dict) (E : Engine W).

Definition call {A} (method phase : string) (m : st W A) : st (State W) A := fun s =>
  let '(w, r) := m (world s) in (MkState (events s ++ [Called method phase]) w, r).
Definition _write (v : dict) : st (State W) unit := fun s =>
  match disk E (events s) with
  | Written => (MkState (events s ++ [Wrote v]) (world s), Ok tt)
  | NotSynced => (MkState (events s ++ [Wrote v]) (world s), upgrade_error "durable upgrade journal write failed")
  | NotReplaced true => (s, upgrade_error "durable upgrade journal write failed")
  | NotReplaced false => (s, upgrade_error "durable upgrade journal cleanup failed")
  end.
(** [except Exception as error: raise UpgradeError(msg) from error] *)
Definition wrapped {S A} (m : st S A) (msg : string) : st S A := fun s =>
  match m s with (s', Raise _) => (s', upgrade_error msg) | r => r end.
(** An operation under the locks *)
Definition locked {A} (m : st (State W) A) : st (State W) A := fun s =>
  match exclusive E with Raise e => (s, Raise e) | Ok _ => m s end.

(** ** [check] and [plan] *)
Definition check_engine : dict :=
  [("operation_id", VStr operation_id); ("phases", strs PHASES); ("checked", VBool true)].
Definition planned : dict :=
  [("schema_version", VInt JOURNAL_SCHEMA_VERSION); ("operation_id", VStr operation_id); ("status", VStr "planned");
   ("phase", VNull); ("context", VDict context); ("records", VList [])].
Definition plan : st (State W) dict :=
  locked (fun s => match journal_of (events s) with
                   | Some _ => (s, upgrade_error "operation already planned")
                   | None => (do _write planned ;; sret planned) s
                   end).

(** ** Reading the journal *)
Definition STARTED_FIELDS : list string := ["operation_id"; "step_id"; "phase"; "outcome"; "context"].
(** The exact fields of a record, by its outcome *)
Definition rollback_fields (outcome : string) : list string :=
  match outcome with
  | "started" => STARTED_FIELDS
  | "ambiguous" => STARTED_FIELDS ++ ["error"]
  | _ => STARTED_FIELDS ++ ["result"]
  end.
Definition phase_fields (outcome : string) : list string :=
  match outcome with
  | "started" => STARTED_FIELDS
  | "success" => STARTED_FIELDS ++ ["result"]
  | _ => STARTED_FIELDS ++ ["error"]
  end.
Definition ROLLBACK_OUTCOMES : list string := ["started"; "rollback_verified"; "rollback_completed"; "ambiguous"].
Definition PHASE_OUTCOMES : list string := ["started"; "success"; "failed"; "ambiguous"].
Definition identity_differs (r : dict) (step : string) : bool :=
  ne (get r "operation_id") (VStr operation_id) || ne (get r "step_id") (VStr (operation_id +:+ "." +:+ step)).
Definition require_outcome (r : dict) (outcomes : list string) (msg : string) : res string :=
  let* known := in_set (get r "outcome") outcomes in
  check stop_if (negb known) msg ;;
  Ok (str (get r "outcome")).
(** [verifier(context)], of a backend that has one *)
Definition verify_authority (c : dict) : st (State W) value :=
  wrapped match backend_adapter E with
          | Some b => match PhaseAdapters.verify_rollback_context b with
                      | Some m => call "verify_rollback_context" "rollback" (m c)
                      | None => sret VNull
                      end
          | None => sret VNull
          end "rollback authority verification failed".
Definition require_verified (c : dict) : st (State W) dict :=
  do* durable := verify_authority c in
  slift (fun _ => check stop_if (not_durable durable c) "rollback context is not verified by authority" ;; mapping durable).
Definition load_rollback (r : dict) : st (State W) unit :=
  do* outcome := slift (fun _ =>
    check stop_if (identity_differs r "rollback") "upgrade journal rollback identity is invalid" ;;
    require_outcome r ROLLBACK_OUTCOMES "upgrade journal rollback outcome is invalid") in
  do* c := slift (fun _ => match get r "context" with
                           | VDict c =>
                               check _validate_context c operation_id ;;
                               check stop_if (ne (get c "target") (VStr "rollback")) "rollback context target is invalid" ;;
                               check rollback_mismatch context c ;;
                               Ok c
                           | _ => upgrade_error "verified rollback context is required"
                           end) in
  do require_verified c ;;
  slift (fun _ =>
    check stop_if (negb (keys_within r RECORD_FIELDS)) "upgrade journal rollback context is invalid" ;;
    check stop_if (negb (keys_are r (rollback_fields outcome))) "rollback record fields are invalid" ;;
    check stop_if (PyStr.mem outcome ["rollback_verified"; "rollback_completed"] && negb (is_dict (get r "result")))
            "verified rollback lacks result evidence" ;;
    stop_if (String.eqb outcome "ambiguous" && negb (is_str (get r "error"))) "ambiguous rollback lacks error evidence").
Definition load_phase (r : dict) (phase : value) (expected : nat) : res string :=
  check stop_if (match nth_error PHASES expected with
                 | Some p => ne phase (VStr p) || identity_differs r p
                 | None => true
                 end) "upgrade journal phase identity is invalid" ;;
  check stop_if (128 <? PyStr.len (str (get r "step_id"))) "upgrade journal step identity is invalid" ;;
  let* outcome := require_outcome r PHASE_OUTCOMES "upgrade journal outcome is invalid" in
  check stop_if (negb (keys_within r RECORD_FIELDS) || ne (get r "context") (VDict context))
          "upgrade journal record fields are invalid" ;;
  check stop_if (negb (keys_are r (phase_fields outcome))) "phase outcome fields are invalid" ;;
  check stop_if (String.eqb outcome "success" && negb (is_dict (get r "result")))
          "successful phase lacks result evidence" ;;
  check stop_if (PyStr.mem outcome ["failed"; "ambiguous"] && negb (is_str (get r "error")))
          "failed phase lacks error evidence" ;;
  Ok outcome.
(** The loop over the records, with the outcomes of the phases so far *)
Fixpoint load_records (l : list value) (outcomes : list string) (rollback_seen : bool) : st (State W) (list string) :=
  match l with
  | [] => sret outcomes
  | VDict r :: l' =>
      let phase := get r "phase" in
      if is_s phase "rollback" then
        do slift (fun _ => stop_if rollback_seen "duplicate rollback record") ;;
        do load_rollback r ;;
        load_records l' outcomes true
      else if is_null phase then sraise (ClassError "UpgradeError" "upgrade journal record phase is missing")
      else
        do slift (fun _ => stop_if rollback_seen "phase follows rollback record") ;;
        do* outcome := slift (fun _ => load_phase r phase (length outcomes)) in
        load_records l' (outcomes ++ [outcome]) rollback_seen
  | _ :: _ => sraise (ClassError "UpgradeError" "upgrade journal record is invalid")
  end.
Definition dict_of (v : value) : dict := match v with VDict d => d | _ => [] end.
Definition records_of (v : dict) : list dict := match get v "records" with VList l => map dict_of l | _ => [] end.
Definition is_rollback (r : dict) : bool := is_s (get r "phase") "rollback".
Definition with_outcome (outcome : string) (l : list dict) : list dict :=
  List.filter (fun r => is_rollback r && is_s (get r "outcome") outcome) l.
Definition result_invalid (r : dict) : bool :=
  match get r "result" with
  | VDict d =>
      negb (keys_are d ROLLBACK_RESULT_FIELDS) || negb (all_true d ROLLBACK_EVIDENCE)
      || ne (get d "backend") (get context "backend")
      || ne (get d "fencing_token") (get (dict_of (get r "context")) "fencing_token")
  | _ => true
  end.
(** The status against the records *)
Definition require_status (v : dict) (status : string) (outcomes : list string) : res unit :=
  let records := records_of v in
  let status_is s := String.eqb status s in
  let last_outcome := default "" (last outcomes) in
  let completed := with_outcome "rollback_completed" records in
  let verified := with_outcome "rollback_verified" records in
  check stop_if (status_is "planned" && match records with [] => false | _ => true end) "planned journal contains records" ;;
  check stop_if (status_is "planned" && negb (is_null (get v "phase"))) "planned journal has an active phase" ;;
  check stop_if (status_is "running" && negb (PyStr.mem last_outcome ["started"; "success"]))
          "running journal is not recoverable" ;;
  check stop_if (status_is "running" && ne (get v "phase") (VStr (nth (length outcomes - 1) PHASES "")))
          "running journal phase is inconsistent" ;;
  check stop_if (PyStr.mem status ["failed"; "safe-mode"] && match outcomes with [] => true | _ => false end)
          "failed journal has no failed phase" ;;
  check stop_if (existsb result_invalid (verified ++ completed)) "rollback result schema is invalid" ;;
  check stop_if (status_is "completed" && (negb (bool_decide (outcomes = repeat "success" (length PHASES)))
                                    || existsb is_rollback records)) "completed journal is incomplete" ;;
  check stop_if (PyStr.mem status ["failed"; "safe-mode"] && match completed with [] => false | _ => true end)
          "failed journal has rollback completion" ;;
  check stop_if (status_is "safe-mode" && match verified with [] => false | _ => true end)
          "safe-mode journal cannot discard verified rollback recovery" ;;
  stop_if (status_is "rolled-back" && match completed with [r] => negb (verified_evidence (get r "result")) | _ => true end)
    "rolled-back journal lacks rollback completion".
(** A completed rollback is validated again. *)
Definition revalidate_completed (v : dict) : st (State W) unit :=
  match with_outcome "rollback_completed" (records_of v) with
  | r :: _ =>
      match match backend_adapter E with Some b => PhaseAdapters.revalidate_rollback b | None => None end with
      | None => sraise (ClassError "UpgradeError" "rollback revalidation is unavailable")
      | Some m =>
          do* evidence := wrapped (call "revalidate_rollback" "rollback" (m (dict_of (get r "context")) (dict_of (get r "result"))))
                            "rollback revalidation failed" in
          slift (fun _ => stop_if (negb (verified_evidence evidence)) "rollback runtime is not revalidated")
      end
  | [] => sret tt
  end.
Definition require_header (j : value) : res dict :=
  check stop_if (match j with VDict v => is_z (get v "schema_version") 2 | _ => false end)
          "upgrade journal schema v2 requires recovery with its originating runtime" ;;
  match j with
  | VDict v =>
      check raise_when (py_or [ne (get v "schema_version") (VInt JOURNAL_SCHEMA_VERSION); negb (keys_are v TOP_LEVEL_FIELDS);
                               ne (get v "operation_id") (VStr operation_id); py_not (in_set (get v "status") STATUSES)])
              (ClassError "UpgradeError" "upgrade journal identity or records are invalid") ;;
      check stop_if (negb match get v "context" with VDict c => eq (VDict c) (VDict context) | _ => false end)
              "upgrade journal context is invalid or changed" ;;
      check stop_if (negb (is_list (get v "records"))) "upgrade journal records are invalid" ;;
      Ok v
  | _ => no_attr j "get"
  end.
Definition _load : st (State W) dict := fun s =>
  match journal_of (events s) with
  | None => (s, upgrade_error "upgrade journal is unreadable")
  | Some j =>
      (do* v := slift (fun _ => require_header j) in
       do* outcomes := load_records (match get v "records" with VList l => l | _ => [] end) [] false in
       let status := str (get v "status") in
       do slift (fun _ => require_status v status outcomes) ;;
       do (if String.eqb status "rolled-back" then revalidate_completed v else sret tt) ;;
       do slift (fun _ => stop_if (String.eqb status "rolled-back" && ne (get v "phase") (VStr "rollback"))
                            "rolled-back journal phase is inconsistent") ;;
       sret v) s
  end.

(** ** [apply] *)
Definition step_id (phase : string) : string := operation_id +:+ "." +:+ phase.
Definition started (phase : string) (c : dict) : dict :=
  [("operation_id", VStr operation_id); ("step_id", VStr (step_id phase)); ("phase", VStr phase);
   ("outcome", VStr "started"); ("context", VDict c)].
Definition add_record (v r : dict) : dict := dset v "records" (VList (map VDict (records_of v ++ [r]))).
(** The record in progress is the last one. *)
Definition with_last (f : dict -> dict) (v : dict) : dict :=
  match last (records_of v) with
  | Some r => dset v "records" (VList (map VDict (removelast (records_of v) ++ [f r])))
  | None => v
  end.
Definition begin_phase (phase : string) (v : dict) : dict :=
  dset (dset (add_record v (started phase context)) "status" (VStr "running")) "phase" (VStr phase).
Definition close_record (outcome error status : string) (v : dict) : dict :=
  dset (with_last (fun r => dset (dset r "outcome" (VStr outcome)) "error" (VStr error)) v) "status" (VStr status).
Definition succeed_record (result : dict) (v : dict) : dict :=
  with_last (fun r => dset (dset r "outcome" (VStr "success")) "result" (VDict result)) v.
(** Recording a failure and raising *)
Definition fail_with {A} (v : dict) (outcome error status msg : string) : st (State W) A :=
  do _write (close_record outcome error status v) ;;
  sraise (ClassError "UpgradeError" msg).
(** [try: ... except Exception as error]: what a computation ended in *)
Definition attempt {S A} (m : st S A) : st S (res A) := fun s => let '(s', r) := m s in (s', Ok r).
(** A handler may add to a result, and not change it. *)
Definition overridden (result extra : dict) : bool :=
  existsb (fun kv => has extra kv.1 && ne kv.2 (get extra kv.1)) result.
Definition handled (h : Handler W) (phase : string) (v : dict) : st (State W) dict :=
  do* extra := call "handle" phase (h (step_id phase) v) in
  slift (fun _ => if truthy extra then mapping extra else Ok []).
Definition dispatch_context (phase : string) : dict :=
  match commit_bound E with
  | Some (op, _) => if String.eqb phase "commit" then dset context "operation_id" (VStr op) else context
  | None => context
  end.
Definition execute_phase (b : Backend W) (phase : string) : st (State W) value :=
  match phase_adapter E phase with
  | Some m => call "execute" phase (do* d := m phase (dispatch_context phase) in sret (VDict d))
  | None => call "execute" phase (PhaseAdapters.execute b phase (dispatch_context phase))
  end.
Definition refresh (b : Backend W) (phase : string) : st (State W) unit :=
  match PhaseAdapters.refresh_after_commit b with
  | Some m => if String.eqb phase "commit"
              then fun s => match call "refresh_after_commit" phase m s with
                            | (s', Raise _) => (s', Raise (ClassError "CommitDispatchError" "post-commit identity refresh is ambiguous"))
                            | r => r
                            end
              else sret tt
  | None => sret tt
  end.
Definition add_evidence (phase : string) (result : dict) : dict :=
  match commit_bound E with
  | Some (_, evidence) => if String.eqb phase "commit" then update result evidence else result
  | None => result
  end.
(** The body of the [try] *)
Definition perform (b : Backend W) (h : Handler W) (phase : string) (v : dict) : st (State W) dict :=
  do* snapshot := call "snapshot" phase (PhaseAdapters.snapshot b phase context) in
  do slift (fun _ => check _bind_snapshot context snapshot ;; let* d := mapping snapshot in _admit phase d) ;;
  do* answer := execute_phase b phase in
  do refresh b phase ;;
  do* result := slift (fun _ => let* d := mapping answer in Ok (add_evidence phase d)) in
  do* extra := handled h phase v in
  do slift (fun _ => stop_if (overridden result extra) "handler cannot override backend evidence") ;;
  do _load ;;
  sret (update result extra).
Definition evidence_missing (phase : string) (result : dict) : bool :=
  negb (all_true result (REQUIRED_EVIDENCE phase))
  || negb (bool_decide (get result "mutates_authority" = VBool (PHASE_MUTATION phase))).
Definition FENCED_PHASES : list string := ["quiesce"; "backup"; "stage"; "commit"; "validate"; "reopen"].
(** What follows the [try] *)
Definition conclude (phase : string) (result v : dict) : st (State W) dict :=
  if evidence_missing phase result then
    fail_with v "failed" "required evidence missing" "failed" ("phase evidence incomplete: " +:+ phase)
  else if ne (get result "backend") (get context "backend") then
    fail_with v "failed" "backend identity mismatch" "failed" ("phase backend mismatch: " +:+ phase)
  else match _admit phase result with
       | Raise e => fail_with v "failed" (exn_name e) "failed" ("phase admission denied: " +:+ phase)
       | Ok _ =>
           if PyStr.mem phase FENCED_PHASES && ne (get result "fencing_token") (get context "fencing_token") then
             fail_with v "failed" "fencing token mismatch" "failed" ("phase fencing mismatch: " +:+ phase)
           else if is_True (get result "ambiguous") then
             fail_with v "ambiguous" "external outcome is ambiguous" "safe-mode" ("phase outcome is ambiguous: " +:+ phase)
           else
             let v := succeed_record result v in
             do _write v ;; sret v
       end.
Definition run_phase (b : Backend W) (h : Handler W) (phase : string) (v : dict) : st (State W) dict :=
  let v := begin_phase phase v in
  do _write v ;;
  do* outcome := attempt (perform b h phase v) in
  match outcome with
  | Raise e => if is_ambiguity e
               then fail_with v "ambiguous" (exn_name e) "safe-mode" ("phase outcome is ambiguous: " +:+ phase)
               else fail_with v "failed" (exn_name e) "failed" ("phase failed: " +:+ phase)
  | Ok result => conclude phase result v
  end.
Definition completed (v : dict) : list string :=
  flat_map (fun r => if is_s (get r "outcome") "success" && has r "phase" then [str (get r "phase")] else []) (records_of v).
Fixpoint run_phases (b : Backend W) (handlers : string -> option (Handler W)) (phases : list string) (done_ : list string)
    (v : dict) : st (State W) dict :=
  match phases with
  | [] => sret v
  | phase :: phases' =>
      if PyStr.mem phase done_ then run_phases b handlers phases' done_ v
      else match handlers phase with
           | None => sraise (ClassError "UpgradeError" ("missing phase handler: " +:+ phase))
           | Some h => do* v := run_phase b h phase v in run_phases b handlers phases' done_ v
           end
  end.
(** The phases recorded, in order *)
Definition recorded_phases (v : dict) : list string :=
  flat_map (fun r => if has r "phase" then [str (get r "phase")] else []) (records_of v).
Definition out_of_order (v : dict) : bool :=
  let l := recorded_phases v in
  negb (bool_decide (l = PyStr.dedup l)) || negb (bool_decide (l = take (length l) PHASES)).
Definition last_started (v : dict) : bool :=
  match last (records_of v) with Some r => is_s (get r "outcome") "started" | None => false end.
Definition _apply_locked (handlers : string -> option (Handler W)) : st (State W) dict :=
  do* v := _load in
  if is_s (get v "status") "completed" then sret v
  else if in_tuple (get v "status") ["failed"; "safe-mode"; "rolled-back"] then
    sraise (ClassError "UpgradeError" "journal requires explicit recovery before apply")
  else match backend_adapter E with
       | None => sraise (ClassError "UpgradeError" "backend adapter is required for authoritative upgrade")
       | Some b =>
           do slift (fun _ => stop_if (out_of_order v) "upgrade journal phase ordering is invalid") ;;
           do slift (fun _ => stop_if (is_s (get v "status") "running" && last_started v)
                                "started phase requires explicit recovery") ;;
           do* v := run_phases b handlers PHASES (completed v) v in
           let v := dset v "status" (VStr "completed") in
           do _write v ;; sret v
       end.
Definition apply (handlers : string -> option (Handler W)) : st (State W) dict := locked (_apply_locked handlers).

(** ** Rollback *)
Definition bound_matches (c : RollbackCapability W) (ctx : dict) : bool :=
  forallb (fun f => eq (get (bound_identity c) f) (get ctx f)) _BOUND_CAPABILITY_IDENTITY_FIELDS.
Definition concrete_backend (c : RollbackCapability W) : bool :=
  match backend_kind c with Some k => PyStr.mem k ["git"; "sqlite"] | None => false end.
(** [BoundRollbackCapability.verify]: what it answers never authorizes. *)
Definition verify_capability (c : RollbackCapability W) (ctx : dict) : st (State W) dict :=
  do slift (fun _ =>
    check stop_if (negb (keys_are ctx CONTEXT_FIELDS)) "bound rollback capability context is incomplete" ;;
    check (if concrete_backend c then
             match UpgradeIdentity.validate_envelope ctx with
             | Raise e => if UpgradeIdentity.is_IdentityError e
                          then upgrade_error "bound rollback capability context identity is invalid" else Raise e
             | Ok _ => Ok tt
             end
           else Ok tt) ;;
    check stop_if (negb (bound_matches c ctx)) "bound rollback capability context identity mismatch" ;;
    stop_if (concrete_backend c && match expected_branch c, expected_head c with
                                   | Some _, Some _ | None, None => false
                                   | _, _ => true
                                   end) "Git rollback identity binding is incomplete") ;;
  do* result := call "verify_rollback_context_bound" "rollback" (verify_bound c ctx) in
  slift (fun _ => match result with
                  | VDict d => Ok (dset d "rollback_context_verified" (VBool false))
                  | _ => upgrade_error "bound rollback verifier result is invalid"
                  end).
(** The context the backend verified *)
Definition rollback_snapshot (b : Backend W) : st (State W) value :=
  if PhaseAdapters.requires_bound_rollback b then
    match rollback_bound_verifier E with
    | None => sraise (ClassError "UpgradeError" "rollback requires a trusted bound backend capability")
    | Some c =>
        do* ctx := slift (fun _ => _rollback_context context) in
        wrapped (do* d := verify_capability c ctx in sret (VDict d)) "trusted bound rollback verification failed"
    end
  else call "snapshot" "rollback" (PhaseAdapters.snapshot b "rollback" context).
Definition supplied_context (s : value) : res dict :=
  let* v := vget s "rollback_context_verified" in
  check stop_if (negb (is_True v)) "backend did not verify rollback context" ;;
  let supplied := map (fun f => (f, get (dict_of s) f)) CONTEXT_FIELDS in
  check _validate_context supplied operation_id ;;
  check stop_if (ne (get supplied "target") (VStr "rollback")) "rollback context target is invalid" ;;
  check rollback_mismatch context supplied ;;
  Ok supplied.
Definition set_outcome (outcome : string) (v : dict) : dict := with_last (fun r => dset r "outcome" (VStr outcome)) v.
Definition require_revalidation (evidence : value) (result : dict) : res unit :=
  match evidence with
  | VDict d => stop_if (existsb (fun f => ne (get d f) (get result f)) ROLLBACK_RESULT_FIELDS)
                 "rollback runtime revalidation changed"
  | _ => upgrade_error "rollback runtime revalidation is invalid"
  end.
Definition require_release (v : value) (status msg : string) : res unit :=
  stop_if (negb match v with VDict d => is_s (get d "status") status | _ => false end) msg.
(** The release of the barrier: held, releasing, released *)
Definition release (verify begin_release complete_release : dict -> st W value) (revalidate : dict -> dict -> st W value)
    (ctx result : dict) : st (State W) unit :=
  do* durable := call "verify_rollback_context" "rollback" (verify ctx) in
  do slift (fun _ => stop_if (not_durable durable ctx) "rollback release identity changed") ;;
  let status := get (dict_of durable) "status" in
  do (if is_s status "held" then
        do* d := call "begin_release_rollback_context" "rollback" (begin_release ctx) in
        slift (fun _ => require_release d "releasing" "rollback barrier did not enter releasing")
      else slift (fun _ => let* known := in_set status ["releasing"; "released"] in
                           stop_if (negb known) "rollback barrier state is not recoverable")) ;;
  do* evidence := call "revalidate_rollback" "rollback" (revalidate ctx result) in
  do slift (fun _ => require_revalidation evidence result) ;;
  do (if is_s status "released" then sret tt else
        do* d := call "complete_release_rollback_context" "rollback" (complete_release ctx) in
        slift (fun _ => require_release d "released" "rollback barrier was not durably released")) ;;
  do* evidence := call "revalidate_rollback" "rollback" (revalidate ctx result) in
  slift (fun _ => require_revalidation evidence result).
Definition complete_record (v : dict) : dict :=
  dset (dset (set_outcome "rollback_completed" v) "status" (VStr "rolled-back")) "phase" (VStr "rollback").
Definition _finish_verified_rollback (ctx v result : dict) : st (State W) dict :=
  match backend_adapter E with
  | None => sraise (ClassError "UpgradeError" "verified rollback recovery context is unavailable")
  | Some b =>
      match PhaseAdapters.verify_rollback_context b, PhaseAdapters.begin_release_rollback_context b,
            PhaseAdapters.complete_release_rollback_context b, PhaseAdapters.revalidate_rollback b with
      | Some m1, Some m2, Some m3, Some m4 =>
          do wrapped (release m1 m2 m3 m4 ctx result) "verified rollback release requires reconciliation" ;;
          let v := complete_record v in
          do _write v ;; sret v
      | _, _, _, _ => sraise (ClassError "UpgradeError" "rollback release recovery API is unavailable")
      end
  end.
(** The body of the [try] around the dispatch *)
Definition dispatch_rollback (b : Backend W) (h : Handler W) (ctx v : dict) : st (State W) dict :=
  do* answer := call "execute" "rollback" (PhaseAdapters.execute b "rollback" ctx) in
  do* result := slift (fun _ => let* d := mapping answer in
                                check stop_if (negb (all_true d ROLLBACK_EVIDENCE)) "backend did not verify known-good runtime" ;;
                                Ok d) in
  do* extra := handled h "rollback" v in
  slift (fun _ =>
    check stop_if (overridden result extra) "handler cannot override backend evidence" ;;
    check stop_if (existsb (has extra) ROLLBACK_EVIDENCE) "handler cannot provide backend rollback evidence" ;;
    let all := update result extra in
    check stop_if (negb (keys_cover all ROLLBACK_RESULT_FIELDS)) "backend rollback result identity is incomplete" ;;
    Ok (map (fun f => (f, get all f)) ROLLBACK_RESULT_FIELDS)).
Definition verify_record (result : dict) (v : dict) : dict :=
  with_last (fun r => dset (dset r "outcome" (VStr "rollback_verified")) "result" (VDict result)) v.
Definition new_rollback (b : Backend W) (h : Handler W) (ctx v : dict) : st (State W) dict :=
  let v := add_record v (started "rollback" ctx) in
  do _write v ;;
  do* outcome := attempt (dispatch_rollback b h ctx v) in
  match outcome with
  | Raise e => if is_rollback_rejection e
               then fail_with v "failed" (exn_name e) "failed" "rollback phase rejected"
               else fail_with v "ambiguous" (exn_name e) "safe-mode" "rollback ambiguous; safe mode required"
  | Ok result =>
      let v := verify_record result v in
      do _write v ;;
      _finish_verified_rollback ctx v result
  end.
Definition _rollback_locked (b : Backend W) (h : Handler W) (ctx : dict) : st (State W) dict :=
  do* v := _load in
  do slift (fun _ => stop_if (negb (in_tuple (get v "status") ["failed"; "running"; "safe-mode"]))
                       "rollback requires failed, running, or safe-mode operation") ;;
  match List.find is_rollback (records_of v) with
  | Some r => if is_s (get r "outcome") "rollback_verified"
              then _finish_verified_rollback ctx v (dict_of (get r "result"))
              else sraise (ClassError "UpgradeError" "rollback outcome requires explicit reconciliation")
  | None => new_rollback b h ctx v
  end.
Definition rollback (h : Handler W) : st (State W) dict :=
  locked
    (if rollback_phase_adapter E then sraise (ClassError "UpgradeError" "public rollback dispatch is disabled")
     else match backend_adapter E with
          | None => sraise (ClassError "UpgradeError" "backend adapter is required for rollback")
          | Some b =>
              do* s := rollback_snapshot b in
              do* ctx := slift (fun _ => supplied_context s) in
              do require_verified ctx ;;
              _rollback_locked b h ctx
          end).
(** [inspect_rollback_bound]: evidence only *)
Definition inspect_rollback_bound : st (State W) dict :=
  locked
    match backend_adapter E with
    | None => sraise (ClassError "UpgradeError" "backend adapter is required for rollback inspection")
    | Some b =>
        if negb (PhaseAdapters.requires_bound_rollback b)
        then sraise (ClassError "UpgradeError" "rollback inspection requires a bound backend capability")
        else match rollback_bound_verifier E with
        | None => sraise (ClassError "UpgradeError" "rollback inspection requires a trusted bound capability")
        | Some c =>
            do* ctx := slift (fun _ => _rollback_context context) in
            do* result := wrapped
              match preflight_git c, backend_kind c, expected_branch c, expected_head c with
              | Some m, Some "git", Some _, Some _ =>
                  do* session := call "preflight_git" "rollback" (m ctx) in
                  sret (update ctx [("phase", VStr "rollback"); ("backend_identity_verified", VBool true);
                                    ("git_head", VStr (fst session)); ("git_branch", VStr (snd session));
                                    ("git_clean", VBool true); ("mutates_authority", VBool false);
                                    ("rollback_context_verified", VBool false)])
              | _, _, _, _ => verify_capability c ctx
              end "trusted bound rollback inspection failed" in
            slift (fun _ =>
              check stop_if (negb (bool_decide (get result "rollback_context_verified" = VBool false)))
                      "rollback inspection capability is authorizing" ;;
              check stop_if (existsb (fun f => negb (has result f) || PhaseAdapters.differs (get ctx f) (get result f)) CONTEXT_FIELDS
                             || ne (get result "phase") (VStr "rollback")
                             || ne (get result "backend") (get context "backend")
                             || negb (is_True (get result "backend_identity_verified"))
                             || negb (bool_decide (get result "mutates_authority" = VBool false)))
                      "rollback inspection evidence is incomplete or authorizing" ;;
              Ok result)
        end
    end.
End engine.

(** ** Construction *)
(** The arguments of one capability: which were given, and whether its phase
    adapter ([PhaseAdapters]) accepts them *)
Record Group : Type := MkGroup { given : list bool; binding : res unit }.
Definition bind_group (g : Group) (backend : bool) (more : res unit) (together missing invalid : string) : res bool :=
  let n := length (List.filter (fun x => x) (given g)) in
  check stop_if (negb (Nat.eqb n 0 || Nat.eqb n (length (given g)))) together ;;
  if Nat.eqb n 0 then Ok false
  else
    check stop_if (negb backend) missing ;;
    check more ;;
    match binding g with Raise _ => upgrade_error invalid | Ok _ => Ok true end.
Definition commit_arguments (operation_id : string) (operation evidence : dict) : res unit :=
  check stop_if (ne (get operation "operation_id") (VStr (operation_id +:+ ":commit")))
          "commit capability operation identity mismatch" ;;
  check stop_if (negb (keys_are evidence _COMMIT_PHASE_EVIDENCE_FIELDS)) "commit capability evidence is incomplete or unknown" ;;
  check stop_if (negb (all_true evidence (REQUIRED_EVIDENCE "commit"))) "commit capability evidence is not verified" ;;
  stop_if (negb (is_dict (get evidence "admitted_snapshot")) || negb (is_dict (get evidence "current_snapshot")))
    "commit capability admission snapshots are invalid".
(** [PhaseContext] of the supplied context *)
Definition phase_context (supplied : dict) : dict := map (fun f => (f, get supplied f)) CONTEXT_FIELDS.
Record Supplied : Type := MkSupplied {
  rollback_group : Group; backup_group : Group; stage_group : Group; validation_group : Group; commit_group : Group;
  commit_operation : dict; commit_evidence : dict;
}.
Definition admit_commit_evidence (context evidence : dict) : res unit :=
  check _bind_snapshot context (get evidence "admitted_snapshot") ;;
  check _bind_snapshot context (get evidence "current_snapshot") ;;
  match _admit "commit" evidence with
  | Raise _ => upgrade_error "commit capability admission evidence is invalid"
  | Ok _ => Ok tt
  end.
(** [verifier]: whether the bound verifier's backend is the engine's, and its
    identity *)
Definition init (operation_id : string) (supplied : dict) (backend : bool) (s : Supplied)
    (verifier : option (bool * dict)) : res dict :=
  check stop_if (negb (PyStr.truthy operation_id) || PyStr.has_char ":" operation_id) "invalid operation identity" ;;
  let* _ := bind_group (rollback_group s) backend (Ok tt)
    "rollback operation, context, executor, argument, and evidence are required together"
    "rollback capability requires a backend adapter" "rollback capability binding is invalid" in
  let* _ := bind_group (backup_group s) backend (Ok tt) "backup operation and context must be supplied together"
    "backup capability requires a backend adapter" "backup capability binding is invalid" in
  let* _ := bind_group (stage_group s) backend (Ok tt) "stage operation and context must be supplied together"
    "stage capability requires a backend adapter" "stage capability binding is invalid" in
  let* _ := bind_group (validation_group s) backend (Ok tt)
    "validation admission, operation, and context are required together"
    "validation capability requires a backend adapter" "validation capability binding is invalid" in
  let* commit := bind_group (commit_group s) backend (commit_arguments operation_id (commit_operation s) (commit_evidence s))
    "commit operation, context, executor, argument, and evidence are required together"
    "commit capability requires a backend adapter" "commit capability binding is invalid" in
  check _validate_context supplied operation_id ;;
  let context := phase_context supplied in
  check (if commit : bool then admit_commit_evidence context (commit_evidence s) else Ok tt) ;;
  check match verifier with
        | None => Ok tt
        | Some (same, identity) =>
            check stop_if (negb (forallb (fun f => eq (get identity f) (get context f)) _BOUND_CAPABILITY_IDENTITY_FIELDS))
                    "trusted bound rollback capability identity mismatch" ;;
            stop_if (negb same) "trusted bound rollback capability backend mismatch"
        end ;;
  Ok context.
End UpgradeEngine.
