(* ===== verification/EngineLaws.v ===== *)
(** * Theorems about the upgrade engine

    What every history of an upgrade has in common, over any sequence of
    operations, each with a backend, handlers and a disk of its own and each
    interrupted anywhere: phases execute in order, at most once, and only after
    the journal says so. *)
From S2P Require Import Prelude PyStr PyVal UpgradeIdentity PhaseAdapters UpgradeEngine.

Module EngineLaws.
Import Py UpgradeEngine.

(** ** Journals as lists of phases and outcomes *)
Definition entry (r : dict) : string * string := (str (get r "phase"), str (get r "outcome")).
Definition entries (v : dict) : list (string * string) := map entry (records_of v).
Definition status (v : dict) : string := str (get v "status").
Definition set_last {A} (x : A) (l : list A) : list A := match l with [] => [] | _ => removelast l ++ [x] end.

Lemma records_of_set v l : records_of (dset v "records" (VList (map VDict l))) = l.
Proof. unfold records_of. rewrite get_dset. cbn. rewrite map_map. apply map_id. Qed.
Lemma records_of_other v k x : k <> "records" -> records_of (dset v k x) = records_of v.
Proof. intros Hk. unfold records_of. rewrite get_dset. by rewrite (proj2 (String.eqb_neq k "records") Hk). Qed.
Lemma status_set v s : status (dset v "status" (VStr s)) = s.
Proof. unfold status. by rewrite get_dset. Qed.
Lemma status_other v k x : k <> "status" -> status (dset v k x) = status v.
Proof. intros Hk. unfold status. rewrite get_dset. by rewrite (proj2 (String.eqb_neq k "status") Hk). Qed.
Lemma removelast_snoc {A} (l : list A) x : removelast (l ++ [x]) = l.
Proof. apply removelast_last. Qed.
Lemma records_with_last f v l r : records_of v = l ++ [r] -> records_of (with_last f v) = l ++ [f r].
Proof. unfold with_last. intros E. by rewrite E, last_snoc, records_of_set, removelast_snoc. Qed.
Lemma status_with_last f v : status (with_last f v) = status v.
Proof. unfold with_last. destruct (last (records_of v)); [|done]. by apply status_other. Qed.
Lemma records_add v r : records_of (add_record v r) = records_of v ++ [r].
Proof. apply records_of_set. Qed.
Lemma status_add v r : status (add_record v r) = status v.
Proof. by apply status_other. Qed.

(** ** Histories *)
(** The phases executed, in order *)
Definition executed (t : list event) : list string :=
  flat_map (fun e => match e with Called "execute" p => [p] | _ => [] end) t.
Definition succeeded (n : nat) : list (string * string) := map (fun p => (p, "success")) (take n PHASES).
(** The phase in progress: the phases before it have succeeded. *)
Definition in_progress (n : nat) (p : string) (l : list (string * string)) : Prop :=
  nth_error PHASES n = Some p /\ l = succeeded n ++ [(p, "started")].
(** What the phases of a journal look like, with its status *)
Inductive phase_log : list (string * string) -> string -> Prop :=
  | log_idle n : (n <= length PHASES)%nat -> phase_log (succeeded n) (if Nat.eqb n 0 then "planned" else "running")
  | log_done : phase_log (succeeded (length PHASES)) "completed"
  | log_busy n p l : in_progress n p l -> phase_log l "running"
  | log_ended n p o s : nth_error PHASES n = Some p -> o <> "started" -> s ∈ ["failed"; "safe-mode"] ->
      phase_log (succeeded n ++ [(p, o)]) s.
Inductive journal_log : list (string * string) -> string -> Prop :=
  | log_phases l s : phase_log l s -> journal_log l s
  | log_rollback l s o s' : phase_log l s -> s' <> "completed" ->
      journal_log (l ++ [("rollback", o)]) s'.
(** What the engine requires of a phase's result before it records success *)
Record admitted_result (context : dict) (phase : string) (d : dict) : Prop := AdmittedResult {
  ar_evidence : all_true d (REQUIRED_EVIDENCE phase) = true;
  ar_mutation : get d "mutates_authority" = VBool (PHASE_MUTATION phase);
  ar_backend : eq (get d "backend") (get context "backend") = true;
  ar_admitted : _admit phase d = Ok tt;
  ar_fence : PyStr.mem phase FENCED_PHASES = true -> eq (get d "fencing_token") (get context "fencing_token") = true;
}.
Record sound_record (context r : dict) : Prop := SoundRecord {
  sr_phase : exists p, get r "phase" = VStr p /\ has r "phase" = true;
  sr_outcome : exists o, get r "outcome" = VStr o;
  sr_result : get r "outcome" = VStr "success" ->
    exists d, get r "result" = VDict d /\ admitted_result context (str (get r "phase")) d;
}.
Record sound_journal (context v : dict) : Prop := SoundJournal {
  sj_log : journal_log (entries v) (status v);
  sj_status : exists s, get v "status" = VStr s;
  sj_records : Forall (sound_record context) (records_of v);
}.
(** The phase being executed, according to the journal *)
Definition announced (v : dict) (p : string) : Prop :=
  (exists n, in_progress n p (entries v)) \/ (p = "rollback" /\ exists l, entries v = l ++ [("rollback", "started")]).
Inductive history (context : dict) : list event -> Prop :=
  | history_nil : history context []
  | history_call t m p : history context t -> m <> "execute" -> history context (t ++ [Called m p])
  | history_execute t p v : history context t -> journal_of t = Some (VDict v) -> announced v p -> p ∉ executed t ->
      history context (t ++ [Called "execute" p])
  | history_write t v : history context t -> sound_journal context v ->
      executed t `sublist_of` map fst (entries v) -> history context (t ++ [Wrote v]).

Lemma journal_of_snoc t e :
  journal_of (t ++ [e]) = match e with Found v => Some v | Wrote d => Some (VDict d) | Called _ _ => journal_of t end.
Proof.
  induction t as [|x t IH]; [by destruct e|]. cbn [app journal_of]. rewrite IH. by destruct e.
Qed.
Lemma executed_snoc t e : executed (t ++ [e]) = executed t ++ match e with Called "execute" p => [p] | _ => [] end.
Proof. unfold executed. by rewrite flat_map_app; cbn; rewrite app_nil_r. Qed.
Lemma executed_call t m p : m <> "execute" -> executed (t ++ [Called m p]) = executed t.
Proof.
  intros Hm. rewrite executed_snoc. destruct (decide (m = "execute")) as [->|_]; [done|].
  replace (match m with "execute" => [p] | _ => [] end) with (@nil string); [by rewrite app_nil_r|].
  by repeat (case_match; try done).
Qed.
Lemma executed_write t v : executed (t ++ [Wrote v]) = executed t.
Proof. by rewrite executed_snoc, app_nil_r. Qed.
Lemma sublist_unsnoc (l k : list string) x : l `sublist_of` k ++ [x] -> x ∉ l -> l `sublist_of` k.
Proof.
  intros (l1 & l2 & -> & H1 & H2)%sublist_app_r Hx. apply sublist_cons_r in H2 as [H2|(l' & -> & H2)].
  - apply sublist_nil_r in H2 as ->. by rewrite app_nil_r.
  - exfalso. apply Hx. set_solver.
Qed.
(** The journal accounts for what was executed. *)
Lemma history_accounts context t : history context t ->
  match journal_of t with
  | None => executed t = []
  | Some j => exists v, j = VDict v /\ sound_journal context v /\ executed t `sublist_of` map fst (entries v)
  end.
Proof.
  induction 1 as [|t m p _ IH Hm|t p v _ IH Hj Ha Hp|t v _ _ Hs Hc]; [done | | |].
  - by rewrite journal_of_snoc, executed_call.
  - rewrite journal_of_snoc, Hj in *. destruct IH as (v' & [= <-] & Hs & Hc). exists v. split_and!; [done..|].
    rewrite executed_snoc. assert (exists l o, entries v = l ++ [(p, o)]) as (l & o & El).
    { destruct Ha as [(n & _ & ->) | [-> [l ->]]]; by eexists _, _. }
    rewrite El, map_app in *. cbn in *. apply sublist_app; [|done]. by eapply sublist_unsnoc.
  - rewrite journal_of_snoc, executed_write. by exists v.
Qed.

(** ** Computations that keep a history *)
Section safe.
  Context {W : Type} (context : dict).
(** From a history with the journal [j] and the phases [x] executed, whatever is
    done is again a history at every point, and [Q] holds of what is returned,
    of the journal and of the phases executed. *)
Definition safe {A} (j : option value) (x : list string) (m : st (State W) A)
    (Q : res A -> option value -> list string -> Prop) : Prop :=
  forall s s' r, history context (events s) -> journal_of (events s) = j -> executed (events s) = x -> m s = (s', r) ->
    (exists new, events s' = events s ++ new /\ forall t, t `prefix_of` new -> history context (events s ++ t)) /\
    Q r (journal_of (events s')) (executed (events s')).
(** Nothing is written or executed, and [R] holds of what is returned. *)
Definition quiet {A} (R : A -> Prop) (m : st (State W) A) : Prop :=
  forall j x, safe j x m (fun r j' x' => j' = j /\ x' = x /\ forall a, r = Ok a -> R a).

Lemma safe_same {A} j x (m : st (State W) A) Q :
  (forall s, exists r, m s = (s, r) /\ (journal_of (events s) = j -> executed (events s) = x -> Q r j x)) -> safe j x m Q.
Proof.
  intros Hm s s' r Hh Hj Hx E. destruct (Hm s) as (r' & E' & HQ). rewrite E' in E. injection E as <- <-. split.
  - exists []. split; [by rewrite app_nil_r|]. intros t Ht. apply prefix_nil_inv in Ht as ->. by rewrite app_nil_r.
  - rewrite Hj, Hx. by apply HQ.
Qed.
Lemma safe_ret {A} j x (a : A) (Q : res A -> option value -> list string -> Prop) : Q (Ok a) j x -> safe j x (sret a) Q.
Proof. intros HQ. apply safe_same. intros s. by eexists. Qed.
Lemma safe_raise {A} j x e (Q : res A -> option value -> list string -> Prop) : Q (Raise e) j x -> safe j x (sraise e) Q.
Proof. intros HQ. apply safe_same. intros s. by eexists. Qed.
Lemma quiet_lift {A} (f : State W -> res A) (R : A -> Prop) : (forall s a, f s = Ok a -> R a) -> quiet R (slift f).
Proof. intros Hf j x. apply safe_same. intros s. eexists. split; [done|]. intros _ _. split_and!; [done..|]. apply Hf. Qed.
Lemma quiet_ret {A} (R : A -> Prop) (a : A) : R a -> quiet R (sret a).
Proof. intros HR j x. apply safe_ret. split_and!; [done..|]. by intros ? [= <-]. Qed.
Lemma quiet_raise {A} (R : A -> Prop) e : quiet R (sraise e).
Proof. intros j x. by apply safe_raise. Qed.
Lemma safe_bind {A B} j x (m : st (State W) A) (f : A -> st (State W) B) Q R :
  safe j x m Q -> (forall a j' x', Q (Ok a) j' x' -> safe j' x' (f a) R) ->
  (forall e j' x', Q (Raise e) j' x' -> R (Raise e) j' x') -> safe j x (sbind m f) R.
Proof.
  intros Hm Hf He s s' r Hh Hj Hx E. unfold sbind in E. destruct (m s) as [s1 [a|e]] eqn:E1.
  - destruct (Hm _ _ _ Hh Hj Hx E1) as ((n1 & En1 & H1) & HQ).
    destruct (Hf a _ _ HQ s1 s' r) as ((n2 & En2 & H2) & HR); [rewrite En1; by apply H1 | done | done | done|].
    split; [|done]. exists (n1 ++ n2). rewrite En2, En1, app_assoc. split; [done|]. intros t Ht.
    destruct (prefix_weak_total t n1 (n1 ++ n2)) as [Hp|[k ->]]; [done | by apply prefix_app_r | by apply H1|].
    apply prefix_app_inv in Ht. rewrite app_assoc, <- En1. by apply H2.
  - injection E as <- <-. destruct (Hm _ _ _ Hh Hj Hx E1) as (Hn & HQ). split; [done|]. by apply He.
Qed.
Lemma safe_weaken {A} j x (m : st (State W) A) (Q R : res A -> option value -> list string -> Prop) :
  safe j x m Q -> (forall r j' x', Q r j' x' -> R r j' x') -> safe j x m R.
Proof. intros Hm HQ s s' r Hh Hj Hx E. destruct (Hm _ _ _ Hh Hj Hx E) as [Hn H]. split; [done | by apply HQ]. Qed.
Lemma quiet_weaken {A} (P R : A -> Prop) (m : st (State W) A) : quiet P m -> (forall a, P a -> R a) -> quiet R m.
Proof. intros Hm HR j x. eapply safe_weaken; [apply Hm|]. intros r j' x' (-> & -> & H). split_and!; auto. Qed.
Lemma quiet_bind {A B} (P : A -> Prop) (R : B -> Prop) (m : st (State W) A) (f : A -> st (State W) B) :
  quiet P m -> (forall a, P a -> quiet R (f a)) -> quiet R (sbind m f).
Proof.
  intros Hm Hf j x. eapply safe_bind; [apply Hm | |].
  - intros a j' x' (-> & -> & HP). apply Hf. by apply HP.
  - by intros e j' x' (-> & -> & _).
Qed.
(** A quiet computation before another *)
Lemma safe_after {A B} j x (P : A -> Prop) (m : st (State W) A) (f : A -> st (State W) B) Q :
  quiet P m -> (forall a, P a -> safe j x (f a) Q) -> (forall e, Q (Raise e) j x) -> safe j x (sbind m f) Q.
Proof.
  intros Hm Hf He. eapply safe_bind; [apply Hm | |].
  - intros a j' x' (-> & -> & HP). apply Hf. by apply HP.
  - intros e j' x' (-> & -> & _). apply He.
Qed.
Lemma quiet_call {A} method phase (m : st W A) : method <> "execute" -> quiet (fun _ => True) (call method phase m).
Proof.
  intros Hm j x s s' r Hh Hj Hx E. unfold call in E. destruct (m (world s)) as [w a]. injection E as <- <-. cbn.
  rewrite journal_of_snoc, executed_call by done. split; [|by split_and!]. eexists. split; [done|]. intros t Ht.
  destruct t as [|y t]; [by rewrite app_nil_r|]. apply prefix_cons_inv_1 in Ht as Hy. apply prefix_cons_inv_2, prefix_nil_inv in Ht.
  subst. by apply history_call.
Qed.
(** The one call that executes a phase *)
Lemma safe_execute {A} x phase v (m : st W A) (Q : res A -> option value -> list string -> Prop) :
  announced v phase -> phase ∉ x -> (forall r, Q r (Some (VDict v)) (x ++ [phase])) ->
  safe (Some (VDict v)) x (call "execute" phase m) Q.
Proof.
  intros Ha Hp HQ s s' r Hh Hj Hx E. unfold call in E. destruct (m (world s)) as [w a]. injection E as <- <-. cbn.
  rewrite journal_of_snoc, executed_snoc, Hj, Hx. split; [|apply HQ]. eexists. split; [done|]. intros t Ht.
  destruct t as [|y t]; [by rewrite app_nil_r|]. apply prefix_cons_inv_1 in Ht as Hy. apply prefix_cons_inv_2, prefix_nil_inv in Ht.
  subst. by eapply history_execute.
Qed.
Lemma safe_write (E : Engine W) j x v (Q : res unit -> option value -> list string -> Prop) :
  sound_journal context v -> x `sublist_of` map fst (entries v) ->
  Q (Ok tt) (Some (VDict v)) x -> (forall e, Q (Raise e) (Some (VDict v)) x) -> (forall e, Q (Raise e) j x) ->
  safe j x (_write E v) Q.
Proof.
  intros Hs Hc H1 H2 H3 s s' r Hh Hj Hx Ew.
  assert (forall t, t `prefix_of` [Wrote v] -> history context (events s ++ t)) as Hnew.
  { intros t Ht. destruct t as [|y t]; [by rewrite app_nil_r|]. apply prefix_cons_inv_1 in Ht as Hy.
    apply prefix_cons_inv_2, prefix_nil_inv in Ht. subst. by apply history_write. }
  unfold _write in Ew. destruct (disk E (events s)) as [|[]|]; injection Ew as <- <-; cbn;
    rewrite ?journal_of_snoc, ?executed_write, ?Hj, ?Hx.
  1,4: split; [by eexists | first [done | apply H2]].
  all: split; [|apply H3]; exists []; rewrite app_nil_r; split; [done|]; intros t Ht; apply prefix_nil_inv in Ht as ->;
    by rewrite app_nil_r.
Qed.
Lemma safe_attempt {A} j x (m : st (State W) A) (Q : res A -> option value -> list string -> Prop) :
  safe j x m Q -> safe j x (attempt m) (fun r j' x' => exists a, r = Ok a /\ Q a j' x').
Proof.
  intros Hm s s' r Hh Hj Hx E. unfold attempt in E. destruct (m s) as [s1 a] eqn:E1. injection E as <- <-.
  destruct (Hm _ _ _ Hh Hj Hx E1) as [Hn H]. split; [done|]. by exists a.
Qed.
Lemma quiet_wrapped {A} (P : A -> Prop) (m : st (State W) A) msg : quiet P m -> quiet P (wrapped m msg).
Proof.
  intros Hm j x s s' r Hh Hj Hx E. unfold wrapped in E. destruct (m s) as [s1 [a|e]] eqn:E1; injection E as <- <-;
    destruct (Hm j x _ _ _ Hh Hj Hx E1) as [Hn (-> & -> & H)]; by split_and!.
Qed.
End safe.

(** ** The operations keep histories *)
Section operations.
  Context {W : Type} (operation_id : string) (context : dict) (E : Engine W).
  Notation quiet := (quiet context).
  Notation safe := (safe context).
  Notation anything := (fun _ => True).
Lemma quiet_pure {A} (f : State W -> res A) : quiet anything (slift f).
Proof. by apply quiet_lift. Qed.
Hint Resolve quiet_pure quiet_ret quiet_raise : core.

Lemma quiet_verify c : quiet anything (verify_authority E c).
Proof.
  apply quiet_wrapped. destruct (backend_adapter E) as [b|]; [|by apply quiet_ret].
  destruct (PhaseAdapters.verify_rollback_context b); [by apply quiet_call | by apply quiet_ret].
Qed.
Lemma quiet_require_verified c : quiet anything (require_verified E c).
Proof. eapply quiet_bind; [apply quiet_verify | auto]. Qed.
Lemma quiet_load_records l outcomes seen : quiet anything (load_records operation_id context E l outcomes seen).
Proof.
  revert outcomes seen. induction l as [|v l IH]; intros outcomes seen; cbn [load_records]; [by apply quiet_ret|].
  destruct v; auto. destruct (is_s _ _).
  - eapply quiet_bind; [auto|]. intros _ _. eapply quiet_bind; [|by intros _ _; apply IH].
    unfold load_rollback. eapply quiet_bind; [auto|]. intros outcome _. eapply quiet_bind; [auto|]. intros c _.
    eapply quiet_bind; [apply quiet_require_verified | auto].
  - destruct (is_null _); [auto|]. eapply quiet_bind; [auto|]. intros _ _. eapply quiet_bind; [auto|]. intros o _. apply IH.
Qed.
Lemma quiet_revalidate v : quiet anything (revalidate_completed E v).
Proof.
  unfold revalidate_completed. destruct (with_outcome _ _) as [|r l]; [by apply quiet_ret|].
  destruct (match backend_adapter E with Some b => _ | None => _ end); [|auto].
  eapply quiet_bind; [by apply quiet_wrapped, quiet_call | auto].
Qed.
Lemma require_header_dict j v : require_header operation_id context j = Ok v -> j = VDict v.
Proof.
  unfold require_header. intros (u & _ & H)%rbind_Ok_inv. destruct j as [| | | | |d]; try done.
  apply rbind_Ok_inv in H as (u1 & _ & (u2 & _ & (u3 & _ & H)%rbind_Ok_inv)%rbind_Ok_inv). by injection H as ->.
Qed.
(** What [_load] returns is the journal. *)
Lemma load_reads j x : safe j x (_load operation_id context E)
  (fun r j' x' => j' = j /\ x' = x /\ forall v, r = Ok v -> j = Some (VDict v)).
Proof.
  intros s s' r Hh Hj Hx El. unfold _load in El. rewrite Hj in El. destruct j as [j|].
  2: { injection El as <- <-. split; [|done]. exists []. split; [by rewrite app_nil_r|].
       intros t Ht%prefix_nil_inv. subst t. by rewrite app_nil_r. }
  assert (quiet (fun v => j = VDict v)
    (do* v := slift (fun _ => require_header operation_id context j) in
     do* outcomes := load_records operation_id context E (match get v "records" with VList l => l | _ => [] end) [] false in
     let status := str (get v "status") in
     do slift (fun _ => require_status context v status outcomes) ;;
     do (if String.eqb status "rolled-back" then revalidate_completed E v else sret tt) ;;
     do slift (fun _ => stop_if (String.eqb status "rolled-back" && ne (get v "phase") (VStr "rollback"))
                          "rolled-back journal phase is inconsistent") ;;
     sret v)) as Hq.
  { eapply quiet_bind; [apply (quiet_lift _ _ (fun v => j = VDict v)); intros _ v; apply require_header_dict|].
    intros v Hv. eapply quiet_bind; [apply quiet_load_records|]. intros outcomes _. eapply quiet_bind; [apply quiet_pure|].
    intros _ _. eapply quiet_bind; [by case_match; [apply quiet_revalidate | apply quiet_ret]|]. intros _ _.
    eapply quiet_bind; [apply quiet_pure|]. intros _ _. by apply quiet_ret. }
  destruct (Hq _ _ _ _ _ Hh Hj Hx El) as [Hn (-> & -> & H)]. split_and!; [done..|].
  intros v Hv. by rewrite (H v Hv).
Qed.

Lemma perform_safe (b : Backend W) (h : Handler W) p v x :
  announced v p -> p ∉ x ->
  safe (Some (VDict v)) x (perform operation_id context E b h p v)
    (fun r j' x' => j' = Some (VDict v) /\ (x' = x \/ x' = x ++ [p])).
Proof.
  intros Ha Hp. unfold perform.
  eapply safe_after; [by apply quiet_call | intros snap _ | by auto].
  eapply safe_after; [apply quiet_pure | intros _ _ | by auto].
  eapply (safe_bind _ _ _ _ _ (fun r j' x' => j' = Some (VDict v) /\ x' = x ++ [p])).
  { unfold execute_phase. destruct (phase_adapter E p); by apply safe_execute. }
  2: { intros e j' x' [-> ->]. auto. }
  intros answer j' x' [-> ->].
  eapply safe_after with (P := anything); [| intros _ _ | by auto].
  { unfold refresh. destruct (PhaseAdapters.refresh_after_commit b) as [m|]; [|by apply quiet_ret].
    destruct (String.eqb p "commit"); [|by apply quiet_ret]. intros j x0 s s' r Hh Hj Hx Er.
    destruct (call "refresh_after_commit" p m s) as [s1 [u|e]] eqn:E1; injection Er as <- <-;
      destruct (quiet_call context "refresh_after_commit" p m ltac:(done) j x0 _ _ _ Hh Hj Hx E1) as [Hn (-> & -> & _)]; by split_and!. }
  eapply safe_after; [apply quiet_pure | intros result _ | by auto].
  eapply safe_after with (P := anything); [| intros extra _ | by auto].
  { unfold handled. eapply quiet_bind; [by apply quiet_call | auto]. }
  eapply safe_after; [apply quiet_pure | intros _ _ | by auto].
  eapply safe_bind; [apply load_reads | |].
  - intros _ j' x' (-> & -> & _). apply safe_ret. auto.
  - intros e j' x' (-> & -> & _). auto.
Qed.

Lemma nth_error_lookup {A} (l : list A) n : nth_error l n = l !! n.
Proof. revert n. induction l as [|x l IH]; intros [|n]; cbn; [done..|apply IH]. Qed.
Lemma phases_NoDup : NoDup PHASES.
Proof. by apply (bool_decide_unpack _). Qed.
Lemma succeeded_phases n : map fst (succeeded n) = take n PHASES.
Proof. unfold succeeded. rewrite map_map. apply map_id. Qed.
Lemma nth_phase n p : nth_error PHASES n = Some p ->
  take (S n) PHASES = take n PHASES ++ [p] /\ p ∉ take n PHASES /\ p <> "rollback" /\ (n < length PHASES)%nat.
Proof.
  intros Hn. pose proof Hn as Hl. rewrite nth_error_lookup in Hl.
  split_and!; [by apply take_S_r | | | by eapply lookup_lt_Some].
  - pose proof phases_NoDup as Hd. rewrite <- (take_drop_middle _ _ _ Hl) in Hd. apply NoDup_app in Hd as (_ & Hd & _).
    intros Hin. by apply (Hd p Hin), elem_of_cons; left.
  - intros ->. apply list_elem_of_lookup_2 in Hl. by apply (PyStr.mem_spec "rollback" PHASES) in Hl.
Qed.
Lemma succeeded_S n p : nth_error PHASES n = Some p -> succeeded (S n) = succeeded n ++ [(p, "success")].
Proof. intros (E1 & _)%nth_phase. unfold succeeded. by rewrite E1, map_app. Qed.
Lemma entries_begin p v : entries (begin_phase operation_id context p v) = entries v ++ [(p, "started")].
Proof. unfold entries, begin_phase. rewrite !records_of_other, records_add, map_app by done. done. Qed.
Lemma entries_last f v r l : records_of v = l ++ [r] -> entries (with_last f v) = map entry l ++ [entry (f r)].
Proof. intros Er. unfold entries. erewrite records_with_last by done. by rewrite map_app. Qed.
Lemma started_sound p c : sound_record context (started operation_id p c).
Proof. split; [by exists p | by exists "started" | by intros [=]]. Qed.
(** Between two phases *)
Record idle (n : nat) (x : list string) (v : dict) : Prop := Idle {
  idle_sound : sound_journal context v;
  idle_log : entries v = succeeded n;
  idle_executed : x `sublist_of` take n PHASES;
}.
Lemma begin_sound n p v x : nth_error PHASES n = Some p -> idle n x v ->
  sound_journal context (begin_phase operation_id context p v) /\ announced (begin_phase operation_id context p v) p /\ p ∉ x.
Proof.
  intros Hn [Hs Hl Hx]. assert (in_progress n p (entries (begin_phase operation_id context p v))) as Hp.
  { split; [done|]. by rewrite entries_begin, Hl. }
  split_and!; [|by left; exists n|].
  - split.
    + unfold begin_phase at 2. rewrite status_other, status_set by done. by apply log_phases, (log_busy n p).
    + exists "running". unfold begin_phase. by rewrite !get_dset.
    + unfold begin_phase. rewrite !records_of_other, records_add by done. apply Forall_app. split; [apply Hs|].
      apply Forall_singleton, started_sound.
  - intros Hin. apply nth_phase in Hn as (_ & Hn & _). apply Hn. by eapply sublist_subseteq.
Qed.
Lemma unsnoc_records v l p o : entries v = l ++ [(p, o)] ->
  exists rs r, records_of v = rs ++ [r] /\ map entry rs = l /\ entry r = (p, o).
Proof.
  unfold entries. destruct (records_of v) as [|r rs _] using rev_ind; [intros H; by destruct l|].
  rewrite map_app. intros [E1 E2]%app_inj_tail. by exists rs, r.
Qed.
(** Changing the outcome of the last record *)
Lemma reclose_sound v v' rs r r' l p o0 o :
  sound_journal context v -> records_of v = rs ++ [r] -> map entry rs = l -> entry r = (p, o0) ->
  records_of v' = rs ++ [r'] -> entry r' = (p, o) -> sound_record context r' ->
  journal_log (l ++ [(p, o)]) (status v') -> (exists s, get v' "status" = VStr s) ->
  sound_journal context v' /\ map fst (entries v') = map fst (entries v) /\ entries v' = l ++ [(p, o)].
Proof.
  intros [_ _ Hr] Ev El Er Ev' Er' Hs Hlog Hst.
  assert (entries v' = l ++ [(p, o)]) as He by (by unfold entries; rewrite Ev', map_app, El; cbn [map]; rewrite Er').
  split_and!; [split | | done].
  - by rewrite He.
  - done.
  - rewrite Ev in Hr. rewrite Ev'. apply Forall_app in Hr as [Hr _]. apply Forall_app. split; [done | by apply Forall_singleton].
  - rewrite He. unfold entries. rewrite Ev, !map_app, El. cbn [map]. by rewrite Er.
Qed.
Lemma entry_outcome r o k x : k <> "phase" -> k <> "outcome" ->
  entry (dset (dset r "outcome" (VStr o)) k x) = ((entry r).1, o).
Proof. intros H1 H2. unfold entry. by rewrite !get_dset, (proj2 (String.eqb_neq k "phase") H1), (proj2 (String.eqb_neq k "outcome") H2). Qed.
(** A new outcome, other than success, for the last record *)
Lemma relabel_sound v v' f l p o0 o :
  sound_journal context v -> entries v = l ++ [(p, o0)] -> records_of v' = records_of (with_last f v) ->
  (forall r, get (f r) "phase" = get r "phase" /\ has (f r) "phase" = has r "phase" /\ get (f r) "outcome" = VStr o) ->
  o <> "success" -> journal_log (l ++ [(p, o)]) (status v') -> (exists s, get v' "status" = VStr s) ->
  sound_journal context v' /\ map fst (entries v') = map fst (entries v) /\ entries v' = l ++ [(p, o)].
Proof.
  intros Hs Ee Er' Hf Ho Hlog Hst. destruct (unsnoc_records _ _ _ _ Ee) as (rs & r & Er & El & Hr).
  destruct (Hf r) as (F1 & F2 & F3). eapply (reclose_sound v v' rs r (f r)); try done.
  - rewrite Er'. by apply (records_with_last f v rs r).
  - unfold entry in *. rewrite F1, F3. cbn [str]. by injection Hr as -> _.
  - pose proof (sj_records _ _ Hs) as Hall. rewrite Er in Hall. apply Forall_app in Hall as [_ Hall].
    rewrite Forall_singleton in Hall. destruct Hall as [(q & Hq & Hq') _ _].
    split; [exists q; by rewrite F1, F2 | by exists o |]. rewrite F3. by intros [= ->].
Qed.
Lemma close_sound v l p outcome error st :
  sound_journal context v -> entries v = l ++ [(p, "started")] -> outcome <> "success" ->
  journal_log (l ++ [(p, outcome)]) st ->
  sound_journal context (close_record outcome error st v) /\
  map fst (entries (close_record outcome error st v)) = map fst (entries v).
Proof.
  intros Hs Ee Ho Hlog. unfold close_record. set (f := fun r => dset _ "error" _).
  destruct (relabel_sound v (dset (with_last f v) "status" (VStr st)) f l p "started" outcome) as (H1 & H2 & _); try done.
  - by rewrite records_of_other.
  - intros r. unfold f. rewrite !get_dset, !has_dset. by split_and!.
  - by rewrite status_set.
  - exists st. by rewrite get_dset.
Qed.
Lemma succeed_sound n p v result :
  sound_journal context v -> in_progress n p (entries v) -> status v = "running" -> admitted_result context p result ->
  sound_journal context (succeed_record result v) /\ map fst (entries (succeed_record result v)) = map fst (entries v) /\
  entries (succeed_record result v) = succeeded (S n) /\ status (succeed_record result v) = "running".
Proof.
  intros Hs [Hn Ee] Hst Ha. destruct (unsnoc_records _ _ _ _ Ee) as (rs & r & Er & El & Hr).
  destruct (reclose_sound v (succeed_record result v) rs r
    (dset (dset r "outcome" (VStr "success")) "result" (VDict result)) (succeeded n) p "started" "success") as (H1 & H2 & H3); try done.
  - exact (records_with_last (fun r => dset (dset r "outcome" (VStr "success")) "result" (VDict result)) v rs r Er).
  - rewrite entry_outcome by done. by rewrite Hr.
  - pose proof (sj_records _ _ Hs) as Hall. rewrite Er in Hall. apply Forall_app in Hall as [_ Hall]. rewrite Forall_singleton in Hall.
    destruct Hall as [(q & Hq & Hq') _ _]. injection Hr as Hp _.
    split; [exists q; by rewrite !get_dset, !has_dset, Hq' | exists "success"; by rewrite !get_dset|].
    intros _. exists result. rewrite !get_dset. cbn. by rewrite Hp.
  - unfold succeed_record. rewrite status_with_last, Hst, <- succeeded_S by done.
    apply log_phases, (log_idle (S n)). apply nth_phase in Hn as (_ & _ & _ & Hn). lia.
  - destruct (sj_status _ _ Hs) as [s Es]. exists s. unfold succeed_record, with_last.
    destruct (last (records_of v)); [|done]. by rewrite get_dset.
  - split_and!; [done | done | by rewrite H3, (succeeded_S n p) | by unfold succeed_record; rewrite status_with_last].
Qed.
(** A phase that ends well leaves the next one idle. *)
Definition advanced (n : nat) (r : res dict) (j : option value) (x : list string) : Prop :=
  forall v, r = Ok v -> j = Some (VDict v) /\ idle n x v /\ status v = "running".
Definition failed {A} (r : res A) (_ : option value) (_ : list string) : Prop := exists e, r = Raise e.
Lemma fail_safe {A} j x v outcome error st msg :
  sound_journal context (close_record outcome error st v) ->
  x `sublist_of` map fst (entries (close_record outcome error st v)) ->
  safe j x (fail_with (A := A) E v outcome error st msg) failed.
Proof.
  intros Hs Hx. unfold fail_with. eapply safe_bind with (Q := fun _ _ x' => x' = x); [by apply safe_write | |].
  - intros ? j' x' ->. apply safe_raise. by eexists.
  - intros e ? ? _. by eexists.
Qed.
Lemma phase_fail_safe {A} n p v x j outcome error st msg :
  sound_journal context v -> in_progress n p (entries v) -> x `sublist_of` map fst (entries v) ->
  (outcome, st) ∈ [("failed", "failed"); ("ambiguous", "safe-mode")] ->
  safe j x (fail_with (A := A) E v outcome error st msg) failed.
Proof.
  intros Hs [Hn Ee] Hx Hin. assert (outcome <> "success" /\ outcome <> "started" /\ st ∈ ["failed"; "safe-mode"]) as (H1 & H2 & H3).
  { apply elem_of_cons in Hin as [[= -> ->]|Hin]; [by split_and!; [| | apply PyStr.mem_spec]|].
    apply list_elem_of_singleton in Hin as [= -> ->]. by split_and!; [| | apply PyStr.mem_spec]. }
  destruct (close_sound v _ p outcome error st Hs Ee H1) as [Hc Hm].
  { by apply log_phases, log_ended. }
  apply fail_safe; [done|]. by rewrite Hm.
Qed.
Lemma conclude_safe n p v x result :
  sound_journal context v -> in_progress n p (entries v) -> status v = "running" -> x `sublist_of` map fst (entries v) ->
  safe (Some (VDict v)) x (conclude context E p result v) (advanced (S n)).
Proof.
  intros Hs Hp Hst Hx. unfold conclude.
  assert (forall outcome error st msg, (outcome, st) ∈ [("failed", "failed"); ("ambiguous", "safe-mode")] ->
    safe (Some (VDict v)) x (fail_with E v outcome error st msg) (advanced (S n))) as Hf.
  { intros outcome error st msg Hin. eapply safe_weaken; [by eapply phase_fail_safe|]. intros r j' x' [e ->] v' [=]. }
  destruct (evidence_missing p result) eqn:Em; [by apply Hf; left|].
  destruct (ne (get result "backend") _) eqn:Eb; [by apply Hf; left|].
  destruct (_admit p result) as [[]|e] eqn:Ea; [|by apply Hf; left].
  destruct (PyStr.mem p FENCED_PHASES && _) eqn:Ef; [by apply Hf; left|].
  destruct (is_True (get result "ambiguous")); [by apply Hf; right; left|].
  apply orb_false_iff in Em as [Em1%negb_false_iff Em2%negb_false_iff%bool_decide_eq_true].
  destruct (succeed_sound n p v result Hs Hp Hst) as (H1 & H2 & H3 & H4).
  { split; [done | done | by apply ne_false | done|]. intros Hm. rewrite Hm in Ef. by apply ne_false. }
  eapply safe_bind with (Q := fun r j' x' => x' = x /\ (r = Ok tt -> j' = Some (VDict (succeed_record result v)))).
  - apply safe_write; [done | by rewrite H2 | by split | by split | by split].
  - intros [] j' x' [-> Hj]. apply safe_ret. intros v' [= <-]. split_and!; [by apply Hj | | done].
    split; [done..|]. rewrite <- succeeded_phases, <- H3, H2. done.
  - by intros e j' x' _ v' [=].
Qed.
Lemma run_phase_safe (b : Backend W) (h : Handler W) n p v x :
  nth_error PHASES n = Some p -> idle n x v ->
  safe (Some (VDict v)) x (run_phase operation_id context E b h p v) (advanced (S n)).
Proof.
  intros Hn Hi. destruct (begin_sound n p v x Hn Hi) as (Hs & Ha & Hx). unfold run_phase.
  set (v1 := begin_phase operation_id context p v) in *.
  assert (in_progress n p (entries v1)) as Hp.
  { split; [done|]. unfold v1. by rewrite entries_begin, (idle_log _ _ _ Hi). }
  assert (status v1 = "running") as Hst by (unfold v1, begin_phase; by rewrite status_other, status_set).
  assert (map fst (entries v1) = take n PHASES ++ [p]) as Em.
  { destruct Hp as [_ ->]. by rewrite map_app, succeeded_phases. }
  pose proof (idle_executed _ _ _ Hi) as Hsub.
  eapply safe_bind with (Q := fun r j' x' => x' = x /\ (r = Ok tt -> j' = Some (VDict v1))).
  { apply safe_write; [done | rewrite Em; by apply sublist_inserts_r | by split | by split | by split]. }
  2: { by intros e j' x' _ v' [=]. }
  intros [] j' x' [-> Hj]. rewrite (Hj eq_refl).
  eapply safe_bind; [apply safe_attempt, (perform_safe b h p v1 x Ha Hx) | |].
  2: { intros e j1 x1 (a & [=] & _). }
  intros outcome j1 x1 (a & [= <-] & -> & Hx1).
  assert (x1 `sublist_of` map fst (entries v1)) as Hx1'.
  { rewrite Em. destruct Hx1 as [-> | ->]; [by apply sublist_inserts_r | by apply sublist_app]. }
  destruct outcome as [result|e]; [by apply conclude_safe|]. eapply safe_weaken with (Q := failed).
  - destruct (is_ambiguity e); eapply phase_fail_safe; try done; [by right; left | by left].
  - intros r j2 x2 [e' ->] v' [=].
Qed.
Lemma run_phases_safe b hs done_ n v x :
  (forall p, p ∈ drop n PHASES -> p ∉ done_) -> (n <= length PHASES)%nat -> idle n x v -> status v <> "planned" \/ n = 0%nat ->
  safe (Some (VDict v)) x (run_phases operation_id context E b hs (drop n PHASES) done_ v)
    (fun r j' x' => forall v', r = Ok v' -> j' = Some (VDict v') /\ idle (length PHASES) x' v').
Proof.
  remember (length PHASES - n)%nat as k eqn:Ek. revert n v x Ek. induction k as [|k IH]; intros n v x Ek Hd Hn Hi Hst.
  - assert (n = length PHASES) as -> by lia. rewrite drop_all. cbn [run_phases]. apply safe_ret. by intros v' [= <-].
  - destruct (PHASES !! n) as [p|] eqn:Ep; [|apply lookup_ge_None in Ep; lia].
    rewrite (drop_S _ _ _ Ep) in *. cbn [run_phases].
    destruct (PyStr.mem p done_) eqn:Em; [exfalso; apply PyStr.mem_spec in Em; by apply (Hd p); [left|]|].
    destruct (hs p) as [h|]; [|by apply safe_raise]. rewrite <- nth_error_lookup in Ep.
    eapply safe_bind; [by apply run_phase_safe | | by intros e j' x' _ v' [=]].
    intros v1 j' x' Hv1. destruct (Hv1 v1 eq_refl) as (-> & Hi1 & Hr). apply IH; [lia | | | done |].
    + intros q Hq. apply Hd. by right.
    + apply nth_phase in Ep. lia.
    + left. by rewrite Hr.
Qed.

(** *** [apply] *)
Lemma recorded_entries v : Forall (sound_record context) (records_of v) ->
  recorded_phases v = map fst (entries v) /\
  completed v = map fst (List.filter (fun e => String.eqb e.2 "success") (entries v)).
Proof.
  unfold recorded_phases, completed, entries. induction 1 as [|r l [(p & Ep & Hp) (o & Eo) _] _ [IH1 IH2]]; [done|].
  assert (is_s (get r "outcome") "success" = String.eqb (entry r).2 "success") as Es.
  { unfold entry. rewrite Eo. unfold is_s. by rewrite eq_str_str. }
  cbn [flat_map map List.filter]. rewrite Hp, IH1, IH2, andb_true_r, Es. split; [done|].
  by destruct (String.eqb (entry r).2 "success").
Qed.
Lemma completed_idle n v : Forall (sound_record context) (records_of v) -> entries v = succeeded n -> completed v = take n PHASES.
Proof.
  intros Hr Ee. rewrite (proj2 (recorded_entries v Hr)), Ee, <- succeeded_phases. f_equal. unfold succeeded.
  induction (take n PHASES) as [|p l IH]; [done|]. cbn. by rewrite IH.
Qed.
Lemma last_started_entry v l p : Forall (sound_record context) (records_of v) -> entries v = l ++ [(p, "started")] -> last_started v = true.
Proof.
  intros Hr Ee. destruct (unsnoc_records _ _ _ _ Ee) as (rs & r & Er & _ & E1). unfold last_started. rewrite Er, last_snoc.
  rewrite Er in Hr. apply Forall_app in Hr as [_ Hr]. rewrite Forall_singleton in Hr. destruct Hr as [_ (o & Eo) _].
  injection E1 as _ E1. rewrite Eo in *. cbn in E1. by subst o.
Qed.
Lemma phase_log_phases l s : phase_log l s -> exists n, map fst l = take n PHASES.
Proof.
  destruct 1 as [n _ | | n p l [Hn ->] | n p o s Hn _ _].
  - exists n. apply succeeded_phases.
  - exists (length PHASES). apply succeeded_phases.
  - exists (S n). apply nth_phase in Hn as (-> & _). by rewrite map_app, succeeded_phases.
  - exists (S n). apply nth_phase in Hn as (-> & _). by rewrite map_app, succeeded_phases.
Qed.
Lemma rollback_out_of_order v l o n : Forall (sound_record context) (records_of v) ->
  entries v = l ++ [("rollback", o)] -> map fst l = take n PHASES -> out_of_order v = true.
Proof.
  intros Hr Ee El. unfold out_of_order. rewrite (proj1 (recorded_entries v Hr)), Ee, map_app, El. cbn [map fst].
  apply orb_true_iff. right. apply negb_true_iff, bool_decide_eq_false. intros Heq.
  assert ("rollback" ∈ PHASES) as Hin; [|by apply (PyStr.mem_spec "rollback" PHASES) in Hin].
  rewrite <- (take_drop (length (take n PHASES ++ ["rollback"])) PHASES). apply elem_of_app. left. rewrite <- Heq.
  apply elem_of_app. right. by left.
Qed.
(** A journal that [apply] may go on with is idle. *)
Lemma apply_idle v x : sound_journal context v -> x `sublist_of` map fst (entries v) ->
  is_s (get v "status") "completed" = false -> in_tuple (get v "status") ["failed"; "safe-mode"; "rolled-back"] = false ->
  out_of_order v = false -> is_s (get v "status") "running" && last_started v = false ->
  exists n, (n <= length PHASES)%nat /\ idle n x v /\ (status v <> "planned" \/ n = 0%nat).
Proof.
  intros Hs Hx Hc Hf Ho Hl. destruct (sj_status _ _ Hs) as [st Est]. pose proof (sj_log _ _ Hs) as Hlog.
  unfold status in Hlog. rewrite Est in *. cbn [str] in Hlog. unfold is_s in *. rewrite eq_str_str in Hc, Hl.
  inversion Hlog as [l s Hp E1 E2 | l s o s' Hp Hs' E1 E2].
  2: { destruct (phase_log_phases _ _ Hp) as [n En]. by erewrite rollback_out_of_order in Ho; [|apply Hs | by rewrite <- E1 | done]. }
  inversion Hp as [n Hn E3 E4 | E3 E4 | n p l' Hin E3 E4 | n p o s' Hn Hne Hin E3 E4]; subst.
  - exists n. split_and!; [done | | ].
    + split; [done | by rewrite <- E3 |]. rewrite <- succeeded_phases, E3. done.
    + unfold status. rewrite Est. destruct n; [by right | by left].
  - done.
  - destruct Hin as [_ Hin]. rewrite (last_started_entry v (succeeded n) p) in Hl; [done | apply Hs | done].
  - exfalso. cbn [in_tuple] in Hf. apply PyStr.mem_false in Hf. apply Hf.
    apply elem_of_cons in Hin as [->|Hin]; [by left|]. apply list_elem_of_singleton in Hin as ->. by right; left.
Qed.
Lemma safe_history {A} j x (m : st (State W) A) Q :
  (match j with
   | None => x = []
   | Some j => exists v, j = VDict v /\ sound_journal context v /\ x `sublist_of` map fst (entries v)
   end -> safe j x m Q) -> safe j x m Q.
Proof.
  intros Hm s s' r Hh Hj Hx. apply Hm; try done. pose proof (history_accounts _ _ Hh) as Ha. by rewrite Hj, Hx in Ha.
Qed.
Lemma safe_locked {A} j x (m : st (State W) A) : safe j x m (fun _ _ _ => True) -> safe j x (locked E m) (fun _ _ _ => True).
Proof.
  intros Hm s s' r Hh Hj Hx El. unfold locked in El. destruct (exclusive E); [by eapply Hm|]. injection El as <- <-.
  split; [|done]. exists []. split; [by rewrite app_nil_r|]. intros t Ht%prefix_nil_inv. subst t. by rewrite app_nil_r.
Qed.
(** The phases that succeeded are skipped. *)
Lemma run_phases_skip (b : Backend W) handlers n v :
  run_phases operation_id context E b handlers PHASES (take n PHASES) v
  = run_phases operation_id context E b handlers (drop n PHASES) (take n PHASES) v.
Proof.
  assert (forall l1 l2, (forall p, p ∈ l1 -> p ∈ take n PHASES) ->
    run_phases operation_id context E b handlers (l1 ++ l2) (take n PHASES) v
    = run_phases operation_id context E b handlers l2 (take n PHASES) v) as Hskip.
  { induction l1 as [|p l1 IH]; intros l2 Hl1; [done|]. cbn [app run_phases].
    rewrite (proj2 (PyStr.mem_spec p (take n PHASES))) by (apply Hl1; by left). apply IH. intros q Hq. apply Hl1. by right. }
  rewrite <- (take_drop n PHASES) at 1. by apply Hskip.
Qed.
Lemma apply_safe handlers j x : safe j x (apply operation_id context E handlers) (fun _ _ _ => True).
Proof.
  apply safe_locked. unfold _apply_locked. eapply safe_bind; [apply load_reads | | done].
  intros v j' x' (-> & -> & Hv). rewrite (Hv v eq_refl). apply safe_history. intros (v' & [= <-] & Hs & Hx).
  destruct (is_s (get v "status") "completed") eqn:Ec; [by apply safe_ret|].
  destruct (in_tuple (get v "status") _) eqn:Ef; [by apply safe_raise|].
  destruct (backend_adapter E) as [b|]; [|by apply safe_raise].
  eapply safe_after; [apply (quiet_lift _ _ (fun _ => out_of_order v = false)); intros _ [] ?%raise_if_Ok; done | | done].
  intros [] Ho. eapply safe_after;
    [apply (quiet_lift _ _ (fun _ => is_s (get v "status") "running" && last_started v = false)); intros _ [] ?%raise_if_Ok; done | | done].
  intros [] Hl. destruct (apply_idle v x Hs Hx Ec Ef Ho Hl) as (n & Hn & Hi & Hst).
  rewrite (completed_idle n v) by (apply Hs || apply Hi).
  rewrite run_phases_skip.
  eapply safe_bind; [apply (run_phases_safe b handlers _ n v x); try done | | done].
  { pose proof phases_NoDup as Hd. rewrite <- (take_drop n PHASES) in Hd. apply NoDup_app in Hd as (_ & Hd & _).
    intros p Hp Hin. by apply (Hd p). }
  intros v1 j1 x1 Hv1. destruct (Hv1 v1 eq_refl) as [-> [Hs1 Hl1 Hx1]].
  eapply safe_bind with (Q := fun _ _ _ => True); [| by intros; apply safe_ret | done].
  assert (entries (dset v1 "status" (VStr "completed")) = succeeded (length PHASES)) as Ee.
  { unfold entries in *. by rewrite records_of_other. }
  apply safe_write; try done; [|by rewrite Ee, succeeded_phases]. split.
  - rewrite Ee, status_set. apply log_phases, log_done.
  - exists "completed". by rewrite get_dset.
  - rewrite records_of_other by done. apply Hs1.
Qed.

(** *** [plan], [rollback] and inspection *)
Lemma plan_safe j x : safe j x (plan operation_id context E) (fun _ _ _ => True).
Proof.
  apply safe_locked. apply safe_history. intros Hj s s' r Hh Hjs Hx Ep. rewrite Hjs in Ep. destruct j as [j|].
  - injection Ep as <- <-. split; [|done]. exists []. split; [by rewrite app_nil_r|].
    intros t Ht%prefix_nil_inv. subst t. by rewrite app_nil_r.
  - revert s s' r Hh Hjs Hx Ep. change (safe None x (do _write E (planned operation_id context) ;; sret (planned operation_id context)) (fun _ _ _ => True)).
    eapply safe_bind with (Q := fun _ _ _ => True); [|by intros; apply safe_ret | done]. subst x.
    apply safe_write; [|apply sublist_nil_l | done..]. split; [|by exists "planned" | done].
    apply log_phases, (log_idle 0). cbn. lia.
Qed.
(** The last record is that of the rollback. *)
Definition rolling (v : dict) (o : string) : Prop :=
  sound_journal context v /\ exists l s, phase_log l s /\ entries v = l ++ [("rollback", o)].
Lemma rolling_relabel v v' f o o' :
  rolling v o -> records_of v' = records_of (with_last f v) ->
  (forall r, get (f r) "phase" = get r "phase" /\ has (f r) "phase" = has r "phase" /\ get (f r) "outcome" = VStr o') ->
  o' <> "success" -> (exists s, get v' "status" = VStr s) -> status v' <> "completed" ->
  rolling v' o' /\ map fst (entries v') = map fst (entries v).
Proof.
  intros (Hs & l & s & Hp & El) Hr Hf Ho Hst Hc.
  destruct (relabel_sound v v' f l "rollback" o o') as (H1 & H2 & H3); try done.
  - by eapply log_rollback.
  - split; [|done]. split; [done|]. by exists l, s.
Qed.
Lemma rolling_write {A} v o x j (m : st (State W) A) :
  rolling v o -> x `sublist_of` map fst (entries v) -> (forall j, safe j x m (fun _ _ _ => True)) ->
  safe j x (do _write E v ;; m) (fun _ _ _ => True).
Proof.
  intros [Hs _] Hx Hm. eapply safe_bind with (Q := fun _ _ x' => x' = x); [by apply safe_write | | done].
  intros ? j' x' ->. apply Hm.
Qed.
Lemma release_quiet m1 m2 m3 m4 ctx result : quiet anything (release m1 m2 m3 m4 ctx result : st (State W) unit).
Proof.
  unfold release. eapply quiet_bind; [by apply quiet_call | intros durable _]. eapply quiet_bind; [apply quiet_pure | intros _ _].
  eapply quiet_bind with (P := anything); [|intros _ _].
  { destruct (is_s _ _); [|apply quiet_pure]. eapply quiet_bind; [by apply quiet_call | intros; apply quiet_pure]. }
  eapply quiet_bind; [by apply quiet_call | intros e _]. eapply quiet_bind; [apply quiet_pure | intros _ _].
  eapply quiet_bind with (P := anything); [|intros _ _].
  { destruct (is_s _ _); [by apply quiet_ret|]. eapply quiet_bind; [by apply quiet_call | intros; apply quiet_pure]. }
  eapply quiet_bind; [by apply quiet_call | intros; apply quiet_pure].
Qed.
Lemma finish_safe ctx v result o j x :
  rolling v o -> x `sublist_of` map fst (entries v) ->
  safe j x (_finish_verified_rollback E ctx v result) (fun _ _ _ => True).
Proof.
  intros Hv Hx. unfold _finish_verified_rollback. destruct (backend_adapter E) as [b|]; [|by apply safe_raise].
  repeat (case_match; [|by apply safe_raise]). eapply safe_after; [apply quiet_wrapped, release_quiet | intros _ _ | done].
  destruct (rolling_relabel v (complete_record v) (fun r => dset r "outcome" (VStr "rollback_completed")) o "rollback_completed") as [H' Hm]; try done.
  - unfold complete_record. by rewrite !records_of_other.
  - intros r. rewrite !get_dset, !has_dset. by split_and!.
  - exists "rolled-back". unfold complete_record. by rewrite !get_dset.
  - unfold complete_record. by rewrite status_other, status_set.
  - eapply rolling_write; [done | by rewrite Hm |]. intros j'. by apply safe_ret.
Qed.
Lemma quiet_handled (h : Handler W) p v : quiet anything (handled operation_id h p v).
Proof. unfold handled. eapply quiet_bind; [by apply quiet_call | auto]. Qed.
Lemma dispatch_safe (b : Backend W) (h : Handler W) ctx v x :
  announced v "rollback" -> "rollback" ∉ x ->
  safe (Some (VDict v)) x (dispatch_rollback operation_id b h ctx v)
    (fun _ j' x' => j' = Some (VDict v) /\ x' = x ++ ["rollback"]).
Proof.
  intros Ha Hx. unfold dispatch_rollback.
  eapply (safe_bind _ _ _ _ _ (fun r j' x' => j' = Some (VDict v) /\ x' = x ++ ["rollback"])); [by apply safe_execute | | done].
  intros answer j' x' [-> ->]. eapply safe_after; [apply quiet_pure | intros result _ | done].
  eapply safe_after; [apply quiet_handled | intros extra _ | done].
  eapply safe_weaken; [eapply quiet_pure |]. by intros r j' x' (-> & -> & _).
Qed.
(** Where no rollback is recorded, the phases of the journal are phases. *)
Lemma no_rollback v : sound_journal context v -> List.find is_rollback (records_of v) = None ->
  exists l s, phase_log l s /\ entries v = l /\ status v = s.
Proof.
  intros [Hlog _ Hr] Hf. inversion Hlog as [l s Hp E1 E2 | l s o s' Hp Hs' E1 E2]; [by eexists _, _|]. exfalso.
  destruct (unsnoc_records v l "rollback" o) as (rs & r & Er & _ & E3); [done|].
  pose proof (List.find_none _ _ Hf r) as Hn. rewrite Er in Hn, Hr. apply Forall_app in Hr as [_ Hr]. rewrite Forall_singleton in Hr.
  destruct Hr as [(p & Ep & _) _ _]. unfold is_rollback, is_s in Hn. injection E3 as E3 _. rewrite Ep in *. cbn in E3. subst p.
  rewrite eq_str_str in Hn. assert (false = true); [symmetry; apply Hn | done]. apply List.in_app_iff. right. by left.
Qed.
Lemma new_rollback_safe (b : Backend W) (h : Handler W) ctx v x j :
  sound_journal context v -> x `sublist_of` map fst (entries v) -> List.find is_rollback (records_of v) = None ->
  status v <> "completed" -> safe j x (new_rollback operation_id E b h ctx v) (fun _ _ _ => True).
Proof.
  intros Hs Hx Hf Hc0. destruct (no_rollback v Hs Hf) as (l & s & Hp & El & Es). unfold new_rollback.
  set (v1 := add_record v (started operation_id "rollback" ctx)).
  assert (entries v1 = l ++ [("rollback", "started")]) as E1.
  { unfold entries, v1. rewrite records_add, map_app. by rewrite <- El. }
  assert (rolling v1 "started") as Hv1.
  { split; [|by exists l, s]. split.
    - rewrite E1. eapply log_rollback; [done|]. unfold v1. by rewrite status_add.
    - destruct (sj_status _ _ Hs) as [st Est]. exists st. unfold v1, add_record. by rewrite get_dset.
    - unfold v1. rewrite records_add. apply Forall_app. split; [apply Hs | apply Forall_singleton, started_sound]. }
  assert (map fst (entries v1) = map fst (entries v) ++ ["rollback"]) as Em by (by rewrite E1, map_app, El).
  assert ("rollback" ∉ x) as Hnx.
  { intros Hin. destruct (phase_log_phases _ _ Hp) as [n En]. rewrite El, En in Hx. apply (sublist_subseteq _ _ Hx) in Hin.
    assert ("rollback" ∈ PHASES) as Hr; [|by apply (PyStr.mem_spec "rollback" PHASES) in Hr].
    rewrite <- (take_drop n PHASES). apply elem_of_app. by left. }
  eapply safe_bind with (Q := fun r j' x' => x' = x /\ (r = Ok tt -> j' = Some (VDict v1))); [| | done].
  { apply safe_write; [apply Hv1 | rewrite Em; by apply sublist_inserts_r | by split | by split | by split]. }
  intros [] j' x' [-> Hj]. rewrite (Hj eq_refl).
  eapply safe_bind; [apply safe_attempt, dispatch_safe; [right; split; [done | by exists l] | done] | |].
  2: { by intros e j1 x1 (a & [=] & _). }
  intros outcome j1 x1 (a & [= <-] & -> & ->). assert (x ++ ["rollback"] `sublist_of` map fst (entries v1)) as Hx1.
  { rewrite Em. by apply sublist_app. }
  destruct outcome as [result|e].
  - destruct (rolling_relabel v1 (verify_record result v1)
      (fun r => dset (dset r "outcome" (VStr "rollback_verified")) "result" (VDict result)) "started" "rollback_verified") as [H' Hm]; try done.
    + intros r. rewrite !get_dset, !has_dset. by split_and!.
    + destruct (sj_status _ _ (proj1 Hv1)) as [st Est]. exists st. unfold verify_record, with_last.
      destruct (last (records_of v1)); [by rewrite get_dset | done].
    + unfold verify_record. rewrite status_with_last. unfold v1. by rewrite status_add.
    + eapply rolling_write; [done | by rewrite Hm |]. intros j2. by eapply finish_safe; [|rewrite Hm].
  - eapply safe_weaken with (Q := failed); [|done].
    destruct (is_rollback_rejection e).
    + destruct (close_sound v1 l "rollback" "failed" (exn_name e) "failed") as [Hc Hm]; [apply Hv1 | done | done | by eapply log_rollback |].
      apply fail_safe; [done | by rewrite Hm].
    + destruct (close_sound v1 l "rollback" "ambiguous" (exn_name e) "safe-mode") as [Hc Hm]; [apply Hv1 | done | done | by eapply log_rollback |].
      apply fail_safe; [done | by rewrite Hm].
Qed.
Lemma quiet_capability (c : RollbackCapability W) ctx : quiet anything (verify_capability c ctx).
Proof.
  unfold verify_capability. eapply quiet_bind; [apply quiet_pure | intros _ _].
  eapply quiet_bind; [by apply quiet_call | intros; apply quiet_pure].
Qed.
(** The recorded rollback is the last record. *)
Lemma find_rolling v r : sound_journal context v -> List.find is_rollback (records_of v) = Some r -> exists o, rolling v o.
Proof.
  intros Hs Hf. pose proof (sj_log _ _ Hs) as Hlog. inversion Hlog as [l s Hp E1 E2 | l s o s' Hp Hs' E1 E2]; [|by exists o; split; [|exists l, s]].
  exfalso. apply List.find_some in Hf as [Hin Hr]. apply list_elem_of_In in Hin.
  pose proof (sj_records _ _ Hs) as Hall. rewrite list.Forall_forall in Hall. destruct (Hall r Hin) as [(p & Ep & _) _ _].
  unfold is_rollback, is_s in Hr. rewrite Ep, eq_str_str in Hr. apply String.eqb_eq in Hr. subst p.
  destruct (phase_log_phases _ _ Hp) as [n En].
  assert ("rollback" ∈ map fst (entries v)) as Hm.
  { apply list_elem_of_fmap. exists (entry r). split; [unfold entry; by rewrite Ep|]. by apply list_elem_of_fmap_2. }
  rewrite En in Hm. assert ("rollback" ∈ PHASES) as Hp'; [|by apply (PyStr.mem_spec "rollback" PHASES) in Hp'].
  rewrite <- (take_drop n PHASES). apply elem_of_app. by left.
Qed.
Lemma rollback_snapshot_quiet (b : Backend W) : quiet anything (rollback_snapshot context E b).
Proof.
  unfold rollback_snapshot. destruct (PhaseAdapters.requires_bound_rollback b); [|by apply quiet_call].
  destruct (rollback_bound_verifier E) as [c|]; [|apply quiet_raise].
  eapply quiet_bind; [apply quiet_pure | intros ctx _]. apply quiet_wrapped.
  eapply quiet_bind; [apply quiet_capability | intros; by apply quiet_ret].
Qed.
Lemma rollback_safe h j x : safe j x (rollback operation_id context E h) (fun _ _ _ => True).
Proof.
  apply safe_locked. destruct (rollback_phase_adapter E); [by apply safe_raise|].
  destruct (backend_adapter E) as [b|]; [|by apply safe_raise].
  eapply safe_after with (P := anything); [| intros snap _ | done].
  { apply rollback_snapshot_quiet. }
  eapply safe_after; [apply quiet_pure | intros ctx _ | done].
  eapply safe_after; [apply quiet_require_verified | intros _ _ | done].
  unfold _rollback_locked. eapply safe_bind; [apply load_reads | | done].
  intros v j' x' (-> & -> & Hv). rewrite (Hv v eq_refl). apply safe_history. intros (v' & [= <-] & Hs & Hx).
  eapply safe_after; [apply (quiet_lift _ _ (fun _ => status v <> "completed")) | intros [] Hc | done].
  { intros _ [] H%raise_if_Ok%negb_false_iff Hc. destruct (sj_status _ _ Hs) as [st Est]. unfold status in Hc.
    rewrite Est in H, Hc. cbn [str] in Hc. subst st. done. }
  destruct (List.find is_rollback (records_of v)) as [r|] eqn:Ef; [|by apply new_rollback_safe].
  destruct (is_s _ _); [|by apply safe_raise]. destruct (find_rolling v r Hs Ef) as [o Ho]. by eapply finish_safe.
Qed.
Lemma inspect_safe j x : safe j x (inspect_rollback_bound context E) (fun _ _ _ => True).
Proof.
  apply safe_locked. destruct (backend_adapter E) as [b|]; [|by apply safe_raise].
  destruct (negb _); [by apply safe_raise|]. destruct (rollback_bound_verifier E) as [c|]; [|by apply safe_raise].
  eapply safe_after; [apply quiet_pure | intros ctx _ | done].
  eapply safe_after with (P := anything); [| intros result _ | done].
  - apply quiet_wrapped. repeat (case_match; try apply quiet_capability).
    eapply quiet_bind; [by apply quiet_call | intros; by apply quiet_ret].
  - eapply safe_weaken; [eapply quiet_pure | done].
Qed.
End operations.

(** ** Reachable histories *)
Inductive op (W : Type) : Type :=
  | Plan | Apply (handlers : string -> option (Handler W)) | Rollback (h : Handler W) | Inspect.
Arguments Plan {W}. Arguments Apply {W}. Arguments Rollback {W}. Arguments Inspect {W}.
Definition exec {W} (operation_id : string) (context : dict) (E : Engine W) (o : op W) : st (State W) dict :=
  match o with
  | Plan => plan operation_id context E
  | Apply handlers => apply operation_id context E handlers
  | Rollback h => rollback operation_id context E h
  | Inspect => inspect_rollback_bound context E
  end.
(** Any sequence of operations, each by an engine of its own, in any world, and
    interrupted anywhere *)
Inductive reachable (W : Type) (operation_id : string) (context : dict) : list event -> Prop :=
  | reach_start : reachable W operation_id context []
  | reach_exec t (E : Engine W) o w new : reachable W operation_id context t ->
      t ++ new `prefix_of` events (fst (exec operation_id context E o (MkState t w))) ->
      reachable W operation_id context (t ++ new).
Lemma exec_safe {W} operation_id context (E : Engine W) o j x :
  safe context j x (exec operation_id context E o) (fun _ _ _ => True).
Proof. destruct o; [apply plan_safe | apply apply_safe | apply rollback_safe | apply inspect_safe]. Qed.
Lemma reachable_history {W} operation_id context t : reachable W operation_id context t -> history context t.
Proof.
  induction 1 as [|t E o w new _ IH Hp]; [constructor|].
  destruct (exec operation_id context E o (MkState t w)) as [s' r] eqn:Ex.
  destruct (exec_safe _ _ _ _ _ _ (MkState t w) s' r IH eq_refl eq_refl Ex) as [(n & En & Hn) _].
  cbn in *. rewrite En in Hp. apply prefix_app_inv in Hp. by apply Hn.
Qed.
Lemma history_executes context t : history context t -> forall t1 p t2, t = t1 ++ Called "execute" p :: t2 ->
  exists v, journal_of t1 = Some (VDict v) /\ announced v p.
Proof.
  induction 1 as [|t m q H IH Hm|t q v H IH Hj Ha Hp|t v H IH Hs Hx]; intros t1 p t2; [by destruct t1 | | |];
    destruct t2 as [|e t2 _] using rev_ind;
    rewrite ?(app_comm_cons t2), ?app_assoc; intros [E1 E2]%app_inj_tail; subst; eauto; try done.
  - by injection E2 as ->.
  - injection E2 as ->. by exists v.
Qed.
Lemma journal_log_phases l s : journal_log l s -> map fst l `sublist_of` PHASES ++ ["rollback"].
Proof.
  intros [? ? Hp | ? ? o s' Hp _]; apply phase_log_phases in Hp as [n En].
  - rewrite En. apply sublist_inserts_r. rewrite <- (take_drop n PHASES) at 2. by apply sublist_inserts_r.
  - rewrite map_app, En. apply sublist_app; [|done]. rewrite <- (take_drop n PHASES) at 2. by apply sublist_inserts_r.
Qed.
(** The phases recorded before [p] and how they ended, and [p] as started *)
Definition announces (v : dict) (p : string) : Prop :=
  (exists n, PHASES !! n = Some p /\ entries v = map (fun q => (q, "success")) (take n PHASES) ++ [(p, "started")]) \/
  (p = "rollback" /\ exists l, entries v = l ++ [("rollback", "started")]).

(** C6: over any sequence of plans, applies, rollbacks and inspections of one
    operation, by any backends, adapters and handlers, and whatever was
    interrupted in between, the backend executes each phase at most once, in
    the order of the phases and the rollback last; and whenever it executes a
    phase, the journal on disk records every earlier phase as a success and
    this one as started. *)
Theorem phases_execute_once W operation_id context t (H : reachable W operation_id context t) :
  executed t `sublist_of` PHASES ++ ["rollback"] /\
  forall t1 p t2, t = t1 ++ Called "execute" p :: t2 -> exists v, journal_of t1 = Some (VDict v) /\ announces v p.
Proof.
  apply reachable_history in H. split.
  - pose proof (history_accounts _ _ H) as Ha. destruct (journal_of t); [|rewrite Ha; apply sublist_nil_l].
    destruct Ha as (u & _ & Hs & Hx). etrans; [exact Hx | by eapply journal_log_phases, sj_log].
  - intros t1 p t2 Et. destruct (history_executes _ _ H _ _ _ Et) as (v & Hj & Ha). exists v. split; [done|].
    destruct Ha as [(n & Hn & El) | Ha]; [|by right]. left. exists n. by rewrite <- nth_error_lookup.
Qed.
(** C7: whenever the journal says an upgrade completed, it records the eight
    phases in order, each a success with a result the engine admitted: the
    evidence the phase requires, the backend of the operation, a mutation of the
    authority by the commit alone, and its fence; and no rollback. *)
Theorem completed_upgrade_has_evidence W operation_id context t v
    (H : reachable W operation_id context t) (Hj : journal_of t = Some (VDict v)) (Hc : status v = "completed") :
  Forall2 (fun p r => get r "phase" = VStr p /\ get r "outcome" = VStr "success" /\
                      exists d, get r "result" = VDict d /\ admitted_result context p d) PHASES (records_of v).
Proof.
  pose proof (history_accounts _ _ (reachable_history _ _ _ H)) as Ha. rewrite Hj in Ha.
  destruct Ha as (u & Eu & [Hlog _ Hr] & _). injection Eu as <-.
  assert (entries v = map (fun p => (p, "success")) PHASES) as Ee.
  { rewrite Hc in Hlog. inversion Hlog as [l s Hp E1 E2 | l s o s' Hp Hs' E1 E2]; [|done].
    inversion Hp as [n Hn E3 E4 | E3 E4 | n p l' Hin E3 E4 | n p o s' Hn Hne Hin E3 E4]; subst; try done.
    - by destruct n.
    - by apply PyStr.mem_spec in Hin. }
  unfold entries in Ee. revert Ee Hr. generalize PHASES (records_of v). intros ps rs. revert rs.
  induction ps as [|p ps IH]; intros [|r rs] Ee Hr; try done. apply Forall_cons in Hr as [[(q & Eq & _) (o & Eo) Hd] Hr].
  injection Ee as E1 E2 Ee. constructor; [|by apply IH]. rewrite Eq, Eo in *. cbn in E1, E2. subst.
  split_and!; [done..|]. by apply Hd.
Qed.

(** *** Journals that nothing loads *)
Definition raises {A} (j : option value) (x : list string) (r : res A) (j' : option value) (x' : list string) : Prop :=
  j' = j /\ x' = x /\ exists e, r = Raise e.
(** A record of a rollback that was rejected, or of a verified rollback in an
    operation in safe mode *)
Definition unrecoverable (v r : dict) : Prop :=
  r ∈ records_of v /\ get r "phase" = VStr "rollback" /\
  (get r "outcome" = VStr "failed" \/ get r "outcome" = VStr "rollback_verified" /\ get v "status" = VStr "safe-mode").
Section stuck.
  Context {W : Type} (operation_id : string) (context : dict) (E : Engine W).
  Notation quiet := (quiet context).
  Notation safe := (safe context).
Lemma quiet_never {A} (m : st (State W) A) j x : quiet (fun _ => False) m -> safe j x m (raises j x).
Proof.
  intros Hm. eapply safe_weaken; [apply Hm|]. intros r j' x' (-> & -> & H). split_and!; [done..|].
  destruct r as [a|e]; [by destruct (H a) | by exists e].
Qed.
Lemma raises_bind {A B} j x (m : st (State W) A) (f : A -> st (State W) B) :
  safe j x m (raises j x) -> safe j x (sbind m f) (raises j x).
Proof.
  intros Hm. eapply safe_bind; [exact Hm | |]; [by intros a j' x' (_ & _ & e & [=])|].
  intros e j' x' (-> & -> & _). split_and!; [done..|]. by exists e.
Qed.
Lemma raises_after {A B} j x (P : A -> Prop) (m : st (State W) A) (f : A -> st (State W) B) :
  quiet P m -> (forall a, P a -> safe j x (f a) (raises j x)) -> safe j x (sbind m f) (raises j x).
Proof. intros Hm Hf. eapply safe_after; [exact Hm | exact Hf|]. intros e. split_and!; [done..|]. by exists e. Qed.
Lemma load_rollback_failed r : get r "outcome" = VStr "failed" -> quiet (fun _ => False) (load_rollback operation_id context E r).
Proof.
  intros Ho. unfold load_rollback. eapply quiet_bind with (P := fun _ => False); [|by intros o []].
  apply quiet_lift. intros _ o (u & _ & H)%rbind_Ok_inv. unfold require_outcome in H. by rewrite Ho in H.
Qed.
Lemma load_records_failed l r outcomes seen :
  VDict r ∈ l -> get r "phase" = VStr "rollback" -> get r "outcome" = VStr "failed" ->
  quiet (fun _ => False) (load_records operation_id context E l outcomes seen).
Proof.
  intros Hin Hp Ho. revert outcomes seen. induction l as [|v l IH]; intros outcomes seen; [by apply not_elem_of_nil in Hin|].
  cbn [load_records]. apply elem_of_cons in Hin as [<-|Hin].
  - rewrite Hp. unfold is_s. rewrite eq_str_str, String.eqb_refl. eapply quiet_bind; [apply quiet_pure | intros _ _].
    eapply quiet_bind; [by apply load_rollback_failed | by intros _ []].
  - destruct v; try apply quiet_raise. destruct (is_s _ _).
    + eapply quiet_bind; [apply quiet_pure | intros _ _]. eapply quiet_bind with (P := fun _ => True); [|intros; by apply IH].
      unfold load_rollback. eapply quiet_bind; [apply quiet_pure | intros o _]. eapply quiet_bind; [apply quiet_pure | intros c _].
      eapply quiet_bind; [apply quiet_require_verified | intros; apply quiet_pure].
    + destruct (is_null _); [apply quiet_raise|]. eapply quiet_bind; [apply quiet_pure | intros _ _].
      eapply quiet_bind; [apply quiet_pure | intros o _]. by apply IH.
Qed.
Lemma with_outcome_in r o v : r ∈ records_of v -> get r "phase" = VStr "rollback" -> get r "outcome" = VStr o ->
  exists r' l, with_outcome o (records_of v) = r' :: l.
Proof.
  intros Hin Hp Ho. destruct (with_outcome o (records_of v)) as [|r' l] eqn:El; [|by exists r', l]. exfalso.
  assert (r ∈ with_outcome o (records_of v)) as H; [|rewrite El in H; by apply not_elem_of_nil in H].
  apply list_elem_of_In, List.filter_In. split; [by apply list_elem_of_In|]. unfold is_rollback. rewrite Hp, Ho. unfold is_s.
  by rewrite !eq_str_str, !String.eqb_refl.
Qed.
Lemma safe_mode_verified v r outcomes : r ∈ records_of v -> get r "phase" = VStr "rollback" ->
  get r "outcome" = VStr "rollback_verified" -> require_status context v "safe-mode" outcomes <> Ok tt.
Proof.
  intros Hin Hp Ho H. destruct (with_outcome_in r _ v Hin Hp Ho) as (r' & l & El). unfold require_status in H.
  rewrite El in H. repeat (apply rbind_Ok_inv in H as (? & ? & H)). done.
Qed.
Lemma load_unrecoverable v r x : unrecoverable v r ->
  safe (Some (VDict v)) x (_load operation_id context E) (raises (Some (VDict v)) x).
Proof.
  intros (Hin & Hp & Hc) s s' a Hh Hj Hx El. unfold _load in El. rewrite Hj in El. revert s s' a Hh Hj Hx El.
  refine (_ : safe (Some (VDict v)) x (sbind _ _) (raises (Some (VDict v)) x)).
  eapply raises_after with (P := fun v' => v' = v); [|intros ? ->].
  { apply quiet_lift. intros _ a Ha%require_header_dict. by injection Ha as ->. }
  destruct Hc as [Ho|[Ho Hs]].
  - apply raises_bind, quiet_never, (load_records_failed _ r); try done. unfold records_of in Hin.
    destruct (get v "records"); try by apply not_elem_of_nil in Hin.
    apply list_elem_of_fmap in Hin as (w & Ew & Hin). destruct w; cbn [dict_of] in Ew; subst r; done.
  - eapply raises_after; [apply quiet_load_records | intros outcomes _]. cbv zeta. rewrite Hs.
    apply raises_bind, quiet_never, quiet_lift. intros _ [] H. by eapply safe_mode_verified in H.
Qed.
Lemma raises_raise {A} j x e : safe j x (sraise e : st (State W) A) (raises j x).
Proof. apply safe_raise. split_and!; [done..|]. by exists e. Qed.
Lemma raises_locked {A} j x (m : st (State W) A) : safe j x m (raises j x) -> safe j x (locked E m) (raises j x).
Proof.
  intros Hm s s' r Hh Hj Hx El. unfold locked in El. destruct (exclusive E); [by eapply Hm|]. revert s s' r Hh Hj Hx El.
  apply raises_raise.
Qed.
Lemma exec_unrecoverable v r x o : unrecoverable v r -> o <> Inspect ->
  safe (Some (VDict v)) x (exec operation_id context E o) (raises (Some (VDict v)) x).
Proof.
  intros Hu Ho. destruct o as [|handlers|h|]; [| | |done]; apply raises_locked.
  - intros s s' a Hh Hj Hx Ep. rewrite Hj in Ep. injection Ep as <- <-. split; [|split_and!; [done..|by eexists]].
    exists []. split; [by rewrite app_nil_r|]. intros t Ht%prefix_nil_inv. subst t. by rewrite app_nil_r.
  - by eapply raises_bind, load_unrecoverable.
  - destruct (rollback_phase_adapter E); [apply raises_raise|]. destruct (backend_adapter E) as [b|]; [|apply raises_raise].
    eapply raises_after; [apply rollback_snapshot_quiet | intros snap _].
    eapply raises_after; [apply quiet_pure | intros ctx _]. eapply raises_after; [apply quiet_require_verified | intros _ _].
    by eapply raises_bind, load_unrecoverable.
Qed.
End stuck.

(** C36: after a rollback that was rejected, or one that was verified in safe
    mode and not released, nothing more can be done: plan, apply and rollback
    all raise, by any engine and in any world, without executing a phase or
    changing the journal. *)
Theorem rejected_rollback_is_final W operation_id context t v r (E : Engine W) w o s' a
    (H : reachable W operation_id context t) (Hj : journal_of t = Some (VDict v)) (Hu : unrecoverable v r)
    (Ho : o <> Inspect) (Hx : exec operation_id context E o (MkState t w) = (s', a)) :
  journal_of (events s') = Some (VDict v) /\ executed (events s') = executed t /\ exists e, a = Raise e.
Proof.
  apply reachable_history in H.
  by destruct (exec_unrecoverable operation_id context E v r (executed t) o Hu Ho (MkState t w) s' a H Hj eq_refl Hx) as [_ HQ].
Qed.

(** ** A sample upgrade *)
Module Sample.
Definition context : dict := UpgradeIdentity.sample.
Definition operation_id : string := "op-1".
(** A snapshot that any phase accepts *)
Definition admitted : dict :=
  context ++ map (fun f => (f, VBool true))
    (PyStr.dedup (UpgradeIdentity.PREFLIGHT_PREDICATES ++ UpgradeIdentity.QUIESCENCE_PREDICATES ++ UpgradeIdentity.REOPEN_PREDICATES))
  ++ [("barrier_status", VStr "held"); ("reopen_barrier_status", VStr "released"); ("validation_failed", VBool false)].
Definition answer (phase : string) : dict :=
  map (fun f => (f, VBool true)) (REQUIRED_EVIDENCE phase)
  ++ [("mutates_authority", VBool (PHASE_MUTATION phase)); ("backend", get context "backend");
      ("fencing_token", get context "fencing_token")]
  ++ map (fun f => (f, VDict admitted))
       ["preflight_snapshot"; "quiescence_snapshot"; "admitted_snapshot"; "current_snapshot"; "reopen_snapshot"].
Definition rollback_context : dict :=
  Eval vm_compute in match _rollback_context context with Ok d => d | Raise _ => [] end.
(** A backend that does every phase and rejects rollbacks *)
Definition backend : Backend unit := {|
  PhaseAdapters.snapshot p _ := sret (if String.eqb p "rollback"
                                      then VDict (dset rollback_context "rollback_context_verified" (VBool true))
                                      else VDict admitted);
  PhaseAdapters.execute p _ := if String.eqb p "rollback" then sraise (ClassError "AuthorityMutationRejectedError" "rejected")
                               else sret (VDict (answer p));
  PhaseAdapters.generated_backup _ _ := sret VNull;
  PhaseAdapters.generated_operation _ _ _ := sret VNull;
  PhaseAdapters.verify_rollback_context := Some (fun c => sret (VDict c));
  PhaseAdapters.begin_release_rollback_context := None;
  PhaseAdapters.complete_release_rollback_context := None;
  PhaseAdapters.revalidate_rollback := None;
  PhaseAdapters.refresh_after_commit := None;
  PhaseAdapters.requires_bound_rollback := false |}.
Definition engine : Engine unit := {|
  backend_adapter := Some backend; phase_adapter _ := None; commit_bound := None; rollback_bound_verifier := None;
  rollback_phase_adapter := false; exclusive := Ok tt; disk _ := Written |}.
Definition handler : Handler unit := fun _ _ => sret VNull.
Definition all_handlers (_ : string) : option (Handler unit) := Some handler.
Definition first_handler (p : string) : option (Handler unit) := if String.eqb p "discover" then Some handler else None.
Definition run (o : op unit) (t : list event) : list event :=
  drop (length t) (events (fst (exec operation_id context engine o (MkState t tt)))).
Definition planned_ : list event := Eval vm_compute in run Plan [].
Definition done_ : list event := Eval vm_compute in run (Apply all_handlers) planned_.
Definition begun : list event := Eval vm_compute in run (Apply first_handler) planned_.
Definition rejected : list event := Eval vm_compute in run (Rollback handler) (planned_ ++ begun).
Lemma run_reachable o t : reachable unit operation_id context t -> reachable unit operation_id context (t ++ run o t).
Proof.
  intros H. apply (reach_exec _ _ _ t engine o tt); [done|]. unfold run.
  destruct (exec operation_id context engine o (MkState t tt)) as [s' r] eqn:Ex.
  destruct (exec_safe _ _ _ _ _ _ (MkState t tt) s' r (reachable_history _ _ _ H) eq_refl eq_refl Ex) as [(n & En & _) _].
  cbn in *. by rewrite En, drop_app_length.
Qed.
Lemma run_done : planned_ = run Plan [] /\ done_ = run (Apply all_handlers) planned_ /\
  begun = run (Apply first_handler) planned_ /\ rejected = run (Rollback handler) (planned_ ++ begun).
Proof. split_and!; vm_compute; reflexivity. Qed.
Lemma reach_planned : reachable unit operation_id context planned_.
Proof. rewrite (proj1 run_done). exact (run_reachable Plan [] (reach_start _ _ _)). Qed.
Lemma reach_done : reachable unit operation_id context (planned_ ++ done_).
Proof. rewrite (proj1 (proj2 run_done)). apply run_reachable, reach_planned. Qed.
Lemma reach_rejected : reachable unit operation_id context ((planned_ ++ begun) ++ rejected).
Proof.
  destruct run_done as (_ & _ & Eb & Er). rewrite Er. apply run_reachable. rewrite Eb. apply run_reachable, reach_planned.
Qed.
(** The journal after a history *)
Definition journal (t : list event) : dict := match journal_of t with Some (VDict v) => v | _ => [] end.
Lemma journal_after t : is_Some (journal_of t) -> match journal_of t with Some v => is_dict v | None => false end = true ->
  journal_of t = Some (VDict (journal t)).
Proof. unfold journal. intros [v ->] H. by destruct v. Qed.
End Sample.

Lemma phases_execute_once_witness : executed (Sample.planned_ ++ Sample.done_) = PHASES /\
  executed (Sample.planned_ ++ Sample.done_) `sublist_of` PHASES ++ ["rollback"].
Proof. split; [vm_compute; reflexivity | apply (phases_execute_once _ _ _ _ Sample.reach_done)]. Defined.
Lemma completed_upgrade_has_evidence_witness :
  Forall2 (fun p r => get r "phase" = VStr p /\ get r "outcome" = VStr "success" /\
                      exists d, get r "result" = VDict d /\ admitted_result Sample.context p d) PHASES
    (records_of (Sample.journal (Sample.planned_ ++ Sample.done_))).
Proof.
  apply (completed_upgrade_has_evidence _ _ _ _ _ Sample.reach_done); [|vm_compute; reflexivity].
  apply Sample.journal_after; [by eexists | vm_compute; reflexivity].
Defined.
Definition rejected_history : list event := (Sample.planned_ ++ Sample.begun) ++ Sample.rejected.
Lemma rejected_rollback_is_final_witness :
  let '(s', a) := exec Sample.operation_id Sample.context Sample.engine (Apply Sample.all_handlers) (MkState rejected_history tt) in
  journal_of (events s') = Some (VDict (Sample.journal rejected_history)) /\ executed (events s') = executed rejected_history /\
  exists e, a = Raise e.
Proof.
  destruct (exec Sample.operation_id Sample.context Sample.engine (Apply Sample.all_handlers) (MkState rejected_history tt)) as [s' a] eqn:E.
  eapply (rejected_rollback_is_final unit Sample.operation_id Sample.context rejected_history (Sample.journal rejected_history)
    (nth 1 (records_of (Sample.journal rejected_history)) []));
    [exact Sample.reach_rejected | apply Sample.journal_after; [by eexists | vm_compute; reflexivity] | | | exact E]; [|done].
  split_and!; [apply list_elem_of_In, nth_In; vm_compute; lia | vm_compute; reflexivity | left; vm_compute; reflexivity].
Defined.
End EngineLaws.
