(* ===== verification/EngineResume.v ===== *)
(** * Resuming an upgrade

    The journal that [apply] writes between two phases is one that [_load]
    reads, so an interrupted upgrade resumes with the next phase; with a backend
    and handlers that do their part it completes. *)
From S2P Require Import Prelude PyStr PyVal JsonParse UpgradeIdentity PhaseAdapters UpgradeEngine EngineLaws.

Module EngineResume.
Import Py UpgradeEngine EngineLaws.

(** ** Journals as [apply] writes them *)
Section journals.
  Context (operation_id : string) (context : dict).
Definition journal_with (status : string) (phase : value) (records : list dict) : dict :=
  [("schema_version", VInt JOURNAL_SCHEMA_VERSION); ("operation_id", VStr operation_id); ("status", VStr status);
   ("phase", phase); ("context", VDict context); ("records", VList (map VDict records))].
Definition success_record (phase : string) (result : dict) : dict :=
  [("operation_id", VStr operation_id); ("step_id", VStr (step_id operation_id phase)); ("phase", VStr phase);
   ("outcome", VStr "success"); ("context", VDict context); ("result", VDict result)].
(** The records of the first phases, with their results *)
Definition successes (results : list dict) : list dict := zip_with success_record PHASES results.
(** The journal after the first phases *)
Definition interrupted (results : list dict) : dict :=
  match results with
  | [] => planned operation_id context
  | _ => journal_with "running" (VStr (nth (length results - 1) PHASES "")) (successes results)
  end.
Lemma records_of_with status phase records : records_of (journal_with status phase records) = records.
Proof. unfold records_of. cbn. rewrite map_map. apply map_id. Qed.
Lemma begin_with status phase records p :
  begin_phase operation_id context p (journal_with status phase records)
  = journal_with "running" (VStr p) (records ++ [started operation_id p context]).
Proof. unfold begin_phase, add_record. by rewrite records_of_with. Qed.
Lemma succeed_with status phase records p result :
  succeed_record result (journal_with status phase (records ++ [started operation_id p context]))
  = journal_with status phase (records ++ [success_record p result]).
Proof. unfold succeed_record, with_last. by rewrite records_of_with, last_snoc, removelast_snoc. Qed.
Lemma successes_snoc results p result : nth_error PHASES (length results) = Some p ->
  successes (results ++ [result]) = successes results ++ [success_record p result].
Proof.
  intros Hp. rewrite nth_error_lookup in Hp. unfold successes.
  assert (length (take (length results) PHASES) = length results) as Hl.
  { apply lookup_lt_Some in Hp. rewrite length_take. lia. }
  rewrite <- (take_drop_middle _ _ _ Hp) at 1. rewrite zip_with_app by done. cbn [zip_with].
  rewrite zip_with_take_l by done. by destruct (drop _ PHASES).
Qed.
End journals.

(** ** They load *)
Lemma step_id_length operation_id p : PyStr.len operation_id <= MAX_OPERATION_ID_LENGTH -> p ∈ PHASES ->
  (128 <? PyStr.len (step_id operation_id p)) = false.
Proof.
  unfold step_id, PyStr.len, MAX_OPERATION_ID_LENGTH. intros Hid Hp. rewrite !JsonParse.length_app_str.
  assert (String.length p <= 9)%nat as Hl; [|apply Z.ltb_ge; cbn [String.length]; lia].
  assert (forallb (fun q => Nat.leb (String.length q) 9) PHASES = true) as Hall by done.
  rewrite forallb_forall in Hall. apply Nat.leb_le, Hall. by apply list_elem_of_In.
Qed.
Section loads.
  Context {W : Type} (operation_id : string) (context : dict) (E : Engine W).
  Context (Hwf : wf (VDict context) = true) (Hid : PyStr.len operation_id <= MAX_OPERATION_ID_LENGTH).
Lemma same_step p : identity_differs operation_id (started operation_id p context) p = false.
Proof. unfold identity_differs. cbn. unfold ne. by rewrite !eq_str_str, !String.eqb_refl. Qed.
Lemma load_phase_record (r : dict) p n outcome : nth_error PHASES n = Some p ->
  get r "operation_id" = VStr operation_id -> get r "step_id" = VStr (step_id operation_id p) ->
  get r "context" = VDict context -> get r "outcome" = VStr outcome -> PyStr.mem outcome ["started"; "success"] = true ->
  keys_are r (phase_fields outcome) = true -> keys_within r RECORD_FIELDS = true ->
  (outcome = "success" -> is_dict (get r "result") = true) ->
  load_phase operation_id context r (VStr p) n = Ok outcome.
Proof.
  intros Hn H1 H2 H3 H4 Ho Hk Hw Hr.
  assert (forall msg, require_outcome r PHASE_OUTCOMES msg = Ok outcome) as Hout.
  { intros msg. unfold require_outcome, in_set. rewrite H4. apply PyStr.mem_spec in Ho.
    apply elem_of_cons in Ho as [->|Ho]; [done|]. by apply list_elem_of_singleton in Ho as ->. }
  unfold load_phase, identity_differs, ne. rewrite Hn, H1, H2, H3, !eq_str_str, !String.eqb_refl, (eq_wf_refl _ Hwf), Hout.
  cbn [str]. rewrite step_id_length by (done || by eapply nth_error_In, list_elem_of_In in Hn). cbn [rbind]. rewrite Hk, Hw.
  apply PyStr.mem_spec in Ho. apply elem_of_cons in Ho as [->|Ho]; [done|].
  apply list_elem_of_singleton in Ho as ->. cbn. by rewrite Hr.
Qed.
Lemma load_successes results outcomes tail s :
  (length outcomes + length results <= length PHASES)%nat ->
  load_records operation_id context E
    (map VDict (zip_with (success_record operation_id context) (drop (length outcomes) PHASES) results) ++ tail) outcomes false s
  = load_records operation_id context E tail (outcomes ++ repeat "success" (length results)) false s.
Proof.
  revert outcomes. induction results as [|d results IH]; intros outcomes Hl.
  - rewrite zip_with_nil_r. cbn. by rewrite app_nil_r.
  - cbn [length] in Hl. destruct (PHASES !! length outcomes) as [p|] eqn:Ep; [|apply lookup_ge_None in Ep; lia].
    rewrite (drop_S _ _ _ Ep). cbn [zip_with map app load_records]. rewrite <- nth_error_lookup in Ep.
    change (get (success_record operation_id context p d) "phase") with (VStr p).
    assert (is_s (VStr p) "rollback" = false) as ->.
    { unfold is_s. rewrite eq_str_str. apply String.eqb_neq. apply (nth_phase _ _ Ep). }
    cbn [is_null]. unfold sbind, slift. cbn [stop_if raise_if].
    rewrite (load_phase_record (success_record operation_id context p d) p _ "success") by done.
    specialize (IH (outcomes ++ ["success"])). rewrite length_app, Nat.add_1_r in IH. rewrite IH by lia.
    by rewrite <- app_assoc.
Qed.
Lemma no_rollbacks outcome l : existsb is_rollback l = false -> with_outcome outcome l = [].
Proof.
  unfold with_outcome. induction l as [|r l IH]; [done|]. cbn. intros [-> Hl]%orb_false_iff. by apply IH.
Qed.
Lemma phase_no_rollback r p : get r "phase" = VStr p -> p <> "rollback" -> is_rollback r = false.
Proof. unfold is_rollback, is_s. intros -> Hp. rewrite eq_str_str. by apply String.eqb_neq. Qed.
Lemma successes_no_rollback results : existsb is_rollback (successes operation_id context results) = false.
Proof.
  unfold successes. assert (Forall (fun p => p <> "rollback") PHASES) as Hn by (by repeat constructor).
  revert results. induction Hn as [|p ps Hp _ IH]; intros results; [done|].
  destruct results as [|d results]; [done|]. cbn [zip_with existsb]. by rewrite IH, (phase_no_rollback _ p).
Qed.
(** A journal that is planned or running *)
Lemma load_with status phase records outcomes s :
  status ∈ ["planned"; "running"] ->
  journal_of (events s) = Some (VDict (journal_with operation_id context status phase records)) ->
  load_records operation_id context E (map VDict records) [] false s = (s, Ok outcomes) ->
  existsb is_rollback records = false ->
  (status = "planned" -> records = [] /\ phase = VNull) ->
  (status = "running" -> PyStr.mem (default "" (last outcomes)) ["started"; "success"] = true /\
                         phase = VStr (nth (length outcomes - 1) PHASES "")) ->
  _load operation_id context E s = (s, Ok (journal_with operation_id context status phase records)).
Proof.
  intros Hst Hj Hl Hr Hp Hrun. unfold _load. rewrite Hj. set (v := journal_with _ _ _ _ _) in *.
  assert (require_header operation_id context (VDict v) = Ok v) as Hh.
  { unfold require_header. cbn [get_or]. unfold ne.
    change (get v "operation_id") with (VStr operation_id). change (get v "context") with (VDict context).
    change (get v "status") with (VStr status). rewrite eq_str_str, String.eqb_refl, (eq_wf_refl _ Hwf).
    apply elem_of_cons in Hst as [->|Hst]; [done|]. by apply list_elem_of_singleton in Hst as ->. }
  assert (require_status context v status outcomes = Ok tt) as Hs.
  { unfold require_status. change (records_of v) with (map dict_of (map VDict records)). rewrite map_map. cbn [dict_of]. rewrite map_id.
    rewrite !no_rollbacks by done. apply elem_of_cons in Hst as [->|Hst].
    - destruct (Hp eq_refl) as [Hr0 Hph]. unfold v. by rewrite Hr0, Hph.
    - apply list_elem_of_singleton in Hst as ->. destruct (Hrun eq_refl) as [H1 H2]. cbn [String.eqb Ascii.eqb Bool.eqb andb negb].
      rewrite H1. change (get v "phase") with phase. rewrite H2. unfold ne. by rewrite eq_str_str, String.eqb_refl. }
  unfold sbind, slift. rewrite Hh. change (get v "records") with (VList (map VDict records)). cbv beta iota zeta.
  rewrite Hl. change (get v "status") with (VStr status). cbn [str]. rewrite Hs.
  apply elem_of_cons in Hst as [->|Hst]; [done|]. by apply list_elem_of_singleton in Hst as ->.
Qed.
Lemma load_running results p tail outcomes s : (length results <= length PHASES)%nat ->
  journal_of (events s) = Some (VDict (journal_with operation_id context "running" (VStr p) (successes operation_id context results ++ tail))) ->
  (let seen := repeat "success" (length results) in
   load_records operation_id context E (map VDict tail) seen false s = (s, Ok (seen ++ outcomes))) ->
  existsb is_rollback tail = false ->
  PyStr.mem (default "" (last (repeat "success" (length results) ++ outcomes))) ["started"; "success"] = true ->
  p = nth (length results + length outcomes - 1) PHASES "" ->
  _load operation_id context E s
  = (s, Ok (journal_with operation_id context "running" (VStr p) (successes operation_id context results ++ tail))).
Proof.
  intros Hl Hj Ht Hr Hm Hp. apply (load_with _ _ _ (repeat "success" (length results) ++ outcomes)); try done; [by right; left | | |].
  - rewrite map_app. etrans; [apply (load_successes results [] (map VDict tail)); exact Hl | apply Ht].
  - by rewrite existsb_app, successes_no_rollback.
  - intros _. split; [done|]. by rewrite length_app, repeat_length, Hp.
Qed.
Lemma interrupted_running results : results <> [] ->
  interrupted operation_id context results
  = journal_with operation_id context "running" (VStr (nth (length results - 1) PHASES "")) (successes operation_id context results).
Proof. by destruct results. Qed.
Lemma last_repeat {A} (x : A) n : n <> 0%nat -> last (repeat x n) = Some x.
Proof. induction n as [|n IH]; [done|]. intros _. destruct n; [done|]. cbn in *. by rewrite IH. Qed.
Lemma load_interrupted results s : (length results <= length PHASES)%nat ->
  journal_of (events s) = Some (VDict (interrupted operation_id context results)) ->
  _load operation_id context E s = (s, Ok (interrupted operation_id context results)).
Proof.
  intros Hl Hj. destruct (decide (results = [])) as [->|Hne].
  - apply (load_with "planned" VNull [] []); try done. by left.
  - rewrite interrupted_running in * by done. rewrite <- (app_nil_r (successes _ _ _)) in *.
    apply (load_running results _ [] []); try done.
    + cbn. by rewrite app_nil_r.
    + rewrite app_nil_r, last_repeat; [done|]. by destruct results.
    + cbn. by rewrite Nat.add_0_r.
Qed.
Lemma load_started results p s : nth_error PHASES (length results) = Some p ->
  journal_of (events s) = Some (VDict (journal_with operation_id context "running" (VStr p)
    (successes operation_id context results ++ [started operation_id p context]))) ->
  exists v, _load operation_id context E s = (s, Ok v).
Proof.
  intros Hn Hj. pose proof (nth_phase _ _ Hn) as (_ & _ & Hp & Hlt). eexists. eapply (load_running results p _ ["started"]); try done.
  - lia.
  - cbv zeta. cbn [map load_records]. change (get (started operation_id p context) "phase") with (VStr p).
    assert (is_s (VStr p) "rollback" = false) as -> by (unfold is_s; rewrite eq_str_str; by apply String.eqb_neq).
    cbn [is_null]. unfold sbind, slift. cbn [stop_if raise_if].
    by rewrite (load_phase_record (started operation_id p context) p _ "started") by (done || by rewrite repeat_length).
  - cbn [existsb]. by rewrite (phase_no_rollback _ p).
  - by rewrite last_snoc.
  - cbn [length]. rewrite Nat.add_sub. symmetry. by apply nth_error_nth.
Qed.
End loads.

(** ** Computations that return *)
Section total.
  Context {W : Type}.
(** [m] returns from [s], and [P] holds of the state and what is returned. *)
Definition returns {A} (s : State W) (m : st (State W) A) (P : State W -> A -> Prop) : Prop :=
  exists s' a, m s = (s', Ok a) /\ P s' a.
(** The journal is [j] and the phases [x] were executed. *)
Definition stands (j : dict) (x : list string) (s : State W) : Prop :=
  journal_of (events s) = Some (VDict j) /\ executed (events s) = x.
Lemma returns_bind {A B} s (m : st (State W) A) (f : A -> st (State W) B) P Q :
  returns s m P -> (forall s' a, P s' a -> returns s' (f a) Q) -> returns s (sbind m f) Q.
Proof. intros (s1 & a & E & H) Hf. unfold returns, sbind. rewrite E. by apply Hf. Qed.
Lemma returns_ret {A} s (a : A) (P : State W -> A -> Prop) : P s a -> returns s (sret a) P.
Proof. intros H. by exists s, a. Qed.
Lemma returns_lift {A} s (f : State W -> res A) a (P : State W -> A -> Prop) : f s = Ok a -> P s a -> returns s (slift f) P.
Proof. intros E H. exists s, a. unfold slift. by rewrite E. Qed.
Lemma returns_call {A} s method phase (m : st W A) w a j x (P : State W -> A -> Prop) :
  method <> "execute" -> m (world s) = (w, Ok a) -> stands j x s -> (forall s', stands j x s' -> P s' a) ->
  returns s (call method phase m) P.
Proof.
  intros Hm E [Hj Hx] HP. unfold returns, call. rewrite E. do 2 eexists. split; [done|]. apply HP. split; cbn.
  - by rewrite journal_of_snoc.
  - by rewrite executed_call.
Qed.
Lemma returns_execute {A} s phase (m : st W A) w a j x (P : State W -> A -> Prop) :
  m (world s) = (w, Ok a) -> stands j x s -> (forall s', stands j (x ++ [phase]) s' -> P s' a) ->
  returns s (call "execute" phase m) P.
Proof.
  intros E [Hj Hx] HP. unfold returns, call. rewrite E. do 2 eexists. split; [done|]. apply HP. split; cbn.
  - by rewrite journal_of_snoc.
  - by rewrite executed_snoc, Hx.
Qed.
Lemma returns_write s (E : Engine W) v j x (P : State W -> unit -> Prop) :
  disk E (events s) = Written -> stands j x s -> (forall s', stands v x s' -> P s' tt) -> returns s (_write E v) P.
Proof.
  intros Hd [Hj Hx] HP. unfold returns, _write. rewrite Hd. do 2 eexists. split; [done|]. apply HP. split; cbn.
  - by rewrite journal_of_snoc.
  - by rewrite executed_write.
Qed.
End total.

(** ** Completion *)
(** What a phase is dispatched to *)
Definition dispatched {W} (context : dict) (E : Engine W) (b : Backend W) (phase : string) : st W value :=
  match phase_adapter E phase with
  | Some m => do* d := m phase (dispatch_context context E phase) in sret (VDict d)
  | None => PhaseAdapters.execute b phase (dispatch_context context E phase)
  end.
(** A backend, adapters and handlers that do their part *)
Record cooperative {W} (context : dict) (E : Engine W) (b : Backend W) (handlers : string -> option (Handler W)) : Prop :=
  Cooperative {
  co_locks : exclusive E = Ok tt;
  co_disk : forall t, disk E t = Written;
  co_backend : backend_adapter E = Some b;
  co_snapshot : forall p w, p ∈ PHASES -> exists w' d, PhaseAdapters.snapshot b p context w = (w', Ok (VDict d)) /\
    _bind_snapshot context (VDict d) = Ok tt /\ _admit p d = Ok tt;
  co_execute : forall p w, p ∈ PHASES -> exists w' d, dispatched context E b p w = (w', Ok (VDict d)) /\
    admitted_result context p (add_evidence E p d) /\ is_True (get (add_evidence E p d) "ambiguous") = false;
  co_refresh : forall m, PhaseAdapters.refresh_after_commit b = Some m -> forall w, exists w', m w = (w', Ok tt);
  co_handlers : forall p, p ∈ PHASES -> exists h, handlers p = Some h /\
    forall step v w, exists w' x, h step v w = (w', Ok x) /\ truthy x = false;
}.
Section completes.
  Context {W : Type} (operation_id : string) (context : dict) (E : Engine W) (b : Backend W) (handlers : string -> option (Handler W)).
  Context (Hwf : wf (VDict context) = true) (Hid : PyStr.len operation_id <= MAX_OPERATION_ID_LENGTH).
  Context (Hco : cooperative context E b handlers).
Lemma not_overridden result : overridden result [] = false.
Proof. unfold overridden. by induction result. Qed.
(** The journal while the next phase is executed *)
Definition in_phase (results : list dict) (p : string) : dict :=
  journal_with operation_id context "running" (VStr p) (successes operation_id context results ++ [started operation_id p context]).
Lemma perform_returns results p h s x : nth_error PHASES (length results) = Some p -> handlers p = Some h ->
  stands (in_phase results p) x s ->
  returns s (perform operation_id context E b h p (in_phase results p)) (fun s' d =>
    stands (in_phase results p) (x ++ [p]) s' /\ admitted_result context p d /\ is_True (get d "ambiguous") = false).
Proof.
  intros Hn Hh Hs. assert (p ∈ PHASES) as Hp by (eapply list_elem_of_In, nth_error_In, Hn). unfold perform.
  destruct (co_snapshot _ _ _ _ Hco p (world s) Hp) as (w1 & d1 & E1 & Hb & Ha).
  eapply returns_bind; [eapply (returns_call _ _ _ _ _ _ _ _ (fun s' a => stands (in_phase results p) x s' /\ a = VDict d1)); eauto |].
  intros s1 a [H1 ->]. eapply returns_bind; [eapply (returns_lift _ _ tt (fun s' _ => s' = s1)); [|done] |].
  { rewrite Hb. cbn. by rewrite Ha. }
  intros ? [] ->. destruct (co_execute _ _ _ _ Hco p (world s1) Hp) as (w2 & d & E2 & Hr & Hm).
  eapply returns_bind with (P := fun s' a => stands (in_phase results p) (x ++ [p]) s' /\ a = VDict d).
  { unfold execute_phase, dispatched in *. destruct (phase_adapter E p); eapply returns_execute; eauto. }
  intros s2 a [H2 ->]. eapply returns_bind with (P := fun s' _ => stands (in_phase results p) (x ++ [p]) s').
  { unfold refresh. destruct (PhaseAdapters.refresh_after_commit b) as [m|] eqn:Em; [|by apply returns_ret].
    destruct (String.eqb p "commit"); [|by apply returns_ret]. destruct (co_refresh _ _ _ _ Hco m Em (world s2)) as [w3 E3].
    destruct (returns_call s2 "refresh_after_commit" p m w3 tt (in_phase results p) (x ++ [p])
      (fun s' _ => stands (in_phase results p) (x ++ [p]) s')) as (s3 & [] & E4 & H3); try done.
    exists s3, tt. by rewrite E4. }
  intros s3 [] H3. eapply returns_bind; [by apply (returns_lift _ _ (add_evidence E p d) (fun s' a => s' = s3 /\ a = add_evidence E p d)) |].
  intros ? ? [-> ->]. destruct (co_handlers _ _ _ _ Hco p Hp) as (h' & Eh & Hh'). rewrite Hh in Eh. injection Eh as <-.
  eapply returns_bind with (P := fun s' a => stands (in_phase results p) (x ++ [p]) s' /\ a = []).
  { unfold handled. destruct (Hh' (step_id operation_id p) (in_phase results p) (world s3)) as (w4 & y & E4 & Hy).
    eapply returns_bind; [by eapply (returns_call _ _ _ _ _ _ _ _ (fun s' a => stands (in_phase results p) (x ++ [p]) s' /\ a = y)) |].
    intros s4 ? [H4 ->]. apply (returns_lift _ _ []); [by rewrite Hy | done]. }
  intros s4 ? [H4 ->]. rewrite not_overridden.
  eapply returns_bind; [by apply (returns_lift _ _ tt (fun s' _ => s' = s4)) |]. intros ? [] ->.
  eapply returns_bind with (P := fun s' _ => s' = s4).
  { destruct (load_started operation_id context E Hwf Hid results p s4 Hn (proj1 H4)) as [v Ev]. by exists s4, v. }
  intros ? v ->. apply returns_ret. cbn [update]. done.
Qed.
Lemma begin_interrupted results p :
  begin_phase operation_id context p (interrupted operation_id context results) = in_phase results p.
Proof.
  destruct results as [|d results]; [done|]. rewrite interrupted_running by done. apply begin_with.
Qed.
Lemma succeed_interrupted results p d : nth_error PHASES (length results) = Some p ->
  succeed_record d (in_phase results p) = interrupted operation_id context (results ++ [d]).
Proof.
  intros Hn. unfold in_phase. rewrite succeed_with, <- (successes_snoc _ _ _ _ _ Hn), interrupted_running by (by destruct results).
  rewrite length_app, Nat.add_sub. by rewrite (nth_error_nth _ _ _ Hn).
Qed.
Lemma run_phase_returns results p h s x : nth_error PHASES (length results) = Some p -> handlers p = Some h ->
  stands (interrupted operation_id context results) x s ->
  returns s (run_phase operation_id context E b h p (interrupted operation_id context results)) (fun s' v => exists d,
    v = interrupted operation_id context (results ++ [d]) /\ stands v (x ++ [p]) s').
Proof.
  intros Hn Hh Hs. unfold run_phase. rewrite begin_interrupted.
  eapply returns_bind; [eapply (returns_write _ _ _ _ _ (fun s' _ => stands (in_phase results p) x s')); [apply Hco | exact Hs | done] |].
  intros s1 [] H1. destruct (perform_returns results p h s1 x Hn Hh H1) as (s2 & d & E2 & H2 & Ha & Hm).
  eapply returns_bind with (P := fun s' r => s' = s2 /\ r = Ok d).
  { exists s2, (Ok d). unfold attempt. by rewrite E2. }
  intros ? ? [-> ->]. unfold conclude, evidence_missing. destruct Ha as [A1 A2 A3 A4 A5].
  rewrite A1, A2, bool_decide_eq_true_2 by done. unfold ne. rewrite A3, A4, Hm. cbn [negb orb].
  assert (PyStr.mem p FENCED_PHASES && negb (eq (get d "fencing_token") (get context "fencing_token")) = false) as ->.
  { destruct (PyStr.mem p FENCED_PHASES); [by rewrite A5 | done]. }
  rewrite (succeed_interrupted results p d Hn). cbv zeta.
  eapply returns_bind; [eapply (returns_write _ _ _ _ _ (fun s' _ => stands (interrupted operation_id context (results ++ [d])) (x ++ [p]) s'));
    [apply Hco | exact H2 | done] |].
  intros s3 [] H3. apply returns_ret. by exists d.
Qed.
Lemma run_phases_returns n results done_ s x : (length PHASES - length results)%nat = n -> (length results <= length PHASES)%nat ->
  (forall p, p ∈ drop (length results) PHASES -> p ∉ done_) ->
  stands (interrupted operation_id context results) x s ->
  returns s (run_phases operation_id context E b handlers (drop (length results) PHASES) done_ (interrupted operation_id context results))
    (fun s' v => exists more, v = interrupted operation_id context (results ++ more) /\
       length (results ++ more) = length PHASES /\ stands v (x ++ drop (length results) PHASES) s').
Proof.
  revert results s x. induction n as [|n IH]; intros results s x Hn Hl Hd Hs.
  - rewrite drop_ge by lia. apply returns_ret. exists []. rewrite !app_nil_r. split_and!; [done | lia | done].
  - destruct (PHASES !! length results) as [p|] eqn:Ep; [|apply lookup_ge_None in Ep; lia].
    pose proof (drop_S _ _ _ Ep) as Ed. rewrite Ed in *. cbn [run_phases].
    destruct (PyStr.mem p done_) eqn:Em; [exfalso; apply PyStr.mem_spec in Em; by apply (Hd p); [left|]|].
    rewrite <- nth_error_lookup in Ep. assert (p ∈ PHASES) as Hp by (eapply list_elem_of_In, nth_error_In, Ep).
    destruct (co_handlers _ _ _ _ Hco p Hp) as (h & Eh & _). rewrite Eh.
    eapply returns_bind; [by apply (run_phase_returns results p h s x) |]. intros s1 ? (d & -> & H1).
    assert (length (results ++ [d]) = S (length results)) as El by (rewrite length_app; cbn; lia).
    destruct (IH (results ++ [d]) s1 (x ++ [p])) as (s2 & v & E2 & more & Ev & Hm & H2); [lia | apply nth_phase in Ep; lia | | done |].
    { rewrite El. intros q Hq. apply Hd. by right. }
    rewrite El in *. exists s2, v. split; [done|]. exists (d :: more). rewrite <- app_assoc in *. cbn in *.
    by split_and!.
Qed.
Lemma successes_phases results (f : dict -> bool) : (forall p d, f (success_record operation_id context p d) = true) ->
  (length results <= length PHASES)%nat ->
  flat_map (fun r => if f r then [str (get r "phase")] else []) (successes operation_id context results)
  = take (length results) PHASES.
Proof.
  intros Hf. unfold successes. generalize PHASES as ps. induction results as [|d results IH]; intros ps Hl; [by destruct ps|].
  destruct ps as [|p ps]; cbn in Hl; [lia|]. cbn [zip_with flat_map length take]. rewrite Hf, IH by lia. done.
Qed.
Lemma records_interrupted results : records_of (interrupted operation_id context results) = successes operation_id context results.
Proof. destruct results; [done|]. by rewrite interrupted_running, records_of_with. Qed.
Lemma interrupted_ready results : (length results <= length PHASES)%nat ->
  let v := interrupted operation_id context results in
  is_s (get v "status") "completed" = false /\ in_tuple (get v "status") ["failed"; "safe-mode"; "rolled-back"] = false /\
  out_of_order v = false /\ last_started v = false /\ completed v = take (length results) PHASES.
Proof.
  intros Hl v. assert (recorded_phases v = take (length results) PHASES) as Hr.
  { unfold recorded_phases, v. rewrite records_interrupted. by apply (successes_phases results (fun r => has r "phase")). }
  assert (completed v = take (length results) PHASES) as Hc.
  { unfold completed, v. rewrite records_interrupted.
    by apply (successes_phases results (fun r => is_s (get r "outcome") "success" && has r "phase")). }
  split_and!; [by destruct results | by destruct results | | | done].
  - unfold out_of_order. rewrite Hr. revert Hl. generalize (length results) as n. intros n Hl.
    do 9 (destruct n as [|n]; [vm_compute; reflexivity|]). cbn in Hl. lia.
  - unfold last_started, v. rewrite records_interrupted. destruct results as [|d results _] using rev_ind; [done|].
    rewrite length_app in Hl. cbn in Hl. destruct (PHASES !! length results) as [p|] eqn:Ep; [|apply lookup_ge_None in Ep; cbn in Ep; lia].
    rewrite <- nth_error_lookup in Ep. by rewrite (successes_snoc _ _ _ _ _ Ep), last_snoc.
Qed.
End completes.

(** C18: an upgrade interrupted between two phases goes on with the next phase
    and completes, when the backend, the adapters and the handlers do their
    part: the journal [apply] left is read back, the phases that succeeded are
    not executed again, and the others are, in order. *)
Theorem interrupted_upgrade_completes W operation_id context (E : Engine W) b handlers results t w
    (Hwf : wf (VDict context) = true) (Hid : PyStr.len operation_id <= MAX_OPERATION_ID_LENGTH)
    (Hco : cooperative context E b handlers) (Hl : (length results <= length PHASES)%nat)
    (Hj : journal_of t = Some (VDict (interrupted operation_id context results))) :
  exists s v, apply operation_id context E handlers (MkState t w) = (s, Ok v) /\
    get v "status" = VStr "completed" /\ journal_of (events s) = Some (VDict v) /\
    executed (events s) = executed t ++ drop (length results) PHASES /\
    take (length results) (records_of v) = successes operation_id context results.
Proof.
  destruct (interrupted_ready operation_id context results Hl) as (V1 & V2 & V3 & V4 & V5).
  set (v0 := interrupted operation_id context results) in *. set (s0 := MkState t w).
  assert (stands v0 (executed t) s0) as H0 by done.
  assert (forall p, p ∈ drop (length results) PHASES -> p ∉ take (length results) PHASES) as Hd.
  { pose proof phases_NoDup as Hn. rewrite <- (take_drop (length results) PHASES) in Hn. apply NoDup_app in Hn as (_ & Hn & _).
    intros p H1 H2. by apply (Hn p). }
  destruct (run_phases_returns operation_id context E b handlers Hwf Hid Hco _ results (take (length results) PHASES) s0
    (executed t) eq_refl Hl Hd H0) as (s1 & ? & E1 & more & -> & Hm & H1).
  set (v1 := interrupted operation_id context (results ++ more)) in *.
  destruct (returns_write s1 E (dset v1 "status" (VStr "completed")) _ _
    (fun s' _ => stands (dset v1 "status" (VStr "completed")) (executed t ++ drop (length results) PHASES) s') (co_disk _ _ _ _ Hco _) H1)
    as (s2 & [] & E2 & Hj2 & Hx2); [done|].
  exists s2, (dset v1 "status" (VStr "completed")). split_and!; [| by rewrite get_dset | done | done |].
  - unfold apply, locked, _apply_locked. rewrite (co_locks _ _ _ _ Hco). unfold sbind at 1.
    rewrite (load_interrupted operation_id context E Hwf Hid results s0 Hl Hj). fold v0.
    rewrite V1, V2, (co_backend _ _ _ _ Hco), V3, V4, V5, andb_false_r. rewrite run_phases_skip.
    unfold sbind, slift. cbn [stop_if raise_if]. fold v0 in E1. rewrite E1. cbv zeta. by rewrite E2.
  - rewrite records_of_other by done. unfold v1. rewrite records_interrupted. unfold successes.
    by rewrite zip_with_take, take_app_length, zip_with_take_l.
Qed.

(** The sample upgrade, interrupted after its first phase *)
Lemma sample_cooperates : cooperative Sample.context Sample.engine Sample.backend Sample.all_handlers.
Proof.
  split; try done.
  - intros p w Hp. exists w, Sample.admitted. unfold PHASES in Hp.
    repeat (apply elem_of_cons in Hp as [->|Hp]; [by split_and!; vm_compute|]). by apply not_elem_of_nil in Hp.
  - intros p w Hp. exists w, (Sample.answer p). unfold PHASES in Hp.
    repeat (apply elem_of_cons in Hp as [->|Hp]; [split_and!; [done | split; vm_compute; done | vm_compute; done]|]).
    by apply not_elem_of_nil in Hp.
  - intros p _. exists Sample.handler. split; [done|]. intros step v w. by exists w, VNull.
Qed.
Lemma interrupted_upgrade_completes_witness :
  exists s v, apply Sample.operation_id Sample.context Sample.engine Sample.all_handlers
      (MkState (Sample.planned_ ++ Sample.begun) tt) = (s, Ok v) /\
    get v "status" = VStr "completed" /\ journal_of (events s) = Some (VDict v) /\
    executed (events s) = executed (Sample.planned_ ++ Sample.begun) ++ drop 1 PHASES /\
    take 1 (records_of v) = successes Sample.operation_id Sample.context [Sample.answer "discover"].
Proof.
  apply (interrupted_upgrade_completes unit Sample.operation_id Sample.context Sample.engine Sample.backend Sample.all_handlers
    [Sample.answer "discover"]); [vm_compute; reflexivity | vm_compute; discriminate | exact sample_cooperates | cbn; lia |].
  vm_compute. reflexivity.
Defined.
End EngineResume.
