(* ===== verification/Validation.v ===== *)
(** * Validation of a task ([handoffctl.py])

    The checks every committed mutation must pass: the fields and values of the
    task, its claim, and the consistency of the whole task list.  A task is its
    metadata; what the checks ask other components and the file system is the
    interface [Checks]. *)
From stdpp Require Import gmap.
From S2P Require Import Prelude PyStr Regex PyVal PyTime PyJson RetryCircuit OracleGate Graph.
From S2P Require Import Envelope Execution Autonomy.

Class Checks := {
  (** [valid_binding_worktree]: the project configuration and the file system *)
  valid_binding_worktree : value -> bool;
  (** [private_text_errors]: the privacy patterns *)
  private_text_errors : string -> list string;
  (** [change_drift.metadata_error], [assumption_revalidation.metadata_error] *)
  drift_metadata_error : Meta -> res (option string);
  assumption_metadata_error : Meta -> res (option string);
  (** [(path.parent / plan).resolve().is_file()] *)
  plan_is_file : value -> bool;
  (** [mutation_admission.task_errors] *)
  admission_errors : Meta -> res (list string);
}.

Module Validation.
Import Py PyTime.
Definition fm := Regex.fullmatch.
Definition STATUSES : list string :=
  ["in_progress"; "open"; "blocked"; "planned"; "future"; "done"; "cancelled"; "superseded"].
Definition PRIORITIES : list string := ["P0"; "P1"; "P2"; "P3"; "P4"].
Definition REQ : list string :=
  ["schema_version"; "id"; "title"; "status"; "priority"; "summary"; "next_action"; "task_revision";
   "updated_at"].
Definition FIELDS : list string := REQ ++
  ["short_title"; "owner"; "role"; "team"; "claim_expires"; "claim_process"; "worktree_key"; "branch";
   "checkpoint_commit"; "plan"; "depends_on"; "observed_branch"; "observed_head"; "observed_dirty";
   "superseded_by"; "oracle_gate"; "spec_ref"; "spec_revision"; "spec_acceptance"; "evidence_ledger";
   "execution_envelope_ref"; "execution_envelope_revision"; "execution_envelope_task_revision";
   "execution_envelope_digest"; "execution_envelope"; "execution_reservation"; "execution_result";
   "execution_abandonments"; "parent_task_ref"; "children"; "issue_series"; "change_drift";
   "assumption_revalidation"; "retry_circuit"; "autonomy_limits"].
Definition err_if (c : bool) (m : string) : list string := if c then [m] else [].
(** The set of unknown fields has no order in the source; here it is the order
    of the metadata. *)
Definition field_errors (name : string) (meta : Meta) : list string :=
  map (fun f => name +:+ ": missing " +:+ f) (List.filter (fun f => negb (has meta f)) REQ)
  ++ map (fun f => name +:+ ": unknown field " +:+ f)
       (List.filter (fun f => negb (PyStr.mem f FIELDS)) (keys meta)).

Section checks.
  Context `{C : Checks}.

Definition short_title_errors (task_id : string) (v : value) : list string :=
  match v with
  | VNull => []
  | VStr s =>
      if negb (PyStr.truthy (PyStr.strip s))
         || PyStr.any_char (fun c => (PyStr.ord c <? 32) || (PyStr.ord c =? 127)) s
      then [task_id +:+ ": invalid short_title"]
      else if 120 <? PyStr.len s then [task_id +:+ ": short_title exceeds 120 characters"]
      else if Nat.ltb 4 (length (PyStr.words s)) then [task_id +:+ ": short_title exceeds four words"]
      else if negb (bool_decide (private_text_errors s = []))
      then [task_id +:+ ": privacy-unsafe short_title"]
      else []
  | _ => [task_id +:+ ": invalid short_title"]
  end.
Definition prefixed (task_id : string) (e : option string) : list string :=
  match e with Some m => [task_id +:+ ": " +:+ m] | None => [] end.
Definition execution_abandonment_errors (task_id : string) (meta : Meta) : list string :=
  err_if (negb (Execution.valid_records (get meta "execution_abandonments")))
    (task_id +:+ ": invalid execution_abandonments").
(** [v is not None and not valid(v)] *)
Definition present_invalid (v : value) (valid : res bool) : res bool :=
  if is_null v then Ok false else py_not valid.
Definition execution_metadata_errors (task_id : string) (meta : Meta) : res (list string) :=
  let reservation := get meta "execution_reservation" in
  let result := get meta "execution_result" in
  let* bad_process := present_invalid (get meta "claim_process")
                        (Execution.valid_claim_process (get meta "claim_process")) in
  let* bad_reservation := present_invalid reservation (Envelope.valid_reservation reservation) in
  let* bad_result := present_invalid result (Execution.valid_receipt result) in
  let* drift := drift_metadata_error meta in
  let* assumption := assumption_metadata_error meta in
  let* retry := RetryCircuit.metadata_error meta in
  let* autonomy := Autonomy.metadata_error meta in
  Ok (err_if bad_process (task_id +:+ ": invalid claim_process")
      ++ err_if bad_reservation (task_id +:+ ": invalid execution_reservation")
      ++ err_if bad_result (task_id +:+ ": invalid execution_result")
      ++ execution_abandonment_errors task_id meta
      ++ err_if (negb (Envelope.valid_binding meta)) (task_id +:+ ": invalid execution envelope binding")
      ++ err_if (negb (Envelope.valid_replacements (get meta "execution_envelope_replacements")))
           (task_id +:+ ": invalid execution envelope replacements")
      ++ prefixed task_id drift ++ prefixed task_id assumption ++ prefixed task_id retry
      ++ prefixed task_id autonomy).
Definition text_fields : list string := ["title"; "summary"; "next_action"; "updated_at"].
Definition value_errors (name : string) (meta : Meta) : res (list string) :=
  let* task_id := need_str (get_or meta "id" (VStr "")) in
  let* gate := OracleGate.gate_errors (get meta "oracle_gate") in
  let* execution := execution_metadata_errors task_id meta in
  let worktree := get meta "worktree_key" in
  Ok (err_if (negb (fm Regex.TASK task_id)) (name +:+ ": invalid id")
      ++ err_if (negb (in_tuple (get meta "status") STATUSES)) (task_id +:+ ": invalid status")
      ++ err_if (negb (in_tuple (get meta "priority") PRIORITIES)) (task_id +:+ ": invalid priority")
      ++ err_if (negb match as_Z (get meta "task_revision") with Some r => 1 <=? r | None => false end)
           (task_id +:+ ": invalid revision")
      ++ concat (map (fun f => err_if (negb (Execution.nonempty_str (get meta f)))
                                 (task_id +:+ ": invalid " +:+ f)) text_fields)
      ++ short_title_errors task_id (get meta "short_title")
      ++ err_if (negb (is_null worktree || is_s worktree "") && negb (valid_binding_worktree worktree))
           (task_id +:+ ": invalid worktree_key")
      ++ map (fun e => task_id +:+ ": " +:+ e) gate
      ++ execution).

(** The bound envelope against the binding that names it. *)
Definition envelope_reference_errors (task_id : string) (meta : Meta) : res (list string) :=
  if is_str (get meta "execution_envelope_ref") then
    let envelope := get meta "execution_envelope" in
    let* found := Envelope.errors envelope in
    Ok match envelope with
       | VDict e =>
           if negb (bool_decide (found = []))
           then [task_id +:+ ": invalid execution envelope: " +:+ PyStr.join "; " found]
           else if ne (get meta "execution_envelope_digest") (VStr (Envelope.canonical_digest e))
           then [task_id +:+ ": execution envelope digest mismatch"]
           else if ne (get meta "execution_envelope_revision") (get e "envelope_revision")
           then [task_id +:+ ": execution envelope revision mismatch"]
           else err_if (ne (get meta "execution_envelope_task_revision") (get e "task_revision"))
                  (task_id +:+ ": execution envelope task revision mismatch")
       | _ => [task_id +:+ ": invalid execution envelope: " +:+ PyStr.join "; " found]
       end
  else Ok [].
Definition reference_errors (meta : Meta) : res (list string) :=
  let task_id := Graph.id_of meta in
  let checkpoint := get meta "checkpoint_commit" in
  let plan := get meta "plan" in
  let* bad_checkpoint := py_and [truthy checkpoint;
                                 (let* s := need_str checkpoint in Ok (negb (fm (Regex.HEX 40) s)))] in
  let* envelope := envelope_reference_errors task_id meta in
  Ok (err_if match parse_iso (str (get_or meta "updated_at" (VStr ""))) with None => true | Some _ => false end
        (task_id +:+ ": invalid updated_at")
      ++ err_if bad_checkpoint (task_id +:+ ": invalid checkpoint commit")
      ++ err_if (truthy plan && negb (plan_is_file plan)) (task_id +:+ ": missing plan " +:+ str plan)
      ++ envelope).
Definition basic_task_errors (name : string) (meta : Meta) : res (list string) :=
  let* values := value_errors name meta in
  let* references := reference_errors meta in
  let* admission := admission_errors meta in
  Ok (field_errors name meta ++ values ++ references ++ admission).

Context `{H : Host}.
(** ** Claims *)
Definition ACTIVE_KEYS : list string := ["owner"; "worktree_key"; "branch"].
(** The active values seen so far, per key, with the task that holds each. *)
Notation seen := (gmap string (list (value * string))) (only parsing).
Definition holder (s : seen) (field : string) (v : value) : option string :=
  snd <$> List.find (fun e => eq e.1 v) (default [] (s !! field)).
Definition active_key (task_id : string) (meta : Meta) (acc : list string * seen) (field : string)
    : res (list string * seen) :=
  let '(errors, s) := acc in
  let v := get meta field in
  if truthy v then
    check require_hashable v ;;
    Ok match holder s field v with
       | Some other => (errors ++ [task_id +:+ ": active " +:+ field +:+ " also used by " +:+ other], s)
       | None => (errors, <[field := default [] (s !! field) ++ [(v, task_id)]]> s)
       end
  else Ok acc.
Definition claim_errors (meta : Meta) (active : seen) : res (list string * seen) :=
  let task_id := Graph.id_of meta in
  if negb (is_s (get meta "status") "in_progress") then
    Ok (err_if (truthy (get meta "owner") || truthy (get meta "claim_expires"))
          (task_id +:+ ": inactive task retains claim"), active)
  else
    let* expiry := Execution.active_expiry_errors task_id (get meta "claim_expires") in
    foldM (active_key task_id meta)
      (err_if (negb (truthy (get meta "owner"))) (task_id +:+ ": active without claim") ++ expiry, active)
      ACTIVE_KEYS.

(** ** The whole task list *)
Definition global_step (acc : list string * list string * seen) (meta : Meta)
    : res (list string * list string * seen) :=
  let '(errors, ids, active) := acc in
  let task_id := Graph.id_of meta in
  let errors := errors ++ err_if (PyStr.mem task_id ids) ("duplicate " +:+ task_id) in
  if is_s (get meta "status") "in_progress" then
    let* '(errors, active) := foldM (active_key task_id meta) (errors, active) ACTIVE_KEYS in
    Ok (errors, ids ++ [task_id], active)
  else Ok (errors, ids ++ [task_id], active).
(** [graph_errors] is total (its search is bounded by the number of nodes). *)
Definition mutation_global_errors (tasks : list Meta) : res (list string) :=
  let* '(errors, _, _) := foldM global_step ([], [], ∅) tasks in
  Ok (errors ++ default [] (Graph.graph_errors tasks) ++ Graph.hierarchy_errors tasks
      ++ Graph.supersession_errors tasks).
(** [mutation_errors] without the checks of rendered views and file contents;
    [tasks] is the list as it will be stored, [meta] the mutated task. *)
Definition mutation_errors (name : string) (meta : Meta) (tasks : list Meta) : res (list string) :=
  let* basic := basic_task_errors name meta in
  let* '(claim, _) := claim_errors meta ∅ in
  let* global := mutation_global_errors tasks in
  Ok (basic ++ claim ++ global).
End checks.

(** ** Lemmas *)
Section proofs.
  Context `{H : Host} `{C : Checks}.

Lemma err_if_nil c m : err_if c m = [] -> c = false.
Proof. by destruct c. Qed.
Lemma mutation_errors_nil name (meta : Meta) tasks :
  mutation_errors name meta tasks = Ok [] ->
  field_errors name meta = [] /\ value_errors name meta = Ok [] /\ reference_errors meta = Ok [] /\
  (exists s, claim_errors meta ∅ = Ok ([], s)) /\ mutation_global_errors tasks = Ok [].
Proof.
  unfold mutation_errors, basic_task_errors. intros E. apply rbind_Ok_inv in E as (basic & Eb & E).
  apply rbind_Ok_inv in Eb as (values & Ev & Eb). apply rbind_Ok_inv in Eb as (references & Er & Eb).
  apply rbind_Ok_inv in Eb as (adm & _ & Eb). apply Ok_inj in Eb. subst basic.
  apply rbind_Ok_inv in E as ([claim s] & Ec & E). apply rbind_Ok_inv in E as (global & Eg & E).
  apply Ok_inj in E. apply app_eq_nil in E as [E E1]. apply app_eq_nil in E1 as [-> ->].
  apply app_eq_nil in E as [E1 E]. apply app_eq_nil in E as [-> E]. apply app_eq_nil in E as [-> _].
  split_and!; try done. by exists s.
Qed.
Lemma field_errors_nil name (meta : Meta) : field_errors name meta = [] ->
  (forall f, f ∈ REQ -> has meta f = true) /\ forall f, has meta f = true -> PyStr.mem f FIELDS = true.
Proof.
  unfold field_errors. intros [E1 E2]%app_eq_nil. apply map_eq_nil in E1, E2. split.
  - intros f Hf. destruct (has meta f) eqn:E; [done|]. exfalso.
    assert (f ∈ List.filter (fun f => negb (has meta f)) REQ) as Hin.
    { apply list_elem_of_In, filter_In. rewrite E. by rewrite <- list_elem_of_In. }
    rewrite E1 in Hin. by apply not_elem_of_nil in Hin.
  - intros f Hf. destruct (PyStr.mem f FIELDS) eqn:E; [done|]. exfalso.
    assert (f ∈ List.filter (fun f => negb (PyStr.mem f FIELDS)) (keys meta)) as Hin.
    { apply list_elem_of_In, filter_In. rewrite E, <- list_elem_of_In. by rewrite <- has_elem. }
    rewrite E2 in Hin. by apply not_elem_of_nil in Hin.
Qed.
Lemma present_invalid_false v valid : present_invalid v valid = Ok false -> v = VNull \/ valid = Ok true.
Proof.
  unfold present_invalid. destruct v; cbn [is_null]; [by left|..];
    intros E; right; unfold py_not in E; apply rbind_Ok_inv in E as (x & -> & E);
    by apply Ok_inj, negb_false_iff in E as ->.
Qed.
Lemma concat_err_nil {A} (f : A -> bool) (m : A -> string) l :
  concat (map (fun x => err_if (f x) (m x)) l) = [] -> forall x, x ∈ l -> f x = false.
Proof.
  induction l as [|y l IH]; cbn; intros E x Hx; [by apply not_elem_of_nil in Hx|].
  apply app_eq_nil in E as [E1 E2]. apply elem_of_cons in Hx as [->|Hx]; [by apply err_if_nil in E1 | auto].
Qed.

(** The shape of a stored task: the type of its fields. *)
Record well_typed (meta : Meta) : Prop := WellTyped {
  wt_required : forall f, f ∈ REQ -> has meta f = true;
  wt_known : forall f, has meta f = true -> PyStr.mem f FIELDS = true;
  wt_id : exists s, get meta "id" = VStr s /\ fm Regex.TASK s = true;
  wt_status : in_tuple (get meta "status") STATUSES = true;
  wt_priority : in_tuple (get meta "priority") PRIORITIES = true;
  wt_revision : exists r, as_Z (get meta "task_revision") = Some r /\ 1 <= r;
  wt_text : forall f, f ∈ text_fields -> Execution.nonempty_str (get meta f) = true;
  wt_reservation : get meta "execution_reservation" = VNull \/
    Envelope.valid_reservation (get meta "execution_reservation") = Ok true;
  wt_result : get meta "execution_result" = VNull \/
    Execution.valid_receipt (get meta "execution_result") = Ok true;
  wt_abandonments : Execution.valid_records (get meta "execution_abandonments") = true;
  wt_binding : Envelope.valid_binding meta = true;
  wt_retry : RetryCircuit.metadata_error meta = Ok None;
  wt_autonomy : Autonomy.metadata_error meta = Ok None;
  wt_claim : if is_s (get meta "status") "in_progress"
             then truthy (get meta "owner") = true /\ truthy (get meta "claim_expires") = true
             else truthy (get meta "owner") = false /\ truthy (get meta "claim_expires") = false;
}.
(** What the values and the execution metadata without an error are. *)
Ltac split_errors E := repeat (let E1 := fresh "V" in apply app_eq_nil in E as [E1 E]).
Lemma execution_metadata_nil task_id (meta : Meta) : execution_metadata_errors task_id meta = Ok [] ->
  (get meta "execution_reservation" = VNull \/
     Envelope.valid_reservation (get meta "execution_reservation") = Ok true) /\
  (get meta "execution_result" = VNull \/ Execution.valid_receipt (get meta "execution_result") = Ok true) /\
  Execution.valid_records (get meta "execution_abandonments") = true /\ Envelope.valid_binding meta = true /\
  RetryCircuit.metadata_error meta = Ok None /\ Autonomy.metadata_error meta = Ok None.
Proof.
  unfold execution_metadata_errors. intros E. cbv zeta in E.
  apply rbind_Ok_inv in E as (b1 & _ & E). apply rbind_Ok_inv in E as (b2 & E2 & E).
  apply rbind_Ok_inv in E as (b3 & E3 & E). apply rbind_Ok_inv in E as (drift & _ & E).
  apply rbind_Ok_inv in E as (assumption & _ & E). apply rbind_Ok_inv in E as (retry & E6 & E).
  apply rbind_Ok_inv in E as (autonomy & E7 & E). apply Ok_inj in E. split_errors E.
  unfold execution_abandonment_errors in *.
  repeat match goal with Hx : err_if _ _ = [] |- _ => apply err_if_nil in Hx; subst || apply negb_false_iff in Hx end.
  split_and!; try done; try by apply present_invalid_false.
  - by destruct retry.
  - by destruct autonomy.
Qed.
(** ** Consistency of the task list *)
Definition is_active (meta : Meta) : bool := is_s (get meta "status") "in_progress".
(** No two active tasks share an owner, a worktree or a branch. *)
Definition exclusive (tasks : list Meta) : Prop :=
  forall i j m m' f, (i < j)%nat -> tasks !! i = Some m -> tasks !! j = Some m' ->
    is_active m = true -> is_active m' = true -> f ∈ ACTIVE_KEYS ->
    truthy (get m f) = true -> truthy (get m' f) = true -> eq (get m f) (get m' f) = false.
Definition recorded (s : gmap string (list (value * string))) (f : string) : list value :=
  map fst (default [] (s !! f)).

Lemma recorded_insert s f g l : recorded (<[f := l]> s) g = if String.eqb f g then map fst l else recorded s g.
Proof.
  unfold recorded. destruct (String.eqb_spec f g) as [->|]; [by rewrite lookup_insert_eq | by rewrite lookup_insert_ne].
Qed.
Lemma holder_none s f v : holder s f v = None -> forall w, w ∈ recorded s f -> eq w v = false.
Proof.
  unfold holder, recorded. intros Hh w Hw. destruct (List.find _ _) as [e|] eqn:E; [discriminate|].
  apply list_elem_of_fmap in Hw as (e & -> & He).
  by apply (find_none _ _ E e), list_elem_of_In.
Qed.
Lemma active_key_spec task_id (meta : Meta) errors s f out :
  active_key task_id meta (errors, s) f = Ok out ->
  exists es, out.1 = errors ++ es /\
    (es = [] -> truthy (get meta f) = true ->
       (forall w, w ∈ recorded s f -> eq w (get meta f) = false) /\ get meta f ∈ recorded out.2 f) /\
    (forall g w, w ∈ recorded s g -> w ∈ recorded out.2 g) /\
    (forall g, g <> f -> recorded out.2 g = recorded s g).
Proof.
  unfold active_key. destruct (truthy (get meta f)) eqn:Et.
  - intros E. apply rbind_Ok_inv in E as ([] & _ & E). destruct (holder s f (get meta f)) eqn:Eh;
      apply Ok_inj in E; subst out; cbn [fst snd].
    + eexists. split_and!; [done | discriminate | done | done].
    + exists []. rewrite app_nil_r. split_and!; [done | | |].
      * intros _ _. split; [by apply holder_none|]. rewrite recorded_insert, String.eqb_refl, map_app.
        apply elem_of_app. right. by apply list_elem_of_singleton.
      * intros g w Hw. rewrite recorded_insert. destruct (String.eqb_spec f g) as [->|]; [|done].
        rewrite map_app. apply elem_of_app. by left.
      * intros g Hg. rewrite recorded_insert. by destruct (String.eqb_spec f g) as [->|].
  - intros E. apply Ok_inj in E. subst out. exists []. cbn. by rewrite app_nil_r.
Qed.
Lemma active_keys_spec task_id (meta : Meta) fields errors s out : NoDup fields ->
  foldM (active_key task_id meta) (errors, s) fields = Ok out ->
  exists es, out.1 = errors ++ es /\
    (es = [] -> forall f, f ∈ fields -> truthy (get meta f) = true ->
       (forall w, w ∈ recorded s f -> eq w (get meta f) = false) /\ get meta f ∈ recorded out.2 f) /\
    (forall g w, w ∈ recorded s g -> w ∈ recorded out.2 g) /\
    (forall g, g ∉ fields -> recorded out.2 g = recorded s g).
Proof.
  revert errors s. induction fields as [|f fields IH]; intros errors s Hn E.
  { apply Ok_inj in E. subst out. exists []. rewrite app_nil_r. split_and!; try done.
    intros _ g Hg. by apply not_elem_of_nil in Hg. }
  apply NoDup_cons in Hn as [Hf Hn]. cbn [foldM] in E. apply rbind_Ok_inv in E as ([errors1 s1] & E1 & E).
  apply active_key_spec in E1 as (es1 & He1 & A1 & B1 & C1). cbn [fst snd] in *.
  apply IH in E as (es2 & He2 & A2 & B2 & C2); [|done]. exists (es1 ++ es2). split_and!.
  - by rewrite He2, He1, app_assoc.
  - intros [-> ->]%app_eq_nil g [->|Hg]%elem_of_cons Ht.
    + destruct (A1 eq_refl Ht) as [A11 A12]. split; [done|]. by apply B2.
    + destruct (A2 eq_refl g Hg Ht) as [A21 A22]. split; [|done]. intros w Hw. by apply A21, B1.
  - auto.
  - intros g Hg. rewrite not_elem_of_cons in Hg. destruct Hg. rewrite C2, C1 by done. done.
Qed.

Lemma claim_errors_nil (meta : Meta) s0 s : claim_errors meta s0 = Ok ([], s) ->
  if is_s (get meta "status") "in_progress"
  then truthy (get meta "owner") = true /\
       Execution.active_expiry_errors (Graph.id_of meta) (get meta "claim_expires") = Ok []
  else truthy (get meta "owner") = false /\ truthy (get meta "claim_expires") = false.
Proof.
  unfold claim_errors. intros E. destruct (is_s _ _); cbn [negb] in E.
  - apply rbind_Ok_inv in E as (expiry & E1 & E).
    apply active_keys_spec in E as (es & E & _); [|by apply (bool_decide_unpack _)]. symmetry in E.
    apply app_eq_nil in E as [[E ->]%app_eq_nil ->]. by apply err_if_nil, negb_false_iff in E.
  - apply Ok_inj in E. injection E as E _. by apply err_if_nil, orb_false_iff in E.
Qed.
Lemma well_typed_spec name (meta : Meta) s0 s : field_errors name meta = [] -> value_errors name meta = Ok [] ->
  claim_errors meta s0 = Ok ([], s) -> well_typed meta.
Proof.
  intros [Hr Hk]%field_errors_nil E Hc%claim_errors_nil. unfold value_errors in E.
  apply rbind_Ok_inv in E as (t & Et & E). apply rbind_Ok_inv in E as (gate & _ & E).
  apply rbind_Ok_inv in E as (execution & Ex & E). cbv zeta in E. apply Ok_inj in E. split_errors E. subst execution.
  apply execution_metadata_nil in Ex as (X1 & X2 & X3 & X4 & X5 & X6).
  repeat match goal with Hx : err_if _ _ = [] |- _ => apply err_if_nil, negb_false_iff in Hx end.
  split; try done.
  - exists t. split; [|done]. unfold get, get_or in *. destruct (dget meta "id") as [v|].
    + destruct v; try discriminate. cbn in Et. congruence.
    + apply Ok_inj in Et. subst t. exfalso.
      match goal with Hx : fm Regex.TASK "" = true |- _ => vm_compute in Hx; discriminate Hx end.
  - destruct (as_Z _) as [r|]; [|discriminate]. exists r. split; [done | by apply Z.leb_le].
  - intros f Hf. apply negb_false_iff.
    match goal with Hx : concat _ = [] |- _ => exact (concat_err_nil _ _ _ Hx f Hf) end.
  - revert Hc. destruct (is_s (get meta "status") "in_progress"); [|by auto]. intros [Hc1 Hc2]. split; [done|].
    unfold Execution.active_expiry_errors in Hc2. revert Hc2. by destruct (truthy (get meta "claim_expires")).
Qed.

(** What the scan knows after the tasks [pre] without an error. *)
Record scanned (pre : list Meta) (ids : list string) (s : gmap string (list (value * string))) : Prop :=
  Scanned {
    sc_ids : ids = map Graph.id_of pre;
    sc_unique : NoDup ids;
    sc_exclusive : exclusive pre;
    sc_seen : forall m f, m ∈ pre -> is_active m = true -> f ∈ ACTIVE_KEYS -> truthy (get m f) = true ->
      get m f ∈ recorded s f;
  }.
Lemma exclusive_snoc pre m : exclusive pre ->
  (is_active m = true -> forall m' f, m' ∈ pre -> is_active m' = true -> f ∈ ACTIVE_KEYS ->
     truthy (get m' f) = true -> truthy (get m f) = true -> eq (get m' f) (get m f) = false) ->
  exclusive (pre ++ [m]).
Proof.
  intros Hp Hm i j m1 m2 f Hij H1 H2 A1 A2 Hf T1 T2.
  apply lookup_snoc_Some in H1 as [[Hi H1]|[-> <-]], H2 as [[Hj H2]|[-> <-]]; try lia.
  - by apply (Hp i j m1 m2 f).
  - apply Hm; try done. by apply list_elem_of_lookup_2 in H1.
Qed.
Lemma scan_step pre errors ids s m out :
  global_step (errors, ids, s) m = Ok out ->
  exists es, out.1.1 = errors ++ es /\ (es = [] -> scanned pre ids s -> scanned (pre ++ [m]) out.1.2 out.2).
Proof.
  unfold global_step. intros E. destruct (is_s (get m "status") "in_progress") eqn:Ea.
  - apply rbind_Ok_inv in E as ([errors1 s1] & E1 & E). apply Ok_inj in E. subst out. cbn [fst snd].
    apply active_keys_spec in E1 as (es & He & A & B & _);
      [|by apply (bool_decide_unpack _)]. cbn [fst snd] in *.
    exists (err_if (PyStr.mem (Graph.id_of m) ids) ("duplicate " +:+ Graph.id_of m) ++ es).
    split; [by rewrite He, app_assoc|]. intros [Hd ->]%app_eq_nil [I1 I2 I3 I4].
    apply err_if_nil in Hd. split.
    + by rewrite map_app, I1.
    + apply NoDup_app. split_and!; [done | | by apply NoDup_singleton].
      intros x Hx Hy%list_elem_of_singleton. subst x. apply PyStr.mem_spec in Hx. congruence.
    + apply exclusive_snoc; [done|]. intros _ m' f Hm' Ha' Hf T1 T2.
      destruct (A eq_refl f Hf T2) as [A1 _]. apply A1. by apply I4.
    + intros m' f [Hm'|Hm'%list_elem_of_singleton]%elem_of_app Ha' Hf T.
      * apply B. by apply I4.
      * subst m'. by apply A.
  - apply Ok_inj in E. subst out. cbn [fst snd]. eexists. split; [done|].
    intros Hd [I1 I2 I3 I4]. apply err_if_nil in Hd. split.
    + by rewrite map_app, I1.
    + apply NoDup_app. split_and!; [done | | by apply NoDup_singleton].
      intros x Hx Hy%list_elem_of_singleton. subst x. apply PyStr.mem_spec in Hx. congruence.
    + apply exclusive_snoc; [done|]. unfold is_active. intros Ha. congruence.
    + intros m' f [Hm'|Hm'%list_elem_of_singleton]%elem_of_app Ha' Hf T; [by apply I4|]. subst m'.
      unfold is_active in Ha'. congruence.
Qed.
Lemma scan_spec pre tasks errors ids s out :
  foldM global_step (errors, ids, s) tasks = Ok out ->
  exists es, out.1.1 = errors ++ es /\ (es = [] -> scanned pre ids s -> scanned (pre ++ tasks) out.1.2 out.2).
Proof.
  revert pre errors ids s. induction tasks as [|m tasks IH]; intros pre errors ids s E; cbn [foldM] in E.
  { apply Ok_inj in E. subst out. exists []. by rewrite !app_nil_r. }
  apply rbind_Ok_inv in E as ([[errors1 ids1] s1] & E1 & E). apply (scan_step pre) in E1 as (es1 & He1 & S1).
  apply (IH (pre ++ [m])) in E as (es2 & He2 & S2). cbn [fst snd] in *. exists (es1 ++ es2).
  split; [by rewrite He2, He1, app_assoc|]. intros [-> ->]%app_eq_nil Hs.
  rewrite <- app_assoc in S2. by apply S2, S1.
Qed.
(** A list the global checks accept. *)
Record consistent (tasks : list Meta) : Prop := Consistent {
  co_unique : NoDup (map Graph.id_of tasks);
  co_exclusive : exclusive tasks;
  co_graph : default [] (Graph.graph_errors tasks) = [];
  co_hierarchy : Graph.hierarchy_errors tasks = [];
  co_supersession : Graph.supersession_errors tasks = [];
}.
Lemma global_errors_nil tasks : mutation_global_errors tasks = Ok [] -> consistent tasks.
Proof.
  unfold mutation_global_errors. intros E. apply rbind_Ok_inv in E as ([[errors ids] s] & Es & E).
  apply Ok_inj in E. apply app_eq_nil in E as [-> E]. apply app_eq_nil in E as [E1 E].
  apply app_eq_nil in E as [E2 E3]. apply (scan_spec []) in Es as (es & He & Hs). cbn [fst snd app] in *.
  symmetry in He. destruct (Hs He) as [I1 I2 I3 _].
  { split; [done | by apply NoDup_nil | | ].
    - intros i j m m' f _ Hi. by rewrite lookup_nil in Hi.
    - intros m f Hm. by apply not_elem_of_nil in Hm. }
  subst ids. by split.
Qed.
End proofs.
End Validation.
