(* ===== verification/Lifecycle.v ===== *)
(** * Task lifecycle ([handoffctl.py])

    The transitions of a task: claim, promote, pause, resume, unblock, recover,
    release, heartbeat, update, the bindings of specification, worktree and
    envelope, checkpoint, rollback and gate, their dispatcher and the commit
    that increments the revision and validates the result.  A transition mutates the metadata
    of the located task ([st Meta string]; the result is the journal note) and
    reads the other tasks. *)
From S2P Require Import Prelude PyStr Regex PyVal PyTime PyJson RetryCircuit OracleGate Graph.
From S2P Require Import Envelope Execution Sessions Autonomy Validation.

(** What the transitions ask the rest of the program. *)
Class Services := {
  (** [valid_binding_branch]: [git check-ref-format] *)
  valid_binding_branch : value -> bool;
  (** [storage_backend().load_session_records] *)
  load_session_records : value -> res (list dict);
  (** [execution_envelope.load] *)
  load_envelope : value -> res (option dict * list string);
  (** [task_spec_errors] of the candidate metadata *)
  task_spec_errors : Meta -> res (list string);
  (** [done_admission_error], [change_drift.done_admission_error] and the
      assumption admission of a task that becomes done *)
  spec_done_error : Meta -> res (option string);
  drift_done_error : Meta -> res (option string);
  assumption_done_error : Meta -> list Meta -> res (option string);
  (** the transitions [change-drift], [assumption], [accept] and
      [repair-predicate-ledger] *)
  other_transition : string -> Namespace -> list Meta -> st Meta string;
}.

Module Lifecycle.
Import Py PyTime.
Definition fm := Regex.fullmatch.
(** [except GateError/ValueError as error: raise RuntimeError(str(error))] *)
Definition as_runtime {A} (m : res A) : res A :=
  match m with
  | Raise e => if is_ValueError e then Raise (RuntimeError (exn_msg e)) else Raise e
  | Ok a => Ok a
  end.
Definition as_runtime_st {A} (m : st Meta A) : st Meta A :=
  fun s => let '(s', r) := m s in (s', as_runtime r).
(** [if not args.note.strip(): raise ...] *)
Definition require_note (args : Namespace) (message : string) : res string :=
  let* note := attr args "note" in
  let* stripped := vstrip note in
  check raise_if (negb (PyStr.truthy stripped)) (RuntimeError message) ;;
  Ok (str note).
(** [f"{args.task} ..."] *)
Definition task_message (args : Namespace) (rest : string) : res exn :=
  let* task := attr args "task" in Ok (RuntimeError (str task +:+ rest)).
Definition require (c : bool) (args : Namespace) (rest : string) : res unit :=
  if c then Ok tt else let* e := task_message args rest in Raise e.
Definition require_status (args : Namespace) (meta : Meta) (status rest : string) : res unit :=
  require (is_s (get meta "status") status) args rest.
Definition require_no_claim (args : Namespace) (meta : Meta) : res unit :=
  require (negb (truthy (get meta "owner") || truthy (get meta "claim_expires"))) args
    " has active claim metadata".
(** Identifiers in the task list are strings, so another value names no task. *)
Definition satisfied (tasks : list Meta) (v : value) : res bool :=
  check require_hashable v ;;
  Ok match v with VStr s => Graph.dependency_satisfied s tasks | _ => false end.
Definition pending (meta : Meta) (tasks : list Meta) : res (list value) :=
  let* items := iter (get_or meta "depends_on" (VList [])) in
  filterr (fun v => py_not (satisfied tasks v)) items.
Definition require_dependencies (meta : Meta) (tasks : list Meta) : res unit :=
  let* unfinished := pending meta tasks in
  match unfinished with
  | [] => Ok tt
  | _ => let* names := mapr need_str unfinished in
         Raise (RuntimeError ("unfinished dependencies: " +:+ PyStr.join ", " names))
  end.
Definition require_gate (meta : Meta) (operation : string) : res unit :=
  as_runtime (OracleGate.transition_allowed meta operation).

Section transitions.
  Context `{H : Host} `{S : Services} `{C : Checks}.

(** [(now + timedelta(minutes=n)).replace(microsecond=0).isoformat()] *)
Definition lease_until (minutes : value) : res value :=
  let* n := int minutes in
  let* t := add_minutes Execution.dt_now n in
  Ok (VStr (isoformat (whole_second t))).

(** ** Claim *)
Definition held (args : Namespace) (tasks : list Meta) : res (list value) :=
  let* owner := attr args "owner" in
  let* task := attr args "task" in
  let* selected := filterr (fun t => py_and [is_s (get t "status") "in_progress"; eq (get t "owner") owner;
                                             (let* i := item t "id" in Ok (ne i task))]) tasks in
  mapr (fun t => item t "id") selected.
Definition claim_admission (args : Namespace) (meta : Meta) (tasks : list Meta) : res unit :=
  check (if is_null (getattr args "_receipt_id" VNull) then Ok tt else Execution.require_revision args meta) ;;
  let* lease := attr args "lease_minutes" in
  check raise_when (le_z lease 0) (RuntimeError "lease must be positive") ;;
  check require_status args meta "open" " is not open" ;;
  let* owner := attr args "owner" in
  check require_role_admission (str owner) ;;
  check require_dependencies meta tasks ;;
  check require_gate meta "claim" ;;
  let* others := held args tasks in
  match others with
  | [] => Ok tt
  | i :: _ => Raise (RuntimeError ("owner already holds " +:+ str i))
  end.
Definition apply_claim (args : Namespace) (tasks : list Meta) : st Meta string :=
  do slift (fun meta => claim_admission args meta tasks) ;;
  do* owner := slift (fun _ => attr args "owner") in
  do smodify (fun meta => dset (dset meta "owner" owner) "status" (VStr "in_progress")) ;;
  do Execution.attach_claim_process args ;;
  do* expires := slift (fun _ => let* n := attr args "lease_minutes" in lease_until n) in
  do smodify (fun meta => dset meta "claim_expires" expires) ;;
  sret ("Claimed by " +:+ str owner +:+ ".").

Definition apply_promote (args : Namespace) (tasks : list Meta) : st Meta string :=
  do slift (Execution.require_revision args) ;;
  do slift (fun meta => require_status args meta "planned" " is not planned") ;;
  do slift (require_no_claim args) ;;
  do slift (fun meta => require_dependencies meta tasks) ;;
  do slift (fun meta => require_gate meta "promote") ;;
  do* note := slift (fun _ => require_note args "promotion note must not be empty") in
  do smodify (fun meta => dset meta "status" (VStr "open")) ;;
  sret note.

(** ** Pause, resume, unblock *)
Definition apply_pause (args : Namespace) : st Meta string :=
  do slift (Execution.require_owner args) ;;
  do* owner := slift (fun _ => attr args "owner") in
  do slift (fun _ => require_role_admission (str owner)) ;;
  do slift Execution.require_no_execution_reservation ;;
  do slift (Execution.require_revision args) ;;
  do slift (fun meta => require_status args meta "in_progress" " is not in progress") ;;
  do* note := slift (fun _ => require_note args "pause note must not be empty") in
  do smodify (Execution.release_claim (VStr "blocked")) ;;
  sret note.

Definition _coherent_pause_session (record : dict) (task_id : value) (revision : Z) : bool :=
  eq (get record "task") task_id && is_s (get record "trigger") "pause"
  && is_s (get record "status") "blocked"
  && match get record "step_state" with
     | VDict s => is_s (get s "status") "blocked" && is_z (get s "task_revision") revision
     | _ => false
     end.
(** The stored records of one revision, each validated. *)
Definition records_at (task_id : value) (revision : Z) (error : string) : res (list dict) :=
  match (let* records := load_session_records task_id in
         let current := List.filter (fun r => is_z (get r "task_revision") revision) records in
         check foldM (fun _ r => Sessions.validate_session_record r) tt current ;;
         Ok current) with
  | Raise e => if is_ValueError e then Raise (RuntimeError error) else Raise e
  | Ok current => Ok current
  end.
(** [TASK@REVISION]: the task and the revision of a session reference *)
Definition SESSION_REFERENCE : Regex.re :=
  Regex.cat Regex.TASK (Regex.cat (Regex.lit "@") Envelope.positive_number).
Definition parse_reference (reference : string) : option (string * Z) :=
  if fm SESSION_REFERENCE reference then
    let '(task, _, revision) := PyStr.partition "@" reference in
    r ← PyStr.to_int revision; Some (task, r)
  else None.
Definition _session_for_reference (task_id : value) (reference : string) : res dict :=
  match parse_reference reference with
  | Some (task, revision) =>
      check raise_if (ne (VStr task) task_id)
              (RuntimeError "session reference must use TASK@REVISION for the target task") ;;
      let* current := records_at task_id revision "session provenance is malformed" in
      match current with
      | [] => Raise (RuntimeError "no session snapshot at requested revision")
      | [record] =>
          if _coherent_pause_session record task_id revision then Ok record
          else Raise (RuntimeError "session reference is not a coherent paused snapshot")
      | _ => Raise (RuntimeError "session provenance is ambiguous")
      end
  | None => Raise (RuntimeError "session reference must use TASK@REVISION for the target task")
  end.
Definition require_blocked (args : Namespace) (meta : Meta) : res unit :=
  check Execution.require_revision args meta ;;
  check require_status args meta "blocked" " is not blocked" ;;
  require_no_claim args meta.
Definition apply_resume (args : Namespace) : st Meta string :=
  do slift (require_blocked args) ;;
  do* task := slift (fun _ => attr args "task") in
  do* session := slift (fun _ => let* v := attr args "session" in need_str v) in
  do* record := slift (fun _ => _session_for_reference task session) in
  do slift (fun _ =>
    let* r := item record "task_revision" in
    let* expected := attr args "expected_revision" in
    raise_if (ne r expected) (RuntimeError "session snapshot revision does not match expected revision")) ;;
  do* note := slift (fun _ => require_note args "resume note must not be empty") in
  do* next := slift (fun _ => item record "next_action") in
  do smodify (fun meta => dset (dset meta "next_action" (VStr (str next))) "status" (VStr "open")) ;;
  sret note.

Definition _blocked_provenance (task_id : value) (revision : Z) : res string :=
  let* current := records_at task_id revision "blocked provenance is malformed" in
  match current with
  | [] => Ok "external"
  | [record] =>
      if _coherent_pause_session record task_id revision then Ok "pause"
      else Raise (RuntimeError "blocked provenance is ambiguous")
  | _ => Raise (RuntimeError "blocked provenance is ambiguous")
  end.
Definition apply_unblock (args : Namespace) : st Meta string :=
  do slift (require_blocked args) ;;
  do* task := slift (fun _ => attr args "task") in
  do slift (fun meta =>
    let* revision := int_item meta "task_revision" in
    let* provenance := _blocked_provenance task revision in
    raise_if (negb (String.eqb provenance "external"))
      (RuntimeError "task is paused; use resume with its exact session reference")) ;;
  do* note := slift (fun _ => require_note args "unblock note must not be empty") in
  do smodify (fun meta => dset meta "status" (VStr "open")) ;;
  sret note.

(** ** Recovery of an expired claim *)
Definition current_recovery_session (records : list dict) (revision : Z) : res (option dict) :=
  check foldM (fun _ session =>
          check Sessions.validate_session_record session ;;
          let* r := item session "task_revision" in
          raise_when (gt_z r revision) (RuntimeError "session snapshot revision is newer than the task"))
    tt records ;;
  Ok (List.find (fun s => is_z (get s "task_revision") revision) (List.rev records)).
Definition recovery_admission (args : Namespace) (meta : Meta) : res string :=
  check Execution.require_revision args meta ;;
  check require (is_s (get meta "status") "in_progress" && truthy (get meta "owner")) args
          " does not have an active claim" ;;
  let* invalid := task_message args " has invalid claim expiry" in
  let* expiry := Execution.catch_type_value
                   (Execution.parse_claim_expiry (get meta "claim_expires")) invalid in
  let* live := dt_lt Execution.dt_now expiry in
  check require (negb live) args " claim has not expired" ;;
  require_note args "expired-claim recovery note must not be empty".
Definition apply_recover_expired (args : Namespace) : st Meta string :=
  do* note := slift (recovery_admission args) in
  do RetryCircuit.require_no_live_reservation (VStr Execution.now_text) ;;
  do* records := slift (fun _ => let* task := attr args "task" in load_session_records task) in
  do* owner := slift (fun meta => item meta "owner") in
  do* session := slift (fun meta => let* revision := int_item meta "task_revision" in
                                    current_recovery_session records revision) in
  do* note :=
    match session with
    | Some record =>
        do* next := slift (fun _ => item record "next_action") in
        do smodify (fun meta => dset meta "next_action" (VStr (str next))) ;;
        sret note
    | None =>
        do* legacy := slift (Execution.legacy_recovery_admitted args) in
        if legacy : bool then sret ("LEGACY_NO_IDENTITY_RECOVERY: " +:+ note)
        else do slift Execution.require_claimed_worker_absent ;; sret note
    end in
  do smodify (Execution.release_claim (VStr "open")) ;;
  sret ("Recovered expired claim formerly owned by " +:+ str owner +:+ ". " +:+ note).
Definition apply_recover_expired_transition (args : Namespace) : st Meta string :=
  do slift Execution.require_no_execution_reservation ;;
  apply_recover_expired args.

(** ** Bindings *)
Definition require_owned_active (args : Namespace) (meta : Meta) (what : string) : res unit :=
  check Execution.require_owner args meta ;;
  let* owner := attr args "owner" in
  check require_role_admission (str owner) ;;
  check raise_if (ne (get meta "status") (VStr "in_progress"))
          (RuntimeError (what +:+ " requires an active task")) ;;
  let* expiry := Execution.catch_value (Execution.parse_claim_expiry (get meta "claim_expires"))
                   (RuntimeError (what +:+ " requires an unexpired owner lease")) in
  check raise_when (dt_le expiry Execution.dt_now)
          (RuntimeError (what +:+ " requires an unexpired owner lease")) ;;
  Execution.require_revision args meta.
Definition apply_bind_spec (args : Namespace) : st Meta string :=
  do slift (fun meta => require_owned_active args meta "bind-spec") ;;
  do slift (fun meta => raise_if (existsb (has meta) ["spec_ref"; "spec_revision"; "spec_acceptance"])
                          (RuntimeError "bind-spec requires an unbound task spec")) ;;
  do* reference := slift (fun _ => attr args "spec_ref") in
  do* revision := slift (fun _ => attr args "spec_revision") in
  do slift (fun meta =>
    let* errors := task_spec_errors (dset (dset meta "spec_ref" reference) "spec_revision" revision) in
    raise_if (negb (bool_decide (errors = [])))
      (RuntimeError ("bind-spec task spec is invalid: " +:+ PyStr.join "; " errors))) ;;
  do smodify (fun meta => dset (dset meta "spec_ref" reference) "spec_revision" revision) ;;
  sret ("Bound task spec " +:+ str reference +:+ " revision " +:+ str revision +:+ ".").

Definition binding_identity_conflicts (branch worktree : value) (meta : Meta) (tasks : list Meta) : bool :=
  existsb (fun other => ne (get other "id") (get meta "id") && is_s (get other "status") "in_progress"
                        && (eq (get other "branch") branch || eq (get other "worktree_key") worktree)) tasks.
Definition require_bind_worktree_admission (args : Namespace) (meta : Meta) (tasks : list Meta) : res unit :=
  check Execution.require_active_binding_owner args meta ;;
  let* branch := attr args "branch" in
  check raise_if (negb (valid_binding_branch branch)) (RuntimeError "bind-worktree branch is invalid") ;;
  let* worktree := attr args "worktree_key" in
  check raise_if (negb (valid_binding_worktree worktree))
          (RuntimeError "bind-worktree worktree key is invalid") ;;
  check raise_if (binding_identity_conflicts branch worktree meta tasks)
          (RuntimeError "bind-worktree identity conflicts with an active task") ;;
  let bound_branch := get_or meta "branch" (VStr "") in
  let bound_key := get_or meta "worktree_key" (VStr "") in
  if truthy bound_branch && truthy bound_key then
    if eq bound_branch branch && eq bound_key worktree then
      Raise (IdempotentMutationError ("Worktree " +:+ str worktree +:+ " on branch " +:+ str branch
                                      +:+ " is already bound."))
    else Raise (RuntimeError "bind-worktree requires empty legacy worktree metadata")
  else
    check raise_if (truthy bound_branch) (RuntimeError "bind-worktree requires an empty legacy branch") ;;
    raise_if (truthy bound_key && ne bound_key worktree)
      (RuntimeError "bind-worktree worktree key conflicts with declared legacy metadata").
Definition apply_bind_worktree (args : Namespace) (tasks : list Meta) : st Meta string :=
  do slift (fun meta => require_bind_worktree_admission args meta tasks) ;;
  do slift Execution.require_no_execution_reservation ;;
  do* branch := slift (fun _ => attr args "branch") in
  do* worktree := slift (fun _ => attr args "worktree_key") in
  do smodify (fun meta => update meta [("branch", branch); ("worktree_key", worktree)]) ;;
  sret ("Bound worktree " +:+ str worktree +:+ " on branch " +:+ str branch +:+ ".").

Definition bind_envelope_candidate (args : Namespace) (meta : Meta) : res (dict * string) :=
  check raise_if (negb (is_str (get meta "spec_ref")) || negb (is_int (get meta "spec_revision")))
          (RuntimeError "bind-envelope requires a bound task spec") ;;
  let* reference := attr args "envelope_ref" in
  let* '(envelope, found) := load_envelope reference in
  let bad := RuntimeError ("bind-envelope envelope is invalid: " +:+ PyStr.join "; " found) in
  match found, envelope with
  | [], Some e =>
      let* errors := Envelope.errors (VDict e) in
      check raise_if (negb (bool_decide (errors = []))) (RuntimeError "bind-envelope envelope is invalid") ;;
      let same k v message := let* x := item e k in raise_if (ne x v) (RuntimeError message) in
      let* task := attr args "task" in
      check same "task" task "bind-envelope envelope task or spec does not match" ;;
      let* spec := item meta "spec_ref" in
      check same "spec_ref" spec "bind-envelope envelope task or spec does not match" ;;
      let* revision := item meta "task_revision" in
      check same "task_revision" revision "bind-envelope envelope task revision does not match" ;;
      let* spec_revision := item meta "spec_revision" in
      check same "spec_revision" spec_revision "bind-envelope envelope spec revision does not match" ;;
      let* requested := attr args "envelope_revision" in
      check (let* x := item e "envelope_revision" in
             raise_if (ne requested x) (RuntimeError "bind-envelope envelope revision does not match")) ;;
      Ok (e, Envelope.canonical_digest e)
  | _, _ => Raise bad
  end.
(** The five binding values, as the source compares them. *)
Definition binding_of (meta : Meta) : list value := map (get meta) Envelope.BINDING_FIELDS.
Definition apply_bind_envelope (args : Namespace) : st Meta string :=
  do slift (Execution.require_active_binding_owner args) ;;
  do slift Execution.require_no_execution_reservation ;;
  do* candidate := slift (bind_envelope_candidate args) in
  let '(envelope, digest) := candidate in
  do* reference := slift (fun _ => attr args "envelope_ref") in
  do* revision := slift (fun _ => attr args "envelope_revision") in
  do* task_revision := slift (fun meta => item meta "task_revision") in
  let requested := [reference; revision; task_revision; VStr digest; VDict envelope] in
  do slift (fun meta =>
    if existsb (fun v => negb (is_null v)) (binding_of meta) then
      if eq (VList (binding_of meta)) (VList requested) then
        Raise (IdempotentMutationError ("Execution envelope " +:+ str reference +:+ " is already bound."))
      else Raise (RuntimeError "bind-envelope requires an unbound execution envelope")
    else Ok tt) ;;
  do smodify (fun meta => update meta (combine Envelope.BINDING_FIELDS requested)) ;;
  sret ("Bound execution envelope " +:+ str reference +:+ " revision " +:+ str revision +:+ ".").
Definition apply_replace_envelope (args : Namespace) : st Meta string :=
  do slift (Execution.require_active_binding_owner args) ;;
  do slift Execution.require_no_execution_reservation ;;
  Envelope.replace_bound load_envelope args (VStr Execution.now_text).

(** ** Heartbeat, release, update *)
Definition require_some (e : res (option string)) : res unit :=
  let* e := e in match e with Some m => raise_if (PyStr.truthy m) (RuntimeError m) | None => Ok tt end.
Definition require_done_admission (meta : Meta) (tasks : list Meta) : res unit :=
  if is_s (get meta "status") "in_progress" then
    check require_some (spec_done_error meta) ;;
    check require_some (Graph.open_child_error meta tasks) ;;
    check require_some (drift_done_error meta) ;;
    require_some (assumption_done_error meta tasks)
  else Ok tt.
Definition require_release_admission (kind : string) (status : value) (meta : Meta) (tasks : list Meta)
    : res unit :=
  if String.eqb kind "release" && is_s status "done" then require_done_admission meta tasks else Ok tt.
Definition require_owned_change_admission (args : Namespace) (kind : string) (meta : Meta)
    (tasks : list Meta) : res unit :=
  check Execution.require_owner args meta ;;
  let* owner := attr args "owner" in
  check (if PyStr.mem kind ["update"; "pause"] then require_role_admission (str owner) else Ok tt) ;;
  check (if PyStr.mem kind ["release"; "pause"]
         then Execution.require_no_execution_reservation meta else Ok tt) ;;
  check raise_if (PyStr.mem kind ["heartbeat"; "update"] && negb (is_null (get meta "execution_reservation")))
          (RuntimeError "EXECUTION_IN_PROGRESS: use the bound command completion path") ;;
  require_release_admission kind (getattr args "status" VNull) meta tasks.
Definition heartbeat (args : Namespace) : st Meta string :=
  do* lease := slift (fun _ => attr args "lease_minutes") in
  do slift (fun meta => raise_when (py_or [le_z lease 0; ne (get meta "status") (VStr "in_progress")])
                          (RuntimeError "heartbeat requires an active task and positive lease")) ;;
  do slift (Execution.require_optional_revision args) ;;
  do* expires := slift (fun _ => lease_until lease) in
  do smodify (fun meta => dset meta "claim_expires" expires) ;;
  do* owner := slift (fun _ => attr args "owner") in
  sret ("Heartbeat by " +:+ str owner +:+ ".").
Definition release (args : Namespace) : st Meta string :=
  do slift (fun meta => require_gate meta "release") ;;
  do* status := slift (fun _ => attr args "status") in
  do smodify (Execution.release_claim status) ;;
  do* note := slift (fun _ => attr args "note") in
  sret (str note).
Definition UPDATED : list string := ["status"; "priority"; "summary"; "next_action"].
(** The arguments given overwrite their fields, in that order. *)
Definition updated (args : Namespace) (meta : Meta) : Meta :=
  fold_left (fun m name => let v := getattr args name VNull in
                           if is_null v then m else dset m name v) UPDATED meta.
Definition update_task (args : Namespace) (kind : string) : st Meta string :=
  do slift (fun meta => let* expected := attr args "expected_revision" in
                        if is_null expected then Ok tt else Execution.require_revision args meta) ;;
  do slift (fun _ => let* status := attr args "status" in
                     raise_if (negb (is_null status) && ne status (VStr "in_progress"))
                       (RuntimeError "use release for a non-active status")) ;;
  do smodify (updated args) ;;
  do Autonomy.carry_run_hold args kind ;;
  do* note := slift (fun _ => attr args "note") in
  sret (str note).
Definition apply_owned_change (args : Namespace) (kind : string) (tasks : list Meta) : st Meta string :=
  do slift (fun meta => require_owned_change_admission args kind meta tasks) ;;
  if String.eqb kind "heartbeat" then heartbeat args
  else if String.eqb kind "release" then release args
  else update_task args kind.

(** ** Checkpoint and rollback *)
Definition apply_checkpoint (args : Namespace) : st Meta string :=
  do slift (Execution.require_owner args) ;;
  do slift (Execution.require_revision args) ;;
  do slift (fun _ => let* owner := attr args "owner" in require_role_admission (str owner)) ;;
  do* commit := slift (fun _ => attr args "source_commit") in
  do smodify (fun meta => dset meta "checkpoint_commit" (VStr (str commit))) ;;
  sret ("Checkpointed source commit " +:+ str commit +:+ ".").
Definition RESTORED : list string :=
  ["priority"; "summary"; "next_action"; "depends_on"; "superseded_by"; "spec_ref"; "spec_revision";
   "spec_acceptance"; "branch"; "worktree_key"; "checkpoint_commit"].
Definition restored (state meta : dict) : Meta :=
  let meta := match dget state "short_title" with
              | Some v => dset meta "short_title" v
              | None => dpop meta "short_title"
              end in
  let meta := fold_left (fun m f => match dget state f with Some v => dset m f v | None => m end)
                RESTORED meta in
  let status := if is_s (get state "status") "in_progress" then VStr "open" else get state "status" in
  Execution.release_claim status meta.
Definition rollback_state (checkpoint : dict) (meta : Meta) : res dict :=
  check raise_if (truthy (get meta "owner") || truthy (get meta "claim_expires"))
          (RuntimeError "rollback requires the target task to have no active claim") ;;
  let* state := item checkpoint "state" in
  match state with
  | VDict s =>
      check raise_if (ne (get s "id") (get meta "id"))
              (RuntimeError "rollback checkpoint task does not match target task") ;;
      Ok s
  | _ => Raise (RuntimeError "rollback checkpoint task does not match target task")
  end.
Definition apply_rollback (args : Namespace) : st Meta string :=
  do* checkpoint := slift (fun _ => let* v := attr args "rollback_checkpoint" in mapping v) in
  do* state := slift (rollback_state checkpoint) in
  do smodify (restored state) ;;
  do* commit := slift (fun _ => item checkpoint "source_commit") in
  do smodify (fun meta => dset meta "checkpoint_commit" (VStr (str commit))) ;;
  do* name := slift (fun _ => item checkpoint "name") in
  sret ("Restored checkpoint " +:+ str name +:+ " from source commit " +:+ str commit +:+ ".").

(** ** Interaction gates *)
Definition artifact_of (label : string) (v : value) : res OracleGate.ArtifactRef :=
  match v with
  | VStr s =>
      let '(reference, separated, digest) := PyStr.partition "=" s in
      check raise_if (negb separated) (RuntimeError (label +:+ " must use REF=DIGEST")) ;;
      as_runtime (OracleGate.make_artifact reference digest)
  | _ => no_attr v "partition"
  end.
Definition _artifact_values (v : value) (label : string) : res (list OracleGate.ArtifactRef) :=
  let* items := iter v in mapr (artifact_of label) items.
Definition _human_session_values (args : Namespace) (recorded_at : string) : res value :=
  let session_id := getattr args "session_id" VNull in
  let request_ref := getattr args "request_ref" VNull in
  let activation := getattr args "activation" VNull in
  let version := getattr args "tui_contract_version" VNull in
  let given := [session_id; request_ref; activation; version] in
  if negb (existsb truthy given) then Ok VNull
  else
    check raise_if (ne (getattr args "action" VNull) (VStr "open"))
            (RuntimeError "human session metadata is valid only when opening a gate") ;;
    check raise_if (negb (forallb truthy given))
            (RuntimeError "human session metadata requires --session-id, --request-ref, --activation, and --tui-contract-version") ;;
    let* expected := attr args "expected_revision" in
    let* revision := int expected in
    Ok (VDict [("schema_version", VStr "1.0"); ("session_id", session_id); ("request_ref", request_ref);
               ("activation", activation); ("status", VStr "presenting"); ("task_revision", VInt revision);
               ("tui_contract_version", version); ("opened_at", VStr recorded_at)]).
Definition gate_event (args : Namespace) (meta : Meta) : res (OracleGate.InteractionEvent * value) :=
  let* stage := attr args "stage" in
  match OracleGate.stage_of (str stage) with
  | None => Raise (GateError "unknown interaction gate stage")
  | Some s =>
      let* id := item meta "id" in
      let* expected := attr args "expected_revision" in
      let* revision := int expected in
      let* action := attr args "action" in
      let* disposition := attr args "disposition" in
      let* before := (let* v := attr args "before" in _artifact_values v "--before") in
      let* after := (let* v := attr args "after" in _artifact_values v "--after") in
      let* public_ref := attr args "public_ref" in
      let event := OracleGate.Event (str id) revision s (str action) (str disposition) before after
                     (str public_ref) Execution.now_text in
      check OracleGate.event_check event ;;
      let* human := _human_session_values args Execution.now_text in
      Ok (event, human)
  end.
Definition apply_gate (args : Namespace) : st Meta string :=
  as_runtime_st (
    do* e := slift (gate_event args) in
    let '(event, human) := e in OracleGate.apply_event event human).

(** ** Dispatch and commit *)
Definition handler_of (kind : string) (args : Namespace) (tasks : list Meta) : option (st Meta string) :=
  let now := VStr Execution.now_text in
  let is_kind := String.eqb kind in
  if is_kind "claim" then Some (apply_claim args tasks)
  else if is_kind "promote" then Some (apply_promote args tasks)
  else if is_kind "pause" then Some (apply_pause args)
  else if is_kind "resume" then Some (apply_resume args)
  else if is_kind "unblock" then Some (apply_unblock args)
  else if is_kind "recover-expired" then Some (apply_recover_expired_transition args)
  else if is_kind "recover-execution" then Some (Execution.recover args)
  else if is_kind "abandon-execution" then Some (Execution.abandon args)
  else if is_kind "gate" then Some (apply_gate args)
  else if is_kind "retry-circuit" then Some (RetryCircuit.apply args now)
  else if is_kind "retry-circuit-reserve" then Some (RetryCircuit.apply_reserve args now)
  else if is_kind "retry-circuit-resolve" then Some (RetryCircuit.apply_resolve args now)
  else if is_kind "checkpoint" then Some (apply_checkpoint args)
  else if is_kind "rollback" then Some (apply_rollback args)
  else if is_kind "bind-spec" then Some (apply_bind_spec args)
  else if is_kind "bind-worktree" then Some (apply_bind_worktree args tasks)
  else if is_kind "repair-legacy-binding" then Some (Execution.repair args)
  else if is_kind "bind-envelope" then Some (apply_bind_envelope args)
  else if is_kind "replace-envelope" then Some (apply_replace_envelope args)
  else if is_kind "execution-start" then Some (Execution.start args)
  else if is_kind "execution-result" then Some (Execution.result args)
  else if is_kind "execution-finish" then Some (Execution.finish args)
  else if PyStr.mem kind ["change-drift"; "assumption"; "accept"; "repair-predicate-ledger"]
  then Some (other_transition kind args tasks)
  else None.
(** [args.autonomy_limits_policy] *)
Definition selected_policy (args : Namespace) : option dict :=
  match getattr args "autonomy_limits_policy" VNull with VDict d => Some d | _ => None end.
Definition lifecycle_transition_handler (kind : string) (args : Namespace) (tasks : list Meta)
    : option (st Meta string) :=
  if PyStr.startswith "autonomy-limits" kind then
    Some (do* r := Autonomy.transition Execution.require_active_binding_owner args (selected_policy args)
                     Execution.now_text in sret (fst r))
  else handler_of kind args tasks.
Definition apply_transition (kind : string) (args : Namespace) (tasks : list Meta) : st Meta string :=
  match lifecycle_transition_handler kind args tasks with
  | Some handler => handler
  | None => apply_owned_change args kind tasks
  end.
(** [meta["task_revision"] += 1; meta["updated_at"] = now()] *)
Definition next_revision (meta : Meta) : res Meta :=
  let* r := add_one_item meta "task_revision" in
  Ok (dset (dset meta "task_revision" (VInt r)) "updated_at" (VStr Execution.now_text)).
(** The task list with the task [meta] replaced. *)
Definition replace_task (task_id : value) (meta : Meta) (tasks : list Meta) : list Meta :=
  map (fun t => if eq (get t "id") task_id then meta else t) tasks.
(** [_mutate_fenced] on the stored task list: the transition runs on the located
    task, the result gets the next revision, and is stored only when it
    validates; a replay stores nothing and returns its message.  The rendered
    views, the journal text and the commit are not modelled; a failed
    validation restores the files, so the list is unchanged. *)
Definition locate (task_id : value) (tasks : list Meta) : res Meta :=
  match List.find (fun t => eq (get t "id") task_id) tasks with
  | Some meta => Ok meta
  | None => Raise (RuntimeError ("unknown task " +:+ str task_id))
  end.
Definition mutate (kind : string) (args : Namespace) (tasks : list Meta) : list Meta * res (option string) :=
  match (let* task := attr args "task" in let* meta := locate task tasks in Ok (task, meta)) with
  | Raise e => (tasks, Raise e)
  | Ok (task, meta) =>
      match apply_transition kind args tasks meta with
      | (_, Raise (IdempotentMutationError m)) => (tasks, Ok (Some m))
      | (_, Raise e) => (tasks, Raise e)
      | (meta', Ok _) =>
          match (let* next := next_revision meta' in
                 let tasks' := replace_task task next tasks in
                 let* errors := Validation.mutation_errors (str task +:+ ".md") next tasks' in
                 check raise_if (negb (bool_decide (errors = [])))
                         (RuntimeError (PyStr.join (String "010" "") errors)) ;;
                 Ok tasks') with
          | Ok tasks' => (tasks', Ok None)
          | Raise e => (tasks, Raise e)
          end
      end
  end.
End transitions.

(** ** Lemmas and properties *)
Section proofs.
  Context `{H : Host} `{S : Services} `{C : Checks}.

Lemma unknown_field name (meta : Meta) f : has meta f = true -> PyStr.mem f Validation.FIELDS = false ->
  name +:+ ": unknown field " +:+ f ∈ Validation.field_errors name meta.
Proof.
  intros Hh Hf. unfold Validation.field_errors. apply elem_of_app. right.
  apply list_elem_of_In, in_map_iff. exists f. split; [done|]. apply filter_In. rewrite Hf. split; [|done].
  by apply list_elem_of_In, has_elem.
Qed.

Lemma require_Ok c args rest u : require c args rest = Ok u -> c = true.
Proof. unfold require. destruct c; [done|]. intros H1. by apply rbind_Ok_inv in H1 as (e & _ & ?). Qed.

Lemma claim_inv args tasks (meta meta' : Meta) msg :
  apply_claim args tasks meta = (meta', Ok msg) ->
  exists owner lease identity expires, claim_admission args meta tasks = Ok tt /\
    attr args "owner" = Ok owner /\ attr args "lease_minutes" = Ok lease /\
    Execution.claimed_process_identity args = Ok identity /\ lease_until lease = Ok expires /\
    let m1 := dpop (dset (dset meta "owner" owner) "status" (VStr "in_progress")) "claim_process" in
    meta' = dset (if is_null identity then m1 else dset m1 "claim_process" identity) "claim_expires" expires.
Proof.
  unfold apply_claim. intros H1. apply sbind_Ok_inv in H1 as ([] & m1 & E & H1). apply slift_Ok_inv in E as [-> Ea].
  apply sbind_Ok_inv in H1 as (owner & m1 & E & H1). apply slift_Ok_inv in E as [-> Eo].
  apply sbind_Ok_inv in H1 as ([] & m1 & E & H1). apply smodify_Ok_inv in E. subst m1.
  apply sbind_Ok_inv in H1 as ([] & m1 & E & H1). unfold Execution.attach_claim_process in E.
  apply sbind_Ok_inv in E as ([] & m2 & Ep & E). apply smodify_Ok_inv in Ep. subst m2.
  apply sbind_Ok_inv in E as (identity & m2 & Ei & E). apply slift_Ok_inv in Ei as [-> Ei].
  apply sbind_Ok_inv in H1 as (expires & m3 & Ex & H1). apply slift_Ok_inv in Ex as [-> Ex].
  apply rbind_Ok_inv in Ex as (lease & El & Ex).
  apply sbind_Ok_inv in H1 as ([] & m3 & Em & H1). apply smodify_Ok_inv in Em. apply sret_Ok_inv in H1 as [-> _].
  exists owner, lease, identity, expires. split_and!; try done. cbv zeta. subst m3.
  destruct (is_null identity); [by apply sret_Ok_inv in E as [-> _] | by apply smodify_Ok_inv in E as ->].
Qed.

(** What a claim requires of the task and of the others. *)
Record claimable (args : Namespace) (meta : Meta) (tasks : list Meta) (owner : value) (lease : Z) : Prop :=
  Claimable {
    c_open : get meta "status" = VStr "open";
    c_lease : 0 < lease;
    c_dependencies : forall d, iter (get_or meta "depends_on" (VList [])) = Ok d ->
      forall v, v ∈ d -> satisfied tasks v = Ok true;
    c_gate : OracleGate.transition_allowed meta "claim" = Ok tt;
    c_free : forall t, t ∈ tasks -> get t "status" = VStr "in_progress" -> eq (get t "owner") owner = true ->
      exists task, attr args "task" = Ok task /\ eq (get t "id") task = true;
  }.
Lemma claim_admission_inv args (meta : Meta) tasks owner lease :
  claim_admission args meta tasks = Ok tt -> attr args "owner" = Ok owner ->
  attr args "lease_minutes" = Ok (VInt lease) -> claimable args meta tasks owner lease.
Proof.
  unfold claim_admission. intros H1 Ho Hl. apply rbind_Ok_inv in H1 as ([] & _ & H1).
  rewrite Hl in H1. cbn [rbind] in H1. apply rbind_Ok_inv in H1 as ([] & E1%raise_when_Ok & H1).
  apply rbind_Ok_inv in H1 as ([] & E2%require_Ok & H1). rewrite Ho in H1. cbn [rbind] in H1.
  apply rbind_Ok_inv in H1 as ([] & _ & H1). apply rbind_Ok_inv in H1 as ([] & E3 & H1).
  apply rbind_Ok_inv in H1 as ([] & E4 & H1). apply rbind_Ok_inv in H1 as (others & E5 & H1).
  destruct others; [|discriminate]. split.
  - by apply eq_str.
  - unfold le_z, le, cmp in E1. cbn [as_Z] in E1. apply Ok_inj in E1. by apply Z.leb_gt in E1.
  - intros d Hd v Hv. unfold require_dependencies, pending in E3. rewrite Hd in E3. cbn [rbind] in E3.
    apply rbind_Ok_inv in E3 as (left_ & Ef & E3).
    destruct left_; [|by apply rbind_Ok_inv in E3 as (? & _ & ?)].
    destruct (filterr_def _ _ _ _ Ef Hv) as [b Eb]. destruct b.
    + assert (v ∈ []) as Hn by (apply (filterr_elem _ _ _ v Ef); done). by apply not_elem_of_nil in Hn.
    + by apply Execution.py_not_false.
  - unfold require_gate, as_runtime in E4. destruct (OracleGate.transition_allowed _ _) as [[]|e]; [done|].
    by destruct (is_ValueError e).
  - intros t Ht Hs Hown. unfold held in E5. rewrite Ho in E5. cbn [rbind] in E5.
    apply rbind_Ok_inv in E5 as (task & Et & E5). apply rbind_Ok_inv in E5 as (sel & Es & E5).
    exists task. split; [done|]. destruct (filterr_def _ _ _ _ Es Ht) as [b Eb]. destruct b.
    + assert (t ∈ sel) as Hin by (by apply (filterr_elem _ _ _ t Es)).
      destruct (mapr_elem _ _ _ t E5 Hin) as (y & _ & Hy). by apply not_elem_of_nil in Hy.
    + unfold is_s in Eb. rewrite Hs, Hown in Eb. cbn in Eb. unfold get, get_or.
      unfold item in Eb. destruct (dget t "id") as [i|]; [|discriminate]. cbn in Eb.
      unfold ne in Eb. by destruct (eq i task).
Qed.


(** A granted lease is the text of a whole second of UTC that is still ahead. *)
Lemma lease_spec n v : 0 < n -> lease_until (VInt n) = Ok v ->
  exists w, v = VStr (isoformat (utc w)) /\ 0 <= w < max_wall /\ w mod second = 0 /\
    now < w /\ now + n * minute - second < w <= now + n * minute.
Proof.
  unfold lease_until. cbn [int rbind]. intros Hn E. apply rbind_Ok_inv in E as (t & Et & E).
  injection E as <-. unfold add_minutes, Execution.dt_now in Et. cbn [dt_wall dt_off utc] in Et.
  cbv zeta in Et. destruct (999999999 <? _); [discriminate|].
  destruct ((0 <=? now + n * minute) && (now + n * minute <? max_wall)) eqn:Eb; [|discriminate].
  apply andb_true_iff in Eb as [E1%Z.leb_le E2%Z.ltb_lt]. injection Et as <-.
  pose proof (floor_second (now + n * minute) (conj E1 E2)) as (F1 & F2 & F3).
  set (w := now + n * minute - (now + n * minute) mod second) in *. exists w.
  unfold minute, second in *. split_and!; try done; lia.
Qed.
Lemma parse_lease w : 0 <= w < max_wall -> w mod second = 0 ->
  Execution.parse_claim_expiry (VStr (isoformat (utc w))) = Ok (utc w).
Proof.
  intros Hw Hs. unfold Execution.parse_claim_expiry. rewrite parse_iso_isoformat by done.
  destruct (PyStr.truthy (isoformat (utc w))) eqn:Et.
  - cbn [naive utc dt_off]. unfold astimezone_utc, instant. cbn [utc dt_wall dt_off default].
    rewrite Z.sub_0_r. destruct (Z.leb_spec 0 w); [|lia]. by destruct (Z.ltb_spec w max_wall); [|lia].
  - exfalso. apply PyStr.truthy_false in Et. pose proof (parse_iso_isoformat w Hw Hs) as Hp.
    rewrite Et in Hp. discriminate.
Qed.
Lemma lease_active task_id w : 0 <= w < max_wall -> w mod second = 0 -> now < w ->
  Execution.active_expiry_errors task_id (VStr (isoformat (utc w))) = Ok [].
Proof.
  intros Hw Hs Hlt. unfold Execution.active_expiry_errors. rewrite parse_lease by done.
  destruct (truthy _) eqn:Et.
  - cbn [negb]. unfold dt_le, compare_with, Execution.dt_now, instant. cbn [utc dt_wall dt_off default rbind].
    rewrite !Z.sub_0_r. by destruct (Z.leb_spec w now); [lia|].
  - exfalso. cbn [truthy] in Et. apply PyStr.truthy_false in Et.
    pose proof (parse_iso_isoformat w Hw Hs) as Hp. rewrite Et in Hp. discriminate.
Qed.

(** A claim is granted only for an open task whose dependencies are all
    satisfied and whose gates allow it, to an owner that holds no other task in
    progress; it makes the task the owner's, with a lease that ends a positive
    number of whole minutes ahead (rounded down to a second) and that
    validation accepts as live, and changes nothing but the claim. *)
Theorem claim_grants_exclusive_lease args tasks (meta meta' : Meta) msg owner lease :
  apply_claim args tasks meta = (meta', Ok msg) ->
  attr args "owner" = Ok owner -> attr args "lease_minutes" = Ok (VInt lease) ->
  claimable args meta tasks owner lease /\
  get meta' "status" = VStr "in_progress" /\ get meta' "owner" = owner /\
  (exists w, get meta' "claim_expires" = VStr (isoformat (utc w)) /\
     now + lease * minute - second < w <= now + lease * minute /\
     Execution.parse_claim_expiry (get meta' "claim_expires") = Ok (utc w)) /\
  (forall task_id, Execution.active_expiry_errors task_id (get meta' "claim_expires") = Ok []) /\
  (forall k, k ∉ ["status"; "owner"; "claim_expires"; "claim_process"] -> dget meta' k = dget meta k).
Proof.
  intros (owner' & lease' & identity & expires & Ha & Ho & Hl & _ & Hx & ->)%claim_inv Ho' Hl'.
  rewrite Ho' in Ho. injection Ho as <-. rewrite Hl' in Hl. injection Hl as <-.
  pose proof (claim_admission_inv _ _ _ _ _ Ha Ho' Hl') as Hc. split; [done|].
  apply lease_spec in Hx as (w & -> & Hw & Hs & Hlt & Hb); [|apply Hc].
  set (m1 := dpop _ _). cbv zeta.
  assert (forall k, k <> "claim_process" ->
            get (if is_null identity then m1 else dset m1 "claim_process" identity) k = get m1 k) as Hk.
  { intros k Hk. destruct (is_null identity); [done|]. rewrite get_dset.
    by destruct (String.eqb_spec "claim_process" k). }
  split_and!.
  - rewrite Execution.dset_get, Hk by done. unfold m1. by rewrite Execution.dpop_get, get_dset.
  - rewrite Execution.dset_get, Hk by done. unfold m1. by rewrite Execution.dpop_get, Execution.dset_get, get_dset.
  - exists w. rewrite get_dset. cbn [String.eqb Ascii.eqb Bool.eqb].
    split_and!; [done | apply Hb | apply Hb | by apply parse_lease].
  - intros task_id. rewrite get_dset. cbn [String.eqb Ascii.eqb Bool.eqb]. by apply lease_active.
  - intros k Hn. rewrite !not_elem_of_cons in Hn. destruct Hn as (N1 & N2 & N3 & N4 & _).
    rewrite dget_dset_ne by done. destruct (is_null identity); unfold m1;
      rewrite ?dget_dset_ne, dget_dpop_ne, !dget_dset_ne; done.
Qed.

(** ** The execution fence *)
(** The transitions a recorded reservation blocks. *)
Definition FENCED : list string :=
  ["pause"; "release"; "heartbeat"; "update"; "recover-expired"; "bind-worktree"; "bind-envelope";
   "replace-envelope"].
Definition fails {A} (m : st Meta A) (meta : Meta) : Prop := exists meta' e, m meta = (meta', Raise e).
Lemma fails_lift {A B} (f : Meta -> res A) (k : A -> st Meta B) meta e :
  f meta = Raise e -> fails (sbind (slift f) k) meta.
Proof. intros E. exists meta, e. unfold sbind, slift. by rewrite E. Qed.
Lemma fails_next {A B} (f : Meta -> res A) (k : A -> st Meta B) meta :
  (forall a, f meta = Ok a -> fails (k a) meta) -> fails (sbind (slift f) k) meta.
Proof.
  intros Hk. destruct (f meta) as [a|e] eqn:E; [|by eapply fails_lift].
  destruct (Hk a eq_refl) as (m' & e & Hm). exists m', e. unfold sbind, slift. by rewrite E.
Qed.
Lemma fence_blocks (meta : Meta) : get meta "execution_reservation" <> VNull ->
  exists e, Execution.require_no_execution_reservation meta = Raise e.
Proof.
  intros Hr. unfold Execution.require_no_execution_reservation.
  destruct (get meta "execution_reservation") eqn:E; try done; eexists; done.
Qed.
Lemma fence_owned args kind tasks (meta : Meta) : get meta "execution_reservation" <> VNull ->
  kind ∈ ["release"; "heartbeat"; "update"] -> fails (apply_owned_change args kind tasks) meta.
Proof.
  intros Hr Hk. unfold apply_owned_change. apply fails_next. intros [] Ha. exfalso.
  unfold require_owned_change_admission in Ha. apply rbind_Ok_inv in Ha as ([] & _ & Ha).
  apply rbind_Ok_inv in Ha as (owner & _ & Ha). apply rbind_Ok_inv in Ha as ([] & _ & Ha).
  apply rbind_Ok_inv in Ha as ([] & H1 & Ha). apply rbind_Ok_inv in Ha as ([] & H2%raise_if_Ok & _).
  rewrite !elem_of_cons in Hk. destruct Hk as [->|[->|[->|Hk]]]; [..|by apply not_elem_of_nil in Hk].
  - destruct (fence_blocks meta Hr) as [e E]. cbn [PyStr.mem String.eqb Ascii.eqb Bool.eqb orb] in H1. congruence.
  - cbn in H2. by destruct (get meta "execution_reservation").
  - cbn in H2. by destruct (get meta "execution_reservation").
Qed.

(** While a reservation is recorded, live or expired, the task cannot be
    paused, released, renewed, updated, recovered or rebound: each of these
    transitions raises. *)
Theorem reservation_blocks_lifecycle kind args tasks (meta : Meta) :
  get meta "execution_reservation" <> VNull -> kind ∈ FENCED ->
  exists meta' e, apply_transition kind args tasks meta = (meta', Raise e).
Proof.
  intros Hr Hk. change (fails (apply_transition kind args tasks) meta).
  destruct (fence_blocks meta Hr) as [e E]. unfold FENCED in Hk. rewrite !elem_of_cons in Hk.
  destruct Hk as [->|[->|[->|[->|[->|[->|[->|[->|Hk]]]]]]]]; [..|by apply not_elem_of_nil in Hk];
    cbn [apply_transition lifecycle_transition_handler handler_of PyStr.startswith String.prefix
         String.eqb Ascii.eqb Bool.eqb PyStr.mem orb].
  - unfold apply_pause. apply fails_next. intros [] _. apply fails_next. intros ? _.
    apply fails_next. intros [] _. by eapply fails_lift.
  - apply fence_owned; [done|]. set_solver.
  - apply fence_owned; [done|]. set_solver.
  - apply fence_owned; [done|]. set_solver.
  - by eapply fails_lift.
  - unfold apply_bind_worktree. apply fails_next. intros [] _. by eapply fails_lift.
  - unfold apply_bind_envelope. apply fails_next. intros [] _. by eapply fails_lift.
  - unfold apply_replace_envelope. apply fails_next. intros [] _. by eapply fails_lift.
Qed.
End proofs.

(** ** Witnesses *)
Module Sample.
#[export] Instance services : Services := {|
  valid_binding_branch := is_str;
  load_session_records _ := Ok [];
  load_envelope _ := Ok (None, ["unreadable"]);
  task_spec_errors _ := Ok [];
  spec_done_error _ := Ok None;
  drift_done_error _ := Ok None;
  assumption_done_error _ _ := Ok None;
  other_transition _ _ _ := sret "";
|}.
#[export] Instance checks : Checks := {|
  valid_binding_worktree := is_str;
  private_text_errors _ := [];
  drift_metadata_error _ := Ok None;
  assumption_metadata_error _ := Ok None;
  plan_is_file _ := true;
  admission_errors _ := Ok [];
|}.
Definition base (id status : string) : Meta := [
  ("schema_version", VStr "1.0"); ("id", VStr id); ("title", VStr "Title"); ("status", VStr status);
  ("priority", VStr "P1"); ("summary", VStr "Summary"); ("next_action", VStr "Next");
  ("task_revision", VInt 3); ("updated_at", VStr "2026-01-01T00:00:00+00:00")].
Definition open_task : Meta := base "AR-0001" "open" ++ [("depends_on", VList [VStr "AR-0002"])].
Definition tasks : list Meta := [open_task; base "AR-0002" "done"].
Definition claim_args : Namespace := [
  ("task", VStr "AR-0001"); ("owner", VStr "ann"); ("lease_minutes", VInt 30)].
End Sample.
#[local] Existing Instance Execution.Sample.host.
#[local] Existing Instance Sample.services.
#[local] Existing Instance Sample.checks.

Definition sample_claimed : Meta := fst (apply_claim Sample.claim_args Sample.tasks Sample.open_task).
Lemma claim_grants_exclusive_lease_witness :
  get sample_claimed "claim_expires" = VStr "2026-01-02T00:30:00+00:00" /\
  claimable Sample.claim_args Sample.open_task Sample.tasks (VStr "ann") 30 /\
  get sample_claimed "owner" = VStr "ann".
Proof.
  split; [vm_compute; reflexivity|].
  destruct (claim_grants_exclusive_lease Sample.claim_args Sample.tasks Sample.open_task sample_claimed
              "Claimed by ann." (VStr "ann") 30) as (H1 & _ & H2 & _);
    [vm_compute; reflexivity | reflexivity | reflexivity |].
  split; [exact H1 | exact H2].
Defined.
Lemma reservation_blocks_lifecycle_witness :
  exists meta' e, apply_transition "update" [("owner", VStr "ann")] [Execution.Sample.task]
                    Execution.Sample.task = (meta', Raise e).
Proof.
  apply (reservation_blocks_lifecycle "update" [("owner", VStr "ann")] [Execution.Sample.task]
           Execution.Sample.task); [discriminate | set_solver].
Defined.
End Lifecycle.
