(* ===== verification/Commit.v ===== *)
(** * Commits

    What the fenced commit of a mutation ([handoffctl._mutate_fenced], the
    definition [Lifecycle.mutate]) guarantees about the stored task list: the
    fields each transition writes, atomicity, the revision as a fence between
    writers, and the consistency of every list it stores. *)
From stdpp Require Import gmap.
From S2P Require Import Prelude PyStr Regex PyVal Frame PyTime PyJson RetryCircuit OracleGate.
From S2P Require Import Graph Envelope Execution Sessions Autonomy Validation Lifecycle.

Module Commit.
Import Py PyTime Frame.

(** ** The fields a transition writes *)
Definition RELEASED : list string := ["status"; "owner"; "claim_expires"; "claim_process"].
Definition WRITES : list (string * list string) := [
  ("claim", RELEASED); ("promote", ["status"]); ("pause", RELEASED); ("resume", ["next_action"; "status"]);
  ("unblock", ["status"]); ("recover-expired", ["retry_circuit"; "next_action"] ++ RELEASED);
  ("recover-execution", ["execution_reservation"]);
  ("abandon-execution", ["execution_abandonments"; "execution_reservation"] ++ RELEASED);
  ("gate", ["oracle_gate"]); ("retry-circuit", ["retry_circuit"]);
  ("retry-circuit-reserve", ["retry_circuit"]); ("retry-circuit-resolve", ["retry_circuit"]);
  ("checkpoint", ["checkpoint_commit"]); ("rollback", "short_title" :: Lifecycle.RESTORED ++ RELEASED);
  ("bind-spec", ["spec_ref"; "spec_revision"]); ("bind-worktree", ["branch"; "worktree_key"]);
  ("repair-legacy-binding", ["worktree_key"]); ("bind-envelope", Envelope.BINDING_FIELDS);
  ("replace-envelope", "execution_envelope_replacements" :: Envelope.BINDING_FIELDS);
  ("execution-start", ["execution_reservation"; "claim_expires"]);
  ("execution-result", ["execution_result"]); ("execution-finish", ["execution_reservation"]);
  ("heartbeat", ["claim_expires"]); ("release", RELEASED)].
(** The transitions of the interface [Services]. *)
Definition OTHERS : list string := ["change-drift"; "assumption"; "accept"; "repair-predicate-ledger"].
Definition writes (kind : string) : list string :=
  if PyStr.startswith "autonomy-limits" kind then ["autonomy_limits"]
  else match List.find (fun e => String.eqb kind e.1) WRITES with
       | Some (_, fields) => fields
       | None => Lifecycle.UPDATED ++ ["autonomy_limits"]
       end.

(** The interface's transitions change neither the identity nor the revision. *)
Definition IDENTITY : list string := ["id"; "task_revision"].
Class ServicesLaws (S : Services) : Prop :=
  other_keeps_identity : forall kind args tasks k, k ∈ IDENTITY -> keeps k (other_transition kind args tasks).

Section frames.
  Context `{H : Host} `{S : Services} `{C : Checks} (k : string).

Lemma keeps_runtime {A} (m : st Meta A) : keeps k m -> keeps k (Lifecycle.as_runtime_st m).
Proof. intros Hm s. specialize (Hm s). unfold Lifecycle.as_runtime_st. by destruct (m s). Qed.
Lemma keeps_cleanup at_ : k ∉ ["retry_circuit"] -> keeps k (RetryCircuit.cleanup_expired at_).
Proof. intros Hk. unfold RetryCircuit.cleanup_expired. frame. Qed.
Lemma keeps_no_live at_ : k ∉ ["retry_circuit"] -> keeps k (RetryCircuit.require_no_live_reservation at_).
Proof. intros Hk. unfold RetryCircuit.require_no_live_reservation. frame. by apply keeps_cleanup. Qed.
Lemma keeps_failure i f w at_ : k ∉ ["retry_circuit"] -> keeps k (RetryCircuit.record_failure i f w at_).
Proof. intros Hk. unfold RetryCircuit.record_failure. frame. Qed.
Lemma keeps_retry args at_ : k ∉ ["retry_circuit"] -> keeps k (RetryCircuit.apply args at_).
Proof.
  intros Hk. unfold RetryCircuit.apply, RetryCircuit.recover. frame. by apply keeps_no_live.
Qed.
Lemma keeps_reserve args at_ : k ∉ ["retry_circuit"] -> keeps k (RetryCircuit.apply_reserve args at_).
Proof.
  intros Hk. unfold RetryCircuit.apply_reserve, RetryCircuit.reserve. frame. by apply keeps_cleanup.
Qed.
Lemma keeps_resolve args at_ : k ∉ ["retry_circuit"] -> keeps k (RetryCircuit.apply_resolve args at_).
Proof.
  intros Hk. unfold RetryCircuit.apply_resolve, RetryCircuit.resolve. frame. by apply keeps_failure.
Qed.

Lemma keeps_write d : k ∉ ["autonomy_limits"] -> keeps k (Autonomy.write d).
Proof. intros Hk. unfold Autonomy.write. frame. Qed.
Lemma keeps_state sel at_ : k ∉ ["autonomy_limits"] -> keeps k (Autonomy._state sel at_).
Proof. intros Hk. unfold Autonomy._state. frame. Qed.
Lemma keeps_bump d j n : k ∉ ["autonomy_limits"] -> keeps k (Autonomy.bump d j n).
Proof. intros Hk. unfold Autonomy.bump. frame. by apply keeps_write. Qed.
Lemma keeps_autonomy f args sel at_ :
  k ∉ ["autonomy_limits"] -> keeps k (Autonomy.transition f args sel at_).
Proof.
  intros Hk. unfold Autonomy.transition, Autonomy.apply_dispose, Autonomy.apply_preflight, Autonomy.apply_record.
  frame; by first [apply keeps_write | apply keeps_bump | apply keeps_state].
Qed.
Lemma keeps_carry args kind : k ∉ ["autonomy_limits"] -> keeps k (Autonomy.carry_run_hold args kind).
Proof. intros Hk. unfold Autonomy.carry_run_hold. frame; by apply keeps_write. Qed.

Lemma leaves_release v : k ∉ RELEASED -> leaves k (Execution.release_claim v).
Proof.
  intros Hk. change (leaves k (fun meta => Execution.release_claim v meta)). unfold Execution.release_claim.
  frame.
Qed.
Lemma leaves_updated args : k ∉ Lifecycle.UPDATED -> leaves k (Lifecycle.updated args).
Proof.
  intros Hk. apply leaves_fold. intros j Hj. cbv zeta. destruct (is_null _); [by intros s|].
  apply leaves_dset; [by intros -> | by intros s].
Qed.
Lemma leaves_restored state :
  k ∉ "short_title" :: Lifecycle.RESTORED ++ RELEASED -> leaves k (Lifecycle.restored state).
Proof.
  intros Hk s. unfold Lifecycle.restored. rewrite leaves_release by not_written.
  rewrite leaves_fold.
  - destruct (dget state "short_title"); [apply dget_dset_ne | apply dget_dpop_ne]; not_written.
  - intros j Hj. destruct (dget state j); [|by intros t]. intros t. apply dget_dset_ne.
    intros ->. apply Hk, elem_of_cons. right. apply elem_of_app. by left.
Qed.

(** [frame] for a handler, with the frames of the operations it calls. *)
Ltac frame_handler :=
  frame;
  first [ apply keeps_no_live; not_written | apply keeps_carry; not_written
        | apply leaves_release; not_written | apply leaves_updated; not_written
        | apply leaves_restored; not_written | idtac ].

Lemma keeps_claim args tasks : k ∉ RELEASED -> keeps k (Lifecycle.apply_claim args tasks).
Proof. intros Hk. unfold Lifecycle.apply_claim, Execution.attach_claim_process. frame_handler. Qed.
Lemma keeps_status args tasks : k ∉ ["status"] ->
  keeps k (Lifecycle.apply_promote args tasks) /\ keeps k (Lifecycle.apply_unblock args).
Proof. intros Hk. unfold Lifecycle.apply_promote, Lifecycle.apply_unblock. split; frame_handler. Qed.
Lemma keeps_pause args : k ∉ RELEASED -> keeps k (Lifecycle.apply_pause args).
Proof. intros Hk. unfold Lifecycle.apply_pause. frame_handler. Qed.
Lemma keeps_resume args : k ∉ ["next_action"; "status"] -> keeps k (Lifecycle.apply_resume args).
Proof. intros Hk. unfold Lifecycle.apply_resume. frame_handler. Qed.
Lemma keeps_recover_expired args : k ∉ ["retry_circuit"; "next_action"] ++ RELEASED ->
  keeps k (Lifecycle.apply_recover_expired_transition args).
Proof.
  intros Hk. unfold Lifecycle.apply_recover_expired_transition, Lifecycle.apply_recover_expired. frame_handler.
Qed.
Lemma keeps_reservation args : k ∉ ["execution_reservation"] ->
  keeps k (Execution.recover args) /\ keeps k (Execution.finish args).
Proof. intros Hk. unfold Execution.recover, Execution.finish. split; frame_handler. Qed.
Lemma keeps_abandon args : k ∉ ["execution_abandonments"; "execution_reservation"] ++ RELEASED ->
  keeps k (Execution.abandon args).
Proof. intros Hk. unfold Execution.abandon. frame_handler. Qed.
Lemma keeps_start args : k ∉ ["execution_reservation"; "claim_expires"] -> keeps k (Execution.start args).
Proof. intros Hk. unfold Execution.start. frame_handler. Qed.
Lemma keeps_result args : k ∉ ["execution_result"] -> keeps k (Execution.result args).
Proof. intros Hk. unfold Execution.result. frame_handler. Qed.
Lemma keeps_gate args : k ∉ ["oracle_gate"] -> keeps k (Lifecycle.apply_gate args).
Proof.
  intros Hk. unfold Lifecycle.apply_gate, OracleGate.apply_event. apply keeps_runtime. frame_handler.
Qed.
Lemma keeps_checkpoint args : k ∉ ["checkpoint_commit"] -> keeps k (Lifecycle.apply_checkpoint args).
Proof. intros Hk. unfold Lifecycle.apply_checkpoint. frame_handler. Qed.
Lemma keeps_rollback args : k ∉ "short_title" :: Lifecycle.RESTORED ++ RELEASED ->
  keeps k (Lifecycle.apply_rollback args).
Proof. intros Hk. unfold Lifecycle.apply_rollback. frame_handler. Qed.
Lemma keeps_bind_spec args : k ∉ ["spec_ref"; "spec_revision"] -> keeps k (Lifecycle.apply_bind_spec args).
Proof. intros Hk. unfold Lifecycle.apply_bind_spec. frame_handler. Qed.
Lemma keeps_bind_worktree args tasks : k ∉ ["branch"; "worktree_key"] ->
  keeps k (Lifecycle.apply_bind_worktree args tasks).
Proof. intros Hk. unfold Lifecycle.apply_bind_worktree. frame_handler. Qed.
Lemma keeps_repair args : k ∉ ["worktree_key"] -> keeps k (Execution.repair args).
Proof. intros Hk. unfold Execution.repair. frame_handler. Qed.
Lemma keeps_bind_envelope args : k ∉ Envelope.BINDING_FIELDS -> keeps k (Lifecycle.apply_bind_envelope args).
Proof. intros Hk. unfold Lifecycle.apply_bind_envelope. frame_handler. Qed.
Lemma keeps_replace_envelope args : k ∉ "execution_envelope_replacements" :: Envelope.BINDING_FIELDS ->
  keeps k (Lifecycle.apply_replace_envelope args).
Proof. intros Hk. unfold Lifecycle.apply_replace_envelope, Envelope.replace_bound. frame_handler. Qed.
Lemma keeps_heartbeat args : k ∉ ["claim_expires"] -> keeps k (Lifecycle.heartbeat args).
Proof. intros Hk. unfold Lifecycle.heartbeat. frame_handler. Qed.
Lemma keeps_release args : k ∉ RELEASED -> keeps k (Lifecycle.release args).
Proof. intros Hk. unfold Lifecycle.release. frame_handler. Qed.
Lemma keeps_update args kind : k ∉ Lifecycle.UPDATED ++ ["autonomy_limits"] ->
  keeps k (Lifecycle.update_task args kind).
Proof. intros Hk. unfold Lifecycle.update_task. frame_handler. Qed.

Lemma keeps_owned_change args kind tasks :
  k ∉ (if String.eqb kind "heartbeat" then ["claim_expires"]
       else if String.eqb kind "release" then RELEASED else Lifecycle.UPDATED ++ ["autonomy_limits"]) ->
  keeps k (Lifecycle.apply_owned_change args kind tasks).
Proof.
  intros Hk. unfold Lifecycle.apply_owned_change. apply keeps_bind; [apply keeps_lift|]. intros _.
  destruct (String.eqb kind "heartbeat"); [by apply keeps_heartbeat|].
  destruct (String.eqb kind "release"); [by apply keeps_release | by apply keeps_update].
Qed.
(** Whatever a transition does, it changes none but its own fields. *)
Lemma frame_spec kind args tasks : PyStr.mem kind OTHERS = false -> k ∉ writes kind ->
  keeps k (Lifecycle.apply_transition kind args tasks).
Proof.
  intros Ho Hk. unfold writes in Hk. unfold Lifecycle.apply_transition, Lifecycle.lifecycle_transition_handler.
  destruct (PyStr.startswith "autonomy-limits" kind).
  { frame. by apply keeps_autonomy. }
  unfold Lifecycle.handler_of, WRITES in *. fold OTHERS. rewrite Ho. cbv beta zeta. cbn [List.find fst] in Hk.
  repeat match goal with
  | |- context [String.eqb kind ?s] => destruct (String.eqb_spec kind s) as [->|?]; cbn in Hk
  end; auto using keeps_claim, keeps_pause, keeps_resume, keeps_recover_expired, keeps_abandon, keeps_start,
    keeps_result, keeps_gate, keeps_checkpoint, keeps_rollback, keeps_bind_spec, keeps_bind_worktree,
    keeps_repair, keeps_bind_envelope, keeps_replace_envelope, keeps_retry, keeps_reserve, keeps_resolve;
    try by apply keeps_status.
  all: try by apply keeps_reservation.
  apply keeps_owned_change. by destruct (String.eqb kind "heartbeat"), (String.eqb kind "release").
Qed.
End frames.

(** ** Atomic commits *)
Section commits.
  Context `{H : Host} `{S : Services} `{L : !ServicesLaws S} `{C : Checks}.

Lemma writes_identity kind k : k ∈ IDENTITY -> k ∉ writes kind.
Proof.
  intros Hk Hw. apply PyStr.mem_spec in Hw. unfold writes in Hw.
  assert (forallb (fun e => negb (PyStr.mem k e.2)) WRITES = true /\
          PyStr.mem k ["autonomy_limits"] = false /\ PyStr.mem k (Lifecycle.UPDATED ++ ["autonomy_limits"]) = false)
    as (E1 & E2 & E3).
  { unfold IDENTITY in Hk. rewrite !elem_of_cons in Hk.
    destruct Hk as [->|[->|Hk]]; [by vm_compute..|]. by apply not_elem_of_nil in Hk. }
  destruct (PyStr.startswith _ _); [congruence|]. destruct (List.find _ _) as [[n fields]|] eqn:Ef; [|congruence].
  apply find_some in Ef as [Hin _]. rewrite forallb_forall in E1. specialize (E1 _ Hin). cbn in E1.
  by rewrite Hw in E1.
Qed.
Lemma transition_keeps_identity kind args tasks k : k ∈ IDENTITY ->
  keeps k (Lifecycle.apply_transition kind args tasks).
Proof using L.
  intros Hk. destruct (PyStr.mem kind OTHERS) eqn:Eo; [|by apply frame_spec, writes_identity].
  unfold Lifecycle.apply_transition, Lifecycle.lifecycle_transition_handler.
  apply PyStr.mem_spec in Eo. unfold OTHERS in Eo. rewrite !elem_of_cons in Eo.
  destruct Eo as [->|[->|[->|[->|Eo]]]]; [..|by apply not_elem_of_nil in Eo]; cbn; by apply other_keeps_identity.
Qed.

(** A mutation that does not commit stores nothing. *)
Lemma mutate_uncommitted kind args tasks tasks' r :
  Lifecycle.mutate kind args tasks = (tasks', r) -> r <> Ok None -> tasks' = tasks.
Proof.
  unfold Lifecycle.mutate. intros E Hr. destruct (rbind _ _) as [[task meta]|e]; [|congruence].
  destruct (Lifecycle.apply_transition _ _ _ _) as [meta' [m|e]].
  - destruct (rbind _ _); congruence.
  - destruct e; congruence.
Qed.
Lemma mutate_committed kind args tasks tasks' :
  Lifecycle.mutate kind args tasks = (tasks', Ok None) ->
  exists task meta meta' next msg,
    attr args "task" = Ok task /\ Lifecycle.locate task tasks = Ok meta /\
    Lifecycle.apply_transition kind args tasks meta = (meta', Ok msg) /\
    Lifecycle.next_revision meta' = Ok next /\ tasks' = Lifecycle.replace_task task next tasks /\
    Validation.mutation_errors (str task +:+ ".md") next tasks' = Ok [].
Proof.
  unfold Lifecycle.mutate. intros E. destruct (rbind _ _) as [[task meta]|e] eqn:El; [|congruence].
  apply rbind_Ok_inv in El as (task0 & Ht & El). apply rbind_Ok_inv in El as (meta0 & Hl & El).
  apply Ok_inj in El. injection El as -> ->.
  destruct (Lifecycle.apply_transition _ _ _ _) as [meta' [m|e]] eqn:Ea; [|destruct e; congruence].
  destruct (rbind _ _) as [out|e] eqn:Ec; [|congruence]. injection E as <-.
  apply rbind_Ok_inv in Ec as (next & En & Ec). cbv zeta in Ec. apply rbind_Ok_inv in Ec as (errors & Ev & Ec).
  apply rbind_Ok_inv in Ec as ([] & Ee & Ec). apply Ok_inj in Ec. subst out.
  apply raise_if_Ok, negb_false_iff, bool_decide_eq_true in Ee. subst errors.
  by exists task, meta, meta', next, m.
Qed.

(** The revision of a stored task. *)
Definition revision (meta : Meta) : Z := default 0 (as_Z (get meta "task_revision")).
Lemma next_revision_inv (meta next : Meta) : Lifecycle.next_revision meta = Ok next ->
  revision next = revision meta + 1 /\ (exists r, as_Z (get meta "task_revision") = Some r) /\
  forall k, k ∉ ["task_revision"; "updated_at"] -> dget next k = dget meta k.
Proof.
  unfold Lifecycle.next_revision, add_one_item. intros E. apply rbind_Ok_inv in E as (r & E1 & E).
  apply Ok_inj in E. apply rbind_Ok_inv in E1 as (v & Ev & E1). apply item_get in Ev.
  assert (exists z, as_Z v = Some z /\ r = z + 1) as (z & Ez & ->).
  { destruct v; try discriminate; cbn in *; eexists; split; try done; congruence. }
  unfold revision. subst next. rewrite Ev, Ez. split_and!.
  - by rewrite Execution.dset_get, get_dset by done.
  - by exists z.
  - intros k Hk. rewrite !not_elem_of_cons in Hk. destruct Hk as (? & ? & _).
    by rewrite !dget_dset_ne by done.
Qed.
Lemma locate_inv (task : value) tasks (meta : Meta) : Lifecycle.locate task tasks = Ok meta ->
  (exists i, tasks !! i = Some meta) /\ eq (get meta "id") task = true.
Proof.
  unfold Lifecycle.locate. destruct (List.find _ _) as [m|] eqn:E; [|discriminate]. intros [= <-].
  apply find_some in E as [Hin Hid]. split; [|done].
  apply list_elem_of_lookup_1. by apply list_elem_of_In.
Qed.
(** With unique identifiers the replacement touches one position. *)
Lemma replace_insert (task : value) tasks i (meta next : Meta) :
  tasks !! i = Some meta -> eq (get meta "id") task = true ->
  NoDup (map Graph.id_of (Lifecycle.replace_task task next tasks)) ->
  Lifecycle.replace_task task next tasks = <[i := next]> tasks.
Proof.
  intros Hi He Hn. apply list_eq. intros j. unfold Lifecycle.replace_task in *. rewrite list_lookup_fmap.
  destruct (decide (i = j)) as [<-|Hij].
  { rewrite Hi, list_lookup_insert_eq by (by eapply lookup_lt_Some). cbn. by rewrite He. }
  rewrite list_lookup_insert_ne by done. destruct (tasks !! j) as [m|] eqn:Ej; [|done]. cbn.
  destruct (eq (get m "id") task) eqn:Em; [|done]. exfalso. apply Hij.
  apply (NoDup_lookup _ i j (Graph.id_of next) Hn); rewrite !list_lookup_fmap; [rewrite Hi|rewrite Ej];
    cbn; by rewrite ?He, ?Em.
Qed.

(** ** The abstract store: a revision per task *)
Definition versions (tasks : list Meta) : list (string * Z) :=
  map (fun m => (Graph.id_of m, revision m)) tasks.
Definition advance (t : string) (v : list (string * Z)) : list (string * Z) :=
  map (fun e => if String.eqb e.1 t then (e.1, e.2 + 1) else e) v.
Lemma versions_insert tasks i (meta next : Meta) :
  tasks !! i = Some meta -> Graph.id_of next = Graph.id_of meta -> revision next = revision meta + 1 ->
  NoDup (map Graph.id_of (<[i := next]> tasks)) ->
  versions (<[i := next]> tasks) = advance (Graph.id_of meta) (versions tasks).
Proof.
  intros Hi Hid Hr Hn. apply list_eq. intros j. unfold versions, advance.
  rewrite !list_lookup_fmap. destruct (decide (i = j)) as [<-|Hij].
  { rewrite list_lookup_insert_eq by (by eapply lookup_lt_Some). rewrite Hi. cbn -[revision].
    by rewrite Hid, Hr, String.eqb_refl. }
  rewrite list_lookup_insert_ne by done. destruct (tasks !! j) as [m|] eqn:Ej; [|done]. cbn -[revision].
  destruct (String.eqb_spec (Graph.id_of m) (Graph.id_of meta)) as [E|]; [|done]. exfalso. apply Hij.
  apply (NoDup_lookup _ i j (Graph.id_of meta) Hn); rewrite list_lookup_fmap.
  - rewrite list_lookup_insert_eq by (by eapply lookup_lt_Some). cbn. by rewrite Hid.
  - rewrite list_lookup_insert_ne, Ej by done. cbn. by rewrite E.
Qed.

(** The effect of one commit. *)
Record committed (kind : string) (args : Namespace) (tasks tasks' : list Meta) (i : nat)
    (meta next : Meta) : Prop := Committed {
  cm_task : attr args "task" = Ok (VStr (Graph.id_of meta));
  cm_here : tasks !! i = Some meta;
  cm_stored : tasks' = <[i := next]> tasks;
  cm_identity : get next "id" = get meta "id" /\ exists s, get meta "id" = VStr s;
  cm_revision : revision next = revision meta + 1 /\ 1 <= revision next;
  cm_frame : PyStr.mem kind OTHERS = false ->
    forall k, k ∉ ["task_revision"; "updated_at"] ++ writes kind -> dget next k = dget meta k;
  cm_valid : Validation.mutation_errors (Graph.id_of meta +:+ ".md") next tasks' = Ok [];
  cm_transition : exists meta' msg, Lifecycle.apply_transition kind args tasks meta = (meta', Ok msg) /\
    Lifecycle.next_revision meta' = Ok next;
}.
Lemma commit_inv kind args tasks tasks' :
  Lifecycle.mutate kind args tasks = (tasks', Ok None) -> exists i meta next, committed kind args tasks tasks' i meta next.
Proof using L.
  intros (task & meta & meta' & next & msg & Ht & Hl & Ha & Hn & -> & Hv)%mutate_committed.
  pose proof (locate_inv _ _ _ Hl) as [[i Hi] He]. pose proof (next_revision_inv _ _ Hn) as (Hr & _ & Hf).
  assert (forall k, k ∈ IDENTITY -> dget meta' k = dget meta k) as Hk.
  { intros k Hk. by apply (keeps_Ok k _ _ _ _ (transition_keeps_identity kind args tasks k Hk) Ha). }
  pose proof (Validation.mutation_errors_nil _ _ _ Hv) as (Hfs & Hvals & _ & (sc & Hcl) & Hg).
  pose proof (Validation.well_typed_spec _ _ _ _ Hfs Hvals Hcl) as Hw.
  pose proof (Validation.wt_id _ Hw) as (s & Hs & _). pose proof (Validation.wt_revision _ Hw) as (r & Er & Hr1).
  apply Validation.global_errors_nil in Hg as [Hu _ _ _ _].
  assert (get next "id" = get meta "id") as Hid.
  { unfold get, get_or. rewrite Hf by set_solver. by rewrite (Hk "id") by set_solver. }
  assert (task = VStr s) as -> by (apply eq_str_l; congruence).
  assert (Graph.id_of meta = s) as Hs'.
  { unfold Graph.id_of. unfold get, get_or in Hid, Hs. destruct (dget meta "id") eqn:E; [|congruence].
    unfold get_or. rewrite E. by replace v with (VStr s) by congruence. }
  subst s. exists i, meta, next. split; try done.
  - by apply (replace_insert _ _ i meta).
  - split; [done|]. exists (Graph.id_of meta). congruence.
  - split; [|unfold revision; by rewrite Er]. rewrite Hr. unfold revision, get, get_or.
    by rewrite (Hk "task_revision") by set_solver.
  - intros Ho k Hn1. rewrite Hf by set_solver.
    apply (keeps_Ok k _ _ _ _ (frame_spec k kind args tasks Ho ltac:(set_solver)) Ha).
  - by exists meta', msg.
Qed.
End commits.

(** ** The revision fence *)
(** Success implies a condition on the state the computation started from. *)
Definition guards {A} (P : Meta -> Prop) (m : st Meta A) : Prop :=
  forall s s' a, m s = (s', Ok a) -> P s.
Lemma guards_lift {A} (P : Meta -> Prop) (f : Meta -> res A) :
  (forall s a, f s = Ok a -> P s) -> guards P (slift f).
Proof. intros Hf s s' a E. apply slift_Ok_inv in E as [_ E]. by eapply Hf. Qed.
Lemma guards_here {A B} (P : Meta -> Prop) (m : st Meta A) (k : A -> st Meta B) :
  guards P m -> guards P (sbind m k).
Proof. intros Hm s s' b E. apply sbind_Ok_inv in E as (a & s1 & E & _). by eapply Hm. Qed.
Lemma guards_later {A B} (P : Meta -> Prop) (f : Meta -> res A) (k : A -> st Meta B) :
  (forall a, guards P (k a)) -> guards P (sbind (slift f) k).
Proof.
  intros Hk s s' b E. apply sbind_Ok_inv in E as (a & s1 & E & E'). apply slift_Ok_inv in E as [-> _].
  by eapply Hk.
Qed.
Lemma guards_runtime {A} (P : Meta -> Prop) (m : st Meta A) :
  guards P m -> guards P (Lifecycle.as_runtime_st m).
Proof.
  intros Hm s s' a E. unfold Lifecycle.as_runtime_st in E. specialize (Hm s). destruct (m s) as [s1 [x|e]].
  - by eapply Hm.
  - cbn in E. by destruct (is_ValueError e).
Qed.

Section fence.
  Context `{H : Host} `{S : Services} `{C : Checks} (args : Namespace) (expected : value).
  Hypothesis given : attr args "expected_revision" = Ok expected.
  Hypothesis present : is_null expected = false.
(** The expected revision is the task's. *)
Definition current (meta : Meta) : Prop := eq expected (get meta "task_revision") = true.

Lemma require_revision_current meta u : Execution.require_revision args meta = Ok u -> current meta.
Proof using given.
  unfold Execution.require_revision, current. rewrite given. cbn [rbind]. intros E.
  apply rbind_Ok_inv in E as (v & Ev & E). apply item_get in Ev. subst v.
  by apply raise_if_Ok, negb_false_iff in E.
Qed.
Lemma optional_revision_current meta u : Execution.require_optional_revision args meta = Ok u -> current meta.
Proof using given present.
  unfold Execution.require_optional_revision, current, getattr, get_or.
  unfold attr in given. destruct (dget args "expected_revision") as [x|]; [|discriminate].
  apply Ok_inj in given as Hx. subst x. rewrite present. intros E.
  apply rbind_Ok_inv in E as (v & Ev & E). apply item_get in Ev. subst v.
  by apply raise_if_Ok, negb_false_iff in E.
Qed.
Lemma active_owner_current meta u : Execution.require_active_binding_owner args meta = Ok u -> current meta.
Proof using given.
  unfold Execution.require_active_binding_owner. intros E. do 5 apply rbind_Ok_inv in E as (? & _ & E).
  apply rbind_Ok_inv in E as (? & _ & E). by eapply require_revision_current.
Qed.
End fence.

(** The transitions that compare a given [expected_revision] with the task's.
    A claim compares it only with a receipt; release and rollback never do;
    the resolution of a launch slot has its own fence. *)
Definition FENCED : list string := [
  "promote"; "pause"; "resume"; "unblock"; "recover-expired"; "recover-execution"; "abandon-execution";
  "gate"; "retry-circuit"; "retry-circuit-reserve"; "checkpoint"; "bind-spec"; "bind-worktree";
  "repair-legacy-binding"; "bind-envelope"; "replace-envelope"; "execution-start"; "execution-result";
  "execution-finish"; "autonomy-limits"; "autonomy-limits-preflight"; "autonomy-limits-record"; "heartbeat";
  "update"].
Ltac fence_leaf :=
  intros ? ? ?;
  unfold Lifecycle.require_blocked, Lifecycle.require_owned_active, Lifecycle.require_bind_worktree_admission,
    Execution.start_admission, Execution.abandon_admission in *;
  repeat match goal with Hx : rbind _ _ = Ok _ |- _ => apply rbind_Ok_inv in Hx as (? & ? & Hx) end;
  match goal with
  | Hx : Execution.require_revision _ _ = Ok _ |- _ => by eapply require_revision_current
  | Hx : Execution.require_optional_revision _ _ = Ok _ |- _ => by eapply optional_revision_current
  | Hx : Execution.require_active_binding_owner _ _ = Ok _ |- _ => by eapply active_owner_current
  end.
Ltac solve_fence :=
  repeat first [ apply guards_here, guards_lift; fence_leaf | apply guards_later; intros ? ].

Section fenced.
  Context `{H : Host} `{S : Services} `{C : Checks} (args : Namespace) (r : Z).
  Hypothesis given : attr args "expected_revision" = Ok (VInt r).
Let fenced {A} (m : st Meta A) : Prop := guards (current (VInt r)) m.
Let present : is_null (VInt r) = false := eq_refl.

Lemma fence_retry at_ : fenced (RetryCircuit.apply args at_) /\ fenced (RetryCircuit.apply_reserve args at_).
Proof using given.
  assert (forall what, guards (current (VInt r)) (slift (RetryCircuit.require_current args what))) as Hc.
  { intros what. apply guards_lift. intros s u E. unfold RetryCircuit.require_current in E. rewrite given in E.
    apply rbind_Ok_inv in E as ([] & _ & E). apply raise_when_Ok in E. cbn [rbind] in E.
    apply Ok_inj, negb_false_iff in E. exact E. }
  split; apply guards_here, Hc.
Qed.
Lemma fence_gate : fenced (Lifecycle.apply_gate args).
Proof using given.
  apply guards_runtime. intros s s' a E. apply sbind_Ok_inv in E as ([event human] & s1 & E & E').
  apply slift_Ok_inv in E as [-> E]. unfold Lifecycle.gate_event in E. rewrite given in E.
  apply rbind_Ok_inv in E as (stage & _ & E). destruct (OracleGate.stage_of _); [|discriminate].
  repeat (apply rbind_Ok_inv in E as (? & ? & E)). apply Ok_inj in E. injection E as <- <-.
  apply sbind_Ok_inv in E' as (gate & s2 & E' & _). apply slift_Ok_inv in E' as [-> E'].
  unfold OracleGate.next_gate in E'. apply rbind_Ok_inv in E' as ([] & _ & E').
  apply rbind_Ok_inv in E' as ([] & E' & _). apply raise_if_Ok, negb_false_iff in E'.
  match goal with Hr : Ok (VInt r) = Ok ?z, Hi : int ?z = Ok _ |- _ =>
    apply Ok_inj in Hr; subst z; apply Ok_inj in Hi; subst end.
  exact E'.
Qed.
Lemma fence_autonomy sel at_ :
  fenced (Autonomy.transition Execution.require_active_binding_owner args sel at_).
Proof using given.
  apply guards_later. intros cmd. destruct (is_s cmd "autonomy-limits").
  - apply guards_here, guards_here, guards_lift. intros s a E. unfold Autonomy.dispose_admission in E.
    apply rbind_Ok_inv in E as (owner & _ & E). apply rbind_Ok_inv in E as ([] & _ & E).
    rewrite given in E. cbn [rbind] in E. apply rbind_Ok_inv in E as ([] & E & _).
    by apply raise_if_Ok, negb_false_iff in E.
  - solve_fence.
Qed.
Lemma fence_recovery : fenced (Lifecycle.apply_recover_expired_transition args).
Proof using given.
  apply guards_later. intros _. apply guards_here, guards_lift. intros s a E.
  unfold Lifecycle.recovery_admission in E. revert s a E. fence_leaf.
Qed.
Lemma fence_owned_change kind tasks : kind = "heartbeat" \/ kind = "update" ->
  fenced (Lifecycle.apply_owned_change args kind tasks).
Proof using given.
  intros [->| ->]; apply guards_later; intros _.
  - unfold Lifecycle.heartbeat. solve_fence.
  - unfold Lifecycle.update_task. apply guards_here, guards_lift. intros s u E. rewrite given in E.
    cbn [rbind is_null] in E. by eapply require_revision_current.
Qed.
Lemma fenced_spec kind tasks : kind ∈ FENCED -> fenced (Lifecycle.apply_transition kind args tasks).
Proof using given.
  intros Hk. unfold FENCED in Hk. rewrite !elem_of_cons in Hk.
  repeat destruct Hk as [->|Hk]; try (by apply not_elem_of_nil in Hk);
    cbn [Lifecycle.apply_transition Lifecycle.lifecycle_transition_handler Lifecycle.handler_of
         PyStr.startswith String.prefix String.eqb Ascii.eqb Bool.eqb PyStr.mem orb];
    try (by apply fence_owned_change; auto); try (by apply fence_retry); try (apply guards_here, fence_autonomy);
    try apply fence_gate; try apply fence_recovery.
  all: unfold Lifecycle.apply_promote, Lifecycle.apply_pause, Lifecycle.apply_resume, Lifecycle.apply_unblock,
    Execution.recover, Execution.abandon, Lifecycle.apply_checkpoint, Lifecycle.apply_bind_spec,
    Lifecycle.apply_bind_worktree, Execution.repair, Lifecycle.apply_bind_envelope,
    Lifecycle.apply_replace_envelope, Execution.start, Execution.result, Execution.finish; solve_fence.
Qed.
End fenced.

(** ** Properties *)
Section properties.
  Context `{H : Host} `{S : Services} `{L : !ServicesLaws S} `{C : Checks}.

Lemma committed_consistent kind args tasks tasks' i meta next :
  committed kind args tasks tasks' i meta next -> Validation.consistent tasks'.
Proof.
  intros Hc. pose proof (Validation.mutation_errors_nil _ _ _ (cm_valid _ _ _ _ _ _ _ Hc)) as (_ & _ & _ & _ & Hg).
  by apply Validation.global_errors_nil.
Qed.
Lemma committed_typed kind args tasks tasks' i meta next :
  committed kind args tasks tasks' i meta next -> Validation.well_typed next.
Proof.
  intros Hc. pose proof (Validation.mutation_errors_nil _ _ _ (cm_valid _ _ _ _ _ _ _ Hc))
    as (Hf & Hv & _ & (s & He) & _). by eapply Validation.well_typed_spec.
Qed.
Lemma committed_ids kind args tasks tasks' i meta next :
  committed kind args tasks tasks' i meta next -> map Graph.id_of tasks' = map Graph.id_of tasks.
Proof.
  intros [_ Hi -> [Hid [s Hs]] _ _ _ _]. rewrite list_fmap_insert. apply list_insert_id.
  rewrite list_lookup_fmap, Hi. cbn. f_equal. unfold Graph.id_of.
  unfold get, get_or in *. destruct (dget meta "id"), (dget next "id"); congruence.
Qed.

(** C1: A mutation implements an atomic update of a versioned store: unless it
    commits it stores nothing, whatever exception or replay it ends with; when
    it commits, exactly the record its argument names is replaced, its
    identifier kept and its version advanced by one, every other record and
    version stands, no field outside the ones of the transition changed, and
    the stored list is consistent. *)
Theorem mutate_refines_versioned_store kind args tasks tasks' r :
  Lifecycle.mutate kind args tasks = (tasks', r) ->
  (r <> Ok None /\ tasks' = tasks) \/
  (r = Ok None /\ exists t i meta next,
     attr args "task" = Ok (VStr t) /\ tasks !! i = Some meta /\ Graph.id_of meta = t /\
     tasks' = <[i := next]> tasks /\ versions tasks' = advance t (versions tasks) /\
     (PyStr.mem kind OTHERS = false ->
        forall k, k ∉ ["task_revision"; "updated_at"] ++ writes kind -> dget next k = dget meta k) /\
     Validation.consistent tasks').
Proof using L.
  intros E. destruct (decide (r = Ok None)) as [->|Hr]; [right | left; split; [done | by eapply mutate_uncommitted]].
  split; [done|]. apply commit_inv in E as (i & meta & next & Hc).
  pose proof (committed_consistent _ _ _ _ _ _ _ Hc) as Hcons. pose proof (committed_ids _ _ _ _ _ _ _ Hc) as Hids.
  destruct Hc as [Ht Hi -> [Hid [s Hs]] [Hr _] Hf _ _]. exists (Graph.id_of meta), i, meta, next.
  split_and!; try done. apply versions_insert; try done; [|apply Hcons].
  unfold Graph.id_of, get, get_or in *. destruct (dget meta "id"), (dget next "id"); congruence.
Qed.
End properties.

(** One mutation by any process: the clock, the services and the checks of its
    environment are its own. *)
Inductive store_step : list Meta -> list Meta -> Prop :=
  | store_mutation (H : Host) (S : Services) (L : ServicesLaws S) (C : Checks) kind args tasks tasks' r :
      Lifecycle.mutate kind args tasks = (tasks', r) -> store_step tasks tasks'.

(** What every step keeps. *)
Definition later (tasks tasks' : list Meta) : Prop :=
  map Graph.id_of tasks' = map Graph.id_of tasks /\ Forall2 (fun m m' => revision m <= revision m') tasks tasks'.
Lemma later_refl tasks : later tasks tasks.
Proof. split; [done|]. apply Forall_Forall2_diag, Forall_forall. lia. Qed.
Lemma step_later tasks tasks' : store_step tasks tasks' -> later tasks tasks'.
Proof.
  intros [H S L C kind args tasks1 tasks1' r E]. destruct (decide (r = Ok None)) as [->|Hr].
  - apply commit_inv in E as (i & meta & next & Hc). split; [by eapply committed_ids|].
    destruct Hc as [_ Hi -> _ [Hr _] _ _ _]. rewrite <- (list_insert_id tasks1 i meta) at 1 by done.
    apply Forall2_insert; [|lia]. apply Forall_Forall2_diag, Forall_forall. lia.
  - apply mutate_uncommitted in E; [|done]. subst tasks1'. apply later_refl.
Qed.
Lemma steps_later tasks tasks' : rtc store_step tasks tasks' -> later tasks tasks'.
Proof.
  induction 1 as [|x y z Hs _ [IH1 IH2]]; [apply later_refl|]. apply step_later in Hs as [H1 H2].
  split; [congruence|]. apply Forall2_same_length_lookup. apply Forall2_same_length_lookup in H2, IH2.
  destruct H2 as [E1 L1], IH2 as [E2 L2]. split; [congruence|]. intros i m m' Hm Hm'.
  destruct (lookup_lt_is_Some_2 y i) as [m1 Hm1]; [rewrite <- E1; by eapply lookup_lt_Some|].
  specialize (L1 i m m1 Hm Hm1). specialize (L2 i m1 m' Hm1 Hm'). lia.
Qed.
Lemma step_consistent tasks tasks' : store_step tasks tasks' -> Validation.consistent tasks -> Validation.consistent tasks'.
Proof.
  intros [H S L C kind args tasks1 tasks1' r E] Hc. destruct (decide (r = Ok None)) as [->|Hr].
  - apply commit_inv in E as (i & meta & next & E). by eapply committed_consistent.
  - apply mutate_uncommitted in E; [|done]. by subst tasks1'.
Qed.
Lemma step_typed tasks tasks' : store_step tasks tasks' ->
  Forall Validation.well_typed tasks -> Forall Validation.well_typed tasks'.
Proof.
  intros [H S L C kind args tasks1 tasks1' r E] Hw. destruct (decide (r = Ok None)) as [->|Hr].
  - apply commit_inv in E as (i & meta & next & E). pose proof (committed_typed _ _ _ _ _ _ _ E) as Ht.
    destruct E as [_ _ -> _ _ _ _ _]. by apply Forall_insert.
  - apply mutate_uncommitted in E; [|done]. by subst tasks1'.
Qed.

(** C3: Whatever mutations processes attempt, in whatever order and
    environment, a consistent task list stays consistent: identifiers are
    unique, no two active tasks share an owner, worktree or branch, and the
    dependency, hierarchy and supersession checks report nothing.  No task
    disappears, is renamed or reordered, and no revision decreases. *)
Theorem store_stays_consistent tasks tasks' :
  Validation.consistent tasks -> rtc store_step tasks tasks' ->
  Validation.consistent tasks' /\ map Graph.id_of tasks' = map Graph.id_of tasks /\
  Forall2 (fun m m' => revision m <= revision m') tasks tasks'.
Proof.
  intros Hc Hs. split; [|apply (steps_later _ _ Hs)]. clear -Hc Hs.
  induction Hs as [|x y z Hstep _ IH]; [done|]. apply IH. by eapply step_consistent.
Qed.

(** C16: Stored tasks stay well typed: only known fields, the required ones
    present with their types, valid reservation, result, abandonment and
    envelope binding records, valid retry and autonomy ledgers, and an owner
    with a lease exactly when the task is in progress. *)
Theorem stored_tasks_well_typed tasks tasks' :
  Forall Validation.well_typed tasks -> rtc store_step tasks tasks' -> Forall Validation.well_typed tasks'.
Proof. intros Hw Hs. induction Hs as [|x y z Hstep _ IH]; [done|]. apply IH. by eapply step_typed. Qed.

Lemma current_revision r (meta : Meta) : current (VInt r) meta -> revision meta = r.
Proof.
  unfold current, revision. destruct (get meta "task_revision"); cbn; try discriminate;
    intros E%Z.eqb_eq; by subst r.
Qed.
Section twice.
  Context `{H : Host} `{S : Services} `{L : !ServicesLaws S} `{C : Checks}.
Lemma fenced_commit kind args r tasks tasks' i meta next : kind ∈ FENCED ->
  attr args "expected_revision" = Ok (VInt r) -> committed kind args tasks tasks' i meta next -> revision meta = r.
Proof.
  intros Hk Hr Hc. destruct (cm_transition _ _ _ _ _ _ _ Hc) as (meta' & msg & E & _).
  apply current_revision. by eapply (fenced_spec args r Hr kind tasks Hk).
Qed.
End twice.

(** C2: A revision is consumed at most once: after a fenced transition of a
    task commits for revision [r], no later fenced transition that expects
    [r] of the same task commits, in any environment and after any further
    mutations; it changes nothing. *)
Theorem revision_consumed_once t r kind1 args1 tasks tasks1 tasks2 kind2 args2 tasks3 result
    (H1 H2 : Host) (S1 S2 : Services) (L1 : ServicesLaws S1) (L2 : ServicesLaws S2) (C1 C2 : Checks) :
  Lifecycle.mutate (H := H1) (S := S1) (C := C1) kind1 args1 tasks = (tasks1, Ok None) -> kind1 ∈ FENCED ->
  attr args1 "task" = Ok (VStr t) -> attr args1 "expected_revision" = Ok (VInt r) ->
  rtc store_step tasks1 tasks2 ->
  Lifecycle.mutate (H := H2) (S := S2) (C := C2) kind2 args2 tasks2 = (tasks3, result) -> kind2 ∈ FENCED ->
  attr args2 "task" = Ok (VStr t) -> attr args2 "expected_revision" = Ok (VInt r) ->
  result <> Ok None /\ tasks3 = tasks2.
Proof.
  intros E1 K1 T1 R1 Hs E2 K2 T2 R2.
  destruct (decide (result = Ok None)) as [->|Hr]; [exfalso | split; [done | by eapply mutate_uncommitted]].
  apply commit_inv in E1 as (i & m1 & n1 & M1). apply commit_inv in E2 as (j & m2 & n2 & M2).
  pose proof (fenced_commit _ _ _ _ _ _ _ _ K1 R1 M1) as V1. pose proof (fenced_commit _ _ _ _ _ _ _ _ K2 R2 M2) as V2.
  pose proof (committed_consistent _ _ _ _ _ _ _ M1) as [Hu _ _ _ _].
  pose proof (committed_ids _ _ _ _ _ _ _ M1) as Hids.
  destruct M1 as [Ht1 Hi Hst _ [Hrev _] _ _ _], M2 as [Ht2 Hj _ _ _ _ _ _].
  apply steps_later in Hs as [Hid Hle]. rewrite T1 in Ht1. rewrite T2 in Ht2. injection Ht1 as Ht1. injection Ht2 as Ht2.
  assert (i = j) as <-.
  { apply (NoDup_lookup _ i j t Hu).
    - by rewrite Hids, list_lookup_fmap, Hi, Ht1.
    - by rewrite <- Hid, list_lookup_fmap, Hj, Ht2. }
  apply Forall2_lookup_lr with (i := i) (x := n1) (y := m2) in Hle; [lia | | done].
  subst tasks1. apply list_lookup_insert_eq. by eapply lookup_lt_Some.
Qed.

(** ** Holds and envelope replacements *)
(** An autonomy hold recorded for the task's current revision. *)
Definition held (meta : Meta) : Prop :=
  exists d h, get meta "autonomy_limits" = VDict d /\ get d "hold" = VDict h /\
    eq (get h "task_revision") (get meta "task_revision") = true.
Lemma eq_int_as_Z y v : eq (VInt y) v = true -> as_Z v = Some y.
Proof. destruct v; cbn; try discriminate; intros E%Z.eqb_eq; congruence. Qed.

Section blocked.
  Context `{H : Host} `{S : Services} `{L : !ServicesLaws S} `{C : Checks}.

(** The mutation raises or replays, and stores nothing. *)
Definition refused (kind : string) (args : Namespace) (tasks : list Meta) : Prop :=
  fst (Lifecycle.mutate kind args tasks) = tasks /\ snd (Lifecycle.mutate kind args tasks) <> Ok None.

(** A transition that leaves the ledger alone cannot commit while a hold is
    recorded: the hold is fenced to its revision, so the next one fails
    validation. *)
Lemma held_frozen kind args tasks tasks' i (meta next : Meta) :
  committed kind args tasks tasks' i meta next -> held meta -> PyStr.mem kind OTHERS = false ->
  "autonomy_limits" ∉ writes kind -> False.
Proof.
  intros Hc (d & h & Hd & Hh & Hr) Ho Hw. pose proof (committed_typed _ _ _ _ _ _ _ Hc) as Hty.
  destruct Hc as [_ _ _ _ [Hrev _] Hf _ _].
  assert (get next "autonomy_limits" = VDict d) as Hd'.
  { unfold get, get_or in *. rewrite Hf; [done | done |]. cbn [app]. rewrite !not_elem_of_cons. done. }
  pose proof (Validation.wt_autonomy _ Hty) as Ha. apply (Autonomy.metadata_error_none _ _ Hd') in Ha.
  pose proof (Autonomy.v_hold _ _ Ha) as Hv. rewrite Hh in Hv. unfold Autonomy.valid_hold in Hv.
  apply py_and_true in Hv. repeat (apply Forall_cons in Hv as [?Hv Hv]).
  match goal with Ht1 : cond (type_int (get h "task_revision")) = Ok true |- _ =>
    apply Ok_inj, type_int_inv in Ht1 as [y Hy] end.
  match goal with He : cond (eq (get h "task_revision") (get next _)) = Ok true |- _ =>
    apply Ok_inj in He; rewrite Hy in He, Hr; apply eq_int_as_Z in He; apply eq_int_as_Z in Hr;
    unfold revision in Hrev; rewrite He, Hr in Hrev end.
  cbn in Hrev. lia.
Qed.

(** The mutation named [t] would have to be of the task at [i]. *)
Lemma not_committed kind args tasks t i (meta : Meta) :
  NoDup (map Graph.id_of tasks) -> tasks !! i = Some meta -> Graph.id_of meta = t ->
  attr args "task" = Ok (VStr t) ->
  (forall tasks' next, ~ committed kind args tasks tasks' i meta next) ->
  refused kind args tasks.
Proof using L.
  intros Hu Hi Hid Ht Hn. unfold refused. destruct (Lifecycle.mutate kind args tasks) as [tasks' r] eqn:E. cbn [fst snd].
  destruct (decide (r = Ok None)) as [->|Hr]; [exfalso | split; [by eapply mutate_uncommitted | done]].
  apply commit_inv in E as (j & m & next & Hc). pose proof (cm_task _ _ _ _ _ _ _ Hc) as Ht'.
  pose proof (cm_here _ _ _ _ _ _ _ Hc) as Hj. rewrite Ht in Ht'. injection Ht' as Ht'.
  assert (j = i) as ->.
  { apply (NoDup_lookup _ j i t Hu); rewrite list_lookup_fmap; [by rewrite Hj, Ht' | by rewrite Hi, <- Hid]. }
  rewrite Hi in Hj. injection Hj as <-. by eapply Hn.
Qed.

(** While a hold is recorded, no transition of the task commits other than
    those that rewrite the ledger (the disposition of the hold, and an update):
    in particular an expired claim cannot be recovered, renewed, released or
    paused. *)
Theorem hold_blocks_commits kind args tasks t i (meta : Meta) :
  NoDup (map Graph.id_of tasks) -> tasks !! i = Some meta -> Graph.id_of meta = t ->
  attr args "task" = Ok (VStr t) -> held meta ->
  PyStr.mem kind OTHERS = false -> "autonomy_limits" ∉ writes kind ->
  refused kind args tasks.
Proof using L.
  intros Hu Hi Hid Ht Hh Ho Hw. eapply not_committed; try done. intros tasks' next Hc. by eapply held_frozen.
Qed.

(** An update leaves an active task active. *)
Lemma update_status args kind (meta meta' : Meta) msg :
  Lifecycle.update_task args kind meta = (meta', Ok msg) -> get meta "status" = VStr "in_progress" ->
  get meta' "status" = VStr "in_progress".
Proof.
  unfold Lifecycle.update_task. intros E Hs. apply sbind_Ok_inv in E as ([] & m1 & E1 & E).
  apply slift_Ok_inv in E1 as [-> _]. apply sbind_Ok_inv in E as ([] & m1 & E1 & E).
  apply slift_Ok_inv in E1 as [-> E1]. apply rbind_Ok_inv in E1 as (status & Est & E1). apply raise_if_Ok in E1.
  apply sbind_Ok_inv in E as ([] & m1 & Em & E). apply smodify_Ok_inv in Em. subst m1.
  apply sbind_Ok_inv in E as ([] & m1 & Ec & E). apply sbind_Ok_inv in E as (note & m2 & En & E).
  apply slift_Ok_inv in En as [-> _]. apply sret_Ok_inv in E as [-> _].
  assert (dget m1 "status" = dget (Lifecycle.updated args meta) "status") as Hd.
  { apply (keeps_Ok _ _ _ _ _ (keeps_carry "status" args kind ltac:(by apply (bool_decide_unpack _))) Ec). }
  unfold get, get_or in *. rewrite Hd. unfold Lifecycle.updated, Lifecycle.UPDATED. cbn [fold_left]. cbv zeta.
  unfold getattr, get_or. unfold attr in Est. destruct (dget args "status") as [v|]; [|discriminate].
  apply Ok_inj in Est. subst v.
  assert (forall m k v, k <> "status" -> dget (if is_null v then m else dset m k v) "status" = dget m "status") as Hk.
  { intros m k v Hk. destruct (is_null v); [done | by rewrite dget_dset_ne]. }
  rewrite !Hk by done. destruct (is_null status); [done|]. rewrite dget_dset_eq.
  cbn [negb andb] in E1. by apply negb_false_iff, eq_str in E1.
Qed.
(** A transition that rewrites the ledger renews no lease and ends no claim. *)
Lemma ledger_keeps_claim kind args tasks (meta meta' : Meta) msg : PyStr.mem kind OTHERS = false ->
  "autonomy_limits" ∈ writes kind -> Lifecycle.apply_transition kind args tasks meta = (meta', Ok msg) ->
  get meta "status" = VStr "in_progress" ->
  get meta' "status" = VStr "in_progress" /\ dget meta' "claim_expires" = dget meta "claim_expires".
Proof.
  intros Ho Hw E Hs. destruct (PyStr.startswith "autonomy-limits" kind) eqn:Ea.
  - assert (forall k, k <> "autonomy_limits" -> dget meta' k = dget meta k) as Hk.
    { intros k Hk. apply (keeps_Ok k _ _ _ _ (frame_spec k kind args tasks Ho ltac:(unfold writes; rewrite Ea; set_solver)) E). }
    unfold get, get_or in *. rewrite (Hk "status") by done. split; [done | by apply Hk].
  - assert (writes kind = Lifecycle.UPDATED ++ ["autonomy_limits"]) as Hd.
    { revert Hw. unfold writes. rewrite Ea. destruct (List.find _ _) as [[n fields]|] eqn:Ef; [|done].
      intros Hw. apply find_some in Ef as [Hin _]. exfalso.
      assert (forallb (fun e => negb (PyStr.mem "autonomy_limits" e.2)) WRITES = true) as Hall by by vm_compute.
      rewrite forallb_forall in Hall. specialize (Hall _ Hin). cbn in Hall.
      apply PyStr.mem_spec in Hw. by rewrite Hw in Hall. }
    split; [|apply (keeps_Ok _ _ _ _ _ (frame_spec "claim_expires" kind args tasks Ho
                 ltac:(rewrite Hd; by apply (bool_decide_unpack _))) E)].
    assert (Lifecycle.handler_of kind args tasks = None /\ String.eqb kind "heartbeat" = false /\
            String.eqb kind "release" = false) as (Hn & Hb & Hl).
    { unfold writes in Hd. rewrite Ea in Hd. unfold WRITES in Hd. cbn [List.find fst] in Hd.
      unfold Lifecycle.handler_of. fold OTHERS. rewrite Ho. cbv zeta.
      repeat match goal with
      | |- context [String.eqb kind ?s] => destruct (String.eqb_spec kind s) as [->|?]; [by vm_compute in Hd|]
      end. done. }
    unfold Lifecycle.apply_transition, Lifecycle.lifecycle_transition_handler in E. rewrite Ea, Hn in E.
    unfold Lifecycle.apply_owned_change in E. rewrite Hb, Hl in E.
    apply sbind_Ok_inv in E as ([] & m1 & E1 & E). apply slift_Ok_inv in E1 as [-> _]. by eapply update_status.
Qed.

(** A hold outlives its owner's lease for good: once the lease of a held
    task has expired, no transition of the task commits any more - not the
    disposition of the hold, because the committed task would still carry an
    expired claim, and not the recovery or the renewal of the claim, because
    the task would still carry a stale hold. *)
Theorem expired_hold_is_permanent kind args tasks t i (meta : Meta) expiry :
  NoDup (map Graph.id_of tasks) -> tasks !! i = Some meta -> Graph.id_of meta = t ->
  attr args "task" = Ok (VStr t) -> held meta -> PyStr.mem kind OTHERS = false ->
  get meta "status" = VStr "in_progress" ->
  Execution.parse_claim_expiry (get meta "claim_expires") = Ok expiry ->
  dt_le expiry Execution.dt_now = Ok true ->
  refused kind args tasks.
Proof using L.
  intros Hu Hi Hid Ht Hh Ho Hs He Hx. eapply not_committed; try done. intros tasks' next Hc.
  destruct (decide ("autonomy_limits" ∈ writes kind)) as [Hw|Hw]; [|by eapply held_frozen].
  destruct (cm_transition _ _ _ _ _ _ _ Hc) as (meta' & msg & E & En).
  destruct (ledger_keeps_claim kind args tasks meta meta' msg Ho Hw E Hs) as [Hs' Hc'].
  apply next_revision_inv in En as (_ & _ & Hf).
  pose proof (Validation.mutation_errors_nil _ _ _ (cm_valid _ _ _ _ _ _ _ Hc)) as (_ & _ & _ & (sc & Hcl) & _).
  apply Validation.claim_errors_nil in Hcl.
  assert (get next "status" = VStr "in_progress" /\ get next "claim_expires" = get meta "claim_expires") as [N1 N2].
  { unfold get, get_or in *. by rewrite !Hf, Hc' by (by apply (bool_decide_unpack _)). }
  unfold is_s in Hcl. rewrite N1, N2 in Hcl. cbn in Hcl. destruct Hcl as [_ Hcl].
  unfold Execution.active_expiry_errors in Hcl. rewrite He, Hx in Hcl. by destruct (truthy _).
Qed.


(** No replacement of an execution envelope is ever stored: the replacement
    records its history in the field [execution_envelope_replacements], which
    the validation of every commit reports as an unknown field. *)
Theorem replace_envelope_never_commits args tasks :
  refused "replace-envelope" args tasks.
Proof using Type.
  clear L.
  unfold refused. destruct (Lifecycle.mutate _ args tasks) as [tasks' r] eqn:E. cbn [fst snd].
  destruct (decide (r = Ok None)) as [->|Hn]; [exfalso | split; [by eapply mutate_uncommitted | done]].
  apply mutate_committed in E as (task & meta & meta' & next & msg & _ & _ & Ha & Hnext & _ & Hv).
  pose proof (Validation.mutation_errors_nil _ _ _ Hv) as (Hf & _).
  apply Validation.field_errors_nil in Hf as [_ Hf].
  apply next_revision_inv in Hnext as (_ & _ & Hnext).
  assert (has next "execution_envelope_replacements" = true) as Hh; [|by apply Hf in Hh; vm_compute in Hh].
  unfold has. rewrite Hnext by set_solver. clear -Ha.
  change (Lifecycle.apply_replace_envelope args meta = (meta', Ok msg)) in Ha.
  unfold Lifecycle.apply_replace_envelope in Ha. apply sbind_Ok_inv in Ha as ([] & m1 & E & Ha).
  apply slift_Ok_inv in E as [-> _]. apply sbind_Ok_inv in Ha as ([] & m1 & E & Ha).
  apply slift_Ok_inv in E as [-> _]. apply Envelope.replace_bound_inv in Ha.
  destruct Ha as (? & ? & ? & ? & ? & ? & ? & ? & _ & _ & _ & _ & _ & _ & _ & _ & _ & _ & _ & ? & ? & _ & _ & ->).
  cbn [update]. do 5 rewrite dget_dset_ne by done. by rewrite dget_dset_eq.
Qed.
End blocked.

(** ** Witnesses *)
Module Sample.
Import Lifecycle.Sample.
Lemma laws : ServicesLaws Lifecycle.Sample.services.
Proof. intros kind args ts k _ s. reflexivity. Qed.
Definition planned : list Meta := [base "AR-0001" "planned"; base "AR-0002" "done"].
Definition promote_args : Namespace :=
  [("task", VStr "AR-0001"); ("expected_revision", VInt 3); ("note", VStr "ready")].
Definition expired : string := "2026-01-01T00:00:00+00:00".
Definition recording : Meta := dset (base "AR-0001" "in_progress") "task_revision" (VInt 2)
  ++ [("owner", VStr "ann"); ("claim_expires", VStr expired)].
Definition held_task : Meta :=
  dset (fst (Autonomy.apply_record [] (Some Autonomy.sample_policy) Autonomy.sample_time recording))
    "task_revision" (VInt 3).
Definition owner_args : Namespace :=
  [("task", VStr "AR-0001"); ("owner", VStr "ann"); ("lease_minutes", VInt 30); ("expected_revision", VInt 3);
   ("cmd", VStr "autonomy-limits"); ("reason", VStr "reviewed")].
End Sample.
#[local] Existing Instance Execution.Sample.host.
#[local] Existing Instance Lifecycle.Sample.services.
#[local] Existing Instance Lifecycle.Sample.checks.
#[local] Existing Instance Sample.laws.
Definition sample_stored : list Meta := fst (Lifecycle.mutate "claim" Lifecycle.Sample.claim_args Lifecycle.Sample.tasks).
Definition sample_promoted : list Meta := fst (Lifecycle.mutate "promote" Sample.promote_args Sample.planned).

Lemma mutate_refines_versioned_store_witness :
  versions sample_stored = [("AR-0001", 4); ("AR-0002", 3)] /\
  versions sample_stored = advance "AR-0001" (versions Lifecycle.Sample.tasks).
Proof.
  split; [vm_compute; reflexivity|].
  destruct (mutate_refines_versioned_store "claim" Lifecycle.Sample.claim_args Lifecycle.Sample.tasks
              sample_stored (Ok None)) as [[Hn _]|(_ & t & i & m & n & H1 & _ & _ & _ & H2 & _)];
    [vm_compute; reflexivity | by destruct Hn |].
  assert (t = "AR-0001") as -> by (vm_compute in H1; congruence). exact H2.
Defined.
Lemma sample_consistent : Validation.consistent Lifecycle.Sample.tasks.
Proof. apply Validation.global_errors_nil. vm_compute. reflexivity. Qed.
Lemma sample_step : rtc store_step Lifecycle.Sample.tasks sample_stored.
Proof.
  apply rtc_once, (store_mutation _ _ _ _ "claim" Lifecycle.Sample.claim_args _ _ (Ok None)).
  vm_compute. reflexivity.
Qed.
Lemma store_stays_consistent_witness : Validation.consistent sample_stored.
Proof. apply (store_stays_consistent Lifecycle.Sample.tasks); [apply sample_consistent | apply sample_step]. Defined.
Lemma sample_typed : Forall Validation.well_typed Lifecycle.Sample.tasks.
Proof.
  repeat constructor; eapply (Validation.well_typed_spec "" _ ∅); vm_compute; reflexivity.
Qed.
Lemma stored_tasks_well_typed_witness : Forall Validation.well_typed sample_stored.
Proof. apply (stored_tasks_well_typed Lifecycle.Sample.tasks); [apply sample_typed | apply sample_step]. Defined.
Lemma revision_consumed_once_witness :
  snd (Lifecycle.mutate "promote" Sample.promote_args Sample.planned) = Ok None /\
  snd (Lifecycle.mutate "promote" Sample.promote_args sample_promoted) <> Ok None.
Proof.
  split; [vm_compute; reflexivity|].
  apply (revision_consumed_once "AR-0001" 3 "promote" Sample.promote_args Sample.planned sample_promoted
           sample_promoted "promote" Sample.promote_args sample_promoted
           (snd (Lifecycle.mutate "promote" Sample.promote_args sample_promoted)) _ _ _ _ _ _ _ _);
    try reflexivity; try (vm_compute; reflexivity); by apply (bool_decide_unpack _).
Defined.
Lemma hold_blocks_commits_witness :
  snd (Lifecycle.mutate "heartbeat" Sample.owner_args [Sample.held_task]) <> Ok None.
Proof.
  apply (hold_blocks_commits "heartbeat" Sample.owner_args [Sample.held_task] "AR-0001" 0 Sample.held_task);
    try (vm_compute; reflexivity); try by apply (bool_decide_unpack _).
  eexists _, _. split_and!; vm_compute; reflexivity.
Defined.
Lemma expired_hold_is_permanent_witness :
  snd (Lifecycle.mutate "autonomy-limits" Sample.owner_args [Sample.held_task]) <> Ok None.
Proof.
  eapply (expired_hold_is_permanent "autonomy-limits" Sample.owner_args [Sample.held_task] "AR-0001" 0
           Sample.held_task); try (vm_compute; reflexivity); try by apply (bool_decide_unpack _).
  eexists _, _. split_and!; vm_compute; reflexivity.
Defined.
End Commit.
