(* ===== verification/Transitions.v ===== *)
(** * The composition of the transitions ([handoffctl.py])

    The components that [Lifecycle.Services] and [Validation.Checks] stand for -
    change drift, assumptions, predicate evidence - put in their place: the
    dispatcher calls them, the admission of [done] and the validation of a task
    ask them.  The laws of the interface hold of the composition, so every
    theorem about commits applies to it. *)
From S2P Require Import Prelude PyStr Regex PyVal Frame PyTime PyJson ChangeDrift Assumptions TaskSpec PredicateLedger.
From S2P Require Import DriftLaws AssumptionLaws EvidenceLaws.
From S2P Require Import Graph Execution Validation Lifecycle Commit.

Module Transitions.
Import Py Frame.

Section compose.
  Context `{H : Host} `{W : Worktrees} `{O : Observations} `{A : Artifacts} (S0 : Services) (C0 : Checks).
  (** [policy_snapshot]: the policy of the mutation *)
  Context (policy : TaskSpec.EvidencePolicy).
Definition assumption_admission (meta : Meta) (tasks : list Meta) : res (option string) :=
  let* needed := Assumptions.needs_admission meta in
  if needed : bool then Assumptions.admission_error meta tasks else Ok None.
Definition apply_accept (args : Namespace) (tasks : option (list Meta)) : st Meta string :=
  do* owner := slift (fun _ => attr args "owner") in
  do slift (fun _ => require_role_admission (str owner)) ;;
  PredicateLedger.apply_acceptance args (Some policy) (fun meta => assumption_admission meta (default [] tasks)).
(** [accept] is dispatched without the tasks. *)
Definition other (kind : string) (args : Namespace) (tasks : list Meta) : st Meta string :=
  if String.eqb kind "change-drift" then ChangeDrift.apply args Execution.now_text
  else if String.eqb kind "assumption" then Assumptions.apply args tasks
  else if String.eqb kind "accept" then apply_accept args None
  else PredicateLedger.repair args (Some policy).
Definition services : Services := {|
  valid_binding_branch := @valid_binding_branch S0;
  load_session_records := @load_session_records S0;
  load_envelope := @load_envelope S0;
  task_spec_errors meta := TaskSpec.task_spec_errors meta (Some policy) true;
  spec_done_error meta := TaskSpec.done_admission_error meta (Some policy);
  drift_done_error := ChangeDrift.done_admission_error;
  assumption_done_error := assumption_admission;
  other_transition := other;
|}.
(** [include_ledger = kind != "repair-predicate-ledger"] *)
Definition task_errors (kind : string) (meta : Meta) : res (list string) :=
  TaskSpec.task_spec_errors meta (Some policy) (negb (String.eqb kind "repair-predicate-ledger")).
Definition checks (kind : string) : Checks := {|
  valid_binding_worktree := @valid_binding_worktree C0;
  private_text_errors := @private_text_errors C0;
  drift_metadata_error := ChangeDrift.metadata_error;
  assumption_metadata_error := Assumptions.metadata_error;
  plan_is_file := @plan_is_file C0;
  admission_errors := task_errors kind;
|}.
(** A mutation of the composed system. *)
Definition mutate (kind : string) (args : Namespace) (tasks : list Meta) : list Meta * res (option string) :=
  @Lifecycle.mutate H services (checks kind) kind args tasks.

(** ** The interface's law *)
Definition WRITTEN : list string := ["change_drift"; "assumption_revalidation"; "evidence_ledger"; "spec_acceptance"].
Lemma keeps_drift args at_ k : k ∉ WRITTEN -> keeps k (ChangeDrift.apply args at_).
Proof.
  intros Hk meta. unfold ChangeDrift.apply. cbv zeta. destruct (rbind _ _) as [[[r history] action]|e]; [|done].
  cbn [fst]. apply dget_dset_ne. not_written.
Qed.
Lemma keeps_assumption args tasks k : k ∉ WRITTEN -> keeps k (Assumptions.apply args tasks).
Proof.
  intros Hk meta. unfold Assumptions.apply. cbv zeta. destruct (rbind _ _) as [[history r]|e]; [|done].
  cbn [fst]. apply dget_dset_ne. not_written.
Qed.
Lemma keeps_ledger_repair args p k : k ∉ WRITTEN -> keeps k (PredicateLedger.repair args p).
Proof.
  intros Hk meta. unfold PredicateLedger.repair. destruct (PredicateLedger.repair_of _ _ _) as [[ledger r]|e]; [|done].
  cbn [fst]. apply dget_dset_ne. not_written.
Qed.
Lemma keeps_record_step args ledger p r d c k : k ∉ WRITTEN -> keeps k (PredicateLedger._record_step args ledger p r d c).
Proof.
  intros Hk. unfold PredicateLedger._record_step. frame. destruct c; frame.
Qed.
Lemma keeps_acceptance args p f k : k ∉ WRITTEN -> keeps k (PredicateLedger.apply_acceptance args p f).
Proof.
  intros Hk. unfold PredicateLedger.apply_acceptance. frame. unfold PredicateLedger.apply_predicate_acceptance.
  frame. by apply keeps_record_step.
Qed.
Lemma other_keeps kind args tasks k : k ∉ WRITTEN -> keeps k (other kind args tasks).
Proof.
  intros Hk. unfold other. frame; [by apply keeps_drift | by apply keeps_assumption | | by apply keeps_ledger_repair].
  unfold apply_accept. frame. by apply keeps_acceptance.
Qed.
#[export] Instance services_laws : Commit.ServicesLaws services.
Proof.
  intros kind args tasks k Hk. apply other_keeps. unfold Commit.IDENTITY, WRITTEN in *. set_solver.
Qed.
End compose.

(** ** Theorems *)
(** What the validation of a commit asks of the interface. *)
Lemma validated_interface `{H : Host} `{C : Checks} name (meta : Meta) tasks :
  Validation.mutation_errors name meta tasks = Ok [] ->
  drift_metadata_error meta = Ok None /\ assumption_metadata_error meta = Ok None /\ admission_errors meta = Ok [].
Proof.
  unfold Validation.mutation_errors, Validation.basic_task_errors. intros (basic & Eb & E)%rbind_Ok_inv.
  apply rbind_Ok_inv in Eb as (values & Ev & (refs & _ & (adm & Ea & Eb)%rbind_Ok_inv)%rbind_Ok_inv). apply Ok_inj in Eb. subst basic.
  apply rbind_Ok_inv in E as ([claim s] & _ & (global & _ & E)%rbind_Ok_inv). apply Ok_inj in E.
  apply app_eq_nil in E as [[_ [-> [_ ->]%app_eq_nil]%app_eq_nil]%app_eq_nil _].
  unfold Validation.value_errors in Ev. apply rbind_Ok_inv in Ev as (id & _ & (gate & _ & (ex & Ex & E)%rbind_Ok_inv)%rbind_Ok_inv).
  cbv zeta in E. apply Ok_inj in E. repeat (apply app_eq_nil in E as [? E]).
  match goal with Hx : ex = [] |- _ => subst ex end.
  unfold Validation.execution_metadata_errors in Ex. cbv zeta in Ex.
  apply rbind_Ok_inv in Ex as (b1 & _ & (b2 & _ & (b3 & _ & (drift & Ed & (assumption & Es & (retry & _ & (autonomy & _ & Ex)%rbind_Ok_inv)%rbind_Ok_inv)%rbind_Ok_inv)%rbind_Ok_inv)%rbind_Ok_inv)%rbind_Ok_inv).
  apply Ok_inj in Ex. repeat (apply app_eq_nil in Ex as [? Ex]).
  by destruct drift, assumption.
Qed.
Section composed.
  Context `{H : Host} `{W : Worktrees} `{O : Observations} `{A : Artifacts} (S0 : Services) (C0 : Checks).
  Context (policy : TaskSpec.EvidencePolicy).
Lemma mutate_steps kind args tasks tasks' : mutate S0 C0 policy kind args tasks = (tasks', Ok None) ->
  exists task meta meta' next msg, attr args "task" = Ok task /\ Lifecycle.locate task tasks = Ok meta /\
    @Lifecycle.apply_transition H (services S0 policy) (checks C0 policy kind) kind args tasks meta = (meta', Ok msg) /\
    Lifecycle.next_revision meta' = Ok next /\ tasks' = Lifecycle.replace_task task next tasks /\
    Validation.mutation_errors (C := checks C0 policy kind) (str task +:+ ".md") next tasks' = Ok [].
Proof. apply Commit.mutate_committed. Qed.
Lemma metadata_none {R} (m : res R) e : match m with Ok _ => Ok None | Raise x => if is_ValueError x then Ok (Some (exn_msg x)) else Raise x end = Ok e ->
  e = None -> exists r, m = Ok r.
Proof. intros E ->. destruct m as [r|x]; [by exists r|]. by destruct (is_ValueError x). Qed.

(** C24: Whatever transition commits, the task it stores has a valid history of
    changes and a valid history of assumptions, and its bound specification has
    no errors; its ledger of evidence is valid too, unless the transition is the
    repair of that ledger. *)
Theorem commits_keep_histories_valid kind args tasks tasks' :
  mutate S0 C0 policy kind args tasks = (tasks', Ok None) ->
  exists task next, attr args "task" = Ok task /\ tasks' = Lifecycle.replace_task task next tasks /\
    (exists drift, ChangeDrift.records next = Ok drift) /\ (exists l, Assumptions.records next = Ok l) /\
    TaskSpec.task_spec_errors next (Some policy) (negb (String.eqb kind "repair-predicate-ledger")) = Ok [].
Proof.
  intros (task & meta & meta' & next & msg & Et & _ & _ & _ & -> & Hv)%mutate_steps.
  apply (validated_interface (C := checks C0 policy kind)) in Hv as (Hd & Ha & Hs).
  exists task, next. split_and!; [done | done | by eapply metadata_none | by eapply metadata_none | exact Hs].
Qed.

(** *** Done *)
(** An error that is a text. *)
Definition worded (e : option string) : Prop := forall m, e = Some m -> PyStr.truthy m = true.
Lemma require_some_none e u : Lifecycle.require_some e = Ok u -> (forall x, e = Ok x -> worded x) -> e = Ok None.
Proof.
  unfold Lifecycle.require_some. intros (x & -> & E)%rbind_Ok_inv Hw. destruct x as [m|]; [|done].
  by rewrite (Hw _ eq_refl m eq_refl) in E.
Qed.
Lemma denied_worded m : worded (TaskSpec.denied m).
Proof. by intros x [= <-]. Qed.
Ltac worded := repeat match goal with
  | |- Ok (TaskSpec.denied _) = Ok _ -> _ => intros [= <-]; apply denied_worded
  | |- Ok None = Ok _ -> _ => intros [= <-]; discriminate
  | |- Raise _ = Ok _ -> _ => discriminate
  | |- rbind ?m _ = Ok _ -> _ => let x := fresh "x" in destruct m as [x|]; cbn [rbind]; [|discriminate]
  | |- (if ?b then _ else _) = Ok _ -> _ => destruct b
  | |- Ok (if ?b then _ else _) = Ok _ -> _ => destruct b
  | |- Ok match ?x with _ => _ end = Ok _ -> _ => destruct x
  | |- match ?x with _ => _ end = Ok _ -> _ => destruct x
  end.
Lemma done_worded (meta : Meta) p e : TaskSpec.done_admission_error meta p = Ok e -> worded e.
Proof. unfold TaskSpec.done_admission_error, TaskSpec.acceptance_error. cbv zeta. worded. Qed.
Lemma completion_worded l e : ChangeDrift.completion_error l = Ok e -> worded e.
Proof.
  unfold ChangeDrift.completion_error. destruct l as [|r l]; [by intros [= <-]|]. destruct (last _) as [c|]; [|by intros [= <-]].
  destruct (ChangeDrift.records _); cbn [rbind]; [|done]. destruct (_ && _); [by intros [= <-] m [= <-]|].
  destruct (ChangeDrift.unresolved _); [by intros [= <-] | by intros [= <-] m [= <-]].
Qed.
Lemma drift_worded (meta : Meta) e : ChangeDrift.done_admission_error meta = Ok e -> worded e.
Proof.
  unfold ChangeDrift.done_admission_error. destruct (rbind _ _) as [[l err]|x] eqn:E.
  - apply rbind_Ok_inv in E as (l' & _ & (err' & Ec & E)%rbind_Ok_inv). injection E as -> ->. apply completion_worded in Ec.
    destruct (match err with Some _ => _ | None => _ end); [by intros [= <-]|].
    destruct (ChangeDrift.unresolved l); [by intros [= <-] | by intros [= <-] m [= <-]].
  - destruct (is_ValueError x); [by intros [= <-] m [= <-] | done].
Qed.
Lemma stale_worded `{Observations} (meta : Meta) tasks t e : Assumptions.first_stale meta tasks t = Ok e -> worded e.
Proof.
  induction t as [|[id r] t IH]; cbn [Assumptions.first_stale]; [by intros [= <-]|].
  destruct (negb _); [done|]. destruct (Assumptions.current_binding _ _ _); cbn [rbind]; [|done].
  destruct (ne _ _); [by intros [= <-] m [= <-] | done].
Qed.
Lemma assumption_worded (meta : Meta) tasks e : assumption_admission meta tasks = Ok e -> worded e.
Proof.
  unfold assumption_admission. intros (b & _ & E)%rbind_Ok_inv. destruct b; [|by injection E as <-]. revert E.
  unfold Assumptions.admission_error. destruct (rbind _ _) as [x|x] eqn:Ex.
  - apply rbind_Ok_inv in Ex as (l & _ & Ex%stale_worded). by intros [= <-].
  - destruct (_ || _); [by intros [= <-] m [= <-] | done].
Qed.
(** No admission is asked exactly when nothing pends. *)
Lemma assumption_admission_none (meta : Meta) tasks : assumption_admission meta tasks = Ok None ->
  exists l, Assumptions.records meta = Ok l /\
    forall id r, (id, r) ∈ Assumptions.active l -> Assumptions.pending r = true -> AssumptionLaws.fresh meta tasks r.
Proof.
  unfold assumption_admission, Assumptions.needs_admission. intros (b & (l & El & Eb)%rbind_Ok_inv & E)%rbind_Ok_inv.
  apply Ok_inj in Eb. destruct b; [by apply AssumptionLaws.admission_is_freshness|].
  exists l. split; [done|]. intros id r Hin Hp. exfalso.
  assert (existsb (fun kr => Assumptions.pending kr.2) (Assumptions.active l) = true) as Ht; [|congruence].
  apply existsb_exists. exists (id, r). split; [by apply list_elem_of_In | done].
Qed.
(** What a task shows before it is done. *)
Record disclosed (meta : Meta) (tasks : list Meta) : Prop := Disclosed {
  dc_changes : exists l, ChangeDrift.records meta = Ok l /\ DriftLaws.complete l;
  dc_assumptions : exists l, Assumptions.records meta = Ok l /\
    forall id r, (id, r) ∈ Assumptions.active l -> Assumptions.pending r = true -> AssumptionLaws.fresh meta tasks r;
  dc_evidence : TaskSpec.done_admission_error meta (Some policy) = Ok None;
  dc_children : Graph.open_child_error meta tasks = Ok None;
}.
Lemma child_worded (meta : Meta) tasks e : Graph.open_child_error meta tasks = Ok e -> worded e.
Proof.
  unfold Graph.open_child_error. destruct (ne _ _); [by intros [= <-]|]. intros (o & _ & E)%rbind_Ok_inv.
  destruct o; [by injection E as <-|]. apply rbind_Ok_inv in E as (i & _ & E). injection E as <-. intros m [= <-].
  destruct (str i); done.
Qed.

(** C12: An active task is released as done only when it is disclosed: its changes
    are complete and explained, every material assumption that is not disposed
    of is observed as recorded, the evidence its specification asks for admits
    it, and it has no open child. *)
Theorem done_requires_disclosure args tasks tasks' :
  mutate S0 C0 policy "release" args tasks = (tasks', Ok None) -> getattr args "status" VNull = VStr "done" ->
  exists task meta, attr args "task" = Ok task /\ Lifecycle.locate task tasks = Ok meta /\
    (get meta "status" = VStr "in_progress" -> disclosed meta tasks).
Proof.
  intros (task & meta & meta' & next & msg & Et & El & Ea & _)%mutate_steps Hs.
  exists task, meta. split_and!; [done..|]. intros Hst.
  change (@Lifecycle.apply_owned_change H (services S0 policy) args "release" tasks meta = (meta', Ok msg)) in Ea.
  unfold Lifecycle.apply_owned_change in Ea. apply sbind_Ok_inv in Ea as (u & m1 & [_ Ea]%slift_Ok_inv & _).
  unfold Lifecycle.require_owned_change_admission in Ea.
  apply rbind_Ok_inv in Ea as (u1 & _ & (o & _ & (u2 & _ & (u3 & _ & (u4 & _ & Ea)%rbind_Ok_inv)%rbind_Ok_inv)%rbind_Ok_inv)%rbind_Ok_inv).
  unfold Lifecycle.require_release_admission in Ea. rewrite Hs in Ea.
  unfold is_s in Ea. rewrite eq_str_str in Ea. cbn [String.eqb Ascii.eqb Bool.eqb andb] in Ea.
  unfold Lifecycle.require_done_admission, is_s in Ea. rewrite Hst, eq_str_str, String.eqb_refl in Ea.
  apply rbind_Ok_inv in Ea as (u5 & E1 & (u6 & E2 & (u7 & E3 & E4)%rbind_Ok_inv)%rbind_Ok_inv).
  apply require_some_none in E1; [|intros x; apply done_worded]. apply require_some_none in E2; [|intros x; apply child_worded].
  apply require_some_none in E3; [|intros x; apply drift_worded]. apply require_some_none in E4; [|intros x; apply assumption_worded].
  split; [by apply DriftLaws.completion_requires_explanations | by apply assumption_admission_none | done | done].
Qed.

(** *** Acceptance *)
Lemma dependency_unobserved (meta : Meta) r b : get r "kind" = VStr "dependency" ->
  Assumptions.current_binding meta [] r <> Ok b.
Proof.
  unfold Assumptions.current_binding. intros Hk (u & _ & E)%rbind_Ok_inv. cbv zeta in E. rewrite Hk in E.
  unfold Assumptions._binding in E. cbn [str String.eqb Ascii.eqb Bool.eqb] in E. unfold Assumptions._dependency in E.
  by apply rbind_Ok_inv in E as (? & _ & E).
Qed.
(** A task with a material assumption about another task can never be
    accepted, however fresh the assumption is: the dispatcher calls the
    acceptance without the tasks, so the dependency is never observed and the
    acceptance ends in an error that asks for revalidation. *)
Theorem dependency_blocks_acceptance args tasks tasks' task (meta : Meta) l id r out :
  attr args "task" = Ok task -> Lifecycle.locate task tasks = Ok meta -> Assumptions.records meta = Ok l ->
  (id, r) ∈ Assumptions.active l -> Assumptions.pending r = true -> get r "kind" = VStr "dependency" ->
  mutate S0 C0 policy "accept" args tasks = (tasks', out) -> out <> Ok None.
Proof.
  intros Et El Er Hin Hp Hk E ->. apply mutate_steps in E as (task' & meta0 & meta' & next & msg & Et' & El' & Ea & _).
  rewrite Et in Et'. injection Et' as <-. rewrite El in El'. injection El' as <-.
  change (apply_accept policy args None meta = (meta', Ok msg)) in Ea. unfold apply_accept in Ea. cbn [default] in Ea.
  apply sbind_Ok_inv in Ea as (o & m1 & [-> _]%slift_Ok_inv & Ea). apply sbind_Ok_inv in Ea as (u & m1 & [-> _]%slift_Ok_inv & Ea).
  unfold PredicateLedger.apply_acceptance in Ea. apply sbind_Ok_inv in Ea as (u1 & m1 & [-> _]%slift_Ok_inv & Ea).
  apply sbind_Ok_inv in Ea as (u2 & m1 & [_ Ef]%slift_Ok_inv & _). apply rbind_Ok_inv in Ef as (x & Ef & Ex).
  assert (x = None) as ->.
  { destruct x as [m|]; [|done]. apply assumption_worded in Ef. unfold PredicateLedger.raise_text in Ex.
    by rewrite (Ef m eq_refl) in Ex. }
  apply assumption_admission_none in Ef as (l' & El' & Hf). rewrite Er in El'. injection El' as <-.
  destruct (Hf id r Hin Hp) as (b & Eb & _). by apply (dependency_unobserved meta r b).
Qed.
End composed.

(** ** Witnesses *)
#[local] Existing Instance Execution.Sample.host.
#[local] Existing Instance DriftLaws.Sample.after.
#[local] Existing Instance AssumptionLaws.Sample.observations.
#[local] Existing Instance EvidenceLaws.Sample.artifacts.
Module Sample.
Definition policy : TaskSpec.EvidencePolicy := TaskSpec.DEFAULT_EVIDENCE_POLICY.
Definition run (kind : string) (args : Namespace) (tasks : list Meta) : list Meta * res (option string) :=
  mutate Lifecycle.Sample.services Lifecycle.Sample.checks policy kind args tasks.
Definition claimed : list Meta := Eval vm_compute in Commit.sample_stored.
Definition declare_args : Namespace := [
  ("task", VStr "AR-0001"); ("owner", VStr "ann"); ("expected_revision", VInt 4); ("assumption_action", VStr "declare");
  ("assumption_id", VStr "peer"); ("kind", VStr "dependency"); ("material", VBool true); ("reference", VStr "AR-0002");
  ("reason", VStr "")].
Definition assumed : list Meta := Eval vm_compute in fst (run "assumption" declare_args claimed).
Definition accept_args (revision : Z) : Namespace := [
  ("task", VStr "AR-0001"); ("owner", VStr "ann"); ("expected_revision", VInt revision);
  ("evidence_class", VStr "mechanical"); ("evidence_ref", VStr "proof.txt");
  ("evidence_digest", VStr EvidenceLaws.Sample.proof); ("note", VStr "shown")].
Definition accepted : list Meta := Eval vm_compute in fst (run "accept" (accept_args 4) claimed).
Definition release_args : Namespace := [
  ("task", VStr "AR-0001"); ("owner", VStr "ann"); ("status", VStr "done"); ("note", VStr "finished")].
Definition released : list Meta := Eval vm_compute in fst (run "release" release_args accepted).
Definition first (tasks : list Meta) : Meta := default [] (head tasks).
Definition refused : list Meta * res (option string) := Eval vm_compute in run "accept" (accept_args 5) assumed.
Definition history : list dict :=
  Eval vm_compute in match Assumptions.records (first assumed) with Ok l => l | Raise _ => [] end.
End Sample.
Lemma sample_declared :
  mutate Lifecycle.Sample.services Lifecycle.Sample.checks Sample.policy "assumption" Sample.declare_args Sample.claimed = (Sample.assumed, Ok None).
Proof. vm_compute. reflexivity. Qed.
Lemma commits_keep_histories_valid_witness :
  Sample.assumed <> Sample.claimed /\
  exists next l, Sample.assumed = Lifecycle.replace_task (VStr "AR-0001") next Sample.claimed /\ Assumptions.records next = Ok l.
Proof.
  split; [vm_compute; discriminate|].
  destruct (commits_keep_histories_valid Lifecycle.Sample.services Lifecycle.Sample.checks Sample.policy "assumption" Sample.declare_args Sample.claimed Sample.assumed sample_declared)
    as (task & next & Et & E & _ & (l & El) & _).
  exists next, l. split; [|exact El]. injection Et as <-. exact E.
Defined.
Lemma sample_released :
  mutate Lifecycle.Sample.services Lifecycle.Sample.checks Sample.policy "release" Sample.release_args Sample.accepted = (Sample.released, Ok None).
Proof. vm_compute. reflexivity. Qed.
Lemma done_requires_disclosure_witness :
  get (Sample.first Sample.released) "status" = VStr "done" /\
  disclosed Sample.policy (Sample.first Sample.accepted) Sample.accepted.
Proof.
  split; [vm_compute; reflexivity|].
  destruct (done_requires_disclosure Lifecycle.Sample.services Lifecycle.Sample.checks Sample.policy Sample.release_args Sample.accepted Sample.released sample_released eq_refl)
    as (task & meta & Et & El & Hd).
  injection Et as <-. vm_compute in El. injection El as <-. apply Hd. vm_compute. reflexivity.
Defined.
(** The assumption is fresh, yet the task is refused. *)
Lemma dependency_blocks_acceptance_witness :
  Assumptions.admission_error (Sample.first Sample.assumed) Sample.assumed = Ok None /\ snd Sample.refused <> Ok None.
Proof.
  split; [vm_compute; reflexivity|].
  apply (dependency_blocks_acceptance Lifecycle.Sample.services Lifecycle.Sample.checks Sample.policy (Sample.accept_args 5)
           Sample.assumed (fst Sample.refused) (VStr "AR-0001") (Sample.first Sample.assumed) Sample.history "peer"
           (default [] (head Sample.history)) (snd Sample.refused)); try (vm_compute; reflexivity).
  left.
Defined.
End Transitions.
