(* ===== verification/SqliteStore.v ===== *)
(** * The SQLite store ([sqlite_storage.py])

    The tables of the embedded database with the constraints of its schema, and
    every operation of [SQLiteBackend] as one transaction.  A transaction is a
    computation on the database that is undone as a whole when it raises, up to
    the check of the sidecars that follows the commit and may raise after it.
    A JSON column written with [json.dumps] is kept as the value [json.loads]
    returns for it when only that value is read back, and as its text where the
    text itself is compared.  The connection, the write-ahead log, file
    descriptors and sidecars are outside the model: the durable fence
    ([_assert_mutation_binding]) is a pair of checks around the effects of the
    transaction, and the sidecars are checked before and after its commit. *)
From stdpp Require Import gmap.
From S2P Require Import Prelude PyStr Regex PyVal PyTime PyJson JsonParse Journal Graph Sessions.

Module Sqlite.
Import Py.
Definition fm := Regex.fullmatch.

(** ** Tables *)
Record TaskRow : Type := MkTask {
  row_id : string; row_filename : string; row_meta : dict; row_body : string; row_revision : Z;
  row_status : string; row_owner : string; row_claim_expires : string; row_branch : string;
  row_worktree_key : string; row_updated_at : string }.
Record EventRow : Type := MkEvent {
  ev_task : string; ev_revision : Z; ev_kind : string; ev_recorded_at : string; ev_note : string }.
(** A row of [session_records] or of [checkpoint_records]. *)
Record RecordRow : Type := MkRecord {
  rec_task : string; rec_revision : Z; rec_json : string; rec_recorded_at : string }.
Record CommandRow : Type := MkCommand {
  cmd_task : string; cmd_owner : string; cmd_argv : string; cmd_returncode : Z;
  cmd_classification : string; cmd_recorded_at : string }.
Record EnvelopeRow : Type := MkIntent {
  env_id : string; env_task : string; env_created_at : string; env_json : string }.
Record ResultRow : Type := MkResult { res_id : string; res_json : string }.
Record SeriesRow : Type := MkSeries {
  ser_repository : string; ser_number : Z; ser_manifest : string; ser_digest : string }.
Record MemberRow : Type := MkMember {
  mem_repository : string; mem_number : Z; mem_task : string; mem_member : string }.
Record PublicationRow : Type := MkPublication {
  pub_repository : string; pub_number : Z; pub_digest : string; pub_key : string; pub_status : string;
  pub_comment : option string; pub_recorded_at : string }.

(** Rows are listed in the order of their insertion. *)
Record Database : Type := MkDb {
  metadata : list (string * string);
  tasks : list TaskRow;
  dependencies : list (string * string);
  events : list EventRow;
  command_results : list CommandRow;
  session_records : list RecordRow;
  checkpoint_records : list RecordRow;
  envelopes : list EnvelopeRow;
  results : list ResultRow;
  series : list SeriesRow;
  members : list MemberRow;
  publications : list PublicationRow;
  migrations : list (string * string * string) }.
Definition set_metadata db x := MkDb x (tasks db) (dependencies db) (events db) (command_results db)
  (session_records db) (checkpoint_records db) (envelopes db) (results db) (series db) (members db) (publications db) (migrations db).
Definition set_tasks db x := MkDb (metadata db) x (dependencies db) (events db) (command_results db)
  (session_records db) (checkpoint_records db) (envelopes db) (results db) (series db) (members db) (publications db) (migrations db).
Definition set_dependencies db x := MkDb (metadata db) (tasks db) x (events db) (command_results db)
  (session_records db) (checkpoint_records db) (envelopes db) (results db) (series db) (members db) (publications db) (migrations db).
Definition set_events db x := MkDb (metadata db) (tasks db) (dependencies db) x (command_results db)
  (session_records db) (checkpoint_records db) (envelopes db) (results db) (series db) (members db) (publications db) (migrations db).
Definition set_command_results db x := MkDb (metadata db) (tasks db) (dependencies db) (events db) x
  (session_records db) (checkpoint_records db) (envelopes db) (results db) (series db) (members db) (publications db) (migrations db).
Definition set_session_records db x := MkDb (metadata db) (tasks db) (dependencies db) (events db)
  (command_results db) x (checkpoint_records db) (envelopes db) (results db) (series db) (members db) (publications db) (migrations db).
Definition set_checkpoint_records db x := MkDb (metadata db) (tasks db) (dependencies db) (events db)
  (command_results db) (session_records db) x (envelopes db) (results db) (series db) (members db) (publications db) (migrations db).
Definition set_envelopes db x := MkDb (metadata db) (tasks db) (dependencies db) (events db) (command_results db)
  (session_records db) (checkpoint_records db) x (results db) (series db) (members db) (publications db) (migrations db).
Definition set_results db x := MkDb (metadata db) (tasks db) (dependencies db) (events db) (command_results db)
  (session_records db) (checkpoint_records db) (envelopes db) x (series db) (members db) (publications db) (migrations db).
Definition set_series db x := MkDb (metadata db) (tasks db) (dependencies db) (events db) (command_results db)
  (session_records db) (checkpoint_records db) (envelopes db) (results db) x (members db) (publications db) (migrations db).
Definition set_members db x := MkDb (metadata db) (tasks db) (dependencies db) (events db) (command_results db)
  (session_records db) (checkpoint_records db) (envelopes db) (results db) (series db) x (publications db) (migrations db).
Definition set_publications db x := MkDb (metadata db) (tasks db) (dependencies db) (events db) (command_results db)
  (session_records db) (checkpoint_records db) (envelopes db) (results db) (series db) (members db) x (migrations db).

Definition set_migrations db x := MkDb (metadata db) (tasks db) (dependencies db) (events db) (command_results db)
  (session_records db) (checkpoint_records db) (envelopes db) (results db) (series db) (members db) (publications db) x.

(** ** Constraints of the schema *)
Definition STATUSES : list string :=
  ["in_progress"; "open"; "blocked"; "planned"; "future"; "done"; "cancelled"; "superseded"].
Definition is_active (r : TaskRow) : bool := String.eqb (row_status r) "in_progress".
(** The CHECK constraints of a task row. *)
Definition task_check (r : TaskRow) : bool :=
  fm Regex.TASK (row_id r) && (1 <=? row_revision r) && PyStr.mem (row_status r) STATUSES
  && (if is_active r then PyStr.truthy (row_owner r) && PyStr.truthy (row_claim_expires r)
      else negb (PyStr.truthy (row_owner r)) && negb (PyStr.truthy (row_claim_expires r))).
Fixpoint unique (l : list string) : bool :=
  match l with [] => true | x :: l' => negb (PyStr.mem x l') && unique l' end.
(** The partial unique indexes on the active rows with a value. *)
Definition active_values (f : TaskRow -> string) (l : list TaskRow) : list string :=
  List.filter PyStr.truthy (map f (List.filter is_active l)).
Definition tasks_ok (l : list TaskRow) : bool :=
  forallb task_check l && unique (map row_id l) && unique (map row_filename l)
  && unique (active_values row_owner l) && unique (active_values row_branch l)
  && unique (active_values row_worktree_key l).
Definition has_task (l : list TaskRow) (id : string) : bool := existsb (fun r => String.eqb (row_id r) id) l.
Definition pair_text (p : string * string) : string := p.1 +:+ String "010" p.2.
Definition dependencies_ok (rows : list TaskRow) (l : list (string * string)) : bool :=
  forallb (fun d => has_task rows d.1 && has_task rows d.2 && negb (String.eqb d.1 d.2)) l
  && unique (map pair_text l).
(** [UNIQUE(task_id, revision)]: the key of a row *)
Definition key_text (id : string) (revision : Z) : string := pair_text (id, PyStr.of_Z revision).
Definition event_key (e : EventRow) : string := key_text (ev_task e) (ev_revision e).
Definition record_key (r : RecordRow) : string := key_text (rec_task r) (rec_revision r).

(** [_translate] of a failed constraint *)
Definition integrity (what : string) : exn := RuntimeError ("SQLITE_ERROR: " +:+ what).
Definition store_tasks (rows : list TaskRow) : st Database unit :=
  do slift (fun _ => raise_if (negb (tasks_ok rows)) (integrity "constraint failed: tasks")) ;;
  smodify (fun db => set_tasks db rows).
Definition insert_dependency (d : string * string) : st Database unit :=
  do* db := sget in
  let l := dependencies db ++ [d] in
  do slift (fun _ => raise_if (negb (dependencies_ok (tasks db) l)) (integrity "constraint failed: dependencies")) ;;
  sput (set_dependencies db l).
Fixpoint insert_dependencies (l : list (string * string)) : st Database unit :=
  match l with [] => sret tt | d :: l' => do insert_dependency d ;; insert_dependencies l' end.
Definition insert_event (e : EventRow) : st Database unit :=
  do* db := sget in
  do slift (fun _ => raise_if (negb (has_task (tasks db) (ev_task e)))
                       (integrity "FOREIGN KEY constraint failed")) ;;
  do slift (fun _ => raise_if (PyStr.mem (event_key e) (map event_key (events db)))
                       (integrity "UNIQUE constraint failed: events.task_id, events.revision")) ;;
  sput (set_events db (events db ++ [e])).
(** The rows of a journal table after an insertion. *)
Definition insert_record (rows : list TaskRow) (l : list RecordRow) (r : RecordRow) : res (list RecordRow) :=
  check raise_if (negb (has_task rows (rec_task r))) (integrity "FOREIGN KEY constraint failed") ;;
  check raise_if (PyStr.mem (record_key r) (map record_key l))
          (integrity "UNIQUE constraint failed: task_id, task_revision") ;;
  Ok (l ++ [r]).
(** [DELETE ... WHERE task_id=? AND sequence NOT IN (SELECT ... ORDER BY
    sequence DESC LIMIT n)]: drops the oldest rows of the task beyond [n]. *)
Fixpoint drop_oldest (id : string) (excess : nat) (l : list RecordRow) : list RecordRow :=
  match l, excess with
  | r :: l', S e => if String.eqb (rec_task r) id then drop_oldest id e l' else r :: drop_oldest id excess l'
  | _, _ => l
  end.
Definition of_task (id : string) (r : RecordRow) : bool := String.eqb (rec_task r) id.
Definition retain (id : string) (n : nat) (l : list RecordRow) : list RecordRow :=
  drop_oldest id (length (List.filter (of_task id) l) - n) l.

(** ** Binding of parameters *)
Definition int64 (z : Z) : res Z :=
  if (- 2 ^ 63 <=? z) && (z <? 2 ^ 63) then Ok z
  else Raise (OverflowError "Python int too large to convert to SQLite INTEGER").
(** A value stored in a [TEXT NOT NULL] column of a strict table. *)
Definition bind_text (v : value) : res string :=
  match v with
  | VStr s => Ok s
  | VInt z => let* z := int64 z in Ok (PyStr.of_Z z)
  | VBool b => Ok (if b then "1" else "0")
  | VNull => Raise (integrity "NOT NULL constraint failed")
  | VList _ | VDict _ => Raise (integrity ("Error binding parameter: type '" +:+ type_name v +:+ "' is not supported"))
  end.
(** A value stored in an [INTEGER NOT NULL] column of a strict table. *)
Definition bind_integer (v : value) : res Z :=
  match as_Z v, v with
  | Some z, _ => int64 z
  | None, VStr s => match PyStr.to_int s with
                    | Some z => int64 z
                    | None => Raise (integrity "cannot store TEXT value in INTEGER column")
                    end
  | None, _ => Raise (integrity "NOT NULL constraint failed")
  end.

(** ** Loading *)
Definition corrupt {A} (what : string) : res A := Raise (RuntimeError ("SQLITE_CORRUPT: " +:+ what)).
Fixpoint insert_row (r : TaskRow) (l : list TaskRow) : list TaskRow :=
  match l with
  | [] => [r]
  | r' :: l' => if String.leb (row_id r) (row_id r') then r :: l else r' :: insert_row r l'
  end.
(** [SELECT ... FROM tasks ORDER BY id] *)
Definition by_id (l : list TaskRow) : list TaskRow := foldr insert_row [] l.
Definition load_row (r : TaskRow) : res TaskRow :=
  if ne (get (row_meta r) "task_revision") (VInt (row_revision r))
  then corrupt "task revision columns disagree" else Ok r.
Definition _load (db : Database) : res (list TaskRow) := mapr load_row (by_id (tasks db)).
Definition load_tasks (db : Database) : res (list Meta) := let* rows := _load db in Ok (map row_meta rows).
(** [json.loads] of a stored record, which must be a dictionary *)
Definition record_value (what : string) (text : string) : res dict :=
  match JsonParse.loads text with
  | Some (VDict d) => Ok d
  | Some _ => corrupt ("invalid " +:+ what +:+ " record")
  | None => corrupt ("invalid " +:+ what +:+ " JSON")
  end.
Definition selected (task_id : option string) (r : RecordRow) : bool :=
  match task_id with None => true | Some t => String.eqb (rec_task r) t end.
Definition load_session (r : RecordRow) : res dict :=
  let* v := record_value "session" (rec_json r) in
  check match Sessions.validate_session_record v with
        | Raise e => if is_ValueError e then corrupt "invalid session record" else Raise e
        | Ok _ => Ok tt
        end ;;
  let* task := item v "task" in
  let* revision := item v "task_revision" in
  if ne task (VStr (rec_task r)) || ne revision (VInt (rec_revision r))
  then corrupt "session record identity mismatch" else Ok v.
Definition load_session_records (db : Database) (task_id : option string) : res (list dict) :=
  mapr load_session (List.filter (selected task_id) (session_records db)).
Definition load_checkpoint_records (db : Database) (task_id : option string) : res (list dict) :=
  mapr (fun r => record_value "checkpoint" (rec_json r)) (List.filter (selected task_id) (checkpoint_records db)).

Section store.
  (** The project binding; the outcome of the durable fence when it is read
      before the effects of a transaction, and with the check of the sidecars
      after them; and the outcome of the second check of the sidecars, which
      follows the commit. *)
  Context (binding : dict) (fence_before fence_after sidecars_after : res unit).

(** ** Transactions *)
Definition metadata_value (db : Database) (k : string) : option string :=
  snd <$> List.find (fun e => String.eqb e.1 k) (metadata db).
Definition inactive : exn := RuntimeError "SQLITE_BACKEND_INACTIVE: retry using the selected backend".
Definition _verify_binding (db : Database) : res unit :=
  let* project := item binding "project_id" in
  let* state := item binding "state_repository" in
  let* product := item binding "product_repository" in
  let expected := [("schema_version", "1"); ("backend", "sqlite"); ("project_id", str project);
                   ("state_repository", str state); ("product_repository", str product)] in
  check raise_if (existsb (fun e => negb (bool_decide (metadata_value db e.1 = Some e.2))) expected)
          (RuntimeError "SQLITE_BINDING_MISMATCH: database belongs to another project") ;;
  raise_if (negb (bool_decide (metadata_value db "state" = Some "active"))) inactive.
(** [rollback()] after the commit undoes nothing: a check that fails then raises
    with the effects durable. *)
Definition transaction {A} (m : st Database A) : st Database A := fun db =>
  match (do slift _verify_binding ;;
         do slift (fun _ => fence_before) ;;
         do* a := m in
         do slift (fun _ => fence_after) ;;
         sret a) db with
  | (db', Ok a) => (db', check sidecars_after ;; Ok a)
  | (_, Raise e) => (db, Raise e)
  end.

(** ** One task transition *)
Fixpoint find_row (task_id : string) (rows : list TaskRow) : res (option TaskRow) :=
  match rows with
  | [] => Ok None
  | r :: rows' => let* i := item (row_meta r) "id" in
                  if eq i (VStr task_id) then Ok (Some r) else find_row task_id rows'
  end.
(** The parameters of [UPDATE tasks SET ...]. *)
Definition updated_row (row : TaskRow) (meta : Meta) (body : string) (revision : Z) (at_ : string) : res TaskRow :=
  let text k := bind_text (get_or meta k (VStr "")) in
  let* status := item meta "status" in
  let* revision := int64 revision in
  let* status := bind_text status in
  let* owner := text "owner" in
  let* claim_expires := text "claim_expires" in
  let* branch := text "branch" in
  let* worktree_key := text "worktree_key" in
  Ok (MkTask (row_id row) (row_filename row) (Journal.canon_items meta) body revision status owner
        claim_expires branch worktree_key at_).
Definition at_revision (task_id : string) (revision : Z) (r : TaskRow) : bool :=
  String.eqb (row_id r) task_id && (row_revision r =? revision).
(** [UPDATE ... WHERE id=? AND revision=?] and the check of its row count *)
Definition update_columns (r row' : TaskRow) : TaskRow :=
  MkTask (row_id r) (row_filename r) (row_meta row') (row_body row') (row_revision row') (row_status row')
    (row_owner row') (row_claim_expires row') (row_branch row') (row_worktree_key row') (row_updated_at row').
Definition update_row (lost : string) (task_id : string) (current : Z) (row' : TaskRow) : st Database unit :=
  do* db := sget in
  do store_tasks (map (fun r => if at_revision task_id current r then update_columns r row' else r) (tasks db)) ;;
  slift (fun _ => raise_if (negb (Nat.eqb (length (List.filter (at_revision task_id current) (tasks db))) 1))
                    (RuntimeError ("SQLITE_CONFLICT: " +:+ lost))).
Definition dependency_pairs (task_id : string) (meta : Meta) : res (list (string * string)) :=
  let* values := iter (get_or meta "depends_on" (VList [])) in
  mapr (fun v => let* d := bind_text v in Ok (task_id, d)) values.
Definition replace_dependencies (task_id : string) (meta : Meta) : st Database unit :=
  do smodify (fun db => set_dependencies db
       (List.filter (fun d => negb (String.eqb d.1 task_id)) (dependencies db))) ;;
  do* pairs := slift (fun _ => dependency_pairs task_id meta) in
  insert_dependencies pairs.
Definition record_row (task_id : string) (record : dict) : res RecordRow :=
  let* revision := int_item record "task_revision" in
  let* revision := int64 revision in
  let* at_ := item record "recorded_at" in
  Ok (MkRecord task_id revision (Journal.encode record) (str at_)).
Definition MAX_CHECKPOINT_ROWS : nat := 16.
Definition MAX_SESSION_ROWS : nat := 32.
Definition insert_checkpoint (task_id : string) (record : dict) : st Database unit :=
  do* r := slift (fun _ => record_row task_id record) in
  do* db := sget in
  do* l := slift (fun _ => insert_record (tasks db) (checkpoint_records db) r) in
  sput (set_checkpoint_records db (retain task_id MAX_CHECKPOINT_ROWS l)).
Definition insert_session (task_id : string) (record : dict) : st Database unit :=
  do* r := slift (fun _ => record_row task_id record) in
  do* db := sget in
  do* l := slift (fun _ => insert_record (tasks db) (session_records db) r) in
  sput (set_session_records db (retain task_id MAX_SESSION_ROWS l)).
Definition optional {A} (o : option A) (f : A -> st Database unit) : st Database unit :=
  match o with Some a => f a | None => sret tt end.
Definition made (factory : option (Meta -> res dict)) (meta : Meta) (given : option dict) : res (option dict) :=
  match factory with Some f => let* r := f meta in Ok (Some r) | None => Ok given end.
(** The effects of a transition on the selected row. *)
Definition apply_to_row (task_id : string) (kind at_ : string) (row : TaskRow) (current : Z) (meta : Meta)
    (note body : string) (session_record : option dict)
    (session_factory checkpoint_factory : option (Meta -> res dict)) : st Database unit :=
  let meta := dset (dset meta "task_revision" (VInt (current + 1))) "updated_at" (VStr at_) in
  do* checkpoint := slift (fun _ => made checkpoint_factory meta None) in
  do optional checkpoint (insert_checkpoint task_id) ;;
  do* row' := slift (fun _ => updated_row row meta body (current + 1) at_) in
  do update_row "exact-revision update lost its fence" task_id current row' ;;
  do* session := slift (fun _ => made session_factory meta session_record) in
  do replace_dependencies task_id meta ;;
  do insert_event (MkEvent task_id (current + 1) kind at_ note) ;;
  optional session (insert_session task_id).
Definition mutate (task_id : string) (expected_revision : Z) (kind at_ : string)
    (transition : list Meta -> st Meta (string * string)) (session_record : option dict)
    (session_factory checkpoint_factory : option (Meta -> res dict)) : st Database unit :=
  transaction (
    do* rows := slift _load in
    do* found := slift (fun _ => find_row task_id rows) in
    match found with
    | None => sraise (RuntimeError ("unknown task " +:+ task_id))
    | Some row =>
        do* current := slift (fun _ => int_item (row_meta row) "task_revision") in
        do slift (fun _ => raise_if (negb (current =? expected_revision))
             (RuntimeError ("stale revision: expected " +:+ PyStr.of_Z expected_revision
                            +:+ ", current " +:+ PyStr.of_Z current))) ;;
        match transition (map row_meta rows) (row_meta row) with
        | (_, Raise e) => sraise e
        | (meta, Ok (note, body)) =>
            apply_to_row task_id kind at_ row current meta note body session_record session_factory
              checkpoint_factory
        end
    end).

(** ** Observations of the worktrees *)
Definition observed (item_ : value) : res dict :=
  let* branch := vitem item_ "branch" in
  let* head := vitem item_ "head" in
  let* dirty := vitem item_ "dirty" in
  Ok [("observed_branch", branch); ("observed_head", head); ("observed_dirty", dirty)].
Definition observe_row (observations : dict) (at_ : string) (row : TaskRow) : st Database unit :=
  let meta := row_meta row in
  let key := str (get_or meta "worktree_key" (VStr "")) in
  match dget observations key with
  | Some item_ =>
      if negb (PyStr.truthy key) then sret tt
      else
        do* values := slift (fun _ => observed item_) in
        if forallb (fun kv => eq (get meta kv.1) kv.2) values then sret tt
        else
          do* current := slift (fun _ => int_item meta "task_revision") in
          let meta := dset (dset (update meta values) "task_revision" (VInt (current + 1)))
                        "updated_at" (VStr at_) in
          do* row' := slift (fun _ => updated_row row meta (row_body row) (current + 1) at_) in
          do* id := slift (fun _ => let* i := item meta "id" in bind_text i) in
          do update_row "observation update lost its fence" id current row' ;;
          insert_event (MkEvent id (current + 1) "reconcile" at_ "Recorded live worktree state.")
  | None => sret tt
  end.
Fixpoint observe_rows (observations : dict) (at_ : string) (rows : list TaskRow) : st Database unit :=
  match rows with
  | [] => sret tt
  | r :: rows' => do observe_row observations at_ r ;; observe_rows observations at_ rows'
  end.
Definition update_observations (observations : dict) (at_ : string) : st Database unit :=
  transaction (do* rows := slift _load in observe_rows observations at_ rows).

(** ** Command evidence *)
Definition has_command_result (db : Database) (task_id owner argv_sha256 : string) : bool :=
  existsb (fun c => String.eqb (cmd_task c) task_id && String.eqb (cmd_owner c) owner
                    && String.eqb (cmd_argv c) argv_sha256) (command_results db).
Definition append_command_result (task_id owner command_hash : string) (returncode : Z)
    (classification recorded_at : string) : st Database unit :=
  transaction (
    do* code := slift (fun _ => int64 returncode) in
    do slift (fun db => raise_if (negb (has_task (tasks db) task_id)) (integrity "FOREIGN KEY constraint failed")) ;;
    do slift (fun _ => raise_if (negb (PyStr.len command_hash =? 64))
                         (integrity "CHECK constraint failed: length(argv_sha256)=64")) ;;
    smodify (fun db => set_command_results db
      (command_results db ++ [MkCommand task_id owner command_hash code classification recorded_at]))).

(** ** Retirement.  [project] exports the tasks and [switch_selector] selects
    the other backend; either may raise. *)
Definition set_state (db : Database) (v : string) : Database :=
  set_metadata db (map (fun e => if String.eqb e.1 "state" then (e.1, v) else e) (metadata db)).
Definition retire (project : list Meta -> res unit) (switch_selector : res unit) : st Database unit :=
  transaction (
    do* rows := slift _load in
    do slift (fun _ => project (map row_meta rows)) ;;
    do smodify (fun db => set_state db "retired") ;;
    slift (fun _ => switch_selector)).

(** ** Execution intents and results *)
Definition EXECUTION_ID : Regex.re :=
  let dash := Regex.lit "-" in
  Regex.cat (Regex.HEX 8) (Regex.cat dash (Regex.cat (Regex.HEX 4) (Regex.cat dash (Regex.cat (Regex.HEX 4)
    (Regex.cat dash (Regex.cat (Regex.HEX 4) (Regex.cat dash (Regex.HEX 12)))))))).
Definition EXECUTION_RESULT_CLASSIFICATIONS : list string := ["EXIT"; "SUBPROCESS_TIMEOUT"].
Definition ENVELOPE_FIELDS : list string :=
  ["schema_version"; "execution_id"; "task"; "task_revision"; "owner"; "claim_expires"; "worktree_key";
   "branch"; "spec_ref"; "spec_revision"; "policy_digest"; "argv_sha256"; "timeout_seconds"; "created_at"].
Definition RESULT_FIELDS : list string :=
  ["schema_version"; "execution_id"; "classification"; "returncode"; "recorded_at"].
Definition is_match (r : Regex.re) (v : value) : bool := match v with VStr s => fm r s | _ => false end.
(** [isinstance(v, int) and not isinstance(v, bool) and v >= 1] *)
Definition positive (v : value) : bool := match v with VInt z => 1 <=? z | _ => false end.
(** A non-empty string without a line break. *)
Definition one_line (s : string) : bool :=
  PyStr.truthy s && negb (PyStr.has_char "010" s) && negb (PyStr.has_char "013" s).
Definition safe_text (v : value) : bool := match v with VStr s => one_line s | _ => false end.
Definition version_1 (v : value) : bool := match v with VInt 1 => true | _ => false end.
Definition _normalize_execution_envelope (envelope : dict) : res dict :=
  let v k := get envelope k in
  check raise_if (negb (keys_are envelope ENVELOPE_FIELDS)) (ValueError "execution envelope has unexpected fields") ;;
  check raise_if (negb (version_1 (v "schema_version") && is_match EXECUTION_ID (v "execution_id")
                        && is_match Regex.TASK (v "task") && positive (v "task_revision")))
          (ValueError "execution envelope has invalid identity") ;;
  check raise_if (negb (forallb (fun k => safe_text (v k)) ["owner"; "claim_expires"; "worktree_key"; "branch"; "created_at"]))
          (ValueError "execution envelope has unsafe text field") ;;
  check raise_if (xorb (is_null (v "spec_ref")) (is_null (v "spec_revision")))
          (ValueError "execution envelope has incomplete spec binding") ;;
  check raise_if (negb (is_null (v "spec_ref")) && negb (safe_text (v "spec_ref") && positive (v "spec_revision")))
          (ValueError "execution envelope has invalid spec binding") ;;
  check raise_if (negb (is_match (Regex.HEX 64) (v "policy_digest"))) (ValueError "execution envelope has invalid policy_digest") ;;
  check raise_if (negb (is_match (Regex.HEX 64) (v "argv_sha256"))) (ValueError "execution envelope has invalid argv_sha256") ;;
  check raise_if (negb (positive (v "timeout_seconds"))) (ValueError "execution envelope has invalid timeout") ;;
  Ok (("schema_version", VInt 1) :: map (fun k => (k, v k)) (tail ENVELOPE_FIELDS)).
(** [json.dumps(normalized, sort_keys=True, separators=(",", ":"))]: the
    normalized timeout is a float.  An integer below 2^53 is exact as a float
    and prints with [.0] (up to 10^16). *)
Definition member_text (kv : string * value) : string :=
  PyJson.quoted kv.1 +:+ ":" +:+
  match kv with
  | ("timeout_seconds", VInt z) => PyStr.of_Z z +:+ ".0"
  | (_, w) => PyJson.print w
  end.
Definition canonical_envelope (normalized : dict) : string :=
  "{" +:+ PyStr.join "," (map member_text (Journal.canon_items normalized)) +:+ "}".
Definition _normalize_execution_result (result : dict) : res dict :=
  let v k := get result k in
  check raise_if (negb (keys_are result RESULT_FIELDS)) (ValueError "execution result has unexpected fields") ;;
  check raise_if (negb (version_1 (v "schema_version") && is_match EXECUTION_ID (v "execution_id")
                        && match v "classification" with VStr s => PyStr.mem s EXECUTION_RESULT_CLASSIFICATIONS | _ => false end
                        && type_int (v "returncode") && safe_text (v "recorded_at")))
          (ValueError "execution result has invalid fields") ;;
  Ok (("schema_version", VInt 1) :: map (fun k => (k, v k)) (tail RESULT_FIELDS)).
Definition text_of (d : dict) (k : string) : string := str (get d k).
Definition envelope_row (db : Database) (execution_id : string) : option EnvelopeRow :=
  List.find (fun r => String.eqb (env_id r) execution_id) (envelopes db).
Definition result_row (db : Database) (execution_id : string) : option ResultRow :=
  List.find (fun r => String.eqb (res_id r) execution_id) (results db).
(** The row of an intent: its task must exist, its integers must fit. *)
Definition insert_envelope (normalized : dict) : st Database unit :=
  do slift (fun db =>
       let* _ := (let* z := int_item normalized "task_revision" in int64 z) in
       let* _ := (if is_null (get normalized "spec_revision") then Ok 0
                  else let* z := int_item normalized "spec_revision" in int64 z) in
       raise_if (negb (has_task (tasks db) (text_of normalized "task"))) (integrity "FOREIGN KEY constraint failed")) ;;
  smodify (fun db => set_envelopes db (envelopes db
    ++ [MkIntent (text_of normalized "execution_id") (text_of normalized "task")
                                    (text_of normalized "created_at") (canonical_envelope normalized)])).
Definition conflict (what : string) : exn := RuntimeError ("execution " +:+ what +:+ " conflicts with durable record").
Definition record_execution_envelope (envelope : dict) : st Database dict :=
  do* normalized := slift (fun _ => _normalize_execution_envelope envelope) in
  transaction (
    do* db := sget in
    match envelope_row db (text_of normalized "execution_id") with
    | Some r =>
        do slift (fun _ => raise_if (negb (String.eqb (env_json r) (canonical_envelope normalized))) (conflict "envelope")) ;;
        sret normalized
    | None => do insert_envelope normalized ;; sret normalized
    end).
(** [(True, None)]: the launch is reserved; [(False, None)]: uncertain;
    [(False, result)]: the recorded result. *)
Definition begin_execution_envelope (envelope : dict) : st Database (bool * option dict) :=
  do* normalized := slift (fun _ => _normalize_execution_envelope envelope) in
  transaction (
    do* db := sget in
    let execution_id := text_of normalized "execution_id" in
    match envelope_row db execution_id with
    | None => do insert_envelope normalized ;; sret (true, None)
    | Some r =>
        do slift (fun _ => raise_if (negb (String.eqb (env_json r) (canonical_envelope normalized))) (conflict "envelope")) ;;
        match result_row db execution_id with
        | None => sret (false, None)
        | Some r => do* v := slift (fun _ =>
                      match JsonParse.loads (res_json r) with
                      | Some (VDict d) => _normalize_execution_result d
                      | _ => corrupt "invalid execution result"
                      end) in
                    sret (false, Some v)
        end
    end).
Definition record_execution_result (result : dict) : st Database dict :=
  do* normalized := slift (fun _ => _normalize_execution_result result) in
  transaction (
    do* db := sget in
    let execution_id := text_of normalized "execution_id" in
    match envelope_row db execution_id with
    | None => sraise (RuntimeError "execution result lacks a durable intent")
    | Some _ =>
        match result_row db execution_id with
        | Some r =>
            do slift (fun _ => raise_if (negb (String.eqb (res_json r) (Journal.encode normalized))) (conflict "result")) ;;
            sret normalized
        | None =>
            do slift (fun _ => let* z := int_item normalized "returncode" in int64 z) ;;
            do smodify (fun db => set_results db (results db ++ [MkResult execution_id (Journal.encode normalized)])) ;;
            sret normalized
        end
    end).
Definition load_execution_result (r : ResultRow) : res dict :=
  match JsonParse.loads (res_json r) with
  | Some (VDict d) =>
      match _normalize_execution_result d with
      | Raise e => if is_ValueError e then corrupt "invalid execution result" else Raise e
      | Ok v => Ok v
      end
  | _ => corrupt "invalid execution result"
  end.

(** [ORDER BY task_id, created_at, execution_id]; the byte 0 separates the
    columns, so texts compare as the tuples do. *)
Definition intent_order (i : EnvelopeRow) : string :=
  env_task i +:+ String "000" (env_created_at i +:+ String "000" (env_id i)).
Fixpoint insert_intent (i : EnvelopeRow) (l : list EnvelopeRow) : list EnvelopeRow :=
  match l with
  | [] => [i]
  | i' :: l' => if String.leb (intent_order i) (intent_order i') then i :: l else i' :: insert_intent i l'
  end.
Definition load_execution_results (db : Database) (task_id : option string) : res (list dict) :=
  let intents := List.filter (fun i => match task_id with None => true | Some t => String.eqb (env_task i) t end)
                   (foldr insert_intent [] (envelopes db)) in
  mapr load_execution_result (omap (fun i => result_row db (env_id i)) intents).

(** ** Issue series and their publication receipts *)
Definition PUBLICATION_STATUSES : list string :=
  ["published"; "already_published"; "dry_run"; "deferred_unavailable"; "deferred_unauthorized";
   "deferred_timeout"; "deferred_conflict"; "deferred_wrong_identity"; "deferred_closed"; "deferred_moved";
   "ambiguous"].
Definition FINAL_STATUSES : list string := ["published"; "already_published"].
Definition COMMENT_ID : Regex.re :=
  Regex.cat (Regex.RChar (PyStr.in_range 49 57)) (Regex.upto 18 (Regex.RChar Regex.digit)).
Definition _issue_series_publication_identity (receipt : dict) : res (string * Z) :=
  match get receipt "series_identity" with
  | VDict identity =>
      match get identity "repository" with
      | VStr repository =>
          check raise_if (negb (PyStr.startswith "github.com/" repository)
                          || negb (String.eqb repository (PyStr.lower repository))
                          || PyStr.has_char "010" repository || PyStr.has_char "013" repository)
                  (ValueError "issue-series publication has unsafe repository identity") ;;
          match get identity "issue_number" with
          | VInt n => if n <? 1 then Raise (ValueError "issue-series publication has invalid issue number")
                      else Ok (repository, n)
          | _ => Raise (ValueError "issue-series publication has invalid issue number")
          end
      | _ => Raise (ValueError "issue-series publication has unsafe repository identity")
      end
  | _ => Raise (ValueError "issue-series publication lacks series identity")
  end.
Definition publication_key (repository : string) (issue_number : Z) (digest : string) : string :=
  let nul := String "000" "" in
  Sha256.Sha256.hexdigest ("issue-series-publication-v1" +:+ nul +:+ repository +:+ nul
                           +:+ PyStr.of_Z issue_number +:+ nul +:+ digest).
(** A normalized receipt. *)
Definition _normalize_issue_series_publication (receipt : dict) (recorded_at : string) : res PublicationRow :=
  let* '(repository, issue_number) := _issue_series_publication_identity receipt in
  match get receipt "manifest_digest" with
  | VStr digest =>
      check raise_if (negb (fm Regex.DIGEST digest)) (ValueError "issue-series publication has invalid manifest digest") ;;
      match get receipt "publication_key" with
      | VStr key =>
          check raise_if (negb (fm (Regex.HEX 64) key)) (ValueError "issue-series publication has invalid publication key") ;;
          check raise_if (negb (String.eqb key (publication_key repository issue_number digest)))
                  (ValueError "issue-series publication key disagrees with its identity") ;;
          match get receipt "status" with
          | VStr status =>
              check raise_if (negb (PyStr.mem status PUBLICATION_STATUSES))
                      (ValueError "issue-series publication has invalid status") ;;
              let comment := get receipt "comment_id" in
              check raise_if (negb (is_null comment) && negb (is_match COMMENT_ID comment))
                      (ValueError "issue-series publication has invalid comment identifier") ;;
              check raise_if (negb (PyStr.mem status FINAL_STATUSES) && negb (is_null comment))
                      (ValueError "deferred issue-series publication cannot carry a comment identifier") ;;
              check raise_if (negb (PyStr.truthy recorded_at) || PyStr.has_char "010" recorded_at)
                      (ValueError "issue-series publication has invalid recorded time") ;;
              Ok (MkPublication repository issue_number digest key status
                    match comment with VStr c => Some c | _ => None end recorded_at)
          | _ => Raise (ValueError "issue-series publication has invalid status")
          end
      | _ => Raise (ValueError "issue-series publication has invalid publication key")
      end
  | _ => Raise (ValueError "issue-series publication has invalid manifest digest")
  end.
(** The receipt the command layer's record stands for. *)
Definition receipt_of (repository issue_number : value) (record : dict) : dict :=
  let comment := get record "comment_id" in
  [("series_identity", VDict [("repository", repository); ("issue_number", issue_number)]);
   ("manifest_digest", get record "manifest_digest"); ("publication_key", get record "publication_key");
   ("status", get record "status"); ("comment_id", if truthy comment then comment else VNull)].
Definition same_series (repository : string) (n : Z) (r : SeriesRow) : bool :=
  String.eqb (ser_repository r) repository && (ser_number r =? n).
Definition same_identity (p q : PublicationRow) : bool :=
  String.eqb (pub_repository p) (pub_repository q) && (pub_number p =? pub_number q)
  && String.eqb (pub_digest p) (pub_digest q).
(** Every fact but the recorded time. *)
Definition same_facts (p q : PublicationRow) : bool :=
  same_identity p q && String.eqb (pub_key p) (pub_key q) && String.eqb (pub_status p) (pub_status q)
  && bool_decide (pub_comment p = pub_comment q).
Definition record_issue_series_publication (receipt : dict) (recorded_at : string) : st Database PublicationRow :=
  do* normalized := slift (fun _ => _normalize_issue_series_publication receipt recorded_at) in
  transaction (
    do slift (fun _ => int64 (pub_number normalized)) ;;
    do* db := sget in
    do slift (fun _ =>
      match List.find (same_series (pub_repository normalized) (pub_number normalized)) (series db) with
      | Some manifest => raise_if (negb (String.eqb (ser_digest manifest) (pub_digest normalized)))
                           (RuntimeError "issue-series publication does not match a local manifest")
      | None => Raise (RuntimeError "issue-series publication does not match a local manifest")
      end) ;;
    match List.find (fun p => same_identity p normalized || String.eqb (pub_key p) (pub_key normalized))
            (publications db) with
    | Some existing =>
        do slift (fun _ => raise_if (negb (same_facts existing normalized))
                             (RuntimeError "issue-series publication receipt conflicts with durable record")) ;;
        sret existing
    | None => do smodify (fun db => set_publications db (publications db ++ [normalized])) ;; sret normalized
    end).
(** [WHERE repository=? AND issue_number=? AND manifest_digest=? AND publication_key=?] *)
Definition same_publication (p q : PublicationRow) : bool :=
  same_identity p q && String.eqb (pub_key p) (pub_key q).
Definition resolve_issue_series_publication (repository issue_number : value) (record : dict)
    (recorded_at : string) : st Database PublicationRow :=
  do* normalized := slift (fun _ =>
    _normalize_issue_series_publication (receipt_of repository issue_number record) recorded_at) in
  transaction (
    do slift (fun _ => int64 (pub_number normalized)) ;;
    do* db := sget in
    match List.find (fun p => same_publication p normalized) (publications db) with
    | None => sraise (RuntimeError "issue-series publication reservation is missing")
    | Some existing =>
        if PyStr.mem (pub_status existing) FINAL_STATUSES then
          do slift (fun _ => raise_if (negb (String.eqb (pub_status existing) (pub_status normalized))
                                       || negb (bool_decide (pub_comment existing = pub_comment normalized)))
                               (RuntimeError "issue-series publication receipt is already final")) ;;
          sret normalized
        else
          do smodify (fun db => set_publications db
               (map (fun p => if same_publication p normalized
                              then MkPublication (pub_repository p) (pub_number p) (pub_digest p) (pub_key p)
                                     (pub_status normalized) (pub_comment normalized) (pub_recorded_at normalized)
                              else p) (publications db))) ;;
          sret normalized
    end).

(** The digest of the state a series is planned against. *)
Definition state_entry (meta : Meta) : res value :=
  let* id := item meta "id" in
  let* status := item meta "status" in
  let* revision := item meta "task_revision" in
  Ok (VDict [("depends_on", get_or meta "depends_on" (VList [])); ("id", id);
             ("parent_task_ref", get_or meta "parent_task_ref" (VStr "")); ("status", status);
             ("task_revision", revision)]).
Fixpoint insert_meta (m : Meta) (l : list Meta) : list Meta :=
  match l with
  | [] => [m]
  | m' :: l' => if String.leb (str (get m "id")) (str (get m' "id")) then m :: l else m' :: insert_meta m l'
  end.
Definition _issue_series_state_digest (metas : list Meta) : res string :=
  let* _ := mapr (fun m => item m "id") metas in
  let* entries := mapr state_entry (foldr insert_meta [] metas) in
  Ok (PyJson.digest (VList entries)).
(** A new task: its file name, metadata and body. *)
Definition NewTask : Type := string * dict * string.
Definition new_row (t : NewTask) : res TaskRow :=
  let '(filename, meta, body) := t in
  let text k := bind_text (get_or meta k (VStr "")) in
  let* id := (let* v := item meta "id" in bind_text v) in
  let* revision := (let* v := item meta "task_revision" in bind_integer v) in
  let* status := (let* v := item meta "status" in bind_text v) in
  let* owner := text "owner" in
  let* claim_expires := text "claim_expires" in
  let* branch := text "branch" in
  let* worktree_key := text "worktree_key" in
  let* updated_at := (let* v := item meta "updated_at" in bind_text v) in
  Ok (MkTask id filename (Journal.canon_items meta) body revision status owner claim_expires branch worktree_key updated_at).
Definition insert_member (m : MemberRow) : st Database unit :=
  do* db := sget in
  let same x := String.eqb (mem_repository x) (mem_repository m) && (mem_number x =? mem_number m)
                && (String.eqb (mem_task x) (mem_task m) || String.eqb (mem_member x) (mem_member m)) in
  do slift (fun _ => raise_if (negb (has_task (tasks db) (mem_task m))) (integrity "FOREIGN KEY constraint failed")) ;;
  do slift (fun _ => raise_if (existsb same (members db)) (integrity "UNIQUE constraint failed: issue_series_members")) ;;
  sput (set_members db (members db ++ [m])).
Definition create_member (repository : string) (issue_number : Z) (recorded_at : string) (t : NewTask)
    : st Database unit :=
  let '(_, meta, _) := t in
  do* row := slift (fun _ => new_row t) in
  do* db := sget in
  do store_tasks (tasks db ++ [row]) ;;
  do* pairs := slift (fun _ => dependency_pairs (row_id row) meta) in
  do insert_dependencies pairs ;;
  do insert_event (MkEvent (row_id row) (row_revision row) "issue-series-create" recorded_at
                     "Created from a locally validated issue-series manifest.") ;;
  do* member := slift (fun _ => let* linkage := item meta "issue_series" in
                                let* m := vitem linkage "member_id" in bind_text m) in
  insert_member (MkMember repository issue_number (row_id row) member).
Fixpoint create_members (repository : string) (issue_number : Z) (recorded_at : string) (created : list NewTask)
    : st Database unit :=
  match created with
  | [] => sret tt
  | t :: created' => do create_member repository issue_number recorded_at t ;;
                     create_members repository issue_number recorded_at created'
  end.
Definition id_text (meta : Meta) : res string := let* i := item meta "id" in Ok (str i).
Definition create_issue_series (repository : string) (issue_number : Z) (manifest : value)
    (manifest_digest : string) (created : list NewTask) (expected_state_digest recorded_at : string)
    : st Database unit :=
  transaction (
    do* current := slift load_tasks in
    do slift (fun _ => let* d := _issue_series_state_digest current in
                       raise_if (negb (String.eqb d expected_state_digest))
                         (RuntimeError "STALE_STATE: re-run issue-series plan before create")) ;;
    do slift (fun db => raise_if (existsb (same_series repository issue_number) (series db))
                          (RuntimeError "issue-series manifest identity already exists")) ;;
    do* current_ids := slift (fun _ => mapr id_text current) in
    do* created_ids := slift (fun _ => mapr (fun t : NewTask => id_text t.1.2) created) in
    let collisions := PyStr.sorted_set (List.filter (fun i => PyStr.mem i current_ids) created_ids) in
    do slift (fun _ => raise_if (negb (bool_decide (collisions = [])))
         (RuntimeError ("issue-series identifiers already exist: " +:+ PyStr.join ", " collisions))) ;;
    do slift (fun _ => raise_if (negb (unique created_ids))
         (RuntimeError "issue-series contains duplicate task identifiers")) ;;
    do slift (fun _ => raise_if ((issue_number <=? 0) || negb (PyStr.len manifest_digest =? 71))
         (integrity "CHECK constraint failed: issue_series")) ;;
    do smodify (fun db => set_series db (series db ++
         [MkSeries repository issue_number (PyJson.dumps manifest) manifest_digest])) ;;
    create_members repository issue_number recorded_at created).
End store.

(** ** Creation of a database *)
(** The receipt of an imported series: its identity, manifest, digest and the
    identifiers of its members. *)
Definition series_receipt (receipt : dict) : res (string * Z * value * string) :=
  let* identity := item receipt "series_identity" in
  let* repository := vitem identity "repository" in
  let* number := vitem identity "issue_number" in
  let* number := match as_Z number, number with
                 | Some z, _ => Ok z
                 | None, VStr s => match PyStr.to_int s with
                                   | Some z => Ok z
                                   | None => Raise (ValueError "invalid literal for int()")
                                   end
                 | None, _ => Raise (TypeError "int() argument must be a string or a real number")
                 end in
  let* manifest := item receipt "manifest" in
  let* digest := item receipt "manifest_digest" in
  Ok (str repository, number, manifest, str digest).
Definition empty_database (metadata : list (string * string)) : Database :=
  MkDb metadata [] [] [] [] [] [] [] [] [] [] [] [].
Definition created_metadata (binding : dict) : res (list (string * string)) :=
  let* project := item binding "project_id" in
  let* state := item binding "state_repository" in
  let* product := item binding "product_repository" in
  Ok [("schema_version", "1"); ("backend", "sqlite"); ("project_id", str project);
      ("state_repository", str state); ("product_repository", str product); ("state", "active")].
Fixpoint each {A} (f : A -> st Database unit) (l : list A) : st Database unit :=
  match l with [] => sret tt | a :: l' => do f a ;; each f l' end.
Definition import_row (t : NewTask) : st Database unit :=
  do* row := slift (fun _ => new_row t) in
  do* db := sget in
  store_tasks (tasks db ++ [row]).
Definition import_event (imported_at : string) (t : NewTask) : st Database unit :=
  let meta := t.1.2 in
  do* id := slift (fun _ => let* v := item meta "id" in bind_text v) in
  do* pairs := slift (fun _ => dependency_pairs id meta) in
  do insert_dependencies pairs ;;
  do* revision := slift (fun _ => let* v := item meta "task_revision" in bind_integer v) in
  insert_event (MkEvent id revision "import" imported_at "Imported authoritative task record.").
Definition import_series (receipt : dict) : st Database unit :=
  do* r := slift (fun _ => series_receipt receipt) in
  let '(repository, number, manifest, digest) := r in
  do* number := slift (fun _ => int64 number) in
  do slift (fun db => raise_if ((number <=? 0) || negb (PyStr.len digest =? 71)
                                || existsb (same_series repository number) (series db))
                        (integrity "constraint failed: issue_series")) ;;
  do smodify (fun db => set_series db (series db ++
       [MkSeries repository number (PyJson.dumps manifest) digest])) ;;
  do* members := slift (fun _ => let* ids := item receipt "task_ids" in iter ids) in
  each (fun m => insert_member (MkMember repository number (str m) (str m))) members.
Definition import_publication (imported_at : string) (receipt : dict) : st Database unit :=
  do* p := slift (fun _ => _normalize_issue_series_publication receipt imported_at) in
  do slift (fun _ => int64 (pub_number p)) ;;
  do slift (fun db => raise_if (negb (existsb (same_series (pub_repository p) (pub_number p)) (series db))
                                || existsb (fun q => same_identity p q || String.eqb (pub_key p) (pub_key q))
                                     (publications db))
                        (integrity "constraint failed: issue_series_publications")) ;;
  smodify (fun db => set_publications db (publications db ++ [p])).
Definition insert_result (r : dict) : st Database unit :=
  do slift (fun _ => let* z := int_item r "returncode" in int64 z) ;;
  smodify (fun db => set_results db (results db ++ [MkResult (text_of r "execution_id") (Journal.encode r)])).
Definition import_executions (envelopes results : list dict) : st Database unit :=
  do* intents := slift (fun _ => mapr _normalize_execution_envelope envelopes) in
  do* outcomes := slift (fun _ => mapr _normalize_execution_result results) in
  let ids := map (fun e => text_of e "execution_id") intents in
  let outcome_ids := map (fun r => text_of r "execution_id") outcomes in
  do slift (fun _ => raise_if (negb (unique ids)) (ValueError "execution envelope import has duplicate identities")) ;;
  do slift (fun _ => raise_if (negb (forallb (fun i => PyStr.mem i ids) outcome_ids))
                       (ValueError "execution result import lacks an execution intent")) ;;
  do slift (fun _ => raise_if (negb (unique outcome_ids)) (ValueError "execution result import has duplicate identities")) ;;
  do each insert_envelope intents ;;
  each insert_result outcomes.
(** [:name] parameters: a missing key is a programming error of the driver. *)
Definition named (d : dict) (k : string) : res value :=
  match dget d k with
  | Some v => Ok v
  | None => Raise (integrity ("You did not supply a value for binding parameter :" +:+ k))
  end.
Definition import_command (c : dict) : st Database unit :=
  let text k := let* v := named c k in bind_text v in
  do* row := slift (fun db =>
    let* task := text "task" in
    let* owner := text "owner" in
    let* argv := text "argv_sha256" in
    let* code := (let* v := named c "returncode" in bind_integer v) in
    let* classification := text "classification" in
    let* at_ := text "at" in
    check raise_if (negb (PyStr.len argv =? 64)) (integrity "CHECK constraint failed: length(argv_sha256)=64") ;;
    check raise_if (negb (has_task (tasks db) task)) (integrity "FOREIGN KEY constraint failed") ;;
    Ok (MkCommand task owner argv code classification at_)) in
  smodify (fun db => set_command_results db (command_results db ++ [row])).
Definition imported_record (record : dict) : res RecordRow :=
  let* task := item record "task" in
  let* revision := item record "task_revision" in
  let* at_ := item record "recorded_at" in
  let* task := bind_text task in
  let* revision := bind_integer revision in
  let* at_ := bind_text at_ in
  Ok (MkRecord task revision (Journal.encode record) at_).
Definition import_session (record : dict) : st Database unit :=
  do* l := slift (fun db => let* r := imported_record record in insert_record (tasks db) (session_records db) r) in
  smodify (fun db => set_session_records db l).
Definition import_checkpoint (record : dict) : st Database unit :=
  do* l := slift (fun db => let* r := imported_record record in insert_record (tasks db) (checkpoint_records db) r) in
  smodify (fun db => set_checkpoint_records db l).
(** The contents of the database file, which replaces the target at the end; on
    an error nothing is installed. *)
Definition create_database (binding : dict) (imported : list NewTask)
    (imported_at source_backend source_checkpoint : string)
    (commands sessions checkpoints series publications envelopes results : list dict) : res Database :=
  let* metadata := created_metadata binding in
  match (do each import_row imported ;;
         do each (import_event imported_at) imported ;;
         do each import_series series ;;
         do each (import_publication imported_at) publications ;;
         do import_executions envelopes results ;;
         do smodify (fun db => set_migrations db (migrations db ++ [(source_backend, source_checkpoint, imported_at)])) ;;
         do each import_command commands ;;
         do each import_session sessions ;;
         each import_checkpoint checkpoints) (empty_database metadata) with
  | (db, Ok _) => Ok db
  | (_, Raise e) => Raise e
  end.
End Sqlite.
