(* ===== verification/SqliteLaws.v ===== *)
(** * Laws of the SQLite store

    What the operations of [SqliteStore] guarantee: transactions are atomic, the
    audit tables only grow, a launch is reserved at most once, the revisions of
    a task and its events agree, and a retired store is final. *)
From stdpp Require Import gmap.
From S2P Require Import Prelude PyStr Regex PyVal PyTime PyJson JsonParse Journal Graph Sessions.
From S2P Require Import Commit SqliteStore.

Module SqliteLaws.
Import Py Journal Sqlite.

Section laws.
  Context (binding : dict) (fence_before fence_after sidecars_after : res unit).
Notation transaction := (transaction binding fence_before fence_after sidecars_after).

(** ** Transactions *)
Lemma transaction_inv {A} (m : st Database A) db db' r : transaction m db = (db', r) ->
  (db' = db /\ exists e, r = Raise e) \/
  (_verify_binding binding db = Ok tt /\ exists a, r = (check sidecars_after ;; Ok a) /\ m db = (db', Ok a)).
Proof.
  unfold Sqlite.transaction. intros E. destruct (sbind _ _ db) as [db1 [a|e]] eqn:Et; injection E as <- <-.
  - right. apply sbind_Ok_inv in Et as ([] & s1 & E1 & Et). apply slift_Ok_inv in E1 as [-> E1].
    apply sbind_Ok_inv in Et as ([] & s1 & E2 & Et). apply slift_Ok_inv in E2 as [-> _].
    apply sbind_Ok_inv in Et as (a' & s1 & E3 & Et). apply sbind_Ok_inv in Et as ([] & s2 & E4 & Et).
    apply slift_Ok_inv in E4 as [-> _]. apply sret_Ok_inv in Et as [-> ->]. split; [done|]. by exists a'.
  - left. split; [done | by exists e].
Qed.
Lemma transaction_Ok {A} (m : st Database A) db db' a :
  transaction m db = (db', Ok a) -> m db = (db', Ok a).
Proof.
  intros [(_ & e & He)|(_ & b & Hb & E)]%transaction_inv; [congruence|]. symmetry in Hb.
  apply rbind_Ok_inv in Hb as (? & _ & [= ->]). done.
Qed.

(** ** Statements *)
Lemma store_tasks_inv rows db db' u : store_tasks rows db = (db', Ok u) ->
  tasks_ok rows = true /\ db' = set_tasks db rows.
Proof.
  intros E. apply sbind_Ok_inv in E as ([] & s1 & E1 & E). apply slift_Ok_inv in E1 as [-> E1].
  apply raise_if_Ok, negb_false_iff in E1. by apply smodify_Ok_inv in E.
Qed.
Lemma update_row_inv lost id current row' db db' u : update_row lost id current row' db = (db', Ok u) ->
  let rows := map (fun r => if at_revision id current r then update_columns r row' else r) (tasks db) in
  tasks_ok rows = true /\ db' = set_tasks db rows /\
  length (List.filter (at_revision id current) (tasks db)) = 1%nat.
Proof.
  intros E. apply sbind_Ok_inv in E as (db0 & s1 & E1 & E). injection E1 as <- <-.
  apply sbind_Ok_inv in E as ([] & s1 & E1 & E). apply store_tasks_inv in E1 as [E1 ->].
  apply slift_Ok_inv in E as [-> E]. apply raise_if_Ok, negb_false_iff, Nat.eqb_eq in E. done.
Qed.
Lemma insert_event_inv e db db' u : insert_event e db = (db', Ok u) ->
  has_task (tasks db) (ev_task e) = true /\ PyStr.mem (event_key e) (map event_key (events db)) = false /\
  db' = set_events db (events db ++ [e]).
Proof.
  intros E. apply sbind_Ok_inv in E as (db0 & s1 & E1 & E). injection E1 as <- <-.
  apply sbind_Ok_inv in E as ([] & s1 & E1 & E). apply slift_Ok_inv in E1 as [-> E1].
  apply sbind_Ok_inv in E as ([] & s1 & E2 & E). apply slift_Ok_inv in E2 as [-> E2].
  apply raise_if_Ok, negb_false_iff in E1. apply raise_if_Ok in E2. injection E as <-. done.
Qed.
Lemma insert_dependencies_inv l db db' u : insert_dependencies l db = (db', Ok u) ->
  exists x, db' = set_dependencies db x.
Proof.
  revert db. induction l as [|d l IH]; intros db E.
  { injection E as <-. exists (dependencies db). by destruct db. }
  apply sbind_Ok_inv in E as ([] & s1 & E1 & E). apply IH in E as [x ->].
  apply sbind_Ok_inv in E1 as (db0 & s2 & E2 & E1). injection E2 as <- <-.
  apply sbind_Ok_inv in E1 as ([] & s2 & E2 & E1). apply slift_Ok_inv in E2 as [-> _].
  injection E1 as <-. by exists x.
Qed.
Lemma replace_dependencies_inv id meta db db' u : replace_dependencies id meta db = (db', Ok u) ->
  exists x, db' = set_dependencies db x.
Proof.
  intros E. apply sbind_Ok_inv in E as ([] & s1 & E1 & E). apply smodify_Ok_inv in E1. subst s1.
  apply sbind_Ok_inv in E as (pairs & s1 & E1 & E). apply slift_Ok_inv in E1 as [-> _].
  apply insert_dependencies_inv in E as [x ->]. by exists x.
Qed.
Lemma insert_record_inv rows l r l' : insert_record rows l r = Ok l' ->
  has_task rows (rec_task r) = true /\ PyStr.mem (record_key r) (map record_key l) = false /\ l' = l ++ [r].
Proof.
  unfold insert_record. intros E. apply rbind_Ok_inv in E as ([] & E1 & E). apply rbind_Ok_inv in E as ([] & E2 & E).
  apply raise_if_Ok, negb_false_iff in E1. apply raise_if_Ok in E2. injection E as <-. done.
Qed.
Lemma insert_checkpoint_inv id record db db' u : insert_checkpoint id record db = (db', Ok u) ->
  exists x, db' = set_checkpoint_records db x.
Proof.
  intros E. apply sbind_Ok_inv in E as (r & s1 & E1 & E). apply slift_Ok_inv in E1 as [-> _].
  apply sbind_Ok_inv in E as (db0 & s1 & E1 & E). injection E1 as <- <-.
  apply sbind_Ok_inv in E as (l & s1 & E1 & E). apply slift_Ok_inv in E1 as [-> _]. injection E as <-. eauto.
Qed.
Lemma insert_session_inv id record db db' u : insert_session id record db = (db', Ok u) ->
  exists r, record_row id record = Ok r /\
    PyStr.mem (record_key r) (map record_key (session_records db)) = false /\
    db' = set_session_records db (retain id MAX_SESSION_ROWS (session_records db ++ [r])).
Proof.
  intros E. apply sbind_Ok_inv in E as (r & s1 & E1 & E). apply slift_Ok_inv in E1 as [-> Er].
  apply sbind_Ok_inv in E as (db0 & s1 & E1 & E). injection E1 as <- <-.
  apply sbind_Ok_inv in E as (l & s1 & E1 & E). apply slift_Ok_inv in E1 as [-> E1]. injection E as <-.
  apply insert_record_inv in E1 as (_ & Hn & ->). exists r. done.
Qed.

(** ** A committed transition *)
(** The metadata a transition stores. *)
Definition stamped (meta : Meta) (current : Z) (at_ : string) : Meta :=
  dset (dset meta "task_revision" (VInt (current + 1))) "updated_at" (VStr at_).
(** The effect on the tables: one row updated, one event appended. *)
Record updates (id kind at_ note body : string) (row : TaskRow) (current : Z) (meta : Meta)
    (session : option dict) (db db' : Database) : Prop := Updates {
  up_row : exists row', updated_row row (stamped meta current at_) body (current + 1) at_ = Ok row' /\
    tasks db' = map (fun r => if at_revision id current r then update_columns r row' else r) (tasks db);
  up_tasks : tasks_ok (tasks db') = true;
  up_one : length (List.filter (at_revision id current) (tasks db)) = 1%nat;
  up_event : events db' = events db ++ [MkEvent id (current + 1) kind at_ note];
  up_fresh : PyStr.mem (key_text id (current + 1)) (map event_key (events db)) = false;
  up_session : match session with
               | None => session_records db' = session_records db
               | Some record => exists r, record_row id record = Ok r /\
                   session_records db' = retain id MAX_SESSION_ROWS (session_records db ++ [r])
               end;
  up_rest : metadata db' = metadata db /\ command_results db' = command_results db /\
    envelopes db' = envelopes db /\ results db' = results db /\ series db' = series db /\
    publications db' = publications db;
}.
Lemma optional_inv {A} (o : option A) f db db' u : optional o f db = (db', Ok u) ->
  (o = None /\ db' = db) \/ exists a, o = Some a /\ f a db = (db', Ok u).
Proof.
  destruct o as [a|]; cbn; intros E; [right; by exists a|]. left. by injection E as <-.
Qed.
Lemma apply_to_row_inv id kind at_ row current meta note body given sf cf db db' u :
  apply_to_row id kind at_ row current meta note body given sf cf db = (db', Ok u) ->
  exists session, made sf (stamped meta current at_) given = Ok session /\
    updates id kind at_ note body row current meta session db db'.
Proof.
  unfold apply_to_row. fold (stamped meta current at_). cbv zeta. intros E.
  apply sbind_Ok_inv in E as (checkpoint & s1 & E1 & E). apply slift_Ok_inv in E1 as [-> _].
  apply sbind_Ok_inv in E as ([] & s1 & E1 & E).
  assert (exists x, s1 = set_checkpoint_records db x) as [x ->].
  { apply optional_inv in E1 as [[_ ->]|(r & _ & E1)]; [|by eapply insert_checkpoint_inv].
    exists (checkpoint_records db). by destruct db. }
  clear E1. apply sbind_Ok_inv in E as (row' & s1 & E1 & E). apply slift_Ok_inv in E1 as [-> E1].
  apply sbind_Ok_inv in E as ([] & s1 & E2 & E). apply update_row_inv in E2 as (T1 & -> & T2).
  apply sbind_Ok_inv in E as (session & s1 & E2 & E). apply slift_Ok_inv in E2 as [-> E2].
  apply sbind_Ok_inv in E as ([] & s1 & E3 & E). apply replace_dependencies_inv in E3 as [deps ->].
  apply sbind_Ok_inv in E as ([] & s1 & E3 & E). apply insert_event_inv in E3 as (_ & F & ->).
  exists session. split; [done|]. destruct db. cbn in *.
  apply optional_inv in E as [[-> ->]|(record & -> & E)].
  - split; cbn; try done. by exists row'.
  - apply insert_session_inv in E as (r & Er & _ & ->). split; cbn; try done; [by exists row' | by exists r].
Qed.
(** A mutation that is committed, whether or not the check after it raises *)
Lemma mutate_inv id expected kind at_ transition given sf cf db db' r :
  Sqlite.mutate binding fence_before fence_after sidecars_after id expected kind at_ transition given sf cf db = (db', r) ->
  (db' = db /\ exists e, r = Raise e) \/ r = sidecars_after /\
  exists rows row meta note body session,
    _load db = Ok rows /\ find_row id rows = Ok (Some row) /\ int_item (row_meta row) "task_revision" = Ok expected /\
    transition (map row_meta rows) (row_meta row) = (meta, Ok (note, body)) /\
    made sf (stamped meta expected at_) given = Ok session /\
    updates id kind at_ note body row expected meta session db db'.
Proof.
  intros [H|(_ & [] & Hr & E)]%transaction_inv; [by left | right]. split; [by destruct sidecars_after as [[]|]|]. clear Hr.
  apply sbind_Ok_inv in E as (rows & s1 & E1 & E). apply slift_Ok_inv in E1 as [-> E1].
  apply sbind_Ok_inv in E as (found & s1 & E2 & E). apply slift_Ok_inv in E2 as [-> E2].
  destruct found as [row|]; [|discriminate].
  apply sbind_Ok_inv in E as (current & s1 & E3 & E). apply slift_Ok_inv in E3 as [-> E3].
  apply sbind_Ok_inv in E as ([] & s1 & E4 & E). apply slift_Ok_inv in E4 as [-> E4].
  apply raise_if_Ok, negb_false_iff, Z.eqb_eq in E4. subst current.
  destruct (transition _ _) as [meta [[note body]|e]] eqn:Et; [|discriminate].
  apply apply_to_row_inv in E as (session & Es & Hu). by exists rows, row, meta, note, body, session.
Qed.
End laws.

(** ** The audit trail *)
(** The columns of a row repeat its metadata, as [_load] checks of the revision. *)
Record mirrors (r : TaskRow) : Prop := Mirrors {
  mi_keys : NoDup (keys (row_meta r));
  mi_revision : get (row_meta r) "task_revision" = VInt (row_revision r);
  mi_status : bind_text (get (row_meta r) "status") = Ok (row_status r);
  mi_text : Forall (fun c : string * (TaskRow -> string) => bind_text (get_or (row_meta r) c.1 (VStr "")) = Ok (c.2 r))
    [("owner", row_owner); ("claim_expires", row_claim_expires); ("branch", row_branch);
     ("worktree_key", row_worktree_key)];
}.
(** Every revision of every task, from its import on, has exactly one event,
    and the newest is the revision of the row. *)
Record audited (rows : list TaskRow) (evs : list EventRow) : Prop := Audited {
  au_tasks : tasks_ok rows = true;
  au_mirrors : Forall mirrors rows;
  au_events : NoDup (map event_key evs);
  au_known : forall e, e ∈ evs -> exists r, r ∈ rows /\ row_id r = ev_task e /\ ev_revision e <= row_revision r;
  au_last : forall r, r ∈ rows -> exists e, e ∈ evs /\ ev_task e = row_id r /\ ev_revision e = row_revision r;
  au_complete : forall r e n, r ∈ rows -> e ∈ evs -> ev_task e = row_id r ->
    ev_revision e <= n <= row_revision r -> exists e', e' ∈ evs /\ ev_task e' = row_id r /\ ev_revision e' = n;
}.

Lemma unique_NoDup l : unique l = true <-> NoDup l.
Proof.
  induction l as [|x l IH]; cbn; [split; [intros; by apply NoDup_nil | done]|].
  rewrite andb_true_iff, negb_true_iff, IH, NoDup_cons. split; intros [H1 H2]; split; try done.
  - intros Hx. apply PyStr.mem_spec in Hx. congruence.
  - destruct (PyStr.mem x l) eqn:E; [|done]. by apply PyStr.mem_spec in E.
Qed.
Lemma tasks_ok_ids rows : tasks_ok rows = true -> NoDup (map row_id rows).
Proof. unfold tasks_ok. rewrite !andb_true_iff. intros (((((_ & H) & _) & _) & _) & _). by apply unique_NoDup. Qed.
Lemma same_row rows r r' : NoDup (map row_id rows) -> r ∈ rows -> r' ∈ rows -> row_id r = row_id r' -> r = r'.
Proof.
  intros Hn [i Hi]%list_elem_of_lookup_1 [j Hj]%list_elem_of_lookup_1 E.
  assert (i = j) as ->; [|congruence].
  apply (NoDup_lookup _ i j (row_id r) Hn); rewrite list_lookup_fmap; [by rewrite Hi | by rewrite Hj, E].
Qed.
Lemma event_fresh key l e : PyStr.mem key (map event_key l) = false -> event_key e = key ->
  NoDup (map event_key l) -> NoDup (map event_key (l ++ [e])).
Proof.
  intros Hf <- Hn. rewrite map_app. apply NoDup_app. split_and!; [done | | by apply NoDup_singleton].
  intros x Hx Hy%list_elem_of_singleton. subst x. apply PyStr.mem_spec in Hx. congruence.
Qed.
Lemma at_revision_spec id n r : at_revision id n r = true <-> row_id r = id /\ row_revision r = n.
Proof. unfold at_revision. by rewrite andb_true_iff, String.eqb_eq, Z.eqb_eq. Qed.
Lemma mirrors_columns r r' : mirrors r' -> mirrors (update_columns r r').
Proof. intros [M1 M2 M3 M4]. split; [exact M1 | exact M2 | exact M3|].
  rewrite !Forall_cons in M4. destruct M4 as (H1 & H2 & H3 & H4 & _). rewrite !Forall_cons.
  split_and!; [exact H1 | exact H2 | exact H3 | exact H4 | by apply Forall_nil].
Qed.

(** Updating one row and appending its event keeps the trail. *)
Lemma audited_update rows evs id n row' e : audited rows evs ->
  let rows' := map (fun r => if at_revision id n r then update_columns r row' else r) rows in
  tasks_ok rows' = true -> length (List.filter (at_revision id n) rows) = 1%nat ->
  row_revision row' = n + 1 -> mirrors row' -> ev_task e = id -> ev_revision e = n + 1 ->
  PyStr.mem (key_text id (n + 1)) (map event_key evs) = false -> audited rows' (evs ++ [e]).
Proof.
  intros [A1 A2 A3 A4 A5 A6] rows' Hok Hone Hr Hm He1 He2 Hf. subst rows'.
  assert (exists r0, r0 ∈ rows /\ row_id r0 = id /\ row_revision r0 = n) as (r0 & Hr0 & Hid0 & Hrev0).
  { destruct (List.filter (at_revision id n) rows) as [|r0 l] eqn:E; [discriminate|]. exists r0.
    assert (r0 ∈ List.filter (at_revision id n) rows) as Hin by (rewrite E; by apply elem_of_cons; left).
    apply list_elem_of_In, filter_In in Hin as [Hin Hat%at_revision_spec]. split; [by apply list_elem_of_In | done]. }
  pose proof (tasks_ok_ids _ A1) as Hids.
  assert (forall r', r' ∈ map (fun r => if at_revision id n r then update_columns r row' else r) rows ->
            (r' = update_columns r0 row') \/ (r' ∈ rows /\ row_id r' <> id)) as Hrows.
  { intros r' (r & -> & Hr')%list_elem_of_fmap. destruct (at_revision id n r) eqn:E.
    - apply at_revision_spec in E as [E1 E2]. left. f_equal. apply (same_row rows); congruence.
    - right. split; [done|]. intros Ei. assert (r = r0) as -> by (apply (same_row rows); congruence).
      assert (at_revision id n r0 = true) by by apply at_revision_spec. congruence. }
  split; [done | | | | |].
  - apply Forall_forall. intros r' [->|[Hin _]]%Hrows; [by apply mirrors_columns|].
    rewrite Forall_forall in A2. by apply A2.
  - apply (event_fresh (key_text id (n + 1))); [done | unfold event_key; by rewrite He1, He2 | done].
  - intros x [Hx|Hx%list_elem_of_singleton]%elem_of_app.
    + destruct (A4 x Hx) as (r & Hr1 & Hr2 & Hr3).
      exists (if at_revision id n r then update_columns r row' else r). split_and!.
      * by apply (list_elem_of_fmap_2 (fun r => if at_revision id n r then update_columns r row' else r)).
      * by destruct (at_revision id n r).
      * destruct (at_revision id n r) eqn:E; [|done]. apply at_revision_spec in E as [_ E]. cbn. lia.
    + subst x. exists (update_columns r0 row'). split_and!; [|cbn; congruence | cbn; lia].
      apply list_elem_of_fmap. exists r0. split; [|done].
      by assert (at_revision id n r0 = true) as -> by by apply at_revision_spec.
  - intros r' [->|[Hin _]]%Hrows.
    + exists e. split; [apply elem_of_app; right; by apply list_elem_of_singleton|]. cbn. split; congruence.
    + destruct (A5 r' Hin) as (x & Hx1 & Hx2). exists x. split; [apply elem_of_app; by left | done].
  - intros r' x m [->|[Hin Hne]]%Hrows Hx Ht Hm1.
    + cbn [row_id update_columns row_revision] in *. rewrite Hr in Hm1. destruct (decide (m = n + 1)) as [->|Hm2].
      { exists e. split; [apply elem_of_app; right; by apply list_elem_of_singleton | split; congruence]. }
      apply elem_of_app in Hx as [Hx|Hx%list_elem_of_singleton]; [|subst x; lia].
      destruct (A6 r0 x m Hr0 Hx Ht) as (y & Hy1 & Hy2); [lia|]. exists y. split; [apply elem_of_app; by left | done].
    + apply elem_of_app in Hx as [Hx|Hx%list_elem_of_singleton]; [|subst x; congruence].
      destruct (A6 r' x m Hin Hx Ht Hm1) as (y & Hy1 & Hy2). exists y. split; [apply elem_of_app; by left | done].
Qed.
(** A new task starts its trail. *)
Lemma audited_insert rows evs r e : audited rows evs -> tasks_ok (rows ++ [r]) = true -> mirrors r ->
  ev_task e = row_id r -> ev_revision e = row_revision r ->
  PyStr.mem (event_key e) (map event_key evs) = false -> audited (rows ++ [r]) (evs ++ [e]).
Proof.
  intros [A1 A2 A3 A4 A5 A6] Hok Hm He1 He2 Hf. pose proof (tasks_ok_ids _ Hok) as Hids.
  assert (forall r', r' ∈ rows -> row_id r' <> row_id r) as Hnew.
  { intros r' Hr' E. rewrite map_app, NoDup_app in Hids. destruct Hids as (_ & Hn & _).
    apply (Hn (row_id r')); [by apply (list_elem_of_fmap_2 row_id) | rewrite E; by apply list_elem_of_singleton]. }
  assert (e ∈ evs ++ [e]) as Hin by (apply elem_of_app; right; by apply list_elem_of_singleton).
  split; [done | | | | |].
  - apply Forall_app. split; [done | by apply Forall_singleton].
  - by eapply event_fresh.
  - intros x [Hx|Hx%list_elem_of_singleton]%elem_of_app.
    + destruct (A4 x Hx) as (r' & H1 & H2). exists r'. split; [apply elem_of_app; by left | done].
    + subst x. exists r. split_and!; [apply elem_of_app; right; by apply list_elem_of_singleton | done | lia].
  - intros r' [Hr|Hr%list_elem_of_singleton]%elem_of_app.
    + destruct (A5 r' Hr) as (x & H1 & H2). exists x. split; [apply elem_of_app; by left | done].
    + subst r'. by exists e.
  - intros r' x m Hr Hx Ht Hm1. apply elem_of_app in Hr as [Hr|Hr%list_elem_of_singleton].
    + apply elem_of_app in Hx as [Hx|Hx%list_elem_of_singleton];
        [|subst x; exfalso; apply (Hnew r' Hr); congruence].
      destruct (A6 r' x m Hr Hx Ht Hm1) as (y & Hy1 & Hy2). exists y. split; [apply elem_of_app; by left | done].
    + subst r'. apply elem_of_app in Hx as [Hx|Hx%list_elem_of_singleton].
      * destruct (A4 x Hx) as (r' & H1 & H2 & _). exfalso. apply (Hnew r' H1). congruence.
      * subst x. exists e. split_and!; [done | done | lia].
Qed.

(** ** Rows written from metadata *)
Lemma bind_text_canon v : bind_text (PyJson.canon v) = bind_text v.
Proof. by destruct v. Qed.
Lemma get_or_canon d k s : NoDup (keys d) -> get_or (canon_items d) k (VStr s) = PyJson.canon (get_or d k (VStr s)).
Proof. intros Hn. unfold get_or. rewrite dget_canon by done. by destruct (dget d k). Qed.
Lemma int64_Ok z y : int64 z = Ok y -> y = z.
Proof. unfold int64. destruct (_ && _); [by intros [= ->] | discriminate]. Qed.
Lemma mirrors_intro id fn meta body rev status owner expires branch key at_ :
  NoDup (keys meta) -> get meta "task_revision" = VInt rev -> bind_text (get meta "status") = Ok status ->
  bind_text (get_or meta "owner" (VStr "")) = Ok owner ->
  bind_text (get_or meta "claim_expires" (VStr "")) = Ok expires ->
  bind_text (get_or meta "branch" (VStr "")) = Ok branch ->
  bind_text (get_or meta "worktree_key" (VStr "")) = Ok key ->
  mirrors (MkTask id fn (canon_items meta) body rev status owner expires branch key at_).
Proof.
  intros Hn Hr Hs H1 H2 H3 H4. split; cbn [row_meta row_revision row_status].
  - by rewrite canon_items_keys.
  - by rewrite get_canon, Hr.
  - by rewrite get_canon, bind_text_canon.
  - rewrite !Forall_cons. cbn [fst snd row_meta row_owner row_claim_expires row_branch row_worktree_key].
    rewrite !get_or_canon, !bind_text_canon by done. by split_and!.
Qed.
Lemma updated_row_mirrors row meta body rev at_ row' : updated_row row meta body rev at_ = Ok row' ->
  NoDup (keys meta) -> get meta "task_revision" = VInt rev -> mirrors row' /\ row_revision row' = rev.
Proof.
  unfold updated_row. cbv zeta. intros E Hn Hr.
  apply rbind_Ok_inv in E as (status & E1%item_get & E). apply rbind_Ok_inv in E as (r & E2%int64_Ok & E). subst r.
  apply rbind_Ok_inv in E as (st & E3 & E). apply rbind_Ok_inv in E as (owner & E4 & E).
  apply rbind_Ok_inv in E as (expires & E5 & E). apply rbind_Ok_inv in E as (branch & E6 & E).
  apply rbind_Ok_inv in E as (key & E7 & E). injection E as <-. split; [|done].
  apply mirrors_intro; try done. by rewrite E1.
Qed.
Lemma stamped_keys meta n at_ : NoDup (keys meta) -> NoDup (keys (stamped meta n at_)).
Proof. intros H. by do 2 apply NoDup_dset. Qed.
Lemma stamped_revision meta n at_ : get (stamped meta n at_) "task_revision" = VInt (n + 1).
Proof. unfold stamped. by rewrite get_dset, get_dset. Qed.
Lemma updates_audited id kind at_ note body row current meta session db db' :
  updates id kind at_ note body row current meta session db db' -> NoDup (keys meta) ->
  audited (tasks db) (events db) -> audited (tasks db') (events db').
Proof.
  intros [(row' & Hrow & Ht) Hok Hone -> Hf _ _] Hn Ha. rewrite Ht in *.
  apply updated_row_mirrors in Hrow as [Hm Hr]; [|by apply stamped_keys | by apply stamped_revision].
  by eapply audited_update.
Qed.

(** ** Operations of the backend *)
Inductive operation : Type :=
  | Mutate (id : string) (expected : Z) (kind at_ : string) (transition : list Meta -> st Meta (string * string))
      (session : option dict) (session_factory checkpoint_factory : option (Meta -> res dict))
  | Observe (observations : dict) (at_ : string)
  | Command (id owner hash : string) (returncode : Z) (classification recorded_at : string)
  | RecordEnvelope (envelope : dict)
  | BeginEnvelope (envelope : dict)
  | RecordResult (result : dict)
  | Publish (receipt : dict) (recorded_at : string)
  | Resolve (repository number : value) (record : dict) (recorded_at : string)
  | CreateSeries (repository : string) (number : Z) (manifest : value) (digest : string)
      (created : list NewTask) (expected_digest recorded_at : string)
  | Retire (project : list Meta -> res unit) (switch : res unit).
Definition forget {A} (m : st Database A) (db : Database) : Database := fst (m db).
(** The database after an operation in a given environment. *)
Definition perform (binding : dict) (before after closed : res unit) (o : operation) (db : Database) : Database :=
  match o with
  | Mutate id e k a t s sf cf => forget (mutate binding before after closed id e k a t s sf cf) db
  | Observe obs a => forget (update_observations binding before after closed obs a) db
  | Command id ow h r c a => forget (append_command_result binding before after closed id ow h r c a) db
  | RecordEnvelope e => forget (record_execution_envelope binding before after closed e) db
  | BeginEnvelope e => forget (begin_execution_envelope binding before after closed e) db
  | RecordResult r => forget (record_execution_result binding before after closed r) db
  | Publish r a => forget (record_issue_series_publication binding before after closed r a) db
  | Resolve repo n r a => forget (resolve_issue_series_publication binding before after closed repo n r a) db
  | CreateSeries repo n m d c e a => forget (create_issue_series binding before after closed repo n m d c e a) db
  | Retire p s => forget (retire binding before after closed p s) db
  end.
(** Python dictionaries have distinct keys; created tasks carry integer
    revisions. *)
Definition operation_ok (o : operation) : Prop :=
  match o with
  | Mutate _ _ _ _ t _ _ _ => forall metas meta meta' r,
      NoDup (keys meta) -> t metas meta = (meta', Ok r) -> NoDup (keys meta')
  | CreateSeries _ _ _ _ c _ _ => Forall (fun t : NewTask =>
      NoDup (keys t.1.2) /\ type_int (get t.1.2 "task_revision") = true) c
  | _ => True
  end.
Inductive store_step : Database -> Database -> Prop :=
  | store_operation binding before after closed o db :
      operation_ok o -> store_step db (perform binding before after closed o db).

(** The tables that record evidence only grow. *)
Record grows (db db' : Database) : Prop := Grows {
  gr_events : events db `prefix_of` events db';
  gr_commands : command_results db `prefix_of` command_results db';
  gr_envelopes : envelopes db `prefix_of` envelopes db';
  gr_results : results db `prefix_of` results db';
  gr_series : series db `prefix_of` series db';
}.
#[export] Instance grows_preorder : PreOrder grows.
Proof.
  split; [by intros db; split|]. intros x y z [] []. split; by etrans.
Qed.
(** An operation grows the evidence and keeps the trail. *)
Record sound_change (db db' : Database) : Prop := SoundChange {
  so_grows : grows db db';
  so_audited : audited (tasks db) (events db) -> audited (tasks db') (events db');
}.
#[export] Instance sound_preorder : PreOrder sound_change.
Proof. split; [by intros db|]. intros x y z [] []. split; [by etrans | auto]. Qed.
Lemma transaction_sound {A} binding before after closed (m : st Database A) db :
  (forall db' a, m db = (db', Ok a) -> sound_change db db') ->
  sound_change db (forget (transaction binding before after closed m) db).
Proof.
  intros Hm. unfold forget. destruct (Sqlite.transaction binding before after closed m db) as [db' r] eqn:E. cbn.
  apply transaction_inv in E as [[-> _]|(_ & a & _ & E)]; [reflexivity | by eapply Hm].
Qed.
Lemma sound_rest db db' : tasks db' = tasks db -> events db' = events db ->
  command_results db `prefix_of` command_results db' -> envelopes db `prefix_of` envelopes db' ->
  results db `prefix_of` results db' -> series db `prefix_of` series db' -> sound_change db db'.
Proof. intros H1 H2 H3 H4 H5 H6. split; [split; by rewrite ?H2 | by rewrite H1, H2]. Qed.

(** ** Each operation *)
Lemma insert_row_perm r l : insert_row r l ≡ₚ r :: l.
Proof.
  induction l as [|x l IH]; cbn; [done|]. destruct (String.leb _ _); [done|].
  rewrite IH. apply Permutation_swap.
Qed.
Lemma by_id_perm l : by_id l ≡ₚ l.
Proof. induction l as [|r l IH]; cbn; [done|]. by rewrite insert_row_perm, IH. Qed.
Lemma load_rows db rows : _load db = Ok rows -> rows = by_id (tasks db).
Proof.
  unfold _load. generalize (by_id (tasks db)). intros l. revert rows. induction l as [|r l IH]; cbn; intros rows E.
  { by injection E as <-. }
  apply rbind_Ok_inv in E as (r' & E1 & E). apply rbind_Ok_inv in E as (rs & E2 & E). injection E as <-.
  rewrite (IH _ E2). f_equal. unfold load_row in E1. destruct (ne _ _); [discriminate | by injection E1].
Qed.
Lemma load_elem db rows r : _load db = Ok rows -> r ∈ rows -> r ∈ tasks db.
Proof. intros ->%load_rows. by rewrite by_id_perm. Qed.
Lemma find_row_elem id rows r : find_row id rows = Ok (Some r) -> r ∈ rows /\ item (row_meta r) "id" = Ok (get (row_meta r) "id") /\
  eq (get (row_meta r) "id") (VStr id) = true.
Proof.
  induction rows as [|x rows IH]; cbn; intros E; [discriminate|].
  apply rbind_Ok_inv in E as (i & E1 & E). destruct (eq i (VStr id)) eqn:Ei.
  - injection E as <-. rewrite (item_get _ _ _ E1). split_and!; [apply elem_of_cons; by left | done | done].
  - destruct (IH E) as [H1 H2]. split; [apply elem_of_cons; by right | done].
Qed.
Lemma audited_keys rows evs : audited rows evs -> Forall (fun r => NoDup (keys (row_meta r))) rows.
Proof. intros [_ A _ _ _ _]. eapply Forall_impl; [exact A|]. by intros r [? _ _ _]. Qed.
Lemma updates_grows id kind at_ note body row current meta session db db' :
  updates id kind at_ note body row current meta session db db' -> grows db db'.
Proof.
  intros [_ _ _ He _ _ (_ & H1 & H2 & H3 & H4 & _)]. split; rewrite ?H1, ?H2, ?H3, ?H4; try done.
  rewrite He. by apply prefix_app_r.
Qed.
Lemma mutate_sound binding before after closed id e k a t s sf cf db :
  operation_ok (Mutate id e k a t s sf cf) ->
  sound_change db (forget (mutate binding before after closed id e k a t s sf cf) db).
Proof.
  intros Hok. unfold forget. destruct (mutate _ _ _ _ _ _ _ _ _ _ _ _ db) as [db' r] eqn:E. cbn.
  apply mutate_inv in E as [[-> _]|(_ & rows & row & meta & note & body & session & Hl & Hf & _ & Ht & _ & Hu)]; [reflexivity|].
  split; [by eapply updates_grows|]. intros Ha. eapply updates_audited; [exact Hu | | done].
  eapply Hok; [|exact Ht]. apply find_row_elem in Hf as [Hin _]. pose proof (audited_keys _ _ Ha) as Hk.
  rewrite Forall_forall in Hk. apply Hk. by eapply load_elem.
Qed.

Lemma update_keys (d e : dict) : NoDup (keys d) -> NoDup (keys (update d e)).
Proof. revert d. induction e as [|[k v] e IH]; intros d Hn; [done|]. cbn. by apply IH, NoDup_dset. Qed.
Lemma observe_row_sound obs at_ row db db' u : observe_row obs at_ row db = (db', Ok u) ->
  grows db db' /\ (NoDup (keys (row_meta row)) -> audited (tasks db) (events db) -> audited (tasks db') (events db')).
Proof.
  unfold observe_row. cbv zeta. intros E.
  destruct (dget obs _) as [v|]; [|injection E as <-; by split].
  destruct (negb _); [injection E as <-; by split|].
  apply sbind_Ok_inv in E as (values & s1 & E1 & E). apply slift_Ok_inv in E1 as [-> _].
  destruct (forallb _ _); [injection E as <-; by split|].
  apply sbind_Ok_inv in E as (current & s1 & E1 & E). apply slift_Ok_inv in E1 as [-> _].
  fold (stamped (update (row_meta row) values) current at_) in E.
  apply sbind_Ok_inv in E as (row' & s1 & E1 & E). apply slift_Ok_inv in E1 as [-> E1].
  apply sbind_Ok_inv in E as (id & s1 & E2 & E). apply slift_Ok_inv in E2 as [-> _].
  apply sbind_Ok_inv in E as ([] & s1 & E2 & E). apply update_row_inv in E2 as (T1 & -> & T2).
  apply insert_event_inv in E as (_ & F & ->). split.
  - split; try done. by apply prefix_app_r.
  - intros Hn Ha. apply updated_row_mirrors in E1 as [Hm Hr];
      [|by apply stamped_keys, update_keys | by apply stamped_revision].
    cbn [tasks events set_events set_tasks]. by eapply audited_update.
Qed.
Lemma observe_rows_sound obs at_ rows db db' u : observe_rows obs at_ rows db = (db', Ok u) ->
  grows db db' /\
  (Forall (fun r => NoDup (keys (row_meta r))) rows -> audited (tasks db) (events db) ->
   audited (tasks db') (events db')).
Proof.
  revert db. induction rows as [|r rows IH]; cbn; intros db E; [injection E as <-; by split|].
  apply sbind_Ok_inv in E as ([] & s1 & E1 & E). apply observe_row_sound in E1 as [G1 A1].
  apply IH in E as [G2 A2]. split; [by etrans|]. intros [H1 H2]%Forall_cons Ha. auto.
Qed.
Lemma observe_sound binding before after closed obs a db :
  sound_change db (forget (update_observations binding before after closed obs a) db).
Proof.
  apply transaction_sound. intros db' [] E. apply sbind_Ok_inv in E as (rows & s1 & E1 & E).
  apply slift_Ok_inv in E1 as [-> Hl]. apply observe_rows_sound in E as [G A]. split; [done|]. intros Ha.
  apply A; [|done]. pose proof (audited_keys _ _ Ha) as Hk. rewrite Forall_forall in *. intros r Hr.
  apply Hk. by eapply load_elem.
Qed.
Lemma command_sound binding before after closed id ow h r c a db :
  sound_change db (forget (append_command_result binding before after closed id ow h r c a) db).
Proof.
  apply transaction_sound. intros db' [] E. repeat inv_step. apply sound_rest; cbn; try done.
  by apply prefix_app_r.
Qed.

(** Computations whose steps before the last are reads. *)
Lemma insert_envelope_inv normalized db db' u : insert_envelope normalized db = (db', Ok u) ->
  has_task (tasks db) (text_of normalized "task") = true /\
  db' = set_envelopes db (envelopes db ++
    [MkIntent (text_of normalized "execution_id") (text_of normalized "task")
       (text_of normalized "created_at") (canonical_envelope normalized)]).
Proof.
  intros E. apply sbind_Ok_inv in E as ([] & s1 & E1 & E). apply slift_Ok_inv in E1 as [-> E1].
  do 2 (apply rbind_Ok_inv in E1 as (? & _ & E1)). apply raise_if_Ok, negb_false_iff in E1.
  by apply smodify_Ok_inv in E.
Qed.
Lemma sound_envelopes db x : sound_change db (set_envelopes db (envelopes db ++ x)).
Proof. apply sound_rest; cbn; try done. by apply prefix_app_r. Qed.
Lemma forget_lift {A B} (f : Database -> res A) (m : A -> st Database B) db :
  (forall a, f db = Ok a -> sound_change db (forget (m a) db)) -> sound_change db (forget (sbind (slift f) m) db).
Proof.
  intros Hm. unfold forget, sbind, slift. destruct (f db) as [a|e]; [by apply Hm | reflexivity].
Qed.
Lemma record_envelope_sound binding before after closed e db :
  sound_change db (forget (record_execution_envelope binding before after closed e) db).
Proof.
  apply forget_lift. intros normalized _. apply transaction_sound. intros db' a E.
  apply sbind_Ok_inv in E as (db0 & s1 & E1 & E). injection E1 as <- <-.
  destruct (envelope_row db _).
  - repeat inv_step. reflexivity.
  - apply sbind_Ok_inv in E as ([] & s1 & E1 & E). apply insert_envelope_inv in E1 as [_ ->].
    injection E as <- _. apply sound_envelopes.
Qed.
Lemma begin_envelope_sound binding before after closed e db :
  sound_change db (forget (begin_execution_envelope binding before after closed e) db).
Proof.
  apply forget_lift. intros normalized _. apply transaction_sound. intros db' a E.
  apply sbind_Ok_inv in E as (db0 & s1 & E1 & E). injection E1 as <- <-. cbv zeta in E.
  destruct (envelope_row db _).
  - apply sbind_Ok_inv in E as ([] & s1 & E1 & E). apply slift_Ok_inv in E1 as [-> _].
    destruct (result_row db _); repeat inv_step; reflexivity.
  - apply sbind_Ok_inv in E as ([] & s1 & E1 & E). apply insert_envelope_inv in E1 as [_ ->].
    injection E as <- _. apply sound_envelopes.
Qed.
Lemma record_result_sound binding before after closed r db :
  sound_change db (forget (record_execution_result binding before after closed r) db).
Proof.
  apply forget_lift. intros normalized _. apply transaction_sound. intros db' a E.
  apply sbind_Ok_inv in E as (db0 & s1 & E1 & E). injection E1 as <- <-. cbv zeta in E.
  destruct (envelope_row db _); [|discriminate]. destruct (result_row db _).
  - repeat inv_step. reflexivity.
  - repeat inv_step. apply sound_rest; cbn; try done. by apply prefix_app_r.
Qed.

Lemma publish_sound binding before after closed receipt a db :
  sound_change db (forget (record_issue_series_publication binding before after closed receipt a) db).
Proof.
  apply forget_lift. intros normalized _. apply transaction_sound. intros db' p E.
  apply sbind_Ok_inv in E as (z & s1 & E1 & E). apply slift_Ok_inv in E1 as [-> _].
  apply sbind_Ok_inv in E as (db0 & s1 & E1 & E). injection E1 as <- <-.
  apply sbind_Ok_inv in E as ([] & s1 & E1 & E). apply slift_Ok_inv in E1 as [-> _].
  destruct (List.find _ (publications db)); repeat inv_step; by apply sound_rest.
Qed.
Lemma resolve_sound binding before after closed repo n record a db :
  sound_change db (forget (resolve_issue_series_publication binding before after closed repo n record a) db).
Proof.
  apply forget_lift. intros normalized _. apply transaction_sound. intros db' p E.
  apply sbind_Ok_inv in E as (z & s1 & E1 & E). apply slift_Ok_inv in E1 as [-> _].
  apply sbind_Ok_inv in E as (db0 & s1 & E1 & E). injection E1 as <- <-.
  destruct (List.find _ (publications db)); [|discriminate].
  destruct (PyStr.mem _ _); repeat inv_step; by apply sound_rest.
Qed.
Lemma retire_sound binding before after closed project switch db :
  sound_change db (forget (retire binding before after closed project switch) db).
Proof. apply transaction_sound. intros db' [] E. repeat inv_step. by apply sound_rest. Qed.

Lemma insert_member_inv m db db' u : insert_member m db = (db', Ok u) ->
  tasks db' = tasks db /\ events db' = events db /\ command_results db' = command_results db /\
  envelopes db' = envelopes db /\ results db' = results db /\ series db' = series db.
Proof.
  intros E. apply sbind_Ok_inv in E as (db0 & s1 & E1 & E). injection E1 as <- <-. cbv zeta in E.
  apply sbind_Ok_inv in E as ([] & s1 & E1 & E). apply slift_Ok_inv in E1 as [-> _].
  apply sbind_Ok_inv in E as ([] & s1 & E1 & E). apply slift_Ok_inv in E1 as [-> _]. by injection E as <-.
Qed.
Lemma new_row_mirrors (t : NewTask) row : new_row t = Ok row -> NoDup (keys t.1.2) ->
  type_int (get t.1.2 "task_revision") = true -> mirrors row.
Proof.
  destruct t as [[fn meta] body]. unfold new_row. cbn [fst snd]. cbv zeta. intros E Hn Ht.
  apply rbind_Ok_inv in E as (id & _ & E). apply rbind_Ok_inv in E as (rev & E1 & E).
  apply rbind_Ok_inv in E1 as (v & Ev%item_get & E1). rewrite Ev in Ht. destruct v; try discriminate.
  unfold bind_integer in E1. cbn [as_Z] in E1. apply int64_Ok in E1. subst rev.
  apply rbind_Ok_inv in E as (status & E2 & E). apply rbind_Ok_inv in E2 as (sv & Es%item_get & E2).
  apply rbind_Ok_inv in E as (owner & E4 & E). apply rbind_Ok_inv in E as (expires & E5 & E).
  apply rbind_Ok_inv in E as (branch & E6 & E). apply rbind_Ok_inv in E as (key & E7 & E).
  apply rbind_Ok_inv in E as (at_ & _ & E). injection E as <-. apply mirrors_intro; by rewrite ?Es.
Qed.
Lemma create_member_sound repo n at_ (t : NewTask) db db' u : create_member repo n at_ t db = (db', Ok u) ->
  NoDup (keys t.1.2) /\ type_int (get t.1.2 "task_revision") = true -> sound_change db db'.
Proof.
  destruct t as [[fn meta] body]. unfold create_member. intros E [Hn Ht].
  apply sbind_Ok_inv in E as (row & s1 & E1 & E). apply slift_Ok_inv in E1 as [-> Er].
  apply sbind_Ok_inv in E as (db0 & s1 & E1 & E). injection E1 as <- <-.
  apply sbind_Ok_inv in E as ([] & s1 & E1 & E). apply store_tasks_inv in E1 as [Hok ->].
  apply sbind_Ok_inv in E as (pairs & s1 & E1 & E). apply slift_Ok_inv in E1 as [-> _].
  apply sbind_Ok_inv in E as ([] & s1 & E1 & E). apply insert_dependencies_inv in E1 as [deps ->].
  apply sbind_Ok_inv in E as ([] & s1 & E1 & E). apply insert_event_inv in E1 as (_ & Hf & ->).
  apply sbind_Ok_inv in E as (member & s1 & E1 & E). apply slift_Ok_inv in E1 as [-> _].
  apply insert_member_inv in E as (H1 & H2 & H3 & H4 & H5 & H6).
  cbn [tasks events command_results envelopes results series set_tasks set_dependencies set_events] in *.
  split.
  - split; rewrite ?H2, ?H3, ?H4, ?H5, ?H6; try done. by apply prefix_app_r.
  - intros Ha. rewrite H1, H2. apply audited_insert; try done. by eapply (new_row_mirrors (fn, meta, body)).
Qed.
Lemma create_members_sound repo n at_ created db db' u : create_members repo n at_ created db = (db', Ok u) ->
  Forall (fun t : NewTask => NoDup (keys t.1.2) /\ type_int (get t.1.2 "task_revision") = true) created ->
  sound_change db db'.
Proof.
  revert db. induction created as [|t created IH]; cbn; intros db E Hc; [by injection E as <-|].
  apply Forall_cons in Hc as [Ht Hc]. apply sbind_Ok_inv in E as ([] & s1 & E1 & E).
  etrans; [by eapply create_member_sound | by apply IH].
Qed.
Lemma create_sound binding before after closed repo n m d c e a db :
  operation_ok (CreateSeries repo n m d c e a) ->
  sound_change db (forget (create_issue_series binding before after closed repo n m d c e a) db).
Proof.
  intros Hok. apply transaction_sound. intros db' [] E.
  apply sbind_Ok_inv in E as (current & s1 & E1 & E). apply slift_Ok_inv in E1 as [-> _].
  do 2 (apply sbind_Ok_inv in E as ([] & s1 & E1 & E); apply slift_Ok_inv in E1 as [-> _]).
  do 2 (apply sbind_Ok_inv in E as (? & s1 & E1 & E); apply slift_Ok_inv in E1 as [-> _]).
  cbv zeta in E.
  do 3 (apply sbind_Ok_inv in E as ([] & s1 & E1 & E); apply slift_Ok_inv in E1 as [-> _]).
  apply sbind_Ok_inv in E as ([] & s1 & E1 & E). apply smodify_Ok_inv in E1. subst s1.
  apply create_members_sound in E; [|done]. etrans; [|exact E].
  apply sound_rest; cbn; try done. by apply prefix_app_r.
Qed.
Lemma step_sound db db' : store_step db db' -> sound_change db db'.
Proof.
  intros [binding before after closed o db0 Hok]. destruct o; cbn [perform];
    auto using mutate_sound, observe_sound, command_sound, record_envelope_sound, begin_envelope_sound,
      record_result_sound, publish_sound, resolve_sound, create_sound, retire_sound.
Qed.
Lemma steps_sound db db' : rtc store_step db db' -> sound_change db db'.
Proof. induction 1 as [|x y z Hs _ IH]; [reflexivity|]. etrans; [by apply step_sound | done]. Qed.

(** ** Creation *)
Lemma each_rows imported db db' u : each import_row imported db = (db', Ok u) ->
  exists rows, mapr new_row imported = Ok rows /\ db' = set_tasks db (tasks db ++ rows) /\
    (tasks_ok (tasks db) = true -> tasks_ok (tasks db ++ rows) = true).
Proof.
  revert db. induction imported as [|t l IH]; cbn; intros db E.
  { injection E as <-. exists []. rewrite app_nil_r. split_and!; [done | by destruct db | done]. }
  apply sbind_Ok_inv in E as ([] & s1 & E1 & E). apply sbind_Ok_inv in E1 as (row & s2 & E2 & E1).
  apply slift_Ok_inv in E2 as [-> E2]. apply sbind_Ok_inv in E1 as (db0 & s2 & E3 & E1). injection E3 as <- <-.
  apply store_tasks_inv in E1 as [Hok ->]. apply IH in E as (rows & Er & -> & Hrows). exists (row :: rows).
  rewrite E2, Er. cbn in *. rewrite <- app_assoc in *. split_and!; [done | by destruct db | auto].
Qed.
(** The identifier and the revision that are stored are those of the metadata. *)
Definition import_of (at_ : string) (r : TaskRow) : EventRow :=
  MkEvent (row_id r) (row_revision r) "import" at_ "Imported authoritative task record.".
Lemma new_row_keys (t : NewTask) row : new_row t = Ok row ->
  (let* v := item t.1.2 "id" in bind_text v) = Ok (row_id row) /\
  (let* v := item t.1.2 "task_revision" in bind_integer v) = Ok (row_revision row).
Proof.
  destruct t as [[fn meta] body]. unfold new_row. cbv zeta. cbn [fst snd]. intros E.
  apply rbind_Ok_inv in E as (id & E1 & E). apply rbind_Ok_inv in E as (rev & E2 & E).
  repeat (apply rbind_Ok_inv in E as (? & _ & E)). by injection E as <-.
Qed.
Lemma each_events at_ imported rows db db' u : mapr new_row imported = Ok rows ->
  each (import_event at_) imported db = (db', Ok u) -> NoDup (map event_key (events db)) ->
  tasks db' = tasks db /\ events db' = events db ++ map (import_of at_) rows /\ metadata db' = metadata db /\
  NoDup (map event_key (events db')).
Proof.
  revert rows db. induction imported as [|t l IH]; cbn [each mapr]; intros rows db Er E Hn.
  { injection Er as <-. injection E as <-. cbn. by rewrite app_nil_r. }
  apply rbind_Ok_inv in Er as (row & Er & Hl). apply rbind_Ok_inv in Hl as (rows' & Hl & Hr).
  injection Hr as <-. apply new_row_keys in Er as [Hi Hv].
  apply sbind_Ok_inv in E as ([] & s1 & E1 & E). apply sbind_Ok_inv in E1 as (id & s2 & E2 & E1).
  apply slift_Ok_inv in E2 as [-> E2]. apply sbind_Ok_inv in E1 as (pairs & s2 & E3 & E1).
  apply slift_Ok_inv in E3 as [-> _]. apply sbind_Ok_inv in E1 as ([] & s2 & E3 & E1).
  apply insert_dependencies_inv in E3 as [deps ->]. apply sbind_Ok_inv in E1 as (rev & s2 & E3 & E1).
  apply slift_Ok_inv in E3 as [-> E3]. rewrite Hi in E2. rewrite Hv in E3. injection E2 as <-. injection E3 as <-.
  apply insert_event_inv in E1 as (_ & Hf & ->). cbn [tasks events metadata set_dependencies set_events] in *.
  apply IH with (rows := rows') in E as (H1 & H2 & H3 & H4); [|done | by eapply event_fresh].
  cbn [tasks events metadata set_dependencies set_events] in *. rewrite H1, H2, H3 in *. cbn [map].
  by rewrite <- app_assoc in *.
Qed.
(** What the later steps of the import leave alone. *)
Definition same_trail (db db' : Database) : Prop :=
  tasks db' = tasks db /\ events db' = events db /\ metadata db' = metadata db.
#[local] Instance same_trail_preorder : PreOrder same_trail.
Proof. split; [by intros db|]. intros x y z (H1 & H2 & H3) (H4 & H5 & H6). unfold same_trail. split_and!; congruence. Qed.
Lemma each_trail {A} (f : A -> st Database unit) l db db' u :
  (forall a s s', f a s = (s', Ok tt) -> same_trail s s') -> each f l db = (db', Ok u) -> same_trail db db'.
Proof.
  intros Hf. revert db. induction l as [|a l IH]; cbn; intros db E; [by injection E as <-|].
  apply sbind_Ok_inv in E as ([] & s1 & E1 & E). etrans; [by eapply Hf | by apply IH].
Qed.
Lemma import_series_trail r s s' : import_series r s = (s', Ok tt) -> same_trail s s'.
Proof.
  intros E. apply sbind_Ok_inv in E as ([[[repo n] manifest] digest] & s1 & E1 & E). apply slift_Ok_inv in E1 as [-> _].
  apply sbind_Ok_inv in E as (z & s1 & E1 & E). apply slift_Ok_inv in E1 as [-> _].
  apply sbind_Ok_inv in E as ([] & s1 & E1 & E). apply slift_Ok_inv in E1 as [-> _].
  apply sbind_Ok_inv in E as ([] & s1 & E1 & E). apply smodify_Ok_inv in E1. subst s1.
  apply sbind_Ok_inv in E as (ms & s1 & E1 & E). apply slift_Ok_inv in E1 as [-> _].
  etrans; [|eapply each_trail; [|exact E]]; [done|]. intros m x x' Hm.
  apply sbind_Ok_inv in Hm as (db0 & s1 & E1 & Hm). injection E1 as <- <-. cbv zeta in Hm.
  apply sbind_Ok_inv in Hm as ([] & s1 & E1 & Hm). apply slift_Ok_inv in E1 as [-> _].
  apply sbind_Ok_inv in Hm as ([] & s1 & E1 & Hm). apply slift_Ok_inv in E1 as [-> _]. by injection Hm as <-.
Qed.
Lemma import_executions_trail es rs s s' : import_executions es rs s = (s', Ok tt) -> same_trail s s'.
Proof.
  intros E. do 2 (apply sbind_Ok_inv in E as (? & s1 & E1 & E); apply slift_Ok_inv in E1 as [-> _]). cbv zeta in E.
  do 3 (apply sbind_Ok_inv in E as ([] & s1 & E1 & E); apply slift_Ok_inv in E1 as [-> _]).
  apply sbind_Ok_inv in E as ([] & s1 & E1 & E). etrans.
  - eapply each_trail; [|exact E1]. intros a w w' [_ ->]%insert_envelope_inv. done.
  - eapply each_trail; [|exact E]. intros a w w' Hw. unfold insert_result in Hw. by repeat inv_step.
Qed.
Lemma create_inv binding imported at_ backend checkpoint commands sessions checkpoints sers pubs envs ress db :
  create_database binding imported at_ backend checkpoint commands sessions checkpoints sers pubs envs ress = Ok db ->
  exists rows, mapr new_row imported = Ok rows /\ tasks db = rows /\ tasks_ok rows = true /\
    events db = map (import_of at_) rows /\ NoDup (map event_key (events db)) /\
    created_metadata binding = Ok (metadata db).
Proof.
  unfold create_database. intros E. apply rbind_Ok_inv in E as (md & Em & E).
  destruct (sbind _ _ (empty_database md)) as [db' [[]|e]] eqn:Es; [|discriminate]. injection E as <-.
  apply sbind_Ok_inv in Es as ([] & s1 & E1 & E). apply each_rows in E1 as (rows & Er & -> & Hok).
  apply sbind_Ok_inv in E as ([] & s2 & E2 & E).
  apply (each_events _ _ rows) in E2 as (T1 & T2 & T3 & T4); [|done | by apply NoDup_nil].
  assert (same_trail s2 db') as (H1 & H2 & H3).
  { apply sbind_Ok_inv in E as ([] & s3 & E3 & E). etrans; [eapply each_trail; [|exact E3]; by eauto using import_series_trail|].
    apply sbind_Ok_inv in E as ([] & s4 & E4 & E).
    etrans; [eapply each_trail; [|exact E4]; intros a w w' Hw; unfold import_publication in Hw; by repeat inv_step|].
    apply sbind_Ok_inv in E as ([] & s5 & E5 & E). etrans; [by eapply import_executions_trail|].
    apply sbind_Ok_inv in E as ([] & s6 & E6 & E). apply smodify_Ok_inv in E6. subst s6.
    apply sbind_Ok_inv in E as ([] & s7 & E7 & E). apply sbind_Ok_inv in E as ([] & s8 & E8 & E).
    trans s7; [|trans s8].
    - etrans; [|eapply each_trail; [|exact E7]]; [done|]. intros a w w' Hw. unfold import_command in Hw. by repeat inv_step.
    - eapply each_trail; [|exact E8]. intros a w w' Hw. unfold import_session in Hw. by repeat inv_step.
    - eapply each_trail; [|exact E]. intros a w w' Hw. unfold import_checkpoint in Hw. by repeat inv_step. }
  exists rows. rewrite H1, H2, H3, T1, T2, T3. cbn in *. split_and!; try done; [by apply Hok | by rewrite <- T2].
Qed.
Lemma created_audited at_ imported rows : mapr new_row imported = Ok rows -> tasks_ok rows = true ->
  NoDup (map event_key (map (import_of at_) rows)) ->
  Forall (fun t : NewTask => NoDup (keys t.1.2) /\ type_int (get t.1.2 "task_revision") = true) imported ->
  audited rows (map (import_of at_) rows).
Proof.
  intros Er Hok Hn Ht. split; [done | | done | | |].
  - clear Hok Hn. revert rows Er. induction Ht as [|t l [Hk Hv] _ IH]; cbn; intros rows Er; [injection Er as <-; by constructor|].
    apply rbind_Ok_inv in Er as (row & E1 & Er). apply rbind_Ok_inv in Er as (rows' & E2 & Er). injection Er as <-.
    constructor; [by eapply new_row_mirrors | by apply IH].
  - intros e (r & -> & Hr)%list_elem_of_fmap. exists r. by split_and!.
  - intros r Hr. exists (import_of at_ r). split; [by apply (list_elem_of_fmap_2 (import_of at_)) | done].
  - intros r e n Hr (r' & -> & Hr')%list_elem_of_fmap Hid Hle. cbn in *.
    assert (r' = r) as -> by by apply (same_row rows); [apply tasks_ok_ids|..].
    exists (import_of at_ r). split_and!; [by apply (list_elem_of_fmap_2 (import_of at_)) | done | cbn; lia].
Qed.

(** C5: The evidence of the store only grows and its audit trail is complete from
    its creation on: whatever operations follow the import, in any environment,
    the events, command results, execution intents, results and series of
    before are still there, in the same order; the table constraints hold;
    every row repeats its metadata; and every task has exactly one event for
    each of its revisions, from its first to the current one. *)
Theorem audit_trail_complete binding imported at_ backend checkpoint commands sessions checkpoints sers pubs envs ress db db' :
  create_database binding imported at_ backend checkpoint commands sessions checkpoints sers pubs envs ress = Ok db ->
  Forall (fun t : NewTask => NoDup (keys t.1.2) /\ type_int (get t.1.2 "task_revision") = true) imported ->
  rtc store_step db db' -> grows db db' /\ audited (tasks db') (events db').
Proof.
  intros (rows & Er & Ht & Hok & He & Hn & _)%create_inv Hi [Hg Hs]%steps_sound. split; [done|]. apply Hs.
  rewrite He in *. rewrite Ht. by eapply created_audited.
Qed.

(** ** Executions *)
Lemma envelope_row_grows db db' id : grows db db' -> envelope_row db id <> None -> envelope_row db' id <> None.
Proof.
  intros [_ _ [x Hx] _ _] Hn. unfold envelope_row in *. rewrite Hx. clear Hx.
  induction (envelopes db) as [|r l IH]; [done|]. cbn in *. destruct (String.eqb (env_id r) id); [done | auto].
Qed.
Lemma result_row_grows db db' id r : grows db db' -> result_row db id = Some r -> result_row db' id = Some r.
Proof.
  intros [_ _ _ [x Hx] _] Hn. unfold result_row in *. rewrite Hx. clear Hx.
  induction (results db) as [|y l IH]; [done|]. cbn in *. destruct (String.eqb (res_id y) id); [done | auto].
Qed.
Lemma find_snoc_same {A} (f : A -> bool) l x : List.find f l = None -> f x = true -> List.find f (l ++ [x]) = Some x.
Proof.
  induction l as [|y l IH]; cbn; intros Hn Hx; [by rewrite Hx|]. destruct (f y); [discriminate | auto].
Qed.
Lemma normalize_envelope_id e n : _normalize_execution_envelope e = Ok n ->
  text_of n "execution_id" = str (get e "execution_id").
Proof.
  unfold _normalize_execution_envelope. cbv zeta. intros E. repeat (apply rbind_Ok_inv in E as ([] & _ & E)).
  apply Ok_inj in E. by subst n.
Qed.
Lemma normalize_result_id r n : _normalize_execution_result r = Ok n ->
  text_of n "execution_id" = str (get r "execution_id").
Proof.
  unfold _normalize_execution_result. cbv zeta. intros E. repeat (apply rbind_Ok_inv in E as ([] & _ & E)).
  apply Ok_inj in E. by subst n.
Qed.
Lemma begin_inv binding before after closed e db db' b v :
  begin_execution_envelope binding before after closed e db = (db', Ok (b, v)) ->
  let id := str (get e "execution_id") in
  (b = true /\ envelope_row db id = None /\ envelope_row db' id <> None) \/
  (b = false /\ envelope_row db id <> None /\ db' = db /\
   match result_row db id with
   | None => v = None
   | Some r => exists d n, JsonParse.loads (res_json r) = Some (VDict d) /\
                 _normalize_execution_result d = Ok n /\ v = Some n
   end).
Proof.
  intros E id. apply sbind_Ok_inv in E as (n & s1 & E1 & E). apply slift_Ok_inv in E1 as [-> E1].
  pose proof (normalize_envelope_id _ _ E1) as Hid. fold id in Hid. apply transaction_Ok in E.
  apply sbind_Ok_inv in E as (db0 & s1 & E2 & E). injection E2 as <- <-. cbv zeta in E. rewrite Hid in E.
  destruct (envelope_row db id) as [r|] eqn:Er.
  - right. apply sbind_Ok_inv in E as ([] & s1 & E2 & E). apply slift_Ok_inv in E2 as [-> _].
    destruct (result_row db id) as [x|]; [|by injection E as <- <- <-].
    apply sbind_Ok_inv in E as (w & s1 & E2 & E). apply slift_Ok_inv in E2 as [-> E2].
    injection E as <- <- <-. split_and!; try done.
    destruct (JsonParse.loads _) as [[| | | | |d]|]; try discriminate. by exists d, w.
  - left. apply sbind_Ok_inv in E as ([] & s1 & E2 & E). apply insert_envelope_inv in E2 as [_ ->].
    injection E as <- <- <-. split_and!; try done. unfold envelope_row in *. cbn [envelopes set_envelopes].
    erewrite find_snoc_same; [done | done |]. cbn. by rewrite Hid, String.eqb_refl.
Qed.

(** C10: A launch is reserved at most once: once [begin_execution_envelope] has
    answered that an execution identifier may start, no later call - for the
    same or another envelope of that identifier, in any environment, after any
    other operations - answers so again. *)
Theorem launch_reserved_once binding1 before1 after1 closed1 binding2 before2 after2 closed2 e1 e2 db db1 db2 db3 v1 b v2 :
  begin_execution_envelope binding1 before1 after1 closed1 e1 db = (db1, Ok (true, v1)) ->
  rtc store_step db1 db2 -> str (get e2 "execution_id") = str (get e1 "execution_id") ->
  begin_execution_envelope binding2 before2 after2 closed2 e2 db2 = (db3, Ok (b, v2)) -> b = false.
Proof.
  intros [(_ & _ & Hn)|(? & _)]%begin_inv Hs Hid E2; [|discriminate]. apply steps_sound in Hs as [Hg _].
  apply begin_inv in E2 as [(_ & Hnone & _)|(-> & _)]; [|done]. exfalso.
  rewrite Hid in Hnone. by apply (envelope_row_grows _ _ _ Hg Hn).
Qed.

Lemma normalize_canon r n : _normalize_execution_result r = Ok n ->
  wf (VDict n) = true /\ _normalize_execution_result (canon_items n) = Ok n.
Proof.
  unfold _normalize_execution_result. cbv zeta. intros E. apply rbind_Ok_inv in E as ([] & _ & E).
  apply rbind_Ok_inv in E as ([] & E1 & E). apply raise_if_Ok, negb_false_iff in E1. apply Ok_inj in E.
  rewrite !andb_true_iff in E1. destruct E1 as ((((_ & E2) & E3) & E4) & E5).
  unfold is_match in E2. destruct (get r "execution_id") as [| | |i| |] eqn:G1; try discriminate.
  destruct (get r "classification") as [| | |c| |] eqn:G2; try discriminate.
  apply type_int_inv in E4 as [z G3]. destruct (get r "recorded_at") as [| | |a| |] eqn:G4; try discriminate.
  cbn [tail RESULT_FIELDS map] in E. rewrite G1, G2, G3, G4 in E. subst n. split; [done|].
  set (n := _ :: _). assert (NoDup (keys n)) as Hn by by apply (bool_decide_unpack _).
  cbn [tail RESULT_FIELDS map]. rewrite keys_are_canon, !get_canon by done.
  change (get n "schema_version") with (VInt 1). change (get n "execution_id") with (VStr i).
  change (get n "classification") with (VStr c). change (get n "returncode") with (VInt z).
  change (get n "recorded_at") with (VStr a). cbn [PyJson.canon is_match version_1 type_int].
  change (keys_are n RESULT_FIELDS) with true. rewrite E2, E3, E5. done.
Qed.

Lemma record_result_inv binding before after closed r db db' n :
  record_execution_result binding before after closed r db = (db', Ok n) ->
  let id := str (get r "execution_id") in
  _normalize_execution_result r = Ok n /\ envelope_row db' id <> None /\
  exists row, result_row db' id = Some row /\ res_json row = encode n.
Proof.
  intros E id. apply sbind_Ok_inv in E as (n' & s1 & E1 & E). apply slift_Ok_inv in E1 as [-> E1].
  pose proof (normalize_result_id _ _ E1) as Hid. fold id in Hid. apply transaction_Ok in E.
  apply sbind_Ok_inv in E as (db0 & s1 & E2 & E). injection E2 as <- <-. cbv zeta in E. rewrite Hid in E.
  destruct (envelope_row db id) as [x|] eqn:Ex; [|discriminate].
  destruct (result_row db id) as [row|] eqn:Er.
  - apply sbind_Ok_inv in E as ([] & s1 & E2 & E). apply slift_Ok_inv in E2 as [-> E2].
    apply raise_if_Ok, negb_false_iff, String.eqb_eq in E2. injection E as <- <-.
    split_and!; [done | congruence | by exists row].
  - apply sbind_Ok_inv in E as (z & s1 & E2 & E). apply slift_Ok_inv in E2 as [-> _].
    apply sbind_Ok_inv in E as ([] & s1 & E2 & E). apply smodify_Ok_inv in E2. subst s1. injection E as <- <-.
    split_and!; [done | unfold envelope_row in *; cbn; congruence|]. exists (MkResult id (encode n')).
    split; [|done]. unfold result_row in *. cbn [results set_results].
    apply find_snoc_same; [done | apply String.eqb_refl].
Qed.

(** A recorded result is final: from then on, in any environment and after
    any other operations, beginning the same execution never reserves a launch
    and answers with exactly the recorded result, changing nothing (or raises
    because the envelope differs from the recorded intent). *)
Theorem recorded_result_is_final binding1 before1 after1 closed1 binding2 before2 after2 closed2 r n e db db1 db2 db3 b v :
  record_execution_result binding1 before1 after1 closed1 r db = (db1, Ok n) ->
  rtc store_step db1 db2 -> str (get e "execution_id") = str (get r "execution_id") ->
  begin_execution_envelope binding2 before2 after2 closed2 e db2 = (db3, Ok (b, v)) ->
  b = false /\ v = Some n /\ db3 = db2.
Proof.
  intros (Hn & Henv & row & Hrow & Hjson)%record_result_inv Hs Hid E. apply steps_sound in Hs as [Hg _].
  apply (envelope_row_grows _ _ _ Hg) in Henv. apply (result_row_grows _ _ _ _ Hg) in Hrow.
  apply begin_inv in E. cbv zeta in E. rewrite Hid, Hrow in E.
  destruct E as [(_ & ? & _)|(-> & _ & -> & d & n' & Hd & Hn' & ->)]; [done|]. split_and!; try done.
  apply normalize_canon in Hn as [Hw Hn]. rewrite Hjson, loads_encode in Hd by done. injection Hd as <-. congruence.
Qed.

(** ** The versioned store *)
Definition versions (db : Database) : list (string * Z) := map (fun r => (row_id r, row_revision r)) (tasks db).
Lemma update_versions rows id n row' : NoDup (map row_id rows) -> row_revision row' = n + 1 ->
  length (List.filter (at_revision id n) rows) = 1%nat ->
  map (fun r => (row_id r, row_revision r))
    (map (fun r => if at_revision id n r then update_columns r row' else r) rows)
  = Commit.Commit.advance id (map (fun r => (row_id r, row_revision r)) rows) /\ (id, n) ∈ map (fun r => (row_id r, row_revision r)) rows.
Proof.
  intros Hids Hr Hone.
  assert (exists r0, r0 ∈ rows /\ row_id r0 = id /\ row_revision r0 = n) as (r0 & Hr0 & <- & <-).
  { destruct (List.filter (at_revision id n) rows) as [|r0 l] eqn:E; [discriminate|]. exists r0.
    assert (r0 ∈ List.filter (at_revision id n) rows) as Hin by (rewrite E; by apply elem_of_cons; left).
    apply list_elem_of_In, filter_In in Hin as [Hin Hat%at_revision_spec]. split; [by apply list_elem_of_In | done]. }
  split; [|by apply (list_elem_of_fmap_2 (fun r => (row_id r, row_revision r)))].
  unfold Commit.Commit.advance. rewrite !map_map. apply map_ext_in. intros r Hin%list_elem_of_In. cbn [fst snd].
  destruct (String.eqb_spec (row_id r) (row_id r0)) as [E|Hne].
  - assert (r = r0) as -> by by apply (same_row rows).
    assert (at_revision (row_id r0) (row_revision r0) r0 = true) as -> by by apply at_revision_spec.
    cbn. by rewrite Hr.
  - destruct (at_revision _ _ r) eqn:E; [|done]. apply at_revision_spec in E as [E _]. done.
Qed.

(** C35: The SQLite backend implements the same versioned store as the Git commit
    ([Commit.mutate_refines_versioned_store]): a mutation either raises and
    changes nothing, or it is committed: the expected revision was the task's,
    exactly that task's version advances by one, and one event records it.  What
    a committed mutation answers is what the check of the sidecars after the
    commit answers: where that check raises, so does the mutation, with the new
    version stored. *)
Theorem sqlite_mutate_refines binding before after closed id expected kind at_ transition given sf cf db db' r :
  tasks_ok (tasks db) = true ->
  mutate binding before after closed id expected kind at_ transition given sf cf db = (db', r) ->
  ((exists e, r = Raise e) /\ db' = db) \/
  (r = closed /\ (id, expected) ∈ versions db /\ versions db' = Commit.Commit.advance id (versions db) /\
   exists note, events db' = events db ++ [MkEvent id (expected + 1) kind at_ note]).
Proof.
  intros Hok E. apply mutate_inv in E as [[-> He]|(-> & rows & row & meta & note & body & session & _ & _ & _ & _ & _ & Hu)];
    [by left | right].
  destruct Hu as [(row' & Hrow & Ht) _ Hone He _ _ _].
  assert (row_revision row' = expected + 1) as Hr.
  { unfold updated_row in Hrow. cbv zeta in Hrow. apply rbind_Ok_inv in Hrow as (s1 & _ & Hrow).
    apply rbind_Ok_inv in Hrow as (z & Hz%int64_Ok & Hrow). subst z.
    repeat (apply rbind_Ok_inv in Hrow as (? & _ & Hrow)). by injection Hrow as <-. }
  destruct (update_versions (tasks db) id expected row' (tasks_ok_ids _ Hok) Hr Hone) as [H1 H2].
  unfold versions. rewrite Ht. split_and!; try done. by exists note.
Qed.

(** ** Retirement *)
Lemma retired_refuses {A} binding before after closed (m : st Database A) db :
  metadata_value db "state" = Some "retired" -> forget (transaction binding before after closed m) db = db.
Proof.
  intros Hs. unfold forget. destruct (Sqlite.transaction binding before after closed m db) as [db' r] eqn:E. cbn.
  apply transaction_inv in E as [[-> _]|(Hv & _)]; [done|]. exfalso. unfold _verify_binding in Hv.
  repeat (apply rbind_Ok_inv in Hv as (? & _ & Hv)). apply raise_if_Ok in Hv. by rewrite Hs in Hv.
Qed.
Lemma set_state_value db v : metadata_value db "state" = Some "active" ->
  metadata_value (set_state db v) "state" = Some v.
Proof.
  unfold metadata_value, set_state. cbn [metadata set_metadata]. induction (metadata db) as [|[k x] l IH]; [done|].
  cbn [List.find map fst]. destruct (String.eqb k "state") eqn:E; cbn [fst]; rewrite E; [done | exact IH].
Qed.
Lemma forget_lift_same {A B} (f : Database -> res A) (m : A -> st Database B) db :
  (forall a, forget (m a) db = db) -> forget (sbind (slift f) m) db = db.
Proof. intros Hm. unfold forget, sbind, slift. destruct (f db) as [a|e]; [apply Hm | done]. Qed.

(** Retirement is final: once a backend is retired, no operation in any
    environment changes the database any more. *)
Theorem retired_is_final binding before after closed project switch db db' db'' :
  retire binding before after closed project switch db = (db', Ok tt) -> rtc store_step db' db'' -> db'' = db'.
Proof.
  intros E Hs. assert (metadata_value db' "state" = Some "retired") as Hr.
  { apply transaction_inv in E as [[_ [e He]]|(Hv & [] & _ & E)]; [discriminate|].
    unfold _verify_binding in Hv. repeat (apply rbind_Ok_inv in Hv as (? & _ & Hv)).
    apply raise_if_Ok, negb_false_iff, bool_decide_eq_true in Hv. repeat inv_step. by apply set_state_value. }
  clear E. induction Hs as [|x y z Hstep _ IH]; [done|].
  assert (y = x) as ->; [|by apply IH]. destruct Hstep as [binding1 before1 after1 closed1 o db1 _].
  destruct o; cbn [perform]; repeat (apply forget_lift_same; intros ?); by apply retired_refuses.
Qed.

(** ** Witnesses *)
Module Sample.
Definition binding : dict :=
  [("project_id", VStr "demo"); ("state_repository", VStr "/state"); ("product_repository", VStr "/product")].
Definition meta : Meta :=
  [("id", VStr "AR-0001"); ("status", VStr "open"); ("task_revision", VInt 3); ("depends_on", VList []);
   ("updated_at", VStr "2026-01-01T00:00:00+00:00")].
Definition start : Database :=
  match create_database binding [("AR-0001-demo.md", meta, "body")] "2026-01-01T00:20:00+00:00" "git" "c0ffee"
          [] [] [] [] [] [] [] with
  | Ok db => db
  | Raise _ => empty_database []
  end.
Definition id : string := "0f0f0f0f-0000-4000-8000-000000000001".
Definition envelope : dict :=
  [("schema_version", VInt 1); ("execution_id", VStr id); ("task", VStr "AR-0001"); ("task_revision", VInt 3);
   ("owner", VStr "ann"); ("claim_expires", VStr "2026-01-01T01:00:00+00:00"); ("worktree_key", VStr "wt");
   ("branch", VStr "work"); ("spec_ref", VNull); ("spec_revision", VNull);
   ("policy_digest", VStr (Sha256.Sha256.hexdigest "policy")); ("argv_sha256", VStr (Sha256.Sha256.hexdigest "make"));
   ("timeout_seconds", VInt 60); ("created_at", VStr "2026-01-01T00:00:00+00:00")].
Definition result : dict :=
  [("schema_version", VInt 1); ("execution_id", VStr id); ("classification", VStr "EXIT"); ("returncode", VInt 0);
   ("recorded_at", VStr "2026-01-01T00:10:00+00:00")].
Definition pass : res unit := Ok tt.
Definition later : string := "2026-01-01T00:20:00+00:00".
Definition transition (_ : list Meta) : st Meta (string * string) :=
  fun m => (dset m "status" (VStr "blocked"), Ok ("waiting", "body")).
Definition mutated : Database := perform binding pass pass pass (Mutate "AR-0001" 3 "update" later transition None None None) start.
Definition reserved : Database := perform binding pass pass pass (BeginEnvelope envelope) start.
Definition recorded : Database := perform binding pass pass pass (RecordResult result) reserved.
Definition retired : Database := perform binding pass pass pass (Retire (fun _ => pass) pass) start.
Lemma step_mutated : rtc store_step start mutated.
Proof.
  apply rtc_once. apply store_operation. intros metas m m' r Hn [= <- _]. by apply NoDup_dset.
Qed.
End Sample.
Lemma audit_trail_complete_witness :
  map ev_revision (events Sample.mutated) = [3; 4] /\
  audited (tasks Sample.mutated) (events Sample.mutated).
Proof.
  split; [vm_compute; reflexivity|].
  apply (audit_trail_complete Sample.binding [("AR-0001-demo.md", Sample.meta, "body")] Sample.later "git" "c0ffee"
           [] [] [] [] [] [] [] Sample.start);
    [vm_compute; reflexivity | repeat constructor; by apply (bool_decide_unpack _) | apply Sample.step_mutated].
Defined.
Lemma launch_reserved_once_witness :
  snd (begin_execution_envelope Sample.binding Sample.pass Sample.pass Sample.pass Sample.envelope Sample.start) = Ok (true, None) /\
  snd (begin_execution_envelope Sample.binding Sample.pass Sample.pass Sample.pass Sample.envelope Sample.reserved) = Ok (false, None) /\
  false = false.
Proof.
  split; [vm_compute; reflexivity|]. split; [vm_compute; reflexivity|].
  apply (launch_reserved_once Sample.binding Sample.pass Sample.pass Sample.pass Sample.binding Sample.pass Sample.pass Sample.pass
           Sample.envelope Sample.envelope Sample.start Sample.reserved Sample.reserved Sample.reserved None false None);
    [vm_compute; reflexivity | apply rtc_refl | reflexivity | vm_compute; reflexivity].
Defined.
Lemma recorded_result_is_final_witness :
  fst (begin_execution_envelope Sample.binding Sample.pass Sample.pass Sample.pass Sample.envelope Sample.recorded) = Sample.recorded.
Proof.
  apply (recorded_result_is_final Sample.binding Sample.pass Sample.pass Sample.pass Sample.binding Sample.pass Sample.pass Sample.pass
           Sample.result Sample.result Sample.envelope Sample.reserved Sample.recorded Sample.recorded _ false
           (Some Sample.result));
    [vm_compute; reflexivity | apply rtc_refl | reflexivity | vm_compute; reflexivity].
Defined.
(** The check after the commit fails: the mutation raises, and is stored. *)
Lemma sqlite_mutate_refines_witness :
  versions Sample.mutated = [("AR-0001", 4)] /\
  forall closed, exists r, mutate Sample.binding Sample.pass Sample.pass closed "AR-0001" 3 "update" Sample.later
      Sample.transition None None None Sample.start = (Sample.mutated, r) /\ r = closed /\
    versions Sample.mutated = Commit.Commit.advance "AR-0001" (versions Sample.start).
Proof.
  split; [vm_compute; reflexivity|]. intros closed.
  assert (mutate Sample.binding Sample.pass Sample.pass closed "AR-0001" 3 "update" Sample.later
      Sample.transition None None None Sample.start = (Sample.mutated, closed)) as E.
  { destruct closed as [[]|e]; vm_compute; reflexivity. }
  exists closed. split; [exact E|].
  destruct (sqlite_mutate_refines Sample.binding Sample.pass Sample.pass closed "AR-0001" 3 "update" Sample.later
              Sample.transition None None None Sample.start Sample.mutated closed) as [[_ H]|(_ & _ & H & _)];
    [vm_compute; reflexivity | exact E | vm_compute in H; discriminate H | split; [reflexivity | exact H]].
Defined.
Lemma retired_is_final_witness :
  metadata_value Sample.retired "state" = Some "retired" /\
  perform Sample.binding Sample.pass Sample.pass Sample.pass (BeginEnvelope Sample.envelope) Sample.retired = Sample.retired.
Proof.
  split; [vm_compute; reflexivity|].
  apply (retired_is_final Sample.binding Sample.pass Sample.pass Sample.pass (fun _ => Sample.pass) Sample.pass Sample.start);
    [vm_compute; reflexivity | by apply rtc_once, store_operation].
Defined.
End SqliteLaws.
