(* ===== verification/BarrierSession.v ===== *)
(** * Barrier sessions and effect intents ([rollback_control_store.py], the part
    without a database)

    A barrier session is an identity with a status, a revision and two children;
    the contract of the session is a small object whose methods advance it.  A
    row of the session table is the list of its fourteen columns. *)
From S2P Require Import Prelude PyStr Regex PyVal PyJson JsonParse UpgradeIdentity PhaseAdapters SqliteStore.

Module BarrierSession.
Import Py.
Import UpgradeIdentity(BarrierSessionIdentity, BarrierChildIdentity, identity_digest, attempt_id, state_revision, project_id,
  fencing_token, durable_barrier_id, authority_revision_at_acquire).
Definition STATUSES : list string := ["held"; "releasing"; "released"; "ambiguous"].
(** [STATUS_TRANSITIONS[status]] *)
Definition STATUS_TRANSITIONS (status : string) : list string :=
  if String.eqb status "held" then ["held"; "releasing"; "ambiguous"]
  else if String.eqb status "releasing" then ["releasing"; "released"; "ambiguous"]
  else if String.eqb status "released" then ["released"]
  else [].
Definition _REOPEN_EVIDENCE_FIELDS : list string := ["operation_id"; "target"; "barrier_identity_digest"; "validated"].
Definition _REOPEN_RUNTIME_EVIDENCE_FIELDS : list string :=
  ["authority_revision"; "backend"; "backend_roundtrip"; "foreign_key_violations"; "fencing_token"; "integrity_check";
   "project_id"; "target"; "verified"].
Definition _CAUSE_CODE : Regex.re := UpgradeIdentity._TOKEN.
Definition control_error {A} (msg : string) : res A := Raise (ClassError "ControlStoreError" msg).
Definition stop_if (c : bool) (msg : string) : res unit := raise_if c (ClassError "ControlStoreError" msg).

(** ** State *)
Record BarrierSessionState : Type := MkState {
  identity : BarrierSessionIdentity; status : string; revision : Z;
  forward_child : option BarrierChildIdentity; rollback_child : option BarrierChildIdentity; reopen_target : option string }.
#[export] Existing Instance UpgradeIdentity.BarrierSessionIdentity_eq.
#[export] Existing Instance UpgradeIdentity.BarrierChildIdentity_eq.
(** [i == j] of two identities: the schema versions are compared as Python does,
    where [True] is [1]. *)
Definition same_identity (i j : BarrierSessionIdentity) : bool :=
  eq (UpgradeIdentity.schema_version i) (UpgradeIdentity.schema_version j) && String.eqb (project_id i) (project_id j)
  && String.eqb (attempt_id i) (attempt_id j) && (state_revision i =? state_revision j)
  && String.eqb (authority_revision_at_acquire i) (authority_revision_at_acquire j)
  && String.eqb (durable_barrier_id i) (durable_barrier_id j) && String.eqb (fencing_token i) (fencing_token j)
  && String.eqb (UpgradeIdentity.fencing_owner i) (UpgradeIdentity.fencing_owner j)
  && String.eqb (identity_digest i) (identity_digest j).
#[export] Instance BarrierSessionState_eq : EqDecision BarrierSessionState.
Proof. solve_decision. Defined.
Definition validate_child (i : BarrierSessionIdentity) (c : option BarrierChildIdentity) : res unit :=
  match c with Some c => UpgradeIdentity.validate_for c i | None => Ok tt end.
(** [__post_init__] *)
Definition new_state (i : BarrierSessionIdentity) (status : string) (revision : Z)
    (forward rollback : option BarrierChildIdentity) (target : option string) : res BarrierSessionState :=
  check stop_if (negb (PyStr.mem status STATUSES)) "barrier session status is invalid" ;;
  check stop_if (revision <? 1) "barrier session revision is invalid" ;;
  check stop_if (match target with Some t => negb (PyStr.mem t UpgradeIdentity.TARGETS) | None => false end)
          "barrier reopen target is invalid" ;;
  check stop_if (String.eqb status "held" && match target with Some _ => true | None => false end)
          "held barrier session cannot have a reopen target" ;;
  check validate_child i forward ;;
  check validate_child i rollback ;;
  check stop_if (match forward, rollback with
                 | Some f, Some r => String.eqb (UpgradeIdentity.operation_id f) (UpgradeIdentity.operation_id r)
                 | _, _ => false
                 end) "barrier child operation identities must be distinct" ;;
  Ok (MkState i status revision forward rollback target).

(** ** The contract: the state is the field [_state]. *)
Definition _expect (expected_revision : Z) (statuses : list string) (s : BarrierSessionState) : res unit :=
  check stop_if (negb (expected_revision =? revision s)) "barrier session revision conflict" ;;
  stop_if (negb (PyStr.mem (status s) statuses)) "barrier session transition is not permitted".
(** Assigning a new state and returning it *)
Definition advance (s' : res BarrierSessionState) : st BarrierSessionState BarrierSessionState := fun s =>
  match s' with Ok s' => (s', Ok s') | Raise e => (s, Raise e) end.
Definition contract (i : BarrierSessionIdentity) : res BarrierSessionState := new_state i "held" 1 None None None.
Definition recheck_held (expected_revision : Z) : st BarrierSessionState BarrierSessionState :=
  do slift (_expect expected_revision ["held"]) ;; sget.
Definition bind_child (expected_revision : Z) (child : BarrierChildIdentity) : st BarrierSessionState BarrierSessionState :=
  do slift (_expect expected_revision ["held"]) ;;
  do* s := sget in
  do slift (fun _ => UpgradeIdentity.validate_for child (identity s)) ;;
  if String.eqb (UpgradeIdentity.target child) "new" then
    do slift (fun _ => stop_if (match forward_child s with Some _ => true | None => false end)
                         "forward barrier child is already bound") ;;
    advance (new_state (identity s) (status s) (revision s + 1) (Some child) (rollback_child s) (reopen_target s))
  else
    do slift (fun _ => stop_if (match forward_child s with Some _ => false | None => true end)
                         "rollback child requires a bound forward child") ;;
    do slift (fun _ => stop_if (match rollback_child s with Some _ => true | None => false end)
                         "rollback barrier child is already bound") ;;
    advance (new_state (identity s) (status s) (revision s + 1) (forward_child s) (Some child) (reopen_target s)).
Definition child_for (target : value) (s : BarrierSessionState) : option BarrierChildIdentity :=
  if is_s target "rollback" then rollback_child s else forward_child s.
(** Moving to another status *)
Definition move (status : string) (target : option string) : st BarrierSessionState BarrierSessionState :=
  do* s := sget in
  advance (new_state (identity s) status (revision s + 1) (forward_child s) (rollback_child s) target).
Definition reopen_evidence_invalid (evidence : dict) (child : BarrierChildIdentity) (s : BarrierSessionState) : bool :=
  negb (keys_are evidence _REOPEN_EVIDENCE_FIELDS)
  || ne (get evidence "operation_id") (VStr (UpgradeIdentity.operation_id child))
  || ne (get evidence "target") (VStr (UpgradeIdentity.target child))
  || ne (get evidence "barrier_identity_digest") (VStr (identity_digest (identity s)))
  || negb (UpgradeIdentity.is_True (get evidence "validated")).
Definition begin_reopen (expected_revision : Z) (child_target : string) (verified_child_evidence : option dict) :
    st BarrierSessionState BarrierSessionState :=
  do slift (_expect expected_revision ["held"]) ;;
  do slift (fun _ => stop_if (negb (PyStr.mem child_target UpgradeIdentity.TARGETS)) "reopen child target is invalid") ;;
  do* s := sget in
  do slift (fun _ =>
       match child_for (VStr child_target) s with
       | None => control_error "reopen child is not bound"
       | Some child =>
           match verified_child_evidence with
           | None => control_error "verified child evidence is required to begin reopen"
           | Some e => stop_if (reopen_evidence_invalid e child s) "verified child evidence identity is invalid"
           end
       end) ;;
  move "releasing" (Some child_target).
Definition target_value (t : option string) : value := match t with Some t => VStr t | None => VNull end.
Definition runtime_evidence_invalid (e : dict) (child : BarrierChildIdentity) (s : BarrierSessionState) : bool :=
  negb (keys_are e _REOPEN_RUNTIME_EVIDENCE_FIELDS)
  || ne (get e "authority_revision") (VStr (authority_revision_at_acquire (identity s)))
  || ne (get e "backend") (VStr "sqlite") || ne (get e "backend_roundtrip") (VStr "sqlite")
  || ne (get e "foreign_key_violations") (VInt 0)
  || ne (get e "fencing_token") (VStr (fencing_token (identity s)))
  || ne (get e "integrity_check") (VStr "ok") || ne (get e "project_id") (VStr (project_id (identity s)))
  || ne (get e "target") (VStr (UpgradeIdentity.target child)) || negb (UpgradeIdentity.is_True (get e "verified")).
Definition complete_reopen (expected_revision : Z) (fresh_runtime_evidence : option dict) :
    st BarrierSessionState BarrierSessionState :=
  do slift (_expect expected_revision ["releasing"]) ;;
  do* s := sget in
  do slift (fun _ =>
       match fresh_runtime_evidence with
       | None => control_error "fresh runtime evidence is required to release barrier"
       | Some e =>
           check stop_if (ne (get e "target") (target_value (reopen_target s)))
                   "fresh runtime evidence target does not match reopen target" ;;
           match child_for (get e "target") s with
           | None => control_error "fresh runtime evidence identity is invalid"
           | Some child => stop_if (runtime_evidence_invalid e child s) "fresh runtime evidence identity is invalid"
           end
       end) ;;
  move "released" (reopen_target s).
Definition mark_ambiguous (expected_revision : Z) (cause_code : string) : st BarrierSessionState BarrierSessionState :=
  do slift (_expect expected_revision ["held"; "releasing"]) ;;
  do slift (fun _ => stop_if (negb (Regex.fullmatch _CAUSE_CODE cause_code)) "ambiguous barrier cause code is invalid") ;;
  do* s := sget in
  move "ambiguous" (reopen_target s).

(** ** Effect intents *)
Record AuthorityEffectIntent : Type := MkIntent {
  intent_id : string; operation_id : string; backend : string; target : string; intent_attempt_id : string;
  intent_identity_digest : string; intent_fencing_token : string; session_revision : Z;
  artifact_identity : option string; manifest_identity : option string; selector_identity : option string;
  runtime_identity : option string }.
#[export] Instance AuthorityEffectIntent_eq : EqDecision AuthorityEffectIntent.
Proof. solve_decision. Defined.
Definition admission_identities (i : AuthorityEffectIntent) : list (option string) :=
  [artifact_identity i; manifest_identity i; selector_identity i; runtime_identity i].
Definition is_none {A} (o : option A) : bool := match o with None => true | Some _ => false end.
(** Each a non-empty text, and all or none *)
Definition check_admission (l : list (option string)) : res unit :=
  check stop_if (existsb (fun o => match o with Some s => negb (PyStr.truthy s) | None => false end) l)
          "authority effect admission identity is invalid" ;;
  stop_if (existsb is_none l && existsb (fun o => negb (is_none o)) l) "authority effect admission identity is incomplete".
(** [__post_init__] *)
Definition check_intent (i : AuthorityEffectIntent) : res AuthorityEffectIntent :=
  check stop_if (negb (forallb PyStr.truthy [intent_id i; operation_id i; backend i; target i; intent_attempt_id i;
                                             intent_identity_digest i; intent_fencing_token i]))
          "authority effect intent identity is invalid" ;;
  check stop_if (negb (PyStr.mem (backend i) ["git"; "sqlite"]) || negb (PyStr.mem (target i) UpgradeIdentity.TARGETS))
          "authority effect intent backend or target is invalid" ;;
  check stop_if (session_revision i <? 1) "authority effect intent session revision is invalid" ;;
  check check_admission (admission_identities i) ;;
  Ok i.
Definition opt_value (o : option string) : value := match o with Some s => VStr s | None => VNull end.
Definition expected_receipt (i : AuthorityEffectIntent) : dict :=
  [("backend", VStr (backend i)); ("target", VStr (target i)); ("operation_id", VStr (operation_id i));
   ("state_revision", VInt (session_revision i)); ("artifact_identity", opt_value (artifact_identity i));
   ("manifest_identity", opt_value (manifest_identity i)); ("selector_identity", opt_value (selector_identity i));
   ("runtime_identity", opt_value (runtime_identity i)); ("fencing_token", VStr (intent_fencing_token i));
   ("mutates_authority", VBool true)].
(** The receipt is given by its fields. *)
Definition _validate_authority_effect_receipt (i : AuthorityEffectIntent) (receipt : dict) : res unit :=
  stop_if (existsb (fun kv => ne (get receipt kv.1) kv.2) (expected_receipt i)) "authority effect receipt identity mismatch".
Definition _effect_intent_matches (current : BarrierSessionState) (i : AuthorityEffectIntent) : bool :=
  String.eqb (status current) "held" && (revision current =? session_revision i)
  && String.eqb (attempt_id (identity current)) (intent_attempt_id i)
  && String.eqb (identity_digest (identity current)) (intent_identity_digest i)
  && String.eqb (fencing_token (identity current)) (intent_fencing_token i).

(** ** Rows *)
Definition CHILD_FIELDS : list string := ["operation_id"; "target"; "barrier_identity_digest"].
Definition child_record (c : BarrierChildIdentity) : dict :=
  [("operation_id", VStr (UpgradeIdentity.operation_id c)); ("target", VStr (UpgradeIdentity.target c));
   ("barrier_identity_digest", VStr (UpgradeIdentity.barrier_identity_digest c))].
Definition _child_json (c : option BarrierChildIdentity) : option string :=
  match c with Some c => Some (PyJson.dumps (VDict (child_record c))) | None => None end.
Definition _child (v : value) : res (option BarrierChildIdentity) :=
  match v with
  | VNull => Ok None
  | VStr s =>
      match JsonParse.loads s with
      | Some (VDict d) =>
          check stop_if (negb (keys_are d CHILD_FIELDS) || negb (forallb (fun kv => is_str kv.2) d))
                  "barrier child encoding is invalid" ;;
          Ok (Some (UpgradeIdentity.MkChild (str (get d "operation_id")) (str (get d "target"))
                      (str (get d "barrier_identity_digest"))))
      | _ => control_error "barrier child encoding is invalid"
      end
  | _ => control_error "barrier child encoding is invalid"
  end.
Definition IDENTITY_COLUMNS : list string := UpgradeIdentity.BARRIER_SESSION_IDENTITY_FIELDS ++ ["identity_digest"].
Definition STATE_COLUMNS : list string := ["status"; "revision"; "forward_child"; "rollback_child"; "reopen_target"].
(** What a column holds: an integer column turns a boolean into an integer, and
    refuses an integer beyond 64 bits. *)
Definition column (v : value) : res value :=
  match as_Z v with Some z => let* z := Sqlite.int64 z in Ok (VInt z) | None => Ok v end.
Definition state_values (s : BarrierSessionState) : list value :=
  [VStr (status s); VInt (revision s); opt_value (_child_json (forward_child s)); opt_value (_child_json (rollback_child s));
   opt_value (reopen_target s)].
Definition state_row (s : BarrierSessionState) : res (list value) :=
  mapr column (map snd (UpgradeIdentity.as_record (identity s)) ++ state_values s).
(** [except (...) as error: raise ControlStoreError(msg)] *)
Definition recast {A} (m : res A) (msg : string) : res A := match m with Ok a => Ok a | Raise _ => control_error msg end.
Definition state_of (i : BarrierSessionIdentity) (status revision forward rollback target : value) : res BarrierSessionState :=
  let* f := _child forward in
  let* r := _child rollback in
  let* t := match target with
            | VNull => Ok None
            | VStr t => Ok (Some t)
            | _ => control_error "barrier reopen target is invalid"
            end in
  match status, revision with
  | VStr s, VInt z => new_state i s z f r t
  | _, _ => control_error "barrier session status is invalid"
  end.
Definition _decode_observation (project : string) (row : list value) : res BarrierSessionState :=
  match drop 9 (if Nat.eqb (length row) 13 then row ++ [VNull] else row) with
  | [status; revision; forward; rollback; target] =>
      let* i := recast (UpgradeIdentity.from_record (combine IDENTITY_COLUMNS (take 9 row))) "barrier session identity is invalid" in
      let* s := recast (state_of i status revision forward rollback target) "barrier session state is invalid" in
      check stop_if (negb (String.eqb (project_id i) project)) "barrier session project binding mismatch" ;;
      Ok s
  | _ => control_error "barrier session row is invalid"
  end.
(** The text of a session in the history *)
Definition history_record (s : BarrierSessionState) : dict :=
  UpgradeIdentity.as_record (identity s) ++ combine STATE_COLUMNS (state_values s).
Definition history_json (s : BarrierSessionState) : string := PyJson.dumps (VDict (history_record s)).
End BarrierSession.
