(* ===== verification/ControlStore.v ===== *)
(** * The control store ([rollback_control_store.py], the part with a database)

    The barrier records of the first contract, the session with its history,
    and the intents of session changes and of authority effects.  A connection
    runs one transaction after another; a commit may succeed, fail without an
    effect, or fail although its effect is durable, and a process may die after
    any commit: the world keeps every durable state since the operation began.
    Locks, descriptors and the WAL are answers of the environment. *)
From S2P Require Import Prelude PyStr PyVal PyJson JsonParse PyPath UpgradeIdentity PhaseAdapters SqliteStore BarrierSession.

Module ControlStore.
Import Py BarrierSession.
Import UpgradeIdentity(BarrierSessionIdentity, BarrierChildIdentity, identity_digest, attempt_id, state_revision, project_id,
  fencing_token, durable_barrier_id, authority_revision_at_acquire, as_record).

(** ** Tables *)
Record HistoryRow : Type := MkHistory { h_attempt : string; h_revision : Z; h_json : string }.
Record SessionIntent : Type := MkSessionIntent {
  s_intent : string; s_attempt : string; s_expected : Z; s_proposed : Z; s_status : string; s_digest : string;
  s_outcome : string; s_cause : option string }.
Record EffectRow : Type := MkEffect { e_intent : AuthorityEffectIntent; e_outcome : string; e_cause : option string }.
Record Db : Type := MkDb {
  barriers : list dict;                     (** [barrier], a record per operation *)
  session : option (list value);            (** the project's row of [barrier_session] *)
  history : list HistoryRow;                (** [barrier_session_history] *)
  intents : list SessionIntent;             (** [barrier_session_intent] *)
  effects : list EffectRow;                 (** [authority_effect_intent] *)
}.
Definition empty_db : Db := MkDb [] None [] [] [].
Definition set_barriers (db : Db) l := MkDb l (session db) (history db) (intents db) (effects db).
Definition set_session (db : Db) r := MkDb (barriers db) r (history db) (intents db) (effects db).
Definition set_history (db : Db) l := MkDb (barriers db) (session db) l (intents db) (effects db).
Definition set_intents (db : Db) l := MkDb (barriers db) (session db) (history db) l (effects db).
Definition set_effects (db : Db) l := MkDb (barriers db) (session db) (history db) (intents db) l.

(** ** The environment of one operation *)
Inductive outcome : Type := Committed | Lost | Uncertain.
Record _ReleaseAuthorization : Type := MkAuthorization {
  r_operation_id : string; r_envelope_digest : string; r_fencing_token : string; r_revision : Z }.
Record Env : Type := MkEnv {
  project : string;                         (** [self.project_id] *)
  owned : bool;                             (** the thread owns the operation lock *)
  acquire : res unit;                       (** taking the operation lock *)
  guard : res unit;                         (** the caller's guard, before *)
  guard_after : res unit;                   (** and after *)
  authority_reader : option (res value);    (** [_authority_revision_reader()] *)
  reconcile_wal : res unit;
  connect : nat -> res unit;                (** opening the n-th connection *)
  disconnect : nat -> res unit;             (** and closing it *)
  begin : nat -> res unit;                  (** [BEGIN IMMEDIATE] *)
  commit_outcome : nat -> outcome;
  fresh : nat -> string;                    (** [uuid.uuid4().hex] *)
}.
Record World : Type := MkWorld {
  db : Db;                                  (** what is durable *)
  past : list Db;                           (** what was, since the operation began *)
  connections : nat; transactions : nat; uuids : nat;
  authorization : option _ReleaseAuthorization;
}.
Definition start (d : Db) : World := MkWorld d [] 0 0 0 None.

Section store.
  Context (E : Env).
Notation prog := (st World).
Definition raise_control {A} (msg : string) : prog A := sraise (ClassError "ControlStoreError" msg).
Definition require (c : bool) (msg : string) : prog unit := slift (fun _ => stop_if (negb c) msg).
Definition attempt {A} (m : prog A) : prog (res A) := fun w => let '(w', r) := m w in (w', Ok r).
(** [try: m except Exception as error: raise ControlStoreError(msg)] *)
Definition recasting {A} (m : prog A) (msg : string) : prog A := fun w =>
  match m w with (w', Raise _) => (w', control_error msg) | r => r end.
Definition connection {A} (m : prog A) : prog A := fun w =>
  let n := connections w in
  let w := MkWorld (db w) (past w) (S n) (transactions w) (uuids w) (authorization w) in
  match connect E n with
  | Raise e => (w, Raise e)
  | Ok _ => let '(w', r) := m w in match disconnect E n with Ok _ => (w', r) | Raise e => (w', Raise e) end
  end.
(** [BEGIN IMMEDIATE] and the statements of the transaction, which nothing sees
    before the commit *)
Definition transaction {A} (body : Db -> res A) : prog A :=
  slift (fun w => check begin E (transactions w) ;; body (db w)).
Definition commit (d : Db) : prog unit := fun w =>
  let n := transactions w in
  let durable := MkWorld d (past w ++ [d]) (connections w) (S n) (uuids w) (authorization w) in
  match commit_outcome E n with
  | Committed => (durable, Ok tt)
  | Uncertain => (durable, Raise (OSError "commit"))
  | Lost => (MkWorld (db w) (past w) (connections w) (S n) (uuids w) (authorization w), Raise (OSError "commit"))
  end.
Definition uuid4 : prog string := fun w =>
  (MkWorld (db w) (past w) (connections w) (transactions w) (S (uuids w)) (authorization w), Ok (fresh E (uuids w))).
(** [raise ControlStoreError(msg) from self._mark_...(...)] when a commit
    raises: the fence itself may raise instead. *)
Definition commit_or (d : Db) (msg : string) (fence : prog unit) : prog unit := fun w =>
  match commit d w with
  | (w', Ok _) => (w', Ok tt)
  | (w', Raise _) => (do fence ;; raise_control msg) w'
  end.
Definition operation_lock {A} (m : prog A) : prog A := do slift (fun _ => acquire E) ;; m.
Definition not_reentrant : prog unit := require (negb (owned E)) "control store lock is non-reentrant".
Definition _require_operation_lock : prog unit := require (owned E) "control store operation lock is required".
Definition int64 (z : Z) : res unit := let* _ := Sqlite.int64 z in Ok tt.

(** ** Reading the session *)
Definition _row_state (row : list value) : res BarrierSessionState := _decode_observation (project E) row.
Definition current_of (d : Db) : res (option BarrierSessionState) :=
  match session d with None => Ok None | Some row => let* s := _row_state row in Ok (Some s) end.
(** [_snapshot_locked]: the operation lock is held. *)
Definition _snapshot_locked : prog (option BarrierSessionState) := connection (slift (fun w => current_of (db w))).
Definition snapshot : prog (option BarrierSessionState) := do not_reentrant ;; operation_lock _snapshot_locked.
Definition require_session (s : option BarrierSessionState) (msg : string) : prog BarrierSessionState :=
  match s with Some s => sret s | None => raise_control msg end.
Definition snapshot_owned_by_caller : prog BarrierSessionState :=
  do require (owned E) "caller-owned control lock is required" ;;
  do* s := _snapshot_locked in require_session s "durable barrier session is missing".

(** ** Rows *)
Definition row_revision (row : list value) : value := nth 10 row VNull.
Definition row_status (row : list value) : value := nth 9 row VNull.
Definition at_revision (row : list value) (revision : Z) : bool := eq (row_revision row) (VInt revision).
(** [UPDATE barrier_session SET status='ambiguous', revision=?] *)
Definition ambiguous_row (row : list value) (revision : Z) : res (list value) :=
  check int64 revision ;;
  Ok (take 9 row ++ [VStr "ambiguous"; VInt revision] ++ drop 11 row).
Definition insert_intent (i : SessionIntent) (d : Db) : res Db :=
  check int64 (s_expected i) ;;
  check int64 (s_proposed i) ;;
  check raise_if (existsb (fun j => String.eqb (s_intent j) (s_intent i)) (intents d)) (IntegrityError "barrier_session_intent") ;;
  Ok (set_intents d (intents d ++ [i])).
Definition prepared_intent (i : SessionIntent) : bool := String.eqb (s_outcome i) "prepared".
Definition prepared_effect (r : EffectRow) : bool := String.eqb (e_outcome r) "prepared".
Definition _prepared_intents (d : Db) : list SessionIntent :=
  sort_by (fun i j => s_proposed i <? s_proposed j) (List.filter prepared_intent (intents d)).
Definition _prepared_effect_intents (d : Db) : res (list AuthorityEffectIntent) :=
  recast (mapr check_intent (map e_intent (List.filter prepared_effect (effects d)))) "authority effect intent identity is invalid".
Definition set_outcome (outcome : string) (cause : option string) (i : SessionIntent) : SessionIntent :=
  MkSessionIntent (s_intent i) (s_attempt i) (s_expected i) (s_proposed i) (s_status i) (s_digest i) outcome cause.
Definition _mark_intent (intent_id outcome : string) (cause : option string) (d : Db) : res Db :=
  check stop_if (negb (PyStr.mem outcome ["committed"; "ambiguous"; "reconciled"])) "barrier session intent outcome is invalid" ;;
  let fits i := String.eqb (s_intent i) intent_id && prepared_intent i in
  check stop_if (negb (Nat.eqb (length (List.filter fits (intents d))) 1)) "barrier session intent outcome fence was lost" ;;
  Ok (set_intents d (map (fun i => if fits i then set_outcome outcome cause i else i) (intents d))).
Definition _mark_effect_intent (id outcome : string) (cause : option string) (d : Db) : res Db :=
  check stop_if (negb (PyStr.mem outcome ["committed"; "rejected"; "ambiguous"])) "authority effect intent outcome is invalid" ;;
  let fits r := String.eqb (intent_id (e_intent r)) id && prepared_effect r in
  check stop_if (negb (Nat.eqb (length (List.filter fits (effects d))) 1)) "authority effect intent outcome fence was lost" ;;
  Ok (set_effects d (map (fun r => if fits r then MkEffect (e_intent r) outcome cause else r) (effects d))).
Definition insert_session (s : BarrierSessionState) (d : Db) : res Db :=
  let* row := state_row s in
  check raise_if (match session d with Some _ => true | None => false end) (IntegrityError "barrier_session.project_id") ;;
  Ok (set_session d (Some row)).
(** [INSERT OR REPLACE INTO barrier_session_history]: the key is the attempt. *)
Definition record_history (s : BarrierSessionState) (d : Db) : res Db :=
  check int64 (revision s) ;;
  Ok (set_history d (List.filter (fun h => negb (String.eqb (h_attempt h) (attempt_id (identity s)))) (history d)
                     ++ [MkHistory (attempt_id (identity s)) (revision s) (history_json s)])).

(** ** Fences after an uncertain commit *)
Definition _mark_ambiguous_after_commit_failure (supplied : BarrierSessionState) (expected_revision : Z) : prog unit :=
  recasting
    (do* d := transaction (fun d =>
       match session d with
       | None =>
           let* s := new_state (identity supplied) "ambiguous" (expected_revision + 1) (forward_child supplied)
                       (rollback_child supplied) (reopen_target supplied) in
           insert_session s d
       | Some row =>
           let* current := _row_state row in
           let* row := ambiguous_row row (revision current + 1) in
           Ok (set_session d (Some row))
       end) in
     commit d)
    "barrier session commit outcome is ambiguous and could not be durably fenced".
Definition uncertain_intent (i : SessionIntent) : SessionIntent :=
  if prepared_intent i then set_outcome "ambiguous" (Some "commit-uncertain") i else i.
Definition uncertain_effect (r : EffectRow) : EffectRow :=
  if prepared_effect r then MkEffect (e_intent r) "ambiguous" (Some "commit-uncertain") else r.
Definition _mark_recovery_ambiguous_after_commit_failure : prog unit :=
  recasting
    (do* d := transaction (fun d =>
       match session d with
       | None => control_error "recovery ambiguity fencing found no session"
       | Some row =>
           let* latest := _row_state row in
           let* row := if PyStr.mem (status latest) ["held"; "releasing"] then ambiguous_row row (revision latest + 1) else Ok row in
           let* _ := _prepared_effect_intents d in
           Ok (set_effects (set_intents (set_session d (Some row)) (map uncertain_intent (intents d)))
                 (map uncertain_effect (effects d)))
       end) in
     commit d)
    "recovery commit outcome is ambiguous and could not be durably fenced".

(** ** Compare and swap *)
(** Replacing a released session by a new attempt *)
Definition replaces_released (expected_revision : Z) (supplied current : BarrierSessionState) : bool :=
  (expected_revision =? 0) && String.eqb (status current) "released" && String.eqb (status supplied) "held"
  && negb (same_identity (identity supplied) (identity current)).
Definition updated_row (row : list value) (supplied : BarrierSessionState) : res (list value) :=
  check int64 (revision supplied) ;;
  Ok (take 9 row ++ state_values supplied).
Definition new_intent (id : string) (expected_revision : Z) (s : BarrierSessionState) : SessionIntent :=
  MkSessionIntent id (attempt_id (identity s)) expected_revision (revision s) (status s) (identity_digest (identity s))
    "prepared" None.
(** The transaction of [_cas_locked] *)
Definition cas_body (expected_revision : Z) (supplied : BarrierSessionState) (allow_initial_released : bool) (id : string)
    (d : Db) : res Db :=
  match session d with
  | None =>
      check stop_if (negb (expected_revision =? 0)) "barrier session does not exist" ;;
      check stop_if (negb (String.eqb (status supplied) "held")
                     && negb (allow_initial_released && String.eqb (status supplied) "released"))
              "new barrier session must start held" ;;
      check stop_if (negb (revision supplied =? 1)) "barrier session revision is invalid" ;;
      let* d := insert_intent (new_intent id expected_revision supplied) d in
      insert_session supplied d
  | Some row =>
      let* current := _row_state row in
      if replaces_released expected_revision supplied current then
        check stop_if (String.eqb (attempt_id (identity supplied)) (attempt_id (identity current))
                       || (state_revision (identity supplied) <=? state_revision (identity current)))
                "fresh barrier session requires a distinct newer project fence" ;;
        let* d := record_history current d in
        let d := set_session d None in
        check stop_if (negb (revision supplied =? 1)) "barrier session revision is invalid" ;;
        let* d := insert_intent (new_intent id expected_revision supplied) d in
        insert_session supplied d
      else
        check stop_if (negb (revision current =? expected_revision)) "barrier session CAS conflict" ;;
        check stop_if (negb (same_identity (identity supplied) (identity current))) "barrier session identity changed" ;;
        check stop_if (negb (PyStr.mem (status supplied) (STATUS_TRANSITIONS (status current))))
                "illegal barrier session transition" ;;
        check stop_if (negb (revision supplied =? expected_revision + 1)) "barrier session revision is not monotonic" ;;
        let* d := insert_intent (new_intent id expected_revision supplied) d in
        check stop_if (negb (at_revision row expected_revision)) "barrier session CAS update lost its fence" ;;
        let* row := updated_row row supplied in
        Ok (set_session d (Some row))
  end.
(** The outcome of an intent, after its change is durable *)
Definition publish (intent_id outcome : string) : prog unit :=
  let msg := "barrier session outcome publication is ambiguous; recovery is required" in
  do* d := recasting (transaction (_mark_intent intent_id outcome None)) msg in
  commit_or d msg _mark_recovery_ambiguous_after_commit_failure.
(** The identifier of the intent is drawn before the transaction: drawing it has
    no other effect. *)
Definition _cas_locked (expected_revision : Z) (supplied : BarrierSessionState) (allow_initial_released : bool) :
    prog BarrierSessionState :=
  connection
    (do* id := uuid4 in
     do* d := transaction (cas_body expected_revision supplied allow_initial_released id) in
     do commit_or d "barrier session commit outcome is ambiguous; durable state must be rechecked"
          (_mark_ambiguous_after_commit_failure supplied expected_revision) ;;
     do publish id "committed" ;;
     sret supplied).
(** [_authority_revision_reader()], when there is one *)
Definition read_authority (answer : res value) : prog string :=
  slift (fun _ =>
    let* v := recast answer "fresh authority reread failed" in
    match v with
    | VStr s => check stop_if (negb (PyStr.truthy s)) "fresh authority revision is invalid" ;; Ok s
    | _ => control_error "fresh authority revision is invalid"
    end).
Definition require_reader : prog (res value) :=
  match authority_reader E with Some r => sret r | None => raise_control "fresh authority rereader is required" end.
Definition require_project (i : BarrierSessionIdentity) : prog unit :=
  require (String.eqb (project_id i) (project E)) "barrier session project binding mismatch".
Definition cas (expected_revision : Z) (s : BarrierSessionState) : prog BarrierSessionState :=
  do require (0 <=? expected_revision) "barrier session expected revision is invalid" ;;
  do require_project (identity s) ;;
  do require (negb (String.eqb (status s) "released" && (expected_revision =? 0))) "new barrier session must start held" ;;
  do not_reentrant ;;
  operation_lock
    (do match authority_reader E with
        | None => sret tt
        | Some r => do* a := read_authority r in
                    require (String.eqb a (authority_revision_at_acquire (identity s))) "barrier session authority revision changed"
        end ;;
     _cas_locked expected_revision s false).
Definition create (i : BarrierSessionIdentity) : prog BarrierSessionState :=
  do* s := slift (fun _ => new_state i "held" 1 None None None) in cas 0 s.
Definition create_locked (i : BarrierSessionIdentity) : prog BarrierSessionState :=
  do slift (fun _ => guard E) ;;
  do require_project i ;;
  do _require_operation_lock ;;
  do* r := require_reader in
  do* a := slift (fun _ => recast r "fresh authority reread failed") in
  do require (eq a (VStr (authority_revision_at_acquire i))) "barrier session authority revision changed" ;;
  do* s := slift (fun _ => new_state i "held" 1 None None None) in
  do* result := _cas_locked 0 s false in
  do slift (fun _ => guard_after E) ;;
  sret result.
(** The expected state: a revision, or an identity and its revision *)
Definition recheck_held (expected : option BarrierSessionIdentity) (expected_revision : Z) : prog BarrierSessionState :=
  do require (1 <=? expected_revision) "barrier session expected revision is invalid" ;;
  do* r := require_reader in
  do* a := read_authority r in
  do not_reentrant ;;
  operation_lock
    (do* s := _snapshot_locked in
     do* current := require_session s "barrier session is absent" in
     do require (revision current =? expected_revision) "barrier session CAS conflict" ;;
     do require (match expected with Some i => same_identity i (identity current) | None => true end)
          "barrier session identity changed" ;;
     do require (String.eqb (status current) "held") "barrier session is not held" ;;
     do require (String.eqb (authority_revision_at_acquire (identity current)) a) "barrier session authority revision changed" ;;
     sret current).
Definition recheck_held_locked (expected : BarrierSessionIdentity) (expected_revision : Z) (allowed : list string) :
    prog BarrierSessionState :=
  do slift (fun _ => guard E) ;;
  do require (1 <=? expected_revision) "barrier session expected revision is invalid" ;;
  do require (match allowed with [] => false | _ => forallb (fun s => PyStr.mem s ["held"; "releasing"]) allowed end)
       "barrier session allowed statuses are invalid" ;;
  do _require_operation_lock ;;
  do* r := require_reader in
  do* a := read_authority r in
  do* s := _snapshot_locked in
  do* current := require_session s "barrier session is absent" in
  do require (revision current =? expected_revision) "barrier session CAS conflict" ;;
  do require (same_identity (identity current) expected) "barrier session identity changed" ;;
  do require (PyStr.mem (status current) allowed)
       (if bool_decide (allowed = ["held"]) then "barrier session is not held"
        else "barrier session is not in an admissible status") ;;
  do require (String.eqb (authority_revision_at_acquire (identity current)) a) "barrier session authority revision changed" ;;
  do slift (fun _ => guard_after E) ;;
  sret current.
Definition cas_locked (expected : BarrierSessionIdentity) (expected_revision : Z) (s : BarrierSessionState) :
    prog BarrierSessionState :=
  do slift (fun _ => guard E) ;;
  do require (1 <=? expected_revision) "barrier session expected revision is invalid" ;;
  do require (same_identity (identity s) expected && PyStr.mem (status s) ["held"; "releasing"])
       "barrier session write identity is invalid" ;;
  do _require_operation_lock ;;
  do* current := recheck_held_locked expected expected_revision ["held"] in
  do slift (fun _ => guard_after E) ;;
  _cas_locked expected_revision s false.
Definition provision_released (i : BarrierSessionIdentity) : prog BarrierSessionState :=
  do require_project i ;;
  do not_reentrant ;;
  operation_lock
    (do* s := _snapshot_locked in
     match s with
     | Some current =>
         if String.eqb (status current) "released" && same_identity (identity current) i then sret current
         else raise_control "barrier baseline already exists"
     | None => do* s := slift (fun _ => new_state i "released" 1 None None None) in _cas_locked 0 s true
     end).
(** [contract._state = current; cas(expected, contract.m(...))] *)
Definition through (expected_revision : Z) (m : st BarrierSessionState BarrierSessionState) (current : BarrierSessionState) :
    prog BarrierSessionState :=
  do* s := slift (fun _ => snd (m current)) in cas expected_revision s.
Definition bind_child (expected_revision : Z) (child : BarrierChildIdentity) : prog BarrierSessionState :=
  do* s := snapshot in
  do* current := require_session s "barrier session is absent" in
  do require (expected_revision =? revision current) "barrier session revision conflict" ;;
  through expected_revision (BarrierSession.bind_child expected_revision child) current.
Definition begin_reopen (expected_revision : Z) (target : string) (evidence : option dict) : prog BarrierSessionState :=
  do* s := snapshot in
  do* current := require_session s "barrier session is absent" in
  through expected_revision (BarrierSession.begin_reopen expected_revision target evidence) current.
Definition complete_reopen (expected_revision : Z) (evidence : option dict) : prog BarrierSessionState :=
  do* s := snapshot in
  do* current := require_session s "barrier session is absent" in
  through expected_revision (BarrierSession.complete_reopen expected_revision evidence) current.
Definition mark_ambiguous (expected_revision : Z) (cause_code : string) : prog BarrierSessionState :=
  do* s := snapshot in
  do* current := require_session s "barrier session is absent" in
  through expected_revision (BarrierSession.mark_ambiguous expected_revision cause_code) current.
(** ** Authority effects *)
Definition rejected {A} (msg : string) : prog A := sraise (ClassError "RecoveryRejectedError" msg).
Definition unless_rejected (c : bool) (msg : string) : prog unit := if c then sret tt else rejected msg.
Definition _authority_effect_scope {A} (guarded : bool) (m : prog A) : prog A :=
  if guarded then
    do slift (fun _ => guard E) ;;
    do _require_operation_lock ;;
    do slift (fun _ => guard E) ;;
    do* a := m in
    do slift (fun _ => guard_after E) ;;
    sret a
  else operation_lock m.
(** The optional arguments of [prepare_authority_effect] *)
Record Expected : Type := MkExpected {
  expected_fencing_token : option string; expected_barrier_id : option string; expected_artifact_identity : option string;
  expected_manifest_identity : option string; expected_selector_identity : option string;
  expected_runtime_identity : option string }.
Definition expected_admission (x : Expected) : list (option string) :=
  [expected_artifact_identity x; expected_manifest_identity x; expected_selector_identity x; expected_runtime_identity x].
Definition check_label (o : option string) (label : string) : res unit :=
  stop_if (match o with Some s => negb (PyStr.truthy s) | None => false end) ("authority effect " +:+ label +:+ " is invalid").
Definition registered_child (operation_id target : string) (current : BarrierSessionState) : bool :=
  match (if String.eqb target "rollback" then rollback_child current else forward_child current) with
  | None => true
  | Some c => PyStr.mem (UpgradeIdentity.operation_id c) [operation_id; PyPath.rsplit0 ":" operation_id]
              && String.eqb (UpgradeIdentity.target c) target
  end.
Definition same_when_given (o : option string) (s : string) : bool :=
  match o with Some e => String.eqb s e | None => true end.
Definition prior_effect (operation : string) (d : Db) : option EffectRow :=
  List.find (fun r => String.eqb (operation_id (e_intent r)) operation) (effects d).
(** The checks on the durable state, and the intent they lead to *)
Definition admit_effect (current : option BarrierSessionState) (expected_revision : Z) (id operation backend target : string)
    (x : Expected) (d : Db) : res AuthorityEffectIntent :=
  match current with
  | None => control_error "authority effect requires a held barrier session"
  | Some current =>
      check stop_if (negb (String.eqb (status current) "held")) "authority effect requires a held barrier session" ;;
      check stop_if ((PyStr.contains "." operation || PyStr.contains ":" operation)
                     && negb (registered_child operation target current))
              "authority effect operation is not the registered barrier child" ;;
      check stop_if (negb (revision current =? expected_revision)) "authority effect session revision conflict" ;;
      check stop_if (negb (same_when_given (expected_fencing_token x) (fencing_token (identity current))))
              "authority effect fencing token conflict" ;;
      check stop_if (negb (same_when_given (expected_barrier_id x) (durable_barrier_id (identity current))))
              "authority effect barrier identity conflict" ;;
      let* prepared := _prepared_effect_intents d in
      check stop_if (match prepared with [] => false | _ => true end) "authority effect has unresolved intent" ;;
      check match prior_effect operation d with
            | None => Ok tt
            | Some r => control_error (if String.eqb (e_outcome r) "ambiguous"
                                       then "authority effect operation has an ambiguous prior outcome"
                                       else "authority effect operation was already recorded")
            end ;;
      check_intent (MkIntent id operation backend target (attempt_id (identity current)) (identity_digest (identity current))
        (fencing_token (identity current)) (revision current) (expected_artifact_identity x) (expected_manifest_identity x)
        (expected_selector_identity x) (expected_runtime_identity x))
  end.
Definition insert_effect (i : AuthorityEffectIntent) (d : Db) : res Db :=
  check int64 (session_revision i) ;;
  check raise_if (existsb (fun r => String.eqb (intent_id (e_intent r)) (intent_id i)) (effects d))
          (IntegrityError "authority_effect_intent") ;;
  Ok (set_effects d (effects d ++ [MkEffect i "prepared" None])).
Definition prepare_authority_effect (guarded : bool) (expected_revision : Z) (operation backend target : string) (x : Expected) :
    prog AuthorityEffectIntent :=
  do require (1 <=? expected_revision) "authority effect session revision is invalid" ;;
  do* id := uuid4 in
  do require (forallb PyStr.truthy [operation; backend; target]) "authority effect identity is invalid" ;;
  do require (PyStr.mem backend ["git"; "sqlite"] && PyStr.mem target UpgradeIdentity.TARGETS)
       "authority effect backend or target is invalid" ;;
  do slift (fun _ => check_label (expected_fencing_token x) "fencing token") ;;
  do slift (fun _ => check_label (expected_barrier_id x) "barrier identity") ;;
  do slift (fun _ => check_admission (expected_admission x)) ;;
  do require (guarded || negb (owned E)) "control store lock is non-reentrant" ;;
  _authority_effect_scope guarded (connection
    (do* current := _snapshot_locked in
     do* intent := slift (fun w => admit_effect current expected_revision id operation backend target x (db w)) in
     do* d := transaction (insert_effect intent) in
     do commit d ;;
     sret intent)).
(** The session made ambiguous by the running transaction *)
Definition made_ambiguous (s : BarrierSessionState) : res BarrierSessionState :=
  new_state (identity s) "ambiguous" (revision s + 1) (forward_child s) (rollback_child s) (reopen_target s).
(** [UPDATE barrier_session SET status='ambiguous',revision=? WHERE revision=? AND status IN ...] *)
Definition fence_session (s : BarrierSessionState) (statuses : list string) (msg : string) (d : Db) : res Db :=
  match session d with
  | Some row =>
      check stop_if (negb (at_revision row (revision s) && existsb (fun v => eq (row_status row) (VStr v)) statuses)) msg ;;
      let* row := ambiguous_row row (revision s + 1) in
      Ok (set_session d (Some row))
  | None => control_error msg
  end.
Definition finish_body (current : BarrierSessionState) (i : AuthorityEffectIntent) (outcome : string) (d : Db) :
    res (Db * BarrierSessionState) :=
  let* d := _mark_effect_intent (intent_id i) outcome None d in
  if String.eqb outcome "ambiguous" then
    let* d := fence_session current ["held"] "authority effect ambiguity lost its row fence" d in
    let* current := made_ambiguous current in
    Ok (d, current)
  else Ok (d, current).
Definition finish_authority_effect (guarded : bool) (i : AuthorityEffectIntent) (outcome : string) (receipt : dict) :
    prog BarrierSessionState :=
  do require (PyStr.mem outcome ["committed"; "rejected"; "ambiguous"]) "authority effect outcome is invalid" ;;
  do (if String.eqb outcome "committed" && negb (is_none (artifact_identity i))
      then slift (fun _ => _validate_authority_effect_receipt i receipt) else sret tt) ;;
  do require (guarded || negb (owned E)) "control store lock is non-reentrant" ;;
  _authority_effect_scope guarded (connection
    (do* s := _snapshot_locked in
     do* current := require_session s "authority effect session identity changed" in
     do require (_effect_intent_matches current i) "authority effect session identity changed" ;;
     do require (String.eqb (status current) "held" || negb (String.eqb outcome "committed"))
          "authority effect cannot complete from an ambiguous barrier" ;;
     do* done := transaction (finish_body current i outcome) in
     do commit_or done.1 "authority effect outcome publication is ambiguous; recovery is required"
          _mark_recovery_ambiguous_after_commit_failure ;;
     sret done.2)).
(** ** Recovery *)
Definition _prepared_intent_matches (current : BarrierSessionState) (i : SessionIntent) : bool :=
  let matches_current :=
    (s_proposed i =? revision current) && (s_expected i =? revision current - 1) && String.eqb (s_status i) (status current) in
  let matches_interrupted_recovery :=
    String.eqb (status current) "ambiguous" && (s_proposed i =? revision current - 1) && (s_expected i =? s_proposed i - 1)
    && PyStr.mem (s_status i) ["held"; "releasing"] in
  let matches_interrupted_reconciliation :=
    String.eqb (status current) "held" && String.eqb (s_status i) "held" && (s_proposed i =? revision current)
    && (s_expected i =? revision current + 1) && String.eqb (s_attempt i) (attempt_id (identity current))
    && String.eqb (s_digest i) (identity_digest (identity current)) in
  String.eqb (s_attempt i) (attempt_id (identity current)) && String.eqb (s_digest i) (identity_digest (identity current))
  && PyStr.mem (s_status i) STATUSES
  && (matches_current || matches_interrupted_recovery || matches_interrupted_reconciliation).
Definition _is_interrupted_reconciliation (current : BarrierSessionState) (i : SessionIntent) : bool :=
  String.eqb (status current) "held" && String.eqb (s_status i) "held" && (s_proposed i =? revision current)
  && (s_expected i =? revision current + 1).
Definition history_row (record : dict) : list value := map (get record) (IDENTITY_COLUMNS ++ STATE_COLUMNS).
Definition _reconciliation_history_matches (current : BarrierSessionState) (i : SessionIntent) (d : Db) : bool :=
  match List.find (fun h => h_revision h =? s_expected i) (history d) with
  | None => false
  | Some h =>
      match JsonParse.loads (h_json h) with
      | Some (VDict record) =>
          match _row_state (history_row record) with
          | Ok previous =>
              String.eqb (h_attempt h) (attempt_id (identity previous)) && (h_revision h =? revision previous)
              && String.eqb (status previous) "ambiguous" && (revision previous =? s_expected i)
              && negb (same_identity (identity previous) (identity current))
              && (state_revision (identity previous) <? state_revision (identity current))
          | Raise _ => false
          end
      | _ => false
      end
  end.
(** One [UPDATE] per intent *)
Definition mark_all (outcome : string) (cause : option string) (prepared : list SessionIntent) (d : Db) : res Db :=
  foldM (fun d i => _mark_intent (s_intent i) outcome cause d) d prepared.
Definition mark_all_effects (outcome : string) (cause : option string) (prepared : list AuthorityEffectIntent) (d : Db) : res Db :=
  foldM (fun d i => _mark_effect_intent (intent_id i) outcome cause d) d prepared.
Definition recovery_commit (d : Db) : prog unit :=
  commit_or d "recovery commit outcome is ambiguous; durable state must be rechecked"
    _mark_recovery_ambiguous_after_commit_failure.
Definition _recover_prepared_locked (prepared : list SessionIntent) : prog BarrierSessionState :=
  do* s := _snapshot_locked in
  do* current := require_session s "prepared session intent has no session" in
  do require (forallb (_prepared_intent_matches current) prepared) "prepared session intent identity is invalid" ;;
  if forallb (_is_interrupted_reconciliation current) prepared then
    do slift (fun w => stop_if (negb (forallb (fun i => _reconciliation_history_matches current i (db w)) prepared))
                         "prepared reconciliation history is invalid") ;;
    do* d := transaction (mark_all "reconciled" None prepared) in
    do recovery_commit d ;;
    sret current
  else
    do* current :=
      if String.eqb (status current) "ambiguous" then sret current
      else
        do* d := transaction (fence_session current ["held"; "releasing"] "unknown session outcome lost its row fence") in
        do* fenced := slift (fun _ => made_ambiguous current) in
        do recovery_commit d ;;
        sret fenced in
    do* d := transaction (mark_all "ambiguous" (Some "process-death") prepared) in
    do recovery_commit d ;;
    sret current.
Definition effect_of_session (current : BarrierSessionState) (i : AuthorityEffectIntent) : bool :=
  String.eqb (intent_attempt_id i) (attempt_id (identity current))
  && String.eqb (intent_identity_digest i) (identity_digest (identity current))
  && String.eqb (intent_fencing_token i) (fencing_token (identity current))
  && ((session_revision i =? revision current) || (session_revision i =? revision current - 1)).
Definition recover_effects_body (current : BarrierSessionState) (prepared : list AuthorityEffectIntent) (d : Db) :
    res (Db * BarrierSessionState) :=
  let* fenced :=
    if String.eqb (status current) "held" then
      let* d := fence_session current ["held"] "unknown authority effect lost its row fence" d in
      let* current := made_ambiguous current in
      Ok (d, current)
    else Ok (d, current) in
  let* d := mark_all_effects "ambiguous" (Some "process-death") prepared fenced.1 in
  Ok (d, fenced.2).
Definition _recover_prepared_effects_locked (prepared : list AuthorityEffectIntent) : prog BarrierSessionState :=
  do* s := _snapshot_locked in
  do* current := require_session s "prepared authority effect has no session" in
  do require (forallb (effect_of_session current) prepared) "prepared authority effect identity is invalid" ;;
  do* done := transaction (recover_effects_body current prepared) in
  do recovery_commit done.1 ;;
  sret done.2.
Definition _recover_unknown_connection_locked : prog (option BarrierSessionState) :=
  do* effects := slift (fun w => _prepared_effect_intents (db w)) in
  match effects with
  | _ :: _ => do* s := _recover_prepared_effects_locked effects in sret (Some s)
  | [] =>
      do* w := sget in
      match _prepared_intents (db w) with
      | [] => _snapshot_locked
      | prepared => do* s := _recover_prepared_locked prepared in sret (Some s)
      end
  end.
Definition recover_unknown : prog (option BarrierSessionState) :=
  do not_reentrant ;;
  operation_lock (do slift (fun _ => reconcile_wal E) ;; connection _recover_unknown_connection_locked).
Definition recover_unknown_locked : prog (option BarrierSessionState) :=
  do slift (fun _ => guard E) ;;
  do _require_operation_lock ;;
  do slift (fun _ => reconcile_wal E) ;;
  do* result := connection _recover_unknown_connection_locked in
  do slift (fun _ => guard_after E) ;;
  sret result.

(** ** Reconciliation *)
Definition fresh_fence (supplied current : BarrierSessionState) : bool :=
  negb (String.eqb (attempt_id (identity supplied)) (attempt_id (identity current)))
  && (state_revision (identity current) <? state_revision (identity supplied))
  && negb (String.eqb (durable_barrier_id (identity supplied)) (durable_barrier_id (identity current)))
  && negb (String.eqb (fencing_token (identity supplied)) (fencing_token (identity current))).
Definition reconcile_body (id : string) (expected_revision : Z) (replacement current : BarrierSessionState) (d : Db) : res Db :=
  let* d := insert_intent (new_intent id expected_revision replacement) d in
  let* d := record_history current d in
  insert_session replacement (set_session d None).
Definition fresh_revision (answer : res value) (replacement : BarrierSessionState) : prog unit :=
  match answer with
  | Raise _ => rejected "fresh authority reread failed"
  | Ok (VStr s) =>
      do unless_rejected (PyStr.truthy s) "fresh authority revision is invalid" ;;
      unless_rejected (String.eqb s (authority_revision_at_acquire (identity replacement))) "replacement authority revision changed"
  | Ok _ => rejected "fresh authority revision is invalid"
  end.
Definition reconcile_locked (guarded : bool) (expected_revision : Z) (replacement : BarrierSessionState) : prog BarrierSessionState :=
  do* s := _snapshot_locked in
  do* current := match s with Some s => sret s | None => rejected "only ambiguous sessions require reconciliation" end in
  do unless_rejected (String.eqb (status current) "ambiguous") "only ambiguous sessions require reconciliation" ;;
  do unless_rejected (revision current =? expected_revision) "barrier session CAS conflict" ;;
  do unless_rejected (fresh_fence replacement current) "ambiguous reconciliation requires a distinct newer fence" ;;
  do* unresolved := slift (fun w =>
    match _prepared_intents (db w) with
    | _ :: _ => Ok true
    | [] => let* l := _prepared_effect_intents (db w) in Ok (match l with [] => false | _ => true end)
    end) in
  do unless_rejected (negb unresolved) "ambiguous reconciliation has unresolved intent" ;;
  do match authority_reader E with
     | None => rejected "fresh authority rereader is required"
     | Some r => fresh_revision r replacement
     end ;;
  do* id := uuid4 in
  do* d := transaction (reconcile_body id expected_revision replacement current) in
  do commit_or d "barrier session reconciliation commit outcome is ambiguous; recovery is required"
       (_mark_ambiguous_after_commit_failure replacement expected_revision) ;;
  do recasting (do* d := transaction (_mark_intent id "reconciled" None) in commit d)
       "barrier session reconciliation outcome is ambiguous; recovery is required" ;;
  do (if guarded then slift (fun _ => guard_after E) else sret tt) ;;
  sret replacement.
Definition reconcile_ambiguous (guarded : bool) (expected_revision : Z) (replacement : BarrierSessionState) :
    prog BarrierSessionState :=
  do unless_rejected (1 <=? expected_revision) "barrier session expected revision is invalid" ;;
  do unless_rejected (String.eqb (status replacement) "held" && (revision replacement =? 1)
                      && String.eqb (project_id (identity replacement)) (project E))
       "ambiguous reconciliation requires a new held session" ;;
  if guarded then
    do slift (fun _ => guard E) ;;
    do _require_operation_lock ;;
    connection (reconcile_locked guarded expected_revision replacement)
  else
    do unless_rejected (negb (owned E)) "control store lock is non-reentrant" ;;
    operation_lock (connection (reconcile_locked guarded expected_revision replacement)).

(** ** A read-only look at the row *)
Definition observe_connection (d : Db) : res (option BarrierSessionState) :=
  match session d with
  | None => Ok None
  | Some row =>
      let* current := _decode_observation (project E) row in
      check stop_if (String.eqb (status current) "released" && (1 <? revision current)
                     && negb (existsb (fun i => String.eqb (s_attempt i) (attempt_id (identity current))
                                                && String.eqb (s_digest i) (identity_digest (identity current))
                                                && (s_proposed i =? revision current)) (intents d)))
              "durable barrier session intent is missing" ;;
      check stop_if (existsb prepared_effect (effects d)) "durable authority effect intent is unresolved" ;;
      Ok (Some current)
  end.
End store.

(** ** Histories *)
Inductive op : Type :=
| Create (i : BarrierSessionIdentity) | CreateLocked (i : BarrierSessionIdentity)
| RecheckHeld (i : option BarrierSessionIdentity) (n : Z)
| RecheckHeldLocked (i : BarrierSessionIdentity) (n : Z) (allowed : list string)
| ProvisionReleased (i : BarrierSessionIdentity)
| Cas (n : Z) (s : BarrierSessionState) | CasLocked (i : BarrierSessionIdentity) (n : Z) (s : BarrierSessionState)
| BindChild (n : Z) (c : BarrierChildIdentity) | BeginReopen (n : Z) (target : string) (evidence : option dict)
| CompleteReopen (n : Z) (evidence : option dict) | MarkAmbiguous (n : Z) (cause : string)
| Prepare (guarded : bool) (n : Z) (operation backend target : string) (x : Expected)
| Finish (guarded : bool) (i : AuthorityEffectIntent) (outcome : string) (receipt : dict)
| Recover | RecoverLocked | Reconcile (guarded : bool) (n : Z) (s : BarrierSessionState).
Definition ignoring {A} (m : st World A) : st World unit := do m ;; sret tt.
Definition run (E : Env) (o : op) : st World unit :=
  match o with
  | Create i => ignoring (create E i)
  | CreateLocked i => ignoring (create_locked E i)
  | RecheckHeld i n => ignoring (recheck_held E i n)
  | RecheckHeldLocked i n allowed => ignoring (recheck_held_locked E i n allowed)
  | ProvisionReleased i => ignoring (provision_released E i)
  | Cas n s => ignoring (cas E n s)
  | CasLocked i n s => ignoring (cas_locked E i n s)
  | BindChild n c => ignoring (bind_child E n c)
  | BeginReopen n t e => ignoring (begin_reopen E n t e)
  | CompleteReopen n e => ignoring (complete_reopen E n e)
  | MarkAmbiguous n c => ignoring (mark_ambiguous E n c)
  | Prepare g n o b t x => ignoring (prepare_authority_effect E g n o b t x)
  | Finish g i o r => ignoring (finish_authority_effect E g i o r)
  | Recover => ignoring (recover_unknown E)
  | RecoverLocked => ignoring (recover_unknown_locked E)
  | Reconcile g n s => ignoring (reconcile_ambiguous E g n s)
  end.
(** The durable states an operation leaves: after any of its commits the
    process may stop. *)
Definition leaves (E : Env) (o : op) (d d' : Db) : Prop := d' = d \/ d' ∈ past (fst (run E o (start d))).
Inductive reachable (p : string) : Db -> Prop :=
| reachable_empty : reachable p empty_db
| reachable_run E o d d' : project E = p -> reachable p d -> leaves E o d d' -> reachable p d'.
End ControlStore.
