(* ===== verification/ControlLaws.v ===== *)
(** * Durable histories of the control store

    What every operation of [ControlStore] makes durable, whatever its
    environment does: each durable state follows from the one before by a legal
    step.  Commits may fail, be lost or be uncertain, and a process may stop
    after any of them. *)
From S2P Require Import Prelude PyStr PyVal JsonParse UpgradeIdentity PhaseAdapters SqliteStore BarrierSession ControlStore.

Module ControlLaws.
Import Py BarrierSession ControlStore.
Import UpgradeIdentity(BarrierSessionIdentity, BarrierChildIdentity, identity_digest, attempt_id, state_revision, project_id,
  fencing_token, durable_barrier_id).

(** ** Legal steps *)
(** A row of a journal stays, or its outcome is published, once. *)
Definition intent_kept (i j : SessionIntent) : Prop :=
  j = i \/ (prepared_intent i = true /\ exists o c, o <> "prepared" /\ j = set_outcome o c i).
Definition effect_kept (r q : EffectRow) : Prop :=
  q = r \/ (prepared_effect r = true /\ exists o c, o <> "prepared" /\ q = MkEffect (e_intent r) o c).
(** At most one row is added. *)
Definition grown {A} (kept : A -> A -> Prop) (fresh : A -> Prop) (l l' : list A) : Prop :=
  exists l1 l2, l' = l1 ++ l2 /\ Forall2 kept l l1 /\ (l2 = [] \/ exists x, l2 = [x] /\ fresh x).
(** A row moves: its identity stays, its revision is the next, and its status
    changes as the table of transitions says or becomes ambiguous. *)
Record moved (row row' : list value) : Prop := Moved {
  moved_identity : take 9 row' = take 9 row;
  moved_revision : exists z, row_revision row = VInt z /\ row_revision row' = VInt (z + 1);
  moved_status : exists s s', row_status row = VStr s /\ row_status row' = VStr s' /\
    (s' ∈ STATUS_TRANSITIONS s \/ s' = "ambiguous");
}.
Definition row_attempt (row : list value) : value := nth 2 row VNull.
Definition row_state_revision (row : list value) : value := nth 3 row VNull.
(** A released or an ambiguous session gives way to a newer one, and is recorded. *)
Record replaced (row row' : list value) (d' : Db) : Prop := Replaced {
  replaced_over : row_status row = VStr "released" \/ row_status row = VStr "ambiguous";
  replaced_by : row_status row' = VStr "held" /\ row_revision row' = VInt 1;
  replaced_newer : exists y z, row_state_revision row = VInt y /\ row_state_revision row' = VInt z /\ y < z;
  replaced_attempt : exists a h, row_attempt row = VStr a /\ row_attempt row' <> VStr a /\
    h ∈ history d' /\ h_attempt h = a /\ row_revision row = VInt (h_revision h);
}.
Inductive session_step (d d' : Db) : Prop :=
| session_kept : session d' = session d -> history d' = history d -> session_step d d'
| session_started row : session d = None -> session d' = Some row -> history d' = history d ->
    row_revision row = VInt 1 -> (exists s, row_status row = VStr s /\ s ∈ ["held"; "released"; "ambiguous"]) -> session_step d d'
| session_moved row row' : session d = Some row -> session d' = Some row' -> history d' = history d -> moved row row' ->
    session_step d d'
| session_replaced row row' : session d = Some row -> session d' = Some row' -> replaced row row' d' -> session_step d d'.
Definition operations (d : Db) : list string := map (fun r => operation_id (e_intent r)) (effects d).
Record legal (p : string) (d d' : Db) : Prop := Legal {
  legal_session : session_step d d';
  legal_intents : grown intent_kept (fun i => prepared_intent i = true /\ s_intent i ∉ map s_intent (intents d)) (intents d) (intents d');
  legal_effects : grown effect_kept (fun r =>
      prepared_effect r = true /\ operation_id (e_intent r) ∉ operations d /\ existsb prepared_effect (effects d) = false /\
      session d' = session d /\ exists row s, session d = Some row /\ _decode_observation p row = Ok s /\
        _effect_intent_matches s (e_intent r) = true)
    (effects d) (effects d');
  legal_barriers : barriers d' = barriers d;
}.

(** ** Trails: the durable states of a computation *)
Inductive trail (R : Db -> Db -> Prop) : Db -> list Db -> Db -> Prop :=
| trail_nil d : trail R d [] d
| trail_cons d x l d' : R d x -> trail R x l d' -> trail R d (x :: l) d'.
Lemma trail_app R d l d1 l' d2 : trail R d l d1 -> trail R d1 l' d2 -> trail R d (l ++ l') d2.
Proof. induction 1 as [|d x l d' H _ IH]; [done|]. intros H'. cbn. constructor; auto. Qed.
Lemma trail_one (R : Db -> Db -> Prop) d d' : R d d' -> trail R d [d'] d'.
Proof. intros H. by repeat econstructor. Qed.

Notation exactly d := (fun x : Db => x = d).
Section obeys.
Context (E : Env) (R : Db -> Db -> Prop).
(** Started in a durable state with [P], the computation only makes durable
    states that follow from one another. *)
Definition obeys {A} (P : Db -> Prop) (m : st World A) : Prop := forall w, P (db w) ->
  exists l, past (fst (m w)) = past w ++ l /\ trail R (db w) l (db (fst (m w))).
Definition still {A} (m : st World A) : Prop := forall w, past (fst (m w)) = past w /\ db (fst (m w)) = db w.

Lemma obeys_still {A} P (m : st World A) : still m -> obeys P m.
Proof. intros H w _. exists []. destruct (H w) as [-> ->]. rewrite app_nil_r. split; [done|constructor]. Qed.
Lemma still_lift {A} (f : World -> res A) : still (slift f).
Proof. done. Qed.
Lemma still_ret {A} (a : A) : still (sret a).
Proof. done. Qed.
Lemma still_raise {A} e : still (@sraise World A e).
Proof. done. Qed.
Lemma still_get : still sget.
Proof. done. Qed.
Lemma still_uuid4 : still (uuid4 E).
Proof. done. Qed.
Lemma still_bind {A B} (m : st World A) (k : A -> st World B) : still m -> (forall a, still (k a)) -> still (sbind m k).
Proof.
  intros H Hk w. unfold sbind. specialize (H w). destruct (m w) as [w1 [a|e]]; [|done]. cbn [fst] in H.
  destruct H as [<- <-]. apply Hk.
Qed.
Lemma still_connection {A} (m : st World A) : still m -> still (connection E m).
Proof.
  intros H w. unfold connection. destruct (connect E (connections w)); [|done].
  set (w0 := MkWorld _ _ _ _ _ _). specialize (H w0). destruct (m w0) as [w1 r]. by destruct (disconnect E _).
Qed.
Lemma still_snapshot : still (_snapshot_locked E).
Proof. by apply still_connection. Qed.

Lemma obeys_impl {A} (P Q : Db -> Prop) (m : st World A) : obeys Q m -> (forall d, P d -> Q d) -> obeys P m.
Proof. intros H HPQ w Hw. apply H. auto. Qed.
Lemma obeys_bind {A B} P (m : st World A) (k : A -> st World B) :
  obeys P m -> (forall a, obeys (fun _ => True) (k a)) -> obeys P (sbind m k).
Proof.
  intros H Hk w Hw. specialize (H w Hw) as (l & H1 & H2). unfold sbind. destruct (m w) as [w1 [a|e]]; [|by exists l].
  cbn [fst] in *. destruct (Hk a w1 I) as (l' & H3 & H4). exists (l ++ l').
  rewrite H3, H1, app_assoc. split; [done|]. by eapply trail_app.
Qed.
(** The answer of a computation that changes nothing *)
Lemma obeys_look {A B} (P : Db -> Prop) (m : st World A) (k : A -> st World B) :
  still m -> (forall w w' a, P (db w) -> m w = (w', Ok a) -> obeys (exactly (db w)) (k a)) -> obeys P (sbind m k).
Proof.
  intros H Hk w Hw. specialize (Hk w). unfold sbind. specialize (H w). destruct (m w) as [w1 [a|e]]; cbn [fst] in H.
  - destruct H as [Hp Hd]. destruct (Hk _ a Hw eq_refl w1 Hd) as (l & H1 & H2). rewrite Hp, Hd in *. by exists l.
  - exists []. cbn [fst]. destruct H as [-> ->]. rewrite app_nil_r. split; [done|constructor].
Qed.
Lemma obeys_connection {A} P (m : st World A) : obeys P m -> obeys P (connection E m).
Proof.
  intros H w Hw. unfold connection. destruct (connect E (connections w)).
  - set (w0 := MkWorld _ _ _ _ _ _). specialize (H w0 Hw) as (l & H1 & H2). exists l. destruct (m w0) as [w1 r].
    by destruct (disconnect E _).
  - exists []. rewrite app_nil_r. split; [done|constructor].
Qed.
Lemma obeys_operation_lock {A} P (m : st World A) : obeys P m -> obeys P (operation_lock E m).
Proof. intros H. apply obeys_look; [done|]. intros w w' [] Hw _. eapply obeys_impl; [exact H|]. by intros d ->. Qed.
Lemma obeys_recasting {A} P (m : st World A) msg : obeys P m -> obeys P (recasting m msg).
Proof. intros H w Hw. unfold recasting. specialize (H w Hw). by destruct (m w) as [w1 [a|e]]. Qed.
Lemma still_transaction {A} (body : Db -> res A) : still (transaction E body).
Proof. done. Qed.
Lemma obeys_transaction {A B} P (body : Db -> res A) (k : A -> st World B) :
  (forall d a, P d -> body d = Ok a -> obeys (exactly d) (k a)) -> obeys P (do* a := transaction E body in k a).
Proof.
  intros H. apply obeys_look; [done|]. intros w w' a Hw Ha. apply H; [done|].
  unfold transaction, slift in Ha. destruct (begin E _); cbn in Ha; congruence.
Qed.
Lemma obeys_commit (P : Db -> Prop) d : (forall d0, P d0 -> R d0 d) -> obeys P (commit E d).
Proof.
  intros H w Hw. unfold commit. destruct (commit_outcome E (transactions w)); cbn [fst db past].
  1, 3: exists [d]; split; [done|]; by apply trail_one, H.
  exists []. rewrite app_nil_r. split; [done|constructor].
Qed.
Lemma obeys_post {A B} (P Q : Db -> Prop) (m : st World A) (k : A -> st World B) :
  obeys P m -> (forall w w' a, P (db w) -> m w = (w', Ok a) -> Q (db w')) -> (forall a, obeys Q (k a)) -> obeys P (sbind m k).
Proof.
  intros H HQ Hk w Hw. specialize (H w Hw) as (l & H1 & H2). unfold sbind. specialize (HQ w).
  destruct (m w) as [w1 [a|e]]; [|by exists l].
  cbn [fst] in *. destruct (Hk a w1 (HQ _ a Hw eq_refl)) as (l' & H3 & H4). exists (l ++ l').
  rewrite H3, H1, app_assoc. split; [done|]. by eapply trail_app.
Qed.
Lemma commit_spec d w : exists l, past (fst (commit E d w)) = past w ++ l /\
  ((l = [] /\ db (fst (commit E d w)) = db w /\ exists e, snd (commit E d w) = Raise e) \/ (l = [d] /\ db (fst (commit E d w)) = d)).
Proof.
  unfold commit. destruct (commit_outcome E (transactions w)); [exists [d] | exists [] | exists [d]]; rewrite ?app_nil_r; eauto 10.
Qed.
Lemma commit_or_Ok d msg fence w w' u : commit_or E d msg fence w = (w', Ok u) -> db w' = d.
Proof.
  unfold commit_or. pose proof (commit_spec d w) as (l & _ & H). destruct (commit E d w) as [w1 [x|e]]; cbn [fst snd] in H.
  - intros [= <- _]. destruct H as [(_ & _ & e & [=]) | [_ ->]]. done.
  - unfold sbind. by destruct (fence w1) as [? [|]].
Qed.
Lemma obeys_commit_or d0 d msg fence :
  R d0 d -> obeys (fun x => x = d0 \/ x = d) fence -> obeys (exactly d0) (commit_or E d msg fence).
Proof.
  intros HR Hf w Hw. subst d0. unfold commit_or. pose proof (commit_spec d w) as (l & Hp & H).
  assert (trail R (db w) l (db (fst (commit E d w)))) as Ht by (destruct H as [(-> & -> & _) | [-> ->]]; [apply trail_nil | by apply trail_one]).
  assert (db (fst (commit E d w)) = db w \/ db (fst (commit E d w)) = d) as Hd by tauto.
  destruct (commit E d w) as [w1 [x|e]]; cbn [fst] in *; [by exists l|].
  assert (obeys (fun x => x = db w \/ x = d) (do fence ;; @raise_control unit msg)) as Hf' by (apply obeys_bind; [done|]; intros ?; by apply obeys_still).
  destruct (Hf' w1 Hd) as (l' & H1 & H2). exists (l ++ l'). rewrite H1, Hp, app_assoc. split; [done|]. by eapply trail_app.
Qed.
Lemma obeys_commit_then {A} d0 d msg fence (k : st World A) :
  R d0 d -> obeys (fun x => x = d0 \/ x = d) fence -> obeys (exactly d) k -> obeys (exactly d0) (do commit_or E d msg fence ;; k).
Proof.
  intros HR Hf Hk. eapply obeys_post with (Q := exactly d); [by apply obeys_commit_or| |done].
  intros w w' u _ H. by eapply commit_or_Ok.
Qed.
(** A transaction and the commit of its result, fenced *)
Definition answers {B} (m : st World B) (body : Db -> res B) : Prop :=
  still m /\ forall w w' b, m w = (w', Ok b) -> body (db w) = Ok b.
Lemma transaction_answers {B} (body : Db -> res B) : answers (transaction E body) body.
Proof. split; [done|]. intros w w' b H. unfold transaction, slift in H. destruct (begin E _); cbn in H; congruence. Qed.
Lemma recasting_answers {B} (m : st World B) body msg : answers m body -> answers (recasting m msg) body.
Proof.
  intros [Hs H]. split; intros w; unfold recasting; specialize (Hs w); specialize (H w); destruct (m w) as [w1 [b|e]]; try done.
Qed.
Lemma obeys_write {A B} (P : Db -> Prop) (m : st World B) body (result : B -> Db) (fence : st World unit) msg (k : B -> st World A) :
  answers m body ->
  (forall d b, P d -> body d = Ok b -> R d (result b) /\ obeys (fun x => x = d \/ x = result b) fence) ->
  (forall b, obeys (exactly (result b)) (k b)) ->
  obeys P (do* b := m in do commit_or E (result b) msg fence ;; k b).
Proof.
  intros [Hs Ha] H Hk. apply obeys_look; [done|]. intros w w' b Hw Hb. destruct (H _ _ Hw (Ha _ _ _ Hb)). by apply obeys_commit_then.
Qed.
Lemma obeys_write_end {B} (P : Db -> Prop) (m : st World B) body (result : B -> Db) (fence : st World unit) msg :
  answers m body ->
  (forall d b, P d -> body d = Ok b -> R d (result b) /\ obeys (fun x => x = d \/ x = result b) fence) ->
  obeys P (do* b := m in commit_or E (result b) msg fence).
Proof.
  intros [Hs Ha] H. apply obeys_look; [done|]. intros w w' b Hw Hb. destruct (H _ _ Hw (Ha _ _ _ Hb)). by apply obeys_commit_or.
Qed.
End obeys.

(** ** Rows *)
Lemma control_int64_Ok z y : Sqlite.int64 z = Ok y -> y = z.
Proof. unfold Sqlite.int64. destruct (_ && _); [by intros [= ->] | done]. Qed.
Lemma decode_row p row s : _decode_observation p row = Ok s ->
  row_revision row = VInt (revision s) /\ row_status row = VStr (status s) /\
  row_state_revision row = VInt (state_revision (identity s)) /\ row_attempt row = VStr (attempt_id (identity s)) /\
  (13 <= length row)%nat.
Proof.
  unfold _decode_observation. set (full := if Nat.eqb (length row) 13 then _ else _).
  assert (full = row \/ (length row = 13%nat /\ full = row ++ [VNull])) as Hfull.
  { unfold full. destruct (Nat.eqb_spec (length row) 13); auto. }
  clearbody full.
  destruct (drop 9 full) as [|st [|rv [|f [|r [|tg [|? ?]]]]]] eqn:Ed; try done.
  assert (exists a b c d e g h i j, full = [a; b; c; d; e; g; h; i; j; st; rv; f; r; tg]) as (a & b & c & d & e & g & h & i & j & Ef).
  { destruct full as [|a [|b [|c [|d [|e [|g [|h [|i [|j rest]]]]]]]]]; cbn in Ed; try done.
    exists a, b, c, d, e, g, h, i, j. do 9 f_equal. exact Ed. }
  assert (row = [a; b; c; d; e; g; h; i; j; st; rv; f; r; tg] \/ row = [a; b; c; d; e; g; h; i; j; st; rv; f; r]) as Hrow.
  { destruct Hfull as [->|[Hl Hf]]; [by left|]. right. rewrite Ef in Hf.
    change [a; b; c; d; e; g; h; i; j; st; rv; f; r; tg] with ([a; b; c; d; e; g; h; i; j; st; rv; f; r] ++ [tg]) in Hf.
    by apply app_inj_tail in Hf as [-> _]. }
  intros (id & Hid & (s' & Hs & (u & _ & E)%rbind_Ok_inv)%rbind_Ok_inv)%rbind_Ok_inv. injection E as ->.
  assert (row_state_revision row = VInt (state_revision id) /\ row_attempt row = VStr (attempt_id id)) as [H1 H2].
  { unfold recast in Hid. destruct (UpgradeIdentity.from_record _) as [id'|] eqn:Er; [|done]. injection Hid as ->.
    pose proof (UpgradeIdentity.as_record_get _ _ Er) as Ha. destruct Hrow as [-> | ->].
    all: split; [specialize (Ha "state_revision") | specialize (Ha "attempt_id")]; symmetry; apply Ha; listed. }
  unfold recast in Hs. destruct (state_of id st rv f r tg) as [s''|] eqn:Es; [|done]. injection Hs as ->.
  unfold state_of in Es. apply rbind_Ok_inv in Es as (f' & _ & (r' & _ & (t' & _ & Es)%rbind_Ok_inv)%rbind_Ok_inv).
  destruct st as [| |?|stx| |]; try done. destruct rv as [| |rz| | |]; try done. unfold new_state in Es. inv_ok. 
  destruct Hrow as [-> | ->]; cbn in *; split_and!; try done; lia.
Qed.
(** The columns of a session *)
Definition row_of (v : value) (s : BarrierSessionState) : list value :=
  v :: map snd (drop 1 (UpgradeIdentity.as_record (identity s))) ++ state_values s.
Lemma column_text v : match v with VStr _ | VNull => column v = Ok v | _ => True end.
Proof. by destruct v. Qed.
Lemma column_int z y : column (VInt z) = Ok y -> y = VInt z.
Proof. unfold column. cbn. intros (x & Hx & E)%rbind_Ok_inv. apply control_int64_Ok in Hx as ->. by injection E. Qed.
Lemma column_opt o : column (opt_value o) = Ok (opt_value o).
Proof. by destruct o. Qed.
Lemma state_row_inv s row : state_row s = Ok row -> exists v, row = row_of v s.
Proof.
  unfold state_row, row_of. cbn [UpgradeIdentity.as_record map snd app state_values drop mapr].
  rewrite !column_opt. intros H. inv_ok. repeat match goal with H : column (VInt _) = Ok _ |- _ => apply column_int in H as -> end.
  repeat match goal with H : column (VStr _) = Ok _ |- _ => cbn in H; injection H as <- end.
  by eexists.
Qed.
Lemma row_of_columns v s : row_revision (row_of v s) = VInt (revision s) /\ row_status (row_of v s) = VStr (status s) /\
  row_state_revision (row_of v s) = VInt (state_revision (identity s)) /\ row_attempt (row_of v s) = VStr (attempt_id (identity s)).
Proof. done. Qed.
Lemma long_row (row : list value) : (13 <= length row)%nat ->
  exists a b c d e f g h i st rv rest, row = [a; b; c; d; e; f; g; h; i; st; rv] ++ rest.
Proof.
  intros H. do 11 (destruct row as [|? row]; [cbn in H; lia|]). by repeat eexists.
Qed.
Lemma ambiguous_row_moved p row s row' :
  _decode_observation p row = Ok s -> ambiguous_row row (revision s + 1) = Ok row' -> moved row row'.
Proof.
  intros Hd H. destruct (decode_row _ _ _ Hd) as (Hr & Hs & _ & _ & Hl). unfold ambiguous_row in H. inv_ok.
  destruct (long_row _ Hl) as (a & b & c & d & e & f & g & h & i & st & rv & rest & ->). constructor; [done| |].
  - by exists (revision s).
  - exists (status s), "ambiguous". auto.
Qed.
Lemma updated_row_moved p row s supplied row' :
  _decode_observation p row = Ok s -> revision supplied = revision s + 1 -> status supplied ∈ STATUS_TRANSITIONS (status s) ->
  updated_row row supplied = Ok row' -> moved row row'.
Proof.
  intros Hd Hv Ht H. destruct (decode_row _ _ _ Hd) as (Hr & Hs & _ & _ & Hl). unfold updated_row in H. inv_ok.
  destruct (long_row _ Hl) as (a & b & c & d & e & f & g & h & i & st & rv & rest & ->). constructor; [done| |].
  - exists (revision s). split; [done|]. cbn. by rewrite Hv.
  - exists (status s), (status supplied). auto.
Qed.

(** ** Journals *)
Lemma Forall2_map_kept {A} (kept : A -> A -> Prop) f l : (forall x, kept x (f x)) -> Forall2 kept l (map f l).
Proof. intros H. induction l; cbn; constructor; auto. Qed.
Lemma Forall2_same {A} (kept : A -> A -> Prop) l : (forall x, kept x x) -> Forall2 kept l l.
Proof. intros H. induction l; constructor; auto. Qed.
Lemma grown_same {A} (kept : A -> A -> Prop) fresh l : (forall x, kept x x) -> grown kept fresh l l.
Proof. intros H. exists l, []. rewrite app_nil_r. split_and!; auto. by apply Forall2_same. Qed.
Lemma grown_add {A} (kept : A -> A -> Prop) (fresh : A -> Prop) l x : (forall x, kept x x) -> fresh x -> grown kept fresh l (l ++ [x]).
Proof. intros H Hx. exists l, [x]. split_and!; eauto. by apply Forall2_same. Qed.
Lemma grown_kept {A} (kept : A -> A -> Prop) fresh l l' : Forall2 kept l l' -> grown kept fresh l l'.
Proof. intros H. exists l', []. rewrite app_nil_r. auto. Qed.
Lemma intent_kept_refl i : intent_kept i i.
Proof. by left. Qed.
Lemma effect_kept_refl r : effect_kept r r.
Proof. by left. Qed.
(** A step that changes the session alone *)
Lemma legal_alone p d d' : session_step d d' -> intents d' = intents d -> effects d' = effects d -> barriers d' = barriers d -> legal p d d'.
Proof.
  intros H Hi He Hb. constructor; [done| | |done]; [rewrite Hi | rewrite He]; apply grown_same; [apply intent_kept_refl | apply effect_kept_refl].
Qed.
(** Publishing outcomes only *)
Definition intents_marked (d d' : Db) : Prop := exists l, d' = set_intents d l /\ Forall2 intent_kept (intents d) l.
Definition effects_marked (d d' : Db) : Prop := exists l, d' = set_effects d l /\ Forall2 effect_kept (effects d) l.
Lemma Forall2_trans {A} (kept : A -> A -> Prop) l1 l2 l3 : (forall x y z, kept x y -> kept y z -> kept x z) ->
  Forall2 kept l1 l2 -> Forall2 kept l2 l3 -> Forall2 kept l1 l3.
Proof.
  intros H H1. revert l3. induction H1 as [|x y l1 l2 Hx _ IH]; intros l3 H2; inversion H2; subst; constructor; eauto.
Qed.
Lemma intent_kept_trans i j k : intent_kept i j -> intent_kept j k -> intent_kept i k.
Proof.
  intros [-> | (Hi & o & c & Ho & ->)] [-> | (Hj & o' & c' & Ho' & ->)]; try by left.
  1, 2: by right; eauto.
  apply String.eqb_eq in Hj. done.
Qed.
Lemma effect_kept_trans i j k : effect_kept i j -> effect_kept j k -> effect_kept i k.
Proof.
  intros [-> | (Hi & o & c & Ho & ->)] [-> | (Hj & o' & c' & Ho' & ->)]; try by left.
  1, 2: by right; eauto.
  apply String.eqb_eq in Hj. done.
Qed.
Lemma mark_intent_marked id outcome cause d d' : _mark_intent id outcome cause d = Ok d' -> intents_marked d d'.
Proof.
  unfold _mark_intent. intros (u & H1 & (v & _ & H)%rbind_Ok_inv)%rbind_Ok_inv. injection H as <-.
  apply raise_if_Ok, negb_false_iff in H1. eexists. split; [done|]. apply Forall2_map_kept. intros i.
  destruct (_ && prepared_intent i) eqn:Ef; [|by left].
  right. apply andb_true_iff in Ef as [_ Ef]. split; [done|]. exists outcome, cause. split; [|done]. by intros ->.
Qed.
Lemma mark_effect_marked id outcome cause d d' : _mark_effect_intent id outcome cause d = Ok d' -> effects_marked d d'.
Proof.
  unfold _mark_effect_intent. intros (u & H1 & (v & _ & H)%rbind_Ok_inv)%rbind_Ok_inv. injection H as <-.
  apply raise_if_Ok, negb_false_iff in H1. eexists. split; [done|]. apply Forall2_map_kept. intros r.
  destruct (_ && prepared_effect r) eqn:Ef; [|by left].
  right. apply andb_true_iff in Ef as [_ Ef]. split; [done|]. exists outcome, cause. split; [|done]. by intros ->.
Qed.
Lemma intents_marked_trans d1 d2 d3 : intents_marked d1 d2 -> intents_marked d2 d3 -> intents_marked d1 d3.
Proof. intros (l & -> & H) (l' & -> & H'). exists l'. split; [done|]. eapply Forall2_trans; eauto using intent_kept_trans. Qed.
Lemma effects_marked_trans d1 d2 d3 : effects_marked d1 d2 -> effects_marked d2 d3 -> effects_marked d1 d3.
Proof. intros (l & -> & H) (l' & -> & H'). exists l'. split; [done|]. eapply Forall2_trans; eauto using effect_kept_trans. Qed.
Lemma set_intents_same d : set_intents d (intents d) = d.
Proof. by destruct d. Qed.
Lemma set_effects_same d : set_effects d (effects d) = d.
Proof. by destruct d. Qed.
Lemma intents_marked_refl d : intents_marked d d.
Proof. exists (intents d). rewrite set_intents_same. split; [done|]. apply Forall2_same, intent_kept_refl. Qed.
Lemma effects_marked_refl d : effects_marked d d.
Proof. exists (effects d). rewrite set_effects_same. split; [done|]. apply Forall2_same, effect_kept_refl. Qed.
Lemma mark_all_marked outcome cause l d d' : mark_all outcome cause l d = Ok d' -> intents_marked d d'.
Proof.
  unfold mark_all. revert d. induction l as [|i l IH]; intros d; cbn [foldM].
  - intros [= <-]. apply intents_marked_refl.
  - intros (d1 & H1 & H2)%rbind_Ok_inv. apply mark_intent_marked in H1. eapply intents_marked_trans; eauto.
Qed.
Lemma mark_all_effects_marked outcome cause l d d' : mark_all_effects outcome cause l d = Ok d' -> effects_marked d d'.
Proof.
  unfold mark_all_effects. revert d. induction l as [|i l IH]; intros d; cbn [foldM].
  - intros [= <-]. apply effects_marked_refl.
  - intros (d1 & H1 & H2)%rbind_Ok_inv. apply mark_effect_marked in H1. eapply effects_marked_trans; eauto.
Qed.
Lemma session_step_from d d1 d2 : session d1 = session d -> history d1 = history d -> session_step d1 d2 -> session_step d d2.
Proof. intros Hs Hh []; rewrite Hs, ?Hh in *; [by apply session_kept | eapply session_started | eapply session_moved | eapply session_replaced]; eauto. Qed.
Lemma session_step_to d d1 d2 : session d2 = session d1 -> history d2 = history d1 -> session_step d d1 -> session_step d d2.
Proof.
  intros Hs Hh []; [apply session_kept | eapply session_started | eapply session_moved | eapply session_replaced]; rewrite ?Hs, ?Hh; eauto.
  destruct H1. constructor; rewrite ?Hh; eauto.
Qed.
Lemma intents_marked_legal p d d' : intents_marked d d' -> legal p d d'.
Proof.
  intros (l & -> & H). constructor; cbn; [by apply session_kept | by apply grown_kept | apply grown_same, effect_kept_refl | done].
Qed.
Lemma effects_marked_legal p d d' : effects_marked d d' -> legal p d d'.
Proof.
  intros (l & -> & H). constructor; cbn; [by apply session_kept | apply grown_same, intent_kept_refl | by apply grown_kept | done].
Qed.

(** ** Statements *)
Lemma control_insert_session_inv s d d' : insert_session s d = Ok d' ->
  session d = None /\ exists v, d' = set_session d (Some (row_of v s)).
Proof.
  unfold insert_session. intros (row & Hr & (u & Hs & H)%rbind_Ok_inv)%rbind_Ok_inv. injection H as <-.
  apply state_row_inv in Hr as [v ->]. apply raise_if_Ok in Hs. destruct (session d); [done|]. eauto.
Qed.
Lemma existsb_false {A} (f : A -> bool) l x : existsb f l = false -> x ∈ l -> f x = false.
Proof.
  intros H Hx. destruct (f x) eqn:Ef; [|done]. assert (existsb f l = true) as H' by (apply existsb_exists; exists x; by rewrite <- list_elem_of_In).
  congruence.
Qed.
Lemma insert_intent_inv i d d' : insert_intent i d = Ok d' ->
  s_intent i ∉ map s_intent (intents d) /\ d' = set_intents d (intents d ++ [i]).
Proof.
  unfold insert_intent. intros H. apply rbind_Ok_inv in H as (u1 & _ & (u2 & _ & (u3 & H & E)%rbind_Ok_inv)%rbind_Ok_inv).
  injection E as <-. split; [|done]. apply raise_if_Ok in H. intros (j & Hj & Hin)%list_elem_of_fmap.
  pose proof (existsb_false _ _ _ H Hin) as Hf. cbn in Hf. by rewrite Hj, String.eqb_refl in Hf.
Qed.
Lemma record_history_inv s d d' : record_history s d = Ok d' -> exists l,
  d' = set_history d (l ++ [MkHistory (attempt_id (identity s)) (revision s) (history_json s)]).
Proof. unfold record_history. intros (u & _ & H)%rbind_Ok_inv. injection H as <-. eauto. Qed.
Lemma legal_with_intent p d d' i : session_step d d' -> intents d' = intents d ++ [i] -> prepared_intent i = true ->
  s_intent i ∉ map s_intent (intents d) -> effects d' = effects d -> barriers d' = barriers d -> legal p d d'.
Proof.
  intros Hs Hi Hp Hf He Hb. constructor; [done| | |done].
  - rewrite Hi. apply grown_add; [apply intent_kept_refl | done].
  - rewrite He. apply grown_same, effect_kept_refl.
Qed.
(** A session replaced by a newer one *)
Lemma replacement_step p d d' row current v supplied :
  session d = Some row -> _decode_observation p row = Ok current ->
  status current = "released" \/ status current = "ambiguous" ->
  status supplied = "held" -> revision supplied = 1 -> attempt_id (identity supplied) <> attempt_id (identity current) ->
  state_revision (identity current) < state_revision (identity supplied) ->
  session d' = Some (row_of v supplied) ->
  (exists l, history d' = l ++ [MkHistory (attempt_id (identity current)) (revision current) (history_json current)]) -> session_step d d'.
Proof.
  intros Hs Hd Ho Hh Hr Ha Hn Hs' (l & Hl). destruct (decode_row _ _ _ Hd) as (Er & Es & Ev & Ea & _).
  destruct (row_of_columns v supplied) as (Er' & Es' & Ev' & Ea'). eapply session_replaced; [exact Hs | exact Hs' |]. constructor.
  - rewrite Es. destruct Ho as [-> | ->]; auto.
  - rewrite Es', Er', Hh, Hr. done.
  - eauto.
  - eexists _, _. split; [exact Ea|]. split; [rewrite Ea'; congruence|]. rewrite Hl. split; [apply elem_of_app; right; by left|]. done.
Qed.

Section bodies.
Context (E : Env).
Notation p := (project E).
Lemma cas_body_legal n supplied allow id d d' : cas_body E n supplied allow id d = Ok d' ->
  legal p d d' /\ (session d = None -> n = 0).
Proof.
  unfold cas_body. destruct (session d) as [row|] eqn:Es.
  - intros (current & Hd & H)%rbind_Ok_inv. split; [|done]. destruct (replaces_released n supplied current) eqn:Er.
    + unfold replaces_released in Er. rewrite !andb_true_iff in Er. destruct Er as (((_ & E1) & E2) & _).
      apply String.eqb_eq in E1, E2.
      apply rbind_Ok_inv in H as (u & Hf & (d1 & (l & ->)%record_history_inv & (u2 & Hr & (d2 & (Hn & ->)%insert_intent_inv & (_ & v & ->)%control_insert_session_inv)%rbind_Ok_inv)%rbind_Ok_inv)%rbind_Ok_inv).
      apply raise_if_Ok, orb_false_iff in Hf as [Hf1 Hf2]. apply String.eqb_neq in Hf1. apply Z.leb_gt in Hf2.
      apply raise_if_Ok, negb_false_iff, Z.eqb_eq in Hr.
      eapply legal_with_intent; cbn; try done. eapply replacement_step; eauto; cbn; eauto.
    + apply rbind_Ok_inv in H as (u1 & H1 & (u2 & _ & (u3 & H3 & (u4 & H4 & (d1 & (Hn & ->)%insert_intent_inv & (u5 & _ & (row' & Hu & H)%rbind_Ok_inv)%rbind_Ok_inv)%rbind_Ok_inv)%rbind_Ok_inv)%rbind_Ok_inv)%rbind_Ok_inv).
      injection H as <-. apply raise_if_Ok, negb_false_iff in H1, H3, H4. apply Z.eqb_eq in H1, H4. apply PyStr.mem_spec in H3.
      eapply legal_with_intent; cbn; try done. eapply session_moved; [done | done | done |].
      eapply updated_row_moved; eauto. congruence.
  - intros H. apply rbind_Ok_inv in H as (u1 & H1 & (u2 & H2 & (u3 & H3 & (d1 & (Hn & ->)%insert_intent_inv & (_ & v & ->)%control_insert_session_inv)%rbind_Ok_inv)%rbind_Ok_inv)%rbind_Ok_inv).
    apply raise_if_Ok, negb_false_iff in H1, H3. apply Z.eqb_eq in H1, H3. split; [|done].
    eapply legal_with_intent; cbn; try done. destruct (row_of_columns v supplied) as (Er' & Es' & _).
    eapply session_started; cbn; try done; [by rewrite Er', H3|]. exists (status supplied). split; [done|].
    apply raise_if_Ok, andb_false_iff in H2. rewrite !negb_false_iff, andb_true_iff, !String.eqb_eq in H2.
    destruct H2 as [-> | [_ ->]]; listed.
Qed.
Lemma fence_session_legal s statuses msg d d' row :
  session d = Some row -> _decode_observation p row = Ok s -> fence_session s statuses msg d = Ok d' ->
  session_step d d' /\ intents d' = intents d /\ effects d' = effects d /\ barriers d' = barriers d /\ history d' = history d.
Proof.
  intros Hs Hd. unfold fence_session. rewrite Hs. intros (u & _ & (row' & Hr & H)%rbind_Ok_inv)%rbind_Ok_inv.
  injection H as <-. split_and!; try done. eapply session_moved; [done..|]. by eapply ambiguous_row_moved.
Qed.

(** ** Operations *)
Notation R := (legal p).
Lemma uncertain_intent_kept i : intent_kept i (uncertain_intent i).
Proof. unfold uncertain_intent. destruct (prepared_intent i) eqn:Ei; [|by left]. right. split; [done|]. by exists "ambiguous", (Some "commit-uncertain"). Qed.
Lemma uncertain_effect_kept r : effect_kept r (uncertain_effect r).
Proof. unfold uncertain_effect. destruct (prepared_effect r) eqn:Er; [|by left]. right. split; [done|]. by exists "ambiguous", (Some "commit-uncertain"). Qed.
Lemma current_of_inv d s : current_of E d = Ok (Some s) -> exists row, session d = Some row /\ _decode_observation p row = Ok s.
Proof. unfold current_of, _row_state. destruct (session d) as [row|]; [|done]. intros (s' & H & [= <-])%rbind_Ok_inv. eauto. Qed.
Lemma cas_fence_obeys supplied n :
  obeys R (fun d => session d = None -> n = 0) (_mark_ambiguous_after_commit_failure E supplied n).
Proof.
  apply obeys_recasting, obeys_transaction. intros d d' Hn H. apply obeys_commit. intros d0 ->.
  destruct (session d) as [row|] eqn:Es.
  - apply rbind_Ok_inv in H as (s & Hd & (row' & Hr & H)%rbind_Ok_inv). injection H as <-.
    apply legal_alone; try done. eapply session_moved; [done..|]. by eapply ambiguous_row_moved.
  - apply rbind_Ok_inv in H as (s & Hd & (_ & v & ->)%control_insert_session_inv). apply legal_alone; try done.
    destruct (row_of_columns v s) as (Er & Eo & _). unfold new_state in Hd. rewrite (Hn eq_refl) in Hd. inv_ok.
    eapply session_started; [done | done | done | exact Er |]. exists "ambiguous". split; [exact Eo | listed].
Qed.
Lemma recovery_fence_obeys P : obeys R P (_mark_recovery_ambiguous_after_commit_failure E).
Proof.
  apply obeys_recasting, obeys_transaction. intros d d' _ H. apply obeys_commit. intros d0 ->.
  destruct (session d) as [row|] eqn:Es; [|done].
  apply rbind_Ok_inv in H as (s & Hd & (row' & Hr & (l & _ & H)%rbind_Ok_inv)%rbind_Ok_inv). injection H as <-.
  constructor; cbn; [| apply grown_kept, Forall2_map_kept, uncertain_intent_kept | apply grown_kept, Forall2_map_kept, uncertain_effect_kept | done].
  destruct (PyStr.mem _ _).
  - eapply session_moved; [done..|]. by eapply ambiguous_row_moved.
  - injection Hr as <-. by apply session_kept; cbn.
Qed.
Lemma snapshot_spec w w' s : _snapshot_locked E w = (w', Ok s) -> current_of E (db w) = Ok s.
Proof.
  unfold _snapshot_locked, connection. destruct (connect E _); [|done]. cbn. destruct (disconnect E _); [|done]. congruence.
Qed.
Lemma publish_obeys P id outcome : obeys R P (publish E id outcome).
Proof.
  apply (obeys_write_end _ _ _ _ (_mark_intent id outcome None) (fun d => d)).
  - apply recasting_answers, transaction_answers.
  - intros d d' _ H. split; [by eapply intents_marked_legal, mark_intent_marked | apply recovery_fence_obeys].
Qed.
Lemma cas_write n supplied allow id d d' : cas_body E n supplied allow id d = Ok d' ->
  R d d' /\ obeys R (fun x => x = d \/ x = d') (_mark_ambiguous_after_commit_failure E supplied n).
Proof.
  intros H. destruct (cas_body_legal _ _ _ _ _ _ H) as [Hl Hn]. split; [done|].
  eapply obeys_impl; [apply cas_fence_obeys|]. intros x [-> | ->]; [done|]. intros Hx.
  destruct Hl as [Hs _ _ _]. inversion Hs; try congruence. apply Hn. congruence.
Qed.
Lemma cas_locked_obeys P n supplied allow : obeys R P (_cas_locked E n supplied allow).
Proof.
  apply obeys_connection, obeys_look; [apply still_uuid4|]. intros w w1 id _ _.
  apply (obeys_write _ _ _ _ (cas_body E n supplied allow id) (fun d => d)).
  - apply transaction_answers.
  - intros d d' _ H. by apply cas_write in H.
  - intros d. apply obeys_bind; [apply publish_obeys|]. intros u. by apply obeys_still.
Qed.
Lemma require_still c msg : still (require c msg).
Proof. done. Qed.
Lemma attempt_read_still r : still (read_authority r).
Proof. done. Qed.
Lemma require_reader_still : still (require_reader E).
Proof. unfold require_reader. by destruct (authority_reader E). Qed.
Lemma require_session_still s msg : still (require_session s msg).
Proof. by destruct s. Qed.
Lemma snapshot_obeys P : obeys R P (_snapshot_locked E).
Proof. apply obeys_still, still_snapshot. Qed.
Ltac obey_step :=
  match goal with
  | |- obeys _ _ (sbind _ _) => apply obeys_bind; [|intros ?]
  | |- obeys _ _ (slift _) => by apply obeys_still
  | |- obeys _ _ (sret _) => by apply obeys_still
  | |- obeys _ _ sget => by apply obeys_still
  | |- obeys _ _ (sraise _) => by apply obeys_still
  | |- obeys _ _ (raise_control _) => by apply obeys_still
  | |- obeys _ _ (rejected _) => by apply obeys_still
  | |- obeys _ _ (require _ _) => by apply obeys_still
  | |- obeys _ _ (not_reentrant _) => by apply obeys_still
  | |- obeys _ _ (_require_operation_lock _) => by apply obeys_still
  | |- obeys _ _ (read_authority _) => by apply obeys_still
  | |- obeys _ _ (require_project _ _) => by apply obeys_still
  | |- obeys _ _ (require_reader _) => apply obeys_still, require_reader_still
  | |- obeys _ _ (require_session _ _) => apply obeys_still, require_session_still
  | |- obeys _ _ (uuid4 _) => by apply obeys_still
  | |- obeys _ _ (_snapshot_locked _) => apply snapshot_obeys
  | |- obeys _ _ (_cas_locked _ _ _ _) => apply cas_locked_obeys
  | |- obeys _ _ (operation_lock _ _) => apply obeys_operation_lock
  | |- obeys _ _ (if ?c then _ else _) => destruct c
  | |- obeys _ _ (match ?x with _ => _ end) => destruct x
  end.
Ltac obey := repeat (cbv beta zeta; obey_step).
Lemma cas_obeys P n s : obeys R P (cas E n s).
Proof. unfold cas. obey. Qed.
Lemma through_obeys P n m s : obeys R P (through E n m s).
Proof. unfold through. obey. apply cas_obeys. Qed.
Lemma recheck_held_locked_obeys P i n allowed : obeys R P (recheck_held_locked E i n allowed).
Proof. unfold recheck_held_locked. obey. Qed.

(** Effects *)
Lemma check_intent_same i j : check_intent i = Ok j -> j = i.
Proof. unfold check_intent. intros H. by inv_ok. Qed.
Lemma prepared_effects_none d : _prepared_effect_intents d = Ok [] -> existsb prepared_effect (effects d) = false.
Proof.
  unfold _prepared_effect_intents, recast. destruct (mapr check_intent _) as [l|] eqn:Em; [|done]. intros [= ->].
  apply mapr_length in Em. destruct (existsb prepared_effect (effects d)) eqn:Ee; [|done].
  apply existsb_exists in Ee as (r & Hr & Hp). assert (r ∈ List.filter prepared_effect (effects d)) as Hin by (apply list_elem_of_In, filter_In; done).
  destruct (List.filter prepared_effect (effects d)); [by apply elem_of_nil in Hin | done].
Qed.
Lemma prior_effect_none op d : prior_effect op d = None -> op ∉ operations d.
Proof.
  unfold prior_effect, operations. intros H (r & -> & Hr)%list_elem_of_fmap. apply list_elem_of_In in Hr.
  apply (List.find_none _ _ H) in Hr. by rewrite String.eqb_refl in Hr.
Qed.
(** What an admitted effect is *)
Record admitted (d : Db) (i : AuthorityEffectIntent) (operation : string) : Prop := Admitted_ {
  admitted_operation : operation_id i = operation;
  admitted_new : operation ∉ operations d;
  admitted_alone : existsb prepared_effect (effects d) = false;
  admitted_session : exists row s, session d = Some row /\ _decode_observation p row = Ok s /\ _effect_intent_matches s i = true;
}.
Lemma admit_effect_inv s n id op b t x d i : current_of E d = Ok s -> admit_effect s n id op b t x d = Ok i -> admitted d i op.
Proof.
  intros Hs. destruct s as [s|]; [|done]. cbn [admit_effect].
  intros (u1 & H1 & (u2 & _ & (u3 & H3 & (u4 & _ & (u5 & _ & (l & Hl & (u6 & H6 & (u7 & H7 & H)%rbind_Ok_inv)%rbind_Ok_inv)%rbind_Ok_inv)%rbind_Ok_inv)%rbind_Ok_inv)%rbind_Ok_inv)%rbind_Ok_inv)%rbind_Ok_inv.
  apply check_intent_same in H as ->. apply raise_if_Ok in H1, H3, H6. rewrite negb_false_iff in H1, H3.
  constructor; [done| | |].
  - apply prior_effect_none. by destruct (prior_effect op d).
  - apply prepared_effects_none. by destruct l.
  - apply current_of_inv in Hs as (row & Hr & Hd). exists row, s. split_and!; try done.
    unfold _effect_intent_matches. cbn. by rewrite H1, Z.eqb_refl, !String.eqb_refl.
Qed.
Lemma insert_effect_inv i d d' : insert_effect i d = Ok d' -> d' = set_effects d (effects d ++ [MkEffect i "prepared" None]).
Proof. unfold insert_effect. intros H. by inv_ok. Qed.
Lemma insert_effect_legal i op d d' : admitted d i op -> insert_effect i d = Ok d' -> R d d'.
Proof.
  intros [Ho Hn Ha (row & s & Hr & Hd & Hm)] ->%insert_effect_inv. constructor; cbn; [by apply session_kept | apply grown_same, intent_kept_refl | | done].
  apply grown_add; [apply effect_kept_refl|]. cbn [e_intent]. rewrite Ho. split_and!; try done. by exists row, s.
Qed.
Lemma effect_scope_obeys {A} P guarded (m : st World A) : obeys R (fun _ => True) m -> obeys R P (_authority_effect_scope E guarded m).
Proof. intros H. unfold _authority_effect_scope. obey; by eapply obeys_impl. Qed.
Lemma prepare_obeys P g n op b t x : obeys R P (prepare_authority_effect E g n op b t x).
Proof.
  unfold prepare_authority_effect. obey. apply effect_scope_obeys, obeys_connection, obeys_look; [apply still_snapshot|].
  intros w w1 s _ Hs%snapshot_spec. apply obeys_look; [done|]. intros w2 w3 i Hw Hi.
  assert (admitted (db w2) i op) as Ha by (rewrite Hw in *; cbn in Hi; injection Hi as _ Hi; eapply admit_effect_inv; [exact Hs|]; by rewrite Hw in Hi).
  apply obeys_transaction. intros d d' -> Hd. apply obeys_bind; [|intros ?; by apply obeys_still].
  apply obeys_commit. intros d0 ->. by eapply insert_effect_legal.
Qed.
Lemma legal_fence_effects d d1 d2 : effects_marked d d1 -> session_step d1 d2 -> intents d2 = intents d1 -> effects d2 = effects d1 ->
  barriers d2 = barriers d1 -> R d d2.
Proof.
  intros (l & -> & H) Hs Hi He Hb. constructor; [by eapply session_step_from, Hs | rewrite Hi | rewrite He | done].
  - apply grown_same, intent_kept_refl.
  - by apply grown_kept.
Qed.
Lemma legal_effects_fenced d d1 d2 : session_step d d1 -> intents d1 = intents d -> effects d1 = effects d ->
  barriers d1 = barriers d -> effects_marked d1 d2 -> R d d2.
Proof.
  intros Hs Hi He Hb (l & -> & H). constructor; cbn; [by eapply session_step_to, Hs | rewrite Hi | | done].
  - apply grown_same, intent_kept_refl.
  - apply grown_kept. by rewrite <- He.
Qed.
Lemma finish_body_legal s i outcome d b : current_of E d = Ok (Some s) -> finish_body s i outcome d = Ok b -> R d b.1.
Proof.
  intros (row & Hr & Hd)%current_of_inv. unfold finish_body. intros (d1 & H1%mark_effect_marked & H)%rbind_Ok_inv.
  destruct (String.eqb outcome "ambiguous").
  - apply rbind_Ok_inv in H as (d2 & H2 & (s' & _ & [= <-])%rbind_Ok_inv). destruct H1 as (l & -> & Hl).
    eapply fence_session_legal in H2 as (Hs & Hi & He & Hb & _); [|done|done].
    eapply legal_fence_effects; eauto. by exists l.
  - injection H as <-. by apply effects_marked_legal.
Qed.
Lemma obeys_recovery_write {A B} (P : Db -> Prop) body (result : B -> Db) msg (k : B -> st World A) :
  (forall d b, P d -> body d = Ok b -> R d (result b)) -> (forall b, obeys R (exactly (result b)) (k b)) ->
  obeys R P (do* b := transaction E body in
             do commit_or E (result b) msg (_mark_recovery_ambiguous_after_commit_failure E) ;; k b).
Proof.
  intros H Hk. apply (obeys_write _ _ _ _ body); [apply transaction_answers | |done]. intros d b Hd Hb.
  split; [by apply H | apply recovery_fence_obeys].
Qed.
(** The session read and then required *)
Lemma obeys_session {A} P msg (k : BarrierSessionState -> st World A) :
  (forall d s, P d -> current_of E d = Ok (Some s) -> obeys R (exactly d) (k s)) ->
  obeys R P (do* o := _snapshot_locked E in do* s := require_session o msg in k s).
Proof.
  intros H. apply obeys_look; [apply still_snapshot|]. intros w w1 o Hw Hs%snapshot_spec.
  apply obeys_look; [apply require_session_still|]. intros w2 w3 s -> Ho. destruct o as [s'|]; [|done].
  injection Ho as _ <-. by apply H.
Qed.
Lemma obeys_require {A} (P : Db -> Prop) c msg (k : st World A) : (c = true -> obeys R P k) -> obeys R P (do require c msg ;; k).
Proof.
  intros H. destruct c; [|by apply obeys_still].
  apply obeys_look; [done|]. intros w w1 u Hw _. eapply obeys_impl; [by apply H|]. by intros d ->.
Qed.
Lemma finish_obeys P g i outcome receipt : obeys R P (finish_authority_effect E g i outcome receipt).
Proof.
  unfold finish_authority_effect. obey; apply effect_scope_obeys, obeys_connection, obeys_session; intros w s _ Hs.
  all: do 2 (apply obeys_require; intros _).
  all: apply obeys_recovery_write; [|intros b; by apply obeys_still].
  all: intros d b -> Hb; by eapply finish_body_legal.
Qed.
Lemma recover_effects_body_legal s l d b : current_of E d = Ok (Some s) -> recover_effects_body s l d = Ok b -> R d b.1.
Proof.
  intros (row & Hr & Hd)%current_of_inv. unfold recover_effects_body. intros ([d1 s1] & H1 & (d2 & H2%mark_all_effects_marked & [= <-])%rbind_Ok_inv)%rbind_Ok_inv.
  destruct (String.eqb (status s) "held").
  - apply rbind_Ok_inv in H1 as (d3 & H3 & (s' & _ & [= <- <-])%rbind_Ok_inv).
    eapply fence_session_legal in H3 as (Hs & Hi & He & Hb & _); [|done|done]. eapply legal_effects_fenced; eauto.
  - injection H1 as <- <-. by apply effects_marked_legal.
Qed.
Lemma recover_prepared_obeys P l : obeys R P (_recover_prepared_locked E l).
Proof.
  apply obeys_session. intros w s _ Hs. apply obeys_require. intros _.
  destruct (forallb _ l).
  - apply obeys_look; [done|]. intros ? ? _ -> _. unfold recovery_commit.
    apply (obeys_recovery_write _ _ (fun d => d)); [|intros b; by apply obeys_still].
    intros d d' _ H. by eapply intents_marked_legal, mark_all_marked.
  - assert (forall s' : BarrierSessionState, obeys R (fun _ => True)
      (do* d := transaction E (mark_all "ambiguous" (Some "process-death") l) in do recovery_commit E d ;; sret s')) as Hend.
    { intros s'. apply (obeys_recovery_write _ _ (fun d => d)); [|intros b; by apply obeys_still].
      intros d d' _ H. by eapply intents_marked_legal, mark_all_marked. }
    apply obeys_bind; [|done]. destruct (String.eqb (status s) "ambiguous"); [by apply obeys_still|].
    apply obeys_transaction. intros d d' -> H. apply obeys_look; [done|]. intros ? ? s' -> _.
    apply obeys_commit_then; [|apply recovery_fence_obeys|by apply obeys_still].
    apply current_of_inv in Hs as (row & Hr & Hd).
    eapply fence_session_legal in H as (Hst & Hi & He & Hb & _); [|done|done]. by apply legal_alone.
Qed.
Lemma recover_effects_obeys P l : obeys R P (_recover_prepared_effects_locked E l).
Proof.
  apply obeys_session. intros w s _ Hs. apply obeys_require. intros _.
  apply obeys_recovery_write; [|intros b; by apply obeys_still]. intros d b -> Hb. by eapply recover_effects_body_legal.
Qed.
Lemma recover_connection_obeys P : obeys R P (_recover_unknown_connection_locked E).
Proof.
  unfold _recover_unknown_connection_locked. obey; [apply recover_prepared_obeys | apply recover_effects_obeys].
Qed.
Lemma reconcile_body_legal id n s supplied d d' : current_of E d = Ok (Some s) -> status s = "ambiguous" -> status supplied = "held" ->
  revision supplied = 1 -> fresh_fence supplied s = true -> reconcile_body id n supplied s d = Ok d' -> R d d'.
Proof.
  intros (row & Hr & Hd)%current_of_inv Ha Hh H1 Hf. unfold reconcile_body.
  intros (d1 & (Hn & ->)%insert_intent_inv & (d2 & (l & ->)%record_history_inv & (_ & v & ->)%control_insert_session_inv)%rbind_Ok_inv)%rbind_Ok_inv.
  unfold fresh_fence in Hf. rewrite !andb_true_iff, !negb_true_iff, Z.ltb_lt, !String.eqb_neq in Hf. destruct Hf as (((Hf1 & Hf2) & _) & _).
  eapply legal_with_intent; cbn; try done. eapply replacement_step; eauto; cbn; eauto.
Qed.
Lemma obeys_unless {A} (P : Db -> Prop) c msg (k : st World A) : (c = true -> obeys R P k) -> obeys R P (do unless_rejected c msg ;; k).
Proof.
  intros H. destruct c; [|by apply obeys_still].
  apply obeys_look; [done|]. intros w w1 u Hw _. eapply obeys_impl; [by apply H|]. by intros d ->.
Qed.
Lemma still_unless c msg : still (unless_rejected c msg).
Proof. by destruct c. Qed.
Lemma fresh_revision_still a s : still (fresh_revision a s).
Proof. destruct a as [[]|]; try done. apply still_bind; [|intros ?]; apply still_unless. Qed.
Lemma reconcile_obeys P g n supplied : status supplied = "held" -> revision supplied = 1 -> obeys R P (reconcile_locked E g n supplied).
Proof.
  intros Hh H1. apply obeys_look; [apply still_snapshot|]. intros w w1 o _ Hs%snapshot_spec.
  apply obeys_look; [by destruct o|]. intros w2 w3 s -> Ho. destruct o as [s'|]; [|done]. injection Ho as _ <-.
  apply obeys_unless. intros Ha%String.eqb_eq. apply obeys_unless. intros _. apply obeys_unless. intros Hf.
  apply obeys_look; [done|]. intros w4 w5 b Hw4 _. rewrite Hw4. apply obeys_unless. intros _.
  apply obeys_look. { destruct (authority_reader E); [apply fresh_revision_still | done]. } intros w6 w7 [] Hw6 _. rewrite Hw6.
  apply obeys_look; [done|]. intros w8 w9 id Hw8 _. rewrite Hw8.
  apply (obeys_write _ _ _ _ (reconcile_body id n supplied s') (fun d => d)).
  - apply transaction_answers.
  - intros d d' -> H. pose proof (reconcile_body_legal _ _ _ _ _ _ Hs Ha Hh H1 Hf H) as Hl. split; [done|].
    eapply obeys_impl; [apply cas_fence_obeys|]. apply current_of_inv in Hs as (row & Hr & _).
    intros x [-> | ->]; [congruence|]. intros Hx. destruct Hl as [Hst _ _ _]. inversion Hst; congruence.
  - intros d. apply obeys_bind; [|intros ?; obey].
    apply obeys_recasting, obeys_transaction. intros d1 d2 -> Hm. apply obeys_commit. intros d3 ->.
    by eapply intents_marked_legal, mark_intent_marked.
Qed.
Lemma reconcile_ambiguous_obeys P g n supplied : obeys R P (reconcile_ambiguous E g n supplied).
Proof.
  unfold reconcile_ambiguous. apply obeys_unless. intros _. apply obeys_unless. rewrite !andb_true_iff.
  intros [[Hh%String.eqb_eq H1%Z.eqb_eq] _]. obey; try (apply obeys_still, still_unless); by apply obeys_connection, reconcile_obeys.
Qed.
Lemma recover_unknown_obeys P : obeys R P (recover_unknown E).
Proof. unfold recover_unknown. obey. apply obeys_connection, recover_connection_obeys. Qed.
Lemma recover_unknown_locked_obeys P : obeys R P (recover_unknown_locked E).
Proof. unfold recover_unknown_locked. obey. apply obeys_connection, recover_connection_obeys. Qed.

Lemma ignoring_obeys {A} P (m : st World A) : obeys R P m -> obeys R P (ignoring m).
Proof. intros H. apply obeys_bind; [done|]. intros ?. by apply obeys_still. Qed.
Lemma run_obeys o : obeys R (fun _ => True) (run E o).
Proof.
  destruct o; apply ignoring_obeys.
  all: lazymatch goal with
       | |- obeys _ _ (cas _ _ _) => apply cas_obeys
       | |- obeys _ _ (recheck_held_locked _ _ _ _) => apply recheck_held_locked_obeys
       | |- obeys _ _ (prepare_authority_effect _ _ _ _ _ _ _) => apply prepare_obeys
       | |- obeys _ _ (finish_authority_effect _ _ _ _ _) => apply finish_obeys
       | |- obeys _ _ (recover_unknown _) => apply recover_unknown_obeys
       | |- obeys _ _ (recover_unknown_locked _) => apply recover_unknown_locked_obeys
       | |- obeys _ _ (reconcile_ambiguous _ _ _ _) => apply reconcile_ambiguous_obeys
       | _ => idtac
       end.
  - unfold create. obey. apply cas_obeys.
  - unfold create_locked. obey.
  - unfold recheck_held. obey.
  - unfold provision_released. obey.
  - unfold cas_locked. obey. apply recheck_held_locked_obeys.
  - unfold bind_child, snapshot. obey. apply through_obeys.
  - unfold begin_reopen, snapshot. obey. apply through_obeys.
  - unfold complete_reopen, snapshot. obey. apply through_obeys.
  - unfold mark_ambiguous, snapshot. obey. apply through_obeys.
Qed.
End bodies.

(** ** Histories *)
Lemma trail_steps R d l d' x : trail R d l d' -> x ∈ l -> rtc R d x.
Proof.
  induction 1 as [|d y l d' H _ IH]; intros Hx; [by apply elem_of_nil in Hx|]. apply elem_of_cons in Hx as [-> | Hx].
  - by apply rtc_once.
  - eapply rtc_l; eauto.
Qed.
Lemma leaves_legal E o d d' : leaves E o d d' -> rtc (legal (project E)) d d'.
Proof.
  intros [-> | H]; [done|]. destruct (run_obeys E o (start d) I) as (l & Hp & Ht). cbn [start past app db] in Hp, Ht.
  rewrite Hp in H. by eapply trail_steps.
Qed.
Lemma reachable_legal p d : reachable p d -> rtc (legal p) empty_db d.
Proof. induction 1 as [|E o d d' <- _ IH H]; [done|]. etrans; [exact IH|]. by eapply leaves_legal. Qed.

(** C9: The control store implements its contract: every durable state an
    operation leaves, with any answers of its environment, lost and uncertain
    commits included, is reached by legal steps: the session starts at revision
    one, moves by the table of transitions or into ambiguity with its identity
    unchanged and the next revision, or is replaced, once released or ambiguous
    and recorded, by a newer attempt; an outcome is published once; and an effect
    is prepared alone, once per operation, for the held session. *)
Theorem control_store_refines E o d d' : leaves E o d d' -> rtc (legal (project E)) d d'.
Proof. apply leaves_legal. Qed.
End ControlLaws.
