(* ===== verification/ControlHistory.v ===== *)
(** * What the histories of the control store guarantee

    Consequences of the legal steps of [ControlLaws]: the fence of a session
    never goes back, and the outcome of an authority effect is recorded once. *)
From S2P Require Import Prelude PyStr PyVal JsonParse UpgradeIdentity PhaseAdapters SqliteStore BarrierSession ControlStore ControlLaws.

Module ControlHistory.
Import Py BarrierSession ControlStore ControlLaws.
Import UpgradeIdentity(BarrierSessionIdentity, BarrierChildIdentity, identity_digest, attempt_id, state_revision, project_id,
  fencing_token, durable_barrier_id).

(** ** The fence *)
(** The second row is the first, a later revision of the same session, or a
    session with a newer fence. *)
Inductive row_le (row row' : list value) : Prop :=
| row_same : row' = row -> row_le row row'
| row_later m n : take 9 row' = take 9 row -> row_revision row = VInt m -> row_revision row' = VInt n -> m < n -> row_le row row'
| row_newer y z : row_state_revision row = VInt y -> row_state_revision row' = VInt z -> y < z -> row_le row row'.
Lemma state_revision_taken row row' : take 9 row' = take 9 row -> row_state_revision row' = row_state_revision row.
Proof.
  intros H. unfold row_state_revision. apply (f_equal (fun l => nth 3 l VNull)) in H.
  assert (forall l : list value, nth 3 (take 9 l) VNull = nth 3 l VNull) as Hn by (intros [|? [|? [|? [|? ?]]]]; done).
  by rewrite !Hn in H.
Qed.
Lemma row_le_trans r1 r2 r3 : row_le r1 r2 -> row_le r2 r3 -> row_le r1 r3.
Proof.
  intros [-> | m n Ht Hm Hn Hlt | y z Hy Hz Hlt] H; [done| |].
  - destruct H as [-> | m' n' Ht' Hm' Hn' Hlt' | y z Hy Hz Hlt'].
    + by eapply row_later.
    + eapply row_later; [congruence | done | done |]. rewrite Hn in Hm'. injection Hm' as ->. lia.
    + eapply row_newer; [| done | done]. by rewrite <- (state_revision_taken _ _ Ht).
  - destruct H as [-> | m' n' Ht' _ _ _ | y' z' Hy' Hz' Hlt'].
    + by eapply row_newer.
    + eapply row_newer; [done | | done]. by rewrite (state_revision_taken _ _ Ht').
    + rewrite Hz in Hy'. injection Hy' as ->. eapply row_newer; [done | done | lia].
Qed.
Lemma legal_fence p d d' row : legal p d d' -> session d = Some row -> exists row', session d' = Some row' /\ row_le row row'.
Proof.
  intros [[Hs _ | row' Hn | r row' Hr Hr' _ [Hi (z & Hz & Hz') _] | r row' Hr Hr' [_ _ (y & z & Hy & Hz & Hlt) _]] _ _ _] Es.
  - exists row. rewrite Hs. split; [done | by apply row_same].
  - congruence.
  - assert (r = row) as -> by congruence. exists row'. split; [done|]. eapply row_later; [done..|lia].
  - assert (r = row) as -> by congruence. exists row'. split; [done|]. by eapply row_newer.
Qed.
Lemma legal_fences p d d' row : rtc (legal p) d d' -> session d = Some row -> exists row', session d' = Some row' /\ row_le row row'.
Proof.
  intros H. revert row. induction H as [d | d d1 d2 Hl _ IH]; intros row Es; [exists row; split; [done | by apply row_same]|].
  destruct (legal_fence _ _ _ _ Hl Es) as (r1 & E1 & L1). destruct (IH _ E1) as (r2 & E2 & L2). eauto using row_le_trans.
Qed.
(** The fence of a barrier session never goes back: whatever an operation of
    the control store does and wherever its process stops, a durable session
    stays, moves to a later revision of the same identity, or gives way to a
    session with a strictly newer state revision; it never disappears. *)
Theorem barrier_fence_monotone E o d d' row :
  leaves E o d d' -> session d = Some row -> exists row', session d' = Some row' /\ row_le row row'.
Proof. intros H. by eapply legal_fences, leaves_legal. Qed.

(** ** The journals *)
Lemma kept_operations l l' : Forall2 effect_kept l l' ->
  map (fun r => operation_id (e_intent r)) l' = map (fun r => operation_id (e_intent r)) l.
Proof. induction 1 as [|r q l l' H _ IH]; [done|]. cbn. rewrite IH. by destruct H as [-> | (_ & o & c & _ & ->)]. Qed.
Lemma kept_intents l l' : Forall2 intent_kept l l' -> map s_intent l' = map s_intent l.
Proof. induction 1 as [|r q l l' H _ IH]; [done|]. cbn. rewrite IH. by destruct H as [-> | (_ & o & c & _ & ->)]. Qed.
Lemma kept_prepared l l' : Forall2 effect_kept l l' ->
  (length (List.filter prepared_effect l') <= length (List.filter prepared_effect l))%nat.
Proof.
  induction 1 as [|r q l l' H _ IH]; [done|]. cbn. destruct H as [-> | (Hr & o & c & Ho & ->)].
  - destruct (prepared_effect r); cbn; lia.
  - assert (prepared_effect (MkEffect (e_intent r) o c) = false) as -> by (by apply String.eqb_neq). rewrite Hr. cbn. lia.
Qed.
Lemma none_prepared l : existsb prepared_effect l = false -> List.filter prepared_effect l = [].
Proof. induction l as [|r l IH]; [done|]. cbn. intros [Hr Hl]%orb_false_iff. by rewrite Hr, IH. Qed.
Lemma legal_operations p d d' : legal p d d' -> exists l, operations d' = operations d ++ l /\ (NoDup (operations d) -> NoDup (operations d')).
Proof.
  intros [_ _ (l1 & l2 & Hl & Hk & H) _]. unfold operations in *. rewrite Hl, map_app, (kept_operations _ _ Hk).
  destruct H as [-> | (x & -> & _ & Hn & _)]; [exists []; cbn; rewrite app_nil_r; by split|].
  eexists. split; [done|]. intros Hd. apply NoDup_app. split_and!; [done| |by apply NoDup_singleton].
  intros o Hin Hx. cbn in Hx. apply list_elem_of_singleton in Hx as ->. by apply Hn.
Qed.
Lemma legals_operations p d d' o : rtc (legal p) d d' -> o ∈ operations d -> o ∈ operations d'.
Proof.
  induction 1 as [|d d1 d2 Hl _ IH]; [done|]. intros Ho. apply IH. destruct (legal_operations _ _ _ Hl) as (l & -> & _).
  apply elem_of_app. by left.
Qed.
Record recorded_once (d : Db) : Prop := Recorded {
  once_operation : NoDup (operations d);
  once_prepared : (length (List.filter prepared_effect (effects d)) <= 1)%nat;
  once_intent : NoDup (map s_intent (intents d));
}.
Lemma legal_recorded p d d' : legal p d d' -> recorded_once d -> recorded_once d'.
Proof.
  intros Hl [H1 H2 H3]. destruct (legal_operations _ _ _ Hl) as (_ & _ & Ho). constructor; [by apply Ho | |].
  - destruct Hl as [_ _ (l1 & l2 & -> & Hk & H) _]. rewrite List.filter_app, length_app. pose proof (kept_prepared _ _ Hk).
    destruct H as [-> | (x & -> & Hx & _ & Ha & _)]; cbn; [lia|]. apply none_prepared in Ha. rewrite Ha in *. cbn in *.
    destruct (prepared_effect x); cbn; lia.
  - destruct Hl as [_ (l1 & l2 & -> & Hk & H) _ _]. rewrite map_app, (kept_intents _ _ Hk).
    destruct H as [-> | (x & -> & _ & Hn)]; [by cbn; rewrite app_nil_r|]. apply NoDup_app. split_and!; [done| |by apply NoDup_singleton].
    intros o Hin Hx. cbn in Hx. apply list_elem_of_singleton in Hx as ->. by apply Hn.
Qed.
Lemma legals_recorded p d d' : rtc (legal p) d d' -> recorded_once d -> recorded_once d'.
Proof. induction 1 as [|d d1 d2 Hl _ IH]; [done|]. intros H. by eapply IH, legal_recorded. Qed.
(** Every durable state a store can reach, over any history of operations,
    failed commits and stopped processes, records at most one authority effect
    for an operation, has at most one effect whose outcome is open, and names
    every session intent once. *)
Theorem effects_recorded_once p d : reachable p d -> recorded_once d.
Proof. intros H%reachable_legal. eapply legals_recorded; [done|]. constructor; cbn; [apply NoDup_nil_2 | lia | apply NoDup_nil_2]. Qed.
End ControlHistory.
