(* ===== verification/ControlRecovery.v ===== *)
(** * Recovery of the control store

    What [recover_unknown] does with the durable states an interrupted change
    leaves: it settles those of a change to a held or a releasing session that
    was made from a settled store, with nothing open in it, and it can settle
    neither an interrupted release nor most interrupted reconciliations. *)
From S2P Require Import Prelude PyStr PyVal PyJson JsonParse UpgradeIdentity PhaseAdapters SqliteStore BarrierSession ControlStore.
From S2P Require Import ControlLaws.

Module ControlRecovery.
Import Py BarrierSession ControlStore ControlLaws.
Import UpgradeIdentity(BarrierSessionIdentity, BarrierChildIdentity, identity_digest, attempt_id, state_revision, project_id,
  fencing_token, durable_barrier_id).

(** ** Rows are read back *)
Definition proper (s : BarrierSessionState) : Prop :=
  new_state (identity s) (status s) (revision s) (forward_child s) (rollback_child s) (reopen_target s) = Ok s.
Lemma child_roundtrip c : _child (opt_value (_child_json c)) = Ok c.
Proof.
  destruct c as [[op t g]|]; [|done]. cbn [_child_json opt_value _child]. unfold child_record. cbn [UpgradeIdentity.operation_id
    UpgradeIdentity.target UpgradeIdentity.barrier_identity_digest].
  rewrite JsonParse.loads_dumps by done. cbn. done.
Qed.
Lemma state_of_values s : proper s ->
  state_of (identity s) (VStr (status s)) (VInt (revision s)) (opt_value (_child_json (forward_child s)))
    (opt_value (_child_json (rollback_child s))) (opt_value (reopen_target s)) = Ok s.
Proof. intros H. unfold state_of. rewrite !child_roundtrip. cbn [rbind]. by destruct (reopen_target s) eqn:E; cbn; rewrite <- E. Qed.
Lemma decode_values p ids s : length ids = 9%nat ->
  UpgradeIdentity.from_record (combine IDENTITY_COLUMNS ids) = Ok (identity s) -> project_id (identity s) = p -> proper s ->
  _decode_observation p (ids ++ state_values s) = Ok s.
Proof.
  intros Hl Hi Hp Hs. do 9 (destruct ids as [|? ids]; [done|]). destruct ids; [|done]. clear Hl.
  unfold _decode_observation. cbn [app state_values length Nat.eqb drop take]. rewrite Hi. cbn [recast rbind].
  rewrite (state_of_values _ Hs). cbn [recast rbind]. by rewrite Hp, String.eqb_refl.
Qed.
Lemma new_state_inv i st rv f r t s : new_state i st rv f r t = Ok s -> s = MkState i st rv f r t.
Proof. unfold new_state. intros H. by inv_ok. Qed.
Lemma decode_shape p row s : _decode_observation p row = Ok s -> exists f r t,
  length (take 9 row) = 9%nat /\ _child f = Ok (forward_child s) /\ _child r = Ok (rollback_child s) /\ t = opt_value (reopen_target s) /\
  (drop 9 row = [VStr (status s); VInt (revision s); f; r; t] \/ drop 9 row = [VStr (status s); VInt (revision s); f; r] /\ t = VNull) /\
  UpgradeIdentity.from_record (combine IDENTITY_COLUMNS (take 9 row)) = Ok (identity s) /\ project_id (identity s) = p /\ proper s.
Proof.
  unfold _decode_observation. intros H.
  destruct (drop 9 (if _ : bool then _ else _)) as [|st [|rv [|f [|r [|t [|? ?]]]]]] eqn:Ed; try done.
  apply rbind_Ok_inv in H as (i & Hi & (s' & Hs & (u & Hp & H)%rbind_Ok_inv)%rbind_Ok_inv). injection H as ->.
  unfold recast in Hi, Hs. destruct (UpgradeIdentity.from_record _) as [i'|] eqn:Hf; [|done]. injection Hi as ->.
  destruct (state_of i st rv f r t) as [s'|] eqn:Es; [|done]. injection Hs as ->. unfold state_of in Es.
  apply rbind_Ok_inv in Es as (f' & Hf' & (r' & Hr' & (t' & Ht' & Es)%rbind_Ok_inv)%rbind_Ok_inv).
  destruct st as [| | |st| |]; try done. destruct rv as [| |rv| | |]; try done.
  pose proof (new_state_inv _ _ _ _ _ _ _ Es) as ->. cbn [identity status revision forward_child rollback_child reopen_target] in *.
  apply raise_if_Ok, negb_false_iff, String.eqb_eq in Hp.
  exists f, r, t. split_and!; try done.
  - apply (f_equal length) in Ed. rewrite length_drop in Ed. rewrite length_take.
    destruct (Nat.eqb_spec (length row) 13); [rewrite length_app in Ed|]; cbn in Ed; lia.
  - destruct t as [| | |t| |]; try done; by injection Ht' as <-.
  - destruct (Nat.eqb_spec (length row) 13) as [Hl|]; [right | by left].
    rewrite drop_app_le in Ed by lia.
    change [VStr st; VInt rv; f; r; t] with ([VStr st; VInt rv; f; r] ++ [t]) in Ed. by apply app_inj_tail in Ed as [-> ->].
Qed.
Definition ambiguous_state (s : BarrierSessionState) : BarrierSessionState :=
  MkState (identity s) "ambiguous" (revision s + 1) (forward_child s) (rollback_child s) (reopen_target s).
Lemma proper_ambiguous s : proper s -> made_ambiguous s = Ok (ambiguous_state s).
Proof.
  unfold proper, made_ambiguous, new_state. cbn -[Z.ltb Z.add]. intros Hs.
  apply rbind_Ok_inv in Hs as (u1 & _ & (u2 & Hv & (u3 & Ht & (u4 & _ & Hs)%rbind_Ok_inv)%rbind_Ok_inv)%rbind_Ok_inv).
  apply raise_if_Ok, Z.ltb_ge in Hv. rewrite (proj2 (Z.ltb_ge _ _)) by lia. apply raise_if_Ok in Ht. rewrite Ht. cbn [raise_if rbind stop_if].
  apply rbind_Ok_inv in Hs as ([] & -> & ([] & -> & (u7 & H7 & _)%rbind_Ok_inv)%rbind_Ok_inv). cbn [rbind].
  unfold stop_if, raise_if in H7 |- *. rewrite H7. done.
Qed.
Lemma decode_ambiguous p row s row' : _decode_observation p row = Ok s -> ambiguous_row row (revision s + 1) = Ok row' ->
  _decode_observation p row' = Ok (ambiguous_state s).
Proof.
  intros Hd (u0 & _ & [= <-])%rbind_Ok_inv.
  destruct (decode_shape _ _ _ Hd) as (f & r & t & Hl & Hf & Hr & -> & Hx & Hi & Hp & Hs).
  pose proof (proper_ambiguous _ Hs) as Hn. unfold made_ambiguous in Hn.
  assert (exists row9 tail, row = row9 ++ tail /\ length row9 = 9%nat /\ take 9 row = row9 /\ drop 9 row = tail) as (ids & tail & -> & Hl' & E1 & E2).
  { exists (take 9 row), (drop 9 row). by rewrite take_drop. }
  rewrite E1, E2 in *. clear E1 E2. do 9 (destruct ids as [|? ids]; [done|]). destruct ids; [|done].
  destruct Hx as [-> | [-> Ht]]; unfold _decode_observation; cbn [app take drop length Nat.eqb]; rewrite Hi; cbn [recast rbind];
    unfold state_of; rewrite Hf, Hr; cbn [rbind].
  - destruct (reopen_target s) eqn:Et; cbn [opt_value]; cbn [rbind]; rewrite Hn; cbn [recast rbind]; by rewrite Hp, String.eqb_refl.
  - destruct (reopen_target s) eqn:Et; [done|]. cbn [rbind]. rewrite Hn; cbn [recast rbind]; by rewrite Hp, String.eqb_refl.
Qed.

(** ** Success in a calm environment *)
Record calm (E : Env) : Prop := Calm {
  calm_owned : owned E = false;
  calm_acquire : acquire E = Ok tt;
  calm_wal : reconcile_wal E = Ok tt;
  calm_connect n : connect E n = Ok tt;
  calm_disconnect n : disconnect E n = Ok tt;
  calm_begin n : begin E n = Ok tt;
  calm_commit n : commit_outcome E n = Committed;
}.
Section calm.
Context (E : Env) (HE : calm E).
Definition succeeds {A} (m : st World A) (d : Db) (Q : A -> Db -> Prop) : Prop :=
  forall w, db w = d -> exists w' a, m w = (w', Ok a) /\ Q a (db w').
Lemma succeeds_bind {A B} (m : st World A) (k : A -> st World B) d Q :
  succeeds m d (fun a d' => succeeds (k a) d' Q) -> succeeds (sbind m k) d Q.
Proof. intros H w Hw. destruct (H w Hw) as (w1 & a & Ha & Hk). unfold sbind. rewrite Ha. by apply Hk. Qed.
Lemma succeeds_lift {A} (f : World -> res A) a d (Q : A -> Db -> Prop) : (forall w, db w = d -> f w = Ok a) -> Q a d -> succeeds (slift f) d Q.
Proof. intros H HQ w Hw. exists w, a. unfold slift. rewrite H by done. by rewrite Hw. Qed.
Lemma succeeds_ret {A} (a : A) d (Q : A -> Db -> Prop) : Q a d -> succeeds (sret a) d Q.
Proof. intros H w <-. by exists w, a. Qed.
Lemma succeeds_require c msg d (Q : unit -> Db -> Prop) : c = true -> Q tt d -> succeeds (require c msg) d Q.
Proof. intros -> H. by apply (succeeds_lift _ tt). Qed.
Lemma succeeds_connection {A} (m : st World A) d Q : succeeds m d Q -> succeeds (connection E m) d Q.
Proof.
  intros H w Hw. unfold connection. rewrite (calm_connect E HE). set (w0 := MkWorld _ _ _ _ _ _).
  destruct (H w0 Hw) as (w1 & a & -> & HQ). rewrite (calm_disconnect E HE). by exists w1, a.
Qed.
Lemma succeeds_snapshot o d (Q : option BarrierSessionState -> Db -> Prop) : current_of E d = Ok o -> Q o d -> succeeds (_snapshot_locked E) d Q.
Proof. intros H HQ. apply succeeds_connection, (succeeds_lift _ o); [|done]. by intros w ->. Qed.
Lemma succeeds_transaction {A} (body : Db -> res A) a d (Q : A -> Db -> Prop) : body d = Ok a -> Q a d -> succeeds (transaction E body) d Q.
Proof. intros H HQ. apply (succeeds_lift _ a); [|done]. intros w ->. by rewrite (calm_begin E HE). Qed.
Lemma succeeds_commit d d' (Q : unit -> Db -> Prop) : Q tt d' -> succeeds (commit E d') d Q.
Proof. intros H w _. unfold commit. rewrite (calm_commit E HE). eexists _, _. by split. Qed.
Lemma succeeds_commit_or d d' msg fence (Q : unit -> Db -> Prop) : Q tt d' -> succeeds (commit_or E d' msg fence) d Q.
Proof.
  intros H w Hw. destruct (succeeds_commit d d' Q H w Hw) as (w1 & u & Hc & HQ). unfold commit_or. rewrite Hc.
  exists w1, tt. split; [done|]. by destruct u.
Qed.

(** ** Open intents *)
(** What an interrupted change of a held or a releasing session leaves open *)
Definition open_intent (s : BarrierSessionState) (i : SessionIntent) : Prop :=
  s_attempt i = attempt_id (identity s) /\ s_digest i = identity_digest (identity s) /\ s_status i ∈ ["held"; "releasing"] /\
  s_expected i = s_proposed i - 1 /\
  (s_proposed i = revision s /\ s_status i = status s \/ s_proposed i = revision s - 1 /\ status s = "ambiguous").
Definition roomy (s : BarrierSessionState) : Prop := 1 <= revision s < 2 ^ 63 - 1.
Record recoverable (d : Db) : Prop := Recoverable {
  recoverable_effects : List.filter prepared_effect (effects d) = [];
  recoverable_session : exists o, current_of E d = Ok o /\
    (List.filter prepared_intent (intents d) = [] \/
     exists s i, o = Some s /\ roomy s /\ List.filter prepared_intent (intents d) = [i] /\ open_intent s i);
}.
Lemma open_matches s i : open_intent s i -> _prepared_intent_matches s i = true /\ _is_interrupted_reconciliation s i = false.
Proof.
  intros (Ha & Hd & Hs & He & Hm). unfold _prepared_intent_matches, _is_interrupted_reconciliation.
  rewrite Ha, Hd, !String.eqb_refl. cbn [andb].
  assert (PyStr.mem (s_status i) STATUSES = true) as -> by (apply PyStr.mem_spec; apply elem_of_cons in Hs as [-> | Hs]; [listed|]; apply list_elem_of_singleton in Hs as ->; listed).
  assert (PyStr.mem (s_status i) ["held"; "releasing"] = true) as -> by by apply PyStr.mem_spec.
  destruct Hm as [[Hp Hst] | [Hp Hst]].
  - rewrite <- Hp, Hst, String.eqb_refl, Z.eqb_refl. replace (s_expected i =? s_proposed i - 1) with true by (symmetry; apply Z.eqb_eq; lia).
    split; [done|]. replace (s_expected i =? s_proposed i + 1) with false by (symmetry; apply Z.eqb_neq; lia). by rewrite andb_false_r.
  - rewrite Hst, Hp, Z.eqb_refl. cbn. replace (s_expected i =? revision s - 1 - 1) with true by (symmetry; apply Z.eqb_eq; lia).
    split; [|done]. by rewrite orb_true_r.
Qed.
Lemma int64_room z : 1 <= z < 2 ^ 63 -> int64 z = Ok tt.
Proof.
  intros H. unfold int64, Sqlite.int64. rewrite (proj2 (Z.leb_le _ _)) by lia. rewrite (proj2 (Z.ltb_lt _ _)) by lia. done.
Qed.
Lemma fence_calm s statuses msg d : current_of E d = Ok (Some s) -> status s ∈ statuses -> roomy s ->
  exists d', fence_session s statuses msg d = Ok d' /\ current_of E d' = Ok (Some (ambiguous_state s)) /\
    intents d' = intents d /\ effects d' = effects d.
Proof.
  intros (row & Hr & Hd)%current_of_inv Hs Hroom. destruct (decode_row _ _ _ Hd) as (Er & Es & _).
  unfold fence_session, at_revision. rewrite Hr, Er, Es. unfold stop_if.
  assert (eq (VInt (revision s)) (VInt (revision s)) = true) as -> by (cbn; apply Z.eqb_refl).
  assert (existsb (fun v => eq (VStr (status s)) (VStr v)) statuses = true) as ->.
  { apply existsb_exists. exists (status s). rewrite <- list_elem_of_In. split; [done|]. cbn. apply String.eqb_refl. }
  cbn [negb andb raise_if rbind]. destruct (ambiguous_row row (revision s + 1)) as [row'|e] eqn:Ea.
  - cbn [rbind]. eexists. split; [done|]. split_and!; try done. unfold current_of, _row_state. cbn.
    by rewrite (decode_ambiguous _ _ _ _ Hd Ea).
  - unfold ambiguous_row in Ea. rewrite int64_room in Ea by (unfold roomy in Hroom; lia). done.
Qed.
Lemma current_proper d s : current_of E d = Ok (Some s) -> proper s.
Proof. intros (row & _ & Hd)%current_of_inv. destruct (decode_shape _ _ _ Hd) as (f & r & t & _ & _ & _ & _ & _ & _ & _ & Hs). done. Qed.
Lemma filter_filter_eq {A} (f g : A -> bool) l : List.filter (fun x => g x && f x) l = List.filter g (List.filter f l).
Proof. induction l as [|x l IH]; [done|]. cbn. destruct (f x); cbn; destruct (g x); cbn; by rewrite IH. Qed.
Lemma mark_one i outcome cause d : List.filter prepared_intent (intents d) = [i] ->
  PyStr.mem outcome ["committed"; "ambiguous"; "reconciled"] = true -> outcome <> "prepared" ->
  exists l, mark_all outcome cause [i] d = Ok (set_intents d l) /\ List.filter prepared_intent l = [].
Proof.
  intros Hf Ho Hn. unfold mark_all, _mark_intent, stop_if. cbn [foldM]. rewrite Ho. cbn [negb raise_if rbind].
  rewrite (filter_filter_eq prepared_intent (fun j => String.eqb (s_intent j) (s_intent i))), Hf. cbn. rewrite String.eqb_refl. cbn.
  eexists. split; [done|]. assert (forall j, j ∈ intents d -> prepared_intent j = true -> j = i) as Hall.
  { intros j Hj Hp. assert (j ∈ [i]) as Hji by (rewrite <- Hf; apply list_elem_of_In, filter_In; by rewrite <- list_elem_of_In).
    by apply list_elem_of_singleton in Hji. }
  clear Hf. induction (intents d) as [|j l IH]; [done|]. cbn [map List.filter].
  rewrite IH by (intros x Hx; apply Hall; by right).
  destruct (prepared_intent j) eqn:Ej; rewrite ?andb_false_r; rewrite ?Ej; [|done].
  rewrite (Hall j ltac:(by left) Ej), String.eqb_refl. cbn. unfold prepared_intent, set_outcome. cbn.
  by rewrite (proj2 (String.eqb_neq _ _) Hn).
Qed.

(** ** Recovery *)
Record recovered (o : option BarrierSessionState) (opened : bool) (d : Db) : Prop := Recovered {
  recovered_session : current_of E d = Ok o;
  recovered_intents : List.filter prepared_intent (intents d) = [];
  recovered_effects : List.filter prepared_effect (effects d) = [];
  recovered_fenced : opened = true -> exists s, o = Some s /\ status s = "ambiguous";
}.
Lemma sort_one (i : SessionIntent) before : sort_by before [i] = [i].
Proof. done. Qed.
Lemma recover_calm d : recoverable d -> succeeds (recover_unknown E) d (fun o d' => recovered o (existsb prepared_intent (intents d)) d').
Proof.
  intros [He (o & Ho & Hi)]. apply succeeds_bind, succeeds_require; [by rewrite (calm_owned E HE)|].
  apply succeeds_bind, (succeeds_lift _ tt); [intros w _; apply (calm_acquire E HE)|].
  apply succeeds_bind, (succeeds_lift _ tt); [intros w _; apply (calm_wal E HE)|].
  apply succeeds_connection. unfold _recover_unknown_connection_locked. apply succeeds_bind, (succeeds_lift _ []).
  { intros w ->. unfold _prepared_effect_intents. by rewrite He. }
  apply succeeds_bind. intros w Hw. exists w, w. split; [done|]. rewrite Hw. clear w Hw.
  unfold _prepared_intents. destruct Hi as [Hi | (s & i & -> & Hroom & Hi & Hopen)]; rewrite Hi; cbn [sort_by foldr insert_by].
  - apply succeeds_snapshot with (o := o); [done|]. constructor; [done..|].
    intros Hx. exfalso. apply existsb_exists in Hx as (j & Hj & Hp).
    assert (j ∈ List.filter prepared_intent (intents d)) as Hin by (apply list_elem_of_In, filter_In; done).
    rewrite Hi in Hin. by apply elem_of_nil in Hin.
  - apply succeeds_bind, succeeds_bind, (succeeds_snapshot (Some s)); [done|].
    destruct (open_matches _ _ Hopen) as [Hm Hr].
    apply succeeds_bind, succeeds_ret. apply succeeds_bind, succeeds_require; [by cbn; rewrite Hm|].
    cbn [forallb]. rewrite Hr. cbn [andb].
    assert (forall s' d1, current_of E d1 = Ok (Some s') -> status s' = "ambiguous" -> intents d1 = intents d -> effects d1 = effects d ->
      succeeds (do* d := transaction E (mark_all "ambiguous" (Some "process-death") [i]) in do recovery_commit E d ;; sret s') d1
        (fun s0 d' => succeeds (sret (Some s0)) d' (fun o d' => recovered o (existsb prepared_intent (intents d)) d'))) as Hend.
    { intros s' d1 Hc Ha Hi1 He1. destruct (mark_one i "ambiguous" (Some "process-death") d1) as (l & Hl & Hf); [by rewrite Hi1|done|done|].
      apply succeeds_bind, (succeeds_transaction _ _ _ _ Hl). apply succeeds_bind, succeeds_commit_or, succeeds_ret, succeeds_ret.
      constructor; cbn; [done | done | by rewrite He1 | eauto]. }
    apply succeeds_bind. destruct (String.eqb_spec (status s) "ambiguous") as [Ha|Hna]; [by apply succeeds_ret, Hend|].
    destruct Hopen as (_ & _ & Hs & _ & [[_ Hst] | [_ Hst]]); [|done]. rewrite Hst in Hs.
    destruct (fence_calm s ["held"; "releasing"] "unknown session outcome lost its row fence" d Ho Hs Hroom) as (d1 & Hd1 & Hc & Hi1 & He1).
    apply succeeds_bind, (succeeds_transaction _ _ _ _ Hd1). apply succeeds_bind, (succeeds_lift _ (ambiguous_state s)).
    { intros w _. by apply proper_ambiguous, (current_proper d). }
    apply succeeds_bind, succeeds_commit_or, succeeds_ret. by apply Hend.
Qed.
End calm.

(** ** Interrupted changes *)
Section change.
Context (E : Env).
Definition valid_identity (i : BarrierSessionIdentity) : Prop :=
  UpgradeIdentity.from_record (UpgradeIdentity.as_record i) = Ok i /\ exists z, UpgradeIdentity.schema_version i = VInt z.
(** A session a change may introduce or move to *)
Record fit (n : Z) (s : BarrierSessionState) : Prop := Fit {
  fit_proper : proper s;
  fit_status : status s ∈ ["held"; "releasing"];
  fit_room : revision s < 2 ^ 63 - 2;
  fit_project : project_id (identity s) = project E;
  fit_schema : exists z, UpgradeIdentity.schema_version (identity s) = VInt z;
  fit_identity : n = 0 -> valid_identity (identity s);
}.
(** Nothing is open in the store, and its session can be read. *)
Record settled (d : Db) : Prop := Settled {
  settled_intents : List.filter prepared_intent (intents d) = [];
  settled_effects : List.filter prepared_effect (effects d) = [];
  settled_session : exists o, current_of E d = Ok o;
  settled_schema : forall row, session d = Some row -> exists z, nth 0 row VNull = VInt z;   (** an integer column *)
}.
Notation Q := (fun _ d' => recoverable E d').
Lemma settled_recoverable d : settled d -> recoverable E d.
Proof. intros [H1 H2 [o Ho] _]. constructor; [done|]. exists o. split; [done | by left]. Qed.
Lemma state_row_same s row z : UpgradeIdentity.schema_version (identity s) = VInt z -> state_row s = Ok row ->
  row = map snd (UpgradeIdentity.as_record (identity s)) ++ state_values s.
Proof.
  intros Hz H. pose proof H as H'. apply state_row_inv in H' as [v ->]. unfold state_row in H.
  cbn [UpgradeIdentity.as_record map snd app] in H. rewrite Hz in H. cbn [mapr] in H.
  apply rbind_Ok_inv in H as (v' & Hv & (l & _ & H)%rbind_Ok_inv). apply column_int in Hv as ->. injection H as <- _.
  unfold row_of. cbn. by rewrite Hz.
Qed.
Lemma decode_inserted s d d' : valid_identity (identity s) -> proper s -> project_id (identity s) = project E ->
  insert_session s d = Ok d' -> current_of E d' = Ok (Some s).
Proof.
  intros [Hr [z Hz]] Hs Hp H. unfold insert_session in H.
  apply rbind_Ok_inv in H as (row & Hrow & (u & _ & [= <-])%rbind_Ok_inv). apply (state_row_same _ _ _ Hz) in Hrow as ->.
  unfold current_of, _row_state. cbn [session set_session]. by rewrite decode_values.
Qed.
Lemma decode_updated row cur s row' : _decode_observation (project E) row = Ok cur -> updated_row row s = Ok row' -> identity s = identity cur ->
  proper s -> _decode_observation (project E) row' = Ok s.
Proof.
  intros Hd (u0 & _ & [= <-])%rbind_Ok_inv Hi Hs.
  destruct (decode_shape _ _ _ Hd) as (f & r & t & Hl & _ & _ & _ & _ & Hr & Hp & _).
  apply decode_values; [done | by rewrite Hi | by rewrite Hi | done].
Qed.
Lemma proper_revision s : proper s -> 1 <= revision s.
Proof. unfold proper, new_state. intros (u1 & _ & (u2 & Hv%raise_if_Ok & _)%rbind_Ok_inv)%rbind_Ok_inv. by apply Z.ltb_ge. Qed.
Lemma fit_open n s id : fit n s -> n = revision s - 1 -> open_intent s (new_intent id n s).
Proof. intros [Hp Hst _ _ _ _] ->. unfold open_intent. cbn. split_and!; try done. by left. Qed.
Lemma fit_roomy n s : fit n s -> roomy s.
Proof. intros [Hp _ Hr _ _ _]. apply proper_revision in Hp. unfold roomy. lia. Qed.
Lemma same_identity_eq i j y z : same_identity i j = true -> UpgradeIdentity.schema_version i = VInt y ->
  UpgradeIdentity.schema_version j = VInt z -> i = j.
Proof.
  unfold same_identity. rewrite !andb_true_iff, !String.eqb_eq, Z.eqb_eq. destruct i, j; cbn. intros H -> ->.
  destruct H as [[[[[[[[H%Z.eqb_eq ->] ->] ->] ->] ->] ->] ->] ->]. cbn in H. by subst y.
Qed.
Lemma decode_schema p row s z : _decode_observation p row = Ok s -> nth 0 row VNull = VInt z ->
  UpgradeIdentity.schema_version (identity s) = VInt z.
Proof.
  intros Hd Hz. destruct (decode_shape _ _ _ Hd) as (f & r & t & Hl & _ & _ & _ & _ & Hr & _).
  destruct row as [|v row]; [done|]. cbn in Hz. subst v. pose proof (UpgradeIdentity.as_record_get _ _ Hr "schema_version" ltac:(listed)) as Ha.
  exact Ha.
Qed.
Lemma current_schema d s : settled d -> current_of E d = Ok (Some s) -> exists z, UpgradeIdentity.schema_version (identity s) = VInt z.
Proof.
  intros Hd (row & Hr & Hs)%current_of_inv. destruct (settled_schema _ Hd row Hr) as [z Hz]. exists z. by eapply decode_schema.
Qed.
(** What a change makes durable *)
Record published (n : Z) (s : BarrierSessionState) (id : string) (d d' : Db) : Prop := Published {
  published_session : current_of E d' = Ok (Some s);
  published_intents : intents d' = intents d ++ [new_intent id n s];
  published_effects : effects d' = effects d;
  published_revision : n = revision s - 1;
  published_from : session d = None -> n = 0;
}.
Lemma cas_published n s allow id d d' : settled d -> fit n s -> cas_body E n s allow id d = Ok d' -> published n s id d d'.
Proof.
  intros Hset Hf H. destruct (cas_body_legal _ _ _ _ _ _ _ H) as [_ Hn]. unfold cas_body in H. destruct (session d) as [row|] eqn:Es.
  - apply rbind_Ok_inv in H as (cur & Hd & H). destruct (replaces_released n s cur) eqn:Er.
    + unfold replaces_released in Er. rewrite !andb_true_iff in Er. destruct Er as (((E0%Z.eqb_eq & _) & _) & _).
      apply rbind_Ok_inv in H as (u & _ & (d1 & (l & ->)%record_history_inv & (u2 & Hr & (d2 & (_ & ->)%insert_intent_inv & Hs)%rbind_Ok_inv)%rbind_Ok_inv)%rbind_Ok_inv).
      apply raise_if_Ok, negb_false_iff, Z.eqb_eq in Hr. pose proof (decode_inserted _ _ _ (fit_identity _ _ Hf E0) (fit_proper _ _ Hf) (fit_project _ _ Hf) Hs) as Hc.
      apply control_insert_session_inv in Hs as (_ & v & ->). constructor; cbn; try done. lia.
    + apply rbind_Ok_inv in H as (u1 & _ & (u2 & H2 & (u3 & _ & (u4 & H4 & (d1 & (_ & ->)%insert_intent_inv & (u5 & _ & (row' & Hu & H)%rbind_Ok_inv)%rbind_Ok_inv)%rbind_Ok_inv)%rbind_Ok_inv)%rbind_Ok_inv)%rbind_Ok_inv).
      injection H as <-. apply raise_if_Ok, negb_false_iff in H2, H4. apply Z.eqb_eq in H4.
      destruct (fit_schema _ _ Hf) as [y Hy]. destruct (settled_schema _ Hset row Es) as [z Hz]. apply (same_identity_eq _ _ y z) in H2; [|done|by eapply decode_schema].
      constructor; cbn; try done; [|lia|congruence]. unfold current_of, _row_state. cbn. by rewrite (decode_updated _ _ _ _ Hd Hu H2 (fit_proper _ _ Hf)).
  - apply rbind_Ok_inv in H as (u1 & H1 & (u2 & H2 & (u3 & H3 & (d1 & (_ & ->)%insert_intent_inv & Hs)%rbind_Ok_inv)%rbind_Ok_inv)%rbind_Ok_inv).
    apply raise_if_Ok, negb_false_iff in H1, H3. apply Z.eqb_eq in H1, H3. pose proof (decode_inserted _ _ _ (fit_identity _ _ Hf H1) (fit_proper _ _ Hf) (fit_project _ _ Hf) Hs) as Hc.
    apply control_insert_session_inv in Hs as (_ & v & ->). constructor; cbn; try done. lia.
Qed.
(** Fences keep what they find recoverable. *)
Record fenceable (n : Z) (s : BarrierSessionState) (d : Db) : Prop := Fenceable {
  fenceable_effects : List.filter prepared_effect (effects d) = [];
  fenceable_session : exists o, current_of E d = Ok o;
  fenceable_start : session d = None -> n = 0;
  fenceable_intents : List.filter prepared_intent (intents d) = [] \/
    exists id, List.filter prepared_intent (intents d) = [new_intent id n s] /\ current_of E d = Ok (Some s) /\ n = revision s - 1;
}.
Lemma proper_fields i st n f r t s : new_state i st n f r t = Ok s -> proper s.
Proof. intros H. pose proof (new_state_inv _ _ _ _ _ _ _ H) as ->. exact H. Qed.
Lemma cas_fence_recoverable n s : fit n s -> obeys Q (fenceable n s) (_mark_ambiguous_after_commit_failure E s n).
Proof.
  intros Hf. apply obeys_recasting, obeys_transaction. intros d d' [He [o Ho] Hn Hi] H. apply obeys_commit. intros d0 _.
  destruct (session d) as [row|] eqn:Es.
  - apply rbind_Ok_inv in H as (cur & Hd & (row' & Hr & [= <-])%rbind_Ok_inv).
    assert (current_of E (set_session d (Some row')) = Ok (Some (ambiguous_state cur))) as Hc.
    { unfold current_of, _row_state. cbn. by rewrite (decode_ambiguous _ _ _ _ Hd Hr). }
    assert (current_of E d = Ok (Some cur)) as Hcur by (unfold current_of, _row_state; rewrite Es; unfold _row_state in Hd; by rewrite Hd).
    constructor; [done|]. exists (Some (ambiguous_state cur)). split; [done|]. cbn [intents set_session].
    destruct Hi as [Hi | (id & Hi & Hs & Hv)]; [by left|]. right. rewrite Hcur in Hs. injection Hs as ->.
    exists (ambiguous_state s), (new_intent id n s). split_and!; try done.
    + destruct Hf as [Hp _ Hr' _ _ _]. apply proper_revision in Hp. unfold roomy. cbn. lia.
    + destruct Hf as [_ Hst _ _ _ _]. unfold open_intent. cbn. split_and!; try done. right. split; [lia|done].
  - apply rbind_Ok_inv in H as (sa & Ha & H). constructor.
    + apply control_insert_session_inv in H as (_ & v & ->). done.
    + exists (Some sa). pose proof (new_state_inv _ _ _ _ _ _ _ Ha) as Hsa. split.
      * eapply decode_inserted; [| by eapply proper_fields | | exact H]; subst sa; cbn; [by apply (fit_identity n s), Hn | apply (fit_project _ _ Hf)].
      * apply control_insert_session_inv in H as (_ & v & ->). cbn. destruct Hi as [Hi | (id & _ & Hc & _)]; [by left|].
        unfold current_of in Hc. by rewrite Es in Hc.
Qed.
Lemma uncertain_intents_none l : List.filter prepared_intent (map uncertain_intent l) = [].
Proof.
  induction l as [|i l IH]; [done|]. cbn. rewrite IH. unfold uncertain_intent. destruct (prepared_intent i) eqn:Ei; [done|]. by rewrite Ei.
Qed.
Lemma uncertain_effects_none l : List.filter prepared_effect (map uncertain_effect l) = [].
Proof.
  induction l as [|i l IH]; [done|]. cbn. rewrite IH. unfold uncertain_effect. destruct (prepared_effect i) eqn:Ei; [done|]. by rewrite Ei.
Qed.
Lemma recovery_fence_recoverable : obeys Q (fun _ => True) (_mark_recovery_ambiguous_after_commit_failure E).
Proof.
  apply obeys_recasting, obeys_transaction. intros d d' _ H. apply obeys_commit. intros d0 _.
  destruct (session d) as [row|] eqn:Es; [|done].
  apply rbind_Ok_inv in H as (cur & Hd & (row' & Hr & (l & _ & [= <-])%rbind_Ok_inv)%rbind_Ok_inv).
  constructor; [apply uncertain_effects_none|]. cbn [set_effects set_intents set_session intents]. rewrite uncertain_intents_none.
  unfold current_of, _row_state. cbn. destruct (PyStr.mem _ _).
  - exists (Some (ambiguous_state cur)). rewrite (decode_ambiguous _ _ _ _ Hd Hr). split; [done | by left].
  - injection Hr as <-. exists (Some cur). unfold _row_state in Hd. rewrite Hd. split; [done | by left].
Qed.
Lemma published_recoverable n s id d d' : fit n s -> settled d -> published n s id d d' -> recoverable E d'.
Proof.
  intros Hf [Hi He _ _] [Hc Hi' He' Hn _]. constructor; [by rewrite He'|]. exists (Some s). split; [done|]. right.
  exists s, (new_intent id n s). split_and!; [done | by eapply fit_roomy | | by apply fit_open].
  by rewrite Hi', List.filter_app, Hi.
Qed.
Lemma publish_recoverable n s id d d' : fit n s -> settled d -> published n s id d d' -> obeys Q (exactly d') (publish E id "committed").
Proof.
  intros Hf [Hi He _ _] [Hc Hi' He' _ _]. apply (obeys_write_end _ _ _ _ (_mark_intent id "committed" None) (fun d => d)).
  - apply recasting_answers, transaction_answers.
  - intros x d2 -> H. split; [|eapply obeys_impl; [apply recovery_fence_recoverable | done]].
    destruct (mark_one (new_intent id n s) "committed" None d') as (l & Hl & Hf'); [by rewrite Hi', List.filter_app, Hi|done|done|].
    unfold mark_all in Hl. cbn [foldM] in Hl. change (s_intent (new_intent id n s)) with id in Hl. rewrite H in Hl. injection Hl as ->.
    constructor; cbn; [by rewrite He'|]. exists (Some s). split; [done | by left].
Qed.
Lemma cas_locked_recoverable n s allow : fit n s -> obeys Q settled (_cas_locked E n s allow).
Proof.
  intros Hf. apply obeys_connection, obeys_look; [apply still_uuid4|]. intros w w1 id Hd _.
  apply obeys_transaction. intros d d' -> H. pose proof (cas_published _ _ _ _ _ _ Hd Hf H) as Hp. clear H.
  apply obeys_commit_then.
  - by eapply published_recoverable.
  - eapply obeys_impl; [by apply (cas_fence_recoverable n s)|]. destruct Hd as [Hi He Ho _], Hp as [Hc Hi' He' Hn Hs].
    intros x [-> | ->]; constructor; try done; [by left | by rewrite He' | by eauto | | right].
    + intros Hx. unfold current_of in Hc. by rewrite Hx in Hc.
    + exists id. split_and!; [by rewrite Hi', List.filter_app, Hi | done | done].
  - eapply obeys_post with (Q := fun _ => True); [by eapply publish_recoverable | done |]. intros u. by apply obeys_still.
Qed.
Lemma obeys_skip {A B} R P (m : st World A) (k : A -> st World B) : still m -> (forall a, obeys R P (k a)) -> obeys R P (sbind m k).
Proof. intros H Hk. apply obeys_look; [done|]. intros w w1 a Hw _. eapply obeys_impl; [apply Hk|]. by intros d ->. Qed.
Lemma cas_recoverable n s : fit n s -> obeys Q settled (cas E n s).
Proof.
  intros Hf. unfold cas. do 4 (apply obeys_skip; [done|]; intros _). apply obeys_operation_lock, obeys_skip; [|intros _; by apply cas_locked_recoverable].
  destruct (authority_reader E); [|done]. by apply still_bind.
Qed.
Lemma through_recoverable n m cur : (forall s, snd (m cur) = Ok s -> fit n s) -> obeys Q settled (through E n m cur).
Proof.
  intros H. unfold through. apply obeys_look; [done|]. intros w w1 s Hw [_ Hs]%slift_Ok_inv.
  eapply obeys_impl; [apply cas_recoverable; by apply H|]. by intros d ->.
Qed.
(** What a change needs: room for its revision, and a sealed identity when it
    introduces one *)
Definition admissible (d : Db) (o : op) : Prop :=
  match o with
  | Create i => valid_identity i /\ project_id i = project E
  | Cas n s => fit n s
  | BindChild _ _ | BeginReopen _ _ _ => forall s, current_of E d = Ok (Some s) -> revision s < 2 ^ 63 - 3
  | _ => False
  end.
Lemma current_project d s : current_of E d = Ok (Some s) -> project_id (identity s) = project E.
Proof. intros (row & _ & Hd)%current_of_inv. by destruct (decode_shape _ _ _ Hd) as (f & r & t & _ & _ & _ & _ & _ & _ & Hp & _). Qed.
(** A step of the contract to a held or a releasing session *)
Lemma step_fit d cur n st f r t s : settled d -> current_of E d = Ok (Some cur) -> revision cur < 2 ^ 63 - 3 -> n = revision cur ->
  st ∈ ["held"; "releasing"] -> new_state (identity cur) st (revision cur + 1) f r t = Ok s -> fit n s.
Proof.
  intros Hd Hc Hr Hn Hst Hs. destruct (current_schema _ _ Hd Hc) as [z Hz]. pose proof (new_state_inv _ _ _ _ _ _ _ Hs) as E'. pose proof (proper_revision _ (current_proper _ _ _ Hc)).
  pose proof (proper_fields _ _ _ _ _ _ _ Hs). subst s. constructor; cbn; try done; try lia; [by eapply current_project | by exists z].
Qed.
Lemma advance_Ok r s s' : snd (advance r s) = Ok s' -> r = Ok s'.
Proof. unfold advance. destruct r; cbn; congruence. Qed.
Lemma expect_Ok n statuses s s' u : slift (_expect n statuses) s = (s', Ok u) -> s' = s /\ n = revision s /\ status s ∈ statuses.
Proof.
  intros [-> (v & H1 & H2)%rbind_Ok_inv]%slift_Ok_inv. apply raise_if_Ok, negb_false_iff in H1, H2.
  split_and!; [done | by apply Z.eqb_eq | by apply PyStr.mem_spec].
Qed.
Lemma snd_Ok {A} (m : st BarrierSessionState A) s a : snd (m s) = Ok a -> exists s', m s = (s', Ok a).
Proof. destruct (m s) as [s' r]. cbn. intros ->. eauto. Qed.
Lemma bind_child_result n c cur s : snd (BarrierSession.bind_child n c cur) = Ok s ->
  n = revision cur /\ exists f r t, new_state (identity cur) "held" (revision cur + 1) f r t = Ok s.
Proof.
  intros [s' H]%snd_Ok. unfold BarrierSession.bind_child in H. apply sbind_Ok_inv in H as (u & s1 & (-> & Hn & Hst)%expect_Ok & H).
  apply list_elem_of_singleton in Hst. apply sbind_Ok_inv in H as (s2 & s3 & [= <- <-] & H).
  apply sbind_Ok_inv in H as (u2 & s4 & [-> _]%slift_Ok_inv & H). split; [done|]. rewrite <- Hst.
  destruct (String.eqb _ "new").
  - apply sbind_Ok_inv in H as (u3 & s5 & [-> _]%slift_Ok_inv & H). apply (f_equal snd) in H. apply advance_Ok in H. eauto.
  - apply sbind_Ok_inv in H as (u3 & s5 & [-> _]%slift_Ok_inv & H). apply sbind_Ok_inv in H as (u4 & s6 & [-> _]%slift_Ok_inv & H).
    apply (f_equal snd) in H. apply advance_Ok in H. eauto.
Qed.
Lemma begin_reopen_result n t e cur s : snd (BarrierSession.begin_reopen n t e cur) = Ok s ->
  n = revision cur /\ exists f r t', new_state (identity cur) "releasing" (revision cur + 1) f r t' = Ok s.
Proof.
  intros [s' H]%snd_Ok. unfold BarrierSession.begin_reopen in H. apply sbind_Ok_inv in H as (u & s1 & (-> & Hn & Hst)%expect_Ok & H).
  apply sbind_Ok_inv in H as (u2 & s2 & [-> _]%slift_Ok_inv & H). apply sbind_Ok_inv in H as (s3 & s4 & [= <- <-] & H).
  apply sbind_Ok_inv in H as (u3 & s5 & [-> _]%slift_Ok_inv & H). split; [done|]. unfold move in H.
  apply sbind_Ok_inv in H as (s6 & s7 & [= <- <-] & H). apply (f_equal snd) in H. apply advance_Ok in H. eauto.
Qed.
Lemma snapshot_answer w w' o : snapshot E w = (w', Ok o) -> current_of E (db w) = Ok o /\ db w' = db w.
Proof.
  intros H. split; [|assert (still (snapshot E)) as Hs by (apply still_bind; [done|]; intros _; apply still_bind; [done|]; intros _; apply still_snapshot);
    specialize (Hs w); rewrite H in Hs; apply Hs].
  unfold snapshot in H. apply sbind_Ok_inv in H as (u & w1 & [-> _]%slift_Ok_inv & H).
  apply sbind_Ok_inv in H as (u2 & w2 & [-> _]%slift_Ok_inv & H). by apply snapshot_spec in H.
Qed.
Lemma still_snap : still (snapshot E).
Proof. apply still_bind; [done|]. intros _. apply still_bind; [done|]. intros _. apply still_snapshot. Qed.
Lemma run_recoverable d o : settled d -> admissible d o -> obeys Q (exactly d) (run E o).
Proof.
  intros Hd Ha. assert (forall n s, fit n s -> obeys Q (exactly d) (cas E n s)) as Hcas.
  { intros n s Hf. eapply obeys_impl; [by apply cas_recoverable|]. by intros x ->. }
  assert (forall msg k, (forall cur, current_of E d = Ok (Some cur) -> obeys Q settled (k cur)) ->
    obeys Q (exactly d) (do* s := snapshot E in do* cur := require_session s msg in k cur : st World BarrierSessionState)) as Hsnap.
  { intros msg k Hk. apply obeys_look; [apply still_snap|]. intros w w1 s Hw0 [Hs _]%snapshot_answer. rewrite Hw0 in *.
    destruct s as [cur|]; [|by apply obeys_still]. apply obeys_look; [done|]. intros w2 w3 x Hw [= <- <-].
    eapply obeys_impl; [by apply Hk|]. intros y ->. by rewrite Hw. }
  destruct o; try done; apply obeys_bind; try (intros ?; by apply obeys_still).
  - destruct Ha as [Hv Hp]. unfold create. apply obeys_look; [done|]. intros w w1 s -> [_ Hs]%slift_Ok_inv. apply Hcas.
    pose proof (new_state_inv _ _ _ _ _ _ _ Hs) as E'. pose proof (proper_fields _ _ _ _ _ _ _ Hs). subst s. constructor; cbn; try done; [by left | by destruct Hv].
  - by apply Hcas.
  - apply Hsnap. intros cur Hc. apply obeys_skip; [done|]. intros _. apply through_recoverable. intros s (Hn & f & r & t & Hs)%bind_child_result.
    eapply step_fit; eauto. by left.
  - apply Hsnap. intros cur Hc. apply through_recoverable. intros s (Hn & f & r & t & Hs)%begin_reopen_result.
    eapply step_fit; eauto. right. by left.
Qed.
Lemma leaves_recoverable d o d' : settled d -> admissible d o -> leaves E o d d' -> recoverable E d'.
Proof.
  intros Hd Ha [-> | H]; [by apply settled_recoverable|]. destruct (run_recoverable d o Hd Ha (start d) eq_refl) as (l & Hp & Ht).
  cbn [start past app db] in Hp, Ht. rewrite Hp in H. clear Hp Hd Ha. revert H. induction Ht as [|x y l z Hy _ IH]; [by intros ?%elem_of_nil|].
  intros [-> | H]%elem_of_cons; [done | by apply IH].
Qed.
End change.
Lemma recoverable_project E E' d : project E' = project E -> recoverable E d -> recoverable E' d.
Proof.
  intros Hp [He (o & Ho & Hi)]. constructor; [done|]. exists o. split; [|done]. unfold current_of, _row_state in *. by rewrite Hp.
Qed.

(** C19: A change made from a settled store that is interrupted can be recovered.
    The store is settled when no session intent and no authority effect is open
    in it and its session, if it has one, can be read; a change made from a store
    that is not may leave it beyond recovery.  From a settled store, wherever a
    creation for the project, a compare-and-swap to a held or a releasing session
    of the project, the binding of a child or the start of a reopening stops,
    after any commit it made or lost and any fence, with the revision below its
    bound, recovery in a working environment answers a session, no outcome is left
    open, and the session is ambiguous whenever an outcome was open. *)
Theorem interrupted_change_recovers E E' o d d' :
  settled E d -> admissible E d o -> leaves E o d d' -> calm E' -> project E' = project E ->
  exists w r, recover_unknown E' (start d') = (w, Ok r) /\ recovered E' r (existsb prepared_intent (intents d')) (db w).
Proof.
  intros Hd Ha Hl Hc Hp. pose proof (recoverable_project _ _ _ Hp (leaves_recoverable E d o d' Hd Ha Hl)) as Hr.
  destruct (recover_calm E' Hc d' Hr (start d') eq_refl) as (w & r & H1 & H2). eauto.
Qed.

(** ** What recovery cannot settle *)
(** The computation never returns and makes nothing durable. *)
Definition blocked {A} (m : st World A) (d : Db) : Prop := forall w, db w = d ->
  past (fst (m w)) = past w /\ forall w' a, m w <> (w', Ok a).
Section blocked.
Context (E : Env).
Lemma blocked_raise {A} e d : blocked (@sraise World A e) d.
Proof. by intros w _. Qed.
Lemma blocked_first {A B} (m : st World A) (k : A -> st World B) d : blocked m d -> blocked (sbind m k) d.
Proof. intros H w Hw. destruct (H w Hw) as [Hp Hn]. unfold sbind. destruct (m w) as [w1 [a|e]]; [|done]. exfalso; by apply (Hn w1 a). Qed.
Lemma blocked_then {A B} (m : st World A) (k : A -> st World B) d : still m ->
  (forall w w' a, db w = d -> m w = (w', Ok a) -> blocked (k a) d) -> blocked (sbind m k) d.
Proof.
  intros Hs H w Hw. specialize (Hs w). unfold sbind. destruct (m w) as [w1 [a|e]] eqn:Em; cbn [fst] in *; [|by split; [apply Hs|]].
  destruct Hs as [Hp Hd]. rewrite <- Hp. apply (H w w1 a Hw Em). by rewrite Hd.
Qed.
Lemma blocked_connection {A} (m : st World A) d : blocked m d -> blocked (connection E m) d.
Proof.
  intros H w Hw. unfold connection. destruct (connect E (connections w)) as [u|x]; [|done]. set (w0 := MkWorld _ _ _ _ _ _).
  destruct (H w0 Hw) as [Hp Hn]. destruct (m w0) as [w1 [a|e]]; [exfalso; by apply (Hn w1 a)|]. by destruct (disconnect E _).
Qed.
Lemma blocked_transaction {A B} (body : Db -> res A) (k : A -> st World B) d :
  (forall a, body d = Ok a -> blocked (k a) d) -> blocked (do* a := transaction E body in k a) d.
Proof.
  intros H. apply blocked_then; [done|]. intros w w' a Hw Ha. apply transaction_answers in Ha. apply H. by rewrite Hw in Ha.
Qed.
(** Recovery of open session intents fails when recovery of the list fails. *)
Lemma recover_blocked d : List.filter prepared_effect (effects d) = [] -> existsb prepared_intent (intents d) = true ->
  (forall l, (forall i, i ∈ l <-> i ∈ intents d /\ prepared_intent i = true) -> blocked (_recover_prepared_locked E l) d) ->
  blocked (recover_unknown E) d /\ blocked (recover_unknown_locked E) d.
Proof.
  intros He Hi H. assert (blocked (connection E (_recover_unknown_connection_locked E)) d) as Hc.
  { apply blocked_connection, blocked_then; [done|]. intros w w' l Hw [_ Hl]%slift_Ok_inv. rewrite Hw in Hl.
    unfold _prepared_effect_intents in Hl. rewrite He in Hl. injection Hl as <-.
    apply blocked_then; [done|]. intros w1 w2 x Hw1 [= _ <-]. rewrite Hw1.
    assert (forall i, i ∈ _prepared_intents d <-> i ∈ intents d /\ prepared_intent i = true) as Hmem.
    { intros i. unfold _prepared_intents. rewrite sort_by_elem, list_elem_of_In, filter_In, <- list_elem_of_In. done. }
    specialize (H _ Hmem). destruct (_prepared_intents d) as [|j l]; [|by apply blocked_first].
    apply existsb_exists in Hi as (i & Hi & Hp). rewrite <- list_elem_of_In in Hi. pose proof (proj2 (Hmem i) (conj Hi Hp)) as Hin. by apply elem_of_nil in Hin. }
  split.
  - do 3 (apply blocked_then; [done|]; intros _ _ _ _ _). exact Hc.
  - do 3 (apply blocked_then; [done|]; intros _ _ _ _ _). by apply blocked_first.
Qed.
Lemma recover_prepared_blocked d s l : current_of E d = Ok (Some s) -> status s <> "ambiguous" ->
  (forall d', fence_session s ["held"; "releasing"] "unknown session outcome lost its row fence" d <> Ok d') \/
    forallb (_prepared_intent_matches s) l = false ->
  forallb (_is_interrupted_reconciliation s) l = false -> blocked (_recover_prepared_locked E l) d.
Proof.
  intros Hc Hs Hf Hr. apply blocked_then; [apply still_snapshot|]. intros w w1 o Hw Ho%snapshot_spec. rewrite Hw, Hc in Ho. injection Ho as <-.
  apply blocked_then; [done|]. intros w2 w3 x _ [= _ <-]. apply blocked_then; [done|]. intros w4 w5 u _ [_ Hm]%slift_Ok_inv.
  apply raise_if_Ok, negb_false_iff in Hm. rewrite Hr. apply blocked_first. rewrite (proj2 (String.eqb_neq _ _) Hs).
  apply blocked_transaction. intros d' Hd'. destruct Hf as [Hf | Hf]; [by destruct (Hf d') | congruence].
Qed.
End blocked.
(** C40: A release whose outcome was not published cannot be recovered: once the
    session is released with an open session intent and no open effect, the state
    a process leaves between the two commits of the release, recovery never
    returns and never changes the store, in any environment. *)
Theorem interrupted_release_blocked E d s :
  current_of E d = Ok (Some s) -> status s = "released" -> existsb prepared_intent (intents d) = true ->
  existsb prepared_effect (effects d) = false -> blocked (recover_unknown E) d /\ blocked (recover_unknown_locked E) d.
Proof.
  intros Hc Hs Hi He. apply recover_blocked; [ | done |].
  - induction (effects d) as [|r l IH]; [done|]. cbn in He |- *. apply orb_false_iff in He as [-> He]. by apply IH.
  - intros l Hl. apply (recover_prepared_blocked E d s); [done | by rewrite Hs | left |].
    + intros d' H. unfold fence_session in H. destruct (session d) as [row|] eqn:Es; [|done].
      apply current_of_inv in Hc as (row' & Hr & Hd). rewrite Es in Hr. injection Hr as <-. destruct (decode_row _ _ _ Hd) as (_ & Hst & _).
      rewrite Hst, Hs in H. cbn in H. by rewrite andb_false_r in H.
    + destruct l as [|i l]; [|by cbn; unfold _is_interrupted_reconciliation; rewrite Hs].
      apply existsb_exists in Hi as (i & Hin & Hp). rewrite <- list_elem_of_In in Hin. pose proof (proj2 (Hl i) (conj Hin Hp)) as Hx. by apply elem_of_nil in Hx.
Qed.

(** ** Interrupted reconciliations *)
Lemma reconciled_state E id n s cur d d1 : settled E d -> valid_identity (identity s) -> proper s -> project_id (identity s) = project E ->
  reconcile_body id n s cur d = Ok d1 -> current_of E d1 = Ok (Some s) /\ List.filter prepared_effect (effects d1) = [] /\
    List.filter prepared_intent (intents d1) = [new_intent id n s].
Proof.
  intros [Hi He _ _] Hv Hs Hp H. unfold reconcile_body in H.
  apply rbind_Ok_inv in H as (d2 & (_ & ->)%insert_intent_inv & (d3 & (l & ->)%record_history_inv & H)%rbind_Ok_inv).
  pose proof (decode_inserted E _ _ _ Hv Hs Hp H) as Hc. apply control_insert_session_inv in H as (_ & v & ->). cbn in *. split_and!; [done | done |].
  by rewrite List.filter_app, Hi.
Qed.
Lemma reconciliation_intent id n s : status s = "held" -> revision s = 1 -> 1 <= n ->
  _is_interrupted_reconciliation s (new_intent id n s) = (n =? 2) /\ _prepared_intent_matches s (new_intent id n s) = (n =? 2).
Proof.
  intros Hs Hr Hn. unfold _is_interrupted_reconciliation, _prepared_intent_matches. cbn [new_intent s_expected s_proposed s_status s_attempt s_digest].
  rewrite Hs, Hr, !String.eqb_refl. change (1 - 1) with 0. change (1 + 1) with 2. rewrite (proj2 (Z.eqb_neq n 0)) by lia. by destruct (n =? 2).
Qed.
(** A reconciliation interrupted before its outcome is published, in the
    state it left with the predecessor in its history, is recovered when the
    ambiguous session it replaced was at revision two; at any other revision
    recovery never returns and never changes the store. *)
Theorem interrupted_reconciliation_recovers_at_two E id n s cur d d1 :
  settled E d -> valid_identity (identity s) -> proper s -> project_id (identity s) = project E ->
  status s = "held" -> revision s = 1 -> 1 <= n -> reconcile_body id n s cur d = Ok d1 ->
  (n = 2 -> calm E -> _reconciliation_history_matches E s (new_intent id n s) d1 = true ->
     exists w, recover_unknown E (start d1) = (w, Ok (Some s)) /\ current_of E (db w) = Ok (Some s) /\
               List.filter prepared_intent (intents (db w)) = []) /\
  (n <> 2 -> blocked (recover_unknown E) d1 /\ blocked (recover_unknown_locked E) d1).
Proof.
  intros Hd Hv Hs Hp Hst Hr Hn H. destruct (reconciled_state _ _ _ _ _ _ _ Hd Hv Hs Hp H) as (Hc & He & Hi).
  destruct (reconciliation_intent id n s Hst Hr Hn) as [Hint Hmat]. split.
  - intros Hn2 HE Hhist. rewrite (proj2 (Z.eqb_eq _ _) Hn2) in Hint, Hmat.
    enough (succeeds (recover_unknown E) d1 (fun o d' => o = Some s /\ current_of E d' = Ok (Some s) /\ List.filter prepared_intent (intents d') = [])) as Hok.
    { destruct (Hok (start d1) eq_refl) as (w & o & Hw & -> & H1 & H2). eauto. }
    apply succeeds_bind, succeeds_require; [by rewrite (calm_owned E HE)|].
    apply succeeds_bind, (succeeds_lift _ tt); [intros w _; apply (calm_acquire E HE)|].
    apply succeeds_bind, (succeeds_lift _ tt); [intros w _; apply (calm_wal E HE)|].
    apply succeeds_connection; [done|]. unfold _recover_unknown_connection_locked. apply succeeds_bind, (succeeds_lift _ []).
    { intros w ->. unfold _prepared_effect_intents. by rewrite He. }
    apply succeeds_bind. intros w Hw. exists w, w. split; [done|]. rewrite Hw. clear w Hw. unfold _prepared_intents. rewrite Hi. cbn [sort_by foldr insert_by].
    apply succeeds_bind, succeeds_bind, (succeeds_snapshot E HE (Some s)); [done|]. apply succeeds_bind, succeeds_ret.
    apply succeeds_bind, succeeds_require; [by cbn; rewrite Hmat|]. cbn [forallb]. rewrite Hint. cbn [andb].
    apply succeeds_bind, (succeeds_lift _ tt); [intros w ->; cbn; by rewrite Hhist|].
    destruct (mark_one (new_intent id n s) "reconciled" None d1) as (l & Hl & Hf); [done|done|done|].
    apply succeeds_bind, (succeeds_transaction E HE _ _ _ _ Hl). apply succeeds_bind, succeeds_commit_or, succeeds_ret, succeeds_ret; done.
  - intros Hn2. rewrite (proj2 (Z.eqb_neq _ _) Hn2) in Hint, Hmat. apply recover_blocked; [done| |].
    + assert (new_intent id n s ∈ List.filter prepared_intent (intents d1)) as Hin by (rewrite Hi; by left).
      apply list_elem_of_In, filter_In in Hin. apply existsb_exists. eauto.
    + intros l Hl. assert (forall i, i ∈ l <-> i = new_intent id n s) as Hl'.
      { intros i. rewrite Hl, list_elem_of_In, <- (filter_In prepared_intent), Hi, <- list_elem_of_In. by rewrite list_elem_of_singleton. }
      assert (new_intent id n s ∈ l) as Hin by by apply Hl'.
      assert (forall f : SessionIntent -> bool, f (new_intent id n s) = false -> forallb f l = false) as Hall.
      { intros f Hf. apply not_true_iff_false. intros Ht. rewrite forallb_forall in Ht. rewrite list_elem_of_In in Hin. apply Ht in Hin. congruence. }
      apply (recover_prepared_blocked E d1 s); [done | by rewrite Hst | right; by apply Hall | by apply Hall].
Qed.
End ControlRecovery.
