(* ===== verification/EffectRuns.v ===== *)
(** * Authority effects over the control store

    [DurableBoundAuthorityMutation] executes an effect between the two halves of
    its journal; the control store is that journal.  A history interleaves the
    executions of any admissions with the operations of the store, and stops a
    process anywhere: an environment may refuse everything from some point on. *)
From S2P Require Import Prelude PyStr PyVal JsonParse UpgradeIdentity PhaseAdapters SqliteStore BarrierSession ControlStore ControlLaws.
From S2P Require Import ControlHistory ControlRecovery.

Module EffectRuns.
Import Py BarrierSession ControlStore ControlLaws ControlHistory ControlRecovery.
Import PhaseAdapters(CommitAdmissionBundle, MutationReceipt, EffectJournal, execute_durable, a_backend, a_target, a_operation_id,
  a_fencing_token, a_barrier_id, a_artifact_identity, a_manifest_identity, a_selector_identity, a_runtime_identity).

(** The world of an execution: the store, and the operations whose effect ran. *)
Definition lift_store {A} (m : st World A) : st (World * list string) A := fun '(w, log) =>
  let '(w', r) := m w in ((w', log), r).
(** The keyword arguments [_prepare] passes *)
Definition expected_of (b : CommitAdmissionBundle) : Expected :=
  MkExpected (Some (a_fencing_token b)) (Some (a_barrier_id b)) (Some (a_artifact_identity b)) (Some (a_manifest_identity b))
    (Some (a_selector_identity b)) (Some (a_runtime_identity b)).
(** [getattr(receipt, name, None)] *)
Definition receipt_attributes (r : option MutationReceipt) : dict :=
  match r with
  | None => []
  | Some r => PhaseAdapters.receipt_fields r ++
      [("artifact_identity", VStr (PhaseAdapters.r_artifact_identity r)); ("manifest_identity", VStr (PhaseAdapters.r_manifest_identity r));
       ("selector_identity", VStr (PhaseAdapters.r_selector_identity r)); ("runtime_identity", VStr (PhaseAdapters.r_runtime_identity r));
       ("mutates_authority", VBool (PhaseAdapters.r_mutates_authority r))]
  end.
Definition store_journal (E : Env) : EffectJournal (World * list string) AuthorityEffectIntent := {|
  PhaseAdapters.prepare_authority_effect z b := lift_store
    (do* i := prepare_authority_effect E false z (a_operation_id b) (a_backend b) (a_target b) (expected_of b) in sret (Some i));
  PhaseAdapters.finish_authority_effect i outcome receipt := lift_store
    (do finish_authority_effect E false i outcome (receipt_attributes receipt) ;; sret tt) |}.
(** An external effect: it runs, and answers *)
Definition external (b : CommitAdmissionBundle) (answer : res dict) : st (World * list string) dict := fun '(w, log) =>
  ((w, log ++ [a_operation_id b]), answer).
Definition execute (E : Env) (b : CommitAdmissionBundle) (z : Z) (answer : res dict) (d : Db) (log : list string) :
    (bool * (World * list string)) * res MutationReceipt :=
  @execute_durable _ _ (store_journal E) b z (external b answer) (false, (start d, log)).
Inductive executions (p : string) : Db -> list string -> Prop :=
| executions_empty : executions p empty_db []
| executions_store E o d d' log : project E = p -> executions p d log -> leaves E o d d' -> executions p d' log
| executions_effect E b z answer d log s r :
    project E = p -> executions p d log -> execute E b z answer d log = (s, r) -> executions p (db s.2.1) s.2.2.

(** ** What a preparation makes durable *)
Lemma connection_Ok E {A} (m : st World A) w w' a : connection E m w = (w', Ok a) -> exists w0, db w0 = db w /\ m w0 = (w', Ok a).
Proof.
  unfold connection. destruct (connect E _); [|done]. set (w0 := MkWorld _ _ _ _ _ _). intros H. exists w0. split; [done|].
  destruct (m w0) as [w1 r]. destruct (disconnect E _); congruence.
Qed.
Lemma commit_Ok E d w w' u : commit E d w = (w', Ok u) -> db w' = d.
Proof. intros H. pose proof (commit_spec E d w) as (l & _ & Hc). rewrite H in Hc. cbn in Hc. destruct Hc as [(_ & _ & e & [=]) | [_ ->]]. done. Qed.
Lemma still_Ok {A B} (m : st World A) (k : A -> st World B) w w' b : still m -> sbind m k w = (w', Ok b) ->
  exists w1 a, m w = (w1, Ok a) /\ db w1 = db w /\ k a w1 = (w', Ok b).
Proof.
  intros Hs (a & w1 & Ha & Hk)%sbind_Ok_inv. exists w1, a. split_and!; try done. specialize (Hs w). rewrite Ha in Hs. apply Hs.
Qed.
Lemma prepare_Ok E n op b t x w w' i : prepare_authority_effect E false n op b t x w = (w', Ok i) ->
  admitted E (db w) i op /\ db w' = set_effects (db w) (effects (db w) ++ [MkEffect i "prepared" None]).
Proof.
  unfold prepare_authority_effect, _authority_effect_scope, operation_lock. intros H.
  do 9 (apply still_Ok in H as (? & ? & _ & <- & H); [|done]).
  apply connection_Ok in H as (w0 & <- & H). apply still_Ok in H as (w1 & s & Hs%snapshot_spec & E1 & H); [|apply still_snapshot].
  apply still_Ok in H as (w2 & j & Hj & E2 & H); [|done]. apply slift_Ok_inv in Hj as [-> Hj].
  apply still_Ok in H as (w3 & d & Hd%transaction_answers & E3 & H); [|done].
  apply sbind_Ok_inv in H as (u & w4 & Hc%commit_Ok & H). apply sret_Ok_inv in H as [-> ->].
  apply insert_effect_inv in Hd as ->. rewrite E1 in *. split; [by eapply admit_effect_inv | done].
Qed.
(** ** What an execution makes durable *)
Lemma obeys_legal E {A} (m : st World A) w : obeys (legal (project E)) (fun _ => True) m -> rtc (legal (project E)) (db w) (db (fst (m w))).
Proof.
  intros H. destruct (H w I) as (l & _ & Ht). clear H. induction Ht as [|d x l d' Hx _ IH]; [done|]. by eapply rtc_l.
Qed.
Lemma prepared_obeys E z b : obeys (legal (project E)) (fun _ => True)
  (do* i := prepare_authority_effect E false z (a_operation_id b) (a_backend b) (a_target b) (expected_of b) in sret (Some i)).
Proof. apply obeys_bind; [apply prepare_obeys|]. intros i. by apply obeys_still. Qed.
Lemma finished_obeys E i outcome receipt : obeys (legal (project E)) (fun _ => True)
  (do finish_authority_effect E false i outcome receipt ;; sret tt).
Proof. apply obeys_bind; [apply finish_obeys|]. intros u. by apply obeys_still. Qed.
Lemma not_consumed {W I} (J : EffectJournal W I) b z effect w s r : execute_durable b z effect (false, w) = (s, r) ->
  s.1 = false -> s.2 = fst (PhaseAdapters.prepare_authority_effect z b w).
Proof.
  intros H Hc. pose proof H as H'. apply PhaseAdapters.execute_durable_inv in H' as [_ | (i & w2 & a & _ & Ht & _)]; [|congruence].
  unfold execute_durable, PhaseAdapters._prepare, sbind, PhaseAdapters.rethrow at 1 in H.
  destruct (PhaseAdapters.prepare_authority_effect z b w) as [w1 [[i|]|e]] eqn:Ep.
  2, 3: by injection H as <- <-.
  exfalso. cbn -[PhaseAdapters.publish_failure PhaseAdapters.execute_bound] in H.
  unfold PhaseAdapters.execute_bound, PhaseAdapters.consume, sbind, PhaseAdapters.error_if in H. rewrite String.eqb_refl in H.
  cbn -[PhaseAdapters.publish_failure] in H. unfold PhaseAdapters.lift_world in H.
  destruct (PhaseAdapters.rethrow effect _ w1) as [w2 [d|e]]; [destruct (PhaseAdapters.result_matches b d)|].
  all: cbn -[PhaseAdapters.publish_failure] in H.
  all: match type of H with context [let '(_, _) := ?m in _] => destruct m as [w3 [x|x]] end; injection H as <- <-; done.
Qed.
Lemma execute_on_store E b z answer d log s r : execute E b z answer d log = (s, r) ->
  rtc (legal (project E)) d (db s.2.1) /\
  (s.2.2 = log \/ s.2.2 = log ++ [a_operation_id b] /\ a_operation_id b ∉ operations d /\ a_operation_id b ∈ operations (db s.2.1)).
Proof.
  intros H. pose proof H as Hi. apply PhaseAdapters.execute_durable_inv in Hi as [(e & _ & _ & Hc & _) | (i & w2 & a & Hran & Hc & Hf)].
  - pose proof (not_consumed _ _ _ _ _ _ _ H Hc) as ->. cbn. pose proof (obeys_legal E _ (start d) (prepared_obeys E z b)) as Hl.
    destruct ((do* i := _ in sret (Some i)) (start d)) as [w1 a]. by split; [|left].
  - destruct Hran as [w1 Hp He]. cbn in Hp. pose proof (obeys_legal E _ (start d) (prepared_obeys E z b)) as Hl.
    destruct ((do* i := _ in sret (Some i)) (start d)) as [w0 a0] eqn:E0. injection Hp as <- ->. cbn [fst] in Hl.
    cbn in He. injection He as <- <-.
    assert (s.2 = fst (PhaseAdapters.finish_authority_effect (EffectJournal := store_journal E) i
      (PhaseAdapters.outcome_of b answer).1 (PhaseAdapters.outcome_of b answer).2 (w0, log ++ [a_operation_id b]))) as ->.
    { destruct (PhaseAdapters.finish_authority_effect _ _ _ _) as [w3 [x|x]]; by destruct Hf as [-> _]. }
    clear Hf. cbn.
    pose proof (obeys_legal E _ w0 (finished_obeys E i (PhaseAdapters.outcome_of b answer).1 (receipt_attributes (PhaseAdapters.outcome_of b answer).2))) as Hl2.
    destruct ((do finish_authority_effect E false _ _ _ ;; sret tt) w0) as [w4 r4]. cbn [fst snd] in *. split; [by etrans|]. right.
    apply sbind_Ok_inv in E0 as (j & w5 & Hj%prepare_Ok & Hr). apply sret_Ok_inv in Hr as [-> [= ->]].
    destruct Hj as [[Ho Hn _ _] Hd]. split_and!; [done|done|].
    eapply legals_operations; [exact Hl2|]. rewrite Hd. unfold operations. cbn. rewrite map_app. apply elem_of_app. right. cbn. rewrite Ho. by left.
Qed.
(** C8: An authority effect runs at most once for an operation: over any history
    of executions through the durable journal and of operations of the control
    store, with commits that fail, are lost or stay uncertain and processes that
    stop anywhere, no operation is in the log of the effects that ran twice, and
    each one that ran is recorded in the store. *)
Theorem effect_runs_at_most_once p d log : executions p d log -> NoDup log /\ Forall (fun o => o ∈ operations d) log.
Proof.
  induction 1 as [|E o d d' log <- _ [IH1 IH2] H | E b z answer d log s r <- _ [IH1 IH2] H]; [by split; [apply NoDup_nil_2|]| |].
  - split; [done|]. eapply list.Forall_impl; [exact IH2|]. intros o'. by eapply legals_operations, leaves_legal.
  - apply execute_on_store in H as [Hl Hx].
    assert (Forall (fun o => o ∈ operations (db s.2.1)) log) as IH2' by (eapply list.Forall_impl; [exact IH2|]; intros o'; by eapply legals_operations).
    destruct Hx as [-> | (-> & Hn & Hy)]; [done|]. split.
    + apply NoDup_app. split_and!; [done| |by apply NoDup_singleton]. intros o Ho Hx. apply list_elem_of_singleton in Hx as ->.
      by apply Hn, (proj1 (list.Forall_forall _ _) IH2).
    + apply list.Forall_app. split; [done|]. by constructor.
Qed.

(** ** The outcome of an effect *)
Definition publishes (i : AuthorityEffectIntent) (outcome : string) (r : EffectRow) : EffectRow :=
  if String.eqb (intent_id (e_intent r)) (intent_id i) && prepared_effect r then MkEffect (e_intent r) outcome None else r.
Record finished (E : Env) (i : AuthorityEffectIntent) (outcome : string) (receipt : dict) (d d' : Db) (s : BarrierSessionState) : Prop := Finished {
  finished_held : exists cur, current_of E d = Ok (Some cur) /\ _effect_intent_matches cur i = true /\
    s = (if String.eqb outcome "ambiguous" then ambiguous_state cur else cur);
  finished_receipt : outcome = "committed" -> artifact_identity i <> None ->
    Forall (fun kv => ne (get receipt kv.1) kv.2 = false) (expected_receipt i);
  finished_effects : effects d' = map (publishes i outcome) (effects d);
  finished_once : exists r, r ∈ effects d /\ intent_id (e_intent r) = intent_id i /\ e_outcome r = "prepared";
  finished_session : current_of E d' = Ok (Some s);
  finished_rest : intents d' = intents d /\ ControlStore.history d' = ControlStore.history d;
}.
Lemma store_require_Ok c msg w w' u : require c msg w = (w', Ok u) -> c = true.
Proof. intros [_ H]%slift_Ok_inv. by apply raise_if_Ok, negb_false_iff in H. Qed.
Lemma fence_row E s statuses msg d d' : current_of E d = Ok (Some s) -> fence_session s statuses msg d = Ok d' ->
  current_of E d' = Ok (Some (ambiguous_state s)) /\ intents d' = intents d /\ effects d' = effects d /\
  ControlStore.history d' = ControlStore.history d.
Proof.
  intros (row & Hr & Hd)%current_of_inv H. unfold fence_session in H. rewrite Hr in H.
  apply rbind_Ok_inv in H as (u & _ & (row' & Hr' & [= <-])%rbind_Ok_inv). split_and!; try done.
  unfold current_of, _row_state. cbn. by rewrite (decode_ambiguous _ _ _ _ Hd Hr').
Qed.
Lemma finish_body_spec E i outcome receipt cur d b : current_of E d = Ok (Some cur) -> finish_body cur i outcome d = Ok b ->
  _effect_intent_matches cur i = true ->
  (outcome = "committed" -> artifact_identity i <> None -> _validate_authority_effect_receipt i receipt = Ok tt) ->
  finished E i outcome receipt d b.1 b.2.
Proof.
  intros Hc H Hm Hr. unfold finish_body in H. apply rbind_Ok_inv in H as (d1 & H1 & H).
  unfold _mark_effect_intent in H1. apply rbind_Ok_inv in H1 as (u1 & Ho & (u2 & Hone & [= <-])%rbind_Ok_inv).
  apply raise_if_Ok, negb_false_iff, Nat.eqb_eq in Hone.
  assert (exists r, r ∈ effects d /\ intent_id (e_intent r) = intent_id i /\ e_outcome r = "prepared") as Honce.
  { destruct (List.filter _ (effects d)) as [|r l] eqn:Ef; [done|]. exists r.
    assert (r ∈ r :: l) as Hin by by left. rewrite <- Ef, list_elem_of_In, filter_In in Hin. destruct Hin as [Hin Hf].
    apply andb_true_iff in Hf as [H1%String.eqb_eq H2%String.eqb_eq]. by rewrite list_elem_of_In. }
  assert (outcome = "committed" -> artifact_identity i <> None -> Forall (fun kv => ne (get receipt kv.1) kv.2 = false) (expected_receipt i)) as Hreceipt.
  { intros H1 H2. specialize (Hr H1 H2). apply raise_if_Ok in Hr. apply list.Forall_forall. intros kv Hkv. by eapply existsb_false in Hr. }
  destruct (String.eqb outcome "ambiguous") eqn:Ea.
  - apply rbind_Ok_inv in H as (d2 & H2 & (s' & Hs & [= <-])%rbind_Ok_inv).
    rewrite (proper_ambiguous _ (current_proper _ _ _ Hc)) in Hs. injection Hs as <-.
    eapply fence_row in H2 as (H3 & H4 & H5 & H6); [|exact Hc]. constructor; cbn; try done. exists cur. by rewrite Ea.
  - injection H as <-. constructor; cbn; try done. exists cur. by rewrite Ea.
Qed.
(** C22: The outcome of an effect is published as the code promises: finishing
    succeeds only while the session the intent was prepared for is held, and, when
    it commits an intent with admitted identities, with a receipt that carries
    every one of them; exactly the one open intent of that name gets the outcome,
    every other journal entry stays, and an ambiguous outcome makes the session
    ambiguous in the same commit. *)
Theorem finish_publishes_outcome E g i outcome receipt w w' s :
  finish_authority_effect E g i outcome receipt w = (w', Ok s) -> finished E i outcome receipt (db w) (db w') s.
Proof.
  unfold finish_authority_effect. intros H. apply still_Ok in H as (w1 & u1 & _ & E1 & H); [|done].
  apply still_Ok in H as (w2 & u2 & Hr & E2 & H); [|by destruct (_ && _)].
  apply still_Ok in H as (w3 & u3 & _ & E3 & H); [|done]. rewrite <- E1, <- E2, <- E3.
  assert (outcome = "committed" -> artifact_identity i <> None -> _validate_authority_effect_receipt i receipt = Ok tt) as Hreceipt.
  { intros -> Ha. destruct (artifact_identity i); [|done]. cbn in Hr. apply slift_Ok_inv in Hr as [_ Hr]. by destruct u2. }
  clear Hr E1 E2 E3. revert H.
  set (m := connection E _). intros H. assert (exists w4 w5, db w4 = db w3 /\ db w5 = db w' /\ m w4 = (w5, Ok s)) as (w4 & w5 & <- & <- & Hm).
  { unfold _authority_effect_scope in H. destruct g.
    - do 3 (apply still_Ok in H as (? & ? & _ & <- & H); [|done]). apply sbind_Ok_inv in H as (a & w5 & Hm & H).
      apply sbind_Ok_inv in H as (u & w6 & [-> _]%slift_Ok_inv & [-> ->]%sret_Ok_inv). by eexists _, w5.
    - apply still_Ok in H as (? & ? & _ & <- & H); [|done]. by eexists _, w'. }
  subst m. apply connection_Ok in Hm as (w6 & <- & Hm). clear H. rename Hm into H. clear w1 w2 u1 u2 u3.
  apply still_Ok in H as (w1 & o & Ho%snapshot_spec & E1 & H); [|apply still_snapshot].
  apply still_Ok in H as (w2 & cur & Hcur & E2 & H); [|apply require_session_still].
  destruct o as [cur'|]; [|done]. injection Hcur as _ <-.
  apply still_Ok in H as (w7 & u1 & Hm%store_require_Ok & E3 & H); [|done]. apply still_Ok in H as (w8 & u2 & _ & E4 & H); [|done].
  apply still_Ok in H as (w9 & b & Hb%transaction_answers & E5 & H); [|done].
  apply sbind_Ok_inv in H as (u & w10 & Hc%commit_or_Ok & [-> ->]%sret_Ok_inv). rewrite Hc.
  rewrite E4, E3, E2, E1 in Hb. by eapply finish_body_spec.
Qed.
End EffectRuns.
