(* ===== verification/RollbackControl.v ===== *)
(** * Rollback barriers ([SQLiteRollbackControlStore] and its adapter)

    The first contract of [rollback_control_store.py]: one record for each
    upgrade operation, changed by compare-and-swap, released only through an
    adapter that rereads the authority; over the connections, transactions and
    fences of [ControlStore]. *)
From S2P Require Import Prelude PyStr PyVal SqliteStore UpgradeIdentity BarrierSession ControlStore.

Module RollbackControl.
Import Py BarrierSession ControlStore.
Import UpgradeIdentity(chosen).
Definition IDENTITY_FIELDS : list string := UpgradeIdentity.ENVELOPE_FIELDS.
Definition _COLUMNS : list string := IDENTITY_FIELDS ++ ["status"; "revision"].
Definition _RELEASE_EVIDENCE_FIELDS : list string :=
  ["restored_verified"; "runtime_validated"; "backend_roundtrip_valid"; "backend"; "fencing_token"].
Definition VALIDATED : list string := ["restored_verified"; "runtime_validated"; "backend_roundtrip_valid"].

(** ** Records *)
Definition is_int (v : value) : bool := match v with VInt _ => true | _ => false end.
Definition below_one (v : value) : bool := match v with VInt z => z <? 1 | _ => false end.
Definition identity_error (e : exn) : bool := match e with ClassError c _ => String.eqb c "UpgradeIdentityError" | _ => false end.
Definition _validate (record : dict) : res dict :=
  check stop_if (negb (keys_are record _COLUMNS)) "control record fields are invalid" ;;
  check stop_if (negb (is_int (get record "state_revision"))) "control state revision is invalid" ;;
  check stop_if (below_one (get record "state_revision") || negb (is_int (get record "revision"))
                 || below_one (get record "revision")) "control revision is invalid" ;;
  check match UpgradeIdentity.validate_envelope (chosen IDENTITY_FIELDS record) with
        | Ok _ => Ok tt
        | Raise e => if identity_error e then control_error "control envelope identity is invalid" else Raise e
        end ;;
  check stop_if (ne (get record "backend") (VStr "sqlite")) "control backend is invalid" ;;
  let* known := in_set (get record "status") STATUSES in
  check stop_if (negb known) "control status is invalid" ;;
  Ok record.
Definition _validate_expected_revision (expected_revision : Z) : res unit :=
  stop_if (expected_revision <? 0) "control expected revision is invalid".
Definition revision_of (record : dict) : Z := match get record "revision" with VInt z => z | _ => 0 end.
Definition state_revision_of (record : dict) : Z := match get record "state_revision" with VInt z => z | _ => 0 end.

(** ** The table *)
Definition is_record (operation : value) (record : dict) : bool := eq (get record "operation_id") operation.
Definition _SELECT (operation : value) (d : Db) : option dict := List.find (is_record operation) (barriers d).
Definition bound (record : dict) : res dict :=
  mapr (fun f => let* v := column (get record f) in Ok (f, v)) _COLUMNS.
Definition active (record : dict) : bool :=
  eq (get record "status") (VStr "held") || eq (get record "status") (VStr "releasing").
Definition same_project (a b : dict) : bool := eq (get a "project_id") (get b "project_id").
(** The primary key, and the unique index on the project of active barriers *)
Definition _INSERT (record : dict) (d : Db) : res Db :=
  let* r := bound record in
  check raise_if (existsb (is_record (get r "operation_id")) (barriers d)
                  || (active r && existsb (fun b => same_project b r && active b) (barriers d))) (IntegrityError "barrier") ;;
  Ok (set_barriers d (barriers d ++ [r])).
(** [WHERE operation_id=? AND revision=?]; [cursor.rowcount != 1] raises. *)
Definition _UPDATE (record : dict) (expected_revision : Z) (msg : string) (d : Db) : res Db :=
  let* r := bound record in
  let fits b := is_record (get r "operation_id") b && eq (get b "revision") (VInt expected_revision) in
  check stop_if (negb (Nat.eqb (length (List.filter fits (barriers d))) 1)) msg ;;
  check raise_if (active r && existsb (fun b => same_project b r && active b && negb (is_record (get r "operation_id") b)) (barriers d))
          (IntegrityError "barrier") ;;
  Ok (set_barriers d (map (fun b => if fits b then r else b) (barriers d))).

(** ** Compare and swap: a stored status is one of the four, so that the table of
    transitions has an entry for it. *)
Definition with_revision (record : dict) (revision : Z) : dict := dset record "revision" (VInt revision).
Definition cas_barrier (expected_revision : Z) (supplied : dict) (d : Db) : res Db :=
  let proposed := with_revision supplied (expected_revision + 1) in
  match _SELECT (get supplied "operation_id") d with
  | None =>
      check stop_if (negb (expected_revision =? 0)) "control barrier does not exist" ;;
      check stop_if (ne (get supplied "status") (VStr "held")) "new control barrier must start held" ;;
      check stop_if (existsb (fun b => same_project b supplied && (state_revision_of supplied <=? state_revision_of b)) (barriers d))
              "stale control state revision" ;;
      check stop_if (existsb (fun b => same_project b supplied && active b) (barriers d)) "project already has an active barrier" ;;
      _INSERT proposed d
  | Some current =>
      check stop_if (ne (get current "revision") (VInt expected_revision)) "control barrier CAS conflict" ;;
      check stop_if (existsb (fun f => ne (get current f) (get supplied f)) IDENTITY_FIELDS) "control identity changed during CAS" ;;
      check stop_if (negb (PyStr.mem (str (get supplied "status")) (STATUS_TRANSITIONS (str (get current "status")))))
              "illegal control barrier transition" ;;
      _UPDATE proposed expected_revision "control barrier CAS update lost its fence" d
  end.
Section store.
  Context (E : Env).
Notation prog := (st World).
(** The fence of an uncertain commit *)
Definition fence_barrier (supplied : dict) (expected_revision : Z) (d : Db) : res Db :=
  match _SELECT (get supplied "operation_id") d with
  | None => _INSERT (with_revision (dset supplied "status" (VStr "ambiguous")) (expected_revision + 1)) d
  | Some current =>
      match get current "revision" with
      | VInt current_revision =>
          _UPDATE (with_revision (dset current "status" (VStr "ambiguous")) (current_revision + 1)) current_revision
            "ambiguous barrier fencing lost its row fence" d
      | _ => Raise (TypeError "int() argument")
      end
  end.
Definition _mark_ambiguous_after_commit_failure (supplied : dict) (expected_revision : Z) : prog unit :=
  recasting (do* d := transaction E (fence_barrier supplied expected_revision) in commit E d)
    "control barrier commit outcome is ambiguous and could not be durably fenced".
Definition _cas_connection (expected_revision : Z) (supplied : dict) : prog dict :=
  do slift (fun _ => _validate_expected_revision expected_revision) ;;
  do* d := transaction E (cas_barrier expected_revision supplied) in
  let proposed := with_revision supplied (expected_revision + 1) in
  do commit_or E d "control barrier commit outcome is ambiguous; durable state must be rechecked"
       (_mark_ambiguous_after_commit_failure proposed expected_revision) ;;
  sret proposed.
Definition _cas_locked (expected_revision : Z) (supplied : dict) : prog dict :=
  do slift (fun _ => _validate_expected_revision expected_revision) ;;
  connection E (_cas_connection expected_revision supplied).
Definition require_own_project (record : dict) : prog unit :=
  require (eq (get record "project_id") (VStr (project E))) "control project binding mismatch".
Definition cas (expected_revision : Z) (record : dict) : prog dict :=
  do slift (fun _ => _validate_expected_revision expected_revision) ;;
  do* supplied := slift (fun _ => _validate record) in
  do require (ne (get supplied "status") (VStr "released")) "released status requires authority revalidation" ;;
  do require_own_project supplied ;;
  do not_reentrant E ;;
  operation_lock E (_cas_locked expected_revision supplied).
Definition cas_locked (expected_revision : Z) (record : dict) : prog dict :=
  do slift (fun _ => guard E) ;;
  do* supplied := slift (fun _ => _validate record) in
  do require_own_project supplied ;;
  do _require_operation_lock E ;;
  do* result := _cas_locked expected_revision supplied in
  do slift (fun _ => guard_after E) ;;
  sret result.

(** ** Reading *)
Definition _snapshot_locked (operation : value) : prog dict :=
  connection E (slift (fun w =>
    match _SELECT operation (db w) with
    | None => control_error "control barrier is missing"
    | Some r => _validate r
    end)).
Definition snapshot (operation : string) : prog dict :=
  do not_reentrant E ;; operation_lock E (_snapshot_locked (VStr operation)).
(** [except (ControlStoreError, TypeError)] *)
Definition caught (e : exn) : bool :=
  match e with
  | TypeError _ => true
  | ClassError c _ => PyStr.mem c ["ControlStoreError"; "ControlStoreAmbiguousError"; "RecoveryRejectedError"]
  | _ => false
  end.
Definition context_record (context durable : dict) : dict :=
  chosen IDENTITY_FIELDS context ++ [("status", get durable "status"); ("revision", get durable "revision")].
Definition _verify_rollback_context_locked (context : dict) : prog (option dict) :=
  match get context "operation_id" with
  | VStr operation =>
      do* answer := attempt (do* durable := _snapshot_locked (VStr operation) in
                             do* supplied := slift (fun _ => _validate (context_record context durable)) in
                             sret (durable, supplied)) in
      match answer with
      | Raise e => if caught e then sret None else sraise e
      | Ok (durable, supplied) =>
          sret (if eq (VDict supplied) (VDict durable) && eq (get supplied "target") (VStr "rollback")
                   && existsb (fun s => eq (get durable "status") (VStr s)) ["held"; "releasing"; "released"]
                then Some durable else None)
      end
  | _ => sret None
  end.
Definition verify_rollback_context (context : dict) : prog (option dict) :=
  do not_reentrant E ;; operation_lock E (_verify_rollback_context_locked context).

(** ** Release *)
Definition _begin_release_locked (operation : string) : prog dict :=
  do* current := _snapshot_locked (VStr operation) in
  do require (eq (get current "status") (VStr "held")) "barrier is not held" ;;
  _cas_locked (revision_of current) (dset current "status" (VStr "releasing")).
Definition begin_release (operation : string) : prog dict :=
  do not_reentrant E ;; operation_lock E (_begin_release_locked operation).
Definition release_evidence_invalid (evidence current : dict) : bool :=
  negb (keys_are evidence _RELEASE_EVIDENCE_FIELDS)
  || existsb (fun f => negb (UpgradeIdentity.is_True (get evidence f))) VALIDATED
  || ne (get evidence "backend") (get current "backend")
  || ne (get evidence "fencing_token") (get current "fencing_token").
Definition context_operation (context : dict) : value := VStr (str (get_or context "operation_id" (VStr ""))).
Definition _authorize_release_locked (context evidence : dict) : prog _ReleaseAuthorization :=
  do* current := _snapshot_locked (context_operation context) in
  do require (eq (get current "status") (VStr "releasing")
              && forallb (fun f => eq (get current f) (get context f)) IDENTITY_FIELDS) "release authorization identity changed" ;;
  do require (negb (release_evidence_invalid evidence current)) "release authority evidence is invalid" ;;
  sret (MkAuthorization (str (get current "operation_id")) (str (get current "envelope_digest"))
          (str (get current "fencing_token")) (revision_of current)).
Definition stale_authorization (operation : string) (a : _ReleaseAuthorization) (releasing : dict) : bool :=
  ne (get releasing "status") (VStr "releasing") || negb (String.eqb (r_operation_id a) operation)
  || ne (get releasing "envelope_digest") (VStr (r_envelope_digest a))
  || ne (get releasing "fencing_token") (VStr (r_fencing_token a))
  || negb (r_revision a =? revision_of releasing).
Definition _complete_release_locked (operation : string) (a : _ReleaseAuthorization) : prog dict :=
  do* releasing := _snapshot_locked (VStr operation) in
  do require (negb (stale_authorization operation a releasing)) "barrier release authorization is stale" ;;
  _cas_locked (revision_of releasing) (dset releasing "status" (VStr "released")).
Definition reconcile_release (operation : string) : prog dict :=
  raise_control ("release reconciliation for '" +:+ operation +:+ "' requires verified engine recovery").

(** ** Ambiguous barriers *)
Definition _validate_ambiguous_replacement (previous : dict) (operation : string) (replacement : dict) : res dict :=
  check stop_if (ne (get previous "status") (VStr "ambiguous")) "only ambiguous barriers require reconciliation" ;;
  let* candidate := _validate replacement in
  check stop_if (eq (get candidate "operation_id") (VStr operation) || ne (get candidate "status") (VStr "held"))
          "ambiguous reconciliation requires a new held operation" ;;
  check stop_if (ne (get candidate "project_id") (get previous "project_id")
                 || (state_revision_of candidate <=? state_revision_of previous))
          "ambiguous reconciliation requires a newer project fence" ;;
  check stop_if (eq (get candidate "durable_barrier_id") (get previous "durable_barrier_id")
                 || eq (get candidate "fencing_token") (get previous "fencing_token"))
          "ambiguous reconciliation requires a distinct project fence" ;;
  Ok candidate.
Definition reconcile_ambiguous (operation : string) (replacement : dict) : prog dict :=
  do* previous := snapshot operation in
  do* candidate := slift (fun _ => _validate_ambiguous_replacement previous operation replacement) in
  cas 0 candidate.
Definition reconcile_ambiguous_locked (operation : string) (replacement : dict) : prog dict :=
  do _require_operation_lock E ;;
  do* previous := _snapshot_locked (VStr operation) in
  do* candidate := slift (fun _ => _validate_ambiguous_replacement previous operation replacement) in
  cas_locked 0 candidate.

(** ** A critical section: the callback answers a record, without the store. *)
Definition with_barrier (expected_revision : Z) (record : dict) (authority : dict -> res dict) : prog dict :=
  do* supplied := slift (fun _ => _validate record) in
  do require_own_project supplied ;;
  do not_reentrant E ;;
  operation_lock E (connection E
    (do* held := _cas_connection expected_revision supplied in
     do* result := slift (fun _ => authority held) in
     do* validated := slift (fun _ => _validate result) in
     _cas_connection (revision_of held) validated)).
Definition with_barrier_locked (expected_revision : Z) (record : dict) (authority : dict -> res dict) : prog dict :=
  do* supplied := slift (fun _ => _validate record) in
  do require_own_project supplied ;;
  do _require_operation_lock E ;;
  do* held := cas_locked expected_revision supplied in
  do* result := slift (fun _ => authority held) in
  do* validated := slift (fun _ => _validate result) in
  cas_locked (revision_of held) validated.

(** ** The adapter of the engine ([SQLiteControlStoreAdapter]) *)
Record SQLiteAuthorityRuntimeState : Type := MkRuntime {
  t_backend : value; t_project_id : value; t_authority_revision : value; t_fencing_token : value; t_target : value;
  t_integrity_check : value; t_foreign_key_violations : value; t_backend_roundtrip : value }.
Definition set_authorization (a : option _ReleaseAuthorization) : prog unit := smodify (fun w =>
  MkWorld (db w) (past w) (connections w) (transactions w) (uuids w) a).
Definition operation_of (context : dict) : res string := let* v := item context "operation_id" in Ok (str v).
Definition adapter_verify (context : dict) : prog (option dict) :=
  if owned E then _verify_rollback_context_locked context else verify_rollback_context context.
Definition begin_release_rollback_context (context : dict) : prog dict :=
  do* operation := slift (fun _ => operation_of context) in
  do require (owned E) "rollback release requires the outer operation lock" ;;
  do set_authorization None ;;
  _begin_release_locked operation.
(** [try: ... finally: self._release_authorization = None] *)
Definition complete_release_rollback_context (context : dict) : prog dict :=
  do* operation := slift (fun _ => operation_of context) in
  do require (owned E) "rollback release requires the outer operation lock" ;;
  do* w := sget in
  match authorization w with
  | None => raise_control "rollback release lacks authority revalidation"
  | Some a =>
      do* answer := attempt (_complete_release_locked operation a) in
      do set_authorization None ;;
      slift (fun _ => answer)
  end.
(** What the reread must show; another object shows nothing. *)
Definition reread_invalid (context : dict) (reread : SQLiteAuthorityRuntimeState) : bool :=
  ne (t_backend reread) (VStr "sqlite") || ne (t_backend reread) (get context "backend")
  || ne (t_project_id reread) (get context "project_id") || ne (t_authority_revision reread) (get context "authority_revision")
  || ne (t_fencing_token reread) (get context "fencing_token") || ne (t_target reread) (get context "target")
  || ne (t_integrity_check reread) (VStr "ok") || negb (is_int (t_foreign_key_violations reread))
  || ne (t_foreign_key_violations reread) (VInt 0) || ne (t_backend_roundtrip reread) (VStr "sqlite").
Definition release_evidence (reread : SQLiteAuthorityRuntimeState) : dict :=
  [("restored_verified", VBool true); ("runtime_validated", VBool true); ("backend_roundtrip_valid", VBool true);
   ("backend", t_backend reread); ("fencing_token", t_fencing_token reread)].
(** [reread]: the answer of [reread_rollback(context, result)] *)
Definition revalidate_rollback (context : dict) (reread : res (option SQLiteAuthorityRuntimeState)) : prog dict :=
  do* answer := adapter_verify context in
  do* durable := match answer with
                 | Some d => sret d
                 | None => raise_control "rollback control record is not ready for reopen validation"
                 end in
  do require (existsb (fun s => eq (get durable "status") (VStr s)) ["releasing"; "released"])
       "rollback control record is not ready for reopen validation" ;;
  do* state := slift (fun _ => recast reread "authority/runtime rollback reread failed") in
  do* state := match state with
               | Some s => sret s
               | None => raise_control "authority/runtime rollback reread is invalid"
               end in
  do require (negb (reread_invalid context state)) "authority/runtime rollback reread is invalid" ;;
  do (if eq (get durable "status") (VStr "releasing") then
        do require (owned E) "rollback revalidation requires the outer operation lock" ;;
        do* a := _authorize_release_locked context (release_evidence state) in
        set_authorization (Some a)
      else sret tt) ;;
  sret (release_evidence state).
End store.

(** ** Histories *)
Inductive op : Type :=
| Verify (context : dict) | Cas (n : Z) (record : dict) | CasLocked (n : Z) (record : dict)
| BeginRelease (operation : string) | Reconcile (operation : string) (replacement : dict)
| ReconcileLocked (operation : string) (replacement : dict)
| WithBarrier (n : Z) (record : dict) (authority : dict -> res dict)
| WithBarrierLocked (n : Z) (record : dict) (authority : dict -> res dict)
| AdapterBegin (context : dict) | AdapterComplete (context : dict)
| AdapterRevalidate (context : dict) (reread : res (option SQLiteAuthorityRuntimeState)).
Definition run (E : Env) (o : op) : st World unit :=
  match o with
  | Verify context => ignoring (adapter_verify E context)
  | Cas n r => ignoring (cas E n r)
  | CasLocked n r => ignoring (cas_locked E n r)
  | BeginRelease operation => ignoring (begin_release E operation)
  | Reconcile operation r => ignoring (reconcile_ambiguous E operation r)
  | ReconcileLocked operation r => ignoring (reconcile_ambiguous_locked E operation r)
  | WithBarrier n r f => ignoring (with_barrier E n r f)
  | WithBarrierLocked n r f => ignoring (with_barrier_locked E n r f)
  | AdapterBegin context => ignoring (begin_release_rollback_context E context)
  | AdapterComplete context => ignoring (complete_release_rollback_context E context)
  | AdapterRevalidate context reread => ignoring (revalidate_rollback E context reread)
  end.
(** The adapter keeps its authorization from one operation to the next. *)
Definition start_with (d : Db) (a : option _ReleaseAuthorization) : World := MkWorld d [] 0 0 0 a.
Inductive reachable : Db -> Prop :=
| reachable_empty : reachable empty_db
| reachable_run E o a d d' : reachable d -> d' = d \/ d' ∈ past (fst (run E o (start_with d a))) -> reachable d'.
End RollbackControl.
