(* ===== verification/RollbackLaws.v ===== *)
(** * Laws of rollback barriers

    Every durable state of an operation on the barrier records follows from the
    one before by a legal step, and a barrier is released through the adapter
    only after its authority was reread. *)
From S2P Require Import Prelude PyStr PyVal SqliteStore UpgradeIdentity BarrierSession ControlStore ControlLaws RollbackControl.

Module RollbackLaws.
Import Py BarrierSession ControlStore ControlLaws RollbackControl.
Import UpgradeIdentity(chosen).

(** ** Legal steps *)
Definition text (record : dict) (f : string) : string := str (get record f).
(** A record moves: its identity stays, its revision is the next, its status
    changes as the table says or becomes ambiguous. *)
Record barrier_moved (b r : dict) : Prop := BarrierMoved {
  barrier_identity : Forall (fun f => is_bool (get r f) = false /\ (get r f = get b f \/ eq (get b f) (get r f) = true)) IDENTITY_FIELDS;
  barrier_revision : exists z, as_Z (get b "revision") = Some z /\ get r "revision" = VInt (z + 1);
  barrier_text : exists s, get r "status" = VStr s;
  barrier_status : text r "status" ∈ STATUS_TRANSITIONS (text b "status") \/ text r "status" = "ambiguous";
}.
(** The columns a record is compared by *)
Record sound (r : dict) : Prop := Sound {
  sound_operation : exists s, get r "operation_id" = VStr s;
  sound_project : exists s, get r "project_id" = VStr s;
  sound_state : exists z, get r "state_revision" = VInt z;
  sound_status : exists s, get r "status" = VStr s;
}.
(** A new record starts held, or ambiguous when its commit was uncertain, with a
    state revision beyond that of every barrier of the project. *)
Record barrier_added (l : list dict) (r : dict) : Prop := BarrierAdded {
  added_sound : sound r;
  added_status : text r "status" ∈ ["held"; "ambiguous"];
  added_revision : get r "revision" = VInt 1;
  added_fresh : Forall (fun b => same_project b r = true -> state_revision_of b < state_revision_of r) l;
  added_alone : active r = true -> Forall (fun b => same_project b r = true -> active b = false) l;
}.
Inductive barrier_step (d d' : Db) : Prop :=
| barrier_new r : d' = set_barriers d (barriers d ++ [r]) -> barrier_added (barriers d) r -> barrier_step d d'
| barrier_change l1 b l2 r : barriers d = l1 ++ b :: l2 -> d' = set_barriers d (l1 ++ r :: l2) -> barrier_moved b r -> barrier_step d d'.

(** ** Records *)
Lemma envelope_project record e : UpgradeIdentity.validate_envelope record = Ok e -> exists s, get record "project_id" = VStr s.
Proof.
  unfold UpgradeIdentity.validate_envelope. intros (u1 & _ & (u2 & _ & (u3 & _ & (u4 & H & _)%rbind_Ok_inv)%rbind_Ok_inv)%rbind_Ok_inv)%rbind_Ok_inv.
  unfold UpgradeIdentity.validate_project in H. destruct (get record "project_id"); try done. eauto.
Qed.
Lemma validate_sound record r : _validate record = Ok r -> r = record /\ sound r.
Proof.
  unfold _validate. intros H. apply rbind_Ok_inv in H as (u1 & _ & (u2 & H2%raise_if_Ok & (u3 & _ & (u4 & H4 & H)%rbind_Ok_inv)%rbind_Ok_inv)%rbind_Ok_inv).
  apply rbind_Ok_inv in H as (u5 & _ & (k & Hk & (u6 & Hk' & H)%rbind_Ok_inv)%rbind_Ok_inv). injection H as ->. split; [done|].
  destruct (UpgradeIdentity.validate_envelope _) as [e|e] eqn:Ee; [|by destruct (identity_error e)].
  pose proof (envelope_project _ _ Ee) as Hp. rewrite UpgradeIdentity.chosen_get in Hp by listed.
  apply UpgradeIdentity.validate_envelope_inv in Ee as [-> Hv]. constructor.
  - pose proof (UpgradeIdentity.v_tokens _ Hv) as Ht. apply Forall_cons in Ht as [Ht _].
    rewrite UpgradeIdentity.chosen_get in Ht by listed. destruct (get r "operation_id"); try done. eauto.
  - done.
  - apply negb_false_iff in H2. destruct (get r "state_revision"); try done. eauto.
  - apply raise_if_Ok, negb_false_iff in Hk'. subst k. apply UpgradeIdentity.in_set_mem in Hk as (s & Hs & _). eauto.
Qed.
Lemma eq_column w w' v : column w = Ok w' -> eq v w' = eq v w.
Proof.
  unfold column. destruct (as_Z w) as [z|] eqn:Ez; [|by intros [= ->]].
  intros (y & Hy%control_int64_Ok & [= <-])%rbind_Ok_inv. subst y. destruct w; try done; injection Ez as <-; by destruct v.
Qed.
Lemma bound_get record r f : bound record = Ok r -> f ∈ _COLUMNS -> column (get record f) = Ok (get r f).
Proof.
  unfold bound. generalize _COLUMNS as l. intros l. revert r. induction l as [|g l IH]; intros r; [by intros _ ?%elem_of_nil|].
  cbn [mapr]. intros ((g' & v) & (v' & Hv & [= <- <-])%rbind_Ok_inv & (r' & Hr & [= <-])%rbind_Ok_inv)%rbind_Ok_inv.
  unfold get at 2, get_or. cbn [dget]. destruct (String.eqb_spec f g) as [->|Hn]; [done|].
  intros [->|Hf]%elem_of_cons; [done|]. by apply IH.
Qed.
Lemma bound_text record r f s : bound record = Ok r -> f ∈ _COLUMNS -> get record f = VStr s -> get r f = VStr s.
Proof. intros H Hf Hs. pose proof (bound_get _ _ _ H Hf) as Hc. rewrite Hs in Hc. by injection Hc. Qed.
Lemma bound_int record r f z : bound record = Ok r -> f ∈ _COLUMNS -> get record f = VInt z -> get r f = VInt z.
Proof. intros H Hf Hs. pose proof (bound_get _ _ _ H Hf) as Hc. rewrite Hs in Hc. by apply column_int in Hc. Qed.
Lemma bound_bool record r f : bound record = Ok r -> f ∈ _COLUMNS -> is_bool (get r f) = false.
Proof.
  intros H Hf. pose proof (bound_get _ _ _ H Hf) as Hc. unfold column in Hc. destruct (as_Z (get record f)) as [z|] eqn:E.
  - by apply rbind_Ok_inv in Hc as (y & _ & [= <-]).
  - injection Hc as <-. by destruct (get record f).
Qed.
Lemma bound_sound record r : bound record = Ok r -> sound record -> sound r.
Proof.
  intros H [[o Ho] [p Hp] [z Hz] [s Hs]].
  constructor; eexists; [eapply bound_text | eapply bound_text | eapply bound_int | eapply bound_text]; eauto; listed.
Qed.
Lemma eq_bound record r f v : bound record = Ok r -> f ∈ _COLUMNS -> eq v (get r f) = eq v (get record f).
Proof. intros H Hf. apply eq_column. by apply bound_get. Qed.
(** The row an [UPDATE] changes *)
Lemma filter_single {A} (f : A -> bool) (r : A) l : length (List.filter f l) = 1%nat ->
  exists l1 b l2, l = l1 ++ b :: l2 /\ f b = true /\ map (fun x => if f x then r else x) l = l1 ++ r :: l2.
Proof.
  assert (forall l, List.filter f l = [] -> map (fun x => if f x then r else x) l = l) as Hnone.
  { clear. induction l as [|x l IH]; [done|]. cbn. destruct (f x); [done|]. intros H. by rewrite IH. }
  induction l as [|x l IH]; [done|]. cbn. destruct (f x) eqn:Ex; cbn; intros H.
  - exists [], x, l. split_and!; [done|done|]. cbn. rewrite Hnone; [done|]. destruct (List.filter f l); [done|]. cbn in H. lia.
  - destruct (IH H) as (l1 & b & l2 & -> & Hb & Hm). exists (x :: l1), b, l2. cbn. by rewrite Hm.
Qed.
Lemma one_of_filter {A} (f : A -> bool) l x y : length (List.filter f l) = 1%nat -> x ∈ l -> y ∈ l -> f x = true -> f y = true -> x = y.
Proof.
  intros H Hx Hy Fx Fy. destruct (List.filter f l) as [|z [|? ?]] eqn:E; try done.
  assert (forall w, w ∈ l -> f w = true -> w = z) as Hw.
  { intros w Hl Hf. assert (w ∈ List.filter f l) as Hin by (apply list_elem_of_In, filter_In; by rewrite <- list_elem_of_In).
    rewrite E in Hin. by apply list_elem_of_singleton in Hin. }
  by rewrite (Hw x), (Hw y).
Qed.
Lemma select_inv op d b : _SELECT op d = Some b -> b ∈ barriers d /\ is_record op b = true.
Proof. intros [H1 H2]%List.find_some. by rewrite <- list_elem_of_In in H1. Qed.
Lemma select_none op d b : _SELECT op d = None -> b ∈ barriers d -> is_record op b = false.
Proof. intros H Hb. apply list_elem_of_In in Hb. by apply (List.find_none _ _ H). Qed.
Lemma update_inv record n msg d d' : _UPDATE record n msg d = Ok d' -> exists r l1 b l2,
  bound record = Ok r /\ barriers d = l1 ++ b :: l2 /\ d' = set_barriers d (l1 ++ r :: l2) /\
  is_record (get r "operation_id") b = true /\ eq (get b "revision") (VInt n) = true /\
  (forall c, c ∈ barriers d -> is_record (get r "operation_id") c = true -> eq (get c "revision") (VInt n) = true -> c = b).
Proof.
  unfold _UPDATE. intros (r & Hr & (u1 & H1 & (u2 & _ & [= <-])%rbind_Ok_inv)%rbind_Ok_inv)%rbind_Ok_inv.
  apply raise_if_Ok, negb_false_iff, Nat.eqb_eq in H1. destruct (filter_single _ r _ H1) as (l1 & b & l2 & Hl & Hb & Hm).
  exists r, l1, b, l2. rewrite Hm. apply andb_true_iff in Hb as Hb'. destruct Hb' as [Hb1 Hb2]. split_and!; try done.
  intros c Hc Hc1 Hc2. eapply one_of_filter; [exact H1 | exact Hc | rewrite Hl; apply elem_of_app; right; by left | | exact Hb].
  cbn. by rewrite Hc1, Hc2.
Qed.
Lemma insert_inv record d d' : _INSERT record d = Ok d' -> exists r, bound record = Ok r /\ d' = set_barriers d (barriers d ++ [r]).
Proof. unfold _INSERT. intros (r & Hr & (u & _ & [= <-])%rbind_Ok_inv)%rbind_Ok_inv. eauto. Qed.

(** ** Bodies *)
Lemma identity_column f : f ∈ IDENTITY_FIELDS -> f ∈ _COLUMNS /\ f <> "status" /\ f <> "revision".
Proof.
  intros H. split; [apply elem_of_app; by left|]. split; intros ->; apply PyStr.mem_spec in H; discriminate H.
Qed.
Lemma get_revised record n f : f <> "revision" -> get (with_revision record n) f = get record f.
Proof. intros Hf. unfold with_revision. rewrite get_dset. by destruct (String.eqb_spec "revision" f) as [<-|]. Qed.
Lemma get_revision record n : get (with_revision record n) "revision" = VInt n.
Proof. unfold with_revision. by rewrite get_dset. Qed.
Lemma sound_revised s n : sound s -> sound (with_revision s n).
Proof. intros []. by constructor; rewrite get_revised. Qed.
Lemma sound_marked s x : sound s -> sound (dset s "status" (VStr x)).
Proof. intros []. constructor; rewrite get_dset; eauto. Qed.
Definition fresh_for (d : Db) (s : dict) : Prop :=
  Forall (fun b => same_project b s = true -> state_revision_of b < state_revision_of s) (barriers d).
(** A bound record, and the record it was made of *)
Lemma bound_added l record r s : bound record = Ok r -> sound record -> sound s -> get record "revision" = VInt 1 ->
  (forall f, f ∈ ["project_id"; "state_revision"] -> get record f = get s f) ->
  Forall (fun b => same_project b s = true -> state_revision_of b < state_revision_of s) l ->
  (get record "status" = VStr "held" /\ Forall (fun b => same_project b s = true -> active b = false) l \/
   get record "status" = VStr "ambiguous") -> barrier_added l r.
Proof.
  intros Hb Hrec [_ _ [z Hz] _] Hr Hs Hf Ha.
  assert (forall b, same_project b r = same_project b s) as Hp.
  { intros b. unfold same_project. rewrite (eq_bound _ _ _ _ Hb) by listed. by rewrite Hs by listed. }
  assert (state_revision_of r = state_revision_of s) as Hst.
  { unfold state_revision_of. rewrite (bound_int _ _ _ z Hb); [by rewrite Hz | listed | by rewrite Hs by listed]. }
  assert (get r "revision" = VInt 1) as Hrev by (eapply bound_int; [exact Hb | listed | exact Hr]).
  constructor.
  - by eapply bound_sound.
  - unfold text. destruct Ha as [[Ha _] | Ha]; rewrite (bound_text _ _ "status" _ Hb ltac:(listed) Ha); listed.
  - done.
  - eapply list.Forall_impl; [exact Hf|]. intros b Hlt. cbv beta. rewrite Hp, Hst. exact Hlt.
  - intros Hact. destruct Ha as [[_ Ha] | Ha].
    + eapply list.Forall_impl; [exact Ha|]. intros b Hb'. cbv beta. by rewrite Hp.
    + unfold active in Hact. rewrite (bound_text _ _ "status" _ Hb ltac:(listed) Ha) in Hact. done.
Qed.
Lemma cas_barrier_step n s d d' : sound s -> cas_barrier n s d = Ok d' ->
  barrier_step d d' /\ (_SELECT (get s "operation_id") d = None -> n = 0 /\ fresh_for d s) /\
  _SELECT (get s "operation_id") d' <> None.
Proof.
  intros Hs H. pose proof (sound_operation _ Hs) as [o Ho]. unfold cas_barrier in H. cbv zeta in H.
  destruct (_SELECT (get s "operation_id") d) as [cur|] eqn:Ec.
  - apply rbind_Ok_inv in H as (u1 & H1%raise_if_Ok%ne_false & (u2 & H2%raise_if_Ok & (u3 & H3%raise_if_Ok%negb_false_iff & H)%rbind_Ok_inv)%rbind_Ok_inv).
    apply update_inv in H as (r & l1 & b & l2 & Hr & Hl & -> & Hb1 & Hb2 & Hone).
    assert (get r "operation_id" = VStr o) as Hro by (eapply bound_text; [exact Hr | listed | by rewrite get_revised]).
    apply select_inv in Ec as [Hc1 Hc2]. assert (cur = b) as -> by (apply Hone; [done | by rewrite Hro, <- Ho | done]).
    split; [|split; [done|]].
    + eapply barrier_change; [exact Hl | done |]. constructor.
      * apply list.Forall_forall. intros f Hf. destruct (identity_column f Hf) as (Hfc & _ & Hfr).
        split; [by eapply bound_bool|]. right.
        rewrite (eq_bound _ _ _ _ Hr Hfc), get_revised by done. apply ne_false. by eapply existsb_false in H2.
      * exists n. split; [by apply eq_int|]. eapply bound_int; [exact Hr | listed | apply get_revision].
      * destruct (sound_status _ Hs) as [st Hst]. exists st. eapply bound_text; [exact Hr | listed | by rewrite get_revised].
      * left. apply PyStr.mem_spec in H3. destruct (sound_status _ Hs) as [st Hst]. unfold text.
        rewrite (bound_text _ _ "status" st Hr); [by rewrite Hst in H3 | listed | by rewrite get_revised].
    + unfold _SELECT. cbn [barriers set_barriers]. intros Hn. apply (List.find_none _ _ ) with (x := r) in Hn.
      * unfold is_record in Hn. rewrite Hro, Ho in Hn. cbn in Hn. by rewrite String.eqb_refl in Hn.
      * apply in_or_app. right. by left.
  - apply rbind_Ok_inv in H as (u1 & H1%raise_if_Ok%negb_false_iff%Z.eqb_eq & (u2 & H2%raise_if_Ok%ne_false%eq_str & (u3 & H3%raise_if_Ok & (u4 & H4%raise_if_Ok & H)%rbind_Ok_inv)%rbind_Ok_inv)%rbind_Ok_inv).
    apply insert_inv in H as (r & Hr & ->).
    assert (fresh_for d s) as Hfresh.
    { apply list.Forall_forall. intros b Hb Hp. pose proof (existsb_false _ _ _ H3 Hb) as Hx. cbn in Hx. rewrite Hp in Hx. by apply Z.leb_gt. }
    split; [|split; [done|]].
    + eapply barrier_new; [done|]. eapply bound_added; [exact Hr | eauto using sound_revised, sound_marked | exact Hs | rewrite get_revision; by subst n | | exact Hfresh | left].
      * intros f Hf. apply get_revised. intros ->. apply PyStr.mem_spec in Hf. discriminate Hf.
      * split; [by rewrite get_revised|]. apply list.Forall_forall. intros b Hb Hp. pose proof (existsb_false _ _ _ H4 Hb) as Hx.
        cbn in Hx. by rewrite Hp in Hx.
    + assert (get r "operation_id" = VStr o) as Hro by (eapply bound_text; [exact Hr | listed | by rewrite get_revised]).
      unfold _SELECT. cbn [barriers set_barriers]. intros Hn. apply (List.find_none _ _ ) with (x := r) in Hn.
      * unfold is_record in Hn. rewrite Hro, Ho in Hn. cbn in Hn. by rewrite String.eqb_refl in Hn.
      * apply in_or_app. right. by left.
Qed.
Lemma fence_barrier_step n s d d' : sound s -> (_SELECT (get s "operation_id") d = None -> n = 0 /\ fresh_for d s) ->
  fence_barrier s n d = Ok d' -> barrier_step d d'.
Proof.
  intros Hs Hn H. unfold fence_barrier in H. destruct (_SELECT _ d) as [cur|] eqn:Ec.
  - destruct (get cur "revision") as [| |z| | |] eqn:Ez; try done. apply select_inv in Ec as [Hc1 Hc2].
    apply update_inv in H as (r & l1 & b & l2 & Hr & Hl & -> & Hb1 & Hb2 & Hone).
    assert (forall f, f ∈ IDENTITY_FIELDS -> column (get cur f) = Ok (get r f)) as Hcol.
    { intros f Hf. destruct (identity_column f Hf) as (Hfc & Hfs & Hfr). pose proof (bound_get _ _ _ Hr Hfc) as Hx.
      rewrite get_revised in Hx by done. rewrite get_dset in Hx. by destruct (String.eqb_spec "status" f) as [<-|]. }
    destruct (sound_operation _ Hs) as [o Ho].
    assert (get cur "operation_id" = VStr o) as Hco by (unfold is_record in Hc2; rewrite Ho in Hc2; by apply eq_str).
    assert (get r "operation_id" = VStr o) as Hro by (specialize (Hcol "operation_id" ltac:(listed)); rewrite Hco in Hcol; by injection Hcol).
    assert (cur = b) as -> by (apply Hone; [done | unfold is_record; by rewrite Hro, Hco, eq_str_str, String.eqb_refl | by rewrite Ez; apply Z.eqb_refl]).
    eapply barrier_change; [exact Hl | done |]. constructor.
    + apply list.Forall_forall. intros f Hf. split; [eapply bound_bool; [exact Hr | by apply identity_column]|].
      specialize (Hcol f Hf). unfold column in Hcol. destruct (as_Z (get b f)) as [y|] eqn:Ey.
      * right. apply rbind_Ok_inv in Hcol as (y' & Hy%control_int64_Ok & [= <-]). subst y'. by apply eq_int.
      * left. by injection Hcol.
    + exists z. rewrite Ez. split; [done|]. eapply bound_int; [exact Hr | listed | apply get_revision].
    + exists "ambiguous". eapply bound_text; [exact Hr | listed |]. rewrite get_revised by done. by rewrite get_dset.
    + right. unfold text. rewrite (bound_text _ _ "status" "ambiguous" Hr); [done | listed |]. rewrite get_revised by done. by rewrite get_dset.
  - destruct (Hn eq_refl) as [-> Hf]. apply insert_inv in H as (r & Hr & ->). eapply barrier_new; [done|].
    eapply bound_added; [exact Hr | eauto using sound_revised, sound_marked | exact Hs | by rewrite get_revision | | exact Hf | right; by rewrite get_revised, get_dset].
    intros f Hin. rewrite get_revised by (intros ->; apply PyStr.mem_spec in Hin; discriminate Hin). rewrite get_dset.
    destruct (String.eqb_spec "status" f) as [<-|]; [apply PyStr.mem_spec in Hin; discriminate Hin | done].
Qed.

(** ** Operations *)
Section bodies.
Context (E : Env).
Notation R := barrier_step.
Notation TT := (fun _ : Db => True).
Lemma cas_connection_obeys P n s : sound s -> obeys R P (_cas_connection E n s).
Proof.
  intros Hs. apply obeys_look; [done|]. intros w0 w1 u _ _.
  apply (obeys_write E _ _ _ (cas_barrier n s) (fun d => d)); [apply transaction_answers | |intros d; by apply obeys_still].
  intros d d' _ H. destruct (cas_barrier_step _ _ _ _ Hs H) as (Hst & Hn & Hsome). split; [done|].
  apply obeys_recasting, obeys_transaction. intros x y Hx Hy. apply obeys_commit. intros z ->.
  eapply fence_barrier_step; [by apply sound_revised | | exact Hy]. rewrite get_revised by done.
  intros Hnone. destruct Hx as [-> | ->]; [|done]. destruct (Hn Hnone) as [-> Hf]. split; [done|].
  unfold fresh_for, same_project, state_revision_of in *. eapply list.Forall_impl; [exact Hf|]. intros b. cbv beta. by rewrite !get_revised.
Qed.
Lemma rollback_cas_locked_obeys P n s : sound s -> obeys R P (RollbackControl._cas_locked E n s).
Proof. intros Hs. apply obeys_look; [done|]. intros w0 w1 u _ _. by apply obeys_connection, cas_connection_obeys. Qed.
Lemma still_record operation : still (RollbackControl._snapshot_locked E operation).
Proof. by apply still_connection. Qed.
Lemma record_sound operation w w' r : RollbackControl._snapshot_locked E operation w = (w', Ok r) ->
  sound r /\ _SELECT operation (db w) = Some r /\ db w' = db w.
Proof.
  intros H. pose proof (still_record operation w) as Hstill. rewrite H in Hstill. destruct Hstill as [_ Hd].
  unfold RollbackControl._snapshot_locked, connection in H. destruct (connect E _); [|done]. cbn in H.
  destruct (_SELECT operation (db w)) as [x|]; cbn in H.
  - destruct (_validate x) as [v|e] eqn:Ev; destruct (disconnect E _); try done. injection H as _ <-.
    apply validate_sound in Ev as [-> Hs]. done.
  - by destruct (disconnect E _).
Qed.
(** A record read, or validated, and then used *)
Lemma obeys_read {A} P operation (k : dict -> st World A) : (forall r, sound r -> obeys R TT (k r)) ->
  obeys R P (do* r := RollbackControl._snapshot_locked E operation in k r).
Proof.
  intros H. apply obeys_look; [apply still_record|]. intros w w1 r _ (Hs & _)%record_sound. eapply obeys_impl; [by apply H | done].
Qed.
Lemma obeys_validated {A} P (f : World -> res dict) (k : dict -> st World A) :
  (forall w r, f w = Ok r -> sound r) -> (forall r, sound r -> obeys R TT (k r)) -> obeys R P (do* r := slift f in k r).
Proof.
  intros Hf H. apply obeys_look; [done|]. intros w w1 r _ [_ Hr]%slift_Ok_inv. eapply obeys_impl; [by eapply H, Hf | done].
Qed.
Lemma validates record r : _validate record = Ok r -> sound r.
Proof. intros H. by destruct (validate_sound _ _ H) as [_ Hs]. Qed.
Lemma replacement_sound previous operation record r : _validate_ambiguous_replacement previous operation record = Ok r -> sound r.
Proof.
  unfold _validate_ambiguous_replacement. intros (u & _ & (c & Hc & H)%rbind_Ok_inv)%rbind_Ok_inv.
  destruct (validate_sound _ _ Hc) as [-> Hs]. apply rbind_Ok_inv in H as (u1 & _ & (u2 & _ & (u3 & _ & [= <-])%rbind_Ok_inv)%rbind_Ok_inv). done.
Qed.
Ltac obey9 := repeat (cbv beta zeta; first
  [ lazymatch goal with
    | |- obeys _ _ (do* r := slift (fun _ => _validate _) in _) => apply obeys_validated; [intros ? ?; exact (validates _ _) | intros ? ?]
    | |- obeys _ _ (do* r := slift (fun _ => _validate_ambiguous_replacement _ _ _) in _) =>
        apply obeys_validated; [intros ? ?; exact (replacement_sound _ _ _ _) | intros ? ?]
    | |- obeys _ _ (do* r := RollbackControl._snapshot_locked _ _ in _) => apply obeys_read; intros ? ?
    | |- obeys _ _ (RollbackControl._cas_locked _ _ _) => apply rollback_cas_locked_obeys; eauto using sound_marked
    | |- obeys _ _ (_cas_connection _ _ _) => apply cas_connection_obeys; eauto
    | |- obeys _ _ (RollbackControl._snapshot_locked _ _) => apply obeys_still, still_record
    | |- obeys _ _ (connection _ _) => apply obeys_connection
    | |- obeys _ _ (operation_lock _ _) => apply obeys_operation_lock
    | |- obeys _ _ (sbind _ _) => apply obeys_bind; [|intros ?]
    | |- obeys _ _ (if ?c then _ else _) => destruct c
    | |- obeys _ _ (match ?x with _ => _ end) => destruct x
    end
  | by apply obeys_still ]).
Lemma barrier_cas_obeys P n r : obeys R P (RollbackControl.cas E n r).
Proof. unfold RollbackControl.cas. obey9. Qed.
Lemma barrier_cas_locked_obeys P n r : obeys R P (RollbackControl.cas_locked E n r).
Proof. unfold RollbackControl.cas_locked. obey9. Qed.
Lemma begin_release_obeys P operation : obeys R P (_begin_release_locked E operation).
Proof. unfold _begin_release_locked. obey9. Qed.
Lemma verify_still context : still (adapter_verify E context).
Proof.
  assert (still (_verify_rollback_context_locked E context)) as H.
  { unfold _verify_rollback_context_locked. destruct (get context "operation_id"); try done.
    apply still_bind; [|intros [[? ?]|?]; [|destruct (caught _)]; done].
    intros w. unfold attempt. assert (still (do* durable := RollbackControl._snapshot_locked E (VStr s) in
      do* supplied := slift (fun _ => _validate (context_record context durable)) in sret (durable, supplied))) as Hs
      by (apply still_bind; [apply still_record|]; intros ?; by apply still_bind).
    specialize (Hs w). by destruct (sbind _ _ w) as [w1 r]. }
  unfold adapter_verify, verify_rollback_context. destruct (owned E); [done|]. by do 2 (apply still_bind; [done|]; intros _).
Qed.
Lemma attempt_obeys {A} P (m : st World A) : obeys R P m -> obeys R P (attempt m).
Proof. intros H w Hw. unfold attempt. specialize (H w Hw). by destruct (m w) as [w1 r]. Qed.
Lemma complete_release_obeys P operation a : obeys R P (_complete_release_locked E operation a).
Proof. unfold _complete_release_locked. obey9. Qed.
Lemma authorize_still context evidence : still (_authorize_release_locked E context evidence).
Proof. apply still_bind; [apply still_record|]. intros r. by do 2 (apply still_bind; [done|]; intros _). Qed.
Lemma rollback_run_obeys P o : obeys R P (RollbackControl.run E o).
Proof.
  destruct o; apply obeys_bind; try (intros ?; by apply obeys_still).
  - apply obeys_still, verify_still.
  - apply barrier_cas_obeys.
  - apply barrier_cas_locked_obeys.
  - unfold begin_release. obey9. apply begin_release_obeys.
  - unfold RollbackControl.reconcile_ambiguous, RollbackControl.snapshot. obey9. apply barrier_cas_obeys.
  - unfold reconcile_ambiguous_locked. obey9. apply barrier_cas_locked_obeys.
  - unfold with_barrier. obey9.
  - unfold with_barrier_locked. obey9; apply barrier_cas_locked_obeys.
  - unfold begin_release_rollback_context. obey9. apply begin_release_obeys.
  - unfold complete_release_rollback_context. obey9. apply attempt_obeys, complete_release_obeys.
  - apply obeys_still. apply still_bind; [apply verify_still|]. intros a. apply still_bind; [by destruct a|]. intros d.
    do 2 (apply still_bind; [done|]; intros ?). apply still_bind; [by destruct a1|]. intros s.
    apply still_bind; [done|]. intros _. apply still_bind; [|done].
    destruct (eq _ _); [|done]. apply still_bind; [done|]. intros _. by apply still_bind; [apply authorize_still|].
Qed.
End bodies.

(** ** Histories *)
Lemma reachable_steps d : RollbackControl.reachable d -> rtc barrier_step empty_db d.
Proof.
  induction 1 as [|E o a d d' _ IH H]; [done|]. etrans; [exact IH|]. destruct H as [-> | H]; [done|].
  destruct (rollback_run_obeys E (fun _ => True) o (start_with d a) I) as (l & Hp & Ht). cbn [start_with past app db] in Hp, Ht.
  rewrite Hp in H. by eapply trail_steps.
Qed.
(** The barriers of a project follow one another: each has a state revision
    beyond those before it, and at most one is active. *)
Definition ordered (a b : dict) : Prop :=
  text a "project_id" = text b "project_id" -> state_revision_of a < state_revision_of b /\ active a && active b = false.
Record fenced (l : list dict) : Prop := Fenced {
  fenced_sound : Forall sound l;
  fenced_ordered : forall i j a b, (i < j)%nat -> l !! i = Some a -> l !! j = Some b -> ordered a b;
}.
Lemma same_project_text a b : sound a -> sound b -> same_project a b = true <-> text a "project_id" = text b "project_id".
Proof.
  intros [_ [p Hp] _ _] [_ [q Hq] _ _]. unfold same_project, text. rewrite Hp, Hq, eq_str_str. cbn. apply String.eqb_eq.
Qed.
Lemma active_text r : sound r -> active r = true <-> text r "status" = "held" \/ text r "status" = "releasing".
Proof. intros [_ _ _ [s Hs]]. unfold active, text. rewrite Hs, !eq_str_str, orb_true_iff, !String.eqb_eq. done. Qed.
(** What a move keeps *)
Lemma moved_same b r : sound b -> barrier_moved b r -> sound r /\ text r "project_id" = text b "project_id" /\
  state_revision_of r = state_revision_of b /\ (active r = true -> active b = true).
Proof.
  intros Hb [Hi _ [st Hst] Hs]. pose proof Hb as [[o Ho] [p Hp] [z Hz] [s Hs']].
  assert (forall f v, f ∈ IDENTITY_FIELDS -> get b f = VStr v -> get r f = VStr v) as Htext.
  { intros f v Hf Hv. rewrite list.Forall_forall in Hi. destruct (Hi f Hf) as [_ [H|H]]; [congruence|]. rewrite Hv in H. by apply eq_str_l. }
  assert (get r "state_revision" = VInt z) as Hrz.
  { rewrite list.Forall_forall in Hi. destruct (Hi "state_revision" ltac:(listed)) as [Hbool [H|H]]; [congruence|].
    rewrite Hz in H. destruct (get r "state_revision"); try done. cbn in H. apply Z.eqb_eq in H. congruence. }
  assert (sound r) as Hr by (constructor; eexists; [eapply Htext; [listed|exact Ho] | eapply Htext; [listed|exact Hp] | exact Hrz | exact Hst]).
  split; [done|]. unfold text at 1 2, state_revision_of. rewrite (Htext "project_id" p ltac:(listed) Hp), Hp, Hrz, Hz. split_and!; [done|done|].
  rewrite !active_text by done. intros Ha. destruct Hs as [Hs | Hs].
  - unfold STATUS_TRANSITIONS in Hs. destruct (String.eqb_spec (text b "status") "held") as [|_]; [by left|].
    destruct (String.eqb_spec (text b "status") "releasing") as [|_]; [by right|].
    destruct (String.eqb _ "released"); [|by apply elem_of_nil in Hs]. apply list_elem_of_singleton in Hs. rewrite Hs in Ha. by destruct Ha.
  - rewrite Hs in Ha. by destruct Ha.
Qed.
Lemma step_fenced d d' : barrier_step d d' -> fenced (barriers d) -> fenced (barriers d').
Proof.
  intros [r -> Ha | l1 b l2 r Hl -> Hm] [Hs Ho]; cbn [barriers set_barriers].
  - destruct Ha as [Hr _ _ Hf Hal]. constructor; [apply list.Forall_app; split; [done | by apply Forall_singleton]|].
    intros i j x y Hij Hx Hy. apply lookup_snoc_Some in Hy as [[Hj Hy] | [-> ->]].
    + rewrite lookup_app_l in Hx by lia. exact (Ho i j x y Hij Hx Hy).
    + rewrite lookup_app_l in Hx by done. apply list_elem_of_lookup_2 in Hx. rewrite list.Forall_forall in Hs, Hf.
      intros Hp. apply same_project_text in Hp; [|by apply Hs|done]. split; [by apply Hf|].
      destruct (active y) eqn:Ey; [|by rewrite andb_false_r]. specialize (Hal eq_refl). rewrite list.Forall_forall in Hal. by rewrite Hal.
  - rewrite Hl in Hs, Ho. apply list.Forall_app in Hs as [Hs1 [Hb Hs2]%Forall_cons]. destruct (moved_same b r Hb Hm) as (Hr & Hp & Hz & Hact).
    constructor; [apply list.Forall_app; split; [done|]; by constructor|].
    assert (forall i x, (l1 ++ r :: l2) !! i = Some x -> exists x0, (l1 ++ b :: l2) !! i = Some x0 /\
      text x "project_id" = text x0 "project_id" /\ state_revision_of x = state_revision_of x0 /\ (active x = true -> active x0 = true)) as Hlk.
    { intros i x Hx. destruct (decide (i = length l1)) as [->|Hi].
      - rewrite list_lookup_middle in Hx by done. injection Hx as <-. exists b. by rewrite list_lookup_middle.
      - exists x. split; [|done]. destruct (decide (i < length l1)%nat); [by rewrite lookup_app_l in Hx |- * by done|].
        rewrite lookup_app_r in Hx |- * by lia. destruct (i - length l1)%nat eqn:Ei; [lia|done]. }
    intros i j x y Hij Hx Hy Hp'. destruct (Hlk _ _ Hx) as (x0 & Hx0 & Ex1 & Ex2 & Ex3). destruct (Hlk _ _ Hy) as (y0 & Hy0 & Ey1 & Ey2 & Ey3).
    destruct (Ho i j x0 y0 Hij Hx0 Hy0) as [H1 H2]; [congruence|]. split; [lia|].
    apply not_true_iff_false. intros [Hax Hay]%andb_true_iff. by rewrite Ex3, Ey3 in H2.
Qed.
(** C21: At every durable state of the rollback control store, over any history of
    its operations, failed and uncertain commits and stopped processes, the
    barriers of a project have strictly increasing state revisions in the order
    they were made, and at most one of them is held or releasing. *)
Theorem barriers_are_fenced d : RollbackControl.reachable d -> fenced (barriers d).
Proof.
  intros H%reachable_steps. assert (fenced (barriers empty_db)) as H0 by (constructor; [constructor | intros i j a b _ Hi; done]).
  revert H0. induction H as [|x y z Hxy _ IH]; [done|]. intros Hx. by eapply IH, step_fenced.
Qed.

(** ** Release *)
Section release.
Context (E : Env).
Lemma record_authorization operation w : authorization (fst (RollbackControl._snapshot_locked E operation w)) = authorization w.
Proof. unfold RollbackControl._snapshot_locked, connection. destruct (connect E _); [|done]. cbn. by destruct (disconnect E _). Qed.
Definition keeps_authorization {A} (m : st World A) : Prop := forall w, authorization (fst (m w)) = authorization w.
Lemma rollback_keeps_bind {A B} (m : st World A) (k : A -> st World B) :
  keeps_authorization m -> (forall a, keeps_authorization (k a)) -> keeps_authorization (sbind m k).
Proof.
  intros H Hk w. unfold sbind. specialize (H w). destruct (m w) as [w1 [a|e]]; [|done]. by rewrite (Hk a w1).
Qed.
Lemma keeps_attempt {A} (m : st World A) : keeps_authorization m -> keeps_authorization (attempt m).
Proof. intros H w. unfold attempt. specialize (H w). by destruct (m w). Qed.
Lemma verify_authorization context : keeps_authorization (adapter_verify E context).
Proof.
  assert (keeps_authorization (_verify_rollback_context_locked E context)) as H.
  { unfold _verify_rollback_context_locked. destruct (get context "operation_id"); try done.
    apply rollback_keeps_bind; [|intros [[? ?]|e]; [|destruct (caught e)]; done]. apply keeps_attempt, rollback_keeps_bind; [exact (record_authorization _)|].
    intros r. by apply rollback_keeps_bind. }
  unfold adapter_verify, verify_rollback_context. destruct (owned E); [done|]. by do 2 (apply rollback_keeps_bind; [done|]; intros _).
Qed.
(** What an authorization names *)
Record authorizes (a : _ReleaseAuthorization) (context current : dict) : Prop := Authorizes {
  authorizes_record : r_operation_id a = text current "operation_id" /\ r_envelope_digest a = text current "envelope_digest" /\
    r_fencing_token a = text current "fencing_token" /\ r_revision a = revision_of current;
  authorizes_status : get current "status" = VStr "releasing";
  authorizes_context : Forall (fun f => eq (get current f) (get context f) = true) IDENTITY_FIELDS;
}.
Lemma authorize_Ok context evidence w w' a : _authorize_release_locked E context evidence w = (w', Ok a) ->
  authorization w' = authorization w /\ db w' = db w /\
  exists current, _SELECT (context_operation context) (db w) = Some current /\ authorizes a context current.
Proof.
  unfold _authorize_release_locked. intros H. apply sbind_Ok_inv in H as (current & w1 & Hr & H).
  pose proof (record_authorization (context_operation context) w) as Ha. rewrite Hr in Ha. cbn [fst] in Ha.
  destruct (record_sound _ _ _ _ _ Hr) as (_ & Hsel & Hdb).
  apply sbind_Ok_inv in H as (u1 & w2 & [-> H1]%slift_Ok_inv & H). apply sbind_Ok_inv in H as (u2 & w3 & [-> _]%slift_Ok_inv & H).
  apply sret_Ok_inv in H as [-> ->]. apply raise_if_Ok, negb_false_iff, andb_true_iff in H1 as [H1%eq_str H2].
  split_and!; [done | done|]. exists current. split; [done|]. constructor; [done | done|].
  apply list.Forall_forall. intros f Hf. rewrite forallb_forall in H2. apply H2. by apply list_elem_of_In.
Qed.
(** Only a reread that shows every identity of the context authorizes a release. *)
Lemma revalidate_Ok context reread w w' ev : revalidate_rollback E context reread w = (w', Ok ev) ->
  db w' = db w /\ exists state, reread = Ok (Some state) /\ reread_invalid context state = false /\
    (authorization w' = authorization w \/ exists a current, authorization w' = Some a /\
       _SELECT (context_operation context) (db w) = Some current /\ authorizes a context current).
Proof.
  unfold revalidate_rollback. intros H. apply sbind_Ok_inv in H as (answer & w1 & Hv & H).
  pose proof (verify_authorization context w) as Ha. rewrite Hv in Ha. cbn [fst] in Ha. pose proof (verify_still E context w) as Hs. rewrite Hv in Hs. destruct Hs as [_ Hdb]. cbn [fst] in Hdb.
  apply sbind_Ok_inv in H as (durable & w2 & Hd & H). destruct answer as [x|]; [|done]. apply sret_Ok_inv in Hd as [-> ->].
  apply sbind_Ok_inv in H as (u1 & w3 & [-> _]%slift_Ok_inv & H). apply sbind_Ok_inv in H as (os & w4 & [-> Hos]%slift_Ok_inv & H).
  unfold recast in Hos. destruct reread as [os'|]; [|done]. injection Hos as ->.
  apply sbind_Ok_inv in H as (state & w5 & Hst & H). destruct os as [state'|]; [|done]. apply sret_Ok_inv in Hst as [-> ->].
  apply sbind_Ok_inv in H as (u2 & w6 & [-> Hi]%slift_Ok_inv & H). apply raise_if_Ok, negb_false_iff, negb_true_iff in Hi.
  apply sbind_Ok_inv in H as (u3 & w7 & Hw & H). apply sret_Ok_inv in H as [-> _].
  destruct (eq (get x "status") (VStr "releasing")).
  - apply sbind_Ok_inv in Hw as (u4 & w8 & [-> _]%slift_Ok_inv & Hw). apply sbind_Ok_inv in Hw as (a & w9 & Hau%authorize_Ok & Hw).
    apply smodify_Ok_inv in Hw as ->. destruct Hau as (H1 & H2 & current & H3 & H4). cbn [db authorization]. rewrite Hdb in *.
    split; [congruence|]. exists state'. split_and!; [done|done|]. right. by exists a, current.
  - apply sret_Ok_inv in Hw as [-> _]. split; [done|]. exists state'. auto.
Qed.
Lemma cas_connection_Ok n s w w' r : _cas_connection E n s w = (w', Ok r) ->
  r = with_revision s (n + 1) /\ cas_barrier n s (db w) = Ok (db w').
Proof.
  unfold _cas_connection. intros H. apply sbind_Ok_inv in H as (u & w1 & [-> _]%slift_Ok_inv & H). cbv zeta in H.
  apply sbind_Ok_inv in H as (d & w2 & Hd & H). pose proof (proj1 (transaction_answers E (cas_barrier n s)) w) as Hs. rewrite Hd in Hs.
  apply transaction_answers in Hd. apply sbind_Ok_inv in H as (u2 & w3 & Hc%commit_or_Ok & H). apply sret_Ok_inv in H as [-> ->]. by rewrite Hc.
Qed.
Lemma complete_Ok context w w' r : complete_release_rollback_context E context w = (w', Ok r) ->
  authorization w' = None /\ exists a current operation, authorization w = Some a /\ operation_of context = Ok operation /\
    _SELECT (VStr operation) (db w) = Some current /\ stale_authorization operation a current = false /\
    r = with_revision (dset current "status" (VStr "released")) (revision_of current + 1) /\
    cas_barrier (revision_of current) (dset current "status" (VStr "released")) (db w) = Ok (db w').
Proof.
  unfold complete_release_rollback_context. intros H. apply sbind_Ok_inv in H as (operation & w1 & [-> Ho]%slift_Ok_inv & H).
  apply sbind_Ok_inv in H as (u & w2 & [-> _]%slift_Ok_inv & H). apply sbind_Ok_inv in H as (w3 & w4 & [= <- <-] & H).
  destruct (authorization w) as [a|] eqn:Ea; [|done]. apply sbind_Ok_inv in H as (answer & w5 & Ha & H).
  apply sbind_Ok_inv in H as (u2 & w6 & Hw%smodify_Ok_inv & [-> ->]%slift_Ok_inv). subst w6. split; [done|].
  unfold attempt in Ha. destruct (_complete_release_locked E operation a w) as [w7 r7] eqn:Ec. injection Ha as -> ->. cbn [db].
  unfold _complete_release_locked in Ec. apply sbind_Ok_inv in Ec as (current & w8 & Hr & Ec).
  destruct (record_sound _ _ _ _ _ Hr) as (_ & Hsel & Hdb). apply sbind_Ok_inv in Ec as (u3 & w9 & [-> Hst]%slift_Ok_inv & Ec).
  apply raise_if_Ok, negb_false_iff, negb_true_iff in Hst. apply sbind_Ok_inv in Ec as (u4 & w10 & [-> _]%slift_Ok_inv & Ec).
  assert (exists w11, db w11 = db w8 /\ exists w12, db w12 = db w5 /\ _cas_connection E (revision_of current) (dset current "status" (VStr "released")) w11 = (w12, Ok r)) as (w11 & E11 & w12 & E12 & Hc).
  { unfold connection in Ec. destruct (connect E _); [|done]. set (w0 := MkWorld _ _ _ _ _ _) in Ec. exists w0. split; [done|].
    destruct (_cas_connection _ _ _ w0) as [w13 x]. destruct (disconnect E _); [|done]. injection Ec as -> ->. by exists w5. }
  apply cas_connection_Ok in Hc as [-> Hc]. exists a, current, operation. split_and!; try done. rewrite <- Hdb, <- E11, <- E12. done.
Qed.
End release.
(** C20: The adapter releases a rollback barrier only over a fresh reread of its
    authority: when a revalidation and then a completion succeed, the reread
    showed the backend, project, revision, token and target of the context and a
    sound database, the barrier of the context was releasing with every identity
    of the context, the barrier that was released is the one the authorization
    names, in its revision, and the authorization is used up. *)
Theorem release_follows_reread E context context' reread w1 w2 w3 evidence released :
  authorization w1 = None -> revalidate_rollback E context reread w1 = (w2, Ok evidence) ->
  complete_release_rollback_context E context' w2 = (w3, Ok released) ->
  authorization w3 = None /\ exists state a reread_record current operation,
    reread = Ok (Some state) /\ reread_invalid context state = false /\
    _SELECT (context_operation context) (db w1) = Some reread_record /\ authorizes a context reread_record /\
    operation_of context' = Ok operation /\ r_operation_id a = operation /\
    _SELECT (VStr operation) (db w1) = Some current /\ stale_authorization operation a current = false /\
    released = with_revision (dset current "status" (VStr "released")) (revision_of current + 1).
Proof.
  intros H1 (Hdb & state & -> & Hi & Ha)%revalidate_Ok (Hn & a & current & operation & Ha' & Ho & Hs & Hst & -> & _)%complete_Ok.
  split; [done|]. destruct Ha as [Ha | (a' & rec & Ha & Hsel & Hauth)]; [congruence|].
  assert (a' = a) as -> by congruence. rewrite Hdb in Hs. exists state, a, rec, current, operation. split_and!; try done.
  unfold stale_authorization in Hst. rewrite !orb_false_iff, !negb_false_iff in Hst. apply String.eqb_eq. tauto.
Qed.
End RollbackLaws.
