(* ===== verification/ControlSamples.v ===== *)
(** * A sample control store

    Concrete histories of the control store: the theorems on it applied to
    them. *)
From S2P Require Import Prelude PyStr PyVal JsonParse UpgradeIdentity PhaseAdapters SqliteStore BarrierSession ControlStore ControlLaws.
From S2P Require Import ControlHistory ControlRecovery EffectRuns RollbackControl RollbackLaws.

Module ControlSamples.
Import PyStr Py BarrierSession ControlStore ControlLaws ControlHistory ControlRecovery EffectRuns RollbackLaws(barriers_are_fenced, fenced,
  release_follows_reread).
Import UpgradeIdentity(sample_session, sample_fields, session_fields, seal, hexdigest).
Import PhaseAdapters(CommitAdmissionBundle, MkBundle).

(** ** Environments *)
Definition env_with (label : string) (owned : bool) (commits : nat -> outcome) : Env :=
  MkEnv (UpgradeIdentity.project_id sample_session) owned (Ok tt) (Ok tt) (Ok tt) (Some (Ok (VStr "rev-7"))) (Ok tt)
    (fun _ => Ok tt) (fun _ => Ok tt) (fun _ => Ok tt) commits (fun n => label +:+ of_Z (Z.of_nat n)).
Definition env (label : string) : Env := env_with label false (fun _ => Committed).
(** The first commit is durable although it raises. *)
Definition shaken : Env := env_with "s" false (fun n => match n with O => Uncertain | _ => Committed end).
Lemma env_calm label : calm (env label).
Proof. by constructor. Qed.
Definition after (E : Env) (o : op) (d : Db) : Db := db (fst (run E o (start d))).
Definition left_at (n : nat) (E : Env) (o : op) (d : Db) : Db := nth n (past (fst (run E o (start d)))) d.
Lemma leaves_at n E o d d' : nth_error (past (fst (run E o (start d)))) n = Some d' -> leaves E o d d'.
Proof. intros H. right. by eapply list_elem_of_In, nth_error_In. Qed.

(** ** Sessions *)
Definition held : Db := Eval vm_compute in after (env "a") (Create sample_session) empty_db.
Definition shaken_db : Db := Eval vm_compute in left_at 1 shaken (Create sample_session) empty_db.
Definition ambiguous : Db := Eval vm_compute in after (env "b") (MarkAmbiguous 1 "lost-host") held.
Definition digest : string := Eval vm_compute in UpgradeIdentity.identity_digest sample_session.
Definition child : UpgradeIdentity.BarrierChildIdentity := UpgradeIdentity.MkChild "op-1" "new" digest.
Definition bound_db : Db := Eval vm_compute in after (env "c") (BindChild 1 child) held.
Definition child_evidence : dict :=
  [("operation_id", VStr "op-1"); ("target", VStr "new"); ("barrier_identity_digest", VStr digest); ("validated", VBool true)].
Definition runtime_evidence : dict :=
  [("authority_revision", VStr "rev-7"); ("backend", VStr "sqlite"); ("backend_roundtrip", VStr "sqlite"); ("foreign_key_violations", VInt 0);
   ("fencing_token", VStr "fence-1"); ("integrity_check", VStr "ok");
   ("project_id", VStr (UpgradeIdentity.project_id sample_session)); ("target", VStr "new"); ("verified", VBool true)].
Definition releasing : Db := Eval vm_compute in after (env "d") (BeginReopen 2 "new" (Some child_evidence)) bound_db.
(** The process stops between the two commits of the release. *)
Definition half_released : Db := Eval vm_compute in left_at 0 (env "e") (CompleteReopen 3 (Some runtime_evidence)) releasing.
Example half_released_status : exists s, current_of (env "e") half_released = Ok (Some s) /\ status s = "released".
Proof. eexists. split; [vm_compute; reflexivity | reflexivity]. Qed.

(** A newer session *)
Definition newer_fields : dict :=
  [("schema_version", VInt 1); ("project_id", get session_fields "project_id"); ("attempt_id", VStr "attempt-2"); ("state_revision", VInt 8);
   ("authority_revision_at_acquire", VStr "rev-7"); ("durable_barrier_id", VStr "barrier-2"); ("fencing_token", VStr "fence-2");
   ("fencing_owner", VStr "owner-1")].
Definition newer_session : UpgradeIdentity.BarrierSessionIdentity :=
  Eval vm_compute in match UpgradeIdentity.from_record (newer_fields ++ [("identity_digest", VStr (hexdigest newer_fields))]) with
                     | Ok i => i | Raise _ => sample_session end.
Definition newer : BarrierSessionState := MkState newer_session "held" 1 None None None.
(** A session that became ambiguous at its third revision *)
Definition ambiguous_late : Db := Eval vm_compute in after (env "f") (MarkAmbiguous 2 "lost-host") bound_db.
Definition late : BarrierSessionState :=
  Eval vm_compute in match current_of (env "f") ambiguous_late with Ok (Some s) => s | _ => newer end.
Definition half_reconciled : Db := Eval vm_compute in left_at 0 (env "g") (Reconcile false 3 newer) ambiguous_late.

(** ** Effects *)
Definition bundle : CommitAdmissionBundle :=
  MkBundle "git" "new" "op-1:commit" "fence-1" 1 "barrier-1" "artifact" "manifest" "selector" "runtime".
Definition answered : res dict := Ok (PhaseAdapters.bundle_fields bundle ++ [("mutates_authority", VBool true)]).
Definition executed : (bool * (World * list string)) * res PhaseAdapters.MutationReceipt :=
  Eval vm_compute in execute (env "h") bundle 1 answered held [].
Definition prepared : World :=
  Eval vm_compute in fst (prepare_authority_effect (env "h") false 1 "op-1:commit" "git" "new" (expected_of bundle) (start held)).
Definition intent : AuthorityEffectIntent :=
  Eval vm_compute in match effects (db prepared) with r :: _ => e_intent r | [] => MkIntent "" "" "" "" "" "" "" 0 None None None None end.
Definition receipt : dict := receipt_attributes (Some (PhaseAdapters.receipt_of bundle)).
Definition finished_world : World :=
  Eval vm_compute in fst (finish_authority_effect (env "h") false intent "committed" receipt prepared).
Definition held_state : BarrierSessionState := MkState sample_session "held" 1 None None None.

(** ** Rollback barriers *)
Definition barrier : dict := Eval vm_compute in
  seal (dset (dset sample_fields "backend" (VStr "sqlite")) "target" (VStr "rollback")) ++ [("status", VStr "held"); ("revision", VInt 1)].
Definition barrier_db : Db := Eval vm_compute in
  db (fst (RollbackControl.run (env "i") (RollbackControl.Cas 0 barrier) (RollbackControl.start_with empty_db None))).
Definition locked : Env := env_with "j" true (fun _ => Committed).
Definition releasing_world : World := Eval vm_compute in
  fst (RollbackControl.run locked (RollbackControl.AdapterBegin barrier) (RollbackControl.start_with barrier_db None)).
Definition reread : RollbackControl.SQLiteAuthorityRuntimeState :=
  RollbackControl.MkRuntime (VStr "sqlite") (get barrier "project_id") (get barrier "authority_revision") (get barrier "fencing_token")
    (VStr "rollback") (VStr "ok") (VInt 0) (VStr "sqlite").
Definition authorized : World := Eval vm_compute in
  fst (RollbackControl.revalidate_rollback locked barrier (Ok (Some reread)) releasing_world).
Definition released : World := Eval vm_compute in fst (RollbackControl.complete_release_rollback_context locked barrier authorized).
Example released_barrier : map (fun b => (get b "status", get b "revision")) (barriers (db released)) = [(VStr "released", VInt 3)].
Proof. reflexivity. Qed.
Example half_reconciled_open : map s_outcome (intents half_reconciled) = ["committed"; "committed"; "committed"; "prepared"].
Proof. reflexivity. Qed.
Example finished_effect : map e_outcome (effects (db finished_world)) = ["committed"].
Proof. reflexivity. Qed.

(** ** The theorems at these states *)
Definition row_at (d : Db) : list value := match session d with Some row => row | None => [] end.
Lemma held_reachable : reachable (project (env "a")) held.
Proof.
  eapply (reachable_run _ (env "a") (Create sample_session) empty_db); [done | apply reachable_empty | apply (leaves_at 1); vm_compute; reflexivity].
Qed.
Lemma barrier_fence_monotone_witness : exists row', session ambiguous = Some row' /\ row_le (row_at held) row'.
Proof.
  apply (barrier_fence_monotone (env "b") (MarkAmbiguous 1 "lost-host") held ambiguous (row_at held)).
  - apply (leaves_at 1). vm_compute. reflexivity.
  - reflexivity.
Defined.
Lemma control_store_refines_witness : rtc (legal (project (env "b"))) held ambiguous.
Proof. apply (control_store_refines (env "b") (MarkAmbiguous 1 "lost-host")). apply (leaves_at 1). vm_compute. reflexivity. Defined.
Lemma effects_recorded_once_witness : recorded_once held.
Proof. apply (effects_recorded_once (project (env "a")) held held_reachable). Defined.
Lemma effect_runs_at_most_once_witness : NoDup ["op-1:commit"] /\ Forall (fun o => o ∈ operations (db executed.1.2.1)) ["op-1:commit"].
Proof.
  apply (effect_runs_at_most_once (project (env "h")) (db executed.1.2.1) ["op-1:commit"]).
  change ["op-1:commit"] with executed.1.2.2.
  eapply (executions_effect _ (env "h") bundle 1 answered held [] executed.1 executed.2); [done | | vm_compute; reflexivity].
  eapply executions_store; [| apply executions_empty | apply (leaves_at 1 (env "a") (Create sample_session)); vm_compute; reflexivity]. done.
Defined.
Lemma interrupted_change_recovers_witness : exists w r,
  recover_unknown (env "r") (start shaken_db) = (w, Ok r) /\ recovered (env "r") r (existsb prepared_intent (intents shaken_db)) (db w).
Proof.
  apply (interrupted_change_recovers shaken (env "r") (Create sample_session) empty_db shaken_db).
  - constructor; [done | done | by exists None | done].
  - split; [|done]. split; [vm_compute; reflexivity | by eexists].
  - apply (leaves_at 1). vm_compute. reflexivity.
  - apply env_calm.
  - done.
Defined.
Lemma interrupted_release_blocked_witness :
  blocked (recover_unknown (env "r")) half_released /\ blocked (recover_unknown_locked (env "r")) half_released.
Proof.
  eapply interrupted_release_blocked; [vm_compute; reflexivity | reflexivity | reflexivity | reflexivity].
Defined.
Lemma interrupted_reconciliation_recovers_at_two_witness :
  blocked (recover_unknown (env "r")) half_reconciled /\ blocked (recover_unknown_locked (env "r")) half_reconciled.
Proof.
  eapply (interrupted_reconciliation_recovers_at_two (env "r") "g0" 3 newer late ambiguous_late half_reconciled).
  - constructor; [vm_compute; reflexivity | vm_compute; reflexivity | eexists; vm_compute; reflexivity | intros row [= <-]; by eexists].
  - split; [vm_compute; reflexivity | by eexists].
  - vm_compute. reflexivity.
  - reflexivity.
  - reflexivity.
  - reflexivity.
  - lia.
  - vm_compute. reflexivity.
  - lia.
Defined.
Lemma finish_publishes_outcome_witness :
  finished (env "h") intent "committed" receipt (db prepared) (db finished_world) held_state.
Proof. apply (finish_publishes_outcome (env "h") false intent "committed" receipt prepared finished_world). vm_compute. reflexivity. Defined.
Lemma barriers_are_fenced_witness : fenced (barriers barrier_db).
Proof.
  apply barriers_are_fenced. eapply (RollbackControl.reachable_run (env "i") (RollbackControl.Cas 0 barrier) None empty_db).
  - apply RollbackControl.reachable_empty.
  - right. eapply list_elem_of_In, (nth_error_In _ 0). vm_compute. reflexivity.
Defined.
Lemma release_follows_reread_witness : authorization released = None.
Proof.
  eapply (release_follows_reread locked barrier barrier (Ok (Some reread)) releasing_world authorized released); [reflexivity | vm_compute; reflexivity | vm_compute; reflexivity].
Defined.
End ControlSamples.
