(* ===== verification/SessionChain.v ===== *)
(** * The hash chain of a durable upgrade session ([durable_session_chain.py])

    A record of the chain carries the digest of its other fields and the digest
    of the record before it; records of one chain share the identity of their
    session and are numbered from one.  Validation accepts exactly such lists,
    and the digest of the last record pins the chain up to a collision. *)
From S2P Require Import Prelude PyStr PyVal Regex PyJson Sha256 JsonParse Journal Chain Canonical.

Module SessionChain.
Import PyStr Py Chain.

Definition SCHEMA_VERSION : Z := 1.
Definition GENESIS_DIGEST : value := VNull.
Definition _TOKEN : Regex.re :=
  Regex.cat (Regex.RChar Regex.alnum) (Regex.upto 127 (Regex.RChar (Regex.union Regex.alnum (Regex.one_of "._:-")))).
Definition _DIGEST : Regex.re := Regex.HEX 64.
Definition _STATUSES : list string := ["open"; "committed"; "rolled_back"; "ambiguous"].
Definition _FSYNC_STATES : list string := ["pending"; "durable"; "uncertain"].
Definition FIELDS : list string :=
  ["schema_version"; "session_id"; "operation_id"; "parent_operation_id"; "journal_sequence"; "previous_record_digest";
   "state_revision"; "journal_identity"; "authority_identity"; "barrier_id"; "fencing_owner"; "fencing_token"; "status";
   "fsync_state"; "payload"; "record_digest"].
Definition IMMUTABLE_SESSION_FIELDS : list string :=
  ["session_id"; "journal_identity"; "authority_identity"; "barrier_id"; "fencing_owner"; "fencing_token"].

Definition chain_error {A} (msg : string) : res A := Raise (ClassError "SessionChainError" msg).
Definition refuse_if (c : bool) (msg : string) : res unit := raise_if c (ClassError "SessionChainError" msg).

Definition _canonical_bytes (d : dict) : string := Canonical.bytes (VDict d).
(** [{field: record[field] for field in FIELDS if field != "record_digest"}] *)
Definition unsigned (record : dict) : res dict :=
  mapr (fun field => let* v := item record field in Ok (field, v))
    (List.filter (fun field => negb (String.eqb field "record_digest")) FIELDS).
Definition canonical_record_digest (record : dict) : res string :=
  check refuse_if (negb (has record "record_digest")) "session record digest is missing" ;;
  let* d := unsigned record in
  Ok (Sha256.hexdigest (_canonical_bytes d)).

Definition is_match (r : Regex.re) (v : value) : bool := match v with VStr s => Regex.fullmatch r s | _ => false end.
Definition _token (field : string) (v : value) (nullable : bool) : res unit :=
  if nullable && is_null v then Ok tt
  else refuse_if (negb (is_match _TOKEN v)) ("session " +:+ field +:+ " is invalid").
Definition token_field (record : dict) (nullable : bool) (field : string) : res unit :=
  let* v := item record field in _token field v nullable.
Definition counter_field (record : dict) (field : string) : res unit :=
  let* v := item record field in
  raise_when (py_or [cond (negb (type_int v)); lt_z v 1]) (ClassError "SessionChainError" ("session " +:+ field +:+ " is invalid")).
(** A field is a member of a frozenset. *)
Definition chosen_field (record : dict) (field : string) (allowed : list string) (msg : string) : res unit :=
  let* v := item record field in
  raise_when (py_not (in_set v allowed)) (ClassError "SessionChainError" msg).

Definition validate_fields (record : dict) : res unit :=
  let* version := item record "schema_version" in
  check refuse_if (negb (is_z version SCHEMA_VERSION)) "session record schema version is invalid" ;;
  check token_field record false "session_id" ;;
  check token_field record false "operation_id" ;;
  check token_field record true "parent_operation_id" ;;
  let* _ := mapr (token_field record false) ["journal_identity"; "authority_identity"; "barrier_id"; "fencing_owner"; "fencing_token"] in
  let* _ := mapr (counter_field record) ["journal_sequence"; "state_revision"] in
  let* previous := item record "previous_record_digest" in
  check refuse_if (negb (is_null previous) && negb (is_match _DIGEST previous)) "session previous record digest is invalid" ;;
  check chosen_field record "status" _STATUSES "session status is invalid" ;;
  check chosen_field record "fsync_state" _FSYNC_STATES "session fsync state is invalid" ;;
  let* fsync := item record "fsync_state" in
  let* status := item record "status" in
  check refuse_if (is_s fsync "uncertain" && negb (is_s status "ambiguous"))
    "uncertain fsync state must be permanently ambiguous" ;;
  let* payload := item record "payload" in
  refuse_if (negb (is_dict payload)) "session payload is invalid".
Definition validate_record (record : value) : res dict :=
  match record with
  | VDict d =>
      check refuse_if (negb (keys_are d FIELDS)) "session record fields are invalid" ;;
      check validate_fields d ;;
      let* digest := item d "record_digest" in
      check refuse_if (negb (is_match _DIGEST digest)) "session record digest is invalid" ;;
      let* expected := canonical_record_digest d in
      check refuse_if (negb (is_s digest expected)) "session record digest does not match" ;;
      Ok d
  | _ => chain_error "session record fields are invalid"
  end.

(** The checks of [validate_chain] on a record and the one before it. *)
Definition same_field (prior current : dict) (field : string) : res unit :=
  let* x := item current field in
  let* y := item prior field in
  refuse_if (ne x y) ("session identity changed: " +:+ field).
Definition follows (prior : option dict) (current : dict) : res unit :=
  let* previous := item current "previous_record_digest" in
  match prior with
  | None => refuse_if (negb (is_null previous)) "first session record must use the genesis digest"
  | Some p =>
      let* digest := item p "record_digest" in
      check refuse_if (ne previous digest) "session hash chain is broken" ;;
      let* _ := mapr (same_field p current) IMMUTABLE_SESSION_FIELDS in
      Ok tt
  end.
Fixpoint validate_from (expected_sequence : Z) (prior : option dict) (records : list value) : res (list dict) :=
  match records with
  | [] => Ok []
  | raw :: records' =>
      let* current := validate_record raw in
      let* sequence := item current "journal_sequence" in
      check refuse_if (negb (is_z sequence expected_sequence)) "session journal sequence is not contiguous" ;;
      check follows prior current ;;
      let* validated := validate_from (expected_sequence + 1) (Some current) records' in
      Ok (current :: validated)
  end.
Definition validate_chain (records : list value) : res (list dict) := validate_from 1 None records.

Definition reconcile_replay (existing incoming : value) : res string :=
  let* old := validate_record existing in
  let* new := validate_record incoming in
  let* x := item old "journal_sequence" in
  let* y := item new "journal_sequence" in
  check refuse_if (ne x y) "replayed session sequence does not match" ;;
  check refuse_if (negb (String.eqb (_canonical_bytes old) (_canonical_bytes new))) "conflicting duplicate session record" ;;
  Ok "exact".

Record DurableSessionChain : Type := MkChain { records : list dict }.
Definition load (rs : list value) : res DurableSessionChain := let* l := validate_chain rs in Ok (MkChain l).
Definition terminal (c : DurableSessionChain) : option dict := last (records c).
Definition append (c : DurableSessionChain) (record : value) : res DurableSessionChain :=
  load (map VDict (records c) ++ [record]).

(** ** What validation accepts *)
(** A record that passes [validate_record]. *)
Definition admitted (r : dict) : Prop := validate_record (VDict r) = Ok r.
(** A record that continues the records before it. *)
Record link (before : list dict) (r : dict) : Prop := Link {
  link_admitted : admitted r;
  link_sequence : get r "journal_sequence" = VInt (Z.of_nat (length before) + 1);
  link_previous : get r "previous_record_digest" = match last before with None => VNull | Some p => get p "record_digest" end;
  link_identity : forall p field, last before = Some p -> field ∈ IMMUTABLE_SESSION_FIELDS -> get r field = get p field;
}.

Lemma refuse_if_Ok c msg u : refuse_if c msg = Ok u -> c = false.
Proof. apply raise_if_Ok. Qed.
Lemma validate_record_inv v r : validate_record v = Ok r -> v = VDict r /\ admitted r.
Proof.
  intros H. assert (v = VDict r) as ->; [|done].
  destruct v as [| | | | |d]; try discriminate H. unfold validate_record in H. by inv_ok.
Qed.
Lemma admitted_keys r : admitted r -> keys_are r FIELDS = true.
Proof. unfold admitted, validate_record. intros H. inv_step. by apply refuse_if_Ok, negb_false_iff in E. Qed.
Lemma admitted_item r k : admitted r -> k ∈ FIELDS -> item r k = Ok (get r k).
Proof. intros H%admitted_keys Hk. apply has_item. by eapply keys_are_has. Qed.
Lemma mapr_Forall {A B} (f : A -> res B) l ys : mapr f l = Ok ys -> Forall (fun x => exists y, f x = Ok y) l.
Proof. revert ys. induction l as [|x l IH]; intros ys H; [constructor|]. cbn in H. inv_ok. constructor; eauto. Qed.
Lemma admitted_digest r : admitted r -> exists d, unsigned r = Ok d /\ get r "record_digest" = VStr (Sha256.hexdigest (_canonical_bytes d)).
Proof.
  intros H. pose proof (admitted_item r "record_digest" H ltac:(listed)) as Ed.
  unfold admitted, validate_record in H. do 5 inv_step. rewrite Ed in E1. injection E1 as <-.
  apply rbind_Ok_inv in H as (u & Hu%refuse_if_Ok%negb_false_iff%eq_str & _).
  apply rbind_Ok_inv in E3 as (u' & _ & (d & Ed' & [= <-])%rbind_Ok_inv). eauto.
Qed.

(** The checks of the fields, one lemma for each kind. *)
Record checked (r : dict) : Prop := Checked {
  c_session : exists u, token_field r false "session_id" = Ok u;
  c_tokens : Forall (fun f => exists u, token_field r false f = Ok u)
    ["journal_identity"; "authority_identity"; "barrier_id"; "fencing_owner"; "fencing_token"];
  c_counters : Forall (fun f => exists u, counter_field r f = Ok u) ["journal_sequence"; "state_revision"];
}.
Lemma admitted_checked r : admitted r -> checked r.
Proof.
  unfold admitted, validate_record. intros H. do 2 inv_step. clear H. unfold validate_fields in E0. do 7 inv_step.
  split; [by eauto | by eapply mapr_Forall..].
Qed.
Lemma token_field_str r f u : token_field r false f = Ok u -> exists s, get r f = VStr s.
Proof.
  unfold token_field, _token. intros H. inv_step. apply item_get in E as ->. cbn in H.
  apply refuse_if_Ok, negb_false_iff in H. destruct r0; try discriminate H. eauto.
Qed.
Lemma admitted_immutable r f : admitted r -> f ∈ IMMUTABLE_SESSION_FIELDS -> exists s, get r f = VStr s.
Proof.
  intros [Hs Ht _]%admitted_checked. rewrite list.Forall_forall in Ht.
  intros [-> | Hf]%elem_of_cons; [destruct Hs as [u Hu]; by eapply token_field_str|]. destruct (Ht f Hf) as [u Hu]. by eapply token_field_str.
Qed.
Lemma admitted_sequence r : admitted r -> exists z, get r "journal_sequence" = VInt z.
Proof.
  intros H. destruct (admitted_checked _ H) as [_ _ [[u Hu] _]%Forall_cons].
  unfold counter_field in Hu. rewrite (admitted_item r _ H) in Hu by listed. cbn [rbind] in Hu.
  apply raise_when_Ok, py_or_false, Forall_cons in Hu as [Hu%Ok_inj%negb_false_iff _]. by apply type_int_inv.
Qed.

(** ** Validation is exactly the links *)
Lemma same_field_Ok p r f : admitted p -> admitted r -> f ∈ IMMUTABLE_SESSION_FIELDS ->
  same_field p r f = Ok tt <-> get r f = get p f.
Proof.
  intros Hp Hr Hf. assert (f ∈ FIELDS) by listed. unfold same_field. rewrite !admitted_item by done. cbn [rbind].
  destruct (admitted_immutable p f Hp Hf) as [s ->], (admitted_immutable r f Hr Hf) as [s' ->].
  unfold ne, refuse_if. rewrite eq_str_str. destruct (String.eqb_spec s' s); cbn; naive_solver.
Qed.
Lemma mapr_unit {A} (f : A -> res unit) l : (exists us, mapr f l = Ok us) <-> Forall (fun x => f x = Ok tt) l.
Proof.
  split.
  - intros [us H%mapr_Forall]. eapply list.Forall_impl; [exact H|]. by intros x [[] Hx].
  - induction 1 as [|x l Hx _ [us IH]]; [by exists []|]. exists (tt :: us). cbn. by rewrite Hx, IH.
Qed.
Lemma follows_Ok prior r : admitted r -> (forall p, prior = Some p -> admitted p) ->
  follows prior r = Ok tt <->
  get r "previous_record_digest" = match prior with None => VNull | Some p => get p "record_digest" end /\
  (forall p field, prior = Some p -> field ∈ IMMUTABLE_SESSION_FIELDS -> get r field = get p field).
Proof.
  intros Hr Hp. unfold follows. rewrite admitted_item by (done || listed). cbn [rbind].
  destruct prior as [p|].
  - specialize (Hp p eq_refl). rewrite admitted_item by (done || listed). cbn [rbind].
    destruct (admitted_digest _ Hp) as (d & _ & ->). unfold ne, refuse_if, raise_if.
    pose proof (eq_str (get r "previous_record_digest") (Sha256.hexdigest (_canonical_bytes d))) as Hs.
    destruct (eq _ _); cbn [negb rbind]; [|split; [done | intros [H _]; by apply Hs in H]].
    pose proof (mapr_unit (same_field p r) IMMUTABLE_SESSION_FIELDS) as Hm. rewrite list.Forall_forall in Hm.
    destruct (mapr _ _) as [us|e] eqn:E; cbn [rbind].
    + split; [|done]. intros _. split; [by apply Hs|]. intros p' f [= <-] Hf. apply same_field_Ok; [done..|].
      by apply Hm; [exists us|].
    + split; [done|]. intros [_ H]. enough (exists us, Raise (A:=list unit) e = Ok us) as [? ?] by done. apply Hm.
      intros f Hf. apply same_field_Ok; auto.
  - unfold refuse_if, raise_if. destruct (is_null (get r "previous_record_digest")) eqn:E; cbn [negb].
    + split; [|done]. intros _. by destruct (get r "previous_record_digest").
    + split; [done|]. intros [H _]. by rewrite H in E.
Qed.
Lemma last_admitted before : each link before -> forall p, last before = Some p -> admitted p.
Proof.
  intros H p (l & ->)%last_Some. by destruct (H l p [] eq_refl).
Qed.
Lemma validate_one before v r : each link before ->
  (let* current := validate_record v in
   let* sequence := item current "journal_sequence" in
   check refuse_if (negb (is_z sequence (Z.of_nat (length before) + 1))) "session journal sequence is not contiguous" ;;
   check follows (last before) current ;; Ok current) = Ok r <-> v = VDict r /\ link before r.
Proof.
  intros Hb. split.
  - intros (r' & [-> Hr]%validate_record_inv & H)%rbind_Ok_inv. rewrite admitted_item in H by (done || listed). cbn [rbind] in H.
    destruct (admitted_sequence _ Hr) as [z Ez]. rewrite Ez in H.
    apply rbind_Ok_inv in H as (u & Hz%refuse_if_Ok%negb_false_iff & H). unfold is_z in Hz. rewrite eq_int_int in Hz.
    apply Z.eqb_eq in Hz as ->. apply rbind_Ok_inv in H as ([] & Hf & [= <-]). split; [done|].
    apply follows_Ok in Hf as [Hp Hi]; [by split|done|by apply last_admitted].
  - intros [-> [Hr Hs Hp Hi]]. rewrite Hr. cbn [rbind]. rewrite admitted_item, Hs by (done || listed). cbn [rbind].
    unfold is_z. rewrite eq_int_int, Z.eqb_refl. cbn [negb refuse_if raise_if rbind].
    destruct (follows_Ok (last before) r Hr (last_admitted _ Hb)) as [_ Hf]. by rewrite (Hf (conj Hp Hi)).
Qed.
Lemma validate_from_spec rs before l : each link before ->
  validate_from (Z.of_nat (length before) + 1) (last before) rs = Ok l <->
  rs = map VDict l /\ each link (before ++ l).
Proof.
  revert before l. induction rs as [|v rs IH]; intros before l Hb.
  - cbn. split.
    + intros [= <-]. by rewrite app_nil_r.
    + intros [H _]. by destruct l.
  - pose proof (validate_one before v) as H1. cbn [validate_from]. split.
    + intros (r & Er & (z & Ez & (u & Eu & (u' & Ef & (l' & El & [= <-])%rbind_Ok_inv)%rbind_Ok_inv)%rbind_Ok_inv)%rbind_Ok_inv)%rbind_Ok_inv.
      destruct (H1 r Hb) as [[-> Hl] _]; [by rewrite Er; cbn [rbind]; rewrite Ez; cbn [rbind]; rewrite Eu; cbn [rbind]; rewrite Ef|].
      assert (each link (before ++ [r])) as Hb' by (by apply each_snoc).
      replace (Z.of_nat (length before) + 1 + 1) with (Z.of_nat (length (before ++ [r])) + 1) in El by (rewrite length_app; cbn; lia).
      replace (Some r) with (last (before ++ [r])) in El by apply last_snoc.
      apply IH in El as [-> Ha]; [|done]. by rewrite <- app_assoc in Ha.
    + intros [E Ha]. destruct l as [|r l]; [done|]. injection E as -> ->.
      assert (link before r) as Hl by (by apply (Ha before r l)).
      assert (each link (before ++ [r])) as Hb' by (by apply each_snoc).
      destruct (H1 r Hb) as [_ H2]. specialize (H2 (conj eq_refl Hl)).
      apply rbind_Ok_inv in H2 as (r' & Er & (z & Ez & (u & Eu & (u' & Ef & [= ->])%rbind_Ok_inv)%rbind_Ok_inv)%rbind_Ok_inv).
      rewrite Er. cbn [rbind]. rewrite Ez. cbn [rbind]. rewrite Eu. cbn [rbind]. rewrite Ef. cbn [rbind].
      replace (Z.of_nat (length before) + 1 + 1) with (Z.of_nat (length (before ++ [r])) + 1) by (rewrite length_app; cbn; lia).
      replace (Some r) with (last (before ++ [r])) by apply last_snoc.
      destruct (IH (before ++ [r]) l Hb') as [_ H3]. rewrite H3; [done|]. split; [done|]. by rewrite <- app_assoc.
Qed.

(** ** What the last digest pins *)
Definition SIGNED : list string := List.filter (fun field => negb (String.eqb field "record_digest")) FIELDS.
(** The same fields with the same values, up to the order of keys. *)
Definition same_content (r s : dict) : Prop := forall k, PyJson.canon <$> dget r k = PyJson.canon <$> dget s k.
(** Two records whose signed fields differ but have the same digest. *)
Definition colliding (l m : list dict) : Prop :=
  exists r s d e, r ∈ l /\ s ∈ m /\ unsigned r = Ok d /\ unsigned s = Ok e /\ Canonical.colliding (VDict d) (VDict e).

Lemma gathered_dget record ks d :
  mapr (fun field => let* v := item record field in Ok (field, v)) ks = Ok d ->
  keys d = ks /\ forall k, k ∈ ks -> dget d k = dget record k.
Proof.
  revert d. induction ks as [|f ks IH]; intros d H; [injection H as <-; split; [done | by intros k Hk%elem_of_nil]|].
  cbn [mapr] in H. apply rbind_Ok_inv in H as (kv & (v & Hv & [= <-])%rbind_Ok_inv & (d' & Hd & [= <-])%rbind_Ok_inv).
  destruct (IH d' Hd) as [Hk Hg]. split; [unfold keys in *; cbn; by rewrite Hk|]. intros k Hin. cbn [dget].
  destruct (String.eqb_spec k f) as [->|Hne]; [by apply item_dget in Hv|]. apply elem_of_cons in Hin as [->|Hin]; [done|]. by apply Hg.
Qed.
Lemma unsigned_wf r d : wf (VDict r) = true -> unsigned r = Ok d -> wf (VDict d) = true.
Proof.
  intros Hw H. destruct (gathered_dget _ _ _ H) as [Hk Hg]. assert (NoDup (keys d)) as Hn by (rewrite Hk; apply (bool_decide_eq_true_1 (NoDup _)); by vm_compute).
  cbn [wf]. apply andb_true_iff. split; [by apply bool_decide_eq_true_2|]. apply forallb_forall. intros [k v] Hin%list_elem_of_In.
  assert (k ∈ keys d) as Hks by (apply list_elem_of_fmap; by exists (k, v)).
  apply dget_elem in Hin; [|done]. rewrite Hg in Hin by (by rewrite <- Hk). by eapply wf_dget.
Qed.
Lemma pinned_one r s : admitted r -> admitted s -> wf (VDict r) = true -> wf (VDict s) = true ->
  get r "record_digest" = get s "record_digest" ->
  same_content r s \/ colliding [r] [s].
Proof.
  intros Hr Hs Wr Ws E. destruct (admitted_digest _ Hr) as (d & Hd & Ed), (admitted_digest _ Hs) as (e & He & Ee).
  rewrite Ed, Ee in E. injection E as E. pose proof (unsigned_wf _ _ Wr Hd) as Wd. pose proof (unsigned_wf _ _ Ws He) as We.
  destruct (Canonical.digest_pins _ _ Wd We E) as [Hc|Hc]; [left | right].
  2:{ exists r, s, d, e. by split_and!; [apply list_elem_of_singleton..| | |]. }
  destruct (gathered_dget _ _ _ Hd) as [_ Gd], (gathered_dget _ _ _ He) as [_ Ge]. rewrite !Journal.canon_dict in Hc. injection Hc as Hc.
  pose proof (admitted_keys _ Hr) as Kr. pose proof (admitted_keys _ Hs) as Ks. rewrite keys_are_spec in Kr, Ks.
  intros k. destruct (decide (k ∈ FIELDS)) as [Hk|Hk].
  - destruct (decide (k = "record_digest")) as [->|Hne].
    + pose proof (admitted_item r "record_digest" Hr Hk) as Ir%item_dget. pose proof (admitted_item s "record_digest" Hs Hk) as Is%item_dget.
      by rewrite Ir, Is, Ed, Ee, E.
    + assert (k ∈ SIGNED) as Hin by (apply list_elem_of_In, filter_In; split; [by apply list_elem_of_In | by apply negb_true_iff, String.eqb_neq]).
      rewrite <- (Gd k Hin), <- (Ge k Hin), <- !Journal.dget_canon by (by apply Journal.wf_NoDup). by rewrite Hc.
  - rewrite (proj2 (dget_None_keys r k)), (proj2 (dget_None_keys s k)); [done|by rewrite Ks|by rewrite Kr].
Qed.
Lemma chain_colliding_mono l m r s : colliding l m -> colliding (l ++ [r]) (m ++ [s]).
Proof. intros (x & y & d & e & Hx & Hy & H). exists x, y, d, e. split_and!; [by apply elem_of_app; left..| | |]; apply H. Qed.
Lemma colliding_last l m r s : colliding [r] [s] -> colliding (l ++ [r]) (m ++ [s]).
Proof. intros (x & y & d & e & Hx & Hy & H). exists x, y, d, e. split_and!; [by apply elem_of_app; right..| | |]; apply H. Qed.
(** The field of a linked record is a text or null, hence its own canonical
    form. *)
Lemma link_previous_canon before r : each link before -> link before r ->
  PyJson.canon (get r "previous_record_digest") = get r "previous_record_digest".
Proof.
  intros Hb [_ _ -> _]. destruct (last before) as [p|] eqn:E; [|done].
  by destruct (admitted_digest _ (last_admitted _ Hb _ E)) as (d & _ & ->).
Qed.
Lemma same_content_get r s k : same_content r s -> PyJson.canon (get r k) = PyJson.canon (get s k).
Proof. intros H. specialize (H k). unfold get, get_or. by destruct (dget r k), (dget s k); try discriminate H; [injection H|]. Qed.
Lemma links_pinned l m r s : each link (l ++ [r]) -> each link (m ++ [s]) ->
  Forall (fun r => wf (VDict r) = true) (l ++ [r]) -> Forall (fun r => wf (VDict r) = true) (m ++ [s]) ->
  get r "record_digest" = get s "record_digest" ->
  Forall2 same_content (l ++ [r]) (m ++ [s]) \/ colliding (l ++ [r]) (m ++ [s]).
Proof.
  revert m r s. induction l as [|r' l IH] using rev_ind; intros m r s [Hl Lr]%each_snoc [Hm Ls]%each_snoc
    [Wl [Wr _]%Forall_cons]%Forall_app [Wm [Ws _]%Forall_cons]%Forall_app E;
    (destruct (pinned_one r s (link_admitted _ _ Lr) (link_admitted _ _ Ls) Wr Ws E) as [Hc|Hc]; [|right; by apply colliding_last]);
    pose proof (same_content_get _ _ "journal_sequence" Hc) as Eq; rewrite (link_sequence _ _ Lr), (link_sequence _ _ Ls) in Eq;
    cbn in Eq; injection Eq as Eq;
    (destruct m as [|s' m _] using rev_ind; [try (rewrite length_app in Eq; cbn in Eq; lia)|]).
  - left. by constructor.
  - rewrite length_app in Eq. cbn in Eq. lia.
  - pose proof (same_content_get _ _ "previous_record_digest" Hc) as Ep.
    rewrite (link_previous_canon _ _ Hl Lr), (link_previous_canon _ _ Hm Ls), (link_previous _ _ Lr), (link_previous _ _ Ls),
      !last_snoc in Ep.
    destruct (IH m r' s' Hl Hm Wl Wm Ep) as [H|H]; [left | right; by apply chain_colliding_mono].
    by apply Forall2_app; [|constructor].
Qed.

(** ** Properties *)
(** Validation accepts exactly the lists of admitted records numbered from
    one, each naming the digest of the record before it and the identity of its
    session, and returns them unchanged. *)
Theorem validate_chain_exact rs l : validate_chain rs = Ok l <-> rs = map VDict l /\ each link l.
Proof. apply (validate_from_spec rs [] l (each_nil _)). Qed.

(** Two chains that validate and end in records with the same digest are the
    same, record by record and field by field, or exhibit a SHA-256 collision. *)
Theorem chain_is_pinned l m r s :
  validate_chain (map VDict (l ++ [r])) = Ok (l ++ [r]) -> validate_chain (map VDict (m ++ [s])) = Ok (m ++ [s]) ->
  Forall (fun r => wf (VDict r) = true) (l ++ [r]) -> Forall (fun r => wf (VDict r) = true) (m ++ [s]) ->
  get r "record_digest" = get s "record_digest" ->
  Forall2 same_content (l ++ [r]) (m ++ [s]) \/ colliding (l ++ [r]) (m ++ [s]).
Proof.
  intros [_ Hl]%(validate_from_spec _ [] _ (each_nil _)) [_ Hm]%(validate_from_spec _ [] _ (each_nil _)). by apply links_pinned.
Qed.

#[local] Instance VDict_inj : Inj (=) (=) VDict.
Proof. by intros d e [=]. Qed.
(** Appending keeps the chain and adds exactly a record that links to it. *)
Theorem append_links c record c' : each link (records c) ->
  append c record = Ok c' <-> exists r, record = VDict r /\ link (records c) r /\ records c' = records c ++ [r].
Proof.
  intros Hc. unfold append, load. split.
  - intros (l & [E Hl]%(validate_from_spec _ [] _ (each_nil _)) & [= <-])%rbind_Ok_inv. cbn [app records] in *.
    destruct l as [|r l _] using rev_ind; [by destruct (records c)|]. rewrite map_app in E. apply app_inj_tail in E as [E ->].
    apply each_snoc in Hl as [Hl Hr]. assert (records c = l) as -> by (by apply (inj (fmap VDict))). eauto.
  - intros (r & -> & Hr & Er). unfold validate_chain.
    assert (map VDict (records c) ++ [VDict r] = map VDict (records c ++ [r])) as -> by (by rewrite map_app).
    destruct (validate_from_spec (map VDict (records c ++ [r])) [] (records c ++ [r]) (each_nil _)) as [_ H]. cbn [length last] in H.
    change (Z.of_nat 0 + 1) with 1 in H. rewrite H by (split; [done | by apply each_snoc]). cbn. destruct c'. cbn in Er. by rewrite Er.
Qed.
(** A replay is exact only for a record with the same content. *)
Theorem replay_is_exact existing incoming : wf existing = true -> wf incoming = true ->
  reconcile_replay existing incoming = Ok "exact" ->
  exists r s, existing = VDict r /\ incoming = VDict s /\ admitted r /\ admitted s /\ same_content r s.
Proof.
  intros We Wi (r & [-> Hr]%validate_record_inv & (s & [-> Hs]%validate_record_inv & H)%rbind_Ok_inv)%rbind_Ok_inv.
  apply rbind_Ok_inv in H as (x & _ & (y & _ & (u & _ & (u' & Hb%refuse_if_Ok%negb_false_iff%String.eqb_eq & _)%rbind_Ok_inv)%rbind_Ok_inv)%rbind_Ok_inv).
  exists r, s. split_and!; [done..|]. apply Canonical.bytes_inj in Hb; [|done..]. rewrite !Journal.canon_dict in Hb. injection Hb as Hb.
  intros k. rewrite <- !Journal.dget_canon by (by apply Journal.wf_NoDup). by rewrite Hb.
Qed.
End SessionChain.
