(* ===== verification/DurableContract.v ===== *)
(** * The durable session contract ([durable_session_contract.py])

    Validators of snapshots, outcomes, journal observations and recovery
    decisions, the envelopes they travel in, their reconciliation, and the
    in-memory store of journal records with its safe mode.  A payload of bytes is
    a string of characters below 256. *)
From S2P Require Import Prelude PyStr PyVal PyJson JsonParse Journal Chain Canonical SessionChain.

Module DurableContract.
Import PyStr Py.

Definition _IDENTITY_FIELDS : list string :=
  ["authority_identity"; "control_store_identity"; "control_lock_identity"; "journal_identity"; "journal_bytes"; "barrier_id";
   "fencing_owner"; "fencing_token"; "state_revision"].
Definition _OUTCOME_FIELDS : list string := ["operation_id"; "opcode"; "outcome"; "state_revision"; "identity_digest"].
Definition _OUTCOMES : list string := ["success"; "rejected"; "ambiguous"].
Definition _JOURNAL_FIELDS : list string := ["operation_id"; "state_revision"; "journal_identity"; "status"; "fsync"].
Definition _JOURNAL_STATUSES : list string := ["captured"; "ambiguous"].
Definition _JOURNAL_FSYNC : list string := ["durable"; "uncertain"].
Definition _JOURNAL_ENVELOPE_FIELDS : list string := ["schema_version"; "kind"; "record"].
Definition _TRANSACTION_FIELDS : list string :=
  ["operation_id"; "sequence"; "intent"; "state"; "state_revision"; "journal_identity"; "fsync"].
Definition _TRANSACTION_INTENTS : list string := ["append"; "replay"].
Definition _TRANSACTION_STATES : list string := ["captured"; "terminal"; "rollback_required"; "ambiguous"].

Definition contract_error {A} (msg : string) : res A := Raise (ClassError "DurableSessionContractError" msg).
Definition break_if (c : bool) (msg : string) : res unit := raise_if c (ClassError "DurableSessionContractError" msg).
Definition break_when (c : res bool) (msg : string) : res unit := raise_when c (ClassError "DurableSessionContractError" msg).
(** [d[k] != e[k]], [d[k] not in s] and [not isinstance(d[k], str) or not d[k]] *)
Definition differ (d e : dict) (k j : string) : res bool := let* x := item d k in let* y := item e j in Ok (ne x y).
Definition not_in (d : dict) (k : string) (allowed : list string) : res bool := let* x := item d k in py_not (in_set x allowed).
Definition not_text (d : dict) (k : string) : res bool := let* x := item d k in Ok (negb (is_str x && truthy x)).
Definition item_is (d : dict) (k s : string) : res bool := let* x := item d k in Ok (is_s x s).

(** ** The contract artifact *)
Definition is_false (v : value) : bool := match v with VBool false => true | _ => false end.
Definition is_true (v : value) : bool := match v with VBool true => true | _ => false end.
Definition _validate_safety (v : dict) : res unit :=
  check break_if (negb (is_s (get v "outcome_publication") "disabled")) "durable outcome publication must remain disabled" ;;
  break_if (negb (is_s (get v "ambiguous_observation") "safe_mode_and_reject")) "ambiguous observations must reject".
Definition _validate_identity_fields (v : dict) : res unit :=
  let capture := get v "capture" in
  let reread := get v "assert_current" in
  check break_if (negb (is_list capture) || negb (is_list reread)) "session identity fields are missing" ;;
  break_when (py_or [py_not (set_is capture _IDENTITY_FIELDS); py_not (set_is reread _IDENTITY_FIELDS)])
    "session identity fields are incomplete".
(** [set(d.get(k, ())) != ks] *)
Definition set_differs (d : dict) (k : string) (ks : list string) : res bool := py_not (set_is (get_or d k (VList [])) ks).
Definition _validate_outcome_schema (v : dict) : res unit :=
  match get v "outcome_record" with
  | VDict outcome =>
      check break_if (negb (is_true (get outcome "atomic"))) "outcome record must be atomic" ;;
      check break_when (set_differs outcome "required" _OUTCOME_FIELDS) "outcome record fields are incomplete" ;;
      break_when (set_differs outcome "allowed" _OUTCOMES) "outcome record outcomes are invalid"
  | _ => contract_error "outcome record must be atomic"
  end.
Definition _validate_journal_schema (v : dict) : res unit :=
  match get v "journal_record" with
  | VDict journal =>
      check break_if (negb (is_true (get journal "atomic"))) "journal record must be atomic" ;;
      check break_when (set_differs journal "required" _JOURNAL_FIELDS) "journal record fields are incomplete" ;;
      check break_when (set_differs journal "allowed_status" _JOURNAL_STATUSES) "journal record statuses are invalid" ;;
      break_when (set_differs journal "allowed_fsync" _JOURNAL_FSYNC) "journal record fsync values are invalid"
  | _ => contract_error "journal record must be atomic"
  end.
Definition validate_contract (v : dict) : res unit :=
  check break_if (negb (is_s (get v "kind") "durable-upgrade-session-contract")) "durable session contract kind is invalid" ;;
  check break_if (negb (is_false (get v "mutation_enabled")) || negb (is_false (get v "dispatch_enabled")))
    "durable session contract must remain disabled" ;;
  check _validate_safety v ;;
  check _validate_identity_fields v ;;
  check _validate_outcome_schema v ;;
  _validate_journal_schema v.
(** [text] is what [path.read_text] returns, none when it raises [OSError]. *)
Definition load_contract (text : option string) : res dict :=
  match text with
  | None => contract_error "durable session contract is unavailable"
  | Some s =>
      match JsonParse.loads s with
      | None => contract_error "durable session contract is unavailable"
      | Some (VDict v) => check validate_contract v ;; Ok v
      | Some _ => contract_error "durable session contract must be an object"
      end
  end.

(** ** Snapshots and outcomes *)
(** The fields are visited in the order of a frozenset, which nothing fixes. *)
Definition snapshot_field (snapshot expected : dict) (field : string) : res unit :=
  let* v := item snapshot field in
  check (if String.eqb field "state_revision" then
           break_when (py_or [cond (negb (type_int v)); lt_z v 0]) "session revision is invalid"
         else break_if (negb (is_str v && truthy v)) ("session field is invalid: " +:+ field)) ;;
  let* e := item expected field in
  break_if (ne v e) ("session identity changed: " +:+ field).
Definition validate_snapshot (order : list string) (snapshot expected : dict) : res unit :=
  check break_if (negb (keys_are snapshot _IDENTITY_FIELDS) || negb (keys_are expected _IDENTITY_FIELDS))
    "session snapshot fields are incomplete" ;;
  let* _ := mapr (snapshot_field snapshot expected) order in Ok tt.
Definition validate_outcome (record expected : dict) : res unit :=
  check break_if (negb (keys_are record _OUTCOME_FIELDS)) "outcome record fields are incomplete" ;;
  check break_if (negb (keys_are expected _IDENTITY_FIELDS)) "expected session fields are incomplete" ;;
  check break_when (not_text record "operation_id") "outcome operation is invalid" ;;
  check break_when (not_text record "opcode") "outcome opcode is invalid" ;;
  check break_when (not_in record "outcome" _OUTCOMES) "outcome value is invalid" ;;
  check break_when (differ record expected "state_revision" "state_revision") "outcome revision is stale" ;;
  break_when (differ record expected "identity_digest" "journal_identity") "outcome identity is foreign".

(** ** Journal records *)
Definition validate_journal_record (record expected : dict) : res unit :=
  check break_if (negb (keys_are record _JOURNAL_FIELDS)) "journal record fields are incomplete" ;;
  check break_if (negb (keys_are expected _IDENTITY_FIELDS)) "expected session fields are incomplete" ;;
  check break_when (not_text record "operation_id") "journal operation is invalid" ;;
  check break_when (differ record expected "state_revision" "state_revision") "journal revision is stale" ;;
  check break_when (differ record expected "journal_identity" "journal_identity") "journal identity is foreign" ;;
  let* status := item record "status" in
  let* fsync := item record "fsync" in
  check break_when (py_not (in_set status _JOURNAL_STATUSES)) "journal status is invalid" ;;
  check break_when (py_not (in_set fsync _JOURNAL_FSYNC)) "journal fsync value is invalid" ;;
  break_if (negb ((is_s status "captured" && is_s fsync "durable") || (is_s status "ambiguous" && is_s fsync "uncertain")))
    "journal durability is ambiguous".

(** [bytes.decode("utf-8")], for the characters below 256 *)
Fixpoint utf8_decode (s : string) : option string :=
  match s with
  | "" => Some ""
  | String c r =>
      if ord c <? 128 then String c <$> utf8_decode r
      else match r with
           | String d r' =>
               if ((ord c =? 194) || (ord c =? 195)) && in_range 128 191 d
               then String (chr (64 * (ord c - 192) + (ord d - 128))) <$> utf8_decode r'
               else None
           | "" => None
           end
  end.
(** [json.loads(payload.decode("utf-8"))] *)
Definition decode_json (payload : string) : option value := s ← utf8_decode payload; JsonParse.loads s.
(** [json.dumps(...)] of an envelope: its text is ASCII, so encoding keeps it. *)
Definition serialize_journal_record (record expected : dict) : res string :=
  check validate_journal_record record expected ;;
  Ok (PyJson.dumps (VDict [("kind", VStr "durable-journal-record"); ("record", VDict record); ("schema_version", VInt 1)])).
Definition deserialize_journal_record (payload : string) (expected : dict) : res dict :=
  match decode_json payload with
  | None => contract_error "journal envelope is malformed"
  | Some (VDict envelope) =>
      check break_if (negb (keys_are envelope _JOURNAL_ENVELOPE_FIELDS)) "journal envelope fields are invalid" ;;
      let* version := item envelope "schema_version" in
      let* kind := item envelope "kind" in
      check break_if (negb (is_z version 1) || negb (is_s kind "durable-journal-record")) "journal envelope schema is invalid" ;;
      let* record := item envelope "record" in
      match record with
      | VDict r => check validate_journal_record r expected ;; Ok r
      | _ => contract_error "journal envelope record is invalid"
      end
  | Some _ => contract_error "journal envelope fields are invalid"
  end.
Definition reconcile_journal_records (observations : list dict) (expected : dict) : res dict :=
  match observations with
  | [] => contract_error "journal observations are missing"
  | first :: others =>
      let* _ := mapr (fun o => validate_journal_record o expected) observations in
      check break_when (py_any (fun o => item_is o "status" "ambiguous") observations) "ambiguous journal state requires safe mode" ;;
      check break_if (existsb (fun o => ne (VDict o) (VDict first)) others) "journal observation changed" ;;
      Ok first
  end.
Definition reconcile_journal_envelopes (payloads : list string) (expected : dict) : res dict :=
  match payloads with
  | [] => contract_error "journal envelopes are missing"
  | _ =>
      let* records := mapr (fun p => deserialize_journal_record p expected) payloads in
      reconcile_journal_records records expected
  end.

(** ** Journal transactions and recovery decisions *)
Definition _validate_transaction_record (record expected : dict) (sequence : Z) : res dict :=
  check break_if (negb (keys_are record _TRANSACTION_FIELDS)) "journal transaction fields are incomplete" ;;
  let* n := item record "sequence" in
  check break_if (negb (type_int n) || negb (is_z n sequence)) "journal transaction sequence is discontinuous" ;;
  check break_when (not_in record "intent" _TRANSACTION_INTENTS) "journal transaction intent is invalid" ;;
  check break_when (not_in record "state" _TRANSACTION_STATES) "journal transaction state is invalid" ;;
  check break_when (differ record expected "state_revision" "state_revision") "journal transaction revision is stale" ;;
  check break_when (differ record expected "journal_identity" "journal_identity") "journal transaction identity is foreign" ;;
  check break_when (py_or [item_is record "state" "ambiguous"; item_is record "fsync" "uncertain"])
    "ambiguous journal transaction requires safe mode" ;;
  check break_when (py_not (item_is record "fsync" "durable")) "journal transaction fsync is invalid" ;;
  Ok record.
Fixpoint transaction_from (sequence : Z) (terminal_seen : bool) (records : list dict) (expected : dict) : res (list dict) :=
  match records with
  | [] => Ok []
  | record :: records' =>
      let* current := _validate_transaction_record record expected sequence in
      check break_if terminal_seen "journal transaction continues after terminal state" ;;
      let* state := item current "state" in
      let* normalized := transaction_from (sequence + 1) (is_s state "terminal") records' expected in
      Ok (current :: normalized)
  end.
Definition validate_journal_transaction (records : list dict) (expected : dict) : res (list dict) :=
  match records with
  | [] => contract_error "journal transaction is missing"
  | _ => transaction_from 0 false records expected
  end.
(** [validated[-1]]: a validated transaction has a record. *)
Definition last_record (records : list dict) : res dict :=
  match last records with Some r => Ok r | None => Raise (IndexError "tuple index out of range") end.
Definition classify_journal_recovery (records : list dict) (expected : dict) : res string :=
  let* validated := validate_journal_transaction records expected in
  let* last := last_record validated in
  let* terminal := item last "state" in
  if is_s terminal "terminal" then Ok "terminal"
  else
    check break_if (is_s terminal "rollback_required") "rollback-required state requires safe mode" ;;
    Ok "resume".
Definition decided (state : value) : string * bool * bool :=
  if is_s state "terminal" then ("terminal", false, false)
  else if is_s state "rollback_required" then ("rollback_required", true, true)
  else ("resume", false, false).
Definition recovery_decision (records : list dict) (expected : dict) : res dict :=
  let* validated := validate_journal_transaction records expected in
  let* last := last_record validated in
  let* state := item last "state" in
  let* operation := item last "operation_id" in
  let* revision := item last "state_revision" in
  let* journal := item last "journal_identity" in
  let '(decision, safe_mode, rollback_required) := decided state in
  Ok [("operation_id", operation); ("state_revision", revision); ("journal_identity", journal); ("decision", VStr decision);
      ("safe_mode", VBool safe_mode); ("rollback_required", VBool rollback_required)].

Definition DECISION_FIELDS : list string :=
  ["operation_id"; "state_revision"; "journal_identity"; "decision"; "safe_mode"; "rollback_required"].
Definition CHOICES : list string := ["resume"; "terminal"; "rollback_required"].
Definition allowed_after (prior : string) : list string := if String.eqb prior "resume" then CHOICES else [prior].
Definition _validate_decision_progression (previous : dict) (choice : value) : res unit :=
  check break_if (negb (keys_are previous DECISION_FIELDS)) "previous recovery decision is incomplete" ;;
  let* prior := item previous "decision" in
  break_when (py_or [py_not (in_set prior CHOICES);
                     py_not (in_set choice (match prior with VStr s => allowed_after s | _ => [] end))])
    "recovery decision is not monotonic".
(** [d[k] is not b] *)
Definition flag_differs (d : dict) (k : string) (b : bool) : res bool :=
  let* v := item d k in Ok (negb (match v with VBool c => Bool.eqb b c | _ => false end)).
Definition validate_recovery_decision (decision expected : dict) (previous : option dict) : res unit :=
  check break_if (negb (keys_are decision DECISION_FIELDS)) "recovery decision fields are incomplete" ;;
  let* operation := item decision "operation_id" in
  check break_if (ne operation (get_or expected "operation_id" operation)) "recovery decision operation is foreign" ;;
  check break_when (differ decision expected "state_revision" "state_revision") "recovery decision revision is stale" ;;
  check break_when (differ decision expected "journal_identity" "journal_identity") "recovery decision identity is foreign" ;;
  let* choice := item decision "decision" in
  check break_when (py_not (in_set choice CHOICES)) "recovery decision is invalid" ;;
  check break_when (flag_differs decision "safe_mode" (is_s choice "rollback_required"))
    "recovery decision safe-mode flag is inconsistent" ;;
  check break_when (flag_differs decision "rollback_required" (is_s choice "rollback_required"))
    "recovery decision rollback flag is inconsistent" ;;
  match previous with
  | None => Ok tt
  | Some p => _validate_decision_progression p choice
  end.

(** ** Recovery outcomes *)
Definition validate_recovery_outcome (outcome decision expected : dict) : res unit :=
  check break_if (negb (keys_are outcome ["operation_id"; "state_revision"; "journal_identity"; "outcome"; "decision"]))
    "recovery outcome fields are incomplete" ;;
  check validate_recovery_decision decision expected None ;;
  check break_when (differ outcome decision "operation_id" "operation_id") "recovery outcome operation is foreign" ;;
  check break_when (differ outcome decision "state_revision" "state_revision") "recovery outcome revision is stale" ;;
  check break_when (differ outcome decision "journal_identity" "journal_identity") "recovery outcome identity is foreign" ;;
  check break_when (not_in outcome "outcome" _OUTCOMES) "recovery outcome is invalid" ;;
  check break_when (differ outcome decision "decision" "decision") "recovery outcome decision is inconsistent" ;;
  check break_when (py_and [item_is outcome "outcome" "success"; py_not (item_is decision "decision" "terminal")])
    "successful outcome requires terminal decision" ;;
  break_when (py_and [item_is outcome "outcome" "ambiguous"; py_not (item_is decision "decision" "rollback_required")])
    "ambiguous outcome requires rollback decision".
Definition reconcile_recovery_outcomes (outcomes : list dict) (decision expected : dict) : res dict :=
  match outcomes with
  | [] => contract_error "recovery outcomes are missing"
  | first :: others =>
      let* _ := mapr (fun o => validate_recovery_outcome o decision expected) outcomes in
      check break_if (existsb (fun o => ne (VDict o) (VDict first)) others) "recovery outcome changed" ;;
      Ok first
  end.
Definition serialize_recovery_outcome (outcome decision expected : dict) : res string :=
  check validate_recovery_outcome outcome decision expected ;;
  Ok (PyJson.dumps (VDict [("decision", VDict decision); ("kind", VStr "durable-recovery-outcome"); ("outcome", VDict outcome);
                           ("schema_version", VInt 1)])).
Definition deserialize_recovery_outcome (payload : string) (expected : dict) : res (dict * dict) :=
  match decode_json payload with
  | None => contract_error "recovery envelope is malformed"
  | Some (VDict envelope) =>
      check break_if (negb (keys_are envelope ["schema_version"; "kind"; "decision"; "outcome"])) "recovery envelope fields are invalid" ;;
      let* version := item envelope "schema_version" in
      let* kind := item envelope "kind" in
      check break_if (negb (is_z version 1) || negb (is_s kind "durable-recovery-outcome")) "recovery envelope schema is invalid" ;;
      let* decision := item envelope "decision" in
      let* outcome := item envelope "outcome" in
      match decision, outcome with
      | VDict d, VDict o => check validate_recovery_outcome o d expected ;; Ok (o, d)
      | _, _ => contract_error "recovery envelope records are invalid"
      end
  | Some _ => contract_error "recovery envelope fields are invalid"
  end.
Definition reconcile_recovery_envelopes (payloads : list string) (expected : dict) : res (dict * dict) :=
  match payloads with
  | [] => contract_error "recovery envelopes are missing"
  | _ =>
      let* decoded := mapr (fun p => deserialize_recovery_outcome p expected) payloads in
      match decoded with
      | [] => Raise (IndexError "tuple index out of range")
      | (_, decision) :: others =>
          check break_if (existsb (fun od => ne (VDict od.2) (VDict decision)) others) "recovery decision provenance changed" ;;
          let* outcome := reconcile_recovery_outcomes (map fst decoded) decision expected in
          Ok (outcome, decision)
      end
  end.
Definition validate_recovery_provenance_chain (journal decision outcome expected : dict) : res unit :=
  check validate_journal_record journal expected ;;
  check validate_recovery_outcome outcome decision expected ;;
  break_when (differ journal outcome "operation_id" "operation_id") "provenance operation linkage is foreign".

(** ** The in-memory store of journal records *)
Record InMemoryJournalRecordStore : Type := MkStore {
  _expected : dict;
  (** keyed by operation, revision and journal identity, in insertion order *)
  _records : list ((value * value * value) * dict);
  _safe_mode : bool;
}.
Definition new_store (expected : dict) : res InMemoryJournalRecordStore :=
  check break_if (negb (keys_are expected _IDENTITY_FIELDS)) "expected session fields are incomplete" ;;
  Ok (MkStore expected [] false).
Definition key : Type := value * value * value.
Definition key_eq (x y : key) : bool := eq x.1.1 y.1.1 && eq x.1.2 y.1.2 && eq x.2 y.2.
Fixpoint kget (l : list (key * dict)) (k : key) : option dict :=
  match l with [] => None | (k', r) :: l' => if key_eq k k' then Some r else kget l' k end.
(** An existing entry keeps its key and its place. *)
Fixpoint kset (l : list (key * dict)) (k : key) (r : dict) : list (key * dict) :=
  match l with [] => [(k, r)] | (k', r') :: l' => if key_eq k k' then (k', r) :: l' else (k', r') :: kset l' k r end.
Definition fence (s : InMemoryJournalRecordStore) : InMemoryJournalRecordStore := MkStore (_expected s) (_records s) true.
Definition fences {A} (msg : string) : st InMemoryJournalRecordStore A :=
  do smodify fence ;; sraise (ClassError "DurableSessionContractError" msg).
Definition key_of (record : dict) : res key :=
  let* operation := item record "operation_id" in
  let* revision := item record "state_revision" in
  let* journal := item record "journal_identity" in
  check require_hashable operation ;;
  check require_hashable revision ;;
  check require_hashable journal ;;
  Ok (operation, revision, journal).
Definition append (record : dict) : st InMemoryJournalRecordStore dict :=
  do* s := sget in
  do slift (fun _ => break_if (_safe_mode s) "journal store is in safe mode") ;;
  do slift (fun _ => validate_journal_record record (_expected s)) ;;
  do* captured := slift (fun _ => py_and [item_is record "status" "captured"; item_is record "fsync" "durable"]) in
  if negb captured then fences "journal append requires durable capture" else
  do* k := slift (fun _ => key_of record) in
  match kget (_records s) k with
  | Some existing =>
      if ne (VDict existing) (VDict record) then fences "journal replay conflicts with existing record"
      else do sput (MkStore (_expected s) (kset (_records s) k record) (_safe_mode s)) ;; sret record
  | None => do sput (MkStore (_expected s) (kset (_records s) k record) (_safe_mode s)) ;; sret record
  end.
Definition observe (record : dict) : st InMemoryJournalRecordStore dict :=
  do* s := sget in
  do slift (fun _ => break_if (_safe_mode s) "journal store is in safe mode") ;;
  do slift (fun _ => validate_journal_record record (_expected s)) ;;
  do* uncertain := slift (fun _ => py_or [item_is record "status" "ambiguous"; item_is record "fsync" "uncertain"]) in
  if uncertain then fences "ambiguous journal observation requires safe mode" else append record.
Definition stored_records (s : InMemoryJournalRecordStore) : list dict := map snd (_records s).

(** ** The chain, at this boundary *)
Definition is_chain_error (e : exn) : bool := match e with ClassError c _ => String.eqb c "SessionChainError" | _ => false end.
Definition validate_durable_session_chain (rs : list value) : res (list dict) :=
  match SessionChain.validate_chain rs with
  | Raise e => if is_chain_error e then contract_error "durable session chain is not admissible" else Raise e
  | r => r
  end.

(** ** The key order of an envelope does not matter *)
Lemma eq_canon_l v : forall w, eq v w = true -> eq (PyJson.canon v) w = true.
Proof.
  induction v as [|b|z|s|l IH|d IH] using value_ind'; intros w E; try done.
  - destruct w as [| | | |m|]; try done. cbn [PyJson.canon]. revert m E. induction IH as [|x l Hx _ IHl]; intros [|y m] E; try done.
    change (eq x y && eq (VList l) (VList m) = true) in E. apply andb_true_iff in E as [E1 E2].
    change (eq (PyJson.canon x) y && eq (VList (map PyJson.canon l)) (VList m) = true). by rewrite (Hx _ E1), (IHl _ E2).
  - destruct w as [| | | | |e]; try done. rewrite Journal.canon_dict. apply eq_dict_inv in E as [Hl H]. apply eq_dict_intro.
    + by rewrite Journal.canon_items_perm, length_map.
    + intros k x Hin. rewrite Journal.canon_items_perm in Hin. apply list_elem_of_fmap in Hin as ([j y] & [= -> ->] & Hin).
      destruct (H j y Hin) as (z & Ez & Hz). exists z. split; [done|]. rewrite list.Forall_forall in IH. by apply (IH (j, y)).
Qed.
Lemma eq_canon v w : wf v = true -> wf w = true -> eq v w = true -> eq (PyJson.canon v) (PyJson.canon w) = true.
Proof.
  intros Wv Ww E. apply eq_canon_l, eq_wf_sym; [by apply JsonParse.wf_canon|done|]. by apply eq_canon_l, eq_wf_sym.
Qed.

(** ** What the validators accept *)
Lemma keys_item d ks k : keys_are d ks = true -> k ∈ ks -> item d k = Ok (get d k).
Proof. intros H Hk. apply has_item. by eapply keys_are_has. Qed.
Lemma keys_differ d e ks js k j : keys_are d ks = true -> keys_are e js = true -> k ∈ ks -> j ∈ js ->
  differ d e k j = Ok (ne (get d k) (get e j)).
Proof. intros. unfold differ. by rewrite (keys_item d ks), (keys_item e js). Qed.
Lemma break_if_Ok c msg u : break_if c msg = Ok u <-> c = false.
Proof. unfold break_if, raise_if. destruct u. by destruct c. Qed.
Lemma then_Ok {A} (m : res unit) (k : res A) a : (check m ;; k) = Ok a <-> m = Ok tt /\ k = Ok a.
Proof. destruct m as [[]|]; cbn; naive_solver. Qed.
Lemma break_when_Ok (b : bool) msg : break_when (Ok b) msg = Ok tt <-> b = false.
Proof. apply break_if_Ok. Qed.
Lemma text_value v : is_str v && truthy v = true <-> exists s, v = VStr s /\ s <> "".
Proof.
  split; [|by intros (s & -> & H%PyStr.truthy_spec)]. destruct v; try done. cbn. intros H%PyStr.truthy_spec. eauto.
Qed.
Lemma is_s_eq v s : is_s v s = true <-> v = VStr s.
Proof. apply eq_str. Qed.

(** A journal record of the session [e]. *)
Record recorded (r e : dict) : Prop := Recorded {
  r_keys : keys_are r _JOURNAL_FIELDS = true;
  r_session : keys_are e _IDENTITY_FIELDS = true;
  r_operation : exists s, get r "operation_id" = VStr s /\ s <> "";
  r_revision : eq (get r "state_revision") (get e "state_revision") = true;
  r_journal : eq (get r "journal_identity") (get e "journal_identity") = true;
  r_durability : get r "status" = VStr "captured" /\ get r "fsync" = VStr "durable" \/
                 get r "status" = VStr "ambiguous" /\ get r "fsync" = VStr "uncertain";
}.
Lemma in_set_str s ss : in_set (VStr s) ss = Ok (PyStr.mem s ss).
Proof. done. Qed.
Lemma in_set_member v ss : py_not (in_set v ss) = Ok false -> exists s, v = VStr s /\ s ∈ ss.
Proof.
  unfold in_set, require_hashable, raise_if. destruct v; cbn; try done. intros [= H%negb_false_iff%PyStr.mem_spec]. eauto.
Qed.
Lemma break_when_inv c msg u : break_when c msg = Ok u -> c = Ok false.
Proof. apply raise_when_Ok. Qed.
Lemma journal_record_spec r e : validate_journal_record r e = Ok tt <-> recorded r e.
Proof.
  unfold validate_journal_record. rewrite !then_Ok, !break_if_Ok, !negb_false_iff. split.
  - intros (Kr & Ke & Hop & Hrev & Hj & H). unfold not_text in Hop.
    rewrite (keys_item r _ _ Kr) in Hop by listed. rewrite (keys_differ _ _ _ _ _ _ Kr Ke) in Hrev by listed. rewrite (keys_differ _ _ _ _ _ _ Kr Ke) in Hj by listed.
    rewrite !(keys_item r _ _ Kr) in H by listed. cbn [rbind] in *. rewrite !then_Ok, break_if_Ok, negb_false_iff in H.
    destruct H as (_ & _ & H). apply break_when_Ok, negb_false_iff, text_value in Hop. apply break_when_Ok, ne_false in Hrev, Hj.
    apply orb_true_iff in H. rewrite !andb_true_iff, !is_s_eq in H. by split.
  - intros [Kr Ke Hop Hrev Hj H]. unfold not_text. rewrite !(keys_item r _ _ Kr), !(keys_differ _ _ _ _ _ _ Kr Ke) by listed. cbn [rbind].
    rewrite !break_when_Ok, !then_Ok, negb_false_iff, text_value, !ne_false, break_if_Ok, negb_false_iff. split_and!; try done;
      destruct H as [[Es Ef] | [Es Ef]]; rewrite ?Es, ?Ef; done.
Qed.
Lemma recorded_canon r e : wf (VDict r) = true -> recorded r e -> recorded (Journal.canon_items r) e.
Proof.
  intros Hw%Journal.wf_NoDup [Kr Ke (s & Es & Hs) Hrev Hj H]. split; rewrite ?Journal.get_canon by done; try done.
  - by rewrite Journal.keys_are_canon.
  - exists s. by rewrite Es.
  - by apply eq_canon_l.
  - by apply eq_canon_l.
  - destruct H as [[-> ->] | [-> ->]]; [by left | by right].
Qed.

(** ** Envelopes *)
Lemma utf8_decode_encode s : utf8_decode (Canonical.utf8 s) = Some s.
Proof.
  induction s as [|c s IH]; [done|]. transitivity (String c <$> utf8_decode (Canonical.utf8 s)); [|by rewrite IH].
  cbn [Canonical.utf8]. clear IH. generalize (Canonical.utf8 s) as t. intros t. by destruct c as [[] [] [] [] [] [] [] []].
Qed.
Lemma utf8_ascii s : all_chars (fun c => ord c <? 128) s = true -> Canonical.utf8 s = s.
Proof.
  induction s as [|c s IH]; [done|]. intros [Hc Hs]%andb_true_iff. cbn [Canonical.utf8]. rewrite Hc, IH by done. done.
Qed.
Lemma ascii_text_ascii s : all_chars (fun c => ord c <? 128) (Canonical.ascii_text s) = true.
Proof.
  induction s as [|c s IH]; [done|]. cbn [Canonical.ascii_text]. apply JsonParse.all_chars_app; [|done]. clear IH.
  by destruct c as [[] [] [] [] [] [] [] []].
Qed.
Lemma decode_dumps v : wf v = true -> decode_json (PyJson.dumps v) = Some (PyJson.canon v).
Proof.
  intros Hw. unfold decode_json. assert (utf8_decode (PyJson.dumps v) = Some (PyJson.dumps v)) as ->.
  { rewrite <- (utf8_ascii (PyJson.dumps v)) at 1; [apply utf8_decode_encode|].
    unfold PyJson.dumps. rewrite <- Canonical.print_ascii. apply ascii_text_ascii. }
  by apply JsonParse.loads_dumps.
Qed.
Lemma then_serialize r e p : serialize_journal_record r e = Ok p -> recorded r e.
Proof. unfold serialize_journal_record. rewrite then_Ok. by intros [H%journal_record_spec _]. Qed.
(** A journal record that validates is written as an envelope that reads back as
    the same record with its keys sorted. *)
Theorem journal_envelope_roundtrip r e : wf (VDict r) = true -> recorded r e ->
  exists p, serialize_journal_record r e = Ok p /\ deserialize_journal_record p e = Ok (Journal.canon_items r) /\
            eq (VDict (Journal.canon_items r)) (VDict r) = true.
Proof.
  intros Hw H. set (envelope := VDict [("kind", VStr "durable-journal-record"); ("record", VDict r); ("schema_version", VInt 1)]).
  exists (PyJson.dumps envelope). split_and!.
  - unfold serialize_journal_record. by rewrite (proj2 (journal_record_spec r e) H).
  - unfold deserialize_journal_record. rewrite decode_dumps.
    2:{ unfold envelope. change (bool_decide (NoDup ["kind"; "record"; "schema_version"]) && (true && (wf (VDict r) && (true && true))) = true).
        by rewrite Hw. }
    assert (PyJson.canon envelope = VDict [("kind", VStr "durable-journal-record"); ("record", VDict (Journal.canon_items r));
                                           ("schema_version", VInt 1)]) as -> by (by rewrite <- Journal.canon_dict).
    cbn -[validate_journal_record]. by rewrite (proj2 (journal_record_spec _ e) (recorded_canon r e Hw H)).
  - rewrite <- Journal.canon_dict. apply eq_canon_l. by apply eq_wf_refl.
Qed.

(** ** The store of journal records *)
Lemma eq_trans u : forall v w, eq u v = true -> eq v w = true -> eq u w = true.
Proof.
  induction u as [|b|z|s|l IH|d IH] using value_ind'; intros v w E1 E2; destruct v as [|c|y|t|m|e]; try done;
    try (cbn in E1; apply Z.eqb_eq in E1; destruct w; cbn in *; try done; by rewrite E1).
  - cbn in E1. apply String.eqb_eq in E1 as ->. done.
  - destruct w as [| | | |n|]; try done. revert m n E1 E2. induction IH as [|x l Hx _ IHl]; intros [|y m] [|z n] E1 E2; try done.
    change (eq x y && eq (VList l) (VList m) = true) in E1. change (eq y z && eq (VList m) (VList n) = true) in E2.
    apply andb_true_iff in E1 as [X1 L1], E2 as [X2 L2]. change (eq x z && eq (VList l) (VList n) = true).
    by rewrite (Hx y z X1 X2), (IHl m n L1 L2).
  - destruct w as [| | | | |f]; try done. apply eq_dict_inv in E1 as [Hl1 H1], E2 as [Hl2 H2]. apply eq_dict_intro; [congruence|].
    intros k x Hin. destruct (H1 k x Hin) as (y & Ey & Hy). destruct (H2 k y (dget_in _ _ _ Ey)) as (z & Ez & Hz).
    exists z. split; [done|]. rewrite list.Forall_forall in IH. by apply (IH (k, x) Hin y z).
Qed.

Inductive event : Type := Append (record : dict) | Observe (record : dict).
Definition perform (ev : event) : st InMemoryJournalRecordStore dict :=
  match ev with Append r => append r | Observe r => observe r end.
Definition perform_all (evs : list event) (s : InMemoryJournalRecordStore) : InMemoryJournalRecordStore :=
  foldl (fun s ev => fst (perform ev s)) s evs.

(** An entry keeps its key, and a record equal to the one it had. *)
Definition kept (a b : key * dict) : Prop := b.1 = a.1 /\ (b.2 = a.2 \/ eq (VDict a.2) (VDict b.2) = true).
Definition grows (l l' : list (key * dict)) : Prop := exists m n, l' = m ++ n /\ Forall2 kept l m.
#[export] Instance entry_kept_preorder : PreOrder kept.
Proof.
  split; [by split; [|left]|]. intros a b c [K1 H1] [K2 H2]. split; [congruence|].
  destruct H1 as [E1|E1], H2 as [E2|E2]; [left; congruence | right; by rewrite <- E1 | right; by rewrite E2 | right; by eapply eq_trans].
Qed.
#[export] Instance entries_grow_preorder : PreOrder grows.
Proof.
  split; [intros l; exists l, []; by rewrite app_nil_r|].
  intros l1 l2 l3 (m & n & -> & H1) (m' & n' & -> & H2). apply Forall2_app_inv_l in H2 as (m1 & m2 & H2 & H3 & ->).
  exists m1, (m2 ++ n'). split; [by rewrite app_assoc|]. by etrans.
Qed.
Lemma kset_new l k r : kget l k = None -> kset l k r = l ++ [(k, r)].
Proof. induction l as [|[j x] l IH]; [done|]. cbn. destruct (key_eq k j); [done|]. intros H. by rewrite IH. Qed.
Lemma kset_old l k x r : kget l k = Some x -> eq (VDict x) (VDict r) = true -> Forall2 kept l (kset l k r).
Proof.
  intros H E. induction l as [|[j y] l IH]; [done|]. cbn in *. destruct (key_eq k j).
  - injection H as ->. by constructor; [split; [|right]|].
  - by constructor; [|apply IH].
Qed.
Lemma kset_elem l k r a : a ∈ kset l k r -> a.2 = r \/ a ∈ l.
Proof.
  induction l as [|[j y] l IH]; cbn; [intros ->%list_elem_of_singleton; by left|].
  destruct (key_eq k j); intros [->|H]%elem_of_cons; [by left | by right; right | by right; left|].
  destruct (IH H); [by left | by right; right].
Qed.
Definition durable (r e : dict) : Prop := recorded r e /\ get r "status" = VStr "captured".
(** What an operation does to the store: nothing, a fence, or a record stored. *)
Record stores (record : dict) (s s' : InMemoryJournalRecordStore) : Prop := Stores {
  st_open : _safe_mode s = false;
  st_durable : durable record (_expected s);
  st_result : exists k, key_of record = Ok k /\ s' = MkStore (_expected s) (kset (_records s) k record) (_safe_mode s);
  st_grows : grows (_records s) (_records s');
}.
Inductive outcome (record : dict) (s : InMemoryJournalRecordStore) : InMemoryJournalRecordStore -> res dict -> Prop :=
| refused x : outcome record s s (Raise x)
| fenced x : _safe_mode s = false -> outcome record s (fence s) (Raise x)
| stored s' : stores record s s' -> outcome record s s' (Ok record).
Lemma open_store (s : InMemoryJournalRecordStore) msg u : break_if (_safe_mode s) msg = Ok u -> _safe_mode s = false.
Proof. apply raise_if_Ok. Qed.
Lemma append_outcome record s : outcome record s (fst (append record s)) (snd (append record s)).
Proof.
  unfold append, sbind, sget, slift.
  destruct (break_if (_safe_mode s) _) as [u|x] eqn:Eo; cbn [fst snd]; [apply open_store in Eo | constructor].
  destruct (validate_journal_record record (_expected s)) as [[]|x] eqn:Ev; cbn [fst snd]; [apply journal_record_spec in Ev | constructor].
  unfold item_is. rewrite !(keys_item _ _ _ (r_keys _ _ Ev)) by listed. cbn [rbind py_and].
  destruct (is_s (get record "status") "captured") eqn:Es; cbn [rbind]; [|by apply fenced].
  destruct (is_s (get record "fsync") "durable") eqn:Ef; cbn [rbind negb]; [|by apply fenced].
  apply is_s_eq in Es. destruct (key_of record) as [k|x] eqn:Ek; cbn [fst snd]; [|constructor].
  destruct (kget (_records s) k) as [existing|] eqn:Eg.
  - destruct (ne (VDict existing) (VDict record)) eqn:En; [by apply fenced|]. apply ne_false in En. cbn. apply stored.
    split; [done..|by exists k|]. cbn. exists (kset (_records s) k record), []. split; [by rewrite app_nil_r | by eapply kset_old].
  - cbn. apply stored. split; [done..|by exists k|]. cbn. rewrite kset_new by done. by exists (_records s), [(k, record)].
Qed.
Lemma observe_outcome record s : outcome record s (fst (observe record s)) (snd (observe record s)).
Proof.
  unfold observe, sbind, sget, slift.
  destruct (break_if (_safe_mode s) _) as [u|x] eqn:Eo; cbn [fst snd]; [apply open_store in Eo | constructor].
  destruct (validate_journal_record record (_expected s)) as [[]|x] eqn:Ev; cbn [fst snd]; [apply journal_record_spec in Ev | constructor].
  unfold item_is. rewrite !(keys_item _ _ _ (r_keys _ _ Ev)) by listed. cbn [rbind py_or].
  destruct (is_s (get record "status") "ambiguous"); cbn [rbind]; [by apply fenced|].
  destruct (is_s (get record "fsync") "uncertain"); cbn [rbind]; [by apply fenced | apply append_outcome].
Qed.
Lemma perform_outcome ev s : exists record, outcome record s (fst (perform ev s)) (snd (perform ev s)).
Proof. destruct ev as [r|r]; exists r; [apply append_outcome | apply observe_outcome]. Qed.

(** The invariant: one session, durable records, and a fence for good. *)
Record settled (e : dict) (s : InMemoryJournalRecordStore) : Prop := Settled {
  s_expected : _expected s = e;
  s_durable : Forall (fun a => durable a.2 e) (_records s);
}.
Record later (s s' : InMemoryJournalRecordStore) : Prop := Later {
  l_expected : _expected s' = _expected s;
  l_grows : grows (_records s) (_records s');
  l_fence : _safe_mode s = true -> s' = s;
}.
Lemma fenced_outcome record s s' r : outcome record s s' r -> _safe_mode s = true -> s' = s.
Proof. intros [x | x H | s1 [H _ _ _]] Hs; [done|by rewrite H in Hs..]. Qed.
Lemma perform_later ev s : later s (fst (perform ev s)).
Proof.
  destruct (perform_outcome ev s) as [record H]. destruct (perform ev s) as [s' r]; cbn [fst snd] in *.
  split; [| |by eapply fenced_outcome]; destruct H as [x | x Ho | s' [Ho Hd (k & Hk & ->) Hg]]; done.
Qed.
Lemma perform_settled e ev s : settled e s -> settled e (fst (perform ev s)).
Proof.
  intros [He Hd]. destruct (perform_outcome ev s) as [record H]. destruct (perform ev s) as [s' r]; cbn [fst snd] in *.
  destruct H as [x | x Ho | s' [Ho Hr (k & Hk & ->) Hg]]; [done..|]. split; [done|]. cbn. apply list.Forall_forall. intros [k' r'] Ha. cbn. apply kset_elem in Ha as [Er | Ha]; [cbn in Er; by rewrite Er, <- He|].
  rewrite list.Forall_forall in Hd. by apply (Hd (k', r')).
Qed.
#[export] Instance later_preorder : PreOrder later.
Proof.
  split; [by split|]. intros a b c [E1 G1 F1] [E2 G2 F2]. split; [congruence|by etrans|].
  intros H. specialize (F1 H) as ->. by apply F2.
Qed.
Lemma perform_all_later evs s : later s (perform_all evs s).
Proof. revert s. induction evs as [|ev evs IH]; intros s; [done|]. etrans; [apply perform_later|]. apply IH. Qed.
Lemma perform_all_settled e evs s : settled e s -> settled e (perform_all evs s).
Proof. revert s. induction evs as [|ev evs IH]; intros s H; [done|]. apply IH. by apply perform_settled. Qed.

(** C33: Over any sequence of appends and rereads the store of journal records
    holds only captured, durable records of its session, keeps every record it
    holds under its key and equal to what it was, and never changes again once
    it is in safe mode. *)
Theorem journal_store_settles e s evs evs' : new_store e = Ok s ->
  let before := perform_all evs s in
  let after := perform_all evs' before in
  Forall (fun a => durable a.2 e) (_records after) /\ grows (_records before) (_records after) /\
  (_safe_mode before = true -> after = before).
Proof.
  intros H before after. assert (settled e s) as Hs.
  { unfold new_store in H. apply then_Ok in H as [_ [= <-]]. by split. }
  destruct (perform_all_settled e evs' _ (perform_all_settled e evs s Hs)) as [_ Hd].
  destruct (perform_all_later evs' before) as [_ Hg Hf]. done.
Qed.

(** ** Recovery decisions *)
(** A record of a transaction of the session [e]. *)
Record transacted (r e : dict) : Prop := Transacted {
  t_keys : keys_are r _TRANSACTION_FIELDS = true;
  t_state : get r "state" = VStr "captured" \/ get r "state" = VStr "terminal" \/ get r "state" = VStr "rollback_required";
  t_revision : differ r e "state_revision" "state_revision" = Ok false;
  t_journal : differ r e "journal_identity" "journal_identity" = Ok false;
}.
Lemma transaction_record_inv r e n c : _validate_transaction_record r e n = Ok c -> c = r /\ transacted r e.
Proof.
  unfold _validate_transaction_record. rewrite then_Ok, break_if_Ok, negb_false_iff. intros (Kr & H).
  apply rbind_Ok_inv in H as (z & _ & H). rewrite !then_Ok in H. destruct H as (_ & _ & Hs & Hr & Hj & Ha & _ & [= <-]).
  split; [done|]. unfold not_in, item_is in *. rewrite (keys_item _ _ "state" Kr) in Hs, Ha by listed. cbn [rbind] in *.
  apply break_when_inv in Hs, Hr, Hj, Ha. apply in_set_member in Hs as (s & Es & Hs). rewrite Es in Ha. cbn [py_or rbind] in Ha.
  split; try done. rewrite Es. unfold is_s in Ha. rewrite eq_str_str in Ha. destruct (String.eqb_spec s "ambiguous"); [done|].
  unfold _TRANSACTION_STATES in Hs. set_solver.
Qed.
(** No record follows a terminal one. *)
Lemma transaction_from_inv rs e n terminal_seen l : transaction_from n terminal_seen rs e = Ok l ->
  l = rs /\ Forall (fun r => transacted r e) rs /\ (terminal_seen = true -> rs = []) /\
  forall pre r post, rs = pre ++ r :: post -> get r "state" = VStr "terminal" -> post = [].
Proof.
  revert n terminal_seen l. induction rs as [|r rs IH]; intros n b l H; cbn [transaction_from] in H.
  - injection H as <-. split_and!; try done. by intros [] ? ? ?.
  - apply rbind_Ok_inv in H as (c & [-> Hr]%transaction_record_inv & H). rewrite then_Ok, break_if_Ok in H. destruct H as [-> H].
    rewrite (keys_item _ _ "state" (t_keys _ _ Hr)) in H by listed. cbn [rbind] in H.
    apply rbind_Ok_inv in H as (l' & (-> & Hf & Ht & Hp)%IH & [= <-]). split_and!; [done|by constructor|done|].
    intros [|x pre] y post E Hy; injection E as -> ->; [|by eapply Hp]. apply Ht. by rewrite is_s_eq.
Qed.
Lemma journal_transaction_inv rs e l : validate_journal_transaction rs e = Ok l ->
  l = rs /\ rs <> [] /\ Forall (fun r => transacted r e) rs /\
  forall pre r post, rs = pre ++ r :: post -> get r "state" = VStr "terminal" -> post = [].
Proof.
  unfold validate_journal_transaction. destruct rs as [|r rs]; [done|]. intros (-> & Hf & _ & Hp)%transaction_from_inv. by split_and!.
Qed.
Definition decision_of (r : dict) : dict :=
  let '(choice, safe, back) := decided (get r "state") in
  [("operation_id", get r "operation_id"); ("state_revision", get r "state_revision"); ("journal_identity", get r "journal_identity");
   ("decision", VStr choice); ("safe_mode", VBool safe); ("rollback_required", VBool back)].
Lemma recovery_decision_inv rs e d : recovery_decision rs e = Ok d ->
  exists pre r, rs = pre ++ [r] /\ transacted r e /\ d = decision_of r /\ validate_journal_transaction rs e = Ok rs.
Proof.
  unfold recovery_decision. intros (l & Hl & H)%rbind_Ok_inv. pose proof (journal_transaction_inv _ _ _ Hl) as (-> & Hne & Hf & _).
  destruct rs as [|r pre _] using rev_ind; [done|]. apply Forall_app in Hf as [_ [Hr _]%Forall_cons].
  exists pre, r. split_and!; [done..| |done]. unfold last_record in H. rewrite last_snoc in H. cbn [rbind] in H.
  rewrite !(keys_item _ _ _ (t_keys _ _ Hr)) in H by listed. cbn [rbind] in H. unfold decision_of.
  destruct (decided (get r "state")) as [[choice safe] back]. by injection H as <-.
Qed.
Lemma decision_accepted r e previous : keys_are e _IDENTITY_FIELDS = true -> transacted r e -> wf (VDict r) = true ->
  validate_recovery_decision (decision_of r) e previous =
  match previous with
  | None => Ok tt
  | Some p => _validate_decision_progression p (get (decision_of r) "decision")
  end.
Proof.
  intros Ke [Kr Hs Hrev Hj] Hw. unfold validate_recovery_decision, differ in *.
  rewrite (keys_item r _ "state_revision" Kr) in Hrev by listed. rewrite (keys_item r _ "journal_identity" Kr) in Hj by listed. cbn [rbind] in *.
  assert (get_or e "operation_id" (get r "operation_id") = get r "operation_id") as Eo.
  { unfold get_or. destruct (dget e "operation_id") eqn:E; [|done]. exfalso. rewrite keys_are_spec in Ke.
    assert ("operation_id" ∈ _IDENTITY_FIELDS) as H; [|apply PyStr.mem_spec in H; vm_compute in H; discriminate H]. apply Ke.
    apply has_elem. unfold has. by rewrite E. }
  assert (ne (get r "operation_id") (get r "operation_id") = false) as En.
  { apply ne_false, eq_wf_refl. apply (wf_dget r "operation_id"); [done|]. by apply item_dget, (keys_item r _ _ Kr); listed. }
  unfold decision_of. destruct Hs as [-> | [-> | ->]]; cbn -[ne get_or keys_are _validate_decision_progression] in *;
    rewrite ?Eo, ?En; cbn -[ne _validate_decision_progression]; rewrite Hrev, Hj; cbn; by destruct previous.
Qed.
(** The recovery decision on an extended journal transaction is accepted
    after the decision on the shorter one, except when the shorter one required
    a rollback and the longer one does not: the transaction may go on after
    [rollback_required], but its decisions may not. *)
Theorem decisions_progress e rs more d d' : keys_are e _IDENTITY_FIELDS = true ->
  Forall (fun r => wf (VDict r) = true) (rs ++ more) ->
  recovery_decision rs e = Ok d -> recovery_decision (rs ++ more) e = Ok d' ->
  validate_recovery_decision d e None = Ok tt /\
  (validate_recovery_decision d' e (Some d) = Ok tt <->
   (get d "decision" = VStr "rollback_required" -> get d' "decision" = VStr "rollback_required")).
Proof.
  intros Ke Hw (pre & r & -> & Hr & -> & _)%recovery_decision_inv (pre' & r' & E & Hr' & -> & Ht)%recovery_decision_inv.
  rewrite E in Hw. assert (wf (VDict r') = true) as Wr' by (by apply Forall_app in Hw as [_ [? _]%Forall_cons]).
  rewrite <- E in Hw. apply Forall_app in Hw as [[_ [Wr _]%Forall_cons]%Forall_app _].
  rewrite !decision_accepted by done. split; [done|].
  assert (get r "state" = VStr "terminal" -> r' = r) as Hlast.
  { intros Es. apply journal_transaction_inv in Ht as (_ & _ & _ & Hp). rewrite <- app_assoc in E, Hp.
    rewrite (Hp pre r more eq_refl Es) in E. by apply app_inj_tail in E as [_ E]. }
  destruct (t_state _ _ Hr) as [Es | [Es | Es]].
  - unfold decision_of. rewrite Es. destruct (t_state _ _ Hr') as [-> | [-> | ->]]; cbn; by vm_compute.
  - rewrite (Hlast Es). unfold decision_of. rewrite Es. by vm_compute.
  - unfold decision_of. rewrite Es. destruct (t_state _ _ Hr') as [-> | [-> | ->]]; cbn; vm_compute; naive_solver.
Qed.

(** ** Outcomes *)
Lemma recovery_outcome_inv o d e : validate_recovery_outcome o d e = Ok tt ->
  keys_are d DECISION_FIELDS = true /\
  (get o "outcome" = VStr "success" -> get d "decision" = VStr "terminal") /\
  (get o "outcome" = VStr "ambiguous" -> get d "decision" = VStr "rollback_required").
Proof.
  unfold validate_recovery_outcome. rewrite !then_Ok, break_if_Ok, negb_false_iff.
  intros (Ko & Hd & _ & _ & _ & _ & _ & Hs%break_when_inv & Ha%break_when_inv).
  unfold validate_recovery_decision in Hd. rewrite then_Ok, break_if_Ok, negb_false_iff in Hd. destruct Hd as [Kd _].
  unfold item_is in *. rewrite (keys_item o _ "outcome" Ko) in Hs, Ha by listed. rewrite (keys_item d _ "decision" Kd) in Hs, Ha by listed.
  cbn [rbind py_and py_not] in *. split_and!; [done| |]; intros E.
  - rewrite E in Hs. cbn in Hs. destruct (is_s (get d "decision") "terminal") eqn:Et; [by apply is_s_eq | done].
  - rewrite E in Ha. cbn in Ha. destruct (is_s (get d "decision") "rollback_required") eqn:Et; [by apply is_s_eq | done].
Qed.
(** Success is only published for a terminal decision, without safe mode; an
    ambiguous outcome only for one that requires a rollback, in safe mode. *)
Theorem outcome_matches_decision o d e : validate_recovery_outcome o d e = Ok tt ->
  (get o "outcome" = VStr "success" -> get d "decision" = VStr "terminal" /\ get d "safe_mode" = VBool false) /\
  (get o "outcome" = VStr "ambiguous" -> get d "decision" = VStr "rollback_required" /\ get d "safe_mode" = VBool true).
Proof.
  intros H. destruct (recovery_outcome_inv _ _ _ H) as (Kd & Hs & Ha). unfold validate_recovery_outcome in H. rewrite !then_Ok in H.
  destruct H as (_ & Hd & _). unfold validate_recovery_decision in Hd. rewrite then_Ok in Hd. destruct Hd as [_ Hd].
  apply rbind_Ok_inv in Hd as (z & _ & Hd). rewrite !then_Ok in Hd. destruct Hd as (_ & _ & _ & Hd).
  rewrite (keys_item d _ "decision" Kd) in Hd by listed. cbn [rbind] in Hd. rewrite !then_Ok in Hd. destruct Hd as (_ & Hf%break_when_inv & _).
  unfold flag_differs in Hf. rewrite (keys_item d _ "safe_mode" Kd) in Hf by listed. cbn [rbind] in Hf.
  apply Ok_inj, negb_false_iff in Hf. split; intros E; split; auto.
  - rewrite (Hs E) in Hf. destruct (get d "safe_mode") as [|[]| | | |]; try discriminate Hf. done.
  - rewrite (Ha E) in Hf. destruct (get d "safe_mode") as [|[]| | | |]; try discriminate Hf. done.
Qed.
(** Observations of a journal are reconciled to the first only if each is a
    durable record of the session and equal to it. *)
Theorem reconciled_is_durable l e r : reconcile_journal_records l e = Ok r ->
  head l = Some r /\ Forall (fun o => durable o e /\ (o = r \/ eq (VDict o) (VDict r) = true)) l.
Proof.
  destruct l as [|first others]; [done|]. unfold reconcile_journal_records. intros (us & Hu & H)%rbind_Ok_inv.
  rewrite !then_Ok in H. destruct H as (Ha%break_when_inv%py_any_false & Hc & [= <-]). split; [done|].
  apply break_if_Ok in Hc. apply SessionChain.mapr_Forall in Hu. rewrite list.Forall_forall in *. intros o Ho.
  destruct (Hu o Ho) as [[] Hr%journal_record_spec]. specialize (Ha o Ho). unfold item_is in Ha.
  rewrite (keys_item o _ "status" (r_keys _ _ Hr)) in Ha by listed. cbn [rbind] in Ha. split.
  - split; [done|]. destruct (r_durability _ _ Hr) as [[? _] | [Es _]]; [done|]. rewrite Es in Ha. discriminate Ha.
  - apply elem_of_cons in Ho as [->|Ho]; [by left | right]. apply ne_false. destruct (ne (VDict o) (VDict first)) eqn:E; [|done].
    assert (existsb (fun o => ne (VDict o) (VDict first)) others = true) as Hx by (apply existsb_exists; exists o; by rewrite <- list_elem_of_In).
    by rewrite Hc in Hx.
Qed.

Module Sample.
Definition session : dict :=
  [("authority_identity", VStr "authority"); ("control_store_identity", VStr "store"); ("control_lock_identity", VStr "lock");
   ("journal_identity", VStr "journal"); ("journal_bytes", VStr "b64"); ("barrier_id", VStr "barrier"); ("fencing_owner", VStr "owner");
   ("fencing_token", VStr "token"); ("state_revision", VInt 3)].
Definition record (status fsync : string) : dict :=
  [("operation_id", VStr "op"); ("state_revision", VInt 3); ("journal_identity", VStr "journal"); ("status", VStr status);
   ("fsync", VStr fsync)].
Definition step (n : Z) (state : string) : dict :=
  [("operation_id", VStr "op"); ("sequence", VInt n); ("intent", VStr "append"); ("state", VStr state); ("state_revision", VInt 3);
   ("journal_identity", VStr "journal"); ("fsync", VStr "durable")].
End Sample.
Import Sample.
Lemma journal_store_settles_witness :
  let s := MkStore session [] false in
  let before := perform_all [Append (record "captured" "durable"); Observe (record "ambiguous" "uncertain")] s in
  let after := perform_all [Append (record "captured" "durable")] before in
  length (_records before) = 1%nat /\ _safe_mode before = true /\ after = before.
Proof.
  cbn zeta. split; [vm_compute; reflexivity|]. split; [vm_compute; reflexivity|].
  destruct (journal_store_settles session (MkStore session [] false)
    [Append (record "captured" "durable"); Observe (record "ambiguous" "uncertain")] [Append (record "captured" "durable")]
    ltac:(vm_compute; reflexivity)) as (_ & _ & H). apply H. vm_compute. reflexivity.
Defined.
(** A transaction that goes on after it required a rollback: the decision on the
    whole of it is refused after the decision on its beginning. *)
Lemma decisions_progress_witness :
  let d := decision_of (step 0 "rollback_required") in
  let d' := decision_of (step 1 "captured") in
  validate_recovery_decision d session None = Ok tt /\ validate_recovery_decision d' session (Some d) <> Ok tt.
Proof.
  cbn zeta. destruct (decisions_progress session [step 0 "rollback_required"] [step 1 "captured"]
    (decision_of (step 0 "rollback_required")) (decision_of (step 1 "captured"))) as [H1 H2];
    [vm_compute; reflexivity | by repeat constructor | vm_compute; reflexivity | vm_compute; reflexivity |].
  split; [exact H1|]. intros H. apply H2 in H; [vm_compute in H; discriminate H | vm_compute; reflexivity].
Defined.
End DurableContract.
