(* ===== verification/Discussions.v ===== *)
(** * Discussion sessions ([discussion_session.py], [discussion_session_model.py])

    A discussion session is an object with a revision fence: an event carries
    the revision it was made for, and each accepted event consumes one.  The
    constructor checks fields that may hold any value; an event that was
    constructed has fields of the annotated types.  The session refines the
    bounded model of the source, over histories of any length. *)
From S2P Require Import Prelude PyStr PyVal PyTime Regex Journal Chain.

Module Discussions.
Import PyStr Py PyTime Chain.

(** [^[A-Za-z0-9][A-Za-z0-9._/-]{0,127}$]: the anchors add nothing to
    [fullmatch]. *)
Definition PUBLIC_REF : Regex.re :=
  Regex.cat (Regex.RChar Regex.alnum) (Regex.upto 127 (Regex.RChar (Regex.union Regex.alnum (Regex.one_of "._/-")))).

(** ** Sessions ([discussion_session.py]) *)
Module Session.
Definition EVENT_ACTIONS : list string := ["enter"; "focus"; "respond"; "unresolved"].
Inductive SessionActor : Type := AGENT | USER.
Definition session_error {A} (msg : string) : res A := Raise (ClassError "SessionError" msg).
Definition stop_if (c : bool) (msg : string) : res unit := raise_if c (ClassError "SessionError" msg).

Definition _public_ref (v : value) (label : string) : res string :=
  match v with
  | VStr s =>
      check stop_if (negb (Regex.fullmatch PUBLIC_REF s)) (label +:+ " must be public-safe") ;;
      check stop_if (startswith "/" s || contains ".." s || contains "//" s) (label +:+ " must be public-safe") ;;
      Ok s
  | _ => session_error (label +:+ " must be public-safe")
  end.
Record SessionEvent : Type := MkEvent {
  event_id : string; e_task_id : string; e_task_revision : Z; e_session_id : string; packet_ref : string; point_ref : string;
  e_anchor_ref : string; action : string; actor : SessionActor; response_ref : option string; recorded_at : string;
}.
Definition optional_ref (check_ref : value -> string -> res string) (v : value) (label : string) : res (option string) :=
  match v with VNull => Ok None | _ => let* s := check_ref v label in Ok (Some s) end.
(** [SessionEvent(...)] with [__post_init__] *)
Definition new_event (event task revision session packet point anchor act : value) (who : SessionActor) (response recorded : value)
    : res SessionEvent :=
  let* event_id := _public_ref event "event_id" in
  let* session_id := _public_ref session "session_id" in
  let* packet_ref := _public_ref packet "packet_ref" in
  let* point_ref := _public_ref point "point_ref" in
  let* anchor_ref := _public_ref anchor "anchor_ref" in
  let* task_id := need_str task in
  check stop_if (negb (Regex.fullmatch Regex.TASK task_id)) "task_id is invalid" ;;
  match revision with
  | VInt task_revision =>
      check stop_if (task_revision <? 1) "task_revision must be positive" ;;
      match act with
      | VStr action =>
          check stop_if (negb (mem action EVENT_ACTIONS)) "session action is invalid" ;;
          let* response_ref := optional_ref _public_ref response "response_ref" in
          match recorded with
          | VStr at_ =>
              match parse_iso at_ with
              | None => session_error "recorded_at is invalid"
              | Some parsed =>
                  check stop_if (naive parsed) "recorded_at requires a timezone" ;;
                  Ok (MkEvent event_id task_id task_revision session_id packet_ref point_ref anchor_ref action who response_ref at_)
              end
          | _ => no_attr recorded "replace"
          end
      | _ => session_error "session action is invalid"
      end
  | _ => session_error "task_revision must be positive"
  end.

Record SessionState : Type := MkState {
  task_id : string; task_revision : Z; session_id : option string; active_point : option string; anchor_ref : option string;
  entered : bool; responded : bool; unresolved : bool; event_ids : list string;
}.
Definition new_state (task : string) (revision : Z) : SessionState := MkState task revision None None None false false false [].
(** [x is not None and y != x] *)
Definition mismatch (x : option string) (y : string) : bool := match x with Some x => negb (String.eqb y x) | None => false end.
Definition is_point (x : option string) (y : string) : bool := match x with Some x => String.eqb y x | None => false end.
(** What each action makes of the state, before the event is recorded. *)
Definition acted (event : SessionEvent) (s : SessionState) : res SessionState :=
  if String.eqb (action event) "enter" then
    check stop_if (entered s) "session entry already recorded" ;;
    Ok (MkState (task_id s) (task_revision s) (Some (e_session_id event)) (Some (point_ref event)) (Some (e_anchor_ref event))
                true (responded s) (unresolved s) (event_ids s))
  else if negb (entered s) then session_error "session event skipped entry gate"
  else if String.eqb (action event) "focus" then
    Ok (MkState (task_id s) (task_revision s) (session_id s) (Some (point_ref event)) (anchor_ref s)
                (entered s) (responded s) (unresolved s) (event_ids s))
  else if String.eqb (action event) "respond" then
    check stop_if (match response_ref event with None => true | Some _ => false end) "response event requires response_ref" ;;
    check stop_if (negb (is_point (active_point s) (point_ref event))) "response point does not match active point" ;;
    Ok (MkState (task_id s) (task_revision s) (session_id s) (active_point s) (anchor_ref s) (entered s) true false (event_ids s))
  else
    check stop_if (negb (is_point (active_point s) (point_ref event))) "unresolved point does not match active point" ;;
    Ok (MkState (task_id s) (task_revision s) (session_id s) (active_point s) (anchor_ref s) (entered s) (responded s) true (event_ids s)).
(** [self.event_ids.add(...)]; [self.task_revision += 1] *)
Definition recorded (event : SessionEvent) (s : SessionState) : SessionState :=
  MkState (task_id s) (task_revision s + 1) (session_id s) (active_point s) (anchor_ref s) (entered s) (responded s) (unresolved s)
    (event_id event :: event_ids s).
Definition apply (event : SessionEvent) : st SessionState unit :=
  do slift (fun s => stop_if (negb (String.eqb (e_task_id event) (task_id s))) "event task_id does not match session") ;;
  do slift (fun s => stop_if (mem (event_id event) (event_ids s)) "duplicate session event") ;;
  do slift (fun s => stop_if (negb (e_task_revision event =? task_revision s)) "stale session event revision") ;;
  do slift (fun s => stop_if (mismatch (session_id s) (e_session_id event)) "stale session identity") ;;
  do slift (fun s => stop_if (mismatch (anchor_ref s) (e_anchor_ref event)) "event anchor does not match session") ;;
  do* s' := slift (acted event) in
  do sput s' ;;
  smodify (recorded event).
End Session.

(** ** The bounded model ([discussion_session_model.py]) *)
Module Model.
Record ModelState : Type := MkModel {
  revision : Z; entered : bool; active_point : option string; anchor : option string; unresolved : bool;
}.
Definition ACTIONS : list string := ["enter"; "focus"; "respond"; "unresolved"].
Definition reject_if (c : bool) (msg : string) : res unit := raise_if c (ValueError msg).
Definition step (s : ModelState) (action : string) (rev : Z) (point anc : string) : res ModelState :=
  check reject_if (negb (mem action ACTIONS)) "unknown session action" ;;
  check reject_if (negb (rev =? revision s)) "stale session event revision" ;;
  check reject_if (Session.mismatch (anchor s) anc) "wrong session anchor" ;;
  if String.eqb action "enter" then
    check reject_if (entered s) "duplicate session entry" ;;
    Ok (MkModel (rev + 1) true (Some point) (Some anc) false)
  else
    check reject_if (negb (entered s)) "skipped session entry" ;;
    if String.eqb action "focus" then Ok (MkModel (rev + 1) true (Some point) (anchor s) (unresolved s))
    else
      check reject_if (negb (Session.is_point (active_point s) point)) "wrong active point" ;;
      Ok (MkModel (rev + 1) true (active_point s) (anchor s) (String.eqb action "unresolved")).
End Model.

(** ** A session refines the model *)
Module Session_laws.
Import Session.
Definition abs (s : SessionState) : Model.ModelState :=
  Model.MkModel (task_revision s) (entered s) (active_point s) (anchor_ref s) (unresolved s).
(** What an event needs besides what the model checks. *)
Definition addressed (event : SessionEvent) (s : SessionState) : Prop :=
  e_task_id event = task_id s /\ event_id event ∉ event_ids s /\ mismatch (session_id s) (e_session_id event) = false /\
  (action event = "respond" -> response_ref event <> None).
(** Nothing is pending before the entry of a session. *)
Definition fresh (s : SessionState) : Prop := entered s = false -> unresolved s = false.
Definition accepts (event : SessionEvent) (s s' : SessionState) : Prop := apply event s = (s', Ok tt).
Lemma stop_if_spec c msg : stop_if c msg = if c then session_error msg else Ok tt.
Proof. by destruct c. Qed.
Lemma apply_spec event s : apply event s =
  if negb (String.eqb (e_task_id event) (task_id s)) then (s, session_error "event task_id does not match session")
  else if mem (event_id event) (event_ids s) then (s, session_error "duplicate session event")
  else if negb (e_task_revision event =? task_revision s) then (s, session_error "stale session event revision")
  else if mismatch (session_id s) (e_session_id event) then (s, session_error "stale session identity")
  else if mismatch (anchor_ref s) (e_anchor_ref event) then (s, session_error "event anchor does not match session")
  else match acted event s with Ok s' => (recorded event s', Ok tt) | Raise e => (s, Raise e) end.
Proof.
  unfold apply, sbind, slift. rewrite !stop_if_spec. do 5 (match goal with |- _ = (if ?c then _ else _) => destruct c; [done|] end).
  by destruct (acted event s).
Qed.
(** A refused event leaves the session as it was. *)
Lemma refused_unchanged event s s' x : apply event s = (s', Raise x) -> s' = s.
Proof. rewrite apply_spec. do 5 (match goal with |- (if ?c then _ else _) = _ -> _ => destruct c; [by intros [= <-]|] end). destruct (acted event s); [done | by intros [= <-]]. Qed.
Lemma accepts_inv event s s' : accepts event s s' ->
  e_task_id event = task_id s /\ event_id event ∉ event_ids s /\ e_task_revision event = task_revision s /\
  mismatch (session_id s) (e_session_id event) = false /\ mismatch (anchor_ref s) (e_anchor_ref event) = false /\
  exists t, acted event s = Ok t /\ s' = recorded event t.
Proof.
  unfold accepts. rewrite apply_spec.
  destruct (String.eqb_spec (e_task_id event) (task_id s)); cbn [negb]; [|done].
  destruct (mem (event_id event) (event_ids s)) eqn:Em; [done|]. destruct (Z.eqb_spec (e_task_revision event) (task_revision s)); cbn [negb]; [|done].
  destruct (mismatch (session_id s) _) eqn:Es; [done|]. destruct (mismatch (anchor_ref s) _) eqn:Ea; [done|].
  destruct (acted event s) as [t|]; [intros [= <-]|done]. split_and!; try done; [by apply mem_false|]. by exists t.
Qed.
Lemma known_action a : mem a EVENT_ACTIONS = true -> a = "enter" \/ a = "focus" \/ a = "respond" \/ a = "unresolved".
Proof. intros H%mem_spec. unfold EVENT_ACTIONS in H. set_solver. Qed.
(** An event that was constructed has an action of the list. *)
Lemma new_event_action a b c d e f g h who i j ev : new_event a b c d e f g h who i j = Ok ev -> mem (action ev) EVENT_ACTIONS = true.
Proof.
  unfold new_event. intros H. do 6 (apply rbind_Ok_inv in H as (? & _ & H)). apply rbind_Ok_inv in H as (? & _ & H).
  destruct c; try discriminate H. apply rbind_Ok_inv in H as (? & _ & H). destruct h; try discriminate H.
  apply rbind_Ok_inv in H as (? & Ha%raise_if_Ok%negb_false_iff & H). apply rbind_Ok_inv in H as (? & _ & H).
  destruct j; try discriminate H. destruct (parse_iso s0); [|discriminate H]. by apply rbind_Ok_inv in H as (? & _ & [= <-]).
Qed.
Lemma acted_revision event s t : acted event s = Ok t ->
  task_revision t = task_revision s /\ task_id t = task_id s /\ event_ids t = event_ids s.
Proof.
  unfold acted, stop_if, raise_if, session_error. intros H.
  repeat match type of H with (if ?c then _ else _) = _ => destruct c | rbind (if ?c then _ else _) _ = _ => destruct c; [discriminate H|]; cbn [rbind] in H end;
    try discriminate H; by injection H as <-.
Qed.

Lemma reached (t : SessionState) m : (exists s', (t, @Ok unit tt) = (s', Ok tt) /\ abs s' = m) <-> abs t = m.
Proof. naive_solver. Qed.
(** The acceptance of an event is the step of the model, with its identity. *)
Theorem session_refines_model event s m : fresh s -> mem (action event) EVENT_ACTIONS = true ->
  (exists s', accepts event s s' /\ abs s' = m) <->
  addressed event s /\ Model.step (abs s) (action event) (e_task_revision event) (point_ref event) (e_anchor_ref event) = Ok m.
Proof.
  intros Hf Ha. unfold addressed, accepts, Model.step, Model.reject_if. rewrite apply_spec. cbn [abs Model.revision Model.entered Model.active_point Model.anchor Model.unresolved].
  change Model.ACTIONS with EVENT_ACTIONS. rewrite Ha. cbn [negb raise_if rbind].
  destruct (String.eqb_spec (e_task_id event) (task_id s)) as [Et|Et]; cbn [negb]; [|naive_solver].
  destruct (mem (event_id event) (event_ids s)) eqn:Em; [apply mem_spec in Em; naive_solver|]. apply mem_false in Em.
  destruct (Z.eqb_spec (e_task_revision event) (task_revision s)) as [Er|Er]; cbn [negb raise_if rbind]; [|naive_solver].
  destruct (mismatch (session_id s) (e_session_id event)) eqn:Es; [naive_solver|].
  destruct (mismatch (anchor_ref s) (e_anchor_ref event)) eqn:Ean; cbn [raise_if rbind]; [naive_solver|].
  unfold acted, stop_if. destruct (known_action _ Ha) as [-> | [-> | [-> | ->]]]; cbn [String.eqb Ascii.eqb Bool.eqb];
    destruct (entered s) eqn:Ee; cbn [negb raise_if rbind]; try naive_solver.
  - rewrite reached. unfold abs, recorded. cbn. rewrite Er, (Hf Ee). naive_solver.
  - rewrite reached. unfold abs, recorded. cbn. rewrite Er. naive_solver.
  - destruct (response_ref event); cbn [raise_if rbind]; [|naive_solver].
    destruct (is_point _ _); cbn [negb raise_if rbind]; [|naive_solver].
    rewrite reached. unfold abs, recorded. cbn. rewrite Er. naive_solver.
  - destruct (is_point _ _); cbn [negb raise_if rbind]; [|naive_solver].
    rewrite reached. unfold abs, recorded. cbn. rewrite Er. naive_solver.
Qed.

(** ** Histories of a session *)
Definition play (events : list SessionEvent) (s : SessionState) : SessionState := foldl (fun s e => fst (apply e s)) s events.
Definition is_ok {A} (r : res A) : bool := match r with Ok _ => true | Raise _ => false end.
(** The events that are accepted, in order *)
Fixpoint accepted (events : list SessionEvent) (s : SessionState) : list SessionEvent :=
  match events with
  | [] => []
  | e :: events' => (if is_ok (snd (apply e s)) then [e] else []) ++ accepted events' (fst (apply e s))
  end.
(** An event after the accepted events before it *)
Record in_order (task : string) (start : Z) (before : list SessionEvent) (e : SessionEvent) : Prop := InOrder {
  o_task : e_task_id e = task;
  o_revision : e_task_revision e = start + Z.of_nat (length before);
  o_new : event_id e ∉ map event_id before;
  o_enter : action e = "enter" <-> before = [];
  o_session : forall first, head before = Some first -> e_session_id e = e_session_id first /\ e_anchor_ref e = e_anchor_ref first;
}.
Record history (task : string) (start : Z) (l : list SessionEvent) (s : SessionState) : Prop := History {
  h_task : task_id s = task;
  h_revision : task_revision s = start + Z.of_nat (length l);
  h_ids : forall x, x ∈ event_ids s <-> x ∈ map event_id l;
  h_each : each (in_order task start) l;
  h_entered : entered s = match l with [] => false | _ => true end;
  h_session : session_id s = e_session_id <$> head l;
  h_anchor : anchor_ref s = e_anchor_ref <$> head l;
  h_fresh : fresh s;
}.
Lemma mismatch_false x y : mismatch x y = false <-> forall z, x = Some z -> y = z.
Proof. unfold mismatch. destruct x as [x|]; [|done]. destruct (String.eqb_spec y x); cbn; naive_solver. Qed.
(** What an action does to the parts of a session that bind its events. *)
Lemma acted_binding event s t : acted event s = Ok t ->
  entered t = true /\
  (action event = "enter" /\ entered s = false /\ session_id t = Some (e_session_id event) /\ anchor_ref t = Some (e_anchor_ref event) \/
   action event <> "enter" /\ entered s = true /\ session_id t = session_id s /\ anchor_ref t = anchor_ref s).
Proof.
  unfold acted, stop_if, raise_if, session_error. destruct (String.eqb_spec (action event) "enter") as [Ea|Ea].
  - destruct (entered s); [done|]. intros [= <-]. split; [done|]. by left.
  - destruct (entered s) eqn:Ee; cbn [negb]; [|done]. intros H. split; [|right; split; [done|split; [done|]]];
    repeat match type of H with (if ?c then _ else _) = _ => destruct c | rbind (if ?c then _ else _) _ = _ => destruct c; [discriminate H|]; cbn [rbind] in H end;
    try discriminate H; injection H as <-; done.
Qed.
Lemma history_accepts task start l s e s' : history task start l s -> accepts e s s' -> history task start (l ++ [e]) s'.
Proof.
  intros [Ht Hr Hi He Hn Hs Ha Hf] (Et & Em & Er & Es & Ean & t & H & ->)%accepts_inv.
  destruct (acted_revision _ _ _ H) as (Rt & Tt & It). destruct (acted_binding _ _ _ H) as [Ent Hb].
  assert (in_order task start l e) as Ho.
  { split; [congruence|congruence|by rewrite <- Hi| |].
    - rewrite Hn in Hb. destruct l; naive_solver.
    - intros first Ef. rewrite mismatch_false in Es, Ean. rewrite Ef in Hs, Ha. split; [by apply Es | by apply Ean]. }
  split; cbn [recorded task_id task_revision event_ids entered session_id anchor_ref].
  - congruence.
  - rewrite Rt, Hr, length_app. cbn. lia.
  - intros x. rewrite It, map_app, elem_of_cons, elem_of_app, Hi. cbn [map]. set_solver.
  - by apply each_snoc.
  - rewrite Ent. by destruct l.
  - destruct l; cbn in *; [by destruct Hb as [(_ & _ & -> & _) | (_ & Hb & _)]; [|congruence]|].
    destruct Hb as [(_ & Hb & _) | (_ & _ & -> & _)]; [congruence | done].
  - destruct l; cbn in *; [by destruct Hb as [(_ & _ & _ & ->) | (_ & Hb & _)]; [|congruence]|].
    destruct Hb as [(_ & Hb & _) | (_ & _ & _ & ->)]; [congruence | done].
  - intros Hx. cbn in Hx. congruence.
Qed.
Lemma history_play task start events l s : history task start l s ->
  history task start (l ++ accepted events s) (play events s).
Proof.
  revert l s. induction events as [|e events IH]; intros l s H; [by rewrite app_nil_r|]. cbn [accepted play foldl].
  destruct (apply e s) as [s' r] eqn:E. destruct r as [[]|x]; cbn [fst snd is_ok].
  - rewrite app_assoc. apply IH. by eapply history_accepts.
  - apply refused_unchanged in E as ->. by apply IH.
Qed.
Lemma history_new task start : history task start [] (new_state task start).
Proof. split; try done; [cbn; lia | apply each_nil]. Qed.

(** Over any sequence of events, accepted or refused, the accepted ones form one
    session: the first of them and no other is the entry, they consume the
    revisions of the task one by one, no identifier occurs twice, and all of
    them have the session and the anchor of the entry. *)
Theorem session_in_order task start events :
  let s := play events (new_state task start) in
  let l := accepted events (new_state task start) in
  each (in_order task start) l /\ task_revision s = start + Z.of_nat (length l) /\
  session_id s = e_session_id <$> head l /\ anchor_ref s = e_anchor_ref <$> head l.
Proof. destruct (history_play task start events [] _ (history_new task start)). done. Qed.
(** C28: After any sequence of events, accepted or refused, an event is accepted
    exactly when it is addressed to the session and the model takes the step for
    its action, revision, point and anchor; the states correspond. *)
Theorem session_runs_model task start events event m :
  let s := play events (new_state task start) in
  mem (action event) EVENT_ACTIONS = true ->
  (exists s', accepts event s s' /\ abs s' = m) <->
  addressed event s /\ Model.step (abs s) (action event) (e_task_revision event) (point_ref event) (e_anchor_ref event) = Ok m.
Proof. intros s. apply session_refines_model, (history_play task start events [] _ (history_new task start)). Qed.
End Session_laws.

Module Sample.
Import Session Session_laws.
Definition event (id : string) (revision : Z) (act : string) (response : option string) : SessionEvent :=
  MkEvent id "AR-0001" revision "session" "packet" "point" "anchor" act AGENT response "2026-01-01T00:00:00+00:00".
(** The second event is refused: it repeats a revision. *)
Definition events : list SessionEvent := [event "e1" 4 "enter" None; event "e2" 4 "focus" None].
End Sample.
Import Session Session_laws Sample.
Lemma session_runs_model_witness :
  let s := play events (new_state "AR-0001" 4) in
  exists s', accepts (event "e3" 5 "respond" (Some "answer")) s s' /\ abs s' = Model.MkModel 6 true (Some "point") (Some "anchor") false.
Proof.
  apply (session_runs_model "AR-0001" 4 events (event "e3" 5 "respond" (Some "answer"))); [vm_compute; reflexivity|].
  split; [|vm_compute; reflexivity]. split; [vm_compute; reflexivity|]. split; [apply mem_false; vm_compute; reflexivity|].
  split; [vm_compute; reflexivity | intros _; discriminate].
Defined.
End Discussions.
