(* ===== verification/BatchedDiscussion.v ===== *)
(** * Batched discussion packets ([batched_discussion.py])

    A packet has points with independent outcomes; an event names one of them by
    its anchor and the revision of the packet it was made for.  An object that
    was constructed has fields of the annotated types. *)
From S2P Require Import Prelude PyStr PyVal Regex Chain Discussions.

Module BatchedDiscussion.
Import PyStr Py Chain.
Definition PUBLIC_REF : Regex.re := Discussions.PUBLIC_REF.
Definition BATCH_ACTIONS : list string := ["focus"; "respond"; "unresolved"; "reask"; "declare_coupling"].
Definition batch_error {A} (msg : string) : res A := Raise (ClassError "BatchError" msg).
Definition stop_if (c : bool) (msg : string) : res unit := raise_if c (ClassError "BatchError" msg).
Definition _ref (v : value) (label : string) : res string :=
  match v with
  | VStr s =>
      check stop_if (negb (Regex.fullmatch PUBLIC_REF s)) (label +:+ " must be public-safe") ;;
      check stop_if (startswith "/" s || contains ".." s || contains "//" s) (label +:+ " must be public-safe") ;;
      Ok s
  | _ => batch_error (label +:+ " must be public-safe")
  end.
Record BatchPoint : Type := MkPoint { p_ref : string; p_anchor : string; coupled_to : option string }.
Definition new_point (point anchor coupled : value) : res BatchPoint :=
  let* r := _ref point "point_ref" in
  let* a := _ref anchor "anchor_ref" in
  let* c := Discussions.Session.optional_ref _ref coupled "coupled_to" in
  Ok (MkPoint r a c).
Record BatchEvent : Type := MkEvent {
  event_id : string; e_task_id : string; e_task_revision : Z; e_session_id : string; e_packet_ref : string; point_ref : string;
  anchor_ref : string; action : string; response_ref : option string; relation_ref : option string;
}.
Definition new_event (event task revision session packet point anchor act response relation : value) : res BatchEvent :=
  let* event_id := _ref event "event_id" in
  let* session_id := _ref session "session_id" in
  let* packet_ref := _ref packet "packet_ref" in
  let* point_ref := _ref point "point_ref" in
  let* anchor_ref := _ref anchor "anchor_ref" in
  let* task_id := need_str task in
  check stop_if (negb (Regex.fullmatch Regex.TASK task_id)) "task_id is invalid" ;;
  match revision with
  | VInt task_revision =>
      check stop_if (task_revision <? 1) "task_revision must be positive" ;;
      check raise_when (py_not (in_set act BATCH_ACTIONS)) (ClassError "BatchError" "batch action is invalid") ;;
      let* action := need_str act in
      let* response_ref := Discussions.Session.optional_ref _ref response "response_ref" in
      let* relation_ref := Discussions.Session.optional_ref _ref relation "relation_ref" in
      Ok (MkEvent event_id task_id task_revision session_id packet_ref point_ref anchor_ref action response_ref relation_ref)
  | _ => batch_error "task_revision must be positive"
  end.

Record PointState : Type := MkPointState {
  spec : BatchPoint; response : option string; unresolved : bool; reask_count : Z; relation_declared : bool;
}.
Record BatchState : Type := MkBatch {
  task_id : string; task_revision : Z; session_id : string; packet_ref : string;
  (** the dictionary from the references of the points, in insertion order *)
  points : list PointState;
  event_ids : list string; active_point : option string;
}.
Definition new_batch (task : string) (revision : Z) (session packet : value) (ps : list BatchPoint) : res BatchState :=
  check stop_if (negb (Regex.fullmatch Regex.TASK task) || (revision <? 1)) "batch identity is invalid" ;;
  let* session_id := _ref session "session_id" in
  let* packet_ref := _ref packet "packet_ref" in
  check stop_if (Nat.eqb (length ps) 0 || negb (Nat.eqb (length (dedup (map p_ref ps))) (length ps)))
    "batch points must be unique and non-empty" ;;
  Ok (MkBatch task revision session_id packet_ref (map (fun p => MkPointState p None true 0 false) ps) [] None).
Definition find_point (ref : string) (l : list PointState) : option PointState :=
  List.find (fun p => String.eqb ref (p_ref (spec p))) l.
(** The mutations of the points an event addresses *)
Definition declare (p : PointState) : PointState := MkPointState (spec p) (response p) (unresolved p) (reask_count p) true.
Definition respond (r : string) (p : PointState) : PointState := MkPointState (spec p) (Some r) false (reask_count p) (relation_declared p).
Definition reopen (p : PointState) : PointState := MkPointState (spec p) (response p) true (reask_count p) (relation_declared p).
Definition reask (p : PointState) : PointState := MkPointState (spec p) None true (reask_count p + 1) (relation_declared p).
Definition at_point (ref : string) (f : PointState -> PointState) (l : list PointState) : list PointState :=
  map (fun p => if String.eqb ref (p_ref (spec p)) then f p else p) l.
Definition coupled (c : string) (p : PointState) : bool := bool_decide (coupled_to (spec p) = Some c).
Definition with_points (l : list PointState) (s : BatchState) : BatchState :=
  MkBatch (task_id s) (task_revision s) (session_id s) (packet_ref s) l (event_ids s) (active_point s).
Definition acted (event : BatchEvent) (point : PointState) (s : BatchState) : res BatchState :=
  if String.eqb (action event) "focus" then
    Ok (MkBatch (task_id s) (task_revision s) (session_id s) (packet_ref s) (points s) (event_ids s) (Some (point_ref event)))
  else if String.eqb (action event) "declare_coupling" then
    match coupled_to (spec point) with
    | Some c =>
        check stop_if (negb (bool_decide (relation_ref event = Some c))) "coupling relation is not declared by the packet" ;;
        Ok (with_points (map (fun p => if coupled c p then declare p else p) (points s)) s)
    | None => batch_error "coupling relation is not declared by the packet"
    end
  else if String.eqb (action event) "respond" then
    match response_ref event with
    | None => batch_error "response is required"
    | Some r =>
        check stop_if (bool_decide (coupled_to (spec point) <> None) && negb (relation_declared point))
          "coupling relation must be declared before response" ;;
        Ok (with_points (at_point (point_ref event) (respond r) (points s)) s)
    end
  else if String.eqb (action event) "unresolved" then Ok (with_points (at_point (point_ref event) reopen (points s)) s)
  else Ok (with_points (at_point (point_ref event) reask (points s)) s).
Definition recorded (event : BatchEvent) (s : BatchState) : BatchState :=
  MkBatch (task_id s) (task_revision s + 1) (session_id s) (packet_ref s) (points s) (event_id event :: event_ids s) (active_point s).
Definition the_point (event : BatchEvent) (s : BatchState) : res PointState :=
  match find_point (point_ref event) (points s) with Some p => Ok p | None => batch_error "unknown batch point" end.
Definition apply (event : BatchEvent) : st BatchState unit :=
  do slift (fun s => stop_if (mem (event_id event) (event_ids s)) "duplicate batch event") ;;
  do slift (fun s => stop_if (negb (String.eqb (e_task_id event) (task_id s)) || negb (String.eqb (e_session_id event) (session_id s)))
                       "stale batch session") ;;
  do slift (fun s => stop_if (negb (String.eqb (e_packet_ref event) (packet_ref s))) "batch packet does not match session") ;;
  do slift (fun s => stop_if (negb (e_task_revision event =? task_revision s)) "stale batch event revision") ;;
  do* point := slift (the_point event) in
  do slift (fun _ => stop_if (negb (String.eqb (anchor_ref event) (p_anchor (spec point)))) "stale batch anchor") ;;
  do* s' := slift (acted event point) in
  do sput s' ;;
  smodify (recorded event).
Definition point (s : BatchState) (ref : string) : res (option string * bool * Z) :=
  match find_point ref (points s) with
  | None => batch_error "unknown batch point"
  | Some p => Ok (response p, unresolved p, reask_count p)
  end.

(** ** Laws of batched packets *)
Definition accepts (event : BatchEvent) (s s' : BatchState) : Prop := apply event s = (s', Ok tt).
Lemma batch_apply_spec event s : apply event s =
  if mem (event_id event) (event_ids s) then (s, batch_error "duplicate batch event")
  else if negb (String.eqb (e_task_id event) (task_id s)) || negb (String.eqb (e_session_id event) (session_id s))
  then (s, batch_error "stale batch session")
  else if negb (String.eqb (e_packet_ref event) (packet_ref s)) then (s, batch_error "batch packet does not match session")
  else if negb (e_task_revision event =? task_revision s) then (s, batch_error "stale batch event revision")
  else match the_point event s with
       | Raise e => (s, Raise e)
       | Ok p =>
           if negb (String.eqb (anchor_ref event) (p_anchor (spec p))) then (s, batch_error "stale batch anchor")
           else match acted event p s with Ok s' => (recorded event s', Ok tt) | Raise e => (s, Raise e) end
       end.
Proof.
  unfold apply, sbind, slift, stop_if, raise_if. do 4 (match goal with |- _ = (if ?c then _ else _) => destruct c; [done|] end).
  destruct (the_point event s) as [p|]; [|done]. destruct (negb _); [done|]. by destruct (acted event p s).
Qed.
Lemma batch_refused_unchanged event s s' x : apply event s = (s', Raise x) -> s' = s.
Proof.
  rewrite batch_apply_spec. do 4 (match goal with |- (if ?c then _ else _) = _ -> _ => destruct c; [by intros [= <-]|] end).
  destruct (the_point event s) as [p|]; [|by intros [= <-]]. destruct (negb _); [by intros [= <-]|].
  destruct (acted event p s); [done | by intros [= <-]].
Qed.
Lemma find_point_Some ref l p : find_point ref l = Some p -> p ∈ l /\ p_ref (spec p) = ref.
Proof. intros [Hin H]%find_some. split; [by apply list_elem_of_In | by apply String.eqb_eq in H]. Qed.
Lemma batch_accepts_inv event s s' : accepts event s s' ->
  event_id event ∉ event_ids s /\ e_task_id event = task_id s /\ e_session_id event = session_id s /\ e_packet_ref event = packet_ref s /\
  e_task_revision event = task_revision s /\
  exists p t, p ∈ points s /\ p_ref (spec p) = point_ref event /\ p_anchor (spec p) = anchor_ref event /\
              find_point (point_ref event) (points s) = Some p /\ acted event p s = Ok t /\ s' = recorded event t.
Proof.
  unfold accepts. rewrite batch_apply_spec. destruct (mem (event_id event) (event_ids s)) eqn:Em; [done|].
  destruct (String.eqb_spec (e_task_id event) (task_id s)) as [Et|]; [|done].
  destruct (String.eqb_spec (e_session_id event) (session_id s)) as [Es|]; [|done]. cbn [negb orb].
  destruct (String.eqb_spec (e_packet_ref event) (packet_ref s)) as [Ep|]; [|done]. cbn [negb].
  destruct (Z.eqb_spec (e_task_revision event) (task_revision s)) as [Er|]; [|done]. cbn [negb].
  unfold the_point. destruct (find_point _ _) as [p|] eqn:Ef; [|done]. pose proof (find_point_Some _ _ _ Ef) as [Hin Hp].
  destruct (String.eqb_spec (anchor_ref event) (p_anchor (spec p))) as [Ea|]; [|done]. cbn [negb].
  destruct (acted event p s) as [t|] eqn:Eac; [intros [= <-]|done]. split_and!; try done; [by apply mem_false|].
  by exists p, t.
Qed.
(** A point never has a response before the coupling it needs is declared, and
    is resolved only by a response. *)
Record point_ok (p : PointState) : Prop := PointOk {
  ok_coupling : coupled_to (spec p) <> None -> response p <> None -> relation_declared p = true;
  ok_resolved : unresolved p = false -> response p <> None;
  ok_count : 0 <= reask_count p;
}.
(** The points an event changes, and how. *)
Inductive change (event : BatchEvent) (p : PointState) : PointState -> Prop :=
| untouched : change event p p
| declared c : action event = "declare_coupling" -> relation_ref event = Some c -> coupled_to (spec p) = Some c -> change event p (declare p)
| responded r : point_ref event = p_ref (spec p) -> response_ref event = Some r ->
    (coupled_to (spec p) <> None -> relation_declared p = true) -> change event p (respond r p)
| reopened : point_ref event = p_ref (spec p) -> change event p (reopen p)
| reasked : point_ref event = p_ref (spec p) -> change event p (reask p).
Lemma change_ok event p q : change event p q -> point_ok p -> point_ok q /\ spec q = spec p.
Proof. intros [| c _ _ _ | r _ _ H | _ | _] [Hc Hr Hn]; split; try done; split; cbn; try done; try lia; auto. Qed.
Lemma at_point_change event (f : PointState -> PointState) (l : list PointState) :
  (forall p, p ∈ l -> point_ref event = p_ref (spec p) -> change event p (f p)) ->
  Forall2 (change event) l (at_point (point_ref event) f l).
Proof.
  induction l as [|p l IH]; intros H; [constructor|]. cbn. constructor; [|by apply IH; intros; apply H; [by right|]].
  destruct (String.eqb_spec (point_ref event) (p_ref (spec p))); [apply H; [by left | done] | constructor].
Qed.
#[local] Instance change_refl event : Reflexive (change event).
Proof. intros p. constructor. Qed.
Lemma NoDup_point (l : list PointState) p q : NoDup (map (fun p => p_ref (spec p)) l) -> p ∈ l -> q ∈ l ->
  p_ref (spec p) = p_ref (spec q) -> p = q.
Proof.
  induction l as [|x l IH]; [by intros _ ?%elem_of_nil|]. cbn [map]. intros [Hx Hn]%NoDup_cons [->|Hp]%elem_of_cons [->|Hq]%elem_of_cons E; auto.
  - destruct Hx. rewrite E. by apply (list_elem_of_fmap_2 (fun p => p_ref (spec p))).
  - destruct Hx. rewrite <- E. by apply (list_elem_of_fmap_2 (fun p => p_ref (spec p))).
Qed.
Lemma acted_change event p s t : NoDup (map (fun p => p_ref (spec p)) (points s)) ->
  p ∈ points s -> p_ref (spec p) = point_ref event -> acted event p s = Ok t ->
  Forall2 (change event) (points s) (points t) /\ task_id t = task_id s /\ task_revision t = task_revision s /\
  session_id t = session_id s /\ packet_ref t = packet_ref s /\ event_ids t = event_ids s.
Proof.
  intros Hn Hin Hp. unfold acted, stop_if, raise_if.
  destruct (String.eqb (action event) "focus"); [by intros [= <-]|].
  destruct (String.eqb_spec (action event) "declare_coupling") as [Ed|_].
  { destruct (coupled_to (spec p)) as [c|] eqn:Ec; [|done]. destruct (bool_decide_reflect (relation_ref event = Some c)) as [Er|]; [|done].
    intros [= <-]. split; [|done]. cbn. clear Hn Hin. induction (points s) as [|q l IH]; [constructor|]. cbn. constructor; [|done].
    unfold coupled. destruct (bool_decide_reflect (coupled_to (spec q) = Some c)); [by eapply declared | done]. }
  destruct (String.eqb (action event) "respond").
  { destruct (response_ref event) as [r|] eqn:Er; [|done]. destruct (_ && _) eqn:Eg; [done|]. intros [= <-]. split; [|done].
    apply at_point_change. intros q Hq Eq. assert (q = p) as -> by (eapply NoDup_point; [exact Hn|done..|congruence]).
    apply responded; [done..|]. intros Hc. apply andb_false_iff in Eg as [Eg|Eg]; [by apply bool_decide_eq_false in Eg | by apply negb_false_iff in Eg]. }
  destruct (String.eqb (action event) "unresolved"); intros [= <-]; (split; [|done]); apply at_point_change; intros q _ Eq;
    [by apply reopened | by apply reasked].
Qed.

(** ** Histories of a packet *)
Definition play (events : list BatchEvent) (s : BatchState) : BatchState := foldl (fun s e => fst (apply e s)) s events.
Fixpoint accepted (events : list BatchEvent) (s : BatchState) : list BatchEvent :=
  match events with
  | [] => []
  | e :: events' => (if Discussions.Session_laws.is_ok (snd (apply e s)) then [e] else []) ++ accepted events' (fst (apply e s))
  end.
Record in_packet (s0 : BatchState) (before : list BatchEvent) (e : BatchEvent) : Prop := InPacket {
  k_identity : e_task_id e = task_id s0 /\ e_session_id e = session_id s0 /\ e_packet_ref e = packet_ref s0;
  k_revision : e_task_revision e = task_revision s0 + Z.of_nat (length before);
  k_new : event_id e ∉ map event_id before;
  k_point : exists p, p ∈ map spec (points s0) /\ p_ref p = point_ref e /\ p_anchor p = anchor_ref e;
}.
Record packet (s0 : BatchState) (l : list BatchEvent) (s : BatchState) : Prop := Packet {
  b_identity : task_id s = task_id s0 /\ session_id s = session_id s0 /\ packet_ref s = packet_ref s0;
  b_revision : task_revision s = task_revision s0 + Z.of_nat (length l);
  b_ids : forall x, x ∈ event_ids s <-> x ∈ map event_id l;
  b_specs : map spec (points s) = map spec (points s0);
  b_ok : Forall point_ok (points s);
  b_each : each (in_packet s0) l;
}.
Lemma changes_ok event l m : Forall2 (change event) l m -> Forall point_ok l -> Forall point_ok m /\ map spec m = map spec l.
Proof.
  induction 1 as [|p q l m H _ IH]; [done|]. intros [Hp Hl]%Forall_cons. destruct (change_ok _ _ _ H Hp) as [Hq E].
  destruct (IH Hl) as [Hm Em]. split; [by constructor|]. cbn. by rewrite E, Em.
Qed.
Lemma packet_accepts s0 l s e s' : NoDup (map p_ref (map spec (points s0))) -> packet s0 l s -> accepts e s s' -> packet s0 (l ++ [e]) s'.
Proof.
  intros Hn [(It & Is & Ip) Hr Hi Hs Hk He] (Em & Et & Es & Ep & Er & p & t & Hin & Hp & Ha & _ & Hact & ->)%batch_accepts_inv.
  destruct (acted_change e p s t) as (Hc & Tt & Rt & St & Pt & Dt); [by rewrite <- (map_map spec p_ref), Hs | done..|].
  destruct (changes_ok _ _ _ Hc Hk) as [Hk' Hs']. split; cbn [recorded task_id session_id packet_ref task_revision event_ids points].
  - split_and!; congruence.
  - rewrite Rt, Hr, length_app. cbn. lia.
  - intros x. rewrite Dt, map_app, elem_of_cons, elem_of_app, Hi. cbn [map]. set_solver.
  - by rewrite Hs'.
  - done.
  - apply each_snoc. split; [done|]. split; [split_and!; congruence | congruence | by rewrite <- Hi |].
    exists (spec p). split_and!; [rewrite <- Hs; by apply list_elem_of_fmap_2 | done..].
Qed.
Lemma packet_play s0 events l s : NoDup (map p_ref (map spec (points s0))) -> packet s0 l s ->
  packet s0 (l ++ accepted events s) (play events s).
Proof.
  intros Hn. revert l s. induction events as [|e events IH]; intros l s H; [by rewrite app_nil_r|]. cbn [accepted play foldl].
  destruct (apply e s) as [s' r] eqn:E. destruct r as [[]|x]; cbn [fst snd Discussions.Session_laws.is_ok].
  - rewrite app_assoc. apply IH. by eapply packet_accepts.
  - apply batch_refused_unchanged in E as ->. by apply IH.
Qed.
Lemma new_batch_inv task revision session pkt ps s : new_batch task revision session pkt ps = Ok s ->
  NoDup (map p_ref ps) /\ map spec (points s) = ps /\ packet s [] s /\ 1 <= revision /\ task_revision s = revision.
Proof.
  unfold new_batch, stop_if. intros (u & Hi%raise_if_Ok & (i & _ & (k & _ & (u' & Hd%raise_if_Ok & [= <-])%rbind_Ok_inv)%rbind_Ok_inv)%rbind_Ok_inv)%rbind_Ok_inv.
  apply orb_false_iff in Hi as [_ Hi%Z.ltb_ge], Hd as [_ Hd%negb_false_iff%Nat.eqb_eq]. split_and!; try done.
  - apply dedup_length_NoDup. by rewrite Hd, length_map.
  - cbn. rewrite map_map. cbn. by rewrite map_id.
  - split; cbn; try done; [lia | | apply each_nil]. apply Forall_map, list.Forall_true. by split.
Qed.

(** Over any sequence of events, accepted or refused: the points of a packet
    stay the ones it was made of, accepted events consume its revisions one by
    one with identifiers of their own and name a point by its anchor, and no
    point has a response before its coupling is declared or is resolved without
    one. *)
Theorem batch_in_order task revision session pkt ps s0 events : new_batch task revision session pkt ps = Ok s0 ->
  let s := play events s0 in
  let l := accepted events s0 in
  map spec (points s) = ps /\ Forall point_ok (points s) /\ each (in_packet s0) l /\ task_revision s = revision + Z.of_nat (length l).
Proof.
  intros (Hn & Hs & Hp & _ & Hr)%new_batch_inv s l. destruct (packet_play s0 events [] s0) as [_ Hrev _ Hspec Hok He]; [by rewrite Hs | done|].
  subst s l. rewrite Hspec, Hs. split_and!; [done..|]. by rewrite <- Hr.
Qed.
(** An event leaves the points it does not name as they were, but for a coupling
    it declares. *)
Lemma find_change e ref l m p : Forall2 (change e) l m -> ref <> point_ref e -> find_point ref l = Some p ->
  exists q, find_point ref m = Some q /\ response q = response p /\ unresolved q = unresolved p /\ reask_count q = reask_count p /\
            (action e <> "declare_coupling" -> q = p).
Proof.
  intros H Hr. induction H as [|x y l m Hxy _ IH]; [done|]. unfold find_point in *. cbn [List.find].
  assert (spec y = spec x) as -> by (by destruct Hxy). destruct (String.eqb_spec ref (p_ref (spec x))) as [E|_]; [|done].
  intros [= ->]. exists y. split; [done|]. destruct Hxy; try (exfalso; congruence); done.
Qed.
Theorem points_are_independent s0 l s e s' ref p : NoDup (map p_ref (map spec (points s0))) -> packet s0 l s -> accepts e s s' ->
  ref <> point_ref e -> find_point ref (points s) = Some p ->
  exists q, find_point ref (points s') = Some q /\ response q = response p /\ unresolved q = unresolved p /\ reask_count q = reask_count p /\
            (action e <> "declare_coupling" -> q = p).
Proof.
  intros Hn Hp (_ & _ & _ & _ & _ & x & t & Hin & Hx & _ & _ & Hact & ->)%batch_accepts_inv Hr Hf.
  destruct (acted_change e x s t) as (Hc & _); [by rewrite <- (map_map spec p_ref), (b_specs _ _ _ Hp) | done..|].
  by eapply find_change.
Qed.
End BatchedDiscussion.
