(* ===== verification/Decisions.v ===== *)
(** * Decisions of an agent ([decision_routing.py], [decision_batch_policy.py])

    Which decisions need the user interface, and how decisions that need a human
    are grouped into batches.  Everything here is a function of its arguments. *)
From Stdlib Require Import Sorted.
From S2P Require Import Prelude PyStr PyVal Regex Discussions.

Module Decisions.
Import PyStr Py.

(** ** Routing *)
Definition routing_error {A} (msg : string) : res A := Raise (ClassError "DecisionRoutingError" msg).
Definition route_if (c : bool) (msg : string) : res unit := raise_if c (ClassError "DecisionRoutingError" msg).
Definition UI_CHANNEL : string := "workflow-ui".
Record DecisionAssessment : Type := MkAssessment {
  decision_class : string; impact : string; reversibility : string; uncertainty : bool; user_requested : bool;
  proposal_review : bool; policy_required : bool; project_direction : bool;
}.
Definition reason_codes (a : DecisionAssessment) : list string :=
  map fst (List.filter snd
    [("user-request", user_requested a); ("proposal-review", proposal_review a); ("agent-uncertainty", uncertainty a);
     ("policy-required", policy_required a); ("design-choice", String.eqb (decision_class a) "design");
     ("conceptual-choice", String.eqb (decision_class a) "conceptual"); ("high-impact", mem (impact a) ["high"; "critical"]);
     ("irreversible", mem (reversibility a) ["difficult"; "irreversible"]); ("project-direction", project_direction a)]).
Definition requires_tui (a : DecisionAssessment) : bool :=
  negb (Nat.eqb (length (reason_codes a)) 0) &&
  (user_requested a || proposal_review a || uncertainty a || policy_required a || mem (decision_class a) ["design"; "conceptual"]
   || mem (impact a) ["high"; "critical"] || mem (reversibility a) ["difficult"; "irreversible"] || project_direction a).
Definition assess_decision (a : DecisionAssessment) : res DecisionAssessment :=
  check route_if (negb (mem (decision_class a) ["design"; "conceptual"; "operational"])) "decision_class is invalid" ;;
  check route_if (negb (mem (impact a) ["low"; "medium"; "high"; "critical"])) "impact is invalid" ;;
  check route_if (negb (mem (reversibility a) ["easy"; "bounded"; "difficult"; "irreversible"])) "reversibility is invalid" ;;
  Ok a.
Definition is_true (v : value) : bool := match v with VBool true => true | _ => false end.
Definition require_tui_route (a : DecisionAssessment) (trigger request_ref : value) (channel : string) (host_direct_question : bool) : res unit :=
  if negb (requires_tui a) then Ok tt
  else
    check route_if (host_direct_question || negb (String.eqb channel UI_CHANNEL))
      "important decisions must use workflow-ui (GUI preferred, TUI fallback)" ;;
    check route_if (negb (match request_ref with VStr s => truthy (VStr s) && startswith "AWG-" s | _ => false end))
      "important decisions require an AWG request reference" ;;
    match trigger with
    | VDict t =>
        check route_if (negb (is_true (get t "interaction_required"))) "important decisions require an active human trigger" ;;
        route_if (ne (get t "decision_request_ref") request_ref) "trigger and TUI request references must match"
    | _ => routing_error "important decisions require an active human trigger"
    end.
Fixpoint require_all_tui_routes (l : list (DecisionAssessment * value * value)) : res unit :=
  match l with
  | [] => Ok tt
  | (a, trigger, request_ref) :: l' =>
      check require_tui_route a trigger request_ref UI_CHANNEL false ;;
      require_all_tui_routes l'
  end.

(** ** Batches *)
Definition batch_error {A} (msg : string) : res A := Raise (ClassError "DecisionBatchError" msg).
Definition batch_if (c : bool) (msg : string) : res unit := raise_if c (ClassError "DecisionBatchError" msg).
Definition _REF : Regex.re := Discussions.PUBLIC_REF.
Record ARDecision : Type := MkDecision {
  ar_id : string; task_revision : Z; state : string; requires_human : bool; batch_key : option string;
  decision_request_ref : option string;
}.
Definition public_ref (v : value) (label : string) : res (option string) :=
  match v with
  | VNull => Ok None
  | _ =>
      let* s := need_str v in
      check batch_if (negb (Regex.fullmatch _REF s)) (label +:+ " is not public-safe") ;;
      Ok (Some s)
  end.
(** [ARDecision(...)] with [__post_init__] *)
Definition new_decision (ar revision st human key ref : value) : res ARDecision :=
  let* ar_id := need_str ar in
  check batch_if (negb (Regex.fullmatch Regex.TASK ar_id)) "ar_id is invalid" ;;
  match revision with
  | VInt task_revision =>
      check batch_if (task_revision <? 1) "task_revision must be positive" ;;
      check raise_when (py_not (in_set st ["ready"; "blocked"; "uncertain"])) (ClassError "DecisionBatchError" "state is invalid") ;;
      let* state := need_str st in
      match human with
      | VBool requires_human =>
          let* batch_key := public_ref key "batch_key" in
          let* decision_request_ref := public_ref ref "decision_request_ref" in
          check batch_if (requires_human && match decision_request_ref with None => true | Some s => negb (PyStr.truthy s) end)
            "human decisions require a request reference" ;;
          Ok (MkDecision ar_id task_revision state requires_human batch_key decision_request_ref)
      | _ => batch_error "requires_human must be boolean"
      end
  | _ => batch_error "task_revision must be positive"
  end.
Record HumanBatch : Type := MkBatch { b_key : string; decision_request_refs : list string; ar_ids : list string }.
Record ProgressPlan : Type := MkPlan { autonomous_ar_ids : list string; human_batches : list HumanBatch }.
(** [decision.batch_key or f"single:{decision.ar_id}"] *)
Definition group_key (d : ARDecision) : string :=
  match batch_key d with
  | Some k => if PyStr.truthy k then k else "single:" +:+ ar_id d
  | None => "single:" +:+ ar_id d
  end.
(** [grouped.setdefault(key, []).append(decision)] *)
Fixpoint add_to (grouped : list (string * list ARDecision)) (k : string) (d : ARDecision) : list (string * list ARDecision) :=
  match grouped with
  | [] => [(k, [d])]
  | (k', ds) :: g => if String.eqb k k' then (k', ds ++ [d]) :: g else (k', ds) :: add_to g k d
  end.
Record planning : Type := Planning { seen : list string; autonomous : list string; grouped : list (string * list ARDecision) }.
Definition plan_one (p : planning) (d : ARDecision) : res planning :=
  check batch_if (mem (ar_id d) (seen p)) "AR decisions must be unique" ;;
  Ok (Planning (ar_id d :: seen p)
        (if String.eqb (state d) "ready" && negb (requires_human d) then autonomous p ++ [ar_id d] else autonomous p)
        (if requires_human d then add_to (grouped p) (group_key d) d else grouped p)).
Definition request_of (d : ARDecision) : list string :=
  match decision_request_ref d with Some s => if PyStr.truthy s then [s] else [] | None => [] end.
Definition batch_of (kd : string * list ARDecision) : HumanBatch :=
  MkBatch kd.1 (concat (map request_of kd.2)) (map ar_id kd.2).
(** The keys of the dictionary are distinct, so sorting compares nothing else. *)
Definition plan_progress (decisions : list ARDecision) : res ProgressPlan :=
  let* p := foldM plan_one (Planning [] [] []) decisions in
  Ok (MkPlan (autonomous p) (map batch_of (sort_by (fun x y => String.ltb x.1 y.1) (grouped p)))).

(** ** Routing is complete *)
Lemma enabled_codes (l : list (string * bool)) : map fst (List.filter snd l) <> [] <-> existsb snd l = true.
Proof. induction l as [|[c b] l IH]; [done|]. cbn. by destruct b. Qed.
(** A decision needs the user interface exactly when there is a reason. *)
Theorem requires_tui_iff a : requires_tui a = true <-> reason_codes a <> [].
Proof.
  unfold requires_tui. destruct (Nat.eqb_spec (length (reason_codes a)) 0) as [E|E]; cbn [negb andb].
  { by apply nil_length_inv in E as ->. }
  assert (reason_codes a <> []) as Hn by (by intros H; rewrite H in E). split; [done|]. intros _.
  unfold reason_codes in Hn. apply enabled_codes in Hn. cbn [existsb snd mem] in *. rewrite !orb_true_iff in *. tauto.
Qed.
Lemma route_if_Ok c msg u : route_if c msg = Ok u <-> c = false.
Proof. unfold route_if, raise_if. destruct u. by destruct c. Qed.
(** The handoff of a decision that needs the user interface *)
Definition handed_over (trigger request_ref : value) (channel : string) (host_direct_question : bool) : Prop :=
  host_direct_question = false /\ channel = UI_CHANNEL /\
  exists r t, request_ref = VStr r /\ startswith "AWG-" r = true /\ trigger = VDict t /\
              get t "interaction_required" = VBool true /\ get t "decision_request_ref" = VStr r.
Lemma route_spec a trigger request_ref channel direct :
  require_tui_route a trigger request_ref channel direct = Ok tt <->
  (reason_codes a <> [] -> handed_over trigger request_ref channel direct).
Proof.
  rewrite <- requires_tui_iff. unfold require_tui_route, handed_over. destruct (requires_tui a); cbn [negb]; [|naive_solver]. split.
  - intros H _. apply rbind_Ok_inv in H as (u & Hd%route_if_Ok & H). apply orb_false_iff in Hd as [-> Hc%negb_false_iff%String.eqb_eq].
    apply rbind_Ok_inv in H as (u' & Hr%route_if_Ok%negb_false_iff & H). destruct request_ref as [| | |r| |]; try discriminate Hr.
    apply andb_true_iff in Hr as [_ Hr]. destruct trigger as [| | | | |t]; try discriminate H.
    apply rbind_Ok_inv in H as (u'' & Ht%route_if_Ok%negb_false_iff & H%route_if_Ok%ne_false%eq_str).
    split_and!; [done..|]. exists r, t. split_and!; try done. unfold is_true in Ht. by destruct (get t "interaction_required") as [|[]| | | |].
  - intros H. destruct (H eq_refl) as (-> & -> & r & t & -> & Hr & -> & Hi & Hd). rewrite String.eqb_refl. cbn [negb orb route_if raise_if rbind].
    assert (truthy (VStr r) = true) as -> by (by destruct r). rewrite Hr, Hi, Hd. cbn [andb negb route_if raise_if rbind is_true].
    apply route_if_Ok, ne_false, eq_str. done.
Qed.
(** A batch of decisions passes exactly when each decision with a reason is
    handed over to the user interface with a request of its own. *)
Theorem all_routes_spec l : require_all_tui_routes l = Ok tt <->
  Forall (fun x => reason_codes x.1.1 <> [] -> handed_over x.1.2 x.2 UI_CHANNEL false) l.
Proof.
  induction l as [|[[a trigger] ref] l IH]; [done|]. rewrite Forall_cons, <- IH. cbn [require_all_tui_routes fst snd].
  rewrite <- (route_spec a trigger ref UI_CHANNEL false). destruct (require_tui_route _ _ _ _ _) as [[]|]; cbn; naive_solver.
Qed.

(** ** What a plan holds
    The plan of a list of decisions as the code computes it *)
Definition ready (d : ARDecision) : bool := String.eqb (state d) "ready" && negb (requires_human d).
Definition with_key (k : string) (d : ARDecision) : bool := requires_human d && String.eqb k (group_key d).
Definition human_keys (ds : list ARDecision) : list string := map group_key (List.filter requires_human ds).
(** What a list of decisions is planned to: the safe ones in order, and for each
    key of the others, in order of the keys, the decisions with that key. *)
Definition expected_plan (ds : list ARDecision) : ProgressPlan :=
  MkPlan (map ar_id (List.filter ready ds))
    (map (fun k => batch_of (k, List.filter (with_key k) ds)) (sort_by String.ltb (dedup (human_keys ds)))).
Record planned (ds : list ARDecision) (p : planning) : Prop := Planned {
  pl_new : NoDup (map ar_id ds);
  pl_seen : forall x, x ∈ seen p <-> x ∈ map ar_id ds;
  pl_autonomous : autonomous p = map ar_id (List.filter ready ds);
  pl_groups : grouped p = map (fun k => (k, List.filter (with_key k) ds)) (dedup (human_keys ds));
}.
Lemma dedup_go_snoc s l x : dedup_go s (l ++ [x]) = dedup_go s l ++ (if mem x s || mem x l then [] else [x]).
Proof.
  revert s. induction l as [|y l IH]; intros s; cbn [app dedup_go mem]; [by destruct (mem x s)|].
  rewrite !IH. destruct (mem y s) eqn:Ey; [|by cbn [app mem]; destruct (String.eqb x y), (mem x s), (mem x l)].
  f_equal. destruct (String.eqb_spec x y) as [->|]; [by rewrite Ey | done].
Qed.
Lemma dedup_snoc l x : dedup (l ++ [x]) = if mem x l then dedup l else dedup l ++ [x].
Proof. unfold dedup. rewrite dedup_go_snoc. cbn [mem orb]. destruct (mem x l); [by rewrite app_nil_r | done]. Qed.
Lemma add_to_groups (f : string -> list ARDecision) ks k d : NoDup ks ->
  add_to (map (fun k => (k, f k)) ks) k d =
  if mem k ks then map (fun k' => (k', if String.eqb k k' then f k' ++ [d] else f k')) ks else map (fun k => (k, f k)) ks ++ [(k, [d])].
Proof.
  induction ks as [|j ks IH]; [done|]. intros [Hj Hn]%NoDup_cons. cbn [map add_to mem]. destruct (String.eqb_spec k j) as [->|Hk]; cbn [orb].
  - f_equal. apply map_ext_in. intros i Hi%list_elem_of_In. destruct (String.eqb_spec j i) as [->|]; [done | done].
  - rewrite IH by done. by destruct (mem k ks).
Qed.
Lemma filter_snoc {A} (f : A -> bool) l x : List.filter f (l ++ [x]) = List.filter f l ++ (if f x then [x] else []).
Proof. rewrite List.filter_app. cbn. by destruct (f x). Qed.
Lemma no_key ds k : k ∉ human_keys ds -> List.filter (with_key k) ds = [].
Proof.
  unfold human_keys. induction ds as [|d ds IH]; [done|]. cbn [List.filter]. unfold with_key at 1.
  destruct (requires_human d); cbn [map andb]; [|done]. rewrite not_elem_of_cons. intros [Hk H]. apply String.eqb_neq in Hk as ->. by apply IH.
Qed.
Lemma planned_one ds d p : ar_id d ∉ map ar_id ds -> planned ds p -> exists q, plan_one p d = Ok q /\ planned (ds ++ [d]) q.
Proof.
  intros Hd [Hn Hs Ha Hg]. unfold plan_one. assert (mem (ar_id d) (seen p) = false) as -> by (by apply mem_false; rewrite Hs).
  eexists. split; [reflexivity|]. split; cbn [seen autonomous grouped].
  - rewrite map_app. apply NoDup_app. split_and!; [done | set_solver | apply NoDup_singleton].
  - intros x. rewrite map_app, elem_of_cons, elem_of_app, Hs. cbn [map]. set_solver.
  - rewrite filter_snoc, Ha. change (String.eqb (state d) "ready" && negb (requires_human d)) with (ready d).
    destruct (ready d); [by rewrite map_app | by rewrite app_nil_r].
  - rewrite Hg. unfold human_keys. rewrite filter_snoc. destruct (requires_human d) eqn:Eh.
    + rewrite map_app. cbn [map]. fold (human_keys ds). rewrite dedup_snoc, add_to_groups by apply dedup_go_NoDup.
      assert (mem (group_key d) (dedup (human_keys ds)) = mem (group_key d) (human_keys ds)) as ->.
      { apply Bool.eq_iff_eq_true. by rewrite !mem_spec, dedup_elem. }
      destruct (mem (group_key d) (human_keys ds)) eqn:Em.
      * apply map_ext. intros k. rewrite filter_snoc. assert (with_key k d = String.eqb k (group_key d)) as -> by (unfold with_key; by rewrite Eh).
        destruct (String.eqb_spec (group_key d) k) as [->|Hk]; [by rewrite String.eqb_refl|].
        assert (String.eqb k (group_key d) = false) as -> by (by apply String.eqb_neq). by rewrite app_nil_r.
      * apply mem_false in Em. rewrite map_app. cbn [map]. f_equal.
        -- apply map_ext_in. intros k Hk%list_elem_of_In. rewrite dedup_elem in Hk. rewrite filter_snoc. assert (with_key k d = String.eqb k (group_key d)) as -> by (unfold with_key; by rewrite Eh).
           assert (String.eqb k (group_key d) = false) as -> by (apply String.eqb_neq; intros E; apply Em; by rewrite <- E). by rewrite app_nil_r.
        -- rewrite filter_snoc, no_key by done. assert (with_key (group_key d) d = true) as -> by (unfold with_key; by rewrite Eh, String.eqb_refl). done.
    + rewrite app_nil_r. apply map_ext. intros k. rewrite filter_snoc. assert (with_key k d = false) as -> by (unfold with_key; by rewrite Eh). by rewrite app_nil_r.
Qed.
Lemma plan_fold ds before p : planned before p ->
  match foldM plan_one p ds with
  | Ok q => planned (before ++ ds) q
  | Raise x => x = ClassError "DecisionBatchError" "AR decisions must be unique" /\ ~ NoDup (map ar_id (before ++ ds))
  end.
Proof.
  revert before p. induction ds as [|d ds IH]; intros before p H; [by rewrite app_nil_r|]. cbn [foldM].
  destruct (decide (ar_id d ∈ map ar_id before)) as [Hd|Hd].
  - unfold plan_one. assert (mem (ar_id d) (seen p) = true) as -> by (by apply mem_spec; rewrite (pl_seen _ _ H)). split; [done|].
    rewrite map_app. intros (_ & Hn & _)%NoDup_app. apply (Hn _ Hd). by left.
  - destruct (planned_one before d p Hd H) as (q & -> & Hq). cbn [rbind]. specialize (IH _ _ Hq). by rewrite <- app_assoc in IH.
Qed.
Lemma insert_keyed {B} (f : string -> B) k ks :
  insert_by (fun x y => String.ltb x.1 y.1) (k, f k) (map (fun k => (k, f k)) ks) = map (fun k => (k, f k)) (insert_by String.ltb k ks).
Proof. induction ks as [|j ks IH]; [done|]. cbn. destruct (String.ltb j k); cbn; [by rewrite IH | done]. Qed.
Lemma sort_keyed {B} (f : string -> B) ks :
  sort_by (fun x y => String.ltb x.1 y.1) (map (fun k => (k, f k)) ks) = map (fun k => (k, f k)) (sort_by String.ltb ks).
Proof. unfold sort_by. induction ks as [|k ks IH]; [done|]. cbn [map foldr]. by rewrite IH, insert_keyed. Qed.

Lemma plan_progress_expected ds : match plan_progress ds with
  | Ok p => NoDup (map ar_id ds) /\ p = expected_plan ds
  | Raise x => x = ClassError "DecisionBatchError" "AR decisions must be unique" /\ ~ NoDup (map ar_id ds)
  end.
Proof.
  unfold plan_progress. pose proof (plan_fold ds [] (Planning [] [] [])) as H.
  assert (planned [] (Planning [] [] [])) as H0 by (by split; [constructor| | |]). specialize (H H0). cbn [app] in H.
  destruct (foldM plan_one _ ds) as [q|x]; cbn [rbind]; [|done].
  destruct H as [Hn _ Ha Hg]. rewrite Ha, Hg, (sort_keyed (fun k => List.filter (with_key k) ds)), map_map. done.
Qed.

Lemma filter_none {A} (f : A -> bool) l : (forall x, x ∈ l -> f x = false) -> List.filter f l = [].
Proof. induction l as [|x l IH]; intros H; [done|]. cbn. rewrite H by (by left). apply IH. intros y Hy. apply H. by right. Qed.
(** A decision without a batch key is presented alone: its own key cannot be the
    key of a batch, which is a public reference. *)
Definition constructed (d : ARDecision) : Prop :=
  Regex.fullmatch Regex.TASK (ar_id d) = true /\ forall k, batch_key d = Some k -> Regex.fullmatch _REF k = true.
Lemma new_decision_constructed a b c d e f x : new_decision a b c d e f = Ok x -> constructed x.
Proof.
  unfold new_decision, batch_if. intros (i & _ & (u & Hi%raise_if_Ok%negb_false_iff & H)%rbind_Ok_inv)%rbind_Ok_inv.
  destruct b; try discriminate H. apply rbind_Ok_inv in H as (u1 & _ & (u2 & _ & (s & _ & H)%rbind_Ok_inv)%rbind_Ok_inv).
  destruct d; try discriminate H. apply rbind_Ok_inv in H as (k & Hk & (r & _ & (u3 & _ & [= <-])%rbind_Ok_inv)%rbind_Ok_inv).
  split; [done|]. cbn. intros k' ->. unfold public_ref in Hk. destruct e; try discriminate Hk.
  cbn [need_str rbind] in Hk. by apply rbind_Ok_inv in Hk as (u4 & Hr%raise_if_Ok%negb_false_iff & [= <-]).
Qed.
Lemma upto_chars n (p : ascii -> bool) s : Regex.matches (Regex.upto n (Regex.RChar p)) s -> all_chars p s = true.
Proof.
  revert s. induction n as [|n IH]; intros s H; [by inversion H|]. cbn [Regex.upto] in H.
  apply Regex.alt_spec in H as [H|H]; [by inversion H|].
  apply Regex.cat_spec, Regex.matches_cat_inv in H as (s1 & s2 & -> & H1 & H2%IH). inversion H1 as [|q c Hc| | | | |]; subst.
  change (String c "" +:+ s2) with (String c s2). cbn. by rewrite Hc, H2.
Qed.
Definition ref_char (c : ascii) : bool := Regex.union Regex.alnum (Regex.one_of "._/-") c.
Lemma ref_chars s : Regex.fullmatch _REF s = true -> all_chars ref_char s = true.
Proof.
  intros H%Regex.fullmatch_matches. unfold _REF, Discussions.PUBLIC_REF in H.
  apply Regex.cat_spec, Regex.matches_cat_inv in H as (s1 & s2 & -> & H1 & H2%upto_chars). inversion H1 as [|q c Hc| | | | |]; subst.
  change (String c "" +:+ s2) with (String c s2). change (ref_char c && all_chars ref_char s2 = true).
  change (all_chars ref_char s2 = true) in H2. rewrite H2. unfold ref_char, Regex.union. by rewrite Hc.
Qed.
Lemma single_is_no_ref id : all_chars ref_char ("single:" +:+ id) = false.
Proof. reflexivity. Qed.
Lemma group_key_single d e : constructed d -> constructed e -> batch_key d = None -> group_key e = group_key d ->
  batch_key e = None /\ ar_id e = ar_id d.
Proof.
  intros _ [_ He] Hd. unfold group_key. rewrite Hd. destruct (batch_key e) as [k|] eqn:Ek.
  - specialize (He k eq_refl). destruct (PyStr.truthy k) eqn:Et.
    + intros ->. apply ref_chars in He. by rewrite single_is_no_ref in He.
    + apply truthy_false in Et as ->. vm_compute in He. discriminate He.
  - intros [= E]. done.
Qed.
Theorem single_decision_alone ds p d : Forall constructed ds -> plan_progress ds = Ok p -> d ∈ ds -> requires_human d = true ->
  batch_key d = None -> MkBatch ("single:" +:+ ar_id d) (request_of d) [ar_id d] ∈ human_batches p.
Proof.
  intros Hc Hp Hd Hh Hk. pose proof (plan_progress_expected ds) as H. rewrite Hp in H. destruct H as [Hn ->]. clear Hp.
  cbn [expected_plan human_batches].
  assert (group_key d = "single:" +:+ ar_id d) as Eg by (unfold group_key; by rewrite Hk).
  assert (List.filter (with_key ("single:" +:+ ar_id d)) ds = [d]) as Ef.
  { rewrite <- Eg. rewrite list.Forall_forall in Hc. pose proof (Hc d Hd) as Cd. clear Eg. induction ds as [|e ds IH]; [by apply elem_of_nil in Hd|].
    cbn [map] in Hn. apply NoDup_cons in Hn as [He Hn]. cbn [List.filter].
    assert (with_key (group_key d) e = true -> ar_id e = ar_id d) as Hw.
    { unfold with_key. intros [_ H%String.eqb_eq]%andb_true_iff. symmetry in H. by apply (group_key_single d e Cd (Hc e ltac:(by left)) Hk) in H as [_ H]. }
    apply elem_of_cons in Hd as [->|Hd].
    - assert (with_key (group_key e) e = true) as -> by (unfold with_key; by rewrite Hh, String.eqb_refl). f_equal.
      apply filter_none. intros x Hx. destruct (with_key (group_key e) x) eqn:Ex; [|done]. exfalso. apply He.
      unfold with_key in Ex. apply andb_true_iff in Ex as [_ Ex%String.eqb_eq]. symmetry in Ex.
      apply (group_key_single e x Cd (Hc x ltac:(by right)) Hk) in Ex as [_ <-]. by apply list_elem_of_fmap_2.
    - destruct (with_key (group_key d) e) eqn:Ee.
      + exfalso. apply He. rewrite (Hw eq_refl). by apply list_elem_of_fmap_2.
      + apply IH; try done. intros x Hx. apply Hc. by right. }
  replace (MkBatch ("single:" +:+ ar_id d) (request_of d) [ar_id d])
    with (batch_of ("single:" +:+ ar_id d, List.filter (with_key ("single:" +:+ ar_id d)) ds))
    by (rewrite Ef; unfold batch_of; cbn [fst snd map concat]; by rewrite app_nil_r).
  apply (list_elem_of_fmap_2 (fun k => batch_of (k, List.filter (with_key k) ds))). apply sort_by_elem, dedup_elem. rewrite <- Eg.
  unfold human_keys. apply list_elem_of_fmap_2, list_elem_of_In, filter_In. split; [by apply list_elem_of_In | done].
Qed.

(** ** What a plan promises
    A decision made by its constructor *)
Definition made (d : ARDecision) : Prop := exists ar revision st human key ref, new_decision ar revision st human key ref = Ok d.
(** [l] is the decisions of [ds] with a property, in their order. *)
Definition selects (P : ARDecision -> Prop) (ds l : list ARDecision) : Prop :=
  l `sublist_of` ds /\ forall d, d ∈ l <-> d ∈ ds /\ P d.
(** The batch a decision asks for: the one of its key, or one of its own. *)
Definition asks_for (k : string) (d : ARDecision) : Prop :=
  batch_key d = Some k \/ batch_key d = None /\ k = "single:" +:+ ar_id d.
(** A batch holds the tasks and the requests of the human decisions that ask for
    it, all of them and no other, one request per task and in their order. *)
Definition presents (ds : list ARDecision) (b : HumanBatch) : Prop :=
  exists l, selects (fun d => requires_human d = true /\ asks_for (b_key b) d) ds l /\ l <> [] /\
    ar_ids b = map ar_id l /\ map Some (decision_request_refs b) = map decision_request_ref l.
Record plan_of (ds : list ARDecision) (p : ProgressPlan) : Prop := PlanOf {
  po_new : NoDup (map ar_id ds);
  po_autonomous : exists l, selects (fun d => state d = "ready" /\ requires_human d = false) ds l /\ autonomous_ar_ids p = map ar_id l;
  po_batches : Forall (presents ds) (human_batches p);
  po_covered : forall d, d ∈ ds -> requires_human d = true -> exists b, b ∈ human_batches p /\ asks_for (b_key b) d;
  po_order : StronglySorted (fun a b => String.ltb (b_key a) (b_key b) = true) (human_batches p);
}.
Lemma selects_filter (f : ARDecision -> bool) P ds : (forall d, d ∈ ds -> f d = true <-> P d) -> selects P ds (List.filter f ds).
Proof.
  intros H. split.
  - clear H. induction ds as [|d ds IH]; cbn; [constructor|]. destruct (f d); by constructor.
  - intros d. rewrite !list_elem_of_In, filter_In, <- list_elem_of_In. naive_solver.
Qed.
(** What the constructor guarantees *)
Lemma made_inv d : made d ->
  (forall k, batch_key d = Some k -> k <> "") /\ (requires_human d = true -> exists r, decision_request_ref d = Some r /\ r <> "").
Proof.
  intros (ar & revision & st & human & key & ref & H). pose proof (new_decision_constructed _ _ _ _ _ _ _ H) as [_ Hk]. split.
  { intros k E ->. apply Hk in E. vm_compute in E. discriminate E. }
  unfold new_decision in H. apply rbind_Ok_inv in H as (i & _ & (u & _ & H)%rbind_Ok_inv).
  destruct revision; try discriminate H. apply rbind_Ok_inv in H as (u1 & _ & (u2 & _ & (s & _ & H)%rbind_Ok_inv)%rbind_Ok_inv).
  destruct human; try discriminate H. apply rbind_Ok_inv in H as (k & _ & (r & _ & (u3 & Hr%raise_if_Ok & [= <-])%rbind_Ok_inv)%rbind_Ok_inv).
  cbn. intros ->. destruct r as [r|]; [|done]. cbn [andb] in Hr. apply negb_false_iff, truthy_spec in Hr. by exists r.
Qed.
Lemma group_key_asks k d : made d -> String.eqb k (group_key d) = true <-> asks_for k d.
Proof.
  intros [Hk _]%made_inv. rewrite String.eqb_eq. unfold group_key, asks_for. destruct (batch_key d) as [j|]; [|naive_solver].
  assert (PyStr.truthy j = true) as -> by (by apply truthy_spec, Hk). naive_solver.
Qed.
Lemma requests_of l : (forall d, d ∈ l -> exists r, decision_request_ref d = Some r /\ r <> "") ->
  map Some (concat (map request_of l)) = map decision_request_ref l.
Proof.
  induction l as [|d l IH]; intros H; [done|]. cbn [map concat]. destruct (H d ltac:(by left)) as (r & E & Hr%truthy_spec).
  unfold request_of at 1. rewrite E, Hr. cbn [app map]. f_equal. apply IH. intros e He. apply H. by right.
Qed.
Lemma human_keys_elem k ds : k ∈ human_keys ds <-> exists d, d ∈ ds /\ requires_human d = true /\ k = group_key d.
Proof.
  unfold human_keys. rewrite list_elem_of_fmap. split.
  - intros (d & -> & (Hd%list_elem_of_In & Hh)%list_elem_of_In%filter_In). by exists d.
  - intros (d & Hd & Hh & ->). exists d. split; [done|]. apply list_elem_of_In, filter_In. split; [by apply list_elem_of_In | done].
Qed.
Lemma expected_presents ds k : Forall made ds -> k ∈ human_keys ds -> presents ds (batch_of (k, List.filter (with_key k) ds)).
Proof.
  intros Hm Hk. rewrite list.Forall_forall in Hm. exists (List.filter (with_key k) ds).
  assert (selects (fun d => requires_human d = true /\ asks_for k d) ds (List.filter (with_key k) ds)) as Hs.
  { apply selects_filter. intros d Hd. unfold with_key. rewrite andb_true_iff. by rewrite (group_key_asks k d (Hm d Hd)). }
  split; [exact Hs|]. split; [|split; [done|]].
  - apply human_keys_elem in Hk as (d & Hd & Hh & ->). intros E.
    assert (d ∈ List.filter (with_key (group_key d)) ds) as H; [|rewrite E in H; by apply elem_of_nil in H].
    apply list_elem_of_In, filter_In. split; [by apply list_elem_of_In|]. unfold with_key. by rewrite Hh, String.eqb_refl.
  - apply requests_of. intros d [Hd [Hh _]]%Hs. by apply (made_inv d (Hm d Hd)).
Qed.

(** C31: Planning of decisions made by the constructor raises, as not unique,
    exactly when a decision occurs twice.  Otherwise the plan runs the ready
    decisions that need no human, exactly those and in their order; every
    decision that needs a human is in the batch of its key, or without a key in
    the batch of its own name; a batch holds exactly the tasks of the decisions
    that ask for it, each with its request, in their order; and the batches are
    distinct and in the order of their names.  A decision that is neither ready
    nor waiting for a human is in no part of the plan. *)
Theorem plan_progress_exact ds :
  Forall made ds ->
  match plan_progress ds with
  | Ok p => plan_of ds p
  | Raise x => x = ClassError "DecisionBatchError" "AR decisions must be unique" /\ ~ NoDup (map ar_id ds)
  end.
Proof.
  intros Hm. pose proof (plan_progress_expected ds) as H. destruct (plan_progress ds) as [p|x]; [|done].
  destruct H as [Hn ->]. split; [done | | | |]; cbn [expected_plan autonomous_ar_ids human_batches].
  - exists (List.filter ready ds). split; [|done]. apply selects_filter. intros d _. unfold ready.
    by rewrite andb_true_iff, String.eqb_eq, negb_true_iff.
  - apply list.Forall_forall. intros b (k & -> & Hk)%list_elem_of_fmap. rewrite sort_by_elem, dedup_elem in Hk. by apply expected_presents.
  - intros d Hd Hh. exists (batch_of (group_key d, List.filter (with_key (group_key d)) ds)). split.
    + apply (list_elem_of_fmap_2 (fun k => batch_of (k, List.filter (with_key k) ds))), sort_by_elem, dedup_elem, human_keys_elem. by exists d.
    + apply group_key_asks; [|apply String.eqb_refl]. rewrite list.Forall_forall in Hm. by apply Hm.
  - apply StronglySorted_map, (sort_by_sorted String.ltb); [apply ltb_trans | apply ltb_total | apply dedup_go_NoDup].
Qed.
Definition sample_decision (id key ref : string) (human : bool) (st : string) : ARDecision :=
  MkDecision id 1 st human (if PyStr.truthy key then Some key else None) (if PyStr.truthy ref then Some ref else None).
Definition sample_decisions : list ARDecision :=
  [sample_decision "AR-0001" "" "AWG-1" true "ready"; sample_decision "AR-0002" "b" "AWG-2" true "uncertain";
   sample_decision "AR-0003" "" "" false "ready"; sample_decision "AR-0004" "b" "AWG-4" true "blocked";
   sample_decision "AR-0005" "" "" false "blocked"].
Lemma plan_progress_exact_witness :
  plan_progress sample_decisions = Ok (MkPlan ["AR-0003"] [MkBatch "b" ["AWG-2"; "AWG-4"] ["AR-0002"; "AR-0004"];
    MkBatch "single:AR-0001" ["AWG-1"] ["AR-0001"]]) /\
  forall p, plan_progress sample_decisions = Ok p -> plan_of sample_decisions p.
Proof.
  split; [vm_compute; reflexivity|]. intros p E. pose proof (plan_progress_exact sample_decisions) as H. rewrite E in H.
  apply H. repeat constructor.
  - exists (VStr "AR-0001"), (VInt 1), (VStr "ready"), (VBool true), VNull, (VStr "AWG-1"). vm_compute. reflexivity.
  - exists (VStr "AR-0002"), (VInt 1), (VStr "uncertain"), (VBool true), (VStr "b"), (VStr "AWG-2"). vm_compute. reflexivity.
  - exists (VStr "AR-0003"), (VInt 1), (VStr "ready"), (VBool false), VNull, VNull. vm_compute. reflexivity.
  - exists (VStr "AR-0004"), (VInt 1), (VStr "blocked"), (VBool true), (VStr "b"), (VStr "AWG-4"). vm_compute. reflexivity.
  - exists (VStr "AR-0005"), (VInt 1), (VStr "blocked"), (VBool false), VNull, VNull. vm_compute. reflexivity.
Defined.
End Decisions.
