(* ===== verification/FastReceipts.v ===== *)
(** * Fast receipts ([fast_receipts.py])

    The private store of durable intents and of the publication jobs of the
    opt-in Git receipt protocol.  Every operation is one transaction on the
    tables.  The instants SQLite writes have a fixed width, so they compare as
    milliseconds; the clock, fresh identifiers and the answers of the path
    checks ([_assert_path]) are inputs.  Opening the file, creating the schema
    and the descriptors behind the path checks are outside the model. *)
From S2P Require Import Prelude PyStr Regex PyVal Sha256 PyJson SqliteStore.

Module FastReceipts.
Import Py.
Definition fm := Regex.fullmatch.
Definition TOKEN : Regex.re := Regex.between 1 128 (Regex.RChar (Regex.union Regex.alnum (Regex.one_of "._:-"))).
Definition COMMIT : Regex.re := Regex.HEX 40.
Definition RECEIPT : Regex.re := Regex.HEX 32.
Definition PRIORITIES : list string := ["P0"; "P1"; "P2"; "P3"; "P4"].
Definition MAX_SUMMARY : Z := 4000.
Definition MAX_NEXT_ACTION : Z := 1024.
Inductive Phase : Type :=
  | PHASE_QUEUED | PHASE_RUNNING | PHASE_LOCAL | PHASE_REMOTE | PHASE_REJECTED | PHASE_AMBIGUOUS.
Inductive Publication : Type :=
  | PUBLICATION_QUEUED | PUBLICATION_PUBLISHING | PUBLICATION_PUBLISHED | PUBLICATION_REJECTED
  | PUBLICATION_AMBIGUOUS.
#[export] Instance phase_eq_dec : EqDecision Phase.
Proof. solve_decision. Defined.
#[export] Instance publication_eq_dec : EqDecision Publication.
Proof. solve_decision. Defined.

(** ** Tables *)
Record Intent : Type := MkIntent {
  receipt_id : string; project : string; idempotency_key : string; operation : string; task_id : string;
  expected_revision : Z; payload_json : string; input_digest : string; phase : Phase;
  started_at : option Z; commit_oid : option string; result_revision : option Z; error_code : option string;
  remote_oid : option string; remote_observed_at : option Z; publication_error : option string;
  created_at : Z }.
Record Job : Type := MkJob {
  job_id : string; job_project : string; job_key : string; candidate_oid : string; expected_remote_oid : string;
  job_phase : Publication; publisher_lease : option string; publisher_lease_expires : option Z;
  observed_remote_oid : option string; job_error : option string; job_created : Z; job_updated : Z }.
Record RequestKey : Type := MkRequestKey {
  key_project : string; key_text : string; key_job : string; key_candidate : string; key_remote : string }.
Record Tables : Type := MkTables { intents : list Intent; jobs : list Job; request_keys : list RequestKey }.
(** The tables and the answers the path checks will give. *)
Record Store : Type := MkStore { tables : Tables; answers : list (res unit) }.
Definition set_intents t x := MkTables x (jobs t) (request_keys t).
Definition set_jobs t x := MkTables (intents t) x (request_keys t).
Definition set_keys t x := MkTables (intents t) (jobs t) x.
Definition set_tables s t := MkStore t (answers s).

Definition _assert_path : st Store unit := fun s =>
  match answers s with
  | [] => (s, Ok tt)
  | a :: l => (MkStore (tables s) l, a)
  end.
(** A failed check after [COMMIT] raises, but nothing is undone. *)
Definition _transaction {A} (m : st Tables A) : st Store A :=
  do _assert_path ;;
  do* before := sget in
  match m (tables before) with
  | (_, Raise e) => sraise e
  | (after, Ok a) =>
      do _assert_path ;;
      do smodify (fun s => set_tables s after) ;;
      do _assert_path ;;
      sret a
  end.
Definition query {A} (f : Tables -> A) : st Store A :=
  do _assert_path ;;
  do* s := sget in
  do _assert_path ;;
  sret (f (tables s)).

(** ** Updates *)
Definition text_ok (lo hi : Z) (s : string) : bool :=
  (lo <=? PyStr.len s) && (PyStr.len s <=? hi) && negb (PyStr.has_char "000" s).
Definition validate_update_changes (changes : value) : res dict :=
  let bad := Raise (ValueError "invalid fast update changes") in
  match changes with
  | VDict d =>
      let text k := match get d k with VStr s => s | _ => "" end in
      if match d with [] => true | _ => false end
         || negb (keys_within d ["status"; "priority"; "summary"; "next_action"])
         || negb (forallb (fun kv => is_str kv.2) d)
         || (has d "summary" && negb (text_ok 1 MAX_SUMMARY (text "summary")))
         || (has d "next_action" && (negb (text_ok 1 MAX_NEXT_ACTION (text "next_action"))
                                     || PyStr.has_char "010" (text "next_action")))
         || negb (is_null (get d "status") || is_s (get d "status") "in_progress")
         || negb (is_null (get d "priority") || in_tuple (get d "priority") PRIORITIES)
      then bad else Ok d
  | _ => bad
  end.

(** ** Rows *)
Fixpoint first_by {A} (before : A -> A -> bool) (l : list A) : option A :=
  match l with
  | [] => None
  | x :: l' => match first_by before l' with
               | Some y => if before y x then Some y else Some x
               | None => Some x
               end
  end.
Definition update_where {A} (p : A -> bool) (f : A -> A) (l : list A) : list A :=
  map (fun r => if p r then f r else r) l.

Section store.
  Context (project_id : string).
Definition mine (i : Intent) : bool := String.eqb (project i) project_id.
Definition is_receipt (id : string) (i : Intent) : bool := mine i && String.eqb (receipt_id i) id.
Definition in_phase (p : Phase) (i : Intent) : bool := mine i && bool_decide (phase i = p).
Definition receipt_row (id : string) (t : Tables) : option Intent := List.find (is_receipt id) (intents t).
Definition key_row (key : string) (t : Tables) : option Intent :=
  List.find (fun i => mine i && String.eqb (idempotency_key i) key) (intents t).

(** ** Admission of intents *)
Definition insert_intent (i : Intent) : st Tables unit :=
  do* t := sget in
  do slift (fun _ => raise_if (existsb (fun j => String.eqb (receipt_id j) (receipt_id i)) (intents t))
       (IntegrityError "UNIQUE constraint failed: intents.receipt_id")) ;;
  do slift (fun _ => raise_if (existsb (fun j => String.eqb (project j) (project i)
                                        && String.eqb (idempotency_key j) (idempotency_key i)) (intents t))
       (IntegrityError "UNIQUE constraint failed: intents.project_id, intents.idempotency_key")) ;;
  sput (set_intents t (intents t ++ [i])).
Definition _enqueue (now : Z) (fresh key task : string) (revision : Z) (payload : dict) : st Store Intent :=
  do slift (fun _ => raise_if (negb (fm TOKEN key) || negb (fm TOKEN task) || (revision <? 1))
                       (ValueError "invalid receipt key, task, or revision")) ;;
  let canonical := PyJson.dumps (VDict payload) in
  let digest := Sha256.Sha256.hexdigest canonical in
  match get payload "operation" with
  | VStr operation =>
      _transaction (
        do* existing := slift (fun t => Ok (key_row key t)) in
        do* existing := match existing with
                        | Some i => sret i
                        | None =>
                            do slift (fun _ => Sqlite.int64 revision) ;;
                            let i := MkIntent fresh project_id key operation task revision canonical digest
                                       PHASE_QUEUED None None None None None None None now in
                            do insert_intent i ;; sret i
                        end in
        do slift (fun _ => raise_if (negb (String.eqb (input_digest existing) digest
                                           && String.eqb (payload_json existing) canonical))
                             (ReceiptConflictError "idempotency key already binds different input")) ;;
        sret existing)
  | _ => sraise (ValueError "invalid receipt operation")
  end.
(** The payload of a lease request: a heartbeat or a claim. *)
Definition lease_payload (operation task owner : string) (revision lease_minutes : Z) : dict :=
  [("expected_revision", VInt revision); ("lease_minutes", VInt lease_minutes); ("operation", VStr operation);
   ("owner", VStr owner); ("project_id", VStr project_id); ("task", VStr task)].
Definition lease_admission (key task owner : string) (revision lease_minutes : Z) : res unit :=
  check raise_if (negb (fm TOKEN key) || negb (fm TOKEN task)) (ValueError "invalid receipt key or task") ;;
  check raise_if (negb (fm TOKEN owner)) (ValueError "invalid owner") ;;
  raise_if ((revision <? 1) || negb ((1 <=? lease_minutes) && (lease_minutes <=? 1440)))
    (ValueError "invalid revision or lease").
Definition enqueue_heartbeat (now : Z) (fresh key task owner : string) (revision lease_minutes : Z)
    : st Store Intent :=
  do slift (fun _ => lease_admission key task owner revision lease_minutes) ;;
  _enqueue now fresh key task revision (lease_payload "heartbeat" task owner revision lease_minutes).
Definition enqueue_claim (now : Z) (fresh key task owner : string) (revision lease_minutes : Z)
    (worker_pid worker_start_time : value) : st Store Intent :=
  do slift (fun _ => lease_admission key task owner revision lease_minutes) ;;
  do slift (fun _ =>
    raise_if (xorb (is_null worker_pid) (is_null worker_start_time)
              || negb (is_null worker_pid)
                 && negb match worker_pid, worker_start_time with
                         | VInt p, VInt s => (0 <? p) && (0 <=? s)
                         | _, _ => false
                         end)
      (ValueError "invalid claim worker identity")) ;;
  let payload := lease_payload "claim" task owner revision lease_minutes in
  _enqueue now fresh key task revision
    (if is_null worker_pid then payload
     else payload ++ [("worker_pid", worker_pid); ("worker_start_time", worker_start_time)]).
Definition enqueue_promote (now : Z) (fresh key task : string) (revision : Z) (note : string) : st Store Intent :=
  do slift (fun _ => raise_if (negb (text_ok 1 4096 note)) (ValueError "invalid promote note")) ;;
  _enqueue now fresh key task revision
    [("expected_revision", VInt revision); ("note", VStr note); ("operation", VStr "promote");
     ("project_id", VStr project_id); ("task", VStr task)].
Definition enqueue_update (now : Z) (fresh key task owner : string) (revision : Z) (changes : value)
    (note : string) : st Store Intent :=
  do slift (fun _ => raise_if (negb (fm TOKEN key) || negb (fm TOKEN task) || negb (fm TOKEN owner)
                               || (revision <? 1) || negb (text_ok 1 4096 note))
                       (ValueError "invalid update receipt intent")) ;;
  do* validated := slift (fun _ => match validate_update_changes changes with
                                   | Raise e => if is_ValueError e
                                                then Raise (ValueError "invalid update receipt intent") else Raise e
                                   | Ok d => Ok d
                                   end) in
  _enqueue now fresh key task revision
    [("changes", VDict (PyJson.sort_items validated)); ("expected_revision", VInt revision); ("note", VStr note);
     ("operation", VStr "update"); ("owner", VStr owner); ("project_id", VStr project_id); ("task", VStr task)].

(** ** Execution of intents *)
Definition older (i j : Intent) : bool := created_at i <? created_at j.
Definition start_running (now : Z) (i : Intent) : Intent :=
  MkIntent (receipt_id i) (project i) (idempotency_key i) (operation i) (task_id i) (expected_revision i)
    (payload_json i) (input_digest i) PHASE_RUNNING (Some now) (commit_oid i) (result_revision i) (error_code i)
    (remote_oid i) (remote_observed_at i) (publication_error i) (created_at i).
Definition visible {A} (o : option A) (ok : A -> bool) (what : string) : res A :=
  match o with
  | Some a => if ok a then Ok a else Raise (RuntimeError what)
  | None => Raise (RuntimeError what)
  end.
Definition claim_next (now : Z) : st Store (option Intent) :=
  _transaction (
    do* t := sget in
    match first_by older (List.filter (in_phase PHASE_QUEUED) (intents t)) with
    | None => sret None
    | Some i =>
        do sput (set_intents t (update_where
             (fun j => is_receipt (receipt_id i) j && bool_decide (phase j = PHASE_QUEUED))
             (start_running now) (intents t))) ;;
        do* row := slift (fun t => visible (receipt_row (receipt_id i) t)
                                     (fun j => bool_decide (phase j = PHASE_RUNNING))
                                     "receipt reservation was not visible") in
        sret (Some row)
    end).
Definition outcome (p : Phase) (oid : option string) (revision : option Z) (error : option string)
    (i : Intent) : Intent :=
  MkIntent (receipt_id i) (project i) (idempotency_key i) (operation i) (task_id i) (expected_revision i)
    (payload_json i) (input_digest i) p (started_at i) oid revision error
    (remote_oid i) (remote_observed_at i) (publication_error i) (created_at i).
Definition _finish_running (id : string) (p : Phase) (oid : option string) (revision : option Z)
    (error : option string) : st Store Intent :=
  do slift (fun _ => raise_if (negb (fm RECEIPT id)) (ValueError "invalid receipt id")) ;;
  _transaction (
    do* t := sget in
    match receipt_row id t with
    | None => sraise (RuntimeError "unknown receipt")
    | Some row =>
        do (if decide (phase row = p) then
              slift (fun _ => raise_if (negb (bool_decide (commit_oid row = oid)
                                              && bool_decide (result_revision row = revision)
                                              && bool_decide (error_code row = error)))
                                (ReceiptConflictError "receipt outcome differs"))
            else if negb (bool_decide (phase row = PHASE_RUNNING)) then
              sraise (RuntimeError "receipt is not running")
            else
              do slift (fun _ => match revision with Some z => let* _ := Sqlite.int64 z in Ok tt | None => Ok tt end) ;;
              sput (set_intents t (update_where
                (fun j => is_receipt id j && bool_decide (phase j = PHASE_RUNNING))
                (outcome p oid revision error) (intents t)))) ;;
        slift (fun t => visible (receipt_row id t) (fun j => bool_decide (phase j = p))
                          "receipt outcome was not visible")
    end).
Definition read (id : string) : st Store (option Intent) :=
  do slift (fun _ => raise_if (negb (fm RECEIPT id)) (ValueError "invalid receipt id")) ;;
  query (receipt_row id).
Definition record_local_commit (id oid : string) (revision : Z) : st Store Intent :=
  do slift (fun _ => raise_if (negb (fm COMMIT oid) || (revision <? 2)) (ValueError "invalid local commit evidence")) ;;
  do* receipt := read id in
  do slift (fun _ => raise_if match receipt with
                              | None => true
                              | Some i => negb (revision =? expected_revision i + 1)
                              end (ValueError "commit revision does not match queued fence")) ;;
  _finish_running id PHASE_LOCAL (Some oid) (Some revision) None.
Definition record_rejection (id code : string) : st Store Intent :=
  do slift (fun _ => raise_if (negb (fm TOKEN code)) (ValueError "invalid rejection code")) ;;
  _finish_running id PHASE_REJECTED None None (Some code).
Definition record_ambiguity (id code : string) : st Store Intent :=
  do slift (fun _ => raise_if (negb (fm TOKEN code)) (ValueError "invalid ambiguity code")) ;;
  _finish_running id PHASE_AMBIGUOUS None None (Some code).
Definition started_before (i j : Intent) : bool := default 0 (started_at i) <? default 0 (started_at j).
Definition running : st Store (list Intent) :=
  query (fun t => sort_by started_before (List.filter (in_phase PHASE_RUNNING) (intents t))).

(** ** Publication of completed intents *)
Definition pending_publication : st Store (list Intent) :=
  query (fun t => sort_by older (List.filter (in_phase PHASE_LOCAL) (intents t))).
Definition observed (now : Z) (oid : string) (i : Intent) : Intent :=
  MkIntent (receipt_id i) (project i) (idempotency_key i) (operation i) (task_id i) (expected_revision i)
    (payload_json i) (input_digest i) PHASE_REMOTE (started_at i) (commit_oid i) (result_revision i) (error_code i)
    (Some oid) (Some now) None (created_at i).
Definition record_remote_observation (now : Z) (id oid : string) : st Store Intent :=
  do slift (fun _ => raise_if (negb (fm COMMIT oid)) (ValueError "invalid observed remote oid")) ;;
  _transaction (
    do* t := sget in
    match receipt_row id t with
    | Some row =>
        do slift (fun _ => raise_if (negb (bool_decide (phase row = PHASE_LOCAL)
                                           || bool_decide (phase row = PHASE_REMOTE)))
                             (RuntimeError "receipt has no local commit to publish")) ;;
        do slift (fun _ => raise_if (bool_decide (phase row = PHASE_REMOTE)
                                     && negb (bool_decide (remote_oid row = Some oid)))
                             (ReceiptConflictError "remote receipt already binds another observation")) ;;
        do (if bool_decide (phase row = PHASE_LOCAL)
            then sput (set_intents t (update_where (is_receipt id) (observed now oid) (intents t)))
            else sret tt) ;;
        slift (fun t => visible (receipt_row id t) (fun _ => true) "remote receipt was not visible")
    | None => sraise (RuntimeError "receipt has no local commit to publish")
    end).
Definition failed_publication (code : string) (i : Intent) : Intent :=
  MkIntent (receipt_id i) (project i) (idempotency_key i) (operation i) (task_id i) (expected_revision i)
    (payload_json i) (input_digest i) (phase i) (started_at i) (commit_oid i) (result_revision i) (error_code i)
    (remote_oid i) (remote_observed_at i) (Some code) (created_at i).
Definition record_publication_failure (id code : string) : st Store Intent :=
  do slift (fun _ => raise_if (negb (fm TOKEN code)) (ValueError "invalid publication failure code")) ;;
  _transaction (
    do smodify (fun t => set_intents t (update_where
         (fun j => is_receipt id j && bool_decide (phase j = PHASE_LOCAL)) (failed_publication code) (intents t))) ;;
    slift (fun t => visible (receipt_row id t) (fun j => bool_decide (phase j = PHASE_LOCAL))
                      "receipt is not locally completed")).

(** ** Publication jobs *)
Definition my_job (j : Job) : bool := String.eqb (job_project j) project_id.
Definition is_job (id : string) (j : Job) : bool := my_job j && String.eqb (job_id j) id.
Definition job_row (id : string) (t : Tables) : option Job := List.find (is_job id) (jobs t).
Definition candidate_row (oid : string) (t : Tables) : option Job :=
  List.find (fun j => my_job j && String.eqb (candidate_oid j) oid) (jobs t).
(** The job a request key is joined with. *)
Definition keyed_job (key : string) (t : Tables) : option Job :=
  match List.find (fun k => String.eqb (key_project k) project_id && String.eqb (key_text k) key) (request_keys t) with
  | Some k => List.find (fun j => String.eqb (job_id j) (key_job k)) (jobs t)
  | None => None
  end.
Definition insert_job (j : Job) : st Tables unit :=
  do* t := sget in
  do slift (fun _ => raise_if
       (existsb (fun x => String.eqb (job_id x) (job_id j)
                 || String.eqb (job_project x) (job_project j)
                    && (String.eqb (job_key x) (job_key j) || String.eqb (candidate_oid x) (candidate_oid j)))
          (jobs t))
       (IntegrityError "UNIQUE constraint failed: publication_jobs")) ;;
  sput (set_jobs t (jobs t ++ [j])).
Definition insert_key (k : RequestKey) : st Tables unit :=
  do* t := sget in
  do slift (fun _ => raise_if
       (existsb (fun x => String.eqb (key_project x) (key_project k) && String.eqb (key_text x) (key_text k))
          (request_keys t))
       (IntegrityError "UNIQUE constraint failed: publication_request_keys")) ;;
  sput (set_keys t (request_keys t ++ [k])).
Definition admit_publication (now : Z) (fresh key candidate remote : string) : st Store Job :=
  do slift (fun _ => raise_if (negb (fm TOKEN key) || negb (fm COMMIT candidate) || negb (fm COMMIT remote)
                               || String.eqb candidate remote) (ValueError "invalid publication admission")) ;;
  _transaction (
    do* t := sget in
    match keyed_job key t with
    | Some j =>
        do slift (fun _ => raise_if (negb (String.eqb (candidate_oid j) candidate
                                           && String.eqb (expected_remote_oid j) remote))
                             (ReceiptConflictError "publication key already binds different input")) ;;
        sret j
    | None =>
        match candidate_row candidate t with
        | Some j =>
            do slift (fun _ => raise_if (negb (String.eqb (expected_remote_oid j) remote))
                                 (ReceiptConflictError "candidate already binds another remote base")) ;;
            do insert_key (MkRequestKey project_id key (job_id j) candidate remote) ;;
            sret j
        | None =>
            do insert_job (MkJob fresh project_id key candidate remote PUBLICATION_QUEUED None None None None now now) ;;
            do insert_key (MkRequestKey project_id key fresh candidate remote) ;;
            slift (fun t => visible (job_row fresh t) (fun _ => true) "publication admission was not visible")
        end
    end).
Definition read_publication (id : string) : st Store (option Job) :=
  do slift (fun _ => raise_if (negb (fm RECEIPT id)) (ValueError "invalid publication job id")) ;;
  query (job_row id).
Definition publication_for_candidate (oid : string) : st Store (option Job) :=
  do slift (fun _ => raise_if (negb (fm COMMIT oid)) (ValueError "invalid publication candidate")) ;;
  query (candidate_row oid).
(** [publisher_lease_expires < now], false on [NULL] *)
Definition lease_expired (now : Z) (j : Job) : bool :=
  match publisher_lease_expires j with Some e => e <? now | None => false end.
Definition recoverable (now : Z) (j : Job) : bool :=
  match job_phase j with
  | PUBLICATION_QUEUED | PUBLICATION_AMBIGUOUS => true
  | PUBLICATION_PUBLISHING => lease_expired now j
  | _ => false
  end.
Definition job_before (i j : Job) : bool :=
  (job_created i <? job_created j) || (job_created i =? job_created j) && String.ltb (job_id i) (job_id j).
Definition recoverable_publications (now : Z) : st Store (list Job) :=
  query (fun t => sort_by job_before (List.filter (fun j => my_job j && recoverable now j) (jobs t))).
Definition resolved (p : Publication) (observed error : option string) (now : Z) (j : Job) : Job :=
  MkJob (job_id j) (job_project j) (job_key j) (candidate_oid j) (expected_remote_oid j) p (publisher_lease j)
    (publisher_lease_expires j) observed error (job_created j) now.
(** What an observation of the remote reference says about a job: its candidate
    is published, its base is still there, or neither. *)
Definition superseded_outcome (j : Job) (oid : string) : Publication * option string :=
  if String.eqb oid (candidate_oid j) then (PUBLICATION_PUBLISHED, None)
  else if String.eqb oid (expected_remote_oid j) then (PUBLICATION_REJECTED, Some "LOCAL_HEAD_SUPERSEDED")
  else (PUBLICATION_REJECTED, Some "REMOTE_BASE_CHANGED").
Definition in_publication (p : Publication) (j : Job) : bool := bool_decide (job_phase j = p).
Definition resolve_superseded_publication (now : Z) (id oid : string) : st Store Job :=
  do slift (fun _ => raise_if (negb (fm RECEIPT id) || negb (fm COMMIT oid))
                       (ValueError "invalid superseded publication resolution")) ;;
  _transaction (
    do* t := sget in
    match job_row id t with
    | None => sraise (RuntimeError "unknown publication job")
    | Some row =>
        do slift (fun _ => raise_if (negb (in_publication PUBLICATION_QUEUED row))
                             (RuntimeError "publication job is not queued")) ;;
        let '(p, error) := superseded_outcome row oid in
        let changed j := is_job id j && in_publication PUBLICATION_QUEUED j in
        do sput (set_jobs t (update_where changed (resolved p (Some oid) error now) (jobs t))) ;;
        do slift (fun _ => raise_if (negb (Nat.eqb (length (List.filter changed (jobs t))) 1))
                             (RuntimeError "publication job changed while resolving")) ;;
        slift (fun t => visible (job_row id t) (in_publication p) "publication resolution was not visible")
    end).
Definition leased (lease : string) (now : Z) (j : Job) : Job :=
  MkJob (job_id j) (job_project j) (job_key j) (candidate_oid j) (expected_remote_oid j) PUBLICATION_PUBLISHING
    (Some lease) (Some (now + 60000)) (observed_remote_oid j) None (job_created j) now.
Definition claim_publication (now : Z) (id lease : string) : st Store (option Job) :=
  do slift (fun _ => raise_if (negb (fm RECEIPT id) || negb (fm RECEIPT lease)) (ValueError "invalid publication claim")) ;;
  _transaction (
    do* t := sget in
    match job_row id t with
    | None => sret None
    | Some row =>
        if negb (in_publication PUBLICATION_QUEUED row) then sret None
        else
          do sput (set_jobs t (update_where (fun j => is_job id j && in_publication PUBLICATION_QUEUED j)
                                 (leased lease now) (jobs t))) ;;
          do* j := slift (fun t => visible (job_row id t) (in_publication PUBLICATION_PUBLISHING)
                                     "publication claim was not visible") in
          sret (Some j)
    end).
Definition finished (p : Publication) (observed error : option string) (now : Z) (j : Job) : Job :=
  MkJob (job_id j) (job_project j) (job_key j) (candidate_oid j) (expected_remote_oid j) p (publisher_lease j)
    None observed error (job_created j) now.
Definition holds_lease (lease : string) (j : Job) : bool := bool_decide (publisher_lease j = Some lease).
(** Fenced against the expiry of the lease. *)
Definition _finish_owned_publication (now : Z) (id lease : string) (p : Publication)
    (observed error : option string) : st Tables unit :=
  do* t := sget in
  let changed j := is_job id j && in_publication PUBLICATION_PUBLISHING j && holds_lease lease j
                   && match publisher_lease_expires j with Some e => now <=? e | None => false end in
  do sput (set_jobs t (update_where changed (finished p observed error now) (jobs t))) ;;
  if Nat.eqb (length (List.filter changed (jobs t))) 1 then sret tt
  else
    do* current := slift (fun t => Ok (job_row id t)) in
    match current with
    | Some j => if in_publication PUBLICATION_PUBLISHING j && holds_lease lease j
                then sraise (RuntimeError "publication lease has expired")
                else sraise (RuntimeError "publication job changed while finishing")
    | None => sraise (RuntimeError "publication job changed while finishing")
    end.
Definition is_some {A} (o : option A) : bool := match o with Some _ => true | None => false end.
Definition outcome_ok (p : Publication) (observed error : option string) : bool :=
  match p with PUBLICATION_PUBLISHED | PUBLICATION_REJECTED | PUBLICATION_AMBIGUOUS => true | _ => false end
  && match observed with Some o => fm COMMIT o | None => true end
  && match error with Some e => fm TOKEN e | None => true end
  && (negb (bool_decide (p = PUBLICATION_PUBLISHED)) || is_some observed)
  && (negb (bool_decide (p = PUBLICATION_AMBIGUOUS)) || negb (is_some observed))
  && (bool_decide (p = PUBLICATION_PUBLISHED) || is_some error).
Definition finish_publication (now : Z) (id lease : string) (p : Publication) (observed error : option string)
    : st Store Job :=
  do slift (fun _ => raise_if (negb (fm RECEIPT id) || negb (fm RECEIPT lease) || negb (outcome_ok p observed error))
                       (ValueError "invalid publication outcome")) ;;
  _transaction (
    do* t := sget in
    match job_row id t with
    | None => sraise (RuntimeError "unknown publication job")
    | Some row =>
        if in_publication p row then
          do slift (fun _ => raise_if (negb (holds_lease lease row && bool_decide (observed_remote_oid row = observed)
                                             && bool_decide (job_error row = error)))
                               (ReceiptConflictError "publication outcome differs")) ;;
          sret row
        else
          do slift (fun _ => raise_if (negb (in_publication PUBLICATION_PUBLISHING row && holds_lease lease row))
                               (RuntimeError "publication job is not owned by this publisher")) ;;
          do slift (fun _ => raise_if (bool_decide (p = PUBLICATION_PUBLISHED)
                                       && negb (bool_decide (observed = Some (candidate_oid row))))
                               (ValueError "published observation must equal candidate")) ;;
          do _finish_owned_publication now id lease p observed error ;;
          slift (fun t => visible (job_row id t) (in_publication p) "publication outcome was not visible")
    end).
Definition recovered_outcome (j : Job) (oid : string) : Publication * option string :=
  if String.eqb oid (candidate_oid j) then (PUBLICATION_PUBLISHED, None)
  else if String.eqb oid (expected_remote_oid j) then (PUBLICATION_QUEUED, None)
  else (PUBLICATION_REJECTED, Some "REMOTE_BASE_CHANGED").
Definition recovered (p : Publication) (oid : string) (error : option string) (now : Z) (j : Job) : Job :=
  MkJob (job_id j) (job_project j) (job_key j) (candidate_oid j) (expected_remote_oid j) p None None (Some oid)
    error (job_created j) now.
Definition recover_publication (now : Z) (id oid : string) : st Store Job :=
  do slift (fun _ => raise_if (negb (fm RECEIPT id) || negb (fm COMMIT oid)) (ValueError "invalid publication recovery")) ;;
  _transaction (
    do* t := sget in
    match job_row id t with
    | None => sraise (RuntimeError "unknown publication job")
    | Some row =>
        do slift (fun _ => raise_if (negb (in_publication PUBLICATION_PUBLISHING row
                                           || in_publication PUBLICATION_AMBIGUOUS row))
                             (RuntimeError "publication job is not recoverable")) ;;
        let '(p, error) := recovered_outcome row oid in
        let changed j := is_job id j && (in_publication PUBLICATION_AMBIGUOUS j
                                         || in_publication PUBLICATION_PUBLISHING j && lease_expired now j) in
        do sput (set_jobs t (update_where changed (recovered p oid error now) (jobs t))) ;;
        do (if Nat.eqb (length (List.filter changed (jobs t))) 1 then sret tt
            else
              do* current := slift (fun t => Ok (job_row id t)) in
              match current with
              | Some j => if in_publication PUBLICATION_PUBLISHING j
                          then sraise (RuntimeError "publication lease is still active")
                          else sraise (RuntimeError "publication job changed while recovering")
              | None => sraise (RuntimeError "publication job changed while recovering")
              end) ;;
        slift (fun t => visible (job_row id t) (in_publication p) "publication recovery was not visible")
    end).
End store.
End FastReceipts.
