(* ===== verification/ReceiptLaws.v ===== *)
(** * Laws of the receipt store

    What the operations of [FastReceipts] guarantee: a receipt keeps its input
    and moves only forward to one final outcome, a key names one input, and a
    publication job is settled by what was observed of the remote reference. *)
From S2P Require Import Prelude PyStr Regex PyVal Sha256 PyJson SqliteStore FastReceipts.

Module ReceiptLaws.
Import Py FastReceipts.

(** ** Rows *)
(** What identifies an intent and what it asks for. *)
Definition identity (i : Intent) :=
  (receipt_id i, project i, idempotency_key i, operation i, task_id i, expected_revision i, payload_json i,
   input_digest i, created_at i).
Definition settled (p : Phase) : bool :=
  match p with PHASE_QUEUED | PHASE_RUNNING => false | _ => true end.
(** The phases reachable from a phase. *)
Definition leads_to (p q : Phase) : bool :=
  match p, q with
  | PHASE_QUEUED, _ => true
  | PHASE_RUNNING, PHASE_QUEUED => false
  | PHASE_RUNNING, _ => true
  | PHASE_LOCAL, (PHASE_LOCAL | PHASE_REMOTE) => true
  | _, _ => bool_decide (p = q)
  end.
(** The evidence an intent carries in its phase. *)
Definition evidence (i : Intent) : Prop :=
  match phase i with
  | PHASE_QUEUED | PHASE_RUNNING =>
      commit_oid i = None /\ result_revision i = None /\ error_code i = None /\ remote_oid i = None
  | PHASE_LOCAL | PHASE_REMOTE =>
      (exists oid, commit_oid i = Some oid /\ fm COMMIT oid = true) /\
      result_revision i = Some (expected_revision i + 1) /\ error_code i = None /\
      if decide (phase i = PHASE_LOCAL) then remote_oid i = None
      else exists oid, remote_oid i = Some oid /\ fm COMMIT oid = true
  | PHASE_REJECTED | PHASE_AMBIGUOUS =>
      commit_oid i = None /\ result_revision i = None /\ is_some (error_code i) = true /\ remote_oid i = None
  end.
Definition row_ok (i : Intent) : Prop :=
  evidence i /\ input_digest i = Sha256.Sha256.hexdigest (payload_json i).
(** A later state of an intent: the same input, a later phase, and an outcome
    that does not change any more. *)
Record evolves (i j : Intent) : Prop := Evolves {
  ev_identity : identity j = identity i;
  ev_phase : leads_to (phase i) (phase j) = true;
  ev_outcome : settled (phase i) = true ->
    commit_oid j = commit_oid i /\ result_revision j = result_revision i /\ error_code j = error_code i;
  ev_remote : phase i = PHASE_REMOTE -> remote_oid j = remote_oid i;
}.
#[export] Instance evolves_preorder : PreOrder evolves.
Proof.
  split.
  - intros i. split; try done. by destruct (phase i).
  - intros i j k [I1 P1 O1 R1] [I2 P2 O2 R2]. split.
    + congruence.
    + by destruct (phase i), (phase j), (phase k).
    + intros Hs. destruct (O1 Hs) as (<- & <- & <-). apply O2.
      by destruct (phase i), (phase j).
    + intros Hp. rewrite Hp in P1. assert (phase j = PHASE_REMOTE) as Hj by by destruct (phase j).
      by rewrite R2, R1.
Qed.

Definition job_identity (j : Job) :=
  (job_id j, job_project j, job_key j, candidate_oid j, expected_remote_oid j, job_created j).
Definition job_settled (p : Publication) : bool :=
  match p with PUBLICATION_PUBLISHED | PUBLICATION_REJECTED => true | _ => false end.
Definition job_ok (j : Job) : Prop :=
  (fm COMMIT (candidate_oid j) = true /\ candidate_oid j <> expected_remote_oid j) /\
  match job_phase j with
  | PUBLICATION_QUEUED => publisher_lease j = None /\ publisher_lease_expires j = None /\ job_error j = None
  | PUBLICATION_PUBLISHING =>
      is_some (publisher_lease j) = true /\ is_some (publisher_lease_expires j) = true /\ job_error j = None
  | PUBLICATION_PUBLISHED => observed_remote_oid j = Some (candidate_oid j)
  | PUBLICATION_REJECTED => is_some (job_error j) = true
  | PUBLICATION_AMBIGUOUS => observed_remote_oid j = None /\ is_some (job_error j) = true
  end.
Record job_evolves (i j : Job) : Prop := JobEvolves {
  jo_identity : job_identity j = job_identity i;
  jo_outcome : job_settled (job_phase i) = true -> j = i;
}.
#[export] Instance job_evolves_preorder : PreOrder job_evolves.
Proof.
  split; [by intros j|]. intros i j k [I1 O1] [I2 O2]. split; [congruence|]. intros Hs.
  rewrite (O1 Hs) in *. by apply O2.
Qed.

(** ** Tables *)
Definition own_key (i : Intent) := (project i, idempotency_key i).
Definition own_candidate (j : Job) := (job_project j, candidate_oid j).
Record sound (t : Tables) : Prop := Sound {
  so_ids : NoDup (map receipt_id (intents t));
  so_keys : NoDup (map own_key (intents t));
  so_rows : Forall row_ok (intents t);
  so_jobs : NoDup (map job_id (jobs t));
  so_candidates : NoDup (map own_candidate (jobs t));
  so_job_rows : Forall job_ok (jobs t);
}.
(** Every row is still there, in its place, in a later state. *)
Definition rows_evolve {A} (R : A -> A -> Prop) (l l' : list A) : Prop :=
  forall k x, l !! k = Some x -> exists y, l' !! k = Some y /\ R x y.
#[export] Instance rows_preorder {A} (R : A -> A -> Prop) `{!PreOrder R} : PreOrder (rows_evolve R).
Proof.
  split; [by intros l k x Hx; exists x|]. intros l1 l2 l3 H1 H2 k x Hx.
  destruct (H1 k x Hx) as (y & Hy & R1). destruct (H2 k y Hy) as (z & Hz & R2).
  exists z. split; [done | by etrans].
Qed.
(** Operations on the jobs are described together with a relation [Q] between
    the old and the new state of a job, which each operation establishes for the
    jobs it may change. *)
Section changes.
  Context {Q : Job -> Job -> Prop} `{!PreOrder Q}.
Definition job_step (x y : Job) : Prop := job_evolves x y /\ Q x y.
#[export] Instance job_step_preorder : PreOrder job_step.
Proof. split; [by split|]. intros x y z [] []. by split; etrans. Qed.
Record change (t t' : Tables) : Prop := Change {
  ch_sound : sound t -> sound t';
  ch_intents : sound t -> rows_evolve evolves (intents t) (intents t');
  ch_jobs : sound t -> rows_evolve job_step (jobs t) (jobs t');
}.
#[export] Instance change_preorder : PreOrder change.
Proof.
  split; [by intros t; split|]. intros t1 t2 t3 [S1 I1 J1] [S2 I2 J2]. split; [auto | |].
  - intros Hs. etrans; [by apply I1 | by apply I2, S1].
  - intros Hs. etrans; [by apply J1 | by apply J2, S1].
Qed.

Lemma update_where_lookup {A} (p : A -> bool) f (l : list A) k :
  update_where p f l !! k = (fun r => if p r then f r else r) <$> l !! k.
Proof. apply list_lookup_fmap. Qed.
Lemma update_where_map {A B} (p : A -> bool) f (g : A -> B) (l : list A) :
  (forall x, x ∈ l -> p x = true -> g (f x) = g x) -> map g (update_where p f l) = map g l.
Proof.
  intros Hg. unfold update_where. rewrite map_map. apply map_ext_in. intros x Hx%list_elem_of_In.
  destruct (p x) eqn:E; auto.
Qed.
Lemma update_where_evolve {A} (R : A -> A -> Prop) `{!PreOrder R} (p : A -> bool) f (l : list A) :
  (forall x, x ∈ l -> p x = true -> R x (f x)) -> rows_evolve R l (update_where p f l).
Proof.
  intros Hf k x Hx. rewrite update_where_lookup, Hx. eexists. split; [done|].
  destruct (p x) eqn:E; [|done]. apply Hf; [by eapply list_elem_of_lookup_2 | done].
Qed.
Lemma update_where_Forall {A} (P : A -> Prop) (p : A -> bool) f (l : list A) :
  Forall P l -> (forall x, x ∈ l -> P x -> p x = true -> P (f x)) -> Forall P (update_where p f l).
Proof.
  rewrite !Forall_forall. intros Hl Hf y (x & -> & Hx)%list_elem_of_fmap. destruct (p x) eqn:E; auto.
Qed.
Lemma append_evolve {A} (R : A -> A -> Prop) `{!PreOrder R} (l : list A) x : rows_evolve R l (l ++ [x]).
Proof. intros k y Hy. exists y. split; [by apply lookup_app_l_Some | done]. Qed.
Lemma append_NoDup {A B} (g : A -> B) (l : list A) x :
  NoDup (map g l) -> (forall y, y ∈ l -> g y <> g x) -> NoDup (map g (l ++ [x])).
Proof.
  intros Hn Hx. rewrite map_app. apply NoDup_app. split_and!; [done | | by apply NoDup_singleton].
  intros z (y & -> & Hy)%list_elem_of_fmap Hz%list_elem_of_singleton. by apply (Hx y).
Qed.

(** Updating intents keeps the tables sound. *)
Lemma update_intents t p f :
  (forall i, sound t -> i ∈ intents t -> p i = true -> row_ok i -> row_ok (f i) /\ evolves i (f i)) ->
  change t (set_intents t (update_where p f (intents t))).
Proof.
  intros Hf. assert (sound t -> forall i, i ∈ intents t -> p i = true -> row_ok (f i) /\ evolves i (f i)) as Hg.
  { intros Hs i Hi Hp. apply Hf; try done. pose proof (so_rows _ Hs) as Hr. rewrite Forall_forall in Hr. auto. }
  assert (sound t -> forall i, i ∈ intents t -> p i = true ->
            receipt_id (f i) = receipt_id i /\ own_key (f i) = own_key i) as Hi.
  { intros Hs i Hin Hp. destruct (Hg Hs i Hin Hp) as [_ [I _ _ _]]. unfold identity, own_key in *.
    by injection I as ? ? ? _ _ _ _ _ _; split; congruence. }
  split; [| |by intros Hs].
  - intros Hs. pose proof Hs as [S1 S2 S3 S4 S5 S6]. split; cbn; try done.
    + rewrite update_where_map; [done | intros i Hin Hp; by apply Hi].
    + rewrite update_where_map; [done | intros i Hin Hp; by apply Hi].
    + apply update_where_Forall; [done|]. intros i Hin _ Hp. by apply Hg.
  - intros Hs. apply update_where_evolve; [apply _|]. intros i Hin Hp. by apply Hg.
Qed.
Lemma update_jobs t p f :
  (forall j, sound t -> j ∈ jobs t -> p j = true -> job_ok j -> job_ok (f j) /\ job_step j (f j)) ->
  change t (set_jobs t (update_where p f (jobs t))).
Proof.
  intros Hf. assert (sound t -> forall j, j ∈ jobs t -> p j = true -> job_ok (f j) /\ job_step j (f j)) as Hg.
  { intros Hs j Hj Hp. apply Hf; try done. pose proof (so_job_rows _ Hs) as Hr. rewrite Forall_forall in Hr. auto. }
  assert (sound t -> forall j, j ∈ jobs t -> p j = true ->
            job_id (f j) = job_id j /\ own_candidate (f j) = own_candidate j) as Hi.
  { intros Hs j Hin Hp. destruct (Hg Hs j Hin Hp) as [_ [[I _] _]]. unfold job_identity, own_candidate in *.
    by injection I as ? ? ? ? _ _; split; congruence. }
  split; [|by intros Hs|].
  - intros Hs. pose proof Hs as [S1 S2 S3 S4 S5 S6]. split; cbn; try done.
    + rewrite update_where_map; [done | intros i Hin Hp; by apply Hi].
    + rewrite update_where_map; [done | intros i Hin Hp; by apply Hi].
    + apply update_where_Forall; [done|]. intros i Hin _ Hp. by apply Hg.
  - intros Hs. apply update_where_evolve; [apply _|]. intros i Hin Hp. by apply Hg.
Qed.
Lemma change_keys t x : change t (set_keys t x).
Proof. split; [|by intros _..]. by intros []; split. Qed.

(** ** Transactions *)
Lemma assert_path_tables s s' r : _assert_path s = (s', r) -> tables s' = tables s.
Proof. unfold _assert_path. by destruct (answers s); intros [= <- _]. Qed.
Lemma store_transaction_inv {A} (m : st Tables A) s s' r : _transaction m s = (s', r) ->
  (tables s' = tables s /\ exists e, r = Raise e) \/ exists a, m (tables s) = (tables s', Ok a) /\ (r = Ok a \/ exists e, r = Raise e).
Proof.
  unfold _transaction. intros E. unfold sbind at 1 in E.
  destruct (_assert_path s) as [s1 [[]|e]] eqn:E1; apply assert_path_tables in E1; [|injection E as <- <-; left; eauto].
  unfold sbind at 1, sget in E. rewrite E1 in E.
  destruct (m (tables s)) as [after [a|e]] eqn:Em; [|injection E as <- <-; left; eauto].
  unfold sbind at 1 in E. destruct (_assert_path s1) as [s2 [[]|e]] eqn:E2; apply assert_path_tables in E2;
    [|injection E as <- <-; left; split; [congruence | eauto]].
  unfold sbind at 1, smodify in E. unfold sbind in E.
  destruct (_assert_path (set_tables s2 after)) as [s3 [[]|e]] eqn:E3; apply assert_path_tables in E3; cbn in E3;
    injection E as <- <-; right; exists a; rewrite E3; split; eauto.
Qed.
Lemma store_transaction_Ok {A} (m : st Tables A) s s' a : _transaction m s = (s', Ok a) -> m (tables s) = (tables s', Ok a).
Proof.
  unfold _transaction. intros E. apply sbind_Ok_inv in E as ([] & s1 & E1%assert_path_tables & E).
  apply sbind_Ok_inv in E as (before & s2 & E2 & E). injection E2 as <- <-. rewrite E1 in E.
  destruct (m (tables s)) as [after [b|e]]; [|discriminate].
  apply sbind_Ok_inv in E as ([] & s3 & E2%assert_path_tables & E).
  apply sbind_Ok_inv in E as ([] & s4 & E3%smodify_Ok_inv & E). subst s4.
  apply sbind_Ok_inv in E as ([] & s5 & E4%assert_path_tables & E). apply sret_Ok_inv in E as [-> ->].
  by rewrite E4.
Qed.
Lemma transaction_run {A} (m : st Tables A) t t' a : m t = (t', Ok a) ->
  _transaction m (MkStore t []) = (MkStore t' [], Ok a).
Proof.
  intros E. unfold _transaction, sbind, sget, _assert_path, smodify, set_tables. cbn. by rewrite E.
Qed.
Lemma lift_run {S A B} (f : S -> res A) (m : A -> st S B) s a : f s = Ok a -> sbind (slift f) m s = m a s.
Proof. intros E. unfold sbind, slift. by rewrite E. Qed.
(** Reading never changes the tables. *)
Definition quiet {A} (m : st Store A) : Prop := forall s, tables (fst (m s)) = tables s.
Lemma query_quiet {A} (f : Tables -> A) : quiet (query f).
Proof.
  intros s. unfold query. destruct (sbind _ _ s) as [s' r] eqn:E. cbn. unfold sbind at 1 in E.
  destruct (_assert_path s) as [s1 [[]|e]] eqn:E1; apply assert_path_tables in E1; [|injection E as <- _; done].
  unfold sbind, sget in E. destruct (_assert_path s1) as [s2 [[]|e]] eqn:E2; apply assert_path_tables in E2;
    injection E as <- _; congruence.
Qed.
(** Operations whose effect on the tables is a [change]. *)
Definition sound_op {A} (m : st Store A) : Prop := forall s, change (tables s) (tables (fst (m s))).
Lemma quiet_sound {A} (m : st Store A) : quiet m -> sound_op m.
Proof. intros Hm s. by rewrite Hm. Qed.
Lemma sound_lift {A} (f : Store -> res A) : sound_op (slift f).
Proof. by intros s. Qed.
Lemma sound_raise {A} e : sound_op (@sraise Store A e).
Proof. by intros s. Qed.
Lemma sound_bind {A B} (m : st Store A) (f : A -> st Store B) :
  sound_op m -> (forall a, sound_op (f a)) -> sound_op (sbind m f).
Proof.
  intros Hm Hf s. unfold sbind. pose proof (Hm s) as H. destruct (m s) as [s1 [a|e]]; cbn in *; [|done].
  etrans; [exact H | apply Hf].
Qed.
Lemma lift_bind_at {A B} (f : Store -> res A) (m : A -> st Store B) s :
  (forall a, f s = Ok a -> change (tables s) (tables (fst (m a s)))) ->
  change (tables s) (tables (fst (sbind (slift f) m s))).
Proof. intros Hm. unfold sbind, slift. destruct (f s); [auto | done]. Qed.
Lemma quiet_bind_at {A B} (m : st Store A) (f : A -> st Store B) s : quiet m ->
  (forall a, (exists s1, m s = (s1, Ok a)) -> forall s1, tables s1 = tables s ->
     change (tables s1) (tables (fst (f a s1)))) ->
  change (tables s) (tables (fst (sbind m f s))).
Proof.
  intros Hq Hf. unfold sbind. pose proof (Hq s) as Ht. destruct (m s) as [s1 [a|e]] eqn:E; cbn in *; [|by rewrite Ht].
  rewrite <- Ht. apply Hf; [by exists s1 | done].
Qed.
Lemma transaction_at {A} (m : st Tables A) s :
  (forall t' a, m (tables s) = (t', Ok a) -> change (tables s) t') ->
  change (tables s) (tables (fst (_transaction m s))).
Proof.
  intros Hm. destruct (_transaction m s) as [s' r] eqn:E. cbn.
  apply store_transaction_inv in E as [[-> _]|(a & E & _)]; [done | by eapply Hm].
Qed.
Lemma store_transaction_sound {A} (m : st Tables A) :
  (forall t t' a, m t = (t', Ok a) -> change t t') -> sound_op (_transaction m).
Proof.
  intros Hm s. apply transaction_at. eauto.
Qed.

(** ** Lookups *)
Lemma find_Some_elem {A} (f : A -> bool) l x : List.find f l = Some x -> x ∈ l /\ f x = true.
Proof. intros [H1%list_elem_of_In H2]%find_some. done. Qed.
Lemma find_None_elem {A} (f : A -> bool) l x : List.find f l = None -> x ∈ l -> f x = false.
Proof. intros Hn Hx. apply (find_none _ _ Hn). by apply list_elem_of_In. Qed.
Lemma NoDup_map_inj {A B} (g : A -> B) l x y : NoDup (map g l) -> x ∈ l -> y ∈ l -> g x = g y -> x = y.
Proof.
  intros Hn [i Hi]%list_elem_of_lookup_1 [j Hj]%list_elem_of_lookup_1 E.
  assert (i = j) as ->; [|congruence].
  apply (NoDup_lookup _ i j (g x) Hn); rewrite list_lookup_fmap; [by rewrite Hi | by rewrite Hj, E].
Qed.
Section project.
  Context (pid : string).
Lemma is_receipt_spec id i : is_receipt pid id i = true <-> project i = pid /\ receipt_id i = id.
Proof. unfold is_receipt, mine. by rewrite andb_true_iff, !String.eqb_eq. Qed.
Lemma receipt_row_spec id t i : receipt_row pid id t = Some i -> i ∈ intents t /\ project i = pid /\ receipt_id i = id.
Proof. intros [H1 H2%is_receipt_spec]%find_Some_elem. done. Qed.
Lemma receipt_row_unique id t i j : sound t -> receipt_row pid id t = Some i -> j ∈ intents t ->
  is_receipt pid id j = true -> j = i.
Proof.
  intros Hs (H1 & _ & H2)%receipt_row_spec Hj [_ H3]%is_receipt_spec.
  eapply NoDup_map_inj; [apply (so_ids _ Hs) | done | done | congruence].
Qed.
Lemma is_job_spec id j : is_job pid id j = true <-> job_project j = pid /\ job_id j = id.
Proof. unfold is_job, my_job. by rewrite andb_true_iff, !String.eqb_eq. Qed.
Lemma job_row_spec id t j : job_row pid id t = Some j -> j ∈ jobs t /\ job_project j = pid /\ job_id j = id.
Proof. intros [H1 H2%is_job_spec]%find_Some_elem. done. Qed.
Lemma job_row_unique id t i j : sound t -> job_row pid id t = Some i -> j ∈ jobs t -> is_job pid id j = true -> j = i.
Proof.
  intros Hs (H1 & _ & H2)%job_row_spec Hj [_ H3]%is_job_spec.
  eapply NoDup_map_inj; [apply (so_jobs _ Hs) | done | done | congruence].
Qed.

(** ** Intents *)
Lemma insert_intent_change i t t' u : insert_intent i t = (t', Ok u) -> row_ok i -> change t t'.
Proof.
  intros E Hi. apply sbind_Ok_inv in E as (t0 & s1 & E1 & E). injection E1 as <- <-.
  apply sbind_Ok_inv in E as ([] & s1 & E1 & E). apply slift_Ok_inv in E1 as [-> E1].
  apply sbind_Ok_inv in E as ([] & s1 & E2 & E). apply slift_Ok_inv in E2 as [-> E2].
  apply raise_if_Ok in E1, E2. injection E as <-. split; [| |by intros _].
  - intros []. split; cbn; try done.
    + apply append_NoDup; [done|]. intros j Hj Heq. apply not_true_iff_false in E1. apply E1.
      apply existsb_exists. exists j. split; [by apply list_elem_of_In | by apply String.eqb_eq].
    + apply append_NoDup; [done|]. intros j Hj [= H1 H2]. apply not_true_iff_false in E2. apply E2.
      apply existsb_exists. exists j. split; [by apply list_elem_of_In|]. by rewrite H1, H2, !String.eqb_refl.
    + apply Forall_app. split; [done | by apply Forall_singleton].
  - intros _. apply append_evolve, _.
Qed.
Lemma enqueue_sound now fresh key task revision payload : sound_op (_enqueue pid now fresh key task revision payload).
Proof.
  apply sound_bind; [apply sound_lift|]. intros _. cbv zeta. destruct (get payload "operation"); try apply sound_raise.
  apply store_transaction_sound. intros t t' a E. apply sbind_Ok_inv in E as (existing & s1 & E1 & E).
  apply slift_Ok_inv in E1 as [-> E1]. apply sbind_Ok_inv in E as (i & s1 & E2 & E).
  apply sbind_Ok_inv in E as ([] & s2 & E3 & E). apply slift_Ok_inv in E3 as [-> _]. apply sret_Ok_inv in E as [-> ->].
  destruct existing as [j|]; [by apply sret_Ok_inv in E2 as [-> _]|].
  apply sbind_Ok_inv in E2 as (z & s2 & E3 & E2). apply slift_Ok_inv in E3 as [-> _].
  apply sbind_Ok_inv in E2 as ([] & s2 & E3 & E2). apply sret_Ok_inv in E2 as [-> _].
  apply insert_intent_change in E3; [done|]. by split.
Qed.
Lemma claim_next_sound now : sound_op (claim_next pid now).
Proof.
  apply store_transaction_sound. intros t t' a E. apply sbind_Ok_inv in E as (t0 & s1 & E1 & E). injection E1 as <- <-.
  destruct (first_by _ _) as [i|]; [|by apply sret_Ok_inv in E as [-> _]].
  apply sbind_Ok_inv in E as ([] & s1 & E1 & E). injection E1 as <-.
  apply sbind_Ok_inv in E as (row & s1 & E1 & E). apply slift_Ok_inv in E1 as [-> _].
  apply sret_Ok_inv in E as [-> _]. apply update_intents. intros j _ _ [_ Hp%bool_decide_eq_true]%andb_true_iff [Hj Hd].
  unfold evidence in Hj. rewrite Hp in Hj. split; [by split|]. split; try done.
  - by rewrite Hp.
Qed.
Lemma finish_running_sound id p oid revision error s :
  (forall i, receipt_row pid id (tables s) = Some i -> phase i = PHASE_RUNNING -> row_ok i ->
     row_ok (outcome p oid revision error i) /\ leads_to PHASE_RUNNING p = true) ->
  change (tables s) (tables (fst (_finish_running pid id p oid revision error s))).
Proof.
  intros Hok. apply lift_bind_at. intros [] _. apply transaction_at. intros t' a E.
  apply sbind_Ok_inv in E as (t0 & s1 & E1 & E). injection E1 as <- <-.
  destruct (receipt_row pid id (tables s)) as [row|] eqn:Er; [|discriminate].
  apply sbind_Ok_inv in E as ([] & s1 & E1 & E). apply slift_Ok_inv in E as [-> _].
  destruct (decide (phase row = p)); [by apply slift_Ok_inv in E1 as [-> _]|].
  destruct (negb _) eqn:Hn; [discriminate|]. apply negb_false_iff, bool_decide_eq_true in Hn.
  apply sbind_Ok_inv in E1 as ([] & s2 & E2 & E1). apply slift_Ok_inv in E2 as [-> _]. injection E1 as <-.
  apply update_intents. intros i Hs Hi [Hr _]%andb_true_iff Hrow.
  rewrite (receipt_row_unique _ _ _ _ Hs Er Hi Hr) in *. destruct (Hok row eq_refl Hn Hrow) as [H1 H2].
  split; [done|]. by split; rewrite ?Hn.
Qed.
Lemma read_quiet id : quiet (FastReceipts.read pid id).
Proof.
  intros s. unfold FastReceipts.read, sbind, slift. destruct (raise_if _ _) as [[]|e]; [apply query_quiet | done].
Qed.
Lemma read_value id s s' o : FastReceipts.read pid id s = (s', Ok o) -> o = receipt_row pid id (tables s).
Proof.
  intros E. apply sbind_Ok_inv in E as ([] & s1 & E1 & E). apply slift_Ok_inv in E1 as [-> _].
  apply sbind_Ok_inv in E as ([] & s1 & E1%assert_path_tables & E). apply sbind_Ok_inv in E as (s0 & s2 & E2 & E).
  injection E2 as <- <-. apply sbind_Ok_inv in E as ([] & s3 & _ & E). apply sret_Ok_inv in E as [_ ->]. by rewrite E1.
Qed.
Lemma record_local_sound id oid revision : sound_op (record_local_commit pid id oid revision).
Proof.
  intros s. apply lift_bind_at. intros [] [Hoid%negb_false_iff _]%raise_if_Ok%orb_false_iff.
  apply quiet_bind_at; [apply read_quiet|]. intros o [s0 ->%read_value] s1 Ht.
  rewrite <- Ht. apply lift_bind_at. intros [] Hrev%raise_if_Ok.
  apply finish_running_sound. intros i Hi Hp [Hev Hd]. rewrite Hi in Hrev. apply negb_false_iff, Z.eqb_eq in Hrev.
  unfold evidence in Hev. rewrite Hp in Hev. destruct Hev as (_ & _ & _ & Hr).
  split; [|done]. split; [|done]. unfold evidence. cbn. split_and!; [by exists oid | by rewrite Hrev | done | done].
Qed.
Lemma record_failed_sound p id code : p = PHASE_REJECTED \/ p = PHASE_AMBIGUOUS ->
  sound_op (_finish_running pid id p None None (Some code)).
Proof.
  intros Hp s. apply finish_running_sound. intros i _ Hr [Hev Hd]. unfold evidence in Hev. rewrite Hr in Hev.
  destruct Hev as (_ & _ & _ & Ho). destruct Hp as [-> | ->]; (split; [split; [|exact Hd]|done]); unfold evidence; cbn; by rewrite Ho.
Qed.
Lemma record_rejection_sound id code : sound_op (record_rejection pid id code).
Proof. apply sound_bind; [apply sound_lift|]. intros _. apply record_failed_sound. by left. Qed.
Lemma record_ambiguity_sound id code : sound_op (record_ambiguity pid id code).
Proof. apply sound_bind; [apply sound_lift|]. intros _. apply record_failed_sound. by right. Qed.
Lemma record_remote_sound now id oid : sound_op (record_remote_observation pid now id oid).
Proof.
  intros s. apply lift_bind_at. intros [] Hoid%raise_if_Ok%negb_false_iff. apply transaction_at. intros t' a E.
  apply sbind_Ok_inv in E as (t0 & s1 & E1 & E). injection E1 as <- <-.
  destruct (receipt_row pid id (tables s)) as [row|] eqn:Er; [|discriminate].
  do 2 (apply sbind_Ok_inv in E as ([] & s1 & E1 & E); apply slift_Ok_inv in E1 as [-> _]).
  apply sbind_Ok_inv in E as ([] & s1 & E1 & E). apply slift_Ok_inv in E as [-> _].
  destruct (bool_decide (phase row = PHASE_LOCAL)) eqn:Hp; [|by apply sret_Ok_inv in E1 as [-> _]].
  apply bool_decide_eq_true in Hp. injection E1 as <-. apply update_intents. intros i Hs Hi Hr [Hev Hd].
  rewrite (receipt_row_unique _ _ _ _ Hs Er Hi Hr) in *. unfold evidence in Hev. rewrite Hp in Hev.
  destruct Hev as (H1 & H2 & H3 & _). split.
  - split; [|done]. unfold evidence. cbn. split_and!; [done | done | done | by exists oid].
  - split; [done | by rewrite Hp | done | by rewrite Hp].
Qed.
Lemma publication_failure_sound id code : sound_op (record_publication_failure pid id code).
Proof.
  apply sound_bind; [apply sound_lift|]. intros _. apply store_transaction_sound. intros t t' a E.
  apply sbind_Ok_inv in E as ([] & s1 & E1 & E). apply slift_Ok_inv in E as [-> _].
  apply smodify_Ok_inv in E1. subst s1. apply update_intents.
  intros i _ _ [_ Hp%bool_decide_eq_true]%andb_true_iff [Hev Hd].
  split; [by split|]. split; cbn; rewrite ?Hp; done.
Qed.

(** ** Jobs *)
Lemma insert_job_change j t t' u : insert_job j t = (t', Ok u) -> job_ok j -> change t t'.
Proof.
  intros E Hj. apply sbind_Ok_inv in E as (t0 & s1 & E1 & E). injection E1 as <- <-.
  apply sbind_Ok_inv in E as ([] & s1 & E1 & E). apply slift_Ok_inv in E1 as [-> E1].
  apply raise_if_Ok in E1. injection E as <-. split; [|by intros _|].
  - assert (forall x, x ∈ jobs t -> job_id x <> job_id j /\ own_candidate x <> own_candidate j) as Hx.
    { intros x Hx. apply not_true_iff_false in E1. split.
      - intros Hid. apply E1, existsb_exists. exists x. split; [by apply list_elem_of_In|].
        by rewrite Hid, String.eqb_refl.
      - intros [= H1 H2]. apply E1, existsb_exists. exists x. split; [by apply list_elem_of_In|].
        by rewrite H1, H2, !String.eqb_refl, !orb_true_r. }
    intros []. split; cbn; try done.
    + apply append_NoDup; [done|]. intros x Hin. by apply Hx.
    + apply append_NoDup; [done|]. intros x Hin. by apply Hx.
    + apply Forall_app. split; [done | by apply Forall_singleton].
  - intros _. apply append_evolve, _.
Qed.
Lemma insert_key_change k t t' u : insert_key k t = (t', Ok u) -> change t t'.
Proof.
  intros E. apply sbind_Ok_inv in E as (t0 & s1 & E1 & E). injection E1 as <- <-.
  apply sbind_Ok_inv in E as ([] & s1 & E1 & E). apply slift_Ok_inv in E1 as [-> _].
  injection E as <-. apply change_keys.
Qed.
Lemma admit_sound now fresh key candidate remote : sound_op (admit_publication pid now fresh key candidate remote).
Proof.
  intros s. apply lift_bind_at. intros [] Hne%raise_if_Ok. rewrite !orb_false_iff, !negb_false_iff in Hne.
  destruct Hne as (((_ & Hc) & _) & Hne%String.eqb_neq).
  apply transaction_at. intros t' a E. apply sbind_Ok_inv in E as (t0 & s1 & E1 & E). injection E1 as <- <-.
  destruct (keyed_job _ _ _).
  { apply sbind_Ok_inv in E as ([] & s1 & E1 & E). apply slift_Ok_inv in E1 as [-> _]. by apply sret_Ok_inv in E as [-> _]. }
  destruct (candidate_row _ _ _).
  { apply sbind_Ok_inv in E as ([] & s1 & E1 & E). apply slift_Ok_inv in E1 as [-> _].
    apply sbind_Ok_inv in E as ([] & s1 & E1%insert_key_change & E). by apply sret_Ok_inv in E as [-> _]. }
  apply sbind_Ok_inv in E as ([] & s1 & E1 & E). apply insert_job_change in E1; [|by split].
  apply sbind_Ok_inv in E as ([] & s2 & E2%insert_key_change & E). apply slift_Ok_inv in E as [-> _].
  by etrans.
Qed.
(** One job is changed, to what the code computed from the row it read. *)
Lemma update_job id t row p f : job_row pid id t = Some row ->
  (forall j, p j = true -> is_job pid id j = true) ->
  (p row = true -> job_ok row -> job_settled (job_phase row) = false /\ job_ok (f row)) ->
  job_identity (f row) = job_identity row -> (p row = true -> Q row (f row)) ->
  change t (set_jobs t (update_where p f (jobs t))).
Proof.
  intros Hr Hp Hok Hi HQ. apply update_jobs. intros j Hs Hj Hpj Hjo.
  assert (j = row) as -> by eauto using job_row_unique. destruct (Hok Hpj Hjo) as [H1 H2].
  split; [done|]. split; [by split; rewrite ?H1 | auto].
Qed.
Lemma in_publication_spec p j : in_publication p j = true <-> job_phase j = p.
Proof. apply bool_decide_eq_true. Qed.
Lemma resolve_job_sound now id oid : (forall x y, job_phase x = PUBLICATION_QUEUED -> Q x y) ->
  sound_op (resolve_superseded_publication pid now id oid).
Proof.
  intros HQ. apply sound_bind; [apply sound_lift|]. intros _. apply store_transaction_sound. intros t t' a E.
  apply sbind_Ok_inv in E as (t0 & s1 & E1 & E). injection E1 as <- <-.
  destruct (job_row pid id t) as [row|] eqn:Er; [|discriminate].
  apply sbind_Ok_inv in E as ([] & s1 & E1 & E). apply slift_Ok_inv in E1 as [-> _].
  destruct (superseded_outcome row oid) as [p error] eqn:Eo.
  apply sbind_Ok_inv in E as ([] & s1 & E1 & E). injection E1 as <-.
  apply sbind_Ok_inv in E as ([] & s1 & E1 & E). apply slift_Ok_inv in E1 as [-> _].
  apply slift_Ok_inv in E as [-> _]. eapply update_job; [exact Er | by intros j [? _]%andb_true_iff | | done |].
  2:{ intros [_ Hp%in_publication_spec]%andb_true_iff. auto. }
  intros [_ Hp%in_publication_spec]%andb_true_iff [Hne _]. rewrite Hp. split; [done|]. split; [done|].
  unfold superseded_outcome in Eo. cbn. destruct (String.eqb_spec oid (candidate_oid row)) as [->|_]; [by injection Eo as <- <-|].
  by destruct (String.eqb _ _); injection Eo as <- <-.
Qed.
Lemma claim_publication_sound now id lease : (forall x y, job_phase x = PUBLICATION_QUEUED -> Q x y) ->
  sound_op (claim_publication pid now id lease).
Proof.
  intros HQ. apply sound_bind; [apply sound_lift|]. intros _. apply store_transaction_sound. intros t t' a E.
  apply sbind_Ok_inv in E as (t0 & s1 & E1 & E). injection E1 as <- <-.
  destruct (job_row pid id t) as [row|] eqn:Er; [|by apply sret_Ok_inv in E as [-> _]].
  destruct (negb _); [by apply sret_Ok_inv in E as [-> _]|].
  apply sbind_Ok_inv in E as ([] & s1 & E1 & E). injection E1 as <-.
  apply sbind_Ok_inv in E as (j & s1 & E1 & E). apply slift_Ok_inv in E1 as [-> _]. apply sret_Ok_inv in E as [-> _].
  eapply update_job; [exact Er | by intros j' [? _]%andb_true_iff | | done |].
  2:{ intros [_ Hp%in_publication_spec]%andb_true_iff. auto. }
  intros [_ Hp%in_publication_spec]%andb_true_iff [Hne _]. by rewrite Hp.
Qed.
Lemma finish_owned_inv now id lease p observed error t t' u :
  _finish_owned_publication pid now id lease p observed error t = (t', Ok u) ->
  let changed j := is_job pid id j && in_publication PUBLICATION_PUBLISHING j && holds_lease lease j
                   && match publisher_lease_expires j with Some e => now <=? e | None => false end in
  t' = set_jobs t (update_where changed (finished p observed error now) (jobs t)) /\
  length (List.filter changed (jobs t)) = 1%nat.
Proof.
  intros E. apply sbind_Ok_inv in E as (t0 & s1 & E1 & E). injection E1 as <- <-. cbv zeta in E.
  apply sbind_Ok_inv in E as ([] & s1 & E1 & E). injection E1 as <-.
  destruct (Nat.eqb_spec (length (List.filter (fun j => is_job pid id j && in_publication PUBLICATION_PUBLISHING j
    && holds_lease lease j && match publisher_lease_expires j with Some e => now <=? e | None => false end) (jobs t))) 1)
    as [Hl|_].
  - apply sret_Ok_inv in E as [-> _]. done.
  - apply sbind_Ok_inv in E as (c & s1 & E1 & E). apply slift_Ok_inv in E1 as [-> _].
    destruct c as [j|]; [|discriminate]. by destruct (in_publication _ j && _).
Qed.
Lemma finish_sound now id lease p observed error :
  (forall x y, is_job pid id x = true -> job_phase x = PUBLICATION_PUBLISHING -> publisher_lease x = Some lease -> Q x y) ->
  sound_op (finish_publication pid now id lease p observed error).
Proof.
  intros HQ s. apply lift_bind_at. intros [] [_ Ho%negb_false_iff]%raise_if_Ok%orb_false_iff.
  apply transaction_at. intros t' a E. apply sbind_Ok_inv in E as (t0 & s1 & E1 & E). injection E1 as <- <-.
  destruct (job_row pid id (tables s)) as [row|] eqn:Er; [|discriminate].
  destruct (in_publication p row) eqn:Hp.
  { apply sbind_Ok_inv in E as ([] & s1 & E1 & E). apply slift_Ok_inv in E1 as [-> _]. by apply sret_Ok_inv in E as [-> _]. }
  apply sbind_Ok_inv in E as ([] & s1 & E1 & E). apply slift_Ok_inv in E1 as [-> _].
  apply sbind_Ok_inv in E as ([] & s1 & E1 & E). apply slift_Ok_inv in E1 as [-> Hc%raise_if_Ok].
  apply sbind_Ok_inv in E as ([] & s1 & [-> _]%finish_owned_inv & E). apply slift_Ok_inv in E as [-> _].
  eapply update_job; [exact Er | | | done |].
  3:{ rewrite !andb_true_iff. intros [[[Hi Hr%in_publication_spec] Hl%bool_decide_eq_true] _]. auto. }
  { intros j H. rewrite !andb_true_iff in H. by destruct H as [[[? _] _] _]. }
  rewrite !andb_true_iff. intros [[[_ Hr%in_publication_spec] _] _] [Hne _]. rewrite Hr. split; [done|]. split; [done|].
  unfold outcome_ok in Ho. cbn. destruct p; cbn in *; try discriminate Ho.
  - apply negb_false_iff, bool_decide_eq_true in Hc. done.
  - rewrite !andb_true_iff in Ho. by destruct Ho as (_ & Ho).
  - rewrite !andb_true_iff in Ho. destruct Ho as ((_ & Ho1) & Ho2). split; [|done]. by destruct observed.
Qed.
Lemma recover_sound now id oid :
  (forall x y, job_phase x = PUBLICATION_AMBIGUOUS \/ lease_expired now x = true -> Q x y) ->
  sound_op (recover_publication pid now id oid).
Proof.
  intros HQ. apply sound_bind; [apply sound_lift|]. intros _. apply store_transaction_sound. intros t t' a E.
  apply sbind_Ok_inv in E as (t0 & s1 & E1 & E). injection E1 as <- <-.
  destruct (job_row pid id t) as [row|] eqn:Er; [|discriminate].
  apply sbind_Ok_inv in E as ([] & s1 & E1 & E). apply slift_Ok_inv in E1 as [-> _].
  destruct (recovered_outcome row oid) as [p error] eqn:Eo. cbv zeta in E.
  apply sbind_Ok_inv in E as ([] & s1 & E1 & E). injection E1 as <-.
  apply sbind_Ok_inv in E as ([] & s1 & E1 & E).
  match type of E1 with (if ?b then _ else _) _ = _ => destruct b end.
  2:{ apply sbind_Ok_inv in E1 as (c & s2 & E2 & E1). destruct c as [j|]; [|discriminate].
      by destruct (in_publication PUBLICATION_PUBLISHING j). }
  apply sret_Ok_inv in E1 as [-> _]. apply slift_Ok_inv in E as [-> _].
  eapply update_job; [exact Er | by intros j [? _]%andb_true_iff | | done |].
  2:{ intros [_ [Hp%in_publication_spec|[_ Hp]%andb_true_iff]%orb_true_iff]%andb_true_iff; auto. }
  intros [_ Hp]%andb_true_iff [Hne _]. split.
  { apply orb_true_iff in Hp as [->%in_publication_spec|[->%in_publication_spec _]%andb_true_iff]; done. }
  split; [done|]. unfold recovered_outcome in Eo. cbn.
  destruct (String.eqb_spec oid (candidate_oid row)) as [->|_]; [by injection Eo as <- <-|].
  by destruct (String.eqb _ _); injection Eo as <- <-.
Qed.
End project.
End changes.

(** ** Operations of the store *)
Inductive request : Type :=
  | Heartbeat (now : Z) (fresh key task owner : string) (revision lease_minutes : Z)
  | ClaimTask (now : Z) (fresh key task owner : string) (revision lease_minutes : Z) (pid start : value)
  | Promote (now : Z) (fresh key task : string) (revision : Z) (note : string)
  | Update (now : Z) (fresh key task owner : string) (revision : Z) (changes : value) (note : string)
  | ClaimNext (now : Z)
  | LocalCommit (id oid : string) (revision : Z)
  | Rejection (id code : string)
  | Ambiguity (id code : string)
  | RemoteObservation (now : Z) (id oid : string)
  | PublicationFailure (id code : string)
  | AdmitPublication (now : Z) (fresh key candidate remote : string)
  | ResolveSuperseded (now : Z) (id oid : string)
  | ClaimPublication (now : Z) (id lease : string)
  | FinishPublication (now : Z) (id lease : string) (p : Publication) (observed error : option string)
  | RecoverPublication (now : Z) (id oid : string).
Definition perform (pid : string) (o : request) (s : Store) : Store :=
  match o with
  | Heartbeat now fresh key task owner r l => fst (enqueue_heartbeat pid now fresh key task owner r l s)
  | ClaimTask now fresh key task owner r l p st => fst (enqueue_claim pid now fresh key task owner r l p st s)
  | Promote now fresh key task r note => fst (enqueue_promote pid now fresh key task r note s)
  | Update now fresh key task owner r c note => fst (enqueue_update pid now fresh key task owner r c note s)
  | ClaimNext now => fst (claim_next pid now s)
  | LocalCommit id oid r => fst (record_local_commit pid id oid r s)
  | Rejection id code => fst (record_rejection pid id code s)
  | Ambiguity id code => fst (record_ambiguity pid id code s)
  | RemoteObservation now id oid => fst (record_remote_observation pid now id oid s)
  | PublicationFailure id code => fst (record_publication_failure pid id code s)
  | AdmitPublication now fresh key c r => fst (admit_publication pid now fresh key c r s)
  | ResolveSuperseded now id oid => fst (resolve_superseded_publication pid now id oid s)
  | ClaimPublication now id lease => fst (claim_publication pid now id lease s)
  | FinishPublication now id lease p obs e => fst (finish_publication pid now id lease p obs e s)
  | RecoverPublication now id oid => fst (recover_publication pid now id oid s)
  end.
Inductive store_step (pid : string) : Tables -> Tables -> Prop :=
  | store_operation o s : store_step pid (tables s) (tables (perform pid o s)).
Definition empty : Tables := MkTables [] [] [].
(** A sequence of operations, with path checks that pass. *)
Definition run (pid : string) (l : list request) (t : Tables) : Tables :=
  foldl (fun t o => tables (perform pid o (MkStore t []))) t l.
Lemma run_steps pid l t : rtc (store_step pid) t (run pid l t).
Proof.
  revert t. induction l as [|o l IH]; intros t; [done|]. eapply rtc_l; [|apply IH].
  apply (store_operation pid o (MkStore t [])).
Qed.
(** What a relation between job states must allow for an operation to keep it. *)
Definition allows (pid : string) (Q : Job -> Job -> Prop) (o : request) : Prop :=
  match o with
  | ResolveSuperseded _ _ _ | ClaimPublication _ _ _ => forall x y, job_phase x = PUBLICATION_QUEUED -> Q x y
  | FinishPublication _ id lease _ _ _ => forall x y, is_job pid id x = true ->
      job_phase x = PUBLICATION_PUBLISHING -> publisher_lease x = Some lease -> Q x y
  | RecoverPublication now _ _ => forall x y,
      job_phase x = PUBLICATION_AMBIGUOUS \/ lease_expired now x = true -> Q x y
  | _ => True
  end.
Lemma perform_change {Q : Job -> Job -> Prop} `{!PreOrder Q} pid o s :
  allows pid Q o -> change (Q := Q) (tables s) (tables (perform pid o s)).
Proof.
  intros Ha. destruct o; cbn [perform allows] in *.
  - refine (sound_bind _ _ (sound_lift _) _ s). intros _. apply enqueue_sound.
  - refine (sound_bind _ _ (sound_lift _) _ s). intros _. apply sound_bind; [apply sound_lift|].
    intros _. apply enqueue_sound.
  - refine (sound_bind _ _ (sound_lift _) _ s). intros _. apply enqueue_sound.
  - refine (sound_bind _ _ (sound_lift _) _ s). intros _. apply sound_bind; [apply sound_lift|].
    intros d. apply enqueue_sound.
  - apply claim_next_sound.
  - apply record_local_sound.
  - apply record_rejection_sound.
  - apply record_ambiguity_sound.
  - apply record_remote_sound.
  - apply publication_failure_sound.
  - apply admit_sound.
  - by apply resolve_job_sound.
  - by apply claim_publication_sound.
  - by apply finish_sound.
  - by apply recover_sound.
Qed.
(** Any change of a job is allowed. *)
Definition any (x y : Job) : Prop := True.
#[export] Instance any_preorder : PreOrder any.
Proof. by split. Qed.
Lemma steps_change pid t t' : rtc (store_step pid) t t' -> change (Q := any) t t'.
Proof.
  induction 1 as [|t1 t2 t3 [o s] _ IH]; [done|]. etrans; [|exact IH]. apply perform_change. by destruct o.
Qed.
Lemma empty_sound : sound empty.
Proof. split; cbn; by constructor. Qed.
Lemma reachable_sound pid t : rtc (store_step pid) empty t -> sound t.
Proof. intros H%steps_change. by apply (ch_sound _ _ H), empty_sound. Qed.

(** C17: A receipt only moves forward.  From an empty store, whatever operations
    run in whatever order, and with whatever answers of the path checks, every
    intent stays in its place with the input it was admitted with; its phase
    only advances (queued, running, then one of completed, rejected and
    ambiguous, a completed one possibly to published); a completed one carries a
    commit and exactly the revision after the expected one, a rejected or
    ambiguous one carries an error and no commit; and once settled its commit,
    revision and error never change. *)
Theorem receipts_move_forward pid t t' k i :
  rtc (store_step pid) empty t -> rtc (store_step pid) t t' -> intents t !! k = Some i ->
  exists j, intents t' !! k = Some j /\ evolves i j /\ row_ok j.
Proof.
  intros Ht%reachable_sound Hs%steps_change Hi. pose proof (ch_sound _ _ Hs Ht) as Ht'.
  destruct (ch_intents _ _ Hs Ht k i Hi) as (j & Hj & He). exists j. split_and!; [done | done|].
  pose proof (so_rows _ Ht') as Hr. rewrite Forall_forall in Hr. apply Hr. by eapply list_elem_of_lookup_2.
Qed.

Definition sample_id : string := "0123456789abcdef0123456789abcdef".
Definition sample_lease : string := "fedcba9876543210fedcba9876543210".
Definition sample_oid : string := "0123456789abcdef0123456789abcdef01234567".
Definition sample_base : string := "fedcba9876543210fedcba9876543210fedcba98".
Definition sample_beat : request := Heartbeat 5 sample_id "key-1" "AR-0001" "owner" 3 60.
Definition sample_ran : Tables := run "p" [sample_beat; ClaimNext 6] empty.
Definition sample_settled : Tables :=
  run "p" [LocalCommit sample_id sample_oid 4; RemoteObservation 9 sample_id sample_oid] sample_ran.
Lemma receipts_move_forward_witness :
  exists i j, intents sample_ran !! 0%nat = Some i /\ phase i = PHASE_RUNNING /\
    intents sample_settled !! 0%nat = Some j /\ phase j = PHASE_REMOTE /\ evolves i j /\ row_ok j.
Proof.
  destruct (intents sample_ran !! 0%nat) as [i|] eqn:Hi; [|vm_compute in Hi; discriminate Hi].
  assert (rtc (store_step "p") empty sample_ran) as H1 by (unfold sample_ran; apply run_steps).
  assert (rtc (store_step "p") sample_ran sample_settled) as H2 by (unfold sample_settled; apply run_steps).
  destruct (receipts_move_forward "p" sample_ran sample_settled 0 i H1 H2 Hi) as (j & Hj & He & Hr).
  exists i, j. split_and!; [reflexivity | | exact Hj | | exact He | exact Hr].
  - vm_compute in Hi. injection Hi as <-. reflexivity.
  - vm_compute in Hj. injection Hj as <-. reflexivity.
Defined.

(** A publication is what was observed.  From an empty store, whatever
    operations run: a project has at most one job per candidate; the candidate
    and the base of a job never change; a published job was observed at exactly
    its candidate, a rejected or ambiguous one carries an error; and a published
    or rejected job never changes again. *)
Theorem publications_are_final pid t t' k j :
  rtc (store_step pid) empty t -> rtc (store_step pid) t t' -> jobs t !! k = Some j ->
  NoDup (map own_candidate (jobs t')) /\
  exists j', jobs t' !! k = Some j' /\ job_ok j' /\ job_identity j' = job_identity j /\
    (job_settled (job_phase j) = true -> j' = j).
Proof.
  intros Ht%reachable_sound Hs%steps_change Hj. pose proof (ch_sound _ _ Hs Ht) as Ht'.
  split; [apply (so_candidates _ Ht')|]. destruct (ch_jobs _ _ Hs Ht k j Hj) as (j' & Hj' & [[Hi Ho] _]).
  exists j'. split_and!; try done. pose proof (so_job_rows _ Ht') as Hr. rewrite Forall_forall in Hr.
  apply Hr. by eapply list_elem_of_lookup_2.
Qed.

Definition sample_publication : list request :=
  [AdmitPublication 5 sample_id "key-1" sample_oid sample_base; ClaimPublication 6 sample_id sample_lease;
   FinishPublication 7 sample_id sample_lease PUBLICATION_PUBLISHED (Some sample_oid) None].
Definition sample_published : Tables := run "p" sample_publication empty.
Definition sample_recovered : Tables := run "p" [RecoverPublication 999999 sample_id sample_base] sample_published.
Lemma publications_are_final_witness :
  exists j, jobs sample_published !! 0%nat = Some j /\ job_phase j = PUBLICATION_PUBLISHED /\
    jobs sample_recovered !! 0%nat = Some j.
Proof.
  destruct (jobs sample_published !! 0%nat) as [j|] eqn:Hj; [|vm_compute in Hj; discriminate Hj].
  assert (rtc (store_step "p") empty sample_published) as H1 by (unfold sample_published; apply run_steps).
  assert (rtc (store_step "p") sample_published sample_recovered) as H2 by (unfold sample_recovered; apply run_steps).
  destruct (publications_are_final "p" sample_published sample_recovered 0 j H1 H2 Hj) as (_ & j' & Hj' & _ & _ & Hf).
  assert (job_phase j = PUBLICATION_PUBLISHED) as Hp by (vm_compute in Hj; injection Hj as <-; reflexivity).
  rewrite Hp in Hf. specialize (Hf eq_refl). subst j'. exists j. split_and!; [reflexivity | exact Hp | exact Hj'].
Defined.

(** ** Keys *)
Lemma key_row_spec pid key t i : key_row pid key t = Some i ->
  i ∈ intents t /\ project i = pid /\ idempotency_key i = key.
Proof.
  intros [H1 H2]%find_Some_elem. unfold mine in H2. by rewrite andb_true_iff, !String.eqb_eq in H2.
Qed.
Lemma key_row_unique pid key t i : sound t -> i ∈ intents t -> project i = pid -> idempotency_key i = key ->
  key_row pid key t = Some i.
Proof.
  intros Hs Hi Hp Hk. destruct (key_row pid key t) as [j|] eqn:E.
  - apply key_row_spec in E as (Hj & Hpj & Hkj). f_equal.
    eapply NoDup_map_inj; [apply (so_keys _ Hs) | done | done | unfold own_key; congruence].
  - apply (find_None_elem _ _ _ E) in Hi. unfold mine in Hi. by rewrite Hp, Hk, !String.eqb_refl in Hi.
Qed.
Lemma enqueue_Ok pid now fresh key task revision payload s s' i :
  _enqueue pid now fresh key task revision payload s = (s', Ok i) ->
  i ∈ intents (tables s') /\ project i = pid /\ idempotency_key i = key /\
  payload_json i = PyJson.dumps (VDict payload).
Proof.
  intros E. apply sbind_Ok_inv in E as ([] & s1 & E1 & E). apply slift_Ok_inv in E1 as [-> _]. cbv zeta in E.
  destruct (get payload "operation"); try discriminate. apply store_transaction_Ok in E.
  apply sbind_Ok_inv in E as (existing & s1 & E1 & E). apply slift_Ok_inv in E1 as [-> E1].
  apply sbind_Ok_inv in E as (j & s1 & E2 & E). apply sbind_Ok_inv in E as ([] & s2 & E3 & E).
  apply slift_Ok_inv in E3 as [-> E3]. apply sret_Ok_inv in E as [Et ->].
  apply raise_if_Ok, negb_false_iff in E3. apply andb_true_iff in E3 as [_ E3%String.eqb_eq].
  destruct existing as [i|].
  - apply sret_Ok_inv in E2 as [-> ->]. injection E1 as E1. apply key_row_spec in E1. rewrite Et. naive_solver.
  - apply sbind_Ok_inv in E2 as (z & s2 & E4 & E2). apply slift_Ok_inv in E4 as [-> _].
    apply sbind_Ok_inv in E2 as ([] & s2 & E4 & E2). apply sret_Ok_inv in E2 as [-> ->].
    apply sbind_Ok_inv in E4 as (t0 & s3 & E5 & E4). injection E5 as <- <-.
    do 2 (apply sbind_Ok_inv in E4 as ([] & s3 & E5 & E4); apply slift_Ok_inv in E5 as [-> _]).
    injection E4 as E4. rewrite Et, <- E4. cbn. split_and!; [|done..]. apply elem_of_app. right. by apply list_elem_of_singleton.
Qed.

(** A key names one input.  Once an intent is admitted under a key, any later
    request under that key in the project, after any operations, stores
    nothing: it is answered with the same receipt when its input is the same,
    and refused otherwise. *)
Theorem key_names_one_input pid now fresh key task revision payload s1 s2 i now' fresh' task' revision' payload' s3 s4 r :
  rtc (store_step pid) empty (tables s1) ->
  _enqueue pid now fresh key task revision payload s1 = (s2, Ok i) ->
  rtc (store_step pid) (tables s2) (tables s3) ->
  _enqueue pid now' fresh' key task' revision' payload' s3 = (s4, r) ->
  tables s4 = tables s3 /\
  forall j, r = Ok j -> receipt_id j = receipt_id i /\ payload_json j = payload_json i /\
                        PyJson.dumps (VDict payload') = PyJson.dumps (VDict payload).
Proof.
  intros Hr%reachable_sound E1 Hs%steps_change E2.
  assert (sound (tables s2)) as Hs2.
  { pose proof (enqueue_sound (Q := any) pid now fresh key task revision payload s1) as Hc. rewrite E1 in Hc.
    by apply (ch_sound _ _ Hc). }
  apply enqueue_Ok in E1 as ([k Hk]%list_elem_of_lookup_1 & Hp & Hkey & Hpay).
  destruct (ch_intents _ _ Hs Hs2 k i Hk) as (j & Hj & [Hi _ _ _]).
  assert (Hrow : key_row pid key (tables s3) = Some j).
  { unfold identity in Hi. injection Hi as H1 H2 H3 H4 H5 H6 H7 H8 H9.
    apply key_row_unique; [by apply (ch_sound _ _ Hs) | by eapply list_elem_of_lookup_2 | congruence..]. }
  unfold identity in Hi. injection Hi as H1 H2 H3 H4 H5 H6 H7 H8 H9.
  assert (tables s4 = tables s3 /\ forall x, r = Ok x -> x = j /\ payload_json j = PyJson.dumps (VDict payload'))
    as [Ht Hx]; [|split; [done|]; intros x Hx'; destruct (Hx x Hx') as [-> Hpj]; split_and!; congruence].
  unfold _enqueue, sbind at 1, slift at 1 in E2. destruct (raise_if _ _) as [[]|e]; [|by injection E2 as <- <-].
  cbv zeta in E2. destruct (get payload' "operation"); try by injection E2 as <- <-.
  apply store_transaction_inv in E2 as [[Ht Hx]|(x & E & Hx)].
  - destruct Hx as [e ->]. done.
  - apply sbind_Ok_inv in E as (existing & t1 & E1 & E). apply slift_Ok_inv in E1 as [-> E1].
    injection E1 as <-. rewrite Hrow in E. apply sbind_Ok_inv in E as (x' & t1 & E1 & E).
    apply sret_Ok_inv in E1 as [-> ->]. apply sbind_Ok_inv in E as ([] & t1 & E1 & E).
    apply slift_Ok_inv in E1 as [-> E1]. apply sret_Ok_inv in E as [-> ->].
    apply raise_if_Ok, negb_false_iff in E1. apply andb_true_iff in E1 as [_ E1%String.eqb_eq].
    split; [done|]. intros y Hy. destruct Hx as [->|[e ->]]; [by injection Hy as <- | done].
Qed.

Definition sample_request (minutes : Z) : dict := lease_payload "p" "heartbeat" "AR-0001" "owner" 3 minutes.
Definition sample_admitted : Store * res Intent :=
  _enqueue "p" 5 sample_id "key-1" "AR-0001" 3 (sample_request 60) (MkStore empty []).
Definition sample_again (minutes : Z) : Store * res Intent :=
  _enqueue "p" 8 sample_lease "key-1" "AR-0001" 3 (sample_request minutes)
    (MkStore (run "p" [ClaimNext 6] (tables (fst sample_admitted))) []).
Definition accepted {A} (r : res A) : bool := match r with Ok _ => true | Raise _ => false end.
Lemma key_names_one_input_witness : accepted (snd (sample_again 60)) = true /\ accepted (snd (sample_again 61)) = false /\
  tables (fst (sample_again 61)) = run "p" [ClaimNext 6] (tables (fst sample_admitted)).
Proof.
  split; [vm_compute; reflexivity|]. split; [vm_compute; reflexivity|].
  destruct sample_admitted as [s2 [i|e]] eqn:E1; [|vm_compute in E1; discriminate E1].
  destruct (sample_again 61) as [s4 r] eqn:E2. unfold sample_again in E2. rewrite E1 in E2.
  assert (rtc (store_step "p") (tables s2) (run "p" [ClaimNext 6] (tables s2))) as Hs by apply run_steps.
  apply (key_names_one_input "p" 5 sample_id "key-1" "AR-0001" 3 (sample_request 60) (MkStore empty []) s2 i
           8 sample_lease "AR-0001" 3 (sample_request 61) (MkStore (run "p" [ClaimNext 6] (tables s2)) []) s4 r
           (rtc_refl _ _) E1 Hs E2).
Defined.

(** ** Leases *)
(** Operations of others while a lease runs: they finish other jobs or under
    other leases (a lease is a fresh identifier), and recover a job no later
    than the deadline by their clock. *)
Definition foreign (id lease : string) (deadline : Z) (o : request) : Prop :=
  match o with
  | FinishPublication _ id' lease' _ _ _ => ~ (id' = id /\ lease' = lease)
  | RecoverPublication now _ _ => now <= deadline
  | _ => True
  end.
Inductive foreign_step (pid id lease : string) (deadline : Z) : Tables -> Tables -> Prop :=
  | foreign_operation o s : foreign id lease deadline o ->
      foreign_step pid id lease deadline (tables s) (tables (perform pid o s)).
(** A running lease leaves the job as it is. *)
Definition kept (pid id lease : string) (deadline : Z) (x y : Job) : Prop :=
  is_job pid id x = true -> job_phase x = PUBLICATION_PUBLISHING -> publisher_lease x = Some lease ->
  publisher_lease_expires x = Some deadline -> y = x.
#[export] Instance kept_preorder pid id lease deadline : PreOrder (kept pid id lease deadline).
Proof.
  split; [by intros x|]. intros x y z H1 H2 Hj Hp Hl He. specialize (H1 Hj Hp Hl He). subst y. by apply H2.
Qed.
Lemma foreign_allows pid id lease deadline o :
  foreign id lease deadline o -> allows pid (kept pid id lease deadline) o.
Proof.
  destruct o; cbn; try done; unfold kept; try congruence.
  - intros Hn x y [_ H1]%is_job_spec _ Hl [_ H2]%is_job_spec _ Hl' _. exfalso. apply Hn. split; congruence.
  - intros Hn x y [H|H] _ Hp _ He; [congruence|]. unfold lease_expired in H. rewrite He in H.
    apply Z.ltb_lt in H. lia.
Qed.
Lemma foreign_change pid id lease deadline t t' : rtc (foreign_step pid id lease deadline) t t' ->
  change (Q := kept pid id lease deadline) t t'.
Proof.
  induction 1 as [|t1 t2 t3 [o s Ho] _ IH]; [done|]. etrans; [|exact IH]. by apply perform_change, foreign_allows.
Qed.
Lemma find_update_where {A} (g p : A -> bool) f l : (forall x, p x = true -> g (f x) = g x) ->
  List.find g (update_where p f l) = (fun x => if p x then f x else x) <$> List.find g l.
Proof.
  intros Hg. induction l as [|x l IH]; [done|]. cbn. assert (g (if p x then f x else x) = g x) as ->.
  { destruct (p x) eqn:E; auto. }
  by destruct (g x).
Qed.
Lemma filter_one {A B} (g : A -> B) (p : A -> bool) l x : NoDup (map g l) -> x ∈ l -> p x = true ->
  (forall y, y ∈ l -> p y = true -> g y = g x) -> length (List.filter p l) = 1%nat.
Proof.
  induction l as [|y l IH]; cbn; intros Hn Hx Hp Hy; [by apply elem_of_nil in Hx|].
  apply NoDup_cons in Hn as [Hn1 Hn2]. apply elem_of_cons in Hx as [->|Hx].
  - rewrite Hp. cbn. f_equal. replace (List.filter p l) with (@nil A); [done|].
    destruct (List.filter p l) as [|z l'] eqn:E; [done|].
    assert (z ∈ l /\ p z = true) as [Hz Hpz].
    { assert (In z (List.filter p l)) as [H1 H2]%filter_In by (rewrite E; by left). split; [by apply list_elem_of_In | done]. }
    exfalso. apply Hn1. rewrite <- (Hy z) by (done || by apply elem_of_cons; right). by apply list_elem_of_fmap_2.
  - destruct (p y) eqn:E.
    + exfalso. apply Hn1. rewrite (Hy y) by (done || by apply elem_of_cons; left). by apply list_elem_of_fmap_2.
    + apply IH; try done. intros z Hz. apply Hy. by apply elem_of_cons; right.
Qed.
Lemma claim_publication_Ok pid now id lease s s' j : claim_publication pid now id lease s = (s', Ok (Some j)) ->
  fm RECEIPT id = true /\ fm RECEIPT lease = true /\ job_row pid id (tables s') = Some j /\
  job_phase j = PUBLICATION_PUBLISHING /\ publisher_lease j = Some lease /\
  publisher_lease_expires j = Some (now + 60000).
Proof.
  intros E. apply sbind_Ok_inv in E as ([] & s1 & E1 & E). apply slift_Ok_inv in E1 as [-> Hf].
  apply raise_if_Ok in Hf. rewrite orb_false_iff, !negb_false_iff in Hf. destruct Hf as [Hf1 Hf2].
  apply store_transaction_Ok in E. apply sbind_Ok_inv in E as (t0 & s1 & E1 & E). injection E1 as <- <-.
  destruct (job_row pid id (tables s)) as [row|] eqn:Er; [|discriminate].
  destruct (in_publication PUBLICATION_QUEUED row) eqn:Hq; [|discriminate]. cbn [negb] in E.
  apply sbind_Ok_inv in E as ([] & s1 & E1 & E). injection E1 as <-.
  apply sbind_Ok_inv in E as (x & s1 & E1 & E). apply slift_Ok_inv in E1 as [-> E1].
  apply sret_Ok_inv in E as [-> [= ->]]. unfold job_row in E1 |- *. cbn [jobs set_jobs] in E1 |- *.
  rewrite find_update_where in E1 |- * by (intros y _; done). unfold job_row in Er. rewrite Er in E1 |- *. cbn in *.
  apply find_Some_elem in Er as [_ Hi]. rewrite Hi, Hq in E1 |- *. cbn in *. by injection E1 as <-.
Qed.

(** C34: A lease protects its publisher.  From the moment a job is leased, and
    whatever others do in the sixty seconds of the lease - admitting, claiming,
    finishing under their leases, resolving or recovering - the job stays as it
    was leased, and the publisher can record its success until the deadline. *)
Theorem lease_protects_publisher pid now id lease s s1 j t n :
  rtc (store_step pid) empty (tables s) -> claim_publication pid now id lease s = (s1, Ok (Some j)) ->
  rtc (foreign_step pid id lease (now + 60000)) (tables s1) t -> n <= now + 60000 ->
  job_row pid id t = Some j /\
  exists s2 j', finish_publication pid n id lease PUBLICATION_PUBLISHED (Some (candidate_oid j)) None
                  (MkStore t []) = (s2, Ok j') /\
    job_phase j' = PUBLICATION_PUBLISHED /\ job_identity j' = job_identity j.
Proof.
  intros Hr%reachable_sound E Hs%foreign_change Hn.
  assert (sound (tables s1)) as Hs1.
  { pose proof (claim_publication_sound (Q := any) pid now id lease ltac:(done) s) as Hc. rewrite E in Hc.
    by apply (ch_sound _ _ Hc). }
  apply claim_publication_Ok in E as (Hid & Hlease & Hrow & Hp & Hl & He).
  pose proof Hrow as ([k Hk]%list_elem_of_lookup_1 & Hproj & Hjid)%job_row_spec.
  assert (is_job pid id j = true) as Hj by by apply is_job_spec.
  destruct (ch_jobs _ _ Hs Hs1 k j Hk) as (j' & Hj' & [_ Hkept]). specialize (Hkept Hj Hp Hl He). subst j'.
  pose proof (ch_sound _ _ Hs Hs1) as Ht. apply list_elem_of_lookup_2 in Hj'.
  assert (job_row pid id t = Some j) as Hrow'.
  { destruct (job_row pid id t) as [x|] eqn:Ex.
    - by rewrite (job_row_unique _ _ _ _ _ Ht Ex Hj' Hj).
    - by rewrite (find_None_elem _ _ _ Ex Hj') in Hj. }
  split; [done|]. pose proof (so_job_rows _ Ht) as Hok. rewrite Forall_forall in Hok.
  destruct (Hok _ Hj') as [[Hc _] _].
  set (f := finished PUBLICATION_PUBLISHED (Some (candidate_oid j)) None n).
  set (p := fun x => is_job pid id x && in_publication PUBLICATION_PUBLISHING x && holds_lease lease x
                     && match publisher_lease_expires x with Some e => n <=? e | None => false end).
  assert (p j = true) as Hpj.
  { unfold p, in_publication, holds_lease. rewrite Hj, Hp, Hl, He, !bool_decide_true by done. cbn. by apply Z.leb_le. }
  assert (length (List.filter p (jobs t)) = 1%nat) as Hone.
  { eapply (filter_one job_id); [apply (so_jobs _ Ht) | exact Hj' | done|]. intros y _ Hy. unfold p in Hy.
    rewrite !andb_true_iff in Hy. destruct Hy as [[[[_ Hy]%is_job_spec _] _] _]. congruence. }
  exists (MkStore (set_jobs t (update_where p f (jobs t))) []), (f j). split; [|done].
  unfold finish_publication. rewrite (lift_run _ _ _ tt).
  2:{ rewrite Hid, Hlease. unfold outcome_ok. by rewrite Hc. }
  apply transaction_run. unfold sbind at 1, sget. rewrite Hrow'.
  unfold in_publication at 1. rewrite Hp, bool_decide_false by done.
  rewrite (lift_run _ _ _ tt).
  2:{ unfold in_publication, holds_lease. by rewrite Hp, Hl, !bool_decide_true. }
  rewrite (lift_run _ _ _ tt) by by rewrite !bool_decide_true.
  unfold sbind at 1, _finish_owned_publication, sbind at 1, sget, sbind at 1, sput. fold p f.
  rewrite Hone. cbn [Nat.eqb]. unfold sret, slift. f_equal.
  unfold job_row. cbn [jobs set_jobs]. rewrite find_update_where by by intros.
  unfold job_row in Hrow'. rewrite Hrow'. cbn. by rewrite Hpj.
Qed.
Definition sample_queued : Store :=
  MkStore (run "p" [AdmitPublication 5 sample_id "key-1" sample_oid sample_base] empty) [].
Definition sample_leased : Store * res (option Job) := claim_publication "p" 6 sample_id sample_lease sample_queued.
Definition sample_attempt : Tables :=
  tables (perform "p" (RecoverPublication 50000 sample_id sample_base) (fst sample_leased)).
Lemma lease_protects_publisher_witness :
  exists j, job_row "p" sample_id sample_attempt = Some j /\ job_phase j = PUBLICATION_PUBLISHING.
Proof.
  destruct sample_leased as [s1 [[j|]|e]] eqn:E; [|vm_compute in E; discriminate E..].
  assert (rtc (store_step "p") empty (tables sample_queued)) as H1 by (unfold sample_queued; apply run_steps).
  assert (rtc (foreign_step "p" sample_id sample_lease (6 + 60000)) (tables s1) sample_attempt) as Ht.
  { unfold sample_attempt. rewrite E. apply rtc_once.
    apply (foreign_operation "p" _ _ _ (RecoverPublication 50000 sample_id sample_base)). cbn. lia. }
  destruct (lease_protects_publisher "p" 6 sample_id sample_lease sample_queued s1 j sample_attempt 60000 H1 E Ht
              ltac:(lia)) as [Hj _].
  exists j. split; [exact Hj|]. vm_compute in E. injection E as _ <-. reflexivity.
Defined.
End ReceiptLaws.
