(* ===== verification/ReceiptWorker.v ===== *)
(** * The receipt worker ([fast_receipt_worker.py])

    Executes queued intents, verifies the commits that carry their receipts,
    recovers interrupted reservations and publishes completed ones.  Git
    ([core.run]) and the coordinator's commit ([core.mutate]) are the interface
    [Core]: computations on a repository of any type.  The lock files are
    outside the model; the resident loops ([serve_local], [serve_publication])
    repeat the operations below. *)
From S2P Require Import Prelude PyStr Regex PyVal PyTime Sha256 PyJson JsonParse Sessions Execution.
From S2P Require Import FastReceipts.

Module ReceiptWorker.
Import Py PyTime FastReceipts.

(** ** Text *)
(** [str.splitlines] on the code points 0..255 *)
Definition is_break (c : ascii) : bool :=
  (10 <=? PyStr.ord c) && (PyStr.ord c <=? 13) || (28 <=? PyStr.ord c) && (PyStr.ord c <=? 30) || (PyStr.ord c =? 133).
Fixpoint lines_from (current : string) (after_cr : bool) (s : string) : list string :=
  match s with
  | "" => if String.eqb current "" then [] else [current]
  | String c s' =>
      if after_cr && Ascii.eqb c "010" then lines_from "" false s'
      else if is_break c then current :: lines_from "" (Ascii.eqb c "013") s'
      else lines_from (current +:+ String c "") false s'
  end.
Definition splitlines (s : string) : list string := lines_from "" false s.
Fixpoint find_from (i : nat) (sub s : string) : option nat :=
  if PyStr.startswith sub s then Some i
  else match s with "" => None | String _ s' => find_from (S i) sub s' end.
(** [s[i:]] *)
Definition from (i : nat) (s : string) : string := String.substring i (String.length s - i) s.
Definition lf : string := String "010" "".
Definition count (x : string) (l : list string) : nat := length (List.filter (String.eqb x) l).

(** ** The coordinator and its repository *)
Class Core : Type := {
  repo : Type;
  ROOT : string;
  (** [core.run(command, check=...)]: the return code and the standard output *)
  core_run : list string -> bool -> st repo (Z * string);
  (** [core.mutate(args, kind)], then [args._committed_oid] *)
  core_mutate : Namespace -> string -> st repo string;
  assert_project_binding : st repo unit;
  backend_selection : repo -> res dict;
  project_binding : repo -> res dict;
  (** [store.path.resolve() == expected.resolve()] *)
  store_in_place : repo -> res bool;
  project_settings : repo -> res dict;
  replication_enabled : repo -> res bool;
  render_current : list (string * Meta * string) -> res value;
  render_status_views : list (string * Meta * string) -> res dict;
  (** the journal paragraph [handoffctl] appends to a task body *)
  _transition_note : string -> string -> string -> string;
}.
Section worker.
  Context `{C : Core}.
Definition _git (args : list string) (strict : bool) : st repo string :=
  do* r := core_run (["git"; "-C"; ROOT] ++ args) strict in sret r.2.
Definition _task_record (oid path : string) : st repo (dict * string) :=
  do* source := _git ["show"; oid +:+ ":" +:+ path] true in
  slift (fun _ =>
    check raise_if (negb (PyStr.startswith ("---" +:+ lf) source)) (RuntimeError "receipt task has no front matter") ;;
    match find_from 4 (lf +:+ "---" +:+ lf) (from 4 source) with
    | None => Raise (RuntimeError "receipt task front matter is incomplete")
    | Some i => match JsonParse.loads (String.substring 4 (i - 4) source) with
                | None => Raise (ValueError "JSONDecodeError")
                | Some (VDict d) => Ok (d, from (i + 5) source)
                | Some _ => Raise (RuntimeError "receipt task front matter is invalid")
                end
    end).
Fixpoint records_at (oid : string) (names : list string) : st repo (list (string * Meta * string)) :=
  match names with
  | [] => sret []
  | name :: names' =>
      if PyStr.startswith "tasks/" name && PyStr.endswith ".md" name then
        do* r := _task_record oid name in
        do* rest := records_at oid names' in
        sret ((name, r.1, r.2) :: rest)
      else records_at oid names'
  end.
Definition _task_views (oid : string) : st repo dict :=
  do* listing := _git ["ls-tree"; "-r"; "--name-only"; oid; "tasks"] true in
  do* tasks := records_at oid (splitlines listing) in
  do* current := slift (fun _ => render_current tasks) in
  let views := [("CURRENT.md", current)] in
  do* settings := slift project_settings in
  do* status := slift (fun _ => item settings "status_view") in
  if truthy status then do* more := slift (fun _ => render_status_views tasks) in sret (update views more)
  else sret views.
Definition OID : Regex.re := Regex.HEX 40.
Definition is_task_path (task path : string) : bool :=
  String.eqb path ("tasks/" +:+ task +:+ ".md")
  || PyStr.startswith ("tasks/" +:+ task +:+ "-") path && PyStr.endswith ".md" path.
Definition outside : exn := RuntimeError "receipt commit changes paths outside target task".
Fixpoint check_views (oid : string) (views : dict) : st repo unit :=
  match views with
  | [] => sret tt
  | (projection, expected) :: views' =>
      do* found := _git ["show"; oid +:+ ":" +:+ projection] false in
      do slift (fun _ => raise_if (ne (VStr found) expected)
           (RuntimeError "receipt commit task projection does not match committed tasks")) ;;
      check_views oid views'
  end.
Fixpoint check_obsolete (oid : string) (projections : list string) : st repo unit :=
  match projections with
  | [] => sret tt
  | projection :: rest =>
      do* found := _git ["ls-tree"; "--name-only"; oid; "--"; projection] true in
      do slift (fun _ => raise_if (PyStr.truthy (PyStr.strip found))
           (RuntimeError "receipt commit retains an obsolete task projection")) ;;
      check_obsolete oid rest
  end.
(** The task before and after a commit that changes one task and its views. *)
Definition _task_change (oid task : string) (sidecars : list string) : st repo (Meta * string * Meta * string) :=
  do* listing := _git ["diff-tree"; "--no-commit-id"; "--name-only"; "-r"; oid] true in
  let paths := splitlines listing in
  match List.filter (is_task_path task) paths with
  | [path] =>
      let projections := List.filter (fun p => negb (String.eqb p path)) paths in
      do slift (fun _ => raise_if (existsb (fun p => negb (PyStr.mem p sidecars)
                  && negb (PyStr.mem p ["CURRENT.md"; "STATUS.md"])
                  && negb (PyStr.startswith "status/STATUS-" p)) projections) outside) ;;
      do* parent := _git ["rev-parse"; oid +:+ "^"] true in
      let parent := PyStr.strip parent in
      do slift (fun _ => raise_if (negb (fm OID parent)) (RuntimeError "receipt commit has no valid parent")) ;;
      do* before := _task_record parent path in
      do* after := _task_record oid path in
      do* before_views := _task_views parent in
      do* views := _task_views oid in
      do slift (fun _ => raise_if (negb (forallb (fun p => has before_views p || has views p || PyStr.mem p sidecars)
                                     projections)) outside) ;;
      do check_views oid views ;;
      do check_obsolete oid (List.filter (fun p => negb (has views p)) (keys before_views)) ;;
      sret (before.1, before.2, after.1, after.2)
  | _ => sraise (RuntimeError "receipt commit does not change exactly one target task")
  end.

(** ** What a commit must change *)
Definition HEARTBEAT_FIELDS : list string := ["task_revision"; "updated_at"; "claim_expires"].
Definition CLAIM_FIELDS : list string :=
  ["task_revision"; "updated_at"; "claim_expires"; "owner"; "status"; "claim_process"].
Definition PROMOTE_FIELDS : list string := ["task_revision"; "updated_at"; "status"].
Definition UPDATE_FIELDS : list string :=
  ["task_revision"; "updated_at"; "status"; "priority"; "summary"; "next_action"].
Definition stable (fields : list string) (meta : Meta) : Meta :=
  List.filter (fun kv => negb (PyStr.mem kv.1 fields)) meta.
Definition check_stable (fields : list string) (what : string) (before after : Meta) : res unit :=
  raise_if (ne (VDict (stable fields before)) (VDict (stable fields after)))
    (RuntimeError ("receipt commit changes non-" +:+ what +:+ " task fields")).
Definition check_body (transition : string) (at_ : value) (what before_body after_body : string) : res unit :=
  raise_if (negb (String.eqb after_body (_transition_note before_body transition (str at_))))
    (RuntimeError ("receipt commit body does not match " +:+ what)).
(** The lease in the commit, within two seconds of the requested one. *)
Definition check_lease (what : string) (payload : dict) (after : Meta) : res unit :=
  let parse k := let* v := item after k in
                 match fromisoformat (str v) with
                 | Some t => Ok t
                 | None => Raise (ValueError "Invalid isoformat string")
                 end in
  let* updated := parse "updated_at" in
  let* expiry := parse "claim_expires" in
  check raise_if (naive updated || naive expiry) (RuntimeError ("receipt commit " +:+ what +:+ " timestamps are naive")) ;;
  let* minutes := int_item payload "lease_minutes" in
  raise_if (2 * second <? Z.abs (instant expiry - instant updated - minutes * minute))
    (RuntimeError ("receipt commit lease does not match queued " +:+ what)).
Definition heartbeat_delta (i : Intent) (payload : dict) (before : Meta) (before_body : string) (after : Meta)
    (after_body : string) : res Z :=
  let owner := get payload "owner" in
  let expected := expected_revision i in
  check raise_if (ne (get before "id") (VStr (task_id i)) || ne (get before "owner") owner
                  || ne (get before "status") (VStr "in_progress") || ne (get before "task_revision") (VInt expected)
                  || ne (get after "id") (VStr (task_id i)) || ne (get after "owner") owner
                  || ne (get after "status") (VStr "in_progress")
                  || ne (get after "task_revision") (VInt (expected + 1)))
          (RuntimeError "receipt commit task state does not match intent") ;;
  check check_stable HEARTBEAT_FIELDS "heartbeat" before after ;;
  check check_lease "heartbeat" payload after ;;
  check check_body ("Heartbeat by " +:+ str owner +:+ ".") (get after "updated_at") "heartbeat" before_body after_body ;;
  Ok (expected + 1).
Definition promote_delta (i : Intent) (payload : dict) (before : Meta) (before_body : string) (after : Meta)
    (after_body : string) : res Z :=
  let expected := expected_revision i in
  check raise_if (ne (get before "id") (VStr (task_id i)) || ne (get before "status") (VStr "planned")
                  || truthy (get before "owner") || truthy (get before "claim_expires")
                  || ne (get before "task_revision") (VInt expected)
                  || ne (get after "id") (VStr (task_id i)) || ne (get after "status") (VStr "open")
                  || truthy (get after "owner") || truthy (get after "claim_expires")
                  || ne (get after "task_revision") (VInt (expected + 1)))
          (RuntimeError "receipt commit task state does not match promote intent") ;;
  check check_stable PROMOTE_FIELDS "promote" before after ;;
  let* note := item payload "note" in
  let* at_ := item after "updated_at" in
  check check_body (str note) at_ "promote" before_body after_body ;;
  Ok (expected + 1).
Definition identity_matches (payload after : dict) : res bool :=
  let identity := get after "claim_process" in
  if negb (has payload "worker_pid") then Ok (is_null identity)
  else match identity with
       | VDict d =>
           if ne (get d "pid") (get payload "worker_pid") then Ok false
           else let* start := item payload "worker_start_time" in
                Ok (eq (get d "start_time") start && Execution.scoped_claim_process identity)
       | _ => Ok false
       end.
Definition claim_delta (i : Intent) (payload : dict) (before : Meta) (before_body : string) (after : Meta)
    (after_body : string) : res Z :=
  let owner := get payload "owner" in
  let expected := expected_revision i in
  let* identity := identity_matches payload after in
  check raise_if (ne (get before "id") (VStr (task_id i)) || ne (get before "status") (VStr "open")
                  || truthy (get before "owner") || truthy (get before "claim_expires")
                  || ne (get before "task_revision") (VInt expected)
                  || ne (get after "id") (VStr (task_id i)) || ne (get after "status") (VStr "in_progress")
                  || ne (get after "owner") owner || ne (get after "task_revision") (VInt (expected + 1))
                  || negb identity)
          (RuntimeError "receipt commit task state does not match claim intent") ;;
  check check_stable CLAIM_FIELDS "claim" before after ;;
  check check_lease "claim" payload after ;;
  check check_body ("Claimed by " +:+ str owner +:+ ".") (get after "updated_at") "claim" before_body after_body ;;
  Ok (expected + 1).
Definition update_delta (i : Intent) (payload : dict) (before : Meta) (before_body : string) (after : Meta)
    (after_body : string) : res Z :=
  let owner := get payload "owner" in
  let expected := expected_revision i in
  match get payload "changes" with
  | VDict changes =>
      check raise_if (ne (get before "id") (VStr (task_id i)) || ne (get before "owner") owner
                      || ne (get before "status") (VStr "in_progress")
                      || ne (get before "task_revision") (VInt expected)
                      || ne (get after "id") (VStr (task_id i)) || ne (get after "owner") owner
                      || ne (get after "status") (VStr "in_progress")
                      || ne (get after "task_revision") (VInt (expected + 1)))
              (RuntimeError "receipt commit task state does not match update intent") ;;
      check check_stable UPDATE_FIELDS "update" before after ;;
      check raise_if (existsb (fun k => ne (get after k) (get_or changes k (get before k)))
                        ["status"; "priority"; "summary"; "next_action"])
              (RuntimeError "receipt commit changes fields outside update intent") ;;
      let* note := item payload "note" in
      let* at_ := item after "updated_at" in
      check check_body (str note) at_ "update" before_body after_body ;;
      Ok (expected + 1)
  | _ => Raise (RuntimeError "receipt update changes are invalid")
  end.
(** The bounded journal of one commit. *)
Fixpoint rows_from (task : string) (number : Z) (revisions : list value) (lines : list string) : res (list dict) :=
  match lines with
  | [] => Ok []
  | line :: lines' =>
      let invalid := RuntimeError ("receipt session line " +:+ PyStr.of_Z number +:+ " is invalid") in
      match JsonParse.loads line with
      | Some (VDict row) =>
          check match Sessions.validate_session_record row with
                | Raise e => if is_ValueError e then Raise invalid else Raise e
                | Ok _ => Ok tt
                end ;;
          let* t := item row "task" in
          let* revision := item row "task_revision" in
          check raise_if (ne t (VStr task) || in_list revision revisions)
                  (RuntimeError "receipt session does not match target task") ;;
          let* rows := rows_from task (number + 1) (revision :: revisions) lines' in
          Ok (row :: rows)
      | _ => Raise invalid
      end
  end.
Definition _session_rows (source task : string) : res (list dict) :=
  let* rows := rows_from task 1 [] (splitlines source) in
  check raise_if (Nat.ltb Sessions.MAX_SESSION_RECORDS (length rows))
          (RuntimeError "receipt session exceeds bounded retention") ;;
  Ok rows.
Definition _verify_update_session (oid path task : string) (after : Meta) : st repo unit :=
  do* parent := _git ["rev-parse"; oid +:+ "^"] true in
  do* old := _git ["show"; PyStr.strip parent +:+ ":" +:+ path] false in
  do* before := slift (fun _ => _session_rows old task) in
  do* new := _git ["show"; oid +:+ ":" +:+ path] false in
  do* found := slift (fun _ => _session_rows new task) in
  do* at_ := slift (fun _ => item after "updated_at") in
  do* expected := slift (fun _ => Sessions.build_session_record after "update" (str at_)) in
  slift (fun _ => raise_if (ne (VList (map VDict found))
                              (VList (map VDict (last_n Sessions.MAX_SESSION_RECORDS (before ++ [expected])))))
                    (RuntimeError "receipt session does not match update")).
Definition change_of (i : Intent) (oid : string) (sidecars : list string)
    (delta : Meta -> string -> Meta -> string -> res Z) : st repo (Z * Meta) :=
  do* c := _task_change oid (task_id i) sidecars in
  let '(before, before_body, after, after_body) := c in
  do* revision := slift (fun _ => delta before before_body after after_body) in
  sret (revision, after).
Definition _verify_operation_delta (operation : string) (i : Intent) (payload : dict) (oid : string) : st repo Z :=
  if String.eqb operation "heartbeat" then do* c := change_of i oid [] (heartbeat_delta i payload) in sret c.1
  else if String.eqb operation "claim" then do* c := change_of i oid [] (claim_delta i payload) in sret c.1
  else if String.eqb operation "update" then
    let session := "sessions/" +:+ task_id i +:+ ".jsonl" in
    do* c := change_of i oid [session] (update_delta i payload) in
    do _verify_update_session oid session (task_id i) c.2 ;;
    sret c.1
  else do* c := change_of i oid [] (promote_delta i payload) in sret c.1.
Definition _require_active_branch_commit (oid : string) : st repo unit :=
  do slift (fun _ => raise_if (negb (fm OID oid)) (RuntimeError "invalid receipt commit oid")) ;;
  do* r := core_run ["git"; "-C"; ROOT; "merge-base"; "--is-ancestor"; oid; "HEAD"] false in
  slift (fun _ => raise_if (negb (r.1 =? 0)) (RuntimeError "receipt commit is not on the active state branch")).
Definition marker (id : string) : string := "Handoffctl-Receipt: " +:+ id.
Definition OPERATIONS : list string := ["claim"; "heartbeat"; "promote"; "update"].
Definition verify_local_commit (i : Intent) (oid : string) : st repo Z :=
  do _require_active_branch_commit oid ;;
  do* message := _git ["log"; "-1"; "--format=%B"; oid] true in
  let lines := splitlines message in
  do slift (fun _ => raise_if (negb (Nat.eqb (count (marker (receipt_id i)) lines) 1))
       (RuntimeError "receipt commit marker is missing or duplicated")) ;;
  do slift (fun _ => raise_if (negb (PyStr.mem (operation i) OPERATIONS)) (RuntimeError "receipt operation is unsupported")) ;;
  do slift (fun _ => raise_if match lines with
                              | l :: _ => negb (String.eqb l ("chore(state): " +:+ operation i +:+ " " +:+ task_id i))
                              | [] => true
                              end (RuntimeError "receipt commit operation does not match intent")) ;;
  do* payload := slift (fun _ => match JsonParse.loads (payload_json i) with
                                 | Some (VDict d) => Ok d
                                 | Some _ => Raise (RuntimeError "receipt intent payload is invalid")
                                 | None => Raise (ValueError "JSONDecodeError")
                                 end) in
  do* expected := _verify_operation_delta (operation i) i payload oid in
  do* settings := slift project_settings in
  do* signoff := slift (fun _ => item settings "commit_signoff") in
  do (if truthy signoff then
        do* committer := _git ["show"; "-s"; "--format=%cn <%ce>"; oid] true in
        slift (fun _ => raise_if (negb (Nat.eqb (count ("Signed-off-by: " +:+ PyStr.strip committer) lines) 1))
                          (RuntimeError "receipt commit DCO does not match committer"))
      else sret tt) ;;
  sret expected.
Fixpoint exact_markers (id : string) (candidates : list string) : st repo (list string) :=
  match candidates with
  | [] => sret []
  | oid :: rest =>
      if fm OID oid then
        do* message := _git ["log"; "-1"; "--format=%B"; oid] true in
        do* others := exact_markers id rest in
        sret (if Nat.eqb (count (marker id) (splitlines message)) 1 then oid :: others else others)
      else exact_markers id rest
  end.
Definition find_receipt_commit (id : string) : st repo (option string) :=
  do* listing := _git ["log"; "--all"; "--format=%H"; "--grep"; marker id] true in
  do* exact := exact_markers id (splitlines listing) in
  match exact with
  | [] => sret None
  | [oid] => sret (Some oid)
  | _ => sraise (RuntimeError "multiple commits carry one receipt marker")
  end.

(** ** Intents *)
Definition revision_ok (payload : dict) : bool :=
  match get payload "expected_revision" with VInt z => 1 <=? z | _ => false end.
Definition lease_ok (payload : dict) : bool :=
  match get payload "lease_minutes" with VInt z => (1 <=? z) && (z <=? 1440) | _ => false end.
Definition note_ok (payload : dict) : bool :=
  match get payload "note" with VStr s => text_ok 1 4096 s | _ => false end.
Definition LEASE_KEYS : list string :=
  ["expected_revision"; "lease_minutes"; "operation"; "owner"; "project_id"; "task"].
Definition worker_ok (payload : dict) : bool :=
  negb (has payload "worker_pid")
  || match get payload "worker_pid", get payload "worker_start_time" with
     | VInt p, VInt s => (0 <? p) && (0 <=? s)
     | _, _ => false
     end.
Definition fields_ok (operation : string) (payload : dict) : bool :=
  if String.eqb operation "heartbeat" then
    keys_are payload LEASE_KEYS && is_str (get payload "owner") && lease_ok payload && revision_ok payload
  else if String.eqb operation "claim" then
    (keys_are payload LEASE_KEYS || keys_are payload (LEASE_KEYS ++ ["worker_pid"; "worker_start_time"]))
    && is_str (get payload "owner") && lease_ok payload && revision_ok payload && worker_ok payload
  else if String.eqb operation "promote" then
    keys_are payload ["expected_revision"; "note"; "operation"; "project_id"; "task"] && note_ok payload
    && revision_ok payload
  else
    keys_are payload ["changes"; "expected_revision"; "note"; "operation"; "owner"; "project_id"; "task"]
    && is_str (get payload "owner") && note_ok payload && revision_ok payload.
Definition _validated_intent (i : Intent) : res dict :=
  let mismatch := RuntimeError "receipt intent does not match canonical typed fields" in
  match JsonParse.loads (payload_json i) with
  | None => Raise (ValueError "JSONDecodeError")
  | Some (VDict payload) =>
      let canonical := PyJson.dumps (VDict payload) in
      check raise_if (negb (String.eqb (payload_json i) canonical)
                      || negb (String.eqb (Sha256.Sha256.hexdigest canonical) (input_digest i))
                      || ne (get payload "project_id") (VStr (project i)) || ne (get payload "task") (VStr (task_id i))
                      || ne (get payload "expected_revision") (VInt (expected_revision i))) mismatch ;;
      match get payload "operation" with
      | VStr operation =>
          check raise_if (PyStr.mem operation OPERATIONS && negb (fields_ok operation payload))
                  (RuntimeError ("receipt " +:+ operation +:+ " intent fields are invalid")) ;;
          check (if String.eqb operation "update" then
                   match validate_update_changes (get payload "changes") with
                   | Raise e => if is_ValueError e
                                then Raise (RuntimeError "receipt update intent fields are invalid") else Raise e
                   | Ok _ => Ok tt
                   end
                 else Ok tt) ;;
          check raise_if (negb (PyStr.mem operation OPERATIONS)) (RuntimeError "receipt operation is unsupported") ;;
          Ok payload
      | _ => Raise (RuntimeError "receipt operation is unsupported")
      end
  | Some _ => Raise mismatch
  end.
(** The arguments of the transition an intent asks for. *)
Definition arguments (i : Intent) (payload : dict) (operation : string) : res Namespace :=
  let common := [("task", VStr (task_id i)); ("expected_revision", VInt (expected_revision i));
                 ("_receipt_id", VStr (receipt_id i))] in
  if PyStr.mem operation ["heartbeat"; "claim"] then
    let* owner := item payload "owner" in
    let* minutes := item payload "lease_minutes" in
    Ok (common ++ [("owner", owner); ("lease_minutes", minutes); ("worker_pid", get payload "worker_pid");
                   ("worker_start_time", get payload "worker_start_time")])
  else if String.eqb operation "promote" then
    let* note := item payload "note" in Ok (common ++ [("note", note)])
  else
    let* changes := item payload "changes" in
    let* owner := item payload "owner" in
    let* status := vget changes "status" in
    let* priority := vget changes "priority" in
    let* summary := vget changes "summary" in
    let* next_action := vget changes "next_action" in
    let* note := item payload "note" in
    Ok (common ++ [("owner", owner); ("status", status); ("priority", priority); ("summary", summary);
                   ("next_action", next_action); ("note", note)]).

(** ** The worker *)
(** The repository, the store, the readings of the clock and the identifiers to
    come, and - a record of history no code reads - the receipts handed to
    [core.mutate] so far. *)
Record World : Type := MkWorld {
  w_repo : repo; w_store : Store; w_clock : list Z; w_ids : list string; w_executed : list string }.
Definition on_repo {A} (m : st repo A) : st World A := fun w =>
  let '(r, a) := m (w_repo w) in (MkWorld r (w_store w) (w_clock w) (w_ids w) (w_executed w), a).
Definition on_store {A} (m : st Store A) : st World A := fun w =>
  let '(s, a) := m (w_store w) in (MkWorld (w_repo w) s (w_clock w) (w_ids w) (w_executed w), a).
Definition tick : st World Z := fun w =>
  match w_clock w with
  | [] => (w, Ok 0)
  | n :: l => (MkWorld (w_repo w) (w_store w) l (w_ids w) (w_executed w), Ok n)
  end.
Definition uuid : st World string := fun w =>
  match w_ids w with
  | [] => (w, Ok "")
  | i :: l => (MkWorld (w_repo w) (w_store w) (w_clock w) l (w_executed w), Ok i)
  end.
Definition executed (id : string) : st World unit :=
  smodify (fun w => MkWorld (w_repo w) (w_store w) (w_clock w) (w_ids w) (w_executed w ++ [id])).
(** [try: m  except Exception as error: handle(error)] *)
Definition attempt {S A} (m : st S A) : st S (res A) := fun s => let '(s', r) := m s in (s', Ok r).
Definition catch {S A} (m : st S A) (handle : exn -> st S A) : st S A :=
  do* r := attempt m in match r with Ok a => sret a | Raise e => handle e end.
Section service.
  Context (pid : string).
Definition _require_bound_store : st repo unit :=
  do assert_project_binding ;;
  do* selection := slift backend_selection in
  do* backend := slift (fun _ => item selection "backend") in
  do slift (fun _ => raise_if (ne backend (VStr "git")) (RuntimeError "fast receipts require Git authority")) ;;
  do* binding := slift project_binding in
  do* project := slift (fun _ => item binding "project_id") in
  do* placed := slift store_in_place in
  slift (fun _ => raise_if (ne (VStr pid) project || negb placed)
                    (RuntimeError "fast receipt store does not match the bound project")).
Definition REJECTABLE : list string :=
  ["stale revision"; "is owned by"; "heartbeat requires an active task"; "is not planned"; "is not open";
   "unfinished dependencies"; "has active claim metadata"; "owner already holds"; "role admission denied";
   "claim worker identity is not a live matching process"].
(** Verify the commit and record it. *)
Definition settle_commit (i : Intent) (oid : string) : st World Intent :=
  do* revision := on_repo (verify_local_commit i oid) in
  on_store (record_local_commit pid (receipt_id i) oid revision).
Definition execute (i : Intent) : st World string :=
  do* payload := slift (fun _ => _validated_intent i) in
  do* operation := slift (fun _ => let* v := item payload "operation" in Ok (str v)) in
  do* args := slift (fun _ => arguments i payload operation) in
  do executed (receipt_id i) ;;
  on_repo (core_mutate args operation).
Definition settle_error (i : Intent) (error : exn) : st World Intent :=
  do* found := attempt (
    do* recovered := on_repo (find_receipt_commit (receipt_id i)) in
    match recovered with
    | Some oid => do* row := settle_commit i oid in sret (Some row)
    | None => sret None
    end) in
  match found with
  | Raise _ => on_store (record_ambiguity pid (receipt_id i) "COMMIT_EVIDENCE_UNKNOWN")
  | Ok (Some row) => sret row
  | Ok None =>
      if existsb (fun text => PyStr.contains text (exn_msg error)) REJECTABLE
      then on_store (record_rejection pid (receipt_id i) "ADMISSION_REJECTED")
      else on_store (record_ambiguity pid (receipt_id i) "MUTATION_OUTCOME_UNKNOWN")
  end.
Definition process_one : st World (option Intent) :=
  do on_repo _require_bound_store ;;
  do* now := tick in
  do* intent := on_store (claim_next pid now) in
  match intent with
  | None => sret None
  | Some i =>
      do* row := catch (do* oid := execute i in settle_commit i oid) (settle_error i) in
      sret (Some row)
  end.
Definition recover_one (i : Intent) : st World Intent :=
  do* found := attempt (
    do* oid := on_repo (find_receipt_commit (receipt_id i)) in
    match oid with
    | Some oid => do* row := settle_commit i oid in sret (Some row)
    | None => sret None
    end) in
  match found with
  | Raise _ => on_store (record_ambiguity pid (receipt_id i) "COMMIT_EVIDENCE_UNKNOWN")
  | Ok (Some row) => sret row
  | Ok None => on_store (record_ambiguity pid (receipt_id i) "INTERRUPTED_BEFORE_COMMIT")
  end.
Fixpoint recover_all (l : list Intent) : st World (list Intent) :=
  match l with
  | [] => sret []
  | i :: l' => do* row := recover_one i in do* rows := recover_all l' in sret (row :: rows)
  end.
Definition recover_running : st World (list Intent) :=
  do on_repo _require_bound_store ;;
  do* interrupted := on_store (running pid) in
  recover_all interrupted.
Fixpoint process_batch (limit : nat) : st World (list Intent) :=
  match limit with
  | O => sret []
  | S limit' =>
      do* row := process_one in
      match row with
      | None => sret []
      | Some row => do* rows := process_batch limit' in sret (row :: rows)
      end
  end.
(** [lock]: acquiring the service lock *)
Definition process_pending (lock : st World unit) (limit : Z) : st World (list Intent) :=
  do slift (fun _ => raise_if (negb ((1 <=? limit) && (limit <=? 1024))) (ValueError "invalid fast receipt batch limit")) ;;
  do lock ;;
  do* outcomes := recover_running in
  do* rows := process_batch (Z.to_nat limit) in
  sret (outcomes ++ rows).

(** ** Publication *)
Definition _is_ancestor (older newer : string) : st repo bool :=
  do* r := core_run ["git"; "-C"; ROOT; "merge-base"; "--is-ancestor"; older; newer] false in sret (r.1 =? 0).
Definition _observe_remote_main : st repo (option string) :=
  do* observed := core_run ["git"; "-C"; ROOT; "ls-remote"; "--exit-code"; "origin"; "refs/heads/main"] false in
  if negb (observed.1 =? 0) then sret None
  else match splitlines observed.2 with
  | [line] =>
      match PyStr.words line with
      | [oid; name] =>
          if negb (String.eqb name "refs/heads/main") || negb (fm OID oid) then sret None
          else
            let commit := oid +:+ "^{commit}" in
            do* present := core_run ["git"; "-C"; ROOT; "cat-file"; "-e"; commit] false in
            if present.1 =? 0 then sret (Some oid)
            else
              do core_run ["git"; "-C"; ROOT; "fetch"; "--no-tags"; "origin"; oid] false ;;
              do* present := core_run ["git"; "-C"; ROOT; "cat-file"; "-e"; commit] false in
              sret (if present.1 =? 0 then Some oid else None)
      | _ => sret None
      end
  | _ => sret None
  end.
Definition commit_text (i : Intent) : string := match commit_oid i with Some o => o | None => "None" end.
(** Some pending commit of the local head is not on the remote yet. *)
Fixpoint needs_push (pending : list Intent) (local_head remote_head : string) : st repo bool :=
  match pending with
  | [] => sret false
  | i :: rest =>
      do* here := _is_ancestor (commit_text i) local_head in
      if here : bool then
        do* there := _is_ancestor (commit_text i) remote_head in
        if there : bool then needs_push rest local_head remote_head else sret true
      else needs_push rest local_head remote_head
  end.
Definition push_command (local_head remote_head : string) : list string :=
  ["git"; "-C"; ROOT; "push"; "--force-with-lease=refs/heads/main:" +:+ remote_head; "origin";
   local_head +:+ ":refs/heads/main"].
(** What was observed after a push, recorded under its lease. *)
Definition _record_admitted_push_observation (job lease candidate unknown_code : string)
    : st World (option string) :=
  do* observed := on_repo _observe_remote_main in
  do* now := tick in
  do match observed with
     | None => on_store (finish_publication pid now job lease PUBLICATION_AMBIGUOUS None (Some unknown_code))
     | Some oid =>
         if String.eqb oid candidate then
           on_store (finish_publication pid now job lease PUBLICATION_PUBLISHED (Some oid) None)
         else
           do* advanced := on_repo (_is_ancestor candidate oid) in
           on_store (finish_publication pid now job lease PUBLICATION_REJECTED (Some oid)
                       (Some (if advanced : bool then "REMOTE_ADVANCED" else "REMOTE_CHANGED")))
     end ;;
  sret observed.
Definition _publish_if_needed (pending : list Intent) (local_head remote_head : string) : st World (option string) :=
  do* push := on_repo (needs_push pending local_head remote_head) in
  do* forward := (if push : bool then on_repo (_is_ancestor remote_head local_head) else sret false) in
  if negb forward then sret (Some remote_head)
  else
    do on_repo assert_project_binding ;;
    do* now := tick in
    do* fresh := uuid in
    do* job := on_store (admit_publication pid now fresh ("fast-publisher:" +:+ local_head) local_head remote_head) in
    do* job := (if in_publication PUBLICATION_AMBIGUOUS job || in_publication PUBLICATION_PUBLISHING job then
                  do* now := tick in
                  catch (on_store (recover_publication pid now (job_id job) remote_head))
                    (fun e => if is_RuntimeError e && PyStr.contains "still active" (exn_msg e) then sret job
                              else sraise e)
                else sret job) in
    if negb (in_publication PUBLICATION_QUEUED job) then sret (Some remote_head)
    else
      do* lease := uuid in
      do* now := tick in
      do* claimed := on_store (claim_publication pid now (job_id job) lease) in
      match claimed with
      | None => sret (Some remote_head)
      | Some _ =>
          do catch (do on_repo (core_run (push_command local_head remote_head) false) ;; sret tt)
               (fun e => do _record_admitted_push_observation (job_id job) lease local_head "PUSH_UNKNOWN" ;;
                         sraise e) ;;
          _record_admitted_push_observation (job_id job) lease local_head "REMOTE_UNKNOWN"
      end.
Definition tolerated (e : exn) : bool :=
  is_RuntimeError e && existsb (fun t => PyStr.contains t (exn_msg e))
                         ["still active"; "changed while recovering"; "changed while resolving"].
Fixpoint resolve_jobs (existing : list Job) (local_head remote_head : string) : st World unit :=
  match existing with
  | [] => sret tt
  | j :: rest =>
      do catch
           (if in_publication PUBLICATION_QUEUED j then
              if String.eqb (candidate_oid j) local_head then sret tt
              else do* now := tick in
                   do on_store (resolve_superseded_publication pid now (job_id j) remote_head) ;; sret tt
            else do* now := tick in
                 do on_store (recover_publication pid now (job_id j) remote_head) ;; sret tt)
           (fun e => if tolerated e then sret tt else sraise e) ;;
      resolve_jobs rest local_head remote_head
  end.
Definition _recover_outstanding_publications (local_head remote_head : string) : st World unit :=
  do* now := tick in
  do* existing := on_store (recoverable_publications pid now) in
  resolve_jobs existing local_head remote_head.
Fixpoint fail_all (pending : list Intent) (code : string) : st World (list Intent) :=
  match pending with
  | [] => sret []
  | i :: rest => do* row := on_store (record_publication_failure pid (receipt_id i) code) in
                 do* rows := fail_all rest code in sret (row :: rows)
  end.
Fixpoint _finish_publications (pending : list Intent) (local_head remote_head : string) : st World (list Intent) :=
  match pending with
  | [] => sret []
  | i :: rest =>
      do* here := on_repo (_is_ancestor (commit_text i) local_head) in
      do* row := (if negb here then on_store (record_publication_failure pid (receipt_id i) "LOCAL_BRANCH_MOVED")
                  else
                    do* there := on_repo (_is_ancestor (commit_text i) remote_head) in
                    if there : bool then
                      do* now := tick in
                      on_store (record_remote_observation pid now (receipt_id i) remote_head)
                    else on_store (record_publication_failure pid (receipt_id i) "REMOTE_NOT_CONTAINING_COMMIT")) in
      do* rows := _finish_publications rest local_head remote_head in
      sret (row :: rows)
  end.
Definition _publish_selected (pending : list Intent) : st World (list Intent) :=
  do* enabled := on_repo (slift replication_enabled) in
  if negb enabled then fail_all pending "REPLICATION_DISABLED"
  else
    do* branch := on_repo (_git ["symbolic-ref"; "--short"; "-q"; "HEAD"] true) in
    if negb (String.eqb (PyStr.strip branch) "main") then fail_all pending "STATE_BRANCH_NOT_MAIN"
    else
      do* head := on_repo (_git ["rev-parse"; "HEAD"] true) in
      let local_head := PyStr.strip head in
      do slift (fun _ => raise_if (negb (fm OID local_head)) (RuntimeError "cannot identify local publication head")) ;;
      do* remote := on_repo _observe_remote_main in
      match remote with
      | None => fail_all pending "REMOTE_UNKNOWN"
      | Some remote_head =>
          do _recover_outstanding_publications local_head remote_head ;;
          do* remote := _publish_if_needed pending local_head remote_head in
          match remote with
          | None => fail_all pending "REMOTE_UNKNOWN"
          | Some remote_head => _finish_publications pending local_head remote_head
          end
      end.
Fixpoint timed_out (pending : list Intent) : st World (list Intent) :=
  match pending with
  | [] => sret []
  | i :: rest =>
      do* current := on_store (FastReceipts.read pid (receipt_id i)) in
      do* row := match current with
                 | None => sraise (RuntimeError "pending receipt disappeared during publication")
                 | Some j =>
                     if bool_decide (phase j = PHASE_REMOTE) then sret j
                     else if bool_decide (phase j = PHASE_LOCAL)
                     then on_store (record_publication_failure pid (receipt_id i) "PUBLICATION_TIMEOUT")
                     else sraise (RuntimeError "pending receipt entered an invalid phase")
                 end in
      do* rows := timed_out rest in
      sret (row :: rows)
  end.
Definition publish_pending : st World (list Intent) :=
  do on_repo _require_bound_store ;;
  do* pending := on_store (pending_publication pid) in
  catch (_publish_selected pending)
    (fun e => match e with SubprocessTimeoutError _ => timed_out pending | _ => sraise e end).
End service.
End worker.
End ReceiptWorker.
