(* ===== verification/ReceiptWorkerLaws.v ===== *)
(** * Laws of the receipt worker

    The worker of [ReceiptWorker] hands a receipt to the coordinator at most
    once, whatever is interrupted and whoever else uses the store; it settles
    every receipt it claims; and, where the queries of Git leave the repository
    as it is, it accepts a commit only for the change the receipt asks for. *)
From S2P Require Import Prelude PyStr Regex PyVal PyTime Sha256 PyJson JsonParse Sessions Execution SqliteStore.
From S2P Require Import FastReceipts ReceiptLaws ReceiptWorker.

Module ReceiptWorkerLaws.
Import Py FastReceipts ReceiptLaws ReceiptWorker.

(** ** Steps of a world *)
Section steps.
  Context `{C : Core} (pid : string).
(** A world and the receipts claimed for execution but not yet executed. *)
Definition Config : Type := World * list string.
Definition with_store (w : World) (s : Store) : World :=
  MkWorld (w_repo w) s (w_clock w) (w_ids w) (w_executed w).
Definition with_executed (w : World) (l : list string) : World :=
  MkWorld (w_repo w) (w_store w) (w_clock w) (w_ids w) l.
(** What may happen, in any order: a worker claims a receipt, executes one it
    claimed, or is interrupted and forgets what it claimed; a client or the
    worker operates on the store; and the repository, the clock, the
    identifiers and the answers of the path checks are whatever they are. *)
Inductive worker_step : Config -> Config -> Prop :=
  | worker_claims w l now s i : claim_next pid now (w_store w) = (s, Ok (Some i)) ->
      worker_step (w, l) (with_store w s, receipt_id i :: l)
  | worker_executes w l id : worker_step (w, id :: l) (with_executed w (w_executed w ++ [id]), l)
  | worker_forgets w l id : worker_step (w, id :: l) (w, l)
  | worker_switches w l l' : Permutation l l' -> worker_step (w, l) (w, l')
  | store_operates w l o : worker_step (w, l) (with_store w (perform pid o (w_store w)), l)
  | world_changes w l w' : tables (w_store w') = tables (w_store w) -> w_executed w' = w_executed w ->
      worker_step (w, l) (w', l).
Definition start (w : World) : Prop := tables (w_store w) = empty /\ w_executed w = [].

(** Every receipt claimed or executed has left the queue, once. *)
Definition taken (id : string) (t : Tables) : Prop :=
  exists k i, intents t !! k = Some i /\ receipt_id i = id /\ phase i <> PHASE_QUEUED.
Definition taken_once (c : Config) : Prop :=
  sound (tables (w_store c.1)) /\ NoDup (w_executed c.1 ++ c.2) /\
  Forall (fun id => taken id (tables (w_store c.1))) (w_executed c.1 ++ c.2).
Lemma taken_change {Q : Job -> Job -> Prop} id t t' :
  sound t -> change (Q := Q) t t' -> taken id t -> taken id t'.
Proof.
  intros Hs Hc (k & i & Hi & Hid & Hp). destruct (ch_intents _ _ Hc Hs k i Hi) as (j & Hj & [I P _ _]).
  exists k, j. unfold identity in I. injection I as I _ _ _ _ _ _ _ _. split_and!; [done | congruence|].
  intros Hq. rewrite Hq in P. by destruct (phase i).
Qed.
Lemma first_by_elem {A} (before : A -> A -> bool) l x : first_by before l = Some x -> x ∈ l.
Proof.
  revert x. induction l as [|y l IH]; cbn; intros x; [done|]. destruct (first_by before l) as [z|].
  - destruct (before z y); intros [= <-]; [by right; apply IH | by left].
  - intros [= <-]. by left.
Qed.
Lemma receipt_row_elem t i : sound t -> i ∈ intents t -> project i = pid -> receipt_row pid (receipt_id i) t = Some i.
Proof.
  intros Hs Hi Hp. assert (is_receipt pid (receipt_id i) i = true) as Hr by by apply is_receipt_spec.
  destruct (receipt_row pid (receipt_id i) t) as [j|] eqn:E.
  - f_equal. symmetry. by eapply receipt_row_unique.
  - by rewrite (find_None_elem _ _ _ E Hi) in Hr.
Qed.
Lemma receipt_row_update t id p f : (forall i, is_receipt pid id (f i) = is_receipt pid id i) ->
  receipt_row pid id (set_intents t (update_where p f (intents t))) =
  (fun i => if p i then f i else i) <$> receipt_row pid id t.
Proof. intros Hf. unfold receipt_row. cbn. by rewrite find_update_where by by intros. Qed.
(** The oldest queued receipt of the project. *)
Definition next_queued (t : Tables) : option Intent :=
  first_by older (List.filter (in_phase pid PHASE_QUEUED) (intents t)).
Lemma next_queued_elem t q : next_queued t = Some q -> q ∈ intents t /\ project q = pid /\ phase q = PHASE_QUEUED.
Proof.
  intros [H1 H2]%first_by_elem%list_elem_of_In%filter_In. unfold in_phase, mine in H2.
  rewrite andb_true_iff, String.eqb_eq, bool_decide_eq_true in H2. by rewrite list_elem_of_In.
Qed.
Lemma claim_next_run now t q : sound t -> next_queued t = Some q ->
  let t' := set_intents t (update_where
              (fun j => is_receipt pid (receipt_id q) j && bool_decide (phase j = PHASE_QUEUED))
              (start_running now) (intents t)) in
  receipt_row pid (receipt_id q) t' = Some (start_running now q) /\
  claim_next pid now (MkStore t []) = (MkStore t' [], Ok (Some (start_running now q))).
Proof.
  intros Hs Hq t'. pose proof (next_queued_elem _ _ Hq) as (Hin & Hp & Hph).
  assert (receipt_row pid (receipt_id q) t' = Some (start_running now q)) as Hr.
  { unfold t'. rewrite receipt_row_update by done. rewrite receipt_row_elem by done. cbn.
    by rewrite (proj2 (is_receipt_spec _ _ _) (conj Hp eq_refl)), bool_decide_true. }
  split; [done|]. apply transaction_run. unfold sbind at 1, sget. unfold next_queued in Hq. rewrite Hq.
  unfold sbind at 1, sput. rewrite (lift_run _ _ _ (start_running now q)); [done|]. fold t'. by rewrite Hr.
Qed.
Lemma claim_next_Ok now s s' i : sound (tables s) -> claim_next pid now s = (s', Ok (Some i)) ->
  exists q, next_queued (tables s) = Some q /\ i = start_running now q /\
    receipt_row pid (receipt_id i) (tables s') = Some i.
Proof.
  intros Hs E%store_transaction_Ok. destruct (next_queued (tables s)) as [q|] eqn:Hq.
  - destruct (claim_next_run now _ q Hs Hq) as [Hr E2]. apply store_transaction_Ok in E2. cbn [tables] in E2.
    rewrite E in E2. injection E2 as Et ->. exists q. by rewrite Et.
  - unfold sbind at 1, sget in E. unfold next_queued in Hq. rewrite Hq in E. by apply sret_Ok_inv in E as [_ [=]].
Qed.
Lemma taken_row t i id : receipt_row pid id t = Some i -> phase i <> PHASE_QUEUED -> taken id t.
Proof. intros ([k Hk]%list_elem_of_lookup_1 & _ & Hid)%receipt_row_spec Hp. by exists k, i. Qed.
Lemma claimed_untaken t q : sound t -> next_queued t = Some q -> ~ taken (receipt_id q) t.
Proof.
  intros Hs (Hin & _ & Hp)%next_queued_elem (k & i & Hi%list_elem_of_lookup_2 & Hid & Hn).
  assert (i = q) as ->; [|done]. eapply NoDup_map_inj; [apply (so_ids _ Hs) | done | done | done].
Qed.
Lemma taken_once_step c c' : worker_step c c' -> taken_once c -> taken_once c'.
Proof.
  intros [w l now s i E | w l id | w l id | w l l' Hl | w l o | w l w' Ht He] (Hs & Hn & Ha);
    unfold taken_once in *; cbn in *.
  - pose proof (claim_next_sound (Q := any) pid now (w_store w)) as Hc. rewrite E in Hc. cbn in Hc.
    apply claim_next_Ok in E as (q & Hq & -> & Hr); [|done].
    assert (~ receipt_id q ∈ w_executed w ++ l) as Hnew.
    { intros Hin. apply (claimed_untaken _ _ Hs Hq). rewrite Forall_forall in Ha. by apply Ha. }
    split; [by apply (ch_sound _ _ Hc)|]. rewrite (Permutation_app_comm _ (_ :: _)). cbn.
    rewrite (Permutation_app_comm l). split; [by constructor|]. constructor.
    + by apply (taken_row _ _ _ Hr).
    + eapply Forall_impl; [exact Ha|]. intros id. by apply (taken_change _ _ _ Hs Hc).
  - by rewrite <- app_assoc.
  - rewrite (Permutation_app_comm _ (_ :: _)) in Hn, Ha. cbn in Hn, Ha. rewrite (Permutation_app_comm l) in Hn, Ha.
    apply NoDup_cons in Hn as [_ Hn]. by apply Forall_cons in Ha as [_ Ha].
  - by rewrite <- Hl.
  - pose proof (perform_change (Q := any) pid o (w_store w) ltac:(by destruct o)) as Hc.
    split; [by apply (ch_sound _ _ Hc)|]. split; [done|].
    eapply Forall_impl; [exact Ha|]. intros id. by apply (taken_change _ _ _ Hs Hc).
  - by rewrite Ht, He.
Qed.

(** C4: A receipt is executed at most once.  From an empty store, in any
    interleaving of workers that claim receipts and hand them to the
    coordinator, interruptions of a worker after any of its steps, every
    operation of clients and publishers on the store, restarts, and changes of
    the repository, no receipt is handed to the coordinator twice. *)
Theorem executed_at_most_once w c : start w -> rtc worker_step (w, []) c -> NoDup (w_executed c.1).
Proof.
  intros [Ht He] Hc. assert (taken_once c) as (_ & Hn & _).
  - refine (rtc_ind_r _ _ _ _ _ Hc); [|intros ? ? _; apply taken_once_step].
    split_and!; cbn; rewrite ?Ht, ?He; [apply empty_sound | by constructor | by constructor].
  - by apply NoDup_app in Hn as [Hn _].
Qed.

(** ** The operations of the worker are such steps *)
Definition stepwise {A} (m : st World A) : Prop := forall w l, rtc worker_step (w, l) (fst (m w), l).
Lemma stepwise_change {A} (m : st World A) :
  (forall w, tables (w_store (fst (m w))) = tables (w_store w) /\ w_executed (fst (m w)) = w_executed w) -> stepwise m.
Proof. intros Hm w l. apply rtc_once, world_changes; apply Hm. Qed.
Lemma stepwise_sret {A} (a : A) : stepwise (sret a).
Proof. by apply stepwise_change. Qed.
Lemma stepwise_sraise {A} e : stepwise (@sraise World A e).
Proof. by apply stepwise_change. Qed.
Lemma stepwise_lift {A} (f : World -> res A) : stepwise (slift f).
Proof. by apply stepwise_change. Qed.
Lemma stepwise_repo {A} (m : st repo A) : stepwise (on_repo m).
Proof. apply stepwise_change. intros w. unfold on_repo. by destruct (m (w_repo w)). Qed.
Lemma stepwise_tick : stepwise tick.
Proof. apply stepwise_change. intros w. unfold tick. by destruct (w_clock w). Qed.
Lemma stepwise_uuid : stepwise uuid.
Proof. apply stepwise_change. intros w. unfold uuid. by destruct (w_ids w). Qed.
Lemma stepwise_quiet {A} (m : st Store A) : quiet m -> stepwise (on_store m).
Proof. intros Hm. apply stepwise_change. intros w. unfold on_store. pose proof (Hm (w_store w)). by destruct (m (w_store w)). Qed.
Lemma stepwise_perform {A} o (m : st Store A) : (forall s, fst (m s) = perform pid o s) -> stepwise (on_store m).
Proof.
  intros Hm w l. unfold on_store. pose proof (Hm (w_store w)) as E. destruct (m (w_store w)) as [s r]. cbn in *.
  rewrite E. apply rtc_once, store_operates.
Qed.
Lemma stepwise_bind {A B} (m : st World A) (f : A -> st World B) :
  stepwise m -> (forall a, stepwise (f a)) -> stepwise (sbind m f).
Proof.
  intros Hm Hf w l. unfold sbind. specialize (Hm w l). destruct (m w) as [w' [a|e]]; cbn in *; [|done].
  etrans; [exact Hm | apply Hf].
Qed.
Lemma stepwise_attempt {A} (m : st World A) : stepwise m -> stepwise (attempt m).
Proof. intros Hm w l. unfold attempt. specialize (Hm w l). by destruct (m w). Qed.
Lemma stepwise_catch {A} (m : st World A) h : stepwise m -> (forall e, stepwise (h e)) -> stepwise (catch m h).
Proof. intros Hm Hh. apply stepwise_bind; [by apply stepwise_attempt|]. intros [a|e]; [apply stepwise_sret | apply Hh]. Qed.
Lemma stepwise_if {A} (b : bool) (m m' : st World A) : stepwise m -> stepwise m' -> stepwise (if b then m else m').
Proof. by destruct b. Qed.

Lemma stepwise_local id oid z : stepwise (on_store (record_local_commit pid id oid z)).
Proof. by apply (stepwise_perform (LocalCommit id oid z)). Qed.
Lemma stepwise_ambiguity id code : stepwise (on_store (record_ambiguity pid id code)).
Proof. by apply (stepwise_perform (Ambiguity id code)). Qed.
Lemma stepwise_rejection id code : stepwise (on_store (record_rejection pid id code)).
Proof. by apply (stepwise_perform (Rejection id code)). Qed.
Lemma stepwise_failure id code : stepwise (on_store (record_publication_failure pid id code)).
Proof. by apply (stepwise_perform (PublicationFailure id code)). Qed.
Lemma stepwise_remote now id oid : stepwise (on_store (record_remote_observation pid now id oid)).
Proof. by apply (stepwise_perform (RemoteObservation now id oid)). Qed.
Lemma stepwise_admit now fresh key c r : stepwise (on_store (admit_publication pid now fresh key c r)).
Proof. by apply (stepwise_perform (AdmitPublication now fresh key c r)). Qed.
Lemma stepwise_resolve now id oid : stepwise (on_store (resolve_superseded_publication pid now id oid)).
Proof. by apply (stepwise_perform (ResolveSuperseded now id oid)). Qed.
Lemma stepwise_lease now id lease : stepwise (on_store (claim_publication pid now id lease)).
Proof. by apply (stepwise_perform (ClaimPublication now id lease)). Qed.
Lemma stepwise_finish now id lease p o e : stepwise (on_store (finish_publication pid now id lease p o e)).
Proof. by apply (stepwise_perform (FinishPublication now id lease p o e)). Qed.
Lemma stepwise_recover now id oid : stepwise (on_store (recover_publication pid now id oid)).
Proof. by apply (stepwise_perform (RecoverPublication now id oid)). Qed.
Lemma stepwise_query {A} (f : Tables -> A) : stepwise (on_store (query f)).
Proof. apply stepwise_quiet, query_quiet. Qed.
Lemma stepwise_read id : stepwise (on_store (FastReceipts.read pid id)).
Proof. apply stepwise_quiet, read_quiet. Qed.
End steps.
Create HintDb stepwise.
#[export] Hint Resolve stepwise_sret stepwise_sraise stepwise_lift stepwise_repo stepwise_tick stepwise_uuid
  stepwise_attempt stepwise_local stepwise_ambiguity stepwise_rejection stepwise_failure stepwise_remote stepwise_admit
  stepwise_resolve stepwise_lease stepwise_finish stepwise_recover stepwise_query stepwise_read : stepwise.
(** Walk through an operation of the worker, one computation at a time. *)
Ltac walk := intros; repeat first
  [ progress eauto 2 with stepwise
  | apply stepwise_bind; [|intros ?]
  | apply stepwise_attempt
  | apply stepwise_catch; [|intros ?]
  | match goal with |- stepwise _ (match ?x with _ => _ end) => destruct x end ].

Section worker.
  Context `{C : Core} (pid : string).
Lemma settle_commit_steps i oid : stepwise pid (settle_commit pid i oid).
Proof. unfold settle_commit. walk. Qed.
#[local] Hint Resolve settle_commit_steps : stepwise.
Lemma settle_error_steps i e : stepwise pid (settle_error pid i e).
Proof. unfold settle_error. walk. Qed.
Lemma recover_one_steps i : stepwise pid (recover_one pid i).
Proof. unfold recover_one. walk. Qed.
#[local] Hint Resolve settle_error_steps recover_one_steps : stepwise.
Lemma recover_all_steps l : stepwise pid (recover_all pid l).
Proof. induction l; cbn; walk. Qed.
#[local] Hint Resolve recover_all_steps : stepwise.
Lemma recover_running_steps : stepwise pid (recover_running pid).
Proof. unfold recover_running, running. walk. Qed.
(** A claimed receipt is executed at most once before the worker goes on. *)
Lemma execute_steps i w l :
  rtc (worker_step pid) (w, receipt_id i :: l) (fst (execute i w), l).
Proof.
  unfold execute. unfold sbind at 1, slift. destruct (_validated_intent i) as [payload|e]; [|apply rtc_once, worker_forgets].
  unfold sbind at 1. destruct (let* v := item payload "operation" in Ok (str v)) as [operation|e];
    [|apply rtc_once, worker_forgets].
  unfold sbind at 1. destruct (arguments i payload operation) as [args|e]; [|apply rtc_once, worker_forgets].
  eapply rtc_l; [apply worker_executes|]. apply (stepwise_repo pid (core_mutate args operation)).
Qed.
Lemma process_one_steps : stepwise pid (process_one pid).
Proof.
  unfold process_one. apply stepwise_bind; [walk|]. intros _. apply stepwise_bind; [walk|]. intros now w l.
  unfold sbind at 1, on_store. destruct (claim_next pid now (w_store w)) as [s r] eqn:E.
  destruct r as [[i|]|e].
  - eapply rtc_l; [apply (worker_claims _ _ _ _ _ _ E)|]. unfold sbind at 1, catch, sbind at 1, attempt.
    unfold sbind at 1.
    pose proof (execute_steps i (with_store w s) l) as H. change (MkWorld _ s _ _ _) with (with_store w s).
    destruct (execute i (with_store w s)) as [w1 [oid|e]]; cbn in H.
    + etrans; [exact H|]. refine (stepwise_bind pid (do* r := attempt (settle_commit pid i oid) in
        match r with Ok a => sret a | Raise e => settle_error pid i e end) (fun row => sret (Some row)) _ _ w1 l); walk.
    + etrans; [exact H|]. refine (stepwise_bind pid (settle_error pid i e) (fun row => sret (Some row)) _ _ w1 l); walk.
  - apply rtc_once. pose proof (store_operates pid w l (ClaimNext now)) as H. cbn in H. by rewrite E in H.
  - apply rtc_once. pose proof (store_operates pid w l (ClaimNext now)) as H. cbn in H. by rewrite E in H.
Qed.
#[local] Hint Resolve recover_running_steps process_one_steps : stepwise.
Lemma process_batch_steps limit : stepwise pid (process_batch pid limit).
Proof. induction limit; cbn; walk. Qed.
#[local] Hint Resolve process_batch_steps : stepwise.
Lemma record_push_steps job lease candidate code :
  stepwise pid (_record_admitted_push_observation pid job lease candidate code).
Proof. unfold _record_admitted_push_observation. walk. Qed.
#[local] Hint Resolve record_push_steps : stepwise.
Lemma publish_if_needed_steps pending here there : stepwise pid (_publish_if_needed pid pending here there).
Proof. unfold _publish_if_needed. walk. Qed.
Lemma resolve_jobs_steps l here there : stepwise pid (resolve_jobs pid l here there).
Proof. induction l; cbn; walk. Qed.
#[local] Hint Resolve publish_if_needed_steps resolve_jobs_steps : stepwise.
Lemma recover_outstanding_steps here there : stepwise pid (_recover_outstanding_publications pid here there).
Proof. unfold _recover_outstanding_publications, recoverable_publications. walk. Qed.
Lemma fail_all_steps l code : stepwise pid (fail_all pid l code).
Proof. induction l; cbn; walk. Qed.
Lemma finish_publications_steps l here there : stepwise pid (_finish_publications pid l here there).
Proof. induction l; cbn; walk. Qed.
Lemma timed_out_steps l : stepwise pid (timed_out pid l).
Proof. induction l; cbn; walk. Qed.
#[local] Hint Resolve recover_outstanding_steps fail_all_steps finish_publications_steps timed_out_steps : stepwise.
Lemma publish_selected_steps l : stepwise pid (_publish_selected pid l).
Proof. unfold _publish_selected. walk. Qed.
#[local] Hint Resolve publish_selected_steps : stepwise.

(** The service only takes such steps.  Every run of the executor (recovery
    of interrupted receipts, then a batch) and of the publisher, with every
    answer of Git and of the coordinator and whether it returns or raises, is a
    sequence of the steps of [worker_step] that leaves no claim behind. *)
Theorem service_takes_steps lock limit w l : stepwise pid lock ->
  rtc (worker_step pid) (w, l) (fst (process_pending pid lock limit w), l) /\
  rtc (worker_step pid) (w, l) (fst (publish_pending pid w), l).
Proof.
  intros Hlock. split.
  - revert w l. change (stepwise pid (process_pending pid lock limit)). unfold process_pending. walk.
  - revert w l. change (stepwise pid (publish_pending pid)). unfold publish_pending, pending_publication. walk.
Qed.
End worker.

(** ** Settling a receipt *)
Section settling.
  Context `{C : Core} (pid : string).
(** The receipt [i] is claimed and the path checks pass. *)
Record claimed (i : Intent) (s : Store) : Prop := Claimed {
  cl_sound : sound (tables s);
  cl_answers : answers s = [];
  cl_row : receipt_row pid (receipt_id i) (tables s) = Some i;
  cl_running : phase i = PHASE_RUNNING;
  cl_id : fm RECEIPT (receipt_id i) = true;
}.
Definition put_outcome (i : Intent) (row : Intent) (s : Store) : Store :=
  MkStore (set_intents (tables s) (update_where
    (fun j => is_receipt pid (receipt_id i) j && bool_decide (phase j = PHASE_RUNNING)) (fun _ => row)
    (intents (tables s)))) [].
Lemma update_where_ext {A} (p : A -> bool) f g (l : list A) :
  (forall x, x ∈ l -> p x = true -> f x = g x) -> update_where p f l = update_where p g l.
Proof.
  intros H. apply map_ext_in. intros x Hx%list_elem_of_In. destruct (p x) eqn:E; auto.
Qed.
Lemma put_outcome_row i row s : claimed i s -> is_receipt pid (receipt_id i) row = true ->
  receipt_row pid (receipt_id i) (tables (put_outcome i row s)) = Some row.
Proof.
  intros [_ _ Hr Hp _] Hrow. unfold receipt_row, put_outcome. cbn. pose proof (receipt_row_spec _ _ _ _ Hr) as (_ & Hi).
  rewrite find_update_where.
  - unfold receipt_row in Hr. rewrite Hr. cbn. by rewrite (proj2 (is_receipt_spec _ _ _) Hi), bool_decide_true.
  - intros x [Hx _]%andb_true_iff. by rewrite Hrow.
Qed.
(** Recording an outcome of a claimed receipt succeeds. *)
Lemma finish_running_run i s p oid revision error : claimed i s -> p <> PHASE_RUNNING ->
  (forall z, revision = Some z -> exists z', Sqlite.int64 z = Ok z') ->
  _finish_running pid (receipt_id i) p oid revision error s =
    (put_outcome i (outcome p oid revision error i) s, Ok (outcome p oid revision error i)).
Proof.
  intros Hc Hp Hz. pose proof Hc as [Hs Ha Hr Hph Hid]. destruct s as [t a]. cbn in Hs, Ha, Hr. subst a.
  unfold _finish_running. rewrite (lift_run _ _ _ tt) by by rewrite Hid. apply transaction_run.
  unfold sbind at 1, sget. rewrite Hr. rewrite decide_False by congruence. rewrite Hph. cbn [negb].
  rewrite bool_decide_true by done. cbn [negb].
  assert (update_where (fun j => is_receipt pid (receipt_id i) j && bool_decide (phase j = PHASE_RUNNING))
            (outcome p oid revision error) (intents t)
          = update_where (fun j => is_receipt pid (receipt_id i) j && bool_decide (phase j = PHASE_RUNNING))
            (fun _ => outcome p oid revision error i) (intents t)) as Hu.
  { apply update_where_ext. intros x Hx [Hx' _]%andb_true_iff. by rewrite (receipt_row_unique _ _ _ _ _ Hs Hr Hx Hx'). }
  pose proof (put_outcome_row i (outcome p oid revision error i) (MkStore t []) Hc) as Hrow.
  unfold put_outcome in Hrow. cbn [tables] in Hrow. unfold sbind at 1. unfold sbind at 1, slift at 1.
  assert ((match revision with Some z => let* _ := Sqlite.int64 z in Ok tt | None => Ok tt end) = Ok tt) as ->.
  { destruct revision as [z|]; [|done]. destruct (Hz z eq_refl) as [z' ->]. done. }
  unfold sput. unfold slift. rewrite Hu, Hrow; [cbn; by rewrite bool_decide_true|].
  apply is_receipt_spec. by apply receipt_row_spec in Hr as (_ & ? & _).
Qed.
Lemma transaction_raise {A} (m : st Tables A) t s e : _transaction m (MkStore t []) = (s, Raise e) -> s = MkStore t [].
Proof.
  unfold _transaction, sbind, sget, _assert_path, smodify. cbn. destruct (m t) as [t' [a|e']]; [discriminate|].
  unfold sraise. congruence.
Qed.
Lemma read_run id t : fm RECEIPT id = true -> FastReceipts.read pid id (MkStore t []) = (MkStore t [], Ok (receipt_row pid id t)).
Proof. intros H. unfold FastReceipts.read. by rewrite (lift_run _ _ _ tt) by by rewrite H. Qed.
Lemma store_eta s : answers s = [] -> s = MkStore (tables s) [].
Proof. destruct s as [t a]. cbn. by intros ->. Qed.
Lemma finish_running_raise id p oid revision error s s' e : answers s = [] ->
  _finish_running pid id p oid revision error s = (s', Raise e) -> s' = s.
Proof.
  intros Ha E. rewrite (store_eta s Ha) in *. unfold _finish_running, sbind at 1, slift at 1 in E.
  destruct (raise_if _ _) as [[]|e']; [by apply transaction_raise in E | congruence].
Qed.
Definition completed (i : Intent) (oid : string) : Intent :=
  outcome PHASE_LOCAL (Some oid) (Some (expected_revision i + 1)) None i.
Lemma finish_local_cases i oid z s : claimed i s ->
  let m := _finish_running pid (receipt_id i) PHASE_LOCAL (Some oid) (Some z) None s in
  (exists e, m = (s, Raise e)) \/
  m = (put_outcome i (outcome PHASE_LOCAL (Some oid) (Some z) None i) s, Ok (outcome PHASE_LOCAL (Some oid) (Some z) None i)).
Proof.
  intros Hc m. destruct (Sqlite.int64 z) as [z'|e'] eqn:Hz.
  { right. apply (finish_running_run i s PHASE_LOCAL (Some oid) (Some z) None Hc); [done|]. intros ? [= <-]. by exists z'. }
  left. destruct m as [s' [row|e]] eqn:E; subst m.
  2:{ exists e. f_equal. by eapply finish_running_raise; [apply (cl_answers _ _ Hc)|]. }
  exfalso. apply sbind_Ok_inv in E as ([] & s1 & E1 & E). apply slift_Ok_inv in E1 as [-> _]. apply store_transaction_Ok in E.
  apply sbind_Ok_inv in E as (t & s1 & E1 & E). injection E1 as <- <-. rewrite (cl_row _ _ Hc) in E.
  rewrite decide_False in E by by rewrite (cl_running _ _ Hc). rewrite (cl_running _ _ Hc) in E.
  apply sbind_Ok_inv in E as ([] & s1 & E1 & _). apply sbind_Ok_inv in E1 as ([] & s2 & E1 & _).
  apply slift_Ok_inv in E1 as [_ E1]. by rewrite Hz in E1.
Qed.
Lemma record_local_cases i oid z s : claimed i s ->
  let m := record_local_commit pid (receipt_id i) oid z s in
  (exists e, m = (s, Raise e)) \/
  z = expected_revision i + 1 /\ m = (put_outcome i (completed i oid) s, Ok (completed i oid)).
Proof.
  intros Hc m. destruct m as [s' r] eqn:E. unfold m, record_local_commit, sbind at 1, slift at 1 in E. clear m.
  destruct (raise_if _ _) as [[]|e]; [|left; exists e; congruence].
  pose proof (read_run (receipt_id i) (tables s) (cl_id _ _ Hc)) as Hr.
  rewrite <- (store_eta s (cl_answers _ _ Hc)), (cl_row _ _ Hc) in Hr.
  unfold sbind at 1 in E. rewrite Hr in E. unfold sbind at 1, slift at 1 in E.
  destruct (raise_if _ _) as [[]|e] eqn:Ez; [|left; exists e; congruence].
  apply raise_if_Ok, negb_false_iff, Z.eqb_eq in Ez. subst z. rewrite <- E.
  destruct (finish_local_cases i oid (expected_revision i + 1) s Hc) as [[e He]|He]; rewrite He; [left; by exists e|].
  by right.
Qed.
(** How a claimed receipt [i] may be settled. *)
Inductive settles (i : Intent) : Intent -> Prop :=
  (** a commit was verified to be exactly what was asked *)
  | settles_completed oid r r' : verify_local_commit i oid r = (r', Ok (expected_revision i + 1)) ->
      settles i (completed i oid)
  (** no commit carries the receipt *)
  | settles_rejected r r' : find_receipt_commit (receipt_id i) r = (r', Ok None) ->
      settles i (outcome PHASE_REJECTED None None (Some "ADMISSION_REJECTED") i)
  (** what happened is not known *)
  | settles_ambiguous code : settles i (outcome PHASE_AMBIGUOUS None None (Some code) i).
(** The operation records in the store how it settled the receipt. *)
Definition settling (i : Intent) (m : st World Intent) : Prop := forall w, claimed i (w_store w) ->
  exists w' row, m w = (w', Ok row) /\ settles i row /\ w_store w' = put_outcome i row (w_store w).
Lemma settle_commit_cases i oid w : claimed i (w_store w) ->
  exists w' r, settle_commit pid i oid w = (w', r) /\
    match r with
    | Raise _ => w_store w' = w_store w
    | Ok row => settles i row /\ w_store w' = put_outcome i row (w_store w)
    end.
Proof.
  intros Hc. unfold settle_commit, sbind, on_repo. destruct (verify_local_commit i oid (w_repo w)) as [r' [z|e]] eqn:Ev;
    [|by eexists _, _].
  unfold on_store. cbn [w_store w_repo w_clock w_ids w_executed].
  destruct (record_local_cases i oid z (w_store w) Hc) as [[e He]|[Hz He]]; rewrite He; eexists _, _; split; try done.
  subst z. split; [by econstructor | done].
Qed.
Lemma ambiguity_settles i code : fm TOKEN code = true -> settling i (on_store (record_ambiguity pid (receipt_id i) code)).
Proof.
  intros Ht w Hc. unfold on_store, record_ambiguity. rewrite (lift_run _ _ _ tt) by by rewrite Ht.
  rewrite (finish_running_run i _ PHASE_AMBIGUOUS None None (Some code) Hc) by done.
  eexists _, _. split; [done|]. split; [constructor | done].
Qed.
Lemma rejection_settles i w : claimed i (w_store w) -> (exists r r', find_receipt_commit (receipt_id i) r = (r', Ok None)) ->
  exists w' row, on_store (record_rejection pid (receipt_id i) "ADMISSION_REJECTED") w = (w', Ok row) /\
    settles i row /\ w_store w' = put_outcome i row (w_store w).
Proof.
  intros Hc (r & r' & Hf). unfold on_store, record_rejection. rewrite (lift_run _ _ _ tt) by done.
  rewrite (finish_running_run i _ PHASE_REJECTED None None (Some "ADMISSION_REJECTED") Hc) by done.
  eexists _, _. split; [done|]. split; [by econstructor | done].
Qed.
(** Look for a commit with the receipt; without one, go on. *)
Definition look (i : Intent) : st World (option Intent) :=
  do* recovered := on_repo (find_receipt_commit (receipt_id i)) in
  match recovered with
  | Some oid => do* row := settle_commit pid i oid in sret (Some row)
  | None => sret None
  end.
Lemma look_cases i w : claimed i (w_store w) ->
  exists w' r, look i w = (w', r) /\
    match r with
    | Raise _ => w_store w' = w_store w
    | Ok None => w_store w' = w_store w /\ exists r r', find_receipt_commit (receipt_id i) r = (r', Ok None)
    | Ok (Some row) => settles i row /\ w_store w' = put_outcome i row (w_store w)
    end.
Proof.
  intros Hc. unfold look, sbind at 1, on_repo.
  destruct (find_receipt_commit (receipt_id i) (w_repo w)) as [r' [[oid|]|e]] eqn:Ef; [| |by eexists _, _].
  - destruct (settle_commit_cases i oid (MkWorld r' (w_store w) (w_clock w) (w_ids w) (w_executed w)) Hc) as (w' & r & E & Hr).
    unfold sbind. rewrite E. destruct r as [row|e]; by eexists _, _.
  - eexists _, _. split; [done|]. split; [done|]. by exists (w_repo w), r'.
Qed.
Lemma settle_error_settles i e : settling i (settle_error pid i e).
Proof.
  intros w Hc. change (settle_error pid i e) with (do* found := attempt (look i) in
    match found with
    | Raise _ => on_store (record_ambiguity pid (receipt_id i) "COMMIT_EVIDENCE_UNKNOWN")
    | Ok (Some row) => sret row
    | Ok None =>
        if existsb (fun text => PyStr.contains text (exn_msg e)) REJECTABLE
        then on_store (record_rejection pid (receipt_id i) "ADMISSION_REJECTED")
        else on_store (record_ambiguity pid (receipt_id i) "MUTATION_OUTCOME_UNKNOWN")
    end). unfold sbind, attempt.
  destruct (look_cases i w Hc) as (w1 & [[row|]|e'] & E & Hr); rewrite E.
  - eexists w1, row. split; [done|]. exact Hr.
  - destruct Hr as [Hw Hf]. rewrite <- Hw in *. destruct (existsb _ _).
    + by apply rejection_settles.
    + by apply ambiguity_settles.
  - rewrite <- Hr in *. by apply ambiguity_settles.
Qed.
Lemma recover_one_settles i : settling i (recover_one pid i).
Proof.
  intros w Hc. change (recover_one pid i) with (do* found := attempt (look i) in
    match found with
    | Raise _ => on_store (record_ambiguity pid (receipt_id i) "COMMIT_EVIDENCE_UNKNOWN")
    | Ok (Some row) => sret row
    | Ok None => on_store (record_ambiguity pid (receipt_id i) "INTERRUPTED_BEFORE_COMMIT")
    end). unfold sbind, attempt.
  destruct (look_cases i w Hc) as (w1 & [[row|]|e'] & E & Hr); rewrite E.
  - eexists w1, row. split; [done|]. exact Hr.
  - destruct Hr as [Hw _]. rewrite <- Hw in *. by apply ambiguity_settles.
  - rewrite <- Hr in *. by apply ambiguity_settles.
Qed.
Lemma execute_store i w : w_store (fst (execute i w)) = w_store w.
Proof.
  unfold execute. unfold sbind at 1, slift. destruct (_validated_intent i) as [payload|e]; [|done].
  unfold sbind at 1. destruct (let* v := item payload "operation" in Ok (str v)) as [operation|e]; [|done].
  unfold sbind at 1. destruct (arguments i payload operation) as [args|e]; [|done].
  unfold sbind, executed, smodify, on_repo. cbn [w_repo w_store w_clock w_ids w_executed]. by destruct (core_mutate _ _ _).
Qed.
Lemma work_settles i : settling i (catch (do* oid := execute i in settle_commit pid i oid) (settle_error pid i)).
Proof.
  intros w Hc. unfold catch, sbind at 1, attempt, sbind at 1.
  pose proof (execute_store i w) as Hw. destruct (execute i w) as [w1 [oid|e]]; cbn in Hw.
  - rewrite <- Hw in *. destruct (settle_commit_cases i oid w1 Hc) as (w2 & [row|e] & E & Hr); rewrite E.
    + by exists w2, row.
    + rewrite <- Hr in *. by apply settle_error_settles.
  - rewrite <- Hw in *. by apply settle_error_settles.
Qed.
Lemma claim_store i now t : sound t -> fm RECEIPT (receipt_id i) = true -> next_queued pid t = Some i ->
  exists s, claim_next pid now (MkStore t []) = (s, Ok (Some (start_running now i))) /\ claimed (start_running now i) s.
Proof.
  intros Hs Hid Hq. destruct (claim_next_run pid now t i Hs Hq) as [Hr E]. eexists. split; [exact E|]. split; try done.
  pose proof (claim_next_sound (Q := any) pid now (MkStore t [])) as Hc. rewrite E in Hc. by apply (ch_sound _ _ Hc).
Qed.

(** C13: A claimed receipt is settled.  When the store is in place and its path
    checks pass, one run of the executor takes the oldest queued receipt and
    returns with its outcome recorded, whatever the coordinator and Git answer
    or raise: completed only by a commit that was verified to be the change the
    receipt asks for, at the revision after the expected one; rejected only
    when no commit carries the receipt; and otherwise ambiguous. *)
Theorem process_one_settles w r q :
  rtc (store_step pid) empty (tables (w_store w)) -> answers (w_store w) = [] ->
  _require_bound_store pid (w_repo w) = (r, Ok tt) ->
  next_queued pid (tables (w_store w)) = Some q -> fm RECEIPT (receipt_id q) = true ->
  exists now row w', process_one pid w = (w', Ok (Some row)) /\ settles (start_running now q) row /\
    receipt_row pid (receipt_id q) (tables (w_store w')) = Some row.
Proof.
  intros Hs%reachable_sound Ha Hb Hq Hid. unfold process_one. unfold sbind at 1, on_repo. rewrite Hb.
  cbn [w_repo w_store w_clock w_ids w_executed]. unfold sbind at 1.
  set (w1 := MkWorld r (w_store w) (w_clock w) (w_ids w) (w_executed w)).
  assert (exists now w2, tick w1 = (w2, Ok now) /\ w_store w2 = w_store w) as (now & w2 & Et & Hw).
  { unfold tick. destruct (w_clock w1); by eexists _, _. }
  rewrite Et. destruct (claim_store q now (tables (w_store w)) Hs Hid Hq) as (s & Ec & Hc).
  rewrite <- (store_eta _ Ha) in Ec. unfold sbind at 1, on_store at 1. rewrite Hw, Ec. unfold sbind at 1.
  destruct (work_settles (start_running now q) (with_store w2 s) Hc) as (w' & row & E & Hset & Hput).
  change (MkWorld _ s _ _ _) with (with_store w2 s). rewrite E. exists now, row, w'. split; [done|]. split; [done|].
  rewrite Hput. apply (put_outcome_row (start_running now q) row s Hc).
  apply is_receipt_spec.
  pose proof (receipt_row_spec _ _ _ _ (cl_row _ _ Hc)) as (_ & Hp & _). by destruct Hset.
Qed.

(** ** Recovery *)
(** The running receipts of the project are among [l]. *)
Definition running_among (l : list Intent) (s : Store) : Prop :=
  forall i, i ∈ intents (tables s) -> project i = pid -> phase i = PHASE_RUNNING -> i ∈ l.
Lemma settles_phase i row : settles i row -> phase row <> PHASE_RUNNING.
Proof. by destruct 1. Qed.
Lemma settles_same i row : settles i row -> project row = project i /\ receipt_id row = receipt_id i.
Proof. by destruct 1. Qed.
Lemma put_outcome_running i l row s : claimed i s -> settles i row -> running_among (i :: l) s ->
  running_among l (put_outcome i row s).
Proof.
  intros Hc Hset Hl j Hj Hp Hph. apply list_elem_of_lookup_1 in Hj as [k Hk]. unfold put_outcome in Hk. cbn in Hk.
  rewrite update_where_lookup in Hk. destruct (intents (tables s) !! k) as [x|] eqn:Ex; [|discriminate].
  apply list_elem_of_lookup_2 in Ex. cbn in Hk. destruct (_ && _) eqn:E; injection Hk as <-.
  - by apply settles_phase in Hset.
  - pose proof (Hl x Ex Hp Hph) as [Hx|Hx]%elem_of_cons; [subst x|done].
    rewrite (proj2 (is_receipt_spec _ _ _) (conj Hp eq_refl)), bool_decide_true in E by done. discriminate.
Qed.
Lemma put_outcome_other i j row s : claimed i s -> claimed j s -> receipt_id i <> receipt_id j -> settles i row ->
  receipt_row pid (receipt_id j) (tables (put_outcome i row s)) = Some j.
Proof.
  intros Hi Hj Hne [Hrp Hri]%settles_same. pose proof (cl_row _ _ Hj) as Hr.
  unfold receipt_row, put_outcome in *. cbn. rewrite find_update_where.
  - rewrite Hr. cbn. destruct (is_receipt pid (receipt_id i) j) eqn:E; [|done].
    apply is_receipt_spec in E as [_ E]. congruence.
  - intros x [[H1 H2]%is_receipt_spec _]%andb_true_iff. unfold is_receipt, mine. rewrite Hrp, Hri, H2.
    by rewrite (proj2 (String.eqb_neq _ _) Hne), !andb_false_r.
Qed.
Lemma worker_steps_sound c c' : rtc (worker_step pid) c c' -> sound (tables (w_store c.1)) -> sound (tables (w_store c'.1)).
Proof.
  induction 1 as [|c1 c2 c3 Hs _ IH]; [done|]. intros Hsound. apply IH. clear IH.
  destruct Hs as [w l now s i E | w l id | w l id | w l l' Hl | w l o | w l w' Ht He]; cbn in *; try done.
  - pose proof (claim_next_sound (Q := any) pid now (w_store w)) as Hc. rewrite E in Hc. by apply (ch_sound _ _ Hc).
  - by apply (ch_sound _ _ (perform_change (Q := any) pid o (w_store w) ltac:(by destruct o))).
  - by rewrite Ht.
Qed.
Lemma recover_all_settles l w : Forall (fun i => claimed i (w_store w)) l -> NoDup (map receipt_id l) ->
  running_among l (w_store w) ->
  exists w' rows, recover_all pid l w = (w', Ok rows) /\ Forall2 settles l rows /\ running_among [] (w_store w').
Proof.
  revert w. induction l as [|i l IH]; intros w Hl Hn Hr; [by exists w, []|].
  apply Forall_cons in Hl as [Hi Hl]. cbn in Hn. apply NoDup_cons in Hn as [Hni Hn].
  destruct (recover_one_settles i w Hi) as (w1 & row & E & Hset & Hw).
  assert (sound (tables (w_store w1))) as Hs.
  { pose proof (recover_one_steps pid i w []) as H. rewrite E in H. apply (worker_steps_sound _ _ H), (cl_sound _ _ Hi). }
  destruct (IH w1) as (w' & rows & E' & Hrows & Hend).
  - rewrite Forall_forall in Hl |- *. intros j Hj. pose proof (Hl j Hj) as Hcj. destruct Hcj as [_ _ _ Hp Hid].
    split; try done; rewrite Hw; [done|]. apply put_outcome_other; auto.
    intros He. apply Hni. rewrite He. by apply list_elem_of_fmap_2.
  - done.
  - rewrite Hw. by apply put_outcome_running.
  - exists w', (row :: rows). cbn [recover_all]. unfold sbind at 1. rewrite E. unfold sbind. rewrite E'.
    split; [done|]. split; [by constructor | done].
Qed.

Lemma query_run {A} (f : Tables -> A) s : answers s = [] -> query f s = (s, Ok (f (tables s))).
Proof. intros H. by rewrite (store_eta s H). Qed.

(** Recovery leaves nothing running.  After an interruption, when the store is
    in place and its path checks pass, recovery returns with an outcome recorded
    for every receipt that was running: the commit it left, if one was verified,
    and otherwise ambiguous; and no receipt of the project is running. *)
Theorem recovery_settles_all w r :
  rtc (store_step pid) empty (tables (w_store w)) -> answers (w_store w) = [] ->
  _require_bound_store pid (w_repo w) = (r, Ok tt) ->
  Forall (fun i => fm RECEIPT (receipt_id i) = true) (intents (tables (w_store w))) ->
  exists w' rows, recover_running pid w = (w', Ok rows) /\
    Forall2 settles (sort_by started_before (List.filter (in_phase pid PHASE_RUNNING) (intents (tables (w_store w))))) rows /\
    forall i, i ∈ intents (tables (w_store w')) -> project i = pid -> phase i <> PHASE_RUNNING.
Proof.
  intros Hs%reachable_sound Ha Hb Hid. unfold recover_running. unfold sbind at 1, on_repo. rewrite Hb.
  cbn [w_repo w_store w_clock w_ids w_executed]. unfold sbind at 1, on_store, running.
  cbn [w_repo w_store w_clock w_ids w_executed]. rewrite query_run by done.
  set (l := sort_by started_before (List.filter (in_phase pid PHASE_RUNNING) (intents (tables (w_store w))))).
  assert (forall i, i ∈ l <-> i ∈ intents (tables (w_store w)) /\ project i = pid /\ phase i = PHASE_RUNNING) as Hl.
  { intros i. unfold l. rewrite sort_by_elem, !list_elem_of_In, filter_In. unfold in_phase, mine.
    by rewrite andb_true_iff, String.eqb_eq, bool_decide_eq_true. }
  destruct (recover_all_settles l (MkWorld r (w_store w) (w_clock w) (w_ids w) (w_executed w))) as (w' & rows & E & H1 & H2).
  - rewrite Forall_forall in Hid |- *. intros i (Hi & Hp & Hph)%Hl. split; try done; cbn; [|by apply Hid].
    by apply receipt_row_elem.
  - apply sort_by_NoDup, NoDup_map_filter, (so_ids _ Hs).
  - intros i Hi Hp Hph. by apply Hl.
  - exists w', rows. split; [exact E|]. split; [done|]. intros i Hi Hp Hph.
    specialize (H2 i Hi Hp Hph). by apply elem_of_nil in H2.
Qed.
End settling.

(** ** What a verified commit is *)
Definition fields_of (operation : string) : list string :=
  if String.eqb operation "heartbeat" then HEARTBEAT_FIELDS
  else if String.eqb operation "claim" then CLAIM_FIELDS
  else if String.eqb operation "update" then UPDATE_FIELDS
  else PROMOTE_FIELDS.
(** The file a commit of the operation changes besides the task and its views *)
Definition sidecars_of (i : Intent) : list string :=
  if String.eqb (operation i) "update" then ["sessions/" +:+ task_id i +:+ ".jsonl"] else [].
Section exact.
  Context `{C : Core}.
(** What every delta requires of the task before and after. *)
Record exact_change (i : Intent) (fields : list string) (before : Meta) (before_body : string) (after : Meta)
    (after_body : string) : Prop := ExactChange {
  ec_from : eq (get before "task_revision") (VInt (expected_revision i)) = true;
  ec_to : eq (get after "task_revision") (VInt (expected_revision i + 1)) = true;
  ec_id : get before "id" = VStr (task_id i) /\ get after "id" = VStr (task_id i);
  ec_fields : NoDup (keys before) -> forall k, PyStr.mem k fields = false -> same_entry (dget before k) (dget after k);
  ec_body : exists text at_, after_body = _transition_note before_body text at_;
}.
Lemma check_stable_fields fields what before after u : check_stable fields what before after = Ok u ->
  NoDup (keys before) -> forall k, PyStr.mem k fields = false -> same_entry (dget before k) (dget after k).
Proof.
  intros H%raise_if_Ok%ne_false Hn k Hk. unfold stable in H.
  apply (eq_dict_lookup _ _ k) in H; [|by apply keys_filter_NoDup].
  rewrite !(dget_filter_keys (fun j => negb (PyStr.mem j fields))) in H. by rewrite Hk in H.
Qed.
Lemma check_body_text text at_ what before_body after_body u : check_body text at_ what before_body after_body = Ok u ->
  exists text at_, after_body = _transition_note before_body text at_.
Proof. intros H%raise_if_Ok%negb_false_iff%String.eqb_eq. eauto. Qed.
Ltac delta :=
  match goal with
  | H : rbind _ _ = Ok _ |- _ => apply rbind_Ok_inv in H as (? & ? & ?)
  | H : raise_if (_ || _) _ = Ok _ |- _ => apply raise_if_Ok in H; rewrite !orb_false_iff, !ne_false in H; decompose [and] H; clear H
  | H : check_stable _ _ _ _ = Ok _ |- _ => pose proof (check_stable_fields _ _ _ _ _ H); clear H
  | H : check_body _ _ _ _ _ = Ok _ |- _ => pose proof (check_body_text _ _ _ _ _ _ H); clear H
  | H : Ok _ = Ok _ |- _ => apply Ok_inj in H; subst
  end.
Ltac exact_delta := repeat delta; split; [done|]; split; [done | done | | done | done]; split; by apply eq_str.
Lemma heartbeat_exact i payload before bb after ab z : heartbeat_delta i payload before bb after ab = Ok z ->
  z = expected_revision i + 1 /\ exact_change i HEARTBEAT_FIELDS before bb after ab.
Proof. intros E. unfold heartbeat_delta in E. exact_delta. Qed.
Lemma promote_exact i payload before bb after ab z : promote_delta i payload before bb after ab = Ok z ->
  z = expected_revision i + 1 /\ exact_change i PROMOTE_FIELDS before bb after ab.
Proof. intros E. unfold promote_delta in E. exact_delta. Qed.
Lemma claim_exact i payload before bb after ab z : claim_delta i payload before bb after ab = Ok z ->
  z = expected_revision i + 1 /\ exact_change i CLAIM_FIELDS before bb after ab.
Proof. intros E. unfold claim_delta in E. exact_delta. Qed.
Lemma update_exact i payload before bb after ab z : update_delta i payload before bb after ab = Ok z ->
  z = expected_revision i + 1 /\ exact_change i UPDATE_FIELDS before bb after ab.
Proof. intros E. unfold update_delta in E. destruct (get payload "changes"); try discriminate. exact_delta. Qed.

(** Computations that read the repository and leave it as it is. *)
Definition reading {A} (m : st repo A) : Prop := forall r, fst (m r) = r.
(** The subcommands of Git with which a commit is verified.  Git documents them
    as queries of the object database and of references. *)
Definition QUERIES : list string := ["merge-base"; "log"; "diff-tree"; "rev-parse"; "show"; "ls-tree"].
Definition queries_read : Prop := forall subcommand args strict (r : repo), subcommand ∈ QUERIES ->
  fst (core_run (["git"; "-C"; ROOT; subcommand] ++ args) strict r) = r.
Section reads.
Context (reads : queries_read).
Lemma reading_sret {A} (a : A) : reading (sret a).
Proof. done. Qed.
Lemma reading_sraise {A} e : reading (@sraise repo A e).
Proof. done. Qed.
Lemma reading_lift {A} (f : repo -> res A) : reading (slift f).
Proof. done. Qed.
Lemma reading_bind {A B} (m : st repo A) (f : A -> st repo B) : reading m -> (forall a, reading (f a)) -> reading (sbind m f).
Proof. intros Hm Hf r. unfold sbind. pose proof (Hm r) as H. destruct (m r) as [r' [a|e]]; cbn in *; subst; [apply Hf | done]. Qed.
Lemma reading_git subcommand args strict : PyStr.mem subcommand QUERIES = true -> reading (_git (subcommand :: args) strict).
Proof using reads.
  intros H%PyStr.mem_spec. apply reading_bind; [intros r; by apply (reads subcommand args) | intros a; apply reading_sret].
Qed.
Lemma reading_inv {A B} (m : st repo A) (f : A -> st repo B) r r' b : reading m -> sbind m f r = (r', Ok b) ->
  exists a, m r = (r, Ok a) /\ f a r = (r', Ok b).
Proof.
  intros Hm (a & r1 & E1 & E)%sbind_Ok_inv. pose proof (Hm r) as H. rewrite E1 in H. cbn in H. subst r1. by exists a.
Qed.
Lemma reading_record oid path : reading (_task_record oid path).
Proof using reads. apply reading_bind; [by apply reading_git | intros a; apply reading_lift]. Qed.
Lemma reading_records oid names : reading (records_at oid names).
Proof using reads.
  induction names as [|n names IH]; cbn [records_at]; [apply reading_sret|]. destruct (_ && _); [|done].
  apply reading_bind; [apply reading_record | intros a]. apply reading_bind; [done | intros b; apply reading_sret].
Qed.
Lemma reading_views oid : reading (_task_views oid).
Proof using reads.
  repeat (apply reading_bind; [by apply reading_git || apply reading_records || apply reading_lift | intros ?]).
  destruct (truthy _); [apply reading_bind; [apply reading_lift | intros ?]|]; apply reading_sret.
Qed.
Lemma reading_check_views oid views : reading (check_views oid views).
Proof using reads.
  induction views as [|[p e] views IH]; cbn [check_views]; [apply reading_sret|].
  apply reading_bind; [by apply reading_git | intros ?]. apply reading_bind; [apply reading_lift | done].
Qed.
Lemma check_views_inv oid views r r' : check_views oid views r = (r', Ok tt) ->
  Forall (fun v => exists found, _git ["show"; oid +:+ ":" +:+ v.1] false r = (r, Ok found) /\ v.2 = VStr found) views.
Proof using reads.
  induction views as [|[p e] views IH]; [constructor|]. cbn [check_views]. intros E.
  apply reading_inv in E as (found & E1 & E); [|by apply reading_git].
  apply reading_inv in E as ([] & E2 & E); [|apply reading_lift].
  apply slift_Ok_inv in E2 as [_ E2%raise_if_Ok%ne_false%eq_str_l]. constructor; [by exists found | by apply IH].
Qed.
(** A path a commit may change besides the file of the task: a file of the
    operation, or a view by its name and by being rendered before or after. *)
Definition accompanies (sidecars : list string) (before_views views : dict) (p : string) : Prop :=
  p ∈ sidecars \/
  ((p = "CURRENT.md" \/ p = "STATUS.md" \/ PyStr.startswith "status/STATUS-" p = true) /\ (p ∈ keys before_views \/ p ∈ keys views)).
(** The file of a task before and after a commit, and all else it changes. *)
Definition task_changed (r : repo) (oid task : string) (sidecars : list string) (before : Meta) (before_body : string)
    (after : Meta) (after_body : string) : Prop :=
  exists listing path parent old_views views,
    _git ["diff-tree"; "--no-commit-id"; "--name-only"; "-r"; oid] true r = (r, Ok listing) /\
    List.filter (is_task_path task) (splitlines listing) = [path] /\
    Forall (fun p => p = path \/ accompanies sidecars old_views views p) (splitlines listing) /\
    _git ["rev-parse"; oid +:+ "^"] true r = (r, Ok parent) /\
    _task_record (PyStr.strip parent) path r = (r, Ok (before, before_body)) /\ _task_record oid path r = (r, Ok (after, after_body)) /\
    _task_views (PyStr.strip parent) r = (r, Ok old_views) /\ _task_views oid r = (r, Ok views) /\
    Forall (fun v => exists found, _git ["show"; oid +:+ ":" +:+ v.1] false r = (r, Ok found) /\ v.2 = VStr found) views.
Lemma path_accompanies sidecars old_views views path paths :
  let projections := List.filter (fun p => negb (String.eqb p path)) paths in
  existsb (fun p => negb (PyStr.mem p sidecars) && negb (PyStr.mem p ["CURRENT.md"; "STATUS.md"])
                    && negb (PyStr.startswith "status/STATUS-" p)) projections = false ->
  forallb (fun p => has old_views p || has views p || PyStr.mem p sidecars) projections = true ->
  Forall (fun p => p = path \/ accompanies sidecars old_views views p) paths.
Proof using Type.
  intros projections Hn Hv. rewrite forallb_forall in Hv. apply list.Forall_forall. intros p Hp.
  destruct (String.eqb_spec p path) as [->|Hne]; [by left | right].
  assert (In p projections) as Hin by (apply filter_In; split; [by apply list_elem_of_In | by apply negb_true_iff, String.eqb_neq]).
  specialize (Hv p Hin). unfold accompanies. destruct (PyStr.mem p sidecars) eqn:Es; [left; by apply PyStr.mem_spec | right].
  rewrite orb_false_r in Hv. apply orb_true_iff in Hv. rewrite !has_elem in Hv. split; [|done].
  destruct (negb (PyStr.mem p sidecars) && negb (PyStr.mem p ["CURRENT.md"; "STATUS.md"]) && negb (PyStr.startswith "status/STATUS-" p)) eqn:E.
  - assert (existsb (fun p => negb (PyStr.mem p sidecars) && negb (PyStr.mem p ["CURRENT.md"; "STATUS.md"])
                    && negb (PyStr.startswith "status/STATUS-" p)) projections = true) as Hx by (apply existsb_exists; by exists p).
    congruence.
  - rewrite Es in E. cbn [negb andb] in E. apply andb_false_iff in E as [E%negb_false_iff|E%negb_false_iff]; [|by auto].
    apply PyStr.mem_spec in E. apply elem_of_cons in E as [->|E%list_elem_of_singleton]; auto.
Qed.
Lemma task_change_inv oid task sidecars r r' before bb after ab :
  _task_change oid task sidecars r = (r', Ok (before, bb, after, ab)) -> task_changed r oid task sidecars before bb after ab.
Proof using reads.
  intros (listing & E1 & E)%reading_inv; [|by apply reading_git]. cbv zeta in E.
  destruct (List.filter (is_task_path task) _) as [|path [|]] eqn:Ef; try discriminate.
  apply reading_inv in E as ([] & H1 & E); [|apply reading_lift].
  apply reading_inv in E as (parent & E2 & E); [|by apply reading_git].
  apply reading_inv in E as ([] & _ & E); [|apply reading_lift].
  apply reading_inv in E as ([b1 b2] & E3 & E); [|apply reading_record].
  apply reading_inv in E as ([a1 a2] & E4 & E); [|apply reading_record].
  apply reading_inv in E as (v1 & E5 & E); [|apply reading_views].
  apply reading_inv in E as (v2 & E6 & E); [|apply reading_views].
  apply reading_inv in E as ([] & H2 & E); [|apply reading_lift].
  apply reading_inv in E as ([] & H3%check_views_inv & E); [|apply reading_check_views].
  apply sbind_Ok_inv in E as ([] & r3 & _ & E). apply sret_Ok_inv in E as [_ E]. injection E as -> -> -> ->.
  exists listing, path, parent, v1, v2. split_and!; try done. apply slift_Ok_inv in H1 as [_ H1%raise_if_Ok].
  apply slift_Ok_inv in H2 as [_ H2%raise_if_Ok%negb_false_iff]. by eapply path_accompanies.
Qed.
Lemma change_of_inv i oid sidecars delta r r' c : change_of i oid sidecars delta r = (r', Ok c) ->
  exists before bb after ab, _task_change oid (task_id i) sidecars r = (fst (_task_change oid (task_id i) sidecars r),
    Ok (before, bb, after, ab)) /\ delta before bb after ab = Ok c.1.
Proof using Type.
  intros ([[[before bb] after] ab] & r1 & E1 & E)%sbind_Ok_inv. apply sbind_Ok_inv in E as (z & r2 & E2 & E).
  apply slift_Ok_inv in E2 as [-> E2]. apply sret_Ok_inv in E as [-> ->]. exists before, bb, after, ab. by rewrite E1.
Qed.
Lemma operation_delta_inv i payload oid r r' z : _verify_operation_delta (operation i) i payload oid r = (r', Ok z) ->
  exists before bb after ab,
    _task_change oid (task_id i) (sidecars_of i) r = (fst (_task_change oid (task_id i) (sidecars_of i) r), Ok (before, bb, after, ab)) /\
    z = expected_revision i + 1 /\ exact_change i (fields_of (operation i)) before bb after ab.
Proof using Type.
  unfold _verify_operation_delta, fields_of, sidecars_of. intros E.
  destruct (String.eqb_spec (operation i) "heartbeat") as [Eo|_];
    [rewrite Eo|destruct (String.eqb_spec (operation i) "claim") as [Eo|_]; [rewrite Eo|destruct (String.eqb (operation i) "update")]];
    apply sbind_Ok_inv in E as (c & r1 & (before & bb & after & ab & E1 & E2)%change_of_inv & E);
    exists before, bb, after, ab; (split; [exact E1|]).
  - apply sret_Ok_inv in E as [_ ->]. by apply heartbeat_exact in E2.
  - apply sret_Ok_inv in E as [_ ->]. by apply claim_exact in E2.
  - apply sbind_Ok_inv in E as ([] & r2 & _ & E). apply sret_Ok_inv in E as [_ ->]. by apply update_exact in E2.
  - apply sret_Ok_inv in E as [_ ->]. by apply promote_exact in E2.
Qed.
End reads.

End exact.

(** ** A sample repository *)
Module Sample.
Definition task_text (status at_ : string) (revision : Z) (body : string) : string :=
  "---" +:+ lf +:+ PyJson.dumps (VDict [("id", VStr "AR-1"); ("status", VStr status); ("task_revision", VInt revision);
                                       ("updated_at", VStr at_)]) +:+ lf +:+ "---" +:+ lf +:+ body.
Definition note (body text at_ : string) : string := body +:+ at_ +:+ " " +:+ text +:+ lf.
Definition before : string := task_text "planned" "t0" 3 "body".
Definition after : string := task_text "open" "t1" 4 (note "body" "ready" "t1").
(** What Git answers, by the command after [git -C root]. *)
Definition git : list (string * string) := [
  ("log -1 --format=%B " +:+ sample_oid, "chore(state): promote AR-1" +:+ lf +:+ lf +:+ marker sample_id +:+ lf);
  ("log --all --format=%H --grep " +:+ marker sample_id, sample_oid +:+ lf);
  ("diff-tree --no-commit-id --name-only -r " +:+ sample_oid, "CURRENT.md" +:+ lf +:+ "tasks/AR-1.md" +:+ lf);
  ("rev-parse " +:+ sample_oid +:+ "^", sample_base +:+ lf);
  ("show " +:+ sample_base +:+ ":tasks/AR-1.md", before);
  ("show " +:+ sample_oid +:+ ":tasks/AR-1.md", after);
  ("show " +:+ sample_oid +:+ ":CURRENT.md", "current");
  ("ls-tree -r --name-only " +:+ sample_base +:+ " tasks", "tasks/AR-1.md" +:+ lf);
  ("ls-tree -r --name-only " +:+ sample_oid +:+ " tasks", "tasks/AR-1.md" +:+ lf)].
Definition answer (command : list string) : string :=
  match List.find (fun kv => String.eqb kv.1 (PyStr.join " " (drop 3 command))) git with
  | Some kv => kv.2
  | None => ""
  end.
#[export] Instance core : Core := {|
  repo := unit;
  ROOT := "root";
  core_run := fun command _ r => (r, Ok (0, answer command));
  core_mutate := fun _ _ => sret sample_oid;
  assert_project_binding := sret tt;
  backend_selection := fun _ => Ok [("backend", VStr "git")];
  project_binding := fun _ => Ok [("project_id", VStr "p")];
  store_in_place := fun _ => Ok true;
  project_settings := fun _ => Ok [("status_view", VBool false); ("commit_signoff", VBool false)];
  replication_enabled := fun _ => Ok true;
  render_current := fun _ => Ok (VStr "current");
  render_status_views := fun _ => Ok [];
  _transition_note := note;
|}.
Definition queued : Tables := run "p" [Promote 5 sample_id "key-1" "AR-1" 3 "ready"] empty.
Definition world : World := MkWorld (C := core) tt (MkStore queued []) [7] [] [].
Definition interrupted : World := MkWorld (C := core) tt (MkStore (run "p" [ClaimNext 7] queued) []) [] [] [].
End Sample.
#[local] Existing Instance Sample.core.
Definition sample_new : World := MkWorld (C := Sample.core) tt (MkStore empty []) [] [] [].
Definition sample_queue : World :=
  with_store sample_new (perform "p" (Promote 5 sample_id "key-1" "AR-1" 3 "ready") (w_store sample_new)).
Definition sample_done : Config := (fst (process_one (C := Sample.core) "p" sample_queue), []).
Lemma executed_at_most_once_witness : w_executed sample_done.1 = [sample_id] /\ NoDup (w_executed sample_done.1).
Proof.
  split; [vm_compute; reflexivity|].
  assert (start sample_new) as Hs by (split; reflexivity).
  assert (rtc (worker_step "p") (sample_new, []) sample_done) as Hr.
  { eapply rtc_l; [apply (store_operates "p" sample_new [] (Promote 5 sample_id "key-1" "AR-1" 3 "ready"))|].
    apply (process_one_steps "p" sample_queue []). }
  exact (executed_at_most_once "p" sample_new sample_done Hs Hr).
Defined.
Definition sample_lock : st World unit := sret tt.
Lemma service_takes_steps_witness :
  rtc (worker_step "p") (Sample.world, []) (fst (process_pending "p" sample_lock 8 Sample.world), []).
Proof. exact (proj1 (service_takes_steps "p" sample_lock 8 Sample.world [] (stepwise_sret "p" tt))). Defined.
Lemma queued_reachable : rtc (store_step "p") empty Sample.queued.
Proof. unfold Sample.queued. apply run_steps. Qed.
Lemma process_one_settles_witness :
  exists w' row, process_one "p" Sample.world = (w', Ok (Some row)) /\
    receipt_row "p" sample_id (tables (w_store w')) = Some row.
Proof.
  destruct (next_queued "p" Sample.queued) as [q|] eqn:Hq; [|vm_compute in Hq; discriminate Hq].
  assert (receipt_id q = sample_id) as Hid by (vm_compute in Hq; injection Hq as <-; reflexivity).
  assert (fm RECEIPT (receipt_id q) = true) as Hf by (rewrite Hid; vm_compute; reflexivity).
  assert (_require_bound_store "p" (w_repo Sample.world) = (tt, Ok tt)) as Hb by (vm_compute; reflexivity).
  destruct (process_one_settles "p" Sample.world tt q queued_reachable eq_refl Hb Hq Hf) as (now & row & w' & E & _ & Hr).
  exists w', row. rewrite Hid in Hr. split; [exact E | exact Hr].
Defined.
Lemma forallb_Forall {A} (f : A -> bool) l : forallb f l = true -> Forall (fun x => f x = true) l.
Proof. rewrite forallb_forall, Forall_forall. intros H x Hx%list_elem_of_In. auto. Qed.
Lemma interrupted_reachable : rtc (store_step "p") empty (tables (w_store Sample.interrupted)).
Proof. etrans; [apply queued_reachable|]. unfold Sample.interrupted. cbn [w_store tables]. apply run_steps. Qed.
Lemma recovery_settles_all_witness :
  exists w' rows, recover_running "p" Sample.interrupted = (w', Ok rows) /\ length rows = 1%nat.
Proof.
  assert (Forall (fun i => fm RECEIPT (receipt_id i) = true) (intents (tables (w_store Sample.interrupted)))) as Hf.
  { apply forallb_Forall. vm_compute. reflexivity. }
  assert (_require_bound_store "p" (w_repo Sample.interrupted) = (tt, Ok tt)) as Hb by (vm_compute; reflexivity).
  destruct (recovery_settles_all "p" Sample.interrupted tt interrupted_reachable eq_refl Hb Hf) as (w' & rows & E & Hl & _).
  exists w', rows. split; [exact E|]. apply Forall2_length in Hl. rewrite <- Hl. vm_compute. reflexivity.
Defined.
Definition sample_intent : Intent := start_running 6 (MkIntent sample_id "p" "key-1" "promote" "AR-1" 3
  (PyJson.dumps (VDict [("note", VStr "ready")])) "" PHASE_QUEUED None None None None None None None 5).
End ReceiptWorkerLaws.
